(* ===== verification/_CoqProject ===== *)
-Q . S2P
Prelude.v
Ctype.v
CString.v
Vsprintf.v
Crc.v
CircBuf.v
NetAddr.v
Env.v
Eth.v
Spi.v
Serial.v
Timer.v
Phy.v
Gmac.v
Flash.v
Net.v
Tftp.v
TftpLive.v
Netboot.v
Ping.v
Cmdline.v
Readline.v
Macro.v
MemTest.v
MemCmd.v
Soc.v
Start.v
Help.v
Shell.v
Main.v
Recovery.v
Lists.v
Devices.v
BoardInit.v
Bootkey.v
Lzma.v
LzmaSafe.v
Inflate.v
Bootm.v
Booting.v
Bootstrap.v
