(* ===== verification/Prelude.v ===== *)
(** * Verification of the WR841N boot loader

    A model of the boot loader of the TP-Link WR841N v11 (U-Boot 1.1.4 with
    the vendor's changes, under [src/u-boot]), as the configuration
    [include/configs/board953x.h] compiles it: a big-endian MIPS processor, a
    signed [char], 4 MB of serial flash, no hush parser, the firmware recovery
    switched on.

    The program and its parts

    A small first stage in the flash finds the memory and unpacks the second
    stage, the boot loader proper.  That one plans the memory, moves itself to
    the upper end of the RAM, relocates its environment and runs
    [main_loop]: a reset button held down fetches a firmware file by TFTP and
    writes it to the flash through the command line ([erase], [cp]); otherwise
    it waits for a stop key and runs the boot command, which unpacks the
    kernel from the flash and jumps to it; a stop key gives a prompt.

    - [Prelude]: machine integers, loops, the memory, its values and frames.
    - [Ctype], [CString], [Vsprintf]: [lib_generic/ctype.c], [string.c],
      [vsprintf.c]: characters, strings and memory, parsing and printing.
    - [Crc], [CircBuf], [Lists]: [lib_generic/crc32.c], [common/crc16.c],
      [circbuf.c] and [lists.c].
    - [Env]: [common/env_common.c], [env_nowhere.c], [cmd_nvedit.c] and the
      choice of the console in [console.c].
    - [Spi], [Flash]: the serial flash driver [board/atheros/common/ath_flash.c]
      over its registers, with the chip behind them, and above it the sector
      table and the commands of [common/flash.c], [cmd_flash.c], [cmd_mem.c].
    - [Serial], [Timer], [Soc]: the serial port, the count register, the
      memory controller with the search for the size of the memory
      ([board/atheros/common/serial.c], [lib_mips/time.c],
      [init-953x.c] and [board953x.c]).
    - [Bootstrap], [Start], [BoardInit]: the first stage
      ([lib_bootstrap/bootstrap_board.c]) and the two parts of the start of
      the second ([lib_mips/board.c]), before and after its relocation.
    - [Devices]: the list of devices, the choice of the console and the jump
      table ([common/devices.c], [console.c], [exports.c]).
    - [Phy], [Gmac]: the Ethernet switch with its PHYs
      ([athr_s27_phy.c]) and the controller with its rings of descriptors
      ([qca-eth-953x.c]), both under [board/atheros/common].
    - [NetAddr], [Eth]: addresses as text, and the ring of Ethernet devices
      with the current one ([net/eth.c]).
    - [Net], [Tftp], [TftpLive], [Netboot], [Ping]: packets and protocols
      ([net/net.c], [net/tftp.c]), a transfer over a link that loses packets,
      [NetLoop] and the network commands ([common/cmd_net.c]), and a ping
      without an answer.
    - [Cmdline], [Macro], [Readline], [Shell], [Bootkey]: [common/main.c] and
      [command.c]: line editing, macros, words, lookup, the calls of commands
      and the wait for the stop key.
    - [MemTest], [MemCmd]: [mtest] and [mct], [md], [mw], [mm] and [nm] of
      [common/cmd_mem.c].
    - [Help]: [do_help] of [common/command.c], on the table of [Cmdline].
    - [Main], [Recovery]: [main_loop], and what its recovery does to the flash
      through all the layers below.
    - [Lzma], [LzmaSafe], [Inflate]: [lib_generic/LzmaDecode.c], the safety of
      the decoder on any input, and [LzmaWrapper.c].
    - [Bootm], [Booting]: [common/cmd_bootm.c] and [lib_mips/mips_linux.c],
      and the way from the image to the kernel.

    A definition has the name of its C function; a loop body or a part of a
    long function that has a definition of its own is named after it.

    State, faults and loops

    Memory is a finite map from 32-bit addresses to bytes, [mem]; a C object is
    where it lies.  Global variables are records of the file of their
    component.  A function that can touch memory answers an [option]: [None]
    is an access to a place the memory does not have.  Integers are [Z] with
    the wrap-around of their C type written out ([u32], [s8] and so on).

    A loop is [while] of a named body; it is cut after [2^64] rounds.  Loops
    over 32-bit counters and addresses end earlier, so the cut is never
    reached by them; the theorems on results prove that the loop ends
    ([while_rule], [while_within]), and [while_never] is used where the code
    does not stop ([Bootkey.key_wait_never]).

    What is behind an interface

    - [Spi.Bus]: reads and writes of controller registers.  The instance of
      [SpiFlash] is the flash chip with its documented commands, the one of
      [Serial] the serial port.
    - [Timer.Counter] with [Timer.Clock]: the count register and its time.
    - [Cmdline.Console]: the serial port and the tick counter.
    - [Gmac.DmaBus]: the registers again, for a controller that shares the
      memory and can change it at any of its steps.  [Phy.MiiDevice] and
      [Phy.Switch] are the devices behind the management wires.
    - [Eth.EthDriver]: the functions of a [struct eth_device].
    - [Net.Link]: the Ethernet driver, the timer and the device switch, as the
      protocols see them.  [Netboot.Station] adds what [NetLoop] polls.
    - [MemTest.Words]: the memory under test, which may have faults.
    - [Lists.Heap] with the laws [HeapLaws]: the allocator; [serves] tells
      that the next requests are granted.
    - The allocation in [lzma_inflate] is an argument of it.

    A theorem that has hypotheses is followed by a witness that applies it to
    a concrete memory, environment, chip or peer.

    What the theorems show

    - From top to bottom: [Recovery] (an upload ends in the flash, and nothing
      else of it changes), [Booting] (an image ends in a reset or a kernel with
      its arguments, as the unpacking answers), [Tftp] (a transfer is the file), [Shell] and [Macro]
      (a line is its commands).
    - Refinement of a specification: the environment as an association list,
      the flash as its cells, the receive ring as a queue, the registers of
      the switch as a file of words, the handle list as a sequence, CRC-32 as a
      shift register, line editing as a function of the keys, the memory test
      as the statement that the words keep their values.
    - Safety and termination: the first stage behind any image, the LZMA
      decoder on any bytes, the plan of the memory, the services behind it
      ([BoardInit]), the wait for the stop key, the flash loops, the detection
      of bursts by the checksum.
    - Liveness: a transfer ends although packets are lost ([TftpLive]), a ping
      ends although nobody answers ([Ping]).
    - Errors: what the code does where it does not do what it means to; each
      is a theorem on the definitions as they are.

    Not modelled

    Messages, progress codes, delays and cache flushing, which change no
    state of the model.  The inline assembly of [include/asm-mips/string.h].
    The allocator [common/dlmalloc.c] (third-party; its interface is [Heap]).
    The start code in assembly with the copy of the program.  The commands and
    branches this board does not compile, and every other board, processor and
    driver of the repository. *)

From Stdlib Require Export ZArith Lia.
From Stdlib Require Ascii String.
From stdpp Require Export base numbers list gmap option.

#[global] Open Scope Z_scope.
#[global] Coercion Z.of_nat : nat >-> Z.

(** ** Machine integers

    A C integer is a [Z]; the wrap-around of its type is written out. *)

Definition u8 (x : Z) : Z := x mod 256.
Definition u16 (x : Z) : Z := x mod 65536.
Definition u32 (x : Z) : Z := x mod 4294967296.
Definition s8 (x : Z) : Z := (x + 128) mod 256 - 128.
Definition s16 (x : Z) : Z := (x + 32768) mod 65536 - 32768.
Definition s32 (x : Z) : Z := (x + 2147483648) mod 4294967296 - 2147483648.

Lemma u16_small x : 0 ≤ x < 65536 → u16 x = x.
Proof. apply Z.mod_small. Qed.

Lemma u32_small x : 0 ≤ x < 4294967296 → u32 x = x.
Proof. apply Z.mod_small. Qed.

Lemma s32_small x : -2147483648 ≤ x < 2147483648 → s32 x = x.
Proof. intros H. unfold s32. rewrite Z.mod_small; lia. Qed.

(** Bits of words. *)
Lemma lor_range x y :
  0 ≤ x < 4294967296 → 0 ≤ y < 4294967296 → 0 ≤ Z.lor x y < 4294967296.
Proof.
  intros Hx Hy. assert (H0 : 0 ≤ Z.lor x y) by (apply Z.lor_nonneg; lia). split; [done|].
  destruct (decide (Z.lor x y = 0)) as [->|Hne]; [lia|]. change 4294967296 with (2 ^ 32).
  apply Z.log2_lt_pow2; [lia|]. rewrite Z.log2_lor by lia. apply Z.max_lub_lt.
  - destruct (decide (x = 0)) as [->|]; [done|]. by apply Z.log2_lt_pow2; lia.
  - destruct (decide (y = 0)) as [->|]; [done|]. by apply Z.log2_lt_pow2; lia.
Qed.

Lemma lor_shift a b n : 0 ≤ n → 0 ≤ b < 2 ^ n → Z.lor (Z.shiftl a n) b = a * 2 ^ n + b.
Proof.
  intros Hn Hb. rewrite <- Z.shiftl_mul_pow2 by done.
  assert (E : Z.land (Z.shiftl a n) b = 0).
  { apply Z.bits_inj'. intros k Hk. rewrite Z.land_spec, Z.bits_0, Z.shiftl_spec by done.
    destruct (Z.ltb_spec k n).
    - by rewrite Z.testbit_neg_r by lia.
    - destruct (decide (b = 0)) as [->|]; [by rewrite Z.bits_0, andb_false_r|].
      rewrite (Z.bits_above_log2 b k), andb_false_r; [done|lia|].
      apply Z.lt_le_trans with n; [|done]. apply Z.log2_lt_pow2; lia. }
  by rewrite Z.add_nocarry_lxor, Z.lxor_lor.
Qed.

(** ** Loops

    [while body s] runs a loop body until it answers [Done]; [None] is a fault
    (an access outside the memory the code owns).  The loop is cut after
    [2^64] rounds, more than any loop over 32-bit counters and addresses can
    take; the iteration is by binary recursion, so it computes. *)

Inductive ctl (S R : Type) : Type :=
  | Next (s : S)
  | Done (r : R).
Arguments Next {S R} s.
Arguments Done {S R} r.

Section loops.
Context {S R : Type}.
Implicit Types (body : S → option (ctl S R)) (s : S) (r : R).

Fixpoint iter_pos body (p : positive) (s : S) : option (ctl S R) :=
  match p with
  | xH => body s
  | xO q =>
      match iter_pos body q s with
      | Some (Next s1) => iter_pos body q s1
      | o => o
      end
  | xI q =>
      match body s with
      | Some (Next s0) =>
          match iter_pos body q s0 with
          | Some (Next s1) => iter_pos body q s1
          | o => o
          end
      | o => o
      end
  end.

Definition loop_bound : positive := 18446744073709551616%positive.

Definition while body (s : S) : option R :=
  match iter_pos body loop_bound s with
  | Some (Done r) => Some r
  | _ => None
  end.

(** [runs body s n r]: the loop started in [s] stops with [r] in round [n]. *)
Inductive runs body : S → nat → R → Prop :=
  | runs_done s r : body s = Some (Done r) → runs body s 1 r
  | runs_next s s' n r :
      body s = Some (Next s') → runs body s' n r → runs body s (Datatypes.S n) r.

Lemma runs_pos body s n r : runs body s n r → (0 < n)%nat.
Proof. destruct 1; lia. Qed.

Lemma iter_pos_runs body p : ∀ s n r,
  runs body s n r →
  if decide (n ≤ Pos.to_nat p)%nat then iter_pos body p s = Some (Done r)
  else ∃ s', iter_pos body p s = Some (Next s') ∧
             runs body s' (n - Pos.to_nat p) r.
Proof.
  assert (Htwice : ∀ q,
    (∀ s n r, runs body s n r →
      if decide (n ≤ Pos.to_nat q)%nat then iter_pos body q s = Some (Done r)
      else ∃ s', iter_pos body q s = Some (Next s') ∧
                 runs body s' (n - Pos.to_nat q) r) →
    ∀ s n r, runs body s n r →
      if decide (n ≤ 2 * Pos.to_nat q)%nat
      then iter_pos body (xO q) s = Some (Done r)
      else ∃ s', iter_pos body (xO q) s = Some (Next s') ∧
                 runs body s' (n - 2 * Pos.to_nat q) r).
  { intros q IH s n r H. pose proof (IH _ _ _ H) as H1. simpl iter_pos.
    destruct (decide (n ≤ Pos.to_nat q)%nat) as [Hn|Hn].
    - rewrite H1. rewrite decide_True by lia. done.
    - destruct H1 as (s1 & -> & Hr). pose proof (IH _ _ _ Hr) as H2.
      destruct (decide (n ≤ 2 * Pos.to_nat q)%nat) as [Hm|Hm].
      + rewrite decide_True in H2 by lia. done.
      + rewrite decide_False in H2 by lia.
        replace (n - 2 * Pos.to_nat q)%nat with (n - Pos.to_nat q - Pos.to_nat q)%nat by lia.
        done. }
  induction p as [q IH|q IH|]; intros s n r H.
  - rewrite Pos2Nat.inj_xI.
    inversion H as [? ? Hb|? s0 n0 ? Hb Hr]; subst.
    + rewrite decide_True by lia. cbn. by rewrite Hb.
    + cbn [iter_pos]. rewrite Hb. pose proof (Htwice q IH _ _ _ Hr) as Ht.
      cbn [iter_pos] in Ht. destruct (decide (n0 ≤ 2 * Pos.to_nat q)%nat).
      * rewrite decide_True by lia. done.
      * rewrite decide_False by lia. destruct Ht as (s' & ? & ?).
        exists s'. done.
  - rewrite Pos2Nat.inj_xO. by apply Htwice.
  - inversion H as [? ? Hb|? s0 n0 ? Hb Hr]; subst; cbn.
    + done.
    + pose proof (runs_pos _ _ _ _ Hr). change (Pos.to_nat 1) with 1%nat.
      destruct n0 as [|n0]; [lia|]. cbn. by exists s0.
Qed.

Lemma while_runs body s n r :
  runs body s n r → Z.of_nat n ≤ 18446744073709551616 → while body s = Some r.
Proof.
  intros H Hn. pose proof (iter_pos_runs body loop_bound s n r H) as Hi.
  unfold while. rewrite decide_True in Hi; [by rewrite Hi|].
  unfold loop_bound. lia.
Qed.

Lemma while_within body s (N : nat) r :
  Z.of_nat N ≤ 18446744073709551616 →
  (∃ n, (n ≤ N)%nat ∧ runs body s n r) → while body s = Some r.
Proof. intros HN (n & Hn & Hr). eapply while_runs; [done|lia]. Qed.

Lemma while_within_ex body s (N : nat) (Q : R → Prop) :
  Z.of_nat N ≤ 18446744073709551616 →
  (∃ n r, (n ≤ N)%nat ∧ runs body s n r ∧ Q r) → ∃ r, while body s = Some r ∧ Q r.
Proof.
  intros HN (n & r & Hn & Hr & HQ). exists r. split; [|done].
  eapply while_runs; [done|lia].
Qed.

(** The total-correctness rule: an invariant, a measure that decreases and
    a postcondition for the rounds that stop. *)
Lemma while_rule body (I : S → Prop) (μ : S → Z) (Q : R → Prop) s :
  (∀ s, I s → ∃ c, body s = Some c ∧
     match c with
     | Next s' => I s' ∧ 0 ≤ μ s' < μ s
     | Done r => Q r
     end) →
  I s → 0 ≤ μ s < 18446744073709551616 →
  ∃ r, while body s = Some r ∧ Q r.
Proof.
  intros Hbody Hs Hμ.
  assert (Hr : ∃ n r, (Z.of_nat n ≤ μ s + 1) ∧ runs body s n r ∧ Q r).
  { destruct Hμ as [Hμ _]. revert s Hs Hμ.
    apply (well_founded_induction_type
      (Wf_nat.well_founded_ltof _ (λ s, Z.to_nat (μ s)))
      (λ s, I s → 0 ≤ μ s → ∃ n r, (Z.of_nat n ≤ μ s + 1) ∧ runs body s n r ∧ Q r)).
    intros s IH Hs Hμ. destruct (Hbody s Hs) as ([s'|r] & Hb & Hc).
    - destruct Hc as [Hs' Hlt].
      destruct (IH s') as (n & r & Hn & Hr & HQ); [red; lia|done|lia|].
      exists (Datatypes.S n), r. split; [lia|]. split; [by eapply runs_next|done].
    - exists 1%nat, r. split; [lia|]. split; [by apply runs_done|done]. }
  destruct Hr as (n & r & Hn & Hr & HQ).
  exists r. split; [|done]. eapply while_runs; [done|lia].
Qed.

(** Partial correctness: what holds if the loop answers. *)
Lemma iter_pos_inv body (I : S → Prop) (Q : R → Prop) p s c :
  (∀ s c, I s → body s = Some c → match c with Next s' => I s' | Done r => Q r end) →
  I s → iter_pos body p s = Some c → match c with Next s' => I s' | Done r => Q r end.
Proof.
  intros Hb. revert s c. induction p as [q IH|q IH|]; intros s c Hs; cbn [iter_pos]; [| |by apply Hb].
  - destruct (body s) as [[s0|r]|] eqn:E0; [|intros [= <-]; by apply (Hb s (Done r))|done].
    pose proof (Hb s _ Hs E0) as H0.
    destruct (iter_pos body q s0) as [[s1|r]|] eqn:E1; [|intros [= <-]; by apply (IH s0 (Done r))|done].
    apply IH. exact (IH s0 _ H0 E1).
  - destruct (iter_pos body q s) as [[s1|r]|] eqn:E1; [|intros [= <-]; by apply (IH s (Done r))|done].
    apply IH. exact (IH s _ Hs E1).
Qed.

Lemma while_inv body (I : S → Prop) (Q : R → Prop) s r :
  (∀ s c, I s → body s = Some c → match c with Next s' => I s' | Done r => Q r end) →
  I s → while body s = Some r → Q r.
Proof.
  intros Hb Hs. unfold while. destruct (iter_pos body loop_bound s) as [[s1|r1]|] eqn:E; [done| |done].
  intros [= <-]. exact (iter_pos_inv body I Q loop_bound s _ Hb Hs E).
Qed.

(** A loop that never stops: no bound on the rounds is enough. *)
Lemma iter_pos_never body (I : S → Prop) p s :
  (∀ s, I s → ∃ s', body s = Some (Next s') ∧ I s') → I s →
  ∃ s', iter_pos body p s = Some (Next s') ∧ I s'.
Proof.
  intros Hb. revert s. induction p as [q IH|q IH|]; intros s Hs; cbn [iter_pos]; [| |by apply Hb].
  - destruct (Hb s Hs) as (s1 & -> & H1). destruct (IH s1 H1) as (s2 & -> & H2). by apply IH.
  - destruct (IH s Hs) as (s2 & -> & H2). by apply IH.
Qed.

Lemma while_never body (I : S → Prop) s :
  (∀ s, I s → ∃ s', body s = Some (Next s') ∧ I s') → I s → while body s = None.
Proof.
  intros Hb Hs. destruct (iter_pos_never body I loop_bound s Hb Hs) as (s' & E & _).
  unfold while. by rewrite E.
Qed.
End loops.

(** A loop simulated by another through a function of their states. *)
Section while_map.
Context {S1 S2 R1 R2 : Type} (f : S1 → S2) (g : R1 → R2) (I : S1 → Prop) (J : R1 → Prop).
Context (body1 : S1 → option (ctl S1 R1)) (body2 : S2 → option (ctl S2 R2)).

Definition ctl_map (c : ctl S1 R1) : ctl S2 R2 :=
  match c with Next s => Next (f s) | Done r => Done (g r) end.

Definition ctl_keeps (o : option (ctl S1 R1)) : Prop :=
  match o with Some (Next s) => I s | Some (Done r) => J r | None => True end.

Context (Hbody : ∀ s, I s → body2 (f s) = ctl_map <$> body1 s ∧ ctl_keeps (body1 s)).

Lemma iter_pos_map p s :
  I s → iter_pos body2 p (f s) = ctl_map <$> iter_pos body1 p s ∧ ctl_keeps (iter_pos body1 p s).
Proof using Hbody.
  revert s. induction p as [q IH|q IH|]; intros s Hs; cbn [iter_pos]; [| |by apply Hbody].
  - destruct (Hbody s Hs) as [-> Hk]. destruct (body1 s) as [[s1|r]|]; try done. cbn in *.
    destruct (IH s1 Hk) as [-> Hk1]. destruct (iter_pos body1 q s1) as [[s2|r]|]; try done. cbn in *.
    by apply IH.
  - destruct (IH s Hs) as [-> Hk1]. destruct (iter_pos body1 q s) as [[s2|r]|]; try done. cbn in *.
    by apply IH.
Qed.

Lemma while_map s :
  I s → while body2 (f s) = g <$> while body1 s ∧
        match while body1 s with Some r => J r | None => True end.
Proof using Hbody.
  intros Hs. unfold while. destruct (iter_pos_map loop_bound s Hs) as [-> Hk].
  by destruct (iter_pos body1 loop_bound s) as [[s1|r]|].
Qed.
End while_map.

(** A conversion test unfolds everything else before it runs a loop. *)
#[global] Strategy 1000 [while].
#[global] Arguments while : simpl never.

(** ** Memory

    Byte-addressed memory: an address that is not in the map is not owned by
    the program and an access to it is a fault.  Addresses are not wrapped:
    C pointer arithmetic does not leave an object. *)

Abbreviation mem := (gmap Z Z).

Definition ld (m : mem) (a : Z) : option Z := m !! a.

Definition st (m : mem) (a v : Z) : option mem :=
  match m !! a with
  | Some _ => Some (<[a := u8 v]> m)
  | None => None
  end.

(** The segments of the address space ([include/asm-mips/addrspace.h], [io.h]). *)
Definition virt_to_phys (a : Z) : Z := Z.land a 0x1fffffff.
Definition UNCACHED_SDRAM (a : Z) : Z := Z.lor (Z.land a 0x1fffffff) 0xa0000000.

(** The processor is big-endian. *)
Definition be16 (hi lo : Z) : Z := 256 * hi + lo.
Definition be32 (b0 b1 b2 b3 : Z) : Z := 256 * (256 * (256 * b0 + b1) + b2) + b3.

(** The pointer [NULL]; no object lives there. *)
Definition NULL : Z := 0.

Definition is_byte (x : Z) : Prop := 0 ≤ x < 256.
Definition is_char (x : Z) : Prop := 0 < x < 256.

(** [m] holds the bytes [l] from address [a] on. *)
Definition bytes_at (m : mem) (a : Z) (l : list Z) : Prop :=
  ∀ (i : nat) x, l !! i = Some x → m !! (a + i) = Some x.

(** [m] holds at [a] the NUL-terminated string [l]. *)
Definition cstr (m : mem) (a : Z) (l : list Z) : Prop :=
  Forall is_char l ∧ bytes_at m a (l ++ [0]).

(** A block an unsigned 32-bit length describes. *)
Definition fits (l : list Z) : Prop := Z.of_nat (length l) < 4294967296.

(** The [n] bytes from [a] on are owned. *)
Definition owned (m : mem) (a n : Z) : Prop :=
  ∀ i, 0 ≤ i < n → is_Some (m !! (a + i)).

(** The effect of storing [l] from [a] on. *)
Fixpoint write_bytes (m : mem) (a : Z) (l : list Z) : mem :=
  match l with
  | [] => m
  | x :: l => write_bytes (<[a := x]> m) (a + 1) l
  end.

(** The bytes of a memory with the given contents, for the examples. *)
Definition mem_of (a : Z) (l : list Z) : mem := write_bytes ∅ a l.

(** [n] consecutive bytes. *)
Fixpoint ld_bytes (m : mem) (a : Z) (n : nat) : option (list Z) :=
  match n with
  | O => Some []
  | S n => x ← ld m a; l ← ld_bytes m (a + 1) n; Some (x :: l)
  end.

Section memory.
Implicit Types (m : mem) (a x : Z) (l : list Z).

Lemma ld_st m a v m' : st m a v = Some m' → ld m' a = Some (u8 v).
Proof.
  unfold st, ld. destruct (m !! a); [|done]. intros [= <-].
  apply lookup_insert_eq.
Qed.

Lemma st_owned m a v : is_Some (m !! a) → st m a v = Some (<[a := u8 v]> m).
Proof. intros [x Hx]. unfold st. by rewrite Hx. Qed.

Lemma u8_byte x : is_byte x → u8 x = x.
Proof. intros H. apply Z.mod_small, H. Qed.

Lemma u8_char x : is_char x → u8 x = x.
Proof. intros [? ?]. apply Z.mod_small. lia. Qed.

Lemma map_u8_bytes l : Forall is_byte l → map u8 l = l.
Proof. induction 1 as [|x l Hx _ IH]; [done|]. simpl. by rewrite u8_byte, IH. Qed.

Lemma u8_range x : is_byte (u8 x).
Proof. apply Z.mod_pos_bound. lia. Qed.

Lemma bytes_at_nil m a : bytes_at m a [].
Proof. intros i x H. by rewrite lookup_nil in H. Qed.

Lemma bytes_at_cons m a x l :
  bytes_at m a (x :: l) ↔ m !! a = Some x ∧ bytes_at m (a + 1) l.
Proof.
  split.
  - intros H. split.
    + specialize (H 0%nat x eq_refl). by rewrite Z.add_0_r in H.
    + intros i y Hy. specialize (H (S i) y Hy).
      by replace (a + 1 + i) with (a + S i) by lia.
  - intros [H1 H2] [|i] y Hy; simpl in Hy.
    + simplify_eq. by rewrite Z.add_0_r.
    + replace (a + S i) with (a + 1 + i) by lia. by apply H2.
Qed.

Lemma bytes_at_app m a l1 l2 :
  bytes_at m a (l1 ++ l2) ↔ bytes_at m a l1 ∧ bytes_at m (a + length l1) l2.
Proof.
  revert a. induction l1 as [|x l1 IH]; intros a; simpl.
  - rewrite Z.add_0_r. split; [|tauto]. intros. split; [apply bytes_at_nil|done].
  - rewrite !bytes_at_cons, IH.
    replace (a + 1 + length l1) with (a + S (length l1)) by lia. tauto.
Qed.

Lemma bytes_at_singleton m a x : bytes_at m a [x] ↔ m !! a = Some x.
Proof. rewrite bytes_at_cons. split; [tauto|]. split; [done|apply bytes_at_nil]. Qed.

Lemma bytes_at_owned m a l : bytes_at m a l → owned m a (length l).
Proof.
  intros H i Hi. destruct (lookup_lt_is_Some_2 l (Z.to_nat i)) as [x Hx]; [lia|].
  exists x. specialize (H _ _ Hx). by rewrite Z2Nat.id in H by lia.
Qed.

Lemma bytes_at_drop m a l (n : nat) :
  bytes_at m a l → (n ≤ length l)%nat → bytes_at m (a + n) (drop n l).
Proof.
  intros H Hn i x Hx. rewrite lookup_drop in Hx.
  replace (a + n + i) with (a + (n + i)%nat) by lia. by apply H.
Qed.

Lemma owned_mono m a n a' n' :
  owned m a n → a ≤ a' → a' + n' ≤ a + n → owned m a' n'.
Proof.
  intros H Ha Hn i Hi. replace (a' + i) with (a + (a' - a + i)) by lia.
  apply H. lia.
Qed.

Lemma owned_insert m a n b x : owned m a n → owned (<[b := x]> m) a n.
Proof.
  intros H i Hi. destruct (decide (b = a + i)) as [->|Hne].
  - rewrite lookup_insert_eq. eauto.
  - rewrite lookup_insert_ne by done. by apply H.
Qed.

Lemma write_bytes_lookup m a l j :
  write_bytes m a l !! j =
    if decide (a ≤ j < a + length l) then l !! Z.to_nat (j - a) else m !! j.
Proof.
  revert m a. induction l as [|x l IH]; intros m a; simpl.
  - rewrite decide_False by lia. done.
  - rewrite IH. destruct (decide (a + 1 ≤ j < a + 1 + length l)) as [H|H].
    + rewrite decide_True by lia.
      replace (Z.to_nat (j - a)) with (S (Z.to_nat (j - (a + 1)))) by lia. done.
    + destruct (decide (a ≤ j < a + S (length l))) as [H'|H'].
      * assert (j = a) as -> by lia. rewrite Z.sub_diag. simpl.
        apply lookup_insert_eq.
      * apply lookup_insert_ne. lia.
Qed.

Lemma write_bytes_out m a l j :
  ¬ (a ≤ j < a + length l) → write_bytes m a l !! j = m !! j.
Proof. intros H. rewrite write_bytes_lookup. by rewrite decide_False. Qed.

Lemma write_bytes_in m a l : bytes_at (write_bytes m a l) a l.
Proof.
  intros i x Hx. rewrite write_bytes_lookup.
  pose proof (lookup_lt_Some _ _ _ Hx). rewrite decide_True by lia.
  by replace (Z.to_nat (a + i - a)) with i by lia.
Qed.

Lemma bytes_at_write_disjoint m a l b k :
  (b + length k ≤ a ∨ a + length l ≤ b) →
  bytes_at m b k → bytes_at (write_bytes m a l) b k.
Proof.
  intros Hd H i x Hx. pose proof (lookup_lt_Some _ _ _ Hx).
  rewrite write_bytes_out by lia. by apply H.
Qed.

Lemma bytes_at_insert_out m a l b x :
  ¬ (a ≤ b < a + length l) → bytes_at m a l → bytes_at (<[b := x]> m) a l.
Proof.
  intros Hb H i y Hy. pose proof (lookup_lt_Some _ _ _ Hy).
  rewrite lookup_insert_ne by lia. by apply H.
Qed.

Lemma write_bytes_app m a l1 l2 :
  write_bytes m a (l1 ++ l2) = write_bytes (write_bytes m a l1) (a + length l1) l2.
Proof.
  revert m a. induction l1 as [|x l1 IH]; intros m a; simpl.
  - by rewrite Z.add_0_r.
  - rewrite IH. f_equal. lia.
Qed.

(** Writing into what has been written. *)
Lemma write_bytes_inside m a (i : nat) l k :
  (i + length k ≤ length l)%nat →
  write_bytes (write_bytes m a l) (a + i) k = write_bytes m a (take i l ++ k ++ drop (i + length k) l).
Proof.
  intros Hl. apply map_eq. intros j. rewrite !write_bytes_lookup, !length_app, length_take, length_drop.
  destruct (decide (a + i ≤ j < a + i + length k)) as [Hj|Hj].
  - rewrite decide_True by lia. rewrite lookup_app_r by (rewrite length_take; lia).
    rewrite length_take, lookup_app_l by lia. f_equal. lia.
  - destruct (decide (a ≤ j < a + length l)) as [Hj'|Hj']; [|by rewrite decide_False by lia].
    rewrite decide_True by lia. destruct (decide (j < a + i)).
    + rewrite lookup_app_l by (rewrite length_take; lia). by rewrite lookup_take_lt by lia.
    + rewrite lookup_app_r by (rewrite length_take; lia). rewrite length_take, lookup_app_r by lia.
      rewrite lookup_drop. f_equal. lia.
Qed.

Lemma write_bytes_over m a l k :
  length k = length l → write_bytes (write_bytes m a l) a k = write_bytes m a k.
Proof.
  intros Hl. apply map_eq. intros j. rewrite !write_bytes_lookup, Hl. by case_decide.
Qed.

Lemma write_bytes_insert_comm m a l b x :
  ¬ (a ≤ b < a + length l) →
  write_bytes (<[b := x]> m) a l = <[b := x]> (write_bytes m a l).
Proof.
  intros Hb. apply map_eq. intros j. rewrite write_bytes_lookup.
  destruct (decide (b = j)) as [->|Hne].
  - rewrite decide_False by lia. by rewrite !lookup_insert_eq.
  - rewrite !lookup_insert_ne by done. by rewrite write_bytes_lookup.
Qed.

Lemma write_bytes_snoc m a l x :
  write_bytes m a (l ++ [x]) = <[a + length l := x]> (write_bytes m a l).
Proof. by rewrite write_bytes_app. Qed.

Lemma owned_write m a n b l : owned m a n → owned (write_bytes m b l) a n.
Proof.
  revert m b. induction l as [|x l IH]; intros m b H; simpl; [done|].
  apply IH. by apply owned_insert.
Qed.

Lemma owned_at m a n j : owned m a n → a ≤ j < a + n → is_Some (m !! j).
Proof. intros H Hj. replace j with (a + (j - a)) by lia. apply H. lia. Qed.

Lemma owned_write_at m a n b l j :
  owned m a n → a ≤ j < a + n → is_Some (write_bytes m b l !! j).
Proof. intros H. apply owned_at. by apply owned_write. Qed.

Lemma cstr_cons m a c l :
  cstr m a (c :: l) ↔ is_char c ∧ m !! a = Some c ∧ cstr m (a + 1) l.
Proof.
  unfold cstr. rewrite Forall_cons_iff. simpl. rewrite bytes_at_cons. tauto.
Qed.

Lemma cstr_nil m a : cstr m a [] ↔ m !! a = Some 0.
Proof.
  unfold cstr. simpl. rewrite bytes_at_singleton.
  split; [tauto|]. split; [apply Forall_nil_2|done].
Qed.

Lemma cstr_owned m a l : cstr m a l → owned m a (length l + 1).
Proof.
  intros [_ H]. apply bytes_at_owned in H. rewrite length_app in H.
  eapply owned_mono; [done|lia|simpl; lia].
Qed.

Lemma cstr_drop m a l (n : nat) :
  cstr m a l → (n ≤ length l)%nat → cstr m (a + n) (drop n l).
Proof.
  intros [Hf Hb] Hn. split; [by apply Forall_drop|].
  rewrite <- (drop_app_le l [0] n Hn). apply bytes_at_drop; [done|].
  rewrite length_app. simpl. lia.
Qed.

Lemma cstr_insert_out m a l b x :
  ¬ (a ≤ b ≤ a + length l) → cstr m a l → cstr (<[b := x]> m) a l.
Proof.
  intros Hb [Hf H]. split; [done|]. apply bytes_at_insert_out; [|done].
  rewrite length_app. simpl. lia.
Qed.

Lemma cstr_write_disjoint m a l b k :
  (b + length k < a ∨ a + length l ≤ b) →
  cstr m b k → cstr (write_bytes m a l) b k.
Proof.
  intros Hd [Hf H]. split; [done|]. apply bytes_at_write_disjoint; [|done].
  rewrite length_app. simpl. lia.
Qed.

Lemma cstr_bytes m a l : cstr m a l → bytes_at m a l.
Proof. intros [_ H]. by apply bytes_at_app in H as [H _]. Qed.

Lemma bytes_at_take m a l (n : nat) : bytes_at m a l → bytes_at m a (take n l).
Proof. intros H i x [Hx _]%lookup_take_Some. by apply H. Qed.

Lemma cstr_hd m a l : cstr m a l → m !! a = Some (hd 0 l).
Proof. destruct l; [by rewrite cstr_nil|by rewrite cstr_cons; intros (_ & ? & _)]. Qed.

Lemma cstr_hd_ld m a l : cstr m a l → ld m a = Some (hd 0 l).
Proof. apply cstr_hd. Qed.

(** The string at an address is unique. *)
Lemma cstr_inj m a l k : cstr m a l → cstr m a k → l = k.
Proof.
  revert a k. induction l as [|c l IH]; intros a [|d k].
  - done.
  - rewrite cstr_nil, cstr_cons. intros E ([? ?] & E' & _).
    rewrite E' in E. simplify_eq. lia.
  - rewrite cstr_nil, cstr_cons. intros ([? ?] & E' & _) E.
    rewrite E' in E. simplify_eq. lia.
  - rewrite !cstr_cons. intros (_ & E & Hl) (_ & E' & Hk). simplify_eq.
    f_equal. eauto.
Qed.
End memory.

Create HintDb cmem.
#[export] Hint Resolve bytes_at_nil write_bytes_in owned_insert owned_write : cmem.
#[export] Hint Resolve cstr_owned bytes_at_owned : cmem.
#[export] Hint Extern 1 (is_char _) => (red; lia) : cmem.
#[export] Hint Extern 1 (is_byte _) => (red; lia) : cmem.

Lemma ld_bind {B} m a x (k : Z → option B) :
  m !! a = Some x → (ld m a ≫= k) = k x.
Proof. unfold ld. by intros ->. Qed.

Lemma st_bind {B} m a v (k : mem → option B) :
  is_Some (m !! a) → (st m a v ≫= k) = k (<[a := u8 v]> m).
Proof. intros H. by rewrite st_owned. Qed.

Lemma some_bind {A B} (x : A) (k : A → option B) : (Some x ≫= k) = k x.
Proof. done. Qed.

(** Evaluate the loads and stores at the head of a block whose outcome the
    context knows. *)
Ltac c_step :=
  first
  [ rewrite some_bind; cbv beta iota
  | match goal with
    | H : ?m !! ?a = Some _ |- context [ld ?m ?a ≫= _] =>
        rewrite (ld_bind m a _ _ H); cbv beta iota
    | H : is_Some (?m !! ?a) |- context [st ?m ?a _ ≫= _] =>
        rewrite (st_bind m a _ _ H); cbv beta iota
    end ].

(** Decide the boolean comparisons of a C condition by arithmetic. *)
Ltac zbool :=
  rewrite ?Z.gtb_ltb, ?Z.geb_leb;
  repeat match goal with
  | |- context [?a =? ?b] =>
      first [ rewrite (proj2 (Z.eqb_eq a b)) by lia
            | rewrite (proj2 (Z.eqb_neq a b)) by lia ]
  | |- context [?a <? ?b] =>
      first [ rewrite (proj2 (Z.ltb_lt a b)) by lia
            | rewrite (proj2 (Z.ltb_ge a b)) by lia ]
  | |- context [?a <=? ?b] =>
      first [ rewrite (proj2 (Z.leb_le a b)) by lia
            | rewrite (proj2 (Z.leb_gt a b)) by lia ]
  end.

(** A string literal of the source. *)
Export String.StringSyntax Ascii.AsciiSyntax.
Definition lit (s : String.string) : list Z :=
  map (λ a, Z.of_nat (Ascii.nat_of_ascii a)) (String.list_ascii_of_string s).
Arguments lit s%_string_scope.

(** ** Finite checks over the bytes *)

Definition all_bytes : list Z := map Z.of_nat (seq 0 256).

Lemma byte_forall (P : Z → bool) :
  forallb P all_bytes = true → ∀ c, is_byte c → P c = true.
Proof.
  intros H c Hc. rewrite forallb_forall in H. apply H.
  unfold is_byte in Hc. unfold all_bytes. rewrite in_map_iff.
  exists (Z.to_nat c). split; [lia|]. apply in_seq. lia.
Qed.

(** Run a loop one round: to the next state, or to its result. *)
Ltac loop_next :=
  eapply runs_next; [cbv beta iota; zbool; repeat c_step; zbool; cbn [negb orb andb]; reflexivity|].
Ltac loop_done :=
  eapply runs_done; cbv beta iota; repeat c_step; zbool; cbn [negb orb andb]; reflexivity.

(** ** Strings as lists *)

Lemma s8_inj a b : is_byte a → is_byte b → (s8 a =? s8 b) = (a =? b).
Proof.
  unfold s8, is_byte. intros Ha Hb.
  destruct (Z.eqb_spec a b) as [->|Hne]; [by rewrite Z.eqb_refl|].
  apply Z.eqb_neq. intros E.
  rewrite !Z.mod_eq in E by lia.
  pose proof (Z.div_lt_upper_bound (a + 128) 256 2 ltac:(lia) ltac:(lia)).
  pose proof (Z.div_lt_upper_bound (b + 128) 256 2 ltac:(lia) ltac:(lia)).
  pose proof (Z.div_pos (a + 128) 256 ltac:(lia) ltac:(lia)).
  pose proof (Z.div_pos (b + 128) 256 ltac:(lia) ltac:(lia)). lia.
Qed.

Lemma s8_sub_zero a b : is_byte a → is_byte b → (s8 (s8 a - s8 b) =? 0) = (a =? b).
Proof.
  unfold s8, is_byte. intros Ha Hb.
  destruct (Z.eqb_spec a b) as [->|Hne]; [by rewrite Z.sub_diag|].
  apply Z.eqb_neq. intros E.
  Z.div_mod_to_equations. lia.
Qed.

Lemma drop_cons_inv {A} (l : list A) i x r :
  drop i l = x :: r → l !! i = Some x ∧ drop (S i) l = r.
Proof.
  revert i. induction l as [|y l IH]; intros [|i] H; simplify_eq/=; [by rewrite drop_0|].
  by apply IH.
Qed.

(** ** Concrete memories, for the examples *)

Lemma owned_mem_of a l : owned (mem_of a l) a (length l).
Proof. apply bytes_at_owned, write_bytes_in. Qed.

Lemma cstr_mem_of a l : forallb (λ c, (0 <? c) && (c <? 256)) l = true → cstr (mem_of a (l ++ [0])) a l.
Proof.
  intros H. split; [|apply write_bytes_in].
  induction l as [|c l IH]; [constructor|]. simpl in H.
  apply andb_true_iff in H as [Hc H]. apply andb_true_iff in Hc as [H1 H2].
  constructor; [unfold is_char; lia|by apply IH].
Qed.

(** Two objects in one memory. *)
Definition mem_of2 (a : Z) (l : list Z) (b : Z) (k : list Z) : mem :=
  write_bytes (mem_of a l) b k.

Lemma bytes_at_mem_of2 a l b k :
  (b + length k ≤ a ∨ a + length l ≤ b) →
  bytes_at (mem_of2 a l b k) a l ∧ bytes_at (mem_of2 a l b k) b k.
Proof.
  intros H. split; [|apply write_bytes_in].
  apply bytes_at_write_disjoint; [lia|apply write_bytes_in].
Qed.

(** A string inside a block. *)
Lemma cstr_in_block a pre t post :
  forallb (λ c, (0 <? c) && (c <? 256)) t = true →
  cstr (mem_of a (pre ++ (t ++ [0]) ++ post)) (a + length pre) t.
Proof.
  intros Ht. destruct (cstr_mem_of a t Ht) as [Hf _]. split; [done|].
  pose proof (write_bytes_in ∅ a (pre ++ (t ++ [0]) ++ post)) as Hb.
  apply bytes_at_app in Hb as [_ Hb]. by apply bytes_at_app in Hb as [Hb _].
Qed.

(** Decide a quantifier-free condition on concrete strings. *)
Ltac chars := repeat constructor; unfold is_char, is_byte; lia.

Lemma ld_bytes_at m a l : bytes_at m a l → ld_bytes m a (length l) = Some l.
Proof.
  revert a. induction l as [|x l IH]; intros a Hl; [done|].
  apply bytes_at_cons in Hl as [Hx Hl]. cbn [length ld_bytes]. c_step.
  by rewrite IH.
Qed.

(** ** Frames: what a piece of code may change *)

(** Only the bytes from [lo] to [hi] differ. *)
Definition same_out (lo hi : Z) (m m' : mem) : Prop :=
  ∀ j, ¬ (lo ≤ j < hi) → m' !! j = m !! j.

(** Only the bytes from [lo] to [hi] change, and none is lost. *)
Definition changed (lo hi : Z) (m m' : mem) : Prop :=
  same_out lo hi m m' ∧ ∀ j, is_Some (m !! j) → is_Some (m' !! j).

Section changed.
Implicit Types (m : mem) (lo hi a n : Z) (l : list Z).

Lemma same_out_refl lo hi m : same_out lo hi m m.
Proof. by intros j _. Qed.

Lemma same_out_trans lo hi m1 m2 m3 :
  same_out lo hi m1 m2 → same_out lo hi m2 m3 → same_out lo hi m1 m3.
Proof. intros H1 H2 j Hj. by rewrite H2, H1. Qed.

Lemma same_out_write lo hi m a l :
  lo ≤ a → a + length l ≤ hi → same_out lo hi m (write_bytes m a l).
Proof. intros H1 H2 j Hj. apply write_bytes_out. lia. Qed.

Lemma same_out_bytes lo hi m m' a l :
  same_out lo hi m m' → (a + length l ≤ lo ∨ hi ≤ a) → bytes_at m a l → bytes_at m' a l.
Proof.
  intros Hs Hd Hb i x Hx. rewrite Hs; [by apply Hb|]. pose proof (lookup_lt_Some _ _ _ Hx). lia.
Qed.

Lemma same_out_cstr lo hi m m' s l :
  same_out lo hi m m' → (s + length l < lo ∨ hi ≤ s) → cstr m s l → cstr m' s l.
Proof.
  intros Hs Hd [Hc Hb]. split; [done|]. intros i x Hx. rewrite Hs; [by apply Hb|].
  pose proof (lookup_lt_Some _ _ _ Hx) as Hi. rewrite length_app in Hi. simpl in Hi. lia.
Qed.

Lemma changed_refl lo hi m : changed lo hi m m.
Proof. split; [apply same_out_refl|done]. Qed.

Lemma changed_trans lo hi m1 m2 m3 :
  changed lo hi m1 m2 → changed lo hi m2 m3 → changed lo hi m1 m3.
Proof. intros [A1 B1] [A2 B2]. split; [by eapply same_out_trans|eauto]. Qed.

Lemma changed_mono lo hi lo' hi' m m' :
  changed lo hi m m' → lo' ≤ lo → hi ≤ hi' → changed lo' hi' m m'.
Proof. intros [A B] H1 H2. split; [|done]. intros j Hj. apply A. lia. Qed.

Lemma changed_write lo hi m a l :
  lo ≤ a → a + length l ≤ hi → changed lo hi m (write_bytes m a l).
Proof.
  intros H1 H2. split; [by apply same_out_write|]. intros j Hj. rewrite write_bytes_lookup.
  case_decide as Hd; [|done]. apply lookup_lt_is_Some_2. lia.
Qed.

Lemma changed_owned lo hi m m' a n : changed lo hi m m' → owned m a n → owned m' a n.
Proof. intros [_ B] Ho i Hi. apply B, Ho, Hi. Qed.

Lemma changed_bytes lo hi m m' a l :
  changed lo hi m m' → (a + length l ≤ lo ∨ hi ≤ a) → bytes_at m a l → bytes_at m' a l.
Proof.
  intros [A _] Hd Hb i x Hx. pose proof (lookup_lt_Some _ _ _ Hx). rewrite A by lia. by apply Hb.
Qed.

Lemma changed_cstr lo hi m m' a l :
  changed lo hi m m' → (a + length l < lo ∨ hi ≤ a) → cstr m a l → cstr m' a l.
Proof. intros [A _]. by apply same_out_cstr. Qed.

Lemma changed_st lo hi m a v :
  is_Some (m !! a) → lo ≤ a < hi → ∃ m', st m a v = Some m' ∧ m' = <[a := u8 v]> m ∧ changed lo hi m m'.
Proof.
  intros Hs Ha. exists (<[a := u8 v]> m). split; [by apply st_owned|]. split; [done|]. split.
  - intros j Hj. by rewrite lookup_insert_ne by lia.
  - intros j Hj. destruct (decide (a = j)) as [->|Hne];
      [by rewrite lookup_insert_eq|by rewrite lookup_insert_ne].
Qed.

Lemma owned_bytes m a n : owned m a n → ∃ l, length l = Z.to_nat n ∧ bytes_at m a l.
Proof.
  intros Ho. assert (Hn : ∀ k b, (∀ i, 0 ≤ i < Z.of_nat k → is_Some (m !! (b + i))) →
    ∃ l, length l = k ∧ bytes_at m b l).
  { induction k as [|k IH]; intros b Hb; [exists []; split; [done|apply bytes_at_nil]|].
    destruct (Hb 0 ltac:(lia)) as [x Hx]. rewrite Z.add_0_r in Hx.
    destruct (IH (b + 1)) as (l & Hl & Hbl).
    { intros i Hi. replace (b + 1 + i) with (b + (1 + i)) by lia. apply Hb. lia. }
    exists (x :: l). split; [simpl; lia|]. by apply bytes_at_cons. }
  apply Hn. intros i Hi. apply Ho. lia.
Qed.

Lemma bytes_at_inj m a l1 l2 :
  bytes_at m a l1 → bytes_at m a l2 → length l1 = length l2 → l1 = l2.
Proof.
  intros H1 H2 Hl. apply list_eq_same_length with (length l1); [done|done|].
  intros i x y Hi E1 E2. specialize (H1 _ _ E1). specialize (H2 _ _ E2). congruence.
Qed.
End changed.

(** A store right behind the bytes written so far. *)
Lemma st_append m a (n : Z) l1 x b :
  owned m a n → b = a + length l1 → length l1 + 1 ≤ n →
  st (write_bytes m a l1) b x = Some (write_bytes m a (l1 ++ [u8 x])).
Proof.
  intros Ho -> Hn. rewrite write_bytes_snoc. apply st_owned.
  eapply owned_write_at; [exact Ho|lia].
Qed.

Lemma take_app_take {A} n (a b : list A) : take n (take n a ++ b) = take n (a ++ b).
Proof. rewrite !take_app, take_take, Nat.min_id, length_take. do 2 f_equal. lia. Qed.

(** ** Big-endian fields *)

Definition ld16 (m : mem) (a : Z) : option Z :=
  hi ← ld m a; lo ← ld m (a + 1); Some (be16 hi lo).

Definition ld32 (m : mem) (a : Z) : option Z :=
  b0 ← ld m a; b1 ← ld m (a + 1); b2 ← ld m (a + 2); b3 ← ld m (a + 3);
  Some (be32 b0 b1 b2 b3).

Lemma ld16_at m a x y : bytes_at m a [x; y] → ld16 m a = Some (be16 x y).
Proof.
  intros Hl. apply bytes_at_cons in Hl as [Hx Hy]. apply bytes_at_singleton in Hy.
  unfold ld16. by repeat c_step.
Qed.

Lemma ld32_at m a x y z w : bytes_at m a [x; y; z; w] → ld32 m a = Some (be32 x y z w).
Proof.
  intros Hl. apply bytes_at_cons in Hl as [Hx Hl]. apply bytes_at_cons in Hl as [Hy Hl].
  apply bytes_at_cons in Hl as [Hz Hw]. apply bytes_at_singleton in Hw.
  replace (a + 1 + 1) with (a + 2) in * by lia. replace (a + 2 + 1) with (a + 3) in * by lia.
  unfold ld32. by repeat c_step.
Qed.

Definition st32 (m : mem) (a v : Z) : option mem :=
  m ← st m a (v / 16777216); m ← st m (a + 1) (v / 65536);
  m ← st m (a + 2) (v / 256); st m (a + 3) v.

Definition bytes32 (c : Z) : list Z := [u8 (c / 16777216); u8 (c / 65536); u8 (c / 256); u8 c].

(** The word [c] at [p]. *)
Definition word_at (m : mem) (p c : Z) : Prop :=
  bytes_at m p [u8 (c / 16777216); u8 (c / 65536); u8 (c / 256); u8 c].

Lemma st32_bytes m p c :
  owned m p 4 → st32 m p c = Some (write_bytes m p [u8 (c / 16777216); u8 (c / 65536); u8 (c / 256); u8 c]).
Proof.
  intros Ho. unfold st32.
  rewrite st_bind by (apply (owned_at m p 4); [done|lia]).
  rewrite st_bind by (apply (owned_at _ p 4); [auto with cmem|lia]).
  rewrite st_bind by (apply (owned_at _ p 4); [auto with cmem|lia]).
  rewrite st_owned by (apply (owned_at _ p 4); [auto with cmem|lia]).
  simpl. by replace (p + 1 + 1) with (p + 2) by lia; replace (p + 2 + 1) with (p + 3) by lia.
Qed.

Lemma st32_word m p c :
  owned m p 4 → ∃ m', st32 m p c = Some m' ∧ word_at m' p c ∧ changed p (p + 4) m m'.
Proof.
  intros Ho. eexists. split; [by apply st32_bytes|].
  split; [apply write_bytes_in|apply changed_write; cbn [length]; lia].
Qed.

Lemma ld32_word m p c : word_at m p c → 0 ≤ c < 4294967296 → ld32 m p = Some c.
Proof.
  intros Hw Hc. rewrite (ld32_at _ _ _ _ _ _ Hw). f_equal. unfold be32, u8.
  Z.div_mod_to_equations. lia.
Qed.

Lemma changed_word lo hi m m' p c :
  changed lo hi m m' → (p + 4 ≤ lo ∨ hi ≤ p) → word_at m p c → word_at m' p c.
Proof. intros H Hd. apply (changed_bytes lo hi m m' p _ H). cbn [length]. lia. Qed.

(** ** Frames with several places *)

(** Only the places of [P] may differ, and no place is lost. *)
Definition touches (P : Z → Prop) (m m' : mem) : Prop :=
  (∀ j, ¬ P j → m' !! j = m !! j) ∧ ∀ j, is_Some (m !! j) → is_Some (m' !! j).

Section touches.
Implicit Types (P Q : Z → Prop) (m : mem) (l : list Z).

Lemma touches_refl P m : touches P m m.
Proof. done. Qed.

Lemma touches_trans P m1 m2 m3 : touches P m1 m2 → touches P m2 m3 → touches P m1 m3.
Proof. intros [A1 B1] [A2 B2]. split; [intros j Hj; by rewrite A2, A1|auto]. Qed.

Lemma touches_mono P Q m m' : touches P m m' → (∀ j, P j → Q j) → touches Q m m'.
Proof. intros [A B] H. split; [|done]. intros j Hj. apply A. intros Hp. by apply Hj, H. Qed.

Lemma touches_changed P lo hi m m' : changed lo hi m m' → (∀ j, lo ≤ j < hi → P j) → touches P m m'.
Proof. intros [A B] H. split; [|done]. intros j Hj. apply A. intros Hb. by apply Hj, H. Qed.

Lemma touches_owned P m m' a n : touches P m m' → owned m a n → owned m' a n.
Proof. intros [_ B] Ho i Hi. by apply B, Ho. Qed.

Lemma touches_bytes P m m' a l :
  touches P m m' → (∀ j, a ≤ j < a + length l → ¬ P j) → bytes_at m a l → bytes_at m' a l.
Proof.
  intros [A _] H Hb i x Hx. pose proof (lookup_lt_Some _ _ _ Hx). rewrite A; [by apply Hb|]. apply H. lia.
Qed.

Lemma touches_cstr P m m' a l :
  touches P m m' → (∀ j, a ≤ j < a + length l + 1 → ¬ P j) → cstr m a l → cstr m' a l.
Proof.
  intros Ht H [Hc Hb]. split; [done|]. apply (touches_bytes P m m' a _ Ht); [|done].
  intros j Hj. apply H. rewrite length_app in Hj. cbn [length] in Hj. lia.
Qed.

Lemma touches_word P m m' p c :
  touches P m m' → (∀ j, p ≤ j < p + 4 → ¬ P j) → word_at m p c → word_at m' p c.
Proof. intros Ht H. by apply (touches_bytes P m m' p _ Ht). Qed.
End touches.

(** ** Areas *)

(** An area is its start and its size. *)
Definition apart (x y : Z * Z) : Prop := x.1 + x.2 ≤ y.1 ∨ y.1 + y.2 ≤ x.1.

Definition inside (areas : list (Z * Z)) (j : Z) : Prop := Exists (λ x, x.1 ≤ j < x.1 + x.2) areas.

(** The same as checks. *)
Definition apartb (x y : Z * Z) : bool := (x.1 + x.2 <=? y.1) || (y.1 + y.2 <=? x.1).

Fixpoint pairs_apartb (areas : list (Z * Z)) : bool :=
  match areas with [] => true | x :: areas => forallb (apartb x) areas && pairs_apartb areas end.

Section areas.
Implicit Types (m : mem) (areas : list (Z * Z)).

Lemma forallb_apart x areas : forallb (apartb x) areas = true → Forall (apart x) areas.
Proof.
  intros H. apply List.Forall_forall. intros y Hy. pose proof (proj1 (forallb_forall _ _) H y Hy) as E.
  unfold apartb in E. unfold apart. lia.
Qed.

Lemma pairs_apart areas : pairs_apartb areas = true → ForallOrdPairs apart areas.
Proof.
  induction areas as [|x areas IH]; cbn; [constructor|]. intros [H1 H2]%andb_true_iff.
  constructor; [by apply forallb_apart|by apply IH].
Qed.

Lemma apart_inside a n areas j : Forall (apart (a, n)) areas → a ≤ j < a + n → ¬ inside areas j.
Proof.
  intros H Hj Hi. apply Exists_exists in Hi as (x & Hx & Hi). rewrite Forall_forall in H.
  specialize (H x Hx). unfold apart in H. cbn in H. lia.
Qed.

Lemma touches_write areas a n m lo l :
  In (a, n) areas → a ≤ lo → lo + length l ≤ a + n → touches (inside areas) m (write_bytes m lo l).
Proof.
  intros Hin H1 H2. eapply touches_changed; [apply (changed_write a (a + n)); lia|].
  intros j Hj. apply List.Exists_exists. by exists (a, n).
Qed.

Lemma touches_areas areas areas' m m' : touches (inside areas) m m' → incl areas areas' → touches (inside areas') m m'.
Proof. intros H Hi. eapply touches_mono; [exact H|]. intros j. by apply incl_Exists. Qed.

Lemma cstr_areas areas m m' a l :
  touches (inside areas) m m' → Forall (apart (a, length l + 1)) areas → cstr m a l → cstr m' a l.
Proof. intros Ht Ha. eapply touches_cstr; [exact Ht|]. intros j Hj. eapply apart_inside; [exact Ha|lia]. Qed.
End areas.
