(* ===== verification/Ctype.v ===== *)
(** * Character classes ([lib_generic/ctype.c], [include/linux/ctype.h])

    The 256-entry class table and the macros that test it.  Characters are
    [Z]; the macros first convert to [unsigned char]. *)

From S2P Require Import Prelude.

Definition c_U : Z := 0x01.
Definition c_L : Z := 0x02.
Definition c_D : Z := 0x04.
Definition c_C : Z := 0x08.
Definition c_P : Z := 0x10.
Definition c_S : Z := 0x20.
Definition c_X : Z := 0x40.
Definition c_SP : Z := 0x80.

Definition _ctype : list Z :=
  let U := c_U in let L := c_L in let D := c_D in let C := c_C in
  let P := c_P in let S := c_S in let X := c_X in let SP := c_SP in
  let CS := Z.lor C S in let UX := Z.lor U X in let LX := Z.lor L X in
  let SSP := Z.lor S SP in
  [C;C;C;C;C;C;C;C;
   C;CS;CS;CS;CS;CS;C;C;
   C;C;C;C;C;C;C;C;
   C;C;C;C;C;C;C;C;
   SSP;P;P;P;P;P;P;P;
   P;P;P;P;P;P;P;P;
   D;D;D;D;D;D;D;D;
   D;D;P;P;P;P;P;P;
   P;UX;UX;UX;UX;UX;UX;U;
   U;U;U;U;U;U;U;U;
   U;U;U;U;U;U;U;U;
   U;U;U;P;P;P;P;P;
   P;LX;LX;LX;LX;LX;LX;L;
   L;L;L;L;L;L;L;L;
   L;L;L;L;L;L;L;L;
   L;L;L;P;P;P;P;C;
   0;0;0;0;0;0;0;0;0;0;0;0;0;0;0;0;
   0;0;0;0;0;0;0;0;0;0;0;0;0;0;0;0;
   SSP;P;P;P;P;P;P;P;P;P;P;P;P;P;P;P;
   P;P;P;P;P;P;P;P;P;P;P;P;P;P;P;P;
   U;U;U;U;U;U;U;U;U;U;U;U;U;U;U;U;
   U;U;U;U;U;U;U;P;U;U;U;U;U;U;U;L;
   L;L;L;L;L;L;L;L;L;L;L;L;L;L;L;L;
   L;L;L;L;L;L;L;P;L;L;L;L;L;L;L;L].

(** [__ismask(x)]; the index is an [unsigned char], so it is in the table. *)
Definition ismask (c mask : Z) : bool :=
  negb (Z.land (nth (Z.to_nat (u8 c)) _ctype 0) mask =? 0).

Definition isalnum (c : Z) : bool := ismask c (Z.lor c_U (Z.lor c_L c_D)).
Definition isalpha (c : Z) : bool := ismask c (Z.lor c_U c_L).
Definition iscntrl (c : Z) : bool := ismask c c_C.
Definition isdigit (c : Z) : bool := ismask c c_D.
Definition isgraph (c : Z) : bool := ismask c (Z.lor c_P (Z.lor c_U (Z.lor c_L c_D))).
Definition islower (c : Z) : bool := ismask c c_L.
Definition isprint (c : Z) : bool :=
  ismask c (Z.lor c_P (Z.lor c_U (Z.lor c_L (Z.lor c_D c_SP)))).
Definition ispunct (c : Z) : bool := ismask c c_P.
Definition isspace (c : Z) : bool := ismask c c_S.
Definition isupper (c : Z) : bool := ismask c c_U.
Definition isxdigit (c : Z) : bool := ismask c (Z.lor c_D c_X).
Definition isascii (c : Z) : bool := u8 c <=? 0x7f.
Definition toascii (c : Z) : Z := Z.land (u8 c) 0x7f.

Definition tolower (c : Z) : Z :=
  let c := u8 c in if isupper c then u8 (c - (65 - 97)) else c.
Definition toupper (c : Z) : Z :=
  let c := u8 c in if islower c then u8 (c - (97 - 65)) else c.

(** ** The classes as intervals *)

Lemma isdigit_spec c : is_byte c → isdigit c = (48 <=? c) && (c <=? 57).
Proof.
  intros H. apply eqb_prop. revert c H.
  apply (byte_forall (λ c, Bool.eqb (isdigit c) ((48 <=? c) && (c <=? 57)))).
  vm_compute. reflexivity.
Qed.

Definition hex_char (c : Z) : bool :=
  ((48 <=? c) && (c <=? 57)) || ((65 <=? c) && (c <=? 70)) || ((97 <=? c) && (c <=? 102)).

Lemma isxdigit_spec c : is_byte c → isxdigit c = hex_char c.
Proof.
  intros H. apply eqb_prop. revert c H.
  apply (byte_forall (λ c, Bool.eqb (isxdigit c) (hex_char c))).
  vm_compute. reflexivity.
Qed.

Lemma islower_ascii c : is_byte c → c < 128 → islower c = (97 <=? c) && (c <=? 122).
Proof.
  intros H Hc. apply eqb_prop.
  pose proof (byte_forall
    (λ c, (128 <=? c) || Bool.eqb (islower c) ((97 <=? c) && (c <=? 122)))
    eq_refl c H) as Hb. cbv beta in Hb.
  destruct (Z.leb_spec 128 c); [lia|]. exact Hb.
Qed.

(** [tolower] is idempotent and leaves the string terminator alone. *)
Lemma tolower_idem c : tolower (tolower c) = tolower c.
Proof.
  assert (H : tolower c = tolower (u8 c)).
  { unfold tolower, u8. by rewrite Z.mod_mod. }
  rewrite H. apply Z.eqb_eq.
  apply (byte_forall (λ c, tolower (tolower c) =? tolower c) eq_refl _ (u8_range c)).
Qed.
