(* ===== verification/CString.v ===== *)
(** * String and memory routines ([lib_generic/string.c])

    Every function is the C one over the byte-addressed memory of the prelude;
    [None] is an access outside the memory the caller owns.  [char] is signed
    on this processor ([s8]).  The theorems state each function on strings
    ([cstr]) and blocks ([bytes_at]), and the writing functions by their exact
    effect ([write_bytes]). *)

From S2P Require Import Prelude.
From S2P Require Import Ctype.

(** ** Comparison *)

Definition strnicmp (m : mem) (s1 s2 len : Z) : option Z :=
  if len =? 0 then Some 0 else
  while (λ '(s1, s2, len),
    c1 ← ld m s1; c2 ← ld m s2;
    if c1 =? 0 then Some (Done (c1 - c2)) else
    if c2 =? 0 then Some (Done (c1 - c2)) else
    if c1 =? c2 then
      if len - 1 =? 0 then Some (Done (c1 - c2))
      else Some (Next (s1 + 1, s2 + 1, len - 1))
    else
      let c1 := tolower c1 in
      let c2 := tolower c2 in
      if negb (c1 =? c2) then Some (Done (c1 - c2)) else
      if len - 1 =? 0 then Some (Done (c1 - c2))
      else Some (Next (s1 + 1, s2 + 1, len - 1))) (s1, s2, len).

Definition strcmp (m : mem) (cs ct : Z) : option Z :=
  while (λ '(cs, ct),
    a ← ld m cs; b ← ld m ct;
    let res := s8 (s8 a - s8 b) in
    Some (if negb (res =? 0) || (a =? 0) then Done res
          else Next (cs + 1, ct + 1))) (cs, ct).

(** [strcmp] and [strncmp] against a literal of the source. *)
Definition strcmp_lit (m : mem) (cs : Z) (ct : list Z) : option Z :=
  while (λ '(cs, ct),
    a ← ld m cs;
    let b := hd 0 ct in
    let res := s8 (s8 a - s8 b) in
    Some (if negb (res =? 0) || (a =? 0) then Done res
          else Next (cs + 1, tail ct))) (cs, ct).

Definition strncmp_lit (m : mem) (cs : Z) (ct : list Z) (count : Z) : option Z :=
  while (λ '(cs, ct, count, res),
    if count =? 0 then Some (Done res) else
    a ← ld m cs;
    let b := hd 0 ct in
    let res := s8 (s8 a - s8 b) in
    Some (if negb (res =? 0) || (a =? 0) then Done res
          else Next (cs + 1, tail ct, count - 1, res))) (cs, ct, count, 0).

Definition strncmp (m : mem) (cs ct count : Z) : option Z :=
  while (λ '(cs, ct, count, res),
    if count =? 0 then Some (Done res) else
    a ← ld m cs; b ← ld m ct;
    let res := s8 (s8 a - s8 b) in
    Some (if negb (res =? 0) || (a =? 0) then Done res
          else Next (cs + 1, ct + 1, count - 1, res))) (cs, ct, count, 0).

Definition memcmp (m : mem) (cs ct count : Z) : option Z :=
  while (λ '(su1, su2, count, res),
    if negb (0 <? count) then Some (Done res) else
    a ← ld m su1; b ← ld m su2;
    let res := a - b in
    Some (if negb (res =? 0) then Done res
          else Next (su1 + 1, su2 + 1, count - 1, res))) (cs, ct, count, 0).

(** ** Lengths and searches *)

Definition strlen (m : mem) (s : Z) : option Z :=
  while (λ sc, c ← ld m sc;
    Some (if negb (c =? 0) then Next (sc + 1) else Done (sc - s))) s.

Definition strnlen (m : mem) (s count : Z) : option Z :=
  while (λ '(sc, count),
    if count =? 0 then Some (Done (sc - s)) else
    c ← ld m sc;
    Some (if negb (c =? 0) then Next (sc + 1, count - 1) else Done (sc - s)))
    (s, count).

Definition strchr (m : mem) (s c : Z) : option Z :=
  while (λ s, x ← ld m s;
    Some (if s8 x =? s8 c then Done s
          else if x =? 0 then Done NULL else Next (s + 1))) s.

Definition strrchr (m : mem) (s c : Z) : option Z :=
  n ← strlen m s;
  while (λ p, x ← ld m p;
    Some (if s8 x =? s8 c then Done p
          else if p - 1 >=? s then Next (p - 1) else Done NULL)) (s + n).

(** The inner loops of [strspn] and [strpbrk]: the first position of [x] in
    the string at [a], or the position of its terminator. *)
Definition scan_set (m : mem) (x a : Z) : option Z :=
  while (λ a, y ← ld m a;
    Some (if y =? 0 then Done a else if x =? y then Done a else Next (a + 1))) a.

Definition strspn (m : mem) (s accept : Z) : option Z :=
  while (λ '(p, count),
    x ← ld m p;
    if x =? 0 then Some (Done count) else
    a ← scan_set m x accept;
    y ← ld m a;
    Some (if y =? 0 then Done count else Next (p + 1, count + 1))) (s, 0).

Definition strpbrk (m : mem) (cs ct : Z) : option Z :=
  while (λ sc1,
    x ← ld m sc1;
    if x =? 0 then Some (Done NULL) else
    a ← scan_set m x ct;
    y ← ld m a;
    Some (if y =? 0 then Next (sc1 + 1) else Done sc1)) cs.

Definition memscan (m : mem) (addr c size : Z) : option Z :=
  while (λ '(p, size),
    if size =? 0 then Some (Done p) else
    x ← ld m p;
    Some (if x =? c then Done p else Next (p + 1, size - 1))) (addr, size).

Definition memchr (m : mem) (s c n : Z) : option Z :=
  while (λ '(p, n),
    if n =? 0 then Some (Done NULL) else
    x ← ld m p;
    Some (if u8 c =? x then Done p else Next (p + 1, n - 1))) (s, n).

Definition strstr (m : mem) (s1 s2 : Z) : option Z :=
  l2 ← strlen m s2;
  if l2 =? 0 then Some s1 else
  l1 ← strlen m s1;
  while (λ '(s1, l1),
    if negb (l1 >=? l2) then Some (Done NULL) else
    r ← memcmp m s1 s2 l2;
    Some (if r =? 0 then Done s1 else Next (s1 + 1, l1 - 1))) (s1, l1).

(** ** Copying *)

Definition memset (m : mem) (s c count : Z) : option mem :=
  while (λ '(m, xs, count),
    if count =? 0 then Some (Done m) else
    m ← st m xs c; Some (Next (m, xs + 1, count - 1))) (m, s, count).

Definition memcpy (m : mem) (dest src count : Z) : option mem :=
  while (λ '(m, tmp, s, count),
    if count =? 0 then Some (Done m) else
    x ← ld m s; m ← st m tmp x;
    Some (Next (m, tmp + 1, s + 1, count - 1))) (m, dest, src, count).

Definition bcopy (m : mem) (src dest count : Z) : option mem :=
  while (λ '(m, tmp, src, count),
    if count =? 0 then Some (Done m) else
    x ← ld m src; m ← st m tmp x;
    Some (Next (m, tmp + 1, src + 1, count - 1))) (m, dest, src, count).

Definition memmove (m : mem) (dest src count : Z) : option mem :=
  if dest <=? src then
    while (λ '(m, tmp, s, count),
      if count =? 0 then Some (Done m) else
      x ← ld m s; m ← st m tmp x;
      Some (Next (m, tmp + 1, s + 1, count - 1))) (m, dest, src, count)
  else
    while (λ '(m, tmp, s, count),
      if count =? 0 then Some (Done m) else
      x ← ld m (s - 1); m ← st m (tmp - 1) x;
      Some (Next (m, tmp - 1, s - 1, count - 1))) (m, dest + count, src + count, count).

Definition strcpy (m : mem) (dest src : Z) : option mem :=
  while (λ '(m, dest, src),
    c ← ld m src; m ← st m dest c;
    Some (if negb (c =? 0) then Next (m, dest + 1, src + 1) else Done m)) (m, dest, src).

Definition strncpy (m : mem) (dest src count : Z) : option mem :=
  while (λ '(m, dest, src, count),
    if count =? 0 then Some (Done m) else
    c ← ld m src; m ← st m dest c;
    Some (if negb (c =? 0) then Next (m, dest + 1, src + 1, count - 1)
          else Done m)) (m, dest, src, count).

Definition strcat (m : mem) (dest src : Z) : option mem :=
  d ← while (λ d, c ← ld m d;
         Some (if negb (c =? 0) then Next (d + 1) else Done d)) dest;
  while (λ '(m, dest, src),
    c ← ld m src; m ← st m dest c;
    Some (if negb (c =? 0) then Next (m, dest + 1, src + 1) else Done m)) (m, d, src).

Definition strncat (m : mem) (dest src count : Z) : option mem :=
  if count =? 0 then Some m else
  d ← while (λ d, c ← ld m d;
         Some (if negb (c =? 0) then Next (d + 1) else Done d)) dest;
  while (λ '(m, dest, src, count),
    c ← ld m src; m ← st m dest c;
    if negb (c =? 0) then
      if count - 1 =? 0 then m ← st m (dest + 1) 0; Some (Done m)
      else Some (Next (m, dest + 1, src + 1, count - 1))
    else Some (Done m)) (m, d, src, count).

Definition strswab (m : mem) (s : Z) : option (mem * Z) :=
  if s =? NULL then Some (m, NULL) else
  c ← ld m s;
  if c =? 0 then Some (m, NULL) else
  m ← while (λ '(m, p),
         a ← ld m p;
         if a =? 0 then Some (Done m) else
         b ← ld m (p + 1);
         if b =? 0 then Some (Done m) else
         m ← st m p b; m ← st m (p + 1) a;
         Some (Next (m, p + 2))) (m, s);
  Some (m, s).

(** ** Tokens

    [___strtok] is the static pointer [strtok] keeps between calls. *)

Definition strtok (m : mem) (___strtok s ct : Z) : option (mem * Z * Z) :=
  let sbegin := if negb (s =? NULL) then s else ___strtok in
  if sbegin =? NULL then Some (m, ___strtok, NULL) else
  n ← strspn m sbegin ct;
  let sbegin := sbegin + n in
  c ← ld m sbegin;
  if c =? 0 then Some (m, NULL, NULL) else
  send ← strpbrk m sbegin ct;
  if send =? NULL then Some (m, send, sbegin) else
  e ← ld m send;
  if negb (e =? 0) then m ← st m send 0; Some (m, send + 1, sbegin)
  else Some (m, send, sbegin).

(** [strsep(&s, ct)]: the new memory, the new [s] and the token. *)
Definition strsep (m : mem) (s ct : Z) : option (mem * Z * Z) :=
  if s =? NULL then Some (m, s, NULL) else
  e ← strpbrk m s ct;
  if negb (e =? NULL) then m ← st m e 0; Some (m, e + 1, s)
  else Some (m, e, s).

(** ** Searches on strings *)

(** The index of the first element that satisfies [p]. *)
Fixpoint find_index (p : Z → bool) (l : list Z) : option nat :=
  match l with
  | [] => None
  | x :: l => if p x then Some O else S <$> find_index p l
  end.

Definition ptr_of (a : Z) (o : option nat) : Z :=
  match o with Some i => a + i | None => NULL end.

Section searches.
Implicit Types (m : mem) (l k : list Z).

(** A loop that walks over a string until [p] holds or the string ends:
    [st b] is its state at address [b], [f] and [g] its results. *)
Lemma scan_find {S R} m l a (p : Z → bool) (st : Z → S)
    (body : S → option (ctl S R)) (f g : Z → R) :
  (∀ b c, m !! b = Some c → is_char c → p c = false →
     body (st b) = Some (Next (st (b + 1)))) →
  (∀ b c, m !! b = Some c → is_char c → p c = true → body (st b) = Some (Done (f b))) →
  (∀ b, m !! b = Some 0 → body (st b) = Some (Done (g b))) →
  cstr m a l → fits l → ∀ s, s = st a →
  while body s =
    Some (match find_index p l with Some i => f (a + i) | None => g (a + length l) end).
Proof.
  intros Hn Hf Hg H Hfit s ->.
  apply (while_within _ _ (Datatypes.S (length l))); [unfold fits in Hfit; lia|].
  clear Hfit. revert a H. induction l as [|c l IH]; intros a H; simpl.
  - apply cstr_nil in H. exists 1%nat. split; [lia|]. apply runs_done.
    rewrite Z.add_0_r. by apply Hg.
  - apply cstr_cons in H as (Hc & Ha & H). destruct (p c) eqn:E.
    + exists 1%nat. split; [lia|]. apply runs_done. rewrite Z.add_0_r. eauto.
    + destruct (IH _ H) as (n & Hle & Hr). exists (Datatypes.S n).
      split; [lia|]. eapply runs_next; [eauto|].
      destruct (find_index p l) as [i|]; simpl.
      * by replace (a + Datatypes.S i) with (a + 1 + i) by lia.
      * by replace (a + Datatypes.S (length l)) with (a + 1 + length l) by lia.
Qed.

Lemma find_index_none_false l : find_index (λ _, false) l = None.
Proof. induction l as [|x l IH]; simpl; [done|by rewrite IH]. Qed.

Lemma find_index_lookup p l i :
  find_index p l = Some i → ∃ x, l !! i = Some x ∧ p x = true.
Proof.
  revert i. induction l as [|x l IH]; intros i H; simpl in H; [done|].
  destruct (p x) eqn:E; simplify_eq; [by exists x|].
  destruct (find_index p l) as [j|]; simplify_eq/=. eauto.
Qed.

Lemma find_index_before p l i j x :
  find_index p l = Some i → (j < i)%nat → l !! j = Some x → p x = false.
Proof.
  revert i j. induction l as [|y l IH]; intros i j H Hj Hx; simpl in H; [done|].
  destruct (p y) eqn:E; simplify_eq; [lia|].
  destruct (find_index p l) as [i'|] eqn:E'; simplify_eq/=.
  destruct j as [|j]; simplify_eq/=; [done|]. apply (IH i' j); [done|lia|done].
Qed.

Lemma find_index_none p l : find_index p l = None ↔ Forall (λ x, p x = false) l.
Proof.
  induction l as [|x l IH]; simpl; [split; [constructor|done]|].
  rewrite Forall_cons_iff, <- IH. destruct (p x); [split; [done|by intros [? _]]|].
  destruct (find_index p l); split; try done. by intros [_ ?].
Qed.

Lemma find_index_lt p l i : find_index p l = Some i → (i < length l)%nat.
Proof. intros (x & Hx & _)%find_index_lookup. by apply lookup_lt_Some in Hx. Qed.

Lemma char_byte c : is_char c → is_byte c.
Proof. unfold is_char, is_byte. lia. Qed.

Ltac scan := intros; unfold is_char in *; repeat c_step; zbool; cbn [negb orb andb].

(** [strlen] of the string [l] is its length. *)
Lemma strlen_cstr m a l : cstr m a l → fits l → strlen m a = Some (length l : Z).
Proof.
  intros H Hf. unfold strlen.
  rewrite (scan_find m l a (λ _, false) id _ (λ b, b - a) (λ b, b - a)); try done.
  - rewrite find_index_none_false. f_equal. lia.
  - by scan.
  - by scan.
Qed.

Lemma strchr_cstr m a l c :
  cstr m a l → fits l → is_char c →
  strchr m a c = Some (ptr_of a (find_index (Z.eqb c) l)).
Proof.
  intros H Hf Hc. unfold strchr.
  rewrite (scan_find m l a (Z.eqb c) id _ id (λ _, NULL)); try done.
  - intros b x Hb Hx E. cbv [id]. repeat c_step.
    rewrite s8_inj by auto using char_byte. rewrite Z.eqb_sym, E.
    unfold is_char in Hx. by zbool.
  - intros b x Hb Hx E. cbv [id]. repeat c_step.
    rewrite s8_inj by auto using char_byte. by rewrite Z.eqb_sym, E.
  - intros b Hb. cbv [id]. repeat c_step.
    rewrite s8_inj by (auto using char_byte; red; lia).
    unfold is_char in Hc. by zbool.
Qed.

Definition in_set (k : list Z) (x : Z) : bool := bool_decide (x ∈ k).

Lemma find_index_mem x k : is_Some (find_index (Z.eqb x) k) ↔ x ∈ k.
Proof.
  split.
  - intros [i (y & Hy & E)%find_index_lookup]. apply Z.eqb_eq in E as ->.
    by eapply list_elem_of_lookup_2.
  - intros Hx. destruct (find_index (Z.eqb x) k) eqn:E; [by eexists|].
    rewrite find_index_none, List.Forall_forall in E.
    specialize (E x (proj1 (list_elem_of_In _ _) Hx)).
    by rewrite Z.eqb_refl in E.
Qed.

(** The inner loop stops on the terminator exactly when [x] is not in the set. *)
Lemma scan_set_cstr m x a k :
  cstr m a k → fits k → is_char x →
  ∃ b y, scan_set m x a = Some b ∧ m !! b = Some y ∧ (y =? 0) = negb (in_set k x).
Proof.
  intros H Hf Hx. pose proof (scan_find m k a (Z.eqb x) id
    (λ a, y ← ld m a; Some (if y =? 0 then Done a else if x =? y then Done a else Next (a + 1)))
    id id) as E.
  unfold scan_set. change (while _ a) with
    (while (λ a, y ← ld m a; Some (if y =? 0 then Done a else if x =? y then Done a else Next (a + 1))) (id a)).
  rewrite E; clear E; try done.
  2,3: intros b c Hb Hc E; cbv [id]; repeat c_step; unfold is_char in Hc; by zbool.
  2: by scan.
  destruct (find_index (Z.eqb x) k) as [i|] eqn:E.
  - destruct (find_index_lookup _ _ _ E) as (y & Hy & Hxy). apply Z.eqb_eq in Hxy as <-.
    exists (a + i), x. split; [done|]. split.
    + apply H. by apply lookup_app_l_Some.
    + unfold in_set. rewrite bool_decide_true; [|by eapply list_elem_of_lookup_2].
      unfold is_char in Hx. by zbool.
  - exists (a + length k), 0. split; [done|]. split.
    + apply (cstr_drop _ _ _ (length k)) in H; [|lia]. by rewrite drop_all, cstr_nil in H.
    + unfold in_set. rewrite bool_decide_false; [done|].
      rewrite <- find_index_mem, E. by intros [??].
Qed.

Lemma strpbrk_cstr m a l b k :
  cstr m a l → fits l → cstr m b k → fits k →
  strpbrk m a b = Some (ptr_of a (find_index (in_set k) l)).
Proof.
  intros H Hf Hk Hfk. unfold strpbrk.
  rewrite (scan_find m l a (in_set k) id _ id (λ _, NULL)); try done.
  - intros c x Hc Hx E. cbv [id]. repeat c_step.
    destruct (scan_set_cstr m x b k) as (b' & y & -> & Hb' & Hy); [done..|].
    rewrite E in Hy. unfold is_char in Hx. zbool. repeat c_step. by rewrite Hy.
  - intros c x Hc Hx E. cbv [id]. repeat c_step.
    destruct (scan_set_cstr m x b k) as (b' & y & -> & Hb' & Hy); [done..|].
    rewrite E in Hy. unfold is_char in Hx. zbool. repeat c_step. by rewrite Hy.
  - by scan.
Qed.

Lemma strspn_cstr m a l b k :
  cstr m a l → fits l → cstr m b k → fits k →
  strspn m a b =
    Some (Z.of_nat (default (length l) (find_index (λ x, negb (in_set k x)) l))).
Proof.
  intros H Hf Hk Hfk. unfold strspn.
  rewrite (scan_find m l a (λ x, negb (in_set k x)) (λ p, (p, p - a)) _
    (λ p, p - a) (λ p, p - a)); try done; [..|f_equal; lia].
  - destruct (find_index (λ x, negb (in_set k x)) l); simpl; f_equal; lia.
  - intros c x Hc Hx E. repeat c_step.
    destruct (scan_set_cstr m x b k) as (b' & y & -> & Hb' & Hy); [done..|].
    rewrite E in Hy. unfold is_char in Hx. zbool. repeat c_step. rewrite Hy.
    do 3 f_equal. lia.
  - intros c x Hc Hx E. repeat c_step.
    destruct (scan_set_cstr m x b k) as (b' & y & -> & Hb' & Hy); [done..|].
    rewrite E in Hy. unfold is_char in Hx. zbool. repeat c_step. by rewrite Hy.
  - by scan.
Qed.
End searches.

(** ** Comparison of blocks and strings *)

Fixpoint bytes_cmp (l k : list Z) : Z :=
  match l, k with
  | x :: l, y :: k => if x =? y then bytes_cmp l k else x - y
  | _, _ => 0
  end.

Lemma bytes_cmp_zero l k :
  length l = length k → (bytes_cmp l k =? 0) = bool_decide (l = k).
Proof.
  revert k. induction l as [|x l IH]; intros [|y k] H; simplify_eq/=; [done|].
  destruct (Z.eqb_spec x y) as [->|Hne].
  - rewrite IH by done. apply bool_decide_ext. split; congruence.
  - rewrite bool_decide_false by congruence. apply Z.eqb_neq. lia.
Qed.

(** What the signed-character comparison of [strcmp] answers. *)
Fixpoint str_cmp (l k : list Z) : Z :=
  match l, k with
  | [], [] => 0
  | x :: l, y :: k => if x =? y then str_cmp l k else s8 (s8 x - s8 y)
  | x :: _, [] => s8 (s8 x - s8 0)
  | [], y :: _ => s8 (s8 0 - s8 y)
  end.

Fixpoint is_prefix (k l : list Z) : bool :=
  match k, l with
  | [], _ => true
  | x :: k, y :: l => (x =? y) && is_prefix k l
  | _ :: _, [] => false
  end.

(** The first position of the list [k] inside the list [l]. *)
Fixpoint find_sub (k l : list Z) : option nat :=
  if is_prefix k l then Some O
  else match l with [] => None | _ :: l => S <$> find_sub k l end.

Section comparison.
Implicit Types (m : mem) (l k : list Z).

Lemma memcmp_bytes m a l b k :
  bytes_at m a l → bytes_at m b k → length l = length k → fits l →
  memcmp m a b (length l) = Some (bytes_cmp l k).
Proof.
  intros Hl Hk Hlen Hf. unfold memcmp.
  apply (while_within _ _ (S (length l))); [unfold fits in Hf; lia|].
  clear Hf. revert a b k Hl Hk Hlen.
  induction l as [|x l IH]; intros a b [|y k] Hl Hk Hlen; simplify_eq/=.
  - exists 1%nat. split; [lia|]. by loop_done.
  - apply bytes_at_cons in Hl as [Hx Hl]. apply bytes_at_cons in Hk as [Hy Hk].
    destruct (Z.eqb_spec x y) as [->|Hne].
    + destruct (IH (a + 1) (b + 1) k Hl Hk ltac:(lia)) as (n & Hn & Hrun).
      exists (S n). split; [lia|]. eapply runs_next; [|exact Hrun].
      cbv beta iota. zbool. cbn [negb]. repeat c_step. rewrite Z.sub_diag. simpl.
      do 5 f_equal. lia.
    + exists 1%nat. split; [lia|]. apply runs_done. cbv beta iota. zbool.
      cbn [negb]. repeat c_step. by zbool.
Qed.

Lemma strcmp_cstr m a l b k :
  cstr m a l → cstr m b k → fits l → strcmp m a b = Some (str_cmp l k).
Proof.
  intros Hl Hk Hf. unfold strcmp.
  apply (while_within _ _ (S (length l))); [unfold fits in Hf; lia|].
  clear Hf. revert a b k Hl Hk.
  induction l as [|x l IH]; intros a b [|y k] Hl Hk;
    rewrite ?cstr_nil, ?cstr_cons in Hl; rewrite ?cstr_nil, ?cstr_cons in Hk; simpl.
  - exists 1%nat. split; [lia|]. loop_done.
  - destruct Hk as (Hc & Hy & Hk). exists 1%nat. split; [lia|].
    apply runs_done. cbv beta iota. repeat c_step. by rewrite orb_true_r.
  - destruct Hl as (Hc & Hx & Hl). exists 1%nat. split; [lia|].
    apply runs_done. cbv beta iota. repeat c_step.
    rewrite s8_sub_zero by auto using char_byte with cmem.
    unfold is_char in Hc. by zbool.
  - destruct Hl as (Hc & Hx & Hl). destruct Hk as (Hc' & Hy & Hk).
    destruct (Z.eqb_spec x y) as [->|Hne].
    + destruct (IH _ _ _ Hl Hk) as (n & Hn & Hr). exists (S n). split; [lia|].
      eapply runs_next; [|exact Hr]. cbv beta iota. repeat c_step.
      rewrite s8_sub_zero by auto using char_byte. unfold is_char in Hc. by zbool.
    + exists 1%nat. split; [lia|]. apply runs_done. cbv beta iota. repeat c_step.
      rewrite s8_sub_zero by auto using char_byte. by zbool.
Qed.

Lemma strcmp_lit_cstr m a l k :
  cstr m a l → fits l → Forall is_char k → strcmp_lit m a k = Some (str_cmp l k).
Proof.
  intros Hl Hf Hk. unfold strcmp_lit.
  apply (while_within _ _ (S (length l))); [unfold fits in Hf; lia|].
  clear Hf. revert a k Hl Hk.
  induction l as [|x l IH]; intros a [|y k] Hl Hk;
    rewrite ?cstr_nil, ?cstr_cons in Hl; simpl.
  - exists 1%nat. split; [lia|]. loop_done.
  - exists 1%nat. split; [lia|].
    apply runs_done. cbv beta iota. repeat c_step. by rewrite orb_true_r.
  - destruct Hl as (Hc & Hx & Hl). exists 1%nat. split; [lia|].
    apply runs_done. cbv beta iota. repeat c_step. simpl hd.
    rewrite s8_sub_zero by auto using char_byte with cmem.
    unfold is_char in Hc. by zbool.
  - destruct Hl as (Hc & Hx & Hl). apply Forall_cons_iff in Hk as [Hc' Hk].
    destruct (Z.eqb_spec x y) as [->|Hne].
    + destruct (IH _ _ Hl Hk) as (n & Hn & Hr). exists (S n). split; [lia|].
      eapply runs_next; [|exact Hr]. cbv beta iota. repeat c_step. simpl hd.
      rewrite s8_sub_zero by auto using char_byte. unfold is_char in Hc. by zbool.
    + exists 1%nat. split; [lia|]. apply runs_done. cbv beta iota. repeat c_step. simpl hd.
      rewrite s8_sub_zero by auto using char_byte. by zbool.
Qed.

Lemma str_cmp_zero l k :
  Forall is_char l → Forall is_char k → (str_cmp l k =? 0) = bool_decide (l = k).
Proof.
  revert k. induction l as [|x l IH]; intros [|y k] Hl Hk; simpl; [done|..].
  - apply Forall_inv in Hk. rewrite s8_sub_zero by auto using char_byte with cmem.
    unfold is_char in Hk. by zbool.
  - apply Forall_inv in Hl. rewrite s8_sub_zero by auto using char_byte with cmem.
    unfold is_char in Hl. by zbool.
  - apply Forall_cons_iff in Hl as [Hx Hl], Hk as [Hy Hk].
    destruct (Z.eqb_spec x y) as [->|Hne].
    + rewrite IH by done. apply bool_decide_ext. split; congruence.
    + rewrite s8_sub_zero, bool_decide_false by (auto using char_byte; congruence).
      by zbool.
Qed.

(** [strncmp] answers zero exactly when the first [n] characters agree. *)
Lemma strncmp_prefix m a l b k n :
  cstr m a l → cstr m b k → (n ≤ length l)%nat → fits l →
  ∃ r, strncmp m a b n = Some r ∧ (r =? 0) = is_prefix (take n l) k.
Proof.
  intros Hl Hk Hn Hf. unfold strncmp.
  apply (while_within_ex _ _ (S n)); [unfold fits in Hf; lia|].
  clear Hf. revert a b l k Hl Hk Hn. induction n as [|n IH]; intros a b l k Hl Hk Hn.
  - exists 1%nat, 0. split; [lia|]. split; [loop_done|done].
  - destruct l as [|x l]; [simpl in Hn; lia|]. apply cstr_cons in Hl as (Hc & Hx & Hl).
    simpl take. destruct k as [|y k]; rewrite ?cstr_nil, ?cstr_cons in Hk; simpl is_prefix.
    + exists 1%nat, (s8 (s8 x - s8 0)). split; [lia|].
      rewrite s8_sub_zero by auto using char_byte with cmem. unfold is_char in Hc.
      split; [|by zbool]. apply runs_done. cbv beta iota. zbool. repeat c_step.
      rewrite s8_sub_zero by auto using char_byte with cmem. by zbool.
    + destruct Hk as (Hc' & Hy & Hk). destruct (Z.eqb_spec x y) as [->|Hne]; simpl.
      * destruct (IH (a + 1) (b + 1) l k Hl Hk ltac:(simpl in Hn; lia))
          as (j & r & Hj & Hr & E).
        exists (S j), r. split; [lia|]. split; [|done].
        eapply runs_next; [|exact Hr]. cbv beta iota. zbool. repeat c_step.
        rewrite s8_sub_zero by auto using char_byte. unfold is_char in Hc. zbool.
        rewrite Z.sub_diag. cbn [negb orb]. do 5 f_equal. lia.
      * exists 1%nat, (s8 (s8 x - s8 y)). split; [lia|].
        rewrite s8_sub_zero by auto using char_byte. split; [|by zbool].
        apply runs_done. cbv beta iota. zbool. repeat c_step.
        rewrite s8_sub_zero by auto using char_byte. by zbool.
Qed.

Lemma strncmp_lit_prefix m a l k n :
  cstr m a l → Forall is_char k → length k = n → Z.of_nat n < 4294967296 →
  ∃ r, strncmp_lit m a k n = Some r ∧ (r =? 0) = is_prefix k l.
Proof.
  intros Hl Hk Hn Hf. unfold strncmp_lit.
  apply (while_within_ex _ _ (S n)); [lia|].
  clear Hf. revert a l k Hl Hk Hn. induction n as [|n IH]; intros a l k Hl Hk Hn.
  - destruct k; [|done]. exists 1%nat, 0. split; [lia|]. split; [loop_done|done].
  - destruct k as [|y k]; [done|]. simpl in Hn. apply Forall_cons_iff in Hk as [Hc Hk].
    destruct l as [|x l]; rewrite ?cstr_nil, ?cstr_cons in Hl; simpl is_prefix.
    + exists 1%nat, (s8 (s8 0 - s8 y)). split; [lia|].
      rewrite s8_sub_zero by auto using char_byte with cmem. unfold is_char in Hc.
      split; [|by zbool]. apply runs_done. cbv beta iota. zbool. repeat c_step. simpl hd.
      by rewrite orb_true_r.
    + destruct Hl as (Hc' & Hx & Hl). destruct (Z.eqb_spec y x) as [->|Hne]; simpl.
      * destruct (IH (a + 1) l k Hl Hk ltac:(lia)) as (j & r & Hj & Hr & E).
        exists (S j), r. split; [lia|]. split; [|done].
        eapply runs_next; [|exact Hr]. cbv beta iota. zbool. repeat c_step. simpl hd.
        rewrite s8_sub_zero by auto using char_byte. unfold is_char in Hc. zbool.
        rewrite Z.sub_diag. cbn [negb orb tail]. do 5 f_equal. lia.
      * exists 1%nat, (s8 (s8 x - s8 y)). split; [lia|].
        rewrite s8_sub_zero by auto using char_byte. split; [|by zbool].
        apply runs_done. cbv beta iota. zbool. repeat c_step. simpl hd.
        rewrite s8_sub_zero by auto using char_byte. by zbool.
Qed.

Lemma is_prefix_take k l :
  (length k ≤ length l)%nat → is_prefix k l = bool_decide (take (length k) l = k).
Proof.
  revert l. induction k as [|x k IH]; intros l H; simpl; [done|].
  destruct l as [|y l]; simpl in *; [lia|]. rewrite IH by lia.
  destruct (Z.eqb_spec x y) as [->|Hne]; simpl.
  - apply bool_decide_ext. split; congruence.
  - symmetry. apply bool_decide_eq_false. congruence.
Qed.

Lemma is_prefix_long k l : (length l < length k)%nat → is_prefix k l = false.
Proof.
  revert l. induction k as [|x k IH]; intros [|y l] H; simpl in *; try (done || lia).
  rewrite IH by lia. apply andb_false_r.
Qed.

Lemma find_sub_long k l : (length l < length k)%nat → find_sub k l = None.
Proof.
  induction l as [|y l IH]; intros H; simpl; rewrite is_prefix_long by done; [done|].
  by rewrite IH by (simpl in H; lia).
Qed.
End comparison.

(** ** Copying *)

Section copying.
Implicit Types (m : mem) (l k : list Z).

(** One forward copying loop serves [memcpy], [bcopy] and [memmove]. *)
Lemma memcpy_bytes m dest src l :
  Forall is_byte l → bytes_at m src l → owned m dest (length l) → fits l →
  (dest ≤ src ∨ src + length l ≤ dest) →
  memcpy m dest src (length l) = Some (write_bytes m dest l).
Proof.
  intros Hb Hl Ho Hf Hd. unfold memcpy.
  apply (while_within _ _ (S (length l))); [unfold fits in Hf; lia|].
  clear Hf. revert m dest src Hl Ho Hd.
  induction Hb as [|x l Hx Hb IH]; intros m dest src Hl Ho Hd.
  - exists 1%nat. split; [lia|]. loop_done.
  - apply bytes_at_cons in Hl as [Hs Hl].
    assert (Hst : is_Some (m !! dest)).
    { rewrite <- (Z.add_0_r dest). apply Ho. simpl. lia. }
    destruct (IH (<[dest := x]> m) (dest + 1) (src + 1)) as (n & Hn & Hr).
    + apply bytes_at_insert_out; [simpl in Hd; lia|done].
    + apply owned_insert. eapply owned_mono; [exact Ho|lia|simpl; lia].
    + simpl in Hd. lia.
    + exists (S n). split; [simpl; lia|]. eapply runs_next; [|exact Hr].
      simpl length. cbv beta iota. zbool. repeat c_step. rewrite u8_byte by done.
      do 4 f_equal. lia.
Qed.

(** [memmove] copies correctly whatever the overlap. *)
Lemma memmove_bytes m dest src l :
  Forall is_byte l → bytes_at m src l → owned m dest (length l) → fits l →
  memmove m dest src (length l) = Some (write_bytes m dest l).
Proof.
  intros Hb Hl Ho Hf. unfold memmove. destruct (Z.leb_spec dest src) as [Hd|Hd].
  { by apply memcpy_bytes; auto. }
  apply (while_within _ _ (S (length l))); [unfold fits in Hf; lia|].
  clear Hf. revert m Hl Ho.
  induction l as [|x l IH] using rev_ind; intros m Hl Ho.
  - exists 1%nat. split; [lia|]. simpl. loop_done.
  - apply Forall_app in Hb as [Hb Hx]. apply Forall_inv in Hx.
    apply bytes_at_app in Hl as [Hl Hs]. apply bytes_at_singleton in Hs.
    rewrite length_app in *. simpl length in *.
    assert (Hst : is_Some (m !! (dest + length l))) by (apply Ho; lia).
    destruct (IH Hb (<[dest + length l := x]> m)) as (n & Hn & Hr).
    + apply bytes_at_insert_out; [lia|done].
    + apply owned_insert. eapply owned_mono; [exact Ho|lia|lia].
    + exists (S n). split; [lia|]. eapply runs_next; [|].
      * cbv beta iota. zbool.
        replace (dest + (length l + 1)%nat - 1) with (dest + length l) by lia.
        replace (src + (length l + 1)%nat - 1) with (src + length l) by lia.
        replace ((length l + 1)%nat - 1) with (length l : Z) by lia.
        repeat c_step. rewrite u8_byte by done. reflexivity.
      * rewrite write_bytes_snoc, <- write_bytes_insert_comm by lia. exact Hr.
Qed.

Lemma memset_bytes m s c (n : nat) :
  owned m s n → Z.of_nat n < 4294967296 →
  memset m s c n = Some (write_bytes m s (replicate n (u8 c))).
Proof.
  intros Ho Hf. unfold memset. apply (while_within _ _ (S n)); [lia|].
  clear Hf. revert m s Ho. induction n as [|n IH]; intros m s Ho.
  - exists 1%nat. split; [lia|]. loop_done.
  - assert (Hst : is_Some (m !! s)).
    { rewrite <- (Z.add_0_r s). apply Ho. lia. }
    destruct (IH (<[s := u8 c]> m) (s + 1)) as (j & Hj & Hr).
    + apply owned_insert. eapply owned_mono; [exact Ho|lia|lia].
    + exists (S j). split; [lia|]. eapply runs_next; [|exact Hr].
      cbv beta iota. zbool. repeat c_step. do 3 f_equal. lia.
Qed.

(** [strcpy] into owned memory that the source does not overlap. *)
Lemma strcpy_cstr m dest src l :
  cstr m src l → owned m dest (length l + 1) → fits l →
  (dest ≤ src ∨ src + length l < dest) →
  strcpy m dest src = Some (write_bytes m dest (l ++ [0])).
Proof.
  intros Hl Ho Hf Hd. unfold strcpy.
  apply (while_within _ _ (S (length l))); [unfold fits in Hf; lia|].
  clear Hf. revert m dest src Hl Ho Hd.
  induction l as [|x l IH]; intros m dest src Hl Ho Hd;
    (assert (Hst : is_Some (m !! dest));
      [rewrite <- (Z.add_0_r dest); apply Ho; simpl; lia|]).
  - apply cstr_nil in Hl. exists 1%nat. split; [lia|]. simpl. loop_done.
  - apply cstr_cons in Hl as (Hx & Hs & Hl). simpl length in *.
    destruct (IH (<[dest := x]> m) (dest + 1) (src + 1)) as (n & Hn & Hr).
    + apply cstr_insert_out; [lia|done].
    + apply owned_insert. eapply owned_mono; [exact Ho|lia|lia].
    + lia.
    + exists (S n). split; [lia|]. eapply runs_next; [|exact Hr].
      cbv beta iota. repeat c_step. rewrite u8_char by done.
      unfold is_char in Hx. by zbool.
Qed.

(** [strncpy] copies at most [n] bytes and does not pad. *)
Lemma strncpy_cstr m dest src l (n : nat) :
  cstr m src l → owned m dest n → Z.of_nat n < 4294967296 →
  (dest ≤ src ∨ src + length l < dest) →
  strncpy m dest src n = Some (write_bytes m dest (take n (l ++ [0]))).
Proof.
  intros Hl Ho Hf Hd. unfold strncpy.
  apply (while_within _ _ (S n)); [lia|].
  clear Hf. revert m dest src n Hl Ho Hd.
  induction l as [|x l IH]; intros m dest src [|n] Hl Ho Hd;
    try (exists 1%nat; split; [lia|]; simpl; loop_done);
    (assert (Hst : is_Some (m !! dest));
      [rewrite <- (Z.add_0_r dest); apply Ho; simpl; lia|]).
  - apply cstr_nil in Hl. exists 1%nat. split; [lia|]. simpl. rewrite firstn_nil.
    loop_done.
  - apply cstr_cons in Hl as (Hx & Hs & Hl). simpl length in *.
    destruct (IH (<[dest := x]> m) (dest + 1) (src + 1) n) as (j & Hj & Hr).
    + apply cstr_insert_out; [lia|done].
    + apply owned_insert. eapply owned_mono; [exact Ho|lia|lia].
    + lia.
    + exists (S j). split; [lia|]. eapply runs_next; [|exact Hr].
      cbv beta iota. zbool. repeat c_step. rewrite u8_char by done.
      unfold is_char in Hx. zbool. cbn [negb]. do 4 f_equal. lia.
Qed.

Lemma seek_nul m a l :
  cstr m a l → fits l →
  while (λ d, c ← ld m d; Some (if negb (c =? 0) then Next (d + 1) else Done d)) a =
    Some (a + length l).
Proof.
  intros H Hf. rewrite (scan_find m l a (λ _, false) id _ id id); try done.
  - by rewrite find_index_none_false.
  - intros b c Hb Hc _. cbv [id]. repeat c_step. unfold is_char in Hc. by zbool.
  - intros b Hb. cbv [id]. by repeat c_step.
Qed.

(** [strcat] appends: afterwards [dest] holds the concatenation. *)
Lemma strcat_cstr m dest src l k :
  cstr m dest l → cstr m src k → fits l → fits k →
  owned m dest (length l + length k + 1) →
  (dest + length l ≤ src ∨ src + length k < dest) →
  strcat m dest src = Some (write_bytes m (dest + length l) (k ++ [0])).
Proof.
  intros Hl Hk Hf Hfk Ho Hd. unfold strcat. rewrite (seek_nul _ _ l) by done.
  rewrite some_bind. apply strcpy_cstr; [done| |done|lia].
  eapply owned_mono; [exact Ho|lia|lia].
Qed.

Lemma strstr_cstr m a l b k :
  cstr m a l → cstr m b k → fits l → fits k →
  strstr m a b = Some (ptr_of a (find_sub k l)).
Proof.
  intros Hl Hk Hf Hfk. unfold strstr.
  rewrite (strlen_cstr m b k), (strlen_cstr m a l) by done. rewrite !some_bind.
  destruct k as [|y k]; [by destruct l; simpl; rewrite Z.add_0_r|].
  remember (y :: k) as k' eqn:E. assert (0 < length k')%nat by (subst; simpl; lia).
  clear E. zbool.
  apply (while_within _ _ (S (length l))); [unfold fits in Hf; lia|].
  clear Hf. revert a Hl. induction l as [|x l IH]; intros a Hl.
  - exists 1%nat. split; [lia|]. rewrite find_sub_long by (simpl; lia).
    apply runs_done. cbv beta iota. rewrite Z.geb_leb. simpl length in *. by zbool.
  - destruct (decide (length (x :: l) < length k')%nat) as [Hlt|Hge].
    + exists 1%nat. split; [lia|]. rewrite find_sub_long by done.
      apply runs_done. cbv beta iota. rewrite Z.geb_leb. simpl length in *. by zbool.
    + assert (Hm : memcmp m a b (length k') =
                 Some (bytes_cmp (take (length k') (x :: l)) k')).
      { pose proof (length_take_le (x :: l) (length k') ltac:(lia)) as Ht.
        rewrite <- Ht at 1. apply memcmp_bytes; [|by apply cstr_bytes|done|].
        - by apply bytes_at_take, cstr_bytes.
        - unfold fits. rewrite Ht. done. }
      pose proof (length_take_le (x :: l) (length k') ltac:(lia)) as Ht.
      pose proof (bytes_cmp_zero _ _ Ht) as Hz.
      simpl find_sub. rewrite is_prefix_take by lia.
      case_bool_decide as Hp.
      * exists 1%nat. split; [lia|]. apply runs_done. cbv beta iota.
        rewrite Z.geb_leb. zbool. cbn [negb]. rewrite Hm, some_bind, Hz.
        simpl ptr_of. by rewrite Z.add_0_r.
      * apply cstr_cons in Hl as (Hc & Hx & Hl).
        destruct (IH _ Hl) as (n & Hn & Hr). exists (S n). split; [simpl; lia|].
        eapply runs_next.
        { cbv beta iota. rewrite Z.geb_leb. zbool. cbn [negb].
          rewrite Hm, some_bind, Hz. reflexivity. }
        replace (length (x :: l) - 1) with (length l : Z) by (simpl; lia).
        replace (ptr_of a (S <$> find_sub k' l)) with (ptr_of (a + 1) (find_sub k' l));
          [done|]. destruct (find_sub k' l); simpl; [lia|done].
Qed.

(** [strsep] cuts the string at the first delimiter and moves past it. *)
Lemma strsep_cut m s l b k i :
  cstr m s l → fits l → cstr m b k → fits k → s ≠ NULL → 0 < s →
  find_index (in_set k) l = Some i →
  strsep m s b = Some (<[s + i := 0]> m, s + i + 1, s) ∧
  cstr (<[s + i := 0]> m) s (take i l) ∧
  cstr (<[s + i := 0]> m) (s + i + 1) (drop (S i) l).
Proof.
  intros Hl Hf Hk Hfk Hs Hpos Hi. unfold strsep.
  assert (Hlt := find_index_lt _ _ _ Hi).
  rewrite (strpbrk_cstr m s l b k), Hi by done. unfold NULL in *. zbool.
  rewrite some_bind. simpl ptr_of. zbool. cbn [negb].
  destruct (lookup_lt_is_Some_2 l i Hlt) as [x Hx].
  assert (Hm : m !! (s + i) = Some x) by (apply Hl; by apply lookup_app_l_Some).
  rewrite st_bind by eauto. split; [done|]. split.
  - destruct Hl as [Hc Hl]. split; [by apply Forall_take|].
    apply bytes_at_app. rewrite length_take_le by lia. split.
    + apply bytes_at_insert_out; [rewrite length_take; lia|].
      apply bytes_at_app in Hl as [Hl _]. by apply bytes_at_take.
    + apply bytes_at_singleton. apply lookup_insert_eq.
  - apply cstr_insert_out; [lia|].
    replace (s + i + 1) with (s + (S i)%nat) by lia. apply cstr_drop; [done|lia].
Qed.
End copying.

(** ** Theorems *)

(** [memmove] moves a block whatever the overlap of the two regions: the
    destination holds the old contents of the source and nothing else has
    changed. *)
Lemma memmove_overlap m dest src l :
  Forall is_byte l → bytes_at m src l → owned m dest (length l) → fits l →
  ∃ m', memmove m dest src (length l) = Some m' ∧ bytes_at m' dest l ∧
        ∀ j, ¬ (dest ≤ j < dest + length l) → m' !! j = m !! j.
Proof.
  intros. eexists. split; [by apply memmove_bytes|].
  split; [apply write_bytes_in|]. intros. by apply write_bytes_out.
Qed.

Lemma is_prefix_spec k l : is_prefix k l = true ↔ k `prefix_of` l.
Proof.
  revert l. induction k as [|x k IH]; intros l; simpl.
  - split; [intros _; apply prefix_nil|done].
  - destruct l as [|y l]; [split; [done|by intros ?%prefix_nil_not]|].
    rewrite andb_true_iff, IH, Z.eqb_eq. split.
    + intros [-> ?]. by apply prefix_cons.
    + intros H. split; [by eapply prefix_cons_inv_1|by eapply prefix_cons_inv_2].
Qed.

Lemma find_sub_spec k l :
  match find_sub k l with
  | Some i => (i ≤ length l)%nat ∧ k `prefix_of` drop i l ∧
      ∀ j, (j < i)%nat → ¬ k `prefix_of` drop j l
  | None => ∀ j, (j ≤ length l)%nat → ¬ k `prefix_of` drop j l
  end.
Proof.
  induction l as [|x l IH]; simpl;
    (destruct (is_prefix k _) eqn:E;
      [apply is_prefix_spec in E; split; [lia|]; split; [done|]; intros; lia|]);
    assert (Hn : ¬ k `prefix_of` _) by (intros Hp%is_prefix_spec; rewrite E in Hp; done).
  - intros [|j] Hj; [done|lia].
  - destruct (find_sub k l) as [i|]; simpl.
    + destruct IH as (Hi & Hp & Hb). split; [lia|]. split; [done|].
      intros [|j] Hj; [done|]. apply Hb. lia.
    + intros [|j] Hj; [done|]. apply IH. lia.
Qed.

(** [strstr] answers the first place where the second string occurs in
    the first, and [NULL] exactly when it occurs nowhere. *)
Lemma strstr_first m a l b k :
  cstr m a l → cstr m b k → fits l → fits k →
  (∃ i : nat, strstr m a b = Some (a + i) ∧ k `prefix_of` drop i l ∧
     ∀ j, (j < i)%nat → ¬ k `prefix_of` drop j l) ∨
  (strstr m a b = Some NULL ∧ ∀ j, (j ≤ length l)%nat → ¬ k `prefix_of` drop j l).
Proof.
  intros. rewrite (strstr_cstr m a l b k) by done. pose proof (find_sub_spec k l) as Hs.
  destruct (find_sub k l) as [i|]; [left|by right]. exists i. tauto.
Qed.

(** [strcmp] on two strings terminates inside them and answers zero
    exactly when they are equal. *)
Theorem strcmp_zero_iff m a l b k :
  cstr m a l → cstr m b k → fits l →
  ∃ r, strcmp m a b = Some r ∧ (r = 0 ↔ l = k).
Proof.
  intros Hl Hk Hf. eexists. split; [by apply strcmp_cstr|].
  pose proof (str_cmp_zero l k (proj1 Hl) (proj1 Hk)) as H.
  rewrite <- Z.eqb_eq, H. apply bool_decide_eq_true.
Qed.

(** [strsep] takes one token: it ends the token at the first delimiter
    with a NUL and moves the cursor behind it; without a delimiter the token
    is the whole string and the cursor becomes [NULL]. *)
Theorem strsep_token m s l b k :
  cstr m s l → fits l → cstr m b k → fits k → 0 < s →
  match find_index (in_set k) l with
  | Some i => ∃ m', strsep m s b = Some (m', s + i + 1, s) ∧
      cstr m' s (take i l) ∧ cstr m' (s + i + 1) (drop (S i) l) ∧
      (∃ c, l !! i = Some c ∧ c ∈ k) ∧ (∀ j c, (j < i)%nat → l !! j = Some c → c ∉ k)
  | None => strsep m s b = Some (m, NULL, s)
  end.
Proof.
  intros Hl Hf Hk Hfk Hs. destruct (find_index (in_set k) l) as [i|] eqn:E.
  - destruct (strsep_cut m s l b k i Hl Hf Hk Hfk) as (E1 & E2 & E3);
      [unfold NULL; lia|done|done|].
    eexists. split; [exact E1|]. split; [done|]. split; [done|]. split.
    + destruct (find_index_lookup _ _ _ E) as (c & Hc & Hin). exists c.
      split; [done|by apply bool_decide_eq_true in Hin].
    + intros j c Hj Hc. pose proof (find_index_before _ _ _ _ _ E Hj Hc) as Hb.
      by apply bool_decide_eq_false in Hb.
  - unfold strsep. rewrite (strpbrk_cstr m s l b k), E by done. unfold NULL. zbool. done.
Qed.
