(* ===== verification/Vsprintf.v ===== *)
(** * Number parsing and formatted output ([lib_generic/vsprintf.c])

    [simple_strtoul] and [simple_strtol] with their end pointers, the digit
    printer [number] and the format interpreter [vsprintf] over the memory of
    the prelude.  A [va_list] is the list of the argument words; an argument
    that is not there is a fault.  [CFG_64BIT_VSPRINTF] and
    [CFG_64BIT_STRTOUL] are not set for this board. *)

From S2P Require Import Prelude.
From S2P Require Import Ctype.
From S2P Require Import CString.

(** ** Parsing *)

Definition digit_value (c : Z) : Z :=
  if isdigit c then c - 48
  else (if islower c then toupper c else c) - 65 + 10.

(** The result and the final [*endp]. *)
Definition simple_strtoul (m : mem) (cp base : Z) : option (Z * Z) :=
  c ← ld m cp;
  '(cp, base) ←
    (if c =? 48 then
       let cp := cp + 1 in
       c ← ld m cp;
       hex ← (if c =? 120 then c1 ← ld m (cp + 1); Some (isxdigit c1) else Some false);
       let '(cp, base) := if hex : bool then (cp + 1, 16) else (cp, base) in
       Some (cp, if base =? 0 then 8 else base)
     else Some (cp, base));
  let base := if base =? 0 then 10 else base in
  while (λ '(cp, result),
    c ← ld m cp;
    Some (if isxdigit c && (digit_value c <? base)
          then Next (cp + 1, u32 (result * base + digit_value c))
          else Done (result, cp))) (cp, 0).

Definition simple_strtol (m : mem) (cp base : Z) : option (Z * Z) :=
  c ← ld m cp;
  if c =? 45 then
    '(r, e) ← simple_strtoul m (cp + 1) base; Some (s32 (- r), e)
  else
    '(r, e) ← simple_strtoul m cp base; Some (s32 r, e).

(** ** Printing a number *)

Definition is_digit (c : Z) : bool := (48 <=? c) && (c <=? 57).

Definition skip_atoi (m : mem) (s : Z) : option (Z * Z) :=
  while (λ '(s, i),
    c ← ld m s;
    Some (if is_digit c then Next (s + 1, i * 10 + c - 48) else Done (i, s))) (s, 0).

Definition ZEROPAD : Z := 1.
Definition SIGN : Z := 2.
Definition PLUS : Z := 4.
Definition SPACE : Z := 8.
Definition LEFT : Z := 16.
Definition SPECIAL : Z := 32.
Definition LARGE : Z := 64.

Definition flag (ty f : Z) : bool := negb (Z.land ty f =? 0).

(** [digits[d]] of the two digit alphabets. *)
Definition digit_char (large : bool) (d : Z) : Z :=
  if d <? 10 then 48 + d else (if large then 65 else 97) + d - 10.

(** [while (size-- > 0) *str++ = c]: memory, [str] and [size] afterwards. *)
Definition pad (m : mem) (str c size : Z) : option (mem * Z * Z) :=
  while (λ '(m, str, size),
    if size >? 0 then m ← st m str c; Some (Next (m, str + 1, size - 1))
    else Some (Done (m, str, size - 1))) (m, str, size).

(** The buffer [tmp]: the digits of [num], least significant first. *)
Definition num_digits (large : bool) (num base : Z) : option (list Z) :=
  if num =? 0 then Some [48] else
  while (λ '(num, tmp),
    if negb (num =? 0) then
      Some (Next (s32 (u32 num / base), tmp ++ [digit_char large (u32 num mod base)]))
    else Some (Done tmp)) (num, []).

(** [while (i-- > 0) *str++ = tmp[i]] *)
Definition put_digits (m : mem) (str : Z) (tmp : list Z) : option (mem * Z) :=
  while (λ '(m, str, i),
    if i >? 0 then
      c ← tmp !! Z.to_nat (i - 1); m ← st m str c; Some (Next (m, str + 1, i - 1))
    else Some (Done (m, str))) (m, str, Z.of_nat (length tmp)).

Definition put (m : mem) (str c : Z) : option (mem * Z) :=
  m ← st m str c; Some (m, str + 1).

Definition number (m : mem) (str num base size precision type : Z) : option (mem * Z) :=
  let large := flag type LARGE in
  let type := if flag type LEFT then Z.land type (Z.lnot ZEROPAD) else type in
  if (base <? 2) || (base >? 36) then Some (m, 0) else
  let c := if flag type ZEROPAD then 48 else 32 in
  let '(sign, num, size) :=
    if flag type SIGN then
      if num <? 0 then (45, s32 (- num), size - 1)
      else if flag type PLUS then (43, num, size - 1)
      else if flag type SPACE then (32, num, size - 1)
      else (0, num, size)
    else (0, num, size) in
  let size :=
    if flag type SPECIAL then
      if base =? 16 then size - 2 else if base =? 8 then size - 1 else size
    else size in
  tmp ← num_digits large num base;
  let i := Z.of_nat (length tmp) in
  let precision := if i >? precision then i else precision in
  let size := size - precision in
  '(m, str, size) ←
    (if negb (flag type (ZEROPAD + LEFT)) then pad m str 32 size else Some (m, str, size));
  '(m, str) ← (if negb (sign =? 0) then put m str sign else Some (m, str));
  '(m, str) ←
    (if flag type SPECIAL then
       if base =? 8 then put m str 48
       else if base =? 16 then
         '(m, str) ← put m str 48; put m str (digit_char large 33)
       else Some (m, str)
     else Some (m, str));
  '(m, str, size) ←
    (if negb (flag type LEFT) then pad m str c size else Some (m, str, size));
  '(m, str, _) ← pad m str 48 (precision - i);
  '(m, str) ← put_digits m str tmp;
  '(m, str, _) ← pad m str 32 size;
  Some (m, str).

(** ** The format interpreter *)

(** The flag loop after [%]; the pointer is at the [%] on entry. *)
Definition get_flags (m : mem) (fmt : Z) : option (Z * Z) :=
  while (λ '(fmt, flags),
    let fmt := fmt + 1 in
    c ← ld m fmt;
    Some (if c =? 45 then Next (fmt, Z.lor flags LEFT)
          else if c =? 43 then Next (fmt, Z.lor flags PLUS)
          else if c =? 32 then Next (fmt, Z.lor flags SPACE)
          else if c =? 35 then Next (fmt, Z.lor flags SPECIAL)
          else if c =? 48 then Next (fmt, Z.lor flags ZEROPAD)
          else Done (fmt, flags))) (fmt, 0).

Definition va_arg (args : list Z) : option (Z * list Z) :=
  match args with a :: args => Some (a, args) | [] => None end.

(** Field width: pointer, width, flags, remaining arguments. *)
Definition get_width (m : mem) (fmt flags : Z) (args : list Z)
    : option (Z * Z * Z * list Z) :=
  c ← ld m fmt;
  if is_digit c then '(w, fmt) ← skip_atoi m fmt; Some (fmt, w, flags, args)
  else if c =? 42 then
    '(a, args) ← va_arg args;
    let w := s32 a in
    Some (if w <? 0 then (fmt + 1, s32 (- w), Z.lor flags LEFT, args)
          else (fmt + 1, w, flags, args))
  else Some (fmt, -1, flags, args).

Definition get_precision (m : mem) (fmt : Z) (args : list Z) : option (Z * Z * list Z) :=
  c ← ld m fmt;
  if c =? 46 then
    let fmt := fmt + 1 in
    c ← ld m fmt;
    '(fmt, p, args) ←
      (if is_digit c then '(p, fmt) ← skip_atoi m fmt; Some (fmt, p, args)
       else if c =? 42 then '(a, args) ← va_arg args; Some (fmt + 1, s32 a, args)
       else Some (fmt, -1, args));
    Some (fmt, if p <? 0 then 0 else p, args)
  else Some (fmt, -1, args).

(** The text [vsprintf] prints for a null string pointer. *)
Definition null_text : list Z := [60; 78; 85; 76; 76; 62].

(** [for (i = 0; i < len; ++i) *str++ = *s++], where a null [s] stands for the
    literal ["<NULL>"]. *)
Definition put_string (m : mem) (str s len : Z) : option (mem * Z) :=
  while (λ '(m, str, i),
    if i <? len then
      c ← (if s =? NULL then null_text !! Z.to_nat i else ld m (s + i));
      m ← st m str c; Some (Next (m, str + 1, i + 1))
    else Some (Done (m, str))) (m, str, 0).

(** One conversion specification, the pointer at its [%]: the memory, [str],
    [fmt] (before the [++fmt] of the loop) and the arguments left. *)
Definition vsprintf_conv (m : mem) (buf str fmt : Z) (args : list Z)
    : option (mem * Z * Z * list Z) :=
  '(fmt, flags) ← get_flags m fmt;
  '(fmt, field_width, flags, args) ← get_width m fmt flags args;
  '(fmt, precision, args) ← get_precision m fmt args;
  c ← ld m fmt;
  let '(qualifier, fmt) :=
    if (c =? 104) || (c =? 108) || (c =? 113) then (c, fmt + 1) else (-1, fmt) in
  c ← ld m fmt;
  let num_conv base flags :=
    '(a, args) ← va_arg args;
    let num :=
      if qualifier =? 108 then u32 a
      else if qualifier =? 104 then
        (if flag flags SIGN then u32 (s16 (u16 a)) else u16 a)
      else if flag flags SIGN then u32 (s32 a) else u32 a in
    '(m, str) ← number m str (s32 num) base field_width precision flags;
    Some (m, str, fmt, args) in
  if c =? 99 then                                             (* c *)
    '(m, str, field_width) ←
      (if negb (flag flags LEFT) then
         '(m, str, w) ← pad m str 32 (field_width - 1); Some (m, str, w + 1)
       else Some (m, str, field_width));
    '(a, args) ← va_arg args;
    '(m, str) ← put m str a;
    '(m, str, _) ← pad m str 32 (field_width - 1);
    Some (m, str, fmt, args)
  else if c =? 115 then                                       (* s *)
    '(s, args) ← va_arg args;
    len ← (if s =? NULL then Some (Z.min 6 (u32 precision)) else strnlen m s (u32 precision));
    '(m, str, field_width) ←
      (if negb (flag flags LEFT) then
         '(m, str, w) ← pad m str 32 (field_width - len); Some (m, str, w + len)
       else Some (m, str, field_width));
    '(m, str) ← put_string m str s len;
    '(m, str, _) ← pad m str 32 (field_width - len);
    Some (m, str, fmt, args)
  else if c =? 112 then                                       (* p *)
    let '(field_width, flags) :=
      if field_width =? -1 then (8, Z.lor flags ZEROPAD) else (field_width, flags) in
    '(a, args) ← va_arg args;
    '(m, str) ← number m str (s32 (u32 a)) 16 field_width precision flags;
    Some (m, str, fmt, args)
  else if c =? 110 then                                       (* n *)
    '(ip, args) ← va_arg args;
    m ← st32 m ip (str - buf);
    Some (m, str, fmt, args)
  else if c =? 37 then                                        (* % *)
    '(m, str) ← put m str 37; Some (m, str, fmt, args)
  else if c =? 111 then num_conv 8 flags                      (* o *)
  else if c =? 88 then num_conv 16 (Z.lor flags LARGE)        (* X *)
  else if c =? 120 then num_conv 16 flags                     (* x *)
  else if (c =? 100) || (c =? 105) then num_conv 10 (Z.lor flags SIGN)  (* d, i *)
  else if c =? 117 then num_conv 10 flags                     (* u *)
  else
    '(m, str) ← put m str 37;
    if negb (c =? 0) then '(m, str) ← put m str c; Some (m, str, fmt, args)
    else Some (m, str, fmt - 1, args).

(** One round over the format. *)
Definition vsprintf_round (buf : Z)
    : mem * Z * Z * list Z → option (ctl (mem * Z * Z * list Z) (mem * Z)) :=
  λ '(m, str, fmt, args),
    c ← ld m fmt;
    if c =? 0 then m ← st m str 0; Some (Done (m, str - buf))
    else if negb (c =? 37) then
      m ← st m str c; Some (Next (m, str + 1, fmt + 1, args))
    else
      '(m, str, fmt, args) ← vsprintf_conv m buf str fmt args;
      Some (Next (m, str, fmt + 1, args)).

(** The new memory and the returned length. *)
Definition vsprintf (m : mem) (buf fmt : Z) (args : list Z) : option (mem * Z) :=
  while (vsprintf_round buf) (m, buf, fmt, args).

Definition sprintf (m : mem) (buf fmt : Z) (args : list Z) : option (mem * Z) :=
  vsprintf m buf fmt args.

(** ** Parsing a string *)

Fixpoint parse_num (base : Z) (l : list Z) (acc : Z) : Z * list Z :=
  match l with
  | [] => (acc, [])
  | c :: l' =>
      if isxdigit c && (digit_value c <? base)
      then parse_num base l' (u32 (acc * base + digit_value c))
      else (acc, l)
  end.

Definition dflt (d base : Z) : Z := if base =? 0 then d else base.

(** The value of a string and what is left of it. *)
Definition strtoul_l (l : list Z) (base : Z) : Z * list Z :=
  if hd 0 l =? 48 then
    let r := tail l in
    if (hd 0 r =? 120) && isxdigit (hd 0 (tail r)) then parse_num 16 (tail r) 0
    else parse_num (dflt 8 base) r 0
  else parse_num (dflt 10 base) l 0.

Section parsing.
Implicit Types (m : mem) (l : list Z).

Lemma parse_num_length base l acc :
  (length (parse_num base l acc).2 ≤ length l)%nat.
Proof.
  revert acc. induction l as [|c l IH]; intros acc; simpl; [lia|].
  destruct (_ && _); simpl; [|lia]. etrans; [apply IH|lia].
Qed.

Lemma parse_num_drop base l acc : ∃ n, (n ≤ length l)%nat ∧ (parse_num base l acc).2 = drop n l.
Proof.
  revert acc. induction l as [|c l IH]; intros acc; simpl; [by exists 0%nat|].
  destruct (_ && _).
  - destruct (IH (u32 (acc * base + digit_value c))) as (n & Hn & ->). exists (S n). split; [lia|done].
  - exists 0%nat. split; [lia|done].
Qed.

(** What is left of the string is a tail of it. *)
Lemma strtoul_drop l base : ∃ n, (n ≤ length l)%nat ∧ (strtoul_l l base).2 = drop n l.
Proof.
  assert (Htail : ∀ b t acc, ∃ n, (n ≤ length t)%nat ∧ (parse_num b (tail t) acc).2 = drop n t).
  { intros b [|x t] acc; [by exists 0%nat|].
    destruct (parse_num_drop b t acc) as (n & Hn & E). exists (S n). split; [simpl; lia|exact E]. }
  unfold strtoul_l. destruct (_ =? _); [|apply parse_num_drop]. destruct (_ && _); [|apply Htail].
  destruct l as [|x l]; [by exists 0%nat|].
  destruct (Htail 16 l 0) as (n & Hn & E). exists (S n). split; [simpl; lia|exact E].
Qed.

Lemma isxdigit_0 : isxdigit 0 = false.
Proof. reflexivity. Qed.

Lemma parse_loop m a l base acc :
  cstr m a l → fits l →
  while (λ '(cp, result),
    c ← ld m cp;
    Some (if isxdigit c && (digit_value c <? base)
          then Next (cp + 1, u32 (result * base + digit_value c))
          else Done (result, cp))) (a, acc) =
  Some ((parse_num base l acc).1, a + length l - length (parse_num base l acc).2).
Proof.
  intros H Hf. apply (while_within _ _ (S (length l))); [unfold fits in Hf; lia|].
  clear Hf. revert a acc H. induction l as [|c l IH]; intros a acc H.
  - apply cstr_nil in H. exists 1%nat. split; [lia|]. apply runs_done.
    cbv beta iota. repeat c_step. rewrite isxdigit_0. simpl. do 3 f_equal. lia.
  - apply cstr_cons in H as (Hc & Ha & H). simpl parse_num.
    destruct (isxdigit c && (digit_value c <? base)) eqn:E.
    + destruct (IH _ (u32 (acc * base + digit_value c)) H) as (n & Hn & Hr).
      exists (S n). split; [simpl; lia|]. eapply runs_next.
      { cbv beta iota. repeat c_step. by rewrite E. }
      replace (a + length (c :: l)) with (a + 1 + length l) by (simpl; lia). done.
    + exists 1%nat. split; [lia|]. apply runs_done. cbv beta iota. repeat c_step.
      rewrite E. simpl. do 3 f_equal. lia.
Qed.

Lemma dflt_dflt d e base : d ≠ 0 → dflt e (dflt d base) = dflt d base.
Proof.
  intros H. unfold dflt. destruct (Z.eqb_spec base 0); [by zbool|by zbool].
Qed.

Lemma cstr_tail m a l : cstr m a l → l ≠ [] → cstr m (a + 1) (tail l).
Proof. destruct l; [done|]. by rewrite cstr_cons; intros (_ & _ & ?). Qed.

Lemma fits_tail l : fits l → fits (tail l).
Proof. unfold fits. destruct l; simpl; lia. Qed.

Lemma simple_strtoul_cstr m a l base :
  cstr m a l → fits l →
  simple_strtoul m a base =
    Some ((strtoul_l l base).1, a + length l - length (strtoul_l l base).2).
Proof.
  intros H Hf. unfold simple_strtoul, strtoul_l.
  assert (Hc := cstr_hd _ _ _ H). repeat c_step.
  destruct (Z.eqb_spec (hd 0 l) 48) as [E|E].
  2: { rewrite some_bind. cbv beta iota. fold (dflt 10 base). by apply parse_loop. }
  assert (Hne : l ≠ []) by (by intros ->).
  assert (Ht := cstr_tail _ _ _ H Hne). assert (Hft := fits_tail _ Hf).
  assert (Hlen : (length l = S (length (tail l)))%nat) by (by destruct l).
  assert (Hc1 := cstr_hd _ _ _ Ht). repeat c_step.
  destruct (Z.eqb_spec (hd 0 (tail l)) 120) as [E1|E1]; cbn [andb].
  2: { rewrite some_bind. cbv beta iota. rewrite some_bind. cbv beta iota.
       fold (dflt 8 base) (dflt 10 (dflt 8 base)). rewrite dflt_dflt by done.
       rewrite parse_loop with (l := tail l) by done. do 3 f_equal. lia. }
  assert (Hne1 : tail l ≠ []) by (intros E2; by rewrite E2 in E1).
  assert (Ht1 := cstr_tail _ _ _ Ht Hne1).
  assert (Hlen1 : (length (tail l) = S (length (tail (tail l))))%nat) by (by destruct (tail l)).
  assert (Hc2 := cstr_hd _ _ _ Ht1). repeat c_step.
  destruct (isxdigit (hd 0 (tail (tail l)))); cbv beta iota; repeat c_step.
  - cbn [Z.eqb]. rewrite parse_loop with (l := tail (tail l)) by auto using fits_tail.
    do 3 f_equal. lia.
  - fold (dflt 8 base) (dflt 10 (dflt 8 base)). rewrite dflt_dflt by done.
    rewrite parse_loop with (l := tail l) by done. do 3 f_equal. lia.
Qed.
End parsing.

(** ** The digits of a number *)

(** The value of a digit list, least significant digit first. *)
Fixpoint digits_val (base : Z) (ds : list Z) : Z :=
  match ds with [] => 0 | d :: ds => d + base * digits_val base ds end.

Definition digits_ok (base : Z) (ds : list Z) : Prop := Forall (λ d, 0 ≤ d < base) ds.

Section digits.
Implicit Types (ds tmp rest : list Z) (base n : Z).

Lemma digits_val_app base ds es :
  digits_val base (ds ++ es) = digits_val base ds + base ^ length ds * digits_val base es.
Proof.
  induction ds as [|d ds IH]; [simpl; lia|].
  simpl digits_val. simpl length. rewrite IH.
  rewrite Nat2Z.inj_succ, Z.pow_succ_r by lia. ring.
Qed.

Lemma digits_val_nonneg base ds : 0 < base → digits_ok base ds → 0 ≤ digits_val base ds.
Proof. intros Hb. induction 1 as [|d ds [Hd _] _ IH]; simpl; nia. Qed.

(** A list whose last digit is not zero has the size of its value. *)
Lemma digits_val_lower base ds d :
  2 ≤ base → digits_ok base ds → 0 < d →
  2 ^ length ds ≤ digits_val base (ds ++ [d]).
Proof.
  intros Hb Hds Hd. rewrite digits_val_app. simpl digits_val.
  pose proof (digits_val_nonneg base ds ltac:(lia) Hds).
  pose proof (Z.pow_le_mono_l 2 base (length ds) ltac:(lia)).
  pose proof (Z.pow_pos_nonneg base (length ds) ltac:(lia) ltac:(lia)). nia.
Qed.

Lemma u32_s32 n : 0 ≤ n < 4294967296 → u32 (s32 n) = n.
Proof. unfold u32, s32. intros H. Z.div_mod_to_equations. lia. Qed.

Lemma s32_zero n : 0 ≤ n < 4294967296 → (s32 n =? 0) = (n =? 0).
Proof.
  intros H. unfold s32. destruct (Z.eqb_spec n 0) as [->|Hn]; [done|].
  apply Z.eqb_neq. intros E. Z.div_mod_to_equations. lia.
Qed.

(** No leading zero, except in the number zero itself. *)
Definition no_lead (ds : list Z) : Prop := ds = [0] ∨ ∀ ds', ds ≠ ds' ++ [0].

Definition digit_list (large : bool) (n base : Z) (tmp : list Z) : Prop :=
  ∃ ds, tmp = map (digit_char large) ds ∧ digits_ok base ds ∧
        digits_val base ds = n ∧ (0 < length ds ≤ 32)%nat ∧ no_lead ds.

(** [num_digits] leaves the digits of the number in [tmp], at most 32. *)
Lemma num_digits_spec large n base :
  2 ≤ base → 0 ≤ n < 4294967296 →
  ∃ tmp, num_digits large (s32 n) base = Some tmp ∧ digit_list large n base tmp.
Proof.
  intros Hb Hn. unfold num_digits. rewrite s32_zero by done.
  destruct (Z.eqb_spec n 0) as [->|Hn0].
  { exists [48]. split; [done|]. exists [0]. split; [done|].
    split; [constructor; [lia|constructor]|]. simpl. split; [lia|].
    split; [lia|by left]. }
  set (I := λ st : Z * list Z, ∃ ds q, st.2 = map (digit_char large) ds ∧
    st.1 = s32 q ∧ 0 ≤ q ∧ digits_ok base ds ∧
    n = digits_val base ds + base ^ length ds * q ∧
    (q = 0 → ∃ ds' d, ds = ds' ++ [d] ∧ 0 < d)).
  apply (while_rule _ I (λ st, u32 st.1)).
  - intros [q' tmp] (ds & q & Htmp & Hq' & Hq & Hds & Hval & Hlast).
    simpl in Htmp, Hq'. subst q' tmp.
    pose proof (digits_val_nonneg base ds ltac:(lia) Hds) as Hv.
    pose proof (Z.pow_pos_nonneg base (length ds) ltac:(lia) ltac:(lia)) as Hpow.
    assert (Hqn : 0 ≤ q < 4294967296) by nia.
    rewrite s32_zero, u32_s32 by done. destruct (Z.eqb_spec q 0) as [->|Hq0]; simpl.
    + eexists. split; [done|]. exists ds. repeat split; try done; [lia|..].
      * destruct (Hlast eq_refl) as (ds' & d & -> & _). rewrite length_app. simpl. lia.
      * destruct (Hlast eq_refl) as (ds' & d & -> & Hd). apply Forall_app in Hds as [Hds _].
        pose proof (digits_val_lower base ds' d Hb Hds Hd).
        rewrite length_app. simpl.
        destruct (decide (length ds' ≤ 31)%nat) as [|Hlong]; [lia|].
        pose proof (Z.pow_le_mono_r 2 32 (length ds') ltac:(lia) ltac:(lia)). lia.
      * destruct (Hlast eq_refl) as (ds' & d & -> & Hd). right. intros es E.
        apply app_inj_tail in E as [_ ->]. lia.
    + eexists. split; [done|]. simpl.
      assert (Hdiv : 0 ≤ q / base < q).
      { split; [apply Z.div_pos; lia|apply Z.div_lt; lia]. }
      assert (q / base < 2147483648) by (apply Z.div_lt_upper_bound; nia).
      split; [|rewrite !u32_s32 by lia; lia].
      exists (ds ++ [q mod base]), (q / base). simpl.
      rewrite map_app, length_app. repeat split; try done; [lia|..].
      * apply Forall_app_2; [done|]. constructor; [|constructor].
        apply Z.mod_pos_bound. lia.
      * rewrite digits_val_app. simpl length. rewrite Nat.add_1_r, Nat2Z.inj_succ.
        rewrite Z.pow_succ_r by lia. simpl digits_val.
        pose proof (Z.div_mod q base ltac:(lia)). nia.
      * intros Hz. exists ds, (q mod base). split; [done|].
        pose proof (Z.div_mod q base ltac:(lia)). pose proof (Z.mod_pos_bound q base). nia.
  - exists [], n. split; [done|]. split; [done|]. split; [lia|].
    split; [constructor|]. simpl. split; lia.
  - simpl. rewrite u32_s32 by done. lia.
Qed.

(** *** Reading digits back *)

Definition digit_char_ok (large : bool) (d : Z) : bool :=
  let c := digit_char large d in
  (16 <=? d) || ((0 <? c) && (c <? 256) && isxdigit c && (digit_value c =? d)).

Lemma digit_char_all large d : is_byte d → digit_char_ok large d = true.
Proof.
  revert d. destruct large; (apply byte_forall; vm_compute; reflexivity).
Qed.

Lemma digit_char_value large d :
  0 ≤ d < 16 →
  is_char (digit_char large d) ∧ isxdigit (digit_char large d) = true ∧
  digit_value (digit_char large d) = d.
Proof.
  intros Hd. pose proof (digit_char_all large d ltac:(red; lia)) as H.
  unfold digit_char_ok in H. cbv zeta in H.
  rewrite (proj2 (Z.leb_gt 16 d)) in H by lia. cbn [orb] in H.
  apply andb_true_iff in H as [H H4]. apply andb_true_iff in H as [H H3].
  apply andb_true_iff in H as [H1 H2]. unfold is_char. split; [lia|]. split; [done|lia].
Qed.

(** No digit of the base follows. *)
Definition stops (base : Z) (rest : list Z) : Prop :=
  match rest with c :: _ => isxdigit c && (digit_value c <? base) = false | [] => True end.

Lemma parse_num_stop base rest acc : stops base rest → parse_num base rest acc = (acc, rest).
Proof. destruct rest as [|c rest]; simpl; [done|]. by intros ->. Qed.

Lemma parse_num_digits large base ds rest acc :
  2 ≤ base ≤ 16 → digits_ok base ds → stops base rest → 0 ≤ acc < 4294967296 →
  parse_num base (map (digit_char large) (reverse ds) ++ rest) acc =
    (u32 (acc * base ^ length ds + digits_val base ds), rest).
Proof.
  intros Hb Hds Hrest. revert acc.
  induction ds as [|d ds IH] using rev_ind; intros acc Hacc.
  { simpl. rewrite parse_num_stop by done. rewrite Z.mul_1_r, Z.add_0_r.
    by rewrite u32_small. }
  apply Forall_app in Hds as [Hds Hd]. apply Forall_inv in Hd.
  rewrite reverse_app. simpl.
  destruct (digit_char_value large d) as (_ & -> & ->); [lia|]. zbool. cbn [andb].
  rewrite IH by (done || apply Z.mod_pos_bound; lia).
  rewrite digits_val_app, length_app. simpl digits_val. simpl length.
  f_equal. unfold u32.
  rewrite <- Z.add_mod_idemp_l, Z.mul_mod_idemp_l, Z.add_mod_idemp_l by lia.
  f_equal. rewrite Nat.add_1_r, Nat2Z.inj_succ, Z.pow_succ_r by lia. ring.
Qed.
End digits.

(** ** What [number] writes *)

Section printing.
Implicit Types (m : mem) (tmp : list Z).

Lemma pad_spec m str c (k : nat) :
  owned m str k → Z.of_nat k < 4294967296 →
  pad m str c k = Some (write_bytes m str (replicate k (u8 c)), str + k, -1).
Proof.
  intros Ho Hk. unfold pad. apply (while_within _ _ (S k)); [lia|].
  clear Hk. revert m str Ho. induction k as [|k IH]; intros m str Ho.
  - exists 1%nat. split; [lia|]. apply runs_done. simpl. by rewrite Z.add_0_r.
  - assert (Hst : is_Some (m !! str)).
    { rewrite <- (Z.add_0_r str). apply Ho. lia. }
    destruct (IH (<[str := u8 c]> m) (str + 1)) as (n & Hn & Hr).
    { apply owned_insert. eapply owned_mono; [exact Ho|lia|lia]. }
    exists (S n). split; [lia|]. eapply runs_next.
    { cbv beta iota. rewrite Z.gtb_ltb. zbool. repeat c_step. reflexivity. }
    replace (S k - 1) with (k : Z) by lia.
    replace (str + S k) with (str + 1 + k) by lia. exact Hr.
Qed.

Lemma pad_none m str c size : size ≤ 0 → pad m str c size = Some (m, str, size - 1).
Proof.
  intros H. unfold pad. apply (while_within _ _ 1); [lia|].
  exists 1%nat. split; [lia|]. apply runs_done. cbv beta iota.
  rewrite Z.gtb_ltb. by zbool.
Qed.

Lemma put_spec m str c : is_Some (m !! str) → put m str c = Some (<[str := u8 c]> m, str + 1).
Proof. intros H. unfold put. by rewrite st_bind. Qed.

Lemma put_digits_spec m str tmp :
  Forall is_char tmp → owned m str (length tmp) → fits tmp →
  put_digits m str tmp = Some (write_bytes m str (reverse tmp), str + length tmp).
Proof.
  intros Hc Ho Hf. unfold put_digits.
  apply (while_within _ _ (S (length tmp))); [unfold fits in Hf; lia|]. clear Hf.
  assert (H : ∀ es m str, Forall is_char es → owned m str (length es) →
    (∃ ks, tmp = es ++ ks) →
    ∃ n, (n ≤ S (length es))%nat ∧ runs
      (λ '(m, str, i), if i >? 0 then
         c ← tmp !! Z.to_nat (i - 1); m ← st m str c; Some (Next (m, str + 1, i - 1))
       else Some (Done (m, str))) (m, str, Z.of_nat (length es)) n
      (write_bytes m str (reverse es), str + length es)).
  2: { apply H; [done|done|]. exists []. by rewrite app_nil_r. }
  clear m str Hc Ho. intros es.
  induction es as [|x es IH] using rev_ind; intros m str Hc Ho [ks Hks].
  - exists 1%nat. split; [lia|]. apply runs_done. simpl. by rewrite Z.add_0_r.
  - apply Forall_app in Hc as [Hc Hx]. apply Forall_inv in Hx.
    rewrite length_app in *. simpl length in *.
    assert (Hst : is_Some (m !! str)).
    { rewrite <- (Z.add_0_r str). apply Ho. lia. }
    destruct (IH (<[str := x]> m) (str + 1)) as (n & Hn & Hr); [done|..].
    { apply owned_insert. eapply owned_mono; [exact Ho|lia|lia]. }
    { exists (x :: ks). by rewrite <- app_assoc in Hks. }
    exists (S n). split; [lia|]. rewrite reverse_app. simpl.
    eapply runs_next.
    { cbv beta iota. rewrite Z.gtb_ltb. zbool.
      replace (Z.to_nat ((length es + 1)%nat - 1)) with (length es) by lia.
      rewrite Hks, <- app_assoc. cbn [app].
      rewrite list_lookup_middle by done. repeat c_step.
      rewrite u8_char by done. reflexivity. }
    replace ((length es + 1)%nat - 1) with (length es : Z) by lia.
    replace (str + (length es + 1)%nat) with (str + 1 + length es) by lia. exact Hr.
Qed.

(** The conversions without flags: [%x], [%X], [%u] and [%d], [%ld], ... *)
Definition plain (ty : Z) : Prop := ty = 0 ∨ ty = LARGE ∨ ty = SIGN.

Lemma plain_flags ty :
  plain ty → flag ty LEFT = false ∧ flag ty SPECIAL = false ∧ flag ty PLUS = false ∧
    flag ty SPACE = false ∧ flag ty (ZEROPAD + LEFT) = false.
Proof. by intros [->|[->| ->]]. Qed.

(** Without flags, width and precision, [number] writes exactly the digits. *)
Lemma number_digits m str n base ty ds :
  let large := flag ty LARGE in
  2 ≤ base ≤ 16 → 0 ≤ n < 4294967296 →
  num_digits large (s32 n) base = Some (map (digit_char large) ds) →
  digits_ok base ds → (0 < length ds ≤ 32)%nat → owned m str (length ds) →
  plain ty → (flag ty SIGN = true → n < 2147483648) →
  number m str (s32 n) base (-1) (-1) ty =
    Some (write_bytes m str (map (digit_char large) (reverse ds)), str + length ds).
Proof.
  intros large Hb Hn Htmp Hds Hlen Ho Hty Hs. unfold number. fold large.
  destruct (plain_flags ty Hty) as (H1 & H2 & H3 & H4 & H5).
  assert (Hsgn : (if flag ty SIGN then
      if s32 n <? 0 then (45, s32 (- s32 n), -1 - 1)
      else if flag ty PLUS then (43, s32 n, -1 - 1)
      else if flag ty SPACE then (32, s32 n, -1 - 1) else (0, s32 n, -1)
    else (0, s32 n, -1)) = (0, s32 n, -1)).
  { rewrite H3, H4. destruct (flag ty SIGN); [|done].
    rewrite s32_small by (split; [lia|by apply Hs]). by zbool. }
  cbv zeta. rewrite !H1, Hsgn, H2, H5. zbool. cbn [orb].
  rewrite Htmp, some_bind, length_map.
  zbool. cbn [negb]. cbv match. rewrite pad_none by lia. repeat c_step.
  zbool. cbn [negb]. cbv match. repeat c_step.
  rewrite pad_none by lia. repeat c_step. rewrite pad_none by lia. repeat c_step.
  rewrite put_digits_spec.
  - repeat c_step. rewrite length_map, pad_none by lia. repeat c_step.
    do 3 f_equal. symmetry. exact (fmap_reverse (digit_char large) ds).
  - apply Forall_map. eapply Forall_impl; [|exact Hds]. intros d Hd.
    apply digit_char_value. simpl in Hd. lia.
  - rewrite length_map. eapply owned_mono; [exact Ho|lia|lia].
  - unfold fits. rewrite length_map. lia.
Qed.

Lemma number_plain m str n base ty :
  2 ≤ base ≤ 16 → 0 ≤ n < 4294967296 → owned m str 32 →
  plain ty → (flag ty SIGN = true → n < 2147483648) →
  ∃ ds, digits_ok base ds ∧ digits_val base ds = n ∧ (0 < length ds ≤ 32)%nat ∧ no_lead ds ∧
    number m str (s32 n) base (-1) (-1) ty =
      Some (write_bytes m str (map (digit_char (flag ty LARGE)) (reverse ds)),
            str + length ds).
Proof.
  intros Hb Hn Ho Hty Hs.
  destruct (num_digits_spec (flag ty LARGE) n base ltac:(lia) Hn)
    as (tmp & Htmp & ds & -> & Hds & Hv & Hlen & Hlead).
  exists ds. do 4 (split; [done|]). apply number_digits; try done.
  eapply owned_mono; [exact Ho|lia|lia].
Qed.

(** A printed number starts with the character ['0'] only when it is zero,
    so [simple_strtoul] does not mistake its base. *)
Lemma strtoul_digits large base ds rest :
  2 ≤ base ≤ 16 → digits_ok base ds → (0 < length ds)%nat →
  digits_val base ds < 4294967296 → stops base rest →
  no_lead ds → hd 0 rest ≠ 120 →
  strtoul_l (map (digit_char large) (reverse ds) ++ rest) base = (digits_val base ds, rest).
Proof.
  intros Hb Hds Hlen Hv Hrest Hlead Hx.
  pose proof (digits_val_nonneg base ds ltac:(lia) Hds) as Hnn.
  destruct ds as [|d ds _] using rev_ind; [simpl in Hlen; lia|].
  destruct Hlead as [E|Hlead]; [|].
  2: { pose proof Hds as Hds'. apply Forall_app in Hds' as [_ Hd]. apply Forall_inv in Hd.
    assert (d ≠ 0) by (intros ->; by apply (Hlead ds)).
    pose proof (parse_num_digits large base (ds ++ [d]) rest 0 Hb Hds Hrest ltac:(lia)) as E.
    unfold strtoul_l. rewrite reverse_app in *. simpl in *.
    assert (digit_char large d ≠ 48).
    { destruct (digit_char_value large d) as (_ & _ & E48); [lia|]. intros E'.
      rewrite E' in E48. vm_compute in E48. lia. }
    zbool. unfold dflt. zbool. simpl. rewrite E. f_equal. apply u32_small. lia. }
  rewrite E in *. assert (Hz : map (digit_char large) (reverse [0]) = [48]) by (by destruct large).
    rewrite Hz. unfold strtoul_l. simpl hd. simpl tail. cbn [Z.eqb Pos.eqb].
    rewrite (proj2 (Z.eqb_neq (hd 0 rest) 120)) by done. cbn [andb]. unfold dflt. zbool.
    rewrite parse_num_stop by done. simpl digits_val. by rewrite Z.mul_0_r.
Qed.
End printing.

(** ** Decimal conversions in a format *)

(** The digits of a number as [number] prints them. *)
Definition num_text (large : bool) (base n : Z) : list Z :=
  match num_digits large (s32 n) base with Some t => reverse t | None => [] end.

(** The text [%d] and [%lu] print for a number that is not negative, and what
    [%X] prints. *)
Definition dec (n : Z) : list Z := num_text false 10 n.
Definition hex (n : Z) : list Z := num_text true 16 n.

(** A format as a list of literal characters, [%d], [%lu], [%X] and [%08X]. *)
Inductive fmt_item : Type := Lit (c : Z) | Dec | Lu | Hex | Hex8.

(** A conversion: its text behind the [%] and what it prints. *)
Definition conv_text (i : fmt_item) : list Z :=
  match i with Lit c => [] | Dec => [100] | Lu => [108; 117] | Hex => [88] | Hex8 => [48; 56; 88] end.

Definition conv_out (i : fmt_item) (a : Z) : list Z :=
  match i with
  | Lit _ => []
  | Dec | Lu => dec a
  | Hex => hex a
  | Hex8 => replicate (8 - length (hex a)) 48 ++ hex a
  end.

Fixpoint fmt_text (f : list fmt_item) : list Z :=
  match f with
  | [] => []
  | Lit c :: f => c :: fmt_text f
  | i :: f => 37 :: conv_text i ++ fmt_text f
  end.

(** What the format prints; an argument that is missing prints nothing. *)
Fixpoint fmt_out (f : list fmt_item) (args : list Z) : list Z :=
  match f, args with
  | [], _ => []
  | Lit c :: f, _ => c :: fmt_out f args
  | i :: f, a :: args => conv_out i a ++ fmt_out f args
  | _ :: f, [] => []
  end.

Fixpoint fmt_args (f : list fmt_item) : nat :=
  match f with [] => O | Lit _ :: f => fmt_args f | _ :: f => S (fmt_args f) end.

(** The arguments fit the conversions. *)
Definition conv_ok (i : fmt_item) (a : Z) : Prop :=
  0 ≤ a < match i with Dec => 2147483648 | _ => 4294967296 end.

Fixpoint fmt_ok (f : list fmt_item) (args : list Z) : Prop :=
  match f, args with
  | [], [] => True
  | Lit _ :: f, _ => fmt_ok f args
  | i :: f, a :: args => conv_ok i a ∧ fmt_ok f args
  | _, _ => False
  end.

Definition lit_ok (i : fmt_item) : Prop :=
  match i with Lit c => is_char c ∧ c ≠ 37 | _ => True end.

Section decimal.
Implicit Types (m : mem) (l : list Z).

Lemma num_text_spec large base n :
  2 ≤ base → 0 ≤ n < 4294967296 →
  ∃ ds, num_text large base n = map (digit_char large) (reverse ds) ∧ digits_ok base ds ∧
    digits_val base ds = n ∧ (0 < length ds ≤ 32)%nat ∧ no_lead ds ∧
    num_digits large (s32 n) base = Some (map (digit_char large) ds).
Proof.
  intros Hb Hn. destruct (num_digits_spec large n base Hb Hn)
    as (tmp & Htmp & ds & -> & Hds & Hv & Hlen & Hlead).
  exists ds. unfold num_text. rewrite Htmp. split; [|done].
  symmetry. exact (fmap_reverse (digit_char large) ds).
Qed.

Lemma num_text_length large base n (k : nat) :
  2 ≤ base → 0 ≤ n < 4294967296 → n < base ^ k → (0 < k)%nat →
  (0 < length (num_text large base n) ≤ k)%nat.
Proof.
  intros Hb Hn Hk H0.
  destruct (num_text_spec large base n Hb Hn) as (ds & -> & Hds & Hv & Hlen & Hlead & _).
  rewrite length_map, length_reverse. split; [lia|].
  destruct Hlead as [->|Hlead]; [simpl; lia|].
  destruct ds as [|d ds _] using rev_ind; [simpl; lia|].
  assert (d ≠ 0) by (intros ->; by apply (Hlead ds)).
  apply Forall_app in Hds as [Hds Hd]. apply Forall_inv in Hd. simpl in Hd.
  rewrite digits_val_app in Hv. simpl digits_val in Hv.
  pose proof (digits_val_nonneg base ds ltac:(lia) Hds).
  rewrite length_app. simpl. destruct (decide (length ds < k)%nat); [lia|].
  pose proof (Z.pow_le_mono_r base k (length ds) ltac:(lia) ltac:(lia)). nia.
Qed.

Lemma num_text_chars large base n :
  2 ≤ base ≤ 16 → 0 ≤ n < 4294967296 → Forall is_char (num_text large base n).
Proof.
  intros Hb Hn. destruct (num_text_spec large base n ltac:(lia) Hn) as (ds & -> & Hds & _).
  apply Forall_map, Forall_reverse. eapply Forall_impl; [|exact Hds].
  intros d Hd. apply digit_char_value. simpl in Hd. lia.
Qed.

Lemma dec_spec n :
  0 ≤ n < 4294967296 →
  ∃ ds, dec n = map (digit_char false) (reverse ds) ∧ digits_ok 10 ds ∧
    digits_val 10 ds = n ∧ (0 < length ds ≤ 32)%nat ∧ no_lead ds ∧
    num_digits false (s32 n) 10 = Some (map (digit_char false) ds).
Proof. intros Hn. by apply num_text_spec. Qed.

Lemma dec_length n : 0 ≤ n < 4294967296 → (0 < length (dec n) ≤ 10)%nat.
Proof. intros Hn. apply num_text_length; [lia|done|change (10 ^ 10%nat) with 10000000000; lia|lia]. Qed.

Lemma dec_length_byte n : 0 ≤ n < 1000 → (0 < length (dec n) ≤ 3)%nat.
Proof. intros Hn. apply num_text_length; [lia|lia|change (10 ^ 3%nat) with 1000; lia|lia]. Qed.

Lemma hex_length n : 0 ≤ n < 4294967296 → (0 < length (hex n) ≤ 8)%nat.
Proof. intros Hn. apply num_text_length; [lia|done|change (16 ^ 8%nat) with 4294967296; lia|lia]. Qed.

Lemma dec_chars n : 0 ≤ n < 4294967296 → Forall is_char (dec n).
Proof. by apply num_text_chars. Qed.

Lemma strtoul_dec n rest :
  0 ≤ n < 4294967296 → stops 10 rest → hd 0 rest ≠ 120 →
  strtoul_l (dec n ++ rest) 10 = (n, rest).
Proof.
  intros Hn Hs Hx. destruct (dec_spec n Hn) as (ds & -> & Hds & Hv & Hlen & Hlead & _).
  rewrite strtoul_digits; try done; try lia. by rewrite Hv.
Qed.

Lemma number_dec m str n :
  0 ≤ n < 2147483648 → owned m str (length (dec n)) →
  number m str (s32 n) 10 (-1) (-1) SIGN = Some (write_bytes m str (dec n), str + length (dec n)).
Proof.
  intros Hn Ho. destruct (dec_spec n ltac:(lia)) as (ds & E & Hds & Hv & Hlen & Hlead & Hnd).
  rewrite E in *. rewrite length_map, length_reverse in *.
  apply (number_digits m str n 10 SIGN ds); try done; try lia. by right; right.
Qed.

Lemma number_lu m str n :
  0 ≤ n < 4294967296 → owned m str (length (dec n)) →
  number m str (s32 n) 10 (-1) (-1) 0 = Some (write_bytes m str (dec n), str + length (dec n)).
Proof.
  intros Hn Ho. destruct (dec_spec n ltac:(lia)) as (ds & E & Hds & Hv & Hlen & Hlead & Hnd).
  rewrite E in *. rewrite length_map, length_reverse in *.
  apply (number_digits m str n 10 0 ds); try done; try lia. by left.
Qed.

Lemma number_hex m str n :
  0 ≤ n < 4294967296 → owned m str (length (hex n)) →
  number m str (s32 n) 16 (-1) (-1) LARGE = Some (write_bytes m str (hex n), str + length (hex n)).
Proof.
  intros Hn Ho. destruct (num_text_spec true 16 n ltac:(lia) Hn) as (ds & E & Hds & Hv & Hlen & Hlead & Hnd).
  unfold hex in *. rewrite E in *. rewrite length_map, length_reverse in *.
  apply (number_digits m str n 16 LARGE ds); try done; try lia. by right; left.
Qed.

(** With zeros in front up to a width of 8. *)
Lemma number_hex8 m str n :
  0 ≤ n < 4294967296 → owned m str 8 →
  number m str (s32 n) 16 8 (-1) (Z.lor ZEROPAD LARGE) =
    Some (write_bytes m str (conv_out Hex8 n), str + length (conv_out Hex8 n)).
Proof.
  intros Hn Ho. destruct (num_text_spec true 16 n ltac:(lia) Hn) as (ds & E & Hds & Hv & Hlen & Hlead & Hnd).
  pose proof (hex_length n Hn) as Hl. unfold conv_out. unfold hex in *. rewrite E in *.
  rewrite length_map, length_reverse in *. unfold number.
  change (flag (Z.lor ZEROPAD LARGE) LARGE) with true. cbv zeta.
  change (flag (Z.lor ZEROPAD LARGE) LEFT) with false. cbv iota.
  change (flag (Z.lor ZEROPAD LARGE) ZEROPAD) with true. change (flag (Z.lor ZEROPAD LARGE) SIGN) with false.
  change (flag (Z.lor ZEROPAD LARGE) SPECIAL) with false.
  change (flag (Z.lor ZEROPAD LARGE) (ZEROPAD + LEFT)) with true. cbv iota.
  change ((16 <? 2) || (16 >? 36)) with false. cbv iota. rewrite Hnd, some_bind, length_map.
  zbool. cbn [negb]. repeat c_step. change (flag (Z.lor ZEROPAD LARGE) LEFT) with false. cbn [negb].
  replace (8 - length ds) with (Z.of_nat (8 - length ds)) by lia.
  rewrite pad_spec by (first [eapply owned_mono; [exact Ho|lia|lia]|lia]). repeat c_step.
  rewrite Z.sub_diag, pad_none by lia. repeat c_step. change (u8 48) with 48.
  rewrite put_digits_spec.
  - repeat c_step. rewrite length_map, pad_none by lia. repeat c_step.
    rewrite write_bytes_app, length_app, length_replicate, length_map, length_reverse.
    rewrite Nat2Z.inj_add, Z.add_assoc. do 3 f_equal. symmetry. exact (fmap_reverse (digit_char true) ds).
  - apply Forall_map. eapply Forall_impl; [|exact Hds]. intros d Hd.
    apply digit_char_value. simpl in Hd. lia.
  - apply owned_write. rewrite length_map. eapply owned_mono; [exact Ho|lia|lia].
  - unfold fits. rewrite length_map. lia.
Qed.

Lemma get_flags_none m fmt c :
  m !! (fmt + 1) = Some c → existsb (Z.eqb c) [45; 43; 32; 35; 48] = false → get_flags m fmt = Some (fmt + 1, 0).
Proof.
  intros Hc Hn. unfold get_flags. apply (while_within _ _ 1); [lia|]. exists 1%nat. split; [lia|].
  cbn [existsb] in Hn.
  apply runs_done. cbv beta iota zeta. c_step. by zbool.
Qed.

Lemma get_width_none m fmt c flags args :
  m !! fmt = Some c → is_digit c = false → c ≠ 42 → get_width m fmt flags args = Some (fmt, -1, flags, args).
Proof. intros Hc Hd Hs. unfold get_width. c_step. rewrite Hd. by zbool. Qed.

Lemma get_precision_none m fmt c args :
  m !! fmt = Some c → c ≠ 46 → get_precision m fmt args = Some (fmt, -1, args).
Proof. intros Hc Hs. unfold get_precision. c_step. by zbool. Qed.

(** A conversion of a format, with its argument. *)
Lemma vsprintf_conv_item m buf str fmt i a args :
  bytes_at m (fmt + 1) (conv_text i) → conv_text i ≠ [] → conv_ok i a →
  owned m str (length (conv_out i a)) →
  vsprintf_conv m buf str fmt (a :: args) =
    Some (write_bytes m str (conv_out i a), str + length (conv_out i a), fmt + length (conv_text i), args).
Proof.
  intros Ht Hne Ha Ho. unfold vsprintf_conv. destruct i; [done| | | |]; unfold conv_ok in Ha; cbn [conv_text length] in *.
  - apply bytes_at_singleton in Ht. rewrite (get_flags_none m fmt 100) by done. c_step.
    rewrite (get_width_none m _ 100) by done. c_step. rewrite (get_precision_none m _ 100) by done. c_step. c_step.
    cbn [Z.eqb Pos.eqb orb]. c_step. cbn [Z.eqb Pos.eqb orb va_arg]. c_step.
    change (flag (Z.lor 0 SIGN) SIGN) with true. cbv iota. change (Z.lor 0 SIGN) with SIGN.
    rewrite u32_s32 by lia. cbn [conv_out] in *. rewrite number_dec by done. by c_step.
  - apply bytes_at_cons in Ht as [H1 H2]. apply bytes_at_singleton in H2.
    rewrite (get_flags_none m fmt 108) by done. c_step.
    rewrite (get_width_none m _ 108) by done. c_step. rewrite (get_precision_none m _ 108) by done. c_step. c_step.
    cbn [Z.eqb Pos.eqb orb]. c_step. cbn [Z.eqb Pos.eqb orb va_arg]. c_step.
    rewrite (u32_small a) by lia. cbn [conv_out] in *. rewrite number_lu by (first [lia|done]). c_step.
    do 3 f_equal. lia.
  - apply bytes_at_singleton in Ht. rewrite (get_flags_none m fmt 88) by done. c_step.
    rewrite (get_width_none m _ 88) by done. c_step. rewrite (get_precision_none m _ 88) by done. c_step. c_step.
    cbn [Z.eqb Pos.eqb orb]. c_step. cbn [Z.eqb Pos.eqb orb va_arg]. c_step.
    change (flag (Z.lor 0 LARGE) SIGN) with false. cbv iota. change (Z.lor 0 LARGE) with LARGE.
    rewrite (u32_small a) by lia. cbn [conv_out] in *. rewrite number_hex by (first [lia|done]). by c_step.
  - apply bytes_at_cons in Ht as [H1 Ht]. apply bytes_at_cons in Ht as [H2 H3]. apply bytes_at_singleton in H3.
    assert (get_flags m fmt = Some (fmt + 1 + 1, ZEROPAD)) as ->.
    { unfold get_flags. apply (while_within _ _ 2); [lia|]. exists 2%nat. split; [lia|].
      eapply runs_next; [cbv beta iota zeta; c_step; reflexivity|]. apply runs_done. cbv beta iota zeta. by c_step. }
    c_step. unfold get_width. c_step. change (is_digit 56) with true. cbv iota.
    assert (skip_atoi m (fmt + 1 + 1) = Some (8, fmt + 1 + 1 + 1)) as ->.
    { unfold skip_atoi. apply (while_within _ _ 2); [lia|]. exists 2%nat. split; [lia|].
      eapply runs_next; [cbv beta iota zeta; c_step; reflexivity|]. apply runs_done. cbv beta iota zeta. by c_step. }
    do 2 c_step. rewrite (get_precision_none m _ 88) by done. c_step. c_step.
    cbn [Z.eqb Pos.eqb orb]. c_step. cbn [Z.eqb Pos.eqb orb va_arg]. c_step.
    change (flag (Z.lor ZEROPAD LARGE) SIGN) with false. cbv iota.
    rewrite (u32_small a), number_hex8; [c_step; do 3 f_equal; lia|lia| |lia].
    eapply owned_mono; [exact Ho|lia|]. cbn [conv_out]. rewrite length_app, length_replicate. lia.
Qed.

Lemma bytes_at_skip m a l k :
  bytes_at m a (l ++ k) → bytes_at m (a + length l) k.
Proof. by intros [_ ?]%bytes_at_app. Qed.

(** What the rounds over a format need: the format, its arguments, and room
    for the output away from it. *)
Definition prints m (f : list fmt_item) str fmt args : Prop :=
  cstr m fmt (fmt_text f) ∧ Forall lit_ok f ∧ fmt_ok f args ∧ owned m str (length (fmt_out f args) + 1) ∧
  (str + length (fmt_out f args) < fmt ∨ fmt + length (fmt_text f) < str).

Definition printed buf f m str fmt args : Prop :=
  ∃ n, (n ≤ S (length (fmt_text f)))%nat ∧ runs (vsprintf_round buf) (m, str, fmt, args) n
    (write_bytes m str (fmt_out f args ++ [0]), str + length (fmt_out f args) - buf).

(** A piece of the format that prints [out]: the rest is printed behind it. *)
Lemma printed_step buf i f m str fmt args out txt rest :
  fmt_text (i :: f) = txt ++ fmt_text f → fmt_out (i :: f) args = out ++ fmt_out f rest → txt ≠ [] →
  prints m (i :: f) str fmt args → fmt_ok f rest →
  vsprintf_round buf (m, str, fmt, args) =
    Some (Next (write_bytes m str out, str + length out, fmt + length txt, rest)) →
  (∀ m str fmt args, prints m f str fmt args → printed buf f m str fmt args) →
  printed buf (i :: f) m str fmt args.
Proof.
  intros Et Eo Hne (Hf & Hlit & _ & Ho & Hd) Hr Hround IH. rewrite Et, Eo in *.
  rewrite !length_app in *. assert (0 < length txt)%nat by (destruct txt; [done|cbn; lia]).
  destruct (IH (write_bytes m str out) (str + length out) (fmt + length txt) rest) as (n & Hn & Hrun).
  - split; [|split; [by inversion Hlit|split; [done|split; [|lia]]]].
    + apply cstr_write_disjoint; [lia|].
      pose proof (cstr_drop m fmt _ (length txt) Hf) as Hf'. rewrite drop_app_length in Hf'.
      apply Hf'. rewrite length_app. lia.
    + apply owned_write. eapply owned_mono; [exact Ho|lia|lia].
  - exists (S n). rewrite Et, length_app. split; [lia|]. eapply runs_next; [exact Hround|].
    rewrite Eo, length_app, <- app_assoc, write_bytes_app.
    by replace (str + (length out + length (fmt_out f rest))%nat - buf)
      with (str + length out + length (fmt_out f rest) - buf) by lia.
Qed.

Lemma printed_conv buf i f m str fmt args :
  conv_text i ≠ [] → fmt_text (i :: f) = 37 :: conv_text i ++ fmt_text f →
  (∀ a r, fmt_out (i :: f) (a :: r) = conv_out i a ++ fmt_out f r) →
  (∀ args, fmt_ok (i :: f) args → ∃ a r, args = a :: r ∧ conv_ok i a ∧ fmt_ok f r) → prints m (i :: f) str fmt args →
  (∀ m str fmt args, prints m f str fmt args → printed buf f m str fmt args) →
  printed buf (i :: f) m str fmt args.
Proof.
  intros Hne Et Eo En Hp IH. pose proof Hp as (Hf & _ & Ha & Ho & _).
  destruct (En args Ha) as (a & r & -> & Hai & Har). rename r into args.
  apply (printed_step buf i f m str fmt (a :: args) (conv_out i a) (37 :: conv_text i) args); try done.
  rewrite Et in Hf. apply cstr_cons in Hf as (_ & H37 & Hf).
  unfold vsprintf_round. c_step. cbn [Z.eqb Pos.eqb negb]. rewrite Eo, length_app in Ho.
  rewrite (vsprintf_conv_item m buf str fmt i a args); [|by apply cstr_bytes, bytes_at_app in Hf as [? _]|done|done|
    eapply owned_mono; [exact Ho|lia|lia]].
  c_step. cbn [length]. do 3 f_equal. f_equal. lia.
Qed.

Lemma printed_all buf f : ∀ m str fmt args, prints m f str fmt args → printed buf f m str fmt args.
Proof.
  induction f as [|i f IH]; intros m str fmt args Hp.
  - destruct Hp as (Hf & _ & _ & Ho & _). apply cstr_nil in Hf. assert (Hst : is_Some (m !! str)).
    { rewrite <- (Z.add_0_r str). apply Ho. cbn. lia. }
    exists 1%nat. split; [lia|]. apply runs_done. unfold vsprintf_round. c_step. cbn [Z.eqb].
    c_step. cbn [fmt_out app write_bytes length]. do 3 f_equal. lia.
  - pose proof Hp as (Hf & Hlit & Ha & Ho & Hd). apply Forall_cons_iff in Hlit as [Hi Hlit].
    destruct i as [c| | | |]; [|apply printed_conv; try done; intros [|a r] Hok; [done|by exists a, r]..]. destruct Hi as [Hc Hc37].
    apply (printed_step buf (Lit c) f m str fmt args [c] [c] args); try done.
    cbn [fmt_text] in Hf. apply cstr_cons in Hf as (_ & Hfc & Hf).
    assert (Hst : is_Some (m !! str)).
    { rewrite <- (Z.add_0_r str). apply Ho. lia. }
    unfold vsprintf_round. c_step. unfold is_char in Hc. zbool. cbn [negb].
    c_step. by rewrite u8_char.
Qed.

(** A format of literals and these conversions prints its text, ended by a
    NUL. *)
Lemma vsprintf_fmt m buf fmt f args :
  cstr m fmt (fmt_text f) → Forall lit_ok f → fits (fmt_text f) → fmt_ok f args →
  owned m buf (length (fmt_out f args) + 1) →
  (buf + length (fmt_out f args) < fmt ∨ fmt + length (fmt_text f) < buf) →
  vsprintf m buf fmt args =
    Some (write_bytes m buf (fmt_out f args ++ [0]), length (fmt_out f args) : Z).
Proof.
  intros Hf Hlit Hfit Ha Ho Hd. unfold vsprintf.
  apply (while_within _ _ (S (length (fmt_text f)))); [unfold fits in Hfit; lia|].
  destruct (printed_all buf f m buf fmt args) as (n & Hn & Hr); [done|].
  exists n. split; [done|].
  by replace (buf + length (fmt_out f args) - buf) with (length (fmt_out f args) : Z) in Hr by lia.
Qed.

Lemma fmt_ok_dec f args :
  length args = fmt_args f → Forall (λ a, 0 ≤ a < 2147483648) args → fmt_ok f args.
Proof.
  revert args. induction f as [|i f IH]; intros args Hlen Ha; [by destruct args|].
  destruct i; cbn [fmt_ok fmt_args] in *; [by apply IH|..].
  all: destruct args as [|a args]; [done|]; injection Hlen as Hlen; apply Forall_cons_iff in Ha as [Ha Has];
    (split; [unfold conv_ok; lia|by apply IH]).
Qed.
End decimal.

(** ** Properties *)

(** What [number] prints for [%x], [%X], [%u], [%d] (any base up to 16, no
    flags) [simple_strtoul] reads back: the same number, and the end pointer at
    the end of the digits; [number] writes at most 32 characters. *)
Lemma number_strtoul_roundtrip m str n base ty :
  2 ≤ base ≤ 16 → 0 ≤ n < 4294967296 → owned m str 33 →
  plain ty → (flag ty SIGN = true → n < 2147483648) →
  ∃ m1 e m2, number m str (s32 n) base (-1) (-1) ty = Some (m1, e) ∧ str < e ≤ str + 32 ∧
    st m1 e 0 = Some m2 ∧ simple_strtoul m2 str base = Some (n, e).
Proof.
  intros Hb Hn Ho Hty Hs.
  destruct (number_plain m str n base ty Hb Hn) as (ds & Hds & Hv & Hlen & Hlead & Hnum); try done.
  { eapply owned_mono; [exact Ho|lia|lia]. }
  set (cs := map (digit_char (flag ty LARGE)) (reverse ds)) in *.
  assert (Hcs : (length cs = length ds)%nat) by (unfold cs; by rewrite length_map, length_reverse).
  exists (write_bytes m str cs), (str + length ds), (write_bytes m str (cs ++ [0])).
  split; [done|]. split; [lia|]. split.
  { rewrite st_owned by (apply (owned_write m str 33 str cs Ho); lia).
    by rewrite write_bytes_snoc, Hcs. }
  assert (Hc : Forall is_char cs).
  { unfold cs. apply Forall_map, Forall_reverse. eapply Forall_impl; [|exact Hds].
    intros d Hd. apply digit_char_value. simpl in Hd. lia. }
  rewrite (simple_strtoul_cstr _ str cs base).
  - pose proof (strtoul_digits (flag ty LARGE) base ds [] Hb Hds ltac:(lia)
      ltac:(lia) I Hlead ltac:(done)) as E.
    rewrite app_nil_r in E. fold cs in E. rewrite E. simpl. do 2 f_equal; [done|lia].
  - split; [done|apply write_bytes_in].
  - unfold fits. lia.
Qed.

