(* ===== verification/Crc.v ===== *)
(** * Checksums ([lib_generic/crc32.c], [common/crc16.c])

    The table-driven routines over memory, the code that generates the table,
    and their bit-serial meaning: the shift register of the generator
    polynomial. *)

From S2P Require Import Prelude.

(** ** CRC-32 *)

(** One step of the inner loop of [make_crc_table]. *)
Definition crc_bit (poly c : Z) : Z :=
  if Z.land c 1 =? 0 then Z.shiftr c 1 else Z.lxor poly (Z.shiftr c 1).

Definition make_crc_table_p : list Z := [0;1;2;4;5;7;8;10;11;12;16;22;23;26].

Definition make_crc_table_poly : Z :=
  foldl (λ poly p, Z.lor poly (Z.shiftl 1 (31 - p))) 0 make_crc_table_p.

(** The table [make_crc_table] builds. *)
Definition make_crc_table : list Z :=
  map (λ n : nat, Nat.iter 8 (crc_bit make_crc_table_poly) (n : Z)) (seq 0 256).

Definition crc_table : list Z :=
  [0x00000000; 0x77073096; 0xee0e612c; 0x990951ba; 0x076dc419; 0x706af48f;
   0xe963a535; 0x9e6495a3; 0x0edb8832; 0x79dcb8a4; 0xe0d5e91e; 0x97d2d988;
   0x09b64c2b; 0x7eb17cbd; 0xe7b82d07; 0x90bf1d91; 0x1db71064; 0x6ab020f2;
   0xf3b97148; 0x84be41de; 0x1adad47d; 0x6ddde4eb; 0xf4d4b551; 0x83d385c7;
   0x136c9856; 0x646ba8c0; 0xfd62f97a; 0x8a65c9ec; 0x14015c4f; 0x63066cd9;
   0xfa0f3d63; 0x8d080df5; 0x3b6e20c8; 0x4c69105e; 0xd56041e4; 0xa2677172;
   0x3c03e4d1; 0x4b04d447; 0xd20d85fd; 0xa50ab56b; 0x35b5a8fa; 0x42b2986c;
   0xdbbbc9d6; 0xacbcf940; 0x32d86ce3; 0x45df5c75; 0xdcd60dcf; 0xabd13d59;
   0x26d930ac; 0x51de003a; 0xc8d75180; 0xbfd06116; 0x21b4f4b5; 0x56b3c423;
   0xcfba9599; 0xb8bda50f; 0x2802b89e; 0x5f058808; 0xc60cd9b2; 0xb10be924;
   0x2f6f7c87; 0x58684c11; 0xc1611dab; 0xb6662d3d; 0x76dc4190; 0x01db7106;
   0x98d220bc; 0xefd5102a; 0x71b18589; 0x06b6b51f; 0x9fbfe4a5; 0xe8b8d433;
   0x7807c9a2; 0x0f00f934; 0x9609a88e; 0xe10e9818; 0x7f6a0dbb; 0x086d3d2d;
   0x91646c97; 0xe6635c01; 0x6b6b51f4; 0x1c6c6162; 0x856530d8; 0xf262004e;
   0x6c0695ed; 0x1b01a57b; 0x8208f4c1; 0xf50fc457; 0x65b0d9c6; 0x12b7e950;
   0x8bbeb8ea; 0xfcb9887c; 0x62dd1ddf; 0x15da2d49; 0x8cd37cf3; 0xfbd44c65;
   0x4db26158; 0x3ab551ce; 0xa3bc0074; 0xd4bb30e2; 0x4adfa541; 0x3dd895d7;
   0xa4d1c46d; 0xd3d6f4fb; 0x4369e96a; 0x346ed9fc; 0xad678846; 0xda60b8d0;
   0x44042d73; 0x33031de5; 0xaa0a4c5f; 0xdd0d7cc9; 0x5005713c; 0x270241aa;
   0xbe0b1010; 0xc90c2086; 0x5768b525; 0x206f85b3; 0xb966d409; 0xce61e49f;
   0x5edef90e; 0x29d9c998; 0xb0d09822; 0xc7d7a8b4; 0x59b33d17; 0x2eb40d81;
   0xb7bd5c3b; 0xc0ba6cad; 0xedb88320; 0x9abfb3b6; 0x03b6e20c; 0x74b1d29a;
   0xead54739; 0x9dd277af; 0x04db2615; 0x73dc1683; 0xe3630b12; 0x94643b84;
   0x0d6d6a3e; 0x7a6a5aa8; 0xe40ecf0b; 0x9309ff9d; 0x0a00ae27; 0x7d079eb1;
   0xf00f9344; 0x8708a3d2; 0x1e01f268; 0x6906c2fe; 0xf762575d; 0x806567cb;
   0x196c3671; 0x6e6b06e7; 0xfed41b76; 0x89d32be0; 0x10da7a5a; 0x67dd4acc;
   0xf9b9df6f; 0x8ebeeff9; 0x17b7be43; 0x60b08ed5; 0xd6d6a3e8; 0xa1d1937e;
   0x38d8c2c4; 0x4fdff252; 0xd1bb67f1; 0xa6bc5767; 0x3fb506dd; 0x48b2364b;
   0xd80d2bda; 0xaf0a1b4c; 0x36034af6; 0x41047a60; 0xdf60efc3; 0xa867df55;
   0x316e8eef; 0x4669be79; 0xcb61b38c; 0xbc66831a; 0x256fd2a0; 0x5268e236;
   0xcc0c7795; 0xbb0b4703; 0x220216b9; 0x5505262f; 0xc5ba3bbe; 0xb2bd0b28;
   0x2bb45a92; 0x5cb36a04; 0xc2d7ffa7; 0xb5d0cf31; 0x2cd99e8b; 0x5bdeae1d;
   0x9b64c2b0; 0xec63f226; 0x756aa39c; 0x026d930a; 0x9c0906a9; 0xeb0e363f;
   0x72076785; 0x05005713; 0x95bf4a82; 0xe2b87a14; 0x7bb12bae; 0x0cb61b38;
   0x92d28e9b; 0xe5d5be0d; 0x7cdcefb7; 0x0bdbdf21; 0x86d3d2d4; 0xf1d4e242;
   0x68ddb3f8; 0x1fda836e; 0x81be16cd; 0xf6b9265b; 0x6fb077e1; 0x18b74777;
   0x88085ae6; 0xff0f6a70; 0x66063bca; 0x11010b5c; 0x8f659eff; 0xf862ae69;
   0x616bffd3; 0x166ccf45; 0xa00ae278; 0xd70dd2ee; 0x4e048354; 0x3903b3c2;
   0xa7672661; 0xd06016f7; 0x4969474d; 0x3e6e77db; 0xaed16a4a; 0xd9d65adc;
   0x40df0b66; 0x37d83bf0; 0xa9bcae53; 0xdebb9ec5; 0x47b2cf7f; 0x30b5ffe9;
   0xbdbdf21c; 0xcabac28a; 0x53b39330; 0x24b4a3a6; 0xbad03605; 0xcdd70693;
   0x54de5729; 0x23d967bf; 0xb3667a2e; 0xc4614ab8; 0x5d681b02; 0x2a6f2b94;
   0xb40bbe37; 0xc30c8ea1; 0x5a05df1b; 0x2d02ef8d].

Definition DO1 (m : mem) '((crc, buf) : Z * Z) : option (Z * Z) :=
  b ← ld m buf;
  t ← crc_table !! Z.to_nat (Z.land (Z.lxor crc b) 255);
  Some (Z.lxor t (Z.shiftr crc 8), buf + 1).

Definition DO2 (m : mem) (s : Z * Z) : option (Z * Z) := s ← DO1 m s; DO1 m s.
Definition DO4 (m : mem) (s : Z * Z) : option (Z * Z) := s ← DO2 m s; DO2 m s.
Definition DO8 (m : mem) (s : Z * Z) : option (Z * Z) := s ← DO4 m s; DO4 m s.

Definition crc32_no_comp (m : mem) (crc buf len : Z) : option Z :=
  '(crc, buf, len) ← while (λ '(crc, buf, len),
     if len >=? 8 then
       '(crc, buf) ← DO8 m (crc, buf); Some (Next (crc, buf, len - 8))
     else Some (Done (crc, buf, len))) (crc, buf, len);
  if len =? 0 then Some crc else
  while (λ '(crc, buf, len),
    '(crc, buf) ← DO1 m (crc, buf);
    Some (if len - 1 =? 0 then Done crc else Next (crc, buf, len - 1))) (crc, buf, len).

Definition crc32 (m : mem) (crc buf len : Z) : option Z :=
  let crc := Z.lxor crc 0xffffffff in
  '(crc, buf, len) ← while (λ '(crc, buf, len),
     if len >=? 8 then
       '(crc, buf) ← DO8 m (crc, buf); Some (Next (crc, buf, len - 8))
     else Some (Done (crc, buf, len))) (crc, buf, len);
  if len =? 0 then Some (Z.lxor crc 0xffffffff) else
  crc ← while (λ '(crc, buf, len),
     '(crc, buf) ← DO1 m (crc, buf);
     Some (if len - 1 =? 0 then Done crc else Next (crc, buf, len - 1))) (crc, buf, len);
  Some (Z.lxor crc 0xffffffff).

(** ** CRC-16 *)

Definition crc16_tab : list Z :=
  [0x0000; 0x1021; 0x2042; 0x3063; 0x4084; 0x50a5; 0x60c6; 0x70e7;
   0x8108; 0x9129; 0xa14a; 0xb16b; 0xc18c; 0xd1ad; 0xe1ce; 0xf1ef;
   0x1231; 0x0210; 0x3273; 0x2252; 0x52b5; 0x4294; 0x72f7; 0x62d6;
   0x9339; 0x8318; 0xb37b; 0xa35a; 0xd3bd; 0xc39c; 0xf3ff; 0xe3de;
   0x2462; 0x3443; 0x0420; 0x1401; 0x64e6; 0x74c7; 0x44a4; 0x5485;
   0xa56a; 0xb54b; 0x8528; 0x9509; 0xe5ee; 0xf5cf; 0xc5ac; 0xd58d;
   0x3653; 0x2672; 0x1611; 0x0630; 0x76d7; 0x66f6; 0x5695; 0x46b4;
   0xb75b; 0xa77a; 0x9719; 0x8738; 0xf7df; 0xe7fe; 0xd79d; 0xc7bc;
   0x48c4; 0x58e5; 0x6886; 0x78a7; 0x0840; 0x1861; 0x2802; 0x3823;
   0xc9cc; 0xd9ed; 0xe98e; 0xf9af; 0x8948; 0x9969; 0xa90a; 0xb92b;
   0x5af5; 0x4ad4; 0x7ab7; 0x6a96; 0x1a71; 0x0a50; 0x3a33; 0x2a12;
   0xdbfd; 0xcbdc; 0xfbbf; 0xeb9e; 0x9b79; 0x8b58; 0xbb3b; 0xab1a;
   0x6ca6; 0x7c87; 0x4ce4; 0x5cc5; 0x2c22; 0x3c03; 0x0c60; 0x1c41;
   0xedae; 0xfd8f; 0xcdec; 0xddcd; 0xad2a; 0xbd0b; 0x8d68; 0x9d49;
   0x7e97; 0x6eb6; 0x5ed5; 0x4ef4; 0x3e13; 0x2e32; 0x1e51; 0x0e70;
   0xff9f; 0xefbe; 0xdfdd; 0xcffc; 0xbf1b; 0xaf3a; 0x9f59; 0x8f78;
   0x9188; 0x81a9; 0xb1ca; 0xa1eb; 0xd10c; 0xc12d; 0xf14e; 0xe16f;
   0x1080; 0x00a1; 0x30c2; 0x20e3; 0x5004; 0x4025; 0x7046; 0x6067;
   0x83b9; 0x9398; 0xa3fb; 0xb3da; 0xc33d; 0xd31c; 0xe37f; 0xf35e;
   0x02b1; 0x1290; 0x22f3; 0x32d2; 0x4235; 0x5214; 0x6277; 0x7256;
   0xb5ea; 0xa5cb; 0x95a8; 0x8589; 0xf56e; 0xe54f; 0xd52c; 0xc50d;
   0x34e2; 0x24c3; 0x14a0; 0x0481; 0x7466; 0x6447; 0x5424; 0x4405;
   0xa7db; 0xb7fa; 0x8799; 0x97b8; 0xe75f; 0xf77e; 0xc71d; 0xd73c;
   0x26d3; 0x36f2; 0x0691; 0x16b0; 0x6657; 0x7676; 0x4615; 0x5634;
   0xd94c; 0xc96d; 0xf90e; 0xe92f; 0x99c8; 0x89e9; 0xb98a; 0xa9ab;
   0x5844; 0x4865; 0x7806; 0x6827; 0x18c0; 0x08e1; 0x3882; 0x28a3;
   0xcb7d; 0xdb5c; 0xeb3f; 0xfb1e; 0x8bf9; 0x9bd8; 0xabbb; 0xbb9a;
   0x4a75; 0x5a54; 0x6a37; 0x7a16; 0x0af1; 0x1ad0; 0x2ab3; 0x3a92;
   0xfd2e; 0xed0f; 0xdd6c; 0xcd4d; 0xbdaa; 0xad8b; 0x9de8; 0x8dc9;
   0x7c26; 0x6c07; 0x5c64; 0x4c45; 0x3ca2; 0x2c83; 0x1ce0; 0x0cc1;
   0xef1f; 0xff3e; 0xcf5d; 0xdf7c; 0xaf9b; 0xbfba; 0x8fd9; 0x9ff8;
   0x6e17; 0x7e36; 0x4e55; 0x5e74; 0x2e93; 0x3eb2; 0x0ed1; 0x1ef0].

(** [len] is an [int]: no byte is read when it is negative. *)
Definition cyg_crc16 (m : mem) (buf len : Z) : option Z :=
  while (λ '(i, buf, cksum),
    if negb (i <? len) then Some (Done cksum) else
    b ← ld m buf;
    t ← crc16_tab !! Z.to_nat (Z.land (Z.lxor (Z.shiftr cksum 8) b) 255);
    Some (Next (i + 1, buf + 1, u16 (Z.lxor t (Z.shiftl cksum 8))))) (0, buf, 0).

(** ** The shift register

    [lfsr] takes one message bit into the register of the reflected CRC-32;
    a byte is sent least significant bit first. *)

Definition crc32_poly : Z := 0xedb88320.

Definition lfsr (c : Z) (bit : bool) : Z := crc_bit crc32_poly (Z.lxor c (Z.b2z bit)).

(** The [n] low bits of [w], least significant first. *)
Fixpoint low_bits (n : nat) (w : Z) : list bool :=
  match n with O => [] | S n => Z.odd w :: low_bits n (Z.div2 w) end.

Definition message_bits (l : list Z) : list bool := flat_map (low_bits 8) l.

Definition crc32_spec (crc : Z) (bits : list bool) : Z :=
  Z.lxor (foldl lfsr (Z.lxor crc 0xffffffff) bits) 0xffffffff.

(** The same for CRC-16, which is not reflected: most significant bit first. *)
Definition crc16_bit (c : Z) : Z :=
  Z.lxor (if Z.testbit c 15 then 0x1021 else 0) (u16 (Z.shiftl c 1)).

Definition lfsr16 (c : Z) (bit : bool) : Z :=
  crc16_bit (Z.lxor c (Z.shiftl (Z.b2z bit) 15)).

Definition message_bits16 (l : list Z) : list bool := flat_map (λ b, rev (low_bits 8 b)) l.

Fixpoint of_bits (bs : list bool) : Z :=
  match bs with [] => 0 | b :: bs => Z.lxor (Z.b2z b) (Z.shiftl (of_bits bs) 1) end.

Section crc32.
Implicit Types (c x y w : Z) (bs : list bool) (l : list Z).

Lemma crc_bit_odd p c :
  crc_bit p c = Z.lxor (if Z.odd c then p else 0) (Z.shiftr c 1).
Proof.
  unfold crc_bit. change 1 with (Z.ones 1) at 1. rewrite Z.land_ones by lia.
  change (2 ^ 1) with 2. rewrite Zmod_odd. destruct (Z.odd c); simpl; [done|].
  by rewrite Z.lxor_0_l.
Qed.

Lemma odd_lxor x y : Z.odd (Z.lxor x y) = xorb (Z.odd x) (Z.odd y).
Proof. by rewrite <- !Z.bit0_odd, Z.lxor_spec. Qed.

Lemma crc_bit_lxor p x y : crc_bit p (Z.lxor x y) = Z.lxor (crc_bit p x) (crc_bit p y).
Proof.
  rewrite !crc_bit_odd, Z.shiftr_lxor, odd_lxor.
  apply Z.bits_inj'. intros n Hn. rewrite !Z.lxor_spec.
  destruct (Z.odd x), (Z.odd y); cbn [xorb]; rewrite ?Z.bits_0;
    destruct (Z.testbit p n), (Z.testbit (x ≫ 1) n), (Z.testbit (y ≫ 1) n); done.
Qed.

Lemma crc_bit_even p w : crc_bit p (Z.shiftl w 1) = w.
Proof.
  rewrite crc_bit_odd, Z.shiftl_mul_pow2 by lia. change (2 ^ 1) with 2.
  rewrite Z.odd_mul, andb_false_r, Z.lxor_0_l, Z.shiftr_div_pow2 by lia.
  by apply Z.div_mul.
Qed.

Lemma iter_crc_bit_lxor p n x y :
  Nat.iter n (crc_bit p) (Z.lxor x y) =
  Z.lxor (Nat.iter n (crc_bit p) x) (Nat.iter n (crc_bit p) y).
Proof. induction n as [|n IH]; simpl; [done|]. by rewrite IH, crc_bit_lxor. Qed.

Lemma iter_crc_bit_shift p n w : Nat.iter n (crc_bit p) (Z.shiftl w n) = w.
Proof.
  induction n as [|n IH]; [by rewrite Z.shiftl_0_r|].
  rewrite Nat.iter_succ_r, Nat2Z.inj_succ, <- Z.add_1_r, <- Z.shiftl_shiftl by lia.
  by rewrite crc_bit_even.
Qed.

Lemma split_byte c : c = Z.lxor (Z.land c 255) (Z.shiftl (Z.shiftr c 8) 8).
Proof.
  apply Z.bits_inj'. intros n Hn. change 255 with (Z.ones 8).
  rewrite Z.lxor_spec, Z.land_spec, Z.testbit_ones_nonneg by lia.
  rewrite Z.shiftl_spec by lia. destruct (Z.ltb_spec n 8).
  - rewrite (Z.testbit_neg_r _ (n - 8)) by lia. by destruct (Z.testbit c n).
  - rewrite Z.shiftr_spec by lia. rewrite andb_false_r.
    replace (n - 8 + 8) with n by lia. by destruct (Z.testbit c n).
Qed.

Lemma make_crc_table_ok : make_crc_table = crc_table.
Proof. vm_compute. reflexivity. Qed.

Lemma crc32_poly_ok : make_crc_table_poly = crc32_poly.
Proof. reflexivity. Qed.

Lemma land_255_byte x : is_byte (Z.land x 255).
Proof. change 255 with (Z.ones 8). rewrite Z.land_ones by lia. apply u8_range. Qed.

Lemma crc_table_lookup b :
  is_byte b → crc_table !! Z.to_nat b = Some (Nat.iter 8 (crc_bit crc32_poly) b).
Proof.
  intros [H1 H2]. rewrite <- make_crc_table_ok. unfold make_crc_table.
  rewrite list_lookup_fmap, crc32_poly_ok.
  rewrite (lookup_seq_lt 0 256 (Z.to_nat b)) by lia. cbn [fmap option_fmap option_map].
  by rewrite Nat.add_0_l, Z2Nat.id by lia.
Qed.

Definition crc32_byte (c b : Z) : Z := Nat.iter 8 (crc_bit crc32_poly) (Z.lxor c b).

Lemma table_step c :
  Z.lxor (Nat.iter 8 (crc_bit crc32_poly) (Z.land c 255)) (Z.shiftr c 8) =
  Nat.iter 8 (crc_bit crc32_poly) c.
Proof.
  rewrite (split_byte c) at 3. rewrite iter_crc_bit_lxor.
  f_equal. symmetry. apply (iter_crc_bit_shift _ 8).
Qed.

Lemma shiftr_byte b : is_byte b → Z.shiftr b 8 = 0.
Proof. intros H. rewrite Z.shiftr_div_pow2 by lia. by apply Z.div_small. Qed.

Lemma DO1_step m c a b :
  m !! a = Some b → is_byte b → DO1 m (c, a) = Some (crc32_byte c b, a + 1).
Proof.
  intros Ha Hb. unfold DO1. c_step.
  rewrite crc_table_lookup by apply land_255_byte. rewrite some_bind.
  do 2 f_equal. unfold crc32_byte. rewrite <- (table_step (Z.lxor c b)). f_equal.
  by rewrite Z.shiftr_lxor, (shiftr_byte b), Z.lxor_0_r.
Qed.

Lemma DO8_step m c a l :
  bytes_at m a l → Forall is_byte l → length l = 8%nat →
  DO8 m (c, a) = Some (foldl crc32_byte c l, a + 8).
Proof.
  intros Hl Hb Hlen.
  do 8 (destruct l as [|? l]; [done|]; rewrite bytes_at_cons in Hl; destruct Hl as [? Hl];
        rewrite Forall_cons_iff in Hb; destruct Hb as [? Hb]).
  destruct l; [|done]. unfold DO8, DO4, DO2.
  repeat (erewrite DO1_step by done; rewrite ?some_bind; cbv beta iota).
  simpl. do 2 f_equal. lia.
Qed.

(** Both loops keep the register that the rest of the buffer completes. *)
Definition crc_inv (m : mem) (r : Z) '((c, a, n) : Z * Z * Z) : Prop :=
  ∃ k, n = length k ∧ bytes_at m a k ∧ Forall is_byte k ∧ foldl crc32_byte c k = r.

Lemma crc_blocks m r s :
  crc_inv m r s → s.2 < 4294967296 →
  ∃ s', while (λ '(crc, buf, len),
      if len >=? 8 then
        '(crc, buf) ← DO8 m (crc, buf); Some (Next (crc, buf, len - 8))
      else Some (Done (crc, buf, len))) s = Some s' ∧ (crc_inv m r s' ∧ s'.2 < 8).
Proof.
  intros Hs Hlt. apply (while_rule _ (crc_inv m r) (λ s, s.2)); [|done|].
  2: { destruct s as [[c a] n], Hs as (k & -> & _). simpl in *. lia. }
  clear s Hs Hlt. intros [[c a] n] (k & -> & Hk & Hb & Hr).
  destruct (Z.geb_spec (length k) 8) as [H8|H8].
  - rewrite <- (take_drop 8 k) in Hk, Hb, Hr. rewrite bytes_at_app in Hk.
    rewrite length_take_le in Hk by lia. destruct Hk as [Hk1 Hk2].
    apply Forall_app in Hb as [Hb1 Hb2]. rewrite foldl_app in Hr.
    erewrite DO8_step; [|done..|by apply length_take_le; lia].
    eexists. split; [reflexivity|]. split; [|simpl; lia].
    exists (drop 8 k). rewrite length_drop. split; [lia|]. done.
  - eexists. split; [reflexivity|]. split; [|simpl; lia]. by exists k.
Qed.

Lemma crc_bytes_loop m r s :
  crc_inv m r s → 0 < s.2 < 4294967296 →
  while (λ '(crc, buf, len),
    '(crc, buf) ← DO1 m (crc, buf);
    Some (if len - 1 =? 0 then Done crc else Next (crc, buf, len - 1))) s = Some r.
Proof.
  intros Hs Hlt.
  edestruct (while_rule (λ '(crc, buf, len),
    '(crc, buf) ← DO1 m (crc, buf);
    Some (if len - 1 =? 0 then Done crc else Next (crc, buf, len - 1)))
    (λ s, crc_inv m r s ∧ 0 < s.2) (λ s, s.2) (λ x, x = r)) as (x & Hx & ->);
    [|split; [exact Hs|lia]|lia|exact Hx].
  clear s Hs Hlt. intros [[c a] n] [(k & -> & Hk & Hb & Hr) Hpos].
  destruct k as [|b k]; [simpl in Hpos; lia|].
  apply bytes_at_cons in Hk as [Ha Hk]. apply Forall_cons_iff in Hb as [Hb1 Hb].
  erewrite DO1_step by done. rewrite some_bind. cbv beta iota.
  eexists. split; [reflexivity|]. simpl length.
  destruct (Z.eqb_spec (S (length k) - 1) 0).
  - destruct k; [done|simpl in *; lia].
  - split; [|simpl; lia]. split; [|simpl; lia]. exists k. split; [lia|]. done.
Qed.

Lemma crc_inv_start m c a l :
  bytes_at m a l → Forall is_byte l → crc_inv m (foldl crc32_byte c l) (c, a, length l : Z).
Proof. intros. by exists l. Qed.

Lemma crc_inv_end m r c a : crc_inv m r (c, a, 0) → c = r.
Proof. intros (k & Hk & _ & _ & <-). by destruct k. Qed.

Lemma crc32_no_comp_bytes m c a l :
  bytes_at m a l → Forall is_byte l → fits l →
  crc32_no_comp m c a (length l) = Some (foldl crc32_byte c l).
Proof.
  intros Hl Hb Hf. unfold crc32_no_comp.
  destruct (crc_blocks m _ _ (crc_inv_start m c a l Hl Hb) Hf)
    as ([[c' a'] n] & -> & Hinv & Hn).
  rewrite some_bind. cbv beta iota. assert (Hinv' := Hinv). destruct Hinv' as (k & -> & _).
  destruct (Z.eqb_spec (length k) 0) as [E|E].
  - rewrite E in Hinv. by rewrite (crc_inv_end _ _ _ _ Hinv).
  - simpl in Hn. by apply crc_bytes_loop; [done|simpl; lia].
Qed.

Lemma crc32_bytes m c a l :
  bytes_at m a l → Forall is_byte l → fits l →
  crc32 m c a (length l) =
    Some (Z.lxor (foldl crc32_byte (Z.lxor c 0xffffffff) l) 0xffffffff).
Proof.
  intros Hl Hb Hf. unfold crc32.
  destruct (crc_blocks m _ _ (crc_inv_start m (Z.lxor c 0xffffffff) a l Hl Hb) Hf)
    as ([[c' a'] n] & -> & Hinv & Hn).
  rewrite some_bind. cbv beta iota. assert (Hinv' := Hinv). destruct Hinv' as (k & -> & _).
  destruct (Z.eqb_spec (length k) 0) as [E|E].
  - rewrite E in Hinv. by rewrite (crc_inv_end _ _ _ _ Hinv).
  - simpl in Hn. by erewrite crc_bytes_loop by (try done; simpl; lia).
Qed.

(** Bits into the register one at a time, or all at once. *)
Lemma lfsr_bits c bs :
  foldl lfsr c bs = Nat.iter (length bs) (crc_bit crc32_poly) (Z.lxor c (of_bits bs)).
Proof.
  revert c. induction bs as [|b bs IH]; intros c; simpl foldl; simpl length; simpl of_bits.
  - by rewrite Z.lxor_0_r.
  - rewrite Nat.iter_succ_r, <- Z.lxor_assoc, crc_bit_lxor, crc_bit_even. apply IH.
Qed.

Lemma b2z_div2 w : Z.lxor (Z.b2z (Z.odd w)) (Z.shiftl (Z.div2 w) 1) = w.
Proof.
  rewrite <- Z.bit0_odd. apply Z.bits_inj'. intros n Hn.
  rewrite Z.lxor_spec, Z.shiftl_spec by lia.
  destruct (Z.eqb_spec n 0) as [->|H0].
  - rewrite Z.b2z_bit0, (Z.testbit_neg_r _ (0 - 1)) by lia. apply xorb_false_r.
  - rewrite Z.div2_spec, Z.shiftr_spec by lia. replace (n - 1 + 1) with n by lia.
    destruct (Z.testbit w 0); simpl; [|by rewrite Z.bits_0].
    rewrite (Z.bits_above_log2 1 n) by (simpl; lia). done.
Qed.

Lemma of_low_bits (n : nat) w : 0 ≤ w < 2 ^ n → of_bits (low_bits n w) = w.
Proof.
  revert w. induction n as [|n IH]; intros w Hw.
  - simpl in *. lia.
  - simpl. rewrite Nat2Z.inj_succ, Z.pow_succ_r in Hw by lia. rewrite IH; [apply b2z_div2|].
    rewrite Z.div2_div. split; [apply Z.div_pos; lia|apply Z.div_lt_upper_bound; lia].
Qed.

Lemma length_low_bits n w : length (low_bits n w) = n.
Proof. revert w. induction n as [|n IH]; intros w; simpl; [done|by rewrite IH]. Qed.

Lemma crc32_byte_bits c b : is_byte b → crc32_byte c b = foldl lfsr c (low_bits 8 b).
Proof. intros H. by rewrite lfsr_bits, length_low_bits, of_low_bits. Qed.

Lemma crc32_message c l :
  Forall is_byte l → foldl crc32_byte c l = foldl lfsr c (message_bits l).
Proof.
  intros H. revert c. induction H as [|b l Hb H IH]; intros c; [done|].
  unfold message_bits. cbn [flat_map foldl]. rewrite foldl_app, crc32_byte_bits by done.
  apply IH.
Qed.
End crc32.

(** ** Injectivity of the register *)

Section burst.
Implicit Types (c x y : Z) (bs : list bool) (l : list Z).

Definition reg32 (c : Z) : Prop := 0 ≤ c < 4294967296.

Lemma reg32_bits c n : reg32 c → 32 ≤ n → Z.testbit c n = false.
Proof.
  intros [H1 H2] Hn. destruct (decide (c = 0)) as [->|]; [apply Z.bits_0|].
  apply Z.bits_above_log2; [lia|]. apply Z.lt_le_trans with 32; [|lia].
  apply Z.log2_lt_pow2; lia.
Qed.

Lemma bits_reg32 c : 0 ≤ c → (∀ n, 32 ≤ n → Z.testbit c n = false) → reg32 c.
Proof.
  intros H H1. split; [done|]. destruct (decide (c = 0)) as [->|]; [lia|].
  change 4294967296 with (2 ^ 32). apply Z.log2_lt_pow2; [lia|].
  destruct (decide (Z.log2 c < 32)); [done|].
  specialize (H1 (Z.log2 c)). rewrite Z.bit_log2 in H1 by lia. by specialize (H1 ltac:(lia)).
Qed.

Lemma reg32_lxor x y : reg32 x → reg32 y → reg32 (Z.lxor x y).
Proof.
  intros Hx Hy. apply bits_reg32.
  - apply Z.lxor_nonneg. unfold reg32 in *. lia.
  - intros n Hn. by rewrite Z.lxor_spec, !reg32_bits.
Qed.

Lemma reg32_crc_bit c : reg32 c → reg32 (crc_bit crc32_poly c).
Proof.
  intros H. rewrite crc_bit_odd. apply reg32_lxor.
  - destruct (Z.odd c); unfold reg32, crc32_poly; lia.
  - unfold reg32 in *. rewrite Z.shiftr_div_pow2 by lia. change (2 ^ 1) with 2.
    split; [apply Z.div_pos; lia|apply Z.div_lt_upper_bound; lia].
Qed.

(** The top bit of the new register is the bit shifted out, so a step can be
    undone. *)
Lemma crc_bit_inj x y :
  reg32 x → reg32 y → crc_bit crc32_poly x = crc_bit crc32_poly y → x = y.
Proof.
  intros Hx Hy E. rewrite !crc_bit_odd in E.
  assert (Ho : Z.odd x = Z.odd y).
  { apply (f_equal (λ z, Z.testbit z 31)) in E.
    rewrite !Z.lxor_spec, !Z.shiftr_spec, (reg32_bits x), (reg32_bits y) in E by (done || lia).
    destruct (Z.odd x), (Z.odd y); done. }
  rewrite Ho in E. apply (f_equal (Z.lxor (if Z.odd y then crc32_poly else 0))) in E.
  rewrite <- !Z.lxor_assoc, Z.lxor_nilpotent, !Z.lxor_0_l in E.
  rewrite <- (b2z_div2 x), <- (b2z_div2 y), Ho, !Z.div2_spec. by rewrite E.
Qed.

Lemma reg32_lfsr c b : reg32 c → reg32 (lfsr c b).
Proof.
  intros H. apply reg32_crc_bit, reg32_lxor; [done|]. destruct b; unfold reg32; simpl; lia.
Qed.

Lemma reg32_foldl c bs : reg32 c → reg32 (foldl lfsr c bs).
Proof. revert c. induction bs as [|b bs IH]; intros c H; [done|]. by apply IH, reg32_lfsr. Qed.

Lemma lxor_inj x y z : Z.lxor x z = Z.lxor y z → x = y.
Proof.
  intros E. apply (f_equal (λ w, Z.lxor w z)) in E.
  by rewrite !Z.lxor_assoc, Z.lxor_nilpotent, !Z.lxor_0_r in E.
Qed.

(** Different registers stay different under the same bits. *)
Lemma foldl_lfsr_inj x y bs :
  reg32 x → reg32 y → foldl lfsr x bs = foldl lfsr y bs → x = y.
Proof.
  revert x y. induction bs as [|b bs IH]; intros x y Hx Hy E; [done|].
  apply IH in E; [|by apply reg32_lfsr..]. unfold lfsr in E.
  apply (lxor_inj _ _ (Z.b2z b)), crc_bit_inj; [| |done];
    (apply reg32_lxor; [done|]; destruct b; unfold reg32; simpl; lia).
Qed.

Lemma of_bits_bound bs : 0 ≤ of_bits bs < 2 ^ length bs.
Proof.
  induction bs as [|b bs IH]; [simpl; lia|]. simpl of_bits. simpl length.
  rewrite Nat2Z.inj_succ, Z.pow_succ_r by lia.
  assert (E : Z.lxor (Z.b2z b) (Z.shiftl (of_bits bs) 1) = Z.b2z b + 2 * of_bits bs).
  { rewrite <- Z.add_nocarry_lxor.
    - rewrite Z.shiftl_mul_pow2 by lia. lia.
    - apply Z.bits_inj'. intros n Hn. rewrite Z.land_spec, Z.shiftl_spec, Z.bits_0 by lia.
      destruct (Z.eqb_spec n 0) as [->|].
      + rewrite (Z.testbit_neg_r _ (0 - 1)) by lia. apply andb_false_r.
      + destruct b; [|by rewrite Z.bits_0]. simpl Z.b2z.
        rewrite (Z.bits_above_log2 1 n) by (simpl; lia). done. }
  rewrite E. destruct b; simpl; lia.
Qed.

Lemma of_bits_inj bs bs' : length bs = length bs' → of_bits bs = of_bits bs' → bs = bs'.
Proof.
  revert bs'. induction bs as [|b bs IH]; intros [|b' bs'] Hl E; [done..|].
  simpl in Hl, E.
  assert (b = b') as ->.
  { apply (f_equal (λ z, Z.testbit z 0)) in E.
    rewrite !Z.lxor_spec, !Z.b2z_bit0, !Z.shiftl_spec, !(Z.testbit_neg_r _ (0 - 1)) in E by lia.
    by destruct b, b'. }
  f_equal. apply IH; [lia|]. rewrite !(Z.lxor_comm (Z.b2z b')) in E.
  apply lxor_inj in E. apply (f_equal (λ z, Z.shiftr z 1)) in E.
  by rewrite !Z.shiftr_shiftl_l, !Z.shiftl_0_r in E by lia.
Qed.

Lemma iter_crc_bit_inj n x y :
  reg32 x → reg32 y →
  Nat.iter n (crc_bit crc32_poly) x = Nat.iter n (crc_bit crc32_poly) y → x = y.
Proof.
  revert x y. induction n as [|n IH]; intros x y Hx Hy E; [done|].
  rewrite !Nat.iter_succ_r in E. apply IH in E; [|by apply reg32_crc_bit..].
  by apply crc_bit_inj.
Qed.

(** At most 32 different bits leave different registers. *)
Lemma foldl_lfsr_burst c bs bs' :
  reg32 c → length bs = length bs' → (length bs ≤ 32)%nat → bs ≠ bs' →
  foldl lfsr c bs ≠ foldl lfsr c bs'.
Proof.
  intros Hc Hl H32 Hne E. apply Hne. apply of_bits_inj; [done|].
  assert (Hb : ∀ bs, (length bs ≤ 32)%nat → reg32 (of_bits bs)).
  { intros k Hk. pose proof (of_bits_bound k).
    pose proof (Z.pow_le_mono_r 2 (length k) 32 ltac:(lia) ltac:(lia)).
    unfold reg32. change (2 ^ 32) with 4294967296 in *. lia. }
  rewrite !lfsr_bits, Hl in E.
  apply iter_crc_bit_inj in E; [|apply reg32_lxor; [done|apply Hb; lia]..].
  rewrite !(Z.lxor_comm c) in E. by apply lxor_inj in E.
Qed.
End burst.

(** ** CRC-16, most significant bit first *)

Section crc16.
Implicit Types (c x y : Z) (l : list Z).

Lemma u16_bits x n : 0 ≤ n → Z.testbit (u16 x) n = (n <? 16) && Z.testbit x n.
Proof.
  intros Hn. unfold u16. change 65536 with (2 ^ 16).
  destruct (Z.ltb_spec n 16); [by rewrite Z.mod_pow2_bits_low|].
  by rewrite Z.mod_pow2_bits_high by lia.
Qed.

Lemma u16_lxor x y : u16 (Z.lxor x y) = Z.lxor (u16 x) (u16 y).
Proof.
  apply Z.bits_inj'. intros n Hn. rewrite Z.lxor_spec, !u16_bits, Z.lxor_spec by done.
  by destruct (n <? 16).
Qed.

Lemma crc16_bit_lxor x y : crc16_bit (Z.lxor x y) = Z.lxor (crc16_bit x) (crc16_bit y).
Proof.
  unfold crc16_bit. rewrite Z.shiftl_lxor, u16_lxor, Z.lxor_spec.
  apply Z.bits_inj'. intros n Hn. rewrite !Z.lxor_spec.
  destruct (Z.testbit x 15), (Z.testbit y 15); cbn [xorb]; rewrite ?Z.bits_0;
    destruct (Z.testbit 4129 n), (Z.testbit (u16 (Z.shiftl x 1)) n),
             (Z.testbit (u16 (Z.shiftl y 1)) n); done.
Qed.

Lemma iter_crc16_lxor n x y :
  Nat.iter n crc16_bit (Z.lxor x y) = Z.lxor (Nat.iter n crc16_bit x) (Nat.iter n crc16_bit y).
Proof. induction n as [|n IH]; simpl; [done|]. by rewrite IH, crc16_bit_lxor. Qed.

(** A register whose top bits are clear is only shifted. *)
Lemma iter_crc16_shift n c :
  0 ≤ c → c * 2 ^ (n : nat) < 65536 → Nat.iter n crc16_bit c = Z.shiftl c n.
Proof.
  revert c. induction n as [|n IH]; intros c H0 H; [by rewrite Z.shiftl_0_r|].
  rewrite Nat2Z.inj_succ, Z.pow_succ_r in H by lia.
  pose proof (Z.pow_pos_nonneg 2 n ltac:(lia) ltac:(lia)).
  assert (c * 2 < 65536) by nia.
  assert (E : crc16_bit c = Z.shiftl c 1).
  { unfold crc16_bit. assert (Z.testbit c 15 = false) as ->.
    { destruct (decide (c = 0)) as [->|]; [done|]. apply Z.bits_above_log2; [lia|].
      apply Z.log2_lt_pow2; lia. }
    rewrite Z.lxor_0_l. apply Z.mod_small. rewrite Z.shiftl_mul_pow2; lia. }
  rewrite Nat.iter_succ_r, E, IH, Z.shiftl_shiftl by (rewrite ?Z.shiftl_mul_pow2 by lia; lia).
  f_equal. lia.
Qed.

Lemma crc16_tab_ok :
  map (λ n : nat, Nat.iter 8 crc16_bit (Z.shiftl n 8)) (seq 0 256) = crc16_tab.
Proof. vm_compute. reflexivity. Qed.

Lemma crc16_tab_lookup b :
  is_byte b → crc16_tab !! Z.to_nat b = Some (Nat.iter 8 crc16_bit (Z.shiftl b 8)).
Proof.
  intros [H1 H2]. rewrite <- crc16_tab_ok. rewrite list_lookup_fmap.
  rewrite (lookup_seq_lt 0 256 (Z.to_nat b)) by lia. cbn [fmap option_fmap option_map].
  by rewrite Nat.add_0_l, Z2Nat.id by lia.
Qed.

Definition reg16 (c : Z) : Prop := 0 ≤ c < 65536.

Lemma reg16_split c :
  reg16 c → c = Z.lxor (Z.shiftl (Z.shiftr c 8) 8) (Z.land c 255).
Proof. intros _. rewrite Z.lxor_comm. apply split_byte. Qed.

Definition crc16_byte (c b : Z) : Z := Nat.iter 8 crc16_bit (Z.lxor c (Z.shiftl b 8)).

Lemma crc16_table_step c b :
  reg16 c → is_byte b →
  Z.lxor (Nat.iter 8 crc16_bit (Z.shiftl (Z.lxor (Z.shiftr c 8) b) 8)) (u16 (Z.shiftl c 8)) =
  crc16_byte c b.
Proof.
  intros Hc Hb. unfold crc16_byte. rewrite (reg16_split c) at 3 by done.
  rewrite Z.shiftl_lxor, !iter_crc16_lxor, !Z.lxor_assoc. f_equal.
  rewrite (Z.lxor_comm (Nat.iter 8 crc16_bit (Z.land c 255))). f_equal.
  pose proof (land_255_byte c) as [H1 H2].
  rewrite (iter_crc16_shift 8 (Z.land c 255)) by lia.
  apply Z.bits_inj'. intros n Hn. rewrite u16_bits, !Z.shiftl_spec, Z.land_spec by lia.
  change 255 with (Z.ones 8). destruct (Z.ltb_spec n 8).
  - rewrite ?(Z.testbit_neg_r _ (n - 8)), ?(Z.testbit_neg_r _ (n - 8%nat)) by lia.
    by rewrite andb_false_r.
  - change (Z.of_nat 8) with 8. rewrite Z.testbit_ones_nonneg by lia. rewrite andb_comm.
    f_equal. destruct (Z.ltb_spec n 16), (Z.ltb_spec (n - 8) 8); lia.
Qed.
Lemma reg16_crc16_bit c : reg16 (crc16_bit c).
Proof.
  unfold crc16_bit.
  assert (E : u16 (Z.lxor (if Z.testbit c 15 then 4129 else 0) (u16 (Z.shiftl c 1))) =
              Z.lxor (if Z.testbit c 15 then 4129 else 0) (u16 (Z.shiftl c 1))).
  { rewrite u16_lxor. unfold u16. rewrite Zmod_mod. f_equal. by destruct (Z.testbit c 15). }
  rewrite <- E. apply Z.mod_pos_bound. lia.
Qed.

Lemma reg16_byte c b : reg16 (crc16_byte c b).
Proof. apply reg16_crc16_bit. Qed.

Lemma land_lxor_byte x y : is_byte x → is_byte y → Z.land (Z.lxor x y) 255 = Z.lxor x y.
Proof.
  intros Hx Hy. apply Z.bits_inj'. intros n Hn. change 255 with (Z.ones 8).
  rewrite Z.land_spec, Z.testbit_ones_nonneg, Z.lxor_spec by lia.
  destruct (Z.ltb_spec n 8); [apply andb_true_r|].
  assert (Hb : ∀ z, is_byte z → Z.testbit z n = false).
  { intros z Hz. rewrite <- (u8_byte z Hz). unfold u8. change 256 with (2 ^ 8).
    by apply Z.mod_pow2_bits_high. }
  by rewrite !Hb.
Qed.

Lemma crc16_byte_bits c b :
  is_byte b → crc16_byte c b = foldl lfsr16 c (rev (low_bits 8 b)).
Proof.
  intros Hb. unfold crc16_byte.
  assert (Hstep : ∀ (n : nat) (c v : Z), (n ≤ 8)%nat → 0 ≤ v < 2 ^ n →
    foldl lfsr16 c (rev (low_bits n v)) =
    Nat.iter n crc16_bit (Z.lxor c (Z.shiftl v (16 - n)))).
  { clear c b Hb. induction n as [|n IH]; intros c v Hn Hv.
    { simpl in *. replace v with 0 by lia. by rewrite Z.lxor_0_r. }
    rewrite Nat2Z.inj_succ, Z.pow_succ_r in Hv by lia.
    simpl low_bits. simpl rev. rewrite foldl_app. simpl foldl.
    rewrite IH by (rewrite ?Z.div2_div; try split; try lia;
      first [apply Z.div_pos; lia|apply Z.div_lt_upper_bound; lia]).
    unfold lfsr16. change (Nat.iter (S n) crc16_bit ?x) with (crc16_bit (Nat.iter n crc16_bit x)).
    f_equal. rewrite <- (b2z_div2 v) at 3. rewrite Z.shiftl_lxor, Z.shiftl_shiftl by lia.
    rewrite (Z.lxor_comm (Z.shiftl _ _)), <- (Z.lxor_assoc c), (iter_crc16_lxor n _ (Z.shiftl (Z.b2z _) _)).
    replace (1 + (16 - S n)) with (16 - n) by lia. f_equal.
    assert (Z.shiftl (Z.b2z (Z.odd v)) (16 - S n) * 2 ^ n ≤ 32768).
    { rewrite Z.shiftl_mul_pow2, <- Z.mul_assoc, <- Z.pow_add_r by lia.
      replace (16 - S n + n) with 15 by lia. destruct (Z.odd v); simpl; lia. }
    rewrite iter_crc16_shift, Z.shiftl_shiftl by (try apply Z.shiftl_nonneg; destruct (Z.odd v); simpl in *; lia).
    f_equal. lia. }
  rewrite Hstep; [done|lia|exact Hb].
Qed.

Lemma crc16_message c l :
  Forall is_byte l → foldl crc16_byte c l = foldl lfsr16 c (message_bits16 l).
Proof.
  intros H. revert c. induction H as [|b l Hb H IH]; intros c; [done|].
  unfold message_bits16. cbn [flat_map foldl]. rewrite foldl_app, crc16_byte_bits by done.
  apply IH.
Qed.

Lemma cyg_crc16_bytes m a l :
  bytes_at m a l → Forall is_byte l → fits l →
  cyg_crc16 m a (length l) = Some (foldl crc16_byte 0 l).
Proof.
  intros Hl Hb Hf. unfold cyg_crc16.
  edestruct (while_rule (λ '(i, buf, cksum),
    if negb (i <? length l) then Some (Done cksum) else
    b ← ld m buf;
    t ← crc16_tab !! Z.to_nat (Z.land (Z.lxor (Z.shiftr cksum 8) b) 255);
    Some (Next (i + 1, buf + 1, u16 (Z.lxor t (Z.shiftl cksum 8)))))
    (λ '(i, buf, c), reg16 c ∧ ∃ k, i = length l - length k ∧ bytes_at m buf k ∧
       Forall is_byte k ∧ foldl crc16_byte c k = foldl crc16_byte 0 l ∧
       (length k ≤ length l)%nat)
    (λ '(i, buf, c), length l - i) (λ x, x = foldl crc16_byte 0 l)) as (x & Hx & ->);
    [| | |exact Hx].
  - clear Hl Hb. intros [[i a'] c] (Hc & k & -> & Hk & Hb & Hr & Hlen).
    destruct k as [|b k]; simpl length.
    + eexists. split; [zbool; reflexivity|]. done.
    + apply bytes_at_cons in Hk as [Ha Hk]. apply Forall_cons_iff in Hb as [Hb1 Hb].
      simpl length in Hlen. zbool. cbn [negb]. c_step.
      rewrite crc16_tab_lookup by apply land_255_byte. rewrite some_bind.
      eexists. split; [reflexivity|]. cbv beta iota.
      assert (Hr8 : is_byte (Z.shiftr c 8)).
      { unfold reg16 in Hc. rewrite Z.shiftr_div_pow2 by lia. change (2 ^ 8) with 256.
        split; [apply Z.div_pos; lia|apply Z.div_lt_upper_bound; lia]. }
      rewrite land_lxor_byte, u16_lxor by done.
      assert (Hu : ∀ x, u16 (Nat.iter 8 crc16_bit x) = Nat.iter 8 crc16_bit x).
      { intros x. apply Z.mod_small, reg16_crc16_bit. }
      rewrite Hu, crc16_table_step by done. split; [|lia].
      cbn [foldl] in Hr.
      split; [apply reg16_byte|]. exists k. split; [lia|]. split; [exact Hk|].
      split; [exact Hb|]. split; [exact Hr|lia].
  - split; [unfold reg16; lia|]. exists l. split; [lia|]. auto.
  - unfold fits in Hf. lia.
Qed.
End crc16.

(** ** Theorems *)

(** C24: [crc32] computes the CRC of the bit stream: the register of the
    polynomial 0xedb88320, started and finished inverted, after it has taken
    the bits of the buffer, each byte least significant bit first. *)
Theorem crc32_is_lfsr m a l crc :
  bytes_at m a l → Forall is_byte l → fits l →
  crc32 m crc a (length l) = Some (crc32_spec crc (message_bits l)).
Proof. intros. rewrite crc32_bytes by done. by rewrite crc32_message. Qed.

Lemma crc32_is_lfsr_witness :
  crc32 (mem_of 100 [49;50;51;52;53;54;55;56;57]) 0 100 9 = Some 0xcbf43926.
Proof.
  rewrite (crc32_is_lfsr _ 100 [49;50;51;52;53;54;55;56;57] 0);
    [reflexivity|apply write_bytes_in|chars|unfold fits; simpl; lia].
Defined.

(** the checksum of a block can be continued: the value of a first part,
    passed as [crc] for the second part, gives the value of the whole. *)
Theorem crc32_continues m a l1 l2 crc :
  bytes_at m a (l1 ++ l2) → Forall is_byte (l1 ++ l2) → fits (l1 ++ l2) →
  (c ← crc32 m crc a (length l1); crc32 m c (a + length l1) (length l2)) =
  crc32 m crc a (length (l1 ++ l2)).
Proof.
  intros Hl Hb Hf. rewrite (crc32_bytes m crc a (l1 ++ l2)) by done.
  apply bytes_at_app in Hl as [Hl1 Hl2]. apply Forall_app in Hb as [Hb1 Hb2].
  unfold fits in Hf. rewrite length_app in Hf.
  rewrite (crc32_bytes m crc a l1), some_bind, (crc32_bytes m _ _ l2) by (done || (unfold fits; lia)).
  by rewrite Z.lxor_assoc, Z.lxor_nilpotent, Z.lxor_0_r, foldl_app.
Qed.

(** C23: [crc32] detects every burst of at most 32 bits: two buffers of the
    same length whose bit streams differ only inside a window of 32 bits have
    different checksums. *)
Theorem crc32_detects_burst m a b l l' crc pre w w' post :
  bytes_at m a l → bytes_at m b l' → Forall is_byte l → Forall is_byte l' →
  fits l → length l = length l' → reg32 crc →
  message_bits l = pre ++ w ++ post → message_bits l' = pre ++ w' ++ post →
  length w = length w' → (length w ≤ 32)%nat → w ≠ w' →
  ∃ c c', crc32 m crc a (length l) = Some c ∧ crc32 m crc b (length l') = Some c' ∧ c ≠ c'.
Proof.
  intros Ha Hb Hl Hl' Hf Hlen Hcrc E E' Hw H32 Hne.
  assert (Hf' : fits l') by (unfold fits in *; lia).
  eexists _, _. split; [by apply crc32_bytes|]. split; [by apply crc32_bytes|].
  intros Heq%lxor_inj. rewrite !crc32_message, E, E', !foldl_app in Heq by done.
  assert (Hr : reg32 (Z.lxor crc 0xffffffff)) by (apply reg32_lxor; [done|unfold reg32; lia]).
  apply foldl_lfsr_inj in Heq; [|by apply reg32_foldl, reg32_foldl..].
  apply foldl_lfsr_burst in Heq; auto using reg32_foldl.
Qed.

Lemma crc32_detects_burst_witness :
  ∃ c c', crc32 (mem_of2 100 [1;2;3] 200 [1;6;3]) 0 100 3 = Some c ∧
          crc32 (mem_of2 100 [1;2;3] 200 [1;6;3]) 0 200 3 = Some c' ∧ c ≠ c'.
Proof.
  apply (crc32_detects_burst _ 100 200 [1;2;3] [1;6;3] 0 (low_bits 8 1)
           (low_bits 8 2) (low_bits 8 6) (low_bits 8 3));
    [apply bytes_at_mem_of2; simpl; lia|apply bytes_at_mem_of2; simpl; lia|chars|chars
    |unfold fits; simpl; lia|reflexivity|unfold reg32; lia|reflexivity|reflexivity
    |reflexivity|simpl; lia|discriminate].
Defined.

(** [cyg_crc16] is the CRC with polynomial x^16+x^12+x^5+1 of the bit
    stream, most significant bit first, from a zero register. *)
Theorem cyg_crc16_is_lfsr m a l :
  bytes_at m a l → Forall is_byte l → fits l →
  cyg_crc16 m a (length l) = Some (foldl lfsr16 0 (message_bits16 l)).
Proof. intros. rewrite cyg_crc16_bytes by done. by rewrite crc16_message. Qed.
