(* ===== verification/CircBuf.v ===== *)
(** * The circular buffer ([common/circbuf.c])

    A byte queue in a block of memory; a push into a full buffer drops the
    oldest byte.  The block [buf_init] gets from [malloc] is an argument.  The
    queue a buffer stands for is [queue]. *)

From S2P Require Import Prelude.

Record circbuf := CircBuf {
  size : Z;        (* current number of bytes held *)
  totalsize : Z;   (* number of bytes allocated *)
  top : Z;         (* pointer to current buffer start *)
  tail : Z;        (* pointer to space for next element *)
  data : Z;        (* all data *)
  end_ : Z         (* end of data buffer *)
}.

(** [malloc_data] is what [malloc] returned for [size] bytes. *)
Definition buf_init (malloc_data size : Z) : circbuf :=
  CircBuf 0 size malloc_data malloc_data malloc_data (malloc_data + size).

(** [free] of the block is left to the caller; the record is zeroed. *)
Definition buf_free : circbuf := CircBuf 0 0 0 0 0 0.

Definition buf_pop (m : mem) (buf : circbuf) (dest len : Z) : option (mem * circbuf * Z) :=
  let len := if len >? size buf then size buf else len in
  '(m, p) ← while (λ '(m, p, i),
    if negb (i <? len) then Some (Done (m, p)) else
    x ← ld m p; m ← st m (dest + i) x;
    let p := p + 1 in
    Some (Next (m, if p =? end_ buf then data buf else p, i + 1))) (m, top buf, 0);
  Some (m, CircBuf (size buf - len) (totalsize buf) p (tail buf) (data buf) (end_ buf), len).

Definition buf_push (m : mem) (buf : circbuf) (src len : Z) : option (mem * circbuf * Z) :=
  '(m, p, sz, tp) ← while (λ '(m, p, sz, tp, i),
    if negb (i <? len) then Some (Done (m, p, sz, tp)) else
    x ← ld m (src + i); m ← st m p x;
    let p := p + 1 in
    let p := if p =? end_ buf then data buf else p in
    let '(sz, tp) :=
      if sz <? totalsize buf then (sz + 1, tp)
      else (sz, if tp + 1 =? end_ buf then data buf else tp + 1) in
    Some (Next (m, p, sz, tp, i + 1))) (m, tail buf, size buf, top buf, 0);
  Some (m, CircBuf sz (totalsize buf) tp p (data buf) (end_ buf), len).

(** ** The queue of a buffer *)

(** [q] is stored from offset [o] on in the ring of [n] bytes at [d]. *)
Definition ring (m : mem) (d n o : Z) (q : list Z) : Prop :=
  ∀ (i : nat) x, q !! i = Some x → m !! (d + (o + i) mod n) = Some x.

Record queue (m : mem) (b : circbuf) (q : list Z) : Prop := Queue {
  q_total : 0 < totalsize b < 4294967296;
  q_end : end_ b = data b + totalsize b;
  q_owned : owned m (data b) (totalsize b);
  q_top : 0 ≤ top b - data b < totalsize b;
  q_size : size b = length q;
  q_cap : length q ≤ totalsize b;
  q_tail : tail b = data b + (top b - data b + length q) mod totalsize b;
  q_ring : ring m (data b) (totalsize b) (top b - data b) q
}.

(** The newest [n] bytes. *)
Definition newest (n : Z) (q : list Z) : list Z := drop (length q - Z.to_nat n) q.

Section ring.
Implicit Types (m : mem) (d n o x : Z) (q l : list Z) (b : circbuf).

Lemma wrap_mod o n : 0 < n → 0 ≤ o < n → (if o + 1 =? n then 0 else o + 1) = (o + 1) mod n.
Proof.
  intros Hn Ho. destruct (Z.eqb_spec (o + 1) n) as [->|]; [by rewrite Z.mod_same by lia|].
  by rewrite Z.mod_small by lia.
Qed.

Lemma mod_ne o i j n : 0 < n → 0 < j - i < n → (o + i) mod n ≠ (o + j) mod n.
Proof.
  intros Hn Hij E.
  assert (H0 : (j - i) mod n = 0).
  { replace (j - i) with (o + j - (o + i)) by lia.
    rewrite Zminus_mod, E, Z.sub_diag. apply Zmod_0_l. }
  rewrite Z.mod_small in H0; lia.
Qed.

Lemma wrap_ptr d n p : 0 < n → 0 ≤ p - d < n →
  (if p + 1 =? d + n then d else p + 1) = d + (p - d + 1) mod n.
Proof.
  intros Hn Hp. rewrite <- wrap_mod by lia.
  destruct (Z.eqb_spec (p + 1) (d + n)); zbool; lia.
Qed.

Lemma ring_insert m d n o q j x :
  0 < n → length q ≤ n → length q ≤ j < n →
  ring m d n o q → ring (<[d + (o + j) mod n := x]> m) d n o q.
Proof.
  intros Hn Hq Hj H i y Hy. pose proof (lookup_lt_Some _ _ _ Hy).
  rewrite lookup_insert_ne; [by apply H|].
  pose proof (mod_ne o i j n Hn ltac:(lia)). lia.
Qed.

Lemma ring_snoc m d n o q x :
  ring m d n o q → m !! (d + (o + length q) mod n) = Some x → ring m d n o (q ++ [x]).
Proof.
  intros H Hx i y [Hy|[Hi Hy]]%lookup_app_Some; [by apply H|].
  apply list_lookup_singleton_Some in Hy as [Hi0 <-].
  by replace (i : Z) with (length q : Z) by lia.
Qed.

Lemma ring_tail m d n o x q :
  0 < n → ring m d n o (x :: q) → ring m d n ((o + 1) mod n) q.
Proof.
  intros Hn H i y Hy. rewrite Zplus_mod_idemp_l.
  replace (o + 1 + i) with (o + S i) by lia. by apply H.
Qed.

Lemma ring_head m d n o x q : 0 ≤ o < n → ring m d n o (x :: q) → m !! (d + o) = Some x.
Proof.
  intros Ho H. specialize (H 0%nat x eq_refl). by rewrite Z.add_0_r, Z.mod_small in H by lia.
Qed.

(** One byte pushed: [push_step] is the body of the loop on the record. *)
Definition push_step (b : circbuf) : circbuf :=
  let p := if tail b + 1 =? end_ b then data b else tail b + 1 in
  if size b <? totalsize b then CircBuf (size b + 1) (totalsize b) (top b) p (data b) (end_ b)
  else CircBuf (size b) (totalsize b)
         (if top b + 1 =? end_ b then data b else top b + 1) p (data b) (end_ b).

Lemma queue_tail m b q : queue m b q → 0 ≤ tail b - data b < totalsize b.
Proof.
  intros H. rewrite (q_tail _ _ _ H).
  pose proof (Z.mod_pos_bound (top b - data b + length q) (totalsize b)
                ltac:(pose proof (q_total _ _ _ H); lia)). lia.
Qed.

Lemma newest_short n q : length q ≤ n → newest n q = q.
Proof. intros H. unfold newest. by replace (length q - Z.to_nat n)%nat with 0%nat by lia. Qed.

Lemma push_step_queue m b q x :
  queue m b q → queue (<[tail b := x]> m) (push_step b) (newest (totalsize b) (q ++ [x])).
Proof.
  intros H. pose proof (queue_tail _ _ _ H) as Ht.
  destruct H as [Hn He Ho Htop Hs Hc Htl Hr]. destruct b as [s n t p d e]; simpl in *. subst e s.
  unfold push_step; simpl. rewrite !wrap_ptr by lia.
  destruct (Z.ltb_spec (length q) n) as [Hlt|Hge].
  - rewrite newest_short by (rewrite length_app; simpl; lia).
    split; simpl; rewrite ?length_app; simpl; try done; try lia.
    + by apply owned_insert.
    + f_equal. replace (p - d) with ((t - d + length q) mod n) by lia.
      rewrite Zplus_mod_idemp_l. f_equal. lia.
    + subst p. apply ring_snoc; [apply ring_insert; [lia..|done]|]. apply lookup_insert_eq.
  - assert (length q = Z.to_nat n) as Hq by lia.
    destruct q as [|y q]; [simpl in *; lia|].
    assert (newest n ((y :: q) ++ [x]) = q ++ [x]) as ->.
    { unfold newest. rewrite length_app. simpl length in *.
      by replace (S (length q) + 1 - Z.to_nat n)%nat with 1%nat by lia. }
    assert (Hp : p = d + (t - d)).
    { subst p. f_equal. replace (length (y :: q) : Z) with n by lia.
      replace (t - d + n) with (t - d + 1 * n) by lia. rewrite Z_mod_plus_full.
      by apply Z.mod_small. }
    assert (Hmod : 0 ≤ (t - d + 1) mod n < n) by (apply Z.mod_pos_bound; lia).
    simpl length in *.
    split; simpl; rewrite ?length_app; simpl; try done; try lia.
    + by apply owned_insert.
    + f_equal. replace (p - d) with (t - d) by lia.
      replace (d + (t - d + 1) mod n - d) with ((t - d + 1) mod n) by lia.
      rewrite Zplus_mod_idemp_l.
      replace (t - d + 1 + (length q + 1)%nat) with (t - d + 1 + 1 * n) by lia.
      by rewrite Z_mod_plus_full.
    + replace (d + (t - d + 1) mod n - d) with ((t - d + 1) mod n) by lia.
      assert (E : tail (CircBuf 0 0 0 p 0 0) = d + ((t - d + 1) mod n + (n - 1)) mod n).
      { simpl. rewrite Hp, Zplus_mod_idemp_l. f_equal.
        replace (t - d + 1 + (n - 1)) with (t - d + 1 * n) by lia.
        rewrite Z_mod_plus_full. by rewrite Z.mod_small. }
      simpl in E. apply ring_snoc.
      * rewrite E. apply ring_insert; [lia..|]. by eapply ring_tail; [lia|exact Hr].
      * replace (length q : Z) with (n - 1) by lia. rewrite E. apply lookup_insert_eq.
Qed.
End ring.

Section fifo.
Implicit Types (m : mem) (src dest : Z) (q l : list Z) (b : circbuf).

Lemma newest_app n q l x :
  newest n (newest n (q ++ l) ++ [x]) = newest n (q ++ l ++ [x]).
Proof.
  unfold newest. rewrite app_assoc. generalize (q ++ l) as k. intros k.
  rewrite !length_app, length_drop. simpl.
  destruct (decide (length k ≤ Z.to_nat n)%nat).
  - by replace (length k - Z.to_nat n)%nat with 0%nat by lia; rewrite drop_0, Nat.sub_0_r.
  - rewrite <- drop_app_le by lia. rewrite drop_drop. f_equal. lia.
Qed.

(** The block and the bounds never move. *)
Definition same_block (b b' : circbuf) : Prop :=
  totalsize b' = totalsize b ∧ data b' = data b ∧ end_ b' = end_ b.

Definition outside_block (m m' : mem) (b : circbuf) : Prop :=
  ∀ j, ¬ (data b ≤ j < data b + totalsize b) → m' !! j = m !! j.

Lemma buf_push_queue m b q src l :
  queue m b q → bytes_at m src l → Forall is_byte l → fits l →
  (src + length l ≤ data b ∨ data b + totalsize b ≤ src) →
  ∃ m' b', buf_push m b src (length l) = Some (m', b', length l : Z) ∧
    queue m' b' (newest (totalsize b) (q ++ l)) ∧ same_block b b' ∧ outside_block m m' b.
Proof.
  intros Hq Hl Hb Hf Hd. unfold buf_push.
  edestruct (while_rule (λ '(m, p, sz, tp, i),
      if negb (i <? length l) then Some (Done (m, p, sz, tp)) else
      x ← ld m (src + i); m ← st m p x;
      let p := p + 1 in
      let p := if p =? end_ b then data b else p in
      let '(sz, tp) :=
        if sz <? totalsize b then (sz + 1, tp)
        else (sz, if tp + 1 =? end_ b then data b else tp + 1) in
      Some (Next (m, p, sz, tp, i + 1)))
    (λ '(m', p, sz, tp, i), ∃ k : nat, i = k ∧ (k ≤ length l)%nat ∧
       queue m' (CircBuf sz (totalsize b) tp p (data b) (end_ b))
             (newest (totalsize b) (q ++ take k l)) ∧ outside_block m m' b)
    (λ '(_, i), length l - i)
    (λ '(m', p, sz, tp),
       queue m' (CircBuf sz (totalsize b) tp p (data b) (end_ b))
             (newest (totalsize b) (q ++ l)) ∧ outside_block m m' b))
    as ([[[m' p] sz] tp] & -> & Hq' & Ho').
  - intros [[[[m' p] sz] tp] i] (k & -> & Hk & Hq' & Ho).
    destruct (decide (k = length l)) as [->|Hne].
    + zbool. eexists. split; [reflexivity|]. by rewrite firstn_all in Hq'.
    + destruct (lookup_lt_is_Some_2 l k ltac:(lia)) as [x Hx].
      assert (Hs : m' !! (src + k) = Some x).
      { rewrite Ho; [by apply Hl|]. lia. }
      pose proof (queue_tail _ _ _ Hq') as Ht. simpl in Ht.
      assert (Hp : is_Some (m' !! p)).
      { pose proof (q_owned _ _ _ Hq' (p - data b)) as Hw. simpl in Hw.
        replace (data b + (p - data b)) with p in Hw by lia. apply Hw. lia. }
      zbool. cbn [negb]. repeat c_step.
      assert (Hbx : is_byte x) by (eapply Forall_lookup_1; [exact Hb|exact Hx]).
      rewrite u8_byte by done.
      assert (Hstep := push_step_queue _ _ _ x Hq'). unfold push_step in Hstep.
      simpl in Hstep. rewrite newest_app, <- (take_S_r _ _ _ Hx) in Hstep.
      assert (Ho2 : outside_block m (<[p:=x]> m') b).
      { intros j Hj. rewrite lookup_insert_ne by lia. by apply Ho. }
      destruct (sz <? totalsize b); (eexists; split; [reflexivity|]; split; [|lia];
        exists (S k); split; [lia|]; split; [lia|]; split; [exact Hstep|exact Ho2]).
  - exists 0%nat. split; [done|]. split; [lia|]. rewrite take_0, app_nil_r.
    destruct b as [s n t p d e]. pose proof (q_cap _ _ _ Hq). simpl in *.
    rewrite newest_short by lia. split; [done|]. by intros j _.
  - unfold fits in Hf. lia.
  - rewrite some_bind. cbv beta iota. eexists m', _. split; [reflexivity|].
    split; [exact Hq'|]. by split.
Qed.

Lemma ring_write m d n o q dest l :
  0 < n → (dest + length l ≤ d ∨ d + n ≤ dest) →
  ring m d n o q → ring (write_bytes m dest l) d n o q.
Proof.
  intros Hn Hd H i x Hx. pose proof (Z.mod_pos_bound (o + i) n Hn).
  rewrite write_bytes_out by lia. by apply H.
Qed.

Lemma ring_drop m d n o q (k : nat) :
  0 < n → ring m d n o q → ring m d n ((o + k) mod n) (drop k q).
Proof.
  intros Hn H i x Hx. rewrite lookup_drop in Hx. rewrite Zplus_mod_idemp_l.
  replace (o + k + i) with (o + (k + i)%nat) by lia. by apply H.
Qed.

Lemma buf_pop_queue m b q dest len (k : nat) :
  queue m b q → Forall is_byte q → 0 ≤ len → (k : Z) = Z.min len (length q) →
  owned m dest k → (dest + k ≤ data b ∨ data b + totalsize b ≤ dest) →
  ∃ b', buf_pop m b dest len = Some (write_bytes m dest (take k q), b', k : Z) ∧
    queue (write_bytes m dest (take k q)) b' (drop k q) ∧ same_block b b'.
Proof.
  intros Hq Hb Hlen Hk How Hd. unfold buf_pop.
  assert (E : (if len >? size b then size b else len) = k).
  { rewrite (q_size _ _ _ Hq), Hk, Z.gtb_ltb. destruct (Z.ltb_spec (length q) len); lia. }
  rewrite E; clear E.
  destruct Hq as [Hn He Ho Htop Hs Hc Htl Hr]. destruct b as [s n t p d e]; simpl in *. subst e s.
  edestruct (while_rule (λ '(m, p, i),
      if negb (i <? k) then Some (Done (m, p)) else
      x ← ld m p; m ← st m (dest + i) x;
      let p := p + 1 in
      Some (Next (m, if p =? d + n then d else p, i + 1)))
    (λ '(m', p, i), ∃ j : nat, i = j ∧ (j ≤ k)%nat ∧ m' = write_bytes m dest (take j q) ∧
       p = d + (t - d + j) mod n)
    (λ '(_, i), k - i)
    (λ '(m', p), m' = write_bytes m dest (take k q) ∧ p = d + (t - d + k) mod n))
    as ([m' p'] & -> & -> & ->).
  - intros [[m' p'] i] (j & -> & Hj & -> & ->).
    pose proof (Z.mod_pos_bound (t - d + j) n ltac:(lia)) as Hm.
    destruct (decide (j = k)) as [->|Hne].
    + zbool. eexists. split; [reflexivity|]. done.
    + destruct (lookup_lt_is_Some_2 q j ltac:(lia)) as [x Hx].
      assert (Hl : length (take j q) = j) by (apply length_take_le; lia).
      assert (Hxm : write_bytes m dest (take j q) !! (d + (t - d + j) mod n) = Some x).
      { rewrite write_bytes_out by lia. by apply Hr. }
      assert (Hst : is_Some (write_bytes m dest (take j q) !! (dest + j))).
      { apply owned_write with (n := k); [done|lia]. }
      assert (Hbx : is_byte x) by (eapply Forall_lookup_1; [exact Hb|exact Hx]).
      zbool. cbn [negb]. repeat c_step. rewrite u8_byte, wrap_ptr by (done || lia).
      eexists. split; [reflexivity|]. split; [|lia]. exists (S j).
      split; [lia|]. split; [lia|]. split.
      * by rewrite (take_S_r _ _ _ Hx), write_bytes_snoc, Hl.
      * f_equal. replace (d + (t - d + j) mod n - d) with ((t - d + j) mod n) by lia.
        rewrite Zplus_mod_idemp_l. f_equal. lia.
  - exists 0%nat. split; [done|]. split; [lia|]. split; [done|].
    rewrite Z.add_0_r, Z.mod_small by lia. lia.
  - lia.
  - rewrite some_bind. cbv beta iota. eexists. split; [reflexivity|].
    pose proof (Z.mod_pos_bound (t - d + k) n ltac:(lia)) as Hm.
    assert (Hl : length (take k q) = k) by (apply length_take_le; lia).
    split; [|done]. split; simpl; rewrite ?length_drop; try done; try lia.
    + by apply owned_write.
    + replace (d + (t - d + k) mod n - d) with ((t - d + k) mod n) by lia.
      rewrite Htl. f_equal. rewrite Zplus_mod_idemp_l. f_equal. lia.
    + replace (d + (t - d + k) mod n - d) with ((t - d + k) mod n) by lia.
      apply ring_write; [lia|lia|]. by apply ring_drop; [lia|].
Qed.

Lemma buf_init_queue m p n :
  0 < n < 4294967296 → owned m p n → queue m (buf_init p n) [].
Proof.
  intros Hn Ho. split; simpl; try done; try lia. by rewrite Z.sub_diag, Z.mod_0_l; lia.
Qed.
End fifo.

(** ** Theorems *)

(** [buf_push] appends the bytes to the queue; when the buffer overflows,
    the queue keeps its newest [totalsize] bytes.  Memory outside the block
    does not change. *)
Lemma buf_push_fifo m b q src l :
  queue m b q → bytes_at m src l → Forall is_byte l → fits l →
  (src + length l ≤ data b ∨ data b + totalsize b ≤ src) →
  ∃ m' b', buf_push m b src (length l) = Some (m', b', length l : Z) ∧
    queue m' b' (newest (totalsize b) (q ++ l)) ∧
    (∀ j, ¬ (data b ≤ j < data b + totalsize b) → m' !! j = m !! j).
Proof.
  intros. edestruct (buf_push_queue m b q src l) as (m' & b' & ? & ? & ? & ?); [done..|].
  eauto 6.
Qed.

(** [buf_pop] takes the oldest bytes out of the queue, at most as many as
    it holds, and writes exactly them to the destination. *)
Lemma buf_pop_fifo m b q dest len (k : nat) :
  queue m b q → Forall is_byte q → 0 ≤ len → (k : Z) = Z.min len (length q) →
  owned m dest k → (dest + k ≤ data b ∨ data b + totalsize b ≤ dest) →
  ∃ m' b', buf_pop m b dest len = Some (m', b', k : Z) ∧ queue m' b' (drop k q) ∧
    bytes_at m' dest (take k q) ∧ (∀ j, ¬ (dest ≤ j < dest + k) → m' !! j = m !! j).
Proof.
  intros Hq Hb Hl Hk Ho Hd.
  destruct (buf_pop_queue m b q dest len k) as (b' & E & Hq' & _); [done..|].
  eexists _, b'. split; [exact E|]. split; [exact Hq'|]. split; [apply write_bytes_in|].
  intros j Hj. apply write_bytes_out. rewrite length_take. lia.
Qed.

