(* ===== verification/NetAddr.v ===== *)
(** * Address conversions and the interface list ([net/net.c], [net/eth.c])

    The text forms of IP addresses, VLAN numbers, file names and Ethernet
    addresses, and the ring of Ethernet devices.  An [IPaddr_t] is in network
    byte order, which is the order of the processor: [htonl] is the identity. *)

From S2P Require Import Prelude.
From S2P Require Import Ctype.
From S2P Require Import CString.
From S2P Require Import Vsprintf.

(** ** Text conversions *)

Definition copy_filename (m : mem) (dst src size : Z) : option mem :=
  c ← ld m src;
  let '(src, size) :=
    if negb (c =? 0) && (c =? 34) then (src + 1, size - 1) else (src, size) in
  '(m, dst) ← while (λ '(m, dst, src, size),
    let size := size - 1 in
    if size >? 0 then
      c ← ld m src;
      if negb (c =? 0) && negb (c =? 34) then
        m ← st m dst c; Some (Next (m, dst + 1, src + 1, size))
      else Some (Done (m, dst))
    else Some (Done (m, dst))) (m, dst, src, size);
  st m dst 0.

(** [fmt] is the address of the literal ["%d.%d.%d.%d"]. *)
Definition ip_to_string (m : mem) (fmt x s : Z) : option (mem * Z) :=
  sprintf m s fmt [Z.land (Z.shiftr x 24) 255; Z.land (Z.shiftr x 16) 255;
                   Z.land (Z.shiftr x 8) 255; Z.land (Z.shiftr x 0) 255].

Definition string_to_ip (m : mem) (s : Z) : option Z :=
  if s =? NULL then Some 0 else
  while (λ '(addr, s, i),
    if negb (i <? 4) then Some (Done addr) else
    '(val, e) ← (if negb (s =? NULL) then simple_strtoul m s 10 else Some (0, NULL));
    let addr := u32 (Z.shiftl addr 8) in
    let addr := Z.lor addr (Z.land val 255) in
    if negb (s =? NULL) then
      c ← ld m e;
      Some (Next (addr, if negb (c =? 0) then e + 1 else e, i + 1))
    else Some (Next (addr, s, i + 1))) (0, s, 0).

Definition VLAN_NONE : Z := 4095.
Definition VLAN_IDMASK : Z := 0x0fff.

(** [none] and [fmt] are the addresses of the literals ["none"] and ["%d"]. *)
Definition VLAN_to_string (m : mem) (none fmt x s : Z) : option mem :=
  let x := if x =? 65535 then VLAN_NONE else x in
  if x =? VLAN_NONE then strcpy m s none
  else '(m, _) ← sprintf m s fmt [Z.land x VLAN_IDMASK]; Some m.

Definition string_to_VLAN (m : mem) (s : Z) : option Z :=
  if s =? NULL then Some VLAN_NONE else
  c ← ld m s;
  if (s8 c <? 48) || (s8 c >? 57) then Some VLAN_NONE
  else '(v, _) ← simple_strtoul m s 10; Some (u16 v).

(** The loop that reads six hexadecimal bytes; a null string gives zeros. *)
Definition read_enetaddr (m : mem) (addr : Z) : option (list Z) :=
  while (λ '(enetaddr, addr, i),
    if negb (i <? 6) then Some (Done enetaddr) else
    '(val, e) ← (if negb (addr =? NULL) then simple_strtoul m addr 16 else Some (0, NULL));
    let enetaddr := enetaddr ++ [u8 val] in
    if negb (addr =? NULL) then
      c ← ld m e;
      Some (Next (enetaddr, if negb (c =? 0) then e + 1 else e, i + 1))
    else Some (Next (enetaddr, addr, i + 1))) ([], addr, 0).

(** ** The ring of devices

    The ring [eth_devices] as the list of its devices in [next] order; the
    head is [eth_devices] itself and [eth_current] is a position. *)

Record eth_device := EthDevice {
  dev_name : Z;            (* address of the name *)
  enetaddr : list Z;
  dev_state : bool         (* ETH_STATE_ACTIVE *)
}.

Definition eth_set_enetaddr (m : mem) (eth_devices : list eth_device) (num addr : Z)
    : option (list eth_device) :=
  match eth_devices with
  | [] => Some []
  | _ :: _ =>
      mac ← read_enetaddr m addr;
      let i := Z.to_nat num in
      Some (match eth_devices !! i with
            | Some dev => <[i := EthDevice (dev_name dev) mac (dev_state dev)]> eth_devices
            | None => eth_devices
            end)
  end.

(** The position of the device of that name. *)
Fixpoint eth_get_dev_by_name (m : mem) (eth_devices : list eth_device) (devname : Z)
    : option (option nat) :=
  match eth_devices with
  | [] => Some None
  | dev :: l =>
      r ← strcmp m devname (dev_name dev);
      if r =? 0 then Some (Some O)
      else o ← eth_get_dev_by_name m l devname; Some (option_map S o)
  end.

(** ** Reading what was printed *)

Definition ip_fmt : list fmt_item := [Dec; Lit 46; Dec; Lit 46; Dec; Lit 46; Dec].

Definition ip_octets (x : Z) : list Z :=
  [Z.land (Z.shiftr x 24) 255; Z.land (Z.shiftr x 16) 255;
   Z.land (Z.shiftr x 8) 255; Z.land (Z.shiftr x 0) 255].

Section addresses.
Implicit Types (m : mem) (l : list Z).

Lemma land_byte x : is_byte (Z.land x 255).
Proof. change 255 with (Z.ones 8). rewrite Z.land_ones by lia. apply u8_range. Qed.

Lemma ip_octets_range x : Forall (λ a, 0 ≤ a < 2147483648) (ip_octets x).
Proof. repeat (constructor; [pose proof (land_byte (Z.shiftr x 0)); match goal with |- context [Z.land ?y 255] => destruct (land_byte y); lia end|]). constructor. Qed.

Lemma octets_value a b c d :
  is_byte a → is_byte b → is_byte c → is_byte d →
  Z.lor (u32 (Z.shiftl (Z.lor (u32 (Z.shiftl (Z.lor (u32 (Z.shiftl
    (Z.lor (u32 (Z.shiftl 0 8)) (Z.land a 255)) 8)) (Z.land b 255)) 8)) (Z.land c 255)) 8))
    (Z.land d 255) = be32 a b c d.
Proof.
  unfold is_byte. intros Ha Hb Hc Hd.
  assert (Hl : ∀ y, 0 ≤ y < 256 → Z.land y 255 = y).
  { intros y Hy. change 255 with (Z.ones 8). rewrite Z.land_ones by lia. by apply Z.mod_small. }
  assert (Hor : ∀ x y, 0 ≤ x < 16777216 → 0 ≤ y < 256 →
    Z.lor (u32 (Z.shiftl x 8)) y = 256 * x + y).
  { intros x y Hx Hy. rewrite Z.shiftl_mul_pow2 by lia. change (2 ^ 8) with 256.
    unfold u32. rewrite Z.mod_small by lia.
    rewrite (Z.mul_comm 256 x), <- Z.add_lor_land. assert (Z.land (x * 256) y = 0) as ->; [|lia].
    apply Z.bits_inj'. intros n Hn. rewrite Z.land_spec, Z.bits_0.
    change 256 with (2 ^ 8). destruct (Z.ltb_spec n 8).
    - by rewrite Z.mul_pow2_bits_low.
    - rewrite <- (u8_byte y Hy). unfold u8. change 256 with (2 ^ 8).
      rewrite Z.mod_pow2_bits_high by lia. apply andb_false_r. }
  rewrite !Hl by done. rewrite (Hor 0 a), (Hor _ b), (Hor _ c), (Hor _ d) by lia.
  unfold be32. lia.
Qed.

Lemma be32_octets x :
  0 ≤ x < 4294967296 →
  be32 (Z.land (Z.shiftr x 24) 255) (Z.land (Z.shiftr x 16) 255)
       (Z.land (Z.shiftr x 8) 255) (Z.land (Z.shiftr x 0) 255) = x.
Proof.
  intros Hx. change 255 with (Z.ones 8). rewrite !Z.land_ones, !Z.shiftr_div_pow2 by lia.
  unfold be32. change (2 ^ 24) with 16777216. change (2 ^ 16) with 65536.
  change (2 ^ 8) with 256. change (2 ^ 0) with 1. Z.div_mod_to_equations. lia.
Qed.

(** One number of a dotted list: its value and where the next one starts. *)
Lemma strtoul_octet m s v rest :
  cstr m s (dec v ++ rest) → fits (dec v ++ rest) → 0 ≤ v < 256 →
  rest = [] ∨ hd 0 rest = 46 →
  ∃ e, simple_strtoul m s 10 = Some (v, e) ∧ m !! e = Some (hd 0 rest) ∧
       e = s + length (dec v) ∧ cstr m e rest.
Proof.
  intros Hs Hf Hv Hr. rewrite (simple_strtoul_cstr m s _ 10 Hs Hf).
  rewrite strtoul_dec; [|lia| |].
  - simpl. exists (s + length (dec v)). rewrite length_app.
    split; [do 2 f_equal; lia|]. apply (cstr_drop _ _ _ (length (dec v))) in Hs;
      [|rewrite length_app; lia].
    rewrite drop_app_length in Hs. split; [by apply cstr_hd|done].
  - destruct rest as [|c rest]; [done|]. destruct Hr as [|Hr]; [done|].
    simpl in *. by subst c.
  - destruct Hr as [->|Hr]; [simpl; lia|lia].
Qed.

Lemma string_to_ip_dotted m s a b c d :
  s ≠ NULL → is_byte a → is_byte b → is_byte c → is_byte d →
  let l := fmt_out ip_fmt [a; b; c; d] in
  0 < s → cstr m s l → fits l →
  string_to_ip m s = Some (be32 a b c d).
Proof.
  intros Hs Ha Hb Hc Hd l Hpos Hl Hf. unfold string_to_ip, NULL in *. zbool.
  rewrite <- (octets_value a b c d) by done.
  assert (Hstep : ∀ v rest s addr i, 0 < s → is_byte v → cstr m s (dec v ++ rest) →
    fits (dec v ++ rest) → (rest = [] ∨ hd 0 rest = 46) → i < 4 →
    ∃ s', 0 < s' ∧ (rest ≠ [] → cstr m s' (tail rest)) ∧
    (λ '(addr, s, i),
      if negb (i <? 4) then Some (Done addr) else
      '(val, e) ← (if negb (s =? 0) then simple_strtoul m s 10 else Some (0, 0));
      let addr := u32 (Z.shiftl addr 8) in
      let addr := Z.lor addr (Z.land val 255) in
      if negb (s =? 0) then
        c ← ld m e;
        Some (Next (addr, if negb (c =? 0) then e + 1 else e, i + 1))
      else Some (Next (addr, s, i + 1))) (addr, s, i) =
    Some (@Next _ Z (Z.lor (u32 (Z.shiftl addr 8)) (Z.land v 255), s', i + 1))).
  { clear. intros v rest s addr i Hs Hv Hl Hf Hr Hi.
    destruct (strtoul_octet m s v rest) as (e & He & Hm & E & Hc); [done..|].
    pose proof (dec_length v ltac:(unfold is_byte in Hv; lia)).
    destruct rest as [|c rest].
    - exists e. split; [lia|]. split; [done|]. cbv beta iota. zbool. cbn [negb].
      rewrite He. repeat c_step. simpl. reflexivity.
    - exists (e + 1). split; [lia|]. apply cstr_cons in Hc as (Hcc & _ & Hc).
      split; [done|]. cbv beta iota. zbool. cbn [negb]. rewrite He. repeat c_step.
      destruct Hr as [|Hr]; [done|]. simpl in *. subst c. reflexivity. }
  subst l. simpl in Hl, Hf. rewrite app_nil_r in Hl, Hf.
  assert (Hfs : ∀ k r, fits (k ++ r) → fits r).
  { intros k r Hk. unfold fits in *. rewrite length_app in Hk. lia. }
  assert (Hft : ∀ x r, fits (x :: r) → fits r) by (unfold fits; simpl; intros; lia).
  apply (while_within _ _ 5); [lia|]. exists 5%nat. split; [lia|].
  destruct (Hstep a _ s 0 0 Hpos Ha Hl Hf) as (s1 & P1 & C1 & E1); [by right|lia|].
  eapply runs_next; [exact E1|]. specialize (C1 ltac:(done)). simpl in C1.
  apply Hfs, Hft in Hf.
  set (n1 := Z.lor (u32 (Z.shiftl 0 8)) (Z.land a 255)).
  destruct (Hstep b _ s1 n1 (0 + 1) P1 Hb C1 Hf) as (s2 & P2 & C2 & E2); [by right|lia|].
  eapply runs_next; [exact E2|]. specialize (C2 ltac:(done)). simpl in C2.
  apply Hfs, Hft in Hf.
  set (n2 := Z.lor (u32 (Z.shiftl n1 8)) (Z.land b 255)).
  destruct (Hstep c _ s2 n2 (0 + 1 + 1) P2 Hc C2 Hf) as (s3 & P3 & C3 & E3); [by right|lia|].
  eapply runs_next; [exact E3|]. specialize (C3 ltac:(done)). simpl in C3.
  apply Hfs, Hft in Hf. rewrite <- (app_nil_r (dec d)) in C3, Hf.
  set (n3 := Z.lor (u32 (Z.shiftl n2 8)) (Z.land c 255)).
  destruct (Hstep d [] s3 n3 (0 + 1 + 1 + 1) P3 Hd C3 Hf) as (s4 & P4 & _ & E4); [by left|lia|].
  eapply runs_next; [exact E4|]. by apply runs_done.
Qed.

Lemma ip_text_length a b c d :
  is_byte a → is_byte b → is_byte c → is_byte d →
  (length (fmt_out ip_fmt [a; b; c; d]) ≤ 15)%nat.
Proof.
  unfold is_byte. intros. simpl. rewrite app_nil_r. rewrite !length_app. simpl.
  rewrite !length_app. simpl. rewrite length_app. simpl.
  pose proof (dec_length_byte a ltac:(lia)). pose proof (dec_length_byte b ltac:(lia)).
  pose proof (dec_length_byte c ltac:(lia)). pose proof (dec_length_byte d ltac:(lia)). lia.
Qed.

Lemma ip_text_chars a b c d :
  is_byte a → is_byte b → is_byte c → is_byte d →
  Forall is_char (fmt_out ip_fmt [a; b; c; d]).
Proof.
  unfold is_byte. intros. simpl. repeat first [apply Forall_app_2; [apply dec_chars; lia|]
    | constructor; [unfold is_char; lia|]]. constructor.
Qed.

(** Any string has an address and a VLAN number. *)
Lemma string_to_ip_total m s l :
  cstr m s l → fits l → 0 < s → ∃ v, string_to_ip m s = Some v ∧ 0 ≤ v < 4294967296.
Proof.
  intros Hc Hf Hs. unfold string_to_ip, NULL. rewrite (proj2 (Z.eqb_neq s 0)) by lia.
  match goal with |- context [while ?f _] =>
    destruct (while_rule f
      (λ '(v, p, i), 0 ≤ v < 4294967296 ∧ 0 ≤ i ≤ 4 ∧
        ∃ n, (n ≤ length l)%nat ∧ p = s + n)
      (λ '(_, _, i), 4 - i) (λ v, 0 ≤ v < 4294967296) (0, s, 0)) as (v & -> & Hv); [| | |by exists v]
  end; [|split; [lia|]; split; [lia|]; exists 0%nat; lia|lia].
  intros [[v p] i] (Hv & Hi & n & Hn & ->). destruct (Z.ltb_spec i 4) as [Hlt|Hge]; cbn [negb].
  2: { eexists. split; [reflexivity|]. done. }
  rewrite (proj2 (Z.eqb_neq (s + n) 0)) by lia. cbn [negb].
  pose proof (cstr_drop _ _ _ n Hc Hn) as Hcn.
  assert (Hfn : fits (drop n l)) by (unfold fits in *; rewrite length_drop; lia).
  rewrite (simple_strtoul_cstr _ _ _ 10 Hcn Hfn), some_bind. cbv beta iota zeta.
  destruct (strtoul_drop (drop n l) 10) as (k & Hk & Ek). rewrite Ek. rewrite !length_drop in *.
  replace (s + n + (length l - n)%nat - (length l - n - k)%nat) with (s + (n + k)%nat) by lia.
  assert (Hck : cstr m (s + (n + k)%nat) (drop (n + k) l)) by (apply cstr_drop; [done|lia]).
  rewrite (cstr_hd_ld _ _ _ Hck), some_bind. eexists. split; [reflexivity|]. cbv beta iota.
  split; [|split; [|lia]].
  - split.
    { apply lor_range; [apply (Z.mod_pos_bound _ 4294967296); lia|].
      pose proof (land_byte (strtoul_l (drop n l) 10).1) as Hb. unfold is_byte in Hb. lia. }
    split; [lia|]. destruct (Z.eqb_spec (hd 0 (drop (n + k) l)) 0) as [E|E]; cbn [negb].
    + exists (n + k)%nat. lia.
    + exists (n + k + 1)%nat. split; [|lia].
      destruct (decide (n + k = length l)%nat) as [El|El]; [|lia]. by rewrite El, drop_all in E.
  - lia.
Qed.

(** A number and the character behind it, as the two loops read them. *)
Lemma number_step m p v base :
  cstr m p v → fits v →
  let rest := (strtoul_l v base).2 in
  ∃ q, simple_strtoul m p base = Some ((strtoul_l v base).1, q) ∧ ld m q = Some (hd 0 rest) ∧
    p ≤ q ∧ fits (tail rest) ∧ cstr m (if negb (hd 0 rest =? 0) then q + 1 else q) (tail rest).
Proof.
  intros Hv Hf rest. destruct (strtoul_drop v base) as (k & Hk & Ek).
  rewrite (simple_strtoul_cstr m p v base Hv Hf). eexists. split; [reflexivity|].
  unfold rest. rewrite Ek, length_drop. replace (p + length v - (length v - k)%nat) with (p + k) by lia.
  pose proof (cstr_drop _ _ _ k Hv Hk) as Hc. split; [by apply cstr_hd_ld|]. split; [lia|].
  split; [apply fits_tail; unfold fits in *; rewrite length_drop; lia|].
  destruct (drop k v) as [|c r]; [done|]. cbn [hd tail] in *.
  apply cstr_cons in Hc as (Hc0 & _ & Hc). rewrite (proj2 (Z.eqb_neq c 0)); [done|].
  unfold is_char in Hc0. lia.
Qed.

(** The bytes [n] numbers of the text give. *)
Fixpoint enet_text (n : nat) (v : list Z) : list Z :=
  match n with
  | O => []
  | S n => u8 (strtoul_l v 16).1 :: enet_text n (tail (strtoul_l v 16).2)
  end.

Lemma read_enetaddr_text m p v :
  cstr m p v → fits v → 0 < p → read_enetaddr m p = Some (enet_text 6 v).
Proof.
  intros Hv Hf Hp. unfold read_enetaddr. set (bd := λ _ : list Z * Z * Z, _).
  assert (Hrun : ∀ (k : nat) acc p v i, cstr m p v → fits v → 0 < p → i + k = 6 →
    runs bd (acc, p, i) (S k) (acc ++ enet_text k v)).
  { clear v p Hv Hf Hp. induction k as [|k IH]; intros acc p v i Hv Hf Hp Hi.
    - apply runs_done. unfold bd. rewrite (proj2 (Z.ltb_ge i 6)) by lia. by rewrite app_nil_r.
    - destruct (number_step m p v 16 Hv Hf) as (q & E & Eld & Hq & Hft & Hct).
      eapply runs_next.
      + unfold bd. rewrite (proj2 (Z.ltb_lt i 6)) by lia. cbn [negb].
        rewrite (proj2 (Z.eqb_neq p NULL)) by (unfold NULL; lia). cbn [negb].
        rewrite E, some_bind. cbv beta iota zeta. rewrite Eld, some_bind. reflexivity.
      + cbn [enet_text]. replace (acc ++ u8 (strtoul_l v 16).1 :: enet_text k (tail (strtoul_l v 16).2))
          with ((acc ++ [u8 (strtoul_l v 16).1]) ++ enet_text k (tail (strtoul_l v 16).2))
          by (by rewrite <- app_assoc).
        apply IH; [done|done|destruct (negb _); lia|lia]. }
  apply (while_runs _ _ 7); [|lia]. by apply (Hrun 6%nat []).
Qed.

Lemma read_enetaddr_null m : read_enetaddr m NULL = Some (replicate 6 0).
Proof. done. Qed.

(** The address of the first four numbers. *)
Fixpoint ip_numbers (n : nat) (addr : Z) (v : list Z) : Z :=
  match n with
  | O => addr
  | S n => ip_numbers n (Z.lor (u32 (Z.shiftl addr 8)) (Z.land (strtoul_l v 10).1 255))
             (tail (strtoul_l v 10).2)
  end.

Lemma string_to_ip_numbers m p v :
  cstr m p v → fits v → 0 < p → string_to_ip m p = Some (ip_numbers 4 0 v).
Proof.
  intros Hv Hf Hp. unfold string_to_ip. rewrite (proj2 (Z.eqb_neq p NULL)) by (unfold NULL; lia).
  set (bd := λ _ : Z * Z * Z, _).
  assert (Hrun : ∀ (k : nat) acc p v i, cstr m p v → fits v → 0 < p → i + k = 4 →
    runs bd (acc, p, i) (S k) (ip_numbers k acc v)).
  { clear v p Hv Hf Hp. induction k as [|k IH]; intros acc p v i Hv Hf Hp Hi.
    - apply runs_done. unfold bd. by rewrite (proj2 (Z.ltb_ge i 4)) by lia.
    - destruct (number_step m p v 10 Hv Hf) as (q & E & Eld & Hq & Hft & Hct).
      eapply runs_next.
      + unfold bd. rewrite (proj2 (Z.ltb_lt i 4)) by lia. cbn [negb].
        rewrite (proj2 (Z.eqb_neq p NULL)) by (unfold NULL; lia). cbn [negb].
        rewrite E, some_bind. cbv beta iota zeta. rewrite Eld, some_bind. reflexivity.
      + cbn [ip_numbers]. apply IH; [done|done|destruct (negb _); lia|lia]. }
  apply (while_runs _ _ 5); [|lia]. by apply (Hrun 4%nat).
Qed.

(** The file name: without an opening quote, up to a quote or the bound. *)
Fixpoint until_quote (n : nat) (v : list Z) : list Z :=
  match n, v with
  | S n, c :: v => if c =? 34 then [] else c :: until_quote n v
  | _, _ => []
  end.

Definition file_name (n : nat) (v : list Z) : list Z :=
  match v with
  | c :: v' => if c =? 34 then until_quote (n - 1) v' else until_quote n v
  | [] => []
  end.

Lemma until_quote_length n v : (length (until_quote n v) ≤ n)%nat.
Proof.
  revert v. induction n as [|n IH]; intros [|c v]; cbn [until_quote length]; try lia.
  destruct (c =? 34); cbn [length]; [lia|]. specialize (IH v). lia.
Qed.

Lemma file_name_length n v : (length (file_name n v) ≤ n)%nat.
Proof.
  destruct v as [|c v]; cbn [file_name length]; [lia|]. destruct (c =? 34); pose proof until_quote_length as Hl.
  - specialize (Hl (n - 1)%nat v). lia.
  - apply Hl.
Qed.

Lemma copy_filename_copies m dst src (n : nat) v :
  cstr m src v → owned m dst (n + 1) → (src + length v < dst ∨ dst + n < src) → (0 < n)%nat → n < 4294967296 →
  copy_filename m dst src (n + 1) = Some (write_bytes m dst (file_name n v ++ [0])).
Proof.
  intros Hv Ho Hd Hn Hn32. unfold copy_filename. rewrite (cstr_hd_ld _ _ _ Hv), some_bind.
  set (bd := λ _ : mem * Z * Z * Z, _).
  assert (Hrun : ∀ (k : nat) v m dst src, cstr m src v → owned m dst (k + 1) →
    (src + length v < dst ∨ dst + k < src) → let t := until_quote k v in
    ∃ j, (j ≤ S k)%nat ∧ runs bd (m, dst, src, k + 1) j (write_bytes m dst t, dst + length t)).
  { clear. induction k as [|k IH]; intros v m dst src Hv Ho Hd.
    - exists 1%nat. split; [lia|]. apply runs_done. unfold bd. cbn. f_equal. by rewrite Z.add_0_r.
    - destruct v as [|c v]; cbn [until_quote].
      + exists 1%nat. split; [lia|]. apply runs_done. unfold bd. rewrite Z.gtb_ltb, (proj2 (Z.ltb_lt _ _)) by lia.
        rewrite (cstr_hd_ld _ _ _ Hv), some_bind. cbn. by rewrite Z.add_0_r.
      + pose proof Hv as Hv'. apply cstr_cons in Hv' as (Hc & _ & Hv').
        destruct (Z.eqb_spec c 34) as [->|Hq].
        * exists 1%nat. split; [lia|]. apply runs_done. unfold bd. rewrite Z.gtb_ltb, (proj2 (Z.ltb_lt _ _)) by lia.
          rewrite (cstr_hd_ld _ _ _ Hv), some_bind. cbn. by rewrite Z.add_0_r.
        * destruct (IH v (<[dst := c]> m) (dst + 1) (src + 1)) as (j & Hj & Hr).
          { apply cstr_insert_out; [cbn [length] in *; lia|done]. }
          { apply owned_insert. eapply owned_mono; [exact Ho|lia|lia]. }
          { cbn [length] in *. lia. }
          exists (S j). split; [lia|]. eapply runs_next.
          -- unfold bd. rewrite Z.gtb_ltb, (proj2 (Z.ltb_lt _ _)) by lia.
             rewrite (cstr_hd_ld _ _ _ Hv), some_bind. cbn [hd].
             rewrite (proj2 (Z.eqb_neq c 0)), (proj2 (Z.eqb_neq c 34)) by (unfold is_char in Hc; lia).
             cbn [negb andb]. rewrite st_owned by (apply (owned_at m dst (S k + 1)); [done|lia]).
             rewrite some_bind, u8_char by done. replace (S k + 1 - 1) with (k + 1) by lia. reflexivity.
          -- cbn [length]. replace (dst + S (length (until_quote k v))) with (dst + 1 + length (until_quote k v)) by lia.
             exact Hr. }
  assert (Hgo : ∀ (k : nat) v m src, (k ≤ n)%nat → cstr m src v → owned m dst (k + 1) →
    (src + length v < dst ∨ dst + k < src) →
    ('(m, dst) ← while bd (m, dst, src, k + 1); st m dst 0) =
      Some (write_bytes m dst (until_quote k v ++ [0]))).
  { intros k v' m' src' Hk Hv' Ho' Hd'. destruct (Hrun k v' m' dst src' Hv' Ho' Hd') as (j & Hj & Hr).
    rewrite (while_within bd _ (S k) _ ltac:(lia) (ex_intro _ j (conj Hj Hr))), some_bind. cbv beta iota.
    pose proof (until_quote_length k v') as Hl.
    rewrite st_owned by (apply (owned_write_at m' dst (k + 1)); [done|lia]).
    by rewrite write_bytes_app. }
  destruct v as [|c v]; cbn [hd file_name].
  - cbn [Z.eqb negb andb]. specialize (Hgo n [] m src). rewrite (ltac:(by destruct n) : until_quote n [] = []) in Hgo. by apply Hgo.
  - pose proof Hv as Hv'. apply cstr_cons in Hv' as (Hc & _ & Hv').
    rewrite (proj2 (Z.eqb_neq c 0)) by (unfold is_char in Hc; lia). cbn [negb andb].
    destruct (Z.eqb_spec c 34) as [->|Hq].
    + replace (n + 1 - 1) with ((n - 1)%nat + 1) by lia. cbn [length] in Hd.
      apply Hgo; [lia|done|eapply owned_mono; [exact Ho|lia|lia]|lia].
    + by apply Hgo.
Qed.

Lemma string_to_VLAN_total m s l :
  cstr m s l → fits l → ∃ v, string_to_VLAN m s = Some v.
Proof.
  intros Hc Hf. unfold string_to_VLAN. destruct (s =? NULL); [by eexists|].
  rewrite (cstr_hd_ld _ _ _ Hc), some_bind. destruct (_ || _); [by eexists|].
  rewrite (simple_strtoul_cstr _ _ _ 10 Hc Hf), some_bind. by eexists.
Qed.
End addresses.

(** ** Theorems *)

(** [ip_to_string] prints every address into at most 16 bytes, the
    terminator included, and [string_to_ip] reads the text back. *)
Lemma ip_string_roundtrip m fmt x s :
  cstr m fmt (fmt_text ip_fmt) → 0 ≤ x < 4294967296 → 0 < s → owned m s 16 →
  (s + 16 ≤ fmt ∨ fmt + 12 ≤ s) →
  ∃ m' n, ip_to_string m fmt x s = Some (m', n) ∧ 0 ≤ n < 16 ∧
    (∀ j, ¬ (s ≤ j < s + 16) → m' !! j = m !! j) ∧ string_to_ip m' s = Some x.
Proof.
  intros Hf Hx Hs Ho Hd.
  pose proof (land_byte (Z.shiftr x 24)) as H1. pose proof (land_byte (Z.shiftr x 16)) as H2.
  pose proof (land_byte (Z.shiftr x 8)) as H3. pose proof (land_byte (Z.shiftr x 0)) as H4.
  pose proof (ip_text_length _ _ _ _ H1 H2 H3 H4) as Hlen. fold (ip_octets x) in Hlen.
  assert (E : ip_to_string m fmt x s = Some (write_bytes m s (fmt_out ip_fmt (ip_octets x) ++ [0]),
                                             length (fmt_out ip_fmt (ip_octets x)) : Z)).
  { apply vsprintf_fmt; [done| |unfold fits; simpl; lia|apply fmt_ok_dec; [done|apply ip_octets_range]| |].
    - repeat constructor; unfold lit_ok, is_char; lia.
    - eapply owned_mono; [exact Ho|lia|lia].
    - simpl length at 2. lia. }
  eexists _, _. split; [exact E|]. split; [lia|]. split.
  - intros j Hj. apply write_bytes_out. rewrite length_app. simpl length at 2. lia.
  - rewrite <- (be32_octets x Hx) at 2. apply string_to_ip_dotted; try done.
    + unfold NULL. lia.
    + split; [by apply ip_text_chars|]. apply write_bytes_in.
    + unfold fits. unfold ip_octets in Hlen. lia.
Qed.

