(* ===== verification/Env.v ===== *)
(** * The environment ([common/env_common.c], [common/env_nowhere.c],
      [common/cmd_nvedit.c], [common/console.c])

    A block of NUL-terminated [name=value] strings ended by an empty string,
    with a CRC in front of it.  [env] holds the pointers of the global data
    that locate it, [board] the variables other code shadows.  What goes to
    the console is the list of its characters where it is the result of a
    command, and left out elsewhere. *)

From S2P Require Import Prelude.
From S2P Require Import Ctype.
From S2P Require Import CString.
From S2P Require Import Vsprintf.
From S2P Require Import Crc.
From S2P Require Import NetAddr.

Definition CFG_ENV_SIZE : Z := 65536.
Definition ENV_HEADER_SIZE : Z := 4.
Definition ENV_SIZE : Z := CFG_ENV_SIZE - ENV_HEADER_SIZE.

Record env := Env {
  env_ptr : Z;                    (* the block: CRC, then data *)
  env_addr : Z;                   (* gd->env_addr *)
  env_valid : Z;                  (* gd->env_valid *)
  in_ram : bool;                  (* env_get_char points to env_get_char_memory *)
  default_environment : Z;        (* the built-in block *)
  default_environment_size : Z
}.

(** ** Access ([env_nowhere.c], [env_common.c]) *)

Definition env_init (e : env) : env :=
  Env (env_ptr e) (default_environment e) 0 (in_ram e)
      (default_environment e) (default_environment_size e).

Definition env_get_char_spec (e : env) (m : mem) (index : Z) : option Z :=
  ld m (env_addr e + index).

Definition env_get_char_init (e : env) (m : mem) (index : Z) : option Z :=
  if negb (env_valid e =? 0) then env_get_char_spec e m index
  else ld m (default_environment e + index).

Definition env_get_char_memory (e : env) (m : mem) (index : Z) : option Z :=
  if negb (env_valid e =? 0) then ld m (env_addr e + index)
  else ld m (default_environment e + index).

Definition env_get_char (e : env) (m : mem) (index : Z) : option Z :=
  if in_ram e then env_get_char_memory e m index else env_get_char_init e m index.

Definition env_get_addr (e : env) (index : Z) : Z :=
  if negb (env_valid e =? 0) then env_addr e + index
  else default_environment e + index.

Definition env_crc_update (e : env) (m : mem) : option mem :=
  crc ← crc32 m 0 (env_ptr e + ENV_HEADER_SIZE) ENV_SIZE;
  st32 m (env_ptr e) crc.

(** [malloc_env] is the block [malloc] returned.  When the built-in block is
    too large the function returns before it sets [env_addr]. *)
Definition env_relocate (e : env) (m : mem) (malloc_env : Z) : option (mem * env) :=
  let e := Env malloc_env (env_addr e) (env_valid e) true
               (default_environment e) (default_environment_size e) in
  if env_valid e =? 0 then
    if default_environment_size e >? ENV_SIZE then Some (m, e) else
    m ← memset m (env_ptr e) 0 CFG_ENV_SIZE;
    m ← memcpy m (env_ptr e + ENV_HEADER_SIZE) (default_environment e)
               (default_environment_size e);
    m ← env_crc_update e m;
    Some (m, Env (env_ptr e) (env_ptr e + ENV_HEADER_SIZE) 1 (in_ram e)
                 (default_environment e) (default_environment_size e))
  else
    Some (m, Env (env_ptr e) (env_ptr e + ENV_HEADER_SIZE) (env_valid e) (in_ram e)
                 (default_environment e) (default_environment_size e)).

(** ** Lookup ([cmd_nvedit.c]) *)

Definition envmatch (e : env) (m : mem) (s1 i2 : Z) : option Z :=
  while (λ '(s1, i2),
    c ← ld m s1; d ← env_get_char e m i2;
    let i2 := i2 + 1 in
    if c =? d then Some (if c =? 61 then Done i2 else Next (s1 + 1, i2))
    else if c =? 0 then Some (Done (if d =? 61 then i2 else -1))
    else Some (Done (-1))) (s1, i2).

(** The end of the string at [nxt]; [None] when the block has no end. *)
Definition env_end (e : env) (m : mem) (nxt : Z) : option (option Z) :=
  while (λ nxt,
    c ← env_get_char e m nxt;
    Some (if c =? 0 then Done (Some nxt)
          else if nxt >=? CFG_ENV_SIZE then Done None else Next (nxt + 1))) nxt.

Definition getenv (e : env) (m : mem) (name : Z) : option Z :=
  while (λ i,
    c ← env_get_char e m i;
    if c =? 0 then Some (Done NULL) else
    o ← env_end e m i;
    match o with
    | None => Some (Done NULL)
    | Some nxt =>
        val ← envmatch e m name i;
        Some (if val <? 0 then Next (nxt + 1) else Done (env_get_addr e val))
    end) 0.

Definition getenv_r (e : env) (m : mem) (name buf len : Z) : option (mem * Z) :=
  while (λ i,
    c ← env_get_char e m i;
    if c =? 0 then Some (Done (m, -1)) else
    o ← env_end e m i;
    match o with
    | None => Some (Done (m, -1))
    | Some nxt =>
        val ← envmatch e m name i;
        if val <? 0 then Some (Next (nxt + 1)) else
        '(m, buf, n) ← while (λ '(m, buf, val, n),
           if len >? n then
             c ← env_get_char e m val; m ← st m buf c;
             Some (if negb (c =? 0) then Next (m, buf + 1, val + 1, n + 1)
                   else Done (m, buf + 1, n + 1))
           else Some (Done (m, buf, n + 1))) (m, buf, val, 0);
        m ← (if len =? n then st m buf 0 else Some m);
        Some (Done (m, n))
    end) 0.

(** ** Listing *)

(** The characters of the environment from [k] up to [nxt]. *)
Definition env_chars (e : env) (m : mem) (k nxt : Z) : option (list Z) :=
  while (λ '(k, out),
    if k <? nxt then c ← env_get_char e m k; Some (Next (k + 1, out ++ [c]))
    else Some (Done out)) (k, []).

Definition env_seek (e : env) (m : mem) (nxt : Z) : option Z :=
  while (λ nxt, c ← env_get_char e m nxt;
    Some (if negb (c =? 0) then Next (nxt + 1) else Done nxt)) nxt.

(** The characters of a string, for [puts]. *)
Definition puts_chars (m : mem) (s : Z) : option (list Z) :=
  while (λ '(s, out), c ← ld m s;
    Some (if c =? 0 then Done out else Next (s + 1, out ++ [c]))) (s, []).

(** The printed characters and the return value.  [ctrlc] are the answers of
    the successive calls of [ctrlc()]. *)
Definition do_printenv (e : env) (m : mem) (ctrlc : list bool) (argc : Z) (argv : list Z)
    : option (list Z * Z) :=
  if argc =? 1 then
    while (λ '(i, out, ctrlc),
      c ← env_get_char e m i;
      if negb (c =? 0) then
        nxt ← env_seek e m i;
        cs ← env_chars e m i nxt;
        let out := out ++ cs ++ [10] in
        if hd false ctrlc then Some (Done (out ++ lit "
 ** Abort
", 1))
        else Some (Next (nxt + 1, out, tail ctrlc))
      else
        Some (Done (out ++ lit "
Environment size: " ++ dec i ++ lit "/" ++ dec ENV_SIZE ++ lit " bytes
", 0)))
      (0, [], ctrlc)
  else
    while (λ '(i, out, rcode),
      if negb (i <? argc) then Some (Done (out, rcode)) else
      name ← argv !! Z.to_nat i;
      text ← puts_chars m name;
      '(k, out) ← while (λ '(j, k),
        c ← env_get_char e m j;
        if c =? 0 then Some (Done (k, out)) else
        nxt ← env_seek e m j;
        k ← envmatch e m name j;
        if k <? 0 then Some (Next (nxt + 1, k)) else
        cs ← env_chars e m k nxt;
        Some (Done (Z.max k nxt, out ++ text ++ [61] ++ cs ++ [10]))) (0, -1);
      Some (Next (if k <? 0
        then (i + 1, out ++ lit "## Error: " ++ [34] ++ text ++ [34] ++ lit " not defined
", rcode + 1)
        else (i + 1, out, rcode)))) (1, [], 0).

(** ** Console devices ([console.c])

    A device with its name, flags and the answer of its [start] function;
    [stdio_devices] holds positions in the list. *)

Record device := Device {
  name_of : Z;
  flags_of : Z;
  start_of : option Z
}.

Definition DEV_FLAGS_INPUT : Z := 0x00000001.
Definition DEV_FLAGS_OUTPUT : Z := 0x00000002.

(** Variables the environment is mirrored to, and the serial input. *)
Record board := Board {
  stdio_devices : list (option nat);
  devlist : list device;
  baudrate : Z;
  serial_input : list Z;
  bi_enetaddr : list Z;
  bi_ip_addr : Z;
  load_addr : Z;
  BootFile : Z;
  eth_devices : list eth_device
}.

Definition console_setfile (b : board) (file : Z) (dev : nat) : option (board * Z) :=
  d ← devlist b !! dev;
  if (0 <=? file) && (file <=? 2) then
    let error : Z := default 0 (start_of d) in
    if error <? 0 then Some (b, error)
    else Some (Board (<[Z.to_nat file := Some dev]> (stdio_devices b)) (devlist b)
                 (baudrate b) (serial_input b) (bi_enetaddr b) (bi_ip_addr b)
                 (load_addr b) (BootFile b) (eth_devices b), error)
  else Some (b, -1).

(** The search loop of [console_assign]. *)
Fixpoint find_device (m : mem) (devname : Z) (l : list device) (i : nat)
    : option (option (nat * device)) :=
  match l with
  | [] => Some None
  | d :: l =>
      r ← strcmp m devname (name_of d);
      if r =? 0 then Some (Some (i, d)) else find_device m devname l (S i)
  end.

Definition console_assign (b : board) (m : mem) (file devname : Z) : option (board * Z) :=
  if (0 <=? file) && (file <=? 2) then
    let flag : Z := if file =? 0 then DEV_FLAGS_INPUT else DEV_FLAGS_OUTPUT in
    o ← find_device m devname (devlist b) 0;
    match o with
    | Some (i, dev) =>
        if negb (Z.land (flags_of dev) flag =? 0) then console_setfile b file i
        else Some (b, -1)
    | None => Some (b, -1)
    end
  else Some (b, -1).

(** ** [setenv] ([cmd_nvedit.c]) *)

Definition baudrate_table : list Z := [115200].

(** The search: [env], [nxt] and [oldval] when it stops. *)
Definition setenv_search (e : env) (m : mem) (env_data name : Z) : option (Z * Z * Z) :=
  while (λ '(env, nxt, oldval),
    c ← ld m env;
    if c =? 0 then Some (Done (env, nxt, oldval)) else
    nxt ← while (λ nxt, c ← ld m nxt;
            Some (if negb (c =? 0) then Next (nxt + 1) else Done nxt)) env;
    oldval ← envmatch e m name (env - env_data);
    Some (if oldval >=? 0 then Done (env, nxt, oldval)
          else Next (nxt + 1, nxt, oldval))) (env_data, NULL, -1).

(** Removal of the string from [env] to its terminator at [nxt]. *)
Definition setenv_delete (m : mem) (env_data env nxt : Z) : option mem :=
  let nxt := nxt + 1 in
  c ← ld m nxt;
  '(m, env) ←
    (if c =? 0 then
       if env >? env_data then Some (m, env - 1)
       else m ← st m env 0; Some (m, env)
     else
       while (λ '(m, env, nxt),
         c ← ld m nxt; m ← st m env c;
         d ← ld m (nxt + 1);
         Some (if (c =? 0) && (d =? 0) then Done (m, env)
               else Next (m, env + 1, nxt + 1))) (m, env, nxt));
  st m (env + 1) 0.

(** The place of the new definition. *)
Definition setenv_tail (m : mem) (env_data : Z) : option Z :=
  env ← while (λ env,
    c ← ld m env;
    if negb (c =? 0) then Some (Next (env + 1)) else
    d ← ld m (env + 1);
    Some (if negb (d =? 0) then Next (env + 1) else Done env)) env_data;
  Some (if env >? env_data then env + 1 else env).

(** The length of the definition: [name], [=] or blanks, values, two NULs. *)
Definition setenv_length (m : mem) (name argc : Z) (argv : list Z) : option Z :=
  n ← strlen m name;
  while (λ '(i, len),
    if negb (i <? argc) then Some (Done len) else
    a ← argv !! Z.to_nat i;
    n ← strlen m a;
    Some (Next (i + 1, len + n + 1))) (2, n + 2).

(** The copy of a string with its NUL: memory and the address of the NUL. *)
Definition put_str (m : mem) (env s : Z) : option (mem * Z) :=
  while (λ '(m, env, s),
    c ← ld m s; m ← st m env c;
    Some (if negb (c =? 0) then Next (m, env + 1, s + 1) else Done (m, env))) (m, env, s).

Definition setenv_append (m : mem) (env name argc : Z) (argv : list Z) : option mem :=
  '(m, env) ← put_str m env name;
  '(m, env) ← while (λ '(m, env, i),
    if negb (i <? argc) then Some (Done (m, env)) else
    val ← argv !! Z.to_nat i;
    m ← st m env (if i =? 2 then 61 else 32 : Z);
    '(m, env) ← put_str m (env + 1) val;
    Some (Next (m, env, i + 1))) (m, env, 2);
  st m (env + 1) 0.

(** Waiting for the return key on the new baud rate. *)
Fixpoint wait_cr (input : list Z) : option (list Z) :=
  match input with
  | [] => None
  | c :: input => if c =? 13 then Some input else wait_cr input
  end.

Definition is_lit (m : mem) (s : Z) (l : list Z) : option bool :=
  r ← strcmp_lit m s l; Some (r =? 0).

(** The checks before an existing variable is deleted: [None] when it may
    be, [Some r] when the command returns [r]. *)
Definition setenv_check (m : mem) (b : board) (argc : Z) (argv : list Z)
    : option (board * option Z) :=
  name ← argv !! 1%nat;
  serial ← is_lit m name (lit "serial#");
  ethaddr ← (if serial : bool then Some true else is_lit m name (lit "ethaddr"));
  if ethaddr : bool then Some (b, Some 1) else
  is_in ← is_lit m name (lit "stdin");
  is_out ← (if is_in : bool then Some false else is_lit m name (lit "stdout"));
  is_err ← (if (is_in : bool) || (is_out : bool) then Some false else is_lit m name (lit "stderr"));
  let console : Z := if is_in : bool then 0 else if is_out : bool then 1
                     else if is_err : bool then 2 else -1 in
  '(b, r) ←
    (if negb (console =? -1) then
       if argc <? 3 then Some (b, Some 1) else
       devname ← argv !! 2%nat;
       '(b, r) ← console_assign b m console devname;
       Some (b, if r <? 0 then Some 1 else None)
     else Some (b, None));
  match r with
  | Some _ => Some (b, r)
  | None =>
      baud ← is_lit m name (lit "baudrate");
      if baud : bool then
        v ← argv !! 2%nat;
        '(rate, _) ← simple_strtoul m v 10;
        if existsb (Z.eqb rate) baudrate_table then
          input ← wait_cr (serial_input b);
          Some (Board (stdio_devices b) (devlist b) rate input (bi_enetaddr b)
                  (bi_ip_addr b) (load_addr b) (BootFile b) (eth_devices b), None)
        else Some (b, Some 1)
      else Some (b, None)
  end.

(** [ethaddr], [eth1addr], ... also change the device. *)
Definition setenv_eth (m : mem) (b : board) (argv : list Z) : option board :=
  name ← argv !! 1%nat;
  r ← strncmp_lit m name (lit "eth") 3;
  if r =? 0 then
    '(num, end_) ← simple_strtoul m (name + 3) 10;
    addr ← is_lit m end_ (lit "addr");
    if addr : bool then
      v ← argv !! 2%nat;
      devs ← eth_set_enetaddr m (eth_devices b) (s32 num) v;
      Some (Board (stdio_devices b) (devlist b) (baudrate b) (serial_input b)
              (bi_enetaddr b) (bi_ip_addr b) (load_addr b) (BootFile b) devs)
    else Some b
  else Some b.

(** The variables that mirror the new value. *)
Definition setenv_mirror (m : mem) (b : board) (argv : list Z) : option (mem * board) :=
  name ← argv !! 1%nat;
  v ← argv !! 2%nat;
  ethaddr ← is_lit m name (lit "ethaddr");
  if ethaddr : bool then
    mac ← read_enetaddr m v;
    devs ← eth_set_enetaddr m (eth_devices b) 0 v;
    Some (m, Board (stdio_devices b) (devlist b) (baudrate b) (serial_input b)
               mac (bi_ip_addr b) (load_addr b) (BootFile b) devs)
  else
  ipaddr ← is_lit m name (lit "ipaddr");
  if ipaddr : bool then
    ip ← string_to_ip m v;
    Some (m, Board (stdio_devices b) (devlist b) (baudrate b) (serial_input b)
               (bi_enetaddr b) ip (load_addr b) (BootFile b) (eth_devices b))
  else
  loadaddr ← is_lit m name (lit "loadaddr");
  if loadaddr : bool then
    '(a, _) ← simple_strtoul m v 16;
    Some (m, Board (stdio_devices b) (devlist b) (baudrate b) (serial_input b)
               (bi_enetaddr b) (bi_ip_addr b) a (BootFile b) (eth_devices b))
  else
  bootfile ← is_lit m name (lit "bootfile");
  if bootfile : bool then m ← copy_filename m (BootFile b) v 128; Some (m, b)
  else Some (m, b).

Definition _do_setenv (e : env) (m : mem) (b : board) (argc : Z) (argv : list Z)
    : option (mem * board * Z) :=
  let env_data := env_get_addr e 0 in
  if env_data =? NULL then Some (m, b, 1) else
  name ← argv !! 1%nat;
  '(env, nxt, oldval) ← setenv_search e m env_data name;
  '(b, stop) ← (if oldval >=? 0 then setenv_check m b argc argv else Some (b, None));
  match stop with
  | Some r => Some (m, b, r)
  | None =>
      m ← (if oldval >=? 0 then setenv_delete m env_data env nxt else Some m);
      b ← setenv_eth m b argv;
      v ← (if argc <? 3 then Some NULL else argv !! 2%nat);
      if v =? NULL then m ← env_crc_update e m; Some (m, b, 0) else
      env ← setenv_tail m env_data;
      len ← setenv_length m name argc argv;
      if len >? env_data + ENV_SIZE - env then Some (m, b, 1) else
      m ← setenv_append m env name argc argv;
      m ← env_crc_update e m;
      '(m, b) ← setenv_mirror m b argv;
      Some (m, b, 0)
  end.

(** [cmd] is the address of the literal ["setenv"]. *)
Definition setenv (e : env) (m : mem) (b : board) (cmd varname varvalue : Z)
    : option (mem * board) :=
  '(m, b, _) ← _do_setenv e m b 3 [cmd; varname; varvalue; NULL]; Some (m, b).

Definition do_setenv (e : env) (m : mem) (b : board) (argc : Z) (argv : list Z)
    : option (mem * board * Z) :=
  if argc <? 2 then Some (m, b, 1) else _do_setenv e m b argc argv.

(** ** The environment as an association list *)

Abbreviation entry := (list Z * list Z)%type.

Abbreviation names := (map (@fst (list Z) (list Z))).

Definition body (p : entry) : list Z := p.1 ++ 61 :: p.2.
Definition enc (p : entry) : list Z := body p ++ [0].
Definition flat (es : list entry) : list Z := flat_map enc es.

(** The block: the strings and the final NUL; an empty block has two. *)
Definition env_text (es : list entry) : list Z :=
  match es with [] => [0; 0] | _ => flat es ++ [0] end.

Definition entry_ok (p : entry) : Prop :=
  Forall is_char p.1 ∧ Forall is_char p.2 ∧ 61 ∉ p.1.

Fixpoint lookup_env (n : list Z) (es : list entry) : option (list Z) :=
  match es with
  | [] => None
  | (n', v) :: es => if decide (n = n') then Some v else lookup_env n es
  end.

Fixpoint remove_env (n : list Z) (es : list entry) : list entry :=
  match es with
  | [] => []
  | (n', v) :: es => if decide (n = n') then es else (n', v) :: remove_env n es
  end.

(** Values of several arguments are joined by blanks. *)
Fixpoint join (vals : list (list Z)) : list Z :=
  match vals with
  | [] => []
  | [v] => v
  | v :: vals => v ++ 32 :: join vals
  end.

Definition env_base (e : env) : Z := env_get_addr e 0.

(** The strings of a block, wherever it is. *)
Definition entries_at (m : mem) (a : Z) (es : list entry) : Prop :=
  bytes_at m a (flat es ++ [0]) ∧ Forall entry_ok es.

Section lookup.
Implicit Types (e : env) (m : mem) (es : list entry) (n v : list Z).

Lemma env_get_char_base e m i : env_get_char e m i = ld m (env_base e + i).
Proof.
  unfold env_get_char, env_get_char_memory, env_get_char_init, env_get_char_spec,
    env_base, env_get_addr. destruct (in_ram e), (negb _); f_equal; lia.
Qed.

Lemma env_get_addr_base e i : env_get_addr e i = env_base e + i.
Proof. unfold env_base, env_get_addr. destruct (negb _); lia. Qed.

Lemma body_chars p : entry_ok p → Forall is_char (body p).
Proof.
  intros (H1 & H2 & _). apply Forall_app_2; [done|]. constructor; [unfold is_char; lia|done].
Qed.

Lemma entries_cons m a p es :
  entries_at m a (p :: es) ↔
  entry_ok p ∧ cstr m a (body p) ∧ entries_at m (a + length (enc p)) es.
Proof.
  unfold entries_at, cstr. cbn [flat flat_map]. rewrite Forall_cons_iff, <- app_assoc.
  change (flat_map enc es) with (flat es). rewrite bytes_at_app. unfold enc at 1.
  split; [intros [[? ?] [? ?]]; auto 6 using body_chars|intros (? & [? ?] & [? ?]); auto].
Qed.

Lemma entries_nil m a es : es = [] → entries_at m a es → m !! a = Some 0.
Proof. intros -> [H _]. by apply bytes_at_singleton in H. Qed.

Lemma entries_hd m a p es :
  entries_at m a (p :: es) → ∃ c, m !! a = Some c ∧ is_char c.
Proof.
  intros (Hp & Hc & _)%entries_cons. exists (hd 0 (body p)).
  split; [by apply cstr_hd|]. destruct Hp as (H1 & _ & _). destruct p as [[|c n] v]; simpl.
  - unfold is_char. lia.
  - by apply Forall_inv in H1.
Qed.

(** A string read by [env_get_char] ends where it ends in memory. *)
Lemma env_end_cstr e m i k :
  cstr m (env_base e + i) k → 0 ≤ i → i + length k < CFG_ENV_SIZE →
  env_end e m i = Some (Some (i + length k)).
Proof.
  intros H Hi Hlt. unfold env_end, CFG_ENV_SIZE in *.
  apply (while_within _ _ (S (length k))); [lia|].
  revert i H Hi Hlt. induction k as [|c k IH]; intros i H Hi Hlt.
  - apply cstr_nil in H. exists 1%nat. split; [lia|]. apply runs_done.
    rewrite env_get_char_base. repeat c_step. zbool. simpl. do 3 f_equal. lia.
  - apply cstr_cons in H as (Hc & Ha & H). rewrite <- Z.add_assoc in H.
    simpl length in *. destruct (IH (i + 1) H ltac:(lia) ltac:(lia)) as (j & Hj & Hr).
    exists (S j). split; [lia|]. eapply runs_next.
    { rewrite env_get_char_base. repeat c_step. unfold is_char in Hc. zbool. reflexivity. }
    replace (i + S (length k)) with (i + 1 + length k) by lia. exact Hr.
Qed.

Lemma envmatch_entry e m s n i p :
  cstr m s n → 61 ∉ n → entry_ok p → cstr m (env_base e + i) (body p) → fits n →
  envmatch e m s i = Some (if decide (n = p.1) then i + length p.1 + 1 else -1).
Proof.
  intros Hs Hn (Hp1 & Hp2 & Hne) Hb Hf. destruct p as [n' v]; simpl in *. unfold envmatch.
  apply (while_within _ _ (S (length n))); [unfold fits in Hf; lia|]. clear Hf.
  unfold body in Hb. simpl in Hb. revert s n' i Hs Hn Hp1 Hne Hb.
  induction n as [|c n IH]; intros s n' i Hs Hn Hp1 Hne Hb.
  - apply cstr_nil in Hs. exists 1%nat. split; [lia|]. apply runs_done. cbv beta iota.
    rewrite env_get_char_base. destruct n' as [|d n']; simpl in Hb; apply cstr_cons in Hb as (Hc & Ha & Hb).
    + repeat c_step. simpl. do 3 f_equal. lia.
    + repeat c_step. unfold is_char in Hc.
      assert (d ≠ 61) by (intros ->; apply Hne; left). by zbool.
  - apply cstr_cons in Hs as (Hc & Ha & Hs). unfold is_char in Hc.
    assert (c ≠ 61) by (intros ->; apply Hn; left).
    destruct n' as [|d n']; simpl in Hb; apply cstr_cons in Hb as (Hd & Hd1 & Hb).
    + exists 1%nat. split; [lia|]. apply runs_done. cbv beta iota.
      rewrite env_get_char_base. repeat c_step. by zbool.
    + destruct (Z.eq_dec c d) as [->|Hcd].
      * apply Forall_cons_iff in Hp1 as [_ Hp1].
        rewrite <- Z.add_assoc in Hb.
        destruct (IH (s + 1) n' (i + 1) Hs) as (j & Hj & Hr); try done.
        { intros Hin. apply Hn. by right. }
        { intros Hin. apply Hne. by right. }
        exists (S j). split; [simpl; lia|]. eapply runs_next.
        { cbv beta iota. rewrite env_get_char_base. repeat c_step. zbool. reflexivity. }
        destruct (decide (n = n')) as [->|Hnn].
        -- rewrite decide_True by done.
           by replace (i + length (d :: n') + 1) with (i + 1 + length n' + 1) by (simpl; lia).
        -- rewrite decide_False by congruence. done.
      * exists 1%nat. split; [lia|]. apply runs_done. cbv beta iota.
        rewrite env_get_char_base. repeat c_step. zbool.
        by rewrite decide_False by congruence.
Qed.

Lemma flat_cons p es : flat (p :: es) = enc p ++ flat es.
Proof. done. Qed.

Lemma length_enc p : length (enc p) = S (length (body p)).
Proof. unfold enc. rewrite length_app. simpl. lia. Qed.

Lemma length_body p : length (body p) = (length p.1 + 1 + length p.2)%nat.
Proof. unfold body. rewrite length_app. simpl. lia. Qed.

(** The value of an entry is the string behind its name and [=]. *)
Lemma body_value m a p : cstr m a (body p) → cstr m (a + length p.1 + 1) p.2.
Proof.
  intros H. replace (a + length p.1 + 1) with (a + (length p.1 + 1)%nat) by lia.
  apply (cstr_drop _ _ _ (length p.1 + 1)) in H; [|rewrite length_body; lia].
  unfold body in H. by rewrite drop_app_add in H.
Qed.

(** The loop all searches share: it goes on behind a string that does not
    match, and stops with [hit] of the index of the value, or with [miss]. *)
Lemma env_search_loop {R} e m es name n (f : Z → option (ctl Z R)) (miss : R) (hit : Z → R) :
  entries_at m (env_base e) es → length (flat es) < CFG_ENV_SIZE →
  cstr m name n → 61 ∉ n → fits n →
  (∀ i, m !! (env_base e + i) = Some 0 → f i = Some (Done miss)) →
  (∀ i c nxt val, m !! (env_base e + i) = Some c → c ≠ 0 → env_end e m i = Some (Some nxt) →
     envmatch e m name i = Some val → val < 0 → f i = Some (Next (nxt + 1))) →
  (∀ i c nxt val v, m !! (env_base e + i) = Some c → c ≠ 0 → env_end e m i = Some (Some nxt) →
     envmatch e m name i = Some val → 0 ≤ val → cstr m (env_base e + val) v →
     val + length v < length (flat es) → lookup_env n es = Some v → f i = Some (Done (hit val))) →
  match lookup_env n es with
  | None => while f 0 = Some miss
  | Some v => ∃ val, while f 0 = Some (hit val) ∧ (0 ≤ val ∧ val + length v < length (flat es)) ∧
                     cstr m (env_base e + val) v
  end.
Proof.
  intros Hes Hlen Hn Hn61 Hf F0 Fmiss Fhit.
  assert (Hcount : Z.of_nat (S (length es)) ≤ 18446744073709551616).
  { assert (length es ≤ length (flat es))%nat; [|unfold CFG_ENV_SIZE in Hlen; lia].
    clear. induction es as [|p es IH]; simpl; [lia|].
    fold (flat es). rewrite length_app, length_enc. lia. }
  assert (H : ∀ es' i, entries_at m (env_base e + i) es' → 0 ≤ i →
    i + length (flat es') = length (flat es) → lookup_env n es' = lookup_env n es →
    match lookup_env n es' with
    | None => ∃ k, (k ≤ S (length es'))%nat ∧ runs f i k miss
    | Some v => ∃ k val, (k ≤ S (length es'))%nat ∧ runs f i k (hit val) ∧
        (i ≤ val ∧ val + length v < i + length (flat es')) ∧ cstr m (env_base e + val) v
    end).
  2: { specialize (H es 0). rewrite Z.add_0_r in H. specialize (H Hes ltac:(lia) ltac:(lia) eq_refl).
       destruct (lookup_env n es) as [v|].
       - destruct H as (k & val & Hk & Hr & Hv & Hc). exists val.
         split; [by eapply while_within; [exact Hcount|exists k]|]. split; [lia|done].
       - destruct H as (k & Hk & Hr). by eapply while_within; [exact Hcount|exists k]. }
  clear Hes Hcount. intros es'. induction es' as [|p es' IH]; intros i Hes Hi Hlt Hlk.
  - apply entries_nil in Hes; [|done]. exists 1%nat. split; [lia|]. by apply runs_done, F0.
  - destruct (entries_hd _ _ _ _ Hes) as (c & Hc & Hcc). unfold is_char in Hcc.
    apply entries_cons in Hes as (Hp & Hb & Hes).
    rewrite flat_cons, length_app in Hlt. rewrite length_enc in *.
    assert (He := env_end_cstr e m i (body p) Hb Hi ltac:(lia)).
    assert (Hm := envmatch_entry e m name n i p Hn Hn61 Hp Hb Hf).
    destruct p as [n' v]. cbn [fst snd] in Hm. simpl lookup_env in Hlk |- *.
    destruct (decide (n = n')) as [<-|Hne].
    + exists 1%nat, (i + length n + 1).
      apply body_value in Hb. cbn [fst snd] in Hb.
      assert (Hv : cstr m (env_base e + (i + length n + 1)) v).
      { by replace (env_base e + (i + length n + 1)) with (env_base e + i + length n + 1) by lia. }
      rewrite length_body in Hlt. cbn [fst snd] in Hlt.
      split; [lia|]. split; [apply runs_done; eapply Fhit; eauto; lia|].
      split; [|done]. rewrite flat_cons, length_app, length_enc, length_body. cbn [fst snd]. lia.
    + specialize (IH (i + length (body (n', v)) + 1)).
      replace (env_base e + (i + length (body (n', v)) + 1))
        with (env_base e + i + S (length (body (n', v)))) in IH by lia.
      specialize (IH Hes ltac:(lia) ltac:(lia) Hlk).
      assert (Hstep : f i = Some (Next (i + length (body (n', v)) + 1))).
      { eapply Fmiss; eauto; lia. }
      rewrite flat_cons, length_app, length_enc.
      destruct (lookup_env n es') as [w|].
      * destruct IH as (k & val & Hk & Hr & Hv & Hcv). exists (S k), val.
        split; [simpl; lia|]. split; [by eapply runs_next|]. split; [lia|done].
      * destruct IH as (k & Hk & Hr). exists (S k). split; [simpl; lia|]. by eapply runs_next.
Qed.

Lemma getenv_place e m es name n :
  entries_at m (env_base e) es → length (flat es) < CFG_ENV_SIZE →
  cstr m name n → 61 ∉ n → fits n →
  ∃ p, getenv e m name = Some p ∧
    match lookup_env n es with
    | None => p = NULL
    | Some v => (env_base e ≤ p ∧ p + length v < env_base e + length (flat es)) ∧ cstr m p v
    end.
Proof.
  intros Hes Hlen Hn Hn61 Hf. unfold getenv.
  match goal with |- context [while ?f 0] =>
    pose proof (env_search_loop e m es name n f NULL (env_get_addr e) Hes Hlen Hn Hn61 Hf) as H
  end.
  lapply H; [clear H; intros H|intros i Hi; rewrite env_get_char_base; by repeat c_step].
  lapply H; [clear H; intros H|].
  2: { intros i c nxt val Hi Hc Hend Hm Hval. rewrite env_get_char_base. repeat c_step. zbool.
       rewrite Hend, some_bind, Hm, some_bind. by zbool. }
  lapply H; [clear H; intros H|].
  2: { intros i c nxt val v Hi Hc Hend Hm Hval _ _ _. rewrite env_get_char_base. repeat c_step. zbool.
       rewrite Hend, some_bind, Hm, some_bind. by zbool. }
  destruct (lookup_env n es) as [v|].
  - destruct H as (val & -> & Hval & Hc). exists (env_get_addr e val). rewrite env_get_addr_base.
    split; [done|]. split; [lia|done].
  - by exists NULL.
Qed.

Lemma getenv_found e m es name n :
  entries_at m (env_base e) es → length (flat es) < CFG_ENV_SIZE →
  cstr m name n → 61 ∉ n → fits n →
  ∃ p, getenv e m name = Some p ∧
    match lookup_env n es with
    | None => p = NULL
    | Some v => env_base e ≤ p < env_base e + length (flat es) ∧ cstr m p v
    end.
Proof.
  intros H1 H2 H3 H4 H5. destruct (getenv_place e m es name n) as (p & Hg & Hp); try done.
  exists p. split; [done|]. destruct (lookup_env n es); [|done]. split; [lia|apply Hp].
Qed.
End lookup.

(** ** What the parts of [setenv] do *)

Section parts.
Implicit Types (e : env) (m : mem) (es : list entry) (n v k : list Z).

Lemma flat_app es es' : flat (es ++ es') = flat es ++ flat es'.
Proof. apply flat_map_app. Qed.

Lemma entries_app m a es es' :
  entries_at m a (es ++ es') → Forall entry_ok es ∧ bytes_at m a (flat es) ∧
  entries_at m (a + length (flat es)) es'.
Proof.
  intros [H Hok]. rewrite flat_app, <- app_assoc, bytes_at_app in H.
  apply Forall_app in Hok as [? ?]. destruct H. by split; [|split; [|split]].
Qed.

Lemma entries_count es : (length es ≤ length (flat es))%nat.
Proof.
  induction es as [|p es IH]; simpl; [lia|].
  fold (flat es). rewrite length_app, length_enc. lia.
Qed.

(** Where the search of [setenv] stops. *)
Lemma setenv_search_spec e m es name n :
  entries_at m (env_base e) es → length (flat es) < CFG_ENV_SIZE →
  cstr m name n → 61 ∉ n → fits n →
  (∃ pre v post old, es = pre ++ ((n, v) :: post) ∧ (n ∉ names pre) ∧ 0 ≤ old ∧
     let p := env_base e + length (flat pre) in
     setenv_search e m (env_base e) name = Some (p, p + length (body (n, v)), old)) ∨
  ((n ∉ names es) ∧ ∃ x y z, setenv_search e m (env_base e) name = Some (x, y, z) ∧ z < 0).
Proof.
  intros Hes Hlen Hn Hn61 Hf. set (a := env_base e). unfold setenv_search.
  set (loop := λ '(env, nxt, oldval),
    c ← ld m env;
    if c =? 0 then Some (Done (env, nxt, oldval)) else
    nxt ← while (λ nxt, c ← ld m nxt;
            Some (if negb (c =? 0) then Next (nxt + 1) else Done nxt)) env;
    oldval ← envmatch e m name (env - a);
    Some (if oldval >=? 0 then Done (env, nxt, oldval)
          else Next (nxt + 1, nxt, oldval))).
  assert (H : ∀ es p nx old, entries_at m p es → a ≤ p → p + length (flat es) < a + CFG_ENV_SIZE →
    old < 0 →
    ∃ j r, (j ≤ S (length es))%nat ∧ runs loop (p, nx, old) j r ∧
    ((∃ pre v post old, es = pre ++ ((n, v) :: post) ∧ (n ∉ names pre) ∧ 0 ≤ old ∧
      r = (p + length (flat pre), p + length (flat pre) + length (body (n, v)), old)) ∨
     ((n ∉ names es) ∧ r.2 < 0))).
  { clear es Hes Hlen. intros es. induction es as [|q es IH]; intros p nx old Hes Hp Hlt Hold.
    - apply entries_nil in Hes; [|done]. exists 1%nat, (p, nx, old). split; [lia|].
      split; [|right; split; [apply not_elem_of_nil|done]].
      apply runs_done. unfold loop. by repeat c_step.
    - destruct (entries_hd _ _ _ _ Hes) as (c & Hc & Hcc). unfold is_char in Hcc.
      apply entries_cons in Hes as (Hq & Hb & Hes).
      rewrite flat_cons, length_app, length_enc in Hlt.
      assert (Hseek := seek_nul m p (body q) Hb ltac:(unfold fits, CFG_ENV_SIZE in *; lia)).
      assert (Hb' := Hb). replace p with (env_base e + (p - a)) in Hb' by (unfold a; lia).
      assert (Hm := envmatch_entry e m name n (p - a) q Hn Hn61 Hq Hb' Hf).
      destruct q as [n' v]. cbn [fst snd] in Hm. rewrite length_enc in Hes.
      destruct (decide (n = n')) as [<-|Hne].
      + eexists 1%nat, _. split; [lia|]. split.
        * apply runs_done. unfold loop. repeat c_step. zbool. rewrite Hseek, some_bind, Hm, some_bind.
          zbool. reflexivity.
        * left. exists [], v, es. eexists. split; [done|]. split; [apply not_elem_of_nil|].
          split; [|simpl; do 2 f_equal; lia]. lia.
      + destruct (IH (p + length (body (n', v)) + 1) (p + length (body (n', v))) (-1))
          as (j & r & Hj & Hr & HQ).
        * by replace (p + length (body (n', v)) + 1) with (p + S (length (body (n', v)))) by lia.
        * lia.
        * lia.
        * lia.
        * exists (S j), r. split; [simpl; lia|]. split.
          { eapply runs_next; [|exact Hr]. unfold loop. repeat c_step. zbool.
            rewrite Hseek, some_bind, Hm, some_bind. reflexivity. }
          destruct HQ as [(pre & v' & post & old' & -> & Hpre & Hold' & ->)|[Hnin Hr2]].
          -- left. exists ((n', v) :: pre), v', post, old'. split; [done|].
             split; [simpl; rewrite not_elem_of_cons; done|]. split; [done|].
             rewrite flat_cons, length_app, length_enc. do 2 f_equal; lia.
          -- right. split; [simpl; rewrite not_elem_of_cons; done|done]. }
  destruct (H es a NULL (-1) Hes ltac:(lia) ltac:(lia) ltac:(lia)) as (j & r & Hj & Hr & HQ).
  pose proof (entries_count es).
  assert (Hw : while loop (a, NULL, -1) = Some r).
  { eapply while_runs; [exact Hr|]. unfold CFG_ENV_SIZE in Hlen. lia. }
  destruct HQ as [(pre & v & post & old & E & Hpre & Hold & ->)|[Hnin Hr2]].
  - left. exists pre, v, post, old. done.
  - right. split; [done|]. destruct r as [[x y] z]. by exists x, y, z.
Qed.

(** A text without two NULs in a row, ended by one. *)
Fixpoint one_nul (k : list Z) : Prop :=
  match k with
  | [] => False
  | [x] => x = 0
  | x :: ((y :: _) as k') => (x ≠ 0 ∨ y ≠ 0) ∧ one_nul k'
  end.

Lemma one_nul_chars k k' : Forall is_char k → k ≠ [] → (k' = [] ∨ (one_nul k' ∧ hd 0 k' ≠ 0)) →
  one_nul (k ++ 0 :: k').
Proof.
  intros Hk Hne Hk'. induction Hk as [|x k Hx Hk IH]; [done|].
  unfold is_char in Hx. destruct k as [|y k]; simpl.
  - split; [lia|]. destruct Hk' as [->|[Hk' Hhd]]; [done|].
    destruct k' as [|z k']; [done|]. split; [by right|done].
  - split; [lia|]. by apply IH.
Qed.

Lemma body_nonempty p : body p ≠ [].
Proof. unfold body. by destruct p.1. Qed.

Lemma one_nul_flat es : Forall entry_ok es → es ≠ [] → one_nul (flat es) ∧ hd 0 (flat es) ≠ 0.
Proof.
  intros H Hne. induction H as [|p es Hp H IH]; [done|].
  rewrite flat_cons. unfold enc. rewrite <- app_assoc. split.
  - apply one_nul_chars; [by apply body_chars|apply body_nonempty|].
    destruct es as [|q es]; [by left|right]. by apply IH.
  - pose proof (body_chars p Hp) as Hc. pose proof (body_nonempty p).
    destruct (body p) as [|c l]; [done|]. simpl. apply Forall_inv in Hc. unfold is_char in Hc. lia.
Qed.

(** The end of the block is found behind its last string. *)
Lemma scan_end m a k :
  one_nul k → bytes_at m a (k ++ [0]) → fits k →
  while (λ env, c ← ld m env;
    if negb (c =? 0) then Some (Next (env + 1)) else
    d ← ld m (env + 1);
    Some (if negb (d =? 0) then Next (env + 1) else Done env)) a = Some (a + length k - 1).
Proof.
  intros Hk Hm Hf. apply (while_within _ _ (S (length k))); [unfold fits in Hf; lia|]. clear Hf.
  revert a Hm. induction k as [|x k IH]; intros a Hm; [done|].
  change ((x :: k) ++ [0]) with (x :: (k ++ [0])) in Hm. apply bytes_at_cons in Hm as [Hx Hm].
  destruct k as [|y k].
  - apply bytes_at_singleton in Hm. simpl in Hk. subst x. exists 1%nat. split; [lia|].
    apply runs_done. repeat c_step. simpl. do 2 f_equal. lia.
  - destruct Hk as [Hxy Hk]. destruct (IH Hk _ Hm) as (j & Hj & Hr).
    exists (S j). split; [simpl in *; lia|].
    replace (a + length (x :: y :: k) - 1) with (a + 1 + length (y :: k) - 1) by (simpl; lia).
    eapply runs_next; [|exact Hr]. change ((y :: k) ++ [0]) with (y :: (k ++ [0])) in Hm.
    apply bytes_at_cons in Hm as [Hy _]. repeat c_step.
    destruct (Z.eqb_spec x 0) as [->|]; [|done]. cbn [negb]. repeat c_step. by zbool.
Qed.

Lemma setenv_tail_spec m a es :
  Forall entry_ok es → bytes_at m a (env_text es) → fits (flat es) →
  setenv_tail m a = Some (a + length (flat es)).
Proof.
  intros Hok Hm Hf. unfold setenv_tail. destruct es as [|p es].
  - simpl in Hm. apply bytes_at_cons in Hm as [H0 Hm]. apply bytes_at_singleton in Hm.
    erewrite (while_within _ a 1 a); [|lia|].
    + rewrite some_bind, Z.gtb_ltb. zbool. simpl. f_equal. lia.
    + exists 1%nat. split; [lia|]. apply runs_done. by repeat c_step.
  - destruct (one_nul_flat (p :: es) Hok ltac:(done)) as [Hz _].
    unfold env_text in Hm. rewrite (scan_end m a (flat (p :: es))) by done.
    rewrite some_bind, Z.gtb_ltb. rewrite flat_cons, length_app, length_enc, length_body.
    zbool. f_equal. lia.
Qed.

(** Moving the rest of the block down. *)
Lemma shift_down m dst src k :
  one_nul k → Forall is_byte k → bytes_at m src (k ++ [0]) → dst < src → owned m dst (length k) →
  fits k →
  while (λ '(m, env, nxt),
    c ← ld m nxt; m ← st m env c;
    d ← ld m (nxt + 1);
    Some (if (c =? 0) && (d =? 0) then Done (m, env)
          else Next (m, env + 1, nxt + 1))) (m, dst, src) =
  Some (write_bytes m dst k, dst + length k - 1).
Proof.
  intros Hk Hb Hm Hd Ho Hf. apply (while_within _ _ (S (length k))); [unfold fits in Hf; lia|].
  clear Hf. revert m dst src Hm Hd Ho. induction k as [|x k IH]; intros m dst src Hm Hd Ho; [done|].
  change ((x :: k) ++ [0]) with (x :: (k ++ [0])) in Hm. apply bytes_at_cons in Hm as [Hx Hm].
  apply Forall_cons_iff in Hb as [Hbx Hb].
  assert (Hst : is_Some (m !! dst)).
  { rewrite <- (Z.add_0_r dst). apply Ho. simpl. lia. }
  assert (Hm' : bytes_at (<[dst := x]> m) (src + 1) (k ++ [0])).
  { apply bytes_at_insert_out; [lia|done]. }
  destruct k as [|y k].
  - simpl in Hk. subst x. apply bytes_at_singleton in Hm'. exists 1%nat. split; [lia|].
    apply runs_done. cbv beta iota. repeat c_step. rewrite u8_byte by done. repeat c_step.
    simpl. do 3 f_equal. lia.
  - destruct Hk as [Hxy Hk].
    destruct (IH Hk Hb (<[dst := x]> m) (dst + 1) (src + 1)) as (j & Hj & Hr); [done|lia| |].
    { apply owned_insert. eapply owned_mono; [exact Ho|lia|simpl; lia]. }
    exists (S j). split; [simpl in *; lia|].
    replace (dst + length (x :: y :: k) - 1) with (dst + 1 + length (y :: k) - 1) by (simpl; lia).
    eapply runs_next; [|exact Hr]. change ((y :: k) ++ [0]) with (y :: (k ++ [0])) in Hm'.
    apply bytes_at_cons in Hm' as [Hy _]. cbv beta iota. repeat c_step.
    rewrite u8_byte by done. repeat c_step.
    destruct (Z.eqb_spec x 0) as [->|]; [|done]. by zbool.
Qed.

Lemma flat_bytes es : Forall entry_ok es → Forall is_byte (flat es).
Proof.
  intros H. induction H as [|p es Hp H IH]; [constructor|].
  rewrite flat_cons. apply Forall_app_2; [|done]. apply Forall_app_2.
  - eapply Forall_impl; [|by apply body_chars]. intros c. apply char_byte.
  - constructor; [unfold is_byte; lia|constructor].
Qed.

(** The block after the removal of one string: a write from that string on,
    inside the old block (two bytes longer when nothing is left). *)
Lemma setenv_delete_spec m a pre p post :
  entries_at m a (pre ++ p :: post) → fits (flat (pre ++ p :: post)) →
  let env := a + length (flat pre) in
  ∃ b w, setenv_delete m a env (env + length (body p)) = Some (write_bytes m b w) ∧
    Forall is_byte w ∧ a ≤ b ∧ b + length w ≤ a + length (flat (pre ++ p :: post)) + 1 ∧
    bytes_at (write_bytes m b w) a (env_text (pre ++ post)).
Proof.
  intros Hes Hf env. destruct (entries_app _ _ _ _ Hes) as (Hpre & Hbpre & Hrest).
  apply entries_cons in Hrest as (Hp & Hb & Hpost). fold env in Hb, Hpost.
  assert (Hown := bytes_at_owned _ _ _ (proj1 Hes)). rewrite length_app in Hown.
  rewrite flat_app, flat_cons, !length_app, length_enc in *. simpl length in *.
  unfold fits in Hf. rewrite !length_app, length_enc in Hf.
  assert (Hlb : (1 ≤ length (body p))%nat) by (rewrite length_body; lia).
  assert (Hown' : ∀ j, a ≤ j ≤ a + length (flat pre) + length (body p) + length (flat post) + 1 →
    is_Some (m !! j)).
  { intros j Hj. replace j with (a + (j - a)) by lia. apply Hown. lia. }
  unfold setenv_delete. cbv zeta.
  replace (env + length (body p) + 1) with (env + S (length (body p))) by lia.
  destruct Hpost as [Hbpost Hokpost].
  destruct post as [|q post].
  - apply bytes_at_singleton in Hbpost. repeat c_step. rewrite app_nil_r, Z.gtb_ltb.
    simpl flat in *. simpl length in *. destruct pre as [|r pre].
    + exists env, [0; 0]. simpl flat in *. simpl length in *. unfold env in *.
      rewrite Z.add_0_r in *. zbool.
      rewrite !st_owned by (apply Hown'; lia). repeat c_step. rewrite st_owned.
      2: { apply owned_insert with (n := 2) (a := a); [|lia]. intros j Hj. apply Hown'. lia. }
      split; [done|]. split; [chars|]. split; [lia|]. split; [simpl; lia|].
      exact (write_bytes_in m a [0; 0]).
    + assert (0 < length (flat (r :: pre)))%nat by (rewrite flat_cons, length_app, length_enc; lia).
      exists env, [0]. zbool. repeat c_step.
      replace (env - 1 + 1) with env by lia. rewrite st_owned by (apply Hown'; unfold env; lia).
      split; [done|]. split; [chars|]. split; [unfold env; lia|].
      split; [unfold env; simpl; lia|].
      unfold env_text. apply bytes_at_app. split; [|apply write_bytes_in].
      apply bytes_at_write_disjoint; [unfold env; lia|done].
  - destruct (one_nul_flat (q :: post) Hokpost ltac:(done)) as [Hz Hhd].
    set (k := flat (q :: post)) in *.
    assert (Hk0 : ∃ c, m !! (env + S (length (body p))) = Some c ∧ c ≠ 0).
    { destruct k as [|c k]; [done|]. apply bytes_at_cons in Hbpost as [Hc _].
      exists c. done. }
    destruct Hk0 as (c & Hc & Hc0). repeat c_step. zbool.
    rewrite (shift_down m env _ k); [|done|by apply flat_bytes|done|lia| |unfold fits; lia].
    2: { intros j Hj. apply Hown'. unfold env. lia. }
    repeat c_step. replace (env + length k - 1 + 1) with (env + length k) by lia.
    exists env, (k ++ [0]). rewrite write_bytes_snoc.
    rewrite st_owned.
    2: { apply owned_write with (n := length k + 1) (a := env); [|lia].
         intros j Hj. apply Hown'. unfold env. lia. }
    split; [done|]. split; [apply Forall_app_2; [by apply flat_bytes|chars]|].
    split; [unfold env; lia|]. split; [rewrite length_app; unfold env; simpl; lia|].
    rewrite <- write_bytes_snoc.
    replace (env_text (pre ++ q :: post)) with (flat pre ++ k ++ [0]).
    + apply bytes_at_app. split; [|apply write_bytes_in].
      apply bytes_at_write_disjoint; [unfold env; lia|done].
    + unfold env_text. destruct (pre ++ q :: post) eqn:E; [by destruct pre|].
      rewrite <- E, flat_app. by rewrite app_assoc.
Qed.
Lemma write_over m a l x y k :
  write_bytes (write_bytes m a (l ++ [x])) (a + length l) (y :: k) =
  write_bytes m a (l ++ y :: k).
Proof.
  rewrite write_bytes_snoc. simpl. rewrite insert_insert_eq.
  by rewrite (write_bytes_app m a l (y :: k)).
Qed.

Lemma put_str_cstr m d s l :
  cstr m s l → owned m d (length l + 1) → fits l → (d ≤ s ∨ s + length l < d) →
  put_str m d s = Some (write_bytes m d (l ++ [0]), d + length l).
Proof.
  intros Hl Ho Hf Hd. unfold put_str.
  apply (while_within _ _ (S (length l))); [unfold fits in Hf; lia|]. clear Hf.
  revert m d s Hl Ho Hd. induction l as [|c l IH]; intros m d s Hl Ho Hd;
    (assert (Hst : is_Some (m !! d)); [rewrite <- (Z.add_0_r d); apply Ho; simpl; lia|]).
  - apply cstr_nil in Hl. exists 1%nat. split; [lia|]. apply runs_done. cbv beta iota.
    repeat c_step. simpl. by rewrite Z.add_0_r.
  - apply cstr_cons in Hl as (Hc & Hs & Hl). simpl length in *.
    destruct (IH (<[d := c]> m) (d + 1) (s + 1)) as (n & Hn & Hr); [|  |lia|].
    { apply cstr_insert_out; [lia|done]. }
    { apply owned_insert. eapply owned_mono; [exact Ho|lia|lia]. }
    exists (S n). split; [lia|]. eapply runs_next.
    { cbv beta iota. repeat c_step. rewrite u8_char by done. unfold is_char in Hc. by zbool. }
    replace (d + S (length l)) with (d + 1 + length l) by lia. exact Hr.
Qed.

(** The strings of a list of arguments. *)
Definition args_at (m : mem) (ptrs : list Z) (vals : list (list Z)) : Prop :=
  Forall2 (λ p v, p ≠ NULL ∧ cstr m p v ∧ fits v) ptrs vals.

(** The argument strings lie outside the region from [lo] to [hi]. *)
Definition args_apart (lo hi : Z) (ptrs : list Z) (vals : list (list Z)) : Prop :=
  Forall2 (λ p v, p + length v < lo ∨ hi ≤ p) ptrs vals.

(** [=] or blanks and the values, as they are appended. *)
Fixpoint seps (first : bool) (vals : list (list Z)) : list Z :=
  match vals with
  | [] => []
  | v :: vals => (if first then 61 else 32) :: v ++ seps false vals
  end.

Lemma seps_join v vals : seps true (v :: vals) = 61 :: join (v :: vals).
Proof.
  simpl. f_equal. revert v. induction vals as [|w vals IH]; intros v; simpl.
  - apply app_nil_r.
  - f_equal. f_equal. apply IH.
Qed.

Lemma length_seps b vals : length (seps b vals) = length (seps true vals).
Proof. destruct vals; simpl; by rewrite ?length_app. Qed.

Lemma join_chars vals : Forall (Forall is_char) vals → Forall is_char (join vals).
Proof.
  intros H. induction H as [|v vals Hv H IH]; [constructor|].
  destruct vals; [done|]. simpl. apply Forall_app_2; [done|].
  constructor; [unfold is_char; lia|exact IH].
Qed.

Lemma setenv_length_spec m name n argv (i0 : nat) ptrs vals argc :
  cstr m name n → fits n → args_at m ptrs vals → drop 2 argv = ptrs ++ [NULL] →
  argc = 2 + length ptrs → argc < 4294967296 →
  setenv_length m name argc argv = Some (length n + 2 + length (seps true vals)).
Proof.
  intros Hn Hf Ha Hargv -> Hlt. unfold setenv_length. rewrite (strlen_cstr m name n), some_bind by done.
  remember (2 + length ptrs) as argc eqn:Hargc.
  assert (H : ∀ ptrs vals (i : nat) len, args_at m ptrs vals → drop i argv = ptrs ++ [NULL] →
    i + length ptrs = argc →
    ∃ j, (j ≤ S (length ptrs))%nat ∧ runs (λ '(i, len),
      if negb (i <? argc) then Some (Done len) else
      a ← argv !! Z.to_nat i;
      n ← strlen m a;
      Some (Next (i + 1, len + n + 1))) (i : Z, len) j
      (len + length (seps true vals))).
  { clear. intros ptrs vals i len Ha. revert i len.
    induction Ha as [|p v ptrs vals (Hp & Hv & Hf) Ha IH]; intros i len Hd Hi; simpl length in *.
    - exists 1%nat. split; [lia|]. apply runs_done. cbv beta iota. zbool. simpl. do 2 f_equal. lia.
    - apply drop_cons_inv in Hd as [Hai Hd].
      destruct (IH (S i) (len + length v + 1)) as (j & Hj & Hr); [done|lia|].
      exists (S j). split; [lia|]. eapply runs_next.
      { cbv beta iota. zbool. cbn [negb]. rewrite Nat2Z.id, Hai, some_bind.
        rewrite (strlen_cstr m p v), some_bind by done. reflexivity. }
      replace (i + 1) with (S i : Z) by lia.
      simpl. rewrite length_app, (length_seps false).
      replace (len + S (length v + length (seps true vals)))
        with (len + length v + 1 + length (seps true vals)) by lia.
      exact Hr. }
  destruct (H ptrs vals 2%nat (length n + 2) Ha Hargv ltac:(lia)) as (j & Hj & Hr).
  eapply while_runs; [exact Hr|]. lia.
Qed.

(** The appended text, in place. *)
Lemma setenv_append_spec m d name n argv ptrs vals argc :
  cstr m name n → fits n → args_at m ptrs vals → drop 2 argv = ptrs ++ [NULL] →
  argc = 2 + length ptrs → argc < 4294967296 →
  let t := n ++ seps true vals in
  owned m d (length t + 2) →
  (d + length t + 2 ≤ name ∨ name + length n < d) →
  args_apart d (d + length t + 2) ptrs vals →
  setenv_append m d name argc argv = Some (write_bytes m d (t ++ [0; 0])).
Proof.
  intros Hn Hf Ha Hargv Hargc Hlt t Ho Hd Hap. unfold setenv_append.
  assert (Hlt' : length t = (length n + length (seps true vals))%nat) by apply length_app.
  rewrite (put_str_cstr m d name n); [|done|eapply owned_mono; [exact Ho|lia|lia]|done|lia].
  rewrite some_bind. cbv beta iota.
  assert (H : ∀ ptrs vals (i : nat) u,
    args_at m ptrs vals → args_apart d (d + length t + 2) ptrs vals →
    drop i argv = ptrs ++ [NULL] → i + length ptrs = argc → (2 ≤ i)%nat →
    u ++ seps (bool_decide (i = 2%nat)) vals = t →
    ∃ j, (j ≤ S (length ptrs))%nat ∧ runs (λ '(m, env, i),
      if negb (i <? argc) then Some (Done (m, env)) else
      val ← argv !! Z.to_nat i;
      m ← st m env (if i =? 2 then 61 else 32 : Z);
      '(m, env) ← put_str m (env + 1) val;
      Some (Next (m, env, i + 1))) (write_bytes m d (u ++ [0]), d + length u, i : Z) j
      (write_bytes m d (t ++ [0]), d + length t)).
  { clear Hn Hf Ha Hap Hargv Hd Hlt'. intros ptrs' vals' i u Ha. revert i u.
    induction Ha as [|p v ptrs' vals' (Hp & Hv & Hf) Ha IH]; intros i u Hap Hdr Hi Hi2 Hu; simpl length in *.
    - simpl in Hu. rewrite app_nil_r in Hu. subst u. exists 1%nat. split; [lia|].
      apply runs_done. cbv beta iota. by zbool.
    - apply Forall2_cons_1 in Hap as [Hap1 Hap].
      apply drop_cons_inv in Hdr as [Hai Hdr].
      set (x := if bool_decide (i = 2%nat) then 61 else 32 : Z).
      assert (Hx : (if (i : Z) =? 2 then 61 else 32 : Z) = x).
      { unfold x. case_bool_decide as E; [subst i; done|by zbool]. }
      assert (Hlen : (length u + S (length v) + length (seps false vals') = length t)%nat).
      { rewrite <- Hu. simpl. rewrite length_app. simpl. rewrite length_app. lia. }
      destruct (IH (S i) (u ++ x :: v)) as (j & Hj & Hr); [done|done|lia|lia| |].
      { rewrite <- app_assoc. simpl. rewrite bool_decide_false by lia. by rewrite <- Hu. }
      exists (S j). split; [lia|]. eapply runs_next; [|].
      { cbv beta iota. zbool. cbn [negb]. rewrite Nat2Z.id, Hai, some_bind, Hx.
        rewrite st_bind.
        2: { apply (owned_write_at m d (length t + 2)); [done|lia]. }
        rewrite u8_byte by (unfold x, is_byte; case_bool_decide; lia).
        change (<[d + length u:=x]> (write_bytes m d (u ++ [0])))
          with (write_bytes (write_bytes m d (u ++ [0])) (d + length u) [x]).
        rewrite write_over.
        rewrite (put_str_cstr _ _ p v).
        - rewrite some_bind. cbv beta iota. reflexivity.
        - apply cstr_write_disjoint; [rewrite length_app; simpl; lia|done].
        - apply owned_write. eapply owned_mono; [exact Ho|lia|lia].
        - done.
        - lia. }
      rewrite length_app in Hr. simpl in Hr.
      replace (d + (length u + S (length v))%nat) with (d + length u + 1 + length v) in Hr by lia.
      replace (i + 1) with (S i : Z) by lia.
      replace (write_bytes (write_bytes m d (u ++ [x])) (d + length u + 1) (v ++ [0]))
        with (write_bytes m d ((u ++ x :: v) ++ [0])); [exact Hr|].
      replace (d + length u + 1) with (d + length (u ++ [x])) by (rewrite length_app; simpl; lia).
      rewrite <- write_bytes_app. f_equal. rewrite <- !app_assoc. done. }
  destruct (H ptrs vals 2%nat n) as (j & Hj & Hr); try done.
  change (2%nat : Z) with 2 in Hr. rewrite (while_runs _ _ _ _ Hr) by lia.
  rewrite some_bind. cbv beta iota. rewrite st_owned.
  2: { apply (owned_write_at m d (length t + 2)); [done|lia]. }
  f_equal. replace (d + length t + 1) with (d + length (t ++ [0])) by (rewrite length_app; simpl; lia).
  change (u8 0) with 0. rewrite <- write_bytes_snoc. by rewrite <- app_assoc.
Qed.
End parts.

(** ** The environment in memory *)

Definition byte_area (m : mem) (a n : Z) : Prop :=
  ∀ i, 0 ≤ i < n → ∃ x, m !! (a + i) = Some x ∧ is_byte x.

(** [e] describes a block in RAM that holds the definitions [es]. *)
Record env_rep (e : env) (m : mem) (es : list entry) : Prop := EnvRep {
  er_valid : env_valid e ≠ 0;
  er_addr : env_addr e = env_ptr e + ENV_HEADER_SIZE;
  er_pos : 0 < env_ptr e;
  er_area : byte_area m (env_ptr e) CFG_ENV_SIZE;
  er_ok : Forall entry_ok es;
  er_text : bytes_at m (env_base e) (env_text es);
  er_len : length (flat es) + 1 ≤ ENV_SIZE;
  er_nodup : NoDup (names es)
}.

(** The stored checksum is that of the data. *)
Definition crc_ok (e : env) (m : mem) : Prop :=
  ∃ c, crc32 m 0 (env_base e) ENV_SIZE = Some c ∧ word_at m (env_ptr e) c.

(** The variables whose new value is mirrored nowhere. *)
Definition quiet_name (n : list Z) : Prop :=
  Forall (λ k, n ≠ k) [lit "ethaddr"; lit "ipaddr"; lit "loadaddr"; lit "bootfile"] ∧
  (is_prefix (lit "eth") n = true → (strtoul_l (drop 3 n) 10).2 ≠ lit "addr").

(** The variables [setenv] treats like any other. *)
Definition plain_name (n : list Z) : Prop :=
  Forall (λ k, n ≠ k) [lit "serial#"; lit "ethaddr"; lit "stdin"; lit "stdout";
    lit "stderr"; lit "baudrate"; lit "ipaddr"; lit "loadaddr"; lit "bootfile"] ∧
  (is_prefix (lit "eth") n = true → (strtoul_l (drop 3 n) 10).2 ≠ lit "addr").

Section state.
Implicit Types (e : env) (m : mem) (es : list entry) (n v k : list Z).

Lemma same_out_args lo hi m m' ptrs vals :
  same_out lo hi m m' → args_apart lo hi ptrs vals → args_at m ptrs vals →
  args_at m' ptrs vals.
Proof.
  intros Hs Hap Ha. unfold args_at, args_apart in *.
  induction Ha as [|p v ptrs vals (? & ? & ?) Ha IH]; [constructor|].
  apply Forall2_cons_1 in Hap as [? Hap]. constructor; [|by apply IH].
  split; [done|]. split; [|done]. by eapply same_out_cstr.
Qed.

Lemma byte_area_owned m a (n : Z) : byte_area m a n → owned m a n.
Proof. intros H i Hi. destruct (H i Hi) as (x & Hx & _). by exists x. Qed.

Lemma byte_area_mono m a (n : Z) a' (n' : Z) :
  byte_area m a n → a ≤ a' → a' + n' ≤ a + n → byte_area m a' n'.
Proof. intros H H1 H2 i Hi. replace (a' + i) with (a + (a' - a + i)) by lia. apply H. lia. Qed.

Lemma byte_area_write m a (n : Z) b l :
  byte_area m a n → Forall is_byte l → byte_area (write_bytes m b l) a n.
Proof.
  intros H Hl i Hi. rewrite write_bytes_lookup. case_decide; [|by apply H].
  destruct (lookup_lt_is_Some_2 l (Z.to_nat (a + i - b))) as [x Hx]; [lia|].
  exists x. split; [done|]. eapply Forall_lookup_1; [exact Hl|exact Hx].
Qed.

Lemma byte_area_list m a (n : nat) :
  byte_area m a n → ∃ l, length l = n ∧ bytes_at m a l ∧ Forall is_byte l.
Proof.
  revert a. induction n as [|n IH]; intros a H.
  - exists []. split; [done|]. split; [apply bytes_at_nil|constructor].
  - destruct (H 0) as (x & Hx & Hb); [lia|]. rewrite Z.add_0_r in Hx.
    destruct (IH (a + 1)) as (l & <- & Hl & Hbl).
    { eapply byte_area_mono; [exact H|lia|lia]. }
    exists (x :: l). split; [done|]. split; [by apply bytes_at_cons|by constructor].
Qed.

Lemma env_rep_base e m es : env_rep e m es → env_base e = env_ptr e + 4.
Proof.
  intros H. unfold env_base, env_get_addr. pose proof (er_valid _ _ _ H).
  rewrite (proj2 (Z.eqb_neq (env_valid e) 0)) by done. cbn [negb].
  rewrite (er_addr _ _ _ H). unfold ENV_HEADER_SIZE. lia.
Qed.

Lemma text_entries m a es : bytes_at m a (env_text es) → Forall entry_ok es → entries_at m a es.
Proof.
  intros H Hok. split; [|done]. destruct es as [|p es]; [|done].
  simpl in *. apply bytes_at_cons in H as [H _]. by apply bytes_at_singleton.
Qed.

Lemma env_rep_entries e m es : env_rep e m es → entries_at m (env_base e) es.
Proof. intros H. apply text_entries; [apply H|apply H]. Qed.

Lemma env_rep_write e m es es' b w :
  env_rep e m es → Forall is_byte w → env_base e ≤ b →
  b + length w ≤ env_base e + ENV_SIZE →
  Forall entry_ok es' → NoDup (names es') → length (flat es') + 1 ≤ ENV_SIZE →
  bytes_at (write_bytes m b w) (env_base e) (env_text es') →
  env_rep e (write_bytes m b w) es' ∧
  same_out (env_ptr e) (env_ptr e + CFG_ENV_SIZE) m (write_bytes m b w).
Proof.
  intros H Hw Hb Hlen Hok Hnd Hl Ht. pose proof (env_rep_base _ _ _ H) as Hbase.
  split.
  - destruct H. split; try done. by apply byte_area_write.
  - apply same_out_write; unfold ENV_SIZE, CFG_ENV_SIZE, ENV_HEADER_SIZE in *; lia.
Qed.

Lemma env_crc_update_spec e m es :
  env_rep e m es →
  ∃ m', env_crc_update e m = Some m' ∧ env_rep e m' es ∧ crc_ok e m' ∧
    same_out (env_ptr e) (env_ptr e + CFG_ENV_SIZE) m m'.
Proof.
  intros H. pose proof (env_rep_base _ _ _ H) as Hbase. pose proof (er_area _ _ _ H) as Ha.
  destruct (byte_area_list m (env_base e) (Z.to_nat ENV_SIZE)) as (l & Hl & Hbl & Hbb).
  { rewrite Hbase. eapply byte_area_mono; [exact Ha|lia|].
    rewrite Z2Nat.id by (unfold ENV_SIZE, CFG_ENV_SIZE, ENV_HEADER_SIZE; lia).
    unfold ENV_SIZE, CFG_ENV_SIZE, ENV_HEADER_SIZE. lia. }
  assert (Hlz : (length l : Z) = ENV_SIZE).
  { rewrite Hl, Z2Nat.id; unfold ENV_SIZE, CFG_ENV_SIZE, ENV_HEADER_SIZE; lia. }
  assert (Hf : fits l).
  { unfold fits. rewrite Hlz. unfold ENV_SIZE, CFG_ENV_SIZE, ENV_HEADER_SIZE. lia. }
  set (c := Z.lxor (foldl crc32_byte (Z.lxor 0 0xffffffff) l) 0xffffffff).
  assert (Hcrc : ∀ m, bytes_at m (env_base e) l → crc32 m 0 (env_base e) ENV_SIZE = Some c).
  { intros m0 Hm0. rewrite <- Hlz. by apply crc32_bytes. }
  set (w := [u8 (c / 16777216); u8 (c / 65536); u8 (c / 256); u8 c]).
  assert (Hw : Forall is_byte w) by (repeat constructor; apply u8_range).
  exists (write_bytes m (env_ptr e) w).
  assert (Hdis : ∀ k, bytes_at m (env_base e) k → bytes_at (write_bytes m (env_ptr e) w) (env_base e) k).
  { intros k. apply bytes_at_write_disjoint. right. simpl. lia. }
  split; [|split; [|split]].
  - unfold env_crc_update. unfold ENV_HEADER_SIZE. rewrite <- Hbase, Hcrc, some_bind by done.
    apply st32_bytes, byte_area_owned. eapply byte_area_mono; [exact Ha|lia|unfold CFG_ENV_SIZE; lia].
  - destruct H. split; try done; [by apply byte_area_write|by apply Hdis].
  - exists c. split; [by apply Hcrc, Hdis|]. apply write_bytes_in.
  - apply same_out_write; [lia|unfold CFG_ENV_SIZE; simpl; lia].
Qed.

(** *** The association list *)

Lemma remove_env_split n v pre post :
  (n ∉ names pre) → remove_env n (pre ++ (n, v) :: post) = pre ++ post.
Proof.
  intros Hn. induction pre as [|[n' v'] pre IH]; simpl in *.
  - by rewrite decide_True.
  - rewrite not_elem_of_cons in Hn. rewrite decide_False by tauto. f_equal. tauto.
Qed.

Lemma lookup_env_absent n es : lookup_env n es = None → n ∉ names es.
Proof.
  induction es as [|[n' v'] es IH]; cbn; [by intros _ ?%elem_of_nil|].
  rewrite not_elem_of_cons. case_decide; [done|]. intros Hl. split; [done|by apply IH].
Qed.

Lemma remove_env_absent n es : (n ∉ names es) → remove_env n es = es.
Proof.
  intros Hn. induction es as [|[n' v'] es IH]; simpl in *; [done|].
  rewrite not_elem_of_cons in Hn. rewrite decide_False by tauto. f_equal. tauto.
Qed.

Lemma remove_env_sublist n es : sublist (remove_env n es) es.
Proof.
  induction es as [|[n' v'] es IH]; simpl; [constructor|].
  case_decide; [by apply sublist_cons|by apply sublist_skip].
Qed.

Lemma length_flat_sublist es es' : sublist es es' → (length (flat es) ≤ length (flat es'))%nat.
Proof.
  induction 1; rewrite ?flat_cons, ?length_app; lia.
Qed.

Lemma remove_env_elem n es x : x ∈ names (remove_env n es) → x ∈ names es.
Proof.
  induction es as [|[n' v'] es IH]; simpl; [done|].
  rewrite elem_of_cons. case_decide; [by right|]. simpl. rewrite elem_of_cons. tauto.
Qed.

Lemma remove_env_names n es :
  NoDup (names es) → NoDup (names (remove_env n es)) ∧ (n ∉ names (remove_env n es)).
Proof.
  intros H. induction es as [|[n' v'] es IH]; simpl in *.
  - split; [constructor|apply not_elem_of_nil].
  - apply list.NoDup_cons in H as [H1 H2]. case_decide as E; [by subst|].
    destruct (IH H2) as [IH1 IH2]. simpl. rewrite list.NoDup_cons, not_elem_of_cons.
    split; [|done]. split; [|done]. intros Hin. by apply H1, (remove_env_elem n).
Qed.

Lemma lookup_remove n n' es :
  NoDup (names es) →
  lookup_env n' (remove_env n es) = if decide (n' = n) then None else lookup_env n' es.
Proof.
  intros H. induction es as [|[n1 v1] es IH]; simpl in *; [by case_decide|].
  apply list.NoDup_cons in H as [H1 H2]. specialize (IH H2).
  destruct (decide (n = n1)) as [<-|Hne].
  - destruct (decide (n' = n)) as [->|]; [|done].
    clear IH. induction es as [|[n2 v2] es IH]; simpl in *; [done|].
    rewrite not_elem_of_cons in H1. rewrite decide_False by tauto.
    apply list.NoDup_cons in H2 as [_ H2]. tauto.
  - simpl. destruct (decide (n' = n1)) as [->|]; [by rewrite decide_False by done|done].
Qed.

Lemma lookup_snoc n n' v es :
  lookup_env n' (es ++ [(n, v)]) =
  match lookup_env n' es with
  | Some v' => Some v'
  | None => if decide (n' = n) then Some v else None
  end.
Proof.
  induction es as [|[n1 v1] es IH]; simpl; [done|]. by destruct (decide (n' = n1)).
Qed.

Lemma remove_env_forall (P : entry → Prop) n es : Forall P es → Forall P (remove_env n es).
Proof.
  induction 1 as [|[n' v'] es Hp H IH]; simpl; [constructor|].
  case_decide; [done|by constructor].
Qed.

Lemma is_lit_cstr m s l k :
  cstr m s l → fits l → Forall is_char k → is_lit m s k = Some (bool_decide (l = k)).
Proof.
  intros Hl Hf Hk. unfold is_lit. rewrite (strcmp_lit_cstr m s l k), some_bind by done.
  by rewrite str_cmp_zero by (done || apply Hl).
Qed.
End state.

(** ** [setenv] on the association list *)

Section setenv.
Implicit Types (e : env) (m : mem) (b : board) (es : list entry) (n v k : list Z).

Ltac lits := vm_compute; repeat constructor; intros ?; discriminate.

Lemma lit_chars_eth : Forall is_char (lit "eth").
Proof. lits. Qed.

(** A name of the list is none of the special ones. *)
Ltac not_special Hp :=
  repeat match goal with
  | |- context [is_lit ?m ?s (lit ?k)] =>
      rewrite (is_lit_cstr m s _ (lit k)) by (done || lits);
      rewrite (bool_decide_eq_false_2 (_ = lit k))
        by (let E := fresh in intros E; rewrite E in Hp; vm_compute in Hp;
            destruct Hp as [Hp _]; rewrite ?List.Forall_cons_iff in Hp; tauto);
      rewrite ?some_bind; cbv beta iota
  end.

Lemma plain_quiet n : plain_name n → quiet_name n.
Proof.
  intros [H1 H2]. split; [|done].
  repeat (let A := fresh "A" in apply List.Forall_cons_iff in H1 as [A H1]). by repeat constructor.
Qed.

Lemma setenv_check_plain m b argc argv name n :
  argv !! 1%nat = Some name → cstr m name n → fits n → plain_name n →
  setenv_check m b argc argv = Some (b, None).
Proof.
  intros Hargv Hn Hf Hp. unfold setenv_check. rewrite Hargv, some_bind.
  not_special Hp. reflexivity.
Qed.

Lemma setenv_eth_plain m b argv name n :
  argv !! 1%nat = Some name → cstr m name n → fits n → quiet_name n →
  setenv_eth m b argv = Some b.
Proof.
  intros Hargv Hn Hf [_ Hp]. unfold setenv_eth. rewrite Hargv, some_bind.
  destruct (strncmp_lit_prefix m name n (lit "eth") 3 Hn lit_chars_eth) as (r & Hr & E);
    [done|lia|].
  change (3%nat : Z) with 3 in Hr. rewrite Hr, some_bind, E.
  destruct (is_prefix (lit "eth") n) eqn:Hpre; [|done]. specialize (Hp eq_refl).
  assert (Hlen : (3 ≤ length n)%nat).
  { apply is_prefix_spec, prefix_length in Hpre. exact Hpre. }
  assert (Hf3 : fits (drop 3 n)) by (unfold fits in *; rewrite length_drop; lia).
  pose proof (cstr_drop _ _ _ 3 Hn Hlen) as Hn3. change (3%nat : Z) with 3 in Hn3.
  rewrite (simple_strtoul_cstr _ _ _ 10 Hn3 Hf3), some_bind.
  destruct (strtoul_drop (drop 3 n) 10) as (j & Hj & Ej). cbv beta iota. rewrite Ej in Hp |- *.
  assert (Hend : cstr m (name + 3 + length (drop 3 n) - length (drop j (drop 3 n))) (drop j (drop 3 n))).
  { replace (name + 3 + length (drop 3 n) - length (drop j (drop 3 n))) with (name + 3 + j)
      by (rewrite (length_drop _ j); lia). by apply cstr_drop. }
  rewrite (is_lit_cstr m _ _ (lit "addr") Hend); [|unfold fits in *; rewrite length_drop; lia|by vm_compute; repeat constructor].
  by rewrite some_bind, bool_decide_eq_false_2.
Qed.

Lemma setenv_mirror_plain m b argv name n (v : Z) :
  argv !! 1%nat = Some name → argv !! 2%nat = Some v → cstr m name n → fits n → quiet_name n →
  setenv_mirror m b argv = Some (m, b).
Proof.
  intros Hargv Hv Hn Hf Hp. unfold setenv_mirror. rewrite Hargv, some_bind, Hv, some_bind.
  not_special Hp. done.
Qed.

(** Search and removal together: the variable is gone. *)
Lemma setenv_removed e m b es name n argc argv :
  env_rep e m es → argv !! 1%nat = Some name → cstr m name n → 61 ∉ n → fits n → (n ∈ names es → plain_name n) →
  ∃ x y old m1, setenv_search e m (env_base e) name = Some (x, y, old) ∧
    (if old >=? 0 then setenv_check m b argc argv else Some (b, None)) = Some (b, None) ∧
    (if old >=? 0 then setenv_delete m (env_base e) x y else Some m) = Some m1 ∧
    env_rep e m1 (remove_env n es) ∧
    same_out (env_ptr e) (env_ptr e + CFG_ENV_SIZE) m m1.
Proof.
  intros H Hargv Hn H61 Hf Hp. pose proof (env_rep_entries _ _ _ H) as Hes.
  pose proof (er_len _ _ _ H) as Hlen.
  assert (Hlen' : length (flat es) < CFG_ENV_SIZE).
  { unfold ENV_SIZE, CFG_ENV_SIZE, ENV_HEADER_SIZE in *. lia. }
  destruct (setenv_search_spec e m es name n Hes Hlen' Hn H61 Hf)
    as [(pre & v & post & old & -> & Hpre & Hold & Hs)|(Hnin & x & y & z & Hs & Hz)].
  - assert (Hfit : fits (flat (pre ++ (n, v) :: post))) by (unfold fits, CFG_ENV_SIZE in *; lia).
    destruct (setenv_delete_spec m (env_base e) pre (n, v) post Hes Hfit)
      as (b' & w & Hd & Hw & Hb' & Hbw & Ht).
    destruct (env_rep_write e m _ (pre ++ post) b' w H Hw Hb') as [Hrep Hout].
    + lia.
    + pose proof (er_ok _ _ _ H) as Hok. apply Forall_app in Hok as [H1 H2].
      apply Forall_cons_iff in H2 as [_ H2]. by apply Forall_app_2.
    + rewrite <- (remove_env_split n v) by done. apply remove_env_names, H.
    + rewrite <- (remove_env_split n v) by done.
      pose proof (length_flat_sublist _ _ (remove_env_sublist n (pre ++ (n, v) :: post))). lia.
    + done.
    + eexists _, _, old, _. split; [exact Hs|]. rewrite Z.geb_leb. zbool.
      split; [apply (setenv_check_plain m b argc argv name n); try done; apply Hp; rewrite map_app; set_solver|]. split; [exact Hd|].
      by rewrite remove_env_split.
  - eexists x, y, z, m. split; [exact Hs|]. rewrite Z.geb_leb. zbool.
    split; [done|]. split; [done|]. rewrite remove_env_absent by done.
    split; [done|apply same_out_refl].
Qed.

Lemma env_text_snoc es n v :
  env_text (es ++ [(n, v)]) = flat es ++ n ++ 61 :: v ++ [0; 0].
Proof.
  unfold env_text. destruct (es ++ [(n, v)]) as [|p l] eqn:E; [by destruct es|].
  rewrite <- E, flat_app. simpl. unfold enc, body. cbn [fst snd].
  rewrite app_nil_r, <- !app_assoc. done.
Qed.

(** What [setenv name vals...] leaves and returns. *)
Definition setenv_result (es : list entry) (n : list Z) (vals : list (list Z))
    : list entry * Z :=
  let es0 := remove_env n es in
  match vals with
  | [] => (es0, 0)
  | _ => if length (flat es0) + (length n + length (seps true vals) + 2) <=? ENV_SIZE
         then (es0 ++ [(n, join vals)], 0) else (es0, 1)
  end.

(** A definition written behind the others. *)
Lemma env_rep_append e m es n vals :
  env_rep e m es → Forall is_char n → 61 ∉ n → Forall (Forall is_char) vals → vals ≠ [] → n ∉ names es →
  length (flat es) + (length n + length (seps true vals) + 2) ≤ ENV_SIZE →
  let m' := write_bytes m (env_base e + length (flat es)) ((n ++ seps true vals) ++ [0; 0]) in
  env_rep e m' (es ++ [(n, join vals)]) ∧ same_out (env_ptr e) (env_ptr e + CFG_ENV_SIZE) m m'.
Proof.
  intros H Hnc H61 Hchars Hne Hnew Hfit m'. set (k := seps true vals) in *. set (t := n ++ k).
  pose proof (env_rep_base _ _ _ H) as Hbase.
  assert (Htl : length t = (length n + length k)%nat) by apply length_app.
  assert (Hr32 : ENV_SIZE = 65532) by done. assert (Hc64 : CFG_ENV_SIZE = 65536) by done.
  assert (Hk : k = 61 :: join vals) by (destruct vals; [done|apply seps_join]).
  assert (Hbyte : ∀ l, Forall is_char l → Forall is_byte l).
  { intros l Hl. eapply Forall_impl; [|exact Hl]. intros. by apply char_byte. }
  unfold m'. fold k t. apply (env_rep_write e m es); [done|..].
  - apply Forall_app_2; [|chars]. unfold t. rewrite Hk.
    apply Forall_app_2; [by apply Hbyte|]. constructor; [unfold is_byte; lia|]. by apply Hbyte, join_chars.
  - lia.
  - rewrite length_app, Htl. cbn [length]. lia.
  - apply Forall_app_2; [apply H|]. constructor; [|constructor].
    split; [done|]. split; [by apply join_chars|done].
  - rewrite map_app. apply list.NoDup_app. split; [apply H|]. split; [|apply NoDup_singleton].
    intros z Hz Hz'. apply list_elem_of_singleton in Hz' as ->. by apply Hnew.
  - rewrite flat_app, flat_cons, app_nil_r, length_app, length_enc, length_body.
    cbn [fst snd]. pose proof (f_equal length Hk) as Hkl. cbn [length] in Hkl. lia.
  - rewrite env_text_snoc. apply bytes_at_app.
    replace (n ++ 61 :: join vals ++ [0; 0]) with (t ++ [0; 0]) by (unfold t; rewrite Hk, <- app_assoc; done).
    split; [|apply write_bytes_in]. apply bytes_at_write_disjoint; [lia|].
    pose proof (env_rep_entries _ _ _ H) as [Hb0 _]. by apply bytes_at_app in Hb0 as [? _].
Qed.

Lemma do_setenv_general e m b es name n cmd ptrs vals :
  env_rep e m es → Forall is_char n → cstr m name n → 61 ∉ n → fits n → quiet_name n → (n ∈ names es → plain_name n) →
  args_at m ptrs vals → 2 + length ptrs < 4294967296 →
  (name + length n < env_ptr e ∨ env_ptr e + CFG_ENV_SIZE ≤ name) →
  args_apart (env_ptr e) (env_ptr e + CFG_ENV_SIZE) ptrs vals →
  let r := setenv_result es n vals in
  ∃ m', _do_setenv e m b (2 + length ptrs) (cmd :: name :: ptrs ++ [NULL]) = Some (m', b, r.2) ∧
    env_rep e m' r.1 ∧ (r.2 = 0 → crc_ok e m') ∧
    same_out (env_ptr e) (env_ptr e + CFG_ENV_SIZE) m m'.
Proof.
  intros H Hnc Hn H61 Hf Hq Hp Ha Hlt Hd Hap r. set (argv := cmd :: name :: ptrs ++ [NULL]).
  pose proof (env_rep_base _ _ _ H) as Hbase. pose proof (er_pos _ _ _ H) as Hpos.
  destruct (setenv_removed e m b es name n (2 + length ptrs) argv H)
    as (x & y & old & m1 & Hs & Hchk & Hdel & Hrep & Hout1); try done.
  assert (Hn1 := same_out_cstr _ _ _ _ _ _ Hout1 Hd Hn).
  assert (Ha1 := same_out_args _ _ _ _ _ _ Hout1 Hap Ha).
  unfold _do_setenv. change (env_get_addr e 0) with (env_base e).
  unfold NULL at 1. rewrite (proj2 (Z.eqb_neq (env_base e) 0)) by lia.
  change (argv !! 1%nat) with (Some name). rewrite some_bind, Hs, some_bind. cbv beta iota.
  rewrite Hchk, some_bind. cbv beta iota. rewrite Hdel, some_bind.
  rewrite (setenv_eth_plain m1 b argv name n) by done. rewrite some_bind.
  destruct Ha as [|p v ptrs vals (Hpn & Hv & Hfv) Ha].
  - (* deletion only *)
    change (2 + length (@nil Z) <? 3) with true. cbv iota. rewrite some_bind.
    change (NULL =? NULL) with true. cbv iota.
    destruct (env_crc_update_spec e m1 _ Hrep) as (m2 & -> & Hrep2 & Hcrc & Hout2).
    rewrite some_bind. exists m2. split; [done|]. split; [done|]. split; [done|].
    by eapply same_out_trans.
  - assert (Hge : (2 + length (p :: ptrs) <? 3) = false) by (simpl; zbool; done).
    rewrite Hge. cbv iota. change (argv !! 2%nat) with (Some p). rewrite some_bind.
    rewrite (proj2 (Z.eqb_neq p NULL)) by done.
    set (es0 := remove_env n es) in *.
    assert (Hl0 := er_len _ _ _ Hrep). unfold ENV_SIZE, CFG_ENV_SIZE, ENV_HEADER_SIZE in Hl0.
    rewrite (setenv_tail_spec m1 (env_base e) es0);
      [|apply Hrep|apply Hrep|unfold fits; lia].
    rewrite some_bind.
    rewrite (setenv_length_spec m1 name n argv 0 (p :: ptrs) (v :: vals)) by done.
    rewrite some_bind, Z.gtb_ltb. unfold r, setenv_result. fold es0.
    set (k := seps true (v :: vals)) in *.
    destruct (Z.leb_spec (length (flat es0) + (length n + length k + 2)) ENV_SIZE) as [Hfit|Hov].
    + zbool. set (t := n ++ k).
      assert (Htl : length t = (length n + length k)%nat) by apply length_app.
      set (d := env_base e + length (flat es0)).
      assert (Hr32 : ENV_SIZE = 65532) by done. assert (Hc64 : CFG_ENV_SIZE = 65536) by done.
      rewrite (setenv_append_spec m1 d name n argv (p :: ptrs) (v :: vals)); try done.
      2: { fold k. fold t. apply byte_area_owned.
           eapply byte_area_mono; [apply Hrep|unfold d; lia|unfold d; lia]. }
      2: { fold k. fold t. unfold d. lia. }
      2: { fold k. fold t. unfold args_apart in *. eapply Forall2_impl; [|exact Hap].
           intros q u Hqu. cbv beta in Hqu. unfold d. lia. }
      rewrite some_bind. fold k. fold t.
      assert (Hchars : Forall (Forall is_char) (v :: vals)).
      { constructor; [apply Hv|]. clear - Ha. induction Ha as [|? ? ? ? (? & [? _] & ?)]; by constructor. }
      destruct (env_rep_append e m1 es0 n (v :: vals) Hrep) as [Hrep2 Hout2];
        [done|done|done|done|by apply (remove_env_names n es), H|exact Hfit|].
      fold k t d in Hrep2, Hout2.
      destruct (env_crc_update_spec e _ _ Hrep2) as (m3 & -> & Hrep3 & Hcrc & Hout3).
      rewrite some_bind.
      assert (Hn3 : cstr m3 name n).
      { eapply same_out_cstr; [exact Hout3|done|].
        eapply same_out_cstr; [exact Hout2|done|done]. }
      rewrite (setenv_mirror_plain m3 b argv name n p) by done.
      rewrite some_bind. exists m3. split; [done|]. split; [exact Hrep3|]. split; [done|].
      eapply same_out_trans; [exact Hout1|]. by eapply same_out_trans.
    + rewrite (proj2 (Z.ltb_lt _ _)) by lia. exists m1. split; [done|]. split; [done|].
      split; [done|exact Hout1].
Qed.

Lemma do_setenv_plain e m b es name n cmd ptrs vals :
  env_rep e m es → Forall is_char n → cstr m name n → 61 ∉ n → fits n → plain_name n →
  args_at m ptrs vals → 2 + length ptrs < 4294967296 →
  (name + length n < env_ptr e ∨ env_ptr e + CFG_ENV_SIZE ≤ name) →
  args_apart (env_ptr e) (env_ptr e + CFG_ENV_SIZE) ptrs vals →
  let r := setenv_result es n vals in
  ∃ m', _do_setenv e m b (2 + length ptrs) (cmd :: name :: ptrs ++ [NULL]) = Some (m', b, r.2) ∧
    env_rep e m' r.1 ∧ (r.2 = 0 → crc_ok e m') ∧
    same_out (env_ptr e) (env_ptr e + CFG_ENV_SIZE) m m'.
Proof. intros. by apply do_setenv_general; try apply plain_quiet. Qed.
End setenv.

(** ** Relocation, copies and listings *)

Section more.
Implicit Types (e : env) (m : mem) (b : board) (es : list entry) (n v k : list Z).

Lemma env_relocate_spec e m p es :
  let d := flat es ++ [0; 0] in
  env_valid e = 0 → bytes_at m (default_environment e) d → Forall entry_ok es →
  NoDup (names es) → default_environment_size e = length d → length d ≤ ENV_SIZE →
  0 < p → owned m p CFG_ENV_SIZE →
  (default_environment e + length d ≤ p ∨ p + CFG_ENV_SIZE ≤ default_environment e) →
  ∃ m' e', env_relocate e m p = Some (m', e') ∧ env_ptr e' = p ∧ in_ram e' = true ∧
    env_rep e' m' es ∧ crc_ok e' m' ∧ same_out p (p + CFG_ENV_SIZE) m m'.
Proof.
  intros d Hv Hd Hok Hnd Hsz Hlen Hp Ho Hdis.
  assert (Hdl : (length d : Z) = length (flat es) + 2) by (unfold d; rewrite length_app; simpl; lia).
  assert (Hr32 : ENV_SIZE = 65532) by done. assert (Hc64 : CFG_ENV_SIZE = 65536) by done.
  unfold env_relocate. cbn [env_valid env_ptr default_environment default_environment_size in_ram].
  rewrite Hv, Z.eqb_refl, Hsz, Z.gtb_ltb. zbool.
  set (z := replicate (Z.to_nat CFG_ENV_SIZE) 0).
  assert (Hzl : (length z : Z) = CFG_ENV_SIZE) by (unfold z; rewrite length_replicate; lia).
  assert (Hms : memset m p 0 CFG_ENV_SIZE = Some (write_bytes m p z)).
  { rewrite <- Hzl. unfold z. rewrite length_replicate.
    apply (memset_bytes m p 0); [|lia]. by rewrite Z2Nat.id by lia. }
  assert (Hz0 : ∀ i : nat, i < CFG_ENV_SIZE → z !! i = Some 0).
  { intros i Hi. unfold z. apply lookup_replicate_2. lia. }
  clearbody z. rewrite Hms, some_bind. unfold ENV_HEADER_SIZE.
  assert (Hmc : memcpy (write_bytes m p z) (p + 4) (default_environment e) (length d) =
    Some (write_bytes (write_bytes m p z) (p + 4) d)).
  { apply memcpy_bytes.
    - unfold d. apply Forall_app_2; [by apply flat_bytes|chars].
    - apply bytes_at_write_disjoint; [lia|done].
    - apply owned_write. eapply owned_mono; [exact Ho|lia|lia].
    - unfold fits. lia.
    - lia. }
  rewrite Hmc, some_bind.
  set (m2 := write_bytes (write_bytes m p z) (p + 4) d).
  set (e1 := Env p (p + 4) 1 true (default_environment e) (length d)).
  assert (Hrep : env_rep e1 m2 es).
  { split; [done|done|exact Hp| |exact Hok| | |exact Hnd].
    - apply byte_area_write.
      + intros i Hi. exists 0. split; [|unfold is_byte; lia]. cbn [env_ptr e1] in *.
        rewrite write_bytes_lookup, decide_True by lia. apply Hz0. lia.
      + unfold d. apply Forall_app_2; [by apply flat_bytes|chars].
    - assert (Hb : bytes_at m2 (p + 4) d) by apply write_bytes_in.
      change (env_base e1) with (p + 4 + 0). rewrite Z.add_0_r.
      destruct es as [|q es]; [exact Hb|]. unfold env_text.
      unfold d in Hb. change [0; 0] with ([0] ++ [0]) in Hb. rewrite app_assoc in Hb.
      by apply bytes_at_app in Hb as [? _].
    - lia. }
  destruct (env_crc_update_spec e1 m2 es Hrep) as (m3 & Hcu & Hrep3 & Hcrc & Hout).
  assert (Hcu' : env_crc_update (Env p (env_addr e) 0 true (default_environment e)
    (length d)) m2 = Some m3) by exact Hcu.
  rewrite Hcu', some_bind. eexists m3, _. split; [reflexivity|].
  split; [done|]. split; [done|]. split; [exact Hrep3|]. split; [exact Hcrc|].
  apply (same_out_trans _ _ _ m2); [|exact Hout].
  apply (same_out_trans _ _ _ (write_bytes m p z)); apply same_out_write; lia.
Qed.

(** The copy loop of [getenv_r]. *)
Lemma getenv_r_copy e m buf i v (len : nat) :
  cstr m (env_base e + i) v → owned m buf len → fits v →
  (buf + len ≤ env_base e + i ∨ env_base e + i + length v < buf) →
  let k := take len (v ++ [0]) in
  while (λ '(m, buf, val, n),
    if len >? n then
      c ← env_get_char e m val; m ← st m buf c;
      Some (if negb (c =? 0) then Next (m, buf + 1, val + 1, n + 1)
            else Done (m, buf + 1, n + 1))
    else Some (Done (m, buf, n + 1))) (m, buf, i, 0) =
  Some (write_bytes m buf k, buf + length k,
        if decide (length v < len)%nat then length v + 1 else len + 1).
Proof.
  intros Hv Ho Hf Hd k. apply (while_within _ _ (S (length v + 1))); [unfold fits in Hf; lia|].
  clear Hf. subst k.
  assert (H : ∀ v m buf i (j : nat), cstr m (env_base e + i) v →
    owned m buf (len - j)%nat → (j ≤ len)%nat →
    (buf + (len - j)%nat ≤ env_base e + i ∨ env_base e + i + length v < buf) →
    ∃ r, (r ≤ S (length v + 1))%nat ∧ runs (λ '(m, buf, val, n),
      if len >? n then
        c ← env_get_char e m val; m ← st m buf c;
        Some (if negb (c =? 0) then Next (m, buf + 1, val + 1, n + 1)
              else Done (m, buf + 1, n + 1))
      else Some (Done (m, buf, n + 1))) (m, buf, i, j : Z) r
      (write_bytes m buf (take (len - j) (v ++ [0])),
       buf + length (take (len - j) (v ++ [0])),
       if decide (length v < len - j)%nat then j + length v + 1 else len + 1)).
  2: { destruct (H v m buf i 0%nat) as (r & Hr & Hrun); try done.
       - by rewrite Nat.sub_0_r.
       - lia.
       - rewrite Nat.sub_0_r. lia.
       - rewrite Nat.sub_0_r in Hrun. exists r. done. }
  clear. intros v. induction v as [|c v IH]; intros m buf i j Hv Ho Hj Hd;
    destruct (decide (j = len)) as [->|Hne].
  1,3: exists 1%nat; split; [lia|]; apply runs_done; cbv beta iota;
    rewrite Z.gtb_ltb, Nat.sub_diag; zbool; simpl; rewrite Z.add_0_r; done.
  - apply cstr_nil in Hv. assert (Hst : is_Some (m !! buf)).
    { apply (owned_at m buf (len - j)%nat); [done|lia]. }
    exists 1%nat. split; [lia|]. apply runs_done. cbv beta iota.
    rewrite Z.gtb_ltb. zbool. rewrite env_get_char_base. repeat c_step.
    destruct (len - j)%nat as [|d] eqn:E; [lia|].
    rewrite decide_True by (simpl; lia). simpl. rewrite firstn_nil. simpl. do 3 f_equal; lia.
  - apply cstr_cons in Hv as (Hc & Ha & Hv). assert (Hst : is_Some (m !! buf)).
    { apply (owned_at m buf (len - j)%nat); [done|lia]. }
    destruct (IH (<[buf := c]> m) (buf + 1) (i + 1) (S j)) as (r & Hr & Hrun).
    { rewrite Z.add_assoc. apply cstr_insert_out; [simpl in Hd; lia|done]. }
    { apply owned_insert. eapply owned_mono; [exact Ho|lia|lia]. }
    { lia. }
    { simpl in Hd. lia. }
    exists (S r). split; [simpl; lia|]. eapply runs_next.
    { cbv beta iota. rewrite Z.gtb_ltb. zbool. rewrite env_get_char_base. repeat c_step.
      rewrite u8_char by done. unfold is_char in Hc. zbool. reflexivity. }
    replace (len - j)%nat with (S (len - S j)) in * by lia. simpl take. simpl length in *.
    replace (j + 1) with (S j : Z) by lia. simpl write_bytes.
    replace (buf + S (length (take (len - S j) (v ++ [0]))))
      with (buf + 1 + length (take (len - S j) (v ++ [0]))) by lia.
    destruct (decide (length v < len - S j)%nat).
    + rewrite decide_True by lia. by replace (j + S (length v) + 1) with (S j + length v + 1) by lia.
    + by rewrite decide_False by lia.
Qed.
End more.

(** ** Theorems *)

(** C19: [getenv] is the lookup in the list of definitions, before and after
    the block is relocated: it answers the address of the value of the first
    definition of the name, and [NULL] when there is none. *)
Theorem getenv_lookup e m es name n :
  entries_at m (env_base e) es → length (flat es) < CFG_ENV_SIZE →
  cstr m name n → 61 ∉ n → fits n →
  ∃ p, getenv e m name = Some p ∧
    match lookup_env n es with
    | None => p = NULL
    | Some v => env_base e ≤ p < env_base e + length (flat es) ∧ cstr m p v
    end.
Proof. apply getenv_found. Qed.

(** A block with two definitions and the name [b], for the examples. *)
Definition two_vars : list entry := [([97], [49]); ([98], [50; 51])].

Lemma two_vars_ok : Forall entry_ok two_vars.
Proof.
  repeat (constructor; [split; [chars|split; [chars|]]; cbn [fst]; rewrite list_elem_of_singleton; lia|]).
  constructor.
Qed.

Lemma getenv_lookup_witness :
  let m := mem_of2 100 (flat two_vars ++ [0]) 200 [98; 0] in
  ∃ p, getenv (Env 0 0 0 false 100 9) m 200 = Some p ∧ 100 ≤ p < 100 + 9 ∧ cstr m p [50; 51].
Proof.
  apply (getenv_lookup (Env 0 0 0 false 100 9) (mem_of2 100 (flat two_vars ++ [0]) 200 [98; 0])
           two_vars 200 [98]).
  - split; [|apply two_vars_ok]. apply bytes_at_mem_of2. right. vm_compute. discriminate.
  - reflexivity.
  - split; [chars|apply write_bytes_in].
  - rewrite list_elem_of_singleton. lia.
  - unfold fits. simpl. lia.
Defined.

(** [getenv_r] copies the value with its NUL when the buffer is longer
    than that; when the value just fits it writes a second NUL, one byte
    behind the buffer; when the value is longer it fills the buffer without a
    NUL and answers [len + 1]. *)
Lemma getenv_r_copies e m es name n buf (len : nat) :
  entries_at m (env_base e) es → length (flat es) < CFG_ENV_SIZE →
  cstr m name n → 61 ∉ n → fits n → owned m buf (len + 1) →
  (buf + len + 1 ≤ env_base e ∨ env_base e + length (flat es) + 1 < buf) →
  ∃ k r, getenv_r e m name buf len = Some (write_bytes m buf k, r) ∧
    match lookup_env n es with
    | None => k = [] ∧ r = -1
    | Some v =>
        (length v + 1 < len → k = v ++ [0] ∧ r = length v + 1) ∧
        (length v + 1 = len → k = v ++ [0; 0] ∧ r = len) ∧
        (len < length v + 1 → k = take len v ∧ r = len + 1)
    end.
Proof.
  intros Hes Hlen Hn Hn61 Hf Ho Hd. unfold getenv_r.
  set (out := λ v : list Z, if decide (length v + 1 = len)%nat then v ++ [0; 0] else take len (v ++ [0])).
  set (ret := λ v : list Z, if decide (length v < len)%nat then length v + 1 else len + 1 : Z).
  match goal with |- context [while ?f 0] =>
    pose proof (env_search_loop e m es name n f (m, -1)
      (λ _, match lookup_env n es with
            | Some v => (write_bytes m buf (out v), ret v)
            | None => (m, -1) end) Hes Hlen Hn Hn61 Hf) as H
  end.
  lapply H; [clear H; intros H|intros i Hi; rewrite env_get_char_base; by repeat c_step].
  lapply H; [clear H; intros H|].
  2: { intros i c nxt val Hi Hc Hend Hm Hval. rewrite env_get_char_base. repeat c_step. zbool.
       rewrite Hend, some_bind, Hm, some_bind. by zbool. }
  lapply H; [clear H; intros H|].
  2: { intros i c nxt val v Hi Hc Hend Hm Hval Hcv Hvl Hlk. rewrite env_get_char_base.
       repeat c_step. zbool. rewrite Hend, some_bind, Hm, some_bind. zbool.
       rewrite (getenv_r_copy e m buf val v len); [|done| | |lia].
       2: { eapply owned_mono; [exact Ho|lia|lia]. }
       2: { unfold fits, CFG_ENV_SIZE in *. lia. }
       rewrite some_bind. cbv beta iota. rewrite Hlk. fold (ret v).
       assert (Hr : ((len : Z) =? ret v) = bool_decide (length v + 1 = len)%nat).
       { unfold ret. case_decide; case_bool_decide; zbool; done. }
       rewrite Hr. unfold out. case_bool_decide as E; [rewrite decide_True by done|by rewrite decide_False by done].
       assert (Hk : take len (v ++ [0]) = v ++ [0]).
       { apply take_ge. rewrite length_app. simpl. lia. }
       rewrite Hk, st_owned.
       2: { apply (owned_write_at m buf (len + 1)); [done|]. rewrite length_app. simpl. lia. }
       rewrite some_bind. change [0; 0] with ([0] ++ [0]). rewrite app_assoc, (write_bytes_snoc _ _ (v ++ [0])). done. }
  destruct (lookup_env n es) as [v|] eqn:Hlk.
  - destruct H as (val & -> & _ & _). eexists _, _. split; [reflexivity|]. unfold out, ret.
    split; [|split]; intros Hl; repeat case_decide; try lia.
    + split; [|lia]. apply take_ge. rewrite length_app. simpl. lia.
    + split; [done|lia].
    + split; [|done]. apply take_app_le. lia.
  - exists [], (-1). done.
Qed.

(** The example block at 4096 and the strings [s] at 200000. *)
Definition ex_mem (s : list Z) : mem :=
  write_bytes (write_bytes (mem_of 4096 (replicate (Z.to_nat 65536) 0)) 4100 (env_text two_vars)) 200000 s.
Definition ex_env : env := Env 4096 4100 1 true 0 0.
Definition ex_board : board := Board [] [] 115200 [] [] 0 0 0 [].

Lemma ex_rep s : Forall is_byte s → env_rep ex_env (ex_mem s) two_vars.
Proof.
  intros Hs. split; [discriminate|reflexivity|reflexivity| |apply two_vars_ok| | |].
  - apply byte_area_write; [|done]. apply byte_area_write; [|chars].
    intros i Hi. exists 0. split; [|unfold is_byte; lia]. cbn [env_ptr ex_env] in *.
    unfold mem_of. rewrite write_bytes_lookup. change CFG_ENV_SIZE with 65536 in Hi.
    rewrite decide_True by (rewrite length_replicate; lia).
    apply lookup_replicate_2. lia.
  - apply bytes_at_write_disjoint; [left; vm_compute; discriminate|].
    apply write_bytes_in.
  - vm_compute. discriminate.
  - repeat constructor; rewrite ?list_elem_of_singleton; [discriminate|apply not_elem_of_nil].
Qed.

(** C2: [setenv name value...] implements the update of the association list:
    the old definition of the name goes, the new one with the values joined by
    blanks is appended when it fits and the command returns 0 with the CRC
    brought up to date; without a value the variable is deleted; when the block
    is too small it is deleted as well and the command returns 1.  No byte
    outside the block changes. *)
Theorem do_setenv_refines e m b es name n cmd ptrs vals :
  env_rep e m es → Forall is_char n → cstr m name n → 61 ∉ n → fits n → plain_name n →
  args_at m ptrs vals → 2 + length ptrs < 4294967296 →
  (name + length n < env_ptr e ∨ env_ptr e + CFG_ENV_SIZE ≤ name) →
  args_apart (env_ptr e) (env_ptr e + CFG_ENV_SIZE) ptrs vals →
  let r := setenv_result es n vals in
  ∃ m', do_setenv e m b (2 + length ptrs) (cmd :: name :: ptrs ++ [NULL]) = Some (m', b, r.2) ∧
    env_rep e m' r.1 ∧ (r.2 = 0 → crc_ok e m') ∧
    same_out (env_ptr e) (env_ptr e + CFG_ENV_SIZE) m m'.
Proof.
  intros. unfold do_setenv. zbool. apply do_setenv_plain; assumption.
Qed.

Lemma do_setenv_refines_witness :
  let m := ex_mem [97; 0; 120; 0; 121; 121; 0] in
  ∃ m', do_setenv ex_env m ex_board 4 [1; 200000; 200002; 200004; NULL] = Some (m', ex_board, 0) ∧
    env_rep ex_env m' [([98], [50; 51]); ([97], [120; 32; 121; 121])] ∧
    (0 = 0 → crc_ok ex_env m') ∧ same_out 4096 (4096 + CFG_ENV_SIZE) m m'.
Proof.
  apply (do_setenv_refines ex_env (ex_mem [97; 0; 120; 0; 121; 121; 0]) ex_board two_vars
    200000 [97] 1 [200002; 200004] [[120]; [121; 121]]).
  - apply ex_rep. chars.
  - chars.
  - split; [chars|]. exact (bytes_at_take _ _ _ 2 (write_bytes_in _ 200000 [97; 0; 120; 0; 121; 121; 0])).
  - rewrite list_elem_of_singleton. lia.
  - unfold fits. simpl. lia.
  - split; [repeat constructor; discriminate|discriminate].
  - pose proof (write_bytes_in (write_bytes (mem_of 4096 (replicate (Z.to_nat 65536) 0)) 4100 (env_text two_vars))
      200000 [97; 0; 120; 0; 121; 121; 0]) as Hb.
    constructor; [|constructor; [|constructor]];
      (split; [unfold NULL; lia|split; [split; [chars|]|unfold fits; simpl; lia]]).
    + exact (bytes_at_take _ _ _ 2 (bytes_at_drop _ _ _ 2 Hb ltac:(simpl; lia))).
    + exact (bytes_at_drop _ _ _ 4 Hb ltac:(simpl; lia)).
  - simpl. lia.
  - right. vm_compute. discriminate.
  - constructor; [right; vm_compute; discriminate|].
    constructor; [right; vm_compute; discriminate|constructor].
Defined.

(** C3: after [setenv(name, value)] that fits, [getenv(name)] is the value,
    and every other variable looks up what it did before. *)
Theorem setenv_getenv e m b es cmd name n val v :
  env_rep e m es → Forall is_char n → cstr m name n → 61 ∉ n → fits n → plain_name n →
  val ≠ NULL → cstr m val v → fits v →
  (name + length n < env_ptr e ∨ env_ptr e + CFG_ENV_SIZE ≤ name) →
  (val + length v < env_ptr e ∨ env_ptr e + CFG_ENV_SIZE ≤ val) →
  length (flat es) + length n + length v + 3 ≤ ENV_SIZE →
  ∃ m', setenv e m b cmd name val = Some (m', b) ∧
    (∃ p, getenv e m' name = Some p ∧ cstr m' p v) ∧
    (∀ s k, cstr m s k → 61 ∉ k → fits k → k ≠ n →
       (s + length k < env_ptr e ∨ env_ptr e + CFG_ENV_SIZE ≤ s) →
       ∃ p p', getenv e m s = Some p ∧ getenv e m' s = Some p' ∧
         ((p = NULL ∧ p' = NULL) ∨ ∃ w, cstr m p w ∧ cstr m' p' w)).
Proof.
  intros H Hnc Hn H61 Hf Hp Hv0 Hv Hfv Hd1 Hd2 Hlen.
  destruct (do_setenv_plain e m b es name n cmd [val] [v]) as (m' & Hset & Hrep & _ & Hout);
    try done;
    [by (constructor; [|constructor])|by (constructor; [|constructor])|].
  assert (Hsub := length_flat_sublist _ _ (remove_env_sublist n es)).
  unfold setenv_result in *. simpl length in *. rewrite app_nil_r in *.
  rewrite (proj2 (Z.leb_le _ _)) in Hset, Hrep by lia. cbn [fst snd] in *.
  assert (Hlt : ∀ m es, env_rep e m es → length (flat es) < CFG_ENV_SIZE).
  { intros m0 es0 H0. pose proof (er_len _ _ _ H0).
    unfold ENV_SIZE, CFG_ENV_SIZE, ENV_HEADER_SIZE in *. lia. }
  exists m'. split.
  { unfold setenv. change ([cmd; name; val; NULL]) with (cmd :: name :: [val] ++ [NULL]).
    change (2 + 1%nat) with 3 in Hset. by rewrite Hset. }
  assert (Hnd := er_nodup _ _ _ H). split.
  - destruct (getenv_found e m' _ name n (env_rep_entries _ _ _ Hrep) (Hlt _ _ Hrep))
      as (p & Hg & Hp'); try done; [by eapply same_out_cstr|].
    rewrite lookup_snoc, lookup_remove, !decide_True in Hp' by done.
    exists p. split; [done|apply Hp'].
  - intros s k Hs Hk61 Hfk Hne Hd3.
    destruct (getenv_found e m _ s k (env_rep_entries _ _ _ H) (Hlt _ _ H)) as (p & Hg & Hp1); try done.
    destruct (getenv_found e m' _ s k (env_rep_entries _ _ _ Hrep) (Hlt _ _ Hrep))
      as (p' & Hg' & Hp2); try done; [by eapply same_out_cstr|].
    rewrite lookup_snoc, lookup_remove, !(decide_False (P := k = n)) in Hp2 by done.
    exists p, p'. split; [done|]. split; [done|].
    destruct (lookup_env k es) as [w|]; [right; exists w; tauto|by left].
Qed.

Lemma setenv_getenv_witness :
  let m := ex_mem [97; 0; 120; 121; 0; 98; 0] in
  ∃ m', setenv ex_env m ex_board 1 200000 200002 = Some (m', ex_board) ∧
    (∃ p, getenv ex_env m' 200000 = Some p ∧ cstr m' p [120; 121]) ∧
    (∀ s k, cstr m s k → 61 ∉ k → fits k → k ≠ [97] →
       (s + length k < 4096 ∨ 4096 + CFG_ENV_SIZE ≤ s) →
       ∃ p p', getenv ex_env m s = Some p ∧ getenv ex_env m' s = Some p' ∧
         ((p = NULL ∧ p' = NULL) ∨ ∃ w, cstr m p w ∧ cstr m' p' w)).
Proof.
  pose proof (write_bytes_in (write_bytes (mem_of 4096 (replicate (Z.to_nat 65536) 0)) 4100
    (env_text two_vars)) 200000 [97; 0; 120; 121; 0; 98; 0]) as Hb.
  apply (setenv_getenv ex_env (ex_mem [97; 0; 120; 121; 0; 98; 0]) ex_board two_vars
    1 200000 [97] 200002 [120; 121]).
  - apply ex_rep. chars.
  - chars.
  - split; [chars|]. exact (bytes_at_take _ _ _ 2 Hb).
  - rewrite list_elem_of_singleton. lia.
  - unfold fits. simpl. lia.
  - split; [repeat constructor; discriminate|discriminate].
  - discriminate.
  - split; [chars|]. exact (bytes_at_take _ _ _ 3 (bytes_at_drop _ _ _ 2 Hb ltac:(simpl; lia))).
  - unfold fits. simpl. lia.
  - right. vm_compute. discriminate.
  - right. vm_compute. discriminate.
  - vm_compute. discriminate.
Defined.

(** C38: [serial#] and [ethaddr] can be set only once: when the variable
    exists, [setenv] answers 1 and changes nothing, whatever the arguments. *)
Theorem setenv_write_once e m b es name n argc argv :
  env_rep e m es → argv !! 1%nat = Some name → cstr m name n → fits n →
  n = lit "serial#" ∨ n = lit "ethaddr" → lookup_env n es ≠ None →
  _do_setenv e m b argc argv = Some (m, b, 1).
Proof.
  intros H Hargv Hn Hf Hor Hex. pose proof (env_rep_base _ _ _ H) as Hbase.
  pose proof (er_pos _ _ _ H) as Hpos. pose proof (er_len _ _ _ H) as Hlen.
  assert (H61 : 61 ∉ n).
  { destruct Hor as [-> | ->]; (rewrite list_elem_of_In; vm_compute; intuition discriminate). }
  unfold _do_setenv. change (env_get_addr e 0) with (env_base e).
  rewrite (proj2 (Z.eqb_neq (env_base e) NULL)) by (unfold NULL; lia).
  rewrite Hargv, some_bind.
  destruct (setenv_search_spec e m es name n (env_rep_entries _ _ _ H)) as
    [(pre & v & post & old & -> & Hpre & Hold & Hs)|(Hnin & _)]; try done.
  { unfold ENV_SIZE, CFG_ENV_SIZE, ENV_HEADER_SIZE in *. lia. }
  2: { exfalso. apply Hex. clear -Hnin. induction es as [|[n' v'] es IH]; simpl in *; [done|].
       rewrite not_elem_of_cons in Hnin. rewrite decide_False by tauto. tauto. }
  rewrite Hs, some_bind. cbv beta iota. rewrite Z.geb_leb. zbool.
  assert (Hchk : setenv_check m b argc argv = Some (b, Some 1)).
  { unfold setenv_check. rewrite Hargv, some_bind.
    rewrite (is_lit_cstr m name n (lit "serial#")), some_bind by (done || (vm_compute; repeat constructor)).
    destruct Hor as [-> | ->]; [reflexivity|].
    rewrite (is_lit_cstr m name (lit "ethaddr") (lit "ethaddr")) by (done || (vm_compute; repeat constructor)).
    reflexivity. }
  rewrite Hchk. reflexivity.
Qed.

Definition serial_var : list entry := [(lit "serial#", [49])].

Lemma setenv_write_once_witness :
  let m := write_bytes (write_bytes (mem_of 4096 (replicate (Z.to_nat 65536) 0)) 4100
    (env_text serial_var)) 200000 (lit "serial#" ++ [0]) in
  _do_setenv ex_env m ex_board 3 [1; 200000; 200000; NULL] = Some (m, ex_board, 1).
Proof.
  apply (setenv_write_once ex_env _ ex_board serial_var 200000 (lit "serial#") 3).
  - split; [discriminate|reflexivity|reflexivity| | | | |].
    + apply byte_area_write; [|vm_compute; repeat constructor; discriminate].
      apply byte_area_write; [|vm_compute; repeat constructor; discriminate].
      intros i Hi. exists 0. split; [|unfold is_byte; lia]. cbn [env_ptr ex_env] in *.
      unfold mem_of. rewrite write_bytes_lookup. change CFG_ENV_SIZE with 65536 in Hi.
      rewrite decide_True by (rewrite length_replicate; lia).
      apply lookup_replicate_2. lia.
    + constructor; [|constructor]. split; [vm_compute; repeat constructor|].
      split; [chars|]. rewrite list_elem_of_In. vm_compute. intuition discriminate.
    + apply bytes_at_write_disjoint; [left; vm_compute; discriminate|]. apply write_bytes_in.
    + vm_compute. discriminate.
    + apply NoDup_singleton.
  - reflexivity.
  - split; [vm_compute; repeat constructor|apply write_bytes_in].
  - unfold fits. vm_compute. reflexivity.
  - by left.
  - discriminate.
Defined.

(** [setenv baudrate] without a value on an existing variable dereferences
    the null pointer [argv[2]]. *)
Lemma setenv_baudrate_null_fault e m b es name n cmd :
  env_rep e m es → n = lit "baudrate" → cstr m name n → lookup_env n es ≠ None →
  m !! NULL = None →
  _do_setenv e m b 2 [cmd; name; NULL] = None.
Proof.
  intros H -> Hn Hex Hnull. pose proof (env_rep_base _ _ _ H) as Hbase.
  pose proof (er_pos _ _ _ H) as Hpos. pose proof (er_len _ _ _ H) as Hlen.
  set (n := lit "baudrate") in *.
  assert (H61 : 61 ∉ n) by (rewrite list_elem_of_In; vm_compute; intuition discriminate).
  assert (Hf : fits n) by (unfold fits; vm_compute; reflexivity).
  unfold _do_setenv. change (env_get_addr e 0) with (env_base e).
  rewrite (proj2 (Z.eqb_neq (env_base e) NULL)) by (unfold NULL; lia).
  change ([cmd; name; NULL] !! 1%nat) with (Some name). rewrite some_bind.
  destruct (setenv_search_spec e m es name n (env_rep_entries _ _ _ H)) as
    [(pre & v & post & old & -> & Hpre & Hold & Hs)|(Hnin & _)]; try done.
  { unfold ENV_SIZE, CFG_ENV_SIZE, ENV_HEADER_SIZE in *. lia. }
  2: { exfalso. apply Hex. clear -Hnin. induction es as [|[n' v'] es IH]; simpl in *; [done|].
       rewrite not_elem_of_cons in Hnin. rewrite decide_False by tauto. tauto. }
  rewrite Hs, some_bind. cbv beta iota. rewrite Z.geb_leb. zbool.
  assert (Hchk : setenv_check m b 2 [cmd; name; NULL] = None).
  { unfold setenv_check. change ([cmd; name; NULL] !! 1%nat) with (Some name).
    rewrite some_bind. unfold n in Hn.
    repeat match goal with
    | |- context [is_lit m name (lit ?k)] =>
        rewrite (is_lit_cstr m name (lit "baudrate") (lit k))
          by (done || (vm_compute; repeat constructor))
    end.
    assert (Hs0 : simple_strtoul m NULL 10 = None).
    { unfold simple_strtoul, ld. by rewrite Hnull. }
    repeat match goal with
    | |- context [bool_decide (lit ?x = lit ?y)] =>
        let r := eval vm_compute in (bool_decide (lit x = lit y)) in
        change (bool_decide (lit x = lit y)) with r
    end.
    repeat (rewrite ?some_bind; cbv beta iota zeta; cbn [orb]).
    change ([cmd; name; NULL] !! 2%nat) with (Some NULL).
    change (negb (-1 =? -1)) with false. cbv iota. rewrite !some_bind. cbv beta iota.
    rewrite ?some_bind, Hs0. done. }
  by rewrite Hchk.
Qed.
