(* ===== verification/Eth.v ===== *)
(** * The device switch ([net/eth.c])

    The ring of Ethernet devices with its current one, and the variable
    [ethact], which names it.  The drivers are behind the interface
    [EthDriver]: a device is a position in the ring, which is the list of the
    devices in [next] order. *)

From S2P Require Import Prelude.
From S2P Require Import CString.
From S2P Require Import Vsprintf.
From S2P Require Import NetAddr.
From S2P Require Import Env.

(** ** State *)

(** The functions of [struct eth_device]; [recv] hands its frames on. *)
Class EthDriver (D : Type) := {
  drv_init : D → nat → D * bool;
  drv_halt : D → nat → D;
  drv_send : D → nat → list Z → D * Z;
  drv_recv : D → nat → D * Z
}.

Record ethsw (D : Type) := EthSw {
  ring : list eth_device;            (* from eth_devices on *)
  eth_current : option nat;
  first_failed : option nat;         (* static in eth_try_another *)
  restart_wrap : bool;               (* NetRestartWrap *)
  drivers : D
}.
Arguments EthSw {D}.
Arguments ring {D}.
Arguments eth_current {D}.
Arguments first_failed {D}.
Arguments restart_wrap {D}.
Arguments drivers {D}.

(** Addresses of the literals. *)
Record ethlits := EthLits {
  lit_ethact : Z;                    (* "ethact" *)
  lit_ethprime : Z;                  (* "ethprime" *)
  lit_setenv : Z;                    (* "setenv" *)
  lit_eth_addr : Z;                  (* "ethaddr" *)
  lit_eth_fmt : Z                    (* "eth%daddr" *)
}.

Section eth.
Context {D : Type} `{EthDriver D}.
Context (e : env) (lits : ethlits).
Implicit Types (sw : ethsw D) (m : mem) (b : board) (i : nat).

Definition set_ring (r : list eth_device) sw : ethsw D :=
  EthSw r (eth_current sw) (first_failed sw) (restart_wrap sw) (drivers sw).
Definition set_current (c : option nat) sw : ethsw D :=
  EthSw (ring sw) c (first_failed sw) (restart_wrap sw) (drivers sw).
Definition set_first_failed (c : option nat) sw : ethsw D :=
  EthSw (ring sw) (eth_current sw) c (restart_wrap sw) (drivers sw).
Definition set_restart_wrap (w : bool) sw : ethsw D :=
  EthSw (ring sw) (eth_current sw) (first_failed sw) w (drivers sw).
Definition set_drivers (d : D) sw : ethsw D :=
  EthSw (ring sw) (eth_current sw) (first_failed sw) (restart_wrap sw) d.

(** [dev->state = ETH_STATE_ACTIVE] or another state. *)
Definition set_state i (active : bool) sw : ethsw D :=
  match ring sw !! i with
  | Some dev => set_ring (<[i := EthDevice (dev_name dev) (enetaddr dev) active]> (ring sw)) sw
  | None => sw
  end.

(** [dev->next]. *)
Definition next_dev sw i : nat := if decide (S i < length (ring sw))%nat then S i else 0%nat.

(** ** Operations *)

Definition eth_get_dev_index sw : option Z :=
  match ring sw with
  | [] => Some (-1)
  | _ :: _ =>
      while (λ '(dev, num),
        if decide (eth_current sw = Some dev) then Some (Done num)
        else Some (Next (next_dev sw dev, s32 (num + 1)))) (0%nat, 0)
  end.

(** The update of [ethact], which [eth_register], [eth_initialize] and
    [eth_try_another] repeat. *)
Definition update_ethact m b (name : Z) : option (mem * board) :=
  act ← getenv e m (lit_ethact lits);
  differs ← (if act =? NULL then Some true
             else r ← strcmp m act name; Some (negb (r =? 0)));
  if differs : bool then setenv e m b (lit_setenv lits) (lit_ethact lits) name
  else Some (m, b).

Definition eth_register sw m b (dev : eth_device) : option (ethsw D * mem * board) :=
  '(m, b) ← (match ring sw with
             | [] => update_ethact m b (dev_name dev)
             | _ :: _ => Some (m, b)
             end);
  let sw := match ring sw with [] => set_current (Some 0%nat) sw | _ :: _ => sw end in
  Some (set_ring (ring sw ++ [EthDevice (dev_name dev) (enetaddr dev) false]) sw, m, b).

(** The round over the devices of [eth_initialize], after the drivers have
    registered them; the result is [eth_number]. [enetvar] is its buffer. *)
Definition eth_init_dev m (enetvar ethprime : Z) sw i : option (ethsw D * mem) :=
  dev ← ring sw !! i;
  prime ← (if ethprime =? NULL then Some false
           else r ← strcmp m (dev_name dev) ethprime; Some (r =? 0));
  let sw := if prime : bool then set_current (Some i) sw else sw in
  '(m, _) ← sprintf m enetvar (if decide (i = 0%nat) then lit_eth_addr lits else lit_eth_fmt lits)
              [i : Z];
  tmp ← getenv e m enetvar;
  _ ← read_enetaddr m tmp;
  Some (sw, m).

Fixpoint eth_init_devs m (enetvar ethprime : Z) sw i (n : nat) : option (ethsw D * mem) :=
  match n with
  | O => Some (sw, m)
  | S n => '(sw, m) ← eth_init_dev m enetvar ethprime sw i;
           eth_init_devs m enetvar ethprime sw (S i) n
  end.

Definition eth_initialize
    (ath_gmac_enet_initialize : ethsw D → mem → board → option (ethsw D * mem * board))
    sw m b (enetvar : Z) : option (ethsw D * mem * board * Z) :=
  let sw := set_current None (set_ring [] sw) in
  '(sw, m, b) ← ath_gmac_enet_initialize sw m b;
  match ring sw with
  | [] => Some (sw, m, b, 0)
  | _ :: _ =>
      ethprime ← getenv e m (lit_ethprime lits);
      '(sw, m) ← eth_init_devs m enetvar ethprime sw 0 (length (ring sw));
      '(m, b) ← (match eth_current sw with
                 | Some i => dev ← ring sw !! i; update_ethact m b (dev_name dev)
                 | None => setenv e m b (lit_setenv lits) (lit_ethact lits) NULL
                 end);
      Some (sw, m, b, length (ring sw) : Z)
  end.

Definition eth_try_another sw m b (first_restart : bool) : option (ethsw D * mem * board) :=
  match eth_current sw with
  | None => Some (sw, m, b)
  | Some i =>
      let sw := if first_restart then set_first_failed (Some i) sw else sw in
      let j := next_dev sw i in
      let sw := set_current (Some j) sw in
      dev ← ring sw !! j;
      '(m, b) ← update_ethact m b (dev_name dev);
      Some (if decide (first_failed sw = Some j) then set_restart_wrap true sw else sw, m, b)
  end.

(** One round of the loop of [eth_init] that began at [old]. *)
Definition eth_init_round (old : nat) : ethsw D * mem * board →
    option (ctl (ethsw D * mem * board) (ethsw D * mem * board * Z)) := λ '(sw, m, b),
  i ← eth_current sw;
  let '(d, up) := drv_init (drivers sw) i in
  let sw := set_drivers d sw in
  if up : bool then Some (Done (set_state i true sw, m, b, 1))
  else
    '(sw, m, b) ← eth_try_another sw m b false;
    Some (if decide (eth_current sw = Some old) then Done (sw, m, b, 0) else Next (sw, m, b)).

Definition eth_init sw m b : option (ethsw D * mem * board * Z) :=
  match eth_current sw with
  | None => Some (sw, m, b, 0)
  | Some old => while (eth_init_round old) (sw, m, b)
  end.

Definition eth_halt sw : ethsw D :=
  match eth_current sw with
  | None => sw
  | Some i => set_state i false (set_drivers (drv_halt (drivers sw) i) sw)
  end.

Definition eth_send sw (frame : list Z) : ethsw D * Z :=
  match eth_current sw with
  | None => (sw, -1)
  | Some i => let '(d, r) := drv_send (drivers sw) i frame in (set_drivers d sw, r)
  end.

Definition eth_rx sw : ethsw D * Z :=
  match eth_current sw with
  | None => (sw, -1)
  | Some i => let '(d, r) := drv_recv (drivers sw) i in (set_drivers d sw, r)
  end.

(** The search of [eth_set_current]: [Some true] for the name found. *)
Definition eth_find_round (old : nat) m (act : Z) : ethsw D → option (ctl (ethsw D) (ethsw D * bool)) :=
  λ sw,
  i ← eth_current sw;
  dev ← ring sw !! i;
  r ← strcmp m (dev_name dev) act;
  if r =? 0 then Some (Done (sw, true)) else
  let sw := set_current (Some (next_dev sw i)) sw in
  Some (if decide (eth_current sw = Some old) then Done (sw, false) else Next sw).

Definition eth_set_current sw m b : option (ethsw D * mem * board) :=
  match eth_current sw with
  | None => Some (sw, m, b)
  | Some old =>
      act ← getenv e m (lit_ethact lits);
      '(sw, found) ← (if act =? NULL then Some (sw, false)
                      else while (eth_find_round old m act) sw);
      if found : bool then Some (sw, m, b) else
      i ← eth_current sw;
      dev ← ring sw !! i;
      '(m, b) ← setenv e m b (lit_setenv lits) (lit_ethact lits) (dev_name dev);
      Some (sw, m, b)
  end.

(** [unknown] is the address of the literal ["unknown"]. *)
Definition eth_get_name sw (unknown : Z) : option Z :=
  match eth_current sw with
  | None => Some unknown
  | Some i => dev ← ring sw !! i; Some (dev_name dev)
  end.
End eth.

(** ** The devices in the order of a round *)

(** Tried in order, the first that comes up. *)
Fixpoint first_up {D} `{EthDriver D} (d : D) (order : list nat) : D * option nat :=
  match order with
  | [] => (d, None)
  | i :: order =>
      let '(d, up) := drv_init d i in if up : bool then (d, Some i) else first_up d order
  end.

(** The first position of a name, in order. *)
Fixpoint first_named (dev_names : list (list Z)) (v : list Z) (order : list nat) : option nat :=
  match order with
  | [] => None
  | i :: order =>
      if decide (dev_names !! i = Some v) then Some i else first_named dev_names v order
  end.

(** From position [i] of [n] once around. *)
Definition dev_order (n i : nat) : list nat := seq i (n - i) ++ seq 0 i.

(** What is left of the round that began at [old], from [i] on. *)
Definition order_from (n old i : nat) : list nat :=
  if decide (old ≤ i)%nat then seq i (n - i) ++ seq 0 old else seq i (old - i).

Lemma order_from_step n old i :
  (i < n)%nat → (old < n)%nat →
  let j := if decide (S i < n)%nat then S i else 0%nat in
  order_from n old i = i :: (if decide (j = old) then [] else order_from n old j).
Proof.
  intros Hi Ho j. unfold order_from, j.
  destruct (decide (S i < n)%nat) as [Hn|Hn].
  - destruct (decide (old ≤ i)%nat) as [H1|H1].
    + rewrite (decide_False (P := S i = old)) by lia. rewrite (decide_True (P := (old ≤ S i)%nat)) by lia.
      replace (n - i)%nat with (S (n - S i)) by lia. done.
    + replace (old - i)%nat with (S (old - S i)) by lia. cbn [seq].
      destruct (decide (S i = old)) as [E|E]; [by replace (old - S i)%nat with 0%nat by lia|].
      by rewrite decide_False by lia.
  - destruct (decide (old ≤ i)%nat) as [H1|H1]; [|lia].
    replace (n - i)%nat with 1%nat by lia. cbn [seq app]. f_equal.
    destruct (decide (0%nat = old)) as [<-|E]; [done|].
    rewrite decide_False by lia. by rewrite Nat.sub_0_r.
Qed.

Lemma order_from_whole n old : order_from n old old = dev_order n old.
Proof. unfold order_from, dev_order. by rewrite decide_True. Qed.

Lemma order_from_length n old i : (length (order_from n old i) ≤ n + old)%nat.
Proof. unfold order_from. case_decide; rewrite ?length_app, !length_seq; lia. Qed.

(** ** The variable [ethact] *)

Definition ethact : list Z := lit "ethact".

Lemma ethact_plain : plain_name ethact.
Proof. split; [repeat constructor; discriminate|intros _; vm_compute; discriminate]. Qed.

(** A string outside the environment. *)
Definition text_at (e : env) (m : mem) (p : Z) (l : list Z) : Prop :=
  p ≠ NULL ∧ cstr m p l ∧ fits l ∧ (p + length l < env_ptr e ∨ env_ptr e + CFG_ENV_SIZE ≤ p).

(** The variables but [ethact]. *)
Definition others (es : list entry) : list entry := remove_env ethact es.

(** [ethact] made [l]. *)
Definition act_set (es : list entry) (l : list Z) : list entry :=
  if decide (lookup_env ethact es = Some l) then es else others es ++ [(ethact, l)].

Section props.
Context {D : Type} `{EthDriver D}.
Context (e : env) (lits : ethlits).
Implicit Types (sw : ethsw D) (m : mem) (b : board) (i : nat) (es : list entry).
Implicit Types (dev_names : list (list Z)).

(** The environment, and the names of the devices, with room for each of them
    as the value of [ethact]. *)
Record eth_ok sw m es dev_names : Prop := EthOk {
  eo_env : env_rep e m es;
  eo_act : text_at e m (lit_ethact lits) ethact;
  eo_names : Forall2 (λ dev l, text_at e m (dev_name dev) l) (ring sw) dev_names;
  eo_room : Forall (λ l, length (flat (others es)) + length l + 9 ≤ ENV_SIZE) dev_names
}.

(** [ethact] names the current device. *)
Definition act_current sw es dev_names : Prop :=
  ∃ i l, eth_current sw = Some i ∧ dev_names !! i = Some l ∧ lookup_env ethact es = Some l.

Lemma text_at_out m m' p l :
  same_out (env_ptr e) (env_ptr e + CFG_ENV_SIZE) m m' → text_at e m p l → text_at e m' p l.
Proof. intros Ho (H1 & H2 & H3 & H4). do 3 (split; [done||by eapply same_out_cstr|]). done. Qed.

Lemma env_short m es : env_rep e m es → length (flat es) < CFG_ENV_SIZE.
Proof.
  intros Hr. pose proof (er_len _ _ _ Hr). unfold ENV_SIZE, CFG_ENV_SIZE, ENV_HEADER_SIZE in *. lia.
Qed.

Lemma others_act_set es l : NoDup (names es) → others (act_set es l) = others es.
Proof.
  intros Hn. unfold act_set. case_decide; [done|]. unfold others at 1.
  destruct (remove_env_names ethact es Hn) as [_ Ha].
  rewrite (remove_env_split ethact l (others es) []) by done. apply app_nil_r.
Qed.

Lemma lookup_act_set es l : NoDup (names es) → lookup_env ethact (act_set es l) = Some l.
Proof.
  intros Hn. unfold act_set. case_decide; [done|].
  unfold others. rewrite lookup_snoc, lookup_remove, !decide_True by done. done.
Qed.

Lemma setenv_act m b es p l :
  env_rep e m es → text_at e m (lit_ethact lits) ethact → text_at e m p l →
  length (flat (others es)) + length l + 9 ≤ ENV_SIZE →
  ∃ m', setenv e m b (lit_setenv lits) (lit_ethact lits) p = Some (m', b) ∧
    env_rep e m' (others es ++ [(ethact, l)]) ∧
    same_out (env_ptr e) (env_ptr e + CFG_ENV_SIZE) m m'.
Proof.
  intros Hr (A1 & A2 & A3 & A4) (L1 & L2 & L3 & L4) Hroom.
  destruct (do_setenv_plain e m b es (lit_ethact lits) ethact (lit_setenv lits) [p] [l])
    as (m' & Hset & Hrep & _ & Hout); try done.
  - vm_compute. repeat constructor; discriminate.
  - vm_compute. intros Hin. repeat (apply elem_of_cons in Hin as [Hin|Hin]; [discriminate|]).
    by apply not_elem_of_nil in Hin.
  - apply ethact_plain.
  - by constructor; [|constructor].
  - by constructor; [|constructor].
  - exists m'. unfold setenv_result in *. fold (others es) in *.
    assert (Hle : length (flat (others es)) + (length ethact + length (seps true [l]) + 2) <=? ENV_SIZE = true).
    { apply Z.leb_le. cbn [seps]. rewrite app_nil_r. change (length ethact) with 6%nat. cbn [length]. lia. }
    rewrite Hle in Hset, Hrep. split; [|done]. unfold setenv.
    change ([lit_setenv lits; lit_ethact lits; p; NULL])
      with (lit_setenv lits :: lit_ethact lits :: [p] ++ [NULL]).
    change (2 + length [p]) with 3 in Hset. by rewrite Hset.
Qed.

Lemma getenv_act m es :
  env_rep e m es → text_at e m (lit_ethact lits) ethact →
  ∃ act, getenv e m (lit_ethact lits) = Some act ∧
    match lookup_env ethact es with None => act = NULL | Some v => act ≠ NULL ∧ cstr m act v ∧ fits v end.
Proof.
  intros Hr (A1 & A2 & A3 & A4).
  destruct (getenv_place e m es (lit_ethact lits) ethact (env_rep_entries _ _ _ Hr) (env_short _ _ Hr))
    as (act & Hg & Hl); [done| |done|].
  - vm_compute. intros Hin. repeat (apply elem_of_cons in Hin as [Hin|Hin]; [discriminate|]).
    by apply not_elem_of_nil in Hin.
  - exists act. split; [done|]. destruct (lookup_env ethact es); [|done].
    pose proof (er_pos _ _ _ Hr). pose proof (env_rep_base _ _ _ Hr). unfold NULL, fits.
    pose proof (env_short _ _ Hr). unfold CFG_ENV_SIZE in *. split; [lia|]. split; [tauto|lia].
Qed.

Lemma update_ethact_spec m b es p l :
  env_rep e m es → text_at e m (lit_ethact lits) ethact → text_at e m p l →
  length (flat (others es)) + length l + 9 ≤ ENV_SIZE →
  ∃ m', update_ethact e lits m b p = Some (m', b) ∧ env_rep e m' (act_set es l) ∧
    same_out (env_ptr e) (env_ptr e + CFG_ENV_SIZE) m m'.
Proof.
  intros Hr Ha Hp Hroom. destruct (getenv_act m es Hr Ha) as (act & Hg & Hl).
  destruct (setenv_act m b es p l Hr Ha Hp Hroom) as (m' & Hset & Hrep & Hout).
  unfold update_ethact, act_set. rewrite Hg, some_bind.
  destruct (lookup_env ethact es) as [v|] eqn:El.
  - destruct Hl as (Hn & Hv & Hfv). unfold NULL in *. rewrite (proj2 (Z.eqb_neq act 0)) by done.
    destruct Hp as (P1 & P2 & P3 & P4).
    rewrite (strcmp_cstr m act v p l) by done. rewrite !some_bind.
    rewrite str_cmp_zero by (apply Hv || apply P2).
    destruct (decide (Some v = Some l)) as [[= ->]|Hne].
    + rewrite bool_decide_eq_true_2 by done. by exists m.
    + rewrite bool_decide_eq_false_2 by congruence. by exists m'.
  - rewrite (proj2 (Z.eqb_eq act NULL)) by done. rewrite some_bind. by exists m'.
Qed.

(** ** Moving on *)

Lemma ok_current sw m es dev_names c : eth_ok sw m es dev_names → eth_ok (set_current c sw) m es dev_names.
Proof. by intros [? ? ? ?]. Qed.

Lemma ok_drivers sw m es dev_names d : eth_ok sw m es dev_names → eth_ok (set_drivers d sw) m es dev_names.
Proof. by intros [? ? ? ?]. Qed.

Lemma ok_wrap sw m es dev_names w : eth_ok sw m es dev_names → eth_ok (set_restart_wrap w sw) m es dev_names.
Proof. by intros [? ? ? ?]. Qed.

(** The environment with [ethact] changed. *)
Lemma ok_act sw m m' es dev_names l :
  eth_ok sw m es dev_names → env_rep e m' (act_set es l) →
  same_out (env_ptr e) (env_ptr e + CFG_ENV_SIZE) m m' → eth_ok sw m' (act_set es l) dev_names.
Proof.
  intros [H1 H2 H3 H4] Hr Ho. split; [done|by eapply text_at_out| |].
  - eapply Forall2_impl; [|exact H3]. intros dev k. by apply text_at_out.
  - rewrite others_act_set by apply H1. done.
Qed.

Lemma ok_dev sw m es dev_names i :
  eth_ok sw m es dev_names → (i < length (ring sw))%nat →
  ∃ dev l, ring sw !! i = Some dev ∧ dev_names !! i = Some l ∧ text_at e m (dev_name dev) l ∧
    length (flat (others es)) + length l + 9 ≤ ENV_SIZE.
Proof.
  intros [_ _ Hn Hr] Hi. apply lookup_lt_is_Some in Hi as [dev Hd].
  destruct (Forall2_lookup_l _ _ _ _ _ Hn Hd) as (l & Hl & Ht). exists dev, l.
  do 3 (split; [done|]). by eapply Forall_lookup in Hr; [|exact Hl].
Qed.

Lemma next_dev_lt sw i : (0 < length (ring sw))%nat → (next_dev sw i < length (ring sw))%nat.
Proof. unfold next_dev. case_decide; lia. Qed.

(** The next device becomes the current one, and [ethact] its name. *)
Lemma eth_try_another_spec sw m b es dev_names i first :
  eth_ok sw m es dev_names → eth_current sw = Some i → (0 < length (ring sw))%nat →
  ∃ sw' m' l, eth_try_another e lits sw m b first = Some (sw', m', b) ∧
    eth_current sw' = Some (next_dev sw i) ∧ ring sw' = ring sw ∧ drivers sw' = drivers sw ∧
    dev_names !! next_dev sw i = Some l ∧ eth_ok sw' m' (act_set es l) dev_names ∧
    same_out (env_ptr e) (env_ptr e + CFG_ENV_SIZE) m m'.
Proof.
  intros Hok Hc Hlen. unfold eth_try_another. rewrite Hc.
  set (sw1 := if first then _ else sw).
  assert (E1 : ring sw1 = ring sw ∧ drivers sw1 = drivers sw) by (unfold sw1; by destruct first).
  destruct E1 as [Er Ed]. assert (En : next_dev sw1 i = next_dev sw i) by (unfold next_dev; by rewrite Er).
  rewrite En. cbn [ring set_current]. rewrite Er.
  destruct (ok_dev sw m es dev_names (next_dev sw i) Hok) as (dev & l & Hd & Hl & Ht & Hroom);
    [by apply next_dev_lt|].
  rewrite Hd, some_bind.
  destruct (update_ethact_spec m b es (dev_name dev) l) as (m' & -> & Hr' & Ho);
    [apply Hok|apply Hok|done|done|].
  rewrite some_bind. do 3 eexists. split; [reflexivity|].
  assert (Hok' : eth_ok sw1 m es dev_names) by (destruct Hok; split; rewrite ?Er; done).
  pose proof (ok_act _ _ _ _ _ _ Hok' Hr' Ho) as Hok2.
  case_decide; (split; [done|]); (split; [done|]); (split; [done|]); (split; [done|]);
    (split; [|done]); by apply ok_current || (apply ok_wrap; by apply ok_current).
Qed.

Lemma names_nodup sw m es dev_names : eth_ok sw m es dev_names → NoDup (names es).
Proof. intros [Hr _ _ _]. apply Hr. Qed.

(** The whole round of [eth_init]. *)
Lemma eth_init_round_spec sw m b es dev_names old :
  eth_ok sw m es dev_names → eth_current sw = Some old → (old < length (ring sw))%nat →
  length (ring sw) < 4294967296 →
  let r := first_up (drivers sw) (dev_order (length (ring sw)) old) in
  ∃ sw' m' es', eth_init e lits sw m b =
      Some (sw', m', b, match r.2 with Some _ => 1 | None => 0 end) ∧
    drivers sw' = r.1 ∧ eth_current sw' = Some (default old r.2) ∧
    ring sw' = (match r.2 with Some j => ring (set_state j true sw) | None => ring sw end) ∧
    env_rep e m' es' ∧ others es' = others es ∧
    (act_current sw es dev_names → act_current sw' es' dev_names).
Proof.
  intros Hok Hc Hi Hlen r. unfold eth_init. rewrite Hc. set (n := length (ring sw)) in *.
  destruct (while_rule (eth_init_round e lits old)
    (λ '(sw1, m1, b1), b1 = b ∧ ∃ i es1, eth_current sw1 = Some i ∧ (i < n)%nat ∧
      ring sw1 = ring sw ∧ first_up (drivers sw1) (order_from n old i) = r ∧
      eth_ok sw1 m1 es1 dev_names ∧ others es1 = others es ∧
      (act_current sw es dev_names → act_current sw1 es1 dev_names))
    (λ '(sw1, m1, b1), length (order_from n old (default 0%nat (eth_current sw1))))
    (λ '(sw', m', b', rc), b' = b ∧ rc = (match r.2 with Some _ => 1 | None => 0 end) ∧ ∃ es',
      drivers sw' = r.1 ∧ eth_current sw' = Some (default old r.2) ∧
      ring sw' = (match r.2 with Some j => ring (set_state j true sw) | None => ring sw end) ∧
      env_rep e m' es' ∧ others es' = others es ∧
      (act_current sw es dev_names → act_current sw' es' dev_names))
    (sw, m, b)) as ([[[sw' m'] b'] rc] & E & -> & -> & es' & Hq).
  - intros [[sw1 m1] b1] (-> & i & es1 & Hc1 & Hi1 & Hr1 & Hf1 & Hok1 & Ho1 & Ha1).
    unfold eth_init_round. rewrite Hc1, some_bind.
    pose proof (order_from_step n old i Hi1 Hi) as Ho. cbv zeta in Ho.
    rewrite Ho in Hf1. cbn [first_up] in Hf1. destruct (drv_init (drivers sw1) i) as [d up].
    destruct up.
    + eexists. split; [reflexivity|]. cbv beta iota. split; [done|]. rewrite <- Hf1. split; [done|].
      exists es1. assert (Es : ring (set_state i true (set_drivers d sw1)) = ring (set_state i true sw)).
      { unfold set_state. cbn [ring set_drivers]. rewrite Hr1. by destruct (ring sw !! i). }
      split; [|split; [|split; [exact Es|split; [apply Hok1|split; [done|]]]]].
      * unfold set_state. by destruct (_ !! i).
      * unfold set_state. by destruct (_ !! i).
      * intros Ha. destruct (Ha1 Ha) as (i' & l & A1 & A2 & A3). exists i', l. split; [|done].
        unfold set_state. by destruct (_ !! i).
    + destruct (eth_try_another_spec (set_drivers d sw1) m1 b es1 dev_names i false)
        as (sw2 & m2 & l & -> & Hc2 & Hr2 & Hd2 & Hl2 & Hok2 & Hout2); [by apply ok_drivers|done| |].
      { cbn [ring set_drivers]. rewrite Hr1. fold n. lia. }
      rewrite some_bind, Hc2. cbn [ring set_drivers] in Hr2.
      assert (En : next_dev (set_drivers d sw1) i = if decide (S i < n)%nat then S i else 0%nat)
        by (unfold next_dev; cbn [ring set_drivers]; by rewrite Hr1).
      assert (Ho2 : others (act_set es1 l) = others es)
        by (by rewrite others_act_set by (by eapply names_nodup)).
      assert (Ha2 : act_current sw2 (act_set es1 l) dev_names).
      { exists (next_dev (set_drivers d sw1) i), l. split; [done|]. split; [done|].
        apply lookup_act_set. by eapply names_nodup. }
      eexists. split; [reflexivity|].
      destruct (decide (Some (next_dev (set_drivers d sw1) i) = Some old)) as [[= Eo]|Eo].
      * rewrite En in Eo. rewrite (decide_True _ _ Eo) in Hf1. cbn [first_up] in Hf1.
        split; [done|]. rewrite <- Hf1. split; [done|]. exists (act_set es1 l).
        rewrite Hd2, Hc2, Hr2, Hr1, En, Eo. split; [done|]. split; [done|]. split; [done|].
        split; [apply Hok2|done].
      * rewrite En in Eo. rewrite decide_False in Hf1, Ho by congruence. split.
        -- split; [done|]. exists (next_dev (set_drivers d sw1) i), (act_set es1 l).
           split; [done|]. split; [rewrite En; case_decide; lia|]. split; [congruence|].
           split; [|done]. rewrite Hd2, En. exact Hf1.
        -- rewrite Hc2. cbn [from_option id]. rewrite En, Ho. cbn [length]. lia.
  - split; [done|]. exists old, es. rewrite order_from_whole. done.
  - rewrite Hc. cbn [from_option id]. pose proof (order_from_length n old old). lia.
  - exists sw', m', es'. rewrite E. done.
Qed.

(** The search for the device [ethact] names. *)
Lemma eth_find_spec sw m es dev_names old act v :
  eth_ok sw m es dev_names → eth_current sw = Some old → (old < length (ring sw))%nat →
  length (ring sw) < 4294967296 → cstr m act v →
  let r := first_named dev_names v (dev_order (length (ring sw)) old) in
  while (eth_find_round old m act) sw =
    Some (set_current (Some (default old r)) sw, match r with Some _ => true | None => false end).
Proof.
  intros Hok Hc Hi Hlen Hv r. set (n := length (ring sw)) in *.
  destruct (while_rule (eth_find_round old m act)
    (λ sw1, ∃ i, sw1 = set_current (Some i) sw ∧ (i < n)%nat ∧
      first_named dev_names v (order_from n old i) = r)
    (λ sw1, length (order_from n old (default 0%nat (eth_current sw1))))
    (λ q, q = (set_current (Some (default old r)) sw, match r with Some _ => true | None => false end))
    sw) as (q & E & ->); [| | |done].
  - intros sw1 (i & -> & Hi1 & Hf). unfold eth_find_round.
    cbn [eth_current set_current ring]. rewrite some_bind.
    destruct (ok_dev sw m es dev_names i Hok Hi1) as (dev & l & Hd & Hl & (T1 & T2 & T3 & T4) & _).
    rewrite Hd, some_bind, (strcmp_cstr m _ l act v) by done. rewrite some_bind.
    rewrite str_cmp_zero by (apply T2 || apply Hv).
    pose proof (order_from_step n old i Hi1 Hi) as Ho. cbv zeta in Ho.
    rewrite Ho in Hf. cbn [first_named] in Hf. rewrite Hl in Hf.
    destruct (decide (l = v)) as [->|Hne].
    + rewrite bool_decide_eq_true_2 by done. rewrite decide_True in Hf by done.
      eexists. split; [reflexivity|]. cbv beta iota. by rewrite <- Hf.
    + rewrite bool_decide_eq_false_2 by done. rewrite decide_False in Hf by congruence.
      eexists. split; [reflexivity|].
      assert (En : next_dev (set_current (Some i) sw) i = if decide (S i < n)%nat then S i else 0%nat) by done.
      rewrite En. clear En. set (j := if decide (S i < n)%nat then S i else 0%nat) in *.
      destruct (decide (Some j = Some old)) as [[= Eo]|Eo].
      * rewrite (decide_True _ _ Eo) in Hf. cbn [first_named] in Hf. cbv beta iota.
        rewrite <- Hf, Eo. done.
      * rewrite decide_False in Hf, Ho by congruence. cbv beta iota. split.
        -- exists j. split; [done|]. split; [unfold j; case_decide; lia|done].
        -- cbn [from_option id eth_current set_current]. rewrite Ho. cbn [length]. lia.
  - exists old. split; [|split; [done|by rewrite order_from_whole]].
    destruct sw. cbn in *. by rewrite Hc.
  - rewrite Hc. cbn [from_option id]. pose proof (order_from_length n old old). lia.
Qed.

Lemma eth_set_current_spec sw m b es dev_names old :
  eth_ok sw m es dev_names → eth_current sw = Some old → (old < length (ring sw))%nat →
  length (ring sw) < 4294967296 →
  let r := v ← lookup_env ethact es; first_named dev_names v (dev_order (length (ring sw)) old) in
  ∃ m' es', eth_set_current e lits sw m b = Some (set_current (Some (default old r)) sw, m', b) ∧
    env_rep e m' es' ∧ others es' = others es ∧
    act_current (set_current (Some (default old r)) sw) es' dev_names.
Proof.
  intros Hok Hc Hi Hlen r. unfold eth_set_current. rewrite Hc.
  destruct (getenv_act m es) as (act & -> & Hact); [apply Hok|apply Hok|]. rewrite some_bind.
  destruct (ok_dev sw m es dev_names old Hok Hi) as (dev & l & Hd & Hl & Ht & Hroom).
  (* the name was not found: it is set *)
  assert (Hset : ∃ m' es', setenv e m b (lit_setenv lits) (lit_ethact lits) (dev_name dev) = Some (m', b) ∧
    env_rep e m' es' ∧ others es' = others es ∧ act_current (set_current (Some old) sw) es' dev_names).
  { destruct (setenv_act m b es (dev_name dev) l) as (m' & Hs & Hr & _); [apply Hok|apply Hok|done|done|].
    exists m', (others es ++ [(ethact, l)]). split; [done|]. split; [done|].
    assert (Hn := names_nodup _ _ _ _ Hok). destruct (remove_env_names ethact es Hn) as [_ Ha]. split.
    - unfold others at 1. rewrite (remove_env_split ethact l (others es) []) by done. apply app_nil_r.
    - exists old, l. split; [done|]. split; [done|]. unfold others.
      rewrite lookup_snoc, lookup_remove, !decide_True by done. done. }
  assert (Esw : set_current (Some old) sw = sw) by (destruct sw; cbn in *; by rewrite Hc).
  unfold r. clear r. destruct (lookup_env ethact es) as [v|] eqn:El.
  - destruct Hact as (Hn & Hv & _). unfold NULL in *. rewrite (proj2 (Z.eqb_neq act 0)) by done.
    rewrite (eth_find_spec sw m es dev_names old act v) by done. rewrite !some_bind.
    destruct (first_named dev_names v (dev_order (length (ring sw)) old)) as [j|] eqn:Ef; cbn [from_option id].
    + exists m, es. split; [done|]. split; [apply Hok|]. split; [done|].
      exists j, v. split; [done|]. split; [|done].
      clear -Ef. revert Ef. generalize (dev_order (length (ring sw)) old) as o.
      induction o as [|k o IH]; cbn [first_named]; [done|].
      case_decide; [by intros [= <-]|done].
    + cbn [eth_current set_current ring]. rewrite some_bind, Hd, some_bind.
      destruct Hset as (m' & es' & -> & Hq). rewrite some_bind. by exists m', es'.
  - rewrite (proj2 (Z.eqb_eq act NULL)) by done. rewrite some_bind, Hc, some_bind, Hd, some_bind.
    destruct Hset as (m' & es' & -> & Hq). rewrite some_bind. exists m', es'.
    cbn [from_option id mbind option_bind]. by rewrite Esw in Hq |- *.
Qed.
End props.

(** ** The properties *)

(** C28: [eth_init] tries the devices once around the ring from the current one
    on and stops at the first whose driver comes up: it becomes the current
    device, active, and the result is 1.  When none comes up the result is 0
    and the current device is the one before.  No variable but [ethact]
    changes, and [ethact] names the current device if it did before. *)
Theorem eth_init_first_up {D} `{EthDriver D} e lits (sw : ethsw D) m b es dev_names old :
  eth_ok e lits sw m es dev_names → eth_current sw = Some old → (old < length (ring sw))%nat →
  length (ring sw) < 4294967296 →
  let r := first_up (drivers sw) (dev_order (length (ring sw)) old) in
  ∃ sw' m' es', eth_init e lits sw m b =
      Some (sw', m', b, match r.2 with Some _ => 1 | None => 0 end) ∧
    drivers sw' = r.1 ∧ eth_current sw' = Some (default old r.2) ∧
    ring sw' = (match r.2 with Some j => ring (set_state j true sw) | None => ring sw end) ∧
    env_rep e m' es' ∧ others es' = others es ∧
    (act_current sw es dev_names → act_current sw' es' dev_names).
Proof. apply eth_init_round_spec. Qed.

(** After [eth_set_current] the variable [ethact] names the current
    device: the first with that name from the old one on, or, when there is no
    such device or no such variable, the old one, whose name it gets. *)
Lemma eth_set_current_names {D} `{EthDriver D} e lits (sw : ethsw D) m b es dev_names old :
  eth_ok e lits sw m es dev_names → eth_current sw = Some old → (old < length (ring sw))%nat →
  length (ring sw) < 4294967296 →
  let r := v ← lookup_env ethact es; first_named dev_names v (dev_order (length (ring sw)) old) in
  ∃ m' es', eth_set_current e lits sw m b = Some (set_current (Some (default old r)) sw, m', b) ∧
    env_rep e m' es' ∧ others es' = others es ∧
    act_current (set_current (Some (default old r)) sw) es' dev_names.
Proof. apply eth_set_current_spec. Qed.

(** Two devices, the second of which comes up; the driver logs its calls. *)
#[local] Instance log_driver : EthDriver (list nat) := {
  drv_init d i := (d ++ [i], (i =? 1)%nat);
  drv_halt d i := d;
  drv_send d i frame := (d, 0);
  drv_recv d i := (d, 0)
}.

Definition two_names : list Z := ethact ++ 0 :: lit "eth0" ++ 0 :: lit "eth1" ++ [0].
Definition ex_lits : ethlits := EthLits 200000 0 1 0 0.
Definition two_devices : ethsw (list nat) :=
  EthSw [EthDevice 200007 [] false; EthDevice 200012 [] false] (Some 0%nat) None false [].

Lemma ex_text_at (s l : list Z) (k : nat) :
  Forall is_char l → take (S (length l)) (drop k s) = l ++ [0] → (k ≤ length s)%nat →
  length l < 100 → text_at ex_env (ex_mem s) (200000 + k) l.
Proof.
  intros Hc Ht Hk Hl. split; [unfold NULL; lia|]. split; [|split; [unfold fits; lia|]].
  - split; [done|]. rewrite <- Ht. apply bytes_at_take, bytes_at_drop; [apply write_bytes_in|done].
  - right. change (env_ptr ex_env) with 4096. unfold CFG_ENV_SIZE. lia.
Qed.

Lemma two_devices_ok :
  eth_ok ex_env ex_lits two_devices (ex_mem two_names) two_vars [lit "eth0"; lit "eth1"].
Proof.
  split.
  - apply ex_rep. chars.
  - apply (ex_text_at two_names ethact 0); [chars|reflexivity|simpl; lia|simpl; lia].
  - constructor; [|constructor; [|constructor]].
    + apply (ex_text_at two_names (lit "eth0") 7); [chars|reflexivity|simpl; lia|simpl; lia].
    + apply (ex_text_at two_names (lit "eth1") 12); [chars|reflexivity|simpl; lia|simpl; lia].
  - repeat constructor; vm_compute; discriminate.
Qed.

Lemma eth_init_first_up_witness :
  ∃ sw' m' es', eth_init ex_env ex_lits two_devices (ex_mem two_names) ex_board =
      Some (sw', m', ex_board, 1) ∧
    drivers sw' = [0; 1]%nat ∧ eth_current sw' = Some 1%nat ∧
    ring sw' = [EthDevice 200007 [] false; EthDevice 200012 [] true] ∧
    env_rep ex_env m' es' ∧ others es' = two_vars ∧
    (act_current two_devices two_vars [lit "eth0"; lit "eth1"] →
     act_current sw' es' [lit "eth0"; lit "eth1"]).
Proof.
  exact (eth_init_first_up ex_env ex_lits two_devices (ex_mem two_names) ex_board two_vars
    [lit "eth0"; lit "eth1"] 0 two_devices_ok eq_refl ltac:(simpl; lia) ltac:(simpl; lia)).
Defined.

