(* ===== verification/Spi.v ===== *)
(** * The serial flash driver ([board/atheros/common/ath_flash.c])

    The driver clocks commands into the SPI flash by writing the controller's
    registers bit by bit.  It is written over an interface of register reads
    and writes ([Bus]); the chip behind the registers is the instance of the
    second half of the file: the wire protocol of the controller and the
    documented command set of the flash (write enable, sector erase, page
    program, read status).  The theorems say what each driver operation does
    to the cells of the chip. *)

From S2P Require Import Prelude.

(** ** Registers ([include/atheros.h], [include/953x.h]) *)

Class Bus (S : Type) := {
  reg_wr : S → Z → Z → S;
  reg_rd : S → Z → S * Z
}.

Definition ATH_SPI_BASE : Z := 0x1f000000.
Definition ATH_SPI_FS : Z := ATH_SPI_BASE + 0x00.
Definition ATH_SPI_CLOCK : Z := ATH_SPI_BASE + 0x04.
Definition ATH_SPI_WRITE : Z := ATH_SPI_BASE + 0x08.
Definition ATH_SPI_RD_STATUS : Z := ATH_SPI_BASE + 0x0c.
Definition ATH_SPI_CS_DIS : Z := 0x70000.
Definition ATH_SPI_CE_LOW : Z := 0x60000.
Definition ATH_SPI_CE_HIGH : Z := 0x60100.
Definition ATH_SPI_PAGE_SIZE : Z := 256.
Definition ATH_SPI_CMD_WREN : Z := 0x06.
Definition ATH_SPI_CMD_RD_STATUS : Z := 0x05.
Definition ATH_SPI_CMD_PAGE_PROG : Z := 0x02.
Definition ATH_SPI_CMD_SECTOR_ERASE : Z := 0xd8.
Definition ATH_SPI_CMD_RDID : Z := 0x9f.
Definition GPIO_OE_ADDRESS : Z := 0x18040000.
Definition GPIO_IN_ADDRESS : Z := 0x18040004.
Definition GPIO_OUT_ADDRESS : Z := 0x18040008.

Definition CFG_FLASH_BASE : Z := 0x9f000000.

(** The part of [flash_info_t] this board has. *)
Record flash_info_t := FlashInfo {
  size : Z;
  sector_count : Z;
  flash_id : Z;
  start : list Z;
  protect : list Z
}.

Definition CFG_FLASH_SIZE : Z := 0x00400000.
Definition CFG_FLASH_SECTOR_SIZE : Z := 64 * 1024.
Definition FLASH_M25P64 : Z := 0x00F2.

(** The sector table of the board; the [protect] bytes are all cleared. *)
Definition flash_get_geom : flash_info_t :=
  let count := u16 (CFG_FLASH_SIZE / CFG_FLASH_SECTOR_SIZE) in
  FlashInfo CFG_FLASH_SIZE count FLASH_M25P64
    (map (λ i : nat, CFG_FLASH_BASE + i * CFG_FLASH_SECTOR_SIZE) (seq 0 (Z.to_nat count)))
    (map (λ _, 0) (seq 0 (Z.to_nat count))).

Section driver.
Context {S : Type} `{Bus S}.
Implicit Types s : S.

Definition ath_reg_rd s (phys : Z) : S * Z := reg_rd s phys.
Definition ath_reg_wr_nf s (phys val : Z) : S := reg_wr s phys (u32 val).

Definition ath_reg_wr s (phys val : Z) : S :=
  let s := ath_reg_wr_nf s phys val in (ath_reg_rd s phys).1.

Definition ath_reg_rmw_set s (reg mask : Z) : S :=
  let '(s, x) := ath_reg_rd s reg in
  let s := ath_reg_wr s reg (Z.lor x mask) in (ath_reg_rd s reg).1.

Definition ath_reg_rmw_clear s (reg mask : Z) : S :=
  let '(s, x) := ath_reg_rd s reg in
  let s := ath_reg_wr s reg (Z.land x (Z.lnot mask)) in (ath_reg_rd s reg).1.

(** *** The bit banger ([ath_flash.h]) *)

Definition ath_be_msb (val i : Z) : Z :=
  Z.shiftr (Z.land val (Z.shiftl 1 (7 - i))) (7 - i).

Definition ath_spi_bit s (byte i : Z) : S :=
  let s := ath_reg_wr_nf s ATH_SPI_WRITE (Z.lor ATH_SPI_CE_LOW (ath_be_msb byte i)) in
  ath_reg_wr_nf s ATH_SPI_WRITE (Z.lor ATH_SPI_CE_HIGH (ath_be_msb byte i)).

Definition ath_spi_bit_banger s (byte : Z) : S :=
  foldl (λ s i, ath_spi_bit s byte i) s [0; 1; 2; 3; 4; 5; 6; 7].

Definition ath_spi_go s : S :=
  let s := ath_reg_wr_nf s ATH_SPI_WRITE ATH_SPI_CE_LOW in
  ath_reg_wr_nf s ATH_SPI_WRITE ATH_SPI_CS_DIS.

Definition ath_spi_send_addr s (a : Z) : S :=
  let s := ath_spi_bit_banger s (Z.shiftr (Z.land a 0xff0000) 16) in
  let s := ath_spi_bit_banger s (Z.shiftr (Z.land a 0x00ff00) 8) in
  ath_spi_bit_banger s (Z.land a 0x0000ff).

Definition ath_spi_delay_8 s : S := ath_spi_bit_banger s 0.
Definition ath_spi_done s : S := ath_reg_wr_nf s ATH_SPI_FS 0.

(** *** Commands *)

Definition ath_spi_read_id s : S * Z :=
  let s := ath_reg_wr_nf s ATH_SPI_WRITE ATH_SPI_CS_DIS in
  let s := ath_spi_bit_banger s ATH_SPI_CMD_RDID in
  let s := ath_spi_delay_8 s in
  let s := ath_spi_delay_8 s in
  let s := ath_spi_delay_8 s in
  let s := ath_spi_go s in
  ath_reg_rd s ATH_SPI_RD_STATUS.

(** The two writes of the clock are those of this SoC and flash. *)
Definition flash_init s : S * flash_info_t :=
  let s := ath_reg_wr_nf s ATH_SPI_CLOCK 0x43 in
  let s := ath_reg_wr_nf s ATH_SPI_CLOCK 0x44 in
  let s := ath_reg_rmw_set s ATH_SPI_FS 1 in
  let '(s, _) := ath_spi_read_id s in
  let s := ath_reg_rmw_clear s ATH_SPI_FS 1 in
  (s, flash_get_geom).

Definition ath_spi_write_enable s : S :=
  let s := ath_reg_wr_nf s ATH_SPI_FS 1 in
  let s := ath_reg_wr_nf s ATH_SPI_WRITE ATH_SPI_CS_DIS in
  let s := ath_spi_bit_banger s ATH_SPI_CMD_WREN in
  ath_spi_go s.

(** [None] when the status never clears. *)
Definition ath_spi_poll s : option S :=
  while (λ s,
    let s := ath_reg_wr_nf s ATH_SPI_WRITE ATH_SPI_CS_DIS in
    let s := ath_spi_bit_banger s ATH_SPI_CMD_RD_STATUS in
    let s := ath_spi_delay_8 s in
    let '(s, x) := ath_reg_rd s ATH_SPI_RD_STATUS in
    let rd := Z.land x 1 in
    Some (if negb (rd =? 0) then Next s else Done s)) s.

Definition ath_spi_write_page s (m : mem) (addr data len : Z) : option S :=
  let s := ath_spi_write_enable s in
  let s := ath_spi_bit_banger s ATH_SPI_CMD_PAGE_PROG in
  let s := ath_spi_send_addr s addr in
  s ← while (λ '(s, i),
    if negb (i <? len) then Some (Done s) else
    ch ← ld m (data + i);
    Some (Next (ath_spi_bit_banger s ch, i + 1))) (s, 0);
  ath_spi_poll (ath_spi_go s).

Definition ath_spi_sector_erase s (addr : Z) : option S :=
  let s := ath_spi_write_enable s in
  let s := ath_spi_bit_banger s ATH_SPI_CMD_SECTOR_ERASE in
  let s := ath_spi_send_addr s addr in
  ath_spi_poll (ath_spi_go s).

(** *** Erasing and writing *)

Definition flash_erase s (info : flash_info_t) (s_first s_last : Z) : option (S * Z) :=
  let sector_size := s32 (size info / sector_count info) in
  s ← while (λ '(s, i),
    if negb (i <=? s_last) then Some (Done s) else
    s ← ath_spi_sector_erase s (u32 (i * sector_size));
    Some (Next (s, i + 1))) (s, s_first);
  Some (ath_spi_done s, 0).

(** [len] is unsigned, so the comparisons are; [total] and [len_this_lp] are
    ints. *)
Definition write_buff s (m : mem) (info : flash_info_t) (source addr len : Z)
    : option (S * Z) :=
  let addr := u32 (addr - CFG_FLASH_BASE) in
  s ← while (λ '(s, total),
    if negb (u32 total <? len) then Some (Done s) else
    let src := source + total in
    let dst := u32 (addr + total) in
    let bytes_this_page := ATH_SPI_PAGE_SIZE - addr mod ATH_SPI_PAGE_SIZE in
    let len_this_lp := s32 (if u32 (len - total) >? bytes_this_page then bytes_this_page
                            else u32 (len - total)) in
    s ← ath_spi_write_page s m dst src len_this_lp;
    Some (Next (s, s32 (total + len_this_lp)))) (s, 0);
  Some (ath_spi_done s, 0).

(** The variants without console output have the same bodies. *)
Definition flash_erase_quiet s (info : flash_info_t) (s_first s_last : Z) : option (S * Z) :=
  flash_erase s info s_first s_last.

Definition write_buff_quiet s (m : mem) (info : flash_info_t) (source addr len : Z)
    : option (S * Z) :=
  write_buff s m info source addr len.

(** *** The recovery button and the indicator *)

Definition ath_gpio_set_val s (reg gpio val : Z) : S :=
  if negb (Z.land val 1 =? 0) then ath_reg_rmw_set s reg (Z.shiftl 1 gpio)
  else ath_reg_rmw_clear s reg (Z.shiftl 1 gpio).

(** [button] and [led] are the board's GPIO numbers, [led_on] its polarity. *)
Definition ath_auf_gpio_init s (button led : Z) : S :=
  let s := ath_gpio_set_val s GPIO_OE_ADDRESS button 1 in
  ath_gpio_set_val s GPIO_OE_ADDRESS led 0.

Definition ath_is_rst_btn_pressed s (button : Z) : S * Z :=
  let '(s, old_val) := ath_reg_rd s GPIO_IN_ADDRESS in
  let '(s, val) := ath_reg_rd s GPIO_IN_ADDRESS in
  if negb (old_val =? val) then (s, 0) else
  let val := Z.shiftr (Z.land val (Z.shiftl 1 button)) button in
  (s, 1 - val).

Definition ath_fw_led_on s (led led_on : Z) : S :=
  ath_gpio_set_val s GPIO_OUT_ADDRESS led led_on.

Definition ath_fw_led_off s (led led_on : Z) : S :=
  ath_gpio_set_val s GPIO_OUT_ADDRESS led (if led_on =? 0 then 1 else 0).
End driver.

(** ** The chip

    The wire level of the controller in bit-bang mode ([ATH_SPI_FS] = 1): bit
    16 of [ATH_SPI_WRITE] is the chip select (active low), bit 8 the clock and
    bit 0 the data; a rising clock shifts the data bit into the chip, the end
    of the select ends the command.  The chip knows four commands; erase and
    program need the write-enable latch and keep the chip busy for as many
    status reads as [delays] says. *)

Record nor := Nor {
  fs : bool;
  wires : Z;               (* the last value of ATH_SPI_WRITE *)
  shift : list bool;       (* the bits of the command so far *)
  wel : bool;
  busy : nat;
  delays : list nat;
  cells : Z → Z
}.

(** Most significant bit first. *)
Fixpoint bits_value (l : list bool) (acc : Z) : Z :=
  match l with [] => acc | b :: l => bits_value l (2 * acc + Z.b2z b) end.

Fixpoint bytes_of_bits (fuel : nat) (l : list bool) : list Z :=
  match fuel with
  | O => []
  | S fuel =>
      match l with
      | [] => []
      | _ => bits_value (take 8 l) 0 :: bytes_of_bits fuel (drop 8 l)
      end
  end.

Definition addr24 (a2 a1 a0 : Z) : Z := 65536 * a2 + 256 * a1 + a0.

(** A sector is 64 KiB, a page 256 bytes; the address wraps in the page. *)
Definition erase_cells (c : Z → Z) (a : Z) : Z → Z :=
  λ x, if x / 65536 =? a / 65536 then 255 else c x.

(** The byte the page buffer has for cell [x] of the page of [a]. *)
Definition latched (a : Z) (data : list Z) (x : Z) : option Z :=
  data !! Z.to_nat ((x - a) mod 256).

Definition program_cells (c : Z → Z) (a : Z) (data : list Z) : Z → Z :=
  λ x, if x / 256 =? a / 256
       then match latched a data x with Some d => Z.land (c x) d | None => c x end
       else c x.

Definition nor_exec (s : nor) (cmd : list Z) : nor :=
  let start_op c :=
    Nor (fs s) (wires s) [] false (hd O (delays s)) (tail (delays s)) c in
  let ignore := Nor (fs s) (wires s) [] (wel s) (busy s) (delays s) (cells s) in
  if negb (busy s =? 0)%nat then ignore else
  match cmd with
  | [6] => Nor (fs s) (wires s) [] true (busy s) (delays s) (cells s)
  | [0xd8; a2; a1; a0] =>
      if wel s then start_op (erase_cells (cells s) (addr24 a2 a1 a0)) else ignore
  | 2 :: a2 :: a1 :: a0 :: data =>
      if wel s then start_op (program_cells (cells s) (addr24 a2 a1 a0) data) else ignore
  | _ => ignore
  end.

Definition nor_wr (s : nor) (reg v : Z) : nor :=
  if reg =? ATH_SPI_FS then
    Nor (negb (v =? 0)) (wires s) (shift s) (wel s) (busy s) (delays s) (cells s)
  else if (reg =? ATH_SPI_WRITE) && fs s then
    if Z.testbit v 16 then
      let s1 := if Z.testbit (wires s) 16 then s
                else nor_exec s (bytes_of_bits (length (shift s)) (shift s)) in
      Nor (fs s1) v [] (wel s1) (busy s1) (delays s1) (cells s1)
    else if Z.testbit v 8 && negb (Z.testbit (wires s) 8) then
      Nor (fs s) v (shift s ++ [Z.testbit v 0]) (wel s) (busy s) (delays s) (cells s)
    else Nor (fs s) v (shift s) (wel s) (busy s) (delays s) (cells s)
  else s.

(** A status read answers bit 0 as long as the chip is busy. *)
Definition nor_rd (s : nor) (reg : Z) : nor * Z :=
  if (reg =? ATH_SPI_RD_STATUS) && (hd 0 (bytes_of_bits (length (shift s)) (shift s)) =? 5)
  then (Nor (fs s) (wires s) (shift s) (wel s) (busy s - 1) (delays s) (cells s),
        if (busy s =? 0)%nat then 0 else 1)
  else (s, 0).

#[export] Instance nor_bus : Bus nor := {| reg_wr := nor_wr; reg_rd := nor_rd |}.

(** ** The wire *)

Definition byte_bits (v : Z) : list bool :=
  map (λ i, Z.testbit v (7 - i)) [0; 1; 2; 3; 4; 5; 6; 7].

Definition wire_bits (l : list Z) : list bool := flat_map byte_bits l.

(** The state of the chip apart from the wires and the command. *)
Definition with_wires (s : nor) (w : Z) (l : list bool) : nor :=
  Nor true w l (wel s) (busy s) (delays s) (cells s).

(** Between operations: not busy, and the select is either off or on a status
    command, which its end does not execute. *)
Record settled (s : nor) : Prop := Settled {
  st_busy : busy s = 0%nat;
  st_wires : Z.testbit (wires s) 16 = true ∨ shift s = wire_bits [5; 0];
  st_delays : Forall (λ d : nat, d < 4294967296) (delays s)
}.

Section wire.
Implicit Types (s : nor) (l : list Z) (v a x : Z).

Lemma be_msb v i : 0 ≤ i ≤ 7 → ath_be_msb v i = Z.b2z (Z.testbit v (7 - i)).
Proof.
  intros Hi. unfold ath_be_msb. rewrite Z.shiftl_1_l.
  apply Z.bits_inj'. intros n Hn. rewrite Z.shiftr_spec, Z.land_spec, Z.pow2_bits_eqb by lia.
  destruct (Z.eqb_spec n 0) as [->|Hn0].
  - rewrite Z.b2z_bit0, Z.add_0_l, Z.eqb_refl. apply andb_true_r.
  - rewrite (proj2 (Z.eqb_neq (7 - i) (n + (7 - i)))) by lia. rewrite andb_false_r.
    destruct (Z.testbit v (7 - i)); simpl; [|by rewrite Z.bits_0].
    symmetry. apply Z.bits_above_log2; simpl; lia.
Qed.

Lemma bit_wr s v i :
  fs s = true → 0 ≤ i ≤ 7 →
  ath_spi_bit s v i = with_wires s (Z.lor ATH_SPI_CE_HIGH (Z.b2z (Z.testbit v (7 - i))))
                        (shift s ++ [Z.testbit v (7 - i)]).
Proof.
  intros Hf Hi. unfold ath_spi_bit, ath_reg_wr_nf, reg_wr, nor_bus, nor_wr.
  rewrite be_msb by done. destruct s as [f w sh we bu de ce]; simpl in Hf; subst f.
  destruct (Z.testbit v (7 - i)); reflexivity.
Qed.

Lemma with_wires_idem s w b w' b' : with_wires (with_wires s w b) w' b' = with_wires s w' b'.
Proof. done. Qed.

Lemma bang s v :
  fs s = true →
  ath_spi_bit_banger s v =
    with_wires s (Z.lor ATH_SPI_CE_HIGH (Z.b2z (Z.testbit v 0))) (shift s ++ byte_bits v).
Proof.
  intros Hf. unfold ath_spi_bit_banger. cbn [foldl].
  rewrite (bit_wr s v 0) by (done || lia).
  repeat match goal with
  | |- context [ath_spi_bit (with_wires s ?w ?l) v ?i] =>
      rewrite (bit_wr (with_wires s w l) v i) by (done || lia); rewrite with_wires_idem
  end.
  cbn [shift with_wires]. unfold byte_bits. cbn [map]. by rewrite <- !app_assoc.
Qed.

Lemma length_byte_bits v : length (byte_bits v) = 8%nat.
Proof. done. Qed.

Definition byte_bits_ok (v : Z) : bool := bits_value (byte_bits v) 0 =? v.

Lemma byte_bits_value v : is_byte v → bits_value (byte_bits v) 0 = v.
Proof. intros H. apply Z.eqb_eq. revert v H. apply byte_forall. vm_compute. reflexivity. Qed.

Lemma bytes_wire l fuel :
  Forall is_byte l → (length l ≤ fuel)%nat → bytes_of_bits fuel (wire_bits l) = l.
Proof.
  intros H. revert fuel. induction H as [|v l Hv H IH]; intros [|fuel] Hf; try done; simpl in Hf; [lia|].
  unfold wire_bits. cbn [flat_map]. cbn [bytes_of_bits].
  destruct (byte_bits v ++ flat_map byte_bits l) eqn:E; [done|]. rewrite <- E.
  rewrite take_app_le, drop_app_le by (rewrite length_byte_bits; lia).
  rewrite take_ge, drop_ge by (rewrite length_byte_bits; lia). simpl app.
  rewrite byte_bits_value by done. f_equal. apply IH. lia.
Qed.

Lemma length_wire_bits l : length (wire_bits l) = (8 * length l)%nat.
Proof.
  unfold wire_bits. induction l as [|v l IH]; [done|]. cbn [flat_map length].
  rewrite length_app, IH, length_byte_bits. lia.
Qed.

Lemma bytes_wire_self l :
  Forall is_byte l → bytes_of_bits (length (wire_bits l)) (wire_bits l) = l.
Proof. intros H. apply bytes_wire; [done|]. rewrite length_wire_bits. lia. Qed.

Lemma wire_bits_snoc l v : wire_bits l ++ byte_bits v = wire_bits (l ++ [v]).
Proof. unfold wire_bits. rewrite flat_map_app. simpl. by rewrite ?app_nil_r. Qed.

(** One more byte of a command. *)
Lemma bang_more s l v w :
  ∃ w', Z.testbit w' 16 = false ∧
  ath_spi_bit_banger (with_wires s w (wire_bits l)) v = with_wires s w' (wire_bits (l ++ [v])).
Proof.
  exists (Z.lor ATH_SPI_CE_HIGH (Z.b2z (Z.testbit v 0))). split; [by destruct (Z.testbit v 0)|].
  rewrite bang by done. rewrite with_wires_idem. cbn [shift with_wires].
  by rewrite wire_bits_snoc.
Qed.

(** The end of a command executes it. *)
Lemma go_exec s l w :
  Forall is_byte l → Z.testbit w 16 = false →
  ath_spi_go (with_wires s w (wire_bits l)) =
    let s1 := nor_exec (with_wires s ATH_SPI_CE_LOW (wire_bits l)) l in
    Nor (fs s1) ATH_SPI_CS_DIS [] (wel s1) (busy s1) (delays s1) (cells s1).
Proof.
  intros Hl Hw. unfold ath_spi_go, ath_reg_wr_nf, reg_wr, nor_bus.
  change (nor_wr (with_wires s w (wire_bits l)) ATH_SPI_WRITE (u32 ATH_SPI_CE_LOW))
    with (with_wires s ATH_SPI_CE_LOW (wire_bits l)).
  unfold nor_wr. change (ATH_SPI_WRITE =? ATH_SPI_FS) with false.
  change ((ATH_SPI_WRITE =? ATH_SPI_WRITE) && fs (with_wires s ATH_SPI_CE_LOW (wire_bits l))) with true.
  cbv iota. change (Z.testbit (u32 ATH_SPI_CS_DIS) 16) with true. cbv iota.
  change (Z.testbit (wires (with_wires s ATH_SPI_CE_LOW (wire_bits l))) 16) with false. cbv iota.
  cbn [shift with_wires]. by rewrite bytes_wire_self.
Qed.

(** Deselecting the chip ends no command, or a status command. *)
Lemma cs_dis_idle s :
  Z.testbit (wires s) 16 = true ∨ shift s = wire_bits [5; 0] → fs s = true →
  ath_reg_wr_nf s ATH_SPI_WRITE ATH_SPI_CS_DIS = with_wires s ATH_SPI_CS_DIS [].
Proof.
  intros Hw Hf. unfold ath_reg_wr_nf, reg_wr, nor_bus, nor_wr.
  change (ATH_SPI_WRITE =? ATH_SPI_FS) with false. rewrite Hf.
  change ((ATH_SPI_WRITE =? ATH_SPI_WRITE) && true) with true. cbv iota.
  change (Z.testbit (u32 ATH_SPI_CS_DIS) 16) with true. cbv iota.
  change (u32 ATH_SPI_CS_DIS) with ATH_SPI_CS_DIS.
  destruct Hw as [->|E]; [by rewrite Hf|].
  destruct (Z.testbit (wires s) 16); [by rewrite Hf|].
  rewrite E, bytes_wire_self by chars. unfold nor_exec.
  destruct (busy s =? 0)%nat; cbn [negb fs wel busy delays cells]; by rewrite Hf.
Qed.

Lemma write_enable_settled s :
  settled s →
  ath_spi_write_enable s = Nor true ATH_SPI_CS_DIS [] true 0 (delays s) (cells s).
Proof.
  intros Hs. unfold ath_spi_write_enable.
  set (s1 := ath_reg_wr_nf s ATH_SPI_FS 1).
  assert (E1 : s1 = Nor true (wires s) (shift s) (wel s) (busy s) (delays s) (cells s)) by done.
  rewrite cs_dis_idle by (rewrite E1; by destruct Hs).
  destruct (bang_more s1 [] 6 ATH_SPI_CS_DIS) as (w & Hw & E).
  change (wire_bits []) with (@nil bool) in E. change ATH_SPI_CMD_WREN with 6. rewrite E.
  rewrite (go_exec s1 ([] ++ [6]) w); [|chars|exact Hw]. cbv zeta. unfold nor_exec.
  cbn [app with_wires busy fs wires wel delays cells]. rewrite E1.
  cbn [busy delays cells]. destruct Hs as [Hb _ _]. rewrite Hb. reflexivity.
Qed.

(** The poll loop waits until the chip is ready. *)
Lemma poll_ready s :
  fs s = true → Z.testbit (wires s) 16 = true → busy s < 4294967296 →
  ∃ w, ath_spi_poll s =
    Some (Nor true w (wire_bits [5; 0]) (wel s) 0 (delays s) (cells s)).
Proof.
  intros Hf Hw Hb. unfold ath_spi_poll.
  exists (Z.lor ATH_SPI_CE_HIGH (Z.b2z (Z.testbit 0 0))).
  apply (while_within _ _ (S (busy s))); [lia|].
  assert (Hround : ∀ s, fs s = true →
    (Z.testbit (wires s) 16 = true ∨ (shift s = wire_bits [5; 0])) →
    (let s := ath_reg_wr_nf s ATH_SPI_WRITE ATH_SPI_CS_DIS in
     let s := ath_spi_bit_banger s ATH_SPI_CMD_RD_STATUS in
     let s := ath_spi_delay_8 s in
     let '(s, x) := ath_reg_rd s ATH_SPI_RD_STATUS in
     let rd := Z.land x 1 in
     Some (if negb (rd =? 0) then Next s else Done s)) =
    let s' := Nor true (Z.lor ATH_SPI_CE_HIGH (Z.b2z (Z.testbit 0 0))) (wire_bits [5; 0])
                (wel s) (busy s - 1) (delays s) (cells s) in
    Some (if (busy s =? 0)%nat then Done s' else Next s')).
  { clear. intros s Hf Hw. cbv zeta.
    rewrite cs_dis_idle by done. rewrite bang by done. rewrite with_wires_idem. unfold ath_spi_delay_8.
    rewrite bang by done. rewrite with_wires_idem. cbn [shift with_wires].
    change ATH_SPI_CMD_RD_STATUS with 5. rewrite app_nil_l.
    unfold ath_reg_rd, reg_rd, nor_bus, nor_rd.
    change (byte_bits 5 ++ byte_bits 0) with (wire_bits [5; 0]). cbn [shift with_wires].
    rewrite bytes_wire_self by chars. cbn [hd].
    change ((ATH_SPI_RD_STATUS =? ATH_SPI_RD_STATUS) && (5 =? 5)) with true. cbv iota.
    cbn [fs wires shift wel busy delays cells with_wires].
    destruct (busy s =? 0)%nat; done. }
  clear Hb. remember (busy s) as k eqn:Hk. revert s Hf Hw Hk.
  assert (Hgen : ∀ s, fs s = true →
    (Z.testbit (wires s) 16 = true ∨ (shift s = wire_bits [5; 0])) → k = busy s →
    ∃ n, (n ≤ S k)%nat ∧ runs (λ s,
      let s := ath_reg_wr_nf s ATH_SPI_WRITE ATH_SPI_CS_DIS in
      let s := ath_spi_bit_banger s ATH_SPI_CMD_RD_STATUS in
      let s := ath_spi_delay_8 s in
      let '(s, x) := ath_reg_rd s ATH_SPI_RD_STATUS in
      let rd := Z.land x 1 in
      Some (if negb (rd =? 0) then Next s else Done s)) s n
      (Nor true (Z.lor ATH_SPI_CE_HIGH (Z.b2z (Z.testbit 0 0))) (wire_bits [5; 0])
         (wel s) 0 (delays s) (cells s))); [|by intros s Hf Hw Hk; apply Hgen; [|left|]].
  induction k as [|k IH]; intros s Hf Hw Hk.
  - exists 1%nat. split; [lia|]. apply runs_done. rewrite Hround by done. by rewrite <- Hk.
  - destruct (IH (Nor true (Z.lor ATH_SPI_CE_HIGH (Z.b2z (Z.testbit 0 0))) (wire_bits [5; 0])
                (wel s) k (delays s) (cells s))) as (n & Hn & Hr); [done|by right|done|].
    exists (S n). split; [lia|]. eapply runs_next; [|exact Hr].
    rewrite Hround by done. rewrite <- Hk. cbn [Nat.eqb]. do 3 f_equal. lia.
Qed.

(** *** Commands that program or erase *)

(** The chip once write-enable has been given. *)
Definition enabled (s : nor) : nor := Nor true ATH_SPI_CS_DIS [] true 0 (delays s) (cells s).

Lemma bang_first s v :
  ∃ w, Z.testbit w 16 = false ∧
  ath_spi_bit_banger (enabled s) v = with_wires (enabled s) w (wire_bits [v]).
Proof. apply (bang_more (enabled s) [] v ATH_SPI_CS_DIS). Qed.

Lemma command_done s l w c :
  settled s → Forall is_byte l → Z.testbit w 16 = false →
  (∀ w' sh, nor_exec (with_wires (enabled s) w' sh) l =
     Nor true w' [] false (hd O (delays s)) (tail (delays s)) c) →
  ∃ s', ath_spi_poll (ath_spi_go (with_wires (enabled s) w (wire_bits l))) = Some s' ∧
    settled s' ∧ fs s' = true ∧ cells s' = c.
Proof.
  intros [_ _ Hd] Hl Hw He. rewrite (go_exec (enabled s) l w Hl Hw). cbv zeta. rewrite He.
  cbn [fs wel busy delays cells].
  destruct (poll_ready (Nor true ATH_SPI_CS_DIS [] false (hd O (delays s)) (tail (delays s)) c))
    as [w' E]; [done|done| |].
  - cbn [busy]. destruct Hd; simpl; lia.
  - rewrite E. clear E. cbn [wel delays cells]. eexists. split; [reflexivity|].
    split; [|done]. split; [done|by right|]. by destruct Hd.
Qed.

Lemma addr24_bytes a :
  addr24 (Z.shiftr (Z.land a 0xff0000) 16) (Z.shiftr (Z.land a 0x00ff00) 8) (Z.land a 0x0000ff)
    = a mod 16777216 ∧
  is_byte (Z.shiftr (Z.land a 0xff0000) 16) ∧ is_byte (Z.shiftr (Z.land a 0x00ff00) 8) ∧
  is_byte (Z.land a 0x0000ff).
Proof.
  rewrite !Z.shiftr_land.
  change (Z.shiftr 0xff0000 16) with (Z.ones 8). change (Z.shiftr 0x00ff00 8) with (Z.ones 8).
  change 0x0000ff with (Z.ones 8).
  rewrite !Z.land_ones, !Z.shiftr_div_pow2 by lia. unfold addr24, is_byte.
  change (2 ^ 16) with 65536. change (2 ^ 8) with 256.
  Z.div_mod_to_equations. lia.
Qed.

(** The address bytes of a command. *)
Definition addr_bytes (a : Z) : list Z :=
  [Z.shiftr (Z.land a 0xff0000) 16; Z.shiftr (Z.land a 0x00ff00) 8; Z.land a 0x0000ff].

Lemma addr_bytes_ok a c : is_byte c → Forall is_byte (c :: addr_bytes a).
Proof.
  intros Hc. destruct (addr24_bytes a) as (_ & H1 & H2 & H3). unfold addr_bytes.
  apply Forall_cons_iff. split; [done|]. apply Forall_cons_iff. split; [done|].
  apply Forall_cons_iff. split; [done|]. apply Forall_cons_iff. by split; [|apply Forall_nil].
Qed.

Lemma send_addr_more s l w a :
  ∃ w', Z.testbit w' 16 = false ∧
  ath_spi_send_addr (with_wires s w (wire_bits l)) a =
    with_wires s w' (wire_bits (l ++ addr_bytes a)).
Proof.
  unfold ath_spi_send_addr, addr_bytes.
  destruct (bang_more s l (Z.shiftr (Z.land a 0xff0000) 16) w) as (w1 & _ & ->).
  edestruct (bang_more s (l ++ [Z.shiftr (Z.land a 0xff0000) 16])) as (w2 & _ & ->).
  edestruct (bang_more s) as (w3 & Hw & ->). exists w3. split; [done|].
  by rewrite <- !app_assoc.
Qed.

Lemma sector_erase_cells s a :
  settled s →
  ∃ s', ath_spi_sector_erase s a = Some s' ∧ settled s' ∧ fs s' = true ∧
    cells s' = erase_cells (cells s) (a mod 16777216).
Proof.
  intros Hs. unfold ath_spi_sector_erase. rewrite write_enable_settled by done.
  fold (enabled s). destruct (bang_first s ATH_SPI_CMD_SECTOR_ERASE) as (w & _ & ->).
  destruct (send_addr_more (enabled s) [ATH_SPI_CMD_SECTOR_ERASE] w a) as (w' & Hw & ->).
  destruct (addr24_bytes a) as (E & _).
  apply command_done; [done| |done|].
  - apply addr_bytes_ok. by vm_compute.
  - intros w0 sh. unfold addr_bytes. rewrite <- E. reflexivity.
Qed.

(** The data bytes of a page program go out one after the other. *)
Lemma page_data s m l data w k :
  bytes_at m data k → (length k ≤ 256)%nat →
  ∃ w', (Z.testbit w 16 = false → Z.testbit w' 16 = false) ∧
  while (λ '(s, i),
    if negb (i <? length k) then Some (Done s) else
    ch ← ld m (data + i);
    Some (Next (ath_spi_bit_banger s ch, i + 1))) (with_wires s w (wire_bits l), 0)
  = Some (with_wires s w' (wire_bits (l ++ k))).
Proof.
  intros Hk Hlen.
  destruct (while_rule (λ '(s, i),
    if negb (i <? length k) then Some (Done s) else
    ch ← ld m (data + i);
    Some (Next (ath_spi_bit_banger s ch, i + 1)))
    (λ '(t, i), 0 ≤ i ≤ length k ∧ ∃ w', (Z.testbit w 16 = false → Z.testbit w' 16 = false) ∧
       t = with_wires s w' (wire_bits (l ++ take (Z.to_nat i) k)))
    (λ '(t, i), length k - i)
    (λ t, ∃ w', (Z.testbit w 16 = false → Z.testbit w' 16 = false) ∧
       t = with_wires s w' (wire_bits (l ++ k)))
    (with_wires s w (wire_bits l), 0)) as (r & -> & w' & Hw & ->).
  - intros [t i] (Hi & w' & Hw & ->). destruct (Z.ltb_spec i (length k)) as [Hlt|Hge].
    + destruct (lookup_lt_is_Some_2 k (Z.to_nat i)) as [ch Hch]; [lia|].
      pose proof (Hk _ _ Hch) as Hm. rewrite Z2Nat.id in Hm by lia.
      cbn [negb]. c_step. eexists. split; [reflexivity|]. cbv beta iota.
      split; [|lia]. split; [lia|].
      destruct (bang_more s (l ++ take (Z.to_nat i) k) ch w') as (w2 & Hw2 & ->).
      exists w2. split; [done|]. f_equal. f_equal.
      replace (Z.to_nat (i + 1)) with (S (Z.to_nat i)) by lia.
      rewrite (take_S_r _ _ _ Hch). by rewrite app_assoc.
    + cbn [negb]. eexists. split; [reflexivity|]. cbv beta iota.
      exists w'. split; [done|]. by rewrite take_ge by lia.
  - split; [lia|]. exists w. split; [done|]. by rewrite take_0, app_nil_r.
  - lia.
  - by exists w'.
Qed.

Lemma write_page_cells s m a data k :
  settled s → bytes_at m data k → Forall is_byte k → (length k ≤ 256)%nat →
  ∃ s', ath_spi_write_page s m a data (length k) = Some s' ∧ settled s' ∧ fs s' = true ∧
    cells s' = program_cells (cells s) (a mod 16777216) k.
Proof.
  intros Hs Hk Hb Hlen. unfold ath_spi_write_page. rewrite write_enable_settled by done.
  fold (enabled s). destruct (bang_first s ATH_SPI_CMD_PAGE_PROG) as (w & _ & ->).
  destruct (send_addr_more (enabled s) [ATH_SPI_CMD_PAGE_PROG] w a) as (w' & Hw & ->).
  destruct (page_data (enabled s) m ([ATH_SPI_CMD_PAGE_PROG] ++ addr_bytes a) data w' k Hk Hlen)
    as (w2 & Hw2 & ->).
  rewrite some_bind. destruct (addr24_bytes a) as (E & _).
  apply command_done; [done| |by apply Hw2|].
  - apply Forall_app. split; [|done]. apply addr_bytes_ok. by vm_compute.
  - intros w0 sh. unfold addr_bytes. rewrite <- E. reflexivity.
Qed.
End wire.

(** ** Erasing and writing ranges *)

(** The cells after the bytes [l] were programmed from [a] on. *)
Definition land_cells (c : Z → Z) (a : Z) (l : list Z) : Z → Z := λ x,
  if decide (a ≤ x < a + length l) then Z.land (c x) (nth (Z.to_nat (x - a)) l 0) else c x.

(** The state after an erase or a write: ready for the next one, with the
    function select off, so that the chip can be read. *)
Definition released (s : nor) : Prop := settled s ∧ fs s = false.

Section ranges.
Implicit Types (s : nor) (l k : list Z) (a x : Z).

Lemma done_released s :
  settled s → released (ath_spi_done s) ∧ cells (ath_spi_done s) = cells s.
Proof. intros [H1 H2 H3]. done. Qed.

Lemma program_in_page c a k x :
  0 ≤ a → a mod 256 + length k ≤ 256 → program_cells c a k x = land_cells c a k x.
Proof.
  intros Ha Hk. unfold program_cells, land_cells, latched.
  pose proof (Z.mod_pos_bound a 256 ltac:(lia)).
  destruct (Z.eqb_spec (x / 256) (a / 256)) as [Hp|Hp].
  - destruct (decide (a ≤ x < a + length k)) as [Hx|Hx].
    + rewrite (Z.mod_small (x - a) 256) by lia.
      destruct (lookup_lt_is_Some_2 k (Z.to_nat (x - a))) as [d Hd]; [lia|].
      rewrite Hd. f_equal. symmetry. apply nth_lookup_Some. by rewrite Hd.
    + assert (length k ≤ (x - a) mod 256) by (Z.div_mod_to_equations; lia).
      by rewrite lookup_ge_None_2 by lia.
  - rewrite decide_False; [done|]. intros Hx. apply Hp. Z.div_mod_to_equations. lia.
Qed.

Lemma land_cells_app c a l k x :
  land_cells (land_cells c a l) (a + length l) k x = land_cells c a (l ++ k) x.
Proof.
  unfold land_cells. rewrite length_app.
  destruct (decide (a + length l ≤ x < a + length l + length k)) as [H1|H1].
  - rewrite (decide_False (P := a ≤ x < a + length l)), decide_True by lia.
    rewrite app_nth2 by lia. do 2 f_equal. lia.
  - destruct (decide (a ≤ x < a + length l)) as [H2|H2].
    + rewrite decide_True by lia. by rewrite app_nth1 by lia.
    + by rewrite decide_False by lia.
Qed.

Lemma land_cells_ext c c' a l x : c x = c' x → land_cells c a l x = land_cells c' a l x.
Proof. unfold land_cells. by intros ->. Qed.

(** Erasing the sectors [s_first] to [s_last]. *)
Lemma flash_erase_cells s info s_first s_last :
  settled s → size info = 65536 * sector_count info → 0 < sector_count info ≤ 256 →
  0 ≤ s_first → s_last < sector_count info →
  ∃ s', flash_erase s info s_first s_last = Some (s', 0) ∧ released s' ∧
    ∀ x, cells s' x = if decide (s_first ≤ x / 65536 ≤ s_last) then 255 else cells s x.
Proof.
  intros Hs Hsize Hcount H1 H2. unfold flash_erase.
  assert (E : s32 (size info / sector_count info) = 65536).
  { rewrite Hsize, Z.div_mul by lia. done. }
  rewrite E.
  destruct (while_rule (λ '(s, i),
    if negb (i <=? s_last) then Some (Done s) else
    s ← ath_spi_sector_erase s (u32 (i * 65536));
    Some (Next (s, i + 1)))
    (λ '(t, i), settled t ∧ s_first ≤ i ∧ (i ≤ s_last + 1 ∨ i = s_first) ∧
       ∀ x, cells t x = if decide (s_first ≤ x / 65536 < i) then 255 else cells s x)
    (λ '(t, i), if decide (i ≤ s_last) then s_last + 1 - i else 0)
    (λ t, settled t ∧
       ∀ x, cells t x = if decide (s_first ≤ x / 65536 ≤ s_last) then 255 else cells s x)
    (s, s_first)) as (t & -> & Ht & Hc).
  - intros [t i] (Ht & Hi & Hi' & Hc). destruct (Z.leb_spec i s_last) as [Hle|Hgt]; cbn [negb].
    + destruct (sector_erase_cells t (u32 (i * 65536)) Ht) as (t' & -> & Ht' & _ & Hc').
      rewrite some_bind. eexists. split; [reflexivity|]. cbv beta iota.
      split; [|rewrite (decide_True (P := i ≤ s_last)) by lia; destruct (decide _); lia].
      split; [done|]. split; [lia|]. split; [lia|]. intros x.
      rewrite Hc'. unfold erase_cells, u32.
      rewrite (Z.mod_small (i * 65536)), (Z.mod_small (i * 65536)), Z.div_mul by lia.
      destruct (Z.eqb_spec (x / 65536) i); [by rewrite decide_True by lia|].
      rewrite Hc. destruct (decide (s_first ≤ x / 65536 < i)).
      * by rewrite decide_True by lia.
      * by rewrite decide_False by lia.
    + eexists. split; [reflexivity|]. cbv beta iota. split; [done|]. intros x. rewrite Hc.
      destruct (decide (s_first ≤ x / 65536 < i)).
      * by rewrite decide_True by lia.
      * by rewrite decide_False by lia.
  - split; [done|]. split; [lia|]. split; [by right|]. intros x. by rewrite decide_False by lia.
  - destruct (decide _); lia.
  - rewrite some_bind. destruct (done_released t Ht) as [Hr Hc'].
    eexists. split; [reflexivity|]. split; [done|]. intros x. by rewrite Hc'.
Qed.

(** What a write does, chunk by chunk: every chunk is a page program. *)
Fixpoint program_chunks (fuel k : nat) (c : Z → Z) (a : Z) (l : list Z) : Z → Z :=
  match fuel, l with
  | O, _ | _, [] => c
  | Datatypes.S fuel, _ =>
      program_chunks fuel k (program_cells c a (take k l)) (a + k) (drop k l)
  end.

(** The size of the chunks: the distance from the start of the write to the
    end of its page. *)
Definition chunk (a : Z) : Z := 256 - a mod 256.

(** The cells after a write of [l] to [a]. *)
Definition written (c : Z → Z) (a : Z) (l : list Z) : Z → Z :=
  program_chunks (length l) (Z.to_nat (chunk a)) c a l.

(** No chunk crosses the end of a page: the write ends in the page behind its
    first one at the latest, or the chunks divide the pages. *)
Definition page_safe (a n : Z) : Prop := n ≤ chunk a + 256 ∨ (chunk a | 256).

Lemma chunk_range a : 0 < chunk a ≤ 256.
Proof. unfold chunk. pose proof (Z.mod_pos_bound a 256 ltac:(lia)). lia. Qed.

(** A chunk that starts at a multiple of its size, a divisor of the page's,
    stays in its page. *)
Lemma chunk_in_page (k d : Z) : 0 < k → (k | 256) → (k | d) → d mod 256 + k ≤ 256.
Proof.
  intros Hk [u Hu] [v ->]. rewrite Hu. assert (0 < u) by nia.
  rewrite Zmult_mod_distr_r. pose proof (Z.mod_pos_bound v u ltac:(lia)). nia.
Qed.

(** The chunks behind the first one, from the start of the second page on. *)
Lemma chunk_start a : ∃ q, a + chunk a = 256 * q.
Proof. exists (a / 256 + 1). unfold chunk. pose proof (Z.div_mod a 256 ltac:(lia)). lia. Qed.

Lemma safe_chunks a n (j : Z) :
  page_safe a n → 0 ≤ j → j * chunk a < n →
  (a + j * chunk a) mod 256 + Z.min (chunk a) (n - j * chunk a) ≤ 256.
Proof.
  intros Hs Hj Hlt. pose proof (chunk_range a) as Hk. destruct (chunk_start a) as [q Hq].
  destruct Hs as [Hn|Hd].
  - destruct (decide (j = 0)) as [->|].
    + rewrite Z.mul_0_l, Z.add_0_r. unfold chunk. lia.
    + replace (a + j * chunk a) with ((j - 1) * chunk a + q * 256) by lia.
      rewrite Z.mod_add, Z.mod_small by nia. nia.
  - assert (Ha : (chunk a | a + j * chunk a)).
    { apply Z.divide_add_r; [|apply Z.divide_factor_r].
      replace a with (256 * q - chunk a) at 2 by lia.
      apply Z.divide_sub_r; [by apply Z.divide_mul_l|apply Z.divide_refl]. }
    pose proof (chunk_in_page (chunk a) _ ltac:(lia) Hd Ha). lia.
Qed.

Lemma program_chunks_in_pages fuel (k : nat) c a l x :
  (0 < k)%nat → 0 ≤ a → (length l ≤ fuel)%nat →
  (∀ j, 0 ≤ j → j * k < length l → (a + j * k) mod 256 + Z.min k (length l - j * k) ≤ 256) →
  program_chunks fuel k c a l x = land_cells c a l x.
Proof.
  intros Hk. revert c a l. induction fuel as [|fuel IH]; intros c a l H0 Hl Hin.
  - destruct l; [|simpl in Hl; lia]. unfold land_cells. simpl. by rewrite decide_False by lia.
  - destruct l as [|y l']; [unfold land_cells; simpl; by rewrite decide_False by lia|].
    cbn [program_chunks]. set (l := y :: l') in *. assert (0 < length l)%nat by (cbn; lia).
    rewrite IH; [|lia|rewrite length_drop; unfold l in *; simpl in *; lia|].
    2: { intros j Hj Hlt. rewrite length_drop in *. specialize (Hin (j + 1) ltac:(lia) ltac:(lia)).
         replace (a + k + j * k) with (a + (j + 1) * k) by lia. lia. }
    specialize (Hin 0 ltac:(lia) ltac:(lia)). rewrite Z.mul_0_l, Z.add_0_r in Hin.
    rewrite (land_cells_ext _ (land_cells c a (take k l)))
      by (apply program_in_page; [lia|rewrite length_take; lia]).
    destruct (Nat.le_gt_cases k (length l)) as [Hle|Hgt].
    + replace (a + k) with (a + length (take k l)) by (rewrite length_take; lia).
      by rewrite land_cells_app, take_drop.
    + rewrite drop_ge, take_ge by lia. unfold land_cells at 1. simpl length.
      by rewrite decide_False by lia.
Qed.

(** A safe write programs exactly its range. *)
Lemma written_safe c a l x :
  0 ≤ a → page_safe a (length l) → written c a l x = land_cells c a l x.
Proof.
  intros Ha Hs. pose proof (chunk_range a) as Hk. apply program_chunks_in_pages; [lia|done|done|].
  intros j Hj Hlt. rewrite Z2Nat.id in * by lia. by apply safe_chunks.
Qed.

(** The first cell of the third page of a write that is not safe: only a chunk
    that starts there would program it. *)
Lemma chunks_miss (k : nat) E (i : nat) l0 : 0 ≤ E → E mod 256 = 0 →
  (∀ (n : nat) x, l0 !! n = Some x → n ≠ i → x = 255) →
  ∀ fuel (n : nat) c a, 0 ≤ a → a + (i - n) = E → (∀ j : nat, a + j * k ≠ E) → c E = 255 →
    program_chunks fuel k c a (drop n l0) E = 255.
Proof.
  intros HE Hmod H255. induction fuel as [|fuel IH]; intros n c a Ha Hi Hne Hc; [done|].
  cbn [program_chunks]. destruct (drop n l0) as [|y r] eqn:Ed; [done|]. rewrite <- Ed, drop_drop.
  apply IH; [lia|lia|intros j; specialize (Hne (Datatypes.S j)); lia|].
  unfold program_cells, latched. destruct (Z.eqb_spec (E / 256) (a / 256)) as [Hp|]; [|done].
  specialize (Hne 0%nat).
  destruct (take k (drop n l0) !! Z.to_nat ((E - a) mod 256)) as [d|] eqn:El; [|by rewrite Hc].
  apply lookup_take_Some in El as [El _]. rewrite lookup_drop in El. rewrite Hc.
  rewrite (H255 _ _ El); [done|]. Z.div_mod_to_equations. lia.
Qed.

(** The page bound is computed from the start of the buffer and not from the
    current address: whenever a write is not safe there are bytes for which
    an erased chip does not hold them afterwards. *)
Lemma written_unsafe a (n : nat) :
  0 ≤ a → ¬ page_safe a n →
  ∃ l x, length l = n ∧ Forall is_byte l ∧ a ≤ x < a + n ∧
    ∀ c, c x = 255 → written c a l x = 255 ∧ land_cells c a l x = 0.
Proof.
  intros Ha Hs. pose proof (chunk_range a) as Hk. destruct (chunk_start a) as [q Hq].
  unfold page_safe in Hs. apply Decidable.not_or in Hs as [Hn Hd].
  set (i := Z.to_nat (chunk a + 256)). set (l := <[i := 0]> (replicate n 255)).
  assert (Hl : length l = n) by (unfold l; by rewrite length_insert, length_replicate).
  assert (Hi : l !! i = Some 0) by (apply list_lookup_insert_eq; rewrite length_replicate; lia).
  exists l, (a + i). split; [done|]. split; [|split; [lia|]].
  { apply Forall_insert; [apply Forall_replicate|]; unfold is_byte; lia. }
  intros c Hc. split.
  - unfold written. rewrite <- (drop_0 l) at 2.
    apply (chunks_miss _ _ i); [lia|..|done|lia| |done].
    + replace (a + i) with (0 + (q + 1) * 256) by lia. by rewrite Z.mod_add.
    + intros k x Hx Hne. unfold l in Hx. rewrite list_lookup_insert_ne in Hx by done.
      by apply lookup_replicate in Hx as [-> _].
    + intros j E. apply Hd. exists (j - 1). rewrite Z2Nat.id in E by lia. lia.
  - unfold land_cells. rewrite decide_True by lia. replace (a + i - a) with (i : Z) by lia.
    rewrite Nat2Z.id. replace (nth i l 0) with 0; [by rewrite Z.land_0_r|].
    symmetry. apply nth_lookup_Some. by rewrite Hi.
Qed.

(** Writing the bytes [l] to the flash address [CFG_FLASH_BASE + a]. *)
Lemma write_buff_chunks s info m src a l :
  settled s → bytes_at m src l → Forall is_byte l → 0 ≤ a → a + length l ≤ 16777216 →
  ∃ s', write_buff s m info src (CFG_FLASH_BASE + a) (length l) = Some (s', 0) ∧ released s' ∧
    cells s' = written (cells s) a l.
Proof.
  intros Hs Hm Hb Ha Hlen. unfold write_buff.
  replace (CFG_FLASH_BASE + a - CFG_FLASH_BASE) with a by lia.
  change ATH_SPI_PAGE_SIZE with 256. rewrite (u32_small a) by lia.
  pose proof (Z.mod_pos_bound a 256 ltac:(lia)) as Hmod.
  unfold written. fold (chunk a). set (k := chunk a) in *. unfold chunk in k.
  set (goal := program_chunks _ _ _ _ _).
  destruct (while_rule (λ '(s, total),
    if negb (u32 total <? length l) then Some (Done s) else
    s ← ath_spi_write_page s m (u32 (a + total)) (src + total)
          (s32 (if u32 (length l - total) >? k then k else u32 (length l - total)));
    Some (Next (s, s32 (total +
      s32 (if u32 (length l - total) >? k then k else u32 (length l - total))))))
    (λ '(t, i), settled t ∧ 0 ≤ i ≤ length l ∧
       ∃ fuel : nat, (length l - i ≤ fuel) ∧
         program_chunks fuel (Z.to_nat k) (cells t) (a + i) (drop (Z.to_nat i) l) = goal)
    (λ '(t, total), length l - total)
    (λ t, settled t ∧ cells t = goal) (s, 0)) as (t & -> & Ht & Hc).
  - intros [t i] (Ht & Hi & fuel & Hfuel & Hg). rewrite (u32_small i) by lia.
    destruct (Z.ltb_spec i (length l)) as [Hlt|Hge]; cbn [negb].
    + rewrite (u32_small (length l - i)) by lia.
      assert (En : s32 (if length l - i >? k then k else length l - i) =
                   length (take (Z.to_nat k) (drop (Z.to_nat i) l))).
      { rewrite Z.gtb_ltb, length_take, length_drop.
        destruct (Z.ltb_spec k (length l - i)); rewrite s32_small; lia. }
      rewrite !En. set (part := take _ _) in *. rewrite (u32_small (a + i)) by lia.
      assert (Hpart : Z.of_nat (length part) = Z.min k (length l - i)).
      { unfold part. rewrite length_take, length_drop. lia. }
      destruct (write_page_cells t m (a + i) (src + i) part) as (t' & -> & Ht' & _ & Hc').
      * done.
      * apply bytes_at_take. replace (src + i) with (src + Z.to_nat i) by lia.
        apply bytes_at_drop; [done|lia].
      * apply Forall_take, Forall_drop, Hb.
      * lia.
      * rewrite some_bind. eexists. split; [reflexivity|]. cbv beta iota.
        rewrite s32_small by lia. split; [|lia]. split; [done|]. split; [lia|].
        destruct fuel as [|fuel]; [lia|]. exists fuel. split; [lia|]. rewrite <- Hg.
        cbn [program_chunks]. destruct (drop (Z.to_nat i) l) as [|y l'] eqn:El.
        { apply (f_equal length) in El. rewrite length_drop in El. simpl in El. lia. }
        rewrite Hc', Z.mod_small by lia.
        destruct (Z.le_gt_cases k (length l - i)) as [Hle|Hgt].
        -- rewrite Hpart, Z.min_l by lia. rewrite <- El. rewrite drop_drop, El.
           f_equal; [lia|f_equal; lia].
        -- rewrite drop_ge, (drop_ge (y :: l')) by
             (rewrite <- ?El, ?length_drop; lia). by destruct fuel.
    + eexists. split; [reflexivity|]. cbv beta iota. split; [done|].
      rewrite drop_ge in Hg by lia. rewrite <- Hg. by destruct fuel.
  - split; [done|]. split; [lia|]. exists (length l). split; [lia|]. by rewrite Z.add_0_r.
  - lia.
  - rewrite some_bind. destruct (done_released t Ht) as [Hr Hc'].
    eexists. split; [reflexivity|]. split; [done|]. by rewrite Hc'.
Qed.
End ranges.

(** ** Any board with such a chip

    What the driver relies on: the writes to the SPI registers reach the chip,
    and the least significant bit of the answer to a status command is the
    chip's busy flag. *)

Class SpiFlash (S : Type) `{Bus S} := {
  chip : S → nor;
  chip_wr s r v : chip (reg_wr s r v) = nor_wr (chip s) r v;
  chip_rd s r : chip (reg_rd s r).1 = (nor_rd (chip s) r).1;
  chip_status s :
    (∃ l, shift (chip s) = wire_bits [ATH_SPI_CMD_RD_STATUS; l]) →
    Z.testbit (reg_rd s ATH_SPI_RD_STATUS).2 0 = negb (busy (chip s) =? 0)%nat
}.

#[export] Instance nor_flash : SpiFlash nor.
Proof.
  refine {| chip := λ s, s |}; [done|done|].
  intros s [l E]. unfold reg_rd, nor_bus, nor_rd. rewrite E.
  change (hd 0 (bytes_of_bits (length (wire_bits [ATH_SPI_CMD_RD_STATUS; l]))
    (wire_bits [ATH_SPI_CMD_RD_STATUS; l]))) with 5.
  cbn. by destruct (busy s =? 0)%nat.
Defined.

Section board.
Context {S : Type} `{SpiFlash S}.
Implicit Types s : S.

Lemma chip_reg s r v : chip (ath_reg_wr_nf s r v) = ath_reg_wr_nf (chip s) r v.
Proof. apply chip_wr. Qed.

Lemma chip_bang s v : chip (ath_spi_bit_banger s v) = ath_spi_bit_banger (chip s) v.
Proof.
  assert (E : ∀ s i, chip (ath_spi_bit s v i) = ath_spi_bit (chip s) v i)
    by (intros; unfold ath_spi_bit; by rewrite !chip_reg).
  unfold ath_spi_bit_banger. cbn [foldl]. by rewrite !E.
Qed.

Lemma chip_go s : chip (ath_spi_go s) = ath_spi_go (chip s).
Proof. unfold ath_spi_go. by rewrite !chip_reg. Qed.

Lemma chip_send_addr s a : chip (ath_spi_send_addr s a) = ath_spi_send_addr (chip s) a.
Proof. unfold ath_spi_send_addr. by rewrite !chip_bang. Qed.

Lemma chip_write_enable s : chip (ath_spi_write_enable s) = ath_spi_write_enable (chip s).
Proof. unfold ath_spi_write_enable. by rewrite chip_go, chip_bang, !chip_reg. Qed.

(** The function select stays on. *)
Lemma fs_wr (c : nor) v : fs (nor_wr c ATH_SPI_WRITE v) = fs c.
Proof.
  unfold nor_wr. change (ATH_SPI_WRITE =? ATH_SPI_FS) with false.
  change (ATH_SPI_WRITE =? ATH_SPI_WRITE) with true. cbn [andb].
  destruct (fs c) eqn:E; [|done]. destruct (Z.testbit v 16).
  - destruct (Z.testbit (wires c) 16); [done|]. cbn [fs]. rewrite <- E. unfold nor_exec.
    destruct (negb _); [done|].
    repeat (match goal with |- context [match ?x with _ => _ end] => destruct x end; try done).
  - by destruct (_ && _).
Qed.

Lemma fs_bang (c : nor) v : fs (ath_spi_bit_banger c v) = fs c.
Proof.
  unfold ath_spi_bit_banger, ath_spi_bit, ath_reg_wr_nf, reg_wr, nor_bus. cbn [foldl].
  by rewrite !fs_wr.
Qed.

Lemma fs_send_addr (c : nor) a : fs (ath_spi_send_addr c a) = fs c.
Proof. unfold ath_spi_send_addr. by rewrite !fs_bang. Qed.

Lemma fs_go (c : nor) : fs (ath_spi_go c) = fs c.
Proof. unfold ath_spi_go, ath_reg_wr_nf, reg_wr, nor_bus. by rewrite !fs_wr. Qed.

Lemma fs_write_enable (c : nor) : fs (ath_spi_write_enable c) = true.
Proof.
  unfold ath_spi_write_enable. rewrite fs_go, fs_bang. unfold ath_reg_wr_nf at 1.
  unfold reg_wr, nor_bus. by rewrite fs_wr.
Qed.

Lemma shift_cs_dis (c : nor) :
  fs c = true → shift (ath_reg_wr_nf c ATH_SPI_WRITE ATH_SPI_CS_DIS) = [].
Proof.
  intros Hf. unfold ath_reg_wr_nf, reg_wr, nor_bus, nor_wr. rewrite Hf. reflexivity.
Qed.

Lemma chip_poll s : fs (chip s) = true → ath_spi_poll (chip s) = chip <$> ath_spi_poll s.
Proof.
  intros Hf. unfold ath_spi_poll. 
  refine (proj1 (while_map chip chip (λ s, fs (chip s) = true) (λ _, True) _ _ _ s Hf)).
  clear s Hf. intros s Hf. set (s1 := ath_reg_wr_nf s ATH_SPI_WRITE ATH_SPI_CS_DIS).
  assert (E1 : ath_reg_wr_nf (chip s) ATH_SPI_WRITE ATH_SPI_CS_DIS = chip s1)
    by (by rewrite <- chip_reg).
  rewrite E1. assert (Hf1 : fs (chip s1) = true).
  { rewrite <- E1. unfold ath_reg_wr_nf, reg_wr, nor_bus. by rewrite fs_wr. }
  assert (Hs1 : shift (chip s1) = []) by (rewrite <- E1; by apply shift_cs_dis).
  clearbody s1. clear E1. unfold ath_spi_delay_8. rewrite <- !chip_bang.
  set (s2 := ath_spi_bit_banger (ath_spi_bit_banger s1 ATH_SPI_CMD_RD_STATUS) 0).
  assert (Hs2 : shift (chip s2) = wire_bits [ATH_SPI_CMD_RD_STATUS; 0] ∧ fs (chip s2) = true).
  { unfold s2. rewrite !chip_bang, bang by (by rewrite fs_bang). rewrite bang by done.
    cbn [shift with_wires fs]. by rewrite Hs1. }
  clearbody s2. destruct Hs2 as [Hs2 Hf2].
  pose proof (chip_status s2 ltac:(by exists 0)) as Hst.
  pose proof (chip_rd s2 ATH_SPI_RD_STATUS) as Hrd.
  unfold ath_reg_rd. destruct (reg_rd s2 ATH_SPI_RD_STATUS) as [s3 v] eqn:E3. cbn [fst snd] in *.
  unfold reg_rd, nor_bus, nor_rd in *. rewrite Hs2 in *.
  assert (E5 : hd 0 (bytes_of_bits (length (wire_bits [ATH_SPI_CMD_RD_STATUS; 0]))
    (wire_bits [ATH_SPI_CMD_RD_STATUS; 0])) = 5) by done.
  rewrite E5 in *. change ((ATH_SPI_RD_STATUS =? ATH_SPI_RD_STATUS) && (5 =? 5)) with true in *.
  cbv iota in *. cbn [fst] in Hrd. rewrite <- Hrd.
  assert (Ev : (Z.land v 1 =? 0) = (busy (chip s2) =? 0)%nat).
  { change 1 with (Z.ones 1). rewrite Z.land_ones, <- Z.bit0_mod, Hst by done.
    by destruct (busy (chip s2) =? 0)%nat. }
  rewrite Ev. destruct (busy (chip s2) =? 0)%nat; cbn; [done|].
  split; [done|]. by rewrite Hrd.
Qed.

Lemma chip_sector_erase s a :
  ath_spi_sector_erase (chip s) a = chip <$> ath_spi_sector_erase s a.
Proof.
  unfold ath_spi_sector_erase.
  rewrite <- chip_write_enable, <- chip_bang, <- chip_send_addr, <- chip_go.
  apply chip_poll.
  by rewrite chip_go, chip_send_addr, chip_bang, chip_write_enable, fs_go, fs_send_addr, fs_bang,
    fs_write_enable.
Qed.

Lemma chip_write_page s m a data n :
  ath_spi_write_page (chip s) m a data n = chip <$> ath_spi_write_page s m a data n.
Proof.
  unfold ath_spi_write_page.
  rewrite <- chip_write_enable, <- chip_bang, <- chip_send_addr.
  set (s1 := ath_spi_send_addr _ _).
  assert (Hf : fs (chip s1) = true).
  { unfold s1. by rewrite chip_send_addr, chip_bang, chip_write_enable, fs_send_addr, fs_bang,
      fs_write_enable. }
  clearbody s1.
  destruct (while_map (λ '(s, i), (chip s, i)) chip
    (λ '(s, i), fs (chip s) = true) (λ s, fs (chip s) = true)
    (λ '(s, i),
      if negb (i <? n) then Some (Done s) else
      ch ← ld m (data + i);
      Some (Next (ath_spi_bit_banger s ch, i + 1)))
    (λ '(s, i),
      if negb (i <? n) then Some (Done s) else
      ch ← ld m (data + i);
      Some (Next (ath_spi_bit_banger s ch, i + 1)))) with (s := (s1, 0)) as [E Hd]; [|done|].
  - intros [t i] Ht. cbv beta iota. destruct (negb (i <? n)); [done|].
    destruct (ld m (data + i)) as [ch|]; [|done]. rewrite !some_bind.
    cbn [fmap option_fmap option_map ctl_map ctl_keeps]. rewrite chip_bang, fs_bang. by split.
  - rewrite E. destruct (while _ (s1, 0)) as [s2|]; [|done]. cbn [fmap option_fmap option_map].
    rewrite !some_bind, <- chip_go. apply chip_poll. by rewrite chip_go, fs_go.
Qed.

(** A loop of operations on the board is one of operations on its chip. *)
Lemma chip_loop (op1 : S → Z → option S) (op2 : nor → Z → option nor) (c : Z → bool)
    (next : Z → Z) s i :
  (∀ s i, op2 (chip s) i = chip <$> op1 s i) →
  while (λ '(s, i), if c i then Some (Done s) else s ← op2 s i; Some (Next (s, next i))) (chip s, i)
  = chip <$>
  while (λ '(s, i), if c i then Some (Done s) else s ← op1 s i; Some (Next (s, next i))) (s, i).
Proof.
  intros Hop.
  refine (proj1 (while_map (λ '(s, i), (chip s, i)) chip (λ _, True) (λ _, True) _ _ _ (s, i) I)).
  intros [t j] _. cbv beta iota. destruct (c j); [done|]. rewrite Hop.
  by destruct (op1 t j).
Qed.

Definition chip_result (r : S * Z) : nor * Z := (chip r.1, r.2).

Lemma chip_flash_erase s info f l :
  flash_erase (chip s) info f l = chip_result <$> flash_erase s info f l.
Proof.
  unfold flash_erase. cbv zeta.
  rewrite (chip_loop (λ s i, ath_spi_sector_erase s (u32 (i * s32 (size info / sector_count info))))
    _ (λ i, negb (i <=? l)) (λ i, i + 1) s f)
    by (intros; apply chip_sector_erase).
  destruct (while _ (s, f)) as [t|]; [|done]. cbn. unfold chip_result. cbn.
  do 2 f_equal. unfold ath_spi_done. by rewrite chip_reg.
Qed.

Lemma chip_write_buff s m info src addr len :
  write_buff (chip s) m info src addr len = chip_result <$> write_buff s m info src addr len.
Proof.
  unfold write_buff. cbv zeta.
  set (a := u32 (addr - CFG_FLASH_BASE)). set (k := ATH_SPI_PAGE_SIZE - a mod ATH_SPI_PAGE_SIZE).
  rewrite (chip_loop (λ s i, ath_spi_write_page s m (u32 (a + i)) (src + i)
    (s32 (if u32 (len - i) >? k then k else u32 (len - i))))
    _ (λ i, negb (u32 i <? len))
    (λ i, s32 (i + s32 (if u32 (len - i) >? k then k else u32 (len - i)))) s 0)
    by (intros; apply chip_write_page).
  destruct (while _ (s, 0)) as [t|]; [|done]. cbn. unfold chip_result. cbn.
  do 2 f_equal. unfold ath_spi_done. by rewrite chip_reg.
Qed.

Lemma board_write_buff s info m src a l :
  settled (chip s) → bytes_at m src l → Forall is_byte l → 0 ≤ a → a + length l ≤ 16777216 →
  ∃ s', write_buff s m info src (CFG_FLASH_BASE + a) (length l) = Some (s', 0) ∧
    released (chip s') ∧
    cells (chip s') = written (cells (chip s)) a l.
Proof.
  intros H1 H2 H3 H4 H5.
  destruct (write_buff_chunks (chip s) info m src a l H1 H2 H3 H4 H5) as (t & E & Ht).
  rewrite chip_write_buff in E. destruct (write_buff s m info src _ _) as [[s' r]|]; [|done].
  injection E as E1 E2. exists s'. cbn in E1, E2. by subst t r.
Qed.

Lemma board_flash_erase s info s_first s_last :
  settled (chip s) → size info = 65536 * sector_count info → 0 < sector_count info ≤ 256 →
  0 ≤ s_first → s_last < sector_count info →
  ∃ s', flash_erase s info s_first s_last = Some (s', 0) ∧ released (chip s') ∧
    ∀ x, cells (chip s') x = if decide (s_first ≤ x / 65536 ≤ s_last) then 255 else cells (chip s) x.
Proof.
  intros H1 H2 H3 H4 H5.
  destruct (flash_erase_cells (chip s) info s_first s_last H1 H2 H3 H4 H5) as (t & E & Ht).
  rewrite chip_flash_erase in E. destruct (flash_erase s info s_first s_last) as [[s' r]|]; [|done].
  injection E as E1 E2. exists s'. cbn in E1, E2. by subst t r.
Qed.

(** C13: ([flash_erase]) on any board with such a chip, the erase of the sectors [s_first] to [s_last]
    terminates and reports success; every cell of those sectors then reads
    0xff, every other cell is unchanged, and the chip is ready and released. *)
Theorem flash_erase_range s info s_first s_last :
  settled (chip s) → size info = 65536 * sector_count info → 0 < sector_count info ≤ 256 →
  0 ≤ s_first → s_last < sector_count info →
  ∃ s', flash_erase s info s_first s_last = Some (s', 0) ∧ released (chip s') ∧
    ∀ x, cells (chip s') x = if decide (s_first ≤ x / 65536 ≤ s_last) then 255 else cells (chip s) x.
Proof. apply board_flash_erase. Qed.

(** C12: ([write_buff]) writing [l] to the flash address [a], any address of
    the chip, terminates and reports success; the bytes go out in chunks that
    are as long as the first page has room, each a page program, which the
    chip wraps at the end of its page ([written]).  If no chunk crosses an
    end of a page, that is when the write ends in the page behind its first
    one or the size of the chunks divides 256 ([page_safe]), cell [a + i] then
    holds its old value with the bits that are 0 in byte [i] of [l] cleared
    (the byte itself if the cell was erased), and every other cell is
    unchanged.  ([written_unsafe]: otherwise there are bytes for which this
    fails.) *)
Theorem write_buff_range s info m src a l :
  settled (chip s) → bytes_at m src l → Forall is_byte l →
  0 ≤ a → a + length l ≤ 16777216 →
  ∃ s', write_buff s m info src (CFG_FLASH_BASE + a) (length l) = Some (s', 0) ∧
    released (chip s') ∧ cells (chip s') = written (cells (chip s)) a l ∧
    (page_safe a (length l) → ∀ x, cells (chip s') x = land_cells (cells (chip s)) a l x).
Proof.
  intros H1 H2 H3 H4 H5. destruct (board_write_buff s info m src a l H1 H2 H3 H4 H5) as (s' & E & Hr & Hc).
  exists s'. split; [done|]. split; [done|]. split; [done|]. intros Hs x. rewrite Hc. by apply written_safe.
Qed.

(** ([ath_is_rst_btn_pressed]) the button counts as pressed exactly when two successive reads of the
    input register agree and its bit is low in them. *)
Lemma rst_btn_pressed_iff s s1 s2 v1 v2 button :
  0 ≤ button < 31 →
  ath_reg_rd s GPIO_IN_ADDRESS = (s1, v1) → ath_reg_rd s1 GPIO_IN_ADDRESS = (s2, v2) →
  ath_is_rst_btn_pressed s button =
    (s2, if decide (v1 = v2 ∧ Z.testbit v2 button = false) then 1 else 0).
Proof.
  intros Hb E1 E2. unfold ath_is_rst_btn_pressed. rewrite E1, E2.
  destruct (Z.eqb_spec v1 v2) as [->|Hne]; cbn [negb]; [|rewrite decide_False by tauto; done].
  f_equal. rewrite Z.shiftl_1_l, Z.shiftr_land, Z.shiftr_div_pow2, Z.shiftr_div_pow2 by lia.
  rewrite Z.div_same by (apply Z.pow_nonzero; lia). change 1 with (Z.ones 1) at 2.
  rewrite Z.land_ones, <- Z.bit0_mod by lia. rewrite <- Z.shiftr_div_pow2, Z.shiftr_spec by lia.
  rewrite Z.add_0_l. destruct (Z.testbit v2 button).
  - rewrite decide_False by (intros [_ ?]; done). done.
  - by rewrite decide_True.
Qed.
End board.

(** *** A concrete chip *)

(** Erased, and busy for two status reads after the first operation. *)
Definition blank_nor : nor := Nor false ATH_SPI_CS_DIS [] false 0 [2%nat; 1%nat] (λ _, 255).

Lemma blank_settled : settled (chip blank_nor).
Proof. split; [done|by left|]. repeat constructor; simpl; lia. Qed.

Lemma flash_erase_range_witness :
  ∃ s', flash_erase blank_nor flash_get_geom 2 3 = Some (s', 0) ∧ released (chip s') ∧
    ∀ x, cells (chip s') x = if decide (2 ≤ x / 65536 ≤ 3) then 255 else cells (chip blank_nor) x.
Proof.
  apply (flash_erase_range blank_nor flash_get_geom 2 3).
  - exact blank_settled.
  - reflexivity.
  - vm_compute. by split.
  - lia.
  - reflexivity.
Defined.

Lemma write_buff_range_witness :
  ∃ s', write_buff blank_nor (mem_of 4096 [1; 2; 3]) flash_get_geom 4096 (CFG_FLASH_BASE + 254)
          (length [1; 2; 3]) = Some (s', 0) ∧ released (chip s') ∧
    cells (chip s') = written (cells (chip blank_nor)) 254 [1; 2; 3] ∧
    (page_safe 254 (length [1; 2; 3]) →
     ∀ x, cells (chip s') x = land_cells (cells (chip blank_nor)) 254 [1; 2; 3] x).
Proof.
  apply (write_buff_range blank_nor flash_get_geom (mem_of 4096 [1; 2; 3]) 4096 254 [1; 2; 3]).
  - exact blank_settled.
  - apply write_bytes_in.
  - repeat constructor; unfold is_byte; lia.
  - lia.
  - simpl. lia.
Defined.
