(* ===== verification/Serial.v ===== *)
(** * The serial port ([board/atheros/common/serial.c])

    The driver polls a 16550: every character waits for the transmitter, and a
    newline goes out behind a carriage return.  [ath_uart_wr] reads the
    register back after it has written it, and at the place of the send buffer
    that is the receive buffer: every character sent takes one that was
    received out of its queue. *)

From S2P Require Import Prelude.
From S2P Require Import Spi.

(** ** Registers ([include/atheros.h], [include/953x.h]) *)

Definition CONFIG_BAUDRATE : Z := 115200.
Definition ATH_APB_BASE : Z := 0x18000000.
Definition ATH_UART_BASE : Z := ATH_APB_BASE + 0x00020000.
Definition REG_OFFSET : Z := 4.
Definition OFS_RCV_BUFFER : Z := 0 * REG_OFFSET.
Definition OFS_SEND_BUFFER : Z := 0 * REG_OFFSET.
Definition OFS_INTR_ENABLE : Z := 1 * REG_OFFSET.
Definition OFS_DATA_FORMAT : Z := 3 * REG_OFFSET.
Definition OFS_LINE_CONTROL : Z := 3 * REG_OFFSET.
Definition OFS_LINE_STATUS : Z := 5 * REG_OFFSET.
Definition OFS_DIVISOR_LSB : Z := 0 * REG_OFFSET.
Definition OFS_DIVISOR_MSB : Z := 1 * REG_OFFSET.
Definition GPIO_OUT_FUNCTION2_ADDRESS : Z := 0x18040034.
Definition GPIO_IN_ENABLE0_ADDRESS : Z := 0x18040044.
Definition GPIO_SPARE_ADDRESS : Z := 0x18040070.
Definition GPIO_OUT_FUNCTION2_ENABLE_GPIO_10_SET (x : Z) : Z := Z.land (Z.shiftl x 16) 0x00ff0000.
Definition GPIO_IN_ENABLE0_UART_SIN_SET (x : Z) : Z := Z.land (Z.shiftl x 8) 0x0000ff00.

(** The clock of the port ([init-953x.c]). *)
Definition ath_uart_freq : Z := 25 * 1000 * 1000.

Section driver.
Context {S : Type} `{Bus S}.
Implicit Types (s : S).

Definition ath_uart_rd s (y : Z) : S * Z := ath_reg_rd s (ATH_UART_BASE + y).
Definition ath_uart_wr s (x z : Z) : S := ath_reg_wr s (ATH_UART_BASE + x) z.

Definition serial_init s : S :=
  let div := u32 (ath_uart_freq / (16 * CONFIG_BAUDRATE)) in
  let '(s, val) := ath_reg_rd s GPIO_OE_ADDRESS in
  let s := ath_reg_wr s GPIO_OE_ADDRESS (Z.land val (Z.lnot 0xcffc10)) in
  let s := ath_reg_rmw_set s GPIO_OUT_FUNCTION2_ADDRESS (GPIO_OUT_FUNCTION2_ENABLE_GPIO_10_SET 0x16) in
  let s := ath_reg_rmw_clear s GPIO_IN_ENABLE0_ADDRESS (GPIO_IN_ENABLE0_UART_SIN_SET 0xff) in
  let s := ath_reg_rmw_set s GPIO_IN_ENABLE0_ADDRESS (GPIO_IN_ENABLE0_UART_SIN_SET 0x9) in
  let '(s, val) := ath_reg_rd s GPIO_SPARE_ADDRESS in
  let s := ath_reg_wr s GPIO_SPARE_ADDRESS (Z.lor val 0x8402) in
  let s := ath_uart_wr s OFS_LINE_CONTROL 0x80 in
  let s := ath_uart_wr s OFS_DIVISOR_LSB (Z.land div 0xff) in
  let s := ath_uart_wr s OFS_DIVISOR_MSB (Z.land (Z.shiftr div 8) 0xff) in
  let s := ath_uart_wr s OFS_LINE_CONTROL 0x00 in
  let s := ath_uart_wr s OFS_DATA_FORMAT 0x3 in
  ath_uart_wr s OFS_INTR_ENABLE 0.

Definition serial_tstc s : S * Z :=
  let '(s, x) := ath_uart_rd s OFS_LINE_STATUS in (s, Z.land x 0x1).

(** [None] when no character ever comes. *)
Definition serial_getc s : option (S * Z) :=
  s ← while (λ s, let '(s, x) := serial_tstc s in
         Some (if negb (x =? 0) then Done s else Next s)) s;
  let '(s, c) := ath_uart_rd s OFS_RCV_BUFFER in Some (s, u8 c).

(** The wait for the transmitter and one character. *)
Definition send_byte s (byte : Z) : option S :=
  s ← while (λ s, let '(s, x) := ath_uart_rd s OFS_LINE_STATUS in
         Some (if Z.land x 0x20 =? 0 then Next s else Done s)) s;
  Some (ath_uart_wr s OFS_SEND_BUFFER byte).

(** The call for the carriage return goes one level deep. *)
Definition serial_putc s (byte : Z) : option S :=
  s ← (if byte =? 10 then send_byte s 13 else Some s);
  send_byte s byte.

Definition serial_puts s (m : mem) (str : Z) : option S :=
  while (λ '(s, p),
    c ← ld m p;
    if negb (c =? 0) then s ← serial_putc s c; Some (Next (s, p + 1))
    else Some (Done s)) (s, str).
End driver.

(** ** The port behind the registers

    A 16550 with the latch bit of its line control register; the other
    registers of the chip are cells.  What is typed is one list, of which the
    first [received] characters have arrived.  [arriving] says how many arrive
    before each look at the line status, [durations] how many looks each
    character sent takes. *)

Record uart := Uart {
  cells : gmap Z Z;
  lcr : Z;
  ier : Z;
  dll : Z;
  dlm : Z;
  typed : list Z;
  received : nat;
  sent : list Z;
  sending : nat;
  arriving : list nat;
  durations : list nat
}.

Definition latch (u : uart) : bool := Z.testbit (lcr u) 7.

(** A read of the receive buffer takes the oldest character received. *)
Definition take_received (u : uart) : uart * Z :=
  match received u, typed u with
  | S n, c :: l =>
      (Uart (cells u) (lcr u) (ier u) (dll u) (dlm u) l n (sent u) (sending u) (arriving u) (durations u), c)
  | _, _ => (u, 0)
  end.

(** A look at the line status; time goes on. *)
Definition look (u : uart) : uart * Z :=
  let n := Nat.min (length (typed u)) (received u + hd 0%nat (arriving u)) in
  let d := Nat.pred (sending u) in
  (Uart (cells u) (lcr u) (ier u) (dll u) (dlm u) (typed u) n (sent u) d (tail (arriving u)) (durations u),
   (if decide (n = 0%nat) then 0 else 0x01) + (if decide (d = 0%nat) then 0x60 else 0)).

(** A character written while another is being sent is lost. *)
Definition transmit (u : uart) (v : Z) : uart :=
  if decide (sending u = 0%nat) then
    Uart (cells u) (lcr u) (ier u) (dll u) (dlm u) (typed u) (received u) (sent u ++ [u8 v])
      (hd 0%nat (durations u)) (arriving u) (tail (durations u))
  else u.

Definition uart_wr (u : uart) (a v : Z) : uart :=
  if a =? ATH_UART_BASE + 0 then
    if latch u then Uart (cells u) (lcr u) (ier u) (u8 v) (dlm u) (typed u) (received u) (sent u) (sending u) (arriving u) (durations u)
    else transmit u v
  else if a =? ATH_UART_BASE + 4 then
    if latch u then Uart (cells u) (lcr u) (ier u) (dll u) (u8 v) (typed u) (received u) (sent u) (sending u) (arriving u) (durations u)
    else Uart (cells u) (lcr u) (u8 v) (dll u) (dlm u) (typed u) (received u) (sent u) (sending u) (arriving u) (durations u)
  else if a =? ATH_UART_BASE + 12 then
    Uart (cells u) (u8 v) (ier u) (dll u) (dlm u) (typed u) (received u) (sent u) (sending u) (arriving u) (durations u)
  else Uart (<[a := v]> (cells u)) (lcr u) (ier u) (dll u) (dlm u) (typed u) (received u) (sent u) (sending u) (arriving u) (durations u).

Definition cell_of (u : uart) (a : Z) : Z := default 0 (cells u !! a).

Definition uart_rd (u : uart) (a : Z) : uart * Z :=
  if a =? ATH_UART_BASE + 0 then if latch u then (u, dll u) else take_received u
  else if a =? ATH_UART_BASE + 4 then (u, if latch u then dlm u else ier u)
  else if a =? ATH_UART_BASE + 12 then (u, lcr u)
  else if a =? ATH_UART_BASE + 20 then look u
  else (u, cell_of u a).

#[export] Instance uart_bus : Bus uart := { reg_wr := uart_wr; reg_rd := uart_rd }.

(** The port is set up, what has arrived was typed, and no character takes
    for ever. *)
Record ready (u : uart) : Prop := Ready {
  r_latch : latch u = false;
  r_received : (received u ≤ length (typed u))%nat;
  r_sending : Z.of_nat (sending u) < 4294967296;
  r_durations : Forall (λ d : nat, Z.of_nat d < 4294967296) (durations u)
}.

(** Of what was typed, up to [n] characters are gone; at least as many of the
    [n] as had been received. *)
Definition takes (n : nat) (u u' : uart) : Prop :=
  (∃ k, (Nat.min (received u) n ≤ k ≤ n)%nat ∧ typed u' = drop k (typed u)) ∧
  (received u - n ≤ received u')%nat.

Section port.
Implicit Types u : uart.

Lemma takes_refl u : takes 0 u u.
Proof. split; [exists 0%nat; split; [lia|by rewrite drop_0]|lia]. Qed.

Lemma takes_trans n1 n2 u1 u2 u3 : takes n1 u1 u2 → takes n2 u2 u3 → takes (n1 + n2) u1 u3.
Proof.
  intros [(k1 & K1 & E1) R1] [(k2 & K2 & E2) R2]. split; [|lia].
  exists (k1 + k2)%nat. split; [lia|]. by rewrite E2, E1, drop_drop.
Qed.

Lemma look_rd u : ath_uart_rd u OFS_LINE_STATUS = look u.
Proof. done. Qed.

Lemma look_ready u : ready u → ready (look u).1 ∧ sent (look u).1 = sent u ∧ takes 0 u (look u).1.
Proof.
  intros [L R D F]. split; [|split; [done|]].
  - split; [done|simpl; lia|simpl; lia|done].
  - split; [exists 0%nat; split; [lia|by rewrite drop_0]|simpl; lia].
Qed.

Lemma look_thr u :
  (Z.land (look u).2 0x20 =? 0) = if decide (Nat.pred (sending u) = 0%nat) then false else true.
Proof. unfold look. cbn [snd]. by destruct (decide _), (decide _). Qed.

(** Writing the send buffer reads the receive buffer. *)
Lemma wr_send u b : latch u = false →
  ath_uart_wr u OFS_SEND_BUFFER b = (take_received (transmit u (u32 b))).1.
Proof.
  intros HL. unfold ath_uart_wr, ath_reg_wr, ath_reg_rd, ath_reg_wr_nf, reg_wr, reg_rd, uart_bus.
  change (ATH_UART_BASE + OFS_SEND_BUFFER) with (ATH_UART_BASE + 0).
  unfold uart_wr. rewrite Z.eqb_refl, HL. unfold uart_rd. rewrite Z.eqb_refl.
  unfold transmit. destruct (decide (sending u = 0%nat)); unfold latch in *; cbn [lcr]; by rewrite HL.
Qed.

Lemma u8_u32 x : u8 (u32 x) = u8 x.
Proof. unfold u8, u32. rewrite <- Znumtheory.Zmod_div_mod; [done|lia|lia|by exists 16777216]. Qed.

Lemma send_now u b : ready u → sending u = 0%nat → let u' := ath_uart_wr u OFS_SEND_BUFFER b in
  ready u' ∧ sent u' = sent u ++ [u8 b] ∧ takes 1 u u'.
Proof.
  intros [L R D F] Hs u'. unfold u'. rewrite wr_send by done.
  unfold transmit. rewrite decide_True by done. rewrite u8_u32.
  assert (Hd : Z.of_nat (hd 0%nat (durations u)) < 4294967296 ∧
    Forall (λ d : nat, Z.of_nat d < 4294967296) (tail (durations u))).
  { destruct (durations u) as [|d ds]; [by split|]. by apply Forall_cons_iff in F. }
  destruct Hd as [Hd Ht]. unfold take_received. cbn [received typed].
  destruct (received u) as [|n] eqn:En; [|destruct (typed u) as [|c l] eqn:El].
  - split; [split; cbn; done || lia|]. split; [done|].
    split; [exists 0%nat; rewrite En; split; [lia|by rewrite drop_0]|cbn; lia].
  - simpl in R. lia.
  - split; [split; cbn in *; done || lia|]. split; [done|].
    split; [exists 1%nat; rewrite En, El; split; [lia|done]|cbn; lia].
Qed.

Lemma send_byte_sends u b : ready u →
  ∃ u', send_byte u b = Some u' ∧ ready u' ∧ sent u' = sent u ++ [u8 b] ∧ takes 1 u u'.
Proof.
  intros Hu. unfold send_byte.
  match goal with |- context [while ?body _] =>
    destruct (while_rule body (λ u', ready u' ∧ sent u' = sent u ∧ takes 0 u u')
      (λ u', Z.of_nat (sending u'))
      (λ u', ready u' ∧ sent u' = sent u ∧ takes 0 u u' ∧ sending u' = 0%nat) u)
      as (u1 & -> & R1 & S1 & T1 & D1) end.
  - intros u1 (R1 & S1 & T1). rewrite look_rd.
    destruct (look_ready u1 R1) as (R2 & S2 & T2).
    assert (Hnext : ready (look u1).1 ∧ sent (look u1).1 = sent u ∧ takes 0 u (look u1).1).
    { split; [done|]. split; [by rewrite S2|]. by apply (takes_trans 0 0 _ u1). }
    pose proof (look_thr u1) as Ht. destruct (look u1) as [u2 x] eqn:El. cbn [fst snd] in *.
    assert (Ed : sending u2 = Nat.pred (sending u1)) by (unfold look in El; by injection El as <- _).
    eexists. split; [reflexivity|]. rewrite Ht. destruct (decide (Nat.pred (sending u1) = 0%nat)).
    + split_and!; try apply Hnext. by rewrite Ed.
    + split; [done|]. lia.
  - split; [done|]. split; [done|apply takes_refl].
  - destruct Hu. lia.
  - rewrite some_bind. destruct (send_now u1 b R1 D1) as (R2 & S2 & T2).
    eexists. split; [reflexivity|]. split; [done|]. split; [by rewrite S2, S1|].
    by apply (takes_trans 0 1 _ u1).
Qed.

(** A newline is two characters. *)
Definition crlf_char (c : Z) : list Z := if c =? 10 then [13; 10] else [c].
Definition crlf (l : list Z) : list Z := concat (map crlf_char l).

Lemma serial_putc_sends u c : ready u → is_byte c →
  ∃ u', serial_putc u c = Some u' ∧ ready u' ∧ sent u' = sent u ++ crlf_char c ∧
    takes (length (crlf_char c)) u u'.
Proof.
  intros Hu Hc. unfold serial_putc, crlf_char. destruct (Z.eqb_spec c 10) as [->|Hne].
  - destruct (send_byte_sends u 13 Hu) as (u1 & -> & R1 & S1 & T1). rewrite some_bind.
    destruct (send_byte_sends u1 10 R1) as (u2 & -> & R2 & S2 & T2).
    exists u2. split; [done|]. split; [done|]. split; [by rewrite S2, S1, <- app_assoc|].
    by apply (takes_trans 1 1 _ u1).
  - rewrite some_bind. destruct (send_byte_sends u c Hu) as (u1 & -> & R1 & S1 & T1).
    exists u1. by rewrite u8_byte in S1 by done.
Qed.

Lemma serial_puts_runs m l : ∀ u p, cstr m p l → ready u →
  ∃ u', runs (λ '(s, p), c ← ld m p;
      if negb (c =? 0) then s ← serial_putc s c; Some (Next (s, p + 1)) else Some (Done s))
      (u, p) (S (length l)) u' ∧
    ready u' ∧ sent u' = sent u ++ crlf l ∧ takes (length (crlf l)) u u'.
Proof.
  induction l as [|c l IH]; intros u p Hc Hu.
  - apply cstr_nil in Hc. exists u. split; [apply runs_done; by rewrite (ld_bind m p 0) by done|].
    split; [done|]. split; [by rewrite app_nil_r|apply takes_refl].
  - apply cstr_cons in Hc as (Hch & Hp & Hl).
    destruct (serial_putc_sends u c Hu) as (u1 & E1 & R1 & S1 & T1); [unfold is_char, is_byte in *; lia|].
    destruct (IH u1 (p + 1) Hl R1) as (u2 & E2 & R2 & S2 & T2).
    exists u2. split.
    + eapply runs_next; [|exact E2]. rewrite (ld_bind m p c) by done.
      rewrite (proj2 (Z.eqb_neq c 0)) by (unfold is_char in Hch; lia). cbn [negb]. by rewrite E1.
    + split; [done|]. change (crlf (c :: l)) with (crlf_char c ++ crlf l).
      split; [by rewrite S2, S1, app_assoc|]. rewrite length_app. by apply (takes_trans _ _ _ u1).
Qed.

(** C36: printing a string puts its characters on the line, in order, each
    newline behind a carriage return, however long the transmitter takes for
    each; and it costs input: of the characters that had been received, one
    is gone for every character sent, because the write of the send buffer is
    followed by a read of the same place. *)
Theorem serial_puts_sends u m p l :
  ready u → cstr m p l → fits l →
  ∃ u', serial_puts u m p = Some u' ∧ ready u' ∧ sent u' = sent u ++ crlf l ∧
    ∃ k, (Nat.min (received u) (length (crlf l)) ≤ k ≤ length (crlf l))%nat ∧
      typed u' = drop k (typed u).
Proof.
  intros Hu Hc Hf. destruct (serial_puts_runs m l u p Hc Hu) as (u' & E & R & S1 & T & _).
  exists u'. split; [|done]. eapply while_runs; [exact E|]. unfold fits in Hf. lia.
Qed.
End port.

(** "hi" and a newline, while "abc" waits in the queue, which is gone
    afterwards. *)
Lemma serial_puts_sends_witness :
  let u := Uart ∅ 3 0 13 0 [97; 98; 99; 100; 101] 3 [] 0 [] [5%nat; 0%nat; 2%nat] in
  ∃ u', serial_puts u (mem_of 1000 [104; 105; 10; 0]) 1000 = Some u' ∧ ready u' ∧
    sent u' = [104; 105; 13; 10] ∧
    ∃ k, (3 ≤ k ≤ 4)%nat ∧ typed u' = drop k [97; 98; 99; 100; 101].
Proof.
  intros u. apply (serial_puts_sends u (mem_of 1000 [104; 105; 10; 0]) 1000 [104; 105; 10]).
  - split; [done|simpl; lia|simpl; lia|]. repeat (apply Forall_cons_2; [simpl; lia|]). apply Forall_nil_2.
  - split; [repeat (apply Forall_cons_2; [unfold is_char; lia|]); apply Forall_nil_2|].
    apply (write_bytes_in ∅ 1000 [104; 105; 10; 0]).
  - reflexivity.
Defined.

(** *** Set-up and input *)

Section setup.
Implicit Types u : uart.

Definition set_cell (a v : Z) u : uart :=
  Uart (<[a := v]> (cells u)) (lcr u) (ier u) (dll u) (dlm u) (typed u) (received u) (sent u)
    (sending u) (arriving u) (durations u).

(** The address of a register outside the port. *)
Definition other_reg (a : Z) : bool :=
  forallb (λ o, negb (a =? ATH_UART_BASE + o)) [0; 4; 12; 20].

Lemma other_reg_ne a : other_reg a = true →
  (a =? ATH_UART_BASE + 0) = false ∧ (a =? ATH_UART_BASE + 4) = false ∧
  (a =? ATH_UART_BASE + 12) = false ∧ (a =? ATH_UART_BASE + 20) = false.
Proof.
  unfold other_reg. cbn [forallb]. rewrite !andb_true_iff, !negb_true_iff. tauto.
Qed.

Lemma rd_cell u a : other_reg a = true → ath_reg_rd u a = (u, cell_of u a).
Proof.
  intros (E0 & E4 & E12 & E20)%other_reg_ne. unfold ath_reg_rd, reg_rd, uart_bus, uart_rd.
  by rewrite E0, E4, E12, E20.
Qed.

Lemma wr_cell u a v : other_reg a = true → ath_reg_wr u a v = set_cell a (u32 v) u.
Proof.
  intros Ha. unfold ath_reg_wr. rewrite rd_cell by done. cbn [fst].
  apply other_reg_ne in Ha as (E0 & E4 & E12 & _).
  unfold ath_reg_wr_nf, reg_wr, uart_bus, uart_wr. by rewrite E0, E4, E12.
Qed.

Lemma rmw_set_cell u a x : other_reg a = true →
  ath_reg_rmw_set u a x = set_cell a (u32 (Z.lor (cell_of u a) x)) u.
Proof. intros Ha. unfold ath_reg_rmw_set. by rewrite rd_cell, wr_cell, rd_cell by done. Qed.

Lemma rmw_clear_cell u a x : other_reg a = true →
  ath_reg_rmw_clear u a x = set_cell a (u32 (Z.land (cell_of u a) (Z.lnot x))) u.
Proof. intros Ha. unfold ath_reg_rmw_clear. by rewrite rd_cell, wr_cell, rd_cell by done. Qed.

Lemma cell_of_same u a v : cell_of (set_cell a v u) a = v.
Proof. unfold cell_of. cbn. by rewrite lookup_insert_eq. Qed.

Lemma cell_of_other u a b v : (a =? b) = false → cell_of (set_cell a v u) b = cell_of u b.
Proof. intros Hab%Z.eqb_neq. unfold cell_of. cbn. by rewrite lookup_insert_ne. Qed.

(** The registers of the port, once the pins are set. *)
Lemma serial_init_port u :
  let u' := serial_init u in
  dll u' = 13 ∧ dlm u' = 0 ∧ lcr u' = 3 ∧ ier u' = 0 ∧
  typed u' = typed u ∧ received u' = received u ∧ sent u' = sent u ∧
  sending u' = sending u ∧ durations u' = durations u ∧
  cell_of u' GPIO_OE_ADDRESS = u32 (Z.land (cell_of u GPIO_OE_ADDRESS) (Z.lnot 0xcffc10)) ∧
  cell_of u' GPIO_OUT_FUNCTION2_ADDRESS = u32 (Z.lor (cell_of u GPIO_OUT_FUNCTION2_ADDRESS) 0x160000) ∧
  cell_of u' GPIO_IN_ENABLE0_ADDRESS =
    u32 (Z.lor (u32 (Z.land (cell_of u GPIO_IN_ENABLE0_ADDRESS) (Z.lnot 0xff00))) 0x900) ∧
  cell_of u' GPIO_SPARE_ADDRESS = u32 (Z.lor (cell_of u GPIO_SPARE_ADDRESS) 0x8402).
Proof.
  intros u'. unfold u', serial_init.
  rewrite rd_cell by done. cbv beta iota zeta.
  rewrite wr_cell, rmw_set_cell, rmw_clear_cell, rmw_set_cell, rd_cell by done. cbv beta iota zeta.
  rewrite wr_cell by done. rewrite !cell_of_same, !cell_of_other by done.
  set (w := set_cell GPIO_SPARE_ADDRESS _ _).
  split_and!; try reflexivity.
  all: match goal with |- cell_of _ ?a = ?r => change (cell_of w a = r) end.
  all: unfold w; rewrite ?cell_of_same, ?cell_of_other by done; rewrite ?cell_of_same; reflexivity.
Qed.

(** Initialisation, from any state of the chip, routes the pins and leaves
    the port at 8 data bits with the interrupts off and the latch closed, so
    that it can be used; nothing received is lost.  The divisor is 13: the
    division is cut off, so that the rate is 4.3 per cent above 115200. *)
Lemma serial_init_ready u :
  let u' := serial_init u in let div := 256 * dlm u' + dll u' in
  latch u' = false ∧ (typed u', received u', sent u') = (typed u, received u, sent u) ∧
  (lcr u', ier u', div) = (3, 0, 13) ∧
  Z.testbit (cell_of u' GPIO_OE_ADDRESS) 10 = false ∧
  Z.land (Z.shiftr (cell_of u' GPIO_IN_ENABLE0_ADDRESS) 8) 0xff = 9 ∧
  1043 * (16 * CONFIG_BAUDRATE * div) < 1000 * ath_uart_freq < 1044 * (16 * CONFIG_BAUDRATE * div).
Proof.
  intros u' div.
  destruct (serial_init_port u) as (E1 & E2 & E3 & E4 & T & R & Sn & _ & _ & G & _ & I & _).
  fold u' in E1, E2, E3, E4, T, R, Sn, G, I. unfold div. rewrite E1, E2, E3, E4.
  split; [unfold latch; by rewrite E3|].
  split; [by rewrite T, R, Sn|]. split; [done|split; [|split; [|done]]].
  - rewrite G. unfold u32. change 4294967296 with (2 ^ 32).
    rewrite Z.mod_pow2_bits_low, Z.land_spec by lia. by rewrite andb_false_r.
  - rewrite I. unfold u32. change 4294967296 with (2 ^ 32). apply Z.bits_inj'. intros k Hk.
    change 0xff with (Z.ones 8). rewrite Z.land_spec, Z.shiftr_spec by done.
    destruct (decide (k < 8)) as [Hk8|Hk8].
    + rewrite Z.ones_spec_low, andb_true_r by lia.
      rewrite Z.mod_pow2_bits_low, Z.lor_spec, Z.mod_pow2_bits_low, Z.land_spec, Z.lnot_spec by lia.
      assert (Hc : k = 0 ∨ k = 1 ∨ k = 2 ∨ k = 3 ∨ k = 4 ∨ k = 5 ∨ k = 6 ∨ k = 7) by lia.
      destruct Hc as [->|[->|[->|[->|[->|[->|[->| ->]]]]]]]; by rewrite ?andb_false_r.
    + rewrite Z.ones_spec_high, andb_false_r by lia. rewrite (Z.bits_above_log2 9 k); [done|lia|].
      apply Z.lt_le_trans with 8; [done|lia].
Qed.
End setup.

(** A character that has arrived is taken, and waiting takes it when it comes
    within the looks a loop can make. *)
Section input.
Implicit Types u : uart.

Lemma look_rx u : (Z.land (look u).2 0x1 =? 0) = if decide (received (look u).1 = 0%nat) then true else false.
Proof. unfold look. cbn [fst snd received]. by destruct (decide _), (decide _). Qed.

Lemma serial_getc_takes u (n a : nat) r c l :
  ready u → typed u = c :: l → is_byte c → Z.of_nat n < 4294967296 →
  arriving u = replicate n 0%nat ++ S a :: r →
  ∃ u', serial_getc u = Some (u', c) ∧ ready u' ∧ typed u' = l ∧ sent u' = sent u.
Proof.
  intros Hu Ht Hc Hn Ha. unfold serial_getc.
  match goal with |- context [while ?body _] =>
    destruct (while_rule body (λ u', ready u' ∧ sent u' = sent u ∧ typed u' = typed u ∧
        ∃ j : nat, arriving u' = replicate j 0%nat ++ S a :: r)
      (λ u', Z.of_nat (length (arriving u') - length (S a :: r)))
      (λ u', ready u' ∧ sent u' = sent u ∧ typed u' = typed u ∧ received u' ≠ 0%nat) u)
      as (u1 & -> & R1 & S1 & T1 & D1) end.
  - intros u1 (R1 & S1 & T1 & j & Hj). unfold serial_tstc. rewrite look_rd.
    destruct (look_ready u1 R1) as (R2 & S2 & _). pose proof (look_rx u1) as Hx.
    assert (T2 : typed (look u1).1 = typed u1) by done.
    assert (A2 : arriving (look u1).1 = tail (arriving u1)) by done.
    assert (N2 : received (look u1).1 = Nat.min (length (typed u1)) (received u1 + hd 0%nat (arriving u1))) by done.
    destruct (look u1) as [u2 x]. cbn [fst snd] in *. rewrite Hx.
    eexists. split; [reflexivity|]. rewrite T1, Ht in N2. cbn [length] in N2.
    destruct (decide (received u2 = 0%nat)) as [E|E]; cbn [negb].
    + rewrite Hj in *. destruct j as [|j]; cbn [replicate app hd tail] in *; [lia|]. rewrite A2.
      split; [|rewrite !length_app, length_replicate; cbn [length]; rewrite length_app, length_replicate; cbn [length]; lia].
      split; [done|]. split; [by rewrite S2|]. split; [by rewrite T2|]. by exists j.
    + split; [done|]. split; [by rewrite S2|]. split; [by rewrite T2|done].
  - split; [done|]. split; [done|]. split; [done|]. by exists n.
  - rewrite Ha, length_app, length_replicate. lia.
  - rewrite some_bind. unfold ath_uart_rd, ath_reg_rd, reg_rd, uart_bus.
    change (uart_rd u1 (ATH_UART_BASE + OFS_RCV_BUFFER)) with (if latch u1 then (u1, dll u1) else take_received u1).
    destruct R1 as [L1 Rr D F]. rewrite L1. unfold take_received. rewrite T1, Ht in *.
    destruct (received u1) as [|k]; [done|]. eexists. split; [by rewrite u8_byte|].
    split; [|done]. split; [done|simpl in *; lia|done|done].
Qed.
End input.
