(* ===== verification/Timer.v ===== *)
(** * The count register ([lib_mips/time.c])

    Delays by the 32-bit counter of the processor. *)

From S2P Require Import Prelude.

(** The coprocessor registers of the timer. *)
Class Counter (S : Type) := {
  mips_count_get : S → S * Z;
  mips_count_set : S → Z → S;
  mips_compare_set : S → Z → S
}.

(** ** The clock ([include/953x.h]) *)

Definition CPU_PLL_CONFIG_NINT_SET (x : Z) : Z := Z.land (Z.shiftl x 6) 0x00000fc0.
Definition CPU_PLL_CONFIG_NINT_GET (x : Z) : Z := Z.shiftr (Z.land x 0x00000fc0) 6.
Definition CPU_PLL_CONFIG_NINT_VAL : Z := CPU_PLL_CONFIG_NINT_SET 26.
Definition nint_to_mhz (n ref : Z) : Z := n * ref * 1000000.
Definition cpu_hz_40 (pll : Z) : Z := nint_to_mhz (CPU_PLL_CONFIG_NINT_GET pll) 40.
Definition cpu_hz_25 (pll : Z) : Z := nint_to_mhz (CPU_PLL_CONFIG_NINT_GET pll) 25.
Definition CFG_HZ : Z := cpu_hz_40 CPU_PLL_CONFIG_NINT_VAL / 2.

Section timer.
Context {S : Type} `{Counter S}.
Implicit Types s : S.

Definition timer_init s : S * Z := (mips_count_set (mips_compare_set s 0) 0, 0).

Definition reset_timer s : S := mips_count_set s 0.

Definition get_timer s (base : Z) : S * Z :=
  let '(s, c) := mips_count_get s in (s, u32 (c - base)).

Definition set_timer s (t : Z) : S := mips_count_set s t.

(** [None] when the counter stands still. *)
Definition udelay s (usec : Z) : option S :=
  let '(s, start) := get_timer s 0 in
  let tmo := u32 (usec * (CFG_HZ / 1000000)) in
  while (λ s,
    let '(s, c) := mips_count_get s in
    Some (if u32 (c - start) <? tmo then Next s else Done s)) s.

(** The counter as a 64-bit value, without its overflows. *)
Definition get_ticks s : S * Z := mips_count_get s.
Definition get_tbclk : Z := CFG_HZ.
End timer.

(** ** Time

    [now] counts the cycles without overflow; a read takes at most [lap] of
    them. *)
Class Clock (S : Type) `{Counter S} := {
  now : S → Z;
  lap : Z;
  now_read (s : S) : (mips_count_get s).2 = u32 (now (mips_count_get s).1);
  now_later (s : S) : now s < now (mips_count_get s).1 ≤ now s + lap
}.

Section delay.
Context {S : Type} `{Clock S}.
Implicit Types s : S.

Lemma u32_diff a b : 0 ≤ a - b < 4294967296 → u32 (u32 a - u32 b) = a - b.
Proof.
  intros Hd. unfold u32. rewrite <- Zminus_mod. by apply Z.mod_small.
Qed.

(** C30: a delay ends and is exact up to two reads of the counter: at least the
    ticks asked for have passed, and not many more, although the counter can
    overflow on the way.  The ticks are computed in 32 bits, so the delay must
    be below 2^32 ticks, which is 8.2 seconds. *)
Theorem udelay_waits s usec :
  0 ≤ usec → lap + usec * 520 < 4294967296 →
  ∃ s', udelay s usec = Some s' ∧ now s + usec * 520 < now s' ≤ now s + usec * 520 + 2 * lap.
Proof.
  intros Hus Hlap. unfold udelay, get_timer.
  pose proof (now_read s) as R0. pose proof (now_later s) as L0.
  destruct (mips_count_get s) as [s0 c0]. cbn [fst snd] in *. subst c0.
  change (CFG_HZ / 1000000) with 520. rewrite (u32_small (usec * 520)) by lia.
  rewrite Z.sub_0_r, (u32_small (u32 (now s0))) by (apply Z.mod_pos_bound; lia).
  match goal with |- context [while ?body _] =>
    destruct (while_rule body (λ s', now s0 ≤ now s' ≤ now s0 + usec * 520)
      (λ s', now s0 + usec * 520 - now s')
      (λ s', now s0 + usec * 520 ≤ now s' ≤ now s0 + usec * 520 + lap) s0)
      as (s' & -> & Hs) end.
  - intros s1 H1. pose proof (now_read s1) as R1. pose proof (now_later s1) as L1.
    destruct (mips_count_get s1) as [s2 c]. cbn [fst snd] in *. subst c.
    eexists. split; [reflexivity|]. rewrite u32_diff by lia.
    destruct (Z.ltb_spec (now s2 - now s0) (usec * 520)); lia.
  - lia.
  - lia.
  - exists s'. split; [done|]. lia.
Qed.
End delay.

(** A counter that advances with every read. *)
#[local] Instance ticking_counter : Counter Z := {
  mips_count_get t := (t + 100, u32 (t + 100));
  mips_count_set t v := v;
  mips_compare_set t v := t
}.
#[local] Program Instance ticking_clock : Clock Z := { now t := t; lap := 100 }.
Next Obligation. done. Qed.
Next Obligation. intros s. cbn. lia. Qed.

(** A millisecond across the overflow of the counter. *)
Lemma udelay_waits_witness :
  ∃ s', udelay (S := Z) 4294967000 1000 = Some s' ∧ 4294967000 + 520000 < s' ≤ 4294967000 + 520000 + 200.
Proof.
  destruct (@udelay_waits Z _ ticking_clock 4294967000 1000 ltac:(lia) ltac:(unfold lap, ticking_clock; lia)) as (s' & E & Hs).
  exists s'. split; [exact E|]. unfold now, lap, ticking_clock in Hs. lia.
Defined.
