(* ===== verification/Phy.v ===== *)
(** * The Ethernet switch and its PHYs ([board/atheros/common/athr_s27_phy.c])

    MII accesses of [qca-eth-953x.c], the paged registers of the switch above
    them, and the set-up and polling of the five ports.  All of it is over
    the registers of [Spi.Bus]. *)

From S2P Require Import Prelude.
From S2P Require Import Spi.

(** ** MII management ([qca-eth-953x.h]) *)

Definition ATH_GE0_BASE : Z := 0x19000000.
Definition ATH_GE1_BASE : Z := 0x1a000000.
Definition ATH_MII_MGMT_CMD : Z := 0x24.
Definition ATH_MGMT_CMD_READ : Z := 0x1.
Definition ATH_MII_MGMT_ADDRESS : Z := 0x28.
Definition ATH_ADDR_SHIFT : Z := 8.
Definition ATH_MII_MGMT_CTRL : Z := 0x2c.
Definition ATH_MII_MGMT_STATUS : Z := 0x30.
Definition ATH_MII_MGMT_IND : Z := 0x34.
Definition RST_REVISION_ID_ADDRESS : Z := 0x18060090.

(** ** Registers of a PHY and of the switch ([athr_s27_phy.h]) *)

Definition ATHR_PHY_CONTROL : Z := 0.
Definition ATHR_PHY_STATUS : Z := 1.
Definition ATHR_AUTONEG_ADVERT : Z := 4.
Definition ATHR_PHY_SPEC_STATUS : Z := 17.
Definition ATHR_DEBUG_PORT_ADDRESS : Z := 29.
Definition ATHR_DEBUG_PORT_DATA : Z := 30.
Definition ATHR_CTRL_SOFTWARE_RESET : Z := 0x8000.
Definition ATHR_CTRL_AUTONEGOTIATION_ENABLE : Z := 0x1000.
Definition ATHR_STATUS_AUTO_NEG_DONE : Z := 0x0020.
Definition ATHER_STATUS_LINK_MASK : Z := 0xC000.
Definition ATHER_STATUS_LINK_SHIFT : Z := 14.
Definition ATHER_STATUS_FULL_DUPLEX : Z := 0x2000.
Definition ATHR_STATUS_LINK_PASS : Z := 0x0400.
Definition ATHR_STATUS_RESOVLED : Z := 0x0800.

(** [ASYM_PAUSE | PAUSE | 10HALF | 10FULL | 100HALF | 100FULL] *)
Definition ATHR_ADVERTISE_ALL : Z := 0x0de0.

Definition OPERATIONAL_MODE_REG0 : Z := 0x4.
Definition PORT_STATUS_REGISTER0 : Z := 0x0100.
Definition PORT_STATUS_REGISTER1 : Z := 0x0200.
Definition PORT_STATUS_REGISTER2 : Z := 0x0300.
Definition PORT_STATUS_REGISTER3 : Z := 0x0400.
Definition PORT_STATUS_REGISTER4 : Z := 0x0500.
Definition PORT_CONTROL_REGISTER0 : Z := 0x0104.
Definition S27_FLD_MASK_REG : Z := 0x002c.
Definition S27_ARL_TBL_CTRL_REG : Z := 0x005c.
Definition S27_ENABLE_CPU_BROADCAST : Z := Z.shiftl 1 26.
Definition S27_ENABLE_CPU_BCAST_FWD : Z := Z.shiftl 1 25.

Definition _1000BASET : Z := 1000.
Definition _100BASET : Z := 100.
Definition _10BASET : Z := 10.

Definition ATHR_RESET_DONE (phy_control : Z) : bool :=
  Z.land phy_control ATHR_CTRL_SOFTWARE_RESET =? 0.

Definition ATHR_AUTONEG_DONE (ip_phy_status : Z) : bool :=
  Z.land ip_phy_status ATHR_STATUS_AUTO_NEG_DONE =? ATHR_STATUS_AUTO_NEG_DONE.

(** ** The ports *)

Definition ENET_UNIT_LAN : Z := 1.
Definition ENET_UNIT_WAN : Z := 0.

(** A row of [athrPhyInfo]; [phyBase] and the VLAN setting are not used. *)
Record athrPhyInfo_t := PhyInfo {
  isEnetPort : bool;
  isPhyAlive : bool;
  ethUnit : Z;
  phyAddr : Z
}.

Definition athrPhyInfo : list athrPhyInfo_t :=
  [PhyInfo true false ENET_UNIT_LAN 0;
   PhyInfo true false ENET_UNIT_LAN 1;
   PhyInfo true false ENET_UNIT_LAN 2;
   PhyInfo true false ENET_UNIT_LAN 3;
   PhyInfo true false ENET_UNIT_WAN 4;
   PhyInfo false true ENET_UNIT_LAN 0].

Definition ATHR_PHY_MAX : nat := 5.
Definition ATHR_PHY4_ADDR : Z := 4.

Definition ATHR_IS_ETHUNIT (p : athrPhyInfo_t) (unit : Z) : bool :=
  isEnetPort p && (ethUnit p =? unit).

Definition set_alive (b : bool) (p : athrPhyInfo_t) : athrPhyInfo_t :=
  PhyInfo (isEnetPort p) b (ethUnit p) (phyAddr p).

Section phy.
Context {S : Type} `{Bus S}.
Implicit Types s : S.

(** [mac_base] of each entry of [ath_gmac_macs]. *)
Context (mac_base : nat → Z).

(** ** MII accesses ([qca-eth-953x.c]) *)

Definition is_drqfn s : S * bool :=
  let '(s, x) := ath_reg_rd s RST_REVISION_ID_ADDRESS in (s, Z.land x 0x1000 =? 0).

(** [ath_gmac_name2mac(ath_gmac_unit2name(unit))]. *)
Definition ath_gmac_unit2name (unit : Z) : list Z :=
  if unit =? 0 then lit "eth0" else lit "eth1".

Definition ath_gmac_name2mac s (name : list Z) : S * Z :=
  let '(s, drqfn) := is_drqfn s in
  (s, if drqfn then mac_base 1
      else if decide (name = lit "eth0") then mac_base 0 else mac_base 1).

(** [do ... while (rddata && --ii)]: at most [ii] reads of the busy bit. *)
Definition mii_wait s (base ii : Z) : option (S * Z) :=
  while (λ '(s, ii),
    let '(s, x) := ath_reg_rd s (ATH_MII_MGMT_IND + base) in
    if Z.land x 0x1 =? 0 then Some (Done (s, ii))
    else let ii := u16 (ii - 1) in
         if ii =? 0 then Some (Done (s, ii)) else Some (Next (s, ii))) (s, ii).

Definition ath_gmac_miiphy_read s (devname : list Z) (phy_addr reg : Z) : option (S * Z) :=
  let '(s, base) := ath_gmac_name2mac s devname in
  let addr := u16 (Z.lor (Z.shiftl phy_addr ATH_ADDR_SHIFT) (u8 reg)) in
  '(s, ii) ← mii_wait s base 0xFFFF;
  let s := ath_reg_wr s (ATH_MII_MGMT_CMD + base) 0x0 in
  let s := ath_reg_wr s (ATH_MII_MGMT_ADDRESS + base) addr in
  let s := ath_reg_wr s (ATH_MII_MGMT_CMD + base) ATH_MGMT_CMD_READ in
  '(s, _) ← mii_wait s base ii;
  let '(s, val) := ath_reg_rd s (ATH_MII_MGMT_STATUS + base) in
  let s := ath_reg_wr s (ATH_MII_MGMT_CMD + base) 0x0 in
  Some (s, u16 val).

Definition ath_gmac_miiphy_write s (devname : list Z) (phy_addr reg data : Z) : option S :=
  let '(s, base) := ath_gmac_name2mac s devname in
  let addr := u16 (Z.lor (Z.shiftl phy_addr ATH_ADDR_SHIFT) (u8 reg)) in
  '(s, ii) ← mii_wait s base 0xFFFF;
  let s := ath_reg_wr s (ATH_MII_MGMT_ADDRESS + base) addr in
  let s := ath_reg_wr s (ATH_MII_MGMT_CTRL + base) (u16 data) in
  '(s, _) ← mii_wait s base ii;
  Some s.

Definition phy_reg_read s (unit addr reg : Z) : option (S * Z) :=
  ath_gmac_miiphy_read s (ath_gmac_unit2name unit) addr reg.
Definition phy_reg_write s (unit addr reg data : Z) : option S :=
  ath_gmac_miiphy_write s (ath_gmac_unit2name unit) addr reg data.

(** ** Registers of the switch; this SoC reaches it through unit 1 *)

Definition s27_rd_phy s (phy_addr reg_addr : Z) : option (S * Z) :=
  phy_reg_read s 1 phy_addr reg_addr.
Definition s27_wr_phy s (phy_addr reg_addr write_data : Z) : option S :=
  phy_reg_write s 1 phy_addr reg_addr write_data.

Definition athrs27_reg_read s (s27_addr : Z) : option (S * Z) :=
  let addr_temp := Z.shiftr s27_addr 2 in
  s ← phy_reg_write s 1 0x1f 0x10 (Z.shiftr addr_temp 7);
  let phy_address := Z.land 0x17 (Z.lor (Z.shiftr addr_temp 4) 0x10) in
  let reg_address := Z.land (u32 (Z.shiftl addr_temp 1)) 0x1e in
  '(s, low) ← phy_reg_read s 1 phy_address reg_address;
  '(s, high) ← phy_reg_read s 1 phy_address (Z.lor reg_address 0x1);
  Some (s, Z.lor (u32 (Z.shiftl high 16)) low).

Definition athrs27_reg_write s (s27_addr s27_write_data : Z) : option S :=
  let addr_temp := Z.shiftr s27_addr 2 in
  s ← phy_reg_write s 1 0x1f 0x10 (Z.shiftr addr_temp 7);
  let phy_address := Z.land 0x17 (Z.lor (Z.shiftr addr_temp 4) 0x10) in
  s ← phy_reg_write s 1 phy_address (Z.lor (Z.land (u32 (Z.shiftl addr_temp 1)) 0x1e) 0x1)
        (Z.land (Z.shiftr s27_write_data 16) 0xffff);
  phy_reg_write s 1 phy_address (Z.land (u32 (Z.shiftl addr_temp 1)) 0x1e)
    (Z.land s27_write_data 0xffff).

Definition athrs27_reg_rmw s (s27_addr s27_write_data : Z) : option S :=
  '(s, val) ← athrs27_reg_read s s27_addr;
  athrs27_reg_write s s27_addr (Z.lor val s27_write_data).

(** ** Set-up *)

Definition athrs27_reg_init s : option S :=
  s ← athrs27_reg_rmw s 0x8 (Z.shiftl 1 28);
  s27_wr_phy s ATHR_PHY4_ADDR ATHR_PHY_CONTROL 0x9000.

(** Waiting for the end of the reset: [while(i--)]. *)
Definition s27_reset_wait s : option S :=
  while (λ '(s, i),
    if i =? 0 then Some (Done s)
    else '(s, x) ← athrs27_reg_read s 0x0;
         if Z.land x 0x80000000 =? 0 then Some (Done s) else Some (Next (s, i - 1))) (s, 60).

(** A loop over the ports, by their index. *)
Fixpoint for_phys {A} (f : A → nat → option A) (units : list nat) (a : A) : option A :=
  match units with
  | [] => Some a
  | u :: units => a ← f a u; for_phys f units a
  end.

Definition ATHR_PHYADDR (u : nat) : option Z := phyAddr <$> athrPhyInfo !! u.

Definition athrs27_reg_init_lan s : option S :=
  '(s, x) ← athrs27_reg_read s 0x0;
  s ← athrs27_reg_write s 0x0 (Z.lor x 0x80000000);
  s ← s27_reset_wait s;
  s ← athrs27_reg_write s PORT_STATUS_REGISTER0 0x4e;
  s ← athrs27_reg_rmw s OPERATIONAL_MODE_REG0 (Z.shiftl 1 6);
  s ← for_phys (λ s u, a ← ATHR_PHYADDR u; s27_wr_phy s a ATHR_PHY_CONTROL 0x9000)
        (seq 0 ATHR_PHY_MAX) s;
  s ← athrs27_reg_write s PORT_STATUS_REGISTER1 0x200;
  s ← athrs27_reg_write s PORT_STATUS_REGISTER2 0x200;
  s ← athrs27_reg_write s PORT_STATUS_REGISTER3 0x200;
  s ← athrs27_reg_write s PORT_STATUS_REGISTER4 0x200;
  s ← athrs27_reg_write s 0x38 0xc000050e;
  s ← athrs27_reg_write s PORT_CONTROL_REGISTER0 0x4004;
  s ← athrs27_reg_write s 0x70 0xfa50;
  '(s, x) ← athrs27_reg_read s S27_ARL_TBL_CTRL_REG;
  s ← athrs27_reg_write s S27_ARL_TBL_CTRL_REG (Z.lor x 0x100000);
  '(s, x) ← athrs27_reg_read s S27_FLD_MASK_REG;
  athrs27_reg_write s S27_FLD_MASK_REG
    (Z.lor (Z.lor x S27_ENABLE_CPU_BROADCAST) S27_ENABLE_CPU_BCAST_FWD).

Definition athrs27_phy_is_link_alive s (info : list athrPhyInfo_t) (u : nat) : option (S * bool) :=
  p ← info !! u;
  '(s, x) ← s27_rd_phy s (phyAddr p) ATHR_PHY_SPEC_STATUS;
  Some (s, negb (Z.land x ATHR_STATUS_LINK_PASS =? 0)).

(** [athrs27_phy_setup]: the start of the negotiation on the ports of the
    unit; [phyAddr] is the variable of the function, set for every port. *)
Definition setup_start (unit : Z) (info : list athrPhyInfo_t) s : option (S * Z) :=
  for_phys (λ '(s, _) u,
    p ← info !! u;
    let phyAddr := phyAddr p in
    if negb (ATHR_IS_ETHUNIT p unit) then Some (s, phyAddr)
    else
      s ← s27_wr_phy s phyAddr ATHR_AUTONEG_ADVERT ATHR_ADVERTISE_ALL;
      s ← s27_wr_phy s phyAddr ATHR_PHY_CONTROL
            (Z.lor ATHR_CTRL_AUTONEGOTIATION_ENABLE ATHR_CTRL_SOFTWARE_RESET);
      '(s, _) ← s27_rd_phy s phyAddr ATHR_PHY_CONTROL;
      '(s, _) ← s27_rd_phy s phyAddr ATHR_PHY_SPEC_STATUS;
      Some (s, phyAddr))
    (seq 0 ATHR_PHY_MAX) (s, 0).

(** The wait of one port: it reads the PHY at [phyAddr]. *)
Definition setup_wait (phyAddr : Z) s : option S :=
  while (λ '(s, timeout),
    '(s, x) ← s27_rd_phy s phyAddr ATHR_PHY_CONTROL;
    if ATHR_RESET_DONE x then Some (Done s)
    else if timeout =? 0 then Some (Done s)
    else let timeout := u16 (timeout - 1) in
         if timeout =? 0 then Some (Done s) else Some (Next (s, timeout))) (s, 20).

(** [FW_RECOVERY_DEV] of this board is not "wr740nv6". *)
Definition setup_tune s (u : nat) : option S :=
  s ← s27_wr_phy s u ATHR_DEBUG_PORT_ADDRESS 0x14;
  s ← s27_wr_phy s u ATHR_DEBUG_PORT_DATA 0xf52;
  s ← s27_wr_phy s u ATHR_DEBUG_PORT_ADDRESS 4;
  s ← s27_wr_phy s u ATHR_DEBUG_PORT_DATA 0xebbb;
  s ← s27_wr_phy s u ATHR_DEBUG_PORT_ADDRESS 5;
  s ← s27_wr_phy s u ATHR_DEBUG_PORT_DATA 0x2c47;
  s ← s27_wr_phy s u ATHR_DEBUG_PORT_ADDRESS 0x3c;
  s ← s27_wr_phy s u ATHR_DEBUG_PORT_DATA 0x1c1;
  s ← s27_wr_phy s u ATHR_DEBUG_PORT_ADDRESS 0x37;
  s27_wr_phy s u ATHR_DEBUG_PORT_DATA 0xd600.

Definition setup_ports (phyAddr : Z) (info : list athrPhyInfo_t) s : option S :=
  for_phys (λ s u,
    p ← info !! u;
    if ethUnit p =? ENET_UNIT_WAN then Some s
    else s ← setup_wait phyAddr s; setup_tune s u)
    (seq 0 ATHR_PHY_MAX) s.

Definition setup_status (unit : Z) (info : list athrPhyInfo_t) s
    : option (S * list athrPhyInfo_t * Z) :=
  for_phys (λ '(s, info, liveLinks) u,
    p ← info !! u;
    if negb (ATHR_IS_ETHUNIT p unit) then Some (s, info, liveLinks)
    else
      '(s, alive) ← athrs27_phy_is_link_alive s info u;
      Some (s, <[u := set_alive alive p]> info, if alive : bool then s32 (liveLinks + 1) else liveLinks))
    (seq 0 ATHR_PHY_MAX) (s, info, 0).

Definition athrs27_phy_setup s (info : list athrPhyInfo_t) (unit : Z)
    : option (S * list athrPhyInfo_t * bool) :=
  '(s, phyAddr) ← setup_start unit info s;
  s ← setup_ports phyAddr info s;
  '(s, info, liveLinks) ← setup_status unit info s;
  Some (s, info, 0 <? liveLinks).

(** ** Polling *)

(** [do ... while (--ii)]: the PHY-specific status, once it is resolved. *)
Definition resolved_status s (phyAddr ii : Z) : option (S * Z * Z) :=
  while (λ '(s, ii),
    '(s, x) ← s27_rd_phy s phyAddr ATHR_PHY_SPEC_STATUS;
    if negb (Z.land x ATHR_STATUS_RESOVLED =? 0) then Some (Done (s, x, ii))
    else let ii := s32 (ii - 1) in
         if ii =? 0 then Some (Done (s, x, ii)) else Some (Next (s, ii))) (s, ii).

(** The loop returns at the first port that is full duplex: [found]. *)
Definition athrs27_phy_is_fdx s (info : list athrPhyInfo_t) (unit : Z) : option (S * bool) :=
  if unit =? ENET_UNIT_LAN then Some (s, true)
  else
    '(s, found, _) ← for_phys (λ '(s, found, ii) u,
        p ← info !! u;
        if found : bool then Some (s, found, ii)
        else if negb (ATHR_IS_ETHUNIT p unit) then Some (s, found, ii)
        else
          '(s, alive) ← athrs27_phy_is_link_alive s info u;
          if alive : bool then
            '(s, x, ii) ← resolved_status s (phyAddr p) ii;
            Some (s, negb (Z.land x ATHER_STATUS_FULL_DUPLEX =? 0), ii)
          else Some (s, found, ii))
        (seq 0 ATHR_PHY_MAX) (s, false, 200);
    Some (s, found).

(** [phySpeed] is not initialised: [None] until a port of the unit sets it. *)
Definition athrs27_phy_speed s (info : list athrPhyInfo_t) (unit : Z) : option (S * Z) :=
  '(s, speed, _) ← for_phys (λ '(s, speed, ii) u,
      p ← info !! u;
      if negb (ATHR_IS_ETHUNIT p unit) then Some (s, speed, ii)
      else
        '(s, alive) ← athrs27_phy_is_link_alive s info u;
        '(s, v, ii) ← (if alive : bool then
            '(s, x, ii) ← resolved_status s (phyAddr p) ii;
            let x := Z.shiftr (Z.land x ATHER_STATUS_LINK_MASK) ATHER_STATUS_LINK_SHIFT in
            Some (s, (if x =? 1 then _100BASET else if x =? 2 then _1000BASET else _10BASET), ii)
          else Some (s, _10BASET, ii));
        s ← phy_reg_write s 1 (phyAddr p) ATHR_DEBUG_PORT_ADDRESS 0x18;
        s ← phy_reg_write s 1 (phyAddr p) ATHR_DEBUG_PORT_DATA
              (if v =? _100BASET then 0xba8 else 0x2ea);
        Some (s, Some v, ii))
      (seq 0 ATHR_PHY_MAX) (s, None, 200);
  v ← (if unit =? ENET_UNIT_LAN then Some _1000BASET else speed);
  Some (s, v).

(** One port of [athrs27_phy_is_up]: its new state. *)
Definition phy_poll s (p : athrPhyInfo_t) : option (S * bool) :=
  if isPhyAlive p then
    '(s, x) ← s27_rd_phy s (phyAddr p) ATHR_PHY_SPEC_STATUS;
    Some (s, negb (Z.land x ATHR_STATUS_LINK_PASS =? 0))
  else
    '(s, x) ← s27_rd_phy s (phyAddr p) ATHR_PHY_CONTROL;
    if negb (ATHR_RESET_DONE x) then Some (s, false)
    else
      '(s, control) ← s27_rd_phy s (phyAddr p) ATHR_PHY_CONTROL;
      '(s, status) ← s27_rd_phy s (phyAddr p) ATHR_PHY_STATUS;
      if (Z.land control ATHR_CTRL_AUTONEGOTIATION_ENABLE =? 0) || ATHR_AUTONEG_DONE status then
        '(s, x) ← s27_rd_phy s (phyAddr p) ATHR_PHY_SPEC_STATUS;
        Some (s, negb (Z.land x ATHR_STATUS_LINK_PASS =? 0))
      else Some (s, false).

Definition athrs27_phy_is_up s (info : list athrPhyInfo_t) (unit : Z)
    : option (S * list athrPhyInfo_t * Z) :=
  for_phys (λ '(s, info, linkCount) u,
    p ← info !! u;
    if negb (ATHR_IS_ETHUNIT p unit) then Some (s, info, linkCount)
    else
      '(s, alive) ← phy_poll s p;
      Some (s, <[u := set_alive alive p]> info,
            if alive : bool then s32 (linkCount + 1) else linkCount))
    (seq 0 ATHR_PHY_MAX) (s, info, 0).

(** 4000 comparisons of one register. *)
Definition athrs27_mdc_check s : option (S * Z) :=
  while (λ '(s, i),
    if i <? 4000 then
      '(s, x) ← athrs27_reg_read s 0x10c;
      if x =? 0x18007fff then Some (Next (s, i + 1)) else Some (Done (s, -1))
    else Some (Done (s, 0))) (s, 0).
End phy.

#[global] Strategy 900 [mii_wait].

(** ** The MII management unit and the switch, as documented

    [mii] is the state of the unit: the device behind the wires, the address
    register, the number of reads of the busy bit that still see it, and the
    data read last. *)

Record mii (C : Type) := Mii { m_chip : C; m_adr : Z; m_busy : nat; m_status : Z }.
Arguments Mii {C}.
Arguments m_chip {C}.
Arguments m_adr {C}.
Arguments m_busy {C}.
Arguments m_status {C}.

(** Devices on the management wires: registers of 16 bits. *)
Class MiiDevice (C : Type) := {
  dev_rd : C → Z → Z → Z;
  dev_wr : C → Z → Z → Z → C;
  dev_time : C → nat;                (* reads of the busy bit an access takes *)
}.

Section unit.
Context {C : Type} `{MiiDevice C}.
Implicit Types u : mii C.

Definition mii_wr u (off v : Z) : mii C :=
  if off =? ATH_MII_MGMT_ADDRESS then Mii (m_chip u) v (m_busy u) (m_status u)
  else if off =? ATH_MII_MGMT_CTRL then
    Mii (dev_wr (m_chip u) (Z.shiftr (m_adr u) 8) (Z.land (m_adr u) 31) v) (m_adr u)
      (dev_time (m_chip u)) (m_status u)
  else if (off =? ATH_MII_MGMT_CMD) && (v =? ATH_MGMT_CMD_READ) then
    Mii (m_chip u) (m_adr u) (dev_time (m_chip u))
      (dev_rd (m_chip u) (Z.shiftr (m_adr u) 8) (Z.land (m_adr u) 31))
  else u.

Definition mii_rd u (off : Z) : mii C * Z :=
  if off =? ATH_MII_MGMT_IND then
    (Mii (m_chip u) (m_adr u) (pred (m_busy u)) (m_status u), if decide (m_busy u = 0%nat) then 0 else 1)
  else (u, m_status u).

Definition mii_offs : list Z :=
  [ATH_MII_MGMT_CMD; ATH_MII_MGMT_ADDRESS; ATH_MII_MGMT_CTRL; ATH_MII_MGMT_STATUS; ATH_MII_MGMT_IND].

(** A bus on which the unit at [base] is seen as [view]. *)
Record mii_at {S : Type} `{Bus S} (base : Z) (view : S → mii C) : Prop := {
  mii_at_wr s off v : off ∈ mii_offs → view (reg_wr s (off + base) v) = mii_wr (view s) off v;
  mii_at_rd s off : off ∈ mii_offs → view (reg_rd s (off + base)).1 = (mii_rd (view s) off).1;
  mii_at_val s off : off = ATH_MII_MGMT_IND ∨ off = ATH_MII_MGMT_STATUS →
    (reg_rd s (off + base)).2 = (mii_rd (view s) off).2;
  mii_at_id s : view (reg_rd s RST_REVISION_ID_ADDRESS).1 = view s
}.
End unit.

(** The registers of the switch, in pairs of halves behind a page register. *)
Class Switch (C : Type) `{MiiDevice C} := {
  csr : C → Z → Z;
  page : C → Z
}.

Definition half (odd : bool) (v : Z) : Z := if odd then Z.shiftr v 16 else Z.land v 0xffff.
Definition set_half (odd : bool) (v d : Z) : Z :=
  if odd then Z.lor (Z.shiftl d 16) (Z.land v 0xffff)
  else Z.lor (Z.shiftl (Z.shiftr v 16) 16) d.

Class SwitchLaws (C : Type) `{Switch C} : Prop := {
  csr_range (c : C) i : 0 ≤ csr c i < 4294967296;
  page_wr (c : C) d : page (dev_wr c 0x1f 0x10 d) = d ∧ ∀ i, csr (dev_wr c 0x1f 0x10 d) i = csr c i;
  half_rd (c : C) p r : 0 ≤ p < 8 → 0 ≤ r < 32 →
    dev_rd c (16 + p) r = half (Z.odd r) (csr c (128 * page c + 16 * p + r / 2));
  half_wr (c : C) p r d : 0 ≤ p < 8 → 0 ≤ r < 32 → 0 ≤ d < 65536 →
    let i := 128 * page c + 16 * p + r / 2 in
    page (dev_wr c (16 + p) r d) = page c ∧
    csr (dev_wr c (16 + p) r d) i = set_half (Z.odd r) (csr c i) d ∧
    ∀ j, j ≠ i → csr (dev_wr c (16 + p) r d) j = csr c j;
  time_short (c : C) : dev_time c ≤ 1000
}.

(** ** Accesses through the unit *)

Section access.
Context {S : Type} `{Bus S} {C : Type} `{MiiDevice C}.
Context (mac_base : nat → Z).
Context (view : S → mii C) (Hview : mii_at (mac_base 1) view).
Implicit Types (s : S) (c : C).

Notation chip s := (m_chip (view s)).
Notation ready s := (Z.of_nat (m_busy (view s)) ≤ 1000).

Lemma view_wr s off v : off ∈ mii_offs → 0 ≤ v < 65536 → off ≠ ATH_MII_MGMT_IND →
  view (ath_reg_wr s (off + mac_base 1) v) = mii_wr (view s) off v.
Proof using Hview.
  intros Hoff Hv Hind. unfold ath_reg_wr, ath_reg_wr_nf, ath_reg_rd.
  rewrite (mii_at_rd _ _ Hview), (mii_at_wr _ _ Hview) by done. rewrite u32_small by lia.
  unfold mii_rd. by rewrite (proj2 (Z.eqb_neq off _)).
Qed.

Lemma mii_wait_ready s ii : (m_busy (view s) < ii) → ii < 65536 →
  ∃ s' ii', mii_wait s (mac_base 1) ii = Some (s', ii') ∧ ii - m_busy (view s) ≤ ii' ≤ ii ∧
    view s' = Mii (chip s) (m_adr (view s)) 0 (m_status (view s)).
Proof using Hview.
  intros Hb Hii. unfold mii_wait.
  set (n0 := m_busy (view s)) in *.
  match goal with |- context [while ?body _] =>
    destruct (while_rule body
      (λ '(t, i), m_chip (view t) = chip s ∧ m_adr (view t) = m_adr (view s) ∧
        m_status (view t) = m_status (view s) ∧ i - m_busy (view t) = ii - n0 ∧
        m_busy (view t) < i ∧ i ≤ ii)
      (λ '(t, _), m_busy (view t))
      (λ '(t, i), ii - n0 ≤ i ≤ ii ∧ view t = Mii (chip s) (m_adr (view s)) 0 (m_status (view s)))
      (s, ii)) as ([t i] & -> & Hi & Ht) end.
  - intros [t i] (Hc & Ha & Hst & He & Hlt & Hle).
    pose proof (mii_at_rd _ _ Hview t ATH_MII_MGMT_IND ltac:(set_solver)) as Hr.
    pose proof (mii_at_val _ _ Hview t ATH_MII_MGMT_IND ltac:(by left)) as Hval.
    unfold ath_reg_rd. destruct (reg_rd t _) as [t' x]. cbn in Hr, Hval.
    unfold mii_rd in Hr, Hval. cbn in Hr, Hval. subst x.
    destruct (decide (m_busy (view t) = 0%nat)) as [E0|E0]; cbn [Z.land Z.eqb].
    + eexists. split; [reflexivity|]. cbn. split; [lia|].
      rewrite Hr, E0, Hc, Ha, Hst. done.
    + change (Z.land 1 1 =? 0) with false. cbn [negb].
      rewrite u16_small by lia. rewrite (proj2 (Z.eqb_neq _ 0)) by lia.
      eexists. split; [reflexivity|]. cbn. rewrite Hr. cbn. repeat split; try done; lia.
  - cbn. fold n0. repeat split; done || lia.
  - cbn. fold n0. lia.
  - by exists t, i.
Qed.

Lemma name2mac_lan s : ∃ s', ath_gmac_name2mac mac_base s (ath_gmac_unit2name 1) = (s', mac_base 1) ∧
  view s' = view s.
Proof using Hview.
  unfold ath_gmac_name2mac, is_drqfn, ath_reg_rd.
  pose proof (mii_at_id _ _ Hview s) as Hr. destruct (reg_rd s _) as [s' x]. cbn in Hr.
  exists s'. split; [|done]. by destruct (Z.land x 0x1000 =? 0).
Qed.

Context (Htime : ∀ c : C, dev_time c ≤ 1000).

Lemma miiphy_addr p r : 0 ≤ p < 32 → 0 ≤ r < 32 →
  u16 (Z.lor (Z.shiftl p ATH_ADDR_SHIFT) (u8 r)) = 256 * p + r.
Proof.
  intros Hp Hr. unfold u8, ATH_ADDR_SHIFT. rewrite (Z.mod_small r) by lia.
  rewrite lor_shift by lia. rewrite u16_small; lia.
Qed.

Lemma mii_phy p r : 0 ≤ r < 32 → Z.shiftr (256 * p + r) 8 = p.
Proof. intros Hr. rewrite Z.shiftr_div_pow2 by lia. change (2 ^ 8) with 256. symmetry. apply (Z.div_unique_pos _ _ _ r); lia. Qed.

Lemma mii_reg p r : 0 ≤ r < 32 → Z.land (256 * p + r) 31 = r.
Proof. intros Hr. change 31 with (Z.ones 5). rewrite Z.land_ones by lia. change (2 ^ 5) with 32. symmetry.
  apply (Z.mod_unique_pos _ _ (8 * p)); lia. Qed.

(** A read transaction answers the register and leaves the device alone. *)
Lemma phy_reg_read_dev s p r : 0 ≤ p < 32 → 0 ≤ r < 32 → ready s →
  ∃ s', phy_reg_read mac_base s 1 p r = Some (s', u16 (dev_rd (chip s) p r)) ∧
    chip s' = chip s ∧ ready s'.
Proof using Hview Htime.
  intros Hp Hr Hs. unfold phy_reg_read, ath_gmac_miiphy_read.
  destruct (name2mac_lan s) as (s0 & -> & V0). rewrite miiphy_addr by done.
  destruct (mii_wait_ready s0 0xFFFF) as (s1 & ii & -> & Hii & V1); [rewrite V0; lia|lia|].
  rewrite V0 in V1, Hii. rewrite some_bind. cbv beta iota.
  set (s2 := ath_reg_wr s1 (ATH_MII_MGMT_CMD + mac_base 1) 0x0).
  assert (V2 : view s2 = view s1) by (unfold s2; by rewrite view_wr by (done || lia || set_solver)).
  set (s3 := ath_reg_wr s2 (ATH_MII_MGMT_ADDRESS + mac_base 1) (256 * p + r)).
  assert (V3 : view s3 = mii_wr (view s2) ATH_MII_MGMT_ADDRESS (256 * p + r))
    by (unfold s3; by rewrite view_wr by (done || lia || set_solver)).
  set (s4 := ath_reg_wr s3 (ATH_MII_MGMT_CMD + mac_base 1) ATH_MGMT_CMD_READ).
  assert (V4 : view s4 = mii_wr (view s3) ATH_MII_MGMT_CMD ATH_MGMT_CMD_READ)
    by (unfold s4; by rewrite view_wr by (done || lia || set_solver)).
  rewrite V3, V2, V1 in V4. cbn -[Z.add Z.mul] in V4. rewrite mii_reg, mii_phy in V4 by done.
  destruct (mii_wait_ready s4 ii) as (s5 & ii' & -> & _ & V5);
    [rewrite V4; pose proof (Htime (chip s)); cbn; lia|lia|].
  rewrite V4 in V5. cbn [m_chip m_adr m_status] in V5. rewrite some_bind. cbv beta iota.
  pose proof (mii_at_rd _ _ Hview s5 ATH_MII_MGMT_STATUS ltac:(set_solver)) as V6.
  pose proof (mii_at_val _ _ Hview s5 ATH_MII_MGMT_STATUS ltac:(by right)) as Hval.
  unfold ath_reg_rd. destruct (reg_rd s5 _) as [s6 x]. cbn [fst snd] in *.
  rewrite V5 in V6, Hval. cbn in V6, Hval. subst x. eexists. split; [reflexivity|].
  rewrite view_wr by (done || lia || set_solver). rewrite V6. split; [done|cbn; lia].
Qed.

(** A write transaction writes the register. *)
Lemma phy_reg_write_dev s p r d : 0 ≤ p < 32 → 0 ≤ r < 32 → ready s →
  ∃ s', phy_reg_write mac_base s 1 p r d = Some s' ∧
    chip s' = dev_wr (chip s) p r (u16 d) ∧ ready s'.
Proof using Hview Htime.
  intros Hp Hr Hs. unfold phy_reg_write, ath_gmac_miiphy_write.
  destruct (name2mac_lan s) as (s0 & -> & V0). rewrite miiphy_addr by done.
  destruct (mii_wait_ready s0 0xFFFF) as (s1 & ii & -> & Hii & V1); [rewrite V0; lia|lia|].
  rewrite V0 in V1, Hii. rewrite some_bind. cbv beta iota.
  set (s3 := ath_reg_wr s1 (ATH_MII_MGMT_ADDRESS + mac_base 1) (256 * p + r)).
  assert (V3 : view s3 = mii_wr (view s1) ATH_MII_MGMT_ADDRESS (256 * p + r))
    by (unfold s3; by rewrite view_wr by (done || lia || set_solver)).
  set (s4 := ath_reg_wr s3 (ATH_MII_MGMT_CTRL + mac_base 1) (u16 d)).
  assert (V4 : view s4 = mii_wr (view s3) ATH_MII_MGMT_CTRL (u16 d)).
  { unfold s4. rewrite view_wr; [done|set_solver| |done]. unfold u16. apply Z.mod_pos_bound. lia. }
  rewrite V3, V1 in V4. cbn -[Z.add Z.mul u16] in V4. rewrite mii_reg, mii_phy in V4 by done.
  destruct (mii_wait_ready s4 ii) as (s5 & ii' & -> & _ & V5);
    [rewrite V4; pose proof (Htime (chip s)); cbn; lia|lia|].
  rewrite V4 in V5. cbn [m_chip m_adr m_status] in V5. rewrite some_bind. cbv beta iota.
  exists s5. rewrite V5. split_and!; [done|done|cbn; lia].
Qed.

(** *** The state of the ports *)

Definition reg_of c (p : athrPhyInfo_t) (r : Z) : Z := u16 (dev_rd c (phyAddr p) r).

Definition linked c p : bool := negb (Z.land (reg_of c p ATHR_PHY_SPEC_STATUS) ATHR_STATUS_LINK_PASS =? 0).

(** Out of reset, and its negotiation is done or switched off. *)
Definition settled c p : bool :=
  ATHR_RESET_DONE (reg_of c p ATHR_PHY_CONTROL) &&
  ((Z.land (reg_of c p ATHR_PHY_CONTROL) ATHR_CTRL_AUTONEGOTIATION_ENABLE =? 0) ||
   ATHR_AUTONEG_DONE (reg_of c p ATHR_PHY_STATUS)).

(** A port that was up stays up as long as it has a link; a port that was
    down comes up when it is settled and has one. *)
Definition port_up c p : bool := linked c p && (isPhyAlive p || settled c p).

Definition port_after c (unit : Z) (p : athrPhyInfo_t) : athrPhyInfo_t :=
  if ATHR_IS_ETHUNIT p unit then set_alive (port_up c p) p else p.

Definition alive_on (unit : Z) (p : athrPhyInfo_t) : bool := ATHR_IS_ETHUNIT p unit && isPhyAlive p.

Definition ports_after c (unit : Z) (k : nat) (info : list athrPhyInfo_t) : list athrPhyInfo_t :=
  map (port_after c unit) (take k info) ++ drop k info.

Definition count_alive (unit : Z) (ports : list athrPhyInfo_t) : Z :=
  length (List.filter (alive_on unit) ports).

Lemma s27_rd_dev s p r : 0 ≤ phyAddr p < 32 → 0 ≤ r < 32 → ready s →
  ∃ s', s27_rd_phy mac_base s (phyAddr p) r = Some (s', reg_of (chip s) p r) ∧
    chip s' = chip s ∧ ready s'.
Proof using Hview Htime. apply phy_reg_read_dev. Qed.

Lemma phy_poll_dev s p : 0 ≤ phyAddr p < 32 → ready s →
  ∃ s', phy_poll mac_base s p = Some (s', port_up (chip s) p) ∧
    chip s' = chip s ∧ ready s'.
Proof using Hview Htime.
  intros Hp Hs. unfold phy_poll, port_up, linked, settled.
  destruct (isPhyAlive p).
  { destruct (s27_rd_dev s p ATHR_PHY_SPEC_STATUS Hp ltac:(done) Hs) as (s1 & -> & C1 & R1).
    exists s1. by rewrite some_bind, andb_true_r. }
  destruct (s27_rd_dev s p ATHR_PHY_CONTROL Hp ltac:(done) Hs) as (s1 & -> & C1 & R1). rewrite some_bind.
  cbv beta iota. destruct (ATHR_RESET_DONE _); cbn [negb andb orb].
  2:{ exists s1. by rewrite andb_false_r. }
  destruct (s27_rd_dev s1 p ATHR_PHY_CONTROL Hp ltac:(done) R1) as (s2 & -> & C2 & R2). rewrite some_bind.
  destruct (s27_rd_dev s2 p ATHR_PHY_STATUS Hp ltac:(done) R2) as (s3 & -> & C3 & R3). rewrite some_bind.
  rewrite C2, C1. destruct (_ || _).
  2:{ exists s3. by rewrite andb_false_r, C3, C2, C1. }
  destruct (s27_rd_dev s3 p ATHR_PHY_SPEC_STATUS Hp ltac:(done) R3) as (s4 & -> & C4 & R4).
  exists s4. by rewrite some_bind, andb_true_r, C4, C3, C2, C1.
Qed.

Lemma ports_after_step c unit k info p : info !! k = Some p →
  ports_after c unit k info !! k = Some p ∧
  ports_after c unit (Datatypes.S k) info = <[k := port_after c unit p]> (ports_after c unit k info).
Proof.
  intros Hp. unfold ports_after. pose proof (lookup_lt_Some _ _ _ Hp) as Hk.
  assert (Hlen : length (map (port_after c unit) (take k info)) = k)
    by (rewrite length_map, length_take; lia).
  rewrite lookup_app_r, Hlen, Nat.sub_diag, lookup_drop, Nat.add_0_r by lia. split; [done|].
  rewrite insert_app_r_alt by lia. rewrite Hlen, Nat.sub_diag.
  rewrite (drop_S info p k Hp). rewrite (take_S_r info k p Hp), map_app, <- app_assoc. done.
Qed.

Lemma count_alive_step c unit k info p : info !! k = Some p →
  count_alive unit (map (port_after c unit) (take (Datatypes.S k) info)) =
  count_alive unit (map (port_after c unit) (take k info)) + Z.b2z (alive_on unit (port_after c unit p)).
Proof.
  intros Hp. unfold count_alive. rewrite (take_S_r info k p Hp), map_app, filter_app, length_app.
  cbn [map List.filter]. destruct (alive_on unit (port_after c unit p)); cbn [length Z.b2z]; lia.
Qed.

Lemma port_after_in c unit p : ATHR_IS_ETHUNIT p unit = true →
  port_after c unit p = set_alive (port_up c p) p ∧ alive_on unit (port_after c unit p) = port_up c p.
Proof. unfold port_after, alive_on. intros E. by rewrite E; unfold ATHR_IS_ETHUNIT in *; cbn; rewrite E. Qed.

Lemma port_after_out c unit p : ATHR_IS_ETHUNIT p unit = false →
  port_after c unit p = p ∧ alive_on unit (port_after c unit p) = false.
Proof. unfold port_after, alive_on. intros E. by rewrite E, E. Qed.

Lemma count_alive_small unit ports : 0 ≤ count_alive unit ports ≤ length ports.
Proof.
  unfold count_alive. induction ports as [|p ports IH]; cbn [List.filter length]; [lia|].
  destruct (alive_on unit p); cbn [length]; lia.
Qed.

(** C34: [athrs27_phy_is_up] updates the state of every port of the unit from
    the registers of its PHY, leaves the other ports alone, and answers the
    number of ports of the unit that are up; a port that was down comes up
    only when its reset and its negotiation are over, and one without a link
    is never counted. *)
Theorem athrs27_phy_is_up_counts s info unit :
  (ATHR_PHY_MAX <= length info)%nat → Forall (λ p, 0 ≤ phyAddr p < 32) info → ready s →
  ∃ s', athrs27_phy_is_up mac_base s info unit =
      Some (s', ports_after (chip s) unit ATHR_PHY_MAX info,
            count_alive unit (map (port_after (chip s) unit) (take ATHR_PHY_MAX info))) ∧
    chip s' = chip s ∧ ready s'.
Proof using Hview Htime.
  intros Hlen Haddr Hs. unfold athrs27_phy_is_up.
  match goal with |- context [for_phys ?f _ _] => set (step := f) end.
  assert (Hall : ∀ n k t, (k + n <= ATHR_PHY_MAX)%nat → chip t = chip s → ready t →
    ∃ s', for_phys step (seq k n) (t, ports_after (chip s) unit k info,
        count_alive unit (map (port_after (chip s) unit) (take k info))) =
      Some (s', ports_after (chip s) unit (k + n) info,
        count_alive unit (map (port_after (chip s) unit) (take (k + n) info))) ∧
      chip s' = chip s ∧ ready s').
  { induction n as [|n IH]; intros k t Hk Hc Ht; cbn [seq for_phys].
    { exists t. by rewrite Nat.add_0_r. }
    destruct (lookup_lt_is_Some_2 info k ltac:(lia)) as [p Hp].
    destruct (ports_after_step (chip s) unit k info p Hp) as [Hat Hnext].
    pose proof (count_alive_step (chip s) unit k info p Hp) as Hcount.
    assert (Hstep : ∃ t', step (t, ports_after (chip s) unit k info,
        count_alive unit (map (port_after (chip s) unit) (take k info))) k =
      Some (t', ports_after (chip s) unit (Datatypes.S k) info,
        count_alive unit (map (port_after (chip s) unit) (take (Datatypes.S k) info))) ∧
      chip t' = chip s ∧ ready t').
    { unfold step. rewrite Hat, some_bind, Hnext, Hcount. 
      destruct (ATHR_IS_ETHUNIT p unit) eqn:Eu; cbn [negb].
      - destruct (port_after_in (chip s) unit p Eu) as [-> ->].
        destruct (phy_poll_dev t p) as (t' & -> & Ct & Rt);
          [exact (Forall_lookup_1 _ _ _ _ Haddr Hp)|done|]. rewrite some_bind. cbv beta iota.
        exists t'. rewrite Hc in *. rewrite Ct. split; [|done]. do 2 f_equal.
        destruct (port_up (chip s) p); cbn [Z.b2z]; [|lia]. apply s32_small.
        pose proof (count_alive_small unit (map (port_after (chip s) unit) (take k info))) as Hb.
        rewrite length_map, length_take in Hb. unfold ATHR_PHY_MAX in *. lia.
      - destruct (port_after_out (chip s) unit p Eu) as [-> ->]. exists t.
        rewrite (list_insert_id _ _ _ Hat). cbn [Z.b2z]. by rewrite Z.add_0_r. }
    destruct Hstep as (t' & -> & Ct & Rt). rewrite some_bind.
    destruct (IH (Datatypes.S k) t') as (s' & E & Cs & Rs); [lia|done|done|].
    exists s'. rewrite E. replace (k + Datatypes.S n)%nat with (Datatypes.S k + n)%nat by lia. done. }
  destruct (Hall ATHR_PHY_MAX 0%nat s) as (s' & E & Cs & Rs); [lia|done|done|].
  exists s'. split; [exact E|done].
Qed.
End access.

(** ** The registers of the switch *)

Lemma half_range v : 0 ≤ Z.land v 0xffff < 65536.
Proof. change 0xffff with (Z.ones 16). rewrite Z.land_ones by lia. apply Z.mod_pos_bound. lia. Qed.

Section switch.
Context {S : Type} `{Bus S} {C : Type} `{SwitchLaws C}.
Context (mac_base : nat → Z).
Context (view : S → mii C) (Hview : mii_at (mac_base 1) view).
Implicit Types (s : S) (c : C).

Notation chip s := (m_chip (view s)).
Notation ready s := (Z.of_nat (m_busy (view s)) ≤ 1000).

Lemma land_low5 m y : 0 ≤ y → Z.land 31 m = m → Z.land m y = Z.land m (y mod 32).
Proof.
  intros Hy <-. change 32 with (2 ^ 5). rewrite <- (Z.land_ones y) by lia. change (Z.ones 5) with 31.
  by rewrite (Z.land_comm y), (Z.land_comm 31 m), <- !Z.land_assoc, (Z.land_assoc 31 31).
Qed.

(** The three parts of a register address. *)
Lemma csr_phy x : 0 ≤ x → Z.land 0x17 (Z.lor (Z.shiftr x 4) 0x10) = 16 + x / 16 mod 8.
Proof.
  intros Hx. rewrite Z.shiftr_div_pow2 by lia. change (2 ^ 4) with 16. set (y := x / 16).
  rewrite Z.land_lor_distr_r. change (Z.land 0x17 0x10) with 16.
  rewrite land_low5 by (done || apply Z.div_pos; lia).
  assert (Hr : 0 ≤ y mod 32 < 32) by (apply Z.mod_pos_bound; lia).
  pose proof (byte_forall (λ r, (32 <=? r) || (Z.lor (Z.land 0x17 r) 16 =? 16 + r mod 8))
    eq_refl (y mod 32) ltac:(red; lia)) as Hf.
  apply orb_true_iff in Hf as [Hf|Hf]; [lia|]. apply Z.eqb_eq in Hf. rewrite Hf.
  f_equal. change 32 with (8 * 4). rewrite Z.rem_mul_r by lia.
  rewrite (Z.mul_comm 8), Z.mod_add by lia. by rewrite Z.mod_mod.
Qed.

Lemma csr_reg x : 0 ≤ x → Z.land (u32 (Z.shiftl x 1)) 0x1e = 2 * (x mod 16).
Proof.
  intros Hx. rewrite Z.shiftl_mul_pow2 by lia. change (2 ^ 1) with 2.
  assert (Hy : u32 (x * 2) mod 32 = 2 * (x mod 16)).
  { unfold u32. change 4294967296 with (32 * 134217728). rewrite Z.rem_mul_r by lia.
    rewrite (Z.mul_comm 32), Z.mod_add, Z.mod_mod by lia.
    change 32 with (16 * 2). rewrite Z.mul_mod_distr_r by lia. lia. }
  rewrite Z.land_comm, land_low5, Hy; [|unfold u32; apply Z.mod_pos_bound; lia|done].
  assert (Hr : 0 ≤ x mod 16 < 16) by (apply Z.mod_pos_bound; lia).
  pose proof (byte_forall (λ r, (16 <=? r) || (Z.land 0x1e (2 * r) =? 2 * r))
    eq_refl (x mod 16) ltac:(red; lia)) as Hf.
  apply orb_true_iff in Hf as [Hf|Hf]; [lia|]. by apply Z.eqb_eq in Hf.
Qed.

Lemma lor_even r : 0 ≤ r → Z.lor (2 * r) 1 = 2 * r + 1.
Proof.
  intros Hr. rewrite (Z.mul_comm 2 r). change 2 with (2 ^ 1) at 1.
  rewrite <- Z.shiftl_mul_pow2 by lia. rewrite lor_shift by (cbn; lia). lia.
Qed.

(** The pair of halves of register [a / 4], once its page is selected. *)
Lemma csr_index x : 128 * (x / 128) + 16 * (x / 16 mod 8) + x mod 16 = x.
Proof.
  pose proof (Z.div_mod x 16 ltac:(lia)). pose proof (Z.div_mod (x / 16) 8 ltac:(lia)).
  rewrite Z.div_div in * by lia. change (16 * 8) with 128 in *. lia.
Qed.

Lemma csr_page s a : 0 ≤ a < 2 ^ 25 → ready s →
  ∃ s', phy_reg_write mac_base s 1 0x1f 0x10 (Z.shiftr (Z.shiftr a 2) 7) = Some s' ∧
    page (chip s') = a / 4 / 128 ∧ (∀ j, csr (chip s') j = csr (chip s) j) ∧ ready s'.
Proof using Hview H2.
  intros Ha Hs. rewrite !Z.shiftr_div_pow2 by lia. change (2 ^ 2) with 4. change (2 ^ 7) with 128.
  destruct (phy_reg_write_dev mac_base view Hview time_short s 0x1f 0x10 (a / 4 / 128))
    as (s' & -> & Hc & Hr); [lia|lia|done|].
  rewrite u16_small in Hc.
  - destruct (page_wr (chip s) (a / 4 / 128)) as [Hp Hj]. exists s'. rewrite Hc.
    split_and!; [done|done|done|lia].
  - split; [apply Z.div_pos; [apply Z.div_pos|]; lia|].
    apply Z.div_lt_upper_bound; [lia|]. apply Z.div_lt_upper_bound; lia.
Qed.

(** A half of the register behind the selected page. *)
Lemma half_index x (odd : bool) : 0 ≤ x →
  let r := 2 * (x mod 16) + Z.b2z odd in
  0 ≤ x / 16 mod 8 < 8 ∧ 0 ≤ r < 32 ∧ Z.odd r = odd ∧
  128 * (x / 128) + 16 * (x / 16 mod 8) + r / 2 = x.
Proof.
  intros Hx. cbv zeta. pose proof (Z.mod_pos_bound x 16 ltac:(lia)).
  pose proof (Z.mod_pos_bound (x / 16) 8 ltac:(lia)).
  split_and!; [lia|lia|destruct odd; cbn; lia|destruct odd; cbn; lia| |].
  - rewrite Z.odd_add, Z.odd_mul. by destruct odd.
  - rewrite <- (csr_index x) at 4. f_equal. rewrite Z.mul_comm, Z.div_add_l by lia.
    destruct odd; [change (Z.b2z true / 2) with 0|change (Z.b2z false / 2) with 0]; lia.
Qed.

Lemma half_read s x (odd : bool) : 0 ≤ x → page (chip s) = x / 128 → ready s →
  ∃ s', phy_reg_read mac_base s 1 (16 + x / 16 mod 8) (2 * (x mod 16) + Z.b2z odd) =
      Some (s', half odd (csr (chip s) x)) ∧ chip s' = chip s ∧ ready s'.
Proof using Hview H2.
  intros Hx Hp Hs. destruct (half_index x odd Hx) as (Hq & Hr & Ho & Hi).
  destruct (phy_reg_read_dev mac_base view Hview time_short s (16 + x / 16 mod 8)
    (2 * (x mod 16) + Z.b2z odd)) as (s' & -> & Hc & Hrdy); [lia|lia|done|].
  exists s'. rewrite half_rd, Ho, Hp, Hi by done. split; [|done]. do 2 f_equal.
  pose proof (csr_range (chip s) x). apply u16_small. unfold half. destruct odd.
  - rewrite Z.shiftr_div_pow2 by lia. change (2 ^ 16) with 65536. Z.to_euclidean_division_equations; lia.
  - change 0xffff with (Z.ones 16). rewrite Z.land_ones by lia. apply Z.mod_pos_bound. lia.
Qed.

Lemma half_write s x (odd : bool) d : 0 ≤ x → page (chip s) = x / 128 → 0 ≤ d < 65536 → ready s →
  ∃ s', phy_reg_write mac_base s 1 (16 + x / 16 mod 8) (2 * (x mod 16) + Z.b2z odd) d = Some s' ∧
    page (chip s') = x / 128 ∧ csr (chip s') x = set_half odd (csr (chip s) x) d ∧
    (∀ j, j ≠ x → csr (chip s') j = csr (chip s) j) ∧ ready s'.
Proof using Hview H2.
  intros Hx Hp Hd Hs. destruct (half_index x odd Hx) as (Hq & Hr & Ho & Hi).
  destruct (phy_reg_write_dev mac_base view Hview time_short s (16 + x / 16 mod 8)
    (2 * (x mod 16) + Z.b2z odd) d) as (s' & -> & Hc & Hrdy); [lia|lia|done|].
  rewrite u16_small in Hc by done.
  destruct (half_wr (chip s) (x / 16 mod 8) (2 * (x mod 16) + Z.b2z odd) d Hq Hr Hd) as (E1 & E2 & E3).
  rewrite Hp, Hi, Ho in *. exists s'. by rewrite Hc.
Qed.

Lemma shiftr_addr a : Z.shiftr a 2 = a / 4.
Proof. by rewrite Z.shiftr_div_pow2 by lia. Qed.

Lemma halves_join v : 0 ≤ v < 4294967296 →
  Z.lor (u32 (Z.shiftl (half true v) 16)) (half false v) = v.
Proof.
  intros Hv. unfold half. rewrite Z.shiftr_div_pow2 by lia.
  change 0xffff with (Z.ones 16). rewrite Z.land_ones by lia. change (2 ^ 16) with 65536.
  rewrite u32_small.
  - rewrite lor_shift by (lia || apply Z.mod_pos_bound; lia).
    change (2 ^ 16) with 65536. Z.to_euclidean_division_equations; lia.
  - rewrite Z.shiftl_mul_pow2 by lia. change (2 ^ 16) with 65536. Z.to_euclidean_division_equations; lia.
Qed.

Lemma halves_set v w : 0 ≤ v < 4294967296 → 0 ≤ w < 4294967296 →
  set_half false (set_half true v (Z.land (Z.shiftr w 16) 0xffff)) (Z.land w 0xffff) = w.
Proof.
  intros Hv Hw. unfold set_half. change 0xffff with (Z.ones 16). rewrite !Z.land_ones by lia.
  rewrite (Z.shiftr_div_pow2 w) by lia. change (2 ^ 16) with 65536.
  rewrite (Z.mod_small (w / 65536)) by (Z.to_euclidean_division_equations; lia).
  rewrite (lor_shift (w / 65536)) by (lia || apply Z.mod_pos_bound; lia).
  rewrite (Z.shiftr_div_pow2 _ 16) by lia. change (2 ^ 16) with 65536.
  rewrite Z.div_add_l, (Z.div_small (v mod 65536)), Z.add_0_r by (lia || apply Z.mod_pos_bound; lia).
  rewrite lor_shift by (lia || apply Z.mod_pos_bound; lia).
  change (2 ^ 16) with 65536. Z.to_euclidean_division_equations; lia.
Qed.

Lemma reg_even x : 2 * (x mod 16) = 2 * (x mod 16) + Z.b2z false.
Proof. cbn. lia. Qed.

Lemma reg_odd x : 2 * (x mod 16) + 1 = 2 * (x mod 16) + Z.b2z true.
Proof. done. Qed.

Lemma athrs27_reg_read_csr s a : 0 ≤ a < 2 ^ 25 → ready s →
  ∃ s', athrs27_reg_read mac_base s a = Some (s', csr (chip s) (a / 4)) ∧
    (∀ j, csr (chip s') j = csr (chip s) j) ∧ ready s'.
Proof using Hview H2.
  intros Ha Hs. unfold athrs27_reg_read.
  destruct (csr_page s a Ha Hs) as (s1 & -> & P1 & C1 & R1). rewrite some_bind.
  rewrite shiftr_addr. set (x := a / 4) in *. assert (Hx : 0 ≤ x) by (apply Z.div_pos; lia).
  rewrite csr_phy, csr_reg, lor_even, reg_odd by (done || apply Z.mod_pos_bound; lia).
  destruct (half_read s1 x false Hx P1 R1) as (s2 & E2 & C2 & R2).
  rewrite <- reg_even in E2. rewrite E2, some_bind.
  destruct (half_read s2 x true Hx ltac:(by rewrite C2) R2) as (s3 & -> & C3 & R3).
  rewrite some_bind, C2, halves_join, C1 by apply csr_range. exists s3. split; [done|].
  split; [|done]. intros j. by rewrite C3, C2, C1.
Qed.

Lemma athrs27_reg_write_csr s a v : 0 ≤ a < 2 ^ 25 → 0 ≤ v < 4294967296 → ready s →
  ∃ s', athrs27_reg_write mac_base s a v = Some s' ∧
    csr (chip s') (a / 4) = v ∧ (∀ j, j ≠ a / 4 → csr (chip s') j = csr (chip s) j) ∧ ready s'.
Proof using Hview H2.
  intros Ha Hv Hs. unfold athrs27_reg_write.
  destruct (csr_page s a Ha Hs) as (s1 & -> & P1 & C1 & R1). rewrite some_bind.
  rewrite shiftr_addr. set (x := a / 4) in *. assert (Hx : 0 ≤ x) by (apply Z.div_pos; lia).
  rewrite csr_phy, csr_reg, lor_even, reg_odd by (done || apply Z.mod_pos_bound; lia).
  destruct (half_write s1 x true (Z.land (Z.shiftr v 16) 0xffff) Hx P1 (half_range _) R1)
    as (s2 & -> & P2 & V2 & C2 & R2). rewrite some_bind.
  destruct (half_write s2 x false (Z.land v 0xffff) Hx P2 (half_range _) R2)
    as (s3 & E3 & P3 & V3 & C3 & R3). rewrite <- reg_even in E3.
  exists s3. split; [done|]. split_and!; [| |done].
  - rewrite V3, V2. apply halves_set; [apply csr_range|done].
  - intros j Hj. by rewrite C3, C2, C1.
Qed.

(** C35: [athrs27_reg_rmw] sets in the switch register at the address exactly
    the bits of the mask and leaves every other register as it was: the page,
    the PHY address and the register number computed from the address select
    that register, and the two halves go to their places. *)
Theorem athrs27_reg_rmw_sets s a v :
  0 ≤ a < 2 ^ 25 → 0 ≤ v < 4294967296 → ready s →
  ∃ s', athrs27_reg_rmw mac_base s a v = Some s' ∧
    csr (chip s') (a / 4) = Z.lor (csr (chip s) (a / 4)) v ∧
    (∀ j, j ≠ a / 4 → csr (chip s') j = csr (chip s) j) ∧ ready s'.
Proof using Hview H2.
  intros Ha Hv Hs. unfold athrs27_reg_rmw.
  destruct (athrs27_reg_read_csr s a Ha Hs) as (s1 & -> & C1 & R1). rewrite some_bind.
  destruct (athrs27_reg_write_csr s1 a (Z.lor (csr (chip s) (a / 4)) v) Ha) as (s2 & E & V2 & C2 & R2);
    [|done|].
  - apply lor_range; [apply csr_range|done].
  - exists s2. split; [done|]. split; [done|]. split; [|done]. intros j Hj. by rewrite C2, C1.
Qed.
End switch.

Lemma set_half_range odd v d :
  0 ≤ v < 4294967296 → 0 ≤ d < 65536 → 0 ≤ set_half odd v d < 4294967296.
Proof.
  intros Hv Hd. unfold set_half. destruct odd.
  - rewrite lor_shift by (lia || apply half_range). pose proof (half_range v).
    change (2 ^ 16) with 65536. lia.
  - rewrite Z.shiftr_div_pow2, lor_shift by lia. change (2 ^ 16) with 65536.
    Z.to_euclidean_division_equations; lia.
Qed.

(** ** A switch for the witnesses: its page and its registers *)

Definition model_switch : Type := Z * (Z → Z).

#[local] Instance model_device : MiiDevice model_switch := {
  dev_rd c p r :=
    half (Z.odd r) (u32 (c.2 (128 * c.1 + 16 * (p - 16) + r / 2)));
  dev_wr c p r d :=
    if (p =? 0x1f) && (r =? 0x10) then (d, c.2)
    else let i := 128 * c.1 + 16 * (p - 16) + r / 2 in
         (c.1, λ j, if j =? i then set_half (Z.odd r) (u32 (c.2 i)) d else c.2 j);
  dev_time c := 3%nat
}.

#[local] Instance model_csr : Switch model_switch := {
  csr c i := u32 (c.2 i);
  page c := c.1
}.

#[local] Instance model_laws : SwitchLaws model_switch.
Proof.
  split.
  - intros c i. apply Z.mod_pos_bound. lia.
  - intros c d. done.
  - intros c p r Hp Hr. cbn. by replace (16 + p - 16) with p by lia.
  - intros c p r d Hp Hr Hd. cbn. rewrite (proj2 (Z.eqb_neq (16 + p) 0x1f)) by lia.
    cbn. replace (16 + p - 16) with p by lia. rewrite Z.eqb_refl.
    split; [done|]. split.
    + apply u32_small, set_half_range; [apply Z.mod_pos_bound; lia|done].
    + intros j Hj. by rewrite (proj2 (Z.eqb_neq _ _) Hj).
  - intros c. cbn. lia.
Qed.

#[local] Instance model_bus : Bus (mii model_switch) := {
  reg_wr u a v := mii_wr u (a - ATH_GE1_BASE) v;
  reg_rd u a := if a =? RST_REVISION_ID_ADDRESS then (u, 0x1000) else mii_rd u (a - ATH_GE1_BASE)
}.

Definition model_base (unit : nat) : Z := if decide (unit = 0%nat) then ATH_GE0_BASE else ATH_GE1_BASE.

Lemma model_mii_at : mii_at (model_base 1) (λ u : mii model_switch, u).
Proof.
  assert (Hne : ∀ off, off ∈ mii_offs → (off + model_base 1 =? RST_REVISION_ID_ADDRESS) = false).
  { intros off Hoff. apply Z.eqb_neq. repeat (apply elem_of_cons in Hoff as [->|Hoff]; [done|]).
    by apply not_elem_of_nil in Hoff. }
  assert (Hsub : ∀ off, off + model_base 1 - ATH_GE1_BASE = off)
    by (intros; unfold model_base; rewrite decide_False by done; lia).
  split.
  - intros u off v Hoff. unfold reg_wr, model_bus. by rewrite Hsub.
  - intros u off Hoff. unfold reg_rd, model_bus. by rewrite Hne, Hsub.
  - intros u off Hoff. unfold reg_rd, model_bus. rewrite Hne, Hsub; [done|].
    destruct Hoff as [->| ->]; set_solver.
  - done.
Qed.

Lemma athrs27_reg_rmw_sets_witness :
  ∃ s', athrs27_reg_rmw model_base (Mii (0, λ _, 0x4e) 0 5 0 : mii model_switch) 0x8 (Z.shiftl 1 28) = Some s' ∧
    csr (m_chip s') 2 = 0x1000004e.
Proof.
  destruct (athrs27_reg_rmw_sets model_base (λ u : mii model_switch, u) model_mii_at
    (Mii (0, λ _, 0x4e) 0 5 0) 0x8 (Z.shiftl 1 28)) as (s' & E & V & _ & _);
    [by split|by split|done|].
  exists s'. split; [exact E|]. exact V.
Defined.

(** Three of the four LAN ports have a link. *)
Definition demo_ports : mii model_switch :=
  Mii (0, λ i, if i =? -216 then 0 else 0x04200000) 0 2 0.

Lemma athrs27_phy_is_up_counts_witness :
  ∃ s' info', athrs27_phy_is_up model_base demo_ports athrPhyInfo ENET_UNIT_LAN = Some (s', info', 3) ∧
    map isPhyAlive info' = [true; true; false; true; false; true].
Proof.
  destruct (athrs27_phy_is_up_counts model_base (λ u : mii model_switch, u) model_mii_at time_short
    demo_ports athrPhyInfo ENET_UNIT_LAN) as (s' & E & _).
  - unfold ATHR_PHY_MAX. cbn. lia.
  - repeat constructor; cbn; lia.
  - cbn. lia.
  - eexists s', _. split; [exact E|reflexivity].
Defined.
