(* ===== verification/Gmac.v ===== *)
(** * The Ethernet controller ([board/atheros/common/qca-eth-953x.c])

    The descriptor rings the driver shares with the controller, sending,
    receiving, the link check and the set-up.  The controller is behind
    [DmaBus]: it can change the memory at every access to a register and
    whenever the program waits for it. *)

From S2P Require Import Prelude.
From S2P Require Import CString.
From S2P Require Import Vsprintf.
From S2P Require Import NetAddr.
From S2P Require Import Env.
From S2P Require Import Eth.
From S2P Require Import Spi.
From S2P Require Import Phy.

(** ** Shared memory *)

Class DmaBus (S : Type) := {
  dma_bus :: Bus S;
  ram : S → mem;                     (* the memory as the program sees it *)
  put : mem → S → S;                 (* it after stores of the program *)
  run : S → S                        (* the controllers go on *)
}.

(** ** Registers ([qca-eth-953x.h], [953x.h]) *)

Definition NO_OF_TX_FIFOS : Z := 8.
Definition NO_OF_RX_FIFOS : Z := 8.
Definition MAX_WAIT : Z := 1000.
Definition CFG_CACHELINE_SIZE : Z := 32.
Definition sizeof_ath_gmac_desc_t : Z := 12.
Definition sizeof_ath_gmac_mac_t : Z := 96.
Definition sizeof_eth_device : Z := 56.
Definition ATH_MAC_CFG1 : Z := 0x00.
Definition ATH_MAC_CFG2 : Z := 0x04.
Definition ATH_MAC_IFCTL : Z := 0x38.
Definition ATH_MAC_FIFO_CFG_0 : Z := 0x48.
Definition ATH_MAC_FIFO_CFG_1 : Z := 0x4c.
Definition ATH_MAC_FIFO_CFG_2 : Z := 0x50.
Definition ATH_MAC_FIFO_CFG_3 : Z := 0x54.
Definition ATH_MAC_FIFO_CFG_4 : Z := 0x58.
Definition ATH_MAC_FIFO_CFG_5 : Z := 0x5c.
Definition ATH_BYTE_PER_CLK_EN : Z := Z.shiftl 1 19.
Definition ATH_MAC_CFG1_SOFT_RST : Z := Z.shiftl 1 31.
Definition ATH_MAC_CFG1_RX_RST : Z := Z.shiftl 1 19.
Definition ATH_MAC_CFG1_TX_RST : Z := Z.shiftl 1 18.
Definition ATH_MAC_CFG1_RX_EN : Z := Z.shiftl 1 2.
Definition ATH_MAC_CFG1_TX_EN : Z := Z.shiftl 1 0.
Definition ATH_MAC_CFG2_FDX : Z := Z.shiftl 1 0.
Definition ATH_MAC_CFG2_PAD_CRC_EN : Z := Z.shiftl 1 2.
Definition ATH_MAC_CFG2_LEN_CHECK : Z := Z.shiftl 1 4.
Definition ATH_MAC_CFG2_IF_1000 : Z := Z.shiftl 1 9.
Definition ATH_MAC_CFG2_IF_10_100 : Z := Z.shiftl 1 8.
Definition ATH_MAC_IFCTL_SPEED : Z := Z.shiftl 1 16.
Definition ATH_DMA_TX_CTRL : Z := 0x180.
Definition ATH_DMA_TX_DESC : Z := 0x184.
Definition ATH_DMA_RX_CTRL : Z := 0x18c.
Definition ATH_DMA_RX_DESC : Z := 0x190.
Definition ATH_DMA_RX_STATUS : Z := 0x194.
Definition ATH_TXE : Z := 1.
Definition ATH_RXE : Z := 1.
Definition ATH_MAC_MII_MGMT_CFG : Z := 0x20.
Definition ATH_GE_MAC_ADDR1 : Z := 0x40.
Definition ATH_GE_MAC_ADDR2 : Z := 0x44.
Definition ATH_ETH_CFG : Z := 0x18070000.
Definition ETH_CFG_ADDRESS : Z := 0x18070000.
Definition ETH_XMII_ADDRESS : Z := 0x1805002c.
Definition SWITCH_CLOCK_SPARE_ADDRESS : Z := 0x18050024.
Definition RST_RESET_ADDRESS : Z := 0x1806001c.
Definition ATH_RESET_GE0_MAC : Z := Z.shiftl 1 9.
Definition ATH_RESET_GE0_PHY : Z := Z.shiftl 1 8.
Definition ATH_RESET_GE1_MAC : Z := Z.shiftl 1 13.
Definition ATH_RESET_GE1_PHY : Z := Z.shiftl 1 12.
Definition ATH_RESET_GE0_MDIO : Z := Z.shiftl 1 22.
Definition ATH_RESET_GE1_MDIO : Z := Z.shiftl 1 23.
Definition BOARDCAL : Z := 0x9fff0000.

(** ** Descriptors: three words, the second one of bit fields from bit 31 on *)

Definition bits (lsb width w : Z) : Z := Z.land (Z.shiftr w lsb) (Z.ones width).
Definition set_bits (lsb width w v : Z) : Z :=
  Z.lor (Z.land w (Z.lnot (Z.shiftl (Z.ones width) lsb))) (Z.shiftl (Z.land v (Z.ones width)) lsb).

Inductive desc_field := is_empty | res1 | pkt_size.

Definition field_lsb (x : desc_field) : Z :=
  match x with is_empty => 31 | res1 => 21 | pkt_size => 0 end.
Definition field_width (x : desc_field) : Z :=
  match x with is_empty => 1 | res1 => 10 | pkt_size => 12 end.

Definition ld_field (m : mem) (f : Z) (x : desc_field) : option Z :=
  w ← ld32 m (f + 4); Some (bits (field_lsb x) (field_width x) w).
Definition st_field (m : mem) (f : Z) (x : desc_field) (v : Z) : option mem :=
  w ← ld32 m (f + 4); st32 m (f + 4) (set_bits (field_lsb x) (field_width x) w v).
Definition st_pkt_start_addr (m : mem) (f v : Z) : option mem := st32 m f v.
Definition st_next_desc (m : mem) (f v : Z) : option mem := st32 m (f + 8) v.

Definition ath_gmac_rx_give_to_dma (m : mem) (f : Z) : option mem := st_field m f is_empty 1.
Definition ath_gmac_tx_give_to_dma (m : mem) (f : Z) : option mem := st_field m f is_empty 0.
Definition ath_gmac_tx_own (m : mem) (f : Z) : option mem := st_field m f is_empty 1.

Record ath_gmac_mac_t := GmacMac {
  fifo_tx : list Z;
  fifo_rx : list Z;
  next_tx : Z;
  next_rx : Z;
  link : Z;
  duplex : Z;
  speed : Z;
  mac_unit : Z;
  mac_base : Z
}.

Definition set_next_tx (n : Z) (c : ath_gmac_mac_t) : ath_gmac_mac_t :=
  GmacMac (fifo_tx c) (fifo_rx c) n (next_rx c) (link c) (duplex c) (speed c) (mac_unit c) (mac_base c).
Definition set_next_rx (n : Z) (c : ath_gmac_mac_t) : ath_gmac_mac_t :=
  GmacMac (fifo_tx c) (fifo_rx c) (next_tx c) n (link c) (duplex c) (speed c) (mac_unit c) (mac_base c).
Definition set_link (n : Z) (c : ath_gmac_mac_t) : ath_gmac_mac_t :=
  GmacMac (fifo_tx c) (fifo_rx c) (next_tx c) (next_rx c) n (duplex c) (speed c) (mac_unit c) (mac_base c).
Definition set_duplex_speed (d n : Z) (c : ath_gmac_mac_t) : ath_gmac_mac_t :=
  GmacMac (fifo_tx c) (fifo_rx c) (next_tx c) (next_rx c) (link c) d n (mac_unit c) (mac_base c).
Definition set_fifo_tx (l : list Z) (c : ath_gmac_mac_t) : ath_gmac_mac_t :=
  GmacMac l (fifo_rx c) (next_tx c) (next_rx c) (link c) (duplex c) (speed c) (mac_unit c) (mac_base c).
Definition set_fifo_rx (l : list Z) (c : ath_gmac_mac_t) : ath_gmac_mac_t :=
  GmacMac (fifo_tx c) l (next_tx c) (next_rx c) (link c) (duplex c) (speed c) (mac_unit c) (mac_base c).

(** [if (++i >= n) i = 0;] *)
Definition ring_next (i n : Z) : Z := let i := u32 (i + 1) in if n <=? i then 0 else i.

Section gmac.
Context {S : Type} `{DmaBus S}.
Implicit Types (s : S) (c : ath_gmac_mac_t) (m : mem).

Definition gmac_reg_wr s c (x y : Z) : S := ath_reg_wr s (x + mac_base c) y.
Definition gmac_reg_rd s c (x : Z) : S * Z := ath_reg_rd s (x + mac_base c).
Definition gmac_reg_set s c (x y : Z) : S := ath_reg_rmw_set s (x + mac_base c) y.
Definition gmac_reg_clear s c (x y : Z) : S := ath_reg_rmw_clear s (x + mac_base c) y.

(** A look at the ownership bit of a descriptor. *)
Definition rx_owned_by_dma s (f : Z) : option (S * bool) :=
  let s := run s in
  e ← ld_field (ram s) f is_empty; Some (s, e =? 1).
Definition tx_owned_by_dma s (f : Z) : option (S * bool) :=
  let s := run s in
  e ← ld_field (ram s) f is_empty; Some (s, e =? 0).

(** ** Sending *)

Definition tx_wait s (f : Z) : option S :=
  while (λ '(s, i),
    if i <? MAX_WAIT then
      '(s, busy) ← tx_owned_by_dma s f;
      if busy : bool then Some (Next (s, i + 1)) else Some (Done s)
    else Some (Done s)) (s, 0).

(** The descriptor of a frame, handed to the controller. *)
Definition tx_desc m (f packet length : Z) : option mem :=
  m ← st_field m f pkt_size length;
  m ← st_field m f res1 0;
  m ← st_pkt_start_addr m f (virt_to_phys packet);
  ath_gmac_tx_give_to_dma m f.

Definition ath_gmac_send s c (packet length : Z) : option (S * ath_gmac_mac_t * Z) :=
  f ← fifo_tx c !! Z.to_nat (next_tx c);
  m ← tx_desc (ram s) f packet length;
  let s := put m s in
  let s := gmac_reg_wr s c ATH_DMA_TX_DESC (virt_to_phys f) in
  let s := gmac_reg_wr s c ATH_DMA_TX_CTRL ATH_TXE in
  s ← tx_wait s f;
  m ← st_pkt_start_addr (ram s) f 0;
  m ← st_field m f pkt_size 0;
  Some (put m s, set_next_tx (ring_next (next_tx c) NO_OF_TX_FIFOS) c, 0).

(** ** Receiving

    [NetReceive] gets the state of the network, which a received packet
    changes, and the driver, which it may use for an answer. *)

Section receive.
Context {N : Type} (NetReceive : N → S → ath_gmac_mac_t → Z → Z → option (N * S * ath_gmac_mac_t)).
Context (NetRxPackets : list Z).
Implicit Types n : N.

(** The inner loop: the next descriptor that is not empty. *)
Definition rx_search s c (count : Z) : option (S * ath_gmac_mac_t * Z) :=
  while (λ '(s, c, count),
    if count <? NO_OF_RX_FIFOS then
      let c := set_next_rx (ring_next (next_rx c) NO_OF_RX_FIFOS) c in
      f ← fifo_rx c !! Z.to_nat (next_rx c);
      '(s, empty) ← rx_owned_by_dma s f;
      if empty : bool then Some (Next (s, c, count + 1)) else Some (Done (s, c, 0))
    else Some (Done (s, c, count))) (s, c, count).

(** The test at the head of the loop: whether there is a packet. *)
Definition rx_poll s c (count : Z) : option (S * ath_gmac_mac_t * Z * bool) :=
  f ← fifo_rx c !! Z.to_nat (next_rx c);
  '(s, empty) ← rx_owned_by_dma s f;
  if empty : bool then
    let '(s, x) := gmac_reg_rd s c ATH_DMA_RX_STATUS in
    if Z.shiftr x 16 =? 0 then Some (s, c, count, false)
    else
      '(s, empty) ← rx_owned_by_dma s f;
      if empty : bool then '(s, c, count) ← rx_search s c count; Some (s, c, count, true)
      else Some (s, c, count, true)
  else Some (s, c, count, true).

(** The packet of the descriptor at [next_rx], which goes back. *)
Definition rx_take n s c : option (N * S * ath_gmac_mac_t) :=
  f ← fifo_rx c !! Z.to_nat (next_rx c);
  buf ← NetRxPackets !! Z.to_nat (next_rx c);
  length ← ld_field (ram s) f pkt_size;
  '(n, s, c) ← NetReceive n s c buf (length - 4);
  let s := gmac_reg_wr s c ATH_DMA_RX_STATUS 1 in
  m ← ath_gmac_rx_give_to_dma (ram s) f;
  Some (n, put m s, set_next_rx (ring_next (next_rx c) NO_OF_RX_FIFOS) c).

Definition rx_round '(n, s, c, count)
    : option (ctl (N * S * ath_gmac_mac_t * Z) (N * S * ath_gmac_mac_t)) :=
  '(s, c, count, packet) ← rx_poll s c count;
  if packet : bool then '(n, s, c) ← rx_take n s c; Some (Next (n, s, c, count))
  else Some (Done (n, s, c)).

Definition ath_gmac_recv n s c : option (N * S * ath_gmac_mac_t * Z) :=
  '(n, s, c) ← while rx_round (n, s, c, 0);
  f ← fifo_rx c !! Z.to_nat (next_rx c);
  let '(s, x) := gmac_reg_rd s c ATH_DMA_RX_CTRL in
  let s := if x =? 0 then
             let s := gmac_reg_wr s c ATH_DMA_RX_DESC (virt_to_phys f) in
             gmac_reg_wr s c ATH_DMA_RX_CTRL 1
           else s in
  Some (n, s, c, 0).
End receive.

(** ** The link *)

Definition ath_gmac_set_mac_duplex s c (fdx : Z) : S :=
  if negb (fdx =? 0) then gmac_reg_set s c ATH_MAC_CFG2 ATH_MAC_CFG2_FDX
  else gmac_reg_clear s c ATH_MAC_CFG2 ATH_MAC_CFG2_FDX.

Definition ath_gmac_set_mac_if s c (isXGMII : bool) : S :=
  let s := gmac_reg_clear s c ATH_MAC_CFG2 (Z.lor ATH_MAC_CFG2_IF_1000 ATH_MAC_CFG2_IF_10_100) in
  if isXGMII then
    let s := gmac_reg_set s c ATH_MAC_CFG2 ATH_MAC_CFG2_IF_1000 in
    gmac_reg_set s c ATH_MAC_FIFO_CFG_5 ATH_BYTE_PER_CLK_EN
  else
    let s := gmac_reg_set s c ATH_MAC_CFG2 ATH_MAC_CFG2_IF_10_100 in
    gmac_reg_clear s c ATH_MAC_FIFO_CFG_5 ATH_BYTE_PER_CLK_EN.

Definition ath_gmac_set_mac_speed s c (is100 : bool) : S :=
  if is100 then gmac_reg_set s c ATH_MAC_IFCTL ATH_MAC_IFCTL_SPEED
  else gmac_reg_clear s c ATH_MAC_IFCTL ATH_MAC_IFCTL_SPEED.

(** The registers for a speed; [None] is no speed. *)
Definition set_speed s c (v : Z) : option S :=
  if v =? _1000BASET then
    let s := ath_gmac_set_mac_if s c true in
    Some (gmac_reg_set s c ATH_MAC_FIFO_CFG_5 (Z.shiftl 1 19))
  else if v =? _100BASET then
    let s := ath_gmac_set_mac_if s c false in
    let s := ath_gmac_set_mac_speed s c true in
    Some (gmac_reg_clear s c ATH_MAC_FIFO_CFG_5 (Z.shiftl 1 19))
  else if v =? _10BASET then
    let s := ath_gmac_set_mac_if s c false in
    let s := ath_gmac_set_mac_speed s c false in
    Some (gmac_reg_clear s c ATH_MAC_FIFO_CFG_5 (Z.shiftl 1 19))
  else None.

Section link.
Context (macs : nat → Z).                  (* mac_base of ath_gmac_macs *)
Implicit Types info : list athrPhyInfo_t.

Definition ath_gmac_check_link s c info
    : option (S * ath_gmac_mac_t * list athrPhyInfo_t * bool) :=
  '(s, info, lnk) ← athrs27_phy_is_up macs s info (mac_unit c);
  '(s, dpx) ← athrs27_phy_is_fdx macs s info (mac_unit c);
  '(s, spd) ← athrs27_phy_speed macs s info (mac_unit c);
  let c := set_link (u32 lnk) c in
  if link c =? 0 then Some (s, c, info, false)
  else
    match set_speed s c spd with
    | None => Some (s, c, info, false)
    | Some s =>
        if (Z.b2z dpx =? duplex c) && (u32 spd =? speed c) then Some (s, c, info, true)
        else
          let c := set_duplex_speed (Z.b2z dpx) (u32 spd) c in
          Some (ath_gmac_set_mac_duplex s c (Z.b2z dpx), c, info, true)
    end.

(** The descriptors go to the controller, each with its buffer. *)
Definition give_rx (NetRxPackets : list Z) c m : option mem :=
  for_phys (λ m i,
    fr ← fifo_rx c !! i;
    buf ← NetRxPackets !! i;
    m ← st_pkt_start_addr m fr (virt_to_phys buf);
    ath_gmac_rx_give_to_dma m fr) (seq 0 (Z.to_nat NO_OF_RX_FIFOS)) m.

Definition ath_gmac_clean_rx (NetRxPackets : list Z) s c info
    : option (S * ath_gmac_mac_t * list athrPhyInfo_t * Z) :=
  '(s, c, info, up) ← ath_gmac_check_link s c info;
  if negb up then Some (s, c, info, 0)
  else
    let c := set_next_rx 0 c in
    let s := gmac_reg_wr s c ATH_MAC_FIFO_CFG_0 0x1f00 in
    let s := gmac_reg_wr s c ATH_MAC_CFG1 (Z.lor ATH_MAC_CFG1_RX_EN ATH_MAC_CFG1_TX_EN) in
    m ← give_rx NetRxPackets c (ram s);
    let s := put m s in
    f ← fifo_rx c !! 0%nat;
    let s := gmac_reg_wr s c ATH_DMA_RX_DESC (virt_to_phys f) in
    let s := gmac_reg_wr s c ATH_DMA_RX_CTRL ATH_RXE in
    Some (run s, c, info, 1).
End link.

(** [None] when the receiver never stops. *)
Definition ath_gmac_halt s c : option S :=
  let s := gmac_reg_clear s c ATH_MAC_CFG1 (Z.lor ATH_MAC_CFG1_RX_EN ATH_MAC_CFG1_TX_EN) in
  let s := gmac_reg_wr s c ATH_MAC_FIFO_CFG_0 0x1f1f in
  let s := gmac_reg_wr s c ATH_DMA_RX_CTRL 0 in
  while (λ s, let '(s, x) := gmac_reg_rd s c ATH_DMA_RX_CTRL in
    if x =? 0 then Some (Done s) else Some (Next s)) s.

(** ** Set-up *)

Definition ath_gmac_mii_setup s c : S :=
  let s := ath_reg_wr s SWITCH_CLOCK_SPARE_ADDRESS 0x231 in
  let s :=
    if mac_unit c =? 1 then
      let s := ath_reg_wr s ATH_ETH_CFG
        (Z.lor (Z.lor (Z.land (Z.shiftl 3 16) 0x00030000) (Z.land (Z.shiftl 3 14) 0x0000c000)) 1) in
      ath_reg_wr s ETH_XMII_ADDRESS
        (Z.lor (Z.lor (Z.lor (Z.shiftl 1 31) (Z.shiftl 2 28)) (Z.shiftl 1 26)) (Z.shiftl 1 25))
    else ath_reg_wr s ETH_CFG_ADDRESS (Z.lor (Z.shiftl 1 1) (Z.shiftl 1 4)) in
  let s := gmac_reg_wr s c ATH_MAC_MII_MGMT_CFG (Z.lor 2 (Z.shiftl 1 31)) in
  gmac_reg_wr s c ATH_MAC_MII_MGMT_CFG 2.

Definition ath_gmac_hw_start s c : S :=
  let s := gmac_reg_set s c ATH_MAC_CFG2
    (Z.lor (Z.lor ATH_MAC_CFG2_PAD_CRC_EN ATH_MAC_CFG2_LEN_CHECK)
       (if negb (mac_unit c =? 0) then ATH_MAC_CFG2_IF_1000 else ATH_MAC_CFG2_IF_10_100)) in
  let s := gmac_reg_wr s c ATH_MAC_FIFO_CFG_0 0x1f00 in
  let s := gmac_reg_wr s c ATH_MAC_FIFO_CFG_1 0x10ffff in
  let s := gmac_reg_wr s c ATH_MAC_FIFO_CFG_2 0xAAA0555 in
  let s := gmac_reg_set s c ATH_MAC_FIFO_CFG_4 0x3ffff in
  let s := gmac_reg_wr s c ATH_MAC_FIFO_CFG_5 0x7eccf in
  let s := gmac_reg_wr s c ATH_MAC_FIFO_CFG_3 0x1f00140 in
  let '(s, _) := gmac_reg_rd s c ATH_MAC_CFG1 in
  (gmac_reg_rd s c ATH_MAC_CFG2).1.

Section setup.
Context (malloc : S → Z → S * Z).

Definition ath_gmac_alloc_fifo s (ndesc : Z) : S * option (list Z) :=
  let size := sizeof_ath_gmac_desc_t * ndesc + CFG_CACHELINE_SIZE - 1 in
  let '(s, p) := malloc s size in
  if p =? NULL then (s, None)
  else
    let p := Z.land (u32 (p + CFG_CACHELINE_SIZE - 1)) (Z.lnot (CFG_CACHELINE_SIZE - 1)) in
    let p := UNCACHED_SDRAM p in
    (s, Some (map (λ i : nat, p + i * sizeof_ath_gmac_desc_t) (seq 0 (Z.to_nat ndesc)))).

(** [next_desc] of descriptor [i] of a ring. *)
Definition link_desc (fifo : list Z) (n : nat) (own : bool) m (i : nat) : option mem :=
  f ← fifo !! i;
  nxt ← fifo !! (if decide (i = pred n) then 0%nat else Datatypes.S i);
  m ← st_next_desc m f (virt_to_phys nxt);
  if own then ath_gmac_tx_own m f else Some m.

Definition ath_gmac_setup_fifos s c : option (S * ath_gmac_mac_t * Z) :=
  let ntx := Z.to_nat NO_OF_TX_FIFOS in
  let nrx := Z.to_nat NO_OF_RX_FIFOS in
  match ath_gmac_alloc_fifo s NO_OF_TX_FIFOS with
  | (s, None) => Some (s, c, 1)
  | (s, Some tx) =>
      let c := set_fifo_tx tx c in
      m ← for_phys (link_desc tx ntx true) (seq 0 ntx) (ram s);
      match ath_gmac_alloc_fifo (put m s) NO_OF_RX_FIFOS with
      | (s, None) => Some (s, c, 1)
      | (s, Some rx) =>
          let c := set_fifo_rx rx c in
          m ← for_phys (link_desc rx nrx false) (seq 0 nrx) (ram s);
          Some (put m s, c, 1)
      end
  end.

Definition ath_gmac_mac_addr_loc : Z := BOARDCAL.

(** The new [enetaddr]; a device of another name keeps its old one. *)
Definition ath_gmac_get_ethaddr m (dev : eth_device) : option eth_device :=
  let eeprom := ath_gmac_mac_addr_loc in
  r0 ← strcmp_lit m (dev_name dev) (lit "eth0");
  r1 ← strcmp_lit m (dev_name dev) (lit "eth1");
  if negb (r0 =? 0) && negb (r1 =? 0) then Some dev
  else
    mac ← ld_bytes m (if r0 =? 0 then eeprom else eeprom + 6) 6;
    first ← mac !! 0%nat; last ← mac !! 5%nat;
    let mac := if negb (first =? 0) || ((first =? 0xff) && (last =? 0xff))
               then [0xba; 0xbe; 0xfa; 0xce; 0x08; 0x41] else mac in
    Some (EthDevice (dev_name dev) mac (dev_state dev)).

(** [ath_gmac_enet_initialize]: the two blocks of a unit.  [memset] clears
    [sizeof] a pointer, so everything else of the block is [blank], what the
    allocator left there. *)
Context (blank : nat → ath_gmac_mac_t).
Context (e : env) (lits : ethlits) (lit_eth_d : Z).

Definition unit_blocks s (i : nat) : option (S * option (eth_device * ath_gmac_mac_t)) :=
  let '(s, dev) := malloc s sizeof_eth_device in
  if dev =? NULL then Some (s, None)
  else
    let '(s, p) := malloc s sizeof_ath_gmac_mac_t in
    if p =? NULL then Some (s, None)
    else
      m ← memset (ram s) dev 0 4;
      '(m, _) ← sprintf m dev lit_eth_d [i : Z];
      dev ← ath_gmac_get_ethaddr m (EthDevice dev [] false);
      let b := blank i in
      let c := GmacMac (<[0%nat := 0]> (fifo_tx b)) (fifo_rx b) (next_tx b) (next_rx b) (link b)
                 (duplex b) (speed b) i (if decide (i = 0%nat) then ATH_GE0_BASE else ATH_GE1_BASE) in
      Some (put m s, Some (dev, c)).

(** The resets before the units are set up. *)
Definition switch_reset s : S :=
  let s := ath_reg_rmw_set s RST_RESET_ADDRESS (Z.lor ATH_RESET_GE1_PHY ATH_RESET_GE0_PHY) in
  let s := run s in
  let s := ath_reg_rmw_clear s RST_RESET_ADDRESS ATH_RESET_GE1_PHY in
  let s := run s in
  ath_reg_rmw_clear s RST_RESET_ADDRESS ATH_RESET_GE0_PHY.

Definition mac_reset s : S :=
  let mask := Z.lor (Z.lor ATH_RESET_GE0_MAC ATH_RESET_GE1_MAC)
                (Z.lor ATH_RESET_GE0_MDIO ATH_RESET_GE1_MDIO) in
  let s := ath_reg_rmw_set s RST_RESET_ADDRESS mask in
  let s := run s in
  ath_reg_rmw_clear s RST_RESET_ADDRESS mask.

Definition mac_addr_words (mac : list Z) : option (Z * Z) :=
  m0 ← mac !! 0%nat; m1 ← mac !! 1%nat; m2 ← mac !! 2%nat;
  m3 ← mac !! 3%nat; m4 ← mac !! 4%nat; m5 ← mac !! 5%nat;
  Some (Z.lor (Z.shiftl m4 8) m5,
        u32 (Z.lor (Z.lor (Z.lor (Z.shiftl m0 24) (Z.shiftl m1 16)) (Z.shiftl m2 8)) m3)).

(** One round of the second loop. *)
Definition unit_start (macs : nat → Z) s c (info : list athrPhyInfo_t) (dev : eth_device)
    : option (S * ath_gmac_mac_t * list athrPhyInfo_t) :=
  let s := ath_gmac_mii_setup s c in
  s ← (if mac_unit c =? 0 then
         s ← athrs27_reg_init macs s; Some (ath_reg_rmw_clear s RST_RESET_ADDRESS ATH_RESET_GE0_MAC)
       else
         s ← athrs27_reg_init_lan macs s; Some (ath_reg_rmw_clear s RST_RESET_ADDRESS ATH_RESET_GE1_MAC));
  let s := gmac_reg_set s c ATH_MAC_CFG1
             (Z.lor (Z.lor ATH_MAC_CFG1_SOFT_RST ATH_MAC_CFG1_RX_RST) ATH_MAC_CFG1_TX_RST) in
  let s := ath_gmac_hw_start s c in
  '(s, c, _) ← ath_gmac_setup_fifos s c;
  '(mac_l, mac_h) ← mac_addr_words (enetaddr dev);
  let s := gmac_reg_wr s c ATH_GE_MAC_ADDR1 mac_l in
  let s := gmac_reg_wr s c ATH_GE_MAC_ADDR2 mac_h in
  '(s, info, _) ← athrs27_phy_setup macs s info (mac_unit c);
  Some (run s, c, info).

(** The result: the units that were set up, none when an allocation failed. *)
Definition ath_gmac_enet_initialize {D : Type} (sw : ethsw D) s (info : list athrPhyInfo_t) (b : board)
    : option (ethsw D * S * list ath_gmac_mac_t * list athrPhyInfo_t * board * Z) :=
  let s := switch_reset s in
  '(s, o0) ← unit_blocks s 0;
  match o0 with
  | None => Some (sw, s, [], info, b, 0)
  | Some (dev0, c0) =>
      '(s, o1) ← unit_blocks s 1;
      match o1 with
      | None => Some (sw, s, [c0], info, b, 0)
      | Some (dev1, c1) =>
          let macs := λ i : nat, if decide (i = 0%nat) then mac_base c0 else mac_base c1 in
          let s := mac_reset s in
          '(sw, m, b) ← eth_register e lits sw (ram s) b dev0;
          '(s, c0, info) ← unit_start macs (put m s) c0 info dev0;
          '(sw, m, b) ← eth_register e lits sw (ram s) b dev1;
          '(s, c1, info) ← unit_start macs (put m s) c1 info dev1;
          Some (sw, s, [c0; c1], info, b, 1)
      end
  end.
End setup.
End gmac.

#[global] Strategy 900 [tx_wait rx_search].

(** ** Bit fields *)

Lemma testbit_ones n k : 0 ≤ n → 0 ≤ k → Z.testbit (Z.ones n) k = (k <? n).
Proof.
  intros Hn Hk. destruct (Z.ltb_spec k n); [by apply Z.ones_spec_low|by apply Z.ones_spec_high].
Qed.

Lemma testbit_bits l n w k :
  0 ≤ l → 0 ≤ n → 0 ≤ k → Z.testbit (bits l n w) k = (k <? n) && Z.testbit w (k + l).
Proof.
  intros Hl Hn Hk. unfold bits. rewrite Z.land_spec, Z.shiftr_spec, testbit_ones by done.
  apply andb_comm.
Qed.

Lemma testbit_set_bits l n w v k :
  0 ≤ l → 0 ≤ n → 0 ≤ k →
  Z.testbit (set_bits l n w v) k =
    if (l <=? k) && (k <? l + n) then Z.testbit v (k - l) else Z.testbit w k.
Proof.
  intros Hl Hn Hk. unfold set_bits.
  rewrite Z.lor_spec, Z.land_spec, Z.lnot_spec, !Z.shiftl_spec, Z.land_spec by done.
  destruct (Z.leb_spec l k).
  - rewrite testbit_ones by lia. cbn [andb].
    destruct (Z.ltb_spec k (l + n)).
    + rewrite (proj2 (Z.ltb_lt _ _)) by lia. cbn. by rewrite andb_false_r, andb_true_r.
    + rewrite (proj2 (Z.ltb_ge _ _)) by lia. by rewrite andb_true_r, andb_false_r, orb_false_r.
  - rewrite !(Z.testbit_neg_r _ (k - l)) by lia. cbn. by rewrite andb_true_r, orb_false_r.
Qed.

Lemma bits_set_same l n w v : 0 ≤ l → 0 ≤ n → bits l n (set_bits l n w v) = v mod 2 ^ n.
Proof.
  intros Hl Hn. rewrite <- Z.land_ones by done. apply Z.bits_inj'. intros k Hk.
  rewrite testbit_bits, testbit_set_bits, Z.land_spec, testbit_ones by lia.
  rewrite (proj2 (Z.leb_le l (k + l))) by lia. cbn.
  destruct (Z.ltb_spec k n).
  - rewrite (proj2 (Z.ltb_lt _ _)) by lia. cbn. rewrite andb_true_r. f_equal. lia.
  - by rewrite andb_false_r.
Qed.

Lemma bits_set_other l n l' n' w v :
  0 ≤ l → 0 ≤ n → 0 ≤ l' → 0 ≤ n' → l + n ≤ l' ∨ l' + n' ≤ l →
  bits l' n' (set_bits l n w v) = bits l' n' w.
Proof.
  intros Hl Hn Hl' Hn' Hd. apply Z.bits_inj'. intros k Hk.
  rewrite !testbit_bits, testbit_set_bits by lia. destruct (Z.ltb_spec k n'); [|done]. cbn.
  destruct (Z.leb_spec l (k + l')), (Z.ltb_spec (k + l') (l + n)); done || lia.
Qed.

Lemma set_bits_range l n w v :
  0 ≤ l → 0 ≤ n → l + n ≤ 32 → 0 ≤ w < 4294967296 → 0 ≤ set_bits l n w v < 4294967296.
Proof.
  intros Hl Hn Hln Hw.
  assert (H0 : 0 ≤ set_bits l n w v).
  { unfold set_bits. apply Z.lor_nonneg. split; [apply Z.land_nonneg; lia|].
    apply Z.shiftl_nonneg, Z.land_nonneg. right. rewrite Z.ones_equiv.
    pose proof (Z.pow_pos_nonneg 2 n). lia. }
  split; [done|]. change 4294967296 with (2 ^ 32).
  destruct (decide (set_bits l n w v = 0)) as [->|Hne]; [done|].
  apply Z.log2_lt_pow2; [lia|]. apply Z.nle_gt. intros Hlog.
  pose proof (Z.bit_log2 (set_bits l n w v) ltac:(lia)) as Hb.
  rewrite testbit_set_bits in Hb by lia. set (k := Z.log2 (set_bits l n w v)) in *.
  rewrite (proj2 (Z.ltb_ge k (l + n))), andb_false_r in Hb by lia.
  rewrite Z.bits_above_log2 in Hb; [done|lia|].
  destruct (decide (w = 0)) as [->|]; [change (Z.log2 0) with 0; lia|].
  apply Z.lt_le_trans with 32; [|done]. apply Z.log2_lt_pow2; [lia|]. apply Hw.
Qed.

Lemma word_owned m p w : word_at m p w → owned m p 4.
Proof. apply bytes_at_owned. Qed.

Lemma ld_field_word m f x w :
  word_at m (f + 4) w → 0 ≤ w < 4294967296 →
  ld_field m f x = Some (bits (field_lsb x) (field_width x) w).
Proof. intros Hw Hr. unfold ld_field. by rewrite (ld32_word m (f + 4) w). Qed.

(** A store into a field rewrites the word. *)
Lemma st_field_word m f x v w :
  word_at m (f + 4) w → 0 ≤ w < 4294967296 →
  ∃ m', st_field m f x v = Some m' ∧ changed (f + 4) (f + 8) m m' ∧
    word_at m' (f + 4) (set_bits (field_lsb x) (field_width x) w v) ∧
    0 ≤ set_bits (field_lsb x) (field_width x) w v < 4294967296.
Proof.
  intros Hw Hr. unfold st_field. rewrite (ld32_word m (f + 4) w) by done.
  destruct (st32_word m (f + 4) (set_bits (field_lsb x) (field_width x) w v)
    (word_owned _ _ _ Hw)) as (m' & E & Hw' & Hc).
  exists m'. rewrite some_bind. split; [done|]. replace (f + 8) with (f + 4 + 4) by lia.
  split; [done|]. split; [done|].
  apply set_bits_range; [by destruct x..|done].
Qed.

(** ** Sending a frame *)

(** A descriptor in memory: the address and the word of fields. *)
Definition desc_at (m : mem) (f a w : Z) : Prop :=
  word_at m f a ∧ word_at m (f + 4) w ∧ 0 ≤ w < 4294967296.

Definition field_of (x : desc_field) (w : Z) : Z := bits (field_lsb x) (field_width x) w.

Lemma field_set_same x w v : field_of x (set_bits (field_lsb x) (field_width x) w v) = v mod 2 ^ field_width x.
Proof. apply bits_set_same; by destruct x. Qed.

Lemma field_set_other x y w v : x ≠ y →
  field_of x (set_bits (field_lsb y) (field_width y) w v) = field_of x w.
Proof. intros Hne. apply bits_set_other; destruct x, y; cbn; done || lia. Qed.

Lemma desc_set m f x v a w :
  desc_at m f a w →
  ∃ m', st_field m f x v = Some m' ∧ changed (f + 4) (f + 8) m m' ∧
    desc_at m' f a (set_bits (field_lsb x) (field_width x) w v).
Proof.
  intros (Ha & Hw & Hr). destruct (st_field_word m f x v w Hw Hr) as (m' & E & Hc & Hw' & Hr').
  exists m'. split; [done|]. split; [done|]. split; [|done].
  apply (changed_word _ _ _ _ _ _ Hc); [lia|done].
Qed.

Lemma desc_addr m f p a w : desc_at m f a w →
  ∃ m', st_pkt_start_addr m f p = Some m' ∧ changed f (f + 4) m m' ∧ desc_at m' f p w.
Proof.
  intros (Ha & Hw & Hr). destruct (st32_word m f p (word_owned _ _ _ Ha)) as (m' & E & Hp & Hc).
  exists m'. split; [done|]. split; [done|]. split; [done|]. split; [|done].
  apply (changed_word _ _ _ _ _ _ Hc); [lia|done].
Qed.

Lemma desc_changed lo hi m m' f a w :
  changed lo hi m m' → f + 8 ≤ lo ∨ hi ≤ f → desc_at m f a w → desc_at m' f a w.
Proof.
  intros Hc Hd (Ha & Hw & Hr).
  split; [|split; [|done]]; apply (changed_word _ _ _ _ _ _ Hc); done || lia.
Qed.

Lemma tx_desc_written m f packet length a w : desc_at m f a w →
  ∃ m' w', tx_desc m f packet length = Some m' ∧ changed f (f + 8) m m' ∧
    desc_at m' f (virt_to_phys packet) w' ∧
    field_of is_empty w' = 0 ∧ field_of pkt_size w' = length mod 4096.
Proof.
  intros H0. unfold tx_desc.
  destruct (desc_set m f pkt_size length a w H0) as (m1 & -> & C1 & H1). rewrite some_bind.
  destruct (desc_set m1 f res1 0 _ _ H1) as (m2 & -> & C2 & H2). rewrite some_bind.
  destruct (desc_addr m2 f (virt_to_phys packet) _ _ H2) as (m3 & -> & C3 & H3). rewrite some_bind.
  destruct (desc_set m3 f is_empty 0 _ _ H3) as (m4 & E4 & C4 & H4).
  exists m4. eexists. split; [exact E4|]. split; [|split; [exact H4|]].
  - eapply changed_trans; [|eapply changed_mono; [exact C4| |]; lia].
    eapply changed_trans; [|eapply changed_mono; [exact C3| |]; lia].
    eapply changed_trans; [|eapply changed_mono; [exact C2| |]; lia].
    eapply changed_mono; [exact C1| |]; lia.
  - rewrite field_set_same. split; [done|].
    rewrite !field_set_other by done. apply field_set_same.
Qed.

Section transmit.
Context {S : Type} `{DmaBus S}.
Implicit Types (s : S) (c : ath_gmac_mac_t).

(** What is on the wire, the places the receiver may write at any time, and
    where the memory of the program has the place of a physical address. *)
Context (wire : S → list (list Z)) (zone : Z → Prop) (cell : Z → Z).

(** The controller takes the frame after some steps, fewer than the driver
    waits for, and gives the descriptor back. *)
Definition transmits s (f : Z) (l : list Z) : Prop :=
  ∃ n : nat, n < MAX_WAIT ∧
    (∀ k, (k <= n)%nat → touches zone (ram s) (ram (Nat.iter k run s))) ∧
    let s' := Nat.iter (Datatypes.S n) run s in
    touches (λ j, zone j ∨ f + 4 ≤ j < f + 8) (ram s) (ram s') ∧ wire s' = wire s ++ [l] ∧
    ∃ a w', desc_at (ram s') f a w' ∧ field_of is_empty w' = 1.

Record tx_controller c : Prop := {
  tx_put s m : ram (put m s) = m ∧ wire (put m s) = wire s;
  tx_start s f a w l :
    f ∈ fifo_tx c → desc_at (ram s) f a w → 0 ≤ a < 4294967296 → field_of is_empty w = 0 →
    field_of pkt_size w = length l → bytes_at (ram s) (cell a) l →
    let s' := gmac_reg_wr (gmac_reg_wr s c ATH_DMA_TX_DESC (virt_to_phys f)) c ATH_DMA_TX_CTRL ATH_TXE in
    touches zone (ram s) (ram s') ∧ wire s' = wire s ∧ transmits s' f l
}.

Definition area_out (a n : Z) : Prop := ∀ j, a ≤ j < a + n → ¬ zone j.

Lemma desc_touches m m' f a w :
  touches zone m m' → area_out f 8 → desc_at m f a w → desc_at m' f a w.
Proof.
  intros Ht Ho (Ha & Hw & Hr). split; [|split; [|done]].
  - apply (touches_word _ _ _ _ _ Ht); [|done]. intros j Hj. apply Ho. lia.
  - apply (touches_word _ _ _ _ _ Ht); [|done]. intros j Hj. apply Ho. lia.
Qed.

(** The wait ends with the step that gives the descriptor back. *)
Lemma tx_wait_runs (f : Z) (n : nat) : ∀ s i,
  i + n < MAX_WAIT →
  (∀ k, (0 < k <= n)%nat → ∃ a w, desc_at (ram (Nat.iter k run s)) f a w ∧ field_of is_empty w = 0) →
  (∃ a w, desc_at (ram (Nat.iter (Datatypes.S n) run s)) f a w ∧ field_of is_empty w = 1) →
  runs (λ '(s, i),
    if i <? MAX_WAIT then
      '(s, busy) ← tx_owned_by_dma s f;
      if busy : bool then Some (Next (s, i + 1)) else Some (Done s)
    else Some (Done s)) (s, i) (Datatypes.S n) (Nat.iter (Datatypes.S n) run s).
Proof.
  induction n as [|n IH]; intros s i Hi Hbusy (a & w & (Ha & Hw & Hr) & He).
  - apply runs_done. rewrite (proj2 (Z.ltb_lt i MAX_WAIT)) by lia. unfold tx_owned_by_dma.
    cbn [Nat.iter nat_rect] in *. rewrite (ld_field_word _ _ _ w Hw Hr).
    rewrite some_bind. fold (field_of is_empty w). by rewrite He.
  - rewrite Nat.iter_succ_r. eapply runs_next.
    + rewrite (proj2 (Z.ltb_lt i MAX_WAIT)) by lia. unfold tx_owned_by_dma.
      destruct (Hbusy 1%nat ltac:(lia)) as (a1 & w1 & (Ha1 & Hw1 & Hr1) & He1).
      cbn [Nat.iter nat_rect] in Ha1, Hw1. rewrite (ld_field_word _ _ _ w1 Hw1 Hr1).
      rewrite some_bind. fold (field_of is_empty w1). by rewrite He1.
    + apply IH; [lia| |].
      * intros k Hk. rewrite <- Nat.iter_succ_r. apply Hbusy. lia.
      * rewrite <- Nat.iter_succ_r. by exists a, w.
Qed.

Definition sent_zone (f : Z) (j : Z) : Prop := zone j ∨ f ≤ j < f + 8.

Lemma tx_wait_done s f l a w :
  transmits s f l → desc_at (ram s) f a w → field_of is_empty w = 0 → area_out f 8 →
  ∃ s' a' w', tx_wait s f = Some s' ∧ wire s' = wire s ++ [l] ∧
    touches (sent_zone f) (ram s) (ram s') ∧ desc_at (ram s') f a' w'.
Proof.
  intros (n & Hn & Hq & Ht & Hw & a' & w' & Hd' & He') Hd He Ho.
  exists (Nat.iter (Datatypes.S n) run s), a', w'. split_and!; [|done| |done].
  - unfold tx_wait. apply (while_runs _ _ (Datatypes.S n)); [|unfold MAX_WAIT in Hn; lia].
    apply tx_wait_runs; [lia| |by exists a', w'].
    intros k Hk. exists a, w. split; [|done].
    apply (desc_touches (ram s)); [apply Hq; lia|done|done].
  - apply (touches_mono _ _ _ _ Ht). intros j [Hj|Hj]; [by left|right; lia].
Qed.

Lemma virt_to_phys_range a : 0 ≤ virt_to_phys a < 4294967296.
Proof.
  unfold virt_to_phys. change 0x1fffffff with (Z.ones 29). rewrite Z.land_ones by lia.
  pose proof (Z.mod_pos_bound a (2 ^ 29)). lia.
Qed.

(** After the wait the descriptor is cleared. *)
Lemma tx_cleared m f a w : desc_at m f a w →
  ∃ m1 m2, st_pkt_start_addr m f 0 = Some m1 ∧ st_field m1 f pkt_size 0 = Some m2 ∧
    changed f (f + 8) m m2.
Proof.
  intros H0. destruct (desc_addr m f 0 a w H0) as (m1 & E1 & C1 & H1).
  destruct (desc_set m1 f pkt_size 0 _ _ H1) as (m2 & E2 & C2 & H2).
  exists m1, m2. split; [done|]. split; [done|].
  eapply changed_trans; [eapply changed_mono; [exact C1| |]; lia|eapply changed_mono; [exact C2| |]; lia].
Qed.

Lemma ring_next_range i n : 0 ≤ i < n → n < 4294967296 → 0 ≤ ring_next i n < n ∧ ring_next i n = (i + 1) mod n.
Proof.
  intros Hi Hn. unfold ring_next. rewrite u32_small by lia. destruct (Z.leb_spec n (i + 1)).
  - replace (i + 1) with n by lia. rewrite Z.mod_same by lia. lia.
  - rewrite Z.mod_small by lia. lia.
Qed.

End transmit.

(** ** The receive ring

    From the descriptor [h] on the ring holds the frames [q] that the program
    has not given back; the other descriptors are empty. *)

Section ring.
Context (fifo bufs : list Z).

Definition slot (h k : nat) : nat := (h + k) mod 8.

Definition full (m : mem) (i : nat) (l : list Z) : Prop :=
  ∃ f b a w, fifo !! i = Some f ∧ bufs !! i = Some b ∧ desc_at m f a w ∧
    field_of is_empty w = 0 ∧ field_of pkt_size w = length l ∧ bytes_at m b l.

Definition empty (m : mem) (i : nat) : Prop :=
  ∃ f a w, fifo !! i = Some f ∧ desc_at m f a w ∧ field_of is_empty w = 1.

Definition rx_ring (m : mem) (h : nat) (q : list (list Z)) : Prop :=
  (h < 8)%nat ∧ (length q <= 8)%nat ∧
  ∀ k, (k < 8)%nat →
    match q !! k with
    | Some l => full m (slot h k) l
    | None => empty m (slot h k)
    end.

(** The areas of the ring: descriptors and buffers, 8 of each. *)
Definition buf_size : Z := 1536.
Definition rx_areas : list (Z * Z) :=
  map (λ f, (f, 8)) fifo ++ map (λ b, (b, buf_size)) bufs.

(** A descriptor with its buffer is apart from those of the other indices. *)
Record rx_layout : Prop := {
  rx_fifo : length fifo = 8%nat;
  rx_bufs : length bufs = 8%nat;
  rx_descs i j f g : fifo !! i = Some f → fifo !! j = Some g → i ≠ j → apart (f, 8) (g, 8);
  rx_buf_buf i j b d : bufs !! i = Some b → bufs !! j = Some d → i ≠ j → apart (b, buf_size) (d, buf_size);
  rx_desc_buf i j f b : fifo !! i = Some f → bufs !! j = Some b → apart (f, 8) (b, buf_size)
}.

Context (Hlay : rx_layout).

Lemma slot_lt h k : (slot h k < 8)%nat.
Proof. unfold slot. apply Nat.mod_upper_bound. lia. Qed.

Lemma ring_next_slot h : (h < 8)%nat → ring_next h NO_OF_RX_FIFOS = slot h 1.
Proof.
  intros Hh. destruct (ring_next_range h NO_OF_RX_FIFOS) as [_ ->]; [unfold NO_OF_RX_FIFOS; lia|done|].
  unfold slot, NO_OF_RX_FIFOS. rewrite Nat2Z.inj_mod. f_equal. lia.
Qed.

Lemma slot_0 h : (h < 8)%nat → slot h 0 = h.
Proof. intros Hh. unfold slot. rewrite Nat.add_0_r. by apply Nat.mod_small. Qed.

Lemma slot_S h k : slot h (S k) = slot (slot h 1) k.
Proof. unfold slot. rewrite Nat.Div0.add_mod_idemp_l. f_equal. lia. Qed.

Lemma slot_back h : (h < 8)%nat → slot (slot h 1) 7 = h.
Proof.
  intros Hh. rewrite <- slot_S. unfold slot. replace (h + 8)%nat with (h + 1 * 8)%nat by lia.
  rewrite Nat.Div0.mod_add. by apply Nat.mod_small.
Qed.

Lemma slot_ne h k : (h < 8)%nat → (k < 7)%nat → slot (slot h 1) k ≠ h.
Proof.
  intros Hh Hk. rewrite <- slot_S. unfold slot. intros E.
  destruct (decide (h + S k < 8)%nat).
  - rewrite Nat.mod_small in E by lia. lia.
  - replace (h + S k)%nat with (h + S k - 8 + 1 * 8)%nat in E by lia.
    rewrite Nat.Div0.mod_add, Nat.mod_small in E by lia. lia.
Qed.

(** Frames of the other descriptors survive a store into one descriptor. *)
Lemma full_kept m m' i j f l :
  fifo !! j = Some f → i ≠ j → length l ≤ buf_size → changed f (f + 8) m m' → full m i l → full m' i l.
Proof using Hlay.
  intros Hf Hne Hl Hc (g & b & a & w & Hg & Hb & Hd & He & Hs & Hbytes).
  exists g, b, a, w. do 2 (split; [done|]). split; [|do 2 (split; [done|])].
  - apply (desc_changed _ _ _ _ _ _ _ Hc); [|done].
    pose proof (rx_descs Hlay j i f g Hf Hg ltac:(done)) as [D|D]; cbn [fst snd] in D; lia.
  - apply (changed_bytes _ _ _ _ _ _ Hc); [|done].
    pose proof (rx_desc_buf Hlay j i f b Hf Hb) as [D|D]; cbn [fst snd] in D; lia.
Qed.

Lemma empty_kept m m' i j f :
  fifo !! j = Some f → i ≠ j → changed f (f + 8) m m' → empty m i → empty m' i.
Proof using Hlay.
  intros Hf Hne Hc (g & a & w & Hg & Hd & He).
  exists g, a, w. split; [done|]. split; [|done].
  apply (desc_changed _ _ _ _ _ _ _ Hc); [|done].
  pose proof (rx_descs Hlay j i f g Hf Hg ltac:(done)) as [D|D]; cbn [fst snd] in D; lia.
Qed.

(** Giving the oldest descriptor back. *)
Lemma rx_ring_give m h l q f :
  rx_ring m h (l :: q) → Forall (λ l, length l ≤ buf_size) q → fifo !! h = Some f →
  ∃ m', ath_gmac_rx_give_to_dma m f = Some m' ∧ changed (f + 4) (f + 8) m m' ∧
    rx_ring m' (slot h 1) q.
Proof using Hlay.
  intros (Hh & Hq & Hslots) Hsmall Hf.
  assert (H0 : full m (slot h 0) l) by exact (Hslots 0%nat ltac:(lia)). rewrite slot_0 in H0 by done.
  destruct H0 as (f' & b & a & w & Hf' & Hb & Hd & He & Hs & Hbytes).
  assert (f' = f) as -> by congruence.
  destruct (desc_set m f is_empty 1 a w Hd) as (m' & E & Hc & Hd'). exists m'.
  split; [exact E|]. split; [done|].
  assert (Hc8 : changed f (f + 8) m m') by (eapply changed_mono; [exact Hc| |]; lia).
  split; [apply slot_lt|]. split; [cbn in Hq; lia|]. intros k Hk.
  destruct (decide (k = 7%nat)) as [->|Hk7].
  - rewrite (lookup_ge_None_2 q) by (cbn in Hq; lia). rewrite slot_back by done.
    exists f, a. eexists. split; [done|]. split; [exact Hd'|]. by rewrite field_set_same.
  - pose proof (Hslots (S k) ltac:(lia)) as HS. rewrite slot_S in HS.
    pose proof (slot_ne h k Hh ltac:(lia)) as Hne.
    change ((l :: q) !! S k) with (q !! k) in HS.
    destruct (q !! k) as [l'|] eqn:El; [|by apply (empty_kept m m' _ h f)].
    apply (full_kept m m' _ h f); try done.
    exact (Forall_lookup_1 _ _ _ _ Hsmall El).
Qed.
End ring.

(** ** Receiving: the ring is a queue *)

Section receiving.
Context {S : Type} `{DmaBus S} {N : Type}.
Context (NetReceive : N → S → ath_gmac_mac_t → Z → Z → option (N * S * ath_gmac_mac_t)).
Context (fifo bufs : list Z) (Hlay : rx_layout fifo bufs) (base : Z).
Implicit Types (s : S) (c : ath_gmac_mac_t) (n : N).

(** The controller: the descriptor it fills next, the number in the status
    register, and the frames that are still to come. *)
Context (tail : S → nat) (unacked : S → nat) (future : S → list (list Z)).

(** The ring holds [q] from [h] on; [d] frames are acknowledged and not
    given back yet. *)
Definition holds s (h : nat) (q : list (list Z)) (d : nat) : Prop :=
  rx_ring fifo bufs (ram s) h q ∧ tail s = slot h (length q) ∧ (unacked s + d = length q)%nat ∧
  Forall (λ l, length l ≤ buf_size) q.

(** From [s] to [s'] the controller appended frames to the ring. *)
Definition goes s h q (s' : S) (d : nat) : Prop :=
  ∃ new, holds s' h (q ++ new) d ∧ future s = new ++ future s'.

Record rx_controller : Prop := {
  rx_run s h q d : holds s h q d → goes s h q (run s) d;
  rx_rd s x h q d : holds s h q d → goes s h q (ath_reg_rd s (x + base)).1 d;
  rx_status s h q d : holds s h q d →
    let r := ath_reg_rd s (ATH_DMA_RX_STATUS + base) in Z.shiftr r.2 16 = unacked r.1;
  rx_ack s h l q : holds s h (l :: q) 0 →
    goes s h (l :: q) (ath_reg_wr s (ATH_DMA_RX_STATUS + base) 1) 1;
  rx_wr s x v h q d : x = ATH_DMA_RX_DESC ∨ x = ATH_DMA_RX_CTRL → holds s h q d →
    goes s h q (ath_reg_wr s (x + base) v) d;
  rx_put s m : ram (put m s) = m ∧ tail (put m s) = tail s ∧ unacked (put m s) = unacked s ∧
    future (put m s) = future s
}.

Definition driver c (h : nat) : Prop := fifo_rx c = fifo ∧ mac_base c = base ∧ next_rx c = Z.of_nat h.

(** A frame without its checksum. *)
Definition payload (l : list Z) : list Z := take (length l - 4) l.

(** What the network promises the driver: it handles the packet and leaves
    the ring alone, the buffer of the packet apart. *)
Definition rx_client (handle : N → list Z → N) : Prop :=
  ∀ n s c h l q b, driver c h → holds s h (l :: q) 0 → bufs !! h = Some b →
  ∃ s' c' l' new, NetReceive n s c b (length l - 4) = Some (handle n (payload l), s', c') ∧
    driver c' h ∧ holds s' h (l' :: q ++ new) 0 ∧ future s = new ++ future s'.

Context (handle : N → list Z → N) (Hctl : rx_controller) (Hnet : rx_client handle).

Lemma goes_trans s h q s1 d1 s2 d2 :
  goes s h q s1 d1 → (∀ q', holds s1 h q' d1 → goes s1 h q' s2 d2) → goes s h q s2 d2.
Proof.
  intros (new1 & H1 & F1) Hstep. destruct (Hstep _ H1) as (new2 & H2 & F2).
  exists (new1 ++ new2). rewrite app_assoc. split; [done|]. by rewrite F1, F2, app_assoc.
Qed.

Lemma driver_fifo c h : driver c h → (h < 8)%nat → ∃ f, fifo_rx c !! Z.to_nat (next_rx c) = Some f ∧ fifo !! h = Some f.
Proof using Hlay.
  intros (E & _ & Hn) Hh. rewrite E, Hn, Nat2Z.id.
  destruct (lookup_lt_is_Some_2 fifo h) as [f Hf]; [rewrite (rx_fifo _ _ Hlay); lia|]. by exists f.
Qed.

(** The first descriptor of the ring shows whether there is a frame. *)
Lemma head_owned s h q d f :
  holds s h q d → fifo !! h = Some f →
  ∃ new, rx_owned_by_dma s f = Some (run s, bool_decide (q ++ new = [])) ∧
    holds (run s) h (q ++ new) d ∧ future s = new ++ future (run s).
Proof using Hctl.
  intros Hs Hf. destruct (rx_run Hctl s h q d Hs) as (new & Hr & F). exists new.
  split; [|done]. destruct Hr as ((Hh & Hq & Hslots) & _).
  pose proof (Hslots 0%nat ltac:(lia)) as H0. rewrite slot_0 in H0 by done. unfold rx_owned_by_dma.
  destruct (q ++ new) as [|l q'].
  - destruct H0 as (f' & a & w & Hf' & (Ha & Hw & Hrng) & He). assert (f' = f) as -> by congruence.
    rewrite (ld_field_word _ _ _ w Hw Hrng), some_bind. fold (field_of is_empty w). by rewrite He.
  - destruct H0 as (f' & b & a & w & Hf' & Hb & (Ha & Hw & Hrng) & He & _).
    assert (f' = f) as -> by congruence.
    rewrite (ld_field_word _ _ _ w Hw Hrng), some_bind. fold (field_of is_empty w). by rewrite He.
Qed.

Lemma rx_poll_spec s c h q count :
  driver c h → holds s h q 0 →
  ∃ s' new b, rx_poll s c count = Some (s', c, count, b) ∧
    holds s' h (q ++ new) 0 ∧ future s = new ++ future s' ∧ (b = false → q ++ new = []) ∧
    (b = true → q ++ new ≠ []).
Proof using Hctl Hlay.
  intros Hc Hs. pose proof Hs as ((Hh & _) & _).
  destruct (driver_fifo c h Hc Hh) as (f & Ef & Hf). unfold rx_poll. rewrite Ef, some_bind.
  destruct (head_owned s h q 0 f Hs Hf) as (new1 & -> & H1 & F1). rewrite some_bind. cbv beta iota.
  destruct (decide (q ++ new1 = [])) as [E|E]; [rewrite bool_decide_true by done|rewrite bool_decide_false by done].
  2:{ by exists (run s), new1, true. }
  unfold gmac_reg_rd. rewrite (proj1 (proj2 Hc)).
  destruct (rx_rd Hctl _ ATH_DMA_RX_STATUS _ _ _ H1) as (new2 & H2 & F2).
  pose proof (rx_status Hctl _ _ _ _ H1) as Hst. cbv zeta in Hst.
  destruct (ath_reg_rd (run s) (ATH_DMA_RX_STATUS + base)) as [s2 x]. cbn [fst snd] in *. rewrite Hst.
  pose proof H2 as (_ & _ & Hu & _). rewrite Nat.add_0_r in Hu.
  destruct (Z.eqb_spec (unacked s2) 0) as [E2|E2].
  { exists s2, (new1 ++ new2), false. rewrite app_assoc, F1, F2, app_assoc.
    split_and!; try done. intros _. apply nil_length_inv. lia. }
  destruct (head_owned s2 h _ 0 f H2 Hf) as (new3 & -> & H3 & F3). rewrite some_bind. cbv beta iota.
  rewrite bool_decide_false.
  - exists (run s2), (new1 ++ new2 ++ new3), true. rewrite !app_assoc, F1, F2, F3, !app_assoc.
    split_and!; try done. intros _ E3. apply app_nil in E3 as [E3 _]. rewrite E3 in Hu. cbn in Hu. lia.
  - intros E3. apply app_nil in E3 as [E3 _]. rewrite E3 in Hu. cbn in Hu. lia.
Qed.

Lemma rx_take_spec n s c h l q :
  driver c h → holds s h (l :: q) 0 →
  ∃ s' c' new, rx_take NetReceive bufs n s c = Some (handle n (payload l), s', c') ∧
    driver c' (slot h 1) ∧ holds s' (slot h 1) (q ++ new) 0 ∧ future s = new ++ future s'.
Proof using Hctl Hlay Hnet.
  intros Hc Hs. pose proof Hs as ((Hh & _ & Hslots) & _).
  assert (H0 : full fifo bufs (ram s) (slot h 0) l) by exact (Hslots 0%nat ltac:(lia)).
  rewrite slot_0 in H0 by done.
  destruct H0 as (f & b & a & w & Hf & Hb & (Ha & Hw & Hrng) & _ & Hsize & _).
  unfold rx_take. rewrite (proj1 Hc), (proj2 (proj2 Hc)), Nat2Z.id, Hf, some_bind, Hb, some_bind.
  rewrite (ld_field_word _ _ _ w Hw Hrng), some_bind. fold (field_of pkt_size w). rewrite Hsize.
  destruct (Hnet n s c h l q b Hc Hs Hb) as (s1 & c1 & l' & new1 & -> & Hc1 & H1 & F1).
  rewrite some_bind. cbv beta iota. unfold gmac_reg_wr. rewrite (proj1 (proj2 Hc1)).
  destruct (rx_ack Hctl s1 h l' (q ++ new1) H1) as (new2 & H2 & F2).
  set (s2 := ath_reg_wr s1 (ATH_DMA_RX_STATUS + base) 1) in *.
  rewrite <- app_comm_cons, <- app_assoc in H2. destruct H2 as (Hring & Ht & Hu & Hsmall).
  apply Forall_inv_tail in Hsmall.
  destruct (rx_ring_give fifo bufs Hlay _ _ _ _ f Hring Hsmall Hf) as (m' & -> & _ & Hring').
  rewrite some_bind. destruct (rx_put Hctl s2 m') as (R & T & U & F).
  eexists _, _, (new1 ++ new2). split; [reflexivity|]. split_and!.
  - split; [apply Hc1|]. split; [apply Hc1|]. rewrite <- ring_next_slot by done.
    by rewrite <- (proj2 (proj2 Hc1)).
  - split; [by rewrite R|]. split; [|split; [|done]].
    + rewrite T, Ht. cbn [length]. apply slot_S.
    + rewrite U. cbn [length] in Hu. lia.
  - by rewrite F1, F2, F, app_assoc.
Qed.

(** C32: [ath_gmac_recv] hands every frame of the ring to [NetReceive], in the
    order of arrival, each once, without its checksum and with its length,
    and gives its descriptor back; frames the controller adds meanwhile are
    handled too, until it finds the ring empty.  It returns 0, and what comes
    after the last look is still in the ring. *)
Theorem ath_gmac_recv_delivers n s c h q :
  driver c h → holds s h q 0 → length q + length (future s) < 2 ^ 63 →
  ∃ new rest s' c' h',
    ath_gmac_recv NetReceive bufs n s c = Some (foldl handle n (map payload (q ++ new)), s', c', 0) ∧
    future s = new ++ rest ++ future s' ∧ driver c' h' ∧ holds s' h' rest 0.
Proof using Hctl Hlay Hnet.
  intros Hc Hs Hlen. unfold ath_gmac_recv.
  match goal with |- context [while ?body _] =>
    destruct (while_rule body
      (λ '(n', s', c', _), ∃ h' q' del new, driver c' h' ∧ holds s' h' q' 0 ∧
        n' = foldl handle n (map payload del) ∧ future s = new ++ future s' ∧ del ++ q' = q ++ new)
      (λ '(n', s', _, _), length (future s') + (unacked s'))
      (λ '(n', s', c'), ∃ h' new, driver c' h' ∧ holds s' h' [] 0 ∧
        n' = foldl handle n (map payload (q ++ new)) ∧ future s = new ++ future s')
      (n, s, c, 0)) as ([[n1 s1] c1] & -> & h1 & new & Hc1 & H1 & -> & F1) end.
  - intros [[[n' s'] c'] count] (h' & q' & del & new & Hc' & H' & -> & F' & E').
    destruct (rx_poll_spec s' c' h' q' count Hc' H') as (s1 & new1 & b & Ep & H1 & F1 & Hf & Ht).
    cbn [rx_round]. rewrite Ep, some_bind. cbv beta iota. destruct b.
    + destruct (q' ++ new1) as [|l q1] eqn:Eq; [by destruct (Ht eq_refl)|].
      destruct (rx_take_spec (foldl handle n (map payload del)) s1 c' h' l q1 Hc' H1)
        as (s2 & c2 & new2 & -> & Hc2 & H2 & F2). rewrite some_bind.
      eexists. split; [reflexivity|]. split.
      * exists (slot h' 1), (q1 ++ new2), (del ++ [l]), (new ++ new1 ++ new2). split_and!; try done.
        -- by rewrite map_app, foldl_app.
        -- by rewrite F', F1, F2, !app_assoc.
        -- rewrite <- app_assoc. cbn [app]. rewrite app_comm_cons, <- Eq.
           by rewrite <- app_assoc, (app_assoc del), E', <- app_assoc.
      * pose proof H' as (_ & _ & U' & _). pose proof H2 as (_ & _ & U2 & _).
        rewrite F1, F2, !length_app. apply (f_equal length) in Eq. rewrite length_app in Eq, U2.
        cbn [length] in Eq. lia.
    + eexists. split; [reflexivity|]. exists h', (new ++ new1). rewrite (Hf eq_refl) in H1.
      pose proof (Hf eq_refl) as E0. apply app_nil in E0 as [-> ->].
      rewrite app_nil_r in E' |- *. rewrite E'. by rewrite F', F1.
  - exists h, q, [], []. by rewrite app_nil_r.
  - pose proof Hs as (_ & _ & U & _). change (2 ^ 63) with 9223372036854775808 in Hlen. lia.
  - rewrite some_bind. cbv beta iota. pose proof H1 as ((Hh & _) & _).
    destruct (driver_fifo c1 h1 Hc1 Hh) as (f & -> & _). rewrite some_bind. unfold gmac_reg_rd, gmac_reg_wr.
    rewrite (proj1 (proj2 Hc1)).
    destruct (rx_rd Hctl _ ATH_DMA_RX_CTRL _ _ _ H1) as (new2 & H2 & F2).
    destruct (ath_reg_rd s1 (ATH_DMA_RX_CTRL + base)) as [s2 x]. cbn [fst] in *.
    destruct (x =? 0).
    + destruct (rx_wr Hctl s2 ATH_DMA_RX_DESC (virt_to_phys f) _ _ _ ltac:(by left) H2) as (new3 & H3 & F3).
      destruct (rx_wr Hctl _ ATH_DMA_RX_CTRL 1 _ _ _ ltac:(by right) H3) as (new4 & H4 & F4).
      eexists new, ((([] ++ new2) ++ new3) ++ new4), _, c1, h1. split; [reflexivity|].
      split; [|split; [done|exact H4]]. rewrite F1, F2, F3, F4. cbn [app]. by rewrite <- !app_assoc.
    + eexists new, ([] ++ new2), s2, c1, h1. split; [reflexivity|].
      split; [|split; [done|exact H2]]. by rewrite F1, F2.
Qed.
End receiving.

(** ** A transmitter for the witness: it sends at its first step *)

Record tx_machine := TxMachine {
  tx_ram : mem;
  tx_wire : list (list Z);
  tx_reg : Z;
  tx_on : bool
}.

Definition tx_transmit (s : tx_machine) : option tx_machine :=
  let m := tx_ram s in
  let d := tx_reg s in
  a ← ld32 m d;
  w ← ld32 m (d + 4);
  l ← ld_bytes m a (Z.to_nat (field_of pkt_size w));
  m ← st_field m d is_empty 1;
  Some (TxMachine m (tx_wire s ++ [l]) d false).

#[local] Instance tx_bus : DmaBus tx_machine := {
  dma_bus := {|
    reg_wr s a v :=
      if a =? ATH_DMA_TX_DESC then TxMachine (tx_ram s) (tx_wire s) v (tx_on s)
      else if a =? ATH_DMA_TX_CTRL then TxMachine (tx_ram s) (tx_wire s) (tx_reg s) (v =? 1)
      else s;
    reg_rd s a := (s, 0)
  |};
  ram := tx_ram;
  put m s := TxMachine m (tx_wire s) (tx_reg s) (tx_on s);
  run s := if tx_on s then default s (tx_transmit s) else s
}.

Definition demo_tx : ath_gmac_mac_t := GmacMac [0x1000; 0x100c] [] 1 0 1 1 100 0 0.

Lemma tx_machine_controller : tx_controller tx_wire (λ _, False) (λ a, a) demo_tx.
Proof.
  split; [done|]. intros s f a w l Hf (Ha & Hw & Hr) Har He Hs Hl. cbv zeta.
  change (ram s) with (tx_ram s) in *.
  assert (Ef : virt_to_phys f = f).
  { cbn in Hf. apply elem_of_cons in Hf as [->|Hf]; [done|].
    apply elem_of_cons in Hf as [->|Hf]; [done|]. by apply not_elem_of_nil in Hf. }
  pose proof (virt_to_phys_range f) as Hfr. rewrite Ef in *.
  assert (E0 : gmac_reg_wr (gmac_reg_wr s demo_tx ATH_DMA_TX_DESC f) demo_tx ATH_DMA_TX_CTRL ATH_TXE =
    TxMachine (tx_ram s) (tx_wire s) f true).
  { unfold gmac_reg_wr, ath_reg_wr, ath_reg_wr_nf. by rewrite (u32_small f). }
  rewrite E0. destruct (desc_set (tx_ram s) f is_empty 1 a w ltac:(done)) as (m' & E & Hc & Hd').
  assert (Et : run (TxMachine (tx_ram s) (tx_wire s) f true) = TxMachine m' (tx_wire s ++ [l]) f false).
  { cbn [run tx_bus tx_on]. unfold tx_transmit. cbn [tx_ram tx_reg tx_wire].
    rewrite (ld32_word _ _ a Ha Har), some_bind, (ld32_word _ _ w Hw Hr), some_bind, Hs, Nat2Z.id.
    rewrite (ld_bytes_at _ _ l Hl), some_bind. by rewrite E, some_bind. }
  split; [apply touches_refl|]. split; [done|]. exists 0%nat. split; [done|]. split.
  { intros k Hk. assert (k = 0%nat) as -> by lia. apply touches_refl. }
  cbn [Nat.iter nat_rect]. rewrite Et. cbn [ram tx_bus tx_ram tx_wire].
  split; [by apply (touches_changed _ _ _ _ _ Hc); intros; right|]. split; [done|].
  eexists a, _. split; [exact Hd'|]. by rewrite field_set_same.
Qed.

(** A descriptor at rest in front of a frame. *)
Definition demo_frame : list Z := [1; 2; 3; 4; 5; 6].
Definition demo_tx_mem : mem := mem_of2 0x100c [0; 0; 0; 0; 0x80; 0; 0; 0] 0x2000 demo_frame.


(** ** A receiver for the witness: it fills a descriptor at every step *)

Record rx_machine := RxMachine {
  rx_ram : mem;
  rx_tail : nat;
  rx_unacked : nat;
  rx_future : list (list Z)
}.

Definition demo_fifo : list Z := map (λ i : nat, 0x1000 + 12 * i) (seq 0 8).
Definition demo_bufs : list Z := map (λ i : nat, 0x2000 + buf_size * i) (seq 0 8).

Definition rx_fill (s : rx_machine) : option rx_machine :=
  match rx_future s with
  | [] => None
  | l :: fs =>
      f ← demo_fifo !! rx_tail s;
      b ← demo_bufs !! rx_tail s;
      w ← ld32 (rx_ram s) (f + 4);
      if (field_of is_empty w =? 0) || (buf_size <? length l) then None
      else
        m ← st32 (rx_ram s) (f + 4) (length l);
        Some (RxMachine (write_bytes m b l) (slot (rx_tail s) 1) (S (rx_unacked s)) fs)
  end.

#[local] Instance rx_bus : DmaBus rx_machine := {
  dma_bus := {|
    reg_wr s a v :=
      if a =? ATH_DMA_RX_STATUS then RxMachine (rx_ram s) (rx_tail s) (pred (rx_unacked s)) (rx_future s)
      else s;
    reg_rd s a := (s, if a =? ATH_DMA_RX_STATUS then Z.shiftl (rx_unacked s) 16 else 1)
  |};
  ram := rx_ram;
  put m s := RxMachine m (rx_tail s) (rx_unacked s) (rx_future s);
  run s := default s (rx_fill s)
}.

Lemma demo_fifo_at i f : demo_fifo !! i = Some f ↔ (i < 8)%nat ∧ f = 0x1000 + 12 * i.
Proof.
  unfold demo_fifo. rewrite list_lookup_fmap. split.
  - intros (j & Hj & ->)%fmap_Some. apply lookup_seq in Hj as [-> ?]. split; [lia|done].
  - intros [Hi ->]. by rewrite lookup_seq_lt.
Qed.

Lemma demo_bufs_at i b : demo_bufs !! i = Some b ↔ (i < 8)%nat ∧ b = 0x2000 + buf_size * i.
Proof.
  unfold demo_bufs. rewrite list_lookup_fmap. split.
  - intros (j & Hj & ->)%fmap_Some. apply lookup_seq in Hj as [-> ?]. split; [lia|done].
  - intros [Hi ->]. by rewrite lookup_seq_lt.
Qed.

Lemma demo_layout : rx_layout demo_fifo demo_bufs.
Proof.
  split; [done|done|..]; intros i j x y; rewrite ?demo_fifo_at, ?demo_bufs_at;
    intros [Hi ->] [Hj ->]; unfold apart, buf_size; cbn [fst snd]; lia.
Qed.

Lemma slot_add h k : slot (slot h k) 1 = slot h (S k).
Proof. unfold slot. rewrite Nat.Div0.add_mod_idemp_l. f_equal. lia. Qed.

Lemma slot_inj h j k : (j < 8)%nat → (k < 8)%nat → slot h j = slot h k → j = k.
Proof.
  unfold slot. intros Hj Hk E. pose proof (Nat.div_mod (h + j) 8 ltac:(lia)).
  pose proof (Nat.div_mod (h + k) 8 ltac:(lia)). lia.
Qed.

(** A frame in a buffer leaves the other indices alone. *)
Lemma full_kept_buf fifo bufs m m' i j b l :
  rx_layout fifo bufs → bufs !! j = Some b → i ≠ j → length l ≤ buf_size →
  changed b (b + buf_size) m m' → full fifo bufs m i l → full fifo bufs m' i l.
Proof.
  intros Hlay Hb Hne Hl Hc (g & d & a & w & Hg & Hd & Hdesc & He & Hs & Hbytes).
  exists g, d, a, w. do 2 (split; [done|]). split; [|do 2 (split; [done|])].
  - apply (desc_changed _ _ _ _ _ _ _ Hc); [|done].
    pose proof (rx_desc_buf _ _ Hlay i j g b Hg Hb) as [D|D]; cbn [fst snd] in D; lia.
  - apply (changed_bytes _ _ _ _ _ _ Hc); [|done].
    pose proof (rx_buf_buf _ _ Hlay i j d b Hd Hb Hne) as [D|D]; cbn [fst snd] in D; lia.
Qed.

Lemma empty_kept_buf fifo bufs m m' i j b :
  rx_layout fifo bufs → bufs !! j = Some b → changed b (b + buf_size) m m' →
  empty fifo m i → empty fifo m' i.
Proof.
  intros Hlay Hb Hc (g & a & w & Hg & Hd & He). exists g, a, w. split; [done|]. split; [|done].
  apply (desc_changed _ _ _ _ _ _ _ Hc); [|done].
  pose proof (rx_desc_buf _ _ Hlay i j g b Hg Hb) as [D|D]; cbn [fst snd] in D; lia.
Qed.

(** Filling the next descriptor appends the frame to the ring. *)
Lemma rx_ring_fill fifo bufs m m1 m2 h q l f b :
  rx_layout fifo bufs → rx_ring fifo bufs m h q → (length q < 8)%nat →
  Forall (λ l, length l ≤ buf_size) q → length l ≤ buf_size →
  fifo !! slot h (length q) = Some f → bufs !! slot h (length q) = Some b →
  st32 m (f + 4) (length l) = Some m1 → m2 = write_bytes m1 b l →
  rx_ring fifo bufs m2 h (q ++ [l]).
Proof.
  intros Hlay (Hh & Hq & Hslots) Hlt Hsmall Hl Hf Hb E1 ->.
  pose proof (Hslots (length q) Hlt) as He. rewrite lookup_ge_None_2 in He by lia.
  destruct He as (f' & a & w & Hf' & (Ha & Hw & Hr) & He). assert (f' = f) as -> by congruence.
  destruct (st32_word m (f + 4) (length l) (word_owned _ _ _ Hw)) as (m1' & E1' & Hw1 & Hc1).
  assert (m1' = m1) as -> by congruence.
  assert (Hc2 : changed b (b + buf_size) m1 (write_bytes m1 b l)) by (apply changed_write; lia).
  assert (Hc8 : changed f (f + 8) m m1) by (eapply changed_mono; [exact Hc1| |]; lia).
  split; [done|]. split; [rewrite length_app; cbn; lia|]. intros k Hk.
  destruct (decide (k = length q)) as [->|Hne].
  - rewrite lookup_app_r, Nat.sub_diag by lia. cbn [lookup list_lookup].
    exists f, b, a, (Z.of_nat (length l)). do 2 (split; [done|]). split; [|split; [|split]].
    + apply (desc_changed _ _ _ _ _ _ _ Hc2).
      * pose proof (rx_desc_buf _ _ Hlay _ _ f b Hf Hb) as [D|D]; cbn [fst snd] in D; lia.
      * split; [|split; [done|unfold buf_size in Hl; lia]].
        apply (changed_word _ _ _ _ _ _ Hc1); [lia|done].
    + unfold field_of, bits. cbn [field_lsb field_width]. rewrite Z.shiftr_div_pow2 by lia.
      rewrite Z.div_small; [done|]. unfold buf_size in Hl. change (2 ^ 31) with 2147483648. lia.
    + unfold field_of, bits. cbn [field_lsb field_width]. rewrite Z.shiftr_0_r, Z.land_ones by lia.
      apply Z.mod_small. unfold buf_size in Hl. change (2 ^ 12) with 4096. lia.
    + apply write_bytes_in.
  - assert (Hs : slot h k ≠ slot h (length q)) by (intros E; by apply slot_inj in E).
    pose proof (Hslots k Hk) as HS. destruct (decide (k < length q)%nat).
    + rewrite lookup_app_l by done. destruct (q !! k) as [l'|] eqn:El.
      * assert (Hl' : length l' ≤ buf_size) by exact (Forall_lookup_1 _ _ _ _ Hsmall El).
        apply (full_kept_buf fifo bufs m1 _ _ (slot h (length q)) b); try done.
        by apply (full_kept fifo bufs Hlay m m1 _ (slot h (length q)) f).
      * apply lookup_ge_None_1 in El. lia.
    + rewrite lookup_ge_None_2 in HS by lia. rewrite lookup_ge_None_2 by (rewrite length_app; cbn; lia).
      apply (empty_kept_buf fifo bufs m1 _ _ (slot h (length q)) b); try done.
      by apply (empty_kept fifo bufs Hlay m m1 _ (slot h (length q)) f).
Qed.

Notation rx_holds := (holds demo_fifo demo_bufs rx_tail rx_unacked).

Lemma rx_stays s s' h q d :
  rx_holds s' h q d → rx_future s' = rx_future s →
  goes demo_fifo demo_bufs rx_tail rx_unacked rx_future s h q s' d.
Proof. intros Hs F. exists []. by rewrite app_nil_r. Qed.

Lemma rx_machine_run s h q d :
  rx_holds s h q d → goes demo_fifo demo_bufs rx_tail rx_unacked rx_future s h q (run s) d.
Proof.
  intros Hs. pose proof Hs as (Hring & Ht & Hu & Hsmall). cbn [run rx_bus].
  destruct (rx_fill s) as [s'|] eqn:E; [|by apply rx_stays]. cbn [default from_option id].
  unfold rx_fill in E. destruct (rx_future s) as [|l fs] eqn:F; [done|].
  rewrite Ht in E. set (t := slot h (length q)) in *.
  apply bind_Some in E as (f & Hf & E). apply bind_Some in E as (b & Hb & E).
  apply bind_Some in E as (w & Hw & E).
  destruct (Z.eqb_spec (field_of is_empty w) 0) as [He|He]; [done|].
  destruct (Z.ltb_spec buf_size (length l)) as [Hl|Hl]; [done|]. cbn [orb] in E.
  apply bind_Some in E as (m1 & E1 & [= <-]).
  assert (Hlt : (length q < 8)%nat).
  { pose proof Hring as (Hh & Hq & Hslots). destruct (decide (length q < 8)%nat); [done|exfalso].
    assert (E8 : length q = 8%nat) by lia. destruct q as [|l0 q]; [done|].
    pose proof (Hslots 0%nat ltac:(lia)) as (f' & b' & a' & w' & Hf' & _ & (_ & Hw' & Hr') & He' & _).
    assert (Et : t = slot h 0) by (unfold t; rewrite E8; unfold slot; rewrite <- Nat.Div0.add_mod_idemp_r; done).
    rewrite Et in Hf. assert (f' = f) as -> by congruence.
    change (ram s) with (rx_ram s) in Hw'. rewrite (ld32_word _ _ w' Hw' Hr') in Hw. by injection Hw as <-. }
  exists [l]. split; [|done]. split; [|split; [|split]].
  - by apply (rx_ring_fill demo_fifo demo_bufs (rx_ram s) m1 _ h q l f b demo_layout).
  - cbn [rx_tail]. unfold t. rewrite slot_add, length_app. cbn [length]. f_equal. lia.
  - cbn [rx_unacked]. rewrite length_app. cbn [length]. lia.
  - apply Forall_app. split; [done|]. by constructor.
Qed.

Lemma rx_machine_controller : rx_controller demo_fifo demo_bufs 0 rx_tail rx_unacked rx_future.
Proof.
  split.
  - apply rx_machine_run.
  - intros s x h q d Hs. by apply rx_stays.
  - intros s h q d Hs. unfold ath_reg_rd. cbn [reg_rd dma_bus rx_bus fst snd].
    change (ATH_DMA_RX_STATUS + 0 =? ATH_DMA_RX_STATUS) with true. cbv iota.
    by rewrite Z.shiftr_shiftl_l, Z.shiftl_0_r by done.
  - intros s h l q (Hring & Ht & Hu & Hsmall). apply rx_stays; [|done].
    split; [done|]. split; [done|]. split; [|done].
    change (pred (rx_unacked s) + 1 = length (l :: q))%nat. cbn [length] in *. lia.
  - intros s x v h q d [-> | ->] Hs; by apply rx_stays.
  - done.
Qed.

(** A network that keeps what it gets. *)
Definition demo_receive (n : list (list Z)) (s : rx_machine) c (p len : Z)
    : option (list (list Z) * rx_machine * ath_gmac_mac_t) :=
  l ← ld_bytes (rx_ram s) p (Z.to_nat len); Some (n ++ [l], s, c).

Lemma demo_client :
  rx_client demo_receive demo_fifo demo_bufs 0 rx_tail rx_unacked rx_future (λ n p, n ++ [p]).
Proof.
  intros n s c h l q b Hc Hs Hb. pose proof Hs as ((Hh & _ & Hslots) & _).
  assert (H0 : full demo_fifo demo_bufs (rx_ram s) (slot h 0) l) by exact (Hslots 0%nat ltac:(lia)).
  rewrite slot_0 in H0 by done. destruct H0 as (f & b' & a & w & _ & Hb' & _ & _ & _ & Hl).
  assert (b' = b) as -> by congruence.
  exists s, c, l, []. rewrite app_nil_r. split; [|done].
  unfold demo_receive, payload. replace (Z.to_nat (length l - 4)) with (length (take (length l - 4) l)).
  - by rewrite (ld_bytes_at _ _ _ (bytes_at_take _ _ _ _ Hl)).
  - rewrite length_take. lia.
Qed.

Definition demo_rx_bytes : list Z := concat (replicate 8 [0; 0; 0; 0; 0x80; 0; 0; 0; 0; 0; 0; 0]).
Definition demo_rx : rx_machine :=
  RxMachine (mem_of 0x1000 demo_rx_bytes) 0 0 [[1; 2; 3; 4; 0; 0; 0; 0]; [5; 6; 7; 0; 0; 0; 0]].

Lemma demo_rx_slot (k : nat) : (k < 8)%nat → take 8 (drop (12 * k) demo_rx_bytes) = [0; 0; 0; 0; 0x80; 0; 0; 0].
Proof. intros Hk. do 8 (destruct k as [|k]; [done|]). lia. Qed.

Lemma demo_rx_holds : rx_holds demo_rx 0 [] 0.
Proof.
  split; [|done]. split; [lia|]. split; [cbn; lia|]. intros k Hk. cbn [lookup list_lookup].
  assert (Hb : bytes_at (rx_ram demo_rx) (0x1000 + 12 * k) [0; 0; 0; 0; 0x80; 0; 0; 0]).
  { rewrite <- (demo_rx_slot k Hk). apply bytes_at_take. replace (12 * k) with (Z.of_nat (12 * k)) by lia.
    apply bytes_at_drop; [apply write_bytes_in|]. change (length demo_rx_bytes) with 96%nat. lia. }
  exists (0x1000 + 12 * k), 0, 0x80000000. split; [|split; [|done]].
  - apply demo_fifo_at. unfold slot. by rewrite Nat.mod_small by lia.
  - split; [exact (bytes_at_take _ _ _ 4 Hb)|].
    split; [exact (bytes_at_drop _ _ _ 4 Hb ltac:(cbn; lia))|by split].
Qed.

Lemma ath_gmac_recv_delivers_witness :
  ∃ new rest s' c',
    ath_gmac_recv demo_receive demo_bufs [] demo_rx (GmacMac [] demo_fifo 0 0 1 1 100 0 0) =
      Some (foldl (λ n p, n ++ [p]) [] (map payload new), s', c', 0) ∧
    rx_future demo_rx = new ++ rest ++ rx_future s'.
Proof.
  destruct (ath_gmac_recv_delivers demo_receive demo_fifo demo_bufs demo_layout 0 rx_tail rx_unacked rx_future
    (λ n p, n ++ [p]) rx_machine_controller demo_client [] demo_rx
    (GmacMac [] demo_fifo 0 0 1 1 100 0 0) 0 []) as (new & rest & s' & c' & h' & E & F & _).
  - by split.
  - exact demo_rx_holds.
  - cbn. lia.
  - exists new, rest, s', c'. split; [exact E|exact F].
Defined.
