(* ===== verification/Flash.v ===== *)
(** * Flash commands ([common/flash.c], [common/cmd_flash.c], [common/cmd_mem.c])

    The sector table and its protection, the range arguments of [erase], and
    [cp] into the flash, over the driver of [Spi].  The board has one flash
    bank ([CFG_MAX_FLASH_BANKS] = 1), so a loop over the banks is one round
    and a pointer to a bank is a boolean (the bank or [NULL]).  The commands
    cut their arguments in place, so they return the memory. *)

From S2P Require Import Prelude.
From S2P Require Import CString.
From S2P Require Import Vsprintf.
From S2P Require Import Spi.

(** ** The sector table *)

Definition FLASH_UNKNOWN : Z := 0xFFFF.
Definition FLAG_PROTECT_SET : Z := 0x01.
Definition FLAG_PROTECT_CLEAR : Z := 0x02.
Definition ERR_OK : Z := 0.
Definition ERR_PROTECTED : Z := 4.
Definition ERR_INVAL : Z := 8.

(** [info->start[i]]; the code reads entries below [sector_count] only. *)
Definition start_of (info : flash_info_t) (i : Z) : Z := nth (Z.to_nat i) (start info) 0.
Definition protect_of (info : flash_info_t) (i : Z) : Z := nth (Z.to_nat i) (protect info) 0.

Definition set_protect (info : flash_info_t) (i v : Z) : flash_info_t :=
  FlashInfo (size info) (sector_count info) (flash_id info) (start info)
    (<[Z.to_nat i := v]> (protect info)).

Definition sectors (info : flash_info_t) : list Z :=
  map Z.of_nat (seq 0 (Z.to_nat (sector_count info))).

(** The last address of the bank, and of sector [i]. *)
Definition b_end (info : flash_info_t) : Z := u32 (start_of info 0 + size info - 1).
Definition s_end (info : flash_info_t) : Z := s16 (sector_count info - 1).
Definition sector_end (info : flash_info_t) (i : Z) : Z :=
  if i =? s_end info then b_end info else u32 (start_of info (i + 1) - 1).

(** The body of the loop over the sectors. *)
Definition protect_sector (flag from to_ : Z) (info : flash_info_t) (i : Z) : flash_info_t :=
  let end_ := sector_end info i in
  if (from <=? end_) && (to_ >=? start_of info i) then
    if negb (Z.land flag FLAG_PROTECT_CLEAR =? 0) then set_protect info i 0
    else if negb (Z.land flag FLAG_PROTECT_SET =? 0) then set_protect info i 1
    else info
  else info.

Definition flash_protect (flag from to_ : Z) (info : flash_info_t) : flash_info_t :=
  if (sector_count info =? 0) || (size info =? 0) || (to_ <? from) then info else
  if (flash_id info =? FLASH_UNKNOWN) || (to_ <? start_of info 0) || (from >? b_end info)
  then info else
  foldl (protect_sector flag from to_) info (sectors info).

Definition addr2info (info : flash_info_t) (addr : Z) : bool :=
  negb (flash_id info =? FLASH_UNKNOWN) && (addr >=? start_of info 0) &&
  (addr <=? u32 (start_of info 0 + size info - 1)).

(** ** Writing *)

Section commands.
Context {S : Type} `{Bus S}.
Implicit Types s : S.

Definition flash_write s (m : mem) (info : flash_info_t) (src addr cnt : Z) : option (S * Z) :=
  let end_ := u32 (addr + cnt - 1) in
  let info_first := addr2info info addr in
  let info_last := addr2info info end_ in
  if cnt =? 0 then Some (s, ERR_OK) else
  if negb info_first || negb info_last then Some (s, ERR_INVAL) else
  let b_end := u32 (start_of info 0 + size info) in
  if existsb (λ i,
       let e_addr := if i =? s_end info then b_end else start_of info (i + 1) in
       (end_ >=? start_of info i) && (addr <? e_addr) && negb (protect_of info i =? 0))
     (sectors info)
  then Some (s, ERR_PROTECTED) else
  let len := u32 (start_of info 0 + size info - addr) in
  let len := if len >? cnt then cnt else len in
  '(s, i) ← write_buff s m info src addr len;
  if negb (i =? 0) then Some (s, i) else Some (s, ERR_OK).

(** ** Range arguments *)

Definition CFG_MAX_FLASH_BANKS : Z := 1.

(** [ep == str || *ep != 0] *)
Definition bad_number (m : mem) (str ep : Z) : option bool :=
  if ep =? str then Some true else c ← ld m ep; Some (negb (c =? 0)).

(** The answer with [*psf] and [*psl], which only an answer of 1 sets. *)
Definition abbrev_spec (m : mem) (info : flash_info_t) (str : Z) : option (mem * Z * Z * Z) :=
  p ← strchr m str 58;
  if p =? NULL then Some (m, 0, 0, 0) else
  m ← st m p 0;
  let p := p + 1 in
  '(bank, ep) ← simple_strtoul m str 10;
  let bank := s32 bank in
  bad ← bad_number m str ep;
  if (bad : bool) || (bank <? 1) || (bank >? CFG_MAX_FLASH_BANKS) ||
     (flash_id info =? FLASH_UNKNOWN) then Some (m, -1, 0, 0) else
  let str := p in
  p ← strchr m str 45;
  '(m, p) ← (if p =? NULL then Some (m, p) else m ← st m p 0; Some (m, p + 1));
  '(first, ep) ← simple_strtoul m str 10;
  let first := s32 first in
  bad ← bad_number m str ep;
  if (bad : bool) || (first >=? sector_count info) then Some (m, -1, 0, 0) else
  if p =? NULL then Some (m, 1, first, first) else
  '(last, ep) ← simple_strtoul m p 10;
  let last := s32 last in
  bad ← bad_number m p ep;
  if (bad : bool) || (last <? first) || (last >=? sector_count info)
  then Some (m, -1, 0, 0) else Some (m, 1, first, last).

(** The search for the sector of [*addr_last]: found and the new value. *)
Definition round_in_sector (info : flash_info_t) (r : bool * Z) (i : Z) : bool * Z :=
  let '(found, addr_last) := r in
  if found : bool then (found, addr_last) else
  let sector_end_addr :=
    if i =? sector_count info - 1 then u32 (start_of info 0 + size info - 1)
    else u32 (start_of info (i + 1) - 1) in
  if (addr_last <=? sector_end_addr) && (addr_last >=? start_of info i)
  then (true, if addr_last <? sector_end_addr then sector_end_addr else addr_last)
  else (false, addr_last).

Definition round_to_sector (info : flash_info_t) (addr_last : Z) : bool * Z :=
  foldl (round_in_sector info) (false, addr_last) (sectors info).

(** The answer with [*addr_first] and [*addr_last]. *)
Definition addr_spec (m : mem) (info : flash_info_t) (arg1 arg2 : Z) : option (Z * Z * Z) :=
  '(addr_first, ep) ← simple_strtoul m arg1 16;
  bad ← bad_number m arg1 ep;
  if bad : bool then Some (-1, addr_first, 0) else
  '(len_used, arg2) ← (if arg2 =? NULL then Some (false, arg2) else
    c ← ld m arg2; Some (if c =? 43 then (true, arg2 + 1) else (false, arg2)));
  '(addr_last, ep) ← simple_strtoul m arg2 16;
  bad ← bad_number m arg2 ep;
  if bad : bool then Some (-1, addr_first, addr_last) else
  if negb (len_used : bool) then Some (1, addr_first, addr_last) else
  let '(found, addr_last) := round_to_sector info (u32 (addr_first + addr_last - 1)) in
  Some (if negb found then -1 else 1, addr_first, addr_last).

(** One sector of the loop: [s_first[0]] and [s_last[0]]. *)
Definition match_sector (info : flash_info_t) (addr_first addr_last : Z) (r : Z * Z) (sect : Z)
    : Z * Z :=
  let '(s_first, s_last) := r in
  let end_ := sector_end info sect in
  if addr_first >? end_ then (s_first, s_last) else
  if addr_last <? start_of info sect then (s_first, s_last) else
  (if addr_first =? start_of info sect then sect else s_first,
   if addr_last =? end_ then sect else s_last).

(** The answer with [s_first[0]], [s_last[0]] and [*s_count]. *)
Definition flash_fill_sect_ranges (info : flash_info_t) (addr_first addr_last : Z)
    : Z * Z * Z * Z :=
  if negb (addr_first <=? addr_last) then (0, -1, -1, 0) else
  if flash_id info =? FLASH_UNKNOWN then (0, -1, -1, 0) else
  let '(s_first, s_last) :=
    foldl (match_sector info addr_first addr_last) (-1, -1) (sectors info) in
  if s_first >=? 0 then
    let '(err, s_last) :=
      if s_last <? 0 then
        if addr_last >? b_end info then (false, s_end info) else (true, s_last)
      else (false, s_last) in
    if (err : bool) || (s_last <? s_first) then (1, s_first, s_last, 0)
    else (0, s_first, s_last, s_last - s_first + 1)
  else if (addr_first >=? start_of info 0) && (addr_first <? b_end info)
  then (1, s_first, s_last, 0)
  else if s_last >=? 0 then (1, s_first, s_last, 0)
  else (0, s_first, s_last, 0).

Definition flash_sect_erase s (info : flash_info_t) (addr_first addr_last : Z)
    : option (S * Z) :=
  let '(rcode, s_first, s_last, planned) := flash_fill_sect_ranges info addr_first addr_last in
  if negb (planned =? 0) && (rcode =? 0) then
    if s_first >=? 0 then flash_erase s info s_first s_last else Some (s, rcode)
  else if rcode =? 0 then Some (s, 1)
  else Some (s, rcode).

(** ** The commands *)

Definition arg (argv : list Z) (i : nat) : option Z := argv !! i.

Definition do_flerase s (m : mem) (info : flash_info_t) (argc : Z) (argv : list Z)
    : option (S * mem * Z) :=
  if argc <? 2 then Some (s, m, 1) else
  argv1 ← arg argv 1;
  all ← strcmp_lit m argv1 (lit "all");
  if all =? 0 then
    '(s, rcode) ← flash_erase s info 0 (sector_count info - 1); Some (s, m, rcode)
  else
  '(m, n, sect_first, sect_last) ← abbrev_spec m info argv1;
  if negb (n =? 0) then
    if n <? 0 then Some (s, m, 1) else
    '(s, rcode) ← flash_erase s info sect_first sect_last; Some (s, m, rcode)
  else
  if negb (argc =? 3) then Some (s, m, 1) else
  is_bank ← strcmp_lit m argv1 (lit "bank");
  argv2 ← arg argv 2;
  if is_bank =? 0 then
    '(bank, _) ← simple_strtoul m argv2 16;
    if (bank <? 1) || (bank >? CFG_MAX_FLASH_BANKS) then Some (s, m, 1) else
    '(s, rcode) ← flash_erase s info 0 (sector_count info - 1); Some (s, m, rcode)
  else
  '(r, addr_first, addr_last) ← addr_spec m info argv1 argv2;
  if r <? 0 then Some (s, m, 1) else
  if addr_first >=? addr_last then Some (s, m, 1) else
  '(s, rcode) ← flash_sect_erase s info addr_first addr_last;
  Some (s, m, rcode).

Definition cmd_get_data_size (m : mem) (arg default_size : Z) : option Z :=
  len ← strlen m arg;
  if len >? 2 then
    c ← ld m (arg + len - 2);
    if c =? 46 then
      c ← ld m (arg + len - 1);
      Some (if c =? 98 then 1 else if c =? 119 then 2 else if c =? 108 then 4
            else if c =? 115 then -2 else -1)
    else Some default_size
  else Some default_size.

(** One unit of a copy; a word or half-word access must be aligned. *)
Definition copy_unit (m : mem) (size dest addr : Z) : option mem :=
  if negb ((addr mod size =? 0) && (dest mod size =? 0)) then None else
  memcpy m dest addr size.

Definition copy_loop (m : mem) (size count src dest : Z) : option mem :=
  while (λ '(m, count, addr, dest),
    if negb (count >? 0) then Some (Done m) else
    m ← copy_unit m size dest addr;
    Some (Next (m, count - 1, u32 (addr + size), u32 (dest + size)))) (m, count, src, dest).

(** [base] is the value of [base_address]. *)
Definition do_mem_cp s (m : mem) (info : flash_info_t) (base argc : Z) (argv : list Z)
    : option (S * mem * Z) :=
  if negb (argc =? 4) then Some (s, m, 1) else
  argv0 ← arg argv 0;
  size ← cmd_get_data_size m argv0 4;
  if size <? 0 then Some (s, m, 1) else
  argv1 ← arg argv 1;
  '(addr, _) ← simple_strtoul m argv1 16;
  let addr := u32 (addr + base) in
  argv2 ← arg argv 2;
  '(dest, _) ← simple_strtoul m argv2 16;
  let dest := u32 (dest + base) in
  argv3 ← arg argv 3;
  '(count, _) ← simple_strtoul m argv3 16;
  if count =? 0 then Some (s, m, 1) else
  if addr2info info dest then
    '(s, rc) ← flash_write s m info addr dest (u32 (count * size));
    if negb (rc =? 0) then Some (s, m, 1) else Some (s, m, 0)
  else
  m ← copy_loop m size count addr dest;
  Some (s, m, 0).
End commands.

(** ** The geometry *)

(** The table of a bank of 64 KiB sectors that starts at [CFG_FLASH_BASE]. *)
Record geometry (info : flash_info_t) : Prop := Geometry {
  geo_count : 0 < sector_count info ≤ 256;
  geo_size : size info = 65536 * sector_count info;
  geo_id : flash_id info ≠ FLASH_UNKNOWN;
  geo_start i : 0 ≤ i < sector_count info → start_of info i = CFG_FLASH_BASE + 65536 * i;
  geo_protect : length (protect info) = Z.to_nat (sector_count info)
}.

Section geometry.
Implicit Types (info : flash_info_t) (i : Z).

Lemma start_0 info : geometry info → start_of info 0 = CFG_FLASH_BASE.
Proof. intros [Hc _ _ Hs _]. rewrite Hs by lia. lia. Qed.

Lemma b_end_geo info : geometry info → b_end info = CFG_FLASH_BASE + size info - 1.
Proof.
  intros Hg. unfold b_end. rewrite start_0 by done. destruct Hg. unfold CFG_FLASH_BASE in *.
  rewrite u32_small; lia.
Qed.

Lemma s_end_geo info : geometry info → s_end info = sector_count info - 1.
Proof. intros [Hc]. unfold s_end, s16. rewrite Z.mod_small; lia. Qed.

Lemma next_start info i :
  geometry info → 0 ≤ i < sector_count info - 1 →
  u32 (start_of info (i + 1) - 1) = CFG_FLASH_BASE + 65536 * i + 65535.
Proof.
  intros [Hc _ _ Hs _] Hi. rewrite Hs by lia. unfold CFG_FLASH_BASE. rewrite u32_small; lia.
Qed.

Lemma sector_end_geo info i :
  geometry info → 0 ≤ i < sector_count info →
  sector_end info i = CFG_FLASH_BASE + 65536 * i + 65535.
Proof.
  intros Hg Hi. unfold sector_end. rewrite s_end_geo by done.
  destruct (Z.eqb_spec i (sector_count info - 1)) as [->|Hne].
  - rewrite b_end_geo by done. rewrite geo_size by done. lia.
  - apply next_start; [done|lia].
Qed.

Lemma elem_sectors info i : i ∈ sectors info ↔ 0 ≤ i < sector_count info.
Proof.
  unfold sectors. rewrite list_elem_of_fmap. setoid_rewrite elem_of_seq. split.
  - intros (k & -> & Hk). lia.
  - intros Hi. exists (Z.to_nat i). lia.
Qed.

(** A fold over the sectors, by an invariant on the number seen. *)
Lemma sectors_fold {A} info (f : A → Z → A) (P : Z → A → Prop) a :
  P 0 a → (∀ i a, 0 ≤ i < sector_count info → P i a → P (i + 1) (f a i)) →
  0 ≤ sector_count info → P (sector_count info) (foldl f a (sectors info)).
Proof.
  intros H0 Hstep Hc. unfold sectors.
  assert (Hgen : ∀ n k a, (Z.of_nat k + Z.of_nat n = sector_count info) → P (Z.of_nat k) a →
    P (sector_count info) (foldl f a (map Z.of_nat (seq k n)))).
  { induction n as [|n IH]; intros k b Hk HP; simpl.
    - by replace (sector_count info) with (Z.of_nat k) by lia.
    - apply IH; [lia|]. replace (Z.of_nat (S k)) with (Z.of_nat k + 1) by lia.
      apply Hstep; [lia|done]. }
  apply Hgen; [lia|done].
Qed.

Lemma set_protect_of info i j v :
  0 ≤ i < length (protect info) → 0 ≤ j →
  protect_of (set_protect info i v) j = if decide (j = i) then v else protect_of info j.
Proof.
  intros Hi Hj. unfold protect_of, set_protect. cbn [protect].
  rewrite !nth_lookup. destruct (decide (j = i)) as [->|Hne].
  - by rewrite list_lookup_insert_eq by lia.
  - by rewrite list_lookup_insert_ne by lia.
Qed.

Lemma set_protect_geo info i v : geometry info → geometry (set_protect info i v).
Proof. intros []. split; try done. simpl. by rewrite length_insert. Qed.

Lemma get_geom_geometry : geometry flash_get_geom.
Proof.
  split; [done..| |done].
  intros i Hi. unfold start_of. change (sector_count flash_get_geom) with 64 in Hi.
  unfold flash_get_geom. cbn [start].
  change (Z.to_nat (u16 (CFG_FLASH_SIZE / CFG_FLASH_SECTOR_SIZE))) with 64%nat.
  assert (E : map (λ i : nat, CFG_FLASH_BASE + i * CFG_FLASH_SECTOR_SIZE) (seq 0 64) !! Z.to_nat i
              = Some (CFG_FLASH_BASE + 65536 * i)).
  { rewrite list_lookup_fmap, lookup_seq_lt by lia. simpl.
    change CFG_FLASH_SECTOR_SIZE with 65536. f_equal. lia. }
  rewrite nth_lookup. by rewrite E.
Qed.

(** [from], [to_] and sector [i] have an address in common. *)
Definition overlaps (from to_ i : Z) : Prop :=
  from ≤ to_ ∧ from ≤ CFG_FLASH_BASE + 65536 * i + 65535 ∧ CFG_FLASH_BASE + 65536 * i ≤ to_.

#[global] Instance overlaps_dec from to_ i : Decision (overlaps from to_ i).
Proof. unfold overlaps. apply _. Defined.
End geometry.

Section protection.
Implicit Types (info : flash_info_t) (i : Z).

Lemma addr2info_geo info a :
  geometry info →
  addr2info info a = bool_decide (CFG_FLASH_BASE ≤ a < CFG_FLASH_BASE + size info).
Proof.
  intros Hg. unfold addr2info. rewrite start_0 by done.
  fold (u32 (CFG_FLASH_BASE + size info - 1)).
  pose proof (b_end_geo info Hg) as Hb. unfold b_end in Hb. rewrite start_0 in Hb by done.
  rewrite Hb. rewrite (proj2 (Z.eqb_neq (flash_id info) FLASH_UNKNOWN)) by apply Hg.
  rewrite Z.geb_leb. cbn [negb andb].
  destruct (Z.leb_spec CFG_FLASH_BASE a), (Z.leb_spec a (CFG_FLASH_BASE + size info - 1));
    cbn [andb]; case_bool_decide; (done || lia).
Qed.

(** ([flash_protect]) setting or clearing the protection of an address range changes the flag of
    exactly the sectors that have an address in the range; the rest of the
    table is as before. *)
Lemma flash_protect_range info flag v from to_ i :
  geometry info → (flag = FLAG_PROTECT_SET ∧ v = 1 ∨ flag = FLAG_PROTECT_CLEAR ∧ v = 0) →
  0 ≤ i < sector_count info →
  protect_of (flash_protect flag from to_ info) i =
    (if decide (overlaps from to_ i) then v else protect_of info i) ∧
  geometry (flash_protect flag from to_ info) ∧
  start (flash_protect flag from to_ info) = start info.
Proof.
  intros Hg Hf Hi. unfold flash_protect. pose proof (geo_size _ Hg) as Hsize.
  pose proof (geo_count _ Hg) as Hcount. rewrite start_0, b_end_geo by done.
  rewrite (proj2 (Z.eqb_neq (sector_count info) 0)), (proj2 (Z.eqb_neq (size info) 0)) by lia.
  rewrite (proj2 (Z.eqb_neq (flash_id info) FLASH_UNKNOWN)) by apply Hg.
  cbn [orb]. rewrite Z.gtb_ltb.
  destruct (Z.ltb_spec to_ from); [rewrite decide_False; [done|unfold overlaps; lia]|].
  destruct (Z.ltb_spec to_ CFG_FLASH_BASE); [rewrite decide_False; [done|unfold overlaps; lia]|].
  destruct (Z.ltb_spec (CFG_FLASH_BASE + size info - 1) from);
    [rewrite decide_False; [done|unfold overlaps; lia]|].
  cbn [orb].
  destruct (sectors_fold info (protect_sector flag from to_) (λ k inf,
    protect_of inf i = (if decide (overlaps from to_ i ∧ i < k) then v else protect_of info i) ∧
    geometry inf ∧ start inf = start info ∧ sector_count inf = sector_count info) info)
    as (E & Hg' & Hs' & _); [| |lia|].
  - rewrite decide_False by lia. done.
  - intros k inf Hk (E & Hg' & Hs & Hc). unfold protect_sector. cbv zeta.
    rewrite (sector_end_geo inf), (geo_start inf) by (done || lia).
    set (r := if negb _ then _ else _).
    assert (Er : r = set_protect inf k v) by (by destruct Hf as [[-> ->]|[-> ->]]).
    rewrite Er, Z.geb_leb. destruct (decide (overlaps from to_ k)) as [Ho|Ho].
    + unfold overlaps in Ho. zbool. cbn [andb].
      pose proof (geo_protect _ Hg').
      rewrite set_protect_of, E by lia. split; [|split; [by apply set_protect_geo|done]].
      destruct (decide (i = k)) as [->|Hne].
      * by rewrite decide_True by (unfold overlaps; lia).
      * destruct (decide (overlaps from to_ i ∧ i < k)).
        -- by rewrite decide_True by (split; [tauto|lia]).
        -- by rewrite decide_False by (intros [? ?]; lia || (assert (i < k) by lia; tauto)).
    + replace ((from <=? _) && _) with false.
      * split; [|done]. rewrite E. destruct (decide (overlaps from to_ i ∧ i < k)).
        -- by rewrite decide_True by (split; [tauto|lia]).
        -- rewrite decide_False; [done|]. intros [Hi' ?].
           destruct (decide (i = k)) as [->|]; [done|]. assert (i < k) by lia. tauto.
      * symmetry. apply andb_false_iff. unfold overlaps in Ho. lia.
  - rewrite E. split; [|done].
    destruct (decide (overlaps from to_ i)).
    + by rewrite decide_True by (split; [done|lia]).
    + by rewrite decide_False by tauto.
Qed.

End protection.

(** ** Writing through the table *)

(** A protected sector has an address in the range. *)
Definition hits_protected (info : flash_info_t) (from to_ : Z) : bool :=
  existsb (λ i, bool_decide (overlaps from to_ i) && negb (protect_of info i =? 0)) (sectors info).

(** The result code of a write of [cnt] bytes to [addr]. *)
Definition write_code (info : flash_info_t) (addr cnt : Z) : Z :=
  if decide (CFG_FLASH_BASE ≤ addr ∧ addr + cnt ≤ CFG_FLASH_BASE + size info) then
    if hits_protected info addr (addr + cnt - 1) then ERR_PROTECTED else ERR_OK
  else ERR_INVAL.

Section writing.
Context {S : Type} `{SpiFlash S}.
Implicit Types (s : S) (info : flash_info_t) (l : list Z).

Lemma existsb_ext_in {A} (p q : A → bool) (l : list A) :
  (∀ x, x ∈ l → p x = q x) → existsb p l = existsb q l.
Proof.
  induction l as [|x l IH]; intros Hpq; [done|]. simpl.
  rewrite Hpq by left. f_equal. apply IH. intros y Hy. apply Hpq. by right.
Qed.

(** The flash starts at a page. *)
Lemma flash_page_offset a : (a - CFG_FLASH_BASE) mod 256 = a mod 256.
Proof.
  replace (a - CFG_FLASH_BASE) with (a + - (CFG_FLASH_BASE / 256) * 256)
    by (change (CFG_FLASH_BASE / 256) with 10420224; unfold CFG_FLASH_BASE; lia).
  by rewrite Z.mod_add.
Qed.

Lemma flash_page_safe a n : page_safe (a - CFG_FLASH_BASE) n ↔ page_safe a n.
Proof. unfold page_safe, chunk. by rewrite flash_page_offset. Qed.

Lemma flash_write_spec s m info src addr l :
  settled (chip s) → geometry info → bytes_at m src l → Forall is_byte l →
  l ≠ [] → 0 ≤ addr → addr + length l ≤ 4294967296 →
  ∃ s', flash_write s m info src addr (length l) = Some (s', write_code info addr (length l)) ∧
    if decide (write_code info addr (length l) = ERR_OK)
    then released (chip s') ∧
         cells (chip s') = written (cells (chip s)) (addr - CFG_FLASH_BASE) l ∧
         (page_safe addr (length l) →
          ∀ x, cells (chip s') x = land_cells (cells (chip s)) (addr - CFG_FLASH_BASE) l x)
    else s' = s.
Proof.
  intros Hs Hg Hm Hb Hne Ha Hend.
  assert (Hpos : 0 < Z.of_nat (length l)) by (destruct l; [done|simpl; lia]).
  unfold flash_write, write_code. rewrite (u32_small (addr + length l - 1)) by lia.
  rewrite (proj2 (Z.eqb_neq (length l) 0)) by lia. rewrite !addr2info_geo by done.
  pose proof (geo_size _ Hg) as Hsize. pose proof (geo_count _ Hg) as Hcount.
  destruct (decide (CFG_FLASH_BASE ≤ addr ∧ addr + length l ≤ CFG_FLASH_BASE + size info))
    as [Hin|Hout].
  2: { exists s. replace (negb _ || negb _) with true; [done|]. symmetry.
       apply orb_true_iff. rewrite !negb_true_iff, !bool_decide_eq_false. lia. }
  rewrite !bool_decide_eq_true_2 by lia. cbn [negb orb].
  rewrite start_0 by done.
  rewrite (existsb_ext_in _ (λ i, bool_decide (overlaps addr (addr + length l - 1) i) &&
    negb (protect_of info i =? 0))).
  2: { intros i Hi%elem_sectors. f_equal. rewrite s_end_geo, geo_start by done.
       rewrite u32_small by (unfold CFG_FLASH_BASE in *; lia).
       assert (E : (if i =? sector_count info - 1 then CFG_FLASH_BASE + size info
                    else start_of info (i + 1)) = CFG_FLASH_BASE + 65536 * i + 65536).
       { destruct (Z.eqb_spec i (sector_count info - 1)); [lia|].
         rewrite geo_start by (done || lia). lia. }
       rewrite E. unfold overlaps. apply eq_bool_prop_intro.
       rewrite bool_decide_spec, andb_True, Z.geb_leb, !Is_true_true, Z.leb_le, Z.ltb_lt. lia. }
  fold (hits_protected info addr (addr + length l - 1)).
  destruct (hits_protected info addr (addr + length l - 1)); [by exists s|].
  rewrite u32_small by (unfold CFG_FLASH_BASE in *; lia).
  replace (if CFG_FLASH_BASE + size info - addr >? length l then _ else _) with (Z.of_nat (length l)).
  2: { rewrite Z.gtb_ltb. destruct (Z.ltb_spec (length l) (CFG_FLASH_BASE + size info - addr)); lia. }
  destruct (board_write_buff s info m src (addr - CFG_FLASH_BASE) l) as (s' & E & Hr & Hc); try done.
  - lia.
  - lia.
  - replace (CFG_FLASH_BASE + (addr - CFG_FLASH_BASE)) with addr in E by lia.
    rewrite E, some_bind. exists s'. rewrite decide_True by done. split; [done|]. split; [done|]. split; [done|].
    intros Hsafe x. rewrite Hc. apply written_safe; [lia|by apply flash_page_safe].
Qed.
End writing.

(** ** Sector ranges *)

(** The sector of an address, and the two alignment tests. *)
Definition sector_of (a : Z) : Z := (a - CFG_FLASH_BASE) / 65536.
Definition starts_sector (a : Z) : Prop := a = CFG_FLASH_BASE + 65536 * sector_of a.
Definition ends_sector (a : Z) : Prop := a = CFG_FLASH_BASE + 65536 * sector_of a + 65535.

#[global] Instance starts_sector_dec a : Decision (starts_sector a).
Proof. unfold starts_sector. apply _. Defined.
#[global] Instance ends_sector_dec a : Decision (ends_sector a).
Proof. unfold ends_sector. apply _. Defined.

(** The specification of [flash_fill_sect_ranges] inside the bank. *)
Definition sect_ranges (first last : Z) : Z * Z * Z * Z :=
  if decide (starts_sector first) then
    if decide (ends_sector last)
    then (0, sector_of first, sector_of last, sector_of last - sector_of first + 1)
    else (1, sector_of first, -1, 0)
  else (1, -1, (if decide (ends_sector last) then sector_of last else -1), 0).

Section ranges.
Implicit Types (info : flash_info_t) (i first last : Z).

Lemma sector_of_bounds a :
  CFG_FLASH_BASE + 65536 * sector_of a ≤ a ≤ CFG_FLASH_BASE + 65536 * sector_of a + 65535.
Proof. unfold sector_of. Z.div_mod_to_equations. lia. Qed.

Lemma sector_of_unique a i :
  CFG_FLASH_BASE + 65536 * i ≤ a ≤ CFG_FLASH_BASE + 65536 * i + 65535 → sector_of a = i.
Proof. unfold sector_of. intros. Z.div_mod_to_equations. lia. Qed.

(** The sectors the loop of [flash_fill_sect_ranges] finds. *)
Lemma find_sectors_spec info first last :
  geometry info → CFG_FLASH_BASE ≤ first ≤ last → last < CFG_FLASH_BASE + size info →
  foldl (match_sector info first last) (-1, -1) (sectors info) =
    (if decide (starts_sector first) then sector_of first else -1,
     if decide (ends_sector last) then sector_of last else -1).
Proof.
  intros Hg H1 H2.
  pose proof (sector_of_bounds first) as Bf. pose proof (sector_of_bounds last) as Bl.
  pose proof (geo_size _ Hg) as Hsize.
  set (step := match_sector info first last).
  pose (P := λ (k : Z) (r : Z * Z), r =
    (if decide (starts_sector first ∧ sector_of first < k) then sector_of first else -1,
     if decide (ends_sector last ∧ sector_of last < k) then sector_of last else -1)).
  assert (Hf : P (sector_count info) (foldl step (-1, -1) (sectors info))).
  { apply (sectors_fold info step P); unfold P.
    - by rewrite !decide_False by (unfold CFG_FLASH_BASE in *; lia).
    - intros i r Hi ->. unfold step, match_sector. rewrite sector_end_geo, geo_start by done.
      unfold starts_sector, ends_sector in *. rewrite Z.gtb_ltb.
      destruct (Z.ltb_spec (CFG_FLASH_BASE + 65536 * i + 65535) first);
        [|destruct (Z.ltb_spec last (CFG_FLASH_BASE + 65536 * i))];
        [| |destruct (Z.eqb_spec first (CFG_FLASH_BASE + 65536 * i));
            destruct (Z.eqb_spec last (CFG_FLASH_BASE + 65536 * i + 65535))];
        f_equal; repeat (destruct (decide _)); lia.
    - pose proof (geo_count _ Hg). lia. }
  rewrite Hf. unfold starts_sector, ends_sector.
  f_equal; repeat (destruct (decide _)); (done || lia).
Qed.

Lemma fill_sect_ranges_geo info first last :
  geometry info → CFG_FLASH_BASE ≤ first ≤ last → last < CFG_FLASH_BASE + size info →
  flash_fill_sect_ranges info first last = sect_ranges first last.
Proof.
  intros Hg H1 H2. unfold flash_fill_sect_ranges, sect_ranges.
  rewrite find_sectors_spec by done. rewrite (proj2 (Z.leb_le first last)) by lia.
  rewrite (proj2 (Z.eqb_neq (flash_id info) FLASH_UNKNOWN)) by apply Hg. cbn [negb].
  rewrite start_0, b_end_geo by done.
  pose proof (sector_of_bounds first) as Bf. pose proof (sector_of_bounds last) as Bl.
  pose proof (geo_size _ Hg) as Hsize.
  destruct (decide (starts_sector first)) as [Hf|Hf], (decide (ends_sector last)) as [Hl|Hl];
    unfold starts_sector, ends_sector in *; zbool; cbn [orb andb]; try done.
  destruct (Z.ltb_spec first (CFG_FLASH_BASE + size info - 1)); done.
Qed.

Lemma round_to_sector_spec info a :
  geometry info → CFG_FLASH_BASE ≤ a < CFG_FLASH_BASE + size info →
  round_to_sector info a = (true, CFG_FLASH_BASE + 65536 * sector_of a + 65535).
Proof.
  intros Hg Ha. unfold round_to_sector. pose proof (geo_size _ Hg) as Hsize.
  pose proof (sector_of_bounds a) as Ba.
  set (step := round_in_sector info).
  pose (P := λ (k : Z) (r : bool * Z), r = if decide (sector_of a < k)
    then (true, CFG_FLASH_BASE + 65536 * sector_of a + 65535) else (false, a)).
  assert (Hf : P (sector_count info) (foldl step (false, a) (sectors info))).
  { apply (sectors_fold info step P); unfold P.
    - by rewrite decide_False by (unfold CFG_FLASH_BASE in *; lia).
    - intros i r Hi ->. unfold step, round_in_sector.
      destruct (decide (sector_of a < i)); [by rewrite decide_True by lia|].
      assert (E : (if i =? sector_count info - 1 then u32 (start_of info 0 + size info - 1)
                   else u32 (start_of info (i + 1) - 1)) = CFG_FLASH_BASE + 65536 * i + 65535).
      { pose proof (sector_end_geo info i Hg Hi) as E. unfold sector_end, b_end in E.
        by rewrite s_end_geo in E by done. }
      cbv zeta. rewrite E, geo_start, Z.geb_leb by done.
      destruct (decide (sector_of a < i + 1)).
      + assert (i = sector_of a) as -> by lia. zbool. cbn [andb]. f_equal.
        destruct (Z.ltb_spec a (CFG_FLASH_BASE + 65536 * sector_of a + 65535)); lia.
      + replace ((a <=? _) && _) with false; [done|]. symmetry. apply andb_false_iff. lia.
    - pose proof (geo_count _ Hg). lia. }
  rewrite Hf. rewrite decide_True by lia. done.
Qed.
(** ([flash_fill_sect_ranges]) inside the bank the computed sectors are the sectors of the two
    addresses, and the range is accepted exactly when the first address
    starts a sector and the last one ends one; otherwise the answer is an
    error and no sector is planned. *)
Theorem fill_sect_ranges_exact info first last :
  geometry info → CFG_FLASH_BASE ≤ first ≤ last → last < CFG_FLASH_BASE + size info →
  flash_fill_sect_ranges info first last = sect_ranges first last.
Proof. apply fill_sect_ranges_geo. Qed.

End ranges.

(** ** The commands *)

(** A number argument that is one hexadecimal number to its end. *)
Record hex_arg (m : mem) (p : Z) (t : list Z) (v : Z) : Prop := HexArg {
  hex_cstr : cstr m p t;
  hex_fits : fits t;
  hex_some : t ≠ [];
  hex_value : strtoul_l t 16 = (v, [])
}.

Section arguments.
Implicit Types (m : mem) (p v : Z) (t : list Z).

Lemma hex_arg_parse m p t v :
  hex_arg m p t v → simple_strtoul m p 16 = Some (v, p + length t).
Proof.
  intros [Hc Hf _ Hv]. rewrite (simple_strtoul_cstr m p t 16 Hc Hf), Hv. simpl.
  do 2 f_equal. lia.
Qed.

Lemma hex_arg_good m p t v : hex_arg m p t v → bad_number m p (p + length t) = Some false.
Proof.
  intros [Hc Hf Hn _]. unfold bad_number.
  destruct t as [|c t]; [done|]. rewrite (proj2 (Z.eqb_neq _ _)) by (simpl; lia).
  destruct Hc as [_ Hb]. apply bytes_at_app in Hb as [_ Hb]. apply bytes_at_singleton in Hb.
  by c_step.
Qed.

(** No prefix of an [addr_spec] argument is taken for a sector specification. *)
Lemma abbrev_none m info p t :
  cstr m p t → fits t → (58 ∉ t) → abbrev_spec m info p = Some (m, 0, 0, 0).
Proof.
  intros Hc Hf Ht. unfold abbrev_spec. rewrite (strchr_cstr m p t 58) by (done || (red; lia)).
  destruct (find_index (Z.eqb 58) t) as [i|] eqn:E; [|done].
  exfalso. apply Ht. apply find_index_mem. by rewrite E.
Qed.

Lemma lit_differs m p t k :
  cstr m p t → fits t → Forall is_char k → t ≠ k →
  ∃ r, strcmp_lit m p k = Some r ∧ (r =? 0) = false.
Proof.
  intros Hc Hf Hk Hne. exists (str_cmp t k). split; [by apply strcmp_lit_cstr|].
  destruct Hc as [Ht _]. rewrite str_cmp_zero by done. by apply bool_decide_eq_false.
Qed.
End arguments.

Section erase.
Context {S : Type} `{SpiFlash S}.
Implicit Types (s : S) (info : flash_info_t).

Lemma flash_sect_erase_spec s info first last :
  settled (chip s) → geometry info → CFG_FLASH_BASE ≤ first ≤ last →
  last < CFG_FLASH_BASE + size info →
  if decide (starts_sector first ∧ ends_sector last) then
    ∃ s', flash_sect_erase s info first last = Some (s', 0) ∧ released (chip s') ∧
      ∀ x, cells (chip s') x =
        if decide (first ≤ CFG_FLASH_BASE + x ≤ last) then 255 else cells (chip s) x
  else flash_sect_erase s info first last = Some (s, 1).
Proof.
  intros Hs Hg H1 H2. unfold flash_sect_erase. rewrite fill_sect_ranges_geo by done.
  unfold sect_ranges. pose proof (sector_of_bounds first) as Bf.
  pose proof (sector_of_bounds last) as Bl. pose proof (geo_size _ Hg) as Hsize.
  destruct (decide (starts_sector first)) as [Hf|Hf];
    [|by rewrite decide_False by tauto].
  destruct (decide (ends_sector last)) as [Hl|Hl];
    [|by rewrite decide_False by tauto].
  rewrite decide_True by done. unfold starts_sector, ends_sector in Hf, Hl.
  zbool. cbn [negb andb].
  destruct (board_flash_erase s info (sector_of first) (sector_of last)) as (s' & -> & Hr & Hc);
    [done|done|by apply geo_count|lia|lia|].
  exists s'. split; [done|]. split; [done|]. intros x. rewrite Hc.
  assert (Hx : sector_of first ≤ x / 65536 ≤ sector_of last ↔ first ≤ CFG_FLASH_BASE + x ≤ last).
  { rewrite Hf, Hl at 2. generalize (sector_of first) (sector_of last). intros i j.
    Z.div_mod_to_equations. lia. }
  destruct (decide (sector_of first ≤ x / 65536 ≤ sector_of last)).
  - by rewrite decide_True by tauto.
  - by rewrite decide_False by tauto.
Qed.

(** How [erase first +len] reads its arguments. *)
Lemma do_flerase_args s m info p0 p1 p2 t1 t2 first len :
  geometry info →
  hex_arg m p1 t1 first → (58 ∉ t1) → t1 ≠ lit "all" → t1 ≠ lit "bank" →
  p2 ≠ NULL → m !! p2 = Some 43 → hex_arg m (p2 + 1) t2 len →
  CFG_FLASH_BASE ≤ first → 0 < len → first + len ≤ CFG_FLASH_BASE + size info →
  do_flerase s m info 3 [p0; p1; p2] =
    let last := CFG_FLASH_BASE + 65536 * sector_of (first + len - 1) + 65535 in
    if first >=? last then Some (s, m, 1) else
    '(s, rcode) ← flash_sect_erase s info first last; Some (s, m, rcode).
Proof.
  intros Hg Ha1 Hcolon Hall Hbank Hp2 Hplus Ha2 H1 H2 H3.
  unfold do_flerase. cbn [arg lookup list_lookup].
  change (3 <? 2) with false. cbv iota. rewrite some_bind.
  pose proof (hex_cstr _ _ _ _ Ha1) as Hc1. pose proof (hex_fits _ _ _ _ Ha1) as Hf1.
  destruct (lit_differs m p1 t1 (lit "all") Hc1 Hf1) as (r1 & -> & Er1); [chars|done|].
  rewrite some_bind, Er1, (abbrev_none m info p1 t1) by done. rewrite some_bind.
  change (negb (0 =? 0)) with false. change (negb (3 =? 3)) with false. cbv iota.
  destruct (lit_differs m p1 t1 (lit "bank") Hc1 Hf1) as (r2 & -> & Er2); [chars|done|].
  rewrite !some_bind, Er2. unfold addr_spec.
  rewrite (hex_arg_parse _ _ _ _ Ha1), some_bind, (hex_arg_good _ _ _ _ Ha1), some_bind.
  rewrite (proj2 (Z.eqb_neq p2 NULL)) by done. repeat c_step.
  change (43 =? 43) with true. cbv iota.
  rewrite (hex_arg_parse _ _ _ _ Ha2), some_bind, (hex_arg_good _ _ _ _ Ha2), some_bind.
  cbn [negb]. pose proof (geo_size _ Hg). pose proof (geo_count _ Hg).
  rewrite u32_small by (unfold CFG_FLASH_BASE in *; lia).
  by rewrite round_to_sector_spec by (done || lia).
Qed.

(** [erase first +len]. *)
Lemma do_flerase_len s m info p0 p1 p2 t1 t2 first len :
  settled (chip s) → geometry info →
  hex_arg m p1 t1 first → (58 ∉ t1) → t1 ≠ lit "all" → t1 ≠ lit "bank" →
  p2 ≠ NULL → m !! p2 = Some 43 → hex_arg m (p2 + 1) t2 len →
  CFG_FLASH_BASE ≤ first → 0 < len → first + len ≤ CFG_FLASH_BASE + size info →
  if decide (starts_sector first) then
    ∃ s', do_flerase s m info 3 [p0; p1; p2] = Some (s', m, 0) ∧ released (chip s') ∧
      ∀ x, cells (chip s') x =
        if decide (first ≤ CFG_FLASH_BASE + x ≤
                   CFG_FLASH_BASE + 65536 * sector_of (first + len - 1) + 65535)
        then 255 else cells (chip s) x
  else do_flerase s m info 3 [p0; p1; p2] = Some (s, m, 1).
Proof.
  intros Hs Hg Ha1 Hcolon Hall Hbank Hp2 Hplus Ha2 H1 H2 H3.
  rewrite (do_flerase_args s m info p0 p1 p2 t1 t2 first len) by done. cbv zeta.
  set (last := CFG_FLASH_BASE + 65536 * sector_of (first + len - 1) + 65535).
  pose proof (sector_of_bounds (first + len - 1)) as Bl.
  pose proof (geo_size _ Hg) as Hsize. rewrite Z.geb_leb.
  assert (Hlast : sector_of last = sector_of (first + len - 1))
    by (apply sector_of_unique; unfold last; lia).
  assert (Hmax : last < CFG_FLASH_BASE + size info) by (unfold last in *; lia).
  assert (Hends : ends_sector last) by (unfold ends_sector; rewrite Hlast; done).
  pose proof (flash_sect_erase_spec s info first last Hs Hg) as Hspec.
  destruct (decide (starts_sector first)) as [Hst|Hst].
  - rewrite decide_True in Hspec by done.
    destruct Hspec as (s' & E & Hr & Hc); [unfold last; lia|done|].
    exists s'. split; [|done]. rewrite E, some_bind.
    rewrite (proj2 (Z.leb_gt last first)); [done|].
    unfold starts_sector in Hst. unfold last. lia.
  - rewrite decide_False in Hspec by tauto. destruct (Z.leb_spec last first); [done|].
    rewrite Hspec by (unfold last in *; lia). done.
Qed.
End erase.

Section copy.
Context {S : Type} `{SpiFlash S}.
Implicit Types (s : S) (info : flash_info_t).

(** The commands only look at their arguments. *)
Lemma do_flerase_take s m info argc argv :
  do_flerase s m info argc argv = do_flerase s m info argc (take 3 argv).
Proof. unfold do_flerase, arg. by rewrite !lookup_take_lt by lia. Qed.

Lemma do_mem_cp_take s m info base argc argv :
  do_mem_cp s m info base argc argv = do_mem_cp s m info base argc (take 4 argv).
Proof. unfold do_mem_cp, arg. by rewrite !lookup_take_lt by lia. Qed.

(** The suffix of the command name. *)
Definition cp_size (t : list Z) (size : Z) : Prop :=
  t = lit "cp.b" ∧ size = 1 ∨ t = lit "cp.w" ∧ size = 2 ∨ t = lit "cp.l" ∧ size = 4 ∨
  t = lit "cp" ∧ size = 4.

Lemma cp_data_size m p t size :
  cstr m p t → cp_size t size → cmd_get_data_size m p 4 = Some size.
Proof.
  intros Hc Ht. unfold cmd_get_data_size.
  rewrite (strlen_cstr m p t) by (done || (unfold fits; destruct Ht as [[-> _]|[[-> _]|[[-> _]|[-> _]]]]; done)).
  rewrite some_bind.
  assert (Hb : bytes_at m p t) by by apply cstr_bytes.
  destruct Ht as [[-> ->]|[[-> ->]|[[-> ->]|[-> ->]]]]; [| | |done].
  all: pose proof (Hb 2%nat _ eq_refl) as H2; pose proof (Hb 3%nat _ eq_refl) as H3.
  all: change (Z.of_nat (length (lit _))) with 4; change (4 >? 2) with true; cbv iota.
  all: replace (p + 4 - 2) with (p + 2%nat) by lia; replace (p + 4 - 1) with (p + 3%nat) by lia.
  all: by repeat c_step.
Qed.

(** The arguments of [cp src dest count]. *)
Record cp_args (m : mem) (argv : list Z) (size src dest count : Z) : Prop := CpArgs {
  cp_count : length argv = 4%nat;
  cp_cmd : ∃ p t, argv !! 0%nat = Some p ∧ cstr m p t ∧ cp_size t size;
  cp_src : ∃ p t, argv !! 1%nat = Some p ∧ hex_arg m p t src;
  cp_dest : ∃ p t, argv !! 2%nat = Some p ∧ hex_arg m p t dest;
  cp_units : ∃ p t, argv !! 3%nat = Some p ∧ hex_arg m p t count
}.

Lemma do_mem_cp_args s m info argv size src dest count :
  cp_args m argv size src dest count → 0 ≤ src < 4294967296 → 0 ≤ dest < 4294967296 →
  0 < count →
  do_mem_cp s m info 0 4 argv =
    if addr2info info dest then
      '(s, rc) ← flash_write s m info src dest (u32 (count * size));
      if negb (rc =? 0) then Some (s, m, 1) else Some (s, m, 0)
    else m ← copy_loop m size count src dest; Some (s, m, 0).
Proof.
  intros [_ (p0 & t0 & E0 & Hc0 & Hs0) (p1 & t1 & E1 & A1) (p2 & t2 & E2 & A2)
    (p3 & t3 & E3 & A3)] Hsrc Hdest Hcount.
  unfold do_mem_cp, arg. change (negb (4 =? 4)) with false. cbv iota.
  rewrite E0, E1, E2, E3, !some_bind, (cp_data_size m p0 t0 size Hc0 Hs0), some_bind.
  replace (size <? 0) with false
    by (destruct Hs0 as [[_ ->]|[[_ ->]|[[_ ->]|[_ ->]]]]; done).
  cbv iota. rewrite some_bind, (hex_arg_parse _ _ _ _ A1), some_bind.
  rewrite some_bind, (hex_arg_parse _ _ _ _ A2), some_bind.
  rewrite some_bind, (hex_arg_parse _ _ _ _ A3), some_bind, !Z.add_0_r, !u32_small by lia.
  by rewrite (proj2 (Z.eqb_neq count 0)) by lia.
Qed.

(** [cp] to an address in the flash. *)
Lemma do_mem_cp_flash s m info argv size src dest count l :
  settled (chip s) → geometry info → cp_args m argv size src dest count →
  0 ≤ src < 4294967296 → 0 < count → bytes_at m src l → Forall is_byte l →
  Z.of_nat (length l) = count * size →
  CFG_FLASH_BASE ≤ dest → dest + count * size ≤ CFG_FLASH_BASE + Spi.size info →
  page_safe dest (count * size) →
  if hits_protected info dest (dest + count * size - 1)
  then do_mem_cp s m info 0 4 argv = Some (s, m, 1)
  else ∃ s', do_mem_cp s m info 0 4 argv = Some (s', m, 0) ∧ released (chip s') ∧
    ∀ x, cells (chip s') x = land_cells (cells (chip s)) (dest - CFG_FLASH_BASE) l x.
Proof.
  intros Hs Hg Ha Hsrc Hcount Hm Hb Hlen H1 H2 Hdiv.
  pose proof (geo_size _ Hg) as Hsize. pose proof (geo_count _ Hg) as Hcnt.
  assert (Hpos : 0 < Z.of_nat (length l)).
  { destruct Ha as [_ (p & t & _ & _ & Ht) _ _ _].
    assert (0 < size) by (destruct Ht as [[_ ->]|[[_ ->]|[[_ ->]|[_ ->]]]]; lia). nia. }
  unfold CFG_FLASH_BASE in *.
  rewrite (do_mem_cp_args s m info argv size src dest count) by (done || lia).
  rewrite addr2info_geo by done. unfold CFG_FLASH_BASE.
  rewrite bool_decide_eq_true_2 by lia. rewrite <- Hlen in *. rewrite u32_small by lia.
  destruct (flash_write_spec s m info src dest l Hs Hg Hm Hb) as (s' & E & Hs');
    [by intros ->|lia|lia|].
  rewrite E, some_bind. unfold write_code in *.
  rewrite decide_True in * by (unfold CFG_FLASH_BASE; lia).
  destruct (hits_protected info dest (dest + length l - 1)).
  - rewrite decide_False in Hs' by done. subst s'. done.
  - rewrite decide_True in Hs' by done. destruct Hs' as (Hr & _ & Hc). exists s'. auto.
Qed.

(** A forward copy in units. *)
Lemma copy_loop_spec m size src dest (n : nat) l :
  size = 1 ∨ size = 2 ∨ size = 4 → length l = (n * Z.to_nat size)%nat → Z.of_nat n < 4294967296 →
  Forall is_byte l → bytes_at m src l → owned m dest (length l) →
  0 ≤ src → 0 ≤ dest → src + length l < 4294967296 → dest + length l < 4294967296 →
  dest ≤ src ∨ src + length l ≤ dest →
  src mod size = 0 → dest mod size = 0 →
  copy_loop m size n src dest = Some (write_bytes m dest l).
Proof.
  intros Hsize Hlen Hn Hb Hl Ho Hs Hd Hs2 Hd2 Hdir Ha1 Ha2. unfold copy_loop.
  apply (while_within _ _ (Datatypes.S n)); [lia|]. clear Hn.
  revert m src dest l Hlen Hb Hl Ho Hs Hd Hs2 Hd2 Hdir Ha1 Ha2.
  induction n as [|n IH]; intros m src dest l Hlen Hb Hl Ho Hs Hd Hs2 Hd2 Hdir Ha1 Ha2.
  { exists 1%nat. split; [lia|]. destruct l; [|done]. by apply runs_done. }
  set (unit := take (Z.to_nat size) l). set (rest := drop (Z.to_nat size) l).
  assert (El : l = unit ++ rest) by (symmetry; apply take_drop).
  assert (Hu : length unit = Z.to_nat size) by (unfold unit; rewrite length_take; lia).
  assert (Hu' : Z.of_nat (length unit) = size) by lia.
  assert (Hr : length rest = (n * Z.to_nat size)%nat) by (unfold rest; rewrite length_drop; lia).
  clearbody unit rest. subst l. rewrite length_app in *.
  apply Forall_app in Hb as [Hb1 Hb2]. apply bytes_at_app in Hl as [Hl1 Hl2]. rewrite Hu' in Hl2.
  assert (Hc : copy_unit m size dest src = Some (write_bytes m dest unit)).
  { unfold copy_unit. rewrite Ha1, Ha2. cbn [Z.eqb andb negb]. rewrite <- Hu'.
    apply memcpy_bytes; try done.
    - eapply owned_mono; [exact Ho|lia|lia].
    - unfold fits. lia.
    - lia. }
  destruct (IH (write_bytes m dest unit) (src + size) (dest + size) rest) as (k & Hk & Hrun);
    try done.
  - apply bytes_at_write_disjoint; [lia|done].
  - apply owned_write. eapply owned_mono; [exact Ho|lia|lia].
  - lia.
  - lia.
  - lia.
  - lia.
  - lia.
  - by rewrite <- Z.add_mod_idemp_r, Z.mod_same, Z.add_0_r by lia.
  - by rewrite <- Z.add_mod_idemp_r, Z.mod_same, Z.add_0_r by lia.
  - exists (Datatypes.S k). split; [lia|].
    rewrite write_bytes_app, Hu'. eapply runs_next; [|exact Hrun]. cbv beta iota.
    rewrite (proj2 (Z.gtb_lt _ 0)) by lia. cbn [negb]. rewrite Hc, some_bind.
    rewrite !u32_small by lia. do 5 f_equal. lia.
Qed.
End copy.

(** ** What the commands promise *)

Lemma land_255 d : is_byte d → Z.land 255 d = d.
Proof.
  intros Hd. change 255 with (Z.ones 8). rewrite Z.land_comm, Z.land_ones by lia.
  apply Z.mod_small, Hd.
Qed.

Lemma not_in_lit (c : Z) l : existsb (Z.eqb c) l = false → c ∉ l.
Proof.
  intros E Hc. assert (existsb (Z.eqb c) l = true); [|congruence].
  apply existsb_exists. exists c. rewrite <- list_elem_of_In. split; [done|apply Z.eqb_refl].
Qed.

Lemma unprotected info from to_ :
  Forall (λ v, v = 0) (protect info) → hits_protected info from to_ = false.
Proof.
  intros Hp. unfold hits_protected. apply not_true_is_false. intros E.
  apply existsb_exists in E as (i & _ & E). apply andb_true_iff in E as [_ E].
  unfold protect_of in E. rewrite nth_lookup in E.
  destruct (protect info !! Z.to_nat i) as [v|] eqn:Ev; [|done].
  apply (Forall_lookup_1 _ _ _ _ Hp) in Ev. by subst v.
Qed.

Section promises.
Context {S : Type} `{SpiFlash S}.
Implicit Types (s : S) (info : flash_info_t).

(** C6: ([flash_write]) writing [l] (not empty) to any address answers one of
    three codes.  The range leaves the bank: [ERR_INVAL].  A sector of the
    range is protected: [ERR_PROTECTED].  In both cases the flash is not
    touched.  Otherwise [ERR_OK], and the flash holds what the chunks of
    [write_buff] make of it ([Spi.written]), which are exactly the bytes of
    the range, with every other cell as it was, when no chunk crosses the end
    of a page ([Spi.page_safe]: the write ends in the page behind its first
    one, or the first page's room divides 256). *)
Theorem flash_write_refines s m info src addr l :
  settled (chip s) → geometry info → bytes_at m src l → Forall is_byte l →
  l ≠ [] → 0 ≤ addr → addr + length l ≤ 4294967296 →
  ∃ s', flash_write s m info src addr (length l) = Some (s', write_code info addr (length l)) ∧
    if decide (write_code info addr (length l) = ERR_OK)
    then released (chip s') ∧
         cells (chip s') = written (cells (chip s)) (addr - CFG_FLASH_BASE) l ∧
         (page_safe addr (length l) →
          ∀ x, cells (chip s') x = land_cells (cells (chip s)) (addr - CFG_FLASH_BASE) l x)
    else s' = s.
Proof. apply flash_write_spec. Qed.

(** C7: ([do_flerase]) the command [erase first +len], for a range inside the bank: when [first] starts
    a sector, the sectors from [first] up to the one that has the last of
    the [len] bytes read 0xff afterwards, every other cell is unchanged and the
    answer is 0; when it does not, the answer is 1 and the flash is not
    touched. *)
Theorem do_flerase_exact s m info p0 p1 p2 t1 t2 first len :
  settled (chip s) → geometry info →
  hex_arg m p1 t1 first → (58 ∉ t1) → t1 ≠ lit "all" → t1 ≠ lit "bank" →
  p2 ≠ NULL → m !! p2 = Some 43 → hex_arg m (p2 + 1) t2 len →
  CFG_FLASH_BASE ≤ first → 0 < len → first + len ≤ CFG_FLASH_BASE + size info →
  if decide (starts_sector first) then
    ∃ s', do_flerase s m info 3 [p0; p1; p2] = Some (s', m, 0) ∧ released (chip s') ∧
      ∀ x, cells (chip s') x =
        if decide (first ≤ CFG_FLASH_BASE + x ≤
                   CFG_FLASH_BASE + 65536 * sector_of (first + len - 1) + 65535)
        then 255 else cells (chip s) x
  else do_flerase s m info 3 [p0; p1; p2] = Some (s, m, 1).
Proof. apply do_flerase_len. Qed.

(** ([do_mem_cp]) the command [cp] (with any size suffix) between two places in RAM, forward or
    disjoint and aligned to the unit, copies [count] units: the target holds
    the source bytes and no other byte changes. *)
Lemma do_mem_cp_ram s m info argv size src dest (n : nat) l :
  geometry info → cp_args m argv size src dest n → size = 1 ∨ size = 2 ∨ size = 4 →
  (0 < n)%nat → Z.of_nat n < 4294967296 → length l = (n * Z.to_nat size)%nat →
  Forall is_byte l → bytes_at m src l → owned m dest (length l) →
  0 ≤ src → 0 ≤ dest → src + length l < 4294967296 → dest + length l < 4294967296 →
  dest ≤ src ∨ src + length l ≤ dest →
  src mod size = 0 → dest mod size = 0 →
  ¬ (CFG_FLASH_BASE ≤ dest < CFG_FLASH_BASE + Spi.size info) →
  do_mem_cp s m info 0 4 argv = Some (s, write_bytes m dest l, 0).
Proof.
  intros Hg Ha Hsize Hn Hn2 Hlen Hb Hl Ho H1 H2 H3 H4 H5 H6 H7 Hout.
  rewrite (do_mem_cp_args s m info argv size src dest n) by (done || lia).
  rewrite addr2info_geo, bool_decide_eq_false_2 by done.
  by rewrite (copy_loop_spec m size src dest n l).
Qed.

(** The recovery commands; the second sees the memory [m2]. *)
Lemma reflash_commands s m info p0 p1 p2 :
  settled (chip s) → geometry info → sector_count info = 64 →
  Forall (λ v, v = 0) (protect info) →
  cstr m p1 (lit "0x9f020000") → p2 ≠ NULL → cstr m p2 (lit "+3c0000") →
  ∃ s1, do_flerase s m info 3 [p0; p1; p2] = Some (s1, m, 0) ∧ ∀ m2 argv src l,
    cp_args m2 argv 1 src 0x9f020000 0x3c0000 →
    0 ≤ src < 4294967296 → bytes_at m2 src l → Forall is_byte l → Z.of_nat (length l) = 0x3c0000 →
    ∃ s2, do_mem_cp s1 m2 info 0 4 argv = Some (s2, m2, 0) ∧ released (chip s2) ∧
      (∀ i : nat, Z.of_nat i < 0x3c0000 → l !! i = Some (cells (chip s2) (0x20000 + i))) ∧
      (∀ x, x < 0x20000 ∨ 0x3e0000 ≤ x → cells (chip s2) x = cells (chip s) x).
Proof.
  intros Hs Hg Hcount Hprot Hc1 Hp2 Hc2.
  pose proof (geo_size _ Hg) as Hsize. rewrite Hcount in Hsize.
  assert (A1 : hex_arg m p1 (lit "0x9f020000") 0x9f020000) by (split; done).
  apply cstr_cons in Hc2 as (_ & Hplus & Hc2).
  assert (A2 : hex_arg m (p2 + 1) (lit "3c0000") 0x3c0000) by (split; done).
  pose proof (do_flerase_len s m info p0 p1 p2 (lit "0x9f020000") (lit "3c0000")
    0x9f020000 0x3c0000 Hs Hg A1) as He.
  rewrite decide_True in He by done.
  destruct He as (s1 & E1 & [Hs1 _] & C1); [by apply not_in_lit|done..|exact A2| | | |];
    [unfold CFG_FLASH_BASE; lia..|].
  change (CFG_FLASH_BASE + 65536 * sector_of (0x9f020000 + 0x3c0000 - 1) + 65535)
    with 0x9f3dffff in C1.
  exists s1. split; [done|]. intros m2 argv src l Hargs Hsrc Hl Hb Hlen.
  pose proof (do_mem_cp_flash s1 m2 info argv 1 src 0x9f020000 0x3c0000 l Hs1 Hg Hargs Hsrc) as Hcp.
  rewrite unprotected in Hcp by done.
  destruct Hcp as (s2 & E2 & Hr2 & C2);
    [lia|done|done|lia|unfold CFG_FLASH_BASE; lia..|right; by exists 1|].
  exists s2. split; [done|]. split; [done|].
  change (0x9f020000 - CFG_FLASH_BASE) with 0x20000 in C2. unfold CFG_FLASH_BASE in C1.
  split; [intros i Hi|intros x Hx]; rewrite C2; unfold land_cells; rewrite Hlen.
  - destruct (lookup_lt_is_Some_2 l i) as [d Hd]; [lia|].
    rewrite decide_True by lia. rewrite C1, decide_True by lia.
    replace (Z.to_nat (131072 + i - 131072)) with i by lia.
    rewrite (nth_lookup_Some _ _ _ _ Hd), Hd. f_equal. symmetry.
    apply land_255. by eapply Forall_lookup_1.
  - rewrite decide_False by lia. rewrite C1. by rewrite decide_False by lia.
Qed.

End promises.

(** ** Sector specifications *)

Section abbrev.
Implicit Types (m : mem) (p : Z) (t : list Z).

(** Cutting a string at one of its characters. *)
Lemma cstr_cut m p t c r :
  cstr m p (t ++ c :: r) →
  cstr (<[p + length t := 0]> m) p t ∧ cstr (<[p + length t := 0]> m) (p + length t + 1) r.
Proof.
  intros [Hf Hb]. apply Forall_app in Hf as [Ht Hr]. apply Forall_cons_iff in Hr as [_ Hr].
  rewrite <- app_assoc in Hb. apply bytes_at_app in Hb as [Hb1 Hb2].
  simpl in Hb2. apply bytes_at_cons in Hb2 as [_ Hb2].
  split; (split; [done|]).
  - apply bytes_at_app. split; [apply bytes_at_insert_out; [lia|done]|].
    apply bytes_at_singleton, lookup_insert_eq.
  - apply bytes_at_insert_out; [lia|done].
Qed.

Lemma find_first c t r : (c ∉ t) → find_index (Z.eqb c) (t ++ c :: r) = Some (length t).
Proof.
  induction t as [|x t IH]; intros Hc; simpl; [by rewrite Z.eqb_refl|].
  rewrite (proj2 (Z.eqb_neq c x)) by set_solver. rewrite IH by set_solver. done.
Qed.

(** A decimal number that fills its string. *)
Lemma dec_arg_parse m p t v :
  cstr m p t → fits t → t ≠ [] → strtoul_l t 10 = (v, []) →
  simple_strtoul m p 10 = Some (v, p + length t) ∧ bad_number m p (p + length t) = Some false.
Proof.
  intros Hc Hf Hn Hv. split.
  - rewrite (simple_strtoul_cstr m p t 10 Hc Hf), Hv. simpl. do 2 f_equal. lia.
  - unfold bad_number. destruct t as [|c t]; [done|].
    rewrite (proj2 (Z.eqb_neq _ _)) by (simpl; lia).
    destruct Hc as [_ Hb]. apply bytes_at_app in Hb as [_ Hb]. apply bytes_at_singleton in Hb.
    by c_step.
Qed.

Lemma fits_app t r : fits (t ++ r) → fits t ∧ fits r.
Proof. unfold fits. rewrite length_app. lia. Qed.

(** ([abbrev_spec]) a specification [bank:first-last] of three decimal numbers is accepted exactly
    when the bank is 1 and, read as signed ints, [first <= last < sector_count]: there is no
    lower bound, a number from 2^31 on names a negative sector. *)
Lemma abbrev_spec_sectors m info p t0 t1 t2 b f l :
  flash_id info ≠ FLASH_UNKNOWN → 0 < p → cstr m p (t0 ++ 58 :: t1 ++ 45 :: t2) →
  fits (t0 ++ 58 :: t1 ++ 45 :: t2) → (58 ∉ t0) → (45 ∉ t1) →
  t0 ≠ [] → t1 ≠ [] → t2 ≠ [] →
  strtoul_l t0 10 = (b, []) → strtoul_l t1 10 = (f, []) → strtoul_l t2 10 = (l, []) →
  ∃ m', abbrev_spec m info p =
    if decide (s32 b = 1 ∧ s32 f ≤ s32 l < sector_count info)
    then Some (m', 1, s32 f, s32 l) else Some (m', -1, 0, 0).
Proof.
  intros Hid Hp Hc Hfit H58 H45 N0 N1 N2 V0 V1 V2.
  destruct (fits_app _ _ Hfit) as [F0 F']. apply (fits_app [58]) in F' as [_ F'].
  destruct (fits_app _ _ F') as [F1 F2]. apply (fits_app [45]) in F2 as [_ F2].
  unfold abbrev_spec. rewrite (strchr_cstr m p _ 58 Hc Hfit) by (red; lia).
  rewrite some_bind, find_first by done. unfold ptr_of.
  rewrite (proj2 (Z.eqb_neq _ NULL)) by (unfold NULL; lia).
  rewrite st_owned by (eapply owned_at; [by apply cstr_owned|rewrite length_app; simpl; lia]).
  rewrite some_bind. change (u8 0) with 0.
  destruct (cstr_cut m p t0 58 _ Hc) as [C0 C1]. set (m1 := <[p + length t0 := 0]> m) in *.
  destruct (dec_arg_parse m1 p t0 b C0 F0 N0 V0) as [-> E0]. rewrite some_bind, E0, some_bind.
  rewrite (proj2 (Z.eqb_neq (flash_id info) FLASH_UNKNOWN)) by done. rewrite orb_false_r.
  cbn [orb]. unfold CFG_MAX_FLASH_BANKS.
  destruct (decide (s32 b = 1)) as [Eb|Hb].
  2: { exists m1. rewrite decide_False by tauto.
       destruct ((s32 b <? 1) || (s32 b >? 1)) eqn:E; [done|].
       apply orb_false_iff in E. rewrite Z.gtb_ltb in E. lia. }
  rewrite Eb. change ((1 <? 1) || (1 >? 1)) with false. cbv iota.
  rewrite (strchr_cstr m1 _ _ 45 C1 F') by (red; lia).
  rewrite some_bind, find_first by done. unfold ptr_of.
  set (q := p + length t0 + 1) in *.
  rewrite (proj2 (Z.eqb_neq (q + length t1) NULL)) by (unfold NULL, q; lia).
  rewrite st_owned by (eapply owned_at; [by apply cstr_owned|rewrite length_app; simpl; lia]).
  rewrite some_bind, some_bind. change (u8 0) with 0.
  destruct (cstr_cut m1 q t1 45 _ C1) as [C2 C3]. set (m2 := <[q + length t1 := 0]> m1) in *.
  destruct (dec_arg_parse m2 q t1 f C2 F1 N1 V1) as [-> E1]. rewrite some_bind, E1, some_bind.
  exists m2. cbn [orb]. rewrite Z.geb_leb.
  rewrite (proj2 (Z.eqb_neq (q + length t1 + 1) NULL)) by (unfold NULL, q; lia).
  destruct (Z.leb_spec (sector_count info) (s32 f)); [by rewrite decide_False by lia|].
  destruct (dec_arg_parse m2 _ t2 l C3 F2 N2 V2) as [-> E2]. rewrite some_bind, E2, some_bind.
  cbn [orb]. rewrite Z.geb_leb.
  destruct (Z.ltb_spec (s32 l) (s32 f)), (Z.leb_spec (sector_count info) (s32 l)); cbn [orb];
    ((by rewrite decide_True by lia) || (by rewrite decide_False by lia)).
Qed.

End abbrev.

(** ** Examples *)

Definition negative_mem : mem := mem_of 4096 (lit "1:4294967295" ++ [0]).

Lemma flash_erase_one {S : Type} `{SpiFlash S} (s : S) i :
  settled (chip s) →
  ∃ s', flash_erase s flash_get_geom i i = Some (s', 0) ∧
    cells (chip s') = erase_cells (cells (chip s)) (u32 (i * 65536) mod 16777216).
Proof.
  intros Hs. destruct (sector_erase_cells (chip s) (u32 (i * 65536)) Hs) as (t & E & _ & _ & Hc).
  rewrite chip_sector_erase in E.
  destruct (ath_spi_sector_erase s (u32 (i * 65536))) as [s'|] eqn:Es; [|done].
  injection E as <-. exists (ath_spi_done s'). split.
  - unfold flash_erase. cbv zeta.
    change (s32 (Spi.size flash_get_geom / sector_count flash_get_geom)) with 65536.
    erewrite (while_within _ _ 2); [reflexivity|lia|]. exists 2%nat. split; [lia|].
    eapply runs_next.
    + cbv beta iota. rewrite (proj2 (Z.leb_le i i)) by lia. cbn [negb]. rewrite Es. reflexivity.
    + apply runs_done. cbv beta iota. rewrite (proj2 (Z.leb_gt (i + 1) i)) by lia. reflexivity.
  - unfold ath_spi_done. rewrite chip_reg. exact Hc.
Qed.

(** ([do_flerase]) [erase 1:4294967295] is accepted, as sector -1: the erase goes to the addresses from
    0xff0000 on, far outside the 64 sectors of the bank. *)
Lemma erase_negative_sector {S : Type} `{SpiFlash S} (s : S) :
  settled (chip s) →
  ∃ s' m, do_flerase s negative_mem flash_get_geom 2 [0; 4096] = Some (s', m, 0) ∧
    ∀ x, cells (chip s') x = if x / 65536 =? 255 then 255 else cells (chip s) x.
Proof.
  intros Hs. destruct (flash_erase_one s (-1) Hs) as (s' & E & Hc).
  assert (Ha : ∃ m', abbrev_spec negative_mem flash_get_geom 4096 = Some (m', 1, -1, -1))
    by (vm_compute; by eexists).
  destruct Ha as [m' Ha]. exists s', m'. split; [|intros x; by rewrite Hc].
  unfold do_flerase. cbn [arg lookup list_lookup]. change (2 <? 2) with false. cbv iota.
  rewrite some_bind.
  assert (Hall : strcmp_lit negative_mem 4096 (lit "all") = Some (-48)) by by vm_compute.
  rewrite Hall, some_bind. change (-48 =? 0) with false. cbv iota.
  rewrite Ha, some_bind. change (negb (1 =? 0)) with true. change (1 <? 0) with false. cbv iota.
  by rewrite E.
Qed.

(** The words [words] one after the other. *)
Definition word_block (words : list (list Z)) : list Z := flat_map (λ w, w ++ [0]) words.

Lemma word_at_block a pre w post :
  forallb (λ c, (0 <? c) && (c <? 256)) w = true →
  cstr (mem_of a (word_block (pre ++ w :: post))) (a + length (word_block pre)) w.
Proof.
  intros Hw. unfold word_block. rewrite flat_map_app. simpl.
  by apply cstr_in_block.
Qed.

Lemma flash_write_refines_witness :
  ∃ s', flash_write blank_nor (mem_of 4096 [1; 2; 3]) flash_get_geom 4096 0x9f020000
          (length [1; 2; 3]) = Some (s', write_code flash_get_geom 0x9f020000 (length [1; 2; 3])) ∧
    if decide (write_code flash_get_geom 0x9f020000 (length [1; 2; 3]) = ERR_OK)
    then released (chip s') ∧
         cells (chip s') = written (cells (chip blank_nor)) (0x9f020000 - CFG_FLASH_BASE) [1; 2; 3] ∧
         (page_safe 0x9f020000 (length [1; 2; 3]) → ∀ x, cells (chip s') x =
           land_cells (cells (chip blank_nor)) (0x9f020000 - CFG_FLASH_BASE) [1; 2; 3] x)
    else s' = blank_nor.
Proof.
  apply (flash_write_refines blank_nor (mem_of 4096 [1; 2; 3]) flash_get_geom 4096 0x9f020000 [1; 2; 3]).
  - exact blank_settled.
  - apply get_geom_geometry.
  - apply write_bytes_in.
  - repeat constructor; unfold is_byte; lia.
  - done.
  - lia.
  - simpl. lia.
Defined.

Definition erase_words : list (list Z) := [lit "erase"; lit "0x9f020000"; lit "+3c0000"].
Definition erase_mem : mem := mem_of 4096 (word_block erase_words).

Lemma erase_mem_args :
  cstr erase_mem 4102 (lit "0x9f020000") ∧ cstr erase_mem 4113 (lit "+3c0000").
Proof.
  split.
  - by apply (word_at_block 4096 [lit "erase"] (lit "0x9f020000") [lit "+3c0000"]).
  - by apply (word_at_block 4096 [lit "erase"; lit "0x9f020000"] (lit "+3c0000") []).
Qed.

Lemma do_flerase_exact_witness :
  if decide (starts_sector 0x9f020000) then
    ∃ s', do_flerase blank_nor erase_mem flash_get_geom 3 [4096; 4102; 4113] = Some (s', erase_mem, 0) ∧
      released (chip s') ∧ ∀ x, cells (chip s') x =
        if decide (0x9f020000 ≤ CFG_FLASH_BASE + x ≤
                   CFG_FLASH_BASE + 65536 * sector_of (0x9f020000 + 0x3c0000 - 1) + 65535)
        then 255 else cells (chip blank_nor) x
  else do_flerase blank_nor erase_mem flash_get_geom 3 [4096; 4102; 4113] =
         Some (blank_nor, erase_mem, 1).
Proof.
  destruct erase_mem_args as [C1 C2]. apply cstr_cons in C2 as (_ & Hplus & C2).
  apply (do_flerase_exact blank_nor erase_mem flash_get_geom 4096 4102 4113
    (lit "0x9f020000") (lit "3c0000")).
  - exact blank_settled.
  - apply get_geom_geometry.
  - by split.
  - by apply not_in_lit.
  - done.
  - done.
  - done.
  - exact Hplus.
  - by split.
  - unfold CFG_FLASH_BASE. lia.
  - lia.
  - by vm_compute.
Defined.

Definition cp_words : list (list Z) := [lit "cp.b"; lit "2000"; lit "3000"; lit "3"].
Definition cp_mem : mem :=
  write_bytes (write_bytes (mem_of 4096 (word_block cp_words)) 8192 [7; 8; 9]) 12288 [0; 0; 0].

Lemma cp_mem_word pre w post a :
  cp_words = pre ++ w :: post → a = 4096 + length (word_block pre) →
  forallb (λ c, (0 <? c) && (c <? 256)) w = true → a + length w < 8192 → cstr cp_mem a w.
Proof.
  intros E -> Hw Hlt. unfold cp_mem. rewrite E.
  do 2 (apply cstr_write_disjoint; [lia|]). by apply word_at_block.
Qed.

Lemma cp_mem_args : cp_args cp_mem [4096; 4101; 4106; 4111] 1 8192 12288 3.
Proof.
  split; [done| | | |].
  - exists 4096, (lit "cp.b"). split; [done|]. split; [|by left].
    by apply (cp_mem_word [] _ [lit "2000"; lit "3000"; lit "3"]).
  - exists 4101, (lit "2000"). split; [done|]. split; [|done..].
    by apply (cp_mem_word [lit "cp.b"] _ [lit "3000"; lit "3"]).
  - exists 4106, (lit "3000"). split; [done|]. split; [|done..].
    by apply (cp_mem_word [lit "cp.b"; lit "2000"] _ [lit "3"]).
  - exists 4111, (lit "3"). split; [done|]. split; [|done..].
    by apply (cp_mem_word [lit "cp.b"; lit "2000"; lit "3000"] _ []).
Qed.

