(* ===== verification/Net.v ===== *)
(** * The network core ([net/net.c])

    Packet headers in the memory of the prelude, ARP, sending UDP packets and
    the dispatch of received packets.  The global variables are the records
    of the first section; the Ethernet drivers, the timer and the device
    switch of [net/eth.c] are behind the interface [Link].  The processor is
    big-endian, so [htons] and [ntohs] are the identity on 16-bit values. *)

From S2P Require Import Prelude.
From S2P Require Import Timer.
From S2P Require Import CString.
From S2P Require Import Vsprintf.
From S2P Require Import NetAddr.
From S2P Require Import Env.

(** ** State *)

(** The functions [packetHandler] and [timeHandler] may point to. *)
Inductive rx_handler := RxNone | RxTftp | RxPing | RxStartAgain.
Inductive time_handler := TimeNone | TimeTftp | TimePing | TimeStartAgain.

(** The addresses of the arrays and of the string literals the code uses. *)
Record buffers := Buffers {
  NetOurEther : Z;
  NetServerEther : Z;
  NetBcastAddr : Z;
  NetEtherNullAddr : Z;
  ping_mac : Z;
  NetTxPacket : Z;
  NetArpWaitTxPacket : Z;
  default_filename : Z;
  lit_netretry : Z;
  lit_fmt_d : Z;
  lit_fmt_img : Z;
  lit_9f020000 : Z
}.

(** The addresses of the interface. *)
Record ipcfg := IpCfg {
  NetOurIP : Z;
  NetServerIP : Z;
  NetOurSubnetMask : Z;
  NetOurGatewayIP : Z;
  NetOurVLAN : Z;
  NetOurNativeVLAN : Z
}.

(** The packet that waits for an ARP reply. *)
Record arpwait := ArpWait {
  NetArpWaitPacketIP : Z;
  NetArpWaitReplyIP : Z;
  NetArpWaitPacketMAC : Z;
  NetArpWaitTxPacketSize : Z;
  NetArpWaitTimerStart : Z;
  NetArpWaitTry : Z
}.

(** The timeout handler. *)
Record timer := Timer {
  timeHandler : time_handler;
  timeStart : Z;
  timeDelta : Z
}.

(** The TFTP client. *)
Record tftpst := TftpSt {
  TftpServerPort : Z;
  TftpOurPort : Z;
  TftpTimeoutCount : Z;
  TftpBlock : Z;
  TftpLastBlock : Z;
  TftpBlockWrap : Z;
  TftpBlockWrapOffset : Z;
  TftpState : Z;
  tftp_filename : Z
}.

(** The network loop. *)
Record loopst := LoopSt {
  NetState : Z;
  packetHandler : rx_handler;
  NetIPID : Z;
  PingSeqNo : Z;
  NetPingIP : Z;
  NetBootFileXferSize : Z;
  load_addr : Z;
  BootFile : Z;
  NetRestartWrap : bool;
  NetRestarted : bool;
  NetDevExists : bool;
  fw_recovery : Z
}.

(** The whole state: [link] is the interface below, [environ] the environment. *)
Record net (W : Type) := Net {
  bufs : buffers;
  cfg : ipcfg;
  arp : arpwait;
  tmr : timer;
  tftp : tftpst;
  loop : loopst;
  environ : env;
  link : W
}.
Arguments Net {W}.
Arguments bufs {W}.
Arguments cfg {W}.
Arguments arp {W}.
Arguments tmr {W}.
Arguments tftp {W}.
Arguments loop {W}.
Arguments environ {W}.
Arguments link {W}.

(** *** Assignments *)

Section set.
Context {W : Type}.
Implicit Types s : net W.

Definition set_cfg (v : ipcfg) s : net W :=
  Net (bufs s) v (arp s) (tmr s) (tftp s) (loop s) (environ s) (link s).
Definition set_arp (v : arpwait) s : net W :=
  Net (bufs s) (cfg s) v (tmr s) (tftp s) (loop s) (environ s) (link s).
Definition set_tmr (v : timer) s : net W :=
  Net (bufs s) (cfg s) (arp s) v (tftp s) (loop s) (environ s) (link s).
Definition set_tftp (v : tftpst) s : net W :=
  Net (bufs s) (cfg s) (arp s) (tmr s) v (loop s) (environ s) (link s).
Definition set_loop (v : loopst) s : net W :=
  Net (bufs s) (cfg s) (arp s) (tmr s) (tftp s) v (environ s) (link s).
Definition set_link (v : W) s : net W :=
  Net (bufs s) (cfg s) (arp s) (tmr s) (tftp s) (loop s) (environ s) v.

Definition set_NetOurIP (v : Z) s : net W :=
  set_cfg (IpCfg v (NetServerIP (cfg s)) (NetOurSubnetMask (cfg s)) (NetOurGatewayIP (cfg
    s)) (NetOurVLAN (cfg s)) (NetOurNativeVLAN (cfg s))) s.
Definition set_NetServerIP (v : Z) s : net W :=
  set_cfg (IpCfg (NetOurIP (cfg s)) v (NetOurSubnetMask (cfg s)) (NetOurGatewayIP (cfg s))
    (NetOurVLAN (cfg s)) (NetOurNativeVLAN (cfg s))) s.
Definition set_NetArpWaitPacketIP (v : Z) s : net W :=
  set_arp (ArpWait v (NetArpWaitReplyIP (arp s)) (NetArpWaitPacketMAC (arp s))
    (NetArpWaitTxPacketSize (arp s)) (NetArpWaitTimerStart (arp s)) (NetArpWaitTry (arp s)))
    s.
Definition set_NetArpWaitReplyIP (v : Z) s : net W :=
  set_arp (ArpWait (NetArpWaitPacketIP (arp s)) v (NetArpWaitPacketMAC (arp s))
    (NetArpWaitTxPacketSize (arp s)) (NetArpWaitTimerStart (arp s)) (NetArpWaitTry (arp s)))
    s.
Definition set_NetArpWaitPacketMAC (v : Z) s : net W :=
  set_arp (ArpWait (NetArpWaitPacketIP (arp s)) (NetArpWaitReplyIP (arp s)) v
    (NetArpWaitTxPacketSize (arp s)) (NetArpWaitTimerStart (arp s)) (NetArpWaitTry (arp s)))
    s.
Definition set_NetArpWaitTxPacketSize (v : Z) s : net W :=
  set_arp (ArpWait (NetArpWaitPacketIP (arp s)) (NetArpWaitReplyIP (arp s))
    (NetArpWaitPacketMAC (arp s)) v (NetArpWaitTimerStart (arp s)) (NetArpWaitTry (arp s)))
    s.
Definition set_NetArpWaitTimerStart (v : Z) s : net W :=
  set_arp (ArpWait (NetArpWaitPacketIP (arp s)) (NetArpWaitReplyIP (arp s))
    (NetArpWaitPacketMAC (arp s)) (NetArpWaitTxPacketSize (arp s)) v (NetArpWaitTry (arp
    s))) s.
Definition set_NetArpWaitTry (v : Z) s : net W :=
  set_arp (ArpWait (NetArpWaitPacketIP (arp s)) (NetArpWaitReplyIP (arp s))
    (NetArpWaitPacketMAC (arp s)) (NetArpWaitTxPacketSize (arp s)) (NetArpWaitTimerStart
    (arp s)) v) s.
Definition set_timeHandler (v : time_handler) s : net W :=
  set_tmr (Timer v (timeStart (tmr s)) (timeDelta (tmr s))) s.
Definition set_TftpServerPort (v : Z) s : net W :=
  set_tftp (TftpSt v (TftpOurPort (tftp s)) (TftpTimeoutCount (tftp s)) (TftpBlock (tftp s))
    (TftpLastBlock (tftp s)) (TftpBlockWrap (tftp s)) (TftpBlockWrapOffset (tftp s))
    (TftpState (tftp s)) (tftp_filename (tftp s))) s.
Definition set_TftpOurPort (v : Z) s : net W :=
  set_tftp (TftpSt (TftpServerPort (tftp s)) v (TftpTimeoutCount (tftp s)) (TftpBlock (tftp
    s)) (TftpLastBlock (tftp s)) (TftpBlockWrap (tftp s)) (TftpBlockWrapOffset (tftp s))
    (TftpState (tftp s)) (tftp_filename (tftp s))) s.
Definition set_TftpTimeoutCount (v : Z) s : net W :=
  set_tftp (TftpSt (TftpServerPort (tftp s)) (TftpOurPort (tftp s)) v (TftpBlock (tftp s))
    (TftpLastBlock (tftp s)) (TftpBlockWrap (tftp s)) (TftpBlockWrapOffset (tftp s))
    (TftpState (tftp s)) (tftp_filename (tftp s))) s.
Definition set_TftpBlock (v : Z) s : net W :=
  set_tftp (TftpSt (TftpServerPort (tftp s)) (TftpOurPort (tftp s)) (TftpTimeoutCount (tftp
    s)) v (TftpLastBlock (tftp s)) (TftpBlockWrap (tftp s)) (TftpBlockWrapOffset (tftp s))
    (TftpState (tftp s)) (tftp_filename (tftp s))) s.
Definition set_TftpLastBlock (v : Z) s : net W :=
  set_tftp (TftpSt (TftpServerPort (tftp s)) (TftpOurPort (tftp s)) (TftpTimeoutCount (tftp
    s)) (TftpBlock (tftp s)) v (TftpBlockWrap (tftp s)) (TftpBlockWrapOffset (tftp s))
    (TftpState (tftp s)) (tftp_filename (tftp s))) s.
Definition set_TftpBlockWrap (v : Z) s : net W :=
  set_tftp (TftpSt (TftpServerPort (tftp s)) (TftpOurPort (tftp s)) (TftpTimeoutCount (tftp
    s)) (TftpBlock (tftp s)) (TftpLastBlock (tftp s)) v (TftpBlockWrapOffset (tftp s))
    (TftpState (tftp s)) (tftp_filename (tftp s))) s.
Definition set_TftpBlockWrapOffset (v : Z) s : net W :=
  set_tftp (TftpSt (TftpServerPort (tftp s)) (TftpOurPort (tftp s)) (TftpTimeoutCount (tftp
    s)) (TftpBlock (tftp s)) (TftpLastBlock (tftp s)) (TftpBlockWrap (tftp s)) v (TftpState
    (tftp s)) (tftp_filename (tftp s))) s.
Definition set_TftpState (v : Z) s : net W :=
  set_tftp (TftpSt (TftpServerPort (tftp s)) (TftpOurPort (tftp s)) (TftpTimeoutCount (tftp
    s)) (TftpBlock (tftp s)) (TftpLastBlock (tftp s)) (TftpBlockWrap (tftp s))
    (TftpBlockWrapOffset (tftp s)) v (tftp_filename (tftp s))) s.
Definition set_tftp_filename (v : Z) s : net W :=
  set_tftp (TftpSt (TftpServerPort (tftp s)) (TftpOurPort (tftp s)) (TftpTimeoutCount (tftp
    s)) (TftpBlock (tftp s)) (TftpLastBlock (tftp s)) (TftpBlockWrap (tftp s))
    (TftpBlockWrapOffset (tftp s)) (TftpState (tftp s)) v) s.
Definition set_NetState (v : Z) s : net W :=
  set_loop (LoopSt v (packetHandler (loop s)) (NetIPID (loop s)) (PingSeqNo (loop s))
    (NetPingIP (loop s)) (NetBootFileXferSize (loop s)) (load_addr (loop s)) (BootFile (loop
    s)) (NetRestartWrap (loop s)) (NetRestarted (loop s)) (NetDevExists (loop s))
    (fw_recovery (loop s))) s.
Definition set_packetHandler (v : rx_handler) s : net W :=
  set_loop (LoopSt (NetState (loop s)) v (NetIPID (loop s)) (PingSeqNo (loop s)) (NetPingIP
    (loop s)) (NetBootFileXferSize (loop s)) (load_addr (loop s)) (BootFile (loop s))
    (NetRestartWrap (loop s)) (NetRestarted (loop s)) (NetDevExists (loop s)) (fw_recovery
    (loop s))) s.
Definition set_NetIPID (v : Z) s : net W :=
  set_loop (LoopSt (NetState (loop s)) (packetHandler (loop s)) v (PingSeqNo (loop s))
    (NetPingIP (loop s)) (NetBootFileXferSize (loop s)) (load_addr (loop s)) (BootFile (loop
    s)) (NetRestartWrap (loop s)) (NetRestarted (loop s)) (NetDevExists (loop s))
    (fw_recovery (loop s))) s.
Definition set_PingSeqNo (v : Z) s : net W :=
  set_loop (LoopSt (NetState (loop s)) (packetHandler (loop s)) (NetIPID (loop s)) v
    (NetPingIP (loop s)) (NetBootFileXferSize (loop s)) (load_addr (loop s)) (BootFile (loop
    s)) (NetRestartWrap (loop s)) (NetRestarted (loop s)) (NetDevExists (loop s))
    (fw_recovery (loop s))) s.
Definition set_NetBootFileXferSize (v : Z) s : net W :=
  set_loop (LoopSt (NetState (loop s)) (packetHandler (loop s)) (NetIPID (loop s))
    (PingSeqNo (loop s)) (NetPingIP (loop s)) v (load_addr (loop s)) (BootFile (loop s))
    (NetRestartWrap (loop s)) (NetRestarted (loop s)) (NetDevExists (loop s)) (fw_recovery
    (loop s))) s.
Definition set_load_addr (v : Z) s : net W :=
  set_loop (LoopSt (NetState (loop s)) (packetHandler (loop s)) (NetIPID (loop s))
    (PingSeqNo (loop s)) (NetPingIP (loop s)) (NetBootFileXferSize (loop s)) v (BootFile
    (loop s)) (NetRestartWrap (loop s)) (NetRestarted (loop s)) (NetDevExists (loop s))
    (fw_recovery (loop s))) s.
Definition set_NetRestartWrap (v : bool) s : net W :=
  set_loop (LoopSt (NetState (loop s)) (packetHandler (loop s)) (NetIPID (loop s))
    (PingSeqNo (loop s)) (NetPingIP (loop s)) (NetBootFileXferSize (loop s)) (load_addr
    (loop s)) (BootFile (loop s)) v (NetRestarted (loop s)) (NetDevExists (loop s))
    (fw_recovery (loop s))) s.
End set.

(** What [net.c] calls of the driver layer: frames sent, the timer in ticks,
    and the device switch, which keeps the variable [ethact] in the memory of
    the environment and says whether it set [NetRestartWrap]. *)
Class Link (W : Type) := {
  eth_send : W → list Z → W;
  get_timer : W → Z;
  eth_halt : W → W;
  eth_init : W → env → mem → option (W * mem * bool);
  eth_try_another : W → env → mem → bool → option (W * mem * bool)
}.

(** ** Constants ([include/net.h]) *)

Definition ETHER_HDR_SIZE : Z := 14.
Definition E802_HDR_SIZE : Z := 22.
Definition VLAN_ETHER_HDR_SIZE : Z := 18.
Definition PROT_IP : Z := 0x0800.
Definition PROT_ARP : Z := 0x0806.
Definition PROT_RARP : Z := 0x8035.
Definition PROT_VLAN : Z := 0x8100.
Definition IPPROTO_ICMP : Z := 1.
Definition IPPROTO_UDP : Z := 17.
Definition IP_HDR_SIZE_NO_UDP : Z := 20.
Definition IP_HDR_SIZE : Z := 28.
Definition ARP_ETHER : Z := 1.
Definition ARPOP_REQUEST : Z := 1.
Definition ARPOP_REPLY : Z := 2.
Definition RARPOP_REPLY : Z := 4.
Definition ARP_HDR_SIZE : Z := 28.
Definition ICMP_ECHO_REPLY : Z := 0.
Definition NETLOOP_CONTINUE : Z := 1.
Definition NETLOOP_RESTART : Z := 2.
Definition NETLOOP_SUCCESS : Z := 3.
Definition NETLOOP_FAIL : Z := 4.
Definition ARP_TIMEOUT : Z := 5.
Definition ARP_TIMEOUT_COUNT : Z := 5.

(** ** Fields of packets *)

(** Storing consecutive bytes. *)
Fixpoint st_bytes (m : mem) (a : Z) (l : list Z) : option mem :=
  match l with
  | [] => Some m
  | x :: l => m ← st m a x; st_bytes m (a + 1) l
  end.

Definition st16 (m : mem) (a v : Z) : option mem := st_bytes m a [Z.shiftr v 8; v].

(** [NetReadIP], [NetWriteIP] and [NetCopyIP]. *)
Definition NetReadIP (m : mem) (from : Z) : option Z := ld32 m from.
Definition NetWriteIP (m : mem) (to_ ip : Z) : option mem :=
  st_bytes m to_ [Z.shiftr ip 24; Z.shiftr ip 16; Z.shiftr ip 8; ip].
Definition NetCopyIP (m : mem) (to_ from : Z) : option mem := memcpy m to_ from 4.

(** ** Checksums and headers *)

Definition NetCksum (m : mem) (ptr len : Z) : option Z :=
  xsum ← while (λ '(xsum, p, len),
    if len >? 0 then v ← ld16 m p; Some (Next (u32 (xsum + v), p + 2, len - 1))
    else Some (Done xsum)) (0, ptr, len);
  let xsum := u32 (Z.land xsum 0xffff + Z.shiftr xsum 16) in
  let xsum := u32 (Z.land xsum 0xffff + Z.shiftr xsum 16) in
  Some (Z.land xsum 0xffff).

Definition NetCksumOk (m : mem) (ptr len : Z) : option bool :=
  c ← NetCksum m ptr len; Some (Z.land (u32 (c + 1)) 0xfffe =? 0).

(** [NetOurVLAN] without the "unset" value. *)
Definition vlan_of (v : Z) : Z := if u16 v =? 0xffff then VLAN_NONE else u16 v.

Section core.
Context {W : Type} `{Link W}.
Implicit Types (s : net W) (m : mem).

Definition NetEthHdrSize s : Z :=
  let myvlanid := vlan_of (NetOurVLAN (cfg s)) in
  if Z.land myvlanid VLAN_IDMASK =? VLAN_NONE then ETHER_HDR_SIZE else VLAN_ETHER_HDR_SIZE.

Definition NetSetEther s m (xet addr prot : Z) : option (mem * Z) :=
  let myvlanid := vlan_of (NetOurVLAN (cfg s)) in
  m ← memcpy m xet addr 6;
  m ← memcpy m (xet + 6) (NetOurEther (bufs s)) 6;
  if Z.land myvlanid VLAN_IDMASK =? VLAN_NONE then
    m ← st16 m (xet + 12) prot; Some (m, ETHER_HDR_SIZE)
  else
    m ← st16 m (xet + 12) PROT_VLAN;
    m ← st16 m (xet + 14) (Z.lor (Z.shiftl 0 5) (Z.land myvlanid VLAN_IDMASK));
    m ← st16 m (xet + 16) prot;
    Some (m, VLAN_ETHER_HDR_SIZE).

Definition NetSetIP s m (ip dest dport sport len : Z) : option (net W * mem) :=
  m ← (if negb (Z.land len 1 =? 0) then st m (ip + IP_HDR_SIZE + len) 0 else Some m);
  m ← st m ip 0x45;
  m ← st m (ip + 1) 0;
  m ← st16 m (ip + 2) (IP_HDR_SIZE + len);
  m ← st16 m (ip + 4) (NetIPID (loop s));
  let s := set_NetIPID (u32 (NetIPID (loop s) + 1)) s in
  m ← st16 m (ip + 6) 0x4000;
  m ← st m (ip + 8) 255;
  m ← st m (ip + 9) 17;
  m ← st16 m (ip + 10) 0;
  m ← NetWriteIP m (ip + 12) (NetOurIP (cfg s));
  m ← NetWriteIP m (ip + 16) dest;
  m ← st16 m (ip + 20) sport;
  m ← st16 m (ip + 22) dport;
  m ← st16 m (ip + 24) (8 + len);
  m ← st16 m (ip + 26) 0;
  sum ← NetCksum m ip (IP_HDR_SIZE_NO_UDP / 2);
  m ← st16 m (ip + 10) (Z.lnot sum);
  Some (s, m).

(** [eth_send] of the [len] bytes from [pkt] on. *)
Definition send_frame s m (pkt len : Z) : option (net W) :=
  frame ← ld_bytes m pkt (Z.to_nat len);
  Some (set_link (eth_send (link s) frame) s).

(** ** Timers and restarting *)

Definition NetSetHandler s (f : rx_handler) : net W := set_packetHandler f s.

Definition NetSetTimeout s (iv : Z) (f : time_handler) : net W :=
  if iv =? 0 then set_timeHandler TimeNone s
  else set_tmr (Timer f (get_timer (link s)) iv) s.

(** The device switch may set [NetRestartWrap]. *)
Definition set_wrap (wrapped : bool) s : net W :=
  if wrapped then set_NetRestartWrap true s else s.

Definition NetStartAgain s m : option (net W * mem) :=
  if negb (fw_recovery (loop s) =? 0) then Some (s, m) else
  nretry ← getenv (environ s) m (lit_netretry (bufs s));
  '(noretry, once) ← (if negb (nretry =? NULL) then
      a ← strcmp_lit m nretry (lit "no");
      b ← strcmp_lit m nretry (lit "once");
      Some (a =? 0, b =? 0)
    else Some (false, false));
  if noretry : bool then
    Some (set_NetState NETLOOP_FAIL (set_link (eth_halt (link s)) s), m)
  else
  let s := set_link (eth_halt (link s)) s in
  '(w, m, wrapped) ← eth_try_another (link s) (environ s) m (negb (NetRestarted (loop s)));
  let s := set_wrap wrapped (set_link w s) in
  '(w, m, wrapped) ← eth_init (link s) (environ s) m;
  let s := set_wrap wrapped (set_link w s) in
  Some (if NetRestartWrap (loop s) then
      let s := set_NetRestartWrap false s in
      if NetDevExists (loop s) && negb once then
        NetSetHandler (NetSetTimeout s (u32 (10 * CFG_HZ)) TimeStartAgain) RxStartAgain
      else set_NetState NETLOOP_FAIL s
    else set_NetState NETLOOP_RESTART s, m).

(** ** ARP *)

(** Whose address is asked for: the host, or the gateway to it. *)
Definition arp_target s : Z :=
  let mask := NetOurSubnetMask (cfg s) in
  let wait := NetArpWaitPacketIP (arp s) in
  if negb (Z.land wait mask =? Z.land (NetOurIP (cfg s)) mask) then
    if NetOurGatewayIP (cfg s) =? 0 then wait else NetOurGatewayIP (cfg s)
  else wait.

Definition ArpRequest s m : option (net W * mem) :=
  let pkt := NetTxPacket (bufs s) in
  '(m, n) ← NetSetEther s m pkt (NetBcastAddr (bufs s)) PROT_ARP;
  let arp_ := pkt + n in
  m ← st16 m arp_ ARP_ETHER;
  m ← st16 m (arp_ + 2) PROT_IP;
  m ← st m (arp_ + 4) 6;
  m ← st m (arp_ + 5) 4;
  m ← st16 m (arp_ + 6) ARPOP_REQUEST;
  let ar_data := arp_ + 8 in
  m ← memcpy m ar_data (NetOurEther (bufs s)) 6;
  m ← NetWriteIP m (ar_data + 6) (NetOurIP (cfg s));
  m ← st_bytes m (ar_data + 10) [0; 0; 0; 0; 0; 0];
  let s := set_NetArpWaitReplyIP (arp_target s) s in
  m ← NetWriteIP m (ar_data + 16) (NetArpWaitReplyIP (arp s));
  s ← send_frame s m pkt (n + ARP_HDR_SIZE);
  Some (s, m).

Definition ArpTimeoutCheck s m : option (net W * mem) :=
  if NetArpWaitPacketIP (arp s) =? 0 then Some (s, m) else
  let t := get_timer (link s) in
  if u32 (t - NetArpWaitTimerStart (arp s)) >? u32 (ARP_TIMEOUT * CFG_HZ) then
    let s := set_NetArpWaitTry (NetArpWaitTry (arp s) + 1) s in
    if NetArpWaitTry (arp s) >=? ARP_TIMEOUT_COUNT then
      let s := set_NetArpWaitTry 0 s in
      NetStartAgain s m
    else
      let s := set_NetArpWaitTimerStart t s in
      ArpRequest s m
  else Some (s, m).

(** ** Sending *)

(** The bookkeeping of a packet that waits for the address of [ip]. *)
Definition start_arp s m : option (net W * mem) :=
  let s := set_NetArpWaitTry 1 s in
  let s := set_NetArpWaitTimerStart (get_timer (link s)) s in
  ArpRequest s m.

(** The answer is 1 when the packet waits for ARP. *)
Definition NetSendUDPPacket s m (ether dest dport sport len : Z) : option (net W * mem * Z) :=
  let dest := if dest =? 0 then 0xFFFFFFFF else dest in
  let ether := if dest =? 0xFFFFFFFF then NetBcastAddr (bufs s) else ether in
  isnull ← memcmp m ether (NetEtherNullAddr (bufs s)) 6;
  if isnull =? 0 then
    let s := set_NetArpWaitPacketIP dest s in
    let s := set_NetArpWaitPacketMAC ether s in
    let pkt := NetArpWaitTxPacket (bufs s) in
    '(m, n) ← NetSetEther s m pkt ether PROT_IP;
    '(s, m) ← NetSetIP s m (pkt + n) dest dport sport len;
    m ← memcpy m (pkt + n + IP_HDR_SIZE) (NetTxPacket (bufs s) + n + IP_HDR_SIZE) len;
    let s := set_NetArpWaitTxPacketSize (n + IP_HDR_SIZE + len) s in
    '(s, m) ← start_arp s m;
    Some (s, m, 1)
  else
    let pkt := NetTxPacket (bufs s) in
    '(m, n) ← NetSetEther s m pkt ether PROT_IP;
    '(s, m) ← NetSetIP s m (pkt + n) dest dport sport len;
    s ← send_frame s m pkt (n + IP_HDR_SIZE + len);
    Some (s, m, 0).

Definition PingSend s m : option (net W * mem) :=
  m ← memcpy m (ping_mac (bufs s)) (NetEtherNullAddr (bufs s)) 6;
  let s := set_NetArpWaitPacketIP (NetPingIP (loop s)) s in
  let s := set_NetArpWaitPacketMAC (ping_mac (bufs s)) s in
  let pkt := NetArpWaitTxPacket (bufs s) in
  '(m, n) ← NetSetEther s m pkt (ping_mac (bufs s)) PROT_IP;
  let ip := pkt + n in
  m ← st m ip 0x45;
  m ← st m (ip + 1) 0;
  m ← st16 m (ip + 2) (IP_HDR_SIZE_NO_UDP + 8);
  m ← st16 m (ip + 4) (NetIPID (loop s));
  let s := set_NetIPID (u32 (NetIPID (loop s) + 1)) s in
  m ← st16 m (ip + 6) 0x4000;
  m ← st m (ip + 8) 255;
  m ← st m (ip + 9) 1;
  m ← st16 m (ip + 10) 0;
  m ← NetWriteIP m (ip + 12) (NetOurIP (cfg s));
  m ← NetWriteIP m (ip + 16) (NetPingIP (loop s));
  sum ← NetCksum m ip (IP_HDR_SIZE_NO_UDP / 2);
  m ← st16 m (ip + 10) (Z.lnot sum);
  let icmp := ip + 20 in
  m ← st16 m icmp 0x0800;
  m ← st16 m (icmp + 2) 0;
  m ← st16 m (icmp + 4) 0;
  m ← st16 m (icmp + 6) (PingSeqNo (loop s));
  let s := set_PingSeqNo (u16 (PingSeqNo (loop s) + 1)) s in
  sum ← NetCksum m icmp (8 / 2);
  m ← st16 m (icmp + 2) (Z.lnot sum);
  let s := set_NetArpWaitTxPacketSize (n + IP_HDR_SIZE_NO_UDP + 8) s in
  start_arp s m.

Definition PingTimeout s : net W :=
  set_NetState NETLOOP_FAIL (set_link (eth_halt (link s)) s).

Definition PingHandler s m (pkt : Z) : option (net W) :=
  tmp ← NetReadIP m (pkt + 12);
  if negb (tmp =? NetPingIP (loop s)) then Some s else Some (set_NetState NETLOOP_SUCCESS s).

Definition PingStart s m : option (net W * mem) :=
  let s := NetSetTimeout s (u32 (10 * CFG_HZ)) TimePing in
  let s := NetSetHandler s RxPing in
  PingSend s m.

Definition startAgainTimeout s : net W := set_NetState NETLOOP_RESTART s.

(** ** Receiving

    [call] is the current packet handler with its arguments: state, memory,
    packet, destination and source port, length. *)
Section receive.
Context (call : net W → mem → Z → Z → Z → Z → option (net W * mem)).

Definition receive_arp s m (et ip len : Z) : option (net W * mem) :=
  if len <? ARP_HDR_SIZE then Some (s, m) else
  hrd ← ld16 m ip; if negb (hrd =? ARP_ETHER) then Some (s, m) else
  pro ← ld16 m (ip + 2); if negb (pro =? PROT_IP) then Some (s, m) else
  hln ← ld m (ip + 4); if negb (hln =? 6) then Some (s, m) else
  pln ← ld m (ip + 5); if negb (pln =? 4) then Some (s, m) else
  if NetOurIP (cfg s) =? 0 then Some (s, m) else
  let ar_data := ip + 8 in
  target ← NetReadIP m (ar_data + 16);
  if negb (target =? NetOurIP (cfg s)) then Some (s, m) else
  op ← ld16 m (ip + 6);
  if op =? ARPOP_REQUEST then
    '(m, n) ← NetSetEther s m et (et + 6) PROT_ARP;
    m ← st16 m (ip + 6) ARPOP_REPLY;
    m ← memcpy m (ar_data + 10) ar_data 6;
    m ← NetCopyIP m (ar_data + 16) (ar_data + 6);
    m ← memcpy m ar_data (NetOurEther (bufs s)) 6;
    m ← NetWriteIP m (ar_data + 6) (NetOurIP (cfg s));
    s ← send_frame s m et (n + ARP_HDR_SIZE);
    Some (s, m)
  else if op =? ARPOP_REPLY then
    if (NetArpWaitPacketIP (arp s) =? 0) || (NetArpWaitPacketMAC (arp s) =? NULL)
    then Some (s, m) else
    tmp ← NetReadIP m (ar_data + 6);
    if tmp =? NetArpWaitReplyIP (arp s) then
      m ← memcpy m (NetArpWaitPacketMAC (arp s)) ar_data 6;
      m ← memcpy m (NetArpWaitTxPacket (bufs s)) (NetArpWaitPacketMAC (arp s)) 6;
      s ← send_frame s m (NetArpWaitTxPacket (bufs s)) (NetArpWaitTxPacketSize (arp s));
      let s := set_NetArpWaitPacketIP 0 s in
      let s := set_NetArpWaitTxPacketSize 0 s in
      Some (set_NetArpWaitPacketMAC NULL s, m)
    else Some (s, m)
  else Some (s, m).

Definition receive_rarp s m (ip len : Z) : option (net W * mem) :=
  if len <? ARP_HDR_SIZE then Some (s, m) else
  op ← ld16 m (ip + 6); hrd ← ld16 m ip; pro ← ld16 m (ip + 2);
  hln ← ld m (ip + 4); pln ← ld m (ip + 5);
  if negb (op =? RARPOP_REPLY) || negb (hrd =? ARP_ETHER) || negb (pro =? PROT_IP) ||
     negb (hln =? 6) || negb (pln =? 4) then Some (s, m)
  else
    let ar_data := ip + 8 in
    our ← NetReadIP m (ar_data + 16);
    let s := set_NetOurIP our s in
    server ← NetReadIP m (ar_data + 6);
    let s := if NetServerIP (cfg s) =? 0 then set_NetServerIP server s else s in
    m ← memcpy m (NetServerEther (bufs s)) ar_data 6;
    call s m 0 0 0 0.

Definition receive_ip s m (ip len : Z) : option (net W * mem) :=
  if len <? IP_HDR_SIZE then Some (s, m) else
  ip_len ← ld16 m (ip + 2);
  if len <? ip_len then Some (s, m) else
  hl_v ← ld m ip;
  if negb (Z.land hl_v 0xf0 =? 0x40) then Some (s, m) else
  off ← ld16 m (ip + 6);
  if negb (Z.land off 0x1fff =? 0) then Some (s, m) else
  ok ← NetCksumOk m ip (IP_HDR_SIZE_NO_UDP / 2);
  if negb (ok : bool) then Some (s, m) else
  tmp ← NetReadIP m (ip + 16);
  if negb (NetOurIP (cfg s) =? 0) && negb (tmp =? NetOurIP (cfg s)) && negb (tmp =? 0xFFFFFFFF)
  then Some (s, m) else
  p ← ld m (ip + 9);
  if p =? IPPROTO_ICMP then
    type ← ld m (ip + 20);
    if type =? ICMP_ECHO_REPLY then call s m ip 0 0 0 else Some (s, m)
  else if negb (p =? IPPROTO_UDP) then Some (s, m) else
  dst ← ld16 m (ip + 22);
  src ← ld16 m (ip + 20);
  udp_len ← ld16 m (ip + 24);
  call s m (ip + IP_HDR_SIZE) dst src (u32 (udp_len - 8)).

Definition NetReceive s m (inpkt len : Z) : option (net W * mem) :=
  if len <? ETHER_HDR_SIZE then Some (s, m) else
  let myvlanid := vlan_of (NetOurVLAN (cfg s)) in
  let mynvlanid := vlan_of (NetOurNativeVLAN (cfg s)) in
  x ← ld16 m (inpkt + 12);
  let deliver x ip len vlanid :=
    let vlanid := if (vlanid =? VLAN_NONE) then Z.land mynvlanid VLAN_IDMASK else vlanid in
    if negb (Z.land myvlanid VLAN_IDMASK =? VLAN_NONE) &&
       negb (vlanid =? Z.land myvlanid VLAN_IDMASK) then Some (s, m)
    else if x =? PROT_ARP then receive_arp s m inpkt ip len
    else if x =? PROT_RARP then receive_rarp s m ip len
    else if x =? PROT_IP then receive_ip s m ip len
    else Some (s, m) in
  if x <? 1514 then
    x ← ld16 m (inpkt + 20);
    deliver x (inpkt + E802_HDR_SIZE) (len - E802_HDR_SIZE) VLAN_NONE
  else if negb (x =? PROT_VLAN) then
    deliver x (inpkt + ETHER_HDR_SIZE) (len - ETHER_HDR_SIZE) VLAN_NONE
  else
    if len <? VLAN_ETHER_HDR_SIZE then Some (s, m) else
    if Z.land (u16 (NetOurVLAN (cfg s))) VLAN_IDMASK =? VLAN_NONE then Some (s, m) else
    cti ← ld16 m (inpkt + 14);
    x ← ld16 m (inpkt + 16);
    deliver x (inpkt + VLAN_ETHER_HDR_SIZE) (len - VLAN_ETHER_HDR_SIZE) (Z.land cti VLAN_IDMASK).
End receive.
End core.

(** ** Loads and stores of fields *)

Section fields.
Implicit Types (m : mem) (a : Z) (l : list Z).

Lemma st_bytes_write m a l :
  owned m a (length l) → st_bytes m a l = Some (write_bytes m a (map u8 l)).
Proof.
  revert m a. induction l as [|x l IH]; intros m a Ho; [done|]. cbn [st_bytes map write_bytes].
  rewrite st_owned by (rewrite <- (Z.add_0_r a); apply Ho; simpl; lia). rewrite some_bind.
  apply IH. apply owned_insert. eapply owned_mono; [exact Ho|lia|simpl; lia].
Qed.

(** A store right behind the bytes written so far. *)
Lemma st_bytes_append m a (n : Z) l1 l2 b :
  owned m a n → b = a + length l1 → length l1 + length l2 ≤ n →
  st_bytes (write_bytes m a l1) b l2 = Some (write_bytes m a (l1 ++ map u8 l2)).
Proof.
  intros Ho -> Hn. rewrite st_bytes_write, <- write_bytes_app; [done|].
  apply owned_write. eapply owned_mono; [exact Ho|lia|lia].
Qed.

(** A field of a block. *)
Lemma bytes_at_slice m a l (i n : nat) :
  bytes_at m a l → (i ≤ length l)%nat → bytes_at m (a + i) (take n (drop i l)).
Proof. intros Hl Hi. by apply bytes_at_take, bytes_at_drop. Qed.
End fields.

(** ** The Internet checksum *)

(** 16-bit words and their bytes in network order. *)
Definition is_word (w : Z) : Prop := 0 ≤ w < 65536.
Definition word_bytes (w : Z) : list Z := [u8 (Z.shiftr w 8); u8 w].
Definition words_bytes (ws : list Z) : list Z := flat_map word_bytes ws.
Definition words_sum (ws : list Z) : Z := foldr Z.add 0 ws.

Section checksum.
Implicit Types (m : mem) (ws : list Z).

Lemma be16_word w : is_word w → be16 (u8 (Z.shiftr w 8)) (u8 w) = w.
Proof.
  unfold is_word, be16, u8. intros Hw. rewrite Z.shiftr_div_pow2 by lia.
  change (2 ^ 8) with 256. Z.div_mod_to_equations. lia.
Qed.

Lemma words_sum_range ws :
  Forall is_word ws → 0 ≤ words_sum ws ≤ 65535 * length ws.
Proof. induction 1 as [|w ws Hw Hws IH]; simpl; unfold is_word in *; lia. Qed.

Lemma cksum_loop m a ws :
  Forall is_word ws → bytes_at m a (words_bytes ws) → length ws ≤ 65536 →
  while (λ '(xsum, p, len),
    if len >? 0 then v ← ld16 m p; Some (Next (u32 (xsum + v), p + 2, len - 1))
    else Some (Done xsum)) (0, a, length ws : Z) = Some (words_sum ws).
Proof.
  intros Hws Hb Hlen. apply (while_within _ _ (S (length ws))); [lia|].
  assert (Hgen : ∀ acc, 0 ≤ acc → acc + 65535 * length ws < 4294967296 →
    ∃ n, (n ≤ S (length ws))%nat ∧ runs (λ '(xsum, p, len),
      if len >? 0 then v ← ld16 m p; Some (Next (u32 (xsum + v), p + 2, len - 1))
      else Some (Done xsum)) (acc, a, length ws : Z) n (acc + words_sum ws)).
  2: { apply Hgen; lia. }
  clear Hlen. revert a Hb. induction Hws as [|w ws Hw Hws IH]; intros a Hb acc H0 H1.
  - exists 1%nat. split; [lia|]. apply runs_done. cbv beta iota. simpl. do 2 f_equal. lia.
  - unfold words_bytes in Hb. cbn [flat_map] in Hb. apply bytes_at_app in Hb as [Hw2 Hb].
    unfold is_word in Hw. cbn [length words_sum foldr] in *.
    destruct (IH (a + 2) Hb (acc + w)) as (n & Hn & Hr); [lia|lia|].
    exists (S n). split; [lia|]. rewrite Z.add_assoc. eapply runs_next; [|exact Hr].
    cbv beta iota. rewrite (proj2 (Z.gtb_lt _ 0)) by lia.
    rewrite (ld16_at _ _ _ _ Hw2), some_bind, be16_word by done.
    rewrite u32_small by lia. do 4 f_equal. lia.
Qed.

(** Folding the carries twice. *)
Definition fold_sum (t : Z) : Z :=
  let x := Z.land t 0xffff + Z.shiftr t 16 in Z.land x 0xffff + Z.shiftr x 16.

Lemma fold_once t : Z.land t 0xffff + Z.shiftr t 16 = t mod 65536 + t / 65536.
Proof.
  change 0xffff with (Z.ones 16). by rewrite Z.land_ones, Z.shiftr_div_pow2 by lia.
Qed.

Lemma fold_sum_range t : 0 ≤ t < 4294967296 → 0 ≤ fold_sum t ≤ 65535.
Proof. intros Ht. unfold fold_sum. rewrite !fold_once. Z.div_mod_to_equations. lia. Qed.

Lemma fold_sum_mod t : 0 ≤ t < 4294967296 → fold_sum t mod 65535 = t mod 65535.
Proof.
  intros Ht. unfold fold_sum. rewrite !fold_once.
  assert (E : ∀ x, (x mod 65536 + x / 65536) mod 65535 = x mod 65535).
  { intros x. rewrite (Z.div_mod x 65536) at 3 by lia.
    replace (65536 * (x / 65536) + x mod 65536)
      with (x mod 65536 + x / 65536 + (x / 65536) * 65535) by lia.
    by rewrite Z.mod_add. }
  by rewrite !E.
Qed.

Lemma fold_sum_zero t : 0 ≤ t < 4294967296 → fold_sum t = 0 → t = 0.
Proof. intros Ht. unfold fold_sum. rewrite !fold_once. Z.div_mod_to_equations. lia. Qed.

Lemma NetCksum_words m a ws :
  Forall is_word ws → bytes_at m a (words_bytes ws) → length ws ≤ 65536 →
  NetCksum m a (length ws) = Some (fold_sum (words_sum ws)).
Proof.
  intros Hws Hb Hlen. unfold NetCksum. rewrite (cksum_loop m a ws Hws Hb Hlen), some_bind.
  pose proof (words_sum_range ws Hws) as Hr. pose proof (fold_sum_range (words_sum ws)) as Hf.
  cbv zeta. rewrite (u32_small (Z.land (words_sum ws) 0xffff + _)).
  2: { rewrite fold_once. Z.div_mod_to_equations. lia. }
  fold (fold_sum (words_sum ws)). rewrite u32_small by lia.
  change 0xffff with (Z.ones 16). rewrite Z.land_ones by lia. rewrite Z.mod_small; [done|].
  change (2 ^ 16) with 65536. lia.
Qed.

(** A block passes exactly when the sum of its words is a multiple of 65535. *)
Lemma NetCksumOk_words m a ws :
  Forall is_word ws → bytes_at m a (words_bytes ws) → length ws ≤ 65536 →
  NetCksumOk m a (length ws) = Some (words_sum ws mod 65535 =? 0).
Proof.
  intros Hws Hb Hlen. unfold NetCksumOk. rewrite NetCksum_words by done. rewrite some_bind.
  pose proof (words_sum_range ws Hws) as Hr.
  assert (Ht : 0 ≤ words_sum ws < 4294967296) by lia.
  pose proof (fold_sum_range _ Ht) as Hf. rewrite <- (fold_sum_mod _ Ht).
  set (c := fold_sum _) in *. f_equal. rewrite u32_small by lia.
  destruct (Z.eqb_spec (c mod 65535) 0) as [E|E].
  - assert (c = 0 ∨ c = 65535) as [->| ->] by (Z.div_mod_to_equations; lia); done.
  - apply Z.eqb_neq. intros E2. apply E.
    assert (Hd : (c + 1) / 2 mod 32768 = 0).
    { rewrite <- (Z.shiftr_div_pow2 _ 1), <- (Z.land_ones _ 15) by lia.
      change (Z.ones 15) with (Z.shiftr 0xfffe 1). by rewrite <- Z.shiftr_land, E2. }
    Z.div_mod_to_equations. lia.
Qed.
End checksum.

(** ** The header [NetSetIP] writes *)

Definition ip_words (len id our dest sum : Z) : list Z :=
  [0x4500; IP_HDR_SIZE + len; u16 id; 0x4000; 0xff11; sum;
   our / 65536; our mod 65536; dest / 65536; dest mod 65536].

Definition udp_words (dport sport len : Z) : list Z := [sport; dport; 8 + len; 0].

(** The checksum that completes a sum of words. *)
Definition ip_sum (len id our dest : Z) : Z :=
  65535 - fold_sum (words_sum (ip_words len id our dest 0)).

Section header.
Context {W : Type} `{Link W}.
Implicit Types (s : net W) (m : mem).

Lemma word_bytes_mod v : word_bytes (u16 v) = word_bytes v.
Proof.
  unfold word_bytes, u8, u16. rewrite !Z.shiftr_div_pow2 by lia. change (2 ^ 8) with 256.
  f_equal; [|f_equal]; Z.div_mod_to_equations; lia.
Qed.

Lemma ip_bytes v :
  0 ≤ v < 4294967296 →
  map u8 [Z.shiftr v 24; Z.shiftr v 16; Z.shiftr v 8; v] =
    words_bytes [v / 65536; v mod 65536].
Proof.
  intros Hv. simpl. unfold u8. rewrite !Z.shiftr_div_pow2 by lia.
  change (2 ^ 24) with 16777216. change (2 ^ 16) with 65536. change (2 ^ 8) with 256.
  repeat match goal with |- _ :: _ = _ :: _ => f_equal end; Z.div_mod_to_equations; lia.
Qed.

Lemma ip_words_ok len id our dest sum :
  0 ≤ len ≤ 65507 → 0 ≤ our < 4294967296 → 0 ≤ dest < 4294967296 → is_word sum →
  Forall is_word (ip_words len id our dest sum).
Proof.
  intros Hl Ho Hd Hs. unfold ip_words, IP_HDR_SIZE.
  pose proof (Z.mod_pos_bound id 65536 ltac:(lia)).
  pose proof (Z.mod_pos_bound our 65536 ltac:(lia)).
  pose proof (Z.mod_pos_bound dest 65536 ltac:(lia)).
  repeat (apply Forall_cons_iff; split; [unfold is_word, u16 in *|]); try apply Forall_nil;
    try lia; Z.div_mod_to_equations; lia.
Qed.

Lemma lnot_word_bytes c :
  map u8 [Z.shiftr (Z.lnot c) 8; Z.lnot c] = word_bytes (65535 - c).
Proof.
  unfold word_bytes. simpl. unfold u8, Z.lnot. rewrite !Z.shiftr_div_pow2 by lia.
  change (2 ^ 8) with 256.
  repeat match goal with |- _ :: _ = _ :: _ => f_equal end; Z.div_mod_to_equations; lia.
Qed.

(** All stores of [NetSetIP] before the checksum. *)
Lemma ip_header_stores {B} m ip len id our dest dport sport (k : mem → option B) :
  owned m ip 28 → 0 ≤ our < 4294967296 → 0 ≤ dest < 4294967296 →
  (m ← st m ip 0x45; m ← st m (ip + 1) 0; m ← st16 m (ip + 2) (IP_HDR_SIZE + len);
   m ← st16 m (ip + 4) id; m ← st16 m (ip + 6) 0x4000; m ← st m (ip + 8) 255;
   m ← st m (ip + 9) 17; m ← st16 m (ip + 10) 0; m ← NetWriteIP m (ip + 12) our;
   m ← NetWriteIP m (ip + 16) dest; m ← st16 m (ip + 20) sport; m ← st16 m (ip + 22) dport;
   m ← st16 m (ip + 24) (8 + len); m ← st16 m (ip + 26) 0; k m) =
  k (write_bytes m ip (words_bytes (ip_words len id our dest 0 ++ udp_words dport sport len))).
Proof.
  intros Ho Hour Hdest. unfold NetWriteIP, st16.
  change m with (write_bytes m ip []) at 1.
  repeat (first [rewrite (st_append m ip 28) by (done || (simpl; lia))
                |rewrite (st_bytes_append m ip 28) by (done || (simpl; lia))];
          rewrite some_bind).
  do 2 f_equal. rewrite !ip_bytes by done.
  unfold ip_words, udp_words, words_bytes. cbn [flat_map app]. rewrite word_bytes_mod.
  reflexivity.
Qed.

(** The frame of a header at [ip]: nothing but the 28 bytes and the byte
    behind an odd payload changes. *)
Definition header_frame m m' (ip len : Z) : Prop :=
  ∀ j, ¬ (ip ≤ j < ip + 28) → j ≠ ip + 28 + len → m' !! j = m !! j.

Lemma NetSetIP_spec s m ip dest dport sport len :
  0 ≤ len ≤ 65507 → owned m ip (28 + len + 1) →
  0 ≤ NetOurIP (cfg s) < 4294967296 → 0 ≤ dest < 4294967296 →
  let sum := ip_sum len (NetIPID (loop s)) (NetOurIP (cfg s)) dest in
  ∃ m', NetSetIP s m ip dest dport sport len =
      Some (set_NetIPID (u32 (NetIPID (loop s) + 1)) s, m') ∧
    bytes_at m' ip (words_bytes
      (ip_words len (NetIPID (loop s)) (NetOurIP (cfg s)) dest sum ++ udp_words dport sport len)) ∧
    header_frame m m' ip len ∧ (∀ a n, owned m a n → owned m' a n).
Proof.
  intros Hlen Ho Hour Hdest sum. set (id := NetIPID (loop s)) in *.
  set (our := NetOurIP (cfg s)) in *. unfold NetSetIP. fold id our. change IP_HDR_SIZE with 28.
  set (m0 := if negb (Z.land len 1 =? 0) then <[ip + 28 + len := 0]> m else m).
  assert (E0 : (if negb (Z.land len 1 =? 0) then st m (ip + 28 + len) 0 else Some m) = Some m0).
  { unfold m0. destruct (negb _); [|done]. apply st_owned. eapply owned_at; [exact Ho|lia]. }
  rewrite E0, some_bind.
  assert (Ho0 : owned m0 ip 28).
  { unfold m0. destruct (negb _); [apply owned_insert|]; eapply owned_mono; try exact Ho; lia. }
  change (NetOurIP (cfg (set_NetIPID (u32 (id + 1)) s))) with our.
  rewrite (ip_header_stores m0 ip len id our dest dport sport _ Ho0 Hour Hdest).
  set (words := ip_words len id our dest 0). set (udp := udp_words dport sport len).
  set (m1 := write_bytes m0 ip (words_bytes (words ++ udp))).
  assert (Hsplit : words_bytes (words ++ udp) = words_bytes words ++ words_bytes udp)
    by (unfold words_bytes; apply flat_map_app).
  assert (Hb : bytes_at m1 ip (words_bytes words ++ words_bytes udp)).
  { unfold m1. rewrite Hsplit. apply write_bytes_in. }
  assert (Hok : Forall is_word words) by (apply ip_words_ok; [lia|done..|red; lia]).
  change (IP_HDR_SIZE_NO_UDP / 2) with (length words : Z).
  rewrite (NetCksum_words m1 ip words Hok); [|by apply bytes_at_app in Hb as [? _]|simpl; lia].
  rewrite some_bind. unfold st16.
  assert (Ho1 : owned m1 (ip + 10) 2).
  { unfold m1. apply owned_write. eapply owned_mono; [exact Ho0|lia|lia]. }
  rewrite st_bytes_write by exact Ho1. rewrite some_bind.
  rewrite (lnot_word_bytes (fold_sum (words_sum words))).
  set (m2 := write_bytes m1 (ip + 10) _). exists m2. split; [done|]. split; [|split].
  - set (A := take 5 words). set (B := drop 6 words ++ udp).
    assert (Hb0 : bytes_at m1 ip (words_bytes A ++ word_bytes 0 ++ words_bytes B)) by exact Hb.
    change (bytes_at m2 ip (words_bytes A ++ word_bytes sum ++ words_bytes B)).
    apply bytes_at_app in Hb0 as [HA HB]. apply bytes_at_app in HB as [_ HB].
    apply bytes_at_app. split; [|apply bytes_at_app; split].
    + apply bytes_at_write_disjoint; [left; simpl; lia|exact HA].
    + apply write_bytes_in.
    + apply bytes_at_write_disjoint; [right; simpl; lia|exact HB].
  - intros j Hj Hne. unfold m2, m1. rewrite write_bytes_out by (simpl; lia).
    rewrite write_bytes_out by (simpl; lia). unfold m0. destruct (negb _); [|done].
    by rewrite lookup_insert_ne by lia.
  - intros a n Hn. unfold m2, m1. do 2 apply owned_write. unfold m0.
    destruct (negb _); [by apply owned_insert|done].
Qed.

(** The completed header passes the receiver's check. *)
Lemma ip_header_sum len id our dest :
  0 ≤ len ≤ 65507 → 0 ≤ our < 4294967296 → 0 ≤ dest < 4294967296 →
  let sum := ip_sum len id our dest in
  is_word sum ∧ words_sum (ip_words len id our dest sum) mod 65535 = 0.
Proof.
  intros Hlen Hour Hdest sum.
  assert (Hok : Forall is_word (ip_words len id our dest 0))
    by (apply ip_words_ok; [lia|done..|red; lia]).
  pose proof (words_sum_range _ Hok) as Hr.
  change (length (ip_words len id our dest 0) : Z) with 10 in Hr.
  assert (Ht : 0 ≤ words_sum (ip_words len id our dest 0) < 4294967296) by lia.
  pose proof (fold_sum_range _ Ht) as Hf. pose proof (fold_sum_mod _ Ht) as Hm.
  split; [unfold sum, ip_sum, is_word; lia|].
  replace (words_sum (ip_words len id our dest sum))
    with (words_sum (ip_words len id our dest 0) + sum).
  - rewrite Z.add_mod, <- Hm, <- Z.add_mod by lia. unfold sum, ip_sum.
    by replace (_ + _) with 65535 by lia.
  - unfold ip_words. simpl. lia.
Qed.
End header.

(** ** Receiving IP packets *)

Section words.
Implicit Types (m : mem) (ws : list Z).

Lemma words_bytes_drop ws (i : nat) :
  (i ≤ length ws)%nat → drop (2 * i) (words_bytes ws) = words_bytes (drop i ws).
Proof.
  revert ws. induction i as [|i IH]; intros ws Hi; [done|].
  destruct ws as [|w ws]; [simpl in Hi; lia|]. cbn [length] in Hi.
  replace (2 * S i)%nat with (S (S (2 * i))) by lia. unfold words_bytes. cbn [flat_map word_bytes app].
  rewrite !skipn_cons. apply IH. lia.
Qed.

Lemma length_words_bytes ws : length (words_bytes ws) = (2 * length ws)%nat.
Proof.
  induction ws as [|w ws IH]; [done|]. unfold words_bytes in *. cbn [flat_map].
  rewrite length_app, IH. simpl. lia.
Qed.

Lemma word_bytes_at m a ws (i : nat) w :
  bytes_at m a (words_bytes ws) → ws !! i = Some w → bytes_at m (a + 2 * i) (word_bytes w).
Proof.
  intros Hb Hw. pose proof (lookup_lt_Some _ _ _ Hw) as Hi.
  pose proof (bytes_at_drop m a (words_bytes ws) (2 * i) Hb) as Hd.
  rewrite length_words_bytes, words_bytes_drop in Hd by lia.
  rewrite (drop_S _ _ _ Hw) in Hd. replace (a + 2 * i) with (a + (2 * i)%nat) by lia.
  apply bytes_at_app in Hd as [Hd _]; [done|lia].
Qed.

Lemma ld16_word m a ws (i : nat) w b :
  bytes_at m a (words_bytes ws) → ws !! i = Some w → is_word w → b = a + 2 * i →
  ld16 m b = Some w.
Proof.
  intros Hb Hw Hr ->. pose proof (word_bytes_at m a ws i w Hb Hw) as Hx.
  by rewrite (ld16_at _ _ _ _ Hx), be16_word.
Qed.

Lemma ld_high m a ws (i : nat) w b :
  bytes_at m a (words_bytes ws) → ws !! i = Some w → is_word w → b = a + 2 * i →
  ld m b = Some (w / 256).
Proof.
  intros Hb Hw Hr ->. pose proof (word_bytes_at m a ws i w Hb Hw) as Hx.
  apply bytes_at_cons in Hx as [Hx _]. unfold ld. rewrite Hx. f_equal.
  unfold u8. rewrite Z.shiftr_div_pow2 by lia. change (2 ^ 8) with 256. unfold is_word in Hr.
  Z.div_mod_to_equations. lia.
Qed.

Lemma ld_low m a ws (i : nat) w b :
  bytes_at m a (words_bytes ws) → ws !! i = Some w → b = a + 2 * i + 1 →
  ld m b = Some (w mod 256).
Proof.
  intros Hb Hw ->. pose proof (word_bytes_at m a ws i w Hb Hw) as Hx.
  apply bytes_at_cons in Hx as [_ Hx]. apply bytes_at_singleton in Hx. exact Hx.
Qed.

Lemma NetReadIP_words m a ws (i : nat) w1 w2 b :
  bytes_at m a (words_bytes ws) → ws !! i = Some w1 → ws !! S i = Some w2 →
  is_word w1 → is_word w2 → b = a + 2 * i → NetReadIP m b = Some (65536 * w1 + w2).
Proof.
  intros Hb H1 H2 R1 R2 ->. pose proof (word_bytes_at m a ws i w1 Hb H1) as Hx.
  pose proof (word_bytes_at m a ws (S i) w2 Hb H2) as Hy.
  unfold NetReadIP. erewrite ld32_at.
  2: { replace (a + 2 * S i) with (a + 2 * i + 2) in Hy by lia.
       apply (proj2 (bytes_at_app m (a + 2 * i) (word_bytes w1) (word_bytes w2))). by split. }
  rewrite <- (be16_word w1 R1) at 3. rewrite <- (be16_word w2 R2) at 3.
  unfold be32, be16. f_equal. lia.
Qed.
End words.

(** A header the receiver takes: version 4, not a fragment, as long as it
    says, for us or for everyone, and with the right checksum. *)
Definition ip_accepted (our len : Z) (hw : list Z) : bool :=
  match hw with
  | [w0; w1; w2; w3; w4; w5; w6; w7; w8; w9; w10; w11; w12; w13] =>
      (IP_HDR_SIZE <=? len) && (w1 <=? len) && (Z.land (w0 / 256) 0xf0 =? 0x40) &&
      (Z.land w3 0x1fff =? 0) && (words_sum (take 10 hw) mod 65535 =? 0) &&
      ((our =? 0) || (65536 * w8 + w9 =? our) || (65536 * w8 + w9 =? 0xFFFFFFFF))
  | _ => false
  end.

Definition word_of (hw : list Z) (i : nat) : Z := nth i hw 0.

(** The side conditions of a field access. *)
Ltac field := first [done | lia].

Section receiving.
Context {W : Type} `{Link W}.
Context (call : net W → mem → Z → Z → Z → Z → option (net W * mem)).
Implicit Types (s : net W) (m : mem).

Lemma receive_ip_spec s m ip len hw :
  length hw = 14%nat → Forall is_word hw → bytes_at m ip (words_bytes hw) →
  receive_ip call s m ip len =
    if ip_accepted (NetOurIP (cfg s)) len hw then
      if word_of hw 4 mod 256 =? IPPROTO_ICMP then
        if word_of hw 10 / 256 =? ICMP_ECHO_REPLY then call s m ip 0 0 0 else Some (s, m)
      else if word_of hw 4 mod 256 =? IPPROTO_UDP then
        call s m (ip + IP_HDR_SIZE) (word_of hw 11) (word_of hw 10) (u32 (word_of hw 12 - 8))
      else Some (s, m)
    else Some (s, m).
Proof.
  intros Hlen Hw Hb.
  destruct hw as [|w0 [|w1 [|w2 [|w3 [|w4 [|w5 [|w6 [|w7 [|w8 [|w9 [|w10 [|w11 [|w12 [|w13 [|]]]]]]]]]]]]]]];
    try done. clear Hlen. set (hw := [w0; _; _; _; _; _; _; _; _; _; _; _; _; _]) in *.
  assert (R := Hw). unfold hw in R. rewrite !Forall_cons_iff in R.
  destruct R as (R0 & R1 & R2 & R3 & R4 & R5 & R6 & R7 & R8 & R9 & R10 & R11 & R12 & R13 & _).
  assert (Ea : ip_accepted (NetOurIP (cfg s)) len hw =
    (IP_HDR_SIZE <=? len) && (w1 <=? len) && (Z.land (w0 / 256) 0xf0 =? 0x40) &&
    (Z.land w3 0x1fff =? 0) && (words_sum (take 10 hw) mod 65535 =? 0) &&
    ((NetOurIP (cfg s) =? 0) || (65536 * w8 + w9 =? NetOurIP (cfg s)) ||
     (65536 * w8 + w9 =? 0xFFFFFFFF))) by reflexivity.
  rewrite Ea. clear Ea. unfold receive_ip.
  assert (Hck : NetCksumOk m ip (IP_HDR_SIZE_NO_UDP / 2) =
    Some (words_sum (take 10 hw) mod 65535 =? 0)).
  { apply (NetCksumOk_words m ip (take 10 hw)); [by apply Forall_take| |simpl; lia].
    assert (E : words_bytes hw = words_bytes (take 10 hw) ++ words_bytes (drop 10 hw)) by done.
    rewrite E in Hb. by apply bytes_at_app in Hb as [? _]. }
  rewrite Z.leb_antisym. destruct (len <? IP_HDR_SIZE); [done|]. cbn [negb andb].
  rewrite (ld16_word m ip hw 1 w1 (ip + 2)) by field. rewrite some_bind.
  rewrite Z.leb_antisym. destruct (len <? w1); [done|]. cbn [negb andb].
  rewrite (ld_high m ip hw 0 w0 ip) by field. rewrite some_bind.
  destruct (Z.land (w0 / 256) 0xf0 =? 0x40); [|done]. cbn [negb andb].
  rewrite (ld16_word m ip hw 3 w3 (ip + 6)) by field. rewrite some_bind.
  destruct (Z.land w3 0x1fff =? 0); [|done]. cbn [negb andb].
  rewrite Hck, some_bind. destruct (words_sum (take 10 hw) mod 65535 =? 0); [|done]. cbn [negb andb].
  rewrite (NetReadIP_words m ip hw 8 w8 w9 (ip + 16)) by field. rewrite some_bind.
  replace (negb (NetOurIP (cfg s) =? 0) && negb (65536 * w8 + w9 =? NetOurIP (cfg s)) &&
           negb (65536 * w8 + w9 =? 4294967295))
    with (negb ((NetOurIP (cfg s) =? 0) || (65536 * w8 + w9 =? NetOurIP (cfg s)) ||
                (65536 * w8 + w9 =? 4294967295))) by by rewrite !negb_orb.
  destruct (_ || _ || _); [|done]. cbn [negb].
  rewrite (ld_low m ip hw 4 w4 (ip + 9)) by field. rewrite some_bind.
  change (word_of hw 4) with w4. change (word_of hw 10) with w10.
  destruct (w4 mod 256 =? IPPROTO_ICMP).
  - rewrite (ld_high m ip hw 10 w10 (ip + 20)) by field. by rewrite some_bind.
  - destruct (w4 mod 256 =? IPPROTO_UDP); [|done]. cbn [negb].
    rewrite (ld16_word m ip hw 11 w11 (ip + 22)), (ld16_word m ip hw 10 w10 (ip + 20)), (ld16_word m ip hw 12 w12 (ip + 24))
      by field. done.
Qed.
End receiving.

(** ** Sending *)

(** The arrays the transmit path reads, apart from the buffer it writes. *)
Record tx_ready {W} (s : net W) (m : mem) (ether : Z) (mac : list Z) : Prop := TxReady {
  tx_area : owned m (NetTxPacket (bufs s)) 1536;
  tx_our : ∃ l, length l = 6%nat ∧ Forall is_byte l ∧ bytes_at m (NetOurEther (bufs s)) l ∧
    (NetOurEther (bufs s) + 6 ≤ NetTxPacket (bufs s) ∨
     NetTxPacket (bufs s) + 1536 ≤ NetOurEther (bufs s));
  tx_ether : length mac = 6%nat ∧ Forall is_byte mac ∧ bytes_at m ether mac ∧
    (ether + 6 ≤ NetTxPacket (bufs s) ∨ NetTxPacket (bufs s) + 1536 ≤ ether);
  tx_null : bytes_at m (NetEtherNullAddr (bufs s)) (replicate 6 0);
  tx_known : mac ≠ replicate 6 0;
  tx_ip : 0 ≤ NetOurIP (cfg s) < 4294967296
}.

(** An ARP packet of operation [op]. *)
Definition arp_packet (op : Z) (mac : list Z) (ip : Z) (tmac : list Z) (tip : Z) : list Z :=
  words_bytes [ARP_ETHER; PROT_IP; 0x0604; op] ++ mac ++ words_bytes [ip / 65536; ip mod 65536] ++
  tmac ++ words_bytes [tip / 65536; tip mod 65536].

Definition is_ip (ip : Z) : Prop := 0 ≤ ip < 4294967296.

Section sending.
Context {W : Type} `{Link W}.
Implicit Types (s : net W) (m : mem).

Lemma NetEthHdrSize_range s : NetEthHdrSize s = 14 ∨ NetEthHdrSize s = 18.
Proof. unfold NetEthHdrSize. destruct (_ =? _); [by left|by right]. Qed.

(** A store of literal bytes inside the area. *)
Lemma st_bytes_changed lo hi m a l :
  owned m a (length l) → lo ≤ a → a + length l ≤ hi →
  ∃ m', st_bytes m a l = Some m' ∧ changed lo hi m m'.
Proof.
  intros Ho H1 H2. exists (write_bytes m a (map u8 l)). split; [by apply st_bytes_write|].
  apply changed_write; [done|]. by rewrite length_map.
Qed.

Lemma memcpy_changed lo hi m dest src l :
  Forall is_byte l → bytes_at m src l → owned m dest (length l) → fits l →
  (dest ≤ src ∨ src + length l ≤ dest) → lo ≤ dest → dest + length l ≤ hi →
  ∃ m', memcpy m dest src (length l) = Some m' ∧ changed lo hi m m'.
Proof.
  intros. exists (write_bytes m dest l). split; [by apply memcpy_bytes|by apply changed_write].
Qed.

Lemma NetSetEther_at s m pkt ether our mac prot :
  owned m pkt 18 →
  length our = 6%nat → Forall is_byte our → bytes_at m (NetOurEther (bufs s)) our →
  length mac = 6%nat → Forall is_byte mac → bytes_at m ether mac →
  apart (pkt, 18) (NetOurEther (bufs s), 6) → apart (pkt, 18) (ether, 6) →
  ∃ m', NetSetEther s m pkt ether prot = Some (m', NetEthHdrSize s) ∧ changed pkt (pkt + 18) m m'.
Proof.
  intros Ha Hl Hlb Hlm Hm Hmb Hmm A1 A2. unfold apart in A1, A2. cbn [fst snd] in A1, A2.
  unfold NetSetEther, NetEthHdrSize, st16.
  destruct (memcpy_changed pkt (pkt + 18) m pkt ether mac) as (m1 & E1 & C1);
    [done|done| |unfold fits; lia|lia|lia|lia|].
  { eapply owned_mono; [exact Ha|lia|lia]. }
  rewrite Hm in E1. change (6%nat : Z) with 6 in E1. rewrite E1, some_bind.
  assert (Hl1 : bytes_at m1 (NetOurEther (bufs s)) our) by (eapply changed_bytes; [exact C1|lia|done]).
  destruct (memcpy_changed pkt (pkt + 18) m1 (pkt + 6) (NetOurEther (bufs s)) our) as (m2 & E2 & C2);
    [done|done| |unfold fits; lia|lia|lia|lia|].
  { eapply changed_owned; [exact C1|]. eapply owned_mono; [exact Ha|lia|lia]. }
  rewrite Hl in E2. change (6%nat : Z) with 6 in E2. rewrite E2, some_bind.
  pose proof (changed_trans _ _ _ _ _ C1 C2) as C12.
  assert (Hst : ∀ m' a v, changed pkt (pkt + 18) m m' → pkt ≤ a → a + 2 ≤ pkt + 18 →
    ∃ m'', st_bytes m' a [Z.shiftr v 8; v] = Some m'' ∧ changed pkt (pkt + 18) m m'').
  { intros m' a v C H1 H2.
    destruct (st_bytes_changed pkt (pkt + 18) m' a [Z.shiftr v 8; v]) as (m'' & E & C');
      [|done|simpl; lia|].
    - eapply changed_owned; [exact C|]. eapply owned_mono; [exact Ha|lia|simpl; lia].
    - exists m''. split; [done|]. by eapply changed_trans. }
  destruct (Z.land (vlan_of (NetOurVLAN (cfg s))) VLAN_IDMASK =? VLAN_NONE).
  - destruct (Hst m2 (pkt + 12) prot C12) as (m3 & -> & C3); [lia|lia|]. by exists m3.
  - destruct (Hst m2 (pkt + 12) PROT_VLAN C12) as (m3 & -> & C3); [lia|lia|]. rewrite some_bind.
    destruct (Hst m3 (pkt + 14) (Z.lor (Z.shiftl 0 5) (Z.land (vlan_of (NetOurVLAN (cfg s))) VLAN_IDMASK)) C3)
      as (m4 & -> & C4); [lia|lia|]. rewrite some_bind.
    destruct (Hst m4 (pkt + 16) prot C4) as (m5 & -> & C5); [lia|lia|]. by exists m5.
Qed.

Lemma NetSetEther_spec s m ether mac prot :
  tx_ready s m ether mac →
  let tx := NetTxPacket (bufs s) in
  ∃ m', NetSetEther s m tx ether prot = Some (m', NetEthHdrSize s) ∧ changed tx (tx + 18) m m'.
Proof.
  intros [Ha (l & Hl & Hlb & Hlm & Hld) (Hm & Hmb & Hmm & Hmd) _ _ _] tx.
  apply (NetSetEther_at s m tx ether l mac); try done.
  - eapply owned_mono; [exact Ha|lia|lia].
  - unfold apart. cbn [fst snd]. fold tx in Hld. lia.
  - unfold apart. cbn [fst snd]. fold tx in Hmd. lia.
Qed.

(** Sending to a known address: the frame ends with the payload. *)
Lemma NetSendUDPPacket_frame s m ether mac dest dport sport p :
  let tx := NetTxPacket (bufs s) in
  let n := NetEthHdrSize s in
  tx_ready s m ether mac → 0 < dest < 0xFFFFFFFF → length p ≤ 1400 →
  bytes_at m (tx + n + 28) p →
  ∃ m' frame, NetSendUDPPacket s m ether dest dport sport (length p) =
    Some (set_link (eth_send (link s) frame) (set_NetIPID (u32 (NetIPID (loop s) + 1)) s), m', 0) ∧
    changed tx (tx + 1536) m m' ∧ drop (Z.to_nat (n + 28)) frame = p.
Proof.
  intros tx n Hr Hdest Hlen Hp. unfold NetSendUDPPacket.
  rewrite (proj2 (Z.eqb_neq dest 0)), (proj2 (Z.eqb_neq dest 0xFFFFFFFF)) by lia.
  pose proof (tx_ether _ _ _ _ Hr) as (Hm & Hmb & Hmm & Hmd).
  pose proof (memcmp_bytes m ether mac (NetEtherNullAddr (bufs s)) (replicate 6 0) Hmm
    (tx_null _ _ _ _ Hr)) as Ec.
  rewrite Hm in Ec. change (6%nat : Z) with 6 in Ec.
  rewrite Ec by (done || (unfold fits; lia)). rewrite some_bind.
  rewrite bytes_cmp_zero, bool_decide_eq_false_2 by (done || apply (tx_known _ _ _ _ Hr)).
  destruct (NetSetEther_spec s m ether mac PROT_IP Hr) as (m1 & -> & C1). rewrite some_bind.
  fold tx in C1 |- *. fold n. pose proof (NetEthHdrSize_range s) as Hh. fold n in Hh.
  assert (Ha1 : owned m1 tx 1536) by (eapply changed_owned; [exact C1|apply Hr]).
  destruct (NetSetIP_spec s m1 (tx + n) dest dport sport (length p)) as (m2 & -> & _ & Hf & Ho2);
    [lia| |apply Hr|lia|].
  { eapply owned_mono; [exact Ha1|lia|lia]. }
  rewrite some_bind. unfold send_frame. change IP_HDR_SIZE with 28.
  destruct (owned_bytes m2 tx (n + 28 + length p)) as (frame & Hfl & Hfb).
  { eapply owned_mono; [apply Ho2; exact Ha1|lia|lia]. }
  rewrite <- Hfl, (ld_bytes_at _ _ _ Hfb), some_bind, some_bind. do 2 eexists.
  split; [reflexivity|]. split; [|].
  - eapply changed_trans; [eapply changed_mono; [exact C1|lia|lia]|]. split.
    + intros j Hj. apply Hf; lia.
    + intros j Hj. specialize (Ho2 j 1). rewrite <- (Z.add_0_r j). apply Ho2; [|lia].
      intros i Hi. by replace (j + i) with j by lia.
  - apply (bytes_at_inj m2 (tx + n + 28)).
    + replace (tx + n + 28) with (tx + Z.to_nat (n + 28)) by lia.
      apply bytes_at_drop; [done|lia].
    + intros i x Hi. apply lookup_lt_Some in Hi as Hlt. rewrite Hf by lia.
      by apply (changed_bytes _ _ _ _ (tx + n + 28) p C1); [lia|..].
    + rewrite length_drop. lia.
Qed.

(** A copy right behind the bytes written so far. *)
Lemma memcpy_append m a (n : Z) l1 src l b :
  owned m a n → b = a + length l1 → length l1 + length l ≤ n → Forall is_byte l → fits l →
  bytes_at m src l → apart (a, n) (src, length l : Z) →
  memcpy (write_bytes m a l1) b src (length l) = Some (write_bytes m a (l1 ++ l)).
Proof.
  unfold apart. cbn [fst snd]. intros Ho -> Hn Hl Hf Hs Hd.
  rewrite memcpy_bytes, <- write_bytes_app; try done.
  - apply bytes_at_write_disjoint; [lia|done].
  - apply owned_write. eapply owned_mono; [exact Ho|lia|lia].
  - lia.
Qed.

(** All stores of [ArpRequest]. *)
Lemma arp_stores {B} m a src our ip tip (k : mem → option B) :
  owned m a 28 → length our = 6%nat → Forall is_byte our → bytes_at m src our →
  apart (a, 28) (src, 6) → is_ip ip → is_ip tip →
  (m ← st16 m a ARP_ETHER; m ← st16 m (a + 2) PROT_IP; m ← st m (a + 4) 6; m ← st m (a + 5) 4;
   m ← st16 m (a + 6) ARPOP_REQUEST; m ← memcpy m (a + 8) src 6; m ← NetWriteIP m (a + 8 + 6) ip;
   m ← st_bytes m (a + 8 + 10) [0; 0; 0; 0; 0; 0]; m ← NetWriteIP m (a + 8 + 16) tip; k m) =
  k (write_bytes m a (arp_packet ARPOP_REQUEST our ip (replicate 6 0) tip)).
Proof.
  intros Ho Hl Hb Hs Hd Hip Htip. unfold NetWriteIP, st16.
  assert (Hcp : ∀ l1 b, b = a + length l1 → length l1 ≤ 22 →
    memcpy (write_bytes m a l1) b src 6 = Some (write_bytes m a (l1 ++ our))).
  { intros l1 b Eb H1. replace 6 with (Z.of_nat (length our)) by lia.
    apply (memcpy_append m a 28); try done; [lia|unfold fits; lia|]. by rewrite Hl. }
  change m with (write_bytes m a []) at 1.
  repeat (first [rewrite (st_append m a 28) by (done || (rewrite ?length_app, ?Hl; simpl; lia))
                |rewrite (st_bytes_append m a 28) by (done || (rewrite ?length_app, ?Hl; simpl; lia))
                |rewrite Hcp by (simpl; lia)];
          rewrite some_bind).
  do 2 f_equal. rewrite !ip_bytes by done. unfold arp_packet. by rewrite <- !app_assoc.
Qed.

(** The request for an address. *)
Lemma ArpRequest_frame s m our bcast :
  let tx := NetTxPacket (bufs s) in
  let n := NetEthHdrSize s in
  owned m tx 1536 →
  length our = 6%nat → Forall is_byte our → bytes_at m (NetOurEther (bufs s)) our →
  length bcast = 6%nat → Forall is_byte bcast → bytes_at m (NetBcastAddr (bufs s)) bcast →
  apart (tx, 1536) (NetOurEther (bufs s), 6) → apart (tx, 1536) (NetBcastAddr (bufs s), 6) →
  is_ip (NetOurIP (cfg s)) → is_ip (arp_target s) →
  ∃ frame m', ArpRequest s m =
      Some (set_link (eth_send (link s) frame) (set_NetArpWaitReplyIP (arp_target s) s), m') ∧
    changed tx (tx + 1536) m m' ∧
    drop (Z.to_nat n) frame =
      arp_packet ARPOP_REQUEST our (NetOurIP (cfg s)) (replicate 6 0) (arp_target s).
Proof.
  intros tx n Ho Hl Hlb Hlm Hb Hbb Hbm A1 A2 Hip Htip. unfold apart in A1, A2. cbn [fst snd] in A1, A2.
  unfold ArpRequest. fold tx.
  destruct (NetSetEther_at s m tx (NetBcastAddr (bufs s)) our bcast PROT_ARP) as (m1 & -> & C1);
    try done; try (unfold apart; cbn [fst snd]; lia).
  { eapply owned_mono; [exact Ho|lia|lia]. }
  rewrite some_bind. fold n. pose proof (NetEthHdrSize_range s) as Hn. fold n in Hn.
  assert (Ho1 : owned m1 (tx + n) 28).
  { eapply changed_owned; [exact C1|]. eapply owned_mono; [exact Ho|lia|lia]. }
  cbv zeta. rewrite (arp_stores m1 (tx + n) (NetOurEther (bufs s)) our); try done.
  2: { eapply changed_bytes; [exact C1|lia|done]. }
  2: { unfold apart. cbn [fst snd]. lia. }
  set (p := arp_packet _ _ _ _ _). set (m2 := write_bytes m1 (tx + n) p).
  assert (Hp : length p = 28%nat) by (unfold p, arp_packet; rewrite !length_app, Hl; done).
  assert (C2 : changed tx (tx + 1536) m m2).
  { eapply changed_trans; [eapply changed_mono; [exact C1|lia|lia]|]. apply changed_write; lia. }
  unfold send_frame. change ARP_HDR_SIZE with 28.
  destruct (owned_bytes m2 tx (n + 28)) as (frame & Hfl & Hfb).
  { eapply changed_owned; [exact C2|]. eapply owned_mono; [exact Ho|lia|lia]. }
  rewrite <- Hfl, (ld_bytes_at _ _ _ Hfb), !some_bind. do 2 eexists. split; [reflexivity|].
  split; [done|]. apply (bytes_at_inj m2 (tx + n)).
  - replace (tx + n) with (tx + Z.to_nat n) by lia. apply bytes_at_drop; [done|lia].
  - apply write_bytes_in.
  - rewrite length_drop. lia.
Qed.

(** A checksum over owned bytes is computed. *)
Lemma ld16_owned m a : owned m a 2 → ∃ v, ld16 m a = Some v.
Proof.
  intros Ho. destruct (owned_bytes m a 2 Ho) as ([|x [|y [|z l]]] & Hl & Hb); try discriminate.
  exists (be16 x y). by apply ld16_at.
Qed.

Lemma NetCksum_total m p len :
  0 ≤ len < 4294967296 → owned m p (2 * len) → ∃ v, NetCksum m p len = Some v.
Proof.
  intros Hlen Ho. unfold NetCksum.
  match goal with |- context [while ?f _] =>
    destruct (while_rule f (λ '(_, q, n), 0 ≤ n ∧ q = p + 2 * (len - n) ∧ n ≤ len) (λ '(_, _, n), n)
      (λ _, True) (0, p, len)) as (x & -> & _)
  end.
  - intros [[x q] n] (H1 & -> & H2). rewrite Z.gtb_ltb. destruct (Z.ltb_spec 0 n).
    + destruct (ld16_owned m (p + 2 * (len - n))) as [v ->].
      { eapply owned_mono; [exact Ho|lia|lia]. }
      rewrite some_bind. eexists. split; [reflexivity|]. cbv beta iota. lia.
    + by eexists.
  - lia.
  - lia.
  - rewrite some_bind. by eexists.
Qed.

(** The echo request is put into the waiting packet and the address asked
    for. *)
Lemma PingSend_spec s m our :
  let wait := NetArpWaitTxPacket (bufs s) in
  let mac := ping_mac (bufs s) in
  owned m wait 1536 → owned m mac 6 →
  bytes_at m (NetEtherNullAddr (bufs s)) (replicate 6 0) →
  length our = 6%nat → Forall is_byte our → bytes_at m (NetOurEther (bufs s)) our →
  apart (mac, 6) (NetEtherNullAddr (bufs s), 6) → apart (mac, 6) (NetOurEther (bufs s), 6) →
  apart (wait, 1536) (NetOurEther (bufs s), 6) → apart (wait, 1536) (mac, 6) →
  ∃ s1 m1, PingSend s m = start_arp s1 m1 ∧
    touches (inside [(mac, 6); (wait, 1536)]) m m1 ∧
    bufs s1 = bufs s ∧ cfg s1 = cfg s ∧ tmr s1 = tmr s ∧ link s1 = link s ∧
    NetState (loop s1) = NetState (loop s) ∧ packetHandler (loop s1) = packetHandler (loop s) ∧
    NetArpWaitPacketIP (arp s1) = NetPingIP (loop s).
Proof.
  intros wait mac Ho Hmac Hnull Hl Hlb Hlm A1 A2 A3 A4. unfold PingSend. fold wait mac.
  set (P := inside [(mac, 6); (wait, 1536)]).
  assert (P1 : ∀ j, mac ≤ j < mac + 6 → P j) by (intros j Hj; constructor; exact Hj).
  assert (P2 : ∀ j, wait ≤ j < wait + 1536 → P j) by (intros j Hj; right; constructor; exact Hj).
  pose proof (memcpy_bytes m mac (NetEtherNullAddr (bufs s)) (replicate 6 0)) as E0.
  change (Z.of_nat (length (replicate 6 0))) with 6 in E0.
  unfold apart in A1, A2, A3, A4. cbn [fst snd] in A1, A2, A3, A4.
  rewrite E0; [|apply Forall_replicate; unfold is_byte; lia|done|done|unfold fits; simpl; lia|lia]. clear E0.
  rewrite some_bind. set (m0 := write_bytes m mac (replicate 6 0)).
  assert (C0 : changed mac (mac + 6) m m0) by (apply changed_write; simpl; lia).
  cbv zeta. change (bufs (set_NetArpWaitPacketIP _ s)) with (bufs s). fold mac.
  set (s0 := set_NetArpWaitPacketMAC mac (set_NetArpWaitPacketIP (NetPingIP (loop s)) s)).
  change (NetArpWaitTxPacket (bufs s0)) with wait. change (ping_mac (bufs s0)) with mac.
  destruct (NetSetEther_at s0 m0 wait mac our (replicate 6 0) PROT_IP) as (m1 & -> & C1); try done;
    try (unfold apart; cbn [fst snd]; change (bufs s0) with (bufs s); lia).
  { eapply changed_owned; [exact C0|]. eapply owned_mono; [exact Ho|lia|lia]. }
  { eapply changed_bytes; [exact C0|change (bufs s0) with (bufs s); lia|done]. }
  { apply Forall_replicate. unfold is_byte. lia. }
  { apply write_bytes_in. }
  rewrite some_bind. cbv zeta. pose proof (NetEthHdrSize_range s0) as Hn. set (n := NetEthHdrSize s0) in *.
  assert (Ho1 : owned m1 wait 1536) by (eapply changed_owned; [exact C1|]; by eapply changed_owned).
  assert (Hst : ∀ m' a x, changed wait (wait + 1536) m1 m' → wait ≤ a < wait + 1536 →
    ∃ m'', st m' a x = Some m'' ∧ changed wait (wait + 1536) m1 m'').
  { intros m' a x C Ha. destruct (changed_st wait (wait + 1536) m' a x) as (m'' & E & _ & C'); [|done|].
    - eapply (owned_at _ wait 1536); [by eapply changed_owned|lia].
    - exists m''. split; [done|]. by eapply changed_trans. }
  assert (Hsts : ∀ m' a l, changed wait (wait + 1536) m1 m' → wait ≤ a → a + length l ≤ wait + 1536 →
    ∃ m'', st_bytes m' a l = Some m'' ∧ changed wait (wait + 1536) m1 m'').
  { intros m' a l C Ha1 Ha2. destruct (st_bytes_changed wait (wait + 1536) m' a l) as (m'' & E & C');
      [|done|done|].
    - eapply (owned_mono _ wait 1536); [by eapply changed_owned|lia|lia].
    - exists m''. split; [done|]. by eapply changed_trans. }
  assert (Hck : ∀ m' a k, changed wait (wait + 1536) m1 m' → 0 ≤ k → wait ≤ a → a + 2 * k ≤ wait + 1536 →
    ∃ v, NetCksum m' a k = Some v).
  { intros m' a k C Hk Ha1 Ha2. apply NetCksum_total; [lia|].
    eapply (owned_mono _ wait 1536); [by eapply changed_owned|lia|lia]. }
  pose proof (changed_refl wait (wait + 1536) m1) as C. unfold st16, NetWriteIP.
  change (IP_HDR_SIZE_NO_UDP / 2) with 10. change (8 / 2) with 4.
  repeat match goal with
  | C : changed wait (wait + 1536) m1 ?m' |- context [st ?m' ?a ?x ≫= _] =>
      let E := fresh in let D := fresh in
      destruct (Hst m' a x C ltac:(lia)) as (? & E & D); rewrite E, some_bind; clear C E
  | C : changed wait (wait + 1536) m1 ?m' |- context [st_bytes ?m' ?a ?l ≫= _] =>
      let E := fresh in let D := fresh in
      destruct (Hsts m' a l C ltac:(lia) ltac:(simpl; lia)) as (? & E & D); rewrite E, some_bind; clear C E
  | C : changed wait (wait + 1536) m1 ?m' |- context [NetCksum ?m' ?a ?k ≫= _] =>
      let E := fresh in
      destruct (Hck m' a k C ltac:(lia) ltac:(lia) ltac:(lia)) as (? & E); rewrite E, some_bind; clear E
  end.
  do 2 eexists. split; [reflexivity|]. split; [|done].
  eapply touches_trans; [eapply touches_changed; [exact C0|exact P1]|].
  eapply touches_trans; [eapply touches_changed; [exact C1|intros j Hj; apply P2; lia]|].
  eapply touches_changed; [eassumption|exact P2].
Qed.
End sending.

(** ** A link that keeps the frames it was given *)

#[global] Instance frame_log : Link (list (list Z)) := {
  eth_send w f := w ++ [f];
  get_timer w := 0;
  eth_halt w := w;
  eth_init w e m := Some (w, m, false);
  eth_try_another w e m first := Some (w, m, negb first)
}.

(** Buffers one after the other, an address and nothing received yet. *)
Definition sample_bufs : buffers :=
  {| NetOurEther := 0x1000; NetServerEther := 0x1008; NetBcastAddr := 0x1010;
     NetEtherNullAddr := 0x1018; ping_mac := 0x1020; NetTxPacket := 0x2000;
     NetArpWaitTxPacket := 0x3000; default_filename := 0x1028; lit_netretry := 0x1040;
     lit_fmt_d := 0x1050; lit_fmt_img := 0x1058; lit_9f020000 := 0x1068 |}.

Definition sample_net (our server : Z) : net (list (list Z)) :=
  {| bufs := sample_bufs;
     cfg := IpCfg our server 0xFFFFFF00 0 0xffff 0xffff;
     arp := ArpWait 0 0 NULL 0 0 0;
     tmr := Timer TimeNone 0 0;
     tftp := TftpSt 69 1024 0 0 0 0 0 1 0x1028;
     loop := LoopSt NETLOOP_CONTINUE RxTftp 0 0 0 0 0x80060000 0x1028 false false true 0;
     environ := ex_env;
     link := [] |}.

(** ** Properties *)

Section properties.
Context {W : Type} `{Link W}.
Implicit Types (s : net W) (m : mem).

(** C14: what [NetSetIP] writes in front of a payload is what the receiver
    takes: at a host with the destination address, [receive_ip] hands exactly
    the payload (its place and length) with the two ports to the packet
    handler; nothing but the header and the padding byte of an odd payload
    was written. *)
Theorem NetSetIP_delivered s s2 m ip dest dport sport len call :
  0 ≤ len ≤ 65507 → owned m ip (28 + len + 1) →
  0 ≤ NetOurIP (cfg s) < 4294967296 → 0 ≤ dest < 4294967296 →
  is_word dport → is_word sport → NetOurIP (cfg s2) = dest →
  ∃ m', NetSetIP s m ip dest dport sport len =
      Some (set_NetIPID (u32 (NetIPID (loop s) + 1)) s, m') ∧
    header_frame m m' ip len ∧
    receive_ip call s2 m' ip (28 + len) = call s2 m' (ip + 28) dport sport len.
Proof.
  intros Hlen Ho Hour Hdest Hd Hs Hip.
  destruct (NetSetIP_spec s m ip dest dport sport len Hlen Ho Hour Hdest) as (m' & E & Hb & Hf & _).
  exists m'. split; [exact E|]. split; [exact Hf|]. clear E Hf.
  destruct (ip_header_sum len (NetIPID (loop s)) _ dest Hlen Hour Hdest) as [Hsw Hsum].
  set (id := NetIPID (loop s)) in *. set (our := NetOurIP (cfg s)) in *.
  set (sum := ip_sum len id our dest) in *.
  rewrite (receive_ip_spec call s2 m' ip (28 + len)
    (ip_words len id our dest sum ++ udp_words dport sport len) eq_refl); [| |exact Hb].
  2: { apply Forall_app. split; [by apply ip_words_ok|]. unfold udp_words.
       repeat (apply Forall_cons_2; [unfold is_word in *; lia|]). apply Forall_nil_2. }
  replace (ip_accepted _ _ _) with true.
  - change (word_of _ 4) with 0xff11. change (0xff11 mod 256) with 17. cbn [Z.eqb Pos.eqb].
    change (word_of _ 12) with (8 + len). change IP_HDR_SIZE with 28.
    rewrite u32_small by lia. by replace (8 + len - 8) with len by lia.
  - symmetry. unfold ip_words, udp_words, ip_accepted. cbn [app].
    change (take 10 _) with (ip_words len id our dest sum). rewrite Hsum, Hip.
    replace (65536 * (dest / 65536) + dest mod 65536) with dest by (Z.div_mod_to_equations; lia).
    unfold IP_HDR_SIZE. rewrite !(proj2 (Z.leb_le _ (28 + len))) by lia.
    change (Z.land 0x4000 0x1fff =? 0) with true. change (0 =? 0) with true.
    by rewrite (Z.eqb_refl dest), orb_true_r.
Qed.

(** Without VLANs a frame of another type than 802 goes to the protocol. *)
Lemma NetReceive_plain call s m pkt len x y type :
  NetEthHdrSize s = 14 → 14 ≤ len → bytes_at m (pkt + 12) [x; y] → type = be16 x y →
  1514 ≤ type → type ≠ PROT_VLAN →
  NetReceive call s m pkt len =
    if type =? PROT_ARP then receive_arp s m pkt (pkt + 14) (len - 14)
    else if type =? PROT_RARP then receive_rarp call s m (pkt + 14) (len - 14)
    else if type =? PROT_IP then receive_ip call s m (pkt + 14) (len - 14)
    else Some (s, m).
Proof.
  intros Hvlan Hlen Hb -> H1 H2. unfold NetReceive. change ETHER_HDR_SIZE with 14.
  rewrite (proj2 (Z.ltb_ge len 14)) by lia. rewrite (ld16_at _ _ _ _ Hb), some_bind.
  rewrite (proj2 (Z.ltb_ge _ 1514)) by lia. rewrite (proj2 (Z.eqb_neq _ _) H2). cbn [negb].
  unfold NetEthHdrSize in Hvlan. destruct (Z.land _ VLAN_IDMASK =? VLAN_NONE); [done|discriminate].
Qed.

(** Of the frames of type IP exactly those with an acceptable header
    (version 4, not a fragment, a length inside the frame, a correct header
    checksum, our address or the broadcast address) reach the packet handler:
    an echo reply with the IP packet, a UDP packet with its payload, its ports
    and the length field of the UDP header less 8, which is not compared with
    the length of the frame. *)
Lemma NetReceive_ip_dispatch call s m pkt len hw :
  NetEthHdrSize s = 14 → 14 ≤ len → bytes_at m (pkt + 12) (word_bytes PROT_IP) →
  length hw = 14%nat → Forall is_word hw → bytes_at m (pkt + 14) (words_bytes hw) →
  NetReceive call s m pkt len =
    if ip_accepted (NetOurIP (cfg s)) (len - 14) hw then
      if word_of hw 4 mod 256 =? IPPROTO_ICMP then
        if word_of hw 10 / 256 =? ICMP_ECHO_REPLY then call s m (pkt + 14) 0 0 0
        else Some (s, m)
      else if word_of hw 4 mod 256 =? IPPROTO_UDP then
        call s m (pkt + 42) (word_of hw 11) (word_of hw 10) (u32 (word_of hw 12 - 8))
      else Some (s, m)
    else Some (s, m).
Proof.
  intros Hv Hl Ht Hlen Hw Hb. rewrite (NetReceive_plain call s m pkt len _ _ PROT_IP Hv Hl Ht) by done.
  change (PROT_IP =? PROT_ARP) with false. change (PROT_IP =? PROT_RARP) with false.
  change (PROT_IP =? PROT_IP) with true. cbv iota. rewrite (receive_ip_spec _ _ _ _ _ hw) by done.
  by replace (pkt + 14 + IP_HDR_SIZE) with (pkt + 42) by (unfold IP_HDR_SIZE; lia).
Qed.

Lemma NetReadIP_halves m a ip :
  is_ip ip → bytes_at m a (words_bytes [ip / 65536; ip mod 65536]) → NetReadIP m a = Some ip.
Proof.
  unfold is_ip. intros Hip Hb.
  rewrite (NetReadIP_words m a _ 0 (ip / 65536) (ip mod 65536) a Hb eq_refl eq_refl);
    [f_equal| | |]; unfold is_word; Z.div_mod_to_equations; lia.
Qed.

(** The fields of an ARP packet. *)
Lemma arp_fields m a op mac ip tmac tip :
  is_word op → is_ip ip → is_ip tip → length mac = 6%nat → length tmac = 6%nat →
  bytes_at m a (arp_packet op mac ip tmac tip) →
  ld16 m a = Some ARP_ETHER ∧ ld16 m (a + 2) = Some PROT_IP ∧ ld m (a + 4) = Some 6 ∧
  ld m (a + 5) = Some 4 ∧ ld16 m (a + 6) = Some op ∧ bytes_at m (a + 8) mac ∧
  NetReadIP m (a + 8 + 6) = Some ip ∧ NetReadIP m (a + 8 + 16) = Some tip.
Proof.
  intros Hop Hip Htip Hm Ht Hb. unfold arp_packet in Hb.
  apply bytes_at_app in Hb as [H0 Hb]. apply bytes_at_app in Hb as [H1 Hb].
  apply bytes_at_app in Hb as [H2 Hb]. apply bytes_at_app in Hb as [_ H3].
  rewrite Hm, ?Ht in *. change (length (words_bytes [_; _; _; _]) : Z) with 8 in *.
  change (length (words_bytes [_; _]) : Z) with 4 in *.
  repeat split.
  - by apply (ld16_word m a _ 0 _ _ H0 eq_refl); field.
  - by apply (ld16_word m a _ 1 _ _ H0 eq_refl); field.
  - by apply (ld_high m a _ 2 0x0604 _ H0 eq_refl); field.
  - by apply (ld_low m a _ 2 0x0604 _ H0 eq_refl); field.
  - by apply (ld16_word m a _ 3 _ _ H0 eq_refl); field.
  - exact H1.
  - by apply NetReadIP_halves.
  - apply NetReadIP_halves; [done|]. by replace (a + 8 + 16) with (a + 8 + 6%nat + 4 + 6%nat) by lia.
Qed.

(** C25: when the reply to the pending ARP request comes in, the hardware
    address is saved where the waiting sender wants it, the waiting packet
    leaves with that address as its destination and all its other bytes as
    they were, and nothing is pending any more; no other memory changes. *)
Theorem arp_reply_completes call s m pkt len mac tmac w :
  let a := arp s in let tx := NetArpWaitTxPacket (bufs s) in
  NetEthHdrSize s = 14 → 42 ≤ len → NetOurIP (cfg s) ≠ 0 → is_ip (NetOurIP (cfg s)) →
  is_ip (NetArpWaitReplyIP a) → NetArpWaitPacketIP a ≠ 0 → NetArpWaitPacketMAC a ≠ NULL →
  length mac = 6%nat → Forall is_byte mac → length tmac = 6%nat →
  bytes_at m (pkt + 12) (word_bytes PROT_ARP) →
  bytes_at m (pkt + 14)
    (arp_packet ARPOP_REPLY mac (NetArpWaitReplyIP a) tmac (NetOurIP (cfg s))) →
  bytes_at m tx w → 6 ≤ length w → NetArpWaitTxPacketSize a = length w →
  owned m (NetArpWaitPacketMAC a) 6 →
  NetArpWaitPacketMAC a + 6 ≤ pkt ∨ pkt + 42 ≤ NetArpWaitPacketMAC a →
  NetArpWaitPacketMAC a + 6 ≤ tx ∨ tx + length w ≤ NetArpWaitPacketMAC a →
  NetReceive call s m pkt len =
    Some (set_arp (ArpWait 0 (NetArpWaitReplyIP a) NULL 0 (NetArpWaitTimerStart a) (NetArpWaitTry a))
            (set_link (eth_send (link s) (mac ++ drop 6 w)) s),
          write_bytes (write_bytes m (NetArpWaitPacketMAC a) mac) tx mac).
Proof.
  intros a tx Hv Hlen Hour0 Hour Hrip Hwait Hnull Hm Hmb Htm Ht Hp Hw Hw6 Hsz Ho Hd1 Hd2.
  rewrite (NetReceive_plain call s m pkt len _ _ PROT_ARP Hv) by (done || lia).
  change (PROT_ARP =? PROT_ARP) with true. cbv iota. unfold receive_arp.
  change ARP_HDR_SIZE with 28. rewrite (proj2 (Z.ltb_ge (len - 14) 28)) by lia.
  destruct (arp_fields m (pkt + 14) ARPOP_REPLY mac _ tmac _ ltac:(done) Hrip Hour Hm Htm Hp)
    as (-> & -> & E4 & E5 & -> & Emac & Esrc & Etgt).
  rewrite !some_bind. rewrite !Z.eqb_refl. cbn [negb].
  rewrite (ld_bind _ _ 6), (ld_bind _ _ 4) by done. cbn [negb Z.eqb Pos.eqb].
  rewrite (proj2 (Z.eqb_neq _ _) Hour0), Etgt, some_bind, Z.eqb_refl. cbn [negb].
  change (ARPOP_REPLY =? ARPOP_REQUEST) with false. cbv iota.
  fold a. rewrite (proj2 (Z.eqb_neq _ _) Hwait), (proj2 (Z.eqb_neq _ _) Hnull). cbn [orb].
  rewrite Esrc, some_bind, Z.eqb_refl. fold tx. set (dst := NetArpWaitPacketMAC a) in *.
  pose proof (memcpy_bytes m dst (pkt + 14 + 8) mac Hmb Emac) as E1.
  rewrite Hm in E1. change (6%nat : Z) with 6 in E1.
  rewrite E1 by (done || (unfold fits; lia) || lia). rewrite some_bind.
  set (m1 := write_bytes m dst mac).
  pose proof (memcpy_bytes m1 tx dst mac Hmb (write_bytes_in _ _ _)) as E2.
  rewrite Hm in E2. change (6%nat : Z) with 6 in E2.
  assert (Hw1 : bytes_at m1 tx w) by (apply bytes_at_write_disjoint; [lia|done]).
  rewrite E2; [| |unfold fits; lia|lia].
  2: { eapply owned_mono; [apply (bytes_at_owned _ _ _ Hw1)|lia|lia]. }
  rewrite some_bind. unfold send_frame. set (m2 := write_bytes m1 tx mac). fold a. rewrite Hsz.
  assert (Hf : bytes_at m2 tx (mac ++ drop 6 w)).
  { apply bytes_at_app. split; [apply write_bytes_in|].
    apply bytes_at_write_disjoint; [lia|]. rewrite Hm. by apply bytes_at_drop; [|lia]. }
  replace (Z.to_nat (length w)) with (length (mac ++ drop 6 w))
    by (rewrite length_app, length_drop; lia).
  by rewrite (ld_bytes_at _ _ _ Hf).
Qed.
End properties.

(** The memory of [sample_bufs]: our address, the server's, the broadcast and
    the null address, the transmit buffer and [size] bytes to load into. *)
Definition sample_mac : list Z := [2; 0; 0; 0; 0; 66].
Definition sample_arrays : list Z :=
  [2; 0; 0; 0; 0; 1; 0; 0] ++ sample_mac ++ [0; 0] ++ replicate 6 255 ++ [0; 0] ++ replicate 6 0.

Definition sample_mem (size : nat) : mem :=
  write_bytes (write_bytes (mem_of 0x1000 sample_arrays) 0x2000 (replicate (Z.to_nat 1536) 0))
    0x80060000 (replicate size 0).

Section sample.

Lemma sample_array (size i n : nat) :
  (i + n ≤ 30)%nat →
  bytes_at (sample_mem size) (0x1000 + i) (take n (drop i sample_arrays)).
Proof.
  intros Hi. unfold sample_mem.
  assert (Hlen : (length (take n (drop i sample_arrays)) ≤ 30)%nat).
  { rewrite length_take, length_drop. change (length sample_arrays) with 30%nat. lia. }
  apply bytes_at_write_disjoint; [lia|]. apply bytes_at_write_disjoint; [lia|].
  apply bytes_at_slice; [apply write_bytes_in|]. change (length sample_arrays) with 30%nat. lia.
Qed.

Lemma sample_tx (size : nat) : owned (sample_mem size) 0x2000 1536.
Proof.
  unfold sample_mem. apply owned_write.
  pose proof (bytes_at_owned _ _ _ (write_bytes_in (mem_of 0x1000 sample_arrays) 0x2000
    (replicate (Z.to_nat 1536) 0))) as Ho.
  rewrite length_replicate, Z2Nat.id in Ho by lia. exact Ho.
Qed.

Lemma sample_load (size : nat) : owned (sample_mem size) 0x80060000 size.
Proof.
  unfold sample_mem. set (m := write_bytes (mem_of _ _) _ _).
  pose proof (bytes_at_owned _ _ _ (write_bytes_in m 0x80060000 (replicate size 0))) as Ho.
  by rewrite length_replicate in Ho.
Qed.

Lemma sample_ready {W} (s : net W) (size : nat) :
  bufs s = sample_bufs → 0 ≤ NetOurIP (cfg s) < 4294967296 →
  tx_ready s (sample_mem size) 0x1008 sample_mac.
Proof.
  intros Hb Hour. split; rewrite ?Hb; [apply sample_tx| | |apply (sample_array size 24 6); lia|discriminate|done].
  - exists [2; 0; 0; 0; 0; 1]. split; [done|]. split; [repeat constructor; lia|].
    split; [apply (sample_array size 0 6); lia|simpl; lia].
  - split; [done|]. split; [repeat constructor; lia|].
    split; [apply (sample_array size 8 6); lia|simpl; lia].
Qed.
End sample.

(** ** The properties at concrete inputs *)

Definition our_ip : Z := 0xC0A80002.
Definition server_ip : Z := 0xC0A80001.

Lemma NetSetIP_delivered_witness :
  let call := λ (s : net (list (list Z))) (m : mem) p d sr l, Some (set_TftpServerPort sr s, m) in
  ∃ m', NetSetIP (sample_net our_ip server_ip) (sample_mem 0) 0x200E server_ip 69 1024 5 =
      Some (set_NetIPID 1 (sample_net our_ip server_ip), m') ∧
    header_frame (sample_mem 0) m' 0x200E 5 ∧
    receive_ip call (sample_net server_ip our_ip) m' 0x200E 33 =
      Some (set_TftpServerPort 1024 (sample_net server_ip our_ip), m').
Proof.
  intros call. apply (NetSetIP_delivered (sample_net our_ip server_ip)
    (sample_net server_ip our_ip) (sample_mem 0) 0x200E server_ip 69 1024 5 call).
  - lia.
  - eapply owned_mono; [exact (sample_tx 0)|lia|lia].
  - unfold our_ip. simpl. lia.
  - unfold server_ip. lia.
  - unfold is_word. lia.
  - unfold is_word. lia.
  - reflexivity.
Defined.

Definition sample_header : list Z :=
  ip_words 4 7 server_ip our_ip (ip_sum 4 7 server_ip our_ip) ++ udp_words 1024 69 4.

Lemma arp_reply_completes_witness :
  let a := ArpWait server_ip server_ip 0x1008 46 0 1 in
  let s := set_arp a (sample_net our_ip server_ip) in
  let w := replicate 46 7 in
  let m := write_bytes (write_bytes (sample_mem 0) 0x3000 w) 0x4000
    (replicate 12 0 ++ word_bytes PROT_ARP ++
     arp_packet ARPOP_REPLY [2; 0; 0; 0; 0; 9] server_ip [2; 0; 0; 0; 0; 1] our_ip) in
  NetReceive (λ s m p d sr l, None) s m 0x4000 60 =
    Some (set_arp (ArpWait 0 server_ip NULL 0 0 1) (set_link [[2; 0; 0; 0; 0; 9] ++ replicate 40 7] s),
          write_bytes (write_bytes m 0x1008 [2; 0; 0; 0; 0; 9]) 0x3000 [2; 0; 0; 0; 0; 9]).
Proof.
  intros a s w m.
  pose proof (write_bytes_in (write_bytes (sample_mem 0) 0x3000 w) 0x4000
    (replicate 12 0 ++ word_bytes PROT_ARP ++
     arp_packet ARPOP_REPLY [2; 0; 0; 0; 0; 9] server_ip [2; 0; 0; 0; 0; 1] our_ip)) as Hb.
  fold m in Hb.
  assert (Hw : bytes_at m 0x3000 w).
  { unfold m. apply bytes_at_write_disjoint; [left; vm_compute; discriminate|apply write_bytes_in]. }
  assert (Ho : owned m 0x1008 6).
  { unfold m. do 2 apply owned_write. apply (bytes_at_owned _ _ sample_mac).
    apply (sample_array 0 8 6). lia. }
  clearbody m. apply bytes_at_app in Hb as [_ Hb]. apply bytes_at_app in Hb as [Ht Hb].
  unfold our_ip, server_ip in *.
  rewrite (arp_reply_completes (λ s m p d sr l, None) s m 0x4000 60 [2; 0; 0; 0; 0; 9]
    [2; 0; 0; 0; 0; 1] w); [reflexivity|reflexivity|lia|discriminate|cbn; unfold is_ip; lia
    |cbn; unfold is_ip; lia|discriminate|discriminate|reflexivity| |reflexivity|exact Ht|exact Hb
    |exact Hw|simpl; lia|reflexivity|exact Ho|cbn; lia|cbn; lia].
  repeat (apply Forall_cons_2; [unfold is_byte; lia|]). apply Forall_nil_2.
Defined.
