(* ===== verification/Tftp.v ===== *)
(** * The TFTP client ([net/tftp.c])

    Requests, acknowledgements, the storing of data blocks and the handler of
    received packets, over the network core of [Net]. *)

From S2P Require Import Prelude.
From S2P Require Import Timer.
From S2P Require Import CString.
From S2P Require Import Vsprintf.
From S2P Require Import NetAddr.
From S2P Require Import Env.
From S2P Require Import Net.

Definition WELL_KNOWN_PORT : Z := 69.
Definition TIMEOUT : Z := 2.
Definition TIMEOUT_COUNT : Z := 3.
Definition TFTP_RRQ : Z := 1.
Definition TFTP_DATA : Z := 3.
Definition TFTP_ACK : Z := 4.
Definition TFTP_ERROR : Z := 5.
Definition TFTP_OACK : Z := 6.
Definition STATE_RRQ : Z := 1.
Definition STATE_DATA : Z := 2.
Definition STATE_TOO_LARGE : Z := 3.
Definition STATE_BAD_MAGIC : Z := 4.
Definition STATE_OACK : Z := 5.
Definition TFTP_BLOCK_SIZE : Z := 512.
Definition TFTP_SEQUENCE_SIZE : Z := 65536.

(** [strcpy] of a literal. *)
Definition strcpy_lit (m : mem) (dest : Z) (l : list Z) : option mem := st_bytes m dest (l ++ [0]).

Section tftp.
Context {W : Type} `{Link W}.
Implicit Types (s : net W) (m : mem).

Definition store_block s m (block src len : Z) : option (net W * mem) :=
  let offset := u32 (block * TFTP_BLOCK_SIZE + TftpBlockWrapOffset (tftp s)) in
  let newsize := u32 (offset + len) in
  m ← memcpy m (u32 (load_addr (loop s) + offset)) src len;
  Some (if NetBootFileXferSize (loop s) <? newsize then set_NetBootFileXferSize newsize s else s, m).

(** The packet of the current state at [pkt]: memory and length. *)
Definition tftp_packet s m (pkt : Z) : option (mem * Z) :=
  let state := TftpState (tftp s) in
  if state =? STATE_RRQ then
    m ← st16 m pkt TFTP_RRQ;
    let p := pkt + 2 in
    m ← strcpy m p (tftp_filename (tftp s));
    n ← strlen m (tftp_filename (tftp s));
    let p := p + n + 1 in
    m ← strcpy_lit m p (lit "octet");
    let p := p + 5 + 1 in
    m ← strcpy_lit m p (lit "timeout");
    let p := p + 7 + 1 in
    '(m, _) ← sprintf m p (lit_fmt_d (bufs s)) [TIMEOUT];
    n ← strlen m p;
    let p := p + n + 1 in
    Some (m, p - pkt)
  else if (state =? STATE_DATA) || (state =? STATE_OACK) then
    m ← st16 m pkt TFTP_ACK;
    m ← st16 m (pkt + 2) (TftpBlock (tftp s));
    Some (m, 4)
  else if state =? STATE_TOO_LARGE then
    m ← st16 m pkt TFTP_ERROR;
    m ← st16 m (pkt + 2) 3;
    m ← strcpy_lit m (pkt + 4) (lit "File too large");
    Some (m, 4 + 14 + 1)
  else if state =? STATE_BAD_MAGIC then
    m ← st16 m pkt TFTP_ERROR;
    m ← st16 m (pkt + 2) 2;
    m ← strcpy_lit m (pkt + 4) (lit "File has bad magic");
    Some (m, 4 + 18 + 1)
  else Some (m, 0).

Definition TftpSend s m : option (net W * mem) :=
  let pkt := NetTxPacket (bufs s) + NetEthHdrSize s + IP_HDR_SIZE in
  '(m, len) ← tftp_packet s m pkt;
  '(s, m, _) ← NetSendUDPPacket s m (NetServerEther (bufs s)) (NetServerIP (cfg s))
                 (TftpServerPort (tftp s)) (TftpOurPort (tftp s)) len;
  Some (s, m).

(** The end of the data case: a block that is not the last one again is
    stored and acknowledged; a short one completes the transfer. *)
Definition tftp_accept s m (pkt len : Z) : option (net W * mem) :=
  if TftpBlock (tftp s) =? TftpLastBlock (tftp s) then Some (s, m) else
  let s := set_TftpLastBlock (TftpBlock (tftp s)) s in
  let s := NetSetTimeout s (u32 (TIMEOUT * CFG_HZ)) TimeTftp in
  let s := if negb (TftpTimeoutCount (tftp s) =? 0) then set_TftpTimeoutCount 0 s else s in
  '(s, m) ← store_block s m (u32 (TftpBlock (tftp s) - 1)) (pkt + 2) len;
  '(s, m) ← TftpSend s m;
  Some (if len <? TFTP_BLOCK_SIZE then set_NetState NETLOOP_SUCCESS s else s, m).

(** A data packet: [pkt] is behind the opcode, [len] counts from there. *)
Definition tftp_data s m (pkt src len : Z) : option (net W * mem) :=
  if len <? 2 then Some (s, m) else
  let len := len - 2 in
  block ← ld16 m pkt;
  let s := set_TftpBlock block s in
  let s :=
    if TftpBlock (tftp s) =? 0 then
      let s := set_TftpBlockWrap (u32 (TftpBlockWrap (tftp s) + 1)) s in
      set_TftpBlockWrapOffset
        (u32 (TftpBlockWrapOffset (tftp s) + TFTP_BLOCK_SIZE * TFTP_SEQUENCE_SIZE)) s
    else s in
  '(s, m, restarted) ← (
    if (TftpState (tftp s) =? STATE_RRQ) || (TftpState (tftp s) =? STATE_OACK) then
      let s := set_TftpState STATE_DATA s in
      let s := set_TftpServerPort src s in
      let s := set_TftpLastBlock 0 s in
      let s := set_TftpBlockWrap 0 s in
      let s := set_TftpBlockWrapOffset 0 s in
      if negb (TftpBlock (tftp s) =? 1) then '(s, m) ← NetStartAgain s m; Some (s, m, true)
      else Some (s, m, false)
    else Some (s, m, false));
  if restarted : bool then Some (s, m) else tftp_accept s m pkt len.

Definition TftpHandler s m (pkt dest src len : Z) : option (net W * mem) :=
  if negb (dest =? TftpOurPort (tftp s)) then Some (s, m) else
  if negb (TftpState (tftp s) =? STATE_RRQ) && negb (src =? TftpServerPort (tftp s))
  then Some (s, m) else
  if len <? 2 then Some (s, m) else
  let len := len - 2 in
  proto ← ld16 m pkt;
  let pkt := pkt + 2 in
  if proto =? TFTP_OACK then
    let s := set_TftpState STATE_OACK s in
    let s := set_TftpServerPort src s in
    TftpSend s m
  else if proto =? TFTP_DATA then tftp_data s m pkt src len
  else if proto =? TFTP_ERROR then NetStartAgain s m
  else Some (s, m).

(** [do_bootm] is the boot command, run when the recovery gives up. *)
Definition TftpTimeout (do_bootm : net W → mem → option (net W * mem)) s m
    : option (net W * mem) :=
  let s := set_TftpTimeoutCount (TftpTimeoutCount (tftp s) + 1) s in
  if TftpTimeoutCount (tftp s) >? TIMEOUT_COUNT then
    '(s, m) ← (
      if negb (fw_recovery (loop s) =? 0) then
        '(a, _) ← simple_strtoul m (lit_9f020000 (bufs s)) 16;
        do_bootm (set_load_addr a s) m
      else Some (s, m));
    NetStartAgain s m
  else
    let s := NetSetTimeout s (u32 (TIMEOUT * CFG_HZ)) TimeTftp in
    TftpSend s m.

Definition TftpStart s m : option (net W * mem) :=
  c ← ld m (BootFile (loop s));
  '(s, m) ← (
    if c =? 0 then
      let ip := NetOurIP (cfg s) in
      '(m, _) ← sprintf m (default_filename (bufs s)) (lit_fmt_img (bufs s))
        [Z.land ip 0xFF; Z.land (Z.shiftr ip 8) 0xFF; Z.land (Z.shiftr ip 16) 0xFF;
         Z.land (Z.shiftr ip 24) 0xFF];
      Some (set_tftp_filename (default_filename (bufs s)) s, m)
    else Some (set_tftp_filename (BootFile (loop s)) s, m));
  let s := NetSetTimeout s (u32 (TIMEOUT * CFG_HZ)) TimeTftp in
  let s := NetSetHandler s RxTftp in
  let s := set_TftpServerPort WELL_KNOWN_PORT s in
  let s := set_TftpTimeoutCount 0 s in
  let s := set_TftpState STATE_RRQ s in
  let s := set_TftpOurPort (1024 + get_timer (link s) mod 3072) s in
  let s := set_TftpBlock 0 s in
  m ← memset m (NetServerEther (bufs s)) 0 6;
  TftpSend s m.

(** *** The current handlers *)

Definition call_packetHandler s m (pkt dest src len : Z) : option (net W * mem) :=
  match packetHandler (loop s) with
  | RxNone => None
  | RxTftp => TftpHandler s m pkt dest src len
  | RxPing => s ← PingHandler s m pkt; Some (s, m)
  | RxStartAgain => Some (s, m)
  end.

Definition call_timeHandler (do_bootm : net W → mem → option (net W * mem)) s m
    : option (net W * mem) :=
  let x := timeHandler (tmr s) in
  let s := set_timeHandler TimeNone s in
  match x with
  | TimeNone => Some (s, m)
  | TimeTftp => TftpTimeout do_bootm s m
  | TimePing => Some (PingTimeout s, m)
  | TimeStartAgain => Some (startAgainTimeout s, m)
  end.

(** One round of the reception loop of [NetLoop] for the packets [rx] the
    driver hands to [NetReceive]; [Some r] is a return or a restart. *)
Inductive round_result := Continue | Restart | Abort_ | Success | Failed.

Fixpoint eth_rx s m (rx : list (Z * Z)) : option (net W * mem) :=
  match rx with
  | [] => Some (s, m)
  | (pkt, len) :: rx =>
      '(s, m) ← NetReceive call_packetHandler s m pkt len; eth_rx s m rx
  end.

Definition NetLoop_round (do_bootm : net W → mem → option (net W * mem)) s m
    (rx : list (Z * Z)) (ctrlc : bool) : option (net W * mem * round_result) :=
  '(s, m) ← eth_rx s m rx;
  if ctrlc then Some (set_link (eth_halt (link s)) s, m, Abort_) else
  '(s, m) ← ArpTimeoutCheck s m;
  '(s, m) ← (
    match timeHandler (tmr s) with
    | TimeNone => Some (s, m)
    | _ =>
        if u32 (get_timer (link s) - timeStart (tmr s)) >? timeDelta (tmr s)
        then call_timeHandler do_bootm s m else Some (s, m)
    end);
  Some (s, m,
    if NetState (loop s) =? NETLOOP_RESTART then Restart
    else if NetState (loop s) =? NETLOOP_SUCCESS then Success
    else if NetState (loop s) =? NETLOOP_FAIL then Failed else Continue).
End tftp.

(** ** One data packet *)

(** The packet of block number [block]. *)
Definition data_packet (block : Z) (data : list Z) : list Z := word_bytes TFTP_DATA ++ word_bytes block ++ data.

(** The receive buffer at [rx] gets the packet, and the handler is called. *)
Definition deliver {W} `{Link W} (s : net W) (m : mem) (rx port src : Z) (p : list Z)
    : option (net W * mem) :=
  TftpHandler s (write_bytes m rx p) rx port src (length p).

(** What stays the same between data packets. *)
Definition same_env {W} (s s' : net W) : Prop :=
  bufs s' = bufs s ∧ cfg s' = cfg s ∧ load_addr (loop s') = load_addr (loop s) ∧
  packetHandler (loop s') = packetHandler (loop s) ∧ fw_recovery (loop s') = fw_recovery (loop s) ∧
  arp s' = arp s.

(** The places of the transfer: the transmit buffer, the receive buffer and
    the load area of [size] bytes are apart from each other. *)
Record placed {W} (s : net W) (m : mem) (rx size : Z) (mac : list Z) : Prop := Placed {
  pl_tx : tx_ready s m (NetServerEther (bufs s)) mac;
  pl_server : 0 < NetServerIP (cfg s) < 0xFFFFFFFF;
  pl_load : owned m (load_addr (loop s)) size;
  pl_range : 512 ≤ load_addr (loop s) ∧ load_addr (loop s) + size < 4294967296;
  pl_rx_tx : rx + 1536 ≤ NetTxPacket (bufs s) ∨ NetTxPacket (bufs s) + 1536 ≤ rx;
  pl_rx_load : rx + 1536 ≤ load_addr (loop s) ∨ load_addr (loop s) + size ≤ rx;
  pl_tx_load : NetTxPacket (bufs s) + 1536 ≤ load_addr (loop s) ∨
    load_addr (loop s) + size ≤ NetTxPacket (bufs s);
  pl_arrays : Forall (λ a, (a + 6 ≤ rx ∨ rx + 1536 ≤ a) ∧
      (a + 6 ≤ load_addr (loop s) ∨ load_addr (loop s) + size ≤ a) ∧
      (a + 6 ≤ NetTxPacket (bufs s) ∨ NetTxPacket (bufs s) + 1536 ≤ a))
    [NetOurEther (bufs s); NetServerEther (bufs s); NetEtherNullAddr (bufs s)]
}.

Section data.
Context {W : Type} `{Link W}.
Implicit Types (s : net W) (m : mem).

Lemma same_env_refl s : same_env s s.
Proof. done. Qed.

Lemma same_env_trans s1 s2 s3 : same_env s1 s2 → same_env s2 s3 → same_env s1 s3.
Proof. unfold same_env. intuition congruence. Qed.

(** A change that keeps away from the arrays keeps the places. *)
Lemma placed_changed s s' m m' rx size mac lo hi :
  placed s m rx size mac → same_env s s' → changed lo hi m m' →
  Forall (λ a, a + 6 ≤ lo ∨ hi ≤ a)
    [NetOurEther (bufs s); NetServerEther (bufs s); NetEtherNullAddr (bufs s)] →
  placed s' m' rx size mac.
Proof.
  intros [Htx Hs Hl Hr H1 H2 H3 Ha] (Eb & Ec & El & _) Hc Hd.
  rewrite !Forall_cons_iff in Hd. destruct Hd as (D1 & D2 & D3 & _).
  destruct Htx as [T1 (l & T2 & T3 & T4 & T5) (T6 & T7 & T8 & T9) T10 T11 T12].
  split; rewrite ?Eb, ?Ec, ?El; try done.
  - split; rewrite ?Eb, ?Ec; try done.
    + by eapply changed_owned.
    + exists l. split; [done|]. split; [done|]. split; [|done].
      eapply changed_bytes; [done|lia|done].
    + split; [done|]. split; [done|]. split; [|done].
      eapply changed_bytes; [done|lia|done].
    + eapply changed_bytes; [done|simpl; lia|done].
  - by eapply changed_owned.
Qed.

(** The acknowledgement. *)
Definition ack_packet (b : Z) : list Z := word_bytes TFTP_ACK ++ word_bytes b.

Lemma TftpSend_ack s m rx size mac :
  placed s m rx size mac → TftpState (tftp s) = STATE_DATA →
  ∃ frame m', TftpSend s m =
      Some (set_link (eth_send (link s) frame) (set_NetIPID (u32 (NetIPID (loop s) + 1)) s), m') ∧
    changed (NetTxPacket (bufs s)) (NetTxPacket (bufs s) + 1536) m m' ∧
    drop (Z.to_nat (NetEthHdrSize s + 28)) frame = ack_packet (TftpBlock (tftp s)).
Proof.
  intros Hp Hst. pose proof (pl_tx _ _ _ _ _ Hp) as Htx. pose proof (tx_area _ _ _ _ Htx) as Ha.
  set (tx := NetTxPacket (bufs s)) in *. unfold TftpSend, tftp_packet. rewrite Hst. fold tx.
  pose proof (NetEthHdrSize_range s) as Hh. set (n := NetEthHdrSize s) in *.
  change (STATE_DATA =? STATE_RRQ) with false. change ((STATE_DATA =? STATE_DATA) || (STATE_DATA =? STATE_OACK)) with true.
  cbv iota. unfold st16. change IP_HDR_SIZE with 28. set (b := TftpBlock (tftp s)) in *.
  assert (Ho : owned m (tx + n + 28) 4) by (eapply owned_mono; [exact Ha|lia|lia]).
  rewrite st_bytes_write by (eapply owned_mono; [exact Ho|lia|simpl; lia]). rewrite some_bind.
  rewrite st_bytes_write by (apply owned_write; eapply owned_mono; [exact Ho|lia|simpl; lia]).
  rewrite !some_bind.
  set (m2 := write_bytes _ (tx + n + 28 + 2) _).
  assert (E2 : m2 = write_bytes m (tx + n + 28) (ack_packet b))
    by (unfold ack_packet; by rewrite write_bytes_app).
  clearbody m2. subst m2. set (m2 := write_bytes m (tx + n + 28) _).
  assert (C12 : changed tx (tx + 1536) m m2) by (apply changed_write; simpl; lia).
  assert (Hp2 : placed s m2 rx size mac).
  { eapply placed_changed; [exact Hp|apply same_env_refl|exact C12|].
    eapply Forall_impl; [|exact (pl_arrays _ _ _ _ _ Hp)]. intros a (_ & _ & ?). fold tx in H0. lia. }
  destruct (NetSendUDPPacket_frame s m2 (NetServerEther (bufs s)) mac (NetServerIP (cfg s))
    (TftpServerPort (tftp s)) (TftpOurPort (tftp s)) (ack_packet b)) as (m3 & w & E3 & C3 & Hf);
    [apply Hp2|apply Hp|simpl; lia|apply write_bytes_in|].
  change (Z.of_nat (length (ack_packet b))) with 4 in E3. rewrite E3.
  rewrite some_bind. exists w, m3. split; [done|]. split; [|done]. by eapply changed_trans.
Qed.

(** Where the current block goes. *)
Definition block_offset s : Z :=
  u32 (u32 (TftpBlock (tftp s) - 1) * TFTP_BLOCK_SIZE + TftpBlockWrapOffset (tftp s)).

(** The result of accepting the block [data]. *)
Record accepted s s' m m' (data : list Z) : Prop := Accepted {
  ac_env : same_env s s';
  ac_tftp : TftpState (tftp s') = STATE_DATA ∧
    TftpServerPort (tftp s') = TftpServerPort (tftp s) ∧
    TftpOurPort (tftp s') = TftpOurPort (tftp s) ∧
    TftpLastBlock (tftp s') = TftpBlock (tftp s) ∧
    TftpBlockWrapOffset (tftp s') = TftpBlockWrapOffset (tftp s);
  ac_size : NetBootFileXferSize (loop s') =
    Z.max (NetBootFileXferSize (loop s)) (block_offset s + length data);
  ac_state : NetState (loop s') =
    if decide (length data < 512) then NETLOOP_SUCCESS else NetState (loop s);
  ac_mem : changed (NetTxPacket (bufs s)) (NetTxPacket (bufs s) + 1536)
    (write_bytes m (load_addr (loop s) + block_offset s) data) m';
  ac_link : ∃ frame, link s' = eth_send (link s) frame ∧
    drop (Z.to_nat (NetEthHdrSize s + 28)) frame = ack_packet (TftpBlock (tftp s));
  ac_wait : TftpBlock (tftp s') = TftpBlock (tftp s) ∧ TftpTimeoutCount (tftp s') = 0 ∧
    tmr s' = tmr (NetSetTimeout s (u32 (TIMEOUT * CFG_HZ)) TimeTftp)
}.

Lemma NetSetTimeout_last s b iv f :
  NetSetTimeout (set_TftpLastBlock b s) iv f = set_TftpLastBlock b (NetSetTimeout s iv f).
Proof. unfold NetSetTimeout. by destruct (iv =? 0). Qed.

Lemma NetSetTimeout_keeps s iv f :
  bufs (NetSetTimeout s iv f) = bufs s ∧ cfg (NetSetTimeout s iv f) = cfg s ∧
  loop (NetSetTimeout s iv f) = loop s ∧ tftp (NetSetTimeout s iv f) = tftp s ∧
  link (NetSetTimeout s iv f) = link s ∧ arp (NetSetTimeout s iv f) = arp s.
Proof. unfold NetSetTimeout. by destruct (iv =? 0). Qed.

Lemma tftp_accept_spec s m rx size mac pkt data :
  placed s m rx size mac → TftpState (tftp s) = STATE_DATA →
  TftpBlock (tftp s) ≠ TftpLastBlock (tftp s) →
  rx ≤ pkt → pkt + 2 + length data ≤ rx + 1536 →
  bytes_at m (pkt + 2) data → Forall is_byte data →
  block_offset s + length data ≤ size →
  ∃ s' m', tftp_accept s m pkt (length data) = Some (s', m') ∧ accepted s s' m m' data.
Proof.
  intros Hp Hst Hne Hpk1 Hpk2 Hb Hby Hoff. unfold tftp_accept.
  rewrite (proj2 (Z.eqb_neq _ _)) by done.
  set (s1 := set_TftpLastBlock (TftpBlock (tftp s)) s).
  set (s2 := NetSetTimeout s1 _ TimeTftp).
  set (s3 := if negb (TftpTimeoutCount (tftp s2) =? 0) then set_TftpTimeoutCount 0 s2 else s2).
  assert (E3 : same_env s s3 ∧ loop s3 = loop s ∧ TftpState (tftp s3) = STATE_DATA ∧
    TftpBlock (tftp s3) = TftpBlock (tftp s) ∧ TftpServerPort (tftp s3) = TftpServerPort (tftp s) ∧
    TftpOurPort (tftp s3) = TftpOurPort (tftp s) ∧ TftpLastBlock (tftp s3) = TftpBlock (tftp s) ∧
    TftpBlockWrapOffset (tftp s3) = TftpBlockWrapOffset (tftp s) ∧
    link s3 = link s ∧ TftpTimeoutCount (tftp s3) = 0 ∧
    tmr s3 = tmr (NetSetTimeout s (u32 (TIMEOUT * CFG_HZ)) TimeTftp)).
  { unfold s3. assert (E2 : s2 = set_TftpLastBlock (TftpBlock (tftp s))
      (NetSetTimeout s (u32 (TIMEOUT * CFG_HZ)) TimeTftp))
      by exact (NetSetTimeout_last s _ _ _).
    rewrite E2. destruct (NetSetTimeout_keeps s (u32 (TIMEOUT * CFG_HZ)) TimeTftp)
      as (B1 & B2 & B3 & B4 & B5 & B6).
    revert B1 B2 B3 B4 B5 B6. generalize (NetSetTimeout s (u32 (TIMEOUT * CFG_HZ)) TimeTftp).
    clear - Hst. intros s0 B1 B2 B3 B4 B5 B6. unfold same_env. rewrite <- B1, <- B2, <- B3, <- B4, <- B5, <- B6.
    rewrite <- B4 in Hst.
    destruct (TftpTimeoutCount (tftp (set_TftpLastBlock (TftpBlock (tftp s0)) s0)) =? 0) eqn:Ec;
      repeat split; try exact Hst. by apply Z.eqb_eq in Ec. }
  clearbody s3. destruct E3 as (Ee & El & Es & Eb & Ep & Eo & Ela & Ew & Elk & Ect & Etm).
  unfold store_block. rewrite Eb, Ew. fold (block_offset s). rewrite El.
  pose proof (pl_range _ _ _ _ _ Hp) as Hrange.
  assert (Hoff0 : 0 ≤ block_offset s) by apply (Z.mod_pos_bound _ 4294967296 eq_refl).
  rewrite (u32_small (block_offset s + length data)) by lia.
  rewrite (u32_small (load_addr (loop s) + block_offset s)) by lia.
  set (base := load_addr (loop s)) in *. set (off := block_offset s) in *.
  rewrite (memcpy_bytes m (base + off) (pkt + 2) data); [|done|done| |unfold fits; lia|].
  2: { eapply owned_mono; [exact (pl_load _ _ _ _ _ Hp)|fold base; lia|fold base; lia]. }
  2: { pose proof (pl_rx_load _ _ _ _ _ Hp). fold base in H0. lia. }
  rewrite !some_bind. set (m1 := write_bytes m (base + off) data).
  set (s4 := if NetBootFileXferSize (loop s) <? off + length data then _ else s3).
  assert (E4 : same_env s3 s4 ∧ tftp s4 = tftp s3 ∧ link s4 = link s3 ∧ tmr s4 = tmr s3 ∧
    NetState (loop s4) = NetState (loop s) ∧ NetBootFileXferSize (loop s4) = Z.max (NetBootFileXferSize (loop s)) (off + length data)).
  { unfold s4. destruct (Z.ltb_spec (NetBootFileXferSize (loop s)) (off + length data)).
    - repeat split; [simpl; by rewrite El|simpl; lia].
    - rewrite El. repeat split; lia. }
  clearbody s4. destruct E4 as (Ee4 & Et4 & Elk4 & Etm4 & En4 & Ex4).
  pose proof (same_env_trans _ _ _ Ee Ee4) as Ee'.
  assert (Hp4 : placed s4 m1 rx size mac).
  { eapply (placed_changed s s4 m m1 rx size mac (base + off) (base + off + length data));
      [exact Hp|exact Ee'|apply changed_write; lia|].
    eapply Forall_impl; [|exact (pl_arrays _ _ _ _ _ Hp)]. intros a (_ & ? & _). fold base in H0. lia. }
  destruct (TftpSend_ack s4 m1 rx size mac Hp4) as (w & m2 & -> & C2 & Hack); [by rewrite Et4|].
  rewrite some_bind. do 2 eexists. split; [reflexivity|].
  assert (Etx : NetTxPacket (bufs s4) = NetTxPacket (bufs s)) by (by destruct Ee' as [-> _]).
  rewrite Etx in C2. split.
  - eapply same_env_trans; [exact Ee'|]. by destruct (_ <? _).
  - destruct (_ <? _); cbn [tftp set_NetState set_loop set_link set_NetIPID]; rewrite Et4; done.
  - destruct (_ <? _); cbn; done.
  - change TFTP_BLOCK_SIZE with 512. destruct (Z.ltb_spec (length data) 512);
      [rewrite decide_True by lia|rewrite decide_False by lia]; [done|exact En4].
  - exact C2.
  - exists w. rewrite <- Eb, <- Et4, <- Hack. unfold NetEthHdrSize.
    destruct Ee' as (_ & -> & _). rewrite <- Elk, <- Elk4. by destruct (_ <? _).
  - rewrite <- Eb, <- Ect, <- Etm, <- Et4, <- Etm4. by destruct (_ <? _).
Qed.
End data.

(** ** A whole transfer *)

(** Block [k] (from 1 on) of the file [l], and its packet: the number is cut
    to 16 bits. *)
Definition block_data (l : list Z) (k : nat) : list Z := take 512 (drop (512 * (k - 1)) l).
Definition block_packet (l : list Z) (k : nat) : list Z :=
  data_packet (k mod 65536) (block_data l k).

(** The order of the packets after block [k], up to block [n]: the next block,
    or the last one again; a repetition of a block with number 0 is left out. *)
Fixpoint schedule (k : nat) (ps : list nat) (n : nat) : Prop :=
  match ps with
  | [] => k = n
  | p :: ps =>
      (p = Datatypes.S k ∧ (p ≤ n)%nat ∧ schedule p ps n) ∨
      (p = k ∧ (0 < k)%nat ∧ k mod 65536 ≠ 0 ∧ schedule k ps n)
  end.

Fixpoint deliver_all {W} `{Link W} (s : net W) (m : mem) (rx port src : Z) (l : list Z)
    (ps : list nat) : option (net W * mem) :=
  match ps with
  | [] => Some (s, m)
  | p :: ps =>
      '(s, m) ← deliver s m rx port src (block_packet l p); deliver_all s m rx port src l ps
  end.

(** The client after [k] blocks of [l]. *)
Record progress {W} (l : list Z) (rx port src : Z) (mac : list Z) (base : Z) (k : nat) (s : net W) (m : mem)
    : Prop := Progress {
  pr_placed : placed s m rx (length l) mac;
  pr_base : load_addr (loop s) = base;
  pr_port : TftpOurPort (tftp s) = port;
  pr_tftp : if decide (k = 0%nat)
    then TftpState (tftp s) = STATE_RRQ ∨
         TftpState (tftp s) = STATE_OACK ∧ TftpServerPort (tftp s) = src
    else TftpState (tftp s) = STATE_DATA ∧ TftpServerPort (tftp s) = src ∧
         TftpLastBlock (tftp s) = k mod 65536 ∧
         TftpBlockWrapOffset (tftp s) = k / 65536 * 33554432;
  pr_size : NetBootFileXferSize (loop s) = Z.min (512 * k) (length l);
  pr_mem : bytes_at m (load_addr (loop s)) (take (512 * k) l);
  pr_state : NetState (loop s) =
    if decide (length l < 512 * k) then NETLOOP_SUCCESS else NETLOOP_CONTINUE
}.

(** [s'] sent the acknowledgement of block [k] and waits for the next. *)
Definition acked {W} `{Link W} (s s' : net W) (k : nat) : Prop :=
  (∃ frame, link s' = eth_send (link s) frame ∧
    drop (Z.to_nat (NetEthHdrSize s + 28)) frame = ack_packet (k mod 65536)) ∧
  TftpBlock (tftp s') = k mod 65536 ∧ TftpTimeoutCount (tftp s') = 0 ∧
  tmr s' = tmr (NetSetTimeout s (u32 (TIMEOUT * CFG_HZ)) TimeTftp) ∧
  arp s' = arp s ∧ cfg s' = cfg s.

Section transfer.
Context {W : Type} `{Link W}.
Implicit Types (s : net W) (m : mem).
Context (l : list Z) (rx port src : Z) (mac : list Z) (base : Z).
Context (Hl : Forall is_byte l).

Lemma length_data_packet b d : length (data_packet b d) = (4 + length d)%nat.
Proof. done. Qed.

(** The handler up to the block number. *)
Lemma deliver_data s m b d :
  is_word b → TftpOurPort (tftp s) = port →
  TftpState (tftp s) = STATE_RRQ ∨ TftpServerPort (tftp s) = src →
  deliver s m rx port src (data_packet b d) =
    tftp_data s (write_bytes m rx (data_packet b d)) (rx + 2) src (2 + length d).
Proof.
  intros Hb Hport Hsrc. unfold deliver, TftpHandler. rewrite length_data_packet.
  set (m1 := write_bytes m rx (data_packet b d)).
  rewrite Hport, Z.eqb_refl. cbn [negb].
  replace (negb (TftpState (tftp s) =? STATE_RRQ) && negb (src =? TftpServerPort (tftp s)))
    with false.
  2: { symmetry. apply andb_false_iff. rewrite !negb_false_iff, !Z.eqb_eq. intuition. }
  rewrite (proj2 (Z.ltb_ge (4 + length d)%nat 2)) by lia.
  assert (Hm : bytes_at m1 rx (data_packet b d)) by apply write_bytes_in.
  unfold data_packet in Hm. apply bytes_at_app in Hm as [Hm _].
  rewrite (ld16_at _ _ _ _ Hm), some_bind. change (be16 _ _) with TFTP_DATA.
  change (TFTP_DATA =? TFTP_OACK) with false. change (TFTP_DATA =? TFTP_DATA) with true.
  cbv iota. f_equal. lia.
Qed.

Lemma block_number m b d :
  is_word b → ld16 (write_bytes m rx (data_packet b d)) (rx + 2) = Some b.
Proof.
  intros Hb. assert (Hm := write_bytes_in m rx (data_packet b d)).
  unfold data_packet in Hm. apply bytes_at_app in Hm as [_ Hm]. apply bytes_at_app in Hm as [Hm _].
  replace (rx + length (word_bytes TFTP_DATA)) with (rx + 2) in Hm by done.
  unfold data_packet. rewrite (ld16_at _ _ _ _ Hm). by rewrite be16_word.
Qed.

Lemma packet_data m b d : bytes_at (write_bytes m rx (data_packet b d)) (rx + 4) d.
Proof.
  assert (Hm := write_bytes_in m rx (data_packet b d)).
  unfold data_packet in Hm. apply bytes_at_app in Hm as [_ Hm]. apply bytes_at_app in Hm as [_ Hm].
  by replace (rx + length (word_bytes TFTP_DATA) + length (word_bytes b)) with (rx + 4) in Hm
    by (simpl; lia).
Qed.

Lemma placed_same s s' m size : placed s m rx size mac → same_env s s' → placed s' m rx size mac.
Proof.
  intros Hp He. eapply (placed_changed s s' m m rx size mac rx (rx + 1536)).
  - exact Hp.
  - exact He.
  - apply changed_refl.
  - eapply Forall_impl; [|exact (pl_arrays _ _ _ _ _ Hp)]. by intros a (? & _).
Qed.

(** The receive buffer is apart from everything else. *)
Lemma placed_rx s m size p :
  placed s m rx size mac → length p ≤ 1536 → placed s (write_bytes m rx p) rx size mac.
Proof.
  intros Hp Hlen. eapply (placed_changed s s m _ rx size mac rx (rx + 1536)).
  - exact Hp.
  - apply same_env_refl.
  - apply changed_write; lia.
  - eapply Forall_impl; [|exact (pl_arrays _ _ _ _ _ Hp)]. intros a (? & _ & _). lia.
Qed.

Lemma length_block_data k : Z.of_nat (length (block_data l k)) = Z.min 512 (length l - 512 * (k - 1)%nat) ∨
  length (block_data l k) = 0%nat ∧ length l < 512 * (k - 1)%nat.
Proof. unfold block_data. rewrite length_take, length_drop. lia. Qed.

(** The numbering of the next block. *)
Lemma next_number s m k m1 (n : nat) :
  progress l rx port src mac base k s m → 512 * k ≤ length l →
  ld16 m1 (rx + 2) = Some (S k mod 65536) →
  ∃ s1, tftp_data s m1 (rx + 2) src (2 + n) = tftp_accept s1 m1 (rx + 2) n ∧
    (same_env s s1 ∧ link s1 = link s ∧ tmr s1 = tmr s) ∧ loop s1 = loop s ∧
    TftpState (tftp s1) = STATE_DATA ∧
    TftpServerPort (tftp s1) = src ∧ TftpOurPort (tftp s1) = port ∧
    TftpBlock (tftp s1) = S k mod 65536 ∧ TftpLastBlock (tftp s1) ≠ S k mod 65536 ∧
    TftpBlockWrapOffset (tftp s1) = S k / 65536 * 33554432.
Proof.
  intros [Hpl _ Hpo Ht _ _ _] Hk Hn. unfold tftp_data.
  rewrite (proj2 (Z.ltb_ge (2 + n) 2)) by lia. rewrite Hn, some_bind.
  replace (2 + n - 2) with (Z.of_nat n) by lia.
  pose proof (pl_range _ _ _ _ _ Hpl) as Hr.
  destruct (decide (k = 0%nat)) as [->|Hk0].
  - change (1%nat mod 65536) with 1 in *. cbn [tftp set_TftpBlock set_tftp TftpBlock].
    change (1 =? 0) with false. cbv iota. cbn [tftp set_TftpBlock set_tftp TftpState].
    replace ((TftpState (tftp s) =? STATE_RRQ) || (TftpState (tftp s) =? STATE_OACK)) with true
      by (symmetry; destruct Ht as [->|[-> _]]; done).
    cbn [tftp set_tftp set_TftpBlock set_TftpState set_TftpServerPort set_TftpLastBlock
         set_TftpBlockWrap set_TftpBlockWrapOffset TftpBlock].
    change (negb (1 =? 1)) with false. cbv iota. rewrite some_bind. cbv beta iota.
    eexists. split; [reflexivity|]. repeat split; [exact Hpo|discriminate].
  - destruct Ht as (Hst & Hsrc & Hlast & Hwrap).
    set (b := S k mod 65536) in *.
    set (s1 := if TftpBlock (tftp (set_TftpBlock b s)) =? 0 then _ else _).
    assert (E : (same_env s s1 ∧ link s1 = link s ∧ tmr s1 = tmr s) ∧ loop s1 = loop s ∧
      TftpState (tftp s1) = STATE_DATA ∧ TftpServerPort (tftp s1) = src ∧ TftpOurPort (tftp s1) = port ∧
      TftpBlock (tftp s1) = b ∧ TftpLastBlock (tftp s1) = k mod 65536 ∧
      TftpBlockWrapOffset (tftp s1) = S k / 65536 * 33554432).
    { unfold s1. cbn [tftp set_TftpBlock set_tftp TftpBlock].
      destruct (Z.eqb_spec b 0) as [E0|E0]; repeat split; try done; cbn.
      - rewrite Hwrap. change (TFTP_BLOCK_SIZE * TFTP_SEQUENCE_SIZE) with 33554432.
        assert (Hq : S k / 65536 = k / 65536 + 1) by (unfold b in E0; Z.div_mod_to_equations; lia).
        rewrite Hq, u32_small; [lia|]. Z.div_mod_to_equations. lia.
      - rewrite Hwrap. f_equal. unfold b in E0. Z.div_mod_to_equations. lia. }
    clearbody s1. destruct E as (E1 & E2 & E3 & E4 & E5 & E6 & E7 & E8).
    rewrite E3. change ((STATE_DATA =? STATE_RRQ) || (STATE_DATA =? STATE_OACK)) with false.
    cbv iota. rewrite some_bind. cbv beta iota. exists s1. split; [done|].
    do 6 (split; [done|]). split; [|done]. rewrite E7. unfold b.
    Z.div_mod_to_equations. lia.
Qed.

(** Where it goes: the 16-bit number and the wrap offset give the position. *)
Lemma next_offset s1 k :
  TftpBlock (tftp s1) = S k mod 65536 → TftpBlockWrapOffset (tftp s1) = S k / 65536 * 33554432 →
  512 * k < 4294967296 → block_offset s1 = 512 * k.
Proof.
  intros Hb Hw Hk. unfold block_offset. rewrite Hb, Hw. change TFTP_BLOCK_SIZE with 512.
  unfold u32. rewrite <- Z.add_mod_idemp_l, Z.mul_mod_idemp_l, Z.add_mod_idemp_l by lia.
  replace ((S k mod 65536 - 1) * 512 + S k / 65536 * 33554432) with (512 * k).
  - by rewrite Z.mod_small by lia.
  - pose proof (Z.div_mod (S k) 65536 ltac:(lia)). lia.
Qed.

(** The places after a block was accepted. *)
Lemma accepted_placed s s1 s' m m' size data :
  placed s m rx size mac → same_env s s1 → accepted s1 s' m m' data →
  0 ≤ block_offset s1 → block_offset s1 + length data ≤ size → placed s' m' rx size mac.
Proof.
  intros Hp He [Ae _ _ _ Am _ _] H0 H1. pose proof (same_env_trans _ _ _ He Ae) as He'.
  destruct He as (Eb & _ & El & _ & _). rewrite Eb, El in Am.
  set (ld_ := load_addr (loop s)) in *. set (off := block_offset s1) in *.
  pose proof (pl_arrays _ _ _ _ _ Hp) as Ha.
  assert (Hp1 : placed s (write_bytes m (ld_ + off) data) rx size mac).
  { eapply (placed_changed s s m _ rx size mac (ld_ + off) (ld_ + off + length data));
      [exact Hp|apply same_env_refl|apply changed_write; lia|].
    eapply Forall_impl; [|exact Ha]. intros a (_ & Ha2 & _). fold ld_ in Ha2. lia. }
  eapply (placed_changed s s' _ m' rx size mac); [exact Hp1|exact He'|exact Am|].
  eapply Forall_impl; [|exact Ha]. intros a (_ & _ & ?). lia.
Qed.

(** What the next turn needs to know of an accepted block: its
    acknowledgement was sent, and the timer started. *)
Lemma accepted_acked s s1 s' m m' data (k : nat) :
  same_env s s1 → link s1 = link s → tmr s1 = tmr s → TftpBlock (tftp s1) = k mod 65536 →
  accepted s1 s' m m' data → acked s s' k.
Proof.
  intros He El Et Eb [Ae _ _ _ _ (frame & A1 & A2) (A3 & A4 & A5)].
  unfold NetEthHdrSize in A2. destruct He as (_ & Ec & _ & _ & _ & Ea).
  rewrite El, ?Eb, ?Ec in *. split; [|split; [|split; [|split]]]; [by exists frame|done|done| |].
  - rewrite A5. unfold NetSetTimeout. rewrite El. destruct (_ =? 0); [simpl; by rewrite Et|done].
  - destruct Ae as (_ & Ec' & _ & _ & _ & Ea'). by rewrite Ea', Ec', Ea, Ec.
Qed.

Lemma block_bytes k : Forall is_byte (block_data l k).
Proof. apply Forall_take, Forall_drop, Hl. Qed.

Lemma take_next k : take (512 * S k) l = take (512 * k) l ++ block_data l (S k).
Proof.
  unfold block_data. replace (512 * S k)%nat with (512 * k + 512)%nat by lia.
  by rewrite <- take_take_drop, (Nat.sub_succ k 0), Nat.sub_0_r.
Qed.

(** The next block. *)
Lemma progress_next s m k :
  progress l rx port src mac base k s m → 512 * k ≤ length l →
  ∃ s' m', deliver s m rx port src (block_packet l (S k)) = Some (s', m') ∧
    progress l rx port src mac base (S k) s' m' ∧ acked s s' (S k).
Proof.
  intros Hpr Hk. assert (Hpr' := Hpr). destruct Hpr' as [Hpl Hba Hpo Ht Hsz Hme Hns].
  set (b := S k mod 65536). set (d := block_data l (S k)).
  assert (Hd : Z.of_nat (length d) = Z.min 512 (length l - 512 * k)).
  { unfold d, block_data. rewrite length_take, length_drop. lia. }
  assert (Hb : is_word b) by (apply Z.mod_pos_bound; lia).
  unfold block_packet. fold b d.
  rewrite deliver_data; [|done|done|].
  2: { destruct (decide (k = 0%nat)); [destruct Ht as [?|[_ ?]]; auto|destruct Ht; tauto]. }
  set (m1 := write_bytes m rx (data_packet b d)).
  assert (Hplen : Z.of_nat (length (data_packet b d)) ≤ 1536)
    by (rewrite length_data_packet; lia).
  destruct (next_number s m k m1 (length d) Hpr Hk (block_number m b d Hb))
    as (s1 & E1 & (He & Elk & Etm) & El & Es & Esrc & Ept & Eb & Ela & Ew).
  pose proof (pl_range _ _ _ _ _ Hpl) as Hr.
  pose proof (next_offset s1 k Eb Ew ltac:(lia)) as Hoff.
  pose proof (placed_rx s m _ _ Hpl Hplen) as Hpl1. fold m1 in Hpl1.
  destruct (tftp_accept_spec s1 m1 rx (length l) mac (rx + 2) d) as (s' & m' & E2 & Hac).
  - by eapply placed_same.
  - done.
  - by rewrite Eb.
  - lia.
  - lia.
  - replace (rx + 2 + 2) with (rx + 4) by lia. apply packet_data.
  - apply block_bytes.
  - rewrite Hoff. lia.
  - exists s', m'. rewrite E1, E2. split; [done|]. split; [|by eapply accepted_acked].
    pose proof (accepted_placed s s1 s' m1 m' _ d Hpl1 He Hac ltac:(lia) ltac:(lia)) as Hpl'.
    destruct Hac as [Ae (A1 & A2 & A3 & A4 & A5) A6 A7 A8 _ _].
    pose proof (same_env_trans _ _ _ He Ae) as (_ & _ & Eload & _).
    split; [done|congruence|congruence| | | |].
    + rewrite decide_False by lia. rewrite A4, A5, Eb, Ew, A2. done.
    + rewrite A6, El, Hsz, Hoff, Hd. lia.
    + rewrite Eload. rewrite El, Hoff in A8. eapply (changed_bytes _ _ _ _ _ _ A8).
      { pose proof (pl_tx_load _ _ _ _ _ Hpl). destruct He as (-> & _). rewrite length_take. lia. }
      rewrite take_next. fold d. apply bytes_at_app. rewrite length_take_le by lia.
      split; [|replace (Z.of_nat (512 * k)%nat) with (512 * k) by lia; apply write_bytes_in].
      pose proof (pl_rx_load _ _ _ _ _ Hpl).
      apply bytes_at_write_disjoint; [|apply bytes_at_write_disjoint; [|done]];
        rewrite length_take_le by lia; lia.
    + rewrite A7, El, Hns. rewrite (decide_False (P := length l < 512 * k)) by lia.
      destruct (decide (length d < 512)); [rewrite decide_True by lia|rewrite decide_False by lia]; done.
Qed.

(** The last block again, with any number: only a number 0 counts a wrap. *)
Lemma deliver_last s m b d :
  is_word b → TftpOurPort (tftp s) = port → TftpState (tftp s) = STATE_DATA →
  TftpServerPort (tftp s) = src → TftpLastBlock (tftp s) = b →
  deliver s m rx port src (data_packet b d) =
    Some (if b =? 0 then
        set_TftpBlockWrapOffset (u32 (TftpBlockWrapOffset (tftp s) + 33554432))
          (set_TftpBlockWrap (u32 (TftpBlockWrap (tftp s) + 1)) (set_TftpBlock b s))
      else set_TftpBlock b s, write_bytes m rx (data_packet b d)).
Proof.
  intros Hb Hpo T1 T2 T3. rewrite deliver_data; [|done|done|by right].
  unfold tftp_data. rewrite (proj2 (Z.ltb_ge (2 + _) 2)) by lia.
  rewrite (block_number m _ _ Hb), some_bind.
  change (TftpBlock (tftp (set_TftpBlock b s))) with b. change (TFTP_BLOCK_SIZE * _) with 33554432.
  set (s1 := if b =? 0 then _ else _).
  change (if b =? 0 then set_TftpBlockWrapOffset _ _ else _) with s1.
  assert (E : TftpState (tftp s1) = STATE_DATA ∧ TftpBlock (tftp s1) = b ∧
    TftpLastBlock (tftp s1) = b) by (unfold s1; destruct (b =? 0); by repeat split).
  clearbody s1. destruct E as (Es & Eb & Ela). rewrite Es.
  change ((STATE_DATA =? STATE_RRQ) || (STATE_DATA =? STATE_OACK)) with false. cbv iota.
  rewrite some_bind. cbv beta iota. unfold tftp_accept. by rewrite Eb, Ela, Z.eqb_refl.
Qed.

(** The last block again: it is neither stored nor acknowledged. *)
Lemma progress_again s m k :
  progress l rx port src mac base k s m → (0 < k)%nat → k mod 65536 ≠ 0 →
  let s' := set_TftpBlock (k mod 65536) s in
  deliver s m rx port src (block_packet l k) = Some (s', write_bytes m rx (block_packet l k)) ∧
  progress l rx port src mac base k s' (write_bytes m rx (block_packet l k)).
Proof.
  intros [Hpl Hba Hpo Ht Hsz Hme Hns] Hk0 Hk.
  assert (Hlen : Z.of_nat (length (block_packet l k)) ≤ 1536).
  { unfold block_packet. rewrite length_data_packet. unfold block_data. rewrite length_take. lia. }
  assert (Hb : is_word (k mod 65536)) by (apply Z.mod_pos_bound; lia).
  rewrite decide_False in Ht by lia. destruct Ht as (T1 & T2 & T3 & T4).
  split.
  - unfold block_packet at 1. rewrite deliver_last by done. by rewrite (proj2 (Z.eqb_neq _ _) Hk).
  - pose proof (pl_range _ _ _ _ _ Hpl). pose proof (pl_rx_load _ _ _ _ _ Hpl).
    split; [|exact Hba|exact Hpo| |exact Hsz| |exact Hns].
    + eapply placed_same; [exact (placed_rx _ _ _ _ Hpl Hlen)|done].
    + rewrite decide_False by lia. done.
    + apply bytes_at_write_disjoint; [|done]. change (load_addr (loop (set_TftpBlock _ s))) with (load_addr (loop s)). rewrite length_take. lia.
Qed.

Lemma schedule_start k ps n : schedule k ps n → (k ≤ n)%nat.
Proof.
  revert k. induction ps as [|p ps IH]; simpl; intros k; [lia|].
  intros [(-> & ? & _)|(_ & _ & _ & ?)]; [lia|auto].
Qed.

(** A run of packets takes the client from block to block. *)
Lemma progress_all s m k ps n :
  progress l rx port src mac base k s m → schedule k ps n → 512 * (n - 1) ≤ length l →
  ∃ s' m', deliver_all s m rx port src l ps = Some (s', m') ∧
    progress l rx port src mac base n s' m'.
Proof.
  revert s m k. induction ps as [|p ps IH]; intros s m k Hp Hs Hn; cbn [schedule deliver_all] in *.
  { subst k. by eauto. }
  destruct Hs as [(-> & Hle & Hs)|(-> & H0 & Hmod & Hs)].
  - destruct (progress_next s m k Hp ltac:(lia)) as (s1 & m1 & -> & Hp1 & _).
    rewrite some_bind. by apply (IH s1 m1 (S k)).
  - destruct (progress_again s m k Hp H0 Hmod) as (-> & Hp1).
    rewrite some_bind. by eapply (IH _ _ k).
Qed.

(** C10: a whole transfer.  Whatever blocks the server repeats (one with number
    0, behind a wrap of the 16-bit numbers, apart), the client that sent its
    request and gets the [n] blocks of a file in order, the last of them short,
    has the file at the load address, its size in [NetBootFileXferSize], and
    leaves the loop with success; before the last block it goes on waiting. *)
Theorem tftp_reassembles s m ps n :
  placed s m rx (length l) mac → load_addr (loop s) = base → TftpOurPort (tftp s) = port →
  TftpState (tftp s) = STATE_RRQ → NetBootFileXferSize (loop s) = 0 →
  NetState (loop s) = NETLOOP_CONTINUE →
  schedule 0 ps n → 512 * (n - 1) ≤ length l →
  ∃ s' m', deliver_all s m rx port src l ps = Some (s', m') ∧
    bytes_at m' base (take (512 * n) l) ∧
    NetBootFileXferSize (loop s') = Z.min (512 * n) (length l) ∧
    NetState (loop s') =
      if decide (length l < 512 * n) then NETLOOP_SUCCESS else NETLOOP_CONTINUE.
Proof.
  intros Hp Hba Hpo Hst Hsz Hns Hsch Hn.
  destruct (progress_all s m 0 ps n) as (s' & m' & E & Hp'); [|done|done|].
  - split; [done|done|done| | | |].
    + rewrite decide_True by done. by left.
    + rewrite Hsz. lia.
    + apply bytes_at_nil.
    + by rewrite decide_False by lia.
  - exists s', m'. destruct Hp' as [_ Hb _ _ Hsz' Hm' Hns']. rewrite Hb in Hm'. done.
Qed.

(** The last block repeated.  It is ignored, but when its number is 0
    (65536, 131072, ... blocks) the wrap count is moved before the repetition
    is recognised, and the next block goes 32 MiB too far. *)
Lemma tftp_repeat_wraps s m b d :
  is_word b → TftpOurPort (tftp s) = port → TftpState (tftp s) = STATE_DATA →
  TftpServerPort (tftp s) = src → TftpLastBlock (tftp s) = b →
  0 ≤ TftpBlockWrapOffset (tftp s) < 4261412864 →
  ∃ s', deliver s m rx port src (data_packet b d) =
      Some (s', write_bytes m rx (data_packet b d)) ∧
    loop s' = loop s ∧ link s' = link s ∧
    block_offset (set_TftpBlock 1 s') =
      block_offset (set_TftpBlock 1 s) + if b =? 0 then 33554432 else 0.
Proof.
  intros Hb Hpo T1 T2 T3 Hw. rewrite deliver_last by done. eexists. split; [reflexivity|].
  unfold block_offset. change (u32 (TftpBlock (tftp (set_TftpBlock 1 _)) - 1) * TFTP_BLOCK_SIZE) with 0.
  change (TftpBlockWrapOffset (tftp (set_TftpBlock 1 ?x))) with (TftpBlockWrapOffset (tftp x)).
  destruct (b =? 0); (split; [done|]); (split; [done|]); cbn [tftp TftpBlockWrapOffset set_tftp
    set_TftpBlock set_TftpBlockWrap set_TftpBlockWrapOffset].
  - rewrite !Z.add_0_l, (u32_small (TftpBlockWrapOffset (tftp s) + 33554432)), !u32_small by lia. done.
  - lia.
Qed.

(** The state after a first block that is not block 1, in the recovery. *)
Definition after_wrong_first s b : net W :=
  set_TftpBlockWrapOffset 0 (set_TftpBlockWrap 0 (set_TftpLastBlock 0
    (set_TftpServerPort src (set_TftpState STATE_DATA (set_TftpBlock b s))))).

Lemma deliver_wrong_first s m b d :
  2 ≤ b < 65536 → TftpOurPort (tftp s) = port → TftpState (tftp s) = STATE_RRQ →
  fw_recovery (loop s) ≠ 0 →
  deliver s m rx port src (data_packet b d) =
    Some (after_wrong_first s b, write_bytes m rx (data_packet b d)).
Proof.
  intros Hb Hpo Hst Hfw. assert (Hw : is_word b) by (unfold is_word; lia).
  rewrite deliver_data; [|done|done|by left]. unfold tftp_data.
  rewrite (proj2 (Z.ltb_ge (2 + _) 2)) by lia. rewrite (block_number m _ _ Hw), some_bind.
  change (TftpBlock (tftp (set_TftpBlock b s))) with b. rewrite (proj2 (Z.eqb_neq b 0)) by lia.
  change (TftpState (tftp (set_TftpBlock b s))) with (TftpState (tftp s)). rewrite Hst.
  change ((STATE_RRQ =? STATE_RRQ) || (STATE_RRQ =? STATE_OACK)) with true. cbv iota.
  fold (after_wrong_first s b). change (TftpBlock (tftp (after_wrong_first s b))) with b.
  rewrite (proj2 (Z.eqb_neq b 1)) by lia. cbn [negb]. unfold NetStartAgain.
  change (fw_recovery (loop (after_wrong_first s b))) with (fw_recovery (loop s)).
  by rewrite (proj2 (Z.eqb_neq _ _) Hfw).
Qed.

(** A block in the middle of a transfer. *)
Lemma deliver_next s m b d :
  0 < b < 65536 → TftpOurPort (tftp s) = port → TftpState (tftp s) = STATE_DATA →
  TftpServerPort (tftp s) = src →
  deliver s m rx port src (data_packet b d) =
    tftp_accept (set_TftpBlock b s) (write_bytes m rx (data_packet b d)) (rx + 2) (length d).
Proof.
  intros Hb Hpo Hst Hsrc. assert (Hw : is_word b) by (unfold is_word; lia).
  rewrite deliver_data; [|done|done|by right]. unfold tftp_data.
  rewrite (proj2 (Z.ltb_ge (2 + _) 2)) by lia. rewrite (block_number m _ _ Hw), some_bind.
  change (TftpBlock (tftp (set_TftpBlock b s))) with b. rewrite (proj2 (Z.eqb_neq b 0)) by lia.
  change (TftpState (tftp (set_TftpBlock b s))) with (TftpState (tftp s)). rewrite Hst.
  change ((STATE_DATA =? STATE_RRQ) || (STATE_DATA =? STATE_OACK)) with false. cbv iota.
  rewrite some_bind. cbv beta iota. by replace (2 + length d - 2) with (length d : Z) by lia.
Qed.

(** In the recovery [NetStartAgain] does nothing, so a transfer whose first
    block is not block 1 is not started again: the same short block [b] sent a
    second time is stored at its place and ends the loop with success, though
    the blocks before it never came and the memory for them is untouched. *)
Lemma recovery_first_block s m b :
  placed s m rx (512 * (b - 1) + length l) mac →
  TftpOurPort (tftp s) = port → TftpState (tftp s) = STATE_RRQ →
  fw_recovery (loop s) ≠ 0 → NetBootFileXferSize (loop s) = 0 →
  2 ≤ b < 65536 → length l < 512 →
  ∃ s1 m1 s2 m2,
    deliver s m rx port src (data_packet b l) = Some (s1, m1) ∧
    deliver s1 m1 rx port src (data_packet b l) = Some (s2, m2) ∧
    NetState (loop s2) = NETLOOP_SUCCESS ∧
    NetBootFileXferSize (loop s2) = 512 * (b - 1) + length l ∧
    ∀ j, load_addr (loop s) ≤ j < load_addr (loop s) + 512 * (b - 1) → m2 !! j = m !! j.
Proof.
  intros Hp Hpo Hst Hfw Hsz Hb Hlen.
  assert (Hplen : length (data_packet b l) ≤ 1536) by (rewrite length_data_packet; lia).
  set (m1 := write_bytes m rx (data_packet b l)). set (s1 := after_wrong_first s b).
  exists s1, m1. set (m2 := write_bytes m1 rx (data_packet b l)).
  assert (Hp1 : placed s1 m2 rx (512 * (b - 1) + length l) mac).
  { apply placed_rx; [|done]. eapply placed_same; [by apply placed_rx|done]. }
  pose proof (pl_range _ _ _ _ _ Hp) as Hr.
  set (s2 := set_TftpBlock b s1).
  assert (Hoff : block_offset s2 = 512 * (b - 1)).
  { unfold block_offset. change (TftpBlock (tftp s2)) with b.
    change (TftpBlockWrapOffset (tftp s2)) with 0. change TFTP_BLOCK_SIZE with 512.
    rewrite (u32_small (b - 1)) by lia. rewrite u32_small by lia. lia. }
  destruct (tftp_accept_spec s2 m2 rx (512 * (b - 1) + length l) mac (rx + 2) l) as (s3 & m3 & E3 & Hac).
  - by eapply placed_same.
  - done.
  - change (b ≠ 0). lia.
  - lia.
  - lia.
  - replace (rx + 2 + 2) with (rx + 4) by lia. apply packet_data.
  - exact Hl.
  - rewrite Hoff. lia.
  - exists s3, m3. destruct Hac as [_ _ A3 A4 A5 _ _]. rewrite Hoff in A3, A5.
    split; [by apply deliver_wrong_first|]. split; [|split; [|split]].
    + by rewrite deliver_next by (done || lia).
    + by rewrite A4, decide_True by lia.
    + rewrite A3. change (NetBootFileXferSize (loop s2)) with (NetBootFileXferSize (loop s)). lia.
    + intros j Hj. pose proof (pl_tx_load _ _ _ _ _ Hp) as D1. pose proof (pl_rx_load _ _ _ _ _ Hp) as D2.
      change (bufs s2) with (bufs s) in A5. change (loop s2) with (loop s) in A5.
      destruct A5 as [A5 _]. rewrite A5 by lia.
      unfold m2, m1. by rewrite !write_bytes_out by lia.
Qed.
End transfer.

(** ** The properties at concrete inputs *)

Lemma sample_placed {W} (s : net W) (size : nat) :
  bufs s = sample_bufs → 0 < NetOurIP (cfg s) < 4294967295 → 0 < NetServerIP (cfg s) < 4294967295 →
  load_addr (loop s) = 0x80060000 → size ≤ 1048576 →
  placed s (sample_mem size) 0x4000 size sample_mac.
Proof.
  intros Hb Ho Hsrv Hload Hs. split; rewrite ?Hb, ?Hload; cbn; try lia.
  - apply sample_ready; [done|lia].
  - apply sample_load.
  - repeat (apply Forall_cons_2; [lia|]). apply Forall_nil_2.
Qed.

(** 600 bytes in two blocks, the first of which comes twice. *)
Lemma tftp_reassembles_witness :
  let l := replicate (Z.to_nat 600) 7 in
  ∃ s' m', deliver_all (sample_net our_ip server_ip) (sample_mem (Z.to_nat 600)) 0x4000 1024 2048 l
      [1; 1; 2]%nat = Some (s', m') ∧
    bytes_at m' 0x80060000 (take (512 * 2) l) ∧
    NetBootFileXferSize (loop s') = Z.min (512 * 2%nat) (length l) ∧
    NetState (loop s') =
      if decide (length l < 512 * 2%nat) then NETLOOP_SUCCESS else NETLOOP_CONTINUE.
Proof.
  intros l.
  assert (Hlen : length l = Z.to_nat 600) by apply length_replicate.
  apply (tftp_reassembles l 0x4000 1024 2048 sample_mac 0x80060000); try reflexivity.
  - apply Forall_replicate. unfold is_byte. lia.
  - rewrite Hlen. apply (sample_placed _ (Z.to_nat 600)); [reflexivity| | |reflexivity|lia];
      unfold our_ip, server_ip; simpl; lia.
  - cbn [schedule]. left. split; [reflexivity|]. split; [lia|]. right. split; [reflexivity|].
    split; [lia|]. split; [discriminate|]. left. split; [reflexivity|]. split; [lia|reflexivity].
  - rewrite Hlen. lia.
Defined.

Definition recovering : net (list (list Z)) :=
  set_loop (LoopSt NETLOOP_CONTINUE RxTftp 0 0 0 0 0x80060000 0x1028 false false true 1)
    (sample_net our_ip server_ip).

