(* ===== verification/TftpLive.v ===== *)
(** * A transfer over a link that loses packets ([net/tftp.c])

    The client of [Tftp] with its timeout, against a server that sends a block
    until it hears the acknowledgement of it.  In one turn of the loop of
    [NetLoop] the block of the server arrives or is lost, and what the client
    sends is heard or is lost. *)

From S2P Require Import Prelude.
From S2P Require Import Timer.
From S2P Require Import CString.
From S2P Require Import Vsprintf.
From S2P Require Import NetAddr.
From S2P Require Import Env.
From S2P Require Import Net.
From S2P Require Import Tftp.

(** ** The server as the link

    [srv_block] is the number of the block it sends; [srv_hears] says whether
    the frame of this turn reaches it.  A frame is an acknowledgement of the
    block when it has those bytes behind the [hdr] bytes of its headers. *)
Record server := Server {
  srv_block : nat;
  srv_hears : bool;
  srv_clock : Z
}.

(** The period of the timeout fits into the counter. *)
Lemma timeout_fits : 0 < CFG_HZ ∧ 2 * CFG_HZ + 1 < 4294967296.
Proof. done. Qed.

Section server.
Context (hdr : nat).

Definition srv_receive (w : server) (frame : list Z) : server :=
  if srv_hears w && bool_decide (drop hdr frame = ack_packet (srv_block w mod 65536))
  then Server (S (srv_block w)) (srv_hears w) (srv_clock w) else w.

#[local] Instance server_link : Link server := {
  eth_send := srv_receive;
  get_timer := srv_clock;
  eth_halt w := w;
  eth_init w e m := Some (w, m, false);
  eth_try_another w e m first := Some (w, m, first)
}.

Implicit Types (s : net server) (m : mem).

(** One turn: the time of the timeout goes by, the block arrives if
    [arrives], and a round of the loop follows. *)
Definition tftp_turn (do_bootm : net server → mem → option (net server * mem))
    (l : list Z) (rx port src : Z) (ev : bool * bool) s m
    : option (net server * mem * round_result) :=
  let '(arrives, heard) := ev in
  let w := link s in
  let s := set_link (Server (srv_block w) heard (u32 (srv_clock w + (2 * CFG_HZ + 1)))) s in
  '(s, m) ← (if arrives : bool
    then deliver s m rx port src (block_packet l (srv_block w)) else Some (s, m));
  NetLoop_round do_bootm s m [] false.

(** The turns up to the first that ends the loop. *)
Fixpoint tftp_turns (do_bootm : net server → mem → option (net server * mem))
    (l : list Z) (rx port src : Z) (evs : list (bool * bool)) s m
    : option (net server * mem * round_result) :=
  match evs with
  | [] => Some (s, m, Continue)
  | ev :: evs =>
      '(s, m, r) ← tftp_turn do_bootm l rx port src ev s m;
      match r with
      | Continue => tftp_turns do_bootm l rx port src evs s m
      | _ => Some (s, m, r)
      end
  end.

(** ** One turn *)

Section turns.
Context (do_bootm : net server → mem → option (net server * mem)).
Context (l : list Z) (rx port src : Z) (mac : list Z) (base : Z).
Context (Hl : Forall is_byte l).

#[local] Abbreviation progress := (progress l rx port src mac base).
#[local] Abbreviation turn := (tftp_turn do_bootm l rx port src).
#[local] Abbreviation turns := (tftp_turns do_bootm l rx port src).

(** The client waits for block [k + 1]; [b] says that the server heard of
    block [k], [c] is the number of timeouts since. *)
Record waiting (k : nat) (c : Z) (b : bool) s m : Prop := Waiting {
  wt_progress : progress k s m;
  wt_more : 512 * k ≤ length l;
  wt_block : (0 < k)%nat → TftpBlock (tftp s) = k mod 65536;
  wt_server : srv_block (link s) = if b then S k else k;
  wt_count : TftpTimeoutCount (tftp s) = c;
  wt_timer : tmr s = Timer TimeTftp (srv_clock (link s)) (2 * CFG_HZ);
  wt_clock : 0 ≤ srv_clock (link s) < 4294967296;
  wt_arp : NetArpWaitPacketIP (arp s) = 0;
  wt_hdr : Z.to_nat (NetEthHdrSize s + 28) = hdr
}.

Lemma timer_period : u32 (TIMEOUT * CFG_HZ) = 2 * CFG_HZ.
Proof. pose proof timeout_fits as Hhz. unfold TIMEOUT. rewrite u32_small; lia. Qed.

Lemma time_gone c : 0 ≤ c < 4294967296 →
  (u32 (u32 (c + (2 * CFG_HZ + 1)) - c) >? 2 * CFG_HZ) = true.
Proof.
  pose proof timeout_fits as Hhz. intros Hc. unfold u32. rewrite Zminus_mod_idemp_l.
  replace (c + (2 * CFG_HZ + 1) - c) with (2 * CFG_HZ + 1) by lia.
  rewrite Z.mod_small by lia. apply Z.gtb_lt. lia.
Qed.

(** The round behind the packet, when no address is asked for. *)
Lemma round_timer s m start :
  NetArpWaitPacketIP (arp s) = 0 → tmr s = Timer TimeTftp start (2 * CFG_HZ) →
  NetLoop_round do_bootm s m [] false =
    '(s, m) ← (if u32 (srv_clock (link s) - start) >? 2 * CFG_HZ
      then TftpTimeout do_bootm (set_timeHandler TimeNone s) m else Some (s, m));
    Some (s, m,
      if NetState (loop s) =? NETLOOP_RESTART then Restart
      else if NetState (loop s) =? NETLOOP_SUCCESS then Success
      else if NetState (loop s) =? NETLOOP_FAIL then Failed else Continue).
Proof.
  intros Ha Ht. unfold NetLoop_round. cbn [eth_rx]. rewrite some_bind.
  unfold ArpTimeoutCheck. rewrite Ha. change (0 =? 0) with true. cbv iota.
  rewrite some_bind. unfold call_timeHandler. by rewrite Ht.
Qed.

Lemma ack_packet_inj (i j : nat) :
  ack_packet (i mod 65536) = ack_packet (j mod 65536) → i mod 65536 = j mod 65536.
Proof.
  unfold ack_packet, word_bytes. intros [= E1 E2].
  assert (Hw : ∀ x, is_word (x mod 65536)) by (intros x; apply Z.mod_pos_bound; lia).
  rewrite <- (be16_word _ (Hw i)), <- (be16_word _ (Hw j)). by rewrite E1, E2.
Qed.

(** What the server makes of the acknowledgement of block [k]. *)
Lemma receive_ack w frame k (b : bool) :
  srv_block w = (if b then S k else k) → drop hdr frame = ack_packet (k mod 65536) →
  srv_block (srv_receive w frame) = (if b || srv_hears w then S k else k) ∧
  srv_clock (srv_receive w frame) = srv_clock w.
Proof.
  intros Hb Hf. unfold srv_receive. rewrite Hf, Hb. destruct (srv_hears w); cbn [andb].
  - destruct b.
    + rewrite bool_decide_eq_false_2; [by cbv iota|]. intros E%ack_packet_inj.
      Z.div_mod_to_equations. lia.
    + by rewrite bool_decide_eq_true_2.
  - by rewrite orb_false_r.
Qed.

(** The state when the turn begins. *)
Definition begin_turn (heard : bool) s : net server :=
  set_link (Server (srv_block (link s)) heard (u32 (srv_clock (link s) + (2 * CFG_HZ + 1)))) s.

Lemma progress_same k s s' m :
  progress k s m → same_env s s' → tftp s' = tftp s → loop s' = loop s → progress k s' m.
Proof.
  intros [Hp ? ? ? ? ? ?] He Et El. split; rewrite ?Et, ?El; try done. by eapply placed_same.
Qed.

(** The next block arrives. *)
Lemma turn_accept k c heard s m :
  waiting k c true s m →
  ∃ s' m', turn (true, heard) s m = Some (s', m',
      if decide (length l < 512 * S k) then Success else Continue) ∧
    progress (S k) s' m' ∧
    (512 * S k ≤ length l → waiting (S k) 0 heard s' m').
Proof.
  pose proof timeout_fits as Hhz. intros [Hp Hk _ Hsrv _ _ _ Harp Hhdr]. unfold tftp_turn. fold (begin_turn heard s).
  set (s0 := begin_turn heard s). rewrite Hsrv.
  destruct (progress_next l rx port src mac base Hl s0 m k (progress_same _ _ s0 _ Hp (same_env_refl s) eq_refl eq_refl) Hk)
    as (s1 & m1 & -> & Hp1 & (frame & Hlink & Hack) & Hblock & Hcount & Htmr & Ha & Hcfg).
  rewrite some_bind. rewrite timer_period in Htmr.
  unfold NetSetTimeout in Htmr. rewrite (proj2 (Z.eqb_neq (2 * CFG_HZ) 0)) in Htmr by lia.
  change (Z.to_nat (NetEthHdrSize s0 + 28)) with (Z.to_nat (NetEthHdrSize s + 28)) in Hack.
  rewrite Hhdr in Hack.
  destruct (receive_ack (link s0) frame (S k) false Hsrv Hack) as [Hb Hc].
  change (eth_send (link s0) frame) with (srv_receive (link s0) frame) in Hlink.
  rewrite <- Hlink in Hb, Hc. change (srv_hears (link s0)) with heard in Hb.
  rewrite (round_timer s1 m1 (srv_clock (link s0))) by (rewrite ?Ha; done).
  rewrite Hc, Z.sub_diag. change (u32 0) with 0.
  rewrite Z.gtb_ltb, (proj2 (Z.ltb_ge (2 * CFG_HZ) 0)), some_bind by lia.
  exists s1, m1. split; [|split; [done|]].
  - rewrite (pr_state _ _ _ _ _ _ _ _ _ Hp1). by destruct (decide _).
  - intros Hmore. split; try done.
    + by rewrite Htmr, Hc.
    + rewrite Hc. apply (Z.mod_pos_bound _ 4294967296). lia.
    + by rewrite Ha.
    + unfold NetEthHdrSize. by rewrite Hcfg.
Qed.

(** The timeout: the last acknowledgement again. *)
Lemma timeout_ack k s m :
  progress k s m → (0 < k)%nat → TftpTimeoutCount (tftp s) < 3 →
  ∃ frame s' m', TftpTimeout do_bootm s m = Some (s', m') ∧ progress k s' m' ∧
    link s' = srv_receive (link s) frame ∧
    drop (Z.to_nat (NetEthHdrSize s + 28)) frame = ack_packet (TftpBlock (tftp s)) ∧
    TftpBlock (tftp s') = TftpBlock (tftp s) ∧
    TftpTimeoutCount (tftp s') = TftpTimeoutCount (tftp s) + 1 ∧
    tmr s' = Timer TimeTftp (srv_clock (link s)) (2 * CFG_HZ) ∧ arp s' = arp s ∧ cfg s' = cfg s.
Proof.
  pose proof timeout_fits as Hhz. intros [Hp Hba Hpo Ht Hsz Hm Hst] Hk Hc. rewrite decide_False in Ht by lia.
  unfold TftpTimeout. set (s1 := set_TftpTimeoutCount _ s).
  change (TftpTimeoutCount (tftp s1)) with (TftpTimeoutCount (tftp s) + 1).
  rewrite Z.gtb_ltb, (proj2 (Z.ltb_ge TIMEOUT_COUNT _)) by (unfold TIMEOUT_COUNT; lia).
  rewrite timer_period. unfold NetSetTimeout.
  rewrite (proj2 (Z.eqb_neq (2 * CFG_HZ) 0)) by lia. set (s2 := set_tmr _ s1).
  assert (Hp2 : placed s2 m rx (length l) mac) by (by eapply placed_same).
  destruct (TftpSend_ack s2 m rx _ mac Hp2) as (frame & m' & -> & C & Hf); [apply Ht|].
  exists frame. do 2 eexists. split; [reflexivity|]. split; [|done].
  pose proof (pl_range _ _ _ _ _ Hp). pose proof (pl_tx_load _ _ _ _ _ Hp).
  split; [|done|done| |done| |done].
  - eapply (placed_changed s2 _ m m'); [exact Hp2|done|exact C|].
    eapply Forall_impl; [|exact (pl_arrays _ _ _ _ _ Hp2)]. intros a (_ & _ & Ha). cbv beta. lia.
  - by rewrite decide_False by lia.
  - eapply (changed_bytes _ _ _ _ _ _ C); [|exact Hm]. change (bufs s2) with (bufs s).
    rewrite length_take. cbn. lia.
Qed.
(** A turn that brings nothing new: the block is lost, or the server did not
    hear the last acknowledgement and repeats its block. *)
Lemma turn_silent k c b arrives heard s m :
  waiting k c b s m → (0 < k)%nat → k mod 65536 ≠ 0 → c < 3 → (arrives = true → b = false) →
  ∃ s' m', turn (arrives, heard) s m = Some (s', m', Continue) ∧
    waiting k (c + 1) (b || heard) s' m'.
Proof.
  intros [Hp Hk Hbl Hsrv Hco Htm Hcl Harp Hhdr] Hk0 Hmod Hc Hab. unfold tftp_turn.
  fold (begin_turn heard s). set (s0 := begin_turn heard s).
  pose proof (progress_same k s s0 m Hp (same_env_refl s) eq_refl eq_refl) as Hp0.
  assert (E : ∃ s1 m1, (if arrives then deliver s0 m rx port src (block_packet l (srv_block (link s)))
      else Some (s0, m)) = Some (s1, m1) ∧ progress k s1 m1 ∧ TftpBlock (tftp s1) = k mod 65536 ∧
    TftpTimeoutCount (tftp s1) = c ∧ tmr s1 = tmr s ∧ link s1 = link s0 ∧ arp s1 = arp s ∧ cfg s1 = cfg s).
  { destruct arrives.
    - rewrite Hsrv, (Hab eq_refl).
      destruct (progress_again l rx port src mac base s0 m k Hp0 Hk0 Hmod) as (E & Hp1).
      do 2 eexists. split; [exact E|]. split; [exact Hp1|]. by repeat split.
    - exists s0, m. split; [done|]. split; [done|]. split; [by apply Hbl|]. by repeat split. }
  destruct E as (s1 & m1 & -> & Hp1 & Hb1 & Hc1 & Htm1 & Hl1 & Ha1 & Hcf1). rewrite some_bind.
  rewrite (round_timer s1 m1 (srv_clock (link s))) by congruence.
  rewrite Hl1. change (srv_clock (link s0)) with (u32 (srv_clock (link s) + (2 * CFG_HZ + 1))).
  rewrite time_gone by done.
  destruct (timeout_ack k (set_timeHandler TimeNone s1) m1) as
    (frame & s' & m' & -> & Hp' & Hl' & Hf & Hb' & Hc' & Htm' & Ha' & Hcf'); [by eapply progress_same|done| |].
  { change (tftp (set_timeHandler _ s1)) with (tftp s1). lia. }
  change (link (set_timeHandler _ s1)) with (link s1) in *.
  change (tftp (set_timeHandler _ s1)) with (tftp s1) in *.
  change (NetEthHdrSize (set_timeHandler _ s1)) with (NetEthHdrSize s1) in Hf.
  assert (Eh : NetEthHdrSize s1 = NetEthHdrSize s) by (unfold NetEthHdrSize; by rewrite Hcf1).
  rewrite Eh, Hhdr, Hb1 in Hf. rewrite Hl1 in Hl', Htm'.
  destruct (receive_ack (link s0) frame k b Hsrv Hf) as [Hsb Hsc].
  rewrite <- Hl' in Hsb, Hsc. rewrite some_bind. exists s', m'. split.
  - rewrite (pr_state _ _ _ _ _ _ _ _ _ Hp'). by rewrite decide_False by lia.
  - split; try done.
    + by rewrite Hb'.
    + by rewrite Hc', Hc1.
    + by rewrite Htm', Hsc.
    + rewrite Hsc. apply (Z.mod_pos_bound _ 4294967296). lia.
    + rewrite Ha'. change (arp (set_timeHandler TimeNone s1)) with (arp s1). by rewrite Ha1.
    + unfold NetEthHdrSize. rewrite Hcf'. change (cfg (set_timeHandler TimeNone s1)) with (cfg s1).
      rewrite Hcf1. exact Hhdr.
Qed.

(** ** Many turns *)

Definition good : bool * bool := (true, true).

Lemma turns_more evs1 evs2 s m s1 m1 :
  turns evs1 s m = Some (s1, m1, Continue) → turns (evs1 ++ evs2) s m = turns evs2 s1 m1.
Proof.
  revert s m. induction evs1 as [|ev evs1 IH]; intros s m; cbn [tftp_turns app].
  - by intros [= -> ->].
  - destruct (tftp_turn _ _ _ _ _ ev s m) as [[[s2 m2] r]|]; [|done]. rewrite !some_bind.
    destruct r; try done. apply IH.
Qed.

(** Of two consecutive turns one loses nothing. *)
Context (ev : nat → bool * bool) (Hev : ∀ j, ev j = good ∨ ev (S j) = good).

(** Up to the next block: [j] turns and one that brings it. *)
Definition next_block (k i j : nat) s m : Prop :=
  ∃ s' m', turns (map ev (seq i (S j))) s m = Some (s', m',
      if decide (length l < 512 * S k) then Success else Continue) ∧
    progress (S k) s' m' ∧
    (512 * S k ≤ length l → waiting (S k) 0 (snd (ev (i + j)%nat)) s' m').

Lemma next_block_now k c i s m :
  waiting k c true s m → fst (ev i) = true → next_block k i 0 s m.
Proof.
  intros Hw Hi. unfold next_block. rewrite Nat.add_0_r. destruct (ev i) as [d a] eqn:E.
  cbn in Hi. subst d. destruct (turn_accept k c a s m Hw) as (s' & m' & E1 & Hp & Hn).
  exists s', m'. split; [|done]. cbn [seq map tftp_turns]. rewrite E, E1, some_bind.
  by destruct (decide _).
Qed.

Lemma next_block_later k i j s m s1 m1 :
  turn (ev i) s m = Some (s1, m1, Continue) → next_block k (S i) j s1 m1 → next_block k i (S j) s m.
Proof.
  intros E (s' & m' & E1 & H1). exists s', m'.
  replace (i + S j)%nat with (S i + j)%nat by lia. split; [|done].
  rewrite <- E1. cbn [seq map tftp_turns]. by rewrite E, some_bind.
Qed.

(** The server sends the block. *)
Lemma next_block_sent k c i s m :
  waiting k c true s m → (0 < k)%nat → k mod 65536 ≠ 0 → c < 3 →
  ∃ j, (j < 2)%nat ∧ next_block k i j s m.
Proof.
  intros Hw Hk Hmod Hc. destruct (ev i) as [d a] eqn:E. destruct d.
  - exists 0%nat. split; [lia|]. eapply next_block_now; [done|by rewrite E].
  - destruct (turn_silent k c true false a s m) as (s1 & m1 & E1 & Hw1); [done..|].
    exists 1%nat. split; [lia|]. rewrite <- E in E1. eapply next_block_later; [done|].
    eapply next_block_now; [done|]. destruct (Hev i) as [Hg|Hg]; [by rewrite E in Hg|by rewrite Hg].
Qed.

(** The server may have to hear of the last block first. *)
Lemma next_block_soon k b i s m :
  waiting k 0 b s m → (b = false → ev i = good) → (0 < k)%nat → k mod 65536 ≠ 0 →
  ∃ j, (j < 3)%nat ∧ next_block k i j s m.
Proof.
  intros Hw Hb Hk Hmod. destruct b.
  - destruct (next_block_sent k 0 i s m) as (j & ? & ?); [done..|]. exists j. split; [lia|done].
  - destruct (turn_silent k 0 false true true s m) as (s1 & m1 & E1 & Hw1); [done..|].
    destruct (next_block_sent k 1 (S i) s1 m1) as (j & ? & ?); [done..|].
    exists (S j). split; [lia|]. eapply next_block_later; [|done]. by rewrite Hb.
Qed.

(** All remaining blocks. *)
Lemma remaining_blocks (n r k : nat) b i s m :
  512 * (n - 1) ≤ length l < 512 * n → n < 65536 → (k + r = n)%nat →
  waiting k 0 b s m → (b = false → ev i = good) → (0 < k)%nat →
  ∃ N s' m', (N ≤ 3 * r)%nat ∧
    turns (map ev (seq i N)) s m = Some (s', m', Success) ∧ progress n s' m'.
Proof.
  intros Hn Hlt. revert k b i s m. induction r as [|r IH]; intros k b i s m Hr Hw Hb Hk.
  { pose proof (wt_more _ _ _ _ _ Hw). lia. }
  destruct (next_block_soon k b i s m) as (j & Hj & s1 & m1 & E & Hp & Hnext); [done..| |].
  { rewrite Z.mod_small; lia. }
  destruct (decide (length l < 512 * S k)) as [Hlast|Hmore].
  - assert (S k = n) as <- by lia. exists (S j), s1, m1. split; [lia|]. done.
  - destruct (IH (S k) (snd (ev (i + j)%nat)) (i + S j)%nat s1 m1) as (N & s2 & m2 & HN & E2 & Hp2);
      [lia|apply Hnext; lia| |lia|].
    { intros Hf. replace (i + S j)%nat with (S (i + j)) by lia.
      destruct (Hev (i + j)) as [Hg|Hg]; [by rewrite Hg in Hf|done]. }
    exists (S j + N)%nat, s2, m2. split; [lia|]. split; [|done].
    rewrite seq_app, map_app. by erewrite turns_more.
Qed.
End turns.

(** C11: a transfer over a link that loses packets.  If of two consecutive
    turns one loses nothing, the client that waits for the first block of a
    file of [n] blocks has the whole file at the load address, and leaves the
    loop with success, after [3 * n] turns at most: a lost block or
    acknowledgement is made good by the timeout, before the third of them
    would start the transfer again. *)
Theorem tftp_completes do_bootm l rx port src mac s m (ev : nat → bool * bool) (n : nat) :
  Forall is_byte l →
  512 * (n - 1) ≤ length l < 512 * n → n < 65536 →
  placed s m rx (length l) mac → TftpOurPort (tftp s) = port →
  TftpState (tftp s) = STATE_RRQ → NetBootFileXferSize (loop s) = 0 →
  NetState (loop s) = NETLOOP_CONTINUE → TftpTimeoutCount (tftp s) = 0 →
  NetArpWaitPacketIP (arp s) = 0 → Z.to_nat (NetEthHdrSize s + 28) = hdr →
  srv_block (link s) = 1%nat → 0 ≤ srv_clock (link s) < 4294967296 →
  tmr s = Timer TimeTftp (srv_clock (link s)) (2 * CFG_HZ) →
  fst (ev 0%nat) = true → (∀ j, ev j = (true, true) ∨ ev (S j) = (true, true)) →
  ∃ N s' m', (N ≤ 3 * n)%nat ∧
    tftp_turns do_bootm l rx port src (map ev (seq 0 N)) s m = Some (s', m', Success) ∧
    bytes_at m' (load_addr (loop s)) l ∧ NetBootFileXferSize (loop s') = length l.
Proof.
  intros Hl Hn Hlt Hp Hpo Hst Hsz Hns Hct Harp Hh Hsrv Hcl Htm Hev0 Hev.
  assert (Hw : waiting l rx port src mac (load_addr (loop s)) 0 0 true s m).
  { split; try (done || lia). split; try (done || lia).
    - by left.
    - by rewrite decide_False by lia. }
  destruct (next_block_now do_bootm l rx port src mac _ Hl ev 0 0 0 s m Hw Hev0)
    as (s1 & m1 & E1 & Hp1 & Hw1).
  assert (Hend : ∃ N s' m', (N ≤ 3 * n)%nat ∧
    tftp_turns do_bootm l rx port src (map ev (seq 0 N)) s m = Some (s', m', Success) ∧
    progress l rx port src mac (load_addr (loop s)) n s' m').
  { destruct (decide (length l < 512 * 1%nat)) as [Hlast|Hmore].
    - assert (n = 1%nat) as -> by lia. exists 1%nat, s1, m1. split; [lia|done].
    - destruct (remaining_blocks do_bootm l rx port src mac (load_addr (loop s)) Hl ev Hev n (n - 1) 1
        (snd (ev 0%nat)) 1 s1 m1) as (N & s2 & m2 & HN & E2 & Hp2); [done|done|lia|apply Hw1; lia| |lia|].
      { intros Hf. destruct (Hev 0%nat) as [Hg|Hg]; [by rewrite Hg in Hf|done]. }
      exists (1 + N)%nat, s2, m2. split; [lia|]. split; [|done].
      rewrite seq_app, map_app. by erewrite turns_more. }
  destruct Hend as (N & s2 & m2 & HN & E2 & [_ Hba _ _ Hsz2 Hm2 _]).
  exists N, s2, m2. split; [done|]. split; [done|]. rewrite Hba in Hm2.
  rewrite take_ge in Hm2 by lia. split; [done|]. rewrite Hsz2. lia.
Qed.
End server.

(** ** The property at a concrete input *)

(** A client behind its request, with 600 bytes to come. *)
Definition sample_client : net server :=
  let s := sample_net our_ip server_ip in
  Net (bufs s) (cfg s) (arp s) (Timer TimeTftp 0 (2 * CFG_HZ)) (tftp s) (loop s) (environ s)
    (Server 1 true 0).

(** The acknowledgement of the first block is lost. *)
Lemma tftp_completes_witness :
  let l := replicate (Z.to_nat 600) 7 in
  let ev := λ j : nat, if decide (j = 0%nat) then (true, false) else (true, true) in
  ∃ N s' m', (N ≤ 3 * 2)%nat ∧
    tftp_turns 42 (λ s m, Some (s, m)) l 0x4000 1024 2048 (map ev (seq 0 N))
      sample_client (sample_mem (Z.to_nat 600)) = Some (s', m', Success) ∧
    bytes_at m' (load_addr (loop sample_client)) l ∧
    NetBootFileXferSize (loop s') = length l.
Proof.
  intros l ev. assert (Hlen : length l = Z.to_nat 600) by apply length_replicate.
  apply (tftp_completes 42 (λ s m, Some (s, m)) l 0x4000 1024 2048 sample_mac sample_client);
    try reflexivity.
  - apply Forall_replicate. unfold is_byte. lia.
  - rewrite Hlen. lia.
  - rewrite Hlen. apply (sample_placed _ (Z.to_nat 600)); [reflexivity| | |reflexivity|lia];
      unfold sample_client, our_ip, server_ip; simpl; lia.
  - simpl. lia.
  - intros j. right. reflexivity.
Defined.
