(* ===== verification/Netboot.v ===== *)
(** * The network loop and its commands ([net/net.c], [common/cmd_net.c])

    [NetLoop] from the reset of its state over the set-up of the interface to
    the result, and the commands [tftpboot] and [ping] around it.  The
    protocols are those of the commands this board compiles.  A frame the
    driver receives is put into one of the receive buffers and handed to
    [NetReceive].  Messages are left out. *)

From S2P Require Import Prelude.
From S2P Require Import CString.
From S2P Require Import Vsprintf.
From S2P Require Import NetAddr.
From S2P Require Import Env.
From S2P Require Import Net.
From S2P Require Import Tftp.

(** ** What the loop needs besides [Link] *)

Class Station (W : Type) := {
  station_link :: Link W;
  eth_set_current : W → env → mem → option (W * mem);
  dev_enetaddr : W → list Z;                  (* eth_get_dev()->enetaddr *)
  eth_get_dev_index : W → Z;
  rx_frames : W → W * list (nat * list Z);    (* eth_rx: number of the buffer, frame *)
  ctrlc : W → W * bool
}.

(** Addresses of the buffers and the string literals. *)
Record netlits := NetLits {
  PktBuf : Z;
  NetArpWaitPacketBuf : Z;
  sprintf_buf : Z;                 (* the local array buf or tmp *)
  lit_setenv : Z;                  (* "setenv" *)
  lit_ethact : Z;                  (* "ethact" *)
  lit_eth1 : Z;                    (* "eth1" *)
  lit_gatewayip : Z;               (* "gatewayip" *)
  lit_netmask : Z;                 (* "netmask" *)
  lit_vlan : Z;                    (* "vlan" *)
  lit_nvlan : Z;                   (* "nvlan" *)
  lit_serverip : Z;                (* "serverip" *)
  lit_ipaddr : Z;                  (* "ipaddr" *)
  lit_filesize : Z;                (* "filesize" *)
  lit_fileaddr : Z;                (* "fileaddr" *)
  lit_fmt_lx : Z;                  (* "%lx" *)
  lit_fmt_lX : Z;                  (* "%lX" *)
  lit_fmt_ip : Z;                  (* "%d.%d.%d.%d" *)
  lit_hostname : Z;                (* "hostname" *)
  lit_rootpath : Z;                (* "rootpath" *)
  lit_dnsip : Z;                   (* "dnsip" *)
  lit_domain : Z;                  (* "domain" *)
  lit_loadaddr : Z;                (* "loadaddr" *)
  lit_autostart : Z                (* "autostart" *)
}.

(** The variables only a BOOTP reply would set. *)
Record bootpvars := BootpVars {
  NetOurHostName : Z;
  NetOurRootPath : Z;
  NetOurNISDomain : Z;
  NetOurDNSIP : Z
}.

Inductive proto := TFTP | PING.

Definition PKTALIGN : Z := 32.
Definition PKTSIZE_ALIGN : Z := 1536.
Definition BOOTFILE_SIZE : Z := 128.

Section netboot.
Context {W : Type} `{Station W}.
Context (lits : netlits).
Context (do_bootm : net W → mem → option (net W * mem)).
Implicit Types (s : net W) (m : mem) (b : board).

(** ** The start *)

(** The first multiple of [PKTALIGN] in the buffer. *)
Definition align_packet (buf : Z) : Z :=
  let p := buf + (PKTALIGN - 1) in p - p mod PKTALIGN.

Definition NetRxPacket s (i : nat) : Z := NetTxPacket (bufs s) + (i + 1) * PKTSIZE_ALIGN.

(** The assignments at the beginning. *)
Definition net_reset s : net W :=
  let x := bufs s in
  let l := loop s in
  Net (Buffers (NetOurEther x) (NetServerEther x) (NetBcastAddr x) (NetEtherNullAddr x)
         (ping_mac x) (align_packet (PktBuf lits)) (align_packet (NetArpWaitPacketBuf lits))
         (default_filename x) (lit_netretry x) (lit_fmt_d x) (lit_fmt_img x) (lit_9f020000 x))
    (cfg s)
    (ArpWait 0 0 NULL 0 (NetArpWaitTimerStart (arp s)) (NetArpWaitTry (arp s)))
    (tmr s) (tftp s)
    (LoopSt (NetState l) (packetHandler l) (NetIPID l) (PingSeqNo l) (NetPingIP l)
       (NetBootFileXferSize l) (load_addr l) (BootFile l) (NetRestartWrap l) false false
       (fw_recovery l))
    (environ s) (link s).

(** The device: [eth_init] answers 0 or 1, so its failure is never noticed. *)
Definition net_device s m b : option (net W * mem * board) :=
  let s := set_link (eth_halt (link s)) s in
  '(m, b) ← setenv (environ s) m b (lit_setenv lits) (lit_ethact lits) (lit_eth1 lits);
  '(w, m) ← eth_set_current (link s) (environ s) m;
  '(w, m, wrapped) ← eth_init w (environ s) m;
  Some (set_wrap wrapped (set_link w s), m, b).

Definition getenv_IPaddr s m (var : Z) : option Z :=
  p ← getenv (environ s) m var; string_to_ip m p.

Definition getenv_VLAN s m (var : Z) : option Z :=
  p ← getenv (environ s) m var; string_to_VLAN m p.

(** The addresses of the interface. *)
Definition net_config s m b (protocol : proto) : option (net W) :=
  gateway ← getenv_IPaddr s m (lit_gatewayip lits);
  mask ← getenv_IPaddr s m (lit_netmask lits);
  vlan ← getenv_VLAN s m (lit_vlan lits);
  nvlan ← getenv_VLAN s m (lit_nvlan lits);
  server ← (match protocol with
            | TFTP => getenv_IPaddr s m (lit_serverip lits)
            | PING => Some (NetServerIP (cfg s))
            end);
  Some (set_cfg (IpCfg (bi_ip_addr b) server mask gateway vlan nvlan) s).

(** 0: go on, 1: not configured, 2: no address of the device. *)
Definition net_check_prereq s m (protocol : proto) : option (net W * mem * Z) :=
  if (match protocol with
      | PING => NetPingIP (loop s) =? 0
      | TFTP => NetServerIP (cfg s) =? 0
      end) then Some (s, m, 1) else
  if NetOurIP (cfg s) =? 0 then Some (s, m, 1) else
  mac ← ld_bytes m (NetOurEther (bufs s)) 6;
  if bool_decide (mac = replicate 6 0) then
    if eth_get_dev_index (link s) =? -1 then Some (s, m, 1)
    else '(s, m) ← NetStartAgain s m; Some (s, m, 2)
  else Some (s, m, 0).

Definition set_NetDevExists (v : bool) s : net W :=
  let l := loop s in
  set_loop (LoopSt (NetState l) (packetHandler l) (NetIPID l) (PingSeqNo l) (NetPingIP l)
    (NetBootFileXferSize l) (load_addr l) (BootFile l) (NetRestartWrap l) (NetRestarted l) v
    (fw_recovery l)) s.

Definition set_NetRestarted (v : bool) s : net W :=
  let l := loop s in
  set_loop (LoopSt (NetState l) (packetHandler l) (NetIPID l) (PingSeqNo l) (NetPingIP l)
    (NetBootFileXferSize l) (load_addr l) (BootFile l) (NetRestartWrap l) v (NetDevExists l)
    (fw_recovery l)) s.

Definition set_NetPingIP (v : Z) s : net W :=
  let l := loop s in
  set_loop (LoopSt (NetState l) (packetHandler l) (NetIPID l) (PingSeqNo l) v
    (NetBootFileXferSize l) (load_addr l) (BootFile l) (NetRestartWrap l) (NetRestarted l)
    (NetDevExists l) (fw_recovery l)) s.

(** From the label [restart] to the loop; [false] when it returns -1. *)
Definition net_restart s m b (protocol : proto) : option (net W * mem * bool) :=
  m ← st_bytes m (NetOurEther (bufs s)) (dev_enetaddr (link s));
  let s := set_NetState NETLOOP_CONTINUE s in
  s ← net_config s m b protocol;
  '(s, m, pre) ← net_check_prereq s m protocol;
  if pre =? 1 then Some (set_link (eth_halt (link s)) s, m, false)
  else if pre =? 2 then Some (s, m, true)
  else
    let s := set_NetDevExists true s in
    '(s, m) ← (match protocol with TFTP => TftpStart s m | PING => PingStart s m end);
    Some (set_NetBootFileXferSize 0 s, m, true).

(** ** The loop *)

(** The driver writes the frames into the receive buffers. *)
Definition rx_dma s m (frames : list (nat * list Z)) : mem :=
  foldl (λ m '(i, f), write_bytes m (NetRxPacket s i) f) m frames.

(** One round of [for (;;)] and what the label [restart] does before it when
    [restart] holds. *)
Definition net_round b (protocol : proto) : net W * mem * bool →
    option (ctl (net W * mem * bool) (net W * mem * round_result)) := λ '(s, m, restart),
  if restart : bool then
    '(s, m, go_on) ← net_restart s m b protocol;
    Some (if go_on : bool then Next (s, m, false) else Done (s, m, Failed))
  else
    let '(w, frames) := rx_frames (link s) in
    let s := set_link w s in
    let m := rx_dma s m frames in
    let rx := map (λ '(i, f), (NetRxPacket s i, Z.of_nat (length f))) frames in
    let '(w, stop) := ctrlc (link s) in
    '(s, m, r) ← NetLoop_round do_bootm (set_link w s) m rx stop;
    Some (match r with
          | Continue => Next (s, m, false)
          | Restart => Next (set_NetRestarted true s, m, true)
          | _ => Done (s, m, r)
          end).

Definition net_rounds s m b (protocol : proto) : option (net W * mem * round_result) :=
  while (net_round b protocol) (s, m, true).

(** The variables of a successful transfer. *)
Definition net_success s m b : option (mem * board) :=
  if NetBootFileXferSize (loop s) >? 0 then
    let buf := sprintf_buf lits in
    '(m, _) ← sprintf m buf (lit_fmt_lx lits) [NetBootFileXferSize (loop s)];
    '(m, b) ← setenv (environ s) m b (lit_setenv lits) (lit_filesize lits) buf;
    '(m, _) ← sprintf m buf (lit_fmt_lX lits) [load_addr (loop s)];
    setenv (environ s) m b (lit_setenv lits) (lit_fileaddr lits) buf
  else Some (m, b).

Definition NetLoop s m b (protocol : proto) : option (net W * mem * board * Z) :=
  let s := net_reset s in
  '(s, m, b) ← net_device s m b;
  '(s, m, r) ← net_rounds s m b protocol;
  match r with
  | Success =>
      '(m, b) ← net_success s m b;
      Some (set_link (eth_halt (link s)) s, m, b, NetBootFileXferSize (loop s))
  | _ => Some (s, m, b, -1)
  end.

(** ** The commands ([common/cmd_net.c]) *)

(** One address of [netboot_update_env]. *)
Definition update_ip s m b (ip var : Z) : option (mem * board) :=
  if ip =? 0 then Some (m, b) else
  '(m, _) ← ip_to_string m (lit_fmt_ip lits) ip (sprintf_buf lits);
  setenv (environ s) m b (lit_setenv lits) var (sprintf_buf lits).

(** One name of [netboot_update_env]. *)
Definition update_name s m b (value var : Z) : option (mem * board) :=
  c ← ld m value;
  if c =? 0 then Some (m, b) else setenv (environ s) m b (lit_setenv lits) var value.

Definition netboot_update_env (v : bootpvars) s m b : option (mem * board) :=
  '(m, b) ← update_ip s m b (NetOurGatewayIP (cfg s)) (lit_gatewayip lits);
  '(m, b) ← update_ip s m b (NetOurSubnetMask (cfg s)) (lit_netmask lits);
  '(m, b) ← update_name s m b (NetOurHostName v) (lit_hostname lits);
  '(m, b) ← update_name s m b (NetOurRootPath v) (lit_rootpath lits);
  '(m, b) ← update_ip s m b (NetOurIP (cfg s)) (lit_ipaddr lits);
  '(m, b) ← update_ip s m b (NetServerIP (cfg s)) (lit_serverip lits);
  '(m, b) ← update_ip s m b (NetOurDNSIP v) (lit_dnsip lits);
  update_name s m b (NetOurNISDomain v) (lit_domain lits).

(** The arguments: an address, a file name in quotes, or both; [None] inside
    is the wrong number of them. *)
Definition netboot_args s m (argc : Z) (argv : list Z) : option (option (net W * mem)) :=
  if argc =? 1 then Some (Some (s, m))
  else if argc =? 2 then
    argv1 ← argv !! 1%nat;
    c ← ld m argv1;
    if c =? 34 then
      m ← copy_filename m (BootFile (loop s)) argv1 BOOTFILE_SIZE; Some (Some (s, m))
    else
      '(a, _) ← simple_strtoul m argv1 16; Some (Some (set_load_addr a s, m))
  else if argc =? 3 then
    argv1 ← argv !! 1%nat;
    '(a, _) ← simple_strtoul m argv1 16;
    argv2 ← argv !! 2%nat;
    m ← copy_filename m (BootFile (loop s)) argv2 BOOTFILE_SIZE;
    Some (Some (set_load_addr a s, m))
  else Some None.

(** [autoboot] is [do_bootm] as the command calls it, with one argument. *)
Definition netboot_common (v : bootpvars)
    (autoboot : net W → mem → board → option (net W * mem * board * Z))
    (protocol : proto) s m b (argc : Z) (argv : list Z) : option (net W * mem * board * Z) :=
  p ← getenv (environ s) m (lit_loadaddr lits);
  s ← (if p =? NULL then Some s
       else '(a, _) ← simple_strtoul m p 16; Some (set_load_addr a s));
  o ← netboot_args s m argc argv;
  match o with
  | None => Some (s, m, b, 1)
  | Some (s, m) =>
      '(s, m, b, size) ← NetLoop s m b protocol;
      if size <? 0 then Some (s, m, b, 1) else
      '(m, b) ← netboot_update_env v s m b;
      if size =? 0 then Some (s, m, b, 0) else
      p ← getenv (environ s) m (lit_autostart lits);
      auto ← (if p =? NULL then Some false
              else r ← strcmp_lit m p (lit "yes"); Some (r =? 0));
      if auto : bool then autoboot s m b else Some (s, m, b, 0)
  end.

Definition do_tftpb (v : bootpvars)
    (autoboot : net W → mem → board → option (net W * mem * board * Z)) s m b
    (argc : Z) (argv : list Z) : option (net W * mem * board * Z) :=
  netboot_common v autoboot TFTP s m b argc argv.

Definition do_ping s m b (argc : Z) (argv : list Z) : option (net W * mem * board * Z) :=
  if argc <? 2 then Some (s, m, b, -1) else
  argv1 ← argv !! 1%nat;
  ip ← string_to_ip m argv1;
  let s := set_NetPingIP ip s in
  if NetPingIP (loop s) =? 0 then Some (s, m, b, -1) else
  '(s, m, b, r) ← NetLoop s m b PING;
  Some (s, m, b, if r <? 0 then 1 else 0).
End netboot.
