(* ===== verification/Ping.v ===== *)
(** * An unanswered ping

    [do_ping] on a network that stays silent: the loop of [NetLoop] ends with
    the timeout of the ping.  The ten seconds of the source are [10 * CFG_HZ]
    ticks, which is more than 32 bits hold: what is left of them are 1.74
    seconds, and the five seconds after which the address would be asked for
    again do not go by before. *)

From S2P Require Import Prelude.
From S2P Require Import Timer.
From S2P Require Import CString.
From S2P Require Import Vsprintf.
From S2P Require Import NetAddr.
From S2P Require Import Env.
From S2P Require Import Eth.
From S2P Require Import Net.
From S2P Require Import Tftp.
From S2P Require Import Netboot.

(** ** The station and the places *)

(** The timeout of the ping and the one of a request for an address, as the
    32-bit comparisons see them. *)
Definition ping_time : Z := u32 (10 * CFG_HZ).
Definition arp_time : Z := u32 (ARP_TIMEOUT * CFG_HZ).

Lemma ping_times : ping_time = 905032704 ∧ arp_time = 2600000000.
Proof. done. Qed.

(** No frame and no key ever comes; a round takes up to [step] ticks. *)
Record silent (W : Type) `{Station W} (step : Z) : Prop := Silent {
  si_clock : ∀ w : W, 0 ≤ get_timer w < 4294967296;
  si_rx : ∀ w : W, ∃ w' d, rx_frames w = (w', []) ∧ get_timer w' = u32 (get_timer w + d) ∧ 1 ≤ d ≤ step;
  si_key : ∀ w : W, ∃ w', ctrlc w = (w', false) ∧ get_timer w' = get_timer w;
  si_send : ∀ (w : W) f, get_timer (eth_send w f) = get_timer w;
  si_halt : ∀ w : W, get_timer (eth_halt w) = get_timer w
}.

(** The arrays of the network code. *)
Definition net_areas (x : buffers) : list (Z * Z) :=
  [(NetTxPacket x, 1536); (NetArpWaitTxPacket x, 1536); (ping_mac x, 6); (NetOurEther x, 6);
   (NetBcastAddr x, 6); (NetEtherNullAddr x, 6)].

Record net_arrays {W} (s : net W) (m : mem) (our : list Z) : Prop := NetArrays {
  na_apart : ForallOrdPairs apart (net_areas (bufs s));
  na_tx : owned m (NetTxPacket (bufs s)) 1536;
  na_wait : owned m (NetArpWaitTxPacket (bufs s)) 1536;
  na_ping : owned m (ping_mac (bufs s)) 6;
  na_our : length our = 6%nat ∧ Forall is_byte our ∧ bytes_at m (NetOurEther (bufs s)) our;
  na_bcast : bytes_at m (NetBcastAddr (bufs s)) (replicate 6 255);
  na_null : bytes_at m (NetEtherNullAddr (bufs s)) (replicate 6 0);
  na_ip : is_ip (NetOurIP (cfg s)) ∧ is_ip (NetOurGatewayIP (cfg s))
}.

(** A name of a variable is short and has no [=]. *)
Ltac name_ok :=
  first [ unfold fits; vm_compute; reflexivity
        | vm_compute; intros Hin;
          repeat (apply elem_of_cons in Hin as [Hin|Hin]; [discriminate|]);
          by apply not_elem_of_nil in Hin ].

Section ping.
Context {W : Type} `{Station W} (lits : netlits).
Context (do_bootm : net W → mem → option (net W * mem)).
Context (step : Z) (Hw : silent W step) (Hstep : 1 ≤ step) (Hslow : ping_time + step ≤ arp_time).
Implicit Types (s : net W) (m : mem) (b : board).

Lemma net_apart s m our :
  net_arrays s m our →
  let x := bufs s in
  (apart (NetTxPacket x, 1536) (NetOurEther x, 6) ∧ apart (NetTxPacket x, 1536) (NetBcastAddr x, 6) ∧
   apart (NetTxPacket x, 1536) (NetEtherNullAddr x, 6)) ∧
  (apart (NetArpWaitTxPacket x, 1536) (ping_mac x, 6) ∧
   apart (NetArpWaitTxPacket x, 1536) (NetOurEther x, 6) ∧
   apart (NetArpWaitTxPacket x, 1536) (NetBcastAddr x, 6) ∧
   apart (NetArpWaitTxPacket x, 1536) (NetEtherNullAddr x, 6)) ∧
  (apart (ping_mac x, 6) (NetOurEther x, 6) ∧ apart (ping_mac x, 6) (NetBcastAddr x, 6) ∧
   apart (ping_mac x, 6) (NetEtherNullAddr x, 6)).
Proof.
  intros [Ha _ _ _ _ _ _ _] x. fold x in Ha. unfold net_areas in Ha.
  repeat match goal with H : ForallOrdPairs _ (_ :: _) |- _ => inversion H; subst; clear H end.
  rewrite !Forall_cons_iff in *. tauto.
Qed.

(** A change of the packets and the address of the ping keeps the arrays. *)
Lemma net_arrays_touched s s' m m' our :
  net_arrays s m our → bufs s' = bufs s → is_ip (NetOurIP (cfg s')) ∧ is_ip (NetOurGatewayIP (cfg s')) →
  touches (inside (take 3 (net_areas (bufs s)))) m m' → net_arrays s' m' our.
Proof.
  intros Hn Eb Hip Ht. destruct (net_apart s m our Hn) as ((A1 & A2 & A3) & (_ & B2 & B3 & B4) & C1 & C2 & C3).
  destruct Hn as [Ha H1 H2 H3 (L1 & L2 & L3) H5 H6 _].
  assert (Hout : ∀ a, apart (NetTxPacket (bufs s), 1536) (a, 6) → apart (NetArpWaitTxPacket (bufs s), 1536) (a, 6) →
    apart (ping_mac (bufs s), 6) (a, 6) → ∀ j, a ≤ j < a + 6 → ¬ inside (take 3 (net_areas (bufs s))) j).
  { unfold apart, inside. cbn [fst snd take net_areas]. intros a D1 D2 D3 j Hj Hi.
    rewrite !Exists_cons, Exists_nil in Hi. cbn [fst snd] in Hi. lia. }
  split; rewrite ?Eb; try done.
  - by eapply touches_owned.
  - by eapply touches_owned.
  - by eapply touches_owned.
  - split; [done|]. split; [done|]. eapply touches_bytes; [exact Ht| |done].
    rewrite L1. by apply Hout.
  - eapply touches_bytes; [exact Ht| |done]. by apply Hout.
  - eapply touches_bytes; [exact Ht| |done]. by apply Hout.
Qed.

Lemma arp_target_ip s our m :
  net_arrays s m our → is_ip (NetArpWaitPacketIP (arp s)) → is_ip (arp_target s).
Proof. intros [_ _ _ _ _ _ _ [_ Hg]] Hp. unfold arp_target. by repeat case_match. Qed.

(** Asking for the address. *)
Lemma ArpRequest_arrays s m our :
  net_arrays s m our → is_ip (NetArpWaitPacketIP (arp s)) →
  ∃ frame m', ArpRequest s m =
      Some (set_link (eth_send (link s) frame) (set_NetArpWaitReplyIP (arp_target s) s), m') ∧
    net_arrays s m' our ∧ touches (inside (take 3 (net_areas (bufs s)))) m m'.
Proof.
  intros Hn Hp. destruct (net_apart s m our Hn) as ((A1 & A2 & _) & _). assert (Hn' := Hn).
  destruct Hn' as [_ H1 _ _ (L1 & L2 & L3) H5 _ [Hi _]].
  destruct (ArpRequest_frame s m our (replicate 6 255)) as (frame & m' & E & C & _); try done.
  - apply Forall_replicate. unfold is_byte. lia.
  - by eapply arp_target_ip.
  - assert (Ht : touches (inside (take 3 (net_areas (bufs s)))) m m').
    { eapply touches_changed; [exact C|]. intros j Hj. left. exact Hj. }
    exists frame, m'. split; [done|]. split; [|done]. by eapply net_arrays_touched; [..|apply Hn|].
Qed.

(** ** The rounds *)

(** [e] ticks after the start of the ping, when the address was asked for. *)
Record pinging (our : list Z) (t0 e : Z) s m : Prop := Pinging {
  pg_arrays : net_arrays s m our;
  pg_state : NetState (loop s) = NETLOOP_CONTINUE;
  pg_timer : tmr s = Timer TimePing t0 ping_time;
  pg_time : 0 ≤ t0 < 4294967296 ∧ 0 ≤ e ≤ ping_time ∧ get_timer (link s) = u32 (t0 + e);
  pg_ip : is_ip (NetArpWaitPacketIP (arp s)) ∧ NetArpWaitPacketIP (arp s) ≠ 0;
  pg_asked : NetArpWaitTimerStart (arp s) = t0 ∧ NetArpWaitTry (arp s) = 1
}.

Lemma elapsed_start t0 e : 0 ≤ t0 < 4294967296 → 0 ≤ e < 4294967296 → u32 (u32 (t0 + e) - t0) = e.
Proof. intros Ht He. unfold u32. rewrite Zminus_mod_idemp_l. rewrite Z.mod_small; lia. Qed.

(** [ArpTimeoutCheck] does nothing meanwhile. *)
Lemma arp_check t0 e s m :
  0 ≤ t0 < 4294967296 → 0 ≤ e ≤ ping_time + step → get_timer (link s) = u32 (t0 + e) →
  NetArpWaitTimerStart (arp s) = t0 → ArpTimeoutCheck s m = Some (s, m).
Proof using Hslow.
  intros Ht0 He Hg Ha. pose proof ping_times as [Ep Ea]. unfold ArpTimeoutCheck. fold arp_time.
  destruct (NetArpWaitPacketIP (arp s) =? 0); [done|].
  rewrite Hg, Ha, elapsed_start, Z.gtb_ltb, (proj2 (Z.ltb_ge _ _)) by lia. done.
Qed.

(** How the ping ends: later than its timeout, but by one round at most, and
    with the one request for the address. *)
Definition ping_over (t0 : Z) s : Prop :=
  ∃ e, ping_time < e ≤ ping_time + step ∧ get_timer (link s) = u32 (t0 + e) ∧ NetArpWaitTry (arp s) = 1.

(** One round: the ping goes on, or its timeout ends the loop. *)
Lemma ping_round our t0 e s m b :
  pinging our t0 e s m →
  (∃ e' s' m', net_round lits do_bootm b PING (s, m, false) = Some (Next (s', m', false)) ∧
     pinging our t0 e' s' m' ∧ e < e') ∨
  ∃ s' m', net_round lits do_bootm b PING (s, m, false) = Some (Done (s', m', Failed)) ∧ ping_over t0 s'.
Proof using All.
  intros [Hn Hst Htm (Ht0 & He & Hg) Hip [Ha Htry]]. pose proof ping_times as [Ep Ea]. unfold net_round.
  destruct (si_rx _ _ Hw (link s)) as (w1 & d & -> & Hg1 & Hd). cbn [rx_dma foldl map].
  cbn [link set_link]. destruct (si_key _ _ Hw w1) as (w2 & -> & Hg2).
  set (s2 := set_link w2 _).
  assert (Hg' : get_timer (link s2) = u32 (t0 + (e + d))).
  { change (link s2) with w2. rewrite Hg2, Hg1, Hg. unfold u32. rewrite Zplus_mod_idemp_l. f_equal. lia. }
  assert (Hn2 : net_arrays s2 m our) by (eapply net_arrays_touched; [exact Hn|done|apply Hn|apply touches_refl]).
  unfold NetLoop_round. cbn [eth_rx]. rewrite some_bind.
  rewrite (arp_check t0 (e + d) s2 m) by (done || lia). rewrite some_bind.
  change (tmr s2) with (tmr s). rewrite Htm. cbn [timeHandler timeStart timeDelta].
  rewrite Hg', elapsed_start by lia.
  rewrite Z.gtb_ltb. destruct (Z.ltb_spec ping_time (e + d)) as [Hlate|Hmore].
  - right. unfold call_timeHandler. change (tmr s2) with (tmr s). rewrite Htm.
    cbn [timeHandler]. rewrite !some_bind. do 2 eexists. split; [reflexivity|]. exists (e + d).
    split; [lia|]. split; [|exact Htry]. cbn [PingTimeout link set_NetState set_loop set_link]. by rewrite (si_halt _ _ Hw).
  - left. rewrite some_bind. change (loop s2) with (loop s). rewrite Hst.
    exists (e + d), s2, m. split; [done|]. split; [|lia].
    split; [done|done|done|split; [done|split; [lia|done]]|done|done].
Qed.

(** ** The start *)

Lemma pinging_same our t0 e s s' m :
  pinging our t0 e s m → bufs s' = bufs s → cfg s' = cfg s → arp s' = arp s → tmr s' = tmr s →
  link s' = link s → NetState (loop s') = NetState (loop s) → pinging our t0 e s' m.
Proof.
  intros [Hn H1 H2 H3 H4 H5] E1 E2 E3 E4 E5 E6. split; rewrite ?E3, ?E4, ?E5, ?E6; try done.
  eapply net_arrays_touched; [exact Hn|done|rewrite E2; apply Hn|apply touches_refl].
Qed.

Lemma PingStart_pinging our s m :
  net_arrays s m our → NetState (loop s) = NETLOOP_CONTINUE →
  is_ip (NetPingIP (loop s)) → NetPingIP (loop s) ≠ 0 →
  ∃ s' m', PingStart s m = Some (s', m') ∧ pinging our (get_timer (link s)) 0 s' m'.
Proof.
  intros Hn Hst Hip Hne. unfold PingStart. fold ping_time.
  unfold NetSetTimeout. rewrite (proj2 (Z.eqb_neq ping_time 0)) by done.
  set (s1 := NetSetHandler _ RxPing).
  assert (Hn1 : net_arrays s1 m our) by (eapply net_arrays_touched; [exact Hn|done|apply Hn|apply touches_refl]).
  destruct (net_apart s1 m our Hn1) as (_ & (B1 & B2 & _) & C1 & _ & C3).
  assert (Hn1' := Hn1). destruct Hn1' as [_ _ G2 G3 (L1 & L2 & L3) _ G6 _].
  destruct (PingSend_spec s1 m our) as (s2 & m2 & -> & Ht & Eb & Ec & Et & El & Es & _ & Ea); try done.
  unfold start_arp. set (s3 := set_NetArpWaitTimerStart _ _).
  assert (Hn3 : net_arrays s3 m2 our).
  { eapply net_arrays_touched; [exact Hn1|done| |].
    - change (cfg s3) with (cfg s2). rewrite Ec. apply Hn.
    - eapply touches_areas; [exact Ht|]. intros x Hx. destruct Hx as [<-|[<-|[]]]; cbn; tauto. }
  assert (Eip : NetArpWaitPacketIP (arp s3) = NetPingIP (loop s)) by exact Ea.
  destruct (ArpRequest_arrays s3 m2 our Hn3) as (frame & m' & -> & Hn' & _); [by rewrite Eip|].
  do 2 eexists. split; [reflexivity|]. pose proof (si_clock _ _ Hw (link s)) as Hcl.
  split.
  - eapply net_arrays_touched; [exact Hn'|done|apply Hn'|apply touches_refl].
  - change (NetState (loop s2) = NETLOOP_CONTINUE). by rewrite Es.
  - exact Et.
  - split; [done|]. split; [split; [lia|done]|]. cbn [link set_link]. rewrite (si_send _ _ Hw).
    change (link s3) with (link s2). rewrite El, Z.add_0_r. by rewrite u32_small.
  - change (is_ip (NetArpWaitPacketIP (arp s3)) ∧ NetArpWaitPacketIP (arp s3) ≠ 0). by rewrite Eip.
  - change (get_timer (link s2) = get_timer (link s) ∧ 1 = 1). by rewrite El.
Qed.

(** The variables of the interface have values. *)
Lemma getenv_IPaddr_total s m es var n :
  entries_at m (env_base (environ s)) es → length (flat es) < CFG_ENV_SIZE → 0 ≤ env_base (environ s) →
  cstr m var n → 61 ∉ n → fits n → ∃ v, getenv_IPaddr s m var = Some v ∧ is_ip v.
Proof.
  intros He Hl Hb Hn H61 Hf. unfold getenv_IPaddr.
  destruct (getenv_place (environ s) m es var n He Hl Hn H61 Hf) as (p & -> & Hp). rewrite some_bind.
  destruct (decide (p = 0)) as [->|Hp0]; [by exists 0|].
  destruct (lookup_env n es) as [v|]; [|done]. destruct Hp as [Hp Hv].
  apply (string_to_ip_total m p v Hv); [unfold fits, CFG_ENV_SIZE in *; lia|lia].
Qed.

Lemma getenv_VLAN_total s m es var n :
  entries_at m (env_base (environ s)) es → length (flat es) < CFG_ENV_SIZE →
  cstr m var n → 61 ∉ n → fits n → ∃ v, getenv_VLAN s m var = Some v.
Proof.
  intros He Hl Hn H61 Hf. unfold getenv_VLAN.
  destruct (getenv_place (environ s) m es var n He Hl Hn H61 Hf) as (p & -> & Hp). rewrite some_bind.
  destruct (lookup_env n es) as [v|]; [|by rewrite Hp; eexists]. destruct Hp as [Hp Hv].
  apply (string_to_VLAN_total m p v Hv). unfold fits, CFG_ENV_SIZE in *. lia.
Qed.

(** What the device set-up leaves: the arrays, the address of the device, the
    environment and the names of the variables apart from it, our address and
    the one to ping. *)
Record ping_ready s m b (es : list entry) : Prop := PingReady {
  rp_arrays : ∃ our0, net_arrays s m our0;
  rp_mac : length (dev_enetaddr (link s)) = 6%nat ∧ Forall is_byte (dev_enetaddr (link s)) ∧
    dev_enetaddr (link s) ≠ replicate 6 0;
  rp_env : entries_at m (env_base (environ s)) es ∧ length (flat es) < CFG_ENV_SIZE ∧
    0 ≤ env_base (environ s) ∧
    apart (NetOurEther (bufs s), 6) (env_base (environ s), length (flat es) + 1);
  rp_lits : Forall (λ '(p, n), cstr m p n ∧ apart (NetOurEther (bufs s), 6) (p, length n + 1))
    [(lit_gatewayip lits, lit "gatewayip"); (lit_netmask lits, lit "netmask");
     (lit_vlan lits, lit "vlan"); (lit_nvlan lits, lit "nvlan")];
  rp_ip : is_ip (bi_ip_addr b) ∧ bi_ip_addr b ≠ 0;
  rp_target : is_ip (NetPingIP (loop s)) ∧ NetPingIP (loop s) ≠ 0
}.

Lemma net_restart_ping s m b es :
  ping_ready s m b es →
  ∃ s' m', net_restart lits s m b PING = Some (s', m', true) ∧
    pinging (dev_enetaddr (link s)) (get_timer (link s)) 0 s' m'.
Proof.
  intros [(our0 & Hn) (M1 & M2 & M3) (Ev1 & Ev2 & Ev3 & Ev4) Hlits (I1 & I2) (T1 & T2)].
  set (our := dev_enetaddr (link s)) in *. unfold net_restart. fold our.
  assert (Ho : owned m (NetOurEther (bufs s)) 6).
  { destruct Hn as [_ _ _ _ (L1 & _ & L3) _ _ _]. apply bytes_at_owned in L3. by rewrite L1 in L3. }
  rewrite st_bytes_write by (by rewrite M1). rewrite some_bind, map_u8_bytes by done.
  set (m1 := write_bytes m (NetOurEther (bufs s)) our).
  assert (C : changed (NetOurEther (bufs s)) (NetOurEther (bufs s) + 6) m m1) by (apply changed_write; lia).
  set (s1 := set_NetState NETLOOP_CONTINUE s). unfold apart in Ev4. cbn [fst snd] in Ev4.
  assert (He1 : entries_at m1 (env_base (environ s1)) es).
  { destruct Ev1 as [E1 E2]. split; [|done]. eapply changed_bytes; [exact C| |exact E1].
    change (environ s1) with (environ s). rewrite length_app. cbn [length]. lia. }
  assert (Hl1 : Forall (λ '(p, n), cstr m1 p n)
    [(lit_gatewayip lits, lit "gatewayip"); (lit_netmask lits, lit "netmask");
     (lit_vlan lits, lit "vlan"); (lit_nvlan lits, lit "nvlan")]).
  { eapply Forall_impl; [|exact Hlits]. intros [p n] [Hc Hd]. unfold apart in Hd. cbn [fst snd] in Hd.
    eapply changed_cstr; [exact C|lia|done]. }
  rewrite !Forall_cons_iff in Hl1. destruct Hl1 as (K1 & K2 & K3 & K4 & _).
  unfold net_config.
  destruct (getenv_IPaddr_total s1 m1 es _ _ He1 Ev2 Ev3 K1) as (gw & -> & Hgw); [name_ok..|].
  destruct (getenv_IPaddr_total s1 m1 es _ _ He1 Ev2 Ev3 K2) as (mask & -> & Hmask); [name_ok..|].
  destruct (getenv_VLAN_total s1 m1 es _ _ He1 Ev2 K3) as (vlan & ->); [name_ok..|].
  destruct (getenv_VLAN_total s1 m1 es _ _ He1 Ev2 K4) as (nvlan & ->); [name_ok..|].
  rewrite !some_bind. set (s2 := set_cfg _ s1).
  assert (Hn2 : net_arrays s2 m1 our).
  { destruct (net_apart s m our0 Hn) as ((A1 & A2 & A3) & (B1 & B2 & B3 & B4) & C1 & C2 & C3).
    assert (Hd : apart (NetOurEther (bufs s), 6) (NetBcastAddr (bufs s), 6) ∧
      apart (NetOurEther (bufs s), 6) (NetEtherNullAddr (bufs s), 6)).
    { destruct Hn as [Ha _ _ _ _ _ _ _]. unfold net_areas in Ha.
      repeat match goal with H : ForallOrdPairs _ (_ :: _) |- _ => inversion H; subst; clear H end.
      rewrite !Forall_cons_iff in *. tauto. }
    unfold apart in *. cbn [fst snd] in *.
    destruct Hn as [Ha H1 H2 H3 _ H5 H6 _]. split; try done.
    - by eapply changed_owned.
    - by eapply changed_owned.
    - by eapply changed_owned.
    - split; [done|]. split; [done|]. apply write_bytes_in.
    - eapply changed_bytes; [exact C| |done]. cbn. lia.
    - eapply changed_bytes; [exact C| |done]. cbn. lia. }
  unfold net_check_prereq. change (NetPingIP (loop s2)) with (NetPingIP (loop s)).
  rewrite (proj2 (Z.eqb_neq _ _) T2). change (NetOurIP (cfg s2)) with (bi_ip_addr b).
  rewrite (proj2 (Z.eqb_neq _ _) I2).
  pose proof (na_our _ _ _ Hn2) as (L1 & _ & L3). pose proof (ld_bytes_at _ _ _ L3) as Hld.
  rewrite L1 in Hld. rewrite Hld, some_bind.
  rewrite bool_decide_eq_false_2 by done. rewrite some_bind.
  change (0 =? 1) with false. change (0 =? 2) with false. cbv iota.
  destruct (PingStart_pinging our (set_NetDevExists true s2) m1) as (s3 & m3 & -> & Hp); try done.
  { eapply net_arrays_touched; [exact Hn2|done|apply Hn2|apply touches_refl]. }
  rewrite some_bind. do 2 eexists. split; [reflexivity|]. by eapply pinging_same.
Qed.

(** The loop. *)
Lemma net_rounds_ping s m b es :
  ping_ready s m b es →
  ∃ s' m', net_rounds lits do_bootm s m b PING = Some (s', m', Failed) ∧ ping_over (get_timer (link s)) s'.
Proof using All.
  intros Hr. destruct (net_restart_ping s m b es Hr) as (s1 & m1 & E1 & Hp1). pose proof ping_times as [Ep _].
  set (our := dev_enetaddr (link s)) in *. set (t0 := get_timer (link s)) in *. unfold net_rounds.
  destruct (while_rule (net_round lits do_bootm b PING)
    (λ '(s2, m2, restart), (restart = true ∧ s2 = s ∧ m2 = m) ∨
       (restart = false ∧ ∃ e, pinging our t0 e s2 m2))
    (λ '(s2, _, restart), if restart : bool then ping_time + 1
       else ping_time - u32 (get_timer (link s2) - t0))
    (λ '(s2, _, r), r = Failed ∧ ping_over t0 s2) (s, m, true)) as ([[s' m'] r] & E & -> & Ho); [| | |by exists s', m'].
  - intros [[s2 m2] restart] [(-> & -> & ->)|(-> & e & Hp)].
    + unfold net_round at 1. rewrite E1, some_bind. eexists. split; [reflexivity|]. cbv beta iota.
      split; [right; split; [done|by exists 0]|]. destruct Hp1 as [_ _ _ (Ht & _ & Hg) _ _].
      rewrite Hg, elapsed_start by lia. lia.
    + assert (Hp' := Hp). destruct Hp' as [_ _ _ (Ht & He & Hg) _ _].
      destruct (ping_round our t0 e s2 m2 b Hp) as [(e' & s3 & m3 & E3 & Hp3 & Hlt)|(s3 & m3 & E3 & Ho)].
      * rewrite E3. eexists. split; [reflexivity|]. cbv beta iota. split; [right; split; [done|by exists e']|].
        destruct Hp3 as [_ _ _ (_ & He3 & Hg3) _ _]. rewrite Hg, Hg3, !elapsed_start by lia. lia.
      * rewrite E3. eexists. split; [reflexivity|]. done.
  - by left.
  - lia.
Qed.
End ping.

(** C29: [ping] on a network where no frame ever comes ends, and answers 1
    (not alive).  It lasts [ping_time] ticks and at most one round more: the
    [10 * CFG_HZ] of the source have lost their upper bits, and the address is
    asked for once only, since the five seconds before the second request do
    not go by.  (A round must not last longer than the difference of the two,
    about three seconds.) *)
Theorem ping_unanswered {W} `{Station W} lits do_bootm step (s s1 : net W) m m1 b b1 es argc argv argv1 ip :
  silent W step → 1 ≤ step → ping_time + step ≤ arp_time →
  2 ≤ argc → argv !! 1%nat = Some argv1 → string_to_ip m argv1 = Some ip → ip ≠ 0 →
  net_device lits (net_reset lits (set_NetPingIP ip s)) m b = Some (s1, m1, b1) →
  ping_ready lits s1 m1 b1 es →
  ∃ s' m', do_ping lits do_bootm s m b argc argv = Some (s', m', b1, 1) ∧
    ping_over step (get_timer (link s1)) s'.
Proof.
  intros Hw Hstep Hslow Hargc Hargv Hip Hne Hdev Hr. unfold do_ping.
  rewrite (proj2 (Z.ltb_ge argc 2)) by lia. rewrite Hargv, some_bind, Hip, some_bind.
  change (NetPingIP (loop (set_NetPingIP ip s))) with ip. rewrite (proj2 (Z.eqb_neq ip 0)) by done.
  unfold NetLoop. rewrite Hdev, some_bind.
  destruct (net_rounds_ping lits do_bootm step Hw Hstep Hslow s1 m1 b1 es Hr) as (s' & m' & -> & Ho).
  rewrite !some_bind. by exists s', m'.
Qed.

(** ** The property at a concrete input *)

(** A station where nothing but the clock moves, a tenth of a second in every
    round. *)
#[local] Instance quiet_link : Link Z := {
  eth_send w f := w;
  get_timer w := u32 w;
  eth_halt w := w;
  eth_init w e m := Some (w, m, false);
  eth_try_another w e m first := Some (w, m, first)
}.

#[local] Instance quiet_station : Station Z := {
  eth_set_current w e m := Some (w, m);
  dev_enetaddr w := [2; 0; 0; 0; 0; 1];
  eth_get_dev_index w := 0;
  rx_frames w := (w + 52000000, []);
  ctrlc w := (w, false)
}.

Lemma quiet_silent : silent Z 52000000.
Proof.
  split; try done.
  - intros w. apply (Z.mod_pos_bound w 4294967296). lia.
  - intros w. exists (w + 52000000), 52000000. split; [done|]. split; [|lia].
    cbn [get_timer quiet_link station_link quiet_station]. unfold u32. by rewrite Zplus_mod_idemp_l.
  - intros w. by exists w.
Qed.

(** The arrays and the strings from address 200000 on. *)
Definition quiet_arrays : list Z :=
  replicate (Z.to_nat 3072) 0 ++ replicate 16 0 ++ replicate 6 255 ++ [0; 0] ++ replicate 8 0.
Definition quiet_texts : list Z :=
  lit "ethact" ++ 0 :: lit "eth1" ++ 0 :: lit "gatewayip" ++ 0 :: lit "netmask" ++ 0 :: lit "vlan" ++
  0 :: lit "nvlan" ++ 0 :: lit "192.168.1.9" ++ [0].
Definition quiet_memory : list Z := quiet_arrays ++ quiet_texts.

Definition quiet_bufs : buffers :=
  {| NetOurEther := 203080; NetServerEther := 0; NetBcastAddr := 203088; NetEtherNullAddr := 203096;
     ping_mac := 203072; NetTxPacket := 200000; NetArpWaitTxPacket := 201536; default_filename := 0;
     lit_netretry := 0; lit_fmt_d := 0; lit_fmt_img := 0; lit_9f020000 := 0 |}.

Definition quiet_lits : netlits :=
  {| PktBuf := 200000; NetArpWaitPacketBuf := 201536; sprintf_buf := 0; lit_setenv := 1;
     lit_ethact := 203104; lit_eth1 := 203111; lit_gatewayip := 203116; lit_netmask := 203126;
     lit_vlan := 203134; lit_nvlan := 203139; lit_serverip := 0; lit_ipaddr := 0; lit_filesize := 0;
     lit_fileaddr := 0; lit_fmt_lx := 0; lit_fmt_lX := 0; lit_fmt_ip := 0; lit_hostname := 0;
     lit_rootpath := 0; lit_dnsip := 0; lit_domain := 0; lit_loadaddr := 0; lit_autostart := 0 |}.

Definition quiet_board : board := Board [] [] 115200 [] [] 0xC0A80101 0 0 [].

Definition quiet_net : net Z :=
  {| bufs := quiet_bufs; cfg := IpCfg 0 0 0 0 0xffff 0xffff; arp := ArpWait 0 0 NULL 0 0 0;
     tmr := Timer TimeNone 0 0; tftp := TftpSt 69 0 0 0 0 0 0 1 0;
     loop := LoopSt 0 RxNone 0 0 0 0 0 0 false false false 0;
     environ := ex_env; link := 4294967000 |}.

Section quiet.
Context (m : mem) (Hout : same_out 4096 69632 (ex_mem quiet_memory) m).

Lemma quiet_slice (k n : Z) l :
  0 ≤ k → 0 ≤ n → take (Z.to_nat n) (drop (Z.to_nat k) quiet_memory) = l → bytes_at m (200000 + k) l.
Proof.
  intros Hk Hn E. rewrite <- (Z2Nat.id k) by done.
  assert (Hb : bytes_at m 200000 quiet_memory).
  { eapply same_out_bytes; [exact Hout|right; discriminate|]. apply write_bytes_in. }
  destruct (decide (Z.to_nat k ≤ length quiet_memory)%nat) as [Hle|Hgt].
  - rewrite <- E. by apply bytes_at_slice.
  - rewrite drop_ge, take_nil in E by lia. rewrite <- E. apply bytes_at_nil.
Qed.

Lemma quiet_cstr (k : Z) l :
  0 ≤ k → Forall is_char l →
  take (Z.to_nat (length l + 1)) (drop (Z.to_nat k) quiet_memory) = l ++ [0] → cstr m (200000 + k) l.
Proof. intros Hk Hc E. split; [done|]. eapply quiet_slice; [done| |exact E]. lia. Qed.

Lemma quiet_owned (k n : Z) :
  0 ≤ k → 0 ≤ n → length (take (Z.to_nat n) (drop (Z.to_nat k) quiet_memory)) = Z.to_nat n →
  owned m (200000 + k) n.
Proof.
  intros Hk Hn E. replace n with (Z.of_nat (length (take (Z.to_nat n) (drop (Z.to_nat k) quiet_memory)))) by lia.
  apply bytes_at_owned. by eapply quiet_slice.
Qed.

Lemma quiet_net_arrays (s : net Z) :
  bufs s = quiet_bufs → cfg s = IpCfg 0 0 0 0 0xffff 0xffff →
  net_arrays s m (replicate 6 0).
Proof.
  intros Eb Ec. split; rewrite ?Eb, ?Ec.
  - apply pairs_apart. reflexivity.
  - apply (quiet_owned 0 1536); [lia|lia|reflexivity].
  - apply (quiet_owned 1536 1536); [lia|lia|reflexivity].
  - apply (quiet_owned 3072 6); [lia|lia|reflexivity].
  - split; [done|]. split; [apply Forall_replicate; unfold is_byte; lia|].
    apply (quiet_slice 3080 6); [lia|lia|reflexivity].
  - apply (quiet_slice 3088 6); [lia|lia|reflexivity].
  - apply (quiet_slice 3096 6); [lia|lia|reflexivity].
  - split; split; cbn; lia.
Qed.

Lemma quiet_ready es (s : net Z) ip :
  bufs s = quiet_bufs → cfg s = IpCfg 0 0 0 0 0xffff 0xffff → environ s = ex_env →
  NetPingIP (loop s) = ip → is_ip ip → ip ≠ 0 → env_rep ex_env m es →
  ping_ready quiet_lits s m quiet_board es.
Proof.
  intros Eb Ec Ee Ei Hip Hne Hr. pose proof (env_short ex_env m es Hr) as Hlen.
  split; rewrite ?Eb, ?Ec, ?Ee, ?Ei.
  - exists (replicate 6 0). by apply quiet_net_arrays.
  - split; [done|]. split; [repeat constructor; unfold is_byte; lia|discriminate].
  - split; [apply (env_rep_entries _ _ _ Hr)|]. split; [done|]. split; [discriminate|].
    unfold apart. cbn [fst snd]. unfold CFG_ENV_SIZE in Hlen. right. change (env_base ex_env) with 4100.
    change (NetOurEther quiet_bufs) with 203080. lia.
  - constructor; [split; [apply (quiet_cstr 3116 (lit "gatewayip")); [lia|chars|reflexivity]|left; vm_compute; discriminate]|].
    constructor; [split; [apply (quiet_cstr 3126 (lit "netmask")); [lia|chars|reflexivity]|left; vm_compute; discriminate]|].
    constructor; [split; [apply (quiet_cstr 3134 (lit "vlan")); [lia|chars|reflexivity]|left; vm_compute; discriminate]|].
    constructor; [split; [apply (quiet_cstr 3139 (lit "nvlan")); [lia|chars|reflexivity]|left; vm_compute; discriminate]|].
    constructor.
  - split; [unfold is_ip; cbn; lia|discriminate].
  - done.
Qed.
End quiet.

Lemma quiet_bytes : Forall is_byte quiet_memory.
Proof.
  assert (E : forallb (λ x, (0 <=? x) && (x <? 256)) quiet_memory = true) by reflexivity.
  apply List.Forall_forall. intros x Hx. pose proof (proj1 (forallb_forall _ _) E x Hx) as Hb.
  cbv beta in Hb. unfold is_byte. lia.
Qed.

Lemma ping_unanswered_witness :
  ∃ s' m', do_ping quiet_lits (λ s m, Some (s, m)) quiet_net (ex_mem quiet_memory) quiet_board 2
    [0; 203145] = Some (s', m', quiet_board, 1) ∧ ping_over 52000000 4294967000 s'.
Proof.
  pose proof (same_out_refl 4096 69632 (ex_mem quiet_memory)) as Hrefl.
  destruct (setenv_act ex_env (EthLits 203104 0 1 0 0) (ex_mem quiet_memory) quiet_board two_vars
    203111 (lit "eth1")) as (m1 & Hset & Hrep & Hout).
  - apply ex_rep, quiet_bytes.
  - split; [discriminate|]. split; [apply (quiet_cstr _ Hrefl 3104 ethact); [lia|chars|reflexivity]|].
    split; [reflexivity|]. right. vm_compute. discriminate.
  - split; [discriminate|]. split; [apply (quiet_cstr _ Hrefl 3111 (lit "eth1")); [lia|chars|reflexivity]|].
    split; [reflexivity|]. right. vm_compute. discriminate.
  - vm_compute. discriminate.
  - pose (s1 := set_link (4294967000 : Z) (net_reset quiet_lits (set_NetPingIP 0xC0A80109 quiet_net))).
    assert (Et : @get_timer Z (@station_link Z quiet_station) (link s1) = 4294967000) by reflexivity.
    rewrite <- Et.
    apply (ping_unanswered (H := quiet_station) quiet_lits (λ s m, Some (s, m)) 52000000 quiet_net s1 (ex_mem quiet_memory) m1
      quiet_board quiet_board (others two_vars ++ [(ethact, lit "eth1")]) 2 [0; 203145] 203145 0xC0A80109).
    + apply quiet_silent.
    + lia.
    + vm_compute. discriminate.
    + lia.
    + reflexivity.
    + apply (string_to_ip_dotted (ex_mem quiet_memory) 203145 192 168 1 9);
        [discriminate|split; lia|split; lia|split; lia|split; lia|lia| |reflexivity].
      apply (quiet_cstr _ Hrefl 3145 (lit "192.168.1.9")); [lia|chars|reflexivity].
    + discriminate.
    + unfold net_device. cbn [environ net_reset set_NetPingIP set_loop quiet_net set_link].
      cbn [Netboot.lit_setenv Netboot.lit_ethact lit_eth1 quiet_lits].
      cbn [Eth.lit_setenv Eth.lit_ethact] in Hset. rewrite Hset. reflexivity.
    + exact (quiet_ready m1 Hout _ s1 0xC0A80109 eq_refl eq_refl eq_refl eq_refl ltac:(unfold is_ip; lia) ltac:(lia) Hrep).
Defined.
