(* ===== verification/Cmdline.v ===== *)
(** * The command line ([common/main.c], [common/command.c])

    Reading a line with its editing keys, splitting it into arguments,
    replacing macros, finding the command and running it, the [run], [bootd]
    and [echo] commands and the wait for the key that stops the boot.  The
    buffers of the functions are places in the memory of the prelude; the
    serial driver and the tick counter are behind the interface [Console]. *)

From S2P Require Import Prelude.
From S2P Require Import CString.
From S2P Require Import Vsprintf.
From S2P Require Import Env.

Definition CFG_CBSIZE : Z := 512.
Definition CFG_MAXARGS : Z := 16.
Definition CMD_FLAG_BOOTD : Z := 2.
Definition MAX_DELAY_STOP_STR : Z := 32.

(** What the console asks of the drivers.  [getc] waits for a character:
    [None] when none ever comes. *)
Class Console (W : Type) := {
  putc : W → Z → W;
  getc : W → option (Z * W);
  tstc : W → bool;
  get_ticks : W → Z * W
}.

(** The state: the devices, the Control-C bookkeeping of [common/console.c]
    and the environment. *)
Record shell (W : Type) := Shell {
  con : W;
  ctrlc_disabled : Z;
  ctrlc_was_pressed : Z;
  have_console : Z;
  env_of : env
}.
Arguments Shell {W}.
Arguments con {W}.
Arguments ctrlc_disabled {W}.
Arguments ctrlc_was_pressed {W}.
Arguments have_console {W}.
Arguments env_of {W}.

(** An entry of the command table.  [is_bootd] is the comparison of [cmd]
    with [do_bootd]; the array [argv] is a list of 17 pointers. *)
Record cmd_tbl_s (W : Type) := Cmd {
  name : Z;
  maxargs : Z;
  repeatable : Z;
  is_bootd : bool;
  cmd : shell W → mem → Z → Z → list Z → option (shell W * mem * Z);
  usage : Z;
  help : Z
}.
Arguments Cmd {W}.
Arguments name {W}.
Arguments maxargs {W}.
Arguments repeatable {W}.
Arguments is_bootd {W}.
Arguments cmd {W}.
Arguments usage {W}.
Arguments help {W}.

Section cmdline.
Context {W : Type} `{Console W}.
Implicit Types (w : W) (s : shell W) (m : mem).

Definition set_con w s : shell W :=
  Shell w (ctrlc_disabled s) (ctrlc_was_pressed s) (have_console s) (env_of s).

Definition puts w (l : list Z) : W := foldl putc w l.

(** ** Control-C ([common/console.c]) *)

Definition ctrlc s : option (shell W * Z) :=
  if (ctrlc_disabled s =? 0) && negb (have_console s =? 0) then
    if tstc (con s) then
      '(c, w) ← getc (con s);
      if c =? 3 then Some (Shell w (ctrlc_disabled s) 1 (have_console s) (env_of s), 1)
      else Some (set_con w s, 0)
    else Some (s, 0)
  else Some (s, 0).

Definition disable_ctrlc s (disable : Z) : shell W * Z :=
  (Shell (con s) disable (ctrlc_was_pressed s) (have_console s) (env_of s), ctrlc_disabled s).

Definition had_ctrlc s : Z := ctrlc_was_pressed s.

Definition clear_ctrlc s : shell W :=
  Shell (con s) (ctrlc_disabled s) 0 (have_console s) (env_of s).

(** ** Reading a line *)

Definition erase_seq : list Z := [8; 32; 8].
Definition tab_seq : list Z := replicate 8 32.

(** Erasing columns down to [plen]. *)
Definition erase_cols w (col plen : Z) : option (W * Z) :=
  while (λ '(w, col),
    Some (if col >? plen then Next (puts w erase_seq, col - 1) else Done (w, col))) (w, col).

(** Typing the line before [p] again. *)
Definition retype w m (buffer p col : Z) : option (W * Z) :=
  while (λ '(w, s, col),
    if s <? p then
      c ← ld m s;
      if c =? 9 then
        Some (Next (puts w (drop (Z.to_nat (Z.land col 7)) tab_seq), s + 1, col + (8 - Z.land col 7)))
      else Some (Next (putc w c, s + 1, col + 1))
    else Some (Done (w, col))) (w, buffer, col).

Definition delete_char w m (buffer p col n plen : Z) : option (W * Z * Z * Z) :=
  if n =? 0 then Some (w, p, col, n) else
  let p := p - 1 in
  c ← ld m p;
  '(w, col) ← (
    if c =? 9 then
      '(w, col) ← erase_cols w col plen;
      retype w m buffer p col
    else Some (puts w erase_seq, col - 1));
  Some (w, p, col, n - 1).

(** One character; the answer is the end of the line or the state of the loop. *)
Definition read_char (console_buffer plen : Z) w m (p n col : Z)
    : option (ctl (W * mem * Z * Z * Z) (W * mem * Z)) :=
  '(ch, w) ← getc w;
  let c := u8 ch in
  if (c =? 13) || (c =? 10) then
    m ← st m p 0; Some (Done (puts w [13; 10], m, p - console_buffer))
  else if c =? 0 then Some (Next (w, m, p, n, col))
  else if c =? 3 then
    m ← st m console_buffer 0; Some (Done (w, m, -1))
  else if c =? 0x15 then
    '(w, col) ← erase_cols w col plen;
    Some (Next (w, m, console_buffer, 0, col))
  else if c =? 0x17 then
    '(w, p, col, n) ← delete_char w m console_buffer p col n plen;
    '(w, p, col, n) ← while (λ '(w, p, col, n),
      if n >? 0 then
        x ← ld m p;
        if negb (x =? 32) then
          s ← delete_char w m console_buffer p col n plen; Some (Next s)
        else Some (Done (w, p, col, n))
      else Some (Done (w, p, col, n))) (w, p, col, n);
    Some (Next (w, m, p, n, col))
  else if (c =? 8) || (c =? 0x7F) then
    '(w, p, col, n) ← delete_char w m console_buffer p col n plen;
    Some (Next (w, m, p, n, col))
  else if n <? CFG_CBSIZE - 2 then
    let '(w, col) :=
      if c =? 9 then (puts w (drop (Z.to_nat (Z.land col 7)) tab_seq), col + (8 - Z.land col 7))
      else (putc w c, col + 1) in
    m ← st m p c;
    Some (Next (w, m, p + 1, n + 1, col))
  else Some (Next (putc w 7, m, p, n, col)).

(** The state, the memory and the number of characters, -1 for a break. *)
Definition readline (console_buffer : Z) w m (prompt : Z) : option (W * mem * Z) :=
  '(w, plen) ← (
    if negb (prompt =? NULL) then
      plen ← strlen m prompt; l ← ld_bytes m prompt (Z.to_nat plen); Some (puts w l, plen)
    else Some (w, 0));
  while (λ '(w, m, p, n, col), read_char console_buffer plen w m p n col)
    (w, m, console_buffer, 0, plen).
End cmdline.

(** ** Arguments *)

(** Blanks separate words. *)
Definition is_blank (c : Z) : bool := (c =? 32) || (c =? 9).

Definition skip_blanks (m : mem) (line : Z) : option Z :=
  while (λ p, c ← ld m p; Some (if is_blank c then Next (p + 1) else Done p)) line.

Definition skip_word (m : mem) (line : Z) : option Z :=
  while (λ p, c ← ld m p;
    Some (if negb (c =? 0) && negb (is_blank c) then Next (p + 1) else Done p)) line.

(** One argument; the state is memory, position, array and number of words. *)
Definition parse_step : mem * Z * list Z * Z → option (ctl (mem * Z * list Z * Z) (mem * list Z * Z)) :=
  λ '(m, line, argv, nargs),
    if nargs <? CFG_MAXARGS then
      line ← skip_blanks m line;
      c ← ld m line;
      if c =? 0 then Some (Done (m, <[Z.to_nat nargs := NULL]> argv, nargs)) else
      let argv := <[Z.to_nat nargs := line]> argv in
      let nargs := nargs + 1 in
      line ← skip_word m line;
      c ← ld m line;
      if c =? 0 then Some (Done (m, <[Z.to_nat nargs := NULL]> argv, nargs)) else
      m ← st m line 0;
      Some (Next (m, line + 1, argv, nargs))
    else Some (Done (m, argv, nargs)).

(** [argv] is the array before and after; the answer counts the words. *)
Definition parse_line (m : mem) (line : Z) (argv : list Z) : option (mem * list Z * Z) :=
  while parse_step (m, line, argv, 0).

(** ** Macros *)

(** The name of a variable to [envname]. *)
Definition copy_name (m : mem) (envname varname_start envcnt : Z) : option mem :=
  while (λ '(m, i),
    if i <? envcnt then
      c ← ld m (varname_start + i); m ← st m (envname + i) c; Some (Next (m, i + 1))
    else m ← st m (envname + i) 0; Some (Done m)) (m, 0).

(** The value of a variable to the output. *)
Definition copy_value (m : mem) (envval output outputcnt : Z) : option (mem * Z * Z) :=
  while (λ '(m, envval, output, outputcnt),
    c ← ld m envval;
    if negb (c =? 0) && negb (outputcnt =? 0) then
      m ← st m output c; Some (Next (m, envval + 1, output + 1, outputcnt - 1))
    else Some (Done (m, output, outputcnt))) (m, envval, output, outputcnt).

(** The loop state: memory, input and output position, the two counts, the
    state of the automaton, the previous character, the start of the name. *)
Definition macro_state : Type := mem * Z * Z * Z * Z * Z * Z * Z.

(** The switch on the state, for the character [c]. *)
Definition macro_char (e : env) (envname : Z) (c : Z) (x : macro_state) : option macro_state :=
  let '(m, input, output, inputcnt, outputcnt, state, prev, varname_start) := x in
  if state =? 0 then
    if (c =? 39) && negb (prev =? 92) then
      Some (m, input, output, inputcnt, outputcnt, 3, c, varname_start)
    else if (c =? 36) && negb (prev =? 92) then
      Some (m, input, output, inputcnt, outputcnt, 1, c, varname_start)
    else
      m ← st m output c;
      Some (m, input, output + 1, inputcnt, outputcnt - 1, 0, c, varname_start)
  else if state =? 1 then
    if (c =? 40) || (c =? 123) then
      Some (m, input, output, inputcnt, outputcnt, 2, c, input)
    else
      m ← st m output 36;
      let output := output + 1 in
      let outputcnt := outputcnt - 1 in
      if negb (outputcnt =? 0) then
        m ← st m output c;
        Some (m, input, output + 1, inputcnt, outputcnt - 1, 0, c, varname_start)
      else Some (m, input, output, inputcnt, outputcnt, 0, c, varname_start)
  else if state =? 2 then
    if (c =? 41) || (c =? 125) then
      m ← copy_name m envname varname_start (input - varname_start - 1);
      envval ← getenv e m envname;
      '(m, output, outputcnt) ← (
        if negb (envval =? NULL) then copy_value m envval output outputcnt
        else Some (m, output, outputcnt));
      Some (m, input, output, inputcnt, outputcnt, 0, c, varname_start)
    else Some (m, input, output, inputcnt, outputcnt, 2, c, varname_start)
  else
    if (c =? 39) && negb (prev =? 92) then
      Some (m, input, output, inputcnt, outputcnt, 0, c, varname_start)
    else
      m ← st m output c;
      Some (m, input, output + 1, inputcnt, outputcnt - 1, 3, c, varname_start).

Definition macro_step (e : env) (envname : Z) (x : macro_state)
    : option (ctl macro_state (mem * Z * Z)) :=
  let '(m, input, output, inputcnt, outputcnt, state, prev, varname_start) := x in
  if (inputcnt =? 0) || (outputcnt =? 0) then Some (Done (m, output, outputcnt)) else
  c ← ld m input;
  let input := input + 1 in
  let inputcnt := inputcnt - 1 in
  if negb (state =? 3) && (c =? 92) && negb (prev =? 92) then
    if inputcnt =? 0 then Some (Done (m, output, outputcnt)) else
    let prev := c in
    c ← ld m input;
    x ← macro_char e envname c
          (m, input + 1, output, inputcnt - 1, outputcnt, state, prev, varname_start);
    Some (Next x)
  else
    x ← macro_char e envname c (m, input, output, inputcnt, outputcnt, state, prev, varname_start);
    Some (Next x).

(** [envname] is the place of the local array. *)
Definition process_macros (e : env) (envname : Z) (m : mem) (input output : Z) : option mem :=
  inputcnt ← strlen m input;
  '(m, output, outputcnt) ← while (macro_step e envname)
    (m, input, output, inputcnt, CFG_CBSIZE, 0, 0, NULL);
  if negb (outputcnt =? 0) then st m output 0 else Some m.

Section commands.
Context {W : Type} `{Console W}.
Implicit Types (w : W) (s : shell W) (m : mem) (table : list (cmd_tbl_s W)).

(** ** Finding a command *)

Fixpoint find_scan m (cmd_ len : Z) table (cmdtp_temp : option (cmd_tbl_s W)) (n_found : Z)
    : option (option (cmd_tbl_s W)) :=
  match table with
  | [] => Some (if n_found =? 1 then cmdtp_temp else None)
  | cmdtp :: table =>
      r ← strncmp m cmd_ (name cmdtp) len;
      if r =? 0 then
        n ← strlen m (name cmdtp);
        if len =? n then Some (Some cmdtp)
        else find_scan m cmd_ len table (Some cmdtp) (n_found + 1)
      else find_scan m cmd_ len table cmdtp_temp n_found
  end.

Definition find_cmd m table (cmd_ : Z) : option (option (cmd_tbl_s W)) :=
  p ← strchr m cmd_ 46;
  len ← (if p =? NULL then strlen m cmd_ else Some (p - cmd_));
  find_scan m cmd_ len table (head table) 0.

(** ** Running a command line *)

(** The local arrays of [run_command] and [process_macros]. *)
Record frame := Frame { cmdbuf : Z; finaltoken : Z; envname : Z }.

(** The end of the first command from [str] on. *)
Definition find_sep m (str : Z) : option Z :=
  while (λ '(sep, inquotes),
    c ← ld m sep;
    if c =? 0 then Some (Done sep) else
    inquotes ← (if c =? 39 then
        b ← ld m (sep - 1); Some (if negb (b =? 92) then negb inquotes else inquotes)
      else Some inquotes);
    stop ← (if negb inquotes && (c =? 59) && negb (sep =? str) then
        b ← ld m (sep - 1); Some (negb (b =? 92))
      else Some false);
    Some (if stop : bool then Done sep else Next (sep + 1, inquotes))) (str, false).

(** The state of the loop of [run_command]. *)
Definition run_state : Type := shell W * mem * Z * Z * list Z * Z * Z.

(** The command that was found: argument count, recursion, call. *)
Definition call_cmd (cmdtp : cmd_tbl_s W) (argc : Z) (x : run_state)
    : option (ctl run_state (shell W * mem * Z)) :=
  let '(s, m, str, flag, argv, rep, rc) := x in
  if argc >? maxargs cmdtp then Some (Next (s, m, str, flag, argv, rep, -1)) else
  if is_bootd cmdtp && negb (Z.land flag CMD_FLAG_BOOTD =? 0) then
    Some (Next (s, m, str, flag, argv, rep, -1))
  else
  let flag := if is_bootd cmdtp then Z.lor flag CMD_FLAG_BOOTD else flag in
  '(s, m, r) ← cmd cmdtp s m flag argc argv;
  let rc := if negb (r =? 0) then -1 else rc in
  let rep := Z.land rep (repeatable cmdtp) in
  if negb (had_ctrlc s =? 0) then Some (Done (s, m, 0))
  else Some (Next (s, m, str, flag, argv, rep, rc)).

(** One command: separator, macros, arguments, lookup, call. *)
Definition run_token table (f : frame) (x : run_state)
    : option (ctl run_state (shell W * mem * Z)) :=
  let '(s, m, str, flag, argv, rep, rc) := x in
  c0 ← ld m str;
  if c0 =? 0 then Some (Done (s, m, if negb (rc =? 0) then rc else rep)) else
  sep ← find_sep m str;
  let token := str in
  c ← ld m sep;
  '(m, str) ← (if negb (c =? 0) then m ← st m sep 0; Some (m, sep + 1) else Some (m, sep));
  m ← process_macros (env_of s) (envname f) m token (finaltoken f);
  '(m, argv, argc) ← parse_line m (finaltoken f) argv;
  if argc =? 0 then Some (Next (s, m, str, flag, argv, rep, -1)) else
  argv0 ← argv !! 0%nat;
  cmdtp ← find_cmd m table argv0;
  match cmdtp with
  | None => Some (Next (s, m, str, flag, argv, rep, -1))
  | Some cmdtp => call_cmd cmdtp argc (s, m, str, flag, argv, rep, rc)
  end.

(** [argv] is what the array holds on entry. *)
Definition run_command table (f : frame) (argv : list Z) s m (cmd_ flag : Z)
    : option (shell W * mem * Z) :=
  let s := clear_ctrlc s in
  if cmd_ =? NULL then Some (s, m, -1) else
  c ← ld m cmd_;
  if c =? 0 then Some (s, m, -1) else
  n ← strlen m cmd_;
  if n >=? CFG_CBSIZE then Some (s, m, -1) else
  m ← strcpy m (cmdbuf f) cmd_;
  while (run_token table f) (s, m, cmdbuf f, flag, argv, 1, 0).

(** ** Commands that run commands; [run] is [run_command] one frame deeper *)

Definition do_run (run : shell W → mem → Z → Z → option (shell W * mem * Z))
    s m (flag argc : Z) (argv : list Z) : option (shell W * mem * Z) :=
  if argc <? 2 then Some (s, m, 1) else
  while (λ '(s, m, i),
    if i <? argc then
      name ← argv !! Z.to_nat i;
      arg ← getenv (env_of s) m name;
      if arg =? NULL then Some (Done (s, m, 1)) else
      '(s, m, r) ← run s m arg flag;
      Some (if r =? -1 then Done (s, m, 1) else Next (s, m, i + 1))
    else Some (Done (s, m, 0))) (s, m, 1).

(** [bootcmd] is the place of the name of the variable. *)
Definition do_bootd (run : shell W → mem → Z → Z → option (shell W * mem * Z)) (bootcmd : Z)
    s m (flag argc : Z) (argv : list Z) : option (shell W * mem * Z) :=
  p ← getenv (env_of s) m bootcmd;
  '(s, m, r) ← run s m p flag;
  Some (s, m, if r <? 0 then 1 else 0).

(** The characters of one argument of [echo]. *)
Definition echo_arg w m (p : Z) (putnl : bool) : option (W * bool) :=
  while (λ '(w, p, putnl),
    c ← ld m p;
    if c =? 0 then Some (Done (w, putnl)) else
    let p := p + 1 in
    skip ← (if c =? 92 then d ← ld m p; Some (d =? 99) else Some false);
    Some (if skip : bool then Next (w, p + 1, false) else Next (putc w c, p, putnl)))
    (w, p, putnl).

Definition do_echo s m (flag argc : Z) (argv : list Z) : option (shell W * mem * Z) :=
  '(w, putnl) ← while (λ '(w, i, putnl),
    if i <? argc then
      p ← argv !! Z.to_nat i;
      let w := if i >? 1 then putc w 32 else w in
      '(w, putnl) ← echo_arg w m p putnl;
      Some (Next (w, i + 1, putnl))
    else Some (Done (w, putnl))) (con s, 1, true);
  Some (set_con (if putnl : bool then putc w 10 else w) s, m, 0).
End commands.

(** ** Words *)

(** The words of a text: [w] is the word in progress. *)
Fixpoint split_words (l w : list Z) : list (list Z) :=
  match l with
  | [] => match w with [] => [] | _ => [w] end
  | c :: l =>
      if is_blank c then
        match w with [] => split_words l [] | _ => w :: split_words l [] end
      else split_words l (w ++ [c])
  end.
Definition words (l : list Z) : list (list Z) := split_words l [].

Section words.
Implicit Types (m : mem) (l w r b : list Z).

(** A list up to the first element that fails [p]. *)
Lemma span_list (p : Z → bool) l :
  ∃ l1 l2, l = l1 ++ l2 ∧ Forall (λ x, p x = true) l1 ∧
    (l2 = [] ∨ ∃ c r, l2 = c :: r ∧ p c = false).
Proof.
  induction l as [|x l (l1 & l2 & -> & H1 & H2)]; [exists [], []; auto|].
  destruct (p x) eqn:E.
  - exists (x :: l1), l2. split; [done|]. split; [by constructor|done].
  - exists [], (x :: l1 ++ l2). split; [done|]. split; [done|right; eauto].
Qed.

Lemma words_blanks b l : Forall (λ c, is_blank c = true) b → words (b ++ l) = words l.
Proof. unfold words. induction 1 as [|c b Hc Hb IH]; simpl; [done|]. by rewrite Hc. Qed.

Lemma split_word w v l :
  Forall (λ c, is_blank c = false) w → split_words (w ++ l) v = split_words l (v ++ w).
Proof.
  intros Hw. revert v. induction Hw as [|c w Hc Hw IH]; intros v; simpl; [by rewrite app_nil_r|].
  by rewrite Hc, IH, <- app_assoc.
Qed.

Lemma words_last w : w ≠ [] → Forall (λ c, is_blank c = false) w → words w = [w].
Proof.
  intros Hne Hw. unfold words. rewrite <- (app_nil_r w) at 1. rewrite split_word by done.
  by destruct w.
Qed.

Lemma words_cons w c r :
  w ≠ [] → Forall (λ c, is_blank c = false) w → is_blank c = true →
  words (w ++ c :: r) = w :: words r.
Proof.
  intros Hne Hw Hc. unfold words. rewrite split_word by done. simpl. rewrite Hc. by destruct w.
Qed.

Lemma skip_blanks_at m a b l :
  Forall (λ c, is_blank c = true) b → cstr m a (b ++ l) → fits b →
  (l = [] ∨ ∃ c r, l = c :: r ∧ is_blank c = false) →
  skip_blanks m a = Some (a + length b).
Proof.
  intros Hb Hc Hf Hl. unfold skip_blanks.
  apply (while_within _ _ (S (length b))); [unfold fits in Hf; lia|]. clear Hf.
  revert a Hc. induction Hb as [|c b Hcb Hb IH]; intros a Hc.
  - exists 1%nat. split; [lia|]. apply runs_done. apply cstr_hd in Hc. unfold ld.
    rewrite Hc, some_bind. rewrite Z.add_0_r.
    replace (is_blank (hd 0 ([] ++ l))) with false; [done|].
    destruct Hl as [->|(c & r & -> & E)]; [done|]. simpl hd. by rewrite E.
  - destruct (IH (a + 1)) as (n & Hn & Hr); [by apply cstr_cons in Hc as (_ & _ & ?)|].
    exists (S n). split; [simpl; lia|].
    replace (a + length (c :: b)) with (a + 1 + length b) by (simpl; lia).
    eapply runs_next; [|exact Hr]. apply cstr_hd in Hc. simpl in Hc. c_step. by rewrite Hcb.
Qed.

Lemma skip_word_at m a w l :
  Forall (λ c, is_blank c = false) w → cstr m a (w ++ l) → fits w →
  (l = [] ∨ ∃ c r, l = c :: r ∧ is_blank c = true) →
  skip_word m a = Some (a + length w).
Proof.
  intros Hw Hc Hf Hl. unfold skip_word.
  apply (while_within _ _ (S (length w))); [unfold fits in Hf; lia|]. clear Hf.
  revert a Hc. induction Hw as [|c w Hcw Hw IH]; intros a Hc.
  - exists 1%nat. split; [lia|]. apply runs_done. apply cstr_hd in Hc. unfold ld.
    rewrite Hc, some_bind, Z.add_0_r.
    destruct Hl as [->|(c & r & -> & E)]; [done|]. simpl hd. by rewrite E, andb_false_r.
  - apply cstr_cons in Hc as (Hch & Hx & Hc). destruct (IH (a + 1) Hc) as (n & Hn & Hr).
    exists (S n). split; [simpl; lia|].
    replace (a + length (c :: w)) with (a + 1 + length w) by (simpl; lia).
    eapply runs_next; [|exact Hr]. c_step. rewrite Hcw. unfold is_char in Hch. by zbool.
Qed.
End words.

Section parsing.
Implicit Types (m : mem) (l w : list Z) (argv : list Z).

(** The result of splitting [l] at [line] when [k] words were found before. *)
Record parsed (line : Z) l (k : nat) argv argv' m m' (nargs : Z) : Prop := Parsed {
  pa_count : nargs = Z.min 16 (k + length (words l));
  pa_mem : changed line (line + length l) m m';
  pa_len : length argv' = 17%nat;
  pa_old : ∀ i : nat, (i < k)%nat → argv' !! i = argv !! i;
  pa_new : ∀ (j : nat) w, words l !! j = Some w → (k + j < 16)%nat →
    ∃ a, argv' !! (k + j)%nat = Some a ∧ cstr m' a w ∧ line ≤ a ∧ a + length w ≤ line + length l;
  pa_null : (k + length (words l) < 16)%nat → argv' !! (k + length (words l))%nat = Some NULL
}.

(** One step: the end, the last word, or a word and the rest. *)
Lemma parse_step_spec m line l (k : nat) argv :
  cstr m line l → fits l → (k < 16)%nat → length argv = 17%nat →
  (words l = [] ∧ parse_step (m, line, argv, k : Z) = Some (Done (m, <[k := NULL]> argv, k : Z))) ∨
  ∃ w b, w ≠ [] ∧ Forall is_char w ∧ line ≤ b ∧ bytes_at m b w ∧
    ((words l = [w] ∧ b + length w = line + length l ∧
      parse_step (m, line, argv, k : Z) =
        Some (Done (m, <[S k := NULL]> (<[k := b]> argv), S k : Z))) ∨
     (∃ c r, words l = w :: words r ∧ b + length w + 1 + length r = line + length l ∧
       cstr m (b + length w) (c :: r) ∧
       parse_step (m, line, argv, k : Z) =
         Some (Next (<[b + length w := 0]> m, b + length w + 1, <[k := b]> argv, S k : Z)))).
Proof.
  intros Hc Hf Hk Hargv. unfold parse_step, CFG_MAXARGS. zbool. rewrite Nat2Z.id.
  destruct (span_list is_blank l) as (bl & t & -> & Hbl & Ht).
  assert (Hlen : length (bl ++ t) = (length bl + length t)%nat) by apply length_app.
  assert (Hfit : fits bl ∧ fits t) by (unfold fits in *; rewrite Hlen in Hf; lia).
  rewrite (skip_blanks_at m line bl t), some_bind by tauto.
  rewrite words_blanks by done. apply cstr_drop with (n := length bl) in Hc as Hc; [|lia].
  rewrite drop_app_length in Hc. set (b := line + length bl) in *.
  destruct Ht as [->|(c & r & -> & Hcr)].
  { left. split; [done|]. apply cstr_nil in Hc. by c_step. }
  right. destruct (span_list (λ c, negb (is_blank c)) (c :: r)) as (w & u & E & Hw & Hu).
  assert (Hw' : Forall (λ c, is_blank c = false) w).
  { eapply Forall_impl; [|exact Hw]. intros x. apply negb_true_iff. }
  assert (Hne : w ≠ []).
  { intros ->. simpl in E. subst u. destruct Hu as [?|(c' & r' & [= <- <-] & Hn)]; [done|].
    by rewrite Hcr in Hn. }
  rewrite E in Hc. pose proof Hc as [Hch Hb]. apply Forall_app in Hch as [Hch _].
  rewrite <- app_assoc in Hb. apply bytes_at_app in Hb as [Hb _].
  assert (Hl2 : length (c :: r) = (length w + length u)%nat) by (rewrite E; apply length_app).
  exists w, b. split; [done|]. split; [done|]. split; [lia|]. split; [done|].
  assert (E0 : ld m b = Some c).
  { rewrite <- E in Hc. by apply cstr_hd in Hc. }
  assert (Hc0 : c ≠ 0).
  { rewrite <- E in Hc. apply cstr_cons in Hc as (Hx & _ & _). unfold is_char in Hx. lia. }
  rewrite E0, some_bind, (proj2 (Z.eqb_neq _ _) Hc0).
  assert (Hsk : skip_word m b = Some (b + length w)).
  { apply (skip_word_at m b w u); [done|done| |].
    - unfold fits in *. lia.
    - destruct Hu as [->|(c' & r' & -> & Hn)]; [by left|right].
      exists c', r'. split; [done|]. by apply negb_false_iff in Hn. }
  rewrite Hsk, some_bind. rewrite E.
  apply cstr_drop with (n := length w) in Hc as Hc2; [|rewrite length_app; lia].
  rewrite drop_app_length in Hc2. replace (Z.to_nat (k + 1)) with (S k) by lia.
  replace (k + 1) with (S k : Z) by lia.
  destruct Hu as [->|(c' & r' & -> & Hn)].
  - left. rewrite app_nil_r in *. split; [by apply words_last|]. split; [rewrite length_app; lia|].
    apply cstr_nil in Hc2. by c_step.
  - right. exists c', r'. apply negb_false_iff in Hn. split; [by apply words_cons|].
    split; [rewrite !length_app; simpl; lia|]. split; [done|].
    apply cstr_hd in Hc2 as Hx. pose proof Hc2 as Hc3. apply cstr_cons in Hc3 as (Hx0 & _ & _).
    simpl in Hx. c_step. unfold is_char in Hx0. zbool.
    rewrite st_owned by (by eexists). done.
Qed.
Lemma parsed_stop line l (k : nat) argv m :
  cstr m line l → words l = [] → (k < 16)%nat → length argv = 17%nat →
  parsed line l k argv (<[k := NULL]> argv) m m k.
Proof.
  intros Hc Hw Hk Hargv. split; rewrite ?Hw; simpl; rewrite ?Nat.add_0_r.
  - lia.
  - apply changed_refl.
  - by rewrite length_insert.
  - intros i Hi. by rewrite list_lookup_insert_ne by lia.
  - done.
  - intros _. by rewrite list_lookup_insert_eq by lia.
Qed.

Lemma parsed_last line l w b (k : nat) argv m :
  cstr m line l → words l = [w] → Forall is_char w → line ≤ b → bytes_at m b w →
  b + length w = line + length l → (k < 16)%nat → length argv = 17%nat →
  parsed line l k argv (<[S k := NULL]> (<[k := b]> argv)) m m (S k).
Proof.
  intros Hc Hw Hch Hb Hwb Hend Hk Hargv. split; rewrite ?Hw; simpl.
  - lia.
  - apply changed_refl.
  - by rewrite !length_insert.
  - intros i Hi. by rewrite !list_lookup_insert_ne by lia.
  - intros [|j] w' Hj Hlt; [|done]. injection Hj as <-. exists b. rewrite Nat.add_0_r.
    rewrite list_lookup_insert_ne, list_lookup_insert_eq by (rewrite ?length_insert; lia).
    split; [done|]. split; [|lia]. split; [done|]. apply bytes_at_app. split; [done|].
    rewrite Hend. destruct Hc as [_ Hc]. by apply bytes_at_app in Hc as [_ ?].
  - intros _. replace (k + 1)%nat with (S k) by lia.
    by rewrite list_lookup_insert_eq by (rewrite length_insert; lia).
Qed.

Lemma parsed_more line l w b r (k : nat) argv argv' m m' nargs :
  words l = w :: words r → Forall is_char w → line ≤ b → bytes_at m b w →
  b + length w + 1 + length r = line + length l → (k < 16)%nat → length argv = 17%nat →
  is_Some (m !! (b + length w)) →
  parsed (b + length w + 1) r (S k) (<[k := b]> argv) argv' (<[b + length w := 0]> m) m' nargs →
  parsed line l k argv argv' m m' nargs.
Proof.
  intros Hw Hch Hb Hwb Hend Hk Hargv Hs [P1 P2 P3 P4 P5 P6].
  split; rewrite ?Hw; simpl.
  - lia.
  - destruct (changed_st line (line + length l) m (b + length w) 0) as (m1 & _ & -> & C1); [done|lia|].
    eapply changed_trans; [exact C1|]. eapply changed_mono; [exact P2|lia|lia].
  - done.
  - intros i Hi. rewrite P4 by lia. by rewrite list_lookup_insert_ne by lia.
  - intros [|j] w' Hj Hlt.
    + injection Hj as <-. exists b. rewrite Nat.add_0_r. split.
      { rewrite P4 by lia. by rewrite list_lookup_insert_eq by lia. }
      split; [|lia]. eapply changed_cstr; [exact P2|lia|]. split; [done|].
      apply bytes_at_app. split; [by apply bytes_at_insert_out; [lia|]|].
      apply bytes_at_singleton. by rewrite lookup_insert_eq.
    + destruct (P5 j w' Hj) as (a & A1 & A2 & A3 & A4); [lia|]. exists a.
      replace (k + S j)%nat with (S k + j)%nat by lia. split; [done|]. split; [done|]. lia.
  - intros Hlt. replace (k + S (length (words r)))%nat with (S k + length (words r))%nat by lia.
    apply P6. lia.
Qed.

Lemma parse_runs N l m line (k : nat) argv :
  (length l ≤ N)%nat → cstr m line l → fits l → (k ≤ 16)%nat → length argv = 17%nat →
  ∃ n r, (n ≤ S N)%nat ∧ runs parse_step (m, line, argv, k : Z) n r ∧
    let '(m', argv', nargs) := r in parsed line l k argv argv' m m' nargs.
Proof.
  revert l m line k argv. induction N as [N IH] using lt_wf_ind.
  intros l m line k argv HN Hc Hf Hk Hargv.
  destruct (decide (k = 16)%nat) as [->|Hk'].
  { exists 1%nat, (m, argv, 16). split; [lia|]. split; [by apply runs_done|].
    split; [lia|apply changed_refl|done|done|lia|lia]. }
  destruct (parse_step_spec m line l k argv) as [[Hw Hst]|(w & b & Hne & Hch & Hb & Hwb & Hcase)];
    [done|done|lia|done|..].
  { eexists 1%nat, _. split; [lia|]. split; [by apply runs_done|]. apply parsed_stop; (done || lia). }
  destruct Hcase as [(Hw & Hend & Hst)|(c & r & Hw & Hend & Hcr & Hst)].
  { eexists 1%nat, _. split; [lia|]. split; [by apply runs_done|].
    eapply parsed_last; (done || lia). }
  assert (Hlr : (length r < length l)%nat) by lia.
  assert (Hc1 : cstr (<[b + length w := 0]> m) (b + length w + 1) r).
  { apply cstr_insert_out; [lia|]. by apply cstr_cons in Hcr as (_ & _ & ?). }
  destruct (IH (length r) ltac:(lia) r (<[b + length w := 0]> m) (b + length w + 1) (S k)
    (<[k := b]> argv)) as (n & [[m' argv'] nargs] & Hn & Hr & Hp);
    [lia|done|unfold fits in *; lia|lia|by rewrite length_insert|].
  exists (S n), (m', argv', nargs). split; [lia|]. split; [by eapply runs_next|].
  eapply parsed_more; [exact Hw|done|done|done|done|lia|done| |exact Hp].
  apply cstr_hd in Hcr. by eexists.
Qed.

Lemma parse_line_spec m line l argv :
  cstr m line l → fits l → length argv = 17%nat →
  ∃ m' argv' nargs, parse_line m line argv = Some (m', argv', nargs) ∧
    parsed line l 0 argv argv' m m' nargs.
Proof.
  intros Hc Hf Hargv.
  destruct (parse_runs (length l) l m line 0 argv) as (n & [[m' argv'] nargs] & Hn & Hr & Hp);
    [done|done|done|lia|done|].
  exists m', argv', nargs. split; [|done]. eapply while_runs; [exact Hr|]. unfold fits in Hf.
  lia.
Qed.
End parsing.

(** ** The command table *)

(** The name up to the first dot. *)
Definition base_name (l : list Z) : list Z :=
  match find_index (Z.eqb 46) l with Some i => take i l | None => l end.

(** The first entry with the very name, else the only one that starts with it. *)
Definition lookup_cmd {A} (n : list Z) (tbl : list (A * list Z)) : option A :=
  match filter (λ e, e.2 = n) tbl with
  | e :: _ => Some e.1
  | [] => match filter (λ e, n `prefix_of` e.2) tbl with [e] => Some e.1 | _ => None end
  end.

Section table.
Context {W : Type} `{Console W}.
Implicit Types (m : mem) (table : list (cmd_tbl_s W)) (names : list (list Z)).

Definition names_at m table names : Prop :=
  Forall2 (λ c n, cstr m (name c) n ∧ fits n) table names.

Lemma find_scan_spec m cmd_ l (len : nat) table names temp (k : Z) :
  names_at m table names → cstr m cmd_ l → fits l → (len ≤ length l)%nat → 0 ≤ k →
  find_scan m cmd_ len table temp k =
    Some (match filter (λ e, e.2 = take len l) (zip table names) with
          | e :: _ => Some e.1
          | [] =>
              let ps := filter (λ e, take len l `prefix_of` e.2) (zip table names) in
              if k + length ps =? 1 then foldl (λ _ e, Some e.1) temp ps else None
          end).
Proof.
  intros Hn Hc Hf Hlen. revert temp k.
  induction Hn as [|c n table names [Hcn Hfn] Hn IH]; intros temp k Hk.
  - simpl. rewrite Z.add_0_r. by destruct (k =? 1).
  - cbn [find_scan zip zip_with]. fold (zip table names).
    destruct (strncmp_prefix m cmd_ l (name c) n len Hc Hcn Hlen Hf) as (r & -> & Er).
    rewrite some_bind, Er, !filter_cons. cbn [snd].
    destruct (is_prefix (take len l) n) eqn:Ep.
    + apply is_prefix_spec in Ep as Hp. rewrite (decide_True (P := take len l `prefix_of` n)) by done.
      rewrite (strlen_cstr m (name c) n), some_bind by done.
      destruct (Z.eqb_spec len (length n)) as [E|E].
      * rewrite decide_True; [done|]. destruct Hp as [t ->]. rewrite length_app, length_take in E.
        destruct t; [by rewrite app_nil_r|simpl in E; lia].
      * rewrite decide_False.
        2: { intros ->. apply E. rewrite length_take. lia. }
        rewrite IH by lia. do 2 f_equal. destruct (filter _ (zip table names)) eqn:Ef; [|done].
        cbv zeta. cbn [length foldl fst]. replace (k + 1 + length _) with (k + S (length (filter
          (λ e, take len l `prefix_of` e.2) (zip table names)))) by lia. done.
    + rewrite (decide_False (P := n = take len l)).
      2: { intros ->. by rewrite (proj2 (is_prefix_spec _ _)) in Ep. }
      rewrite (decide_False (P := take len l `prefix_of` n)).
      2: { intros Hp. by rewrite (proj2 (is_prefix_spec _ _) Hp) in Ep. }
      by rewrite IH.
Qed.

Lemma find_cmd_spec m table names cmd_ l :
  names_at m table names → cstr m cmd_ l → fits l → 0 < cmd_ →
  find_cmd m table cmd_ = Some (lookup_cmd (base_name l) (zip table names)).
Proof.
  intros Hn Hc Hf Hpos. unfold find_cmd, lookup_cmd, base_name.
  rewrite (strchr_cstr m cmd_ l 46), some_bind by (done || (unfold is_char; lia)).
  assert (Hscan : ∀ len : nat, (len ≤ length l)%nat →
    find_scan m cmd_ len table (head table) 0 = Some
      (match filter (λ e, e.2 = take len l) (zip table names) with
       | e :: _ => Some e.1
       | [] => match filter (λ e, take len l `prefix_of` e.2) (zip table names) with
               | [e] => Some e.1 | _ => None end
       end)).
  { intros len Hlen. rewrite (find_scan_spec m cmd_ l len table names) by (done || lia).
    f_equal. destruct (filter _ (zip table names)); [|done]. cbv zeta. rewrite Z.add_0_l.
    destruct (filter (λ e, take len l `prefix_of` e.2) (zip table names)) as [|e [|e2 ps]];
      [done|done|by rewrite (proj2 (Z.eqb_neq _ _)) by (simpl; lia)]. }
  destruct (find_index (Z.eqb 46) l) as [i|] eqn:Ei.
  - apply find_index_lt in Ei as Hi. unfold ptr_of.
    rewrite (proj2 (Z.eqb_neq _ _)) by (unfold NULL; lia). rewrite some_bind.
    replace (cmd_ + i - cmd_) with (i : Z) by lia. apply Hscan. lia.
  - unfold ptr_of. change (NULL =? NULL) with true. cbv iota.
    rewrite (strlen_cstr m cmd_ l), some_bind by done. rewrite Hscan by lia. by rewrite firstn_all.
Qed.
End table.

(** A console with typed characters, what was printed, and a tick per look
    at the clock. *)
#[global] Instance typed_console : Console (list Z * list Z * Z) := {
  putc '(i, o, t) c := (i, o ++ [c], t);
  getc '(i, o, t) := match i with [] => None | c :: i => Some (c, (i, o, t)) end;
  tstc '(i, o, t) := match i with [] => false | _ => true end;
  get_ticks '(i, o, t) := (t, (i, o, t + 1))
}.

(** ** A console on which nothing is typed *)

Section idle.
Context {W : Type} `{Console W}.
Context (idle : W → Prop) (idle_tstc : ∀ w, idle w → tstc w = false) (idle_putc : ∀ w c, idle w → idle (putc w c)).
Implicit Types (w : W) (s : shell W).

Lemma idle_puts w l : idle w → idle (puts w l).
Proof using idle_putc. revert w. induction l as [|c l IH]; intros w Hw; [done|]. by apply IH, idle_putc. Qed.

Lemma idle_ctrlc s : idle (con s) → ctrlc s = Some (s, 0).
Proof using idle_tstc. intros Hi. unfold ctrlc. rewrite idle_tstc by done. by destruct (_ && _). Qed.

Lemma puts_app w l k : puts w (l ++ k) = puts (puts w l) k.
Proof. apply foldl_app. Qed.
End idle.

Section properties.
Implicit Types (m : mem) (l w : list Z).

(** [parse_line] cuts the line into its words (at most 16): the array gets
    pointers to them, each is ended by a NUL in place, the array is ended by
    NULL when there are fewer than 16 words, and nothing outside the line
    changes. *)
Lemma parse_line_words m line l argv :
  cstr m line l → fits l → length argv = 17%nat →
  ∃ m' argv', parse_line m line argv = Some (m', argv', Z.min 16 (length (words l))) ∧
    changed line (line + length l) m m' ∧ length argv' = 17%nat ∧
    (∀ (j : nat) w, words l !! j = Some w → (j < 16)%nat →
       ∃ a, argv' !! j = Some a ∧ cstr m' a w) ∧
    ((length (words l) < 16)%nat → argv' !! length (words l) = Some NULL).
Proof.
  intros Hc Hf Ha. destruct (parse_line_spec m line l argv Hc Hf Ha) as (m' & argv' & n & E & Hp).
  destruct Hp as [-> P2 P3 _ P5 P6]. exists m', argv'. split; [exact E|]. split; [exact P2|].
  split; [exact P3|]. split; [|intros Hlt; by apply P6].
  intros j w Hj Hlt. destruct (P5 j w Hj Hlt) as (a & ? & ? & _). by exists a.
Qed.

(** [find_cmd] looks for the name up to the first dot: the first entry
    with that very name wins, else the only entry that starts with it; an
    ambiguous or unknown name gives none. *)
Lemma find_cmd_choice {W} `{Console W} m (table : list (cmd_tbl_s W)) names cmd_ l :
  names_at m table names → cstr m cmd_ l → fits l → 0 < cmd_ →
  find_cmd m table cmd_ = Some (lookup_cmd (base_name l) (zip table names)).
Proof. apply find_cmd_spec. Qed.

Definition quiet (a : Z) : cmd_tbl_s (list Z * list Z * Z) :=
  Cmd a 4 1 false (λ s m flag argc argv, Some (s, m, 0)) NULL NULL.

End properties.
