(* ===== verification/Readline.v ===== *)
(** * Line editing ([readline] of [common/main.c])

    The reference is a function from the typed characters to the line; the
    theorem says that [readline] leaves that line in the buffer, within its
    bounds, whatever the terminal shows in between. *)

From S2P Require Import Prelude.
From S2P Require Import CString.
From S2P Require Import Env.
From S2P Require Import Cmdline.

(** ** The reference *)

(** The word before the cursor, from its end: one character goes in any case,
    and the last one to go is a space. *)
Fixpoint del_word_rev (r : list Z) : list Z :=
  match r with
  | [] => []
  | c :: r => if c =? 32 then r else del_word_rev r
  end.

Definition edit (l : list Z) (c : Z) : list Z :=
  if c =? 0 then l
  else if c =? 0x15 then []
  else if c =? 0x17 then rev (del_word_rev (rev l))
  else if (c =? 8) || (c =? 0x7F) then removelast l
  else if (length l <? 510)%nat then l ++ [c] else l.

Definition edited (cs : list Z) : list Z := foldl edit [] cs.

(** The characters that end a line. *)
Definition ends_line (c : Z) : Prop := c = 13 ∨ c = 10 ∨ c = 3.

(** The column behind a text that starts in column [plen]. *)
Definition col_of (plen : Z) (l : list Z) : Z :=
  foldl (λ col c, if c =? 9 then col + (8 - Z.land col 7) else col + 1) plen l.

(** What the editing asks of the console: characters come in the order they
    were typed, and printing does not disturb them. *)
Class Typing (W : Type) `{Console W} := {
  pending : W → list Z;
  pending_getc w c r : pending w = c :: r → ∃ w', getc w = Some (c, w') ∧ pending w' = r;
  pending_putc w c : pending (putc w c) = pending w
}.

#[global] Program Instance typed_typing : Typing (list Z * list Z * Z) := {
  pending w := w.1.1
}.
Next Obligation. intros [[i o] t] c r E. simpl in E. subst i. by eexists. Qed.
Next Obligation. by intros [[i o] t] c. Qed.

Section columns.
Implicit Types (l : list Z).

Lemma col_of_snoc plen l c :
  col_of plen (l ++ [c]) =
    if c =? 9 then col_of plen l + (8 - Z.land (col_of plen l) 7) else col_of plen l + 1.
Proof. unfold col_of. by rewrite foldl_app. Qed.

Lemma tab_range x : 0 ≤ Z.land x 7 ≤ 7.
Proof. change 7 with (Z.ones 3) at 1 2. rewrite Z.land_ones by lia.
  change (Z.ones 3) with 7. change (2 ^ 3) with 8. Z.div_mod_to_equations. lia. Qed.

Lemma col_of_range plen l : plen ≤ col_of plen l ≤ plen + 8 * length l.
Proof.
  induction l as [|c l IH] using rev_ind; [simpl; unfold col_of; simpl; lia|].
  rewrite col_of_snoc, length_app. pose proof (tab_range (col_of plen l)).
  destruct (c =? 9); simpl; lia.
Qed.
End columns.

Section editing.
Context {W : Type} `{Typing W}.
Implicit Types (w : W) (m : mem) (l cs : list Z).

Lemma pending_puts w l : pending (puts w l) = pending w.
Proof.
  unfold puts. revert w. induction l as [|c l IH]; intros w; simpl; [done|].
  by rewrite IH, pending_putc.
Qed.

Lemma erase_cols_spec w col plen :
  plen ≤ col → col - plen < 4294967296 →
  ∃ w', erase_cols w col plen = Some (w', plen) ∧ pending w' = pending w.
Proof.
  intros H1 H2. unfold erase_cols.
  destruct (while_rule (λ '(w, col),
    Some (if col >? plen then Next (puts w erase_seq, col - 1) else Done (w, col)))
    (λ '(w', col), plen ≤ col ∧ pending w' = pending w) (λ '(_, col), col - plen)
    (λ '(w', col), col = plen ∧ pending w' = pending w) (w, col)) as ([w' c] & -> & -> & Hp);
    [|done|lia|by exists w'].
  intros [w1 c1] [Hc Hp]. eexists. split; [done|]. rewrite Z.gtb_ltb.
  destruct (Z.ltb_spec plen c1); [|split; [lia|done]].
  split; [|lia]. split; [lia|]. by rewrite pending_puts.
Qed.

Lemma retype_spec w m buffer l plen :
  bytes_at m buffer l → fits l →
  ∃ w', retype w m buffer (buffer + length l) plen = Some (w', col_of plen l) ∧
    pending w' = pending w.
Proof.
  intros Hb Hf. unfold retype.
  destruct (while_rule (λ '(w, s, col),
    if s <? buffer + length l then
      c ← ld m s;
      if c =? 9 then
        Some (Next (puts w (drop (Z.to_nat (Z.land col 7)) tab_seq), s + 1, col + (8 - Z.land col 7)))
      else Some (Next (putc w c, s + 1, col + 1))
    else Some (Done (w, col)))
    (λ '(w', s, col), ∃ i : nat, (i ≤ length l)%nat ∧ s = buffer + i ∧ col = col_of plen (take i l) ∧
      pending w' = pending w) (λ '(_, s, _), buffer + length l - s)
    (λ '(w', col), col = col_of plen l ∧ pending w' = pending w) (w, buffer, plen))
    as ([w' c] & -> & -> & Hp); [|exists 0%nat; split; [lia|split; [lia|done]]|unfold fits in Hf; lia|by exists w'].
  intros [[w1 s] col] (i & Hi & -> & -> & Hp).
  destruct (Z.ltb_spec (buffer + i) (buffer + length l)) as [Hlt|Hge].
  - destruct (lookup_lt_is_Some_2 l i) as [c Hc]; [lia|].
    assert (Hm : m !! (buffer + i) = Some c) by by apply Hb. c_step.
    assert (Hsnoc := col_of_snoc plen (take i l) c).
    rewrite <- (take_S_r _ _ _ Hc) in Hsnoc.
    destruct (c =? 9).
    + eexists. split; [done|]. split; [|lia]. exists (S i). split; [lia|]. split; [lia|].
      split; [done|]. by rewrite pending_puts.
    + eexists. split; [done|]. split; [|lia]. exists (S i). split; [lia|]. split; [lia|].
      split; [done|]. by rewrite pending_putc.
  - eexists. split; [done|]. rewrite take_ge by lia. done.
Qed.

Lemma delete_char_spec w m buffer l plen :
  bytes_at m buffer l → (length l ≤ 510)%nat →
  ∃ w', delete_char w m buffer (buffer + length l) (col_of plen l) (length l) plen =
      Some (w', buffer + length (removelast l), col_of plen (removelast l), length (removelast l) : Z) ∧
    pending w' = pending w.
Proof.
  intros Hb Hl. unfold delete_char.
  destruct l as [|c l _] using rev_ind; [by exists w|].
  rewrite removelast_last, length_app in *. cbn [length] in *.
  rewrite (proj2 (Z.eqb_neq (length l + 1)%nat 0)) by lia.
  replace (buffer + (length l + 1)%nat - 1) with (buffer + length l) by lia.
  replace ((length l + 1)%nat - 1) with (length l : Z) by lia.
  apply bytes_at_app in Hb as [Hb Hc]. apply bytes_at_singleton in Hc. c_step.
  rewrite col_of_snoc. pose proof (col_of_range plen l) as Hr. pose proof (tab_range (col_of plen l)).
  destruct (c =? 9).
  - destruct (erase_cols_spec w (col_of plen l + (8 - Z.land (col_of plen l) 7)) plen)
      as (w1 & -> & P1); [lia|lia|]. rewrite some_bind.
    destruct (retype_spec w1 m buffer l plen Hb) as (w2 & -> & P2); [unfold fits; lia|].
    rewrite some_bind. exists w2. split; [done|congruence].
  - rewrite some_bind. eexists. split; [|apply pending_puts]. do 4 f_equal. lia.
Qed.

(** ^W after its first deletion: [last] is the character that went. *)
Lemma delete_word_spec m buffer plen N : ∀ w l last,
  (length l ≤ N)%nat → (length l < 510)%nat → bytes_at m buffer (l ++ [last]) →
  ∃ n w' l', (n ≤ S N)%nat ∧ runs (λ '(w, p, col, n),
      if n >? 0 then
        x ← ld m p;
        if negb (x =? 32) then
          s ← delete_char w m buffer p col n plen; Some (Next s)
        else Some (Done (w, p, col, n))
      else Some (Done (w, p, col, n)))
      (w, buffer + length l, col_of plen l, length l : Z) n
      (w', buffer + length l', col_of plen l', length l' : Z) ∧
    pending w' = pending w ∧ l' = rev (if last =? 32 then rev l else del_word_rev (rev l)).
Proof.
  induction N as [|N IH]; intros w l last HN Hlen Hb; apply bytes_at_app in Hb as [Hb Hx];
    apply bytes_at_singleton in Hx.
  - destruct l; [|simpl in HN; lia]. eexists 1%nat, w, []. split; [lia|].
    split; [by apply runs_done|]. split; [done|]. by destruct (last =? 32).
  - destruct l as [|c l _] using rev_ind.
    { eexists 1%nat, w, []. split; [lia|]. split; [by apply runs_done|]. split; [done|].
      by destruct (last =? 32). }
    rewrite length_app in HN, Hlen. simpl in HN, Hlen.
    destruct (Z.eqb_spec last 32) as [->|Hne].
    + exists 1%nat, w, (l ++ [c]). split; [lia|]. split.
      { apply runs_done. rewrite Z.gtb_ltb, (proj2 (Z.ltb_lt 0 _)) by (rewrite length_app; simpl; lia).
        by c_step. }
      split; [done|by rewrite rev_involutive].
    + destruct (delete_char_spec w m buffer (l ++ [c]) plen Hb) as (w1 & E1 & P1);
        [rewrite length_app; simpl; lia|].
      rewrite removelast_last in E1.
      destruct (IH w1 l c ltac:(lia) ltac:(lia) Hb) as (n & w' & l' & Hn & Hr & Hp & Hl').
      exists (S n), w', l'. split; [lia|]. split.
      { eapply runs_next; [|exact Hr].
        rewrite Z.gtb_ltb, (proj2 (Z.ltb_lt 0 _)) by (rewrite length_app; simpl; lia).
        c_step. rewrite (proj2 (Z.eqb_neq _ _) Hne). cbn [negb]. by rewrite E1. }
      split; [congruence|]. rewrite rev_app_distr. simpl. by rewrite Hl'.
Qed.

(** The buffer with the line so far. *)
Record editing (buffer : Z) m0 m l : Prop := Editing {
  ed_text : bytes_at m buffer l;
  ed_room : (length l ≤ 510)%nat;
  ed_own : owned m buffer 512;
  ed_frame : changed buffer (buffer + 512) m0 m
}.

Lemma editing_prefix buffer m0 m l l2 : editing buffer m0 m (l ++ l2) → editing buffer m0 m l.
Proof.
  intros [E R O F]. rewrite length_app in R. apply bytes_at_app in E as [E _].
  split; [done|lia|done|done].
Qed.

Lemma removelast_prefix l : ∃ l2, l = removelast l ++ l2.
Proof.
  destruct l as [|c l _] using rev_ind; [by exists []|]. rewrite removelast_last. by exists [c].
Qed.

Lemma del_word_prefix l : ∃ l2, l = rev (del_word_rev (rev l)) ++ l2.
Proof.
  induction l as [|c l IH] using rev_ind; [by exists []|]. rewrite rev_app_distr. simpl.
  destruct (c =? 32); [rewrite rev_involutive; by exists [c]|].
  destruct IH as [l2 E]. exists (l2 ++ [c]). by rewrite app_assoc, <- E.
Qed.

Lemma editing_store buffer m0 m l c :
  editing buffer m0 m l → (length l < 510)%nat → is_byte c →
  ∃ m', st m (buffer + length l) c = Some m' ∧ editing buffer m0 m' (l ++ [c]).
Proof.
  intros [E R O F] Hl Hc.
  assert (Hs : is_Some (m !! (buffer + length l))) by (eapply owned_at; [exact O|lia]).
  destruct (changed_st buffer (buffer + 512) m (buffer + length l) c Hs) as (m' & Em & -> & C); [lia|].
  eexists. split; [exact Em|]. rewrite u8_byte in * by done. split.
  - apply bytes_at_app. split; [by apply bytes_at_insert_out; [lia|]|].
    apply bytes_at_singleton, lookup_insert_eq.
  - rewrite length_app. simpl. lia.
  - by apply owned_insert.
  - by eapply changed_trans.
Qed.

(** A character that does not end the line. *)
Lemma read_char_spec buffer plen w m0 m l c r :
  editing buffer m0 m l → pending w = c :: r → is_byte c → ¬ ends_line c →
  ∃ w' m', read_char buffer plen w m (buffer + length l) (length l) (col_of plen l) =
      Some (Next (w', m', buffer + length (edit l c), length (edit l c) : Z, col_of plen (edit l c))) ∧
    pending w' = r ∧ editing buffer m0 m' (edit l c).
Proof.
  intros He Hp Hc Hend. pose proof He as [E R O F]. unfold ends_line in Hend.
  destruct (pending_getc w c r Hp) as (w1 & Hg & P1). unfold read_char. rewrite Hg, some_bind.
  cbv zeta. rewrite u8_byte by done. unfold edit.
  rewrite (proj2 (Z.eqb_neq c 13)), (proj2 (Z.eqb_neq c 10)), (proj2 (Z.eqb_neq c 3)) by lia.
  cbn [orb]. destruct (Z.eqb_spec c 0) as [->|H1]; [by exists w1, m|].
  pose proof (col_of_range plen l) as Hcol.
  destruct (Z.eqb_spec c 0x15) as [->|H15].
  { destruct (erase_cols_spec w1 (col_of plen l) plen) as (w2 & -> & P2); [lia|lia|].
    rewrite some_bind. exists w2, m. split; [by rewrite Z.add_0_r|]. split; [congruence|].
    by apply (editing_prefix buffer m0 m [] l). }
  destruct (delete_char_spec w1 m buffer l plen E R) as (w2 & E2 & P2).
  destruct (Z.eqb_spec c 0x17) as [->|H17].
  { rewrite E2, some_bind. destruct l as [|x l _] using rev_ind.
    - exists w2, m. split; [done|]. split; [congruence|done].
    - rewrite removelast_last in *. rewrite length_app in R. simpl in R.
      destruct (delete_word_spec m buffer plen (length l) w2 l x ltac:(lia) ltac:(lia) E)
        as (n & w3 & l' & Hn & Hr & P3 & Hl').
      rewrite (while_runs _ _ _ _ Hr), some_bind by lia.
      assert (Hl2 : l' = rev (del_word_rev (rev (l ++ [x])))) by by rewrite rev_app_distr.
      rewrite <- Hl2. exists w3, m. split; [done|]. split; [congruence|].
      destruct (del_word_prefix (l ++ [x])) as [l2 El]. rewrite <- Hl2 in El. rewrite El in He.
      by eapply editing_prefix. }
  destruct ((c =? 8) || (c =? 0x7F)).
  { rewrite E2, some_bind. exists w2, m. split; [done|]. split; [congruence|].
    destruct (removelast_prefix l) as [l2 El]. rewrite El in He. by eapply editing_prefix. }
  change (CFG_CBSIZE - 2) with 510.
  destruct (Z.ltb_spec (length l) 510) as [Hlt|Hge].
  - rewrite (proj2 (Nat.ltb_lt _ _)) by lia.
    destruct (editing_store buffer m0 m l c He) as (m' & Em & He'); [lia|done|].
    rewrite col_of_snoc, length_app. cbn [length].
    replace (buffer + (length l + 1)%nat) with (buffer + length l + 1) by lia.
    replace ((length l + 1)%nat : Z) with (length l + 1) by lia.
    destruct (c =? 9); rewrite Em, some_bind; eexists _, m'; (split; [reflexivity|]).
    + by rewrite pending_puts.
    + by rewrite pending_putc.
  - rewrite (proj2 (Nat.ltb_ge _ _)) by lia. exists (putc w1 7), m. split; [done|].
    by rewrite pending_putc.
Qed.

(** The line of characters typed one after the other. *)
Lemma read_chars buffer plen cs : ∀ w m0 m l r,
  editing buffer m0 m l → pending w = cs ++ r → Forall (λ c, is_byte c ∧ ¬ ends_line c) cs →
  ∃ w' m', pending w' = r ∧ editing buffer m0 m' (foldl edit l cs) ∧
    ∀ n res, runs (λ '(w, m, p, n, col), read_char buffer plen w m p n col)
        (w', m', buffer + length (foldl edit l cs), length (foldl edit l cs) : Z,
         col_of plen (foldl edit l cs)) n res →
      runs (λ '(w, m, p, n, col), read_char buffer plen w m p n col)
        (w, m, buffer + length l, length l : Z, col_of plen l) (length cs + n) res.
Proof.
  induction cs as [|c cs IH]; intros w m0 m l r He Hp Hcs.
  { exists w, m. split; [done|]. split; [done|]. by intros n res. }
  apply Forall_cons_iff in Hcs as [[Hc He'] Hcs].
  destruct (read_char_spec buffer plen w m0 m l c (cs ++ r) He Hp Hc He') as (w1 & m1 & E1 & P1 & He1).
  destruct (IH w1 m0 m1 (edit l c) r He1 P1 Hcs) as (w2 & m2 & P2 & He2 & Hr).
  exists w2, m2. split; [done|]. split; [done|]. intros n res Hres. simpl.
  eapply runs_next; [exact E1|]. by apply Hr.
Qed.

Lemma print_prompt w m prompt :
  prompt = NULL ∨ (∃ l, cstr m prompt l ∧ fits l) →
  ∃ w0 plen, (if negb (prompt =? NULL) then
      plen ← strlen m prompt; l ← ld_bytes m prompt (Z.to_nat plen); Some (puts w l, plen)
    else Some (w, 0)) = Some (w0, plen) ∧ pending w0 = pending w.
Proof.
  intros [->|(pl & Hpl & Hfp)]; [by exists w, 0|].
  destruct (negb (prompt =? NULL)); [|by exists w, 0].
  rewrite (strlen_cstr m prompt pl), some_bind by done. rewrite Nat2Z.id.
  rewrite ld_bytes_at by by apply cstr_bytes. rewrite some_bind.
  eexists _, _. split; [done|]. apply pending_puts.
Qed.

(** C20: [readline] is the editing function: for any typed characters the
    buffer holds the edited line with a NUL (which never takes more than the
    512 bytes of the buffer, however much is typed), and the answer is its
    length; a Control-C gives -1 and an empty buffer.  The characters behind
    the end of the line stay for the next call. *)
Theorem readline_edits buffer w m prompt cs e r :
  owned m buffer 512 → pending w = cs ++ e :: r →
  Forall (λ c, is_byte c ∧ ¬ ends_line c) cs → ends_line e → fits cs →
  prompt = NULL ∨ (∃ l, cstr m prompt l ∧ fits l) →
  let l := edited cs in
  ∃ w' m', readline buffer w m prompt = Some (w', m', if e =? 3 then -1 else length l) ∧
    pending w' = r ∧ (length l ≤ 510)%nat ∧ changed buffer (buffer + 512) m m' ∧
    bytes_at m' buffer (if e =? 3 then [0] else l ++ [0]).
Proof.
  intros Ho Hp Hcs He Hf Hprompt l.
  destruct (print_prompt w m prompt Hprompt) as (w0 & plen & E0 & P0).
  unfold readline. rewrite E0, some_bind. rewrite Hp in P0.
  assert (He0 : editing buffer m m []).
  { split; [apply bytes_at_nil|simpl; lia|done|apply changed_refl]. }
  destruct (read_chars buffer plen cs w0 m m [] (e :: r) He0 P0 Hcs) as (w1 & m1 & P1 & He1 & Hr).
  fold (edited cs) in He1, Hr. fold l in He1, Hr. cbn [length] in Hr. rewrite Z.add_0_r in Hr.
  destruct (pending_getc w1 e r P1) as (w2 & Hg & P2). pose proof He1 as [E R O F].
  assert (Hst : ∀ a, buffer ≤ a < buffer + 512 → ∃ m', st m1 a 0 = Some m' ∧
    m' = <[a := 0]> m1 ∧ changed buffer (buffer + 512) m m').
  { intros a Ha. destruct (changed_st buffer (buffer + 512) m1 a 0) as (m' & Em & -> & C);
      [eapply owned_at; [exact O|lia]|lia|].
    eexists. split; [exact Em|]. split; [done|]. by eapply changed_trans. }
  destruct (Z.eqb_spec e 3) as [->|Hne].
  - destruct (Hst buffer) as (m' & Em & -> & C); [lia|]. eexists w2, _. split.
    { eapply while_runs; [apply Hr, runs_done|unfold fits in Hf; lia].
      unfold read_char. rewrite Hg, some_bind. change (u8 3) with 3. cbn [Z.eqb Pos.eqb orb].
      by rewrite Em. }
    split; [done|]. split; [done|]. split; [done|]. apply bytes_at_singleton, lookup_insert_eq.
  - destruct (Hst (buffer + length l)) as (m' & Em & -> & C); [lia|]. eexists (puts w2 [13; 10]), _.
    split.
    { eapply while_runs; [apply Hr, runs_done|unfold fits in Hf; lia].
      unfold read_char. rewrite Hg, some_bind. cbv zeta.
      replace ((u8 e =? 13) || (u8 e =? 10)) with true
        by (symmetry; unfold ends_line in He; destruct He as [->|[->|]]; done).
      rewrite Em, some_bind. by replace (buffer + length l - buffer) with (length l : Z) by lia. }
    split; [by rewrite pending_puts|]. split; [done|]. split; [done|]. apply bytes_at_app.
    split; [by apply bytes_at_insert_out; [lia|]|]. apply bytes_at_singleton, lookup_insert_eq.
Qed.
End editing.

(** "ab", a backspace, "c d", ^W and Enter give "ac". *)
Lemma readline_edits_witness :
  let m := write_bytes ∅ 1000 (replicate (Z.to_nat 512) 0) in
  let cs := [97; 98; 8; 99; 32; 100; 0x17] in
  ∃ w' m', readline 1000 (cs ++ [13; 88], [], 0) m NULL = Some (w', m', 2) ∧
    pending w' = [88] ∧ (2 ≤ 510)%nat ∧ changed 1000 1512 m m' ∧ bytes_at m' 1000 [97; 99; 0].
Proof.
  intros m cs.
  apply (readline_edits 1000 (cs ++ [13; 88], [], 0) m NULL cs 13 [88]).
  - pose proof (bytes_at_owned _ _ _ (write_bytes_in ∅ 1000 (replicate (Z.to_nat 512) 0))) as Ho.
    rewrite length_replicate, Z2Nat.id in Ho by lia. exact Ho.
  - reflexivity.
  - unfold cs. repeat (apply Forall_cons_2; [unfold is_byte, ends_line; lia|]). apply Forall_nil_2.
  - by left.
  - reflexivity.
  - by left.
Defined.
