(* ===== verification/Macro.v ===== *)
(** * Replacing macros ([process_macros] of [common/main.c])

    A line is a sequence of segments: plain and escaped characters, quoted
    text and variables.  The theorem says what the automaton of
    [process_macros] makes of it, with and without room in the output. *)

From S2P Require Import Prelude.
From S2P Require Import CString.
From S2P Require Import Env.
From S2P Require Import Cmdline.

(** The segments of a line; [paren] chooses between [$(n)] and [${n}]. *)
Inductive seg :=
  | Lit (c : Z)
  | Esc (c : Z)
  | Quote (l : list Z)
  | Var (paren : bool) (n : list Z).

Definition render (g : seg) : list Z :=
  match g with
  | Lit c => [c]
  | Esc c => [92; c]
  | Quote l => 39 :: l ++ [39]
  | Var paren n => [36; if paren then 40 else 123] ++ n ++ [if paren then 41 else 125]
  end.

Definition meaning (es : list entry) (g : seg) : list Z :=
  match g with
  | Lit c | Esc c => [c]
  | Quote l => l
  | Var _ n => match lookup_env n es with Some v => v | None => [] end
  end.

(** The characters a segment may have.  (A backslash behind a backslash, and
    any backslash in quotes or in a name, is read in another way.) *)
Definition plain_char (c : Z) : Prop := is_char c ∧ c ≠ 92 ∧ c ≠ 36 ∧ c ≠ 39.

Definition seg_ok (g : seg) : Prop :=
  match g with
  | Lit c => plain_char c
  | Esc c => is_char c ∧ c ≠ 92
  | Quote l => Forall (λ c, is_char c ∧ c ≠ 92 ∧ c ≠ 39) l
  | Var _ n => Forall (λ c, is_char c ∧ c ≠ 92 ∧ c ≠ 41 ∧ c ≠ 125 ∧ c ≠ 61) n ∧ (length n < 512)%nat
  end.

Definition line_text (gs : list seg) : list Z := flat_map render gs.
Definition line_meaning (es : list entry) (gs : list seg) : list Z := flat_map (meaning es) gs.

Section macros.
Context (e : env) (es : list entry) (in0 out0 name0 : Z) (text : list Z) (m0 : mem).
Implicit Types (m : mem) (pre rest out : list Z).

(** [lo] to [hi] is apart from the two buffers the function writes. *)
Definition apart (lo hi : Z) : Prop :=
  (hi ≤ out0 ∨ out0 + 512 ≤ lo) ∧ (hi ≤ name0 ∨ name0 + 512 ≤ lo).

Context (Hin : apart in0 (in0 + length text + 1))
  (Henv : apart (env_base e) (env_base e + length (flat es) + 1))
  (Hbuf : out0 + 512 ≤ name0 ∨ name0 + 512 ≤ out0)
  (Hflat : length (flat es) < CFG_ENV_SIZE) (Hpos : 0 < env_base e).

(** What holds while the line is processed, with [out] written. *)
Record mac m out : Prop := Mac {
  mac_env : entries_at m (env_base e) es;
  mac_in : cstr m in0 text;
  mac_out : owned m out0 512;
  mac_name : owned m name0 512;
  mac_done : bytes_at m out0 out;
  mac_room : (length out ≤ 512)%nat;
  mac_frame : ∀ j, apart j (j + 1) → m !! j = m0 !! j;
  mac_keep : ∀ j, is_Some (m0 !! j) → is_Some (m !! j)
}.

Lemma mac_emit m out c :
  mac m out → (length out < 512)%nat → is_byte c →
  ∃ m', st m (out0 + length out) c = Some m' ∧ mac m' (out ++ [c]).
Proof.
  intros [[E1 E2] I O N D R F K] Hl Hc.
  assert (Hs : is_Some (m !! (out0 + length out))) by (eapply owned_at; [exact O|lia]).
  rewrite st_owned by done. eexists. split; [done|]. rewrite u8_byte by done.
  split; [split|..]; [|done| |by apply owned_insert|by apply owned_insert| | | |].
  - apply bytes_at_insert_out; [|done]. rewrite length_app. simpl. unfold apart in Henv. lia.
  - apply cstr_insert_out; [|done]. unfold apart in Hin. lia.
  - apply bytes_at_app. split; [by apply bytes_at_insert_out; [lia|]|].
    apply bytes_at_singleton. apply lookup_insert_eq.
  - rewrite length_app. simpl. lia.
  - intros j Hj. unfold apart in Hj. rewrite lookup_insert_ne by lia. apply F. exact Hj.
  - intros j Hj. destruct (decide (out0 + length out = j)) as [->|Hne];
      [by rewrite lookup_insert_eq|rewrite lookup_insert_ne by done; by apply K].
Qed.

Lemma mac_name_write m out k :
  mac m out → length k ≤ 512 → mac (write_bytes m name0 k) out.
Proof.
  intros [[E1 E2] I O N D R F K] Hk. unfold apart in *.
  split; [split|..]; [|done| |by apply owned_write|by apply owned_write| |done| |].
  - apply bytes_at_write_disjoint; [|done]. rewrite length_app. simpl. lia.
  - apply cstr_write_disjoint; [|done]. lia.
  - apply bytes_at_write_disjoint; [|done]. lia.
  - intros j Hj. unfold apart in Hj. rewrite write_bytes_out by lia. apply F. exact Hj.
  - intros j Hj. destruct (changed_write name0 (name0 + 512) m name0 k) as [_ C]; [lia|lia|].
    apply C. by apply K.
Qed.

(** A value of the environment lies inside it. *)
Lemma value_inside m out p v :
  mac m out → env_base e ≤ p < env_base e + length (flat es) → cstr m p v →
  p + length v < env_base e + length (flat es) + 1.
Proof.
  intros [[E1 _] _ _ _ _ _ _ _] Hp [Hv Hb]. apply bytes_at_app in E1 as [_ E1].
  apply bytes_at_singleton in E1.
  destruct (Z.lt_ge_cases (p + length v) (env_base e + length (flat es) + 1)) as [?|Hge]; [done|].
  set (i := Z.to_nat (env_base e + length (flat es) - p)).
  destruct (lookup_lt_is_Some_2 v i) as [x Hx]; [lia|].
  assert (Hx0 : m !! (p + i) = Some x) by (apply Hb; by apply lookup_app_l_Some).
  replace (p + i) with (env_base e + length (flat es)) in Hx0 by lia. rewrite E1 in Hx0.
  injection Hx0 as <-. pose proof (Forall_lookup_1 _ _ _ _ Hv Hx) as Hc.
  unfold is_char in Hc. lia.
Qed.

Lemma copy_value_spec m out p v :
  mac m out → env_base e ≤ p → p + length v < env_base e + length (flat es) + 1 → cstr m p v →
  ∃ m', copy_value m p (out0 + length out) (512 - length out) =
      Some (m', out0 + length (take 512 (out ++ v)), 512 - length (take 512 (out ++ v))) ∧
    mac m' (take 512 (out ++ v)).
Proof.
  intros Hm Hp Hend Hc. unfold copy_value.
  destruct (while_within_ex (λ '(m, envval, output, outputcnt),
    c ← ld m envval;
    if negb (c =? 0) && negb (outputcnt =? 0) then
      m ← st m output c; Some (Next (m, envval + 1, output + 1, outputcnt - 1))
    else Some (Done (m, output, outputcnt))) (m, p, out0 + length out, 512 - length out)
    (S (length v)) (λ r, ∃ m', r = (m', out0 + length (take 512 (out ++ v)),
      512 - length (take 512 (out ++ v))) ∧ mac m' (take 512 (out ++ v)))) as (r & Hr & m' & -> & Hm');
    [unfold CFG_ENV_SIZE in Hflat; lia| |by exists m'].
  revert m p out Hm Hp Hend Hc. induction v as [|c v IH]; intros m p out Hm Hp Hend Hc.
  - pose proof (mac_room _ _ Hm) as R. apply cstr_nil in Hc.
    eexists 1%nat, _. split; [lia|]. split; [apply runs_done; cbv beta iota; c_step; reflexivity|].
    rewrite app_nil_r, take_ge by lia. by exists m.
  - pose proof (mac_room _ _ Hm) as R. apply cstr_cons in Hc as (Hch & Hx & Hc).
    destruct (decide (length out = 512)%nat) as [Hfull|Hroom].
    + eexists 1%nat, _. split; [lia|]. split.
      { apply runs_done. cbv beta iota. c_step. unfold is_char in Hch. zbool. reflexivity. }
      rewrite <- Hfull, take_app_length. by exists m.
    + destruct (mac_emit m out c Hm) as (m1 & E1 & Hm1); [lia|by apply char_byte|].
      destruct (IH m1 (p + 1) (out ++ [c]) Hm1) as (n & r & Hn & Hr & HQ);
        [lia|cbn [length] in Hend; lia| |].
      { assert (E2 : m1 = <[out0 + length out := c]> m).
        { rewrite st_owned in E1 by (eapply owned_at; [exact (mac_out _ _ Hm)|lia]).
          rewrite u8_byte in E1 by by apply char_byte. congruence. }
        rewrite E2. apply cstr_insert_out; [|done]. unfold apart in Henv. cbn [length] in Hend. lia. }
      exists (S n), r. rewrite <- app_assoc in HQ. split; [cbn [length]; lia|]. split; [|exact HQ].
      eapply runs_next; [|exact Hr]. cbv beta iota. c_step. unfold is_char in Hch. zbool.
      rewrite E1, some_bind. rewrite length_app. cbn [length].
      repeat first [lia|reflexivity|f_equal].
Qed.

Lemma copy_name_spec m out a n :
  mac m out → bytes_at m a n → Forall is_byte n → apart a (a + length n) → (length n < 512)%nat →
  copy_name m name0 a (length n) = Some (write_bytes m name0 (n ++ [0])).
Proof.
  intros Hm Hb Hby Ha Hn. unfold copy_name.
  destruct (while_rule (λ '(m, i),
    if i <? length n then
      c ← ld m (a + i); m ← st m (name0 + i) c; Some (Next (m, i + 1))
    else m ← st m (name0 + i) 0; Some (Done m))
    (λ '(m', i), 0 ≤ i ≤ length n ∧ m' = write_bytes m name0 (take (Z.to_nat i) n))
    (λ '(_, i), length n - i) (λ r, r = write_bytes m name0 (n ++ [0])) (m, 0))
    as (r & Hr & ->); [|split; [lia|done]|lia|done].
  pose proof (mac_name _ _ Hm) as N.
  intros [m' i] [Hi ->]. cbv beta iota.
  assert (Hst : ∀ x, st (write_bytes m name0 (take (Z.to_nat i) n)) (name0 + i) x =
    Some (write_bytes m name0 (take (Z.to_nat i) n ++ [u8 x]))).
  { intros x. apply (st_append m name0 512); [done| |]; rewrite length_take; lia. }
  destruct (Z.ltb_spec i (length n)) as [Hlt|Hge].
  - destruct (lookup_lt_is_Some_2 n (Z.to_nat i)) as [x Hx]; [lia|].
    assert (Hx' : write_bytes m name0 (take (Z.to_nat i) n) !! (a + i) = Some x).
    { rewrite write_bytes_out by (rewrite length_take; unfold apart in Ha; lia).
      replace (a + i) with (a + Z.to_nat i) by lia. by apply Hb. }
    c_step. rewrite Hst, some_bind. eexists. split; [done|]. split; [|lia]. split; [lia|].
    replace (Z.to_nat (i + 1)) with (S (Z.to_nat i)) by lia.
    rewrite (take_S_r _ _ _ Hx), u8_byte; [done|]. by eapply Forall_lookup_1.
  - rewrite Hst, some_bind. eexists. split; [done|]. by rewrite take_ge by lia.
Qed.

(** The automaton behind [pre], before [rest], with [out] written. *)
Definition st_at m pre rest out (state prev vs : Z) : macro_state :=
  (m, in0 + length pre, out0 + length out, length rest : Z, 512 - length out, state, prev, vs).

(** It stops within [N] steps with [final] in the output buffer. *)
Definition finish (x : macro_state) (N : nat) (final : list Z) : Prop :=
  ∃ n m', (n ≤ N)%nat ∧
    runs (macro_step e name0) x n (m', out0 + length final, 512 - length final) ∧ mac m' final.

Lemma finish_full m pre rest out k state prev vs N :
  mac m out → length out = 512%nat → finish (st_at m pre rest out state prev vs) (S N) (take 512 (out ++ k)).
Proof.
  intros Hm Hl. exists 1%nat, m. rewrite <- Hl, take_app_length. split; [lia|]. split; [|done].
  apply runs_done. unfold st_at, macro_step. rewrite Hl. by rewrite orb_true_r.
Qed.

Lemma finish_end m pre out state prev vs N :
  mac m out → finish (st_at m pre [] out state prev vs) (S N) (take 512 (out ++ [])).
Proof.
  intros Hm. pose proof (mac_room _ _ Hm). exists 1%nat, m.
  rewrite app_nil_r, take_ge by lia. split; [lia|]. split; [|done]. by apply runs_done.
Qed.

Lemma finish_next x x' N final :
  macro_step e name0 x = Some (Next x') → finish x' N final → finish x (S N) final.
Proof.
  intros E (n & m' & Hn & Hr & Hm). exists (S n), m'. split; [lia|]. split; [|done].
  by eapply runs_next.
Qed.

Lemma text_at m out pre c rest :
  mac m out → text = pre ++ c :: rest → is_char c ∧ m !! (in0 + length pre) = Some c.
Proof.
  intros Hm Ht. pose proof (mac_in _ _ Hm) as Hc. rewrite Ht in Hc.
  apply (cstr_drop _ _ _ (length pre)) in Hc; [|rewrite length_app; lia].
  rewrite drop_app_length in Hc. apply cstr_cons in Hc. tauto.
Qed.

(** A character that is not a backslash, or any character in quotes. *)
Lemma step_char m pre c rest out state prev vs :
  mac m out → text = pre ++ c :: rest → (length out < 512)%nat → state = 3 ∨ c ≠ 92 →
  macro_step e name0 (st_at m pre (c :: rest) out state prev vs) =
    (x ← macro_char e name0 c (st_at m (pre ++ [c]) rest out state prev vs); Some (Next x)).
Proof.
  intros Hm Ht Hl Hs. destruct (text_at m out pre c rest Hm Ht) as [Hc Hx].
  unfold st_at, macro_step. cbn [length].
  rewrite (proj2 (Z.eqb_neq (S (length rest)) 0)), (proj2 (Z.eqb_neq (512 - _) 0)) by lia.
  cbn [orb]. c_step.
  replace (negb (state =? 3) && (c =? 92) && negb (prev =? 92)) with false.
  2: { symmetry. destruct Hs as [->|Hne]; [done|]. by rewrite (proj2 (Z.eqb_neq _ _) Hne), andb_false_r. }
  rewrite length_app. cbn [length].
  replace (in0 + (length pre + 1)%nat) with (in0 + length pre + 1) by lia.
  by replace (S (length rest) - 1) with (length rest : Z) by lia.
Qed.

(** The first of two backslashes goes, and the next character is read. *)
Lemma step_esc m pre c rest out state prev vs :
  mac m out → text = pre ++ 92 :: c :: rest → (length out < 512)%nat → state ≠ 3 → prev ≠ 92 →
  macro_step e name0 (st_at m pre (92 :: c :: rest) out state prev vs) =
    (x ← macro_char e name0 c (st_at m (pre ++ [92; c]) rest out state 92 vs); Some (Next x)).
Proof.
  intros Hm Ht Hl Hs Hp. destruct (text_at m out pre 92 (c :: rest) Hm Ht) as [_ Hx].
  assert (Hx2 : m !! (in0 + length pre + 1) = Some c).
  { destruct (text_at m out (pre ++ [92]) c rest Hm) as [_ Hx2]; [by rewrite <- app_assoc|].
    rewrite length_app in Hx2. cbn [length] in Hx2.
    by replace (in0 + length pre + 1) with (in0 + (length pre + 1)%nat) by lia. }
  unfold st_at, macro_step. cbn [length].
  rewrite (proj2 (Z.eqb_neq (S (S (length rest))) 0)), (proj2 (Z.eqb_neq (512 - _) 0)) by lia.
  cbn [orb]. c_step. rewrite (proj2 (Z.eqb_neq _ _) Hs), (proj2 (Z.eqb_neq _ _) Hp).
  change (92 =? 92) with true. cbn [negb andb].
  rewrite (proj2 (Z.eqb_neq (S (S (length rest)) - 1) 0)) by lia. c_step.
  rewrite length_app. cbn [length].
  replace (in0 + (length pre + 2)%nat) with (in0 + length pre + 1 + 1) by lia.
  by replace (S (S (length rest)) - 1 - 1) with (length rest : Z) by lia.
Qed.

(** A character that is written. *)
Lemma emit_char m pre rest out state prev vs c :
  mac m out → (length out < 512)%nat → is_char c →
  state = 0 ∧ (prev = 92 ∨ c ≠ 39 ∧ c ≠ 36) ∨ state = 3 ∧ c ≠ 39 →
  ∃ m', macro_char e name0 c (st_at m pre rest out state prev vs) =
      Some (st_at m' pre rest (out ++ [c]) state c vs) ∧ mac m' (out ++ [c]).
Proof.
  intros Hm Hl Hc Hs. destruct (mac_emit m out c Hm Hl) as (m' & E & Hm'); [by apply char_byte|].
  exists m'. split; [|done]. unfold st_at, macro_char. rewrite length_app. cbn [length].
  replace (out0 + (length out + 1)%nat) with (out0 + length out + 1) by lia.
  replace (512 - (length out + 1)%nat) with (512 - length out - 1) by lia.
  destruct Hs as [(-> & Hp)|(-> & Hne)].
  - change (0 =? 0) with true. cbv iota.
    replace ((c =? 39) && negb (prev =? 92)) with false.
    2: { symmetry. destruct Hp as [->|[? ?]]; [by rewrite andb_false_r|by zbool]. }
    replace ((c =? 36) && negb (prev =? 92)) with false.
    2: { symmetry. destruct Hp as [->|[? ?]]; [by rewrite andb_false_r|by zbool]. }
    by rewrite E.
  - change (3 =? 0) with false. change (3 =? 1) with false. change (3 =? 2) with false. cbv iota.
    rewrite (proj2 (Z.eqb_neq _ _) Hne). cbn [andb]. by rewrite E.
Qed.

(** The text of a quotation up to its end; [k] is what comes behind it. *)
Lemma finish_quote l k rest N vs : ∀ m pre out prev,
  Forall (λ c, is_char c ∧ c ≠ 92 ∧ c ≠ 39) l → mac m out → prev ≠ 92 →
  text = pre ++ l ++ 39 :: rest →
  (∀ m', mac m' (out ++ l) →
     finish (st_at m' (pre ++ l ++ [39]) rest (out ++ l) 0 39 vs) N (take 512 ((out ++ l) ++ k))) →
  finish (st_at m pre (l ++ 39 :: rest) out 3 prev vs) (S (length l) + N) (take 512 (out ++ l ++ k)).
Proof.
  induction l as [|c l IH]; intros m pre out prev Hl Hm Hp Ht K.
  - destruct (decide (length out = 512)%nat) as [Hf|Hf]; [by apply finish_full|].
    pose proof (mac_room _ _ Hm) as R. rewrite app_nil_r in K. cbn [app] in *.
    eapply finish_next; [|by apply K].
    rewrite (step_char m pre 39 rest) by (done || lia || auto).
    unfold macro_char, st_at. change (3 =? 0) with false. change (3 =? 1) with false.
    change (3 =? 2) with false. cbv iota. change (39 =? 39) with true.
    by rewrite (proj2 (Z.eqb_neq _ _) Hp).
  - destruct (decide (length out = 512)%nat) as [Hf|Hf]; [by apply finish_full|].
    pose proof (mac_room _ _ Hm) as R. apply Forall_cons_iff in Hl as [(Hc & H1 & H2) Hl].
    simpl in Ht |- *.
    destruct (emit_char m (pre ++ [c]) (l ++ 39 :: rest) out 3 prev vs c) as (m' & E & Hm');
      [done|lia|done|by right|].
    eapply finish_next.
    { rewrite (step_char m pre c (l ++ 39 :: rest)) by (done || lia || auto). by rewrite E. }
    assert (Heq : ∀ x : list Z, (out ++ [c]) ++ x = out ++ c :: x) by (intros x; by rewrite <- app_assoc).
    rewrite <- (Heq (l ++ k)). apply (IH m' (pre ++ [c]) (out ++ [c])); [done|done|done|by rewrite <- app_assoc|].
    intros m2 Hm2. rewrite !Heq in Hm2 |- *. rewrite <- (app_assoc pre). by apply K.
Qed.

(** The name of a variable is passed over. *)
Lemma finish_name n2 d rest vs N final : ∀ m pre out prev,
  Forall (λ c, is_char c ∧ c ≠ 92 ∧ c ≠ 41 ∧ c ≠ 125 ∧ c ≠ 61) n2 → mac m out → prev ≠ 92 →
  (length out < 512)%nat → text = pre ++ n2 ++ d :: rest →
  (∀ prev', prev' ≠ 92 → finish (st_at m (pre ++ n2) (d :: rest) out 2 prev' vs) N final) →
  finish (st_at m pre (n2 ++ d :: rest) out 2 prev vs) (length n2 + N) final.
Proof.
  induction n2 as [|c n2 IH]; intros m pre out prev Hn Hm Hp Hl Ht K.
  - specialize (K prev Hp). by rewrite app_nil_r in K.
  - apply Forall_cons_iff in Hn as [(Hc & H1 & H2 & H3 & _) Hn]. cbn [app] in *.
    eapply finish_next.
    { rewrite (step_char m pre c (n2 ++ d :: rest)) by (done || lia || auto).
      unfold macro_char, st_at. change (2 =? 0) with false. change (2 =? 1) with false.
      change (2 =? 2) with true. cbv iota.
      rewrite (proj2 (Z.eqb_neq c 41)), (proj2 (Z.eqb_neq c 125)) by done. reflexivity. }
    apply (IH m (pre ++ [c])); [done|done|done|done|by rewrite <- app_assoc|].
    intros prev' Hp'. rewrite <- app_assoc. by apply K.
Qed.

(** The end of a name: its value is written. *)
Lemma close_var m pre0 n d rest out prev :
  Forall (λ c, is_char c ∧ c ≠ 92 ∧ c ≠ 41 ∧ c ≠ 125 ∧ c ≠ 61) n → (length n < 512)%nat →
  d = 41 ∨ d = 125 → mac m out → text = pre0 ++ n ++ d :: rest →
  let v := match lookup_env n es with Some v => v | None => [] end in
  ∃ m', macro_char e name0 d
      (st_at m ((pre0 ++ n) ++ [d]) rest out 2 prev (in0 + length pre0)) =
      Some (st_at m' ((pre0 ++ n) ++ [d]) rest (take 512 (out ++ v)) 0 d (in0 + length pre0)) ∧
    mac m' (take 512 (out ++ v)).
Proof.
  intros Hn Hln Hd Hm Ht v.
  assert (Hchar : Forall is_char n) by (eapply Forall_impl; [|exact Hn]; tauto).
  assert (Hby : Forall is_byte n) by (eapply Forall_impl; [exact char_byte|exact Hchar]).
  assert (Hb : bytes_at m (in0 + length pre0) n).
  { pose proof (mac_in _ _ Hm) as [_ Hb]. rewrite Ht, <- app_assoc in Hb.
    apply bytes_at_app in Hb as [_ Hb]. rewrite <- app_assoc in Hb. by apply bytes_at_app in Hb as [Hb _]. }
  assert (Hcn := copy_name_spec m out (in0 + length pre0) n Hm Hb Hby).
  assert (Hap : apart (in0 + length pre0) (in0 + length pre0 + length n)).
  { unfold apart in *. rewrite Ht, !length_app in Hin. lia. }
  specialize (Hcn Hap Hln). set (m1 := write_bytes m name0 (n ++ [0])) in *.
  assert (Hm1 : mac m1 out) by (apply mac_name_write; [done|rewrite length_app; simpl; lia]).
  assert (Hcs : cstr m1 name0 n) by (split; [done|apply write_bytes_in]).
  destruct (getenv_found e m1 es name0 n) as (p & Hg & Hp);
    [apply Hm1|done|done| |unfold fits; lia|].
  { intros [i Hi]%list_elem_of_lookup. pose proof (Forall_lookup_1 _ _ _ _ Hn Hi). simpl in *. lia. }
  unfold macro_char, st_at. change (2 =? 0) with false. change (2 =? 1) with false.
  change (2 =? 2) with true. cbv iota.
  replace ((d =? 41) || (d =? 125)) with true by (destruct Hd as [->| ->]; done).
  replace (in0 + length ((pre0 ++ n) ++ [d]) - (in0 + length pre0) - 1) with (length n : Z)
    by (rewrite !length_app; cbn [length]; lia).
  rewrite Hcn, some_bind, Hg, some_bind.
  destruct (lookup_env n es) as [v'|]; subst v.
  - destruct Hp as [Hr Hv]. rewrite (proj2 (Z.eqb_neq p NULL)) by (unfold NULL; lia).
    destruct (copy_value_spec m1 out p v' Hm1) as (m2 & E2 & Hm2);
      [lia|by eapply value_inside|done|].
    exists m2. split; [|done]. cbn [negb]. by rewrite E2, some_bind.
  - subst p. change (NULL =? NULL) with true. cbn [negb]. rewrite some_bind, app_nil_r.
    pose proof (mac_room _ _ Hm). rewrite take_ge by lia. by exists m1.
Qed.

(** A variable with its value, in either kind of brackets. *)
Lemma finish_var paren n ml post k m pre out prev vs :
  seg_ok (Var paren n) → mac m out → (length out < 512)%nat → prev ≠ 92 →
  text = pre ++ render (Var paren n) ++ post →
  let out' := take 512 (out ++ meaning es (Var paren n)) in
  (∀ m' prev' vs', mac m' out' → prev' ≠ 92 →
     finish (st_at m' (pre ++ render (Var paren n)) post out' 0 prev' vs') k (take 512 (out' ++ ml))) →
  finish (st_at m pre (render (Var paren n) ++ post) out 0 prev vs)
    (length (render (Var paren n)) + k) (take 512 (out ++ meaning es (Var paren n) ++ ml)).
Proof.
  intros [Hn Hln] Hm Hf Hp Ht out' IH. pose proof (mac_room _ _ Hm) as R. cbn [render] in *.
  set (o := if paren then 40 else 123) in *. set (d := if paren then 41 else 125) in *.
  assert (Ho : o = 40 ∨ o = 123) by (unfold o; destruct paren; auto).
  assert (Hd : d = 41 ∨ d = 125) by (unfold d; destruct paren; auto).
  cbn [app] in *. rewrite <- app_assoc in Ht |- *. cbn [app] in *.
  assert (El : length (36 :: o :: n ++ [d]) = S (S (S (length n))))
    by (cbn [length]; rewrite length_app; cbn [length]; lia).
  rewrite El. replace (S (S (S (length n))) + k)%nat with (S (S (length n + S k))) by lia.
  eapply finish_next.
  { rewrite (step_char m pre 36) by (done || lia || (right; lia)).
    unfold macro_char, st_at. change (0 =? 0) with true. change (36 =? 39) with false.
    change (36 =? 36) with true. rewrite (proj2 (Z.eqb_neq _ _) Hp). reflexivity. }
  change (finish (st_at m (pre ++ [36]) (o :: n ++ d :: post) out 1 36 vs)
    (S (length n + S k)) (take 512 (out ++ meaning es (Var paren n) ++ ml))).
  assert (Ht2 : text = (pre ++ [36]) ++ o :: n ++ d :: post) by (rewrite Ht, <- !app_assoc; done).
  eapply finish_next.
  { rewrite (step_char m (pre ++ [36]) o) by (done || lia || (right; lia)).
    unfold macro_char, st_at. change (1 =? 0) with false. change (1 =? 1) with true. cbv iota.
    replace ((o =? 40) || (o =? 123)) with true by (destruct Ho as [->| ->]; done). reflexivity. }
  set (pre0 := (pre ++ [36]) ++ [o]).
  change (finish (st_at m pre0 (n ++ d :: post) out 2 o (in0 + length pre0))
    (length n + S k) (take 512 (out ++ meaning es (Var paren n) ++ ml))).
  assert (Ht3 : text = pre0 ++ n ++ d :: post) by (unfold pre0; rewrite Ht2, <- !app_assoc; done).
  apply finish_name; [done|done|lia|lia|done|]. intros prev' Hp'.
  destruct (close_var m pre0 n d post out prev') as (m' & E & Hm'); [done..|].
  eapply finish_next.
  { rewrite (step_char m (pre0 ++ n) d); [|done| |lia|lia].
    - rewrite E. reflexivity.
    - rewrite Ht3, <- app_assoc. done. }
  replace (take 512 (out ++ meaning es (Var paren n) ++ ml)) with (take 512 (out' ++ ml))
    by (unfold out'; by rewrite take_app_take, <- app_assoc).
  replace ((pre0 ++ n) ++ [d]) with (pre ++ 36 :: o :: n ++ [d]) by (unfold pre0; rewrite <- !app_assoc; done).
  apply IH; [exact Hm'|lia].
Qed.

Lemma finish_line gs : ∀ m pre out prev vs,
  Forall seg_ok gs → mac m out → prev ≠ 92 → text = pre ++ line_text gs →
  finish (st_at m pre (line_text gs) out 0 prev vs) (S (length (line_text gs)))
    (take 512 (out ++ line_meaning es gs)).
Proof.
  induction gs as [|g gs IH]; intros m pre out prev vs Hgs Hm Hp Ht.
  { by apply finish_end. }
  apply Forall_cons_iff in Hgs as [Hg Hgs].
  destruct (decide (length out = 512)%nat) as [Hf|Hf]; [by apply finish_full|].
  pose proof (mac_room _ _ Hm) as R.
  unfold line_text, line_meaning in *. cbn [flat_map] in *.
  fold (line_text gs) in *. fold (line_meaning es gs) in *.
  assert (Heq : ∀ x y : list Z, (out ++ x) ++ y = out ++ x ++ y) by (intros; by rewrite <- app_assoc).
  destruct g as [c|c|l|paren n]. 1-3: cbn [render meaning seg_ok app] in *.
  - destruct Hg as (Hc & H1 & H2 & H3). cbn [length].
    destruct (emit_char m (pre ++ [c]) (line_text gs) out 0 prev vs c) as (m' & E & Hm');
      [done|lia|done|by left; auto|].
    eapply finish_next.
    { rewrite (step_char m pre c) by (done || lia || (right; lia)). by rewrite E. }
    change (out ++ c :: ?x) with (out ++ [c] ++ x). rewrite <- (Heq [c] (line_meaning es gs)). apply IH; [done|done|done|by rewrite <- app_assoc].
  - destruct Hg as (Hc & H1). cbn [length].
    destruct (emit_char m (pre ++ [92; c]) (line_text gs) out 0 92 vs c) as (m' & E & Hm');
      [done|lia|done|by left; auto|].
    assert (Hfin : finish (st_at m' (pre ++ [92; c]) (line_text gs) (out ++ [c]) 0 c vs)
      (S (length (line_text gs))) (take 512 ((out ++ [c]) ++ line_meaning es gs))).
    { apply IH; [done|done|done|by rewrite <- app_assoc]. }
    destruct Hfin as (k & m2 & Hk & Hr & Hm2).
    change (out ++ c :: ?x) with (out ++ [c] ++ x). rewrite <- (Heq [c] (line_meaning es gs)).
    exists (S k), m2. split; [lia|]. split; [|done]. eapply runs_next; [|exact Hr].
    rewrite (step_esc m pre c) by (done || lia). by rewrite E.
  - rewrite <- app_assoc in Ht |- *. cbn [app length] in *.
    replace (S (S (length (l ++ 39 :: line_text gs))))
      with (S (S (length l) + S (length (line_text gs)))) by (rewrite length_app; simpl; lia).
    eapply finish_next.
    { rewrite (step_char m pre 39) by (done || lia || (right; lia)).
      unfold macro_char, st_at. change (0 =? 0) with true. change (39 =? 39) with true.
      rewrite (proj2 (Z.eqb_neq _ _) Hp). reflexivity. }
    apply (finish_quote l (line_meaning es gs) (line_text gs) _ _ m (pre ++ [39])); [done|done|done| |].
    { rewrite Ht, <- !app_assoc. done. }
    intros m' Hm'. apply IH; [done|done|done|]. rewrite Ht, <- !app_assoc. done.
  - replace (S (length (render (Var paren n) ++ line_text gs)))
      with (length (render (Var paren n)) + S (length (line_text gs)))%nat by (rewrite length_app; lia).
    apply (finish_var paren n (line_meaning es gs)); [done|done|lia|done|done|].
    intros m' prev' vs' Hm' Hp'. apply IH; [done|done|done|]. by rewrite Ht, <- app_assoc.
Qed.

Lemma meaning_chars gs :
  Forall entry_ok es → Forall seg_ok gs → Forall is_char (line_meaning es gs).
Proof.
  intros He. assert (Hl : ∀ n v, lookup_env n es = Some v → Forall is_char v).
  { clear - He. intros n v. induction He as [|[n' v'] es (_ & Hv & _) He IH]; simpl; [done|].
    case_decide; [by intros [= <-]|done]. }
  induction 1 as [|g gs Hg Hgs IH]; [constructor|]. unfold line_meaning in *. simpl.
  apply Forall_app. split; [|exact IH]. destruct g as [c|c|l|paren n]; simpl in *.
  - constructor; [apply Hg|constructor].
  - constructor; [apply Hg|constructor].
  - eapply Forall_impl; [|exact Hg]. tauto.
  - destruct (lookup_env n es) eqn:E; [by eapply Hl|constructor].
Qed.

(** The function: the text that fits, with a NUL when there is room for it. *)
Lemma process_macros_line gs :
  mac m0 [] → text = line_text gs → Forall seg_ok gs → fits text →
  ∃ m', process_macros e name0 m0 in0 out0 = Some m' ∧
    (∀ j, apart j (j + 1) → m' !! j = m0 !! j) ∧ (∀ j, is_Some (m0 !! j) → is_Some (m' !! j)) ∧
    let out := line_meaning es gs in
    ((length out < 512)%nat → cstr m' out0 out) ∧
    ((512 ≤ length out)%nat → bytes_at m' out0 (take 512 out)).
Proof.
  intros Hm Ht Hgs Hf. unfold process_macros.
  rewrite (strlen_cstr m0 in0 text), some_bind by (done || apply Hm).
  destruct (finish_line gs m0 [] [] 0 NULL Hgs Hm ltac:(done) Ht) as (n & m' & Hn & Hr & Hm').
  unfold st_at in Hr. cbn [length app] in *. rewrite !Z.add_0_r, <- Ht in Hr.
  change (512 - 0%nat) with CFG_CBSIZE in Hr.
  rewrite (while_runs _ _ _ _ Hr); [|unfold fits in Hf; rewrite <- Ht in Hn; lia].
  rewrite some_bind. set (out := line_meaning es gs) in *.
  pose proof (meaning_chars gs (proj2 (mac_env _ _ Hm)) Hgs) as Hch. fold out in Hch.
  destruct Hm' as [_ _ O _ D _ F K].
  destruct (decide (length out < 512)%nat) as [Hlt|Hge].
  - rewrite take_ge in * by lia. rewrite (proj2 (Z.eqb_neq (512 - _) 0)) by lia. cbn [negb].
    assert (Hs : is_Some (m' !! (out0 + length out))) by (eapply owned_at; [exact O|lia]).
    rewrite st_owned by done. eexists. split; [done|]. split; [|split].
    + intros j Hj. rewrite lookup_insert_ne; [by apply F|]. unfold apart in Hj. lia.
    + intros j Hj. destruct (decide (out0 + length out = j)) as [->|Hne];
        [by rewrite lookup_insert_eq|rewrite lookup_insert_ne by done; by apply K].
    + split; [|lia]. intros _. split; [done|]. apply bytes_at_app. split.
      * apply bytes_at_insert_out; [lia|done].
      * apply bytes_at_singleton. apply lookup_insert_eq.
  - rewrite length_take. replace (512 `min` length out)%nat with 512%nat by lia.
    change (512 - 512%nat =? 0) with true. cbn [negb]. exists m'.
    split; [done|]. split; [done|]. split; [done|]. split; [lia|done].
Qed.
End macros.

(** C18: [process_macros] on a line of plain and escaped characters, quoted
    text and variables: each segment gives its meaning (an unknown variable
    nothing); when the text has fewer than 512 characters the output is that
    text with a NUL, otherwise it is the first 512 characters without one, so
    the caller reads behind the buffer.  Nothing but the output and the local
    name buffer changes. *)
Theorem process_macros_expands e es m in0 out0 name0 gs :
  apart out0 name0 in0 (in0 + length (line_text gs) + 1) →
  apart out0 name0 (env_base e) (env_base e + length (flat es) + 1) →
  (out0 + 512 ≤ name0 ∨ name0 + 512 ≤ out0) →
  entries_at m (env_base e) es → length (flat es) < CFG_ENV_SIZE → 0 < env_base e →
  cstr m in0 (line_text gs) → fits (line_text gs) → Forall seg_ok gs →
  owned m out0 512 → owned m name0 512 →
  ∃ m', process_macros e name0 m in0 out0 = Some m' ∧
    (∀ j, apart out0 name0 j (j + 1) → m' !! j = m !! j) ∧
    let out := line_meaning es gs in
    ((length out < 512)%nat → cstr m' out0 out) ∧
    ((512 ≤ length out)%nat → bytes_at m' out0 (take 512 out)).
Proof.
  intros Hin Henv Hbuf He Hflat Hpos Hc Hf Hgs Ho Hn.
  destruct (process_macros_line e es in0 out0 name0 (line_text gs) m Hin Henv Hbuf Hflat Hpos gs)
    as (m' & E & F & _ & R); [|done..|by exists m'].
  split; [done|done|done|done|apply bytes_at_nil|simpl; lia|done|done].
Qed.

(** [x\$'$y'${a}] with a = 1. *)
Lemma process_macros_expands_witness :
  let m := write_bytes (write_bytes (mem_of2 100 (flat two_vars ++ [0]) 200 (lit "x\$'$y'${a}" ++ [0]))
    1000 (replicate (Z.to_nat 512) 0)) 2000 (replicate (Z.to_nat 512) 0) in
  ∃ m', process_macros (Env 0 0 0 false 100 9) 2000 m 200 1000 = Some m' ∧
    (∀ j, apart 1000 2000 j (j + 1) → m' !! j = m !! j) ∧
    let out := line_meaning two_vars [Lit 120; Esc 36; Quote (lit "$y"); Var false [97]] in
    ((length out < 512)%nat → cstr m' 1000 out) ∧
    ((512 ≤ length out)%nat → bytes_at m' 1000 (take 512 out)).
Proof.
  intros m.
  assert (Hl : length (replicate (Z.to_nat 512) 0) = Z.to_nat 512) by apply length_replicate.
  apply (process_macros_expands (Env 0 0 0 false 100 9) two_vars m 200 1000 2000
    [Lit 120; Esc 36; Quote (lit "$y"); Var false [97]]).
  - unfold apart. vm_compute. intuition discriminate.
  - unfold apart. vm_compute. intuition discriminate.
  - left. lia.
  - split; [|apply two_vars_ok]. unfold m. apply bytes_at_write_disjoint; [left; vm_compute; discriminate|].
    apply bytes_at_write_disjoint; [left; vm_compute; discriminate|].
    apply bytes_at_mem_of2. right. vm_compute. discriminate.
  - reflexivity.
  - reflexivity.
  - split; [chars|]. unfold m. apply bytes_at_write_disjoint; [left; vm_compute; discriminate|].
    apply bytes_at_write_disjoint; [left; vm_compute; discriminate|]. apply write_bytes_in.
  - reflexivity.
  - repeat first [apply Forall_nil_2 | apply Forall_cons_2 | progress cbn | progress unfold plain_char, is_char
      | split | lia | discriminate].
  - unfold m. apply owned_write.
    pose proof (bytes_at_owned _ _ _ (write_bytes_in (mem_of2 100 (flat two_vars ++ [0]) 200
      (lit "x\$'$y'${a}" ++ [0])) 1000 (replicate (Z.to_nat 512) 0))) as Ho.
    rewrite Hl, Z2Nat.id in Ho by lia. exact Ho.
  - unfold m. set (m1 := write_bytes _ 1000 _).
    pose proof (bytes_at_owned _ _ _ (write_bytes_in m1 2000 (replicate (Z.to_nat 512) 0))) as Ho.
    rewrite Hl, Z2Nat.id in Ho by lia. exact Ho.
Defined.
