(* ===== verification/MemTest.v ===== *)
(** * The memory tests ([common/cmd_mem.c])

    [mtest] and [mct].  The memory under test is behind the interface [Words]:
    what is read back need not be what was written. *)

From S2P Require Import Prelude.
From S2P Require Import Vsprintf.
From S2P Require Import Flash.
From S2P Require Import Cmdline.

(** Word and byte accesses to the memory under test. *)
Class Words (M : Type) := {
  rdw : M → Z → Z;
  wrw : M → Z → Z → M;
  rdb : M → Z → Z;
  wrb : M → Z → Z → M
}.

(** ** Places and constants ([include/defines.h], [include/953x.h]) *)

Definition INFO_BASE_ADDR : Z := 0xbd000000.
Definition INFO_GEN_ADDR : Z := INFO_BASE_ADDR + 0x00.
Definition INFO_SIZE_ADDR : Z := INFO_GEN_ADDR + 0x4.
Definition INFO_MEM_START_ADDR : Z := INFO_GEN_ADDR + 0x8.
Definition INFO_MEM_END_ADDR : Z := INFO_GEN_ADDR + 0xc.
Definition INFO_CACHE_START_ADDR : Z := INFO_GEN_ADDR + 0x10.
Definition INFO_CACHE_END_ADDR : Z := INFO_GEN_ADDR + 0x14.
Definition INFO_MT_ADDR : Z := INFO_BASE_ADDR + 0x20.
Definition INFO_MT_PAT_ADDR : Z := INFO_MT_ADDR + 0x4.
Definition INFO_CT_ADDR : Z := INFO_BASE_ADDR + 0x30.
Definition INFO_CT_PAT_ADDR : Z := INFO_CT_ADDR + 0x4.
Definition INFO_ERROR_T_ADDR : Z := INFO_BASE_ADDR + 0x40.
Definition INFO_ERROR_T_INVERSE_ADDR : Z := INFO_ERROR_T_ADDR + 0x4.
Definition INFO_ERROR_T_STRIDE_ADDR : Z := INFO_ERROR_T_ADDR + 0x8.
Definition INFO_ERROR_T_OFFSET_ADDR : Z := INFO_ERROR_T_ADDR + 0xc.
Definition INFO_ERROR_T_ADR_ADDR : Z := INFO_ERROR_T_ADDR + 0x10.
Definition INFO_ERROR_T_DATA_ADDR : Z := INFO_ERROR_T_ADDR + 0x14.
Definition INFO_ERROR_T_EDATA_ADDR : Z := INFO_ERROR_T_ADDR + 0x18.
Definition INFO_FAIL_ADDR : Z := INFO_BASE_ADDR + 0x60.
Definition INFO_FAIL_MT_ADDR : Z := INFO_FAIL_ADDR + 0x4.
Definition INFO_FAIL_CT_ADDR : Z := INFO_FAIL_ADDR + 0x8.
Definition AR7240_DDR_SIZE_INCR : Z := 4 * 1024 * 1024.
Definition KSEG0 : Z := 0x80000000.
Definition KSEG1 : Z := 0xa0000000.
Definition CFG_MEMTEST_START : Z := 0x80200000.
Definition CFG_MEMTEST_END : Z := 0x83800000.

Section memtest.
Context {W : Type} `{Console W} {M : Type} `{Words M}.
Implicit Types (s : shell W) (r : M).

(** ** [mct] *)

(** The variables of the file; the two other random sequences are set and
    never used. *)
Record mct := Mct {
  ram : M;
  sh : shell W;
  TEST_SIZE : Z;
  START_M_ADDR : Z;
  START_C_ADDR : Z;
  dword_random_seed : Z;
  dword_random_inc : Z;
  mt_fail_status : Z;
  ct_fail_status : Z;
  fail_status : Z
}.
Implicit Types t : mct.

Definition set_ram r t : mct :=
  Mct r (sh t) (TEST_SIZE t) (START_M_ADDR t) (START_C_ADDR t) (dword_random_seed t)
    (dword_random_inc t) (mt_fail_status t) (ct_fail_status t) (fail_status t).
Definition set_sh s t : mct :=
  Mct (ram t) s (TEST_SIZE t) (START_M_ADDR t) (START_C_ADDR t) (dword_random_seed t)
    (dword_random_inc t) (mt_fail_status t) (ct_fail_status t) (fail_status t).
Definition set_seed (x : Z) t : mct :=
  Mct (ram t) (sh t) (TEST_SIZE t) (START_M_ADDR t) (START_C_ADDR t) x
    (dword_random_inc t) (mt_fail_status t) (ct_fail_status t) (fail_status t).
Definition set_status (mt ct fs : Z) t : mct :=
  Mct (ram t) (sh t) (TEST_SIZE t) (START_M_ADDR t) (START_C_ADDR t) (dword_random_seed t)
    (dword_random_inc t) mt ct fs.
Definition poke (a v : Z) t : mct := set_ram (wrw (ram t) a (u32 v)) t.

(** The wait for Control-C behind an error. *)
Definition stop_mct t : option mct :=
  while (λ t, '(s, c) ← ctrlc (sh t);
    let t := set_sh s t in
    if negb (c =? 0) then Some (Done t) else Some (Next t)) t.

Definition check_pattern (add_as_data : bool) (pattern check_addr : Z) : Z :=
  if add_as_data then Z.lxor pattern check_addr else pattern.

(** The report of an error: [DISCARD_ERROR] is 0, so the test stays there. *)
Definition mct_error (mem_type inverse stride offset check_addr check_data expected : Z) t
    : option (mct * Z) :=
  let t := if mem_type =? 0 then set_status 1 (ct_fail_status t) 1 t
           else set_status (mt_fail_status t) 1 1 t in
  let t := poke INFO_ERROR_T_ADDR 1 t in
  let t := poke INFO_ERROR_T_INVERSE_ADDR inverse t in
  let t := poke INFO_ERROR_T_STRIDE_ADDR stride t in
  let t := poke INFO_ERROR_T_OFFSET_ADDR offset t in
  let t := poke INFO_ERROR_T_ADR_ADDR check_addr t in
  let t := poke INFO_ERROR_T_DATA_ADDR check_data t in
  let t := poke INFO_ERROR_T_EDATA_ADDR expected t in
  t ← stop_mct t;
  Some (t, 1).

(** One word of a pass; [Done] is a return. *)
Definition check_word (mem_type inverse : Z) (add_as_data : bool) (START_ADDR pattern stride offset : Z)
    t (i : Z) : option (ctl mct (mct * Z)) :=
  '(s, c) ← (if inverse =? 0 then ctrlc (sh t) else Some (sh t, 0));
  let t := set_sh s t in
  if negb (c =? 0) then Some (Done (t, 1))
  else
    let check_addr := u32 (START_ADDR + i) in
    let check_data := rdw (ram t) check_addr in
    let expected := check_pattern add_as_data pattern check_addr in
    if negb (check_data =? expected) then
      x ← mct_error mem_type inverse stride offset check_addr check_data expected t; Some (Done x)
    else Some (Next (poke check_addr (Z.lnot expected) t)).

(** The words of one offset, then all offsets of a stride. *)
Definition pass_words (f : mct → Z → option (ctl mct (mct * Z))) (stride : Z) t (offset : Z)
    : option (ctl mct (mct * Z)) :=
  while (λ '(t, i),
    if i <? TEST_SIZE t then
      c ← f t i;
      Some (match c with
            | Next t => Next (t, u32 (i + stride))
            | Done x => Done (Done x)
            end)
    else Some (Done (Next t))) (t, offset).

Definition pass_offsets (f : Z → mct → Z → option (ctl mct (mct * Z))) (stride : Z) t
    : option (ctl mct (mct * Z)) :=
  while (λ '(t, offset),
    if offset <? stride then
      c ← pass_words (f offset) stride t offset;
      Some (match c with
            | Next t => Next (t, u32 (offset + 4))
            | Done x => Done (Done x)
            end)
    else Some (Done (Next t))) (t, 0).

Definition test_pass (mem_type inverse : Z) (add_as_data : bool) (START_ADDR pattern stride : Z) t
    : option (ctl mct (mct * Z)) :=
  pass_offsets (λ offset, check_word mem_type inverse add_as_data START_ADDR pattern stride offset) stride t.

Definition test_fill (add_as_data : bool) (START_ADDR pattern : Z) t : option mct :=
  while (λ '(t, i),
    if i <? TEST_SIZE t then
      let a := u32 (START_ADDR + i) in
      Some (Next (poke a (check_pattern add_as_data pattern a) t, u32 (i + 4)))
    else Some (Done t)) (t, 0).

(** Both passes of every stride; the pattern is complemented twice. *)
Definition test_strides (mem_type : Z) (add_as_data : bool) (START_ADDR pattern : Z) t
    : option (ctl mct (mct * Z)) :=
  while (λ '(t, stride),
    if stride <? TEST_SIZE t then
      c ← test_pass mem_type 0 add_as_data START_ADDR pattern stride t;
      match c with
      | Done x => Some (Done (Done x))
      | Next t =>
          c ← test_pass mem_type 1 add_as_data START_ADDR (u32 (Z.lnot pattern)) stride t;
          Some (match c with
                | Next t => Next (t, u32 (stride * 2))
                | Done x => Done (Done x)
                end)
      end
    else Some (Done (Next t))) (t, 4).

Definition test_algorithm_t (mem_type pattern : Z) t : option (mct * Z) :=
  let t := set_status (mt_fail_status t) (ct_fail_status t) 0 t in
  let START_ADDR := if mem_type =? 0 then START_M_ADDR t else START_C_ADDR t in
  let add_as_data := pattern =? 2 in
  let pattern := if pattern =? 2 then 0 else if pattern =? 1 then dword_random_seed t else pattern in
  t ← test_fill add_as_data START_ADDR pattern t;
  c ← test_strides mem_type add_as_data START_ADDR pattern t;
  match c with
  | Done x => Some x
  | Next t =>
      let seed := u32 (dword_random_seed t + 0x01010101) in
      Some (set_seed (u32 (seed + dword_random_inc t)) t, 0)
  end.

(** The probe of the size writes into the memory, its result is not used. *)
Definition mct_probe r : option M :=
  let r := wrb r KSEG1 0x77 in
  while (λ '(r, i),
    if i <? 64 then
      let r := wrb r (KSEG1 + i * AR7240_DDR_SIZE_INCR) (u8 i) in
      if negb (rdb r KSEG1 =? 0x77) then Some (Done r) else Some (Next (r, i + 1))
    else Some (Done r)) (r, 1).

Definition base_pattern : list Z := [1; 2; 0xffffffff].

(** The patterns of one kind of memory; [Done] is the return of the command. *)
Fixpoint mct_patterns (mem_type info_pat : Z) (patterns : list Z) (i : Z) t : option (ctl mct (mct * Z)) :=
  match patterns with
  | [] => Some (Next t)
  | p :: patterns =>
      if p =? 0 then Some (Next t)
      else
        let t := poke info_pat (i + 1) t in
        '(t, x) ← test_algorithm_t mem_type p t;
        if negb (x =? 0) then Some (Done (t, 1)) else mct_patterns mem_type info_pat patterns (i + 1) t
  end.

(** The statistics of the rounds: [curr_round], [fail_round],
    [mt_fail_round], [ct_fail_round]. *)
Definition mct_statistics t (curr fails mts cts : Z) : mct * Z * Z * Z :=
  let t := poke INFO_GEN_ADDR curr t in
  if negb (mt_fail_status t =? 0) || negb (ct_fail_status t =? 0) then
    let mt := negb (mt_fail_status t =? 0) in
    let ct := negb (ct_fail_status t =? 0) in
    let mts := if mt then u32 (mts + 1) else mts in
    let t := if mt then poke INFO_FAIL_MT_ADDR mts t else t in
    let cts := if ct then u32 (cts + 1) else cts in
    let t := if ct then poke INFO_FAIL_CT_ADDR cts t else t in
    let fails := u32 (fails + 1) in
    (poke INFO_FAIL_ADDR fails t, fails, mts, cts)
  else (t, fails, mts, cts).

Definition mct_round '(t, curr, fails, mts, cts)
    : option (ctl (mct * Z * Z * Z * Z) (mct * Z)) :=
  let t := set_status 0 0 (fail_status t) t in
  let t := poke INFO_MT_ADDR 0 t in
  let t := poke INFO_CT_ADDR 0 t in
  let curr := u32 (curr + 1) in
  let t := poke INFO_MT_ADDR 1 t in
  c ← mct_patterns 0 INFO_MT_PAT_ADDR base_pattern 0 t;
  match c with
  | Done x => Some (Done x)
  | Next t =>
      let t := poke INFO_CT_ADDR 1 t in
      c ← mct_patterns 1 INFO_CT_PAT_ADDR base_pattern 0 t;
      match c with
      | Done x => Some (Done x)
      | Next t =>
          let '(t, fails, mts, cts) := mct_statistics t curr fails mts cts in
          Some (Next (t, curr, fails, mts, cts))
      end
  end.

(** [size] is not initialised when there is no argument: [junk]. *)
Definition do_mem_mct s r (m : mem) (argc : Z) (argv : list Z) (junk : Z) : option (mct * Z) :=
  size ← (if argc >? 1 then argv1 ← arg argv 1; '(v, _) ← simple_strtoul m argv1 16; Some v
          else Some junk);
  let r := foldl (λ r (i : nat), wrw r (INFO_BASE_ADDR + 4 * i) 0) r (seq 0 44) in
  r ← mct_probe r;
  let t := Mct r s size (KSEG1 + 0x50000) (KSEG0 + 0x50000) 0xa83f0365 0x185fe2d1 0 0 0 in
  let t := poke INFO_SIZE_ADDR size t in
  let t := poke INFO_MEM_START_ADDR (START_M_ADDR t) t in
  let t := poke INFO_MEM_END_ADDR (START_M_ADDR t + size) t in
  let t := poke INFO_CACHE_START_ADDR (START_C_ADDR t) t in
  let t := poke INFO_CACHE_END_ADDR (START_C_ADDR t + size) t in
  while mct_round (t, 0, 0, 0, 0).

(** ** [mtest] *)

Definition mtest_write r (start end_ pattern incr : Z) : option M :=
  while (λ '(r, a, val),
    if a <? end_ then Some (Next (wrw r a val, u32 (a + 4), u32 (val + incr)))
    else Some (Done r)) (r, start, pattern).

Definition mtest_read r (start end_ pattern incr rcode : Z) : option Z :=
  while (λ '(a, val, rcode),
    if a <? end_ then
      let readback := rdw r a in
      Some (Next (u32 (a + 4), u32 (val + incr), if negb (readback =? val) then 1 else rcode))
    else Some (Done rcode)) (start, pattern, rcode).

(** The next pattern. *)
Definition mtest_flip (pattern : Z) : Z :=
  if negb (Z.land pattern 0x80000000 =? 0) then u32 (- pattern) else u32 (Z.lnot pattern).

(** The loop ends with Control-C only, and [rcode] is lost. *)
Definition do_mem_mtest s r (m : mem) (argc : Z) (argv : list Z) : option (shell W * M * Z) :=
  start ← (if argc >? 1 then a ← arg argv 1; '(v, _) ← simple_strtoul m a 16; Some v
           else Some CFG_MEMTEST_START);
  end_ ← (if argc >? 2 then a ← arg argv 2; '(v, _) ← simple_strtoul m a 16; Some v
          else Some CFG_MEMTEST_END);
  pattern ← (if argc >? 3 then a ← arg argv 3; '(v, _) ← simple_strtoul m a 16; Some v
             else Some 0);
  while (λ '(s, r, pattern, incr, rcode),
    '(s, c) ← ctrlc s;
    if negb (c =? 0) then Some (Done (s, r, 1))
    else
      r ← mtest_write r start end_ pattern incr;
      rcode ← mtest_read r start end_ pattern incr rcode;
      Some (Next (s, r, mtest_flip pattern, u32 (- incr), rcode))) (s, r, pattern, 1, 0).
End memtest.

Arguments Mct {W M}.
Arguments ram {W M}.
Arguments sh {W M}.
Arguments TEST_SIZE {W M}.
Arguments START_M_ADDR {W M}.
Arguments START_C_ADDR {W M}.
Arguments dword_random_seed {W M}.
Arguments dword_random_inc {W M}.
Arguments mt_fail_status {W M}.
Arguments ct_fail_status {W M}.
Arguments fail_status {W M}.

#[global] Strategy 900 [stop_mct pass_words pass_offsets test_fill test_strides].

(** ** What [mct] finds *)

(** The complement of a word. *)
Definition compl (x : Z) : Z := u32 (Z.lnot x).

Lemma compl_range x : 0 ≤ compl x < 4294967296.
Proof. apply Z.mod_pos_bound. lia. Qed.

Lemma compl_value x : 0 ≤ x < 4294967296 → compl x = 4294967295 - x.
Proof.
  intros Hx. unfold compl, u32, Z.lnot. symmetry.
  apply (Z.mod_unique_pos _ _ (-1)); [lia|]. unfold Z.pred. lia.
Qed.

Lemma compl_lxor x a : 0 ≤ x < 4294967296 → 0 ≤ a < 4294967296 → Z.lxor (compl x) a = compl (Z.lxor x a).
Proof.
  intros Hx Ha. unfold compl, u32. change 4294967296 with (2 ^ 32).
  rewrite <- !Z.land_ones by lia. apply Z.bits_inj'. intros k Hk.
  rewrite Z.lxor_spec, !Z.land_spec, !Z.lnot_spec, Z.lxor_spec by done.
  destruct (decide (k < 32)).
  - rewrite Z.ones_spec_low by lia. by destruct (Z.testbit x k), (Z.testbit a k).
  - rewrite Z.ones_spec_high by lia.
    destruct (decide (a = 0)) as [->|]; [by rewrite Z.bits_0, !andb_false_r|].
    rewrite (Z.bits_above_log2 a k); [by rewrite !andb_false_r|lia|].
    apply Z.lt_le_trans with 32; [|lia]. apply Z.log2_lt_pow2; [lia|]. apply Ha.
Qed.

Lemma lxor_range x a : 0 ≤ x < 4294967296 → 0 ≤ a < 4294967296 → 0 ≤ Z.lxor x a < 4294967296.
Proof.
  intros Hx Ha. assert (H0 : 0 ≤ Z.lxor x a) by (apply Z.lxor_nonneg; lia). split; [done|].
  destruct (decide (Z.lxor x a = 0)) as [->|Hne]; [lia|]. change 4294967296 with (2 ^ 32) in *.
  apply Z.log2_lt_pow2; [lia|]. pose proof (Z.log2_lxor x a ltac:(lia) ltac:(lia)) as Hl.
  assert (Hb : ∀ y, 0 ≤ y < 2 ^ 32 → Z.log2 y < 32).
  { intros y Hy. destruct (decide (y = 0)) as [->|]; [done|]. apply Z.log2_lt_pow2; lia. }
  pose proof (Hb x Hx). pose proof (Hb a Ha). lia.
Qed.

Lemma check_pattern_range add p a :
  0 ≤ p < 4294967296 → 0 ≤ a < 4294967296 → 0 ≤ check_pattern add p a < 4294967296.
Proof. intros Hp Ha. unfold check_pattern. destruct add; [by apply lxor_range|done]. Qed.

Lemma check_pattern_compl add p a : 0 ≤ p < 4294967296 → 0 ≤ a < 4294967296 →
  check_pattern add (compl p) a = compl (check_pattern add p a).
Proof. intros Hp Ha. unfold check_pattern. destruct add; [by apply compl_lxor|done]. Qed.

Section exact.
Context {W : Type} `{Console W} {M : Type} `{Words M}.
Implicit Types (t : @mct W M) (r : M).

(** A memory whose words are independent and answer what [fault] makes of
    the value written last. *)
Record faulty (fault : Z → Z → Z) : Prop := {
  rd_same r a v : 0 ≤ v < 4294967296 → rdw (wrw r a v) a = fault a v;
  rd_other r a b v : a ≠ b → a mod 4 = 0 → b mod 4 = 0 → rdw (wrw r a v) b = rdw r b
}.

(** No key waits at the console. *)
Definition quiet (s : shell W) : Prop := ctrlc s = Some (s, 0).

Context (fault : Z → Z → Z) (Hfault : faulty fault).
Context (start n : Z) (Hstart : 0 ≤ start) (Halign : start mod 4 = 0).
Context (Hend : start + 4 * n ≤ 4294967296) (Hn : 0 ≤ n) (Hsize : 4 * n ≤ 2147483648).

Definition cell (j : Z) : Z := start + 4 * j.

(** The parts of the state the passes leave alone. *)
Definition same_params t t' : Prop :=
  TEST_SIZE t' = TEST_SIZE t ∧ START_M_ADDR t' = START_M_ADDR t ∧ START_C_ADDR t' = START_C_ADDR t ∧
  dword_random_seed t' = dword_random_seed t ∧ dword_random_inc t' = dword_random_inc t ∧
  mt_fail_status t' = mt_fail_status t ∧ ct_fail_status t' = ct_fail_status t ∧
  fail_status t' = fail_status t.

Lemma same_params_refl t : same_params t t.
Proof. done. Qed.

Lemma same_params_trans t1 t2 t3 : same_params t1 t2 → same_params t2 t3 → same_params t1 t3.
Proof. unfold same_params. intuition congruence. Qed.

Lemma cell_addr j : 0 ≤ j < n → u32 (start + 4 * j) = cell j ∧ cell j mod 4 = 0 ∧ 0 ≤ cell j < 4294967296.
Proof using Hstart Halign Hend.
  intros Hj. unfold cell. split; [apply u32_small; lia|]. split; [|lia].
  rewrite (Z.mul_comm 4), Z.mod_add by lia. done.
Qed.

(** The order of a pass with [T] words per stride: the words before [i] of
    the offset [o], and all words of the offsets before it. *)
Definition visited (T o i j : Z) : Prop := j mod T < o ∨ (j mod T = o ∧ 4 * j < i).

(** In the middle of a pass that expects [V]: the words visited held their
    value and were complemented, the others hold what the memory made of it. *)
Definition midpass r (V : Z → Z) (vis : Z → Prop) : Prop :=
  ∀ j, 0 ≤ j < n →
    (vis j → fault (cell j) (V j) = V j ∧ rdw r (cell j) = fault (cell j) (compl (V j))) ∧
    (¬ vis j → rdw r (cell j) = fault (cell j) (V j)).

Lemma midpass_iff r V vis vis' :
  (∀ j, 0 ≤ j < n → (vis j ↔ vis' j)) → midpass r V vis → midpass r V vis'.
Proof.
  intros Hv Hm j Hj. destruct (Hm j Hj) as [H1 H2]. pose proof (Hv j Hj) as Hi.
  split; intros Hx; [apply H1|apply H2]; tauto.
Qed.

Lemma midpass_step r V vis k :
  0 ≤ k < n → (∀ j, 0 ≤ V j < 4294967296) → midpass r V vis → fault (cell k) (V k) = V k → ¬ vis k →
  midpass (wrw r (cell k) (compl (V k))) V (λ j, vis j ∨ j = k).
Proof using Hfault Hstart Halign Hend.
  intros Hk HV Hm Hg Hnv j Hj. destruct (cell_addr k Hk) as (_ & Ak & _).
  destruct (cell_addr j Hj) as (_ & Aj & _).
  destruct (decide (j = k)) as [->|Hne].
  - split; [|tauto]. intros _. split; [done|]. apply (rd_same _ Hfault), compl_range.
  - assert (Hc : cell k ≠ cell j) by (unfold cell; lia).
    rewrite (rd_other _ Hfault) by done. destruct (Hm j Hj) as [H1 H2].
    split; [intros [Hx|Hx]; [by apply H1|done]|intros Hx; apply H2; tauto].
Qed.

Lemma visited_next T o k j : 0 < T → 0 ≤ j → 0 ≤ k → k mod T = o →
  visited T o (4 * k) j ∨ j = k ↔ visited T o (4 * k + 4 * T) j.
Proof.
  intros HT Hj Hk Ho. unfold visited. split.
  - intros [[?|[? ?]]| ->]; [by left|right; lia|right; lia].
  - intros [?|[E Hlt]]; [left; by left|].
    destruct (decide (j < k)); [left; right; lia|]. right.
    pose proof (Z.div_mod j T ltac:(lia)). pose proof (Z.div_mod k T ltac:(lia)).
    assert (j / T = k / T) by nia. nia.
Qed.

Lemma unvisited T o k : ¬ visited T o (4 * k) k ∨ k mod T < o.
Proof. unfold visited. destruct (decide (k mod T < o)); [by right|left; lia]. Qed.

(** *** One word *)

Lemma poke_params a v t : same_params t (poke a v t).
Proof. done. Qed.

(** A word lets the pass go on only if it holds what is expected. *)
Lemma check_word_next mem_type inverse add p stride offset t i c :
  check_word mem_type inverse add start p stride offset t i = Some c →
  match c with
  | Next t' =>
      let a := u32 (start + i) in let e := check_pattern add p a in
      rdw (ram t) a = e ∧ same_params t t' ∧ ram t' = wrw (ram t) a (compl e)
  | Done x => x.2 = 1
  end.
Proof using Type.
  unfold check_word, mct_error. intros E. apply bind_Some in E as ([s k] & _ & E). cbv zeta in E.
  destruct (Z.eqb_spec k 0); cbn [negb] in E; [|by injection E as <-].
  destruct (Z.eqb_spec (rdw (ram (set_sh s t)) (u32 (start + i))) (check_pattern add p (u32 (start + i)))) as [Ed|Ed];
    cbn [negb] in E.
  - injection E as <-. cbv zeta. split; [exact Ed|]. split; [done|]. cbn. done.
  - apply bind_Some in E as (x & E & [= <-]). apply bind_Some in E as (t' & _ & E). by injection E as <-.
Qed.

Lemma check_word_good mem_type inverse add p stride offset t i :
  let a := u32 (start + i) in let e := check_pattern add p a in
  quiet (sh t) → rdw (ram t) a = e →
  ∃ t', check_word mem_type inverse add start p stride offset t i = Some (Next t') ∧
    same_params t t' ∧ sh t' = sh t ∧ ram t' = wrw (ram t) a (compl e).
Proof using Type.
  intros a e Hq He. unfold check_word. exists (poke a (Z.lnot e) (set_sh (sh t) t)).
  assert (Ec : (if inverse =? 0 then ctrlc (sh t) else Some (sh t, 0)) = Some (sh t, 0))
    by (rewrite Hq; by destruct (inverse =? 0)).
  rewrite Ec, some_bind. cbv beta iota zeta. cbn [negb Z.eqb].
  change (ram (set_sh (sh t) t)) with (ram t). fold a e. rewrite He, Z.eqb_refl. done.
Qed.

(** *** A pass *)

Section pass.
Context (mem_type inverse : Z) (add : bool) (p : Z) (Hp : 0 ≤ p < 4294967296).

Definition wanted (j : Z) : Z := check_pattern add p (u32 (cell j)).

Lemma wanted_range j : 0 ≤ wanted j < 4294967296.
Proof using Hp. apply check_pattern_range; [done|]. apply Z.mod_pos_bound. lia. Qed.

Lemma wanted_cell j : 0 ≤ j < n → wanted j = check_pattern add p (cell j).
Proof using Hstart Halign Hend. intros Hj. unfold wanted. f_equal. unfold cell. by apply cell_addr. Qed.

Notation word T o := (check_word mem_type inverse add start p (4 * T) (4 * o)).

(** Every word of the range keeps the value the pass expects. *)
Definition all_good : Prop := ∀ j, 0 ≤ j < n → fault (cell j) (wanted j) = wanted j.

Lemma word_step T o k t t' :
  0 < T → 0 ≤ k < n → k mod T = o →
  midpass (ram t) wanted (visited T o (4 * k)) →
  rdw (ram t) (u32 (start + 4 * k)) = check_pattern add p (u32 (start + 4 * k)) →
  ram t' = wrw (ram t) (u32 (start + 4 * k)) (compl (check_pattern add p (u32 (start + 4 * k)))) →
  midpass (ram t') wanted (visited T o (4 * k + 4 * T)).
Proof using Hfault Hstart Halign Hend Hn Hsize Hp.
  intros HT Hk Ho Hm Hr Hw. destruct (cell_addr k Hk) as (Ea & _ & _). rewrite Ea in *.
  rewrite <- wanted_cell in * by done. rewrite Hw.
  apply (midpass_iff _ _ (λ j, visited T o (4 * k) j ∨ j = k)).
  { intros j Hj. apply visited_next; lia || done. }
  assert (Hnv : ¬ visited T o (4 * k) k) by (unfold visited; lia).
  apply midpass_step; [done|apply wanted_range|done| |done].
  destruct (Hm k Hk) as [_ H2]. by rewrite <- H2.
Qed.

(** The words of one offset. *)
Definition words_state t0 T o (st : @mct W M * Z) : Prop :=
  same_params t0 st.1 ∧ ∃ k, st.2 = 4 * k ∧ 0 ≤ k < n + T ∧ k mod T = o ∧
    midpass (ram st.1) wanted (visited T o (4 * k)).

Lemma words_end T o k r : 0 < T → k mod T = o → n ≤ k →
  midpass r wanted (visited T o (4 * k)) → midpass r wanted (visited T (o + 1) (4 * (o + 1))).
Proof using Type.
  intros HT Ho Hk. apply midpass_iff. intros j Hj. unfold visited. split.
  - intros [?|[? ?]]; left; lia.
  - intros [?|[E Hlt]].
    + destruct (decide (j mod T = o)); [right; lia|left; lia].
    + pose proof (Z.mod_le j T ltac:(lia) HT). lia.
Qed.

Lemma pass_words_next T o t0 t c :
  0 < T → 4 * T ≤ 2147483648 → TEST_SIZE t0 = 4 * n → 0 ≤ o < T → o < n + T → same_params t0 t →
  midpass (ram t) wanted (visited T o (4 * o)) →
  pass_words (word T o) (4 * T) t (4 * o) = Some c →
  match c with
  | Next t' => same_params t0 t' ∧ midpass (ram t') wanted (visited T (o + 1) (4 * (o + 1)))
  | Done x => x.2 = 1
  end.
Proof using Hfault Hstart Halign Hend Hn Hsize Hp.
  intros HT HT4 Hts Ho Hon Hpar Hm E. unfold pass_words in E.
  apply (while_inv _ (words_state t0 T o)
    (λ c, match c with
          | Next t' => same_params t0 t' ∧ midpass (ram t') wanted (visited T (o + 1) (4 * (o + 1)))
          | Done x => x.2 = 1
          end) _ _) in E; [done| |].
  - intros [t1 i] c1 (P1 & k & Ei & Hk & Hmod & M1). cbn [fst snd] in *. subst i.
    assert (Ets : TEST_SIZE t1 = 4 * n) by (rewrite <- Hts; apply P1). rewrite Ets.
    destruct (Z.ltb_spec (4 * k) (4 * n)) as [Hlt|Hge].
    + intros E1. apply bind_Some in E1 as (c2 & E2 & [= <-]). apply check_word_next in E2.
      destruct c2 as [t2|x]; [|exact E2]. cbv zeta in E2. destruct E2 as (Er & P2 & Ew).
      split; [by eapply same_params_trans|]. exists (k + T). cbn [fst snd].
      split; [rewrite u32_small by lia; lia|]. split; [lia|]. split.
      * rewrite Z.add_mod, Z.mod_same, Z.add_0_r, Z.mod_mod by lia. done.
      * replace (4 * (k + T)) with (4 * k + 4 * T) by lia. apply (word_step T o k t1); done || lia.
    + intros [= <-]. split; [done|]. apply (words_end T o k); done || lia.
  - split; [done|]. exists o. cbn [fst snd]. split_and!; try done; try lia. by apply Z.mod_small.
Qed.

Lemma pass_words_good T o t0 t :
  0 < T → 4 * T ≤ 2147483648 → TEST_SIZE t0 = 4 * n → 0 ≤ o < T → same_params t0 t →
  midpass (ram t) wanted (visited T o (4 * o)) → all_good → quiet (sh t) →
  ∃ t', pass_words (word T o) (4 * T) t (4 * o) = Some (Next t') ∧ sh t' = sh t.
Proof using Hfault Hstart Halign Hend Hn Hsize Hp.
  intros HT HT4 Hts Ho Hpar Hm Hgood Hq. unfold pass_words.
  match goal with |- context [while ?body _] =>
    destruct (while_rule body (λ st, words_state t0 T o st ∧ sh st.1 = sh t)
      (λ st, Z.max 0 (4 * n + 4 * T - st.2))
      (λ c, match c with Next t' => sh t' = sh t | Done _ => False end) (t, 4 * o))
      as ([t'|x] & -> & Hs) end; [| | |by exists t'|done].
  - intros [t1 i] ((P1 & k & Ei & Hk & Hmod & M1) & Hsh). cbn [fst snd] in *. subst i.
    assert (Ets : TEST_SIZE t1 = 4 * n) by (rewrite <- Hts; apply P1). rewrite Ets.
    destruct (Z.ltb_spec (4 * k) (4 * n)) as [Hlt|Hge]; [|by eexists].
    assert (Hkn : 0 ≤ k < n) by lia.
    assert (Er : rdw (ram t1) (u32 (start + 4 * k)) = check_pattern add p (u32 (start + 4 * k))).
    { destruct (cell_addr k Hkn) as (Ea & _ & _). rewrite Ea, <- wanted_cell by done.
      destruct (M1 k Hkn) as [_ H2]. rewrite H2; [by apply Hgood|]. unfold visited. lia. }
    destruct (check_word_good mem_type inverse add p (4 * T) (4 * o) t1 (4 * k)) as (t2 & E2 & P2 & S2 & W2);
      [by rewrite Hsh|done|]. rewrite E2, some_bind.
    eexists. split; [reflexivity|]. split.
    + split; [|by cbn [fst]; rewrite S2]. split; [by eapply same_params_trans|].
      exists (k + T). cbn [fst snd]. split; [rewrite u32_small by lia; lia|]. split; [lia|]. split.
      * rewrite Z.add_mod, Z.mod_same, Z.add_0_r, Z.mod_mod by lia. done.
      * replace (4 * (k + T)) with (4 * k + 4 * T) by lia. apply (word_step T o k t1); done || lia.
    + cbn [snd]. rewrite u32_small by lia. lia.
  - split; [|done]. split; [done|]. exists o. cbn [fst snd]. split_and!; try done; try lia. by apply Z.mod_small.
  - cbn [snd]. lia.
Qed.

(** All offsets: the pass is over. *)
Definition pass_done r : Prop :=
  all_good ∧ ∀ j, 0 ≤ j < n → rdw r (cell j) = fault (cell j) (compl (wanted j)).

Lemma midpass_start T r : 0 < T →
  (∀ j, 0 ≤ j < n → rdw r (cell j) = fault (cell j) (wanted j)) → midpass r wanted (visited T 0 (4 * 0)).
Proof using Type.
  intros HT Hr j Hj. split; [|by intros _; apply Hr].
  pose proof (Z.mod_pos_bound j T HT). unfold visited. lia.
Qed.

Lemma midpass_done T o r : 0 < T → T ≤ o → midpass r wanted (visited T o (4 * o)) → pass_done r.
Proof using Type.
  intros HT Ho Hm. assert (Hall : ∀ j, 0 ≤ j < n → visited T o (4 * o) j).
  { intros j Hj. left. pose proof (Z.mod_pos_bound j T HT). lia. }
  split; intros j Hj; by apply (Hm j Hj), Hall.
Qed.

Definition offsets_state t0 T (st : @mct W M * Z) : Prop :=
  same_params t0 st.1 ∧ ∃ o, st.2 = 4 * o ∧ 0 ≤ o ≤ T ∧ midpass (ram st.1) wanted (visited T o (4 * o)).

Notation pass T := (pass_offsets (λ offset, check_word mem_type inverse add start p (4 * T) offset) (4 * T)).

Lemma pass_next T t c :
  0 < T → 4 * T ≤ 2147483648 → TEST_SIZE t = 4 * n →
  (∀ j, 0 ≤ j < n → rdw (ram t) (cell j) = fault (cell j) (wanted j)) →
  pass T t = Some c →
  match c with Next t' => same_params t t' ∧ pass_done (ram t') | Done x => x.2 = 1 end.
Proof using Hfault Hstart Halign Hend Hn Hsize Hp.
  intros HT HT4 Hts Hr E. unfold pass_offsets in E.
  apply (while_inv _ (offsets_state t T)
    (λ c, match c with Next t' => same_params t t' ∧ pass_done (ram t') | Done x => x.2 = 1 end)) in E; [done| |].
  - intros [t1 i] c1 (P1 & o & Ei & Ho & M1). cbn [fst snd] in *. subst i.
    destruct (Z.ltb_spec (4 * o) (4 * T)) as [Hlt|Hge].
    + intros E1. apply bind_Some in E1 as (c2 & E2 & [= <-]).
      apply (pass_words_next T o t) in E2; [|done|done|done|lia|lia|done|done].
      destruct c2 as [t2|x]; [|exact E2]. destruct E2 as [P2 M2].
      split; [done|]. exists (o + 1). cbn [fst snd]. split; [rewrite u32_small by lia; lia|]. split; [lia|done].
    + intros [= <-]. split; [done|]. apply (midpass_done T o); done || lia.
  - split; [done|]. exists 0. split; [done|]. split; [lia|by apply midpass_start].
Qed.

Lemma pass_good T t :
  0 < T → 4 * T ≤ 2147483648 → TEST_SIZE t = 4 * n →
  (∀ j, 0 ≤ j < n → rdw (ram t) (cell j) = fault (cell j) (wanted j)) →
  all_good → quiet (sh t) → ∃ t', pass T t = Some (Next t') ∧ sh t' = sh t.
Proof using Hfault Hstart Halign Hend Hn Hsize Hp.
  intros HT HT4 Hts Hr Hgood Hq. unfold pass_offsets.
  match goal with |- context [while ?body _] =>
    destruct (while_rule body (λ st, offsets_state t T st ∧ sh st.1 = sh t)
      (λ st, Z.max 0 (4 * T - st.2))
      (λ c, match c with Next t' => sh t' = sh t | Done _ => False end) (t, 0))
      as ([t'|x] & -> & Hs) end; [| | |by exists t'|done].
  - intros [t1 i] ((P1 & o & Ei & Ho & M1) & Hsh). cbn [fst snd] in *. subst i.
    destruct (Z.ltb_spec (4 * o) (4 * T)) as [Hlt|Hge]; [|by eexists].
    destruct (pass_words_good T o t t1) as (t2 & E2 & S2); try done; [lia|by rewrite Hsh|].
    rewrite E2, some_bind. eexists. split; [reflexivity|].
    apply (pass_words_next T o t) in E2 as [P2 M2]; [|done|done|done|lia|lia|done|done].
    split; [|cbn [snd]; rewrite u32_small by lia; lia]. split; [|by cbn [fst]; rewrite S2].
    split; [done|]. exists (o + 1). cbn [fst snd]. split; [rewrite u32_small by lia; lia|]. split; [lia|done].
  - split; [|done]. split; [done|]. exists 0. split; [done|]. split; [lia|by apply midpass_start].
  - cbn [snd]. lia.
Qed.
End pass.

(** *** Filling, then all strides *)

Section strides.
Context (mem_type : Z) (add : bool) (p : Z) (Hp : 0 ≤ p < 4294967296).
Notation want := (wanted add).

Lemma compl_compl x : 0 ≤ x < 4294967296 → compl (compl x) = x.
Proof using Type.
  intros Hx. rewrite (compl_value (compl x)) by apply compl_range. rewrite compl_value by done. lia.
Qed.

Lemma wanted_compl q j : 0 ≤ q < 4294967296 → want (compl q) j = compl (want q j).
Proof using Type. intros Hq. apply check_pattern_compl; [done|]. apply Z.mod_pos_bound. lia. Qed.

(** Every word of the range answers to the pattern [q]. *)
Definition holds r (q : Z) : Prop := ∀ j, 0 ≤ j < n → rdw r (cell j) = fault (cell j) (want q j).

Definition filled_to r (k : Z) : Prop :=
  ∀ j, 0 ≤ j < k → rdw r (cell j) = fault (cell j) (want p j).

Lemma filled_step r k : 0 ≤ k < n → filled_to r k →
  filled_to (wrw r (u32 (start + 4 * k)) (want p k)) (k + 1).
Proof using Hfault Hstart Halign Hend Hp.
  intros Hk Hf j Hj. destruct (cell_addr k Hk) as (-> & Ak & _).
  destruct (decide (j = k)) as [->|Hne].
  - apply (rd_same _ Hfault), wanted_range, Hp.
  - destruct (cell_addr j ltac:(lia)) as (_ & Aj & _).
    rewrite (rd_other _ Hfault); [apply Hf; lia|unfold cell; lia|done|done].
Qed.

Lemma test_fill_holds t : TEST_SIZE t = 4 * n →
  ∃ t', test_fill add start p t = Some t' ∧ same_params t t' ∧ sh t' = sh t ∧ holds (ram t') p.
Proof using Hfault Hstart Halign Hend Hn Hsize Hp.
  intros Hts. unfold test_fill.
  match goal with |- context [while ?body _] =>
    destruct (while_rule body (λ st, same_params t st.1 ∧ sh st.1 = sh t ∧
        ∃ k, st.2 = 4 * k ∧ 0 ≤ k ≤ n ∧ filled_to (ram st.1) k)
      (λ st, Z.max 0 (4 * n - st.2))
      (λ t', same_params t t' ∧ sh t' = sh t ∧ holds (ram t') p) (t, 0))
      as (t' & -> & Hs) end; [| | |by exists t'].
  - intros [t1 i] (P1 & S1 & k & Ei & Hk & M1). cbn [fst snd] in *. subst i.
    assert (Ets : TEST_SIZE t1 = 4 * n) by (rewrite <- Hts; apply P1). rewrite Ets.
    destruct (Z.ltb_spec (4 * k) (4 * n)) as [Hlt|Hge].
    + eexists. split; [reflexivity|]. cbn [fst snd]. rewrite (u32_small (4 * k + 4)) by lia. split; [|lia].
      split; [done|]. split; [done|]. exists (k + 1). split; [lia|]. split; [lia|].
      assert (Hkn : 0 ≤ k < n) by lia. cbn [ram poke set_ram].
      destruct (cell_addr k Hkn) as (Ea & _ & _).
      replace (u32 (check_pattern add p (u32 (start + 4 * k)))) with (want p k).
      { by apply filled_step. }
      rewrite u32_small by (apply check_pattern_range; [done|apply Z.mod_pos_bound; lia]).
      rewrite Ea. by apply wanted_cell.
    + eexists. split; [reflexivity|]. split; [done|]. split; [done|].
      intros j Hj. apply M1. lia.
  - split; [done|]. split; [done|]. exists 0. split; [done|]. split; [lia|]. intros j Hj. lia.
  - cbn [snd]. lia.
Qed.

Lemma pass_done_holds q r : 0 ≤ q < 4294967296 → pass_done add q r → holds r (compl q).
Proof using Type. intros Hq [_ Hd] j Hj. rewrite wanted_compl by done. by apply Hd. Qed.

(** What a run of the strides leaves behind. *)
Definition strides_state t0 (st : @mct W M * Z) : Prop :=
  same_params t0 st.1 ∧ holds (ram st.1) p ∧ ∃ T, st.2 = 4 * T ∧ 0 < T ∧ 4 * T ≤ 4294967292 ∧
    (1 < T → all_good add p ∧ all_good add (compl p)).

Definition strides_post t0 (c : ctl (@mct W M) (@mct W M * Z)) : Prop :=
  match c with
  | Next t' => same_params t0 t' ∧ holds (ram t') p ∧ all_good add p ∧ all_good add (compl p)
  | Done x => x.2 = 1
  end.

Lemma test_strides_next t c : 2 ≤ n → TEST_SIZE t = 4 * n → holds (ram t) p →
  test_strides mem_type add start p t = Some c → strides_post t c.
Proof using Hfault Hstart Halign Hend Hn Hsize Hp.
  intros Hn2 Hts Hr E. unfold test_strides, test_pass in E.
  apply (while_inv _ (strides_state t) (strides_post t)) in E; [done| |].
  - intros [t1 i] c1 (P1 & M1 & T & Ei & HT & HT4 & Hg). cbn [fst snd] in *. subst i.
    assert (Ets : TEST_SIZE t1 = 4 * n) by (rewrite <- Hts; apply P1). rewrite Ets.
    destruct (Z.ltb_spec (4 * T) (4 * n)) as [Hlt|Hge].
    + intros E1. apply bind_Some in E1 as (c2 & E2 & E1).
      apply (pass_next _ _ add p Hp T) in E2; [|done|lia|done|done].
      destruct c2 as [t2|x]; [|injection E1 as <-; exact E2]. destruct E2 as [P2 D2].
      apply bind_Some in E1 as (c3 & E3 & [= <-]).
      apply (pass_next _ _ add (compl p) (compl_range p) T) in E3;
        [|done|lia|by rewrite <- Ets; apply P2|by apply pass_done_holds].
      destruct c3 as [t3|x]; [|exact E3]. destruct E3 as [P3 D3].
      split; [by eapply same_params_trans; [|eapply same_params_trans]|].
      split; [rewrite <- (compl_compl p Hp); apply pass_done_holds; [apply compl_range|done]|].
      exists (2 * T). cbn [fst snd]. split; [rewrite u32_small by lia; lia|].
      split_and!; try lia. intros _. split; [apply D2|apply D3].
    + intros [= <-]. split; [done|]. split; [done|]. apply Hg. lia.
  - split; [done|]. split; [done|]. exists 1. cbn [fst snd]. split_and!; lia.
Qed.

Lemma test_strides_good t : TEST_SIZE t = 4 * n → holds (ram t) p →
  all_good add p → all_good add (compl p) → quiet (sh t) →
  ∃ t', test_strides mem_type add start p t = Some (Next t') ∧ sh t' = sh t.
Proof using Hfault Hstart Halign Hend Hn Hsize Hp.
  intros Hts Hr G1 G2 Hq. unfold test_strides, test_pass.
  match goal with |- context [while ?body _] =>
    destruct (while_rule body (λ st, strides_state t st ∧ sh st.1 = sh t)
      (λ st, Z.max 0 (4 * n - st.2))
      (λ c, match c with Next t' => sh t' = sh t | Done _ => False end) (t, 4))
      as ([t'|x] & -> & Hs) end; [| | |by exists t'|done].
  - intros [t1 i] ((P1 & M1 & T & Ei & HT & HT4 & Hg) & S1). cbn [fst snd] in *. subst i.
    assert (Ets : TEST_SIZE t1 = 4 * n) by (rewrite <- Hts; apply P1). rewrite Ets.
    destruct (Z.ltb_spec (4 * T) (4 * n)) as [Hlt|Hge]; [|by eexists].
    destruct (pass_good mem_type 0 add p Hp T t1) as (t2 & E2 & S2); try done; [lia|by rewrite S1|].
    rewrite E2, some_bind. apply (pass_next _ _ add p Hp T) in E2 as [P2 D2]; [|done|lia|done|done].
    assert (Ets2 : TEST_SIZE t2 = 4 * n) by (rewrite <- Ets; apply P2).
    assert (M2 : holds (ram t2) (compl p)) by by apply pass_done_holds.
    destruct (pass_good mem_type 1 add (compl p) (compl_range p) T t2) as (t3 & E3 & S3); try done;
      [lia|by rewrite S2, S1|].
    cbv beta iota. fold (compl p). rewrite E3, some_bind.
    apply (pass_next _ _ add (compl p) (compl_range p) T) in E3 as [P3 D3]; [|done|lia|done|done].
    eexists. split; [reflexivity|]. cbn [fst snd]. rewrite u32_small by lia. split; [|lia].
    split; [|by rewrite S3, S2]. split; [by eapply same_params_trans; [|eapply same_params_trans]|].
    split; [rewrite <- (compl_compl p Hp); apply pass_done_holds; [apply compl_range|done]|].
    exists (2 * T). cbn [fst snd]. split; [lia|]. split_and!; try lia. done.
  - split; [|done]. split; [done|]. split; [done|]. exists 1. cbn [fst snd]. split_and!; lia.
  - cbn [snd]. lia.
Qed.
End strides.

(** The pattern a call works with. *)
Definition effective (seed pattern : Z) : Z :=
  if pattern =? 2 then 0 else if pattern =? 1 then seed else pattern.

(** Every word of the range gives back the value of the pattern and its
    complement. *)
Definition keeps (add : bool) (q : Z) : Prop :=
  ∀ j, 0 ≤ j < n → let v := check_pattern add q (cell j) in
    fault (cell j) v = v ∧ fault (cell j) (compl v) = compl v.

Lemma keeps_all_good add q : 0 ≤ q < 4294967296 →
  keeps add q ↔ all_good add q ∧ all_good add (compl q).
Proof using Hstart Halign Hend.
  intros Hq. split.
  - intros Hk. split; intros j Hj; [|rewrite wanted_compl by done]; rewrite (wanted_cell add) by done;
      by apply Hk.
  - intros [G1 G2] j Hj. cbv zeta. rewrite <- (wanted_cell add) by done.
    split; [by apply G1|]. rewrite <- wanted_compl by done. by apply G2.
Qed.

(** C31: one run of the memory test over [n] words, [n] at least 2, is exact
    for any memory whose words are independent: with no key at the console
    and every word keeping the pattern (or pattern xor address) and its
    complement, it ends with 0, reports nothing and leaves the pattern; and
    whenever it ends with 0, every word of the range does keep both. *)
Theorem test_algorithm_t_exact mem_type pattern t :
  2 ≤ n → TEST_SIZE t = 4 * n →
  (if mem_type =? 0 then START_M_ADDR t else START_C_ADDR t) = start →
  0 ≤ pattern < 4294967296 → 0 ≤ dword_random_seed t < 4294967296 →
  let add := pattern =? 2 in
  let q := effective (dword_random_seed t) pattern in
  (quiet (sh t) → keeps add q → ∃ t',
    test_algorithm_t mem_type pattern t = Some (t', 0) ∧ sh t' = sh t ∧
    (mt_fail_status t', ct_fail_status t', fail_status t') = (mt_fail_status t, ct_fail_status t, 0) ∧
    dword_random_seed t' = (dword_random_seed t + 0x01010101 + dword_random_inc t) mod 2 ^ 32 ∧
    ∀ j, 0 ≤ j < n → rdw (ram t') (cell j) = check_pattern add q (cell j)) ∧
  (∀ t', test_algorithm_t mem_type pattern t = Some (t', 0) → keeps add q).
Proof using Hfault Hstart Halign Hend Hn Hsize.
  intros Hn2 Hts Hst Hpat Hseed add q.
  assert (Hq : 0 ≤ q < 4294967296).
  { unfold q, effective. destruct (pattern =? 2); [lia|]. by destruct (pattern =? 1). }
  rewrite keeps_all_good by done. unfold test_algorithm_t. cbv zeta.
  set (t0 := set_status _ _ _ _).
  change (if mem_type =? 0 then START_M_ADDR t0 else START_C_ADDR t0)
    with (if mem_type =? 0 then START_M_ADDR t else START_C_ADDR t).
  rewrite Hst. change (dword_random_seed t0) with (dword_random_seed t).
  fold (effective (dword_random_seed t) pattern). fold add q.
  destruct (test_fill_holds add q Hq t0 Hts) as (t1 & -> & P1 & S1 & M1). rewrite some_bind.
  assert (Hts1 : TEST_SIZE t1 = 4 * n) by (rewrite <- Hts; apply P1). split.
  - intros Hquiet [G1 G2].
    destruct (test_strides_good mem_type add q Hq t1) as (t2 & E2 & S2); try done; [by rewrite S1|].
    rewrite E2, some_bind. eexists. split; [reflexivity|].
    apply test_strides_next in E2 as (P2 & M2 & _); [|done..].
    destruct (same_params_trans _ _ _ P1 P2) as (_ & _ & _ & Es & Ei & Em & Ec & Ef).
    split; [cbn; by rewrite S2, S1|]. split; [cbn; by rewrite Em, Ec, Ef|].
    split; [cbn; rewrite Es, Ei; unfold u32; by rewrite Zplus_mod_idemp_l|].
    intros j Hj. cbn [ram set_seed]. rewrite M2, <- (wanted_cell add) by done. by apply G1.
  - intros t' E. apply bind_Some in E as (c & E2 & E).
    apply keeps_all_good; [done|].
    apply test_strides_next in E2; [|done..]. destruct c as [t2|x]; [apply E2|].
    injection E as ->. done.
Qed.
End exact.

(** *** A memory without faults *)

#[local] Instance plain_words : Words (Z → Z) := {
  rdw r a := r a;
  wrw r a v := λ b, if b =? a then v else r b;
  rdb r a := r a;
  wrb r a v := λ b, if b =? a then v else r b
}.

#[local] Instance no_console : Console unit := {
  putc w _ := w;
  getc _ := None;
  tstc _ := false;
  get_ticks w := (0, w)
}.

Lemma plain_faultless : faulty (λ _ v : Z, v).
Proof.
  split.
  - intros r a v _. cbn. by rewrite Z.eqb_refl.
  - intros r a b v Hne _ _. cbn. destruct (Z.eqb_spec b a); [congruence|done].
Qed.

(** Sixteen bytes tested with the addresses. *)
Lemma test_algorithm_t_exact_witness :
  let t := Mct (λ _, 0) (Shell tt 0 0 0 (Env.Env 0 0 0 true 0 0)) 16 0xa0050000 0x80050000
    0xa83f0365 0x185fe2d1 0 0 0 in
  ∃ t', test_algorithm_t 1 2 t = Some (t', 0) ∧ ram t' 0x8005000c = 0x8005000c.
Proof.
  intros t.
  destruct (test_algorithm_t_exact (λ _ v : Z, v) plain_faultless 0x80050000 4
    ltac:(lia) eq_refl ltac:(lia) ltac:(lia) ltac:(lia) 1 2 t ltac:(lia) eq_refl eq_refl
    ltac:(lia) ltac:(cbn; lia)) as [Hgood _].
  destruct Hgood as (t' & E & _ & _ & _ & Hr); [reflexivity|by intros j Hj|].
  exists t'. split; [exact E|]. exact (Hr 3 ltac:(lia)).
Defined.
