(* ===== verification/MemCmd.v ===== *)
(** * Looking at memory and changing it ([common/cmd_mem.c])

    The commands [md], [mw], [mm] and [nm].  What is printed goes to the
    console; the variables that keep the last command are a record. *)

From S2P Require Import Prelude.
From S2P Require Import CString.
From S2P Require Import Vsprintf.
From S2P Require Import Flash.
From S2P Require Import Cmdline.

Definition CMD_FLAG_REPEAT : Z := 1.
Definition DISP_LINE_LEN : Z := 16.

Record mem_state := MemState {
  dp_last_addr : Z;
  dp_last_size : Z;
  dp_last_length : Z;
  mm_last_addr : Z;
  mm_last_size : Z
}.

(** The initial values. *)
Definition mem_state0 : mem_state := MemState 0 0 0x40 0 0.

(** What [printf] makes of a number that has at most [n] hexadecimal digits,
    with leading zeros. *)
Definition hex_out (n : nat) (v : Z) : list Z :=
  map (λ i : nat, digit_char false (v / 16 ^ i mod 16)) (rev (seq 0 n)).

(** A unit of 4, 2 or 1 bytes; the first two must be aligned. *)
Definition misaligned (size addr : Z) : bool :=
  ((size =? 4) || (size =? 2)) && negb (addr mod size =? 0).

Definition ld_unit (m : mem) (size addr : Z) : option Z :=
  if misaligned size addr then None else
  if size =? 4 then ld32 m addr else if size =? 2 then ld16 m addr else ld m addr.

Definition st_unit (m : mem) (size addr v : Z) : option mem :=
  if misaligned size addr then None else
  if size =? 4 then st32 m addr v
  else if size =? 2 then m ← st m addr (v / 256); st m (addr + 1) v
  else st m addr v.

(** The bytes of a unit. *)
Definition unit_bytes (size v : Z) : list Z :=
  if size =? 4 then bytes32 v else if size =? 2 then [u8 (v / 256); u8 v] else [u8 v].

Section commands.
Context {W : Type} `{Console W}.
Implicit Types (w : W) (s : shell W) (m : mem).

(** ** Display *)

Definition print_unit w (size v : Z) : W :=
  puts w (32 :: hex_out (if size =? 4 then 8 else if size =? 2 then 4 else 2) v).

Definition print_char w (c : Z) : W :=
  if (c <? 0x20) || (c >? 0x7e) then putc w 46 else putc w c.

(** One line: the units, which are read once, and their characters. *)
Definition md_line w m (size addr linebytes : Z) : option (W * Z) :=
  let w := puts w (hex_out 8 addr ++ [58]) in
  '(w, linebuf, addr) ← while (λ '(w, linebuf, addr, i),
    if i <? linebytes then
      v ← ld_unit m size addr;
      Some (Next (print_unit w size v, linebuf ++ unit_bytes size v, u32 (addr + size), i + size))
    else Some (Done (w, linebuf, addr))) (w, [], addr, 0);
  let w := puts w (lit "    ") in
  Some (putc (foldl print_char w (take (Z.to_nat linebytes) linebuf)) 10, addr).

Definition md_lines s m (size addr nbytes : Z) : option (shell W * Z * Z) :=
  while (λ '(s, addr, nbytes),
    let linebytes := if nbytes >? DISP_LINE_LEN then DISP_LINE_LEN else nbytes in
    '(w, addr) ← md_line (con s) m size addr linebytes;
    let nbytes := nbytes - linebytes in
    '(s, c) ← ctrlc (set_con w s);
    Some (if negb (c =? 0) then Done (s, addr, 1)
          else if nbytes >? 0 then Next (s, addr, nbytes) else Done (s, addr, 0))) (s, addr, nbytes).

(** [base] is the value of [base_address]. *)
Definition do_mem_md s m (st : mem_state) (base flag argc : Z) (argv : list Z)
    : option (shell W * mem_state * Z) :=
  if argc <? 2 then Some (s, st, 1) else
  o ← (if Z.land flag CMD_FLAG_REPEAT =? 0 then
         argv0 ← arg argv 0;
         size ← cmd_get_data_size m argv0 4;
         if size <? 0 then Some None else
         argv1 ← arg argv 1;
         '(addr, _) ← simple_strtoul m argv1 16;
         let addr := u32 (addr + base) in
         length ← (if argc >? 2 then
             argv2 ← arg argv 2; '(n, _) ← simple_strtoul m argv2 16; Some n
           else Some (dp_last_length st));
         Some (Some (addr, size, length))
       else Some (Some (dp_last_addr st, dp_last_size st, dp_last_length st)));
  match o with
  | None => Some (s, st, 1)
  | Some (addr, size, length) =>
      '(s, addr, rc) ← md_lines s m size addr (u32 (length * size));
      Some (s, MemState addr size length (mm_last_addr st) (mm_last_size st), rc)
  end.

(** ** Writing *)

Definition do_mem_mw s m (base argc : Z) (argv : list Z) : option (shell W * mem * Z) :=
  if (argc <? 3) || (argc >? 4) then Some (s, m, 1) else
  argv0 ← arg argv 0;
  size ← cmd_get_data_size m argv0 4;
  if size <? 1 then Some (s, m, 1) else
  argv1 ← arg argv 1;
  '(addr, _) ← simple_strtoul m argv1 16;
  let addr := u32 (addr + base) in
  argv2 ← arg argv 2;
  '(writeval, _) ← simple_strtoul m argv2 16;
  count ← (if argc =? 4 then argv3 ← arg argv 3; '(n, _) ← simple_strtoul m argv3 16; Some n else Some 1);
  m ← while (λ '(m, addr, count),
    if count >? 0 then m ← st_unit m size addr writeval; Some (Next (m, u32 (addr + size), count - 1))
    else Some (Done m)) (m, addr, count);
  Some (s, m, 0).

(** ** Modifying *)

(** [question] is the address of the prompt. *)
Context (console_buffer question : Z).

(** One round: the value is shown, a line is read; the last answer is [nbytes]. *)
Definition mod_round w m (incrflag : bool) (size addr : Z) : option (W * mem * Z * Z) :=
  let w := puts w (hex_out 8 addr ++ [58]) in
  v ← ld_unit m size addr;
  let w := print_unit w size v in
  '(w, m, nbytes) ← readline console_buffer w m question;
  skip ← (if nbytes =? 0 then Some true
          else if nbytes =? 1 then c ← ld m console_buffer; Some (c =? 45)
          else Some false);
  if skip : bool then
    Some (w, m, if incrflag then u32 (addr + (if nbytes =? 0 then size else - size)) else addr, 1)
  else
    '(i, endp) ← simple_strtoul m console_buffer 16;
    let nbytes := endp - console_buffer in
    if negb (nbytes =? 0) then
      m ← st_unit m size addr i;
      Some (w, m, if incrflag then u32 (addr + size) else addr, nbytes)
    else Some (w, m, addr, nbytes).

Definition mod_mem s m (st : mem_state) (base : Z) (incrflag : bool) (flag argc : Z) (argv : list Z)
    : option (shell W * mem * mem_state * Z) :=
  if negb (argc =? 2) then Some (s, m, st, 1) else
  o ← (if Z.land flag CMD_FLAG_REPEAT =? 0 then
         argv0 ← arg argv 0;
         size ← cmd_get_data_size m argv0 4;
         if size <? 0 then Some None else
         argv1 ← arg argv 1;
         '(addr, _) ← simple_strtoul m argv1 16;
         Some (Some (u32 (addr + base), size))
       else Some (Some (mm_last_addr st, mm_last_size st)));
  match o with
  | None => Some (s, m, st, 1)
  | Some (addr, size) =>
      '(w, m, addr) ← while (λ '(w, m, addr),
        '(w, m, addr, nbytes) ← mod_round w m incrflag size addr;
        Some (if negb (nbytes =? 0) then Next (w, m, addr) else Done (w, m, addr))) (con s, m, addr);
      Some (set_con w s, m,
        MemState (dp_last_addr st) (dp_last_size st) (dp_last_length st) addr size, 0)
  end.

Definition do_mem_mm s m (st : mem_state) (base flag argc : Z) (argv : list Z) :=
  mod_mem s m st base true flag argc argv.
Definition do_mem_nm s m (st : mem_state) (base flag argc : Z) (argv : list Z) :=
  mod_mem s m st base false flag argc argv.
End commands.

(** ** What is shown *)

(** A character of the text column. *)
Definition shown (c : Z) : Z := if (c <? 0x20) || (c >? 0x7e) then 46 else c.

(** The value of the bytes of a unit. *)
Definition unit_value (u : list Z) : Z := foldl (λ v c, 256 * v + c) 0 u.

Definition show_unit (u : list Z) : list Z := 32 :: hex_out (2 * length u) (unit_value u).

Definition show_line (addr : Z) (us : list (list Z)) : list Z :=
  hex_out 8 addr ++ [58] ++ flat_map show_unit us ++ lit "    " ++ map shown (concat us) ++ [10].

(** [per] units in a line of 16 bytes. *)
Fixpoint show_lines (per k : nat) (addr : Z) (us : list (list Z)) : list Z :=
  match k with
  | O => []
  | S k => show_line addr (take per us) ++ show_lines per k (addr + DISP_LINE_LEN) (drop per us)
  end.

Definition dump (size addr : Z) (us : list (list Z)) : list Z :=
  let per := Z.to_nat (DISP_LINE_LEN / size) in
  show_lines per ((length us + per - 1) / per) addr us.

Definition is_size (size : Z) : Prop := size = 1 ∨ size = 2 ∨ size = 4.

(** Units of one size at an aligned address. *)
Record units_at (m : mem) (size addr : Z) (us : list (list Z)) : Prop := UnitsAt {
  ua_size : is_size size;
  ua_units : Forall (λ u, Z.of_nat (length u) = size ∧ Forall is_byte u) us;
  ua_bytes : bytes_at m addr (concat us);
  ua_aligned : addr mod size = 0;
  ua_range : 0 ≤ addr ∧ addr + length us * size < 4294967296
}.

Lemma aligned_ok size addr : addr mod size = 0 → misaligned size addr = false.
Proof. intros E. unfold misaligned. rewrite E. apply andb_false_r. Qed.

Lemma ld_unit_at m size addr u :
  is_size size → Z.of_nat (length u) = size → Forall is_byte u → bytes_at m addr u → addr mod size = 0 →
  ld_unit m size addr = Some (unit_value u) ∧ unit_bytes size (unit_value u) = u.
Proof.
  intros Hs Hl Hb Hu Ha. unfold ld_unit, unit_bytes. rewrite aligned_ok by done.
  destruct Hs as [->|[->| ->]]; cbn [Z.eqb Pos.eqb].
  - destruct u as [|a [|]]; try (cbn [length] in Hl; lia). apply Forall_cons_iff in Hb as [Ha1 _].
    apply bytes_at_singleton in Hu. cbn [unit_value foldl]. rewrite Z.mul_0_r, Z.add_0_l.
    split; [done|by rewrite u8_byte].
  - destruct u as [|a [|b [|]]]; try (cbn [length] in Hl; lia). rewrite (ld16_at _ _ _ _ Hu).
    repeat (apply Forall_cons_iff in Hb as [? Hb]). unfold unit_value, be16, is_byte, u8 in *. cbn [foldl].
    split; [f_equal; lia|]. repeat f_equal; Z.to_euclidean_division_equations; lia.
  - destruct u as [|a [|b [|c [|d [|]]]]]; try (cbn [length] in Hl; lia). rewrite (ld32_at _ _ _ _ _ _ Hu).
    repeat (apply Forall_cons_iff in Hb as [? Hb]). unfold unit_value, be32, is_byte, bytes32, u8 in *. cbn [foldl].
    split; [f_equal; lia|]. repeat f_equal; Z.to_euclidean_division_equations; lia.
Qed.

Section shows.
Context {W : Type} `{Console W}.
Context (idle : W → Prop) (idle_tstc : ∀ w, idle w → tstc w = false) (idle_putc : ∀ w c, idle w → idle (putc w c)).
Implicit Types (w : W) (s : shell W) (m : mem) (us : list (list Z)).

Lemma print_chars w l : foldl print_char w l = puts w (map shown l).
Proof.
  revert w. induction l as [|c l IH]; intros w; [done|]. cbn [foldl map]. rewrite IH.
  unfold print_char, shown. by destruct (_ || _).
Qed.

Lemma print_unit_show w size u : is_size size → Z.of_nat (length u) = size →
  print_unit w size (unit_value u) = puts w (show_unit u).
Proof.
  intros Hs Hl. unfold print_unit, show_unit. do 3 f_equal.
  destruct Hs as [->|[->| ->]]; cbn [Z.eqb Pos.eqb]; lia.
Qed.

Lemma length_units size us : Forall (λ u, Z.of_nat (length u) = size ∧ Forall is_byte u) us →
  Z.of_nat (length (concat us)) = length us * size.
Proof.
  induction 1 as [|u us [Hl _] _ IH]; [done|]. cbn [concat length]. rewrite length_app. lia.
Qed.

(** One line. *)
Lemma md_line_shows w m size addr us :
  units_at m size addr us → length us * size ≤ DISP_LINE_LEN →
  md_line w m size addr (length us * size) =
    Some (puts w (show_line addr us), addr + length us * size).
Proof.
  intros Hu Hl. unfold md_line. set (L := length us * size).
  set (w1 := puts w _). set (bd := λ _ : W * list Z * Z * Z, _).
  assert (Hrun : ∀ rest w buf addr i, units_at m size addr rest → i + length rest * size = L →
    runs bd (w, buf, addr, i) (S (length rest))
      (puts w (flat_map show_unit rest), buf ++ concat rest, addr + length rest * size)).
  { clear. induction rest as [|u rest IH]; intros w buf addr i Hu Hi.
    - apply runs_done. unfold bd. rewrite (proj2 (Z.ltb_ge i L)) by (cbn [length] in Hi; lia).
      cbn. by rewrite app_nil_r, Z.add_0_r.
    - destruct Hu as [Hs Hus Hb Ha Hr]. apply Forall_cons_iff in Hus as [[Hlu Hbu] Hus].
      cbn [concat length] in *. apply bytes_at_app in Hb as [Hb1 Hb2].
      destruct (ld_unit_at m size addr u Hs Hlu Hbu Hb1 Ha) as [E1 E2].
      assert (Hs0 : 0 < size) by (destruct Hs as [->|[->| ->]]; lia).
      eapply runs_next.
      + unfold bd. rewrite (proj2 (Z.ltb_lt i L)) by nia. rewrite E1, some_bind, E2.
        rewrite print_unit_show, u32_small by (done || nia). reflexivity.
      + cbn [flat_map]. replace (addr + S (length rest) * size) with (addr + size + length rest * size) by lia.
        rewrite app_assoc, puts_app. apply IH; [|lia].
        split; [done|done|by rewrite <- Hlu| |nia].
        rewrite <- (Z.mul_1_l size) at 1. by rewrite Z_mod_plus_full. }
  assert (Hus := ua_units _ _ _ _ Hu). pose proof (length_units _ _ Hus) as Hc.
  assert (Hs0 : 0 < size) by (destruct (ua_size _ _ _ _ Hu) as [->|[->| ->]]; lia).
  rewrite (while_runs bd _ _ _ (Hrun us w1 [] addr 0 Hu ltac:(done))), some_bind by (unfold DISP_LINE_LEN in Hl; nia).
  cbv beta iota zeta. rewrite app_nil_l, take_ge by lia. rewrite print_chars.
  unfold w1, show_line. rewrite !puts_app. done.
Qed.

Lemma set_con_twice w w' s : set_con w (set_con w' s) = set_con w s.
Proof. done. Qed.

Lemma units_at_split m size addr us (per : nat) :
  units_at m size addr us → per * size = DISP_LINE_LEN → (per ≤ length us)%nat →
  units_at m size addr (take per us) ∧ units_at m size (addr + DISP_LINE_LEN) (drop per us).
Proof.
  intros [Hs Hu Hb Ha Hr] Hp Hl. assert (0 < size) by (destruct Hs as [->|[->| ->]]; lia).
  rewrite <- (take_drop per us) in Hu, Hb. apply Forall_app in Hu as [Hu1 Hu2].
  rewrite concat_app in Hb. apply bytes_at_app in Hb as [Hb1 Hb2].
  rewrite (length_units size _ Hu1), length_take, Nat.min_l, Hp in Hb2 by done.
  split; (split; [done|done|done| |]).
  - done.
  - rewrite length_take, Nat.min_l by done. nia.
  - rewrite <- Hp, Z_mod_plus_full. done.
  - rewrite length_drop. rewrite <- Hp. nia.
Qed.

(** All lines. *)
Lemma md_lines_run m size (per k : nat) : ∀ s addr us,
  units_at m size addr us → idle (con s) → per * size = DISP_LINE_LEN →
  (k * per < length us ≤ S k * per)%nat →
  md_lines s m size addr (length us * size) =
    Some (set_con (puts (con s) (show_lines per (S k) addr us)) s, addr + length us * size, 0).
Proof using idle_tstc idle_putc.
  intros s addr us Hu Hi Hp Hk. unfold md_lines. set (bd := λ _ : shell W * Z * Z, _).
  assert (Hs0 : 0 < size) by (destruct (ua_size _ _ _ _ Hu) as [->|[->| ->]]; lia).
  assert (Hbound : Z.of_nat (S k) ≤ 18446744073709551616).
  { pose proof (ua_range _ _ _ _ Hu). unfold DISP_LINE_LEN in Hp. nia. }
  apply (while_runs bd _ (S k)); [|done]. clear Hbound.
  revert s addr us Hu Hi Hk. induction k as [|k IH]; intros s addr us Hu Hi Hk.
  - apply runs_done. unfold bd. rewrite !Z.gtb_ltb.
    replace (if DISP_LINE_LEN <? length us * size then DISP_LINE_LEN else length us * size) with (length us * size)
      by (rewrite (proj2 (Z.ltb_ge _ _)); nia).
    rewrite (md_line_shows (con s) m size addr us Hu) by nia. rewrite some_bind. cbv beta iota zeta.
    rewrite Z.sub_diag, (idle_ctrlc idle idle_tstc) by (by apply (idle_puts idle idle_putc)). rewrite some_bind.
    cbn [show_lines]. rewrite app_nil_r, take_ge by lia. done.
  - destruct (units_at_split m size addr us per Hu Hp ltac:(lia)) as [Hu1 Hu2].
    assert (Hl1 : length (take per us) * size = DISP_LINE_LEN) by (rewrite length_take, Nat.min_l by lia; done).
    assert (Hl2 : length us * size - DISP_LINE_LEN = length (drop per us) * size)
      by (rewrite length_drop, <- Hp; nia).
    eapply runs_next.
    + unfold bd. rewrite !Z.gtb_ltb, (proj2 (Z.ltb_lt DISP_LINE_LEN _)) by nia.
      rewrite <- Hl1 at 1. rewrite (md_line_shows (con s) m size addr _ Hu1) by lia. rewrite some_bind, Hl1.
      cbv beta iota zeta. rewrite (idle_ctrlc idle idle_tstc) by (by apply (idle_puts idle idle_putc)). rewrite some_bind, Hl2.
      rewrite (proj2 (Z.ltb_lt 0 _)) by (rewrite length_drop; nia). cbn [negb Z.eqb]. reflexivity.
    + change (show_lines per (S (S k)) addr us) with
        (show_line addr (take per us) ++ show_lines per (S k) (addr + DISP_LINE_LEN) (drop per us)).
      rewrite puts_app. replace (addr + length us * size) with (addr + DISP_LINE_LEN + length (drop per us) * size) by lia.
      apply (IH (set_con (puts (con s) (show_line addr (take per us))) s)); [done|by apply (idle_puts idle idle_putc)|].
      rewrite length_drop. lia.
Qed.

Lemma md_lines_dump s m size addr us :
  units_at m size addr us → idle (con s) → us ≠ [] →
  md_lines s m size addr (length us * size) =
    Some (set_con (puts (con s) (dump size addr us)) s, addr + length us * size, 0).
Proof using idle_tstc idle_putc.
  intros Hu Hi Hne. unfold dump. set (per := Z.to_nat (DISP_LINE_LEN / size)).
  assert (Hp : per * size = DISP_LINE_LEN ∧ (0 < per)%nat).
  { unfold per. destruct (ua_size _ _ _ _ Hu) as [->|[->| ->]]; split; (done || vm_compute; lia). }
  destruct Hp as [Hp Hp0]. assert (Hl : (0 < length us)%nat) by (destruct us; [done|cbn; lia]).
  set (k := ((length us + per - 1) / per)%nat).
  assert (Hk : (k * per ≤ length us + per - 1 < S k * per)%nat).
  { pose proof (Nat.div_mod (length us + per - 1) per ltac:(lia)). fold k in H0.
    pose proof (Nat.mod_upper_bound (length us + per - 1) per ltac:(lia)). lia. }
  destruct k as [|k]; [lia|]. apply (md_lines_run m size per k); [done|done|done|lia].
Qed.
End shows.

(** *** What [printf] prints *)

Lemma hex_out_S n v : hex_out (S n) v = hex_out n (v / 16) ++ [digit_char false (v mod 16)].
Proof.
  unfold hex_out. cbn [seq rev]. rewrite map_app, <- seq_shift, <- map_rev, map_map. cbn [map Z.of_nat].
  rewrite Z.pow_0_r, Z.div_1_r. f_equal. apply map_ext. intros i.
  by rewrite Nat2Z.inj_succ, Z.pow_succ_r, Z.div_div by lia.
Qed.

Lemma hex_out_digits ds : ∀ n, digits_ok 16 ds → (length ds ≤ n)%nat →
  hex_out n (digits_val 16 ds) = replicate (n - length ds) 48 ++ map (digit_char false) (reverse ds).
Proof.
  induction ds as [|d ds IH]; intros n Hds Hn.
  - cbn [digits_val length]. rewrite Nat.sub_0_r, app_nil_r. clear. induction n as [|n IH]; [done|].
    rewrite hex_out_S. change (0 / 16) with 0. rewrite IH. change (digit_char false (0 mod 16)) with 48.
    symmetry. apply (replicate_S_end n 48).
  - apply Forall_cons_iff in Hds as [Hd Hds]. cbn [length digits_val] in *. destruct n as [|n]; [lia|].
    rewrite hex_out_S. replace ((d + 16 * digits_val 16 ds) / 16) with (digits_val 16 ds) by (Z.to_euclidean_division_equations; lia).
    replace ((d + 16 * digits_val 16 ds) mod 16) with d by (Z.to_euclidean_division_equations; lia).
    rewrite IH by (done || lia). rewrite reverse_cons, map_app, app_assoc. done.
Qed.

(** The conversion with a width and leading zeros, [%08x] and its like, is
    [hex_out]. *)
Lemma number_hex_out m str n (w : nat) :
  (0 < w ≤ 8)%nat → 0 ≤ n < 16 ^ w → owned m str w →
  number m str (s32 n) 16 w (-1) ZEROPAD = Some (write_bytes m str (hex_out w n), str + w).
Proof.
  intros Hw Hn Ho. assert (Hn32 : 0 ≤ n < 4294967296).
  { pose proof (Z.pow_le_mono_r 16 w 8 ltac:(lia) ltac:(lia)). lia. }
  destruct (num_digits_spec false n 16 ltac:(lia) Hn32) as (tmp & Htmp & ds & -> & Hds & Hv & Hlen & Hlead).
  assert (Hl : (length ds ≤ w)%nat).
  { destruct ds as [|d ds _] using rev_ind; [cbn; lia|]. rewrite length_app. cbn [length].
    destruct Hlead as [E|Hlead]; [destruct ds; [cbn; lia|destruct ds; discriminate E]|].
    apply Forall_app in Hds as [Hds Hd]. apply Forall_inv in Hd.
    assert (d ≠ 0) by (intros ->; by apply (Hlead ds)). rewrite digits_val_app in Hv. cbn [digits_val] in Hv.
    pose proof (digits_val_nonneg 16 ds ltac:(lia) Hds).
    destruct (decide (length ds < w)%nat); [lia|].
    pose proof (Z.pow_le_mono_r 16 w (length ds) ltac:(lia) ltac:(lia)). nia. }
  rewrite <- Hv at 2. rewrite hex_out_digits by done. unfold number.
  change (flag ZEROPAD LARGE) with false. change (flag ZEROPAD LEFT) with false. cbv zeta iota.
  change (flag ZEROPAD SIGN) with false. change (flag ZEROPAD SPECIAL) with false.
  change (flag ZEROPAD ZEROPAD) with true. change (flag ZEROPAD (ZEROPAD + LEFT)) with true.
  change ((16 <? 2) || (16 >? 36)) with false. cbn [negb Z.eqb]. cbv iota.
  rewrite Htmp, some_bind, length_map, Z.gtb_ltb, (proj2 (Z.ltb_lt (-1) _)), !some_bind by lia.
  replace (w - length ds) with (Z.of_nat (w - length ds)) by lia.
  change (flag ZEROPAD LEFT) with false. cbn [negb]. cbv iota.
  rewrite pad_spec, some_bind by (first [lia|eapply owned_mono; [exact Ho|lia|lia]]).
  change (u8 48) with 48. rewrite Z.sub_diag, pad_none, some_bind by lia. rewrite put_digits_spec.
  - rewrite some_bind, pad_none, some_bind, length_map by lia.
    rewrite write_bytes_app, length_replicate.
    replace (str + (w - length ds)%nat + length ds) with (str + w) by lia.
    do 3 f_equal. symmetry. exact (fmap_reverse (digit_char false) ds).
  - apply Forall_map. eapply Forall_impl; [|exact Hds]. intros d Hd. apply digit_char_value. cbn beta in Hd. lia.
  - rewrite length_map. apply owned_write. eapply owned_mono; [exact Ho|lia|lia].
  - unfold fits. rewrite length_map. lia.
Qed.

(** ** What is written *)

Lemma st_unit_at m size addr v :
  is_size size → addr mod size = 0 → owned m addr size →
  st_unit m size addr v = Some (write_bytes m addr (unit_bytes size v)).
Proof.
  intros Hs Ha Ho. unfold st_unit, unit_bytes. rewrite aligned_ok by done.
  destruct Hs as [->|[->| ->]]; cbn [Z.eqb Pos.eqb].
  - by rewrite st_owned by (apply (owned_at m addr 1); [done|lia]).
  - rewrite st_bind by (apply (owned_at m addr 2); [done|lia]).
    by rewrite st_owned by (apply (owned_at _ addr 2); [by apply owned_insert|lia]).
  - by apply st32_bytes.
Qed.

Lemma length_unit_bytes size v : is_size size → Z.of_nat (length (unit_bytes size v)) = size.
Proof. by intros [->|[->| ->]]. Qed.

(** [mw] writes its value [n] times, one behind the other. *)
Lemma do_mem_mw_fills {W} `{Console W} (s : shell W) m p0 p1 p2 p3 t1 t2 t3 size a v (n : nat) :
  cmd_get_data_size m p0 4 = Some size → is_size size →
  hex_arg m p1 t1 a → hex_arg m p2 t2 v → hex_arg m p3 t3 n →
  a mod size = 0 → 0 ≤ a → a + n * size < 4294967296 → owned m a (n * size) →
  do_mem_mw s m 0 4 [p0; p1; p2; p3] =
    Some (s, write_bytes m a (concat (replicate n (unit_bytes size v))), 0).
Proof.
  intros Hd Hs H1 H2 H3 Ha Ha0 Hr Ho. assert (Hs0 : 0 < size) by (destruct Hs as [->|[->| ->]]; lia).
  unfold do_mem_mw, arg. change ((4 <? 3) || (4 >? 4)) with false. change (4 =? 4) with true. cbv iota.
  cbn [lookup list_lookup]. rewrite !some_bind, Hd, some_bind, (proj2 (Z.ltb_ge size 1)) by lia. rewrite some_bind.
  rewrite (hex_arg_parse _ _ _ _ H1), some_bind. cbv beta iota zeta. rewrite Z.add_0_r, u32_small by nia.
  rewrite some_bind, (hex_arg_parse _ _ _ _ H2), some_bind. cbv beta iota zeta.
  rewrite (hex_arg_parse _ _ _ _ H3), !some_bind. clear Hd H1 H2 H3 t1 t2 t3.
  set (bd := λ _ : mem * Z * Z, _).
  assert (Hrun : runs bd (m, a, n : Z) (S n) (write_bytes m a (concat (replicate n (unit_bytes size v))))).
  { revert m a Ha Ha0 Hr Ho. induction n as [|n IH]; intros m a Ha Ha0 Hr Ho.
    - apply runs_done. done.
    - eapply runs_next.
      + unfold bd. rewrite Z.gtb_ltb, (proj2 (Z.ltb_lt 0 _)) by lia.
        rewrite st_unit_at, some_bind, u32_small by (first [done|nia|eapply owned_mono; [exact Ho|lia|nia]]). reflexivity.
      + cbn [replicate concat]. rewrite write_bytes_app, length_unit_bytes by done.
        replace (S n - 1) with (n : Z) by lia. apply IH; [|lia|nia|].
        * rewrite <- (Z.mul_1_l size) at 1. by rewrite Z_mod_plus_full.
        * apply owned_write. eapply owned_mono; [exact Ho|lia|nia]. }
  rewrite (while_runs bd _ _ _ Hrun), some_bind by nia. done.
Qed.

(** A round of [mm] or [nm] with a number typed in: the unit is written, and
    [mm] goes on behind it. *)
Lemma mod_round_stores {W} `{Console W} w m w' m' console_buffer question incrflag size addr u t v :
  is_size size → Z.of_nat (length u) = size → Forall is_byte u → bytes_at m addr u → addr mod size = 0 →
  0 ≤ addr → addr + size < 4294967296 →
  readline console_buffer (puts (puts w (hex_out 8 addr ++ [58])) (show_unit u)) m question =
    Some (w', m', Z.of_nat (length t)) →
  hex_arg m' console_buffer t v → t ≠ [45] → owned m' addr size →
  mod_round console_buffer question w m incrflag size addr =
    Some (w', write_bytes m' addr (unit_bytes size v), if incrflag then addr + size else addr, Z.of_nat (length t)).
Proof.
  intros Hs Hl Hb Hu Ha Ha0 Hr Hrl Ht H45 Ho. unfold mod_round.
  destruct (ld_unit_at m size addr u Hs Hl Hb Hu Ha) as [-> _]. rewrite some_bind, print_unit_show by done.
  rewrite Hrl, some_bind. cbv beta iota zeta. destruct Ht as [Hc Hf Hne Hv].
  assert (Hlt : length t ≠ 0%nat) by by destruct t.
  rewrite (proj2 (Z.eqb_neq (length t) 0)) by lia.
  assert (Hskip : (if length t =? 1 then c ← ld m' console_buffer; Some (c =? 45) else Some false) = Some false).
  { destruct (Z.eqb_spec (length t) 1) as [E|E]; [|done]. destruct t as [|c [|]]; try (cbn [length] in E; lia).
    rewrite (cstr_hd_ld _ _ _ Hc), some_bind. cbn [hd]. f_equal. apply Z.eqb_neq. congruence. }
  rewrite Hskip, some_bind, (hex_arg_parse m' console_buffer t v (HexArg _ _ _ _ Hc Hf Hne Hv)), some_bind.
  cbv beta iota zeta. replace (console_buffer + length t - console_buffer) with (length t : Z) by lia.
  rewrite (proj2 (Z.eqb_neq (length t) 0)) by lia. cbn [negb].
  rewrite st_unit_at, some_bind, u32_small by (done || lia). done.
Qed.

(** ** The display *)

Section display.
Context {W : Type} `{Console W}.
Context (idle : W → Prop) (idle_tstc : ∀ w, idle w → tstc w = false) (idle_putc : ∀ w c, idle w → idle (putc w c)).

(** C40: [md] with an address and a number of units prints the dump of these
    units: lines of 16 bytes with the address, the units in hexadecimal and
    the characters, and remembers where it ended; repeated without arguments it
    prints as many units from there on.  (No character is typed meanwhile.) *)
Theorem do_mem_md_dumps (s : shell W) m st p0 p1 p2 t1 t2 size a us us' :
  cmd_get_data_size m p0 4 = Some size → hex_arg m p1 t1 a → hex_arg m p2 t2 (length us) →
  us ≠ [] → length us' = length us → units_at m size a (us ++ us') → idle (con s) →
  let s1 := set_con (puts (con s) (dump size a us)) s in
  let st1 := MemState (a + length us * size) size (length us) (mm_last_addr st) (mm_last_size st) in
  do_mem_md s m st 0 0 3 [p0; p1; p2] = Some (s1, st1, 0) ∧
  do_mem_md s1 m st1 0 CMD_FLAG_REPEAT 3 [p0; p1; p2] =
    Some (set_con (puts (con s1) (dump size (a + length us * size) us')) s1,
      MemState (a + (length us + length us') * size) size (length us) (mm_last_addr st) (mm_last_size st), 0).
Proof using idle_tstc idle_putc.
  intros Hd H1 H2 Hne Hl [Hs Hu Hb Ha Hr] Hi s1 st1.
  assert (Hs0 : 0 < size) by (destruct Hs as [->|[->| ->]]; lia). rewrite length_app in Hr.
  apply Forall_app in Hu as [Hu1 Hu2]. rewrite concat_app in Hb. apply bytes_at_app in Hb as [Hb1 Hb2].
  rewrite (length_units size us Hu1) in Hb2.
  assert (U1 : units_at m size a us) by (split; try done; nia).
  assert (U2 : units_at m size (a + length us * size) us').
  { split; [done|done|done| |nia]. by rewrite Z_mod_plus_full. }
  assert (Hn : u32 (length us * size) = length us * size) by (apply u32_small; nia). split.
  - unfold do_mem_md, arg. change (3 <? 2) with false. change (Z.land 0 CMD_FLAG_REPEAT =? 0) with true. cbv iota.
    cbn [lookup list_lookup]. rewrite !some_bind, Hd, some_bind, (proj2 (Z.ltb_ge size 0)) by lia.
    rewrite some_bind, (hex_arg_parse _ _ _ _ H1), some_bind. cbv beta iota zeta. change (3 >? 2) with true. cbv iota.
    rewrite (hex_arg_parse _ _ _ _ H2), !some_bind. cbv beta iota zeta.
    rewrite Z.add_0_r, u32_small, Hn by nia.
    rewrite (md_lines_dump idle idle_tstc idle_putc s m size a us U1 Hi Hne), some_bind. done.
  - unfold do_mem_md. change (3 <? 2) with false. change (Z.land CMD_FLAG_REPEAT CMD_FLAG_REPEAT =? 0) with false. cbv iota.
    rewrite some_bind. cbn [st1 dp_last_addr dp_last_size dp_last_length mm_last_addr mm_last_size]. rewrite Hn.
    pose proof (md_lines_dump idle idle_tstc idle_putc s1 m size _ us' U2) as E. rewrite Hl in E.
    rewrite E, some_bind; [|by apply (idle_puts idle idle_putc)|by destruct us', us]. rewrite Hl. do 3 f_equal. f_equal. lia.
Qed.
End display.

(** Two words of memory, then two more. *)
Definition md_text : list Z := lit "md" ++ [0] ++ lit "1000" ++ [0] ++ lit "2" ++ [0].
Definition md_units : list (list Z) := [[1; 2; 3; 4]; [65; 66; 67; 68]].
Definition md_units' : list (list Z) := [[0; 0; 0; 9]; [255; 255; 255; 254]].
Definition md_mem : mem := mem_of2 0x1000 (concat (md_units ++ md_units')) 100 md_text.

Lemma do_mem_md_dumps_witness :
  let s := Shell ([], [], 0) 0 0 1 (Env.Env 0 0 0 true 0 0) : shell (list Z * list Z * Z) in
  let s1 := set_con (puts (con s) (dump 4 0x1000 md_units)) s in
  let st1 := MemState 0x1008 4 2 0 0 in
  do_mem_md s md_mem mem_state0 0 0 3 [100; 103; 108] = Some (s1, st1, 0) ∧
  do_mem_md s1 md_mem st1 0 CMD_FLAG_REPEAT 3 [100; 103; 108] =
    Some (set_con (puts (con s1) (dump 4 0x1008 md_units')) s1, MemState 0x1010 4 2 0 0, 0).
Proof.
  pose proof (bytes_at_mem_of2 0x1000 (concat (md_units ++ md_units')) 100 md_text) as [Hb Ht]; [left; vm_compute; discriminate|].
  apply (do_mem_md_dumps (λ w : list Z * list Z * Z, w.1.1 = []) ltac:(by intros [[[|] ?] ?]) ltac:(by intros [[? ?] ?] ?)
    (Shell ([], [], 0) 0 0 1 (Env.Env 0 0 0 true 0 0)) md_mem mem_state0 100 103 108 (lit "1000") (lit "2") 4 0x1000
    md_units md_units').
  - vm_compute. reflexivity.
  - split; [|done|done|vm_compute; reflexivity].
    split; [by repeat constructor|exact (bytes_at_take _ _ _ 5 (bytes_at_drop _ _ _ 3 Ht ltac:(cbn; lia)))].
  - split; [|done|done|vm_compute; reflexivity].
    split; [by repeat constructor|exact (bytes_at_take _ _ _ 2 (bytes_at_drop _ _ _ 8 Ht ltac:(cbn; lia)))].
  - done.
  - done.
  - split; [by right; right|repeat constructor; unfold is_byte; lia|exact Hb|done|cbn; lia].
  - done.
Defined.
