(* ===== verification/Soc.v ===== *)
(** * Memory controller, USB and size of the memory

    [board/atheros/common/init-953x.c] and [board/atheros/board953x/board953x.c]:
    the registers of the memory controller for the two kinds of memory, the
    reset of the USB port, and the search for the size of the memory, which
    writes into it until the addresses wrap.  [do_reset] of [cpu/mips/cpu.c]. *)

From S2P Require Import Prelude.
From S2P Require Import Spi.
From S2P Require Import Gmac.
From S2P Require Import MemTest.

(** ** Registers ([include/953x.h]) *)

(** A field of a register: [NAME_SET] of the header. *)
Definition field (lsb mask x : Z) : Z := Z.land (Z.shiftl x lsb) mask.
Definition fields (l : list Z) : Z := foldr Z.lor 0 l.

Definition DDR_CONFIG_ADDRESS : Z := 0x18000000.
Definition DDR_CONFIG2_ADDRESS : Z := 0x18000004.
Definition DDR_MODE_REGISTER_ADDRESS : Z := 0x18000008.
Definition DDR_EXTENDED_MODE_REGISTER_ADDRESS : Z := 0x1800000c.
Definition DDR_CONTROL_ADDRESS : Z := 0x18000010.
Definition DDR_REFRESH_ADDRESS : Z := 0x18000014.
Definition DDR_RD_DATA_THIS_CYCLE_ADDRESS : Z := 0x18000018.
Definition TAP_CONTROL_0_ADDRESS : Z := 0x1800001c.
Definition TAP_CONTROL_1_ADDRESS : Z := 0x18000020.
Definition DDR2_CONFIG_ADDRESS : Z := 0x180000b8.
Definition DDR_BURST_ADDRESS : Z := 0x180000c4.
Definition DDR_BURST2_ADDRESS : Z := 0x180000c8.
Definition DDR_AHB_MASTER_TIMEOUT_MAX_ADDRESS : Z := 0x180000cc.
Definition DDR_CTL_CONFIG_ADDRESS : Z := 0x18000108.
Definition DDR_CONFIG_3_ADDRESS : Z := 0x1800015c.
Definition RST_REVISION_ID_ADDRESS : Z := 0x18060090.
Definition RST_BOOTSTRAP_ADDRESS : Z := 0x180600b0.
Definition RST_CLKGAT_EN_ADDRESS : Z := 0x180600c0.
Definition PMU1_ADDRESS : Z := 0x18116c40.
Definition PMU2_ADDRESS : Z := 0x18116c44.
Definition PHY_CTRL5_ADDRESS : Z := 0x18116c94.
Definition PHY_CTRL5_RESET_1 : Z := 0x3b202a58.
Definition RST_BOOTSTRAP_DDR_SELECT_GET (x : Z) : Z := Z.land x 0x00000001.
Definition RST_BOOTSTRAP_TESTROM_ENABLE_MASK : Z := 0x00000400.
Definition RST_RESET_USB_PHY_SUSPEND_OVERRIDE_SET := field 3 0x00000008.
Definition RST_RESET_USB_PHY_RESET_SET := field 4 0x00000010.
Definition RST_RESET_USB_HOST_RESET_SET := field 5 0x00000020.
Definition RST_RESET_USB_PHY_ARESET_SET := field 11 0x00000800.
Definition RST_RESET_USB_PHY_PLL_PWD_EXT_SET := field 15 0x00008000.
Definition RST_RESET_FULL_CHIP_RESET_SET := field 24 0x01000000.
Definition RST_RESET_RTC_RESET_SET := field 27 0x08000000.
Definition RST_CLKGAT_EN_USB1_SET := field 7 0x00000080.
Definition SWITCH_CLOCK_SPARE_USB_REFCLK_FREQ_SEL_SET := field 8 0x00000f00.
Definition PMU2_SWREGMSB_SET := field 22 0xffc00000.
Definition PMU2_PGM_SET := field 21 0x00200000.
Definition PMU2_LDO_TUNE_SET := field 19 0x00180000.

Definition DDR_CONFIG_CAS_LATENCY_MSB_SET := field 31 0x80000000.
Definition DDR_CONFIG_OPEN_PAGE_SET := field 30 0x40000000.
Definition DDR_CONFIG_CAS_LATENCY_SET := field 27 0x38000000.
Definition DDR_CONFIG_TMRD_SET := field 23 0x07800000.
Definition DDR_CONFIG_TRFC_SET := field 17 0x007e0000.
Definition DDR_CONFIG_TRRD_SET := field 13 0x0001e000.
Definition DDR_CONFIG_TRP_SET := field 9 0x00001e00.
Definition DDR_CONFIG_TRCD_SET := field 5 0x000001e0.
Definition DDR_CONFIG_TRAS_SET := field 0 0x0000001f.
Definition DDR_CONFIG2_HALF_WIDTH_LOW_SET := field 31 0x80000000.
Definition DDR_CONFIG2_SWAP_A26_A27_SET := field 30 0x40000000.
Definition DDR_CONFIG2_GATE_OPEN_LATENCY_SET := field 26 0x3c000000.
Definition DDR_CONFIG2_TWTR_SET := field 21 0x03e00000.
Definition DDR_CONFIG2_TRTP_SET := field 17 0x001e0000.
Definition DDR_CONFIG2_TRTW_SET := field 12 0x0001f000.
Definition DDR_CONFIG2_TWR_SET := field 8 0x00000f00.
Definition DDR_CONFIG2_CKE_SET := field 7 0x00000080.
Definition DDR_CONFIG2_CNTL_OE_EN_SET := field 5 0x00000020.
Definition DDR_CONFIG2_BURST_LENGTH_SET := field 0 0x0000000f.
Definition DDR_CTL_CONFIG_SRAM_TSEL_SET := field 30 0xc0000000.
Definition DDR_CTL_CONFIG_GE0_SRAM_SYNC_SET := field 20 0x00100000.
Definition DDR_CTL_CONFIG_GE1_SRAM_SYNC_SET := field 19 0x00080000.
Definition DDR_CTL_CONFIG_USB_SRAM_SYNC_SET := field 18 0x00040000.
Definition DDR_CTL_CONFIG_PCIE_SRAM_SYNC_SET := field 17 0x00020000.
Definition DDR_CTL_CONFIG_WMAC_SRAM_SYNC_SET := field 16 0x00010000.
Definition DDR_CTL_CONFIG_PAD_DDR2_SEL_SET := field 6 0x00000040.
Definition DDR_CTL_CONFIG_CPU_DDR_SYNC_SET := field 2 0x00000004.
Definition DDR_CTL_CONFIG_HALF_WIDTH_SET := field 1 0x00000002.
Definition CPU_DDR_SYNC_MODE : Z := DDR_CTL_CONFIG_CPU_DDR_SYNC_SET 0.

(** ** The memory controller ([init-953x.c]) *)

Definition ATH_MEM_DDR1 : Z := 2.
Definition ATH_MEM_DDR2 : Z := 3.
Definition CFG_DDR_REFRESH_VAL : Z := 0x40c3.

Definition ath_ram_type (bs : Z) : Z :=
  if negb (RST_BOOTSTRAP_DDR_SELECT_GET bs =? 0) then ATH_MEM_DDR1 else ATH_MEM_DDR2.

Definition CFG_DDR2_CONFIG_VAL : Z := fields
  [DDR_CONFIG_CAS_LATENCY_MSB_SET 0x1; DDR_CONFIG_OPEN_PAGE_SET 0x1; DDR_CONFIG_CAS_LATENCY_SET 0x1;
   DDR_CONFIG_TMRD_SET 0xf; DDR_CONFIG_TRFC_SET 0x15; DDR_CONFIG_TRRD_SET 0x7; DDR_CONFIG_TRP_SET 0x9;
   DDR_CONFIG_TRCD_SET 0x9; DDR_CONFIG_TRAS_SET 0x1b].
Definition CFG_DDR2_CONFIG2_VAL : Z := fields
  [DDR_CONFIG2_HALF_WIDTH_LOW_SET 0x1; DDR_CONFIG2_SWAP_A26_A27_SET 0x0;
   DDR_CONFIG2_GATE_OPEN_LATENCY_SET 0x8; DDR_CONFIG2_TWTR_SET 0x15; DDR_CONFIG2_TRTP_SET 0x9;
   DDR_CONFIG2_TRTW_SET 0xe; DDR_CONFIG2_TWR_SET 0x1; DDR_CONFIG2_CKE_SET 0x1;
   DDR_CONFIG2_CNTL_OE_EN_SET 0x1; DDR_CONFIG2_BURST_LENGTH_SET 0x8].
Definition CFG_DDR2_CONFIG3_VAL : Z := 0x0000000a.
Definition CFG_DDR2_EXT_MODE_VAL : Z := 0x402.
Definition CFG_DDR2_MODE_VAL_INIT : Z := 0x143.
Definition CFG_DDR2_MODE_VAL : Z := 0x43.
Definition CFG_DDR2_TAP_VAL : Z := 0x10.
Definition CFG_DDR2_EN_TWL_VAL : Z := 0x0000167d.
Definition CFG_DDR2_RD_DATA_THIS_CYCLE_VAL_16 : Z := 0xffff.
Definition CFG_DDR1_CONFIG_VAL : Z := fields
  [DDR_CONFIG_OPEN_PAGE_SET 0x1; DDR_CONFIG_CAS_LATENCY_SET 0x7; DDR_CONFIG_TMRD_SET 0x5;
   DDR_CONFIG_TRFC_SET 0x7; DDR_CONFIG_TRRD_SET 0x4; DDR_CONFIG_TRP_SET 0x6; DDR_CONFIG_TRCD_SET 0x6;
   DDR_CONFIG_TRAS_SET 0x10].
Definition CFG_DDR1_CONFIG2_VAL : Z := fields
  [DDR_CONFIG2_HALF_WIDTH_LOW_SET 0x1; DDR_CONFIG2_GATE_OPEN_LATENCY_SET 0x6; DDR_CONFIG2_TWTR_SET 0xe;
   DDR_CONFIG2_TRTP_SET 0x8; DDR_CONFIG2_TRTW_SET 0xe; DDR_CONFIG2_TWR_SET 0xd; DDR_CONFIG2_CKE_SET 0x1;
   DDR_CONFIG2_CNTL_OE_EN_SET 0x1; DDR_CONFIG2_BURST_LENGTH_SET 0x8].
Definition CFG_DDR1_CONFIG3_VAL : Z := 0x0.
Definition CFG_DDR1_EXT_MODE_VAL : Z := 0x0.
Definition CFG_DDR1_MODE_VAL_INIT : Z := 0x133.
Definition CFG_DDR1_MODE_VAL : Z := 0x33.
Definition CFG_DDR1_RD_DATA_THIS_CYCLE_VAL_16 : Z := 0xffff.
Definition CFG_DDR1_TAP_VAL : Z := 0x20.
Definition CFG_DDR_CTL_CONFIG : Z := fields
  [DDR_CTL_CONFIG_SRAM_TSEL_SET 0x1; DDR_CTL_CONFIG_GE0_SRAM_SYNC_SET 0x1;
   DDR_CTL_CONFIG_GE1_SRAM_SYNC_SET 0x1; DDR_CTL_CONFIG_USB_SRAM_SYNC_SET 0x1;
   DDR_CTL_CONFIG_PCIE_SRAM_SYNC_SET 0x1; DDR_CTL_CONFIG_WMAC_SRAM_SYNC_SET 0x1].

(** The settings of one kind of memory; [ext_mod] is set and never used. *)
Record ddr_settings := DdrSettings {
  ddr_config : Z;
  ddr_config2 : Z;
  ddr_config3 : Z;
  ext_mod : Z;
  mod_val_init : Z;
  mod_val : Z;
  tap_val : Z;
  cycle_val : Z;
  ctl_config : Z
}.

Definition ddr2_settings : ddr_settings :=
  DdrSettings CFG_DDR2_CONFIG_VAL CFG_DDR2_CONFIG2_VAL CFG_DDR2_CONFIG3_VAL CFG_DDR2_EXT_MODE_VAL
    CFG_DDR2_MODE_VAL_INIT CFG_DDR2_MODE_VAL CFG_DDR2_TAP_VAL CFG_DDR2_RD_DATA_THIS_CYCLE_VAL_16
    (fields [CFG_DDR_CTL_CONFIG; CPU_DDR_SYNC_MODE; DDR_CTL_CONFIG_PAD_DDR2_SEL_SET 0x1;
             DDR_CTL_CONFIG_HALF_WIDTH_SET 0x1]).
Definition ddr1_settings : ddr_settings :=
  DdrSettings CFG_DDR1_CONFIG_VAL CFG_DDR1_CONFIG2_VAL CFG_DDR1_CONFIG3_VAL CFG_DDR1_EXT_MODE_VAL
    CFG_DDR1_MODE_VAL_INIT CFG_DDR1_MODE_VAL CFG_DDR1_TAP_VAL CFG_DDR1_RD_DATA_THIS_CYCLE_VAL_16
    (fields [CFG_DDR_CTL_CONFIG; CPU_DDR_SYNC_MODE; DDR_CTL_CONFIG_HALF_WIDTH_SET 0x1]).

Section registers.
Context {S : Type} `{Bus S}.
Implicit Types s : S.

(** Writes without a read behind them, in order. *)
Definition writes s (l : list (Z * Z)) : S := foldl (λ s x, ath_reg_wr_nf s x.1 x.2) s l.

Definition ath_ddr_initial_config s (refresh : Z) : S * Z :=
  let '(s, _) := ath_reg_rd s RST_REVISION_ID_ADDRESS in
  let '(s, bootstrap) := ath_reg_rd s RST_BOOTSTRAP_ADDRESS in
  let type := ath_ram_type bootstrap in
  let ddr2 := type =? ATH_MEM_DDR2 in
  let c := if ddr2 then ddr2_settings else ddr1_settings in
  let s := if ddr2 then writes s [(DDR_CONTROL_ADDRESS, 0x10); (DDR_CONTROL_ADDRESS, 0x20)] else s in
  let s := writes s
    [(DDR_CTL_CONFIG_ADDRESS, ctl_config c);
     (DDR_RD_DATA_THIS_CYCLE_ADDRESS, cycle_val c);
     (DDR_BURST_ADDRESS, 0x74444444);
     (DDR_BURST2_ADDRESS, 0x4);
     (DDR_AHB_MASTER_TIMEOUT_MAX_ADDRESS, 0xfffff);
     (DDR_CONFIG_ADDRESS, ddr_config c);
     (DDR_CONFIG2_ADDRESS, ddr_config2 c)] in
  let s := ath_reg_wr s DDR_CONFIG_3_ADDRESS (ddr_config3 c) in
  let s := if ddr2 then writes s [(DDR2_CONFIG_ADDRESS, CFG_DDR2_EN_TWL_VAL)] else s in
  let s := writes s [(DDR_CONFIG2_ADDRESS, Z.lor (ddr_config2 c) 0x80); (DDR_CONTROL_ADDRESS, 0x8)] in
  let s := if ddr2 then writes s [(DDR_CONTROL_ADDRESS, 0x10); (DDR_CONTROL_ADDRESS, 0x20)] else s in
  let s := writes s
    [(DDR_EXTENDED_MODE_REGISTER_ADDRESS, CFG_DDR2_EXT_MODE_VAL);
     (DDR_CONTROL_ADDRESS, 0x2);
     (DDR_MODE_REGISTER_ADDRESS, mod_val_init c);
     (DDR_CONTROL_ADDRESS, 0x1);
     (DDR_CONTROL_ADDRESS, 0x8);
     (DDR_CONTROL_ADDRESS, 0x4);
     (DDR_CONTROL_ADDRESS, 0x4);
     (DDR_MODE_REGISTER_ADDRESS, mod_val c);
     (DDR_CONTROL_ADDRESS, 0x1)] in
  let s := if ddr2 then writes s
    [(DDR_EXTENDED_MODE_REGISTER_ADDRESS, 0x782);
     (DDR_CONTROL_ADDRESS, 0x2);
     (DDR_EXTENDED_MODE_REGISTER_ADDRESS, CFG_DDR2_EXT_MODE_VAL);
     (DDR_CONTROL_ADDRESS, 0x2)] else s in
  let s := writes s [(DDR_REFRESH_ADDRESS, refresh)] in
  let s := ath_reg_wr s TAP_CONTROL_0_ADDRESS (tap_val c) in
  let s := ath_reg_wr s TAP_CONTROL_1_ADDRESS (tap_val c) in
  let s := ath_reg_wr s PMU1_ADDRESS 0x633c8178 in
  let s := ath_reg_wr s PMU2_ADDRESS (fields [PMU2_SWREGMSB_SET 0x40; PMU2_PGM_SET 0x1; PMU2_LDO_TUNE_SET 0x0]) in
  (s, type).

(** ** The board ([board953x.c]) *)

Definition ath_usb_initial_config s : S :=
  let '(s, bs) := ath_reg_rd s RST_BOOTSTRAP_ADDRESS in
  if negb (Z.land bs RST_BOOTSTRAP_TESTROM_ENABLE_MASK =? 0) then
    let s := ath_reg_rmw_set s RST_RESET_ADDRESS (RST_RESET_USB_HOST_RESET_SET 1) in
    let s := ath_reg_rmw_set s RST_RESET_ADDRESS (RST_RESET_USB_PHY_RESET_SET 1) in
    let s := ath_reg_wr s PHY_CTRL5_ADDRESS PHY_CTRL5_RESET_1 in
    let s := ath_reg_rmw_set s RST_RESET_ADDRESS (RST_RESET_USB_PHY_PLL_PWD_EXT_SET 1) in
    let s := ath_reg_rmw_set s RST_RESET_ADDRESS (RST_RESET_USB_PHY_ARESET_SET 1) in
    ath_reg_rmw_clear s RST_CLKGAT_EN_ADDRESS (RST_CLKGAT_EN_USB1_SET 1)
  else
    let '(s, x) := ath_reg_rd s SWITCH_CLOCK_SPARE_ADDRESS in
    let s := ath_reg_wr_nf s SWITCH_CLOCK_SPARE_ADDRESS
               (Z.lor x (SWITCH_CLOCK_SPARE_USB_REFCLK_FREQ_SEL_SET 2)) in
    let s := ath_reg_rmw_set s RST_RESET_ADDRESS (RST_RESET_USB_PHY_SUSPEND_OVERRIDE_SET 1) in
    let s := ath_reg_rmw_clear s RST_RESET_ADDRESS (RST_RESET_USB_PHY_ARESET_SET 1) in
    let s := ath_reg_rmw_clear s RST_RESET_ADDRESS (RST_RESET_USB_PHY_RESET_SET 1) in
    let s := ath_reg_rmw_clear s RST_RESET_ADDRESS (RST_RESET_USB_HOST_RESET_SET 1) in
    ath_reg_rmw_clear s RST_RESET_ADDRESS (RST_RESET_USB_PHY_PLL_PWD_EXT_SET 1).

(** ** Reset ([cpu/mips/cpu.c]): the registers are written until the chip is
    reset, so that the program never goes on. *)
Definition do_reset s : option Z :=
  while (λ s, Some (Next (ath_reg_wr s RST_RESET_ADDRESS (RST_RESET_FULL_CHIP_RESET_SET 1)))) s.
End registers.

(** ** The size of the memory *)

Definition ATH_MAX_DDR_SIZE : Z := 256 * 1024 * 1024.
Definition ATH_DDR_SIZE_INCR : Z := 4 * 1024 * 1024.
Definition max_i : Z := ATH_MAX_DDR_SIZE / ATH_DDR_SIZE_INCR.

Section size.
Context {M : Type} `{Words M}.
Implicit Types r : M.

Definition ath_ddr_find_size r : option (M * Z) :=
  let p := KSEG1 in
  let pat := 0x77 in
  let r := wrb r p pat in
  '(r, i) ← while (λ '(r, i),
    if i <? max_i then
      let r := wrb r (p + i * ATH_DDR_SIZE_INCR) (u8 i) in
      if negb (rdb r p =? pat) then Some (Done (r, i)) else Some (Next (r, i + 1))
    else Some (Done (r, i))) (r, 1);
  Some (r, if i <? max_i then i * ATH_DDR_SIZE_INCR else ATH_MAX_DDR_SIZE).

(** [ath_ddr_tap_cal] is assembly ([tap-953x.S]), its result is not used; this
    board configures no pins here. *)
Definition ath_mem_config {S : Type} `{Bus S} (tap_cal : S → S) (s : S) r : option (S * M * Z) :=
  let '(s, _) := ath_ddr_initial_config s CFG_DDR_REFRESH_VAL in
  let s := tap_cal s in
  let '(s, reg32) := ath_reg_rd s RST_RESET_ADDRESS in
  let s := ath_reg_wr_nf s RST_RESET_ADDRESS (Z.land reg32 (Z.lnot (RST_RESET_RTC_RESET_SET 1))) in
  let s := ath_usb_initial_config s in
  '(r, size) ← ath_ddr_find_size r;
  Some (s, r, size).

Definition initdram {S : Type} `{Bus S} (tap_cal : S → S) (s : S) r : option (S * M * Z) :=
  ath_mem_config tap_cal s r.

(** A memory of [size] bytes behind more address lines than it has. *)
Record wraps (size : Z) : Prop := {
  wraps_same r a b v : 0 ≤ v < 256 → (a - b) mod size = 0 → rdb (wrb r a v) b = v;
  wraps_other r a b v : (a - b) mod size ≠ 0 → rdb (wrb r a v) b = rdb r b
}.

Lemma probe_mod i k : 1 ≤ k →
  (KSEG1 + i * ATH_DDR_SIZE_INCR - KSEG1) mod (k * ATH_DDR_SIZE_INCR) = i mod k * ATH_DDR_SIZE_INCR.
Proof.
  intros Hk. replace (KSEG1 + i * _ - KSEG1) with (i * ATH_DDR_SIZE_INCR) by lia.
  rewrite Z.mul_mod_distr_r; [done|lia|done].
Qed.

(** The search finds the size of every memory that wraps at a multiple of
    4 MB; from 256 MB on the answer is 256 MB. *)
Lemma ath_ddr_find_size_exact r k :
  1 ≤ k → wraps (k * ATH_DDR_SIZE_INCR) →
  ∃ r', ath_ddr_find_size r = Some (r', Z.min k 64 * ATH_DDR_SIZE_INCR).
Proof.
  intros Hk Hw. unfold ath_ddr_find_size. change max_i with 64.
  match goal with |- context [while ?body _] =>
    destruct (while_rule body (λ '(r, i), 1 ≤ i ≤ Z.min k 64 ∧ rdb r KSEG1 = 0x77) (λ '(_, i), 64 - i)
      (λ '(_, i), i = Z.min k 64) (wrb r KSEG1 0x77, 1)) as ([r' i] & -> & Hi) end.
  - intros [r1 i] [Hi Hr]. cbv zeta. destruct (Z.ltb_spec i 64); [|eexists; split; [reflexivity|cbv beta iota; lia]].
    rewrite u8_byte by (unfold is_byte; lia). destruct (Z.eq_dec i k) as [->|Hne].
    + rewrite (wraps_same _ Hw) by (try lia; by rewrite probe_mod, Z.mod_same by lia).
      rewrite (proj2 (Z.eqb_neq k 0x77)) by lia. eexists. split; [reflexivity|]. cbv beta iota. lia.
    + assert (Ho : rdb (wrb r1 (KSEG1 + i * ATH_DDR_SIZE_INCR) i) KSEG1 = 0x77).
      { rewrite (wraps_other _ Hw); [done|]. rewrite probe_mod, Z.mod_small by lia.
        unfold ATH_DDR_SIZE_INCR. lia. }
      rewrite Ho, Z.eqb_refl. eexists. split; [reflexivity|]. split; [|lia]. split; [lia|done].
  - split; [lia|]. apply (wraps_same _ Hw); [lia|].
    rewrite Z.sub_diag, Z.mod_0_l; [done|unfold ATH_DDR_SIZE_INCR; lia].
  - lia.
  - rewrite some_bind. exists r'. f_equal. f_equal. subst i.
    destruct (Z.ltb_spec (Z.min k 64) 64); [done|]. by replace (Z.min k 64) with 64 by lia.
Qed.
Lemma initdram_finds {S : Type} `{Bus S} (tap_cal : S → S) (s : S) r k :
  1 ≤ k → wraps (k * ATH_DDR_SIZE_INCR) →
  ∃ s' r', initdram tap_cal s r = Some (s', r', Z.min k 64 * ATH_DDR_SIZE_INCR).
Proof.
  intros Hk Hw. unfold initdram, ath_mem_config.
  destruct (ath_ddr_initial_config s CFG_DDR_REFRESH_VAL) as [s1 ?].
  destruct (ath_reg_rd (tap_cal s1) RST_RESET_ADDRESS) as [s2 reg32].
  destruct (ath_ddr_find_size_exact r k Hk Hw) as (r' & ->). rewrite some_bind. by do 2 eexists.
Qed.
End size.
