(* ===== verification/Start.v ===== *)
(** * The first part of the start ([lib_mips/board.c])

    [board_init_f] runs on a small stack: it sets up what does not need much
    memory, plans the upper end of the RAM (code, heap, board information,
    global data, boot parameters, stack) and hands over to the relocation.
    The heap of the second part is an area with a break ([sbrk]). *)

From S2P Require Import Prelude.
From S2P Require Import CString.
From S2P Require Import Vsprintf.
From S2P Require Import Env.
From S2P Require Import Spi.
From S2P Require Import Serial.
From S2P Require Import Soc.

Definition CFG_MALLOC_LEN : Z := 128 * 1024.
Definition CFG_BOOTPARAMS_LEN : Z := 128 * 1024.
Definition CFG_SDRAM_BASE : Z := 0x80000000.
Definition CFG_MONITOR_BASE : Z := 0x80010000.
Definition TOTAL_MALLOC_LEN : Z := CFG_MALLOC_LEN + CFG_ENV_SIZE.

(** ** The heap *)

Record arena := Arena {
  mem_malloc_start : Z;
  mem_malloc_end : Z;
  mem_malloc_brk : Z
}.

Definition mem_malloc_init (m : mem) (reloc_off : Z) : option (mem * arena) :=
  let dest_addr := u32 (CFG_MONITOR_BASE + reloc_off) in
  let start := u32 (dest_addr - TOTAL_MALLOC_LEN) in
  m ← memset m start 0 (u32 (dest_addr - start));
  Some (m, Arena start dest_addr start).

Definition sbrk (a : arena) (increment : Z) : arena * Z :=
  let old := mem_malloc_brk a in
  let new := u32 (old + increment) in
  if (new <? mem_malloc_start a) || (new >? mem_malloc_end a) then (a, NULL)
  else (Arena (mem_malloc_start a) (mem_malloc_end a) new, old).

(** ** Global data and board information ([global_data.h], [u-boot.h])

    [env_addr] and [env_valid] of the global data are in the record of the
    environment: [ea] and [ev] below. *)

Record gd_t := Gd {
  gd_bd : Z;
  gd_flags : Z;
  gd_baudrate : Z;
  gd_have_console : Z;
  gd_ram_size : Z;
  gd_reloc_off : Z;
  gd_jt : Z
}.

Definition gd_words (ea ev : Z) (g : gd_t) : list Z :=
  [gd_bd g; gd_flags g; gd_baudrate g; gd_have_console g; gd_ram_size g; gd_reloc_off g; ea; ev; gd_jt g].

Definition sizeof_gd : Z := 36.
Definition bi_baudrate : Z := 0.
Definition bi_boot_params : Z := 20.
Definition bi_memstart : Z := 24.
Definition bi_memsize : Z := 28.
Definition sizeof_bd : Z := 44.

(** Words from [a] on. *)
Fixpoint st_words (m : mem) (a : Z) (l : list Z) : option mem :=
  match l with
  | [] => Some m
  | w :: l => m ← st32 m a w; st_words m (a + 4) l
  end.

(** ** The plan of the memory *)

(** The places from the top of the RAM down. *)
Record plan := Plan {
  p_code : Z;
  p_malloc : Z;
  p_bd : Z;
  p_id : Z;
  p_boot_params : Z;
  p_stack : Z
}.

(** [len] is the size of the program with its data. *)
Definition plan_memory (ram_size len : Z) : plan :=
  let addr := u32 (CFG_SDRAM_BASE + ram_size) in
  let addr := Z.land addr (Z.lnot (4096 - 1)) in
  let addr := u32 (addr - len) in
  let addr := Z.land addr (Z.lnot (16 * 1024 - 1)) in
  let malloc := u32 (addr - TOTAL_MALLOC_LEN) in
  let bd := u32 (malloc - sizeof_bd) in
  let id := u32 (bd - sizeof_gd) in
  let params := u32 (id - CFG_BOOTPARAMS_LEN) in
  let stack := Z.land (u32 (params - 16)) (Z.lnot 0xF) in
  Plan addr malloc bd id params stack.

(** The call of [relocate_code]; the rest of the way is in assembly. *)
Record relocation := Relocation {
  addr_sp : Z;
  new_gd : Z;
  addr_moni : Z
}.

(** The stores of the plan, and the call. *)
Definition settle (m : mem) (p : plan) (ea ev : Z) (g : gd_t) : option (mem * gd_t * relocation) :=
  let g := Gd (p_bd p) (gd_flags g) (gd_baudrate g) (gd_have_console g) (gd_ram_size g)
              (gd_reloc_off g) (gd_jt g) in
  m ← st32 m (p_bd p + bi_boot_params) (p_boot_params p);
  m ← st32 m (p_stack p) 0;
  m ← st32 m (p_stack p - 4) 0;
  m ← st32 m (p_bd p + bi_memstart) CFG_SDRAM_BASE;
  m ← st32 m (p_bd p + bi_memsize) (gd_ram_size g);
  m ← st32 m (p_bd p + bi_baudrate) (gd_baudrate g);
  m ← st_words m (p_id p) (gd_words ea ev g);
  Some (m, g, Relocation (p_stack p - 8) (p_id p) (p_code p)).

(** ** The sequence of functions *)

Section start.
Context {S : Type} `{Bus S}.

(** Literals and local arrays. *)
Record start_places := StartPlaces {
  lit_baudrate : Z;
  tmp : Z;
  lit_bee1 : Z;                   (* the name of the board and " - Honey Bee 1." *)
  lit_bee2 : Z;
  ver : Z;
  board_string : Z
}.
Context (pl : start_places).

Definition start_state : Type := env * mem * gd_t.
Definition init_fnc_t : Type := start_state → option (start_state * Z).

Definition init_env : init_fnc_t := λ '(e, m, g), Some (env_init e, m, g, 0).

Definition init_baudrate : init_fnc_t := λ '(e, m, g),
  '(m, i) ← getenv_r e m (lit_baudrate pl) (tmp pl) 64;
  rate ← (if i >? 0 then '(v, _) ← simple_strtoul m (tmp pl) 10; Some v else Some CONFIG_BAUDRATE);
  Some (e, m, Gd (gd_bd g) (gd_flags g) (u32 rate) (gd_have_console g) (gd_ram_size g)
                (gd_reloc_off g) (gd_jt g), 0).

Definition console_init_f : init_fnc_t := λ '(e, m, g),
  Some (e, m, Gd (gd_bd g) (gd_flags g) (gd_baudrate g) 1 (gd_ram_size g) (gd_reloc_off g) (gd_jt g), 0).

(** It only prints. *)
Definition display_banner : init_fnc_t := λ x, Some (x, 0).

Definition init_sequence : list init_fnc_t := [init_env; init_baudrate; console_init_f; display_banner].

(** [None] for [hang]. *)
Fixpoint run_sequence (l : list init_fnc_t) (x : start_state) : option (option start_state) :=
  match l with
  | [] => Some (Some x)
  | f :: l => '(x, r) ← f x; if negb (r =? 0) then Some None else run_sequence l x
  end.

(** The name of the board and the revision of the chip. *)
Definition checkboard (s : S) m : option (S * mem) :=
  m ← st m (ver pl) 48;
  m ← st m (ver pl + 1) 0;
  let '(s, revid) := ath_reg_rd s RST_REVISION_ID_ADDRESS in
  m ← strcpy m (board_string pl) (if Z.land revid 0xff0 =? 0x140 then lit_bee1 pl else lit_bee2 pl);
  v ← ld m (ver pl);
  m ← st m (ver pl) (v + Z.land revid 0xf);
  m ← strcat m (board_string pl) (ver pl);
  Some (s, m).

(** The size of the RAM is what the first stage has found. *)
Definition board_init_f (s : S) (e : env) m (bootflag len : Z)
    : option (S * env * mem * option (gd_t * relocation)) :=
  o ← run_sequence init_sequence (e, m, Gd 0 0 0 0 0 0 0);
  match o with
  | None => Some (s, e, m, None)
  | Some (e, m, g) =>
      '(s, m) ← checkboard s m;
      let g := Gd (gd_bd g) (gd_flags g) (gd_baudrate g) (gd_have_console g) bootflag
                  (gd_reloc_off g) (gd_jt g) in
      '(m, g, r) ← settle m (plan_memory bootflag len) (env_addr e) (env_valid e) g;
      Some (s, e, m, Some (g, r))
  end.
End start.

(** ** The heap *)

(** The break is inside, and nothing wraps. *)
Record arena_ok (a : arena) : Prop := ArenaOk {
  ao_brk : mem_malloc_start a ≤ mem_malloc_brk a ≤ mem_malloc_end a;
  ao_low : 0 < mem_malloc_start a;
  ao_high : mem_malloc_end a < 4294967296;
  ao_size : mem_malloc_end a - mem_malloc_start a < 2147483648
}.

(** [sbrk] moves the break as long as it stays inside, up or down, and
    refuses otherwise. *)
Lemma sbrk_moves a inc :
  arena_ok a → -2147483648 ≤ inc < 2147483648 →
  sbrk a inc =
    if decide (mem_malloc_start a ≤ mem_malloc_brk a + inc ≤ mem_malloc_end a)
    then (Arena (mem_malloc_start a) (mem_malloc_end a) (mem_malloc_brk a + inc), mem_malloc_brk a)
    else (a, NULL).
Proof.
  intros [H1 H2 H3 H4] Hi. unfold sbrk. rewrite Z.gtb_ltb.
  assert (Hu : u32 (mem_malloc_brk a + inc) = mem_malloc_brk a + inc ∨
    u32 (mem_malloc_brk a + inc) = mem_malloc_brk a + inc + 4294967296 ∨
    u32 (mem_malloc_brk a + inc) = mem_malloc_brk a + inc - 4294967296).
  { unfold u32. Z.to_euclidean_division_equations. lia. }
  assert (0 ≤ u32 (mem_malloc_brk a + inc) < 4294967296) by (apply Z.mod_pos_bound; lia).
  destruct (decide _) as [Hd|Hd].
  - assert (E : u32 (mem_malloc_brk a + inc) = mem_malloc_brk a + inc) by lia. rewrite E. by zbool.
  - destruct (Z.ltb_spec (u32 (mem_malloc_brk a + inc)) (mem_malloc_start a)); [done|].
    cbn [orb]. rewrite (proj2 (Z.ltb_lt _ _)) by lia. done.
Qed.

(** The blocks that a sequence of requests gets, with their sizes. *)
Fixpoint sbrks (a : arena) (l : list Z) : arena * list (Z * Z) :=
  match l with
  | [] => (a, [])
  | n :: l =>
      let '(a, p) := sbrk a n in
      let '(a, bs) := sbrks a l in
      (a, if p =? NULL then bs else (p, n) :: bs)
  end.

(** Blocks of growing requests lie in the arena, above the break, and apart. *)
Lemma sbrks_apart l : ∀ a, arena_ok a → Forall (λ n, 0 ≤ n < 2147483648) l →
  let r := sbrks a l in
  arena_ok r.1 ∧ mem_malloc_brk a ≤ mem_malloc_brk r.1 ∧ mem_malloc_end r.1 = mem_malloc_end a ∧
  Forall (λ b, mem_malloc_brk a ≤ b.1 ∧ b.1 + b.2 ≤ mem_malloc_brk r.1) r.2 ∧
  ForallOrdPairs apart r.2.
Proof.
  induction l as [|n l IH]; intros a Ha Hl.
  { split; [done|]. split; [cbn; lia|]. split; [done|]. split; constructor. }
  apply Forall_cons_iff in Hl as [Hn Hl]. cbn [sbrks].
  rewrite sbrk_moves by (done || lia). destruct (decide _) as [Hd|Hd].
  - set (a1 := Arena _ _ _). assert (Ha1 : arena_ok a1) by (destruct Ha; split; cbn; lia).
    specialize (IH a1 Ha1 Hl). cbv zeta in IH. destruct (sbrks a1 l) as [a2 bs]. cbn [fst snd] in *.
    destruct IH as (I1 & I2 & I3 & I4 & I5). subst a1. cbn [mem_malloc_brk mem_malloc_end] in *.
    rewrite (proj2 (Z.eqb_neq (mem_malloc_brk a) NULL)) by (unfold NULL; destruct Ha; lia).
    split; [done|]. split; [lia|]. split; [done|]. split.
    + constructor; [cbn; lia|]. eapply Forall_impl; [|exact I4]. intros b Hb. cbv beta in *. lia.
    + constructor; [|done]. eapply Forall_impl; [|exact I4]. intros b Hb. cbv beta in *. unfold apart. cbn. lia.
  - specialize (IH a Ha Hl). cbv zeta in IH. by destruct (sbrks a l) as [a2 bs].
Qed.

(** ** The plan *)

Lemma round_down x n : 0 ≤ n → Z.land x (Z.lnot (2 ^ n - 1)) = x - x mod 2 ^ n.
Proof.
  intros Hn. replace (2 ^ n - 1) with (Z.ones n) by (rewrite Z.ones_equiv; lia).
  rewrite <- Z.ldiff_land.
  rewrite Z.ldiff_ones_r by done. rewrite Z.shiftl_mul_pow2, Z.shiftr_div_pow2 by done.
  pose proof (Z.div_mod x (2 ^ n) ltac:(lia)). lia.
Qed.

(** What the plan promises for a RAM of 1 MB to 256 MB and a program of up to
    256 kB: every part ends where the one above it starts, the code on a
    16 kB boundary, all of it in the RAM and above the program that is
    running. *)
Record plan_ok (ram_size len : Z) (p : plan) : Prop := PlanOk {
  po_code : p_code p mod 16384 = 0 ∧ p_code p + len ≤ CFG_SDRAM_BASE + ram_size < p_code p + len + 20480;
  po_malloc : p_malloc p + TOTAL_MALLOC_LEN = p_code p;
  po_bd : p_bd p + sizeof_bd = p_malloc p;
  po_id : p_id p + sizeof_gd = p_bd p;
  po_params : p_boot_params p + CFG_BOOTPARAMS_LEN = p_id p;
  po_stack : p_stack p mod 16 = 0 ∧ p_stack p + 16 ≤ p_boot_params p < p_stack p + 32;
  po_low : CFG_MONITOR_BASE + len + 0x10000 ≤ p_stack p
}.

Lemma plan_memory_ok ram_size len :
  0x100000 ≤ ram_size ≤ 0x10000000 → 0 < len ≤ 0x40000 → plan_ok ram_size len (plan_memory ram_size len).
Proof.
  intros Hr Hl. unfold plan_memory. cbv zeta.
  change (4096 - 1) with (2 ^ 12 - 1). change (16 * 1024 - 1) with (2 ^ 14 - 1). change 0xF with (2 ^ 4 - 1).
  rewrite !round_down by lia. change (2 ^ 12) with 4096. change (2 ^ 14) with 16384. change (2 ^ 4) with 16.
  set (top := u32 (CFG_SDRAM_BASE + ram_size)).
  assert (Ht : top = 0x80000000 + ram_size) by (apply u32_small; unfold CFG_SDRAM_BASE; lia).
  rewrite Ht. clear top Ht. set (t := 0x80000000 + ram_size - (0x80000000 + ram_size) mod 4096).
  assert (Ht : 0x80000000 + ram_size - 4096 < t ≤ 0x80000000 + ram_size)
    by (unfold t; pose proof (Z.mod_pos_bound (0x80000000 + ram_size) 4096); lia).
  clearbody t. rewrite (u32_small (t - len)) by lia.
  set (c := t - len - (t - len) mod 16384).
  assert (Hc : t - len - 16384 < c ≤ t - len ∧ c mod 16384 = 0).
  { unfold c. pose proof (Z.mod_pos_bound (t - len) 16384 ltac:(lia)). split; [lia|].
    rewrite Zminus_mod, Z.mod_mod, Z.sub_diag by lia. done. }
  clearbody c. change TOTAL_MALLOC_LEN with 196608. change sizeof_bd with 44. change sizeof_gd with 36.
  change CFG_BOOTPARAMS_LEN with 131072.
  rewrite (u32_small (c - 196608)), (u32_small (c - 196608 - 44)), (u32_small (c - 196608 - 44 - 36)),
    (u32_small (c - 196608 - 44 - 36 - 131072)), (u32_small (c - 196608 - 44 - 36 - 131072 - 16)) by lia.
  set (q := c - 196608 - 44 - 36 - 131072 - 16).
  pose proof (Z.mod_pos_bound q 16 ltac:(lia)) as Hq.
  assert (Hq16 : (q - q mod 16) mod 16 = 0) by (rewrite Zminus_mod, Z.mod_mod, Z.sub_diag by lia; done).
  split; cbn [p_code p_malloc p_bd p_id p_boot_params p_stack];
    change TOTAL_MALLOC_LEN with 196608; change sizeof_bd with 44; change sizeof_gd with 36;
    change CFG_BOOTPARAMS_LEN with 131072; change CFG_SDRAM_BASE with 0x80000000;
    change CFG_MONITOR_BASE with 0x80010000; unfold q in *; lia.
Qed.

(** ** The run *)

Lemma st_words_bytes l : ∀ m a,
  owned m a (4 * length l) → st_words m a l = Some (write_bytes m a (flat_map bytes32 l)).
Proof.
  induction l as [|w l IH]; intros m a Ho; [done|]. cbn [st_words flat_map length] in *.
  rewrite st32_bytes by (eapply owned_mono; [exact Ho|lia|lia]). rewrite some_bind.
  rewrite write_bytes_app. change (length (bytes32 w) : Z) with 4. apply IH.
  apply owned_write. eapply owned_mono; [exact Ho|lia|lia].
Qed.

Lemma length_words l : length (flat_map bytes32 l) = (4 * length l)%nat.
Proof. induction l as [|w l IH]; [done|]. cbn [flat_map length]. rewrite length_app, IH. cbn [length bytes32]. lia. Qed.

(** What [settle] leaves behind. *)
Record settled (p : plan) (ea ev : Z) (g : gd_t) (r : relocation) (m : mem) : Prop := Settled {
  se_call : r = Relocation (p_stack p - 8) (p_id p) (p_code p);
  se_bd : gd_bd g = p_bd p;
  se_gd : bytes_at m (p_id p) (flat_map bytes32 (gd_words ea ev g));
  se_params : word_at m (p_bd p + bi_boot_params) (p_boot_params p);
  se_memstart : word_at m (p_bd p + bi_memstart) CFG_SDRAM_BASE;
  se_memsize : word_at m (p_bd p + bi_memsize) (gd_ram_size g);
  se_baudrate : word_at m (p_bd p + bi_baudrate) (gd_baudrate g)
}.

(** The two areas it writes. *)
Definition settle_areas (p : plan) : list (Z * Z) := [(p_stack p - 4, 8); (p_id p, sizeof_gd + sizeof_bd)].

(** Rewrites a word into its area, and finds it among the writes. *)
Ltac put_word Ho :=
  rewrite st32_bytes by (repeat apply owned_write; eapply owned_mono; [exact Ho|lia|lia]); rewrite some_bind.
Ltac find_word := repeat (apply bytes_at_write_disjoint; [cbn [length]; lia|]); apply write_bytes_in.

Lemma settle_stores m p ea ev g ram_size len :
  plan_ok ram_size len p → owned m (p_stack p - 4) (p_malloc p - (p_stack p - 4)) →
  ∃ m' r, settle m p ea ev g = Some (m', Gd (p_bd p) (gd_flags g) (gd_baudrate g) (gd_have_console g)
      (gd_ram_size g) (gd_reloc_off g) (gd_jt g), r) ∧
    settled p ea ev (Gd (p_bd p) (gd_flags g) (gd_baudrate g) (gd_have_console g)
      (gd_ram_size g) (gd_reloc_off g) (gd_jt g)) r m' ∧ addr_sp r mod 16 = 8 ∧
    touches (inside (settle_areas p)) m m'.
Proof.
  intros [_ H1 H2 H3 H4 H5 _] Ho.
  unfold settle, sizeof_bd, sizeof_gd, CFG_BOOTPARAMS_LEN, bi_boot_params, bi_memstart, bi_memsize, bi_baudrate in *.
  cbn [gd_bd gd_flags gd_baudrate gd_have_console gd_ram_size gd_reloc_off gd_jt].
  do 6 put_word Ho. set (g' := Gd _ _ _ _ _ _ _). set (m3 := write_bytes _ _ _).
  rewrite st_words_bytes.
  2: { unfold m3. repeat apply owned_write. eapply owned_mono; [exact Ho|lia|cbn [length gd_words]; lia]. }
  rewrite some_bind. do 2 eexists. split; [reflexivity|].
  assert (Hg : Z.of_nat (length (flat_map bytes32 (gd_words ea ev g'))) = 36) by done.
  split; [|split; [cbn [addr_sp]; Z.to_euclidean_division_equations; lia|]].
  - assert (Hword : ∀ q w, q + 4 ≤ p_id p ∨ p_id p + 36 ≤ q → word_at m3 q w →
      word_at (write_bytes m3 (p_id p) (flat_map bytes32 (gd_words ea ev g'))) q w).
    { intros q w Hq Hw. apply bytes_at_write_disjoint; [|done]. rewrite Hg. cbn [length]. lia. }
    split; [done|done|apply write_bytes_in| | | |]; (apply Hword; [unfold bi_boot_params, bi_memstart, bi_memsize, bi_baudrate; lia|]).
    all: unfold m3, bi_boot_params, bi_memstart, bi_memsize, bi_baudrate; find_word.
  - set (areas := settle_areas p).
    assert (Hin1 : In (p_stack p - 4, 8) areas) by by left.
    assert (Hin2 : In (p_id p, 36 + 44) areas) by by right; left.
    set (gw := flat_map _ _) in *. clearbody gw. unfold m3.
    eapply touches_trans; [|by apply (touches_write areas _ _ _ (p_id p) gw Hin2); lia].
    repeat (eapply touches_trans; [|first [apply (touches_write areas _ _ _ _ _ Hin2); [lia|cbn [length]; lia]
                                          |apply (touches_write areas _ _ _ _ _ Hin1); [lia|cbn [length]; lia]]]).
    apply touches_refl.
Qed.

Section run.
Context {S : Type} `{Bus S} (pl : start_places).
Implicit Types (s : S) (e : env) (m : mem) (g : gd_t).

(** The local arrays, and what is read while they are written. *)
Definition start_arrays : list (Z * Z) := [(tmp pl, 65); (ver pl, 2); (board_string pl, 50)].

Record start_room e m (es : list entry) (bee1 bee2 : list Z) : Prop := StartRoom {
  sr_env : entries_at m (default_environment e) es;
  sr_size : length (flat es) < CFG_ENV_SIZE;
  sr_value v : lookup_env (lit "baudrate") es = Some v → length v < 63;
  sr_name : cstr m (lit_baudrate pl) (lit "baudrate");
  sr_bee1 : cstr m (lit_bee1 pl) bee1 ∧ (length bee1 ≤ 48)%nat;
  sr_bee2 : cstr m (lit_bee2 pl) bee2 ∧ (length bee2 ≤ 48)%nat;
  sr_owned : Forall (λ x, owned m x.1 x.2) start_arrays;
  sr_apart : ForallOrdPairs apart start_arrays;
  sr_env_apart : Forall (apart (default_environment e, length (flat es) + 2)) start_arrays;
  sr_bee1_apart : Forall (apart (lit_bee1 pl, length bee1 + 1)) start_arrays;
  sr_bee2_apart : Forall (apart (lit_bee2 pl, length bee2 + 1)) start_arrays
}.

(** The rate that the environment asks for. *)
Definition rate_of (es : list entry) : Z :=
  match lookup_env (lit "baudrate") es with
  | Some v => (strtoul_l v 10).1
  | None => CONFIG_BAUDRATE
  end.

Lemma lit_baudrate_chars : 61 ∉ lit "baudrate" ∧ fits (lit "baudrate").
Proof. split; [|done]. apply (bool_decide_unpack _). vm_compute. done. Qed.

Lemma env_value_chars n es v : Forall entry_ok es → lookup_env n es = Some v → Forall is_char v.
Proof.
  induction 1 as [|[n' v'] es (_ & Hv & _) Hes IH]; [done|]. cbn [lookup_env].
  destruct (decide _); [by intros [= <-]|done].
Qed.

Lemma init_baudrate_reads e m g es bee1 bee2 :
  env_valid e = 0 → start_room e m es bee1 bee2 →
  ∃ m', init_baudrate pl (e, m, g) = Some (e, m', Gd (gd_bd g) (gd_flags g) (u32 (rate_of es))
      (gd_have_console g) (gd_ram_size g) (gd_reloc_off g) (gd_jt g), 0) ∧
    touches (inside start_arrays) m m'.
Proof.
  intros Hv [Henv Hsize Hval Hname _ _ Ho _ Ha _ _]. unfold start_arrays in Ho, Ha.
  apply Forall_cons_iff in Ho as [Ho _]. apply Forall_cons_iff in Ha as [Ha _].
  unfold apart in Ha. cbn [fst snd] in Ho, Ha.
  assert (Hb : env_base e = default_environment e) by (unfold env_base, env_get_addr; rewrite Hv; cbn; lia).
  rewrite <- Hb in Henv, Ha. destruct lit_baudrate_chars as [H61 Hf].
  destruct (getenv_r_copies e m es (lit_baudrate pl) (lit "baudrate") (tmp pl) 64
    Henv Hsize Hname H61 Hf) as (k & r & E & Hk); [eapply owned_mono; [exact Ho|lia|lia]|lia|].
  change (64%nat : Z) with 64 in E. unfold init_baudrate. rewrite E, some_bind.
  exists (write_bytes m (tmp pl) k). unfold rate_of.
  assert (Hlen : length k ≤ 65).
  { destruct (lookup_env _ es) as [v|] eqn:Hlk; [|destruct Hk as [-> _]; cbn; lia].
    specialize (Hval v eq_refl). destruct Hk as [Hk _]. destruct Hk as [-> _]; [lia|].
    rewrite length_app. cbn [length]. lia. }
  assert (Ht : touches (inside start_arrays) m (write_bytes m (tmp pl) k)).
  { apply (touches_write start_arrays (tmp pl) 65); [by left|lia|lia]. }
  split; [|done]. destruct (lookup_env _ es) as [v|] eqn:Hlk.
  - specialize (Hval v eq_refl). destruct Hk as [Hk _]. destruct Hk as [-> ->]; [lia|].
    rewrite Z.gtb_ltb. zbool. rewrite (simple_strtoul_cstr _ _ v 10).
    + by rewrite !some_bind.
    + split; [|apply write_bytes_in]. by eapply env_value_chars; [apply Henv|].
    + unfold fits. lia.
  - destruct Hk as [_ ->]. done.
Qed.

(** The banner fits its array. *)
Lemma checkboard_writes s e m es bee1 bee2 m0 :
  start_room e m0 es bee1 bee2 → touches (inside start_arrays) m0 m →
  ∃ s' m', checkboard pl s m = Some (s', m') ∧ touches (inside start_arrays) m m'.
Proof.
  intros [_ _ _ _ [Hb1 Hl1] [Hb2 Hl2] Ho Hap _ Ha1 Ha2] Ht.
  eapply cstr_areas in Hb1; [|exact Ht|exact Ha1]. eapply cstr_areas in Hb2; [|exact Ht|exact Ha2].
  unfold start_arrays in Ho, Hap.
  inversion Hap as [|x l _ Hap2]; subst. inversion Hap2 as [|x l Hvb _]; subst.
  apply Forall_cons_iff in Hvb as [Hvb _]. unfold apart in Hvb. cbn [fst snd] in Hvb.
  assert (Hov : owned m (ver pl) 2 ∧ owned m (board_string pl) 50).
  { apply Forall_cons_iff in Ho as [_ Ho]. apply Forall_cons_iff in Ho as [Ho1 Ho].
    apply Forall_cons_iff in Ho as [Ho2 _]. split; by eapply touches_owned. }
  destruct Hov as [Hov Hob]. unfold checkboard.
  rewrite st_bind by (apply (owned_at m (ver pl) 2); [done|lia]).
  rewrite st_bind by (apply (owned_at _ (ver pl) 2); [by apply owned_insert|lia]).
  set (m1 := <[ver pl + 1 := _]> _).
  assert (Hm1 : m1 = write_bytes m (ver pl) [48; 0]) by done. clearbody m1. subst m1.
  destruct (ath_reg_rd s RST_REVISION_ID_ADDRESS) as [s' revid]. set (m1 := write_bytes m _ _).
  assert (Hsrc : ∃ l, cstr m1 (if Z.land revid 0xff0 =? 0x140 then lit_bee1 pl else lit_bee2 pl) l ∧
    (length l ≤ 48)%nat ∧
    apart (if Z.land revid 0xff0 =? 0x140 then lit_bee1 pl else lit_bee2 pl, length l + 1) (board_string pl, 50)).
  { apply Forall_cons_iff in Ha1 as [_ Ha1]. apply Forall_cons_iff in Ha1 as [Ha1 Ha1'].
    apply Forall_cons_iff in Ha1' as [Ha1' _].
    apply Forall_cons_iff in Ha2 as [_ Ha2]. apply Forall_cons_iff in Ha2 as [Ha2 Ha2'].
    apply Forall_cons_iff in Ha2' as [Ha2' _]. unfold apart in *. cbn [fst snd] in *.
    destruct (_ =? _); [exists bee1|exists bee2]; (split; [|done]);
      apply cstr_write_disjoint; try done; cbn [length]; lia. }
  destruct Hsrc as (l & Hl & Hlen & Hapart). unfold apart in Hapart. cbn [fst snd] in Hapart.
  set (src := if Z.land revid 4080 =? 320 then lit_bee1 pl else lit_bee2 pl) in *. clearbody src.
  rewrite (strcpy_cstr m1 (board_string pl) src l); [|done| |unfold fits; lia|lia].
  2: { apply owned_write. eapply owned_mono; [exact Hob|lia|lia]. }
  rewrite some_bind. set (m2 := write_bytes m1 _ _).
  assert (Hv2 : bytes_at m2 (ver pl) [48; 0]).
  { apply bytes_at_write_disjoint; [rewrite length_app; cbn [length]; lia|apply write_bytes_in]. }
  rewrite (ld_bind m2 (ver pl) 48) by (by apply bytes_at_cons in Hv2 as [? _]).
  rewrite st_bind by (apply (owned_at _ (ver pl) 2); [by apply owned_write, owned_write|lia]).
  assert (Hrev : 0 ≤ Z.land revid 15 < 16).
  { change 15 with (Z.ones 4). rewrite Z.land_ones by lia. apply Z.mod_pos_bound. done. }
  rewrite u8_byte by (unfold is_byte; lia). set (c := 48 + Z.land revid 15). set (m3 := <[_ := _]> m2).
  assert (Hm3 : m3 = write_bytes m2 (ver pl) [c]) by done.
  assert (Hc3 : cstr m3 (ver pl) [c]).
  { split; [constructor; [unfold is_char, c; lia|constructor]|]. apply bytes_at_cons.
    split; [apply lookup_insert_eq|]. apply bytes_at_insert_out; [lia|].
    by apply bytes_at_cons in Hv2 as [_ ?]. }
  assert (Hb3 : cstr m3 (board_string pl) l).
  { rewrite Hm3. apply cstr_write_disjoint; [cbn [length]; lia|].
    split; [apply Hl|apply write_bytes_in]. }
  rewrite (strcat_cstr m3 (board_string pl) (ver pl) l [c]); try done; try (unfold fits; cbn [length]; lia).
  2: { rewrite Hm3. apply owned_write, owned_write, owned_write. eapply owned_mono; [exact Hob|lia|cbn [length]; lia]. }
  rewrite some_bind. do 2 eexists. split; [reflexivity|].
  eapply touches_trans; [apply (touches_write start_arrays (ver pl) 2 m (ver pl) [48; 0])|];
    [by right; left|lia|cbn [length]; lia|].
  eapply touches_trans; [apply (touches_write start_arrays (board_string pl) 50 m1 (board_string pl) (l ++ [0]))|];
    [by right; right; left|lia|rewrite length_app; cbn [length]; lia|].
  fold m1. fold m2. eapply touches_trans; [apply (touches_write start_arrays (ver pl) 2 m2 (ver pl) [c])|];
    [by right; left|lia|cbn [length]; lia|].
  rewrite <- Hm3. apply (touches_write start_arrays (board_string pl) 50);
    [by right; right; left|lia|cbn [length app]; lia].
Qed.

(** The functions before the plan: the environment is the built-in one, and
    the rate is read from it. *)
Lemma init_sequence_runs e m es bee1 bee2 :
  start_room e m es bee1 bee2 →
  ∃ m', run_sequence (init_sequence pl) (e, m, Gd 0 0 0 0 0 0 0) =
      Some (Some (env_init e, m', Gd 0 0 (u32 (rate_of es)) 1 0 0 0)) ∧
    touches (inside start_arrays) m m'.
Proof.
  intros Hr. destruct (init_baudrate_reads (env_init e) m (Gd 0 0 0 0 0 0 0) es bee1 bee2) as (m' & E & Ht);
    [done|by destruct Hr|].
  exists m'. split; [|done]. unfold init_sequence. cbn [run_sequence].
  change (init_env (e, m, Gd 0 0 0 0 0 0 0)) with (Some (env_init e, m, Gd 0 0 0 0 0 0 0, 0)).
  rewrite some_bind. cbn [Z.eqb negb]. rewrite E, some_bind. cbn [Z.eqb negb].
  unfold console_init_f, display_banner. rewrite some_bind. cbn [Z.eqb negb].
  rewrite some_bind. done.
Qed.

(** C26: the first part of the start always hands over to the relocation.  The
    plan of the memory is sound; the global data are copied to their place in
    the plan with the size of the RAM and the rate of the environment, the
    board information tells the RAM, the rate and the place of the boot
    parameters; and nothing else is written but the local arrays and the first
    words of the new stack, whose pointer is 8 modulo 16 although the code
    says it forces an alignment of 16. *)
Theorem board_init_f_plans s e m es bee1 bee2 ram_size len :
  let p := plan_memory ram_size len in
  0x100000 ≤ ram_size ≤ 0x10000000 → 0 < len ≤ 0x40000 →
  start_room e m es bee1 bee2 →
  owned m (p_stack p - 4) (p_malloc p - (p_stack p - 4)) →
  ∃ s' m' g r,
    board_init_f pl s e m ram_size len = Some (s', env_init e, m', Some (g, r)) ∧
    plan_ok ram_size len p ∧ settled p (default_environment e) 0 g r m' ∧ addr_sp r mod 16 = 8 ∧
    g = Gd (p_bd p) 0 (u32 (rate_of es)) 1 ram_size 0 0 ∧
    touches (inside (settle_areas p ++ start_arrays)) m m'.
Proof.
  intros p Hram Hlen Hr Ho. pose proof (plan_memory_ok ram_size len Hram Hlen) as Hp. fold p in Hp.
  destruct (init_sequence_runs e m es bee1 bee2 Hr) as (m1 & E1 & T1).
  destruct (checkboard_writes s e m1 es bee1 bee2 m Hr T1) as (s' & m2 & E2 & T2).
  pose proof (touches_trans _ _ _ _ T1 T2) as T12.
  destruct (settle_stores m2 p (default_environment e) 0 (Gd 0 0 (u32 (rate_of es)) 1 ram_size 0 0)
    ram_size len Hp (touches_owned _ _ _ _ _ T12 Ho)) as (m3 & r & E3 & Hs & Hsp & T3).
  unfold board_init_f. rewrite E1, some_bind. cbv beta iota. rewrite E2, some_bind.
  cbv beta iota zeta. fold p. cbn [gd_bd gd_flags gd_baudrate gd_have_console gd_ram_size gd_reloc_off gd_jt].
  change (env_addr (env_init e)) with (default_environment e). change (env_valid (env_init e)) with 0.
  rewrite E3, some_bind. do 4 eexists. split; [reflexivity|]. do 4 (split; [done|]).
  apply (touches_trans _ m m2).
  - eapply touches_areas; [exact T12|]. apply incl_appr, incl_refl.
  - eapply touches_areas; [exact T3|]. apply incl_appl, incl_refl.
Qed.
End run.

(** ** An example: 32 MB of RAM *)

Definition demo_places : start_places := StartPlaces 1017 1076 1026 1051 1141 1143.
Definition demo_vars : list entry := [(lit "baudrate", lit "115200")].
Definition bee (n : list Z) : list Z := lit "board953x - Honey Bee " ++ n.
Definition demo_block : list Z :=
  flat demo_vars ++ [0] ++ lit "baudrate" ++ [0] ++ bee (lit "1.") ++ [0] ++ bee (lit "2.") ++ [0] ++
  replicate 117 0.
Definition demo_plan : plan := plan_memory 0x2000000 0x20000.
Definition demo_start (n : nat) : mem := write_bytes (mem_of 1000 demo_block) (p_stack demo_plan - 4) (replicate n 0).
Definition demo_env : env := Env 0 0 0 false 1000 18.


Lemma demo_plan_at : p_stack demo_plan - 4 = 2180579228 ∧ p_malloc demo_plan - (p_stack demo_plan - 4) = 131172.
Proof. split; reflexivity. Qed.

Lemma demo_string n pre t post :
  demo_block = pre ++ (t ++ [0]) ++ post → forallb (λ c, (0 <? c) && (c <? 256)) t = true →
  cstr (demo_start n) (1000 + length pre) t.
Proof.
  intros E Ht. unfold demo_start. rewrite E, (proj1 demo_plan_at). pose proof (f_equal length E) as El.
  rewrite !length_app in El. change (length demo_block) with 193%nat in El. cbn [length] in El.
  apply cstr_write_disjoint; [lia|]. by apply cstr_in_block.
Qed.

Lemma demo_room n : start_room demo_places demo_env (demo_start n) demo_vars (bee (lit "1.")) (bee (lit "2.")).
Proof.
  assert (Hblock : bytes_at (demo_start n) 1000 demo_block).
  { unfold demo_start. rewrite (proj1 demo_plan_at). apply bytes_at_write_disjoint; [|apply write_bytes_in].
    change (length demo_block) with 193%nat. lia. }
  split.
  - split; [by apply (bytes_at_take _ _ _ 17) in Hblock|].
    repeat constructor; cbn; try (unfold is_char; lia). apply (bool_decide_unpack _). vm_compute. done.
  - done.
  - intros v [= <-]. cbn. lia.
  - apply (demo_string n (flat demo_vars ++ [0]) (lit "baudrate") (bee (lit "1.") ++ [0] ++ bee (lit "2.") ++ [0] ++ replicate 117 0)); done.
  - split; [|cbn; lia].
    by apply (demo_string n (flat demo_vars ++ [0] ++ lit "baudrate" ++ [0]) (bee (lit "1.")) (bee (lit "2.") ++ [0] ++ replicate 117 0)).
  - split; [|cbn; lia].
    by apply (demo_string n (flat demo_vars ++ [0] ++ lit "baudrate" ++ [0] ++ bee (lit "1.") ++ [0]) (bee (lit "2.")) (replicate 117 0)).
  - apply bytes_at_owned in Hblock. change (Z.of_nat (length demo_block)) with 193 in Hblock.
    repeat constructor; cbn; (eapply owned_mono; [exact Hblock|lia|lia]).
  - by apply pairs_apart.
  - by apply forallb_apart.
  - by apply forallb_apart.
  - by apply forallb_apart.
Qed.

(** A chip whose registers are all 0. *)
#[local] Instance quiet_bus : Bus unit := { reg_wr s a v := s; reg_rd s a := (s, 0) }.

Lemma board_init_f_plans_witness :
  let m := demo_start (Z.to_nat 131172) in
  ∃ s' m' g r,
    board_init_f demo_places tt demo_env m 0x2000000 0x20000 = Some (s', env_init demo_env, m', Some (g, r)) ∧
    plan_ok 0x2000000 0x20000 demo_plan ∧ settled demo_plan 1000 0 g r m' ∧ addr_sp r mod 16 = 8 ∧
    g = Gd (p_bd demo_plan) 0 (u32 (rate_of demo_vars)) 1 0x2000000 0 0 ∧
    touches (inside (settle_areas demo_plan ++ start_arrays demo_places)) m m'.
Proof.
  intros m. apply (board_init_f_plans demo_places tt demo_env m demo_vars (bee (lit "1.")) (bee (lit "2.")) 0x2000000 0x20000).
  - lia.
  - lia.
  - apply demo_room.
  - change (plan_memory 0x2000000 0x20000) with demo_plan. unfold m, demo_start. rewrite (proj2 demo_plan_at).
    eapply owned_mono; [apply bytes_at_owned, write_bytes_in|lia|]. rewrite length_replicate, Z2Nat.id by lia. lia.
Defined.
