(* ===== verification/Help.v ===== *)
(** * The list of commands and their descriptions ([do_help], [common/command.c])

    Without arguments [help] sorts the command table by name and prints the
    line of usage of every entry; with arguments it prints the description of
    each of them.  [do_version] is here too. *)

From Stdlib Require Import Sorted.
From stdpp Require Import sorting.
From S2P Require Import Prelude.
From S2P Require Import CString.
From S2P Require Import Env.
From S2P Require Import Cmdline.

(** [CFG_CBSIZE + sizeof(CFG_PROMPT) + 16], the size of the buffer of [printf]. *)
Definition CFG_PBSIZE : Z := 540.

(** What [printf] is asked for when a command is not found. *)
Definition unknown_text (n : list Z) : list Z :=
  lit "Unknown command '" ++ n ++
  lit "' - try 'help' without arguments for list of all known commands" ++ [10; 10].

Section help.
Context {W : Type} `{Console W}.
Implicit Types (w : W) (s : shell W) (m : mem) (table cmds : list (cmd_tbl_s W)).

(** [puts] of a string in memory. *)
Definition puts_at w m (p : Z) : option W := l ← puts_chars m p; Some (puts w l).

(** [printf] formats into a buffer of its own and does not look at its end. *)
Definition print_text w (l : list Z) : option W :=
  if length l <? CFG_PBSIZE then Some (puts w l) else None.

(** ** Without arguments *)

(** The inner loop: the array and the number of swaps. *)
Definition bubble_pass m cmds (i : Z) : option (list (cmd_tbl_s W) * Z) :=
  while (λ '(cmds, j, swaps),
    if j <? i then
      a ← cmds !! Z.to_nat j;
      b ← cmds !! Z.to_nat (j + 1);
      r ← strcmp m (name a) (name b);
      Some (if r >? 0 then Next (<[Z.to_nat (j + 1) := a]> (<[Z.to_nat j := b]> cmds), j + 1, swaps + 1)
            else Next (cmds, j + 1, swaps))
    else Some (Done (cmds, swaps))) (cmds, 0, 0).

Definition sort_commands m cmds : option (list (cmd_tbl_s W)) :=
  while (λ '(cmds, i),
    if i >? 0 then
      '(cmds, swaps) ← bubble_pass m cmds i;
      Some (if swaps =? 0 then Done cmds else Next (cmds, i - 1))
    else Some (Done cmds)) (cmds, length cmds - 1).

(** The lines of usage; a Control-C ends the list. *)
Definition help_list s m cmds : option (shell W * Z) :=
  while (λ '(s, i),
    if i <? length cmds then
      c ← cmds !! Z.to_nat i;
      '(s, r) ← ctrlc s;
      if negb (r =? 0) then Some (Done (s, 1)) else
      if usage c =? NULL then Some (Next (s, i + 1)) else
      w ← puts_at (con s) m (usage c);
      Some (Next (set_con w s, i + 1))
    else Some (Done (s, 0))) (s, 0).

(** ** With arguments *)

(** One argument: what is printed, and whether it could be described. *)
Definition help_one table w m (p : Z) : option (W * bool) :=
  cmdtp ← find_cmd m table p;
  match cmdtp with
  | Some c =>
      w ← puts_at w m (name c);
      let w := putc w 32 in
      '(w, ok) ← (if negb (help c =? NULL) then w ← puts_at w m (help c); Some (w, true)
                  else Some (puts w (lit "- No help available." ++ [10]), false));
      Some (putc w 10, ok)
  | None =>
      n ← puts_chars m p;
      w ← print_text w (unknown_text n);
      Some (w, false)
  end.

Definition help_args table w m (argc : Z) (argv : list Z) : option (W * Z) :=
  while (λ '(w, i, rcode),
    if i <? argc then
      p ← argv !! Z.to_nat i;
      '(w, ok) ← help_one table w m p;
      Some (Next (w, i + 1, if ok : bool then rcode else 1))
    else Some (Done (w, rcode))) (w, 1, 0).

Definition do_help table s m (flag argc : Z) (argv : list Z) : option (shell W * mem * Z) :=
  if argc =? 1 then
    cmds ← sort_commands m table;
    '(s, r) ← help_list s m cmds;
    Some (s, m, r)
  else
    '(w, r) ← help_args table (con s) m argc argv;
    Some (set_con w s, m, r).

(** [version_string] is the address of the text. *)
Definition do_version (version_string : Z) s m : option (shell W * mem * Z) :=
  l ← puts_chars m version_string;
  w ← print_text (con s) ([10] ++ l ++ [10]);
  Some (set_con w s, m, 0).
End help.

(** ** The order of names *)

Definition is_ascii (c : Z) : Prop := 0 < c < 128.

Fixpoint name_le (l k : list Z) : bool :=
  match l, k with
  | [], _ => true
  | _ :: _, [] => false
  | x :: l, y :: k => (x <? y) || (x =? y) && name_le l k
  end.

Lemma ascii_char c : is_ascii c → is_char c.
Proof. unfold is_ascii, is_char. lia. Qed.

Lemma s8_ascii a b : 0 ≤ a < 128 → 0 ≤ b < 128 → s8 (s8 a - s8 b) = a - b.
Proof. intros Ha Hb. unfold s8, u8. Z.to_euclidean_division_equations. lia. Qed.

(** On ASCII names [strcmp] is positive exactly when they are out of order. *)
Lemma str_cmp_ascii l k :
  Forall is_ascii l → Forall is_ascii k → (str_cmp l k >? 0) = negb (name_le l k).
Proof.
  unfold is_ascii. intros Hl. revert k. induction Hl as [|x l Hx Hl IH]; intros [|y k] Hk; cbn [str_cmp name_le].
  - done.
  - apply Forall_cons_iff in Hk as [Hy _]. rewrite s8_ascii by lia. rewrite Z.gtb_ltb. apply Z.ltb_ge. lia.
  - rewrite s8_ascii by lia. rewrite Z.gtb_ltb. apply Z.ltb_lt. lia.
  - apply Forall_cons_iff in Hk as [Hy Hk]. destruct (Z.eqb_spec x y) as [->|Hne].
    + rewrite IH by done. by rewrite Z.ltb_irrefl.
    + rewrite s8_ascii by lia. rewrite Z.gtb_ltb, andb_false_l, orb_false_r. apply eq_bool_prop_intro.
      rewrite negb_True, !Is_true_true, Z.ltb_lt, Z.ltb_lt. lia.
Qed.

Lemma name_le_trans l k j : name_le l k = true → name_le k j = true → name_le l j = true.
Proof.
  revert k j. induction l as [|x l IH]; intros [|y k] [|z j]; cbn [name_le]; try done.
  rewrite !orb_true_iff, !andb_true_iff, !Z.ltb_lt, !Z.eqb_eq.
  intros [?|[-> H1]] [?|[-> H2]]; [left; lia..|]. right. split; [done|]. by eapply IH.
Qed.

Lemma name_le_total l k : name_le l k = false → name_le k l = true.
Proof.
  revert k. induction l as [|x l IH]; intros [|y k]; cbn [name_le]; try done.
  rewrite orb_false_iff, andb_false_iff, orb_true_iff, andb_true_iff, !Z.ltb_lt, Z.ltb_ge, Z.eqb_neq, Z.eqb_eq.
  intros [? [?|?]]; [left; lia|]. destruct (Z.eq_dec y x); [right; split; [done|by apply IH]|left; lia].
Qed.

Lemma name_le_refl l : name_le l l = true.
Proof. induction l as [|x l IH]; [done|]. cbn [name_le]. by rewrite Z.eqb_refl, IH, orb_true_r. Qed.

(** ** The table as the reader of the list sees it *)

(** An entry with its name and its two texts, where they are not NULL. *)
Record entry (W : Type) := Entry {
  row : cmd_tbl_s W;
  word : list Z;
  usage_text : option (list Z);
  help_text : option (list Z)
}.
Arguments Entry {W}.
Arguments row {W}.
Arguments word {W}.
Arguments usage_text {W}.
Arguments help_text {W}.

Definition text_at (m : mem) (a : Z) (o : option (list Z)) : Prop :=
  match o with None => a = NULL | Some t => a ≠ NULL ∧ cstr m a t ∧ fits t end.

Record entry_at {W} (m : mem) (e : entry W) : Prop := EntryAt {
  ea_name : cstr m (name (row e)) (word e) ∧ fits (word e);
  ea_ascii : Forall is_ascii (word e);
  ea_usage : text_at m (usage (row e)) (usage_text e);
  ea_help : text_at m (help (row e)) (help_text e)
}.

Definition before {W} (a b : entry W) : Prop := name_le (word a) (word b) = true.

Lemma before_trans {W} (a b c : entry W) : before a b → before b c → before a c.
Proof. apply name_le_trans. Qed.

Lemma puts_chars_cstr m a l : cstr m a l → fits l → puts_chars m a = Some l.
Proof.
  intros Hc Hf. unfold puts_chars. set (bd := λ _ : Z * list Z, _).
  apply (while_runs bd _ (S (length l))); [|unfold fits in Hf; lia]. clear Hf.
  enough (Hgen : ∀ out, runs bd (a, out) (S (length l)) (out ++ l)) by exact (Hgen []).
  revert a Hc. induction l as [|c l IH]; intros a Hc out.
  - apply cstr_nil in Hc. apply runs_done. unfold bd. rewrite app_nil_r. by c_step.
  - apply cstr_cons in Hc as (Hch & Hl & Hc). eapply runs_next.
    + unfold bd. c_step. unfold is_char in Hch. rewrite (proj2 (Z.eqb_neq c 0)) by lia. reflexivity.
    + replace (out ++ c :: l) with ((out ++ [c]) ++ l) by by rewrite <- app_assoc. by apply IH.
Qed.

(** ** Sorting *)

Lemma lookup_pair {A} (p q : list A) a b n :
  length p = n → (p ++ a :: b :: q) !! n = Some a ∧ (p ++ a :: b :: q) !! S n = Some b.
Proof.
  intros <-. split; [by apply list_lookup_middle|].
  rewrite lookup_app_r, Nat.sub_succ_l, Nat.sub_diag by lia. done.
Qed.

Lemma insert_pair {A} (p q : list A) a b n :
  length p = n → <[S n := a]> (<[n := b]> (p ++ a :: b :: q)) = p ++ b :: a :: q.
Proof. intros <-. induction p as [|c p IH]; [done|]. cbn. f_equal. exact IH. Qed.

Section sorting.
Context {W : Type} `{Console W}.
Implicit Types (m : mem) (e x y : entry W) (l k : list (entry W)).

Lemma strcmp_entries m x y :
  entry_at m x → entry_at m y →
  ∃ r, strcmp m (name (row x)) (name (row y)) = Some r ∧ (r >? 0) = negb (name_le (word x) (word y)).
Proof.
  intros [[Hx Hfx] Hax _ _] [[Hy _] Hay _ _]. exists (str_cmp (word x) (word y)).
  split; [by apply strcmp_cstr|by apply str_cmp_ascii].
Qed.

(** What one pass makes of the first entries: the last is the greatest, and
    when nothing was swapped they were in order. *)
Record passed (l l' : list (entry W)) (g : entry W) (n : Z) : Prop := Passed {
  pa_perm : l ≡ₚ l' ++ [g];
  pa_top : Forall (λ e, before e g) l';
  pa_swaps : 0 ≤ n;
  pa_none : n = 0 → l = l' ++ [g] ∧ Sorted before l
}.

Lemma passed_skip x y l l' g n :
  before x y → passed (y :: l) l' g n → passed (x :: y :: l) (x :: l') g n.
Proof.
  intros Hxy [Hp Ht Hn H0]. split.
  - cbn. by rewrite Hp.
  - constructor; [|done]. assert (Hy : y ∈ l' ++ [g]) by (rewrite <- Hp; left).
    apply elem_of_app in Hy as [Hy|Hy%list_elem_of_singleton]; [|by subst].
    eapply before_trans; [exact Hxy|]. by eapply list.Forall_forall in Ht.
  - done.
  - intros En. destruct (H0 En) as [E Hs]. split; [cbn; by rewrite E|]. constructor; [done|by constructor].
Qed.

Lemma passed_swap x y l l' g n :
  name_le (word x) (word y) = false → passed (x :: l) l' g n → passed (x :: y :: l) (y :: l') g (n + 1).
Proof.
  intros Hxy [Hp Ht Hn H0]. apply name_le_total in Hxy. split; [|constructor; [|done]|lia|lia].
  - rewrite perm_swap. cbn. by rewrite Hp.
  - assert (Hy : x ∈ l' ++ [g]) by (rewrite <- Hp; left).
    apply elem_of_app in Hy as [Hy|Hy%list_elem_of_singleton]; [|by subst].
    eapply before_trans; [exact Hxy|]. by eapply list.Forall_forall in Ht.
Qed.

Lemma bubble_pass_run m (i : Z) (k : nat) l : ∀ pre x b,
  Forall (entry_at m) (x :: l) → length l = k → i = length pre + k →
  ∃ l' g n, passed (x :: l) l' g n ∧ Forall (entry_at m) (l' ++ [g]) ∧ ∀ sw,
    runs (λ '(cmds, j, swaps),
      if j <? i then
        a ← cmds !! Z.to_nat j;
        b ← cmds !! Z.to_nat (j + 1);
        r ← strcmp m (name a) (name b);
        Some (if r >? 0 then Next (<[Z.to_nat (j + 1) := a]> (<[Z.to_nat j := b]> cmds), j + 1, swaps + 1)
              else Next (cmds, j + 1, swaps))
      else Some (Done (cmds, swaps)))
    (map row (pre ++ x :: l ++ b), length pre : Z, sw) (S k) (map row (pre ++ l' ++ g :: b), sw + n).
Proof.
  set (bd := λ _ : list (cmd_tbl_s W) * Z * Z, _).
  revert k. induction l as [|y l IH]; intros k pre x b Hes Hk Hi; cbn [length] in Hk; subst k.
  - exists [], x, 0. split; [|split; [done|]].
    + split; [done|constructor|done|]. intros _. split; [done|]. by repeat constructor.
    + intros sw. apply runs_done. unfold bd. rewrite (proj2 (Z.ltb_ge _ _)) by lia. by rewrite Z.add_0_r.
  - apply Forall_cons_iff in Hes as [Hx Hes]. apply Forall_cons_iff in Hes as [Hy Hl].
    destruct (strcmp_entries m x y Hx Hy) as (r & Er & Hr).
    assert (Hstep : ∀ sw, bd (map row (pre ++ x :: (y :: l) ++ b), length pre : Z, sw) =
      Some (if name_le (word x) (word y) then Next (map row ((pre ++ [x]) ++ y :: l ++ b), length (pre ++ [x]) : Z, sw)
            else Next (map row ((pre ++ [y]) ++ x :: l ++ b), length (pre ++ [y]) : Z, sw + 1))).
    { intros sw. unfold bd. rewrite (proj2 (Z.ltb_lt _ _)) by (cbn [length] in Hi; lia).
      rewrite !map_app. cbn [map app]. rewrite Nat2Z.id.
      replace (Z.to_nat (length pre + 1)) with (S (length pre)) by lia.
      assert (Hp : length (map row pre) = length pre) by apply length_map.
      destruct (lookup_pair (map row pre) (map row (l ++ b)) (row x) (row y) (length pre) Hp) as [-> ->].
      rewrite !some_bind, Er, some_bind, Hr, insert_pair, !length_app, <- !app_assoc by done.
      destruct (name_le (word x) (word y)); cbn [negb length map app]; by rewrite Nat2Z.inj_add. }
    destruct (name_le (word x) (word y)) eqn:Hxy.
    + destruct (IH (length l) (pre ++ [x]) y b) as (l' & g & n & Hpa & He & Hrun);
        [by constructor|done|rewrite length_app; cbn [length] in *; lia|].
      exists (x :: l'), g, n. split; [by apply passed_skip|]. split; [by constructor|]. intros sw.
      eapply runs_next; [apply Hstep|]. cbn [app]. change (x :: l' ++ g :: b) with ([x] ++ l' ++ g :: b). rewrite (app_assoc pre). apply Hrun.
    + destruct (IH (length l) (pre ++ [y]) x b) as (l' & g & n & Hpa & He & Hrun);
        [by constructor|done|rewrite length_app; cbn [length] in *; lia|].
      exists (y :: l'), g, (n + 1). split; [by apply passed_swap|]. split; [by constructor|]. intros sw.
      eapply runs_next; [apply Hstep|]. replace (sw + (n + 1)) with (sw + 1 + n) by lia. cbn [app].
      change (y :: l' ++ g :: b) with ([y] ++ l' ++ g :: b). rewrite (app_assoc pre). apply Hrun.
Qed.

Lemma bubble_pass_spec m x l b :
  Forall (entry_at m) (x :: l) → Z.of_nat (length l) < 4294967296 →
  ∃ l' g n, bubble_pass m (map row ((x :: l) ++ b)) (length l) = Some (map row (l' ++ g :: b), n) ∧
    passed (x :: l) l' g n ∧ Forall (entry_at m) (l' ++ [g]).
Proof.
  intros He Hf. destruct (bubble_pass_run m (length l) (length l) l [] x b He eq_refl eq_refl)
    as (l' & g & n & Hp & He' & Hrun).
  exists l', g, n. split; [|done]. unfold bubble_pass. apply (while_runs _ _ _ _ (Hrun 0)). lia.
Qed.

(** The outer loop, with the entries [a] still to sort in front of [b]. *)
Record sorting (m : mem) l a b : Prop := Sorting {
  so_perm : a ++ b ≡ₚ l;
  so_at : Forall (entry_at m) (a ++ b);
  so_done : StronglySorted before b;
  so_cut : ∀ x y, x ∈ a → y ∈ b → before x y
}.

Lemma sorting_pass m l a b l' g n : sorting m l a b → passed a l' g n → sorting m l l' (g :: b).
Proof.
  intros [Hp Ha Hb Hc] [Hq Ht _ _].
  assert (E : l' ++ g :: b ≡ₚ a ++ b) by (rewrite Hq, <- app_assoc; done).
  assert (Hg : g ∈ a) by (rewrite Hq; apply elem_of_app; right; by left). split.
  - by rewrite E.
  - by rewrite E.
  - constructor; [done|]. apply list.Forall_forall. auto.
  - intros x y Hx [->|Hy]%elem_of_cons; [by eapply list.Forall_forall in Ht|].
    apply Hc; [|done]. rewrite Hq. apply elem_of_app. by left.
Qed.

Lemma sorting_end m l a b : sorting m l a b → StronglySorted before a → StronglySorted before (a ++ b).
Proof. intros [_ _ Hb Hc] Ha. apply StronglySorted_app. auto. Qed.

Lemma sorted_strongly l : Sorted before l → StronglySorted before l.
Proof. apply Sorted_StronglySorted. intros a b c. apply before_trans. Qed.

Lemma sort_commands_spec m l :
  Forall (entry_at m) l → Z.of_nat (length l) < 4294967296 →
  ∃ l', sort_commands m (map row l) = Some (map row l') ∧ l' ≡ₚ l ∧ StronglySorted before l' ∧ Forall (entry_at m) l'.
Proof.
  intros He Hf. unfold sort_commands. rewrite length_map. set (bd := λ _ : list (cmd_tbl_s W) * Z, _).
  enough (∃ r, while bd (map row l, length l - 1) = Some r ∧
    ∃ l', r = map row l' ∧ l' ≡ₚ l ∧ StronglySorted before l' ∧ Forall (entry_at m) l') as (r & -> & l' & -> & K).
  { by exists l'. }
  apply (while_rule bd (λ '(cmds, i), ∃ a b, cmds = map row (a ++ b) ∧ i = length a - 1 ∧ sorting m l a b)
    (λ '(cmds, i), i + 1)).
  - intros [cmds i] (a & b & -> & Ei & Hs). unfold bd. rewrite Z.gtb_ltb. destruct (Z.ltb_spec 0 i) as [Hi|Hi].
    + destruct a as [|x a]; [cbn [length] in Ei; lia|]. cbn [length] in Ei.
      assert (Hla : (length (x :: a) ≤ length l)%nat).
      { rewrite <- (so_perm _ _ _ _ Hs), length_app. lia. }
      pose proof (so_at _ _ _ _ Hs) as Hat. apply Forall_app in Hat as [Hat Hbt]. cbn [length] in Hla.
      destruct (bubble_pass_spec m x a b Hat ltac:(lia)) as (l' & g & n & E & Hp & He').
      replace i with (length a : Z) by lia. rewrite E, some_bind.
      pose proof (sorting_pass _ _ _ _ _ _ _ Hs Hp) as Hs'.
      eexists. split; [reflexivity|]. destruct (Z.eqb_spec n 0) as [En|_].
      * destruct (pa_none _ _ _ _ Hp En) as [El Hso]. exists ((x :: a) ++ b). split; [|split; [apply Hs|split; [|apply Hs]]].
        -- rewrite El, <- app_assoc. done.
        -- eapply sorting_end; [exact Hs|by apply sorted_strongly].
      * pose proof (Permutation_length (pa_perm _ _ _ _ Hp)) as Hl. rewrite length_app in Hl. cbn [length] in Hl.
        split; [|lia]. exists l', (g :: b). split; [done|]. split; [lia|done].
    + eexists. split; [reflexivity|]. exists (a ++ b). split; [done|]. split; [apply Hs|]. split; [|apply Hs].
      eapply sorting_end; [exact Hs|]. destruct a as [|x [|]]; [constructor|by repeat constructor|cbn [length] in Ei; lia].
  - exists l, []. rewrite app_nil_r. split; [done|]. split; [done|].
    split; [by rewrite app_nil_r|by rewrite app_nil_r|constructor|]. intros x y _ Hy. by apply not_elem_of_nil in Hy.
  - lia.
Qed.
End sorting.

(** ** What is printed *)

(** The list of an idle console: the usages one after the other. *)
Definition usages {W} (l : list (entry W)) : list Z := concat (map (λ e, default [] (usage_text e)) l).

(** The description of one word, and whether there is one. *)
Definition describe {W} (es : list (entry W)) (n : list Z) : list Z * bool :=
  match lookup_cmd (base_name n) (zip es (map word es)) with
  | Some e =>
      (word e ++ [32] ++ default (lit "- No help available." ++ [10]) (help_text e) ++ [10],
       if help_text e is Some _ then true else false)
  | None => (unknown_text n, false)
  end.

Section printing.
Context {W : Type} `{Console W}.
Implicit Types (m : mem) (w : W) (s : shell W) (e : entry W) (es : list (entry W)).

Lemma puts_at_cstr w m p t : cstr m p t → fits t → puts_at w m p = Some (puts w t).
Proof. intros Hc Hf. unfold puts_at. by rewrite (puts_chars_cstr m p t). Qed.

Lemma lookup_cmd_rows es n :
  lookup_cmd n (zip (map row es) (map word es)) = row <$> lookup_cmd n (zip es (map word es)).
Proof.
  assert (E : ∀ (P : list Z → Prop) (HP : ∀ x, Decision (P x)),
    filter (λ e : cmd_tbl_s W * list Z, P e.2) (zip (map row es) (map word es)) =
    prod_map row id <$> filter (λ e : entry W * list Z, P e.2) (zip es (map word es))).
  { intros P HP. induction es as [|e es IH]; [done|]. cbn [map zip zip_with]. rewrite !filter_cons. cbn [snd].
    destruct (decide (P (word e))); [|exact IH]. rewrite fmap_cons. by f_equal. }
  pose proof (E (λ k, k = n) _) as E1. pose proof (E (λ k, n `prefix_of` k) _) as E2. cbv beta in E1, E2.
  unfold lookup_cmd. rewrite E1, E2. clear E E1 E2.
  destruct (filter (λ e : entry W * list Z, e.2 = n) _) as [|[]]; [|done].
  by destruct (filter (λ e : entry W * list Z, n `prefix_of` e.2) _) as [|[] [|]].
Qed.

Lemma names_at_entries m es : Forall (entry_at m) es → names_at m (map row es) (map word es).
Proof. induction 1 as [|e es He Hes IH]; [constructor|]. constructor; [apply He|exact IH]. Qed.

Lemma lookup_cmd_in es n e : lookup_cmd n (zip es (map word es)) = Some e → e ∈ es.
Proof.
  intros E. assert (Hin : ∀ x : entry W * list Z, x ∈ zip es (map word es) → x.1 ∈ es).
  { intros [x k] Hx. apply elem_of_zip_l in Hx. done. }
  unfold lookup_cmd in E. destruct (filter (λ e : entry W * list Z, e.2 = n) _) as [|x l] eqn:E1.
  - destruct (filter (λ e : entry W * list Z, n `prefix_of` e.2) _) as [|x [|]] eqn:E2; try done. injection E as <-.
    apply Hin. eapply (list_elem_of_filter (λ e : entry W * list Z, n `prefix_of` e.2)). rewrite E2. by left.
  - injection E as <-. apply Hin. eapply (list_elem_of_filter (λ e : entry W * list Z, e.2 = n)). rewrite E1. by left.
Qed.

(** One argument of [help]. *)
Lemma help_one_describes w m es p n :
  Forall (entry_at m) es → cstr m p n → fits n → 0 < p → Z.of_nat (length (unknown_text n)) < CFG_PBSIZE →
  help_one (map row es) w m p = Some (puts w (describe es n).1, (describe es n).2).
Proof.
  intros Hes Hc Hf Hp Hl. unfold help_one, describe.
  rewrite (find_cmd_spec m _ _ p n (names_at_entries m es Hes) Hc Hf Hp), some_bind, lookup_cmd_rows.
  destruct (lookup_cmd (base_name n) (zip es (map word es))) as [e|] eqn:E; cbn [fmap option_fmap option_map].
  - apply lookup_cmd_in in E. eapply list.Forall_forall in Hes as [[Hn Hfn] _ _ Hh]; [|exact E].
    rewrite (puts_at_cstr w m _ _ Hn Hfn), some_bind. unfold text_at in Hh. destruct (help_text e) as [t|].
    + destruct Hh as (Hne & Ht & Hft). rewrite (proj2 (Z.eqb_neq _ _) Hne). cbn [negb].
      rewrite (puts_at_cstr _ m _ _ Ht Hft), !some_bind. cbn [fst snd default from_option id]. by rewrite !puts_app.
    + rewrite Hh, Z.eqb_refl. cbn [negb]. rewrite some_bind. cbn [fst snd default from_option id]. by rewrite !puts_app.
  - rewrite (puts_chars_cstr m p n Hc Hf), some_bind. unfold print_text.
    by rewrite (proj2 (Z.ltb_lt _ _) Hl), some_bind.
Qed.

(** All of them: the answer is 0 when every one was described. *)
Lemma help_args_describes w m es argv ps ns :
  Forall (entry_at m) es → drop 1 argv = ps → length argv = S (length ps) → Z.of_nat (length ps) < 4294967296 →
  Forall2 (λ p n, cstr m p n ∧ fits n ∧ 0 < p ∧ Z.of_nat (length (unknown_text n)) < CFG_PBSIZE) ps ns →
  help_args (map row es) w m (length argv) argv =
    Some (puts w (concat (map (λ n, (describe es n).1) ns)), if forallb (λ n, (describe es n).2) ns then 0 else 1).
Proof.
  intros Hes Hd Hla Hb Hps. unfold help_args. set (bd := λ _ : W * Z * Z, _).
  apply (while_runs bd _ (S (length ps))); [|lia].
  enough (Hgen : ∀ ps ns w i rc, Forall2 (λ p n, cstr m p n ∧ fits n ∧ 0 < p ∧
      Z.of_nat (length (unknown_text n)) < CFG_PBSIZE) ps ns → drop i argv = ps → (i + length ps = length argv)%nat →
    runs bd (w, Z.of_nat i, rc) (S (length ps)) (puts w (concat (map (λ n, (describe es n).1) ns)),
      if forallb (λ n, (describe es n).2) ns then rc else 1)).
  { apply (Hgen ps ns w 1%nat 0); [done|done|lia]. }
  clear Hd Hla Hb Hps. clear w ps ns. intros ps ns w i rc Hps. revert w i rc.
  induction Hps as [|p n ps ns (Hc & Hf & Hp & Hl) Hps IH]; intros w i rc Hd Hi; cbn [length] in Hi.
  - apply runs_done. unfold bd. rewrite (proj2 (Z.ltb_ge _ _)) by lia. done.
  - eapply runs_next.
    + unfold bd. rewrite (proj2 (Z.ltb_lt _ _)) by lia. rewrite Nat2Z.id.
      assert (E : argv !! i = Some p) by (rewrite <- (Nat.add_0_r i), <- lookup_drop, Hd; done).
      rewrite E, some_bind, (help_one_describes w m es p n), some_bind by done. reflexivity.
    + cbn [map concat forallb]. rewrite puts_app. replace (Z.of_nat i + 1) with (Z.of_nat (S i)) by lia.
      replace (if (describe es n).2 && forallb (λ n, (describe es n).2) ns then rc else 1) with
        (if forallb (λ n, (describe es n).2) ns then (if (describe es n).2 then rc else 1) else 1)
        by (by destruct (describe es n).2, (forallb _ ns)).
      apply IH; [|lia]. rewrite <- Nat.add_1_r, <- drop_drop, Hd. done.
Qed.
End printing.

Section listing.
Context {W : Type} `{Console W}.
Context (idle : W → Prop) (idle_tstc : ∀ w, idle w → tstc w = false) (idle_putc : ∀ w c, idle w → idle (putc w c)).
Implicit Types (m : mem) (s : shell W) (es : list (entry W)).

Lemma help_list_prints s m es :
  Forall (entry_at m) es → Z.of_nat (length es) < 4294967296 → idle (con s) →
  help_list s m (map row es) = Some (set_con (puts (con s) (usages es)) s, 0).
Proof using idle_tstc idle_putc.
  intros Hes Hl Hi. unfold help_list. set (bd := λ _ : shell W * Z, _).
  apply (while_runs bd _ (S (length es))); [|lia]. clear Hl.
  enough (Hgen : ∀ l pre s, es = pre ++ l → idle (con s) →
    runs bd (s, length pre : Z) (S (length l)) (set_con (puts (con s) (usages l)) s, 0)) by by apply (Hgen es []).
  clear Hi s. induction l as [|e l IH]; intros pre s E Hi.
  - apply runs_done. unfold bd. rewrite length_map, E, app_nil_r, (proj2 (Z.ltb_ge _ _)) by lia. by destruct s.
  - assert (He : entry_at m e) by (rewrite E in Hes; apply Forall_app in Hes as [_ Hes]; by apply Forall_inv in Hes).
    assert (Hlook : map row es !! length pre = Some (row e)).
    { rewrite E, map_app. apply list_lookup_middle. by rewrite length_map. }
    specialize (IH (pre ++ [e])). rewrite length_app in IH. cbn [length] in IH.
    assert (Hstep : bd (s, length pre : Z) =
      Some (Next (set_con (puts (con s) (default [] (usage_text e))) s, length pre + 1))).
    { unfold bd. rewrite length_map, (proj2 (Z.ltb_lt _ _)) by (rewrite E, length_app; cbn [length]; lia).
      rewrite Nat2Z.id, Hlook, some_bind, (idle_ctrlc idle idle_tstc) by done. rewrite some_bind.
      cbn [negb Z.eqb]. destruct He as [_ _ Hu _]. unfold text_at in Hu. destruct (usage_text e) as [t|].
      - destruct Hu as (Hne & Ht & Hf). rewrite (proj2 (Z.eqb_neq _ _) Hne).
        by rewrite (puts_at_cstr (con s) m _ t Ht Hf), some_bind.
      - rewrite Hu, Z.eqb_refl. by destruct s. }
    eapply runs_next; [exact Hstep|]. unfold usages. cbn [map concat]. rewrite puts_app.
    replace (length pre + 1) with (Z.of_nat (length pre + 1)) by lia.
    apply (IH (set_con (puts (con s) (default [] (usage_text e))) s)); [by rewrite <- app_assoc|].
    by apply (idle_puts idle idle_putc).
Qed.

(** C39: [help] without arguments prints the line of usage of every command
    exactly once, in the order of the names, and answers 0; with arguments
    it prints the description of every one of them, in their order, and
    answers 0 exactly when each was a command with a description.  (No
    character is typed meanwhile, and no unknown word is too long for the
    buffer of [printf].) *)
Theorem do_help_lists s m es flag argv ps ns :
  Forall (entry_at m) es → Z.of_nat (length es) < 4294967296 → idle (con s) →
  drop 1 argv = ps → length argv = S (length ps) → Z.of_nat (length ps) < 4294967296 →
  Forall2 (λ p n, cstr m p n ∧ fits n ∧ 0 < p ∧ Z.of_nat (length (unknown_text n)) < CFG_PBSIZE) ps ns →
  (ps = [] → ∃ es', es' ≡ₚ es ∧ StronglySorted before es' ∧
    do_help (map row es) s m flag (length argv) argv =
      Some (set_con (puts (con s) (usages es')) s, m, 0)) ∧
  (ps ≠ [] → do_help (map row es) s m flag (length argv) argv =
    Some (set_con (puts (con s) (concat (map (λ n, (describe es n).1) ns))) s, m,
      if forallb (λ n, (describe es n).2) ns then 0 else 1)).
Proof using idle_tstc idle_putc.
  intros Hes Hl Hi Hd Hla Hlp Hps. unfold do_help. split; intros Hne.
  - rewrite Hla, Hne. change (1%nat =? 1) with true. cbv iota.
    destruct (sort_commands_spec m es Hes Hl) as (es' & -> & Hp & Hs & He).
    exists es'. split; [done|]. split; [done|]. rewrite some_bind.
    rewrite (help_list_prints s m es' He), some_bind; [done|by rewrite Hp|done].
  - rewrite (proj2 (Z.eqb_neq _ _)) by (rewrite Hla; destruct ps; [done|cbn [length]; lia]).
    by rewrite (help_args_describes (con s) m es argv ps ns), some_bind.
Qed.
End listing.

(** Two commands in the wrong order, the second without a description. *)
Definition help_words : list (list Z) :=
  [lit "md"; lit "md - show" ++ [10]; lit "addr" ++ [10]; lit "cp"; lit "cp - copy" ++ [10]; lit "help"].
Definition help_mem : mem := mem_of 100 (concat (map (λ t, t ++ [0]) help_words)).
Definition help_row (n u h : Z) : cmd_tbl_s (list Z * list Z * Z) :=
  Cmd n 4 1 false (λ s m flag argc argv, Some (s, m, 0)) u h.
Definition help_entries : list (entry (list Z * list Z * Z)) :=
  [Entry (help_row 100 103 114) (lit "md") (Some (lit "md - show" ++ [10])) (Some (lit "addr" ++ [10]));
   Entry (help_row 120 123 NULL) (lit "cp") (Some (lit "cp - copy" ++ [10])) None].
Definition help_shell : shell (list Z * list Z * Z) := Shell ([], [], 0) 0 0 1 (Env.Env 0 0 0 true 0 0).

Lemma help_mem_cstr i t : help_words !! i = Some t →
  cstr help_mem (100 + length (concat (map (λ t, t ++ [0]) (take i help_words)))) t ∧ fits t.
Proof.
  intros Hi. assert (Ht : forallb (λ c, (0 <? c) && (c <? 256)) t = true ∧ fits t).
  { apply list_elem_of_lookup_2 in Hi. revert t Hi. apply list.Forall_forall.
    by repeat constructor. }
  split; [|apply Ht]. unfold help_mem. rewrite <- (take_drop_middle _ _ _ Hi) at 1.
  rewrite map_app, concat_app. cbn [map concat]. apply cstr_in_block, Ht.
Qed.

Lemma do_help_lists_witness :
  (∃ es', es' ≡ₚ help_entries ∧ StronglySorted before es' ∧
    do_help (map row help_entries) help_shell help_mem 0 1 [134] =
      Some (set_con (puts (con help_shell) (usages es')) help_shell, help_mem, 0)) ∧
  do_help (map row help_entries) help_shell help_mem 0 3 [134; 120; 100] =
    Some (set_con (puts (con help_shell) (lit "cp - No help available." ++ [10; 10] ++ lit "md addr" ++ [10; 10]))
      help_shell, help_mem, 1).
Proof.
  assert (He : Forall (entry_at help_mem) help_entries).
  { constructor; [|constructor; [|constructor]]; split.
    - exact (help_mem_cstr 0 _ eq_refl).
    - repeat constructor; unfold is_ascii; lia.
    - split; [discriminate|exact (help_mem_cstr 1 _ eq_refl)].
    - split; [discriminate|exact (help_mem_cstr 2 _ eq_refl)].
    - exact (help_mem_cstr 3 _ eq_refl).
    - repeat constructor; unfold is_ascii; lia.
    - split; [discriminate|exact (help_mem_cstr 4 _ eq_refl)].
    - reflexivity. }
  pose proof (do_help_lists (λ w : list Z * list Z * Z, w.1.1 = []) ltac:(by intros [[[|] ?] ?]) ltac:(by intros [[? ?] ?] ?)
    help_shell help_mem help_entries 0) as T.
  split.
  - apply (T [134] [] []); (done || constructor).
  - apply (T [134; 120; 100] [120; 100] [lit "cp"; lit "md"]); try done.
    constructor; [|constructor; [|constructor]].
    + destruct (help_mem_cstr 3 _ eq_refl) as [? ?]. done.
    + destruct (help_mem_cstr 0 _ eq_refl) as [? ?]. done.
Defined.
