(* ===== verification/Shell.v ===== *)
(** * Running command lines ([run_command] of [common/main.c])

    What a line of commands does: separators, macros, arguments, lookup and
    the calls, put together from the parts of [Cmdline] and [Macro]. *)

From S2P Require Import Prelude.
From S2P Require Import CString.
From S2P Require Import Env.
From S2P Require Import Cmdline.
From S2P Require Import Macro.

(** Characters without a meaning for the separators. *)
Definition bare_char (c : Z) : Prop := c ≠ 39 ∧ c ≠ 59 ∧ c ≠ 92.

Section separator.
Implicit Types (m : mem) (t rest : list Z).

Lemma find_sep_bare m p t rest :
  cstr m p (t ++ rest) → Forall bare_char t → fits t → t ≠ [] →
  (rest = [] ∨ ∃ r, rest = 59 :: r) → find_sep m p = Some (p + length t).
Proof.
  intros Hc Ht Hf Hne Hrest. unfold find_sep.
  apply (while_within _ _ (S (length t))); [unfold fits in Hf; lia|]. clear Hf.
  assert (Hgen : ∀ t2 t1, t = t1 ++ t2 → ∃ n, (n ≤ S (length t2))%nat ∧
    runs (λ '(sep, inquotes),
      c ← ld m sep;
      if c =? 0 then Some (Done sep) else
      inquotes ← (if c =? 39 then
          b ← ld m (sep - 1); Some (if negb (b =? 92) then negb inquotes else inquotes)
        else Some inquotes);
      stop ← (if negb inquotes && (c =? 59) && negb (sep =? p) then
          b ← ld m (sep - 1); Some (negb (b =? 92))
        else Some false);
      Some (if stop : bool then Done sep else Next (sep + 1, inquotes)))
      (p + length t1, false) n (p + length t)).
  2: { destruct (Hgen t [] eq_refl) as (n & Hn & Hr). exists n. split; [lia|].
       by rewrite Z.add_0_r in Hr. }
  induction t2 as [|c t2 IH]; intros t1 E.
  - rewrite app_nil_r in E. subst t1. exists 1%nat. split; [simpl; lia|]. apply runs_done.
    apply (cstr_drop _ _ _ (length t)) in Hc as Hc2; [|rewrite length_app; lia].
    rewrite drop_app_length in Hc2. apply cstr_hd in Hc2.
    destruct Hrest as [->|[r ->]]; simpl in Hc2; c_step; [done|].
    destruct (exists_last Hne) as (t1 & x & E). rewrite E in Ht. apply Forall_app in Ht as [_ Ht].
    apply Forall_inv in Ht as (_ & _ & Hx).
    assert (Hb : m !! (p + length t - 1) = Some x).
    { destruct Hc as [_ Hb]. rewrite <- app_assoc in Hb. apply bytes_at_app in Hb as [Hb _].
      rewrite E in Hb |- *. apply bytes_at_app in Hb as [_ Hb]. apply bytes_at_singleton in Hb.
      rewrite length_app. simpl. by replace (p + (length t1 + 1)%nat - 1) with (p + length t1) by lia. }
    change (59 =? 0) with false. change (59 =? 39) with false. change (59 =? 59) with true.
    cbv iota. rewrite some_bind.
    assert (Hlen : (0 < length t)%nat) by (destruct t; [done|simpl; lia]).
    rewrite (proj2 (Z.eqb_neq (p + length t) p)) by lia. cbn [negb andb]. c_step.
    by rewrite (proj2 (Z.eqb_neq _ _) Hx).
  - assert (E2 : t = (t1 ++ [c]) ++ t2) by by rewrite <- app_assoc.
    destruct (IH _ E2) as (n & Hn & Hr). exists (S n). split; [simpl; lia|].
    rewrite length_app in Hr. cbn [length] in Hr.
    replace (p + (length t1 + 1)%nat) with (p + length t1 + 1) in Hr by lia.
    eapply runs_next; [|exact Hr].
    assert (Hx : m !! (p + length t1) = Some c ∧ is_char c ∧ bare_char c).
    { assert (Hc2 := Hc). rewrite E, <- app_assoc in Hc2.
      apply (cstr_drop _ _ _ (length t1)) in Hc2; [|rewrite length_app; lia].
      rewrite drop_app_length in Hc2. apply cstr_cons in Hc2 as (Hch & Hx & _).
      rewrite E in Ht. apply Forall_app in Ht as [_ Ht]. by apply Forall_cons_iff in Ht as [Ht _]. }
    destruct Hx as (Hx & Hch & H1 & H2 & H3). unfold is_char in Hch. cbv beta iota. c_step.
    rewrite (proj2 (Z.eqb_neq c 0)), (proj2 (Z.eqb_neq c 39)), (proj2 (Z.eqb_neq c 59)) by lia.
    done.
Qed.
End separator.

(** ** One command of a line *)

Section token.
Context {W : Type} `{Console W}.
Context (table : list (cmd_tbl_s W)) (names : list (list Z)) (f : frame) (es : list entry).
Implicit Types (s : shell W) (m : mem) (t rest : list Z).

(** The local arrays. *)
Definition in_frame (j : Z) : Prop :=
  cmdbuf f ≤ j < cmdbuf f + 512 ∨ finaltoken f ≤ j < finaltoken f + 512 ∨
  envname f ≤ j < envname f + 512.

Definition clear_of (lo hi : Z) : Prop := ∀ j, lo ≤ j < hi → ¬ in_frame j.

Definition two_apart (a b : Z) : Prop := a + 512 ≤ b ∨ b + 512 ≤ a.

(** The stack frame, the environment and the command names are in order. *)
Record ready s m : Prop := Ready {
  rd_cmdbuf : owned m (cmdbuf f) 512;
  rd_final : owned m (finaltoken f) 512;
  rd_name : owned m (envname f) 512;
  rd_apart : two_apart (cmdbuf f) (finaltoken f) ∧ two_apart (cmdbuf f) (envname f) ∧
    two_apart (finaltoken f) (envname f);
  rd_pos : 0 < finaltoken f;
  rd_env : entries_at m (env_base (env_of s)) es;
  rd_env_pos : 0 < env_base (env_of s);
  rd_env_len : length (flat es) < CFG_ENV_SIZE;
  rd_env_clear : clear_of (env_base (env_of s)) (env_base (env_of s) + length (flat es) + 1);
  rd_names : names_at m table names;
  rd_names_clear : Forall2 (λ c n, clear_of (name c) (name c + length n + 1)) table names
}.

(** Nothing but the local arrays changes. *)
Definition kept m m' : Prop :=
  (∀ j, ¬ in_frame j → m' !! j = m !! j) ∧ (∀ j, is_Some (m !! j) → is_Some (m' !! j)).

Lemma kept_refl m : kept m m.
Proof. done. Qed.

Lemma kept_trans m1 m2 m3 : kept m1 m2 → kept m2 m3 → kept m1 m3.
Proof. intros [A1 B1] [A2 B2]. split; [|eauto]. intros j Hj. by rewrite A2, A1. Qed.

Lemma kept_bytes m m' a l : kept m m' → clear_of a (a + length l) → bytes_at m a l → bytes_at m' a l.
Proof.
  intros [A _] Hc Hb i x Hx. pose proof (lookup_lt_Some _ _ _ Hx). rewrite A; [by apply Hb|].
  apply Hc. lia.
Qed.

Lemma kept_cstr m m' a l : kept m m' → clear_of a (a + length l + 1) → cstr m a l → cstr m' a l.
Proof.
  intros Hk Hc [Hch Hb]. split; [done|]. eapply kept_bytes; [done| |done].
  rewrite length_app. simpl. by replace (a + (length l + 1)%nat) with (a + length l + 1) by lia.
Qed.

Lemma kept_owned m m' a n : kept m m' → owned m a n → owned m' a n.
Proof. intros [_ B] Ho i Hi. apply B, Ho, Hi. Qed.

Lemma ready_kept s s' m m' : ready s m → env_of s' = env_of s → kept m m' → ready s' m'.
Proof.
  intros [] He Hk. split; rewrite ?He; try done; try by eapply kept_owned.
  - destruct rd_env0 as [E1 E2]. split; [|done]. eapply kept_bytes; [done| |done].
    rewrite length_app. simpl.
    by replace (env_base (env_of s) + (length (flat es) + 1)%nat)
      with (env_base (env_of s) + length (flat es) + 1) by lia.
  - unfold names_at in *. clear - rd_names0 rd_names_clear0 Hk.
    induction rd_names0 as [|c n tb ns [Hc Hf] Hn IH]; [constructor|].
    apply Forall2_cons_1 in rd_names_clear0 as [Hcl Hcls].
    constructor; [|by apply IH]. split; [|done]. by eapply kept_cstr.
Qed.

Lemma kept_insert m a v : in_frame a → kept m (<[a := v]> m).
Proof.
  intros Ha. split.
  - intros j Hj. rewrite lookup_insert_ne; [done|]. by intros ->.
  - intros j Hj. destruct (decide (a = j)) as [->|Hne];
      [by rewrite lookup_insert_eq|by rewrite lookup_insert_ne].
Qed.

(** The words of the line in the argument array. *)
Definition args_in m (argv : list Z) (ws : list (list Z)) : Prop :=
  length argv = 17%nat ∧
  (∀ (j : nat) w, ws !! j = Some w → (j < 16)%nat →
     ∃ a, argv !! j = Some a ∧ cstr m a w ∧ finaltoken f ≤ a ∧ a + length w < finaltoken f + 512) ∧
  ((length ws < 16)%nat → argv !! length ws = Some NULL).

(** The macros and the arguments of a command. *)
Lemma token_args s m p t gs argv :
  ready s m → cstr m p t → cmdbuf f ≤ p → p + length t < cmdbuf f + 512 →
  t = line_text gs → Forall seg_ok gs → length argv = 17%nat →
  (length (line_meaning es gs) < 512)%nat →
  ∃ m1 m2 argv2, process_macros (env_of s) (envname f) m p (finaltoken f) = Some m1 ∧
    parse_line m1 (finaltoken f) argv =
      Some (m2, argv2, Z.min 16 (length (words (line_meaning es gs)))) ∧
    kept m m2 ∧ (∀ j, cmdbuf f ≤ j < cmdbuf f + 512 → m2 !! j = m !! j) ∧
    args_in m2 argv2 (words (line_meaning es gs)).
Proof.
  intros Hrd Hc Hp Hend Ht Hgs Hargv Hlen.
  destruct (rd_apart _ _ Hrd) as (D1 & D2 & D3). unfold two_apart in *.
  assert (Hap : ∀ lo hi, lo < hi → clear_of lo hi → apart (finaltoken f) (envname f) lo hi).
  { intros lo hi Hlt Hcl. unfold apart, clear_of, in_frame in *. split.
    - destruct (Z.le_gt_cases hi (finaltoken f)); [by left|right].
      destruct (Z.le_gt_cases (finaltoken f + 512) lo); [done|exfalso].
      apply (Hcl (Z.max lo (finaltoken f))); lia.
    - destruct (Z.le_gt_cases hi (envname f)); [by left|right].
      destruct (Z.le_gt_cases (envname f + 512) lo); [done|exfalso].
      apply (Hcl (Z.max lo (envname f))); lia. }
  pose proof (rd_env_len _ _ Hrd) as Hfl. unfold CFG_ENV_SIZE in Hfl.
  destruct (process_macros_line (env_of s) es p (finaltoken f) (envname f) t m) with (gs := gs)
    as (m1 & E1 & F1 & K1 & C1 & _).
  - unfold apart. lia.
  - apply Hap; [lia|apply Hrd].
  - lia.
  - apply Hrd.
  - apply Hrd.
  - split; [apply Hrd|done|apply Hrd|apply Hrd|apply bytes_at_nil|simpl; lia|done|done].
  - done.
  - done.
  - unfold fits. lia.
  - specialize (C1 Hlen). cbv zeta in C1.
    destruct (parse_line_spec m1 (finaltoken f) (line_meaning es gs) argv C1) as (m2 & argv2 & n & E2 & Hp2);
      [unfold fits; lia|done|].
    destruct Hp2 as [-> [A B] P3 _ P5 P6]. exists m1, m2, argv2.
    split; [done|]. split; [done|]. split; [|split; [|split; [done|split]]].
    + split; [|eauto]. intros j Hj. unfold in_frame in Hj. rewrite A by lia. apply F1.
      unfold apart. lia.
    + intros j Hj. rewrite A by lia. apply F1. unfold apart. lia.
    + intros j w Hj Hlt. destruct (P5 j w Hj Hlt) as (a & A1 & A2 & A3 & A4). exists a.
      split; [done|]. split; [done|]. lia.
    + intros Hlt. by apply P6.
Qed.

(** What happens to the words [ws] of a command. *)
Definition dispatch s m str flag argv (rep rc : Z) (ws : list (list Z))
    : option (ctl run_state (shell W * mem * Z)) :=
  match ws with
  | [] => Some (Next (s, m, str, flag, argv, rep, -1))
  | w :: _ =>
      match lookup_cmd (base_name w) (zip table names) with
      | None => Some (Next (s, m, str, flag, argv, rep, -1))
      | Some c => call_cmd c (Z.min 16 (length ws)) (s, m, str, flag, argv, rep, rc)
      end
  end.

Lemma dispatch_args s m str flag argv rep rc ws :
  ready s m → args_in m argv ws → Forall fits ws →
  (if Z.min 16 (length ws) =? 0 then Some (Next (s, m, str, flag, argv, rep, -1)) else
   argv0 ← argv !! 0%nat;
   cmdtp ← find_cmd m table argv0;
   match cmdtp with
   | None => Some (Next (s, m, str, flag, argv, rep, -1))
   | Some cmdtp => call_cmd cmdtp (Z.min 16 (length ws)) (s, m, str, flag, argv, rep, rc)
   end) = dispatch s m str flag argv rep rc ws.
Proof.
  intros Hrd (_ & Ha & _) Hf. destruct ws as [|w ws]; [done|].
  rewrite (proj2 (Z.eqb_neq _ 0)) by (simpl; lia).
  destruct (Ha 0%nat w eq_refl) as (a & -> & Hc & Hr & _); [lia|]. rewrite some_bind.
  rewrite (find_cmd_spec m table names a w), some_bind; [done|apply Hrd|done| |].
  - by apply Forall_inv in Hf.
  - pose proof (rd_pos _ _ Hrd). lia.
Qed.

Lemma words_short l : Forall (λ w, (length w ≤ length l)%nat) (words l).
Proof.
  unfold words. assert (Hgen : ∀ w, Forall (λ v, (length v ≤ length w + length l)%nat) (split_words l w)).
  2: { exact (Hgen []). }
  induction l as [|c l IH]; intros w; simpl.
  - destruct w; constructor; [simpl; lia|constructor].
  - assert (Hnil : Forall (λ v, (length v ≤ length w + S (length l))%nat) (split_words l [])).
    { eapply Forall_impl; [|exact (IH [])]. simpl. lia. }
    destruct (is_blank c).
    + destruct w; [done|]. constructor; [lia|done].
    + eapply Forall_impl; [|exact (IH (w ++ [c]))]. intros v. rewrite length_app. simpl. lia.
Qed.

(** The end of the line. *)
Lemma run_token_end s m p flag argv rep rc :
  cstr m p [] → run_token table f (s, m, p, flag, argv, rep, rc) =
    Some (Done (s, m, if negb (rc =? 0) then rc else rep)).
Proof. intros Hc. apply cstr_nil in Hc. unfold run_token. by c_step. Qed.

(** One command: [rest] is empty or a semicolon with what follows it. *)
Lemma run_token_line s m p t rest gs flag argv rep rc :
  ready s m → cstr m p (t ++ rest) → cmdbuf f ≤ p → p + length t + length rest < cmdbuf f + 512 →
  t = line_text gs → Forall seg_ok gs → Forall bare_char t → t ≠ [] →
  (rest = [] ∨ ∃ r, rest = 59 :: r) → length argv = 17%nat →
  (length (line_meaning es gs) < 512)%nat →
  let ws := words (line_meaning es gs) in
  let p' := p + length t + (if rest is [] then 0 else 1) in
  ∃ m1 argv1, kept m m1 ∧ ready s m1 ∧ args_in m1 argv1 ws ∧ cstr m1 p' (tail rest) ∧
    run_token table f (s, m, p, flag, argv, rep, rc) = dispatch s m1 p' flag argv1 rep rc ws.
Proof.
  intros Hrd Hc Hp Hend Ht Hgs Hbare Hne Hrest Hargv Hlen ws p'.
  assert (Hft : fits t) by (unfold fits; lia).
  pose proof (find_sep_bare m p t rest Hc Hbare Hft Hne Hrest) as Esep.
  set (q := p + length t) in *.
  assert (Hq : cstr m q rest).
  { apply (cstr_drop _ _ _ (length t)) in Hc; [|rewrite length_app; lia].
    by rewrite drop_app_length in Hc. }
  assert (Hc0 : ∃ c0, m !! p = Some c0 ∧ c0 ≠ 0).
  { destruct t as [|c0 t']; [done|]. apply cstr_cons in Hc as (Hx & Hm & _).
    exists c0. unfold is_char in Hx. split; [done|lia]. }
  destruct Hc0 as (c0 & Hm0 & Hn0).
  (* the text of the command, ended by a NUL *)
  set (m0 := if rest is [] then m else <[q := 0]> m).
  assert (Hk0 : kept m m0).
  { unfold m0. destruct rest; [apply kept_refl|]. apply kept_insert. left. simpl in Hend. lia. }
  assert (Hc1 : cstr m0 p t).
  { pose proof Hc as [Hch Hb]. apply Forall_app in Hch as [Hch _]. rewrite <- app_assoc in Hb.
    apply bytes_at_app in Hb as [Hb _]. split; [done|]. apply bytes_at_app. unfold m0.
    destruct rest as [|x r].
    - split; [done|]. apply bytes_at_singleton. by apply cstr_nil in Hq.
    - split; [apply bytes_at_insert_out; [lia|done]|].
      apply bytes_at_singleton, lookup_insert_eq. }
  assert (Hrd0 : ready s m0) by (by eapply ready_kept).
  destruct (token_args s m0 p t gs argv Hrd0 Hc1 Hp ltac:(lia) Ht Hgs Hargv Hlen)
    as (m1 & m2 & argv2 & E1 & E2 & Hk & Hb & Ha).
  exists m2, argv2. split; [by eapply kept_trans|]. split; [by eapply ready_kept|].
  split; [done|]. split.
  - assert (Hc2 : cstr m0 p' (tail rest)).
    { unfold m0, p'. destruct rest as [|x r]; [by rewrite Z.add_0_r|].
      apply cstr_cons in Hq as (_ & _ & Hq). apply cstr_insert_out; [lia|exact Hq]. }
    destruct Hc2 as [Hch Hby]. split; [done|]. intros i x Hx.
    pose proof (lookup_lt_Some _ _ _ Hx) as Hi. rewrite length_app in Hi. simpl in Hi.
    rewrite Hb; [by apply Hby|]. unfold p'. destruct rest; simpl in *; lia.
  - unfold run_token. rewrite (ld_bind _ _ _ _ Hm0), (proj2 (Z.eqb_neq _ _) Hn0).
    rewrite Esep, some_bind. fold q.
    assert (Hsep : ∀ B (k : mem * Z → option B), (ld m q ≫= λ c,
      (if negb (c =? 0) then m ← st m q 0; Some (m, q + 1) else Some (m, q)) ≫= k) = k (m0, p')).
    { intros B k. unfold m0, p'. apply cstr_hd in Hq as Hx. destruct rest as [|x r]; simpl in Hx.
      - repeat c_step. by rewrite Z.add_0_r.
      - c_step. apply cstr_cons in Hq as (Hx2 & _ & _). unfold is_char in Hx2.
        rewrite (proj2 (Z.eqb_neq x 0)) by lia. cbn [negb].
        rewrite st_owned by by eexists. by rewrite !some_bind. }
    rewrite Hsep.
    rewrite E1, some_bind, E2, some_bind.
    apply dispatch_args; [by eapply ready_kept|done|].
    eapply Forall_impl; [|apply words_short]. intros w Hw. unfold fits. simpl in Hw. lia.
Qed.

Lemma kept_write m a l :
  cmdbuf f ≤ a → a + length l ≤ cmdbuf f + 512 → kept m (write_bytes m a l).
Proof.
  intros H1 H2. destruct (changed_write (cmdbuf f) (cmdbuf f + 512) m a l H1 H2) as [A B].
  split; [|done]. intros j Hj. apply A. unfold in_frame in Hj. lia.
Qed.

(** The copy of the command line. *)
Lemma run_command_start s m cmd_ l flag argv :
  ready s m → cstr m cmd_ l → l ≠ [] → (length l < 512)%nat → cmd_ ≠ NULL →
  (cmd_ + length l < cmdbuf f ∨ cmdbuf f + 512 ≤ cmd_) →
  ∃ m0, run_command table f argv s m cmd_ flag =
      while (run_token table f) (clear_ctrlc s, m0, cmdbuf f, flag, argv, 1, 0) ∧
    kept m m0 ∧ ready (clear_ctrlc s) m0 ∧ cstr m0 (cmdbuf f) l.
Proof.
  intros Hrd Hc Hne Hlen Hnull Hd. unfold run_command. rewrite (proj2 (Z.eqb_neq _ _) Hnull).
  assert (Hf : fits l) by (unfold fits; lia).
  assert (Hx : ∃ c, m !! cmd_ = Some c ∧ c ≠ 0).
  { destruct l as [|c l]; [done|]. apply cstr_cons in Hc as (Hx & Hm & _).
    exists c. unfold is_char in Hx. split; [done|lia]. }
  destruct Hx as (c & Hm & Hc0). c_step. rewrite (proj2 (Z.eqb_neq _ _) Hc0).
  rewrite (strlen_cstr m cmd_ l), some_bind by done. unfold CFG_CBSIZE.
  rewrite Z.geb_leb, (proj2 (Z.leb_gt 512 _)) by lia.
  rewrite (strcpy_cstr m (cmdbuf f) cmd_ l), some_bind; [|done| |done|lia].
  2: { eapply owned_mono; [apply Hrd|lia|lia]. }
  assert (Hk : kept m (write_bytes m (cmdbuf f) (l ++ [0]))).
  { apply kept_write; [lia|]. rewrite length_app. simpl. lia. }
  eexists. split; [done|]. split; [done|]. split; [by eapply ready_kept|].
  split; [apply Hc|apply write_bytes_in].
Qed.

(** C5: a line with one command (plain characters and macros).  After the
    copy, the macros and the splitting, which change nothing but the local
    arrays, the answer is -1 for an empty line, an unknown or ambiguous
    command, too many arguments for the command, or a nested bootd, and
    otherwise the command is called with the words of the expanded line as
    its arguments; its failure gives -1, Control-C 0, success the repeat
    flag of the command. *)
Theorem run_command_one s m cmd_ t gs flag argv :
  ready s m → cstr m cmd_ t → cmd_ ≠ NULL →
  (cmd_ + length t < cmdbuf f ∨ cmdbuf f + 512 ≤ cmd_) →
  t = line_text gs → Forall seg_ok gs → Forall bare_char t → t ≠ [] → (length t < 512)%nat →
  length argv = 17%nat → (length (line_meaning es gs) < 512)%nat →
  let ws := words (line_meaning es gs) in
  let argc := Z.min 16 (length ws) in
  ∃ m1 argv1, kept m m1 ∧ args_in m1 argv1 ws ∧
    match match ws with [] => None | w :: _ => lookup_cmd (base_name w) (zip table names) end with
    | None => run_command table f argv s m cmd_ flag = Some (clear_ctrlc s, m1, -1)
    | Some c =>
        if (argc >? maxargs c) || is_bootd c && negb (Z.land flag CMD_FLAG_BOOTD =? 0) then
          run_command table f argv s m cmd_ flag = Some (clear_ctrlc s, m1, -1)
        else
          ∀ s' m' r,
            cmd c (clear_ctrlc s) m1 (if is_bootd c then Z.lor flag CMD_FLAG_BOOTD else flag)
              argc argv1 = Some (s', m', r) →
            m' !! (cmdbuf f + length t) = m1 !! (cmdbuf f + length t) →
            run_command table f argv s m cmd_ flag = Some (s', m',
              if negb (had_ctrlc s' =? 0) then 0
              else if negb (r =? 0) then -1 else Z.land 1 (repeatable c))
    end.
Proof.
  intros Hrd Hc Hnull Hd Ht Hgs Hbare Hne Hlen Hargv Hlm ws argc.
  destruct (run_command_start s m cmd_ t flag argv) as (m0 & -> & Hk0 & Hrd0 & Hc0); [done..|].
  rewrite <- (app_nil_r t) in Hc0.
  destruct (run_token_line (clear_ctrlc s) m0 (cmdbuf f) t [] gs flag argv 1 0)
    as (m1 & argv1 & Hk1 & Hrd1 & Ha & Hend & Hstep); [done|done|lia|simpl; lia|done..|by left|done|done|].
  rewrite Z.add_0_r in Hend, Hstep. fold ws in Ha, Hstep. simpl tail in Hend.
  exists m1, argv1. split; [by eapply kept_trans|]. split; [done|].
  assert (Hstop : ∀ st, run_token table f (clear_ctrlc s, m0, cmdbuf f, flag, argv, 1, 0) =
      Some (Next (clear_ctrlc s, m1, cmdbuf f + length t, st, argv1, 1, -1)) →
    while (run_token table f) (clear_ctrlc s, m0, cmdbuf f, flag, argv, 1, 0) =
      Some (clear_ctrlc s, m1, -1)).
  { intros st Hs. eapply while_runs; [eapply runs_next; [exact Hs|]|].
    - apply runs_done. by apply run_token_end.
    - done. }
  unfold dispatch in Hstep. destruct ws as [|w ws'] eqn:Ews; [by eapply Hstop|].
  destruct (lookup_cmd (base_name w) (zip table names)) as [c|]; [|by eapply Hstop].
  unfold call_cmd in Hstep. fold argc in Hstep.
  destruct (argc >? maxargs c); [by eapply Hstop|]. cbn [orb].
  destruct (is_bootd c && negb (Z.land flag CMD_FLAG_BOOTD =? 0)); [by eapply Hstop|].
  intros s' m' r Hcall Hkeep. rewrite Hcall, some_bind in Hstep.
  destruct (negb (had_ctrlc s' =? 0)).
  - eapply while_runs; [by apply runs_done|done].
  - assert (He : cstr m' (cmdbuf f + length t) []).
    { apply cstr_nil. rewrite Hkeep. by apply cstr_nil in Hend. }
    eapply while_runs; [eapply runs_next; [exact Hstep|apply runs_done]|done].
    rewrite run_token_end by done. by destruct (negb (r =? 0)).
Qed.
End token.

(** ** A small shell *)

Definition small_frame : frame := Frame 0x1000 0x2000 0x3000.
Definition small_env : env := Env 0 0 0 false 100 9.
Definition small_block : mem :=
  mem_of2 100 (flat two_vars ++ [0]) 200 (lit "echo" ++ [0] ++ lit "ec x${b}" ++ [0]).
Definition zeros : list Z := replicate (Z.to_nat 512) 0.
Definition small_mem : mem :=
  write_bytes (write_bytes (write_bytes small_block 0x1000 zeros) 0x2000 zeros) 0x3000 zeros.
Definition small_shell : shell (list Z * list Z * Z) := Shell ([], [], 0) 0 0 1 small_env.

Lemma zeros_owned m a : owned (write_bytes m a zeros) a 512.
Proof.
  pose proof (bytes_at_owned _ _ _ (write_bytes_in m a zeros)) as Ho. unfold zeros in *.
  rewrite length_replicate, Z2Nat.id in Ho by lia. exact Ho.
Qed.

Lemma small_low a l : a + length l ≤ 0x1000 → bytes_at small_block a l → bytes_at small_mem a l.
Proof. intros Ha Hb. unfold small_mem. do 3 (apply bytes_at_write_disjoint; [left; lia|]). exact Hb. Qed.

Lemma small_clear lo hi : hi ≤ 0x1000 → clear_of small_frame lo hi.
Proof. intros Hh j Hj. unfold in_frame. simpl. lia. Qed.

Lemma small_cstr (a : Z) l pre post :
  lit "echo" ++ [0] ++ lit "ec x${b}" ++ [0] = pre ++ (l ++ [0]) ++ post →
  a = 200 + length pre → Forall is_char l → cstr small_mem a l.
Proof.
  intros E -> Hl. split; [done|]. apply small_low.
  - assert (Hlen : length (pre ++ (l ++ [0]) ++ post) = 14%nat) by by rewrite <- E.
    rewrite !length_app in *. lia.
  - unfold small_block, mem_of2. rewrite E.
    pose proof (write_bytes_in (mem_of 100 (flat two_vars ++ [0])) 200 (pre ++ (l ++ [0]) ++ post)) as Hb.
    apply bytes_at_app in Hb as [_ Hb]. by apply bytes_at_app in Hb as [Hb _].
Qed.

Lemma small_ready :
  ready [quiet 200] [lit "echo"] small_frame two_vars small_shell small_mem.
Proof.
  split; cbn [cmdbuf finaltoken envname small_frame].
  - do 2 apply owned_write. apply zeros_owned.
  - apply owned_write. apply zeros_owned.
  - apply zeros_owned.
  - unfold two_apart. lia.
  - lia.
  - split; [|apply two_vars_ok]. apply small_low; [vm_compute; discriminate|].
    apply bytes_at_mem_of2. right. vm_compute. discriminate.
  - reflexivity.
  - reflexivity.
  - apply small_clear. vm_compute. discriminate.
  - constructor; [|constructor]. split; [|reflexivity].
    apply (small_cstr 200 (lit "echo") [] (lit "ec x${b}" ++ [0])); [reflexivity|reflexivity|chars].
  - constructor; [|constructor]. apply small_clear. vm_compute. discriminate.
Qed.

Lemma run_command_one_witness :
  ∃ m1 argv1, kept small_frame small_mem m1 ∧ args_in small_frame m1 argv1 [lit "ec"; lit "x23"] ∧
    run_command [quiet 200] small_frame (replicate 17 0) small_shell small_mem 205 0 =
      Some (small_shell, m1, 1).
Proof.
  destruct (run_command_one [quiet 200] [lit "echo"] small_frame two_vars small_shell small_mem 205
    (lit "ec x${b}") [Lit 101; Lit 99; Lit 32; Lit 120; Var false [98]] 0 (replicate 17 0))
    as (m1 & argv1 & Hk & Ha & Hr).
  - exact small_ready.
  - apply (small_cstr 205 (lit "ec x${b}") (lit "echo" ++ [0]) []); [reflexivity|reflexivity|chars].
  - discriminate.
  - left. vm_compute. reflexivity.
  - reflexivity.
  - repeat first [apply Forall_nil_2 | apply Forall_cons_2 | progress cbn | progress unfold plain_char, is_char
      | split | lia | discriminate].
  - repeat first [apply Forall_nil_2 | apply Forall_cons_2 | progress unfold bare_char | split | discriminate].
  - discriminate.
  - simpl. lia.
  - reflexivity.
  - simpl. lia.
  - exists m1, argv1. split; [exact Hk|]. split; [exact Ha|].
    exact (Hr small_shell m1 0 eq_refl eq_refl).
Defined.
