(* ===== verification/Main.v ===== *)
(** * The main loop ([main_loop] of [common/main.c])

    The default boot command, the outputs, the firmware recovery, the wait for
    the stop key, the boot command and the rounds of the prompt.  The commands are run through [run], which is
    [run_command] of [Cmdline] with its table and buffers. *)

From S2P Require Import Prelude.
From S2P Require Import Timer.
From S2P Require Import CString.
From S2P Require Import Vsprintf.
From S2P Require Import Env.
From S2P Require Import Spi.
From S2P Require Import Flash.
From S2P Require Import Cmdline.
From S2P Require Import Readline.
From S2P Require Import Macro.
From S2P Require Import Shell.

Definition CMD_FLAG_REPEAT : Z := 1.
Definition CONFIG_BOOTDELAY : Z := 1.
Definition ORG_FILE_BASE : Z := 0x9F01F000.
Definition ORG_PRODUCT_ID_POS : Z := ORG_FILE_BASE + 0xD00.
Definition ORG_PRODUCT_VER_POS : Z := ORG_FILE_BASE + 0xD04.
Definition UP_FILE_BASE : Z := 0x80800000.
Definition UP_PRODUCT_ID_POS : Z := UP_FILE_BASE + 0x40.
Definition UP_PRODUCT_VER_POS : Z := UP_FILE_BASE + 0x44.

(** Where the literals and the arrays of [main_loop] are. *)
Record main_places := MainPlaces {
  lit_bootdelaykey : Z;
  lit_bootdelaykey2 : Z;
  lit_bootstopkey : Z;
  lit_bootstopkey2 : Z;
  lit_stop_str2 : Z;              (* CONFIG_AUTOBOOT_STOP_STR2 *)
  presskey : Z;
  lit_bootdelay : Z;
  lit_bootcmd : Z;
  lit_filesize : Z;
  lit_upload_cmd : Z;             (* FW_IMAGE_UPLOAD_CMD *)
  lit_device : Z;                 (* FW_RECOVERY_DEV *)
  lit_image_name : Z;             (* FW_IMAGE_NAME *)
  upload_cmd : Z;
  image_name : Z;
  lit_set_serverip : Z;
  lit_set_ipaddr : Z;
  lit_reflash : Z;
  lit_reflash_boot : Z;
  lit_prompt : Z;
  console_buffer : Z;
  lastcommand : Z;
  lit_setenv : Z;                 (* of [setenv] in [cmd_nvedit.c] *)
  lit_default_bootcmd : Z
}.

(** The outputs that [main_loop] sets: 1-4, 11 and 13-16. *)
Definition MAIN_GPIO_OUT : Z :=
  foldr (λ i x, Z.lor (Z.shiftl 1 i) x) 0 [1; 2; 3; 4; 11; 13; 14; 15; 16].

Section main.
Context {W : Type} `{Console W} `{Bus W}.
Context (pl : main_places) (run : shell W → mem → Z → Z → option (shell W * mem * Z)).
Implicit Types (w : W) (s : shell W) (m : mem).

(** ** The stop key *)

(** The length of a key, at most [MAX_DELAY_STOP_STR]. *)
Definition key_len m (str : Z) : option Z :=
  if str =? NULL then Some 0 else
  n ← strlen m str; Some (if n >? MAX_DELAY_STOP_STR then MAX_DELAY_STOP_STR else n).

(** The keys: the place and the length of each. *)
Definition delay_keys s m : option (list (Z * Z)) :=
  k0 ← getenv (env_of s) m (lit_bootdelaykey pl);
  k1 ← getenv (env_of s) m (lit_bootdelaykey2 pl);
  k2 ← getenv (env_of s) m (lit_bootstopkey pl);
  k3 ← getenv (env_of s) m (lit_bootstopkey2 pl);
  let k3 := if k3 =? NULL then lit_stop_str2 pl else k3 in
  n0 ← key_len m k0; n1 ← key_len m k1; n2 ← key_len m k2; n3 ← key_len m k3;
  Some [(k0, n0); (k1, n1); (k2, n2); (k3, n3)].

(** Is one of the keys at the end of what was typed? *)
Fixpoint key_hit m (keys : list (Z * Z)) (presskey_len abort : Z) : option Z :=
  match keys with
  | [] => Some abort
  | (str, len) :: keys =>
      hit ← (if (len >? 0) && (presskey_len >=? len) then
          r ← memcmp m (presskey pl + presskey_len - len) str len; Some (r =? 0)
        else Some false);
      key_hit m keys presskey_len (if hit : bool then 1 else abort)
  end.

(** One character more; a full buffer moves down. *)
Definition take_key w m (presskey_len presskey_max : Z) : option (W * mem * Z) :=
  if presskey_len <? presskey_max then
    '(c, w) ← getc w;
    m ← st m (presskey pl + presskey_len) c;
    Some (w, m, presskey_len + 1)
  else
    '(m, i) ← while (λ '(m, i),
      if i <? u32 (presskey_max - 1) then
        c ← ld m (presskey pl + (i + 1)); m ← st m (presskey pl + i) c; Some (Next (m, i + 1))
      else Some (Done (m, i))) (m, 0);
    '(c, w) ← getc w;
    m ← st m (presskey pl + i) c;
    Some (w, m, presskey_len).

Definition key_round (keys : list (Z * Z)) (presskey_max etime : Z)
    : W * mem * Z * Z → option (ctl (W * mem * Z * Z) (W * mem * Z)) :=
  λ '(w, m, presskey_len, abort),
    if negb (abort =? 0) then Some (Done (w, m, abort)) else
    let '(now, w) := get_ticks w in
    if negb (now <=? etime) then Some (Done (w, m, abort)) else
    abort ← key_hit m keys presskey_len abort;
    if tstc w then
      '(w, m, presskey_len) ← take_key w m presskey_len presskey_max;
      Some (Next (w, m, presskey_len, abort))
    else Some (Next (w, m, presskey_len, abort)).

Definition abortboot s m (bootdelay : Z) : option (shell W * mem * Z) :=
  let '(now, w) := get_ticks (con s) in
  let etime := (now + bootdelay * get_tbclk) mod 18446744073709551616 in
  keys ← delay_keys s m;
  let presskey_max := foldl (λ mx k, if mx >? k.2 then mx else k.2) 0 keys in
  '(w, m, abort) ← while (key_round keys presskey_max etime) (w, m, 0, 0);
  Some (set_con w s, m, abort).

(** ** The boot command *)

(** The delay in seconds. *)
Definition boot_delay s m : option Z :=
  d ← getenv (env_of s) m (lit_bootdelay pl);
  if negb (d =? NULL) then '(v, _) ← simple_strtol m d 10; Some (s32 v)
  else Some CONFIG_BOOTDELAY.

Definition autoboot s m (bootdelay : Z) : option (shell W * mem) :=
  c ← getenv (env_of s) m (lit_bootcmd pl);
  if (bootdelay >=? 0) && negb (c =? NULL) then
    '(s, m, abort) ← abortboot s m bootdelay;
    if negb (abort =? 0) then Some (s, m) else
    let '(s, prev) := disable_ctrlc s 1 in
    '(s, m, _) ← run s m c 0;
    let '(s, _) := disable_ctrlc s prev in
    Some (s, m)
  else Some (s, m).

(** ** The firmware recovery

    [button], [led] and [led_on] are the GPIO numbers of [ath_flash.c] as in
    [Spi]; [set_fw_recovery] sets the flag the network code looks at.  The
    answer of [recovery] is whether the board is reset. *)
Context (button led led_on : Z) (set_fw_recovery : W → W).

(** Behind the upload: identification, size and the two flash commands (the
    branch for the 4 MB flash of this board). *)
Definition recovery_flash s m : option (shell W * mem * bool) :=
  original_product_id ← ld32 m ORG_PRODUCT_ID_POS;
  original_product_ver ← ld32 m ORG_PRODUCT_VER_POS;
  recovery_product_id ← ld32 m UP_PRODUCT_ID_POS;
  recovery_product_ver ← ld32 m UP_PRODUCT_VER_POS;
  if (original_product_id =? recovery_product_id) && (original_product_ver =? recovery_product_ver) then
    p ← getenv (env_of s) m (lit_filesize pl);
    file_size ← (if negb (p =? NULL) then '(v, _) ← simple_strtoul m p 16; Some v else Some 0);
    '(s, m) ← (
      if file_size =? 0x3c0000 then
        '(s, m, _) ← run s m (lit_reflash pl) 0; Some (s, m)
      else if file_size =? 0x3e0200 then
        '(s, m, _) ← run s m (lit_reflash_boot pl) 0; Some (s, m)
      else Some (s, m));
    Some (s, m, true)
  else Some (set_con (ath_fw_led_off (con s) led led_on) s, m, false).

Definition recovery s m : option (shell W * mem * bool) :=
  let w := ath_auf_gpio_init (con s) button led in
  let '(w, is_auto_upload_firmware) := ath_is_rst_btn_pressed w button in
  let s := set_con w s in
  if negb (is_auto_upload_firmware =? 0) then
    m ← memset m (image_name pl) 0 32;
    m ← memset m (upload_cmd pl) 0 64;
    m ← strcpy m (upload_cmd pl) (lit_upload_cmd pl);
    m ← strcpy m (image_name pl) (lit_device pl);
    m ← strcat m (image_name pl) (lit_image_name pl);
    m ← strcat m (upload_cmd pl) (image_name pl);
    let s := set_con (ath_fw_led_on (con s) led led_on) s in
    let s := set_con (set_fw_recovery (con s)) s in
    '(s, m, _) ← run s m (lit_set_serverip pl) 0;
    '(s, m, _) ← run s m (lit_set_ipaddr pl) 0;
    '(s, m, _) ← run s m (upload_cmd pl) 0;
    recovery_flash s m
  else Some (set_con (ath_fw_led_off (con s) led led_on) s, m, false).

(** ** Up to the prompt *)

(** Without a boot command the default one is put into the environment. *)
Definition default_bootcmd s m (b : board) : option (mem * board) :=
  c ← getenv (env_of s) m (lit_bootcmd pl);
  if c =? NULL then
    setenv (env_of s) m b (lit_setenv pl) (lit_bootcmd pl) (lit_default_bootcmd pl)
  else Some (m, b).

(** The delay is read and the boot command is completed before the recovery.
    The last answer is whether the board is reset. *)
Definition main_start s m (b : board) : option (shell W * mem * board * bool) :=
  bootdelay ← boot_delay s m;
  '(m, b) ← default_bootcmd s m b;
  let s := set_con (ath_reg_rmw_set (con s) GPIO_OUT_ADDRESS MAIN_GPIO_OUT) s in
  '(s, m, reset) ← recovery s m;
  if reset : bool then Some (s, m, b, true) else
  '(s, m) ← autoboot s m bootdelay;
  Some (s, m, b, false).

(** ** The prompt *)

(** One round of the endless loop; [rc] is the result of the last command. *)
Definition prompt_round s m (rc : Z) : option (shell W * mem * Z) :=
  '(w, m, len) ← readline (console_buffer pl) (con s) m (lit_prompt pl);
  let s := set_con w s in
  '(m, flag) ← (
    if len >? 0 then m ← strcpy m (lastcommand pl) (console_buffer pl); Some (m, 0)
    else if len =? 0 then Some (m, CMD_FLAG_REPEAT)
    else Some (m, 0));
  '(s, m, rc) ← (if len =? -1 then Some (s, m, rc) else run s m (lastcommand pl) flag);
  m ← (if rc <=? 0 then st m (lastcommand pl) 0 else Some m);
  Some (s, m, rc).

(** ** The boot command is there

    [lit_default_bootcmd] is where the text [v] of the default is. *)
Lemma default_bootcmd_set s m b es v :
  let e := env_of s in
  env_rep e m es → cstr m (lit_bootcmd pl) (lit "bootcmd") → cstr m (lit_default_bootcmd pl) v → fits v →
  lit_default_bootcmd pl ≠ NULL →
  (lit_bootcmd pl + 8 ≤ env_ptr e ∨ env_ptr e + CFG_ENV_SIZE ≤ lit_bootcmd pl) →
  (lit_default_bootcmd pl + length v < env_ptr e ∨ env_ptr e + CFG_ENV_SIZE ≤ lit_default_bootcmd pl) →
  length (flat es) + (length v + 10) ≤ ENV_SIZE →
  let es' := match lookup_env (lit "bootcmd") es with
             | Some _ => es | None => es ++ [(lit "bootcmd", v)] end in
  ∃ m', default_bootcmd s m b = Some (m', b) ∧ env_rep e m' es' ∧
    same_out (env_ptr e) (env_ptr e + CFG_ENV_SIZE) m m'.
Proof.
  intros e He Hn Hv Hf Hnz Hd1 Hd2 Hfit es'.
  assert (Hq : 61 ∉ lit "bootcmd") by by apply not_in_lit.
  assert (Hfn : fits (lit "bootcmd")) by by vm_compute.
  pose proof (er_len _ _ _ He) as Hlen. pose proof (env_rep_base _ _ _ He) as Hbase.
  pose proof (er_pos _ _ _ He) as Hpos. unfold ENV_SIZE, CFG_ENV_SIZE, ENV_HEADER_SIZE in *.
  destruct (getenv_found e m es (lit_bootcmd pl) (lit "bootcmd")) as (p & Hg & Hp);
    [by apply env_rep_entries|unfold CFG_ENV_SIZE; lia|exact Hn|exact Hq|done|].
  unfold default_bootcmd. fold e. rewrite Hg, some_bind. unfold es'.
  destruct (lookup_env (lit "bootcmd") es) as [u|] eqn:El.
  - rewrite (proj2 (Z.eqb_neq p NULL)) by (unfold NULL; lia).
    exists m. split; [done|]. split; [done|apply same_out_refl].
  - subst p. change (NULL =? NULL) with true. cbv iota.
    destruct (do_setenv_plain e m b es (lit_bootcmd pl) (lit "bootcmd") (lit_setenv pl)
      [lit_default_bootcmd pl] [v]) as (m' & Hs & Hr & _ & Ho); try done.
    + apply Hn.
    + split; [repeat constructor; discriminate|discriminate].
    + by constructor; [|constructor].
    + change (length (lit "bootcmd")) with 7%nat. unfold CFG_ENV_SIZE. lia.
    + by constructor; [|constructor].
    + assert (Hnin : lit "bootcmd" ∉ names es) by by apply lookup_env_absent.
      unfold setenv_result in Hs, Hr. rewrite remove_env_absent in Hs, Hr by done.
      rewrite (proj2 (Z.leb_le _ _)) in Hs, Hr by
        (change (length (lit "bootcmd")) with 7%nat; unfold ENV_SIZE, CFG_ENV_SIZE, ENV_HEADER_SIZE;
         cbn [seps length]; rewrite app_nil_r; lia).
      exists m'. unfold setenv. change (2 + length [lit_default_bootcmd pl]) with 3 in Hs.
      change ([lit_setenv pl; lit_bootcmd pl; lit_default_bootcmd pl; NULL]) with
        (lit_setenv pl :: lit_bootcmd pl :: [lit_default_bootcmd pl] ++ [NULL]).
      rewrite Hs, some_bind. split; [done|]. split; [exact Hr|exact Ho].
Qed.
End main.
