(* ===== verification/Recovery.v ===== *)
(** * What the firmware recovery does to the flash

    [recovery_flash] of [Main] run through [run_command] of [Cmdline] with the
    commands [erase] and [cp] of [Flash], on the chip of [Spi]. *)

From S2P Require Import Prelude.
From S2P Require Import CString.
From S2P Require Import Vsprintf.
From S2P Require Import Env.
From S2P Require Import Spi.
From S2P Require Import Flash.
From S2P Require Import Cmdline.
From S2P Require Import Macro.
From S2P Require Import Shell.
From S2P Require Import Main.

(** ** Plain text *)

Definition plain_text (t : list Z) : bool :=
  forallb (λ c, (0 <? c) && (c <? 256) && negb (existsb (Z.eqb c) [36; 39; 59; 92])) t.

Lemma plain_text_ok t :
  plain_text t = true → Forall seg_ok (map Lit t) ∧ Forall bare_char t.
Proof.
  unfold plain_text. rewrite forallb_forall. intros Hx. split.
  - apply Forall_forall. intros g [c [<- Hc%Hx]]%in_map_iff. simpl in Hc. unfold seg_ok, plain_char, is_char. lia.
  - apply Forall_forall. intros c Hc%Hx. simpl in Hc. unfold bare_char. lia.
Qed.

Lemma line_text_lit t : line_text (map Lit t) = t.
Proof. induction t as [|c t IH]; [done|]. cbn. by f_equal. Qed.

Lemma line_meaning_lit es t : line_meaning es (map Lit t) = t.
Proof. induction t as [|c t IH]; [done|]. cbn. by f_equal. Qed.

Section reflash.
Context {W : Type} `{Console W} `{SpiFlash W}.
Context (table : list (cmd_tbl_s W)) (names : list (list Z)) (f : frame) (es : list entry).
Implicit Types (s : shell W) (m : mem).

(** The entries of the two commands ([U_BOOT_CMD] in [cmd_flash.c] and
    [cmd_mem.c]); [base_address] is 0. *)
Definition erase_entry (a u h : Z) (info : flash_info_t) : cmd_tbl_s W :=
  Cmd a 3 1 false (λ s m flag argc argv,
    '(w, m, r) ← do_flerase (con s) m info argc argv; Some (set_con w s, m, r)) u h.
Definition cp_entry (a u h : Z) (info : flash_info_t) : cmd_tbl_s W :=
  Cmd a 4 1 false (λ s m flag argc argv,
    '(w, m, r) ← do_mem_cp (con s) m info 0 argc argv; Some (set_con w s, m, r)) u h.

(** One plain command of a line. *)
Lemma run_token_plain s m p t rest flag argv rep rc :
  ready table names f es s m → cstr m p (t ++ rest) → cmdbuf f ≤ p →
  p + length t + length rest < cmdbuf f + 512 → plain_text t = true → t ≠ [] →
  (rest = [] ∨ ∃ r, rest = 59 :: r) → length argv = 17%nat →
  let p' := p + length t + (if rest is [] then 0 else 1) in
  ∃ m1 argv1, kept f m m1 ∧ ready table names f es s m1 ∧ args_in f m1 argv1 (words t) ∧
    cstr m1 p' (tail rest) ∧
    run_token table f (s, m, p, flag, argv, rep, rc) =
      dispatch table names s m1 p' flag argv1 rep rc (words t).
Proof.
  intros Hrd Hc Hp Hend Ht Hne Hrest Hargv. apply plain_text_ok in Ht as [Ht1 Ht2].
  pose proof (run_token_line table names f es s m p t rest (map Lit t) flag argv rep rc) as Hl.
  rewrite line_text_lit, line_meaning_lit in Hl. apply Hl; try done. lia.
Qed.

(** A command that succeeds. *)
Lemma dispatch_call s m str flag argv rep rc ws argc c s' m' :
  match ws with [] => None | w :: _ => lookup_cmd (base_name w) (zip table names) end = Some c →
  Z.min 16 (length ws) = argc → (argc >? maxargs c) = false → is_bootd c = false →
  cmd c s m flag argc argv = Some (s', m', 0) → had_ctrlc s' = 0 →
  dispatch table names s m str flag argv rep rc ws =
    Some (Next (s', m', str, flag, argv, Z.land rep (repeatable c), rc)).
Proof.
  intros Hl Hargc Hmax Hb Hcall Hh. unfold dispatch. destruct ws as [|w ws]; [done|]. rewrite Hl.
  unfold call_cmd. rewrite Hargc, Hmax, Hb. cbn [andb]. by rewrite Hcall, some_bind, Hh.
Qed.

(** The places of the arguments. *)
Lemma args_three m argv w0 w1 w2 :
  args_in f m argv [w0; w1; w2] → ∃ a0 a1 a2 r,
    argv = a0 :: a1 :: a2 :: r ∧ cstr m a0 w0 ∧ cstr m a1 w1 ∧ cstr m a2 w2 ∧ finaltoken f ≤ a2.
Proof.
  intros (_ & Ha & _).
  destruct (Ha 0%nat _ eq_refl) as (a0 & E0 & C0 & _); [lia|].
  destruct (Ha 1%nat _ eq_refl) as (a1 & E1 & C1 & _); [lia|].
  destruct (Ha 2%nat _ eq_refl) as (a2 & E2 & C2 & R2 & _); [lia|].
  destruct argv as [|b0 [|b1 [|b2 r]]]; [done..|]. simplify_eq/=. by exists a0, a1, a2, r.
Qed.

Lemma args_four m argv w0 w1 w2 w3 :
  args_in f m argv [w0; w1; w2; w3] → ∃ a0 a1 a2 a3 r,
    argv = a0 :: a1 :: a2 :: a3 :: r ∧ cstr m a0 w0 ∧ cstr m a1 w1 ∧ cstr m a2 w2 ∧ cstr m a3 w3.
Proof.
  intros (_ & Ha & _).
  destruct (Ha 0%nat _ eq_refl) as (a0 & E0 & C0 & _); [lia|].
  destruct (Ha 1%nat _ eq_refl) as (a1 & E1 & C1 & _); [lia|].
  destruct (Ha 2%nat _ eq_refl) as (a2 & E2 & C2 & _); [lia|].
  destruct (Ha 3%nat _ eq_refl) as (a3 & E3 & C3 & _); [lia|].
  destruct argv as [|b0 [|b1 [|b2 [|b3 r]]]]; [done..|]. simplify_eq/=. by exists a0, a1, a2, a3, r.
Qed.

Lemma erase_entry_call a u h info s m flag argv w :
  do_flerase (con s) m info 3 argv = Some (w, m, 0) →
  cmd (erase_entry a u h info) s m flag 3 argv = Some (set_con w s, m, 0).
Proof. intros E. unfold erase_entry, cmd. by rewrite E. Qed.

Lemma cp_entry_call a u h info s m flag argv w :
  do_mem_cp (con s) m info 0 4 argv = Some (w, m, 0) →
  cmd (cp_entry a u h info) s m flag 4 argv = Some (set_con w s, m, 0).
Proof. intros E. unfold cp_entry, cmd. by rewrite E. Qed.

(** The two lines of [main_loop] for 4 MB of flash: [boot] is the file that
    has the boot loader in front of the image. *)
Definition source_text (boot : bool) : list Z := lit (if boot then "0x80820200" else "0x80800000").
Definition source_addr (boot : bool) : Z := if boot then 0x80820200 else 0x80800000.
Definition file_bytes (boot : bool) : Z := if boot then 0x3e0200 else 0x3c0000.
Definition erase_text : list Z := lit "erase 0x9f020000 +3c0000".
Definition cp_text (boot : bool) : list Z :=
  lit " cp.b " ++ source_text boot ++ lit " 0x9f020000 3c0000".
Definition reflash_text (boot : bool) : list Z := erase_text ++ lit ";" ++ cp_text boot.

(** The flash as the board has it at the start of the recovery. *)
Record flash_ok (w : W) (info : flash_info_t) : Prop := FlashOk {
  fl_settled : settled (chip w);
  fl_geometry : geometry info;
  fl_count : sector_count info = 64;
  fl_unprotected : Forall (λ v, v = 0) (protect info)
}.

(** The image area holds the image, the rest is as it was. *)
Definition reflashed (w w' : W) (l : list Z) : Prop :=
  released (chip w') ∧
  (∀ i : nat, Z.of_nat i < 0x3c0000 → l !! i = Some (cells (chip w') (0x20000 + i))) ∧
  (∀ x, x < 0x20000 ∨ 0x3e0000 ≤ x → cells (chip w') x = cells (chip w) x).

(** What the two commands do once their arguments are there. *)
Lemma reflash_calls (w : W) info m1 argv1 :
  flash_ok w info → 0 < finaltoken f → args_in f m1 argv1 (words erase_text) →
  ∃ w1, do_flerase w m1 info 3 argv1 = Some (w1, m1, 0) ∧ ∀ boot m2 argv2 l,
    args_in f m2 argv2 (words (cp_text boot)) →
    bytes_at m2 (source_addr boot) l → Forall is_byte l → Z.of_nat (length l) = 0x3c0000 →
    ∃ w2, do_mem_cp w1 m2 info 0 4 argv2 = Some (w2, m2, 0) ∧ reflashed w w2 l.
Proof.
  intros [Hs Hg Hc Hp] Hpos Ha1.
  change (words erase_text) with [lit "erase"; lit "0x9f020000"; lit "+3c0000"] in Ha1.
  apply args_three in Ha1 as (a0 & a1 & a2 & r1 & -> & C0 & C1 & C2 & H2).
  destruct (reflash_commands w m1 info a0 a1 a2) as (w1 & E1 & Hr); [done..|unfold NULL; lia|done|].
  exists w1. rewrite do_flerase_take. split; [done|]. intros boot m2 argv2 l Ha2 Hl Hb Hlen.
  replace (words (cp_text boot)) with [lit "cp.b"; source_text boot; lit "0x9f020000"; lit "3c0000"]
    in Ha2 by (by destruct boot).
  apply args_four in Ha2 as (b0 & b1 & b2 & b3 & r2 & -> & D0 & D1 & D2 & D3).
  rewrite do_mem_cp_take. apply (Hr m2 _ (source_addr boot) l); [|destruct boot; unfold source_addr; lia|done..]. split; [done| | | |].
  - exists b0, (lit "cp.b"). split; [done|]. split; [done|]. by left.
  - exists b1, (source_text boot). split; [done|]. by destruct boot.
  - by exists b2, (lit "0x9f020000").
  - by exists b3, (lit "3c0000").
Qed.

(** The line as a whole. *)
Lemma reflash_line s m place info boot ea eu eh ca cu ch flag argv l :
  ready table names f es s m → cstr m place (reflash_text boot) → place ≠ NULL →
  (place + length (reflash_text boot) < cmdbuf f ∨ cmdbuf f + 512 ≤ place) →
  lookup_cmd (lit "erase") (zip table names) = Some (erase_entry ea eu eh info) →
  lookup_cmd (lit "cp") (zip table names) = Some (cp_entry ca cu ch info) →
  flash_ok (con s) info → length argv = 17%nat →
  bytes_at m (source_addr boot) l → Forall is_byte l → Z.of_nat (length l) = 0x3c0000 →
  clear_of f (source_addr boot) (source_addr boot + length l) →
  ∃ w' m', run_command table f argv s m place flag = Some (set_con w' (clear_ctrlc s), m', 1) ∧
    kept f m m' ∧ reflashed (con s) w' l.
Proof.
  intros Hrd Hc Hn Hd Her Hcp Hfl Hargv Hl Hb Hlen Hcl.
  destruct (run_command_start table names f es s m place (reflash_text boot) flag argv)
    as (m0 & -> & Hk0 & Hrd0 & Hc0); [done|done|by destruct boot|destruct boot; simpl; lia|done..|].
  destruct (run_token_plain (clear_ctrlc s) m0 (cmdbuf f) erase_text (lit ";" ++ cp_text boot)
    flag argv 1 0) as (m1 & argv1 & Hk1 & Hrd1 & Ha1 & Hc1 & E1);
    [done|done|lia|destruct boot; simpl; lia|done|done|right; by exists (cp_text boot)|done|].
  set (p1 := cmdbuf f + length erase_text + 1).
  change (cstr m1 p1 (cp_text boot)) in Hc1.
  change (run_token table f (clear_ctrlc s, m0, cmdbuf f, flag, argv, 1, 0) =
    dispatch table names (clear_ctrlc s) m1 p1 flag argv1 1 0 (words erase_text)) in E1.
  destruct (reflash_calls (con s) info m1 argv1 Hfl (rd_pos _ _ _ _ _ _ Hrd1) Ha1) as (w1 & F1 & Hcpc).
  rewrite (dispatch_call (clear_ctrlc s) m1 p1 flag argv1 1 0 (words erase_text) 3
    (erase_entry ea eu eh info) (set_con w1 (clear_ctrlc s)) m1) in E1;
    [|exact Her|done|done|done|by apply erase_entry_call|done].
  destruct (run_token_plain (set_con w1 (clear_ctrlc s)) m1 p1 (cp_text boot) [] flag argv1
    (Z.land 1 1) 0) as (m2 & argv2 & Hk2 & Hrd2 & Ha2 & Hc2 & E2);
    [by eapply ready_kept|by rewrite app_nil_r|unfold p1; lia|destruct boot; unfold p1; simpl; lia
    |destruct boot; reflexivity|destruct boot; discriminate|by left|exact (proj1 Ha1)|].
  assert (Hk : kept f m m2) by (do 2 (eapply kept_trans; [done|]); done).
  destruct (Hcpc boot m2 argv2 l Ha2) as (w2 & F2 & Hre); [by eapply kept_bytes|done|done|].
  rewrite (dispatch_call (set_con w1 (clear_ctrlc s)) m2 _ flag argv2 (Z.land 1 1) 0 (words (cp_text boot)) 4
    (cp_entry ca cu ch info) (set_con w2 (clear_ctrlc s)) m2) in E2;
    [|destruct boot; exact Hcp|by destruct boot|done|done
    |by apply (cp_entry_call ca cu ch info (set_con w1 (clear_ctrlc s)))|done].
  exists w2, m2. split; [|done]. eapply while_runs.
  - eapply runs_next; [exact E1|]. eapply runs_next; [exact E2|]. apply runs_done.
    by apply run_token_end.
  - done.
Qed.

(** The size of the uploaded file. *)
Lemma filesize_read s m pl t v :
  ready table names f es s m → cstr m (lit_filesize pl) (lit "filesize") →
  lookup_env (lit "filesize") es = Some t → fits t → strtoul_l t 16 = (v, []) →
  ∃ p, getenv (env_of s) m (lit_filesize pl) = Some p ∧
    (if negb (p =? NULL) then '(v, _) ← simple_strtoul m p 16; Some v else Some 0) = Some v.
Proof.
  intros Hrd Hc Hes Hf Hv. pose proof (rd_env_pos _ _ _ _ _ _ Hrd) as Hpos.
  destruct (getenv_found (env_of s) m es (lit_filesize pl) (lit "filesize")) as (p & E & Hp);
    [apply Hrd|apply Hrd|done|by apply not_in_lit|done|].
  rewrite Hes in Hp. destruct Hp as [Hr Hp]. exists p. split; [done|].
  rewrite (proj2 (Z.eqb_neq p NULL)) by (unfold NULL; lia). cbn [negb].
  by rewrite (simple_strtoul_cstr m p t 16 Hp Hf), Hv, some_bind.
Qed.

Definition same_product m : Prop :=
  ∃ id ver, ld32 m ORG_PRODUCT_ID_POS = Some id ∧ ld32 m UP_PRODUCT_ID_POS = Some id ∧
    ld32 m ORG_PRODUCT_VER_POS = Some ver ∧ ld32 m UP_PRODUCT_VER_POS = Some ver.

(** C1: ([recovery_flash]) an upload of the right product and of one of the
    two sizes is flashed: the line of the recovery goes through
    [run_command], which calls [erase] and then [cp.b]; afterwards the flash
    from 0x20000 to 0x3dffff holds exactly the image (behind the boot loader
    in the file, if it has one), the boot loader sectors below and the
    configuration and calibration sectors above are as they were, memory has
    changed only in the local arrays of [run_command], and the board is
    reset. *)
Theorem recovery_reflashes s m pl led led_on info boot ea eu eh ca cu ch argv t l :
  ready table names f es s m → flash_ok (con s) info → length argv = 17%nat →
  lookup_cmd (lit "erase") (zip table names) = Some (erase_entry ea eu eh info) →
  lookup_cmd (lit "cp") (zip table names) = Some (cp_entry ca cu ch info) →
  same_product m → cstr m (lit_filesize pl) (lit "filesize") →
  lookup_env (lit "filesize") es = Some t → fits t → strtoul_l t 16 = (file_bytes boot, []) →
  let place := if boot then lit_reflash_boot pl else lit_reflash pl in
  cstr m place (reflash_text boot) → place ≠ NULL →
  (place + length (reflash_text boot) < cmdbuf f ∨ cmdbuf f + 512 ≤ place) →
  bytes_at m (source_addr boot) l → Forall is_byte l → Z.of_nat (length l) = 0x3c0000 →
  clear_of f (source_addr boot) (source_addr boot + length l) →
  ∃ w' m', recovery_flash pl (run_command table f argv) led led_on s m =
      Some (set_con w' (clear_ctrlc s), m', true) ∧
    kept f m m' ∧ reflashed (con s) w' l.
Proof.
  intros Hrd Hfl Hargv Her Hcp (id & ver & I1 & I2 & I3 & I4) Hfs Hes Hf Hv place Hc Hn Hd
    Hl Hb Hlen Hcl.
  destruct (reflash_line s m place info boot ea eu eh ca cu ch 0 argv l) as (w' & m' & E & Hk & Hr); [done..|].
  exists w', m'. split; [|done]. unfold recovery_flash.
  rewrite I1, some_bind, I3, some_bind, I2, some_bind, I4, some_bind, !Z.eqb_refl. cbn [andb].
  destruct (filesize_read s m pl t _ Hrd Hfs Hes Hf Hv) as (p & -> & Hsize).
  rewrite some_bind, Hsize, some_bind.
  destruct boot; [change (file_bytes true =? 0x3c0000) with false; change (file_bytes true) with 0x3e0200
    |change (file_bytes false) with 0x3c0000]; rewrite Z.eqb_refl; cbv iota;
    subst place; by rewrite E, !some_bind.
Qed.

(** C37: ([recovery_flash]) an upload for another product is refused: no
    command is run, the indicator goes off and the board is not reset.  An
    upload of the right product with any other size runs no command either,
    but the board is reset. *)
Theorem recovery_refuses s m pl run led led_on t v id id' ver ver' :
  ready table names f es s m →
  ld32 m ORG_PRODUCT_ID_POS = Some id → ld32 m UP_PRODUCT_ID_POS = Some id' →
  ld32 m ORG_PRODUCT_VER_POS = Some ver → ld32 m UP_PRODUCT_VER_POS = Some ver' →
  cstr m (lit_filesize pl) (lit "filesize") →
  lookup_env (lit "filesize") es = Some t → fits t → strtoul_l t 16 = (v, []) →
  (id = id' → ver = ver' → v ≠ 0x3c0000 ∧ v ≠ 0x3e0200) →
  recovery_flash pl run led led_on s m =
    if decide (id = id' ∧ ver = ver') then Some (s, m, true)
    else Some (set_con (ath_fw_led_off (con s) led led_on) s, m, false).
Proof.
  intros Hrd I1 I2 I3 I4 Hfs Hes Hf Hv Hsz. unfold recovery_flash.
  rewrite I1, some_bind, I3, some_bind, I2, some_bind, I4, some_bind.
  destruct (decide (id = id' ∧ ver = ver')) as [[<- <-]|Hne].
  - destruct Hsz as [N1 N2]; [done|done|]. rewrite !Z.eqb_refl. cbn [andb].
    destruct (filesize_read s m pl t _ Hrd Hfs Hes Hf Hv) as (p & -> & Hsize).
    rewrite some_bind, Hsize, some_bind.
    by rewrite (proj2 (Z.eqb_neq v _) N1), (proj2 (Z.eqb_neq v _) N2).
  - replace ((id =? id') && (ver =? ver')) with false; [done|].
    symmetry. apply andb_false_iff. rewrite !Z.eqb_neq. lia.
Qed.
End reflash.

(** ** A board in recovery *)

#[export] Instance silent_nor : Console nor := {
  putc w _ := w;
  getc _ := None;
  tstc _ := false;
  get_ticks w := (0, w)
}.

Definition rec_env : list entry := [(lit "filesize", lit "3c0000")].
Definition rec_lits : list Z :=
  lit "erase" ++ [0] ++ lit "cp" ++ [0] ++ lit "filesize" ++ [0] ++ reflash_text false ++ [0].
Definition rec_frame : frame := Frame 0x1000 0x2000 0x3000.
Definition image : list Z := replicate (Z.to_nat 0x3c0000) 7.
Definition rec_block : mem := mem_of2 100 (flat rec_env ++ [0]) 200 rec_lits.
Definition rec_low : mem :=
  write_bytes (write_bytes (write_bytes rec_block 0x1000 zeros) 0x2000 zeros) 0x3000 zeros.
Definition rec_mem (product : list Z) : mem :=
  write_bytes (write_bytes rec_low ORG_PRODUCT_ID_POS product) 0x80800000 image.
Definition rec_shell : shell nor := Shell blank_nor 0 0 1 (Env 0 0 0 false 100 18).
Definition rec_table : list (cmd_tbl_s nor) :=
  [erase_entry 200 NULL NULL flash_get_geom; cp_entry 206 NULL NULL flash_get_geom].
Definition rec_names : list (list Z) := [lit "erase"; lit "cp"].
Definition rec_places : main_places :=
  MainPlaces 0 0 0 0 0 0 0 0 209 0 0 0 0 0 0 0 218 0 0 0 0 0 0.

Lemma rec_bytes product a l :
  a + length l ≤ 0x1000 → bytes_at rec_block a l → bytes_at (rec_mem product) a l.
Proof.
  intros Ha Hb. unfold rec_mem, rec_low.
  do 5 (apply bytes_at_write_disjoint; [left; unfold ORG_PRODUCT_ID_POS, ORG_FILE_BASE; lia|]).
  exact Hb.
Qed.

Lemma rec_cstr product (a : Z) l pre post :
  rec_lits = pre ++ (l ++ [0]) ++ post → a = 200 + length pre → Forall is_char l →
  cstr (rec_mem product) a l.
Proof.
  intros E -> Hl. split; [done|]. apply rec_bytes.
  - assert (Hlen : length (pre ++ (l ++ [0]) ++ post) = 78%nat) by by rewrite <- E.
    rewrite !length_app in *. lia.
  - unfold rec_block, mem_of2. rewrite E.
    pose proof (write_bytes_in (mem_of 100 (flat rec_env ++ [0])) 200 (pre ++ (l ++ [0]) ++ post)) as Hb.
    apply bytes_at_app in Hb as [_ Hb]. by apply bytes_at_app in Hb as [Hb _].
Qed.

Lemma rec_clear lo hi : hi ≤ 0x1000 ∨ 0x4000 ≤ lo → clear_of rec_frame lo hi.
Proof. intros Hh j Hj. unfold in_frame. simpl. lia. Qed.

Lemma rec_ready product : ready rec_table rec_names rec_frame rec_env rec_shell (rec_mem product).
Proof.
  split; cbn [cmdbuf finaltoken envname rec_frame].
  - unfold rec_mem, rec_low. do 4 apply owned_write. apply zeros_owned.
  - unfold rec_mem, rec_low. do 3 apply owned_write. apply zeros_owned.
  - unfold rec_mem, rec_low. do 2 apply owned_write. apply zeros_owned.
  - unfold two_apart. lia.
  - lia.
  - split; [|constructor; [|constructor]].
    + apply rec_bytes; [vm_compute; discriminate|].
      apply bytes_at_mem_of2. right. vm_compute. discriminate.
    + split; [chars|]. split; [chars|by apply not_in_lit].
  - reflexivity.
  - reflexivity.
  - apply rec_clear. left. vm_compute. discriminate.
  - repeat (constructor; [split; [|reflexivity]|]); [| |constructor].
    + apply (rec_cstr _ 200 (lit "erase") [] (drop 6 rec_lits)); [reflexivity|reflexivity|chars].
    + apply (rec_cstr _ 206 (lit "cp") (take 6 rec_lits) (drop 9 rec_lits)); [reflexivity|reflexivity|chars].
  - repeat (constructor; [apply rec_clear; left; vm_compute; discriminate|]). constructor.
Qed.

(** Two words next to each other. *)
Lemma ld32_two m p a b c d a' b' c' d' :
  bytes_at m p [a; b; c; d; a'; b'; c'; d'] →
  ld32 m p = Some (be32 a b c d) ∧ ld32 m (p + 4) = Some (be32 a' b' c' d').
Proof. intros [H1 H2]%(bytes_at_app _ _ [a; b; c; d]). split; by apply ld32_at. Qed.

Lemma image_length : Z.of_nat (length image) = 0x3c0000.
Proof. unfold image. rewrite length_replicate, Z2Nat.id; lia. Qed.

Lemma replicate_split (N n : nat) (x : Z) : (n ≤ N)%nat → ∃ r, replicate N x = replicate n x ++ r.
Proof. intros Hn. exists (replicate (N - n) x). rewrite <- replicate_add. f_equal. lia. Qed.

Lemma image_split (n : nat) : Z.of_nat n ≤ 0x3c0000 → ∃ r, image = replicate n 7 ++ r.
Proof. intros Hn. apply replicate_split. apply Nat2Z.inj_le. by rewrite Z2Nat.id. Qed.

Lemma rec_org product : bytes_at (rec_mem product) ORG_PRODUCT_ID_POS product.
Proof.
  unfold rec_mem. apply bytes_at_write_disjoint; [right|apply write_bytes_in].
  rewrite image_length. unfold ORG_PRODUCT_ID_POS, ORG_FILE_BASE. lia.
Qed.

Lemma rec_image product : bytes_at (rec_mem product) 0x80800000 image.
Proof. unfold rec_mem. apply write_bytes_in. Qed.

Lemma rec_up product :
  ld32 (rec_mem product) UP_PRODUCT_ID_POS = Some 0x07070707 ∧
  ld32 (rec_mem product) UP_PRODUCT_VER_POS = Some 0x07070707.
Proof.
  pose proof (rec_image product) as Hb. revert Hb. generalize (rec_mem product). intros m Hb.
  destruct (image_split (64 + 8)) as [r E]; [lia|]. rewrite E, replicate_add, <- app_assoc in Hb.
  apply bytes_at_app in Hb as [_ Hb]. apply bytes_at_app in Hb as [Hb _].
  exact (ld32_two m UP_PRODUCT_ID_POS 7 7 7 7 7 7 7 7 Hb).
Qed.

Lemma rec_same : same_product (rec_mem (replicate 8 7)).
Proof.
  pose proof (rec_org (replicate 8 7)) as Ho. destruct (rec_up (replicate 8 7)) as [H3 H4].
  revert Ho H3 H4. generalize (rec_mem (replicate 8 7)). intros m Ho H3 H4.
  destruct (ld32_two m _ 7 7 7 7 7 7 7 7 Ho) as [H1 H2].
  by exists 0x07070707, 0x07070707.
Qed.

Lemma rec_other :
  let m := rec_mem [7; 7; 7; 7; 7; 7; 7; 8] in
  ld32 m ORG_PRODUCT_ID_POS = Some 0x07070707 ∧ ld32 m ORG_PRODUCT_VER_POS = Some 0x07070708.
Proof.
  intros m. pose proof (rec_org [7; 7; 7; 7; 7; 7; 7; 8]) as Ho. fold m in Ho. clearbody m.
  exact (ld32_two m _ 7 7 7 7 7 7 7 8 Ho).
Qed.

Lemma rec_filesize product : cstr (rec_mem product) 209 (lit "filesize").
Proof.
  apply (rec_cstr _ 209 (lit "filesize") (take 9 rec_lits) (drop 18 rec_lits)); [reflexivity..|chars].
Qed.

Lemma rec_line product : cstr (rec_mem product) 218 (reflash_text false).
Proof. apply (rec_cstr _ 218 (reflash_text false) (take 18 rec_lits) []); [reflexivity|reflexivity|chars]. Qed.

Lemma recovery_reflashes_witness :
  let m := rec_mem (replicate 8 7) in
  ∃ w' m', recovery_flash rec_places (run_command rec_table rec_frame (replicate 17 0)) 0 0 rec_shell m =
      Some (set_con w' rec_shell, m', true) ∧
    kept rec_frame m m' ∧ reflashed blank_nor w' image.
Proof.
  intros m.
  apply (recovery_reflashes rec_table rec_names rec_frame rec_env rec_shell m rec_places 0 0
    flash_get_geom false 200 NULL NULL 206 NULL NULL (replicate 17 0) (lit "3c0000") image).
  - apply rec_ready.
  - split; [exact blank_settled|apply get_geom_geometry|reflexivity|].
    apply Forall_forall. intros v Hv. apply in_map_iff in Hv as (? & <- & _). reflexivity.
  - reflexivity.
  - reflexivity.
  - reflexivity.
  - exact rec_same.
  - apply rec_filesize.
  - reflexivity.
  - reflexivity.
  - reflexivity.
  - exact (rec_line _).
  - discriminate.
  - left. vm_compute. reflexivity.
  - exact (rec_image _).
  - apply Forall_replicate. unfold is_byte. lia.
  - exact image_length.
  - apply rec_clear. right. unfold source_addr. lia.
Defined.

Lemma recovery_refuses_witness :
  let m := rec_mem [7; 7; 7; 7; 7; 7; 7; 8] in
  recovery_flash rec_places (λ s m _ _, None) 0 0 rec_shell m =
    Some (set_con (ath_fw_led_off blank_nor 0 0) rec_shell, m, false).
Proof.
  intros m. destruct rec_other as [H1 H2]. destruct (rec_up [7; 7; 7; 7; 7; 7; 7; 8]) as [H3 H4].
  apply (recovery_refuses rec_table rec_names rec_frame rec_env rec_shell m
    rec_places _ 0 0 (lit "3c0000") 0x3c0000 0x07070707 0x07070707 0x07070708 0x07070707).
  - apply rec_ready.
  - exact H1.
  - exact H3.
  - exact H2.
  - exact H4.
  - exact (rec_filesize _).
  - reflexivity.
  - reflexivity.
  - reflexivity.
  - intros _ E. discriminate E.
Defined.
