(* ===== verification/Lists.v ===== *)
(** * The handle-based lists ([common/lists.c], [common/devices.c])

    A list of items of one size in a block that grows by [realloc].  The words
    of the two headers ([HandleRecord], [ListStruct]) are records, the items
    are bytes in the memory of the prelude behind the header.  The allocator
    of [common/dlmalloc.c] is behind the interface [Heap].  Only the functions
    this board compiles are here ([CFG_ALL_LIST_FUNCTIONS] is not set). *)

From S2P Require Import Prelude.
From S2P Require Import CString.

(** The allocator: state, memory and, for the first two, a place or [NULL]. *)
Class Heap (A : Type) := {
  malloc : A → mem → Z → A * mem * Z;
  realloc : A → mem → Z → Z → A * mem * Z;
  free : A → mem → Z → A * mem
}.

Definition LIST_START : Z := -1.
Definition LIST_END : Z := 0.
Definition kDefaultAllocationPercentIncrease : Z := 10.
Definition kDefaultAllocationminNumItemsIncrease : Z := 4.
Definition LIST_SIGNATURE : Z := 0x4c495354.
Definition sizeof_ListStruct : Z := 28.
Definition sizeof_HandleRecord : Z := 8.
Definition itemList_offset : Z := 24.

Record HandleRecord := Handle { ptr : Z; size : Z }.

Record ListStruct := List_ {
  signature : Z;
  percentIncrease : Z;
  minNumItemsIncrease : Z;
  listSize : Z;
  itemSize : Z;
  numItems : Z
}.

(** A handle that is not [NULL], with the header at its place. *)
Record list_t := ListT { handle : Z; hrec : HandleRecord; body : ListStruct }.

Definition set_listSize (n : Z) (l : list_t) : list_t :=
  let b := body l in
  ListT (handle l) (hrec l) (List_ (signature b) (percentIncrease b) (minNumItemsIncrease b) n
    (itemSize b) (numItems b)).
Definition set_numItems (n : Z) (l : list_t) : list_t :=
  let b := body l in
  ListT (handle l) (hrec l) (List_ (signature b) (percentIncrease b) (minNumItemsIncrease b)
    (listSize b) (itemSize b) n).

(** [ITEMPTR] *)
Definition item_ptr (l : list_t) (item : Z) : Z :=
  ptr (hrec l) + itemList_offset + s32 (itemSize (body l) * item).

(** [NUMITEMSPERALLOC] *)
Definition num_items_per_alloc (b : ListStruct) : Z :=
  let grown := Z.quot (s32 (listSize b * s32 (percentIncrease b + 100))) 100 in
  if grown >? minNumItemsIncrease b then grown else minNumItemsIncrease b.

Section lists.
Context {A : Type} `{Heap A}.
Implicit Types (a : A) (m : mem) (l : list_t).

(** [calloc] is a macro for [malloc]: the block is not cleared. *)
Definition NewHandle a m (numBytes : Z) : A * mem * option (Z * HandleRecord) :=
  let '(a, m, memPtr) := malloc a m numBytes in
  let '(a, m, hanPtr) := malloc a m sizeof_HandleRecord in
  if negb (hanPtr =? NULL) && (negb (memPtr =? NULL) || (numBytes =? 0)) then
    (a, m, Some (hanPtr, Handle memPtr numBytes))
  else
    let '(a, m) := free a m memPtr in
    let '(a, m) := free a m hanPtr in
    (a, m, None).

Definition DisposeHandle a m (h : option (Z * HandleRecord)) : A * mem :=
  match h with
  | Some (place, h) => let '(a, m) := free a m (ptr h) in free a m place
  | None => (a, m)
  end.

Definition GetHandleSize (h : HandleRecord) : Z := size h.

Definition SetHandleSize a m (h : HandleRecord) (newSize : Z)
    : option (A * mem * HandleRecord * Z) :=
  if size h =? newSize then Some (a, m, h, 1) else
  let '(a, m, newPtr) :=
    if ptr h =? NULL then malloc a m newSize else realloc a m (ptr h) newSize in
  if negb (newPtr =? NULL) || (newSize =? 0) then
    m ← (if newSize >? size h then memset m (newPtr + size h) 0 (newSize - size h) else Some m);
    Some (a, m, Handle newPtr newSize, 1)
  else Some (a, m, h, 0).

Definition ExpandListSpace a m l (numNewItems : Z) : option (A * mem * list_t * Z) :=
  let numNewItems :=
    if numNewItems =? 0 then num_items_per_alloc (body l)
    else if numNewItems <? 0 then s32 (- numNewItems + num_items_per_alloc (body l))
    else numNewItems in
  '(a, m, h, r) ← SetHandleSize a m (hrec l)
    (u32 (sizeof_ListStruct + s32 (s32 (listSize (body l) + numNewItems) * itemSize (body l))));
  let l := ListT (handle l) h (body l) in
  if negb (r =? 0) then Some (a, m, set_listSize (s32 (listSize (body l) + numNewItems)) l, 1)
  else Some (a, m, l, 0).

Definition ListCreate a m (elementSize : Z) : A * mem * option list_t :=
  let '(a, m, h) := NewHandle a m sizeof_ListStruct in
  match h with
  | Some (place, h) =>
      (a, m, Some (ListT place h (List_ LIST_SIGNATURE kDefaultAllocationPercentIncrease
        kDefaultAllocationminNumItemsIncrease 0 elementSize 0)))
  | None => (a, m, None)
  end.

Definition ListSetAllocationPolicy l (minItemsPerAlloc percentIncreasePerAlloc : Z) : list_t :=
  let b := body l in
  ListT (handle l) (hrec l) (List_ (signature b) percentIncreasePerAlloc minItemsPerAlloc
    (listSize b) (itemSize b) (numItems b)).

Definition ListDispose a m (l : option list_t) : A * mem :=
  DisposeHandle a m (match l with Some l => Some (handle l, hrec l) | None => None end).

(** The items come from [src], or are zero when it is [NULL]. *)
Definition put_items (copy : mem → Z → Z → Z → option mem) m l (item src n : Z) : option mem :=
  if negb (src =? NULL) then copy m (item_ptr l item) src (u32 (s32 (itemSize (body l) * n)))
  else memset m (item_ptr l item) 0 (u32 (s32 (itemSize (body l) * n))).

Definition ListInsertItems a m l (ptrToItems firstItemPosition numItemsToInsert : Z)
    : option (A * mem * list_t * Z) :=
  let n := numItems (body l) in
  if negb (firstItemPosition =? n + 1) && (firstItemPosition >? n) then Some (a, m, l, 0) else
  let firstItemPosition := if firstItemPosition =? n + 1 then LIST_END else firstItemPosition in
  '(a, m, l, ok) ← (if n >=? listSize (body l) then ExpandListSpace a m l (- numItemsToInsert)
    else Some (a, m, l, 1));
  if ok =? 0 then Some (a, m, l, 0) else
  let firstItemPosition :=
    if firstItemPosition =? LIST_START then (if n =? 0 then LIST_END else 1)
    else firstItemPosition in
  m ← (
    if firstItemPosition =? LIST_END then put_items memcpy m l n ptrToItems numItemsToInsert
    else
      m ← memmove m (item_ptr l (firstItemPosition - 1 + numItemsToInsert))
        (item_ptr l (firstItemPosition - 1))
        (u32 (s32 ((n + 1 - firstItemPosition) * itemSize (body l))));
      put_items memmove m l (firstItemPosition - 1) ptrToItems numItemsToInsert);
  Some (a, m, set_numItems (s32 (n + numItemsToInsert)) l, 1).

Definition ListInsertItem a m l (ptrToItem itemPosition : Z) : option (A * mem * list_t * Z) :=
  ListInsertItems a m l ptrToItem itemPosition 1.

Definition ListGetItems m l (itemsDestination firstItemPosition numItemsToGet : Z) : option mem :=
  let firstItemPosition :=
    if firstItemPosition =? LIST_START then 1
    else if firstItemPosition =? LIST_END then numItems (body l) else firstItemPosition in
  memcpy m itemsDestination (item_ptr l (firstItemPosition - 1))
    (u32 (s32 (itemSize (body l) * numItemsToGet))).

Definition ListGetPtrToItem l (itemPosition : Z) : Z :=
  let itemPosition :=
    if itemPosition =? LIST_START then 1
    else if itemPosition =? LIST_END then numItems (body l) else itemPosition in
  item_ptr l (itemPosition - 1).

Definition ListGetDataPtr l : Z := ptr (hrec l) + itemList_offset.
Definition ListGetItemSize l : Z := itemSize (body l).
Definition ListNumItems l : Z := numItems (body l).

(** ** The device list *)

Definition sizeof_device_t : Z := 52.

(** The answer of [ListInsertItem] is dropped. *)
Definition device_register a m (devlist : list_t) (dev : Z) : option (A * mem * list_t * Z) :=
  '(a, m, devlist, _) ← ListInsertItem a m devlist dev LIST_END;
  Some (a, m, devlist, 0).
End lists.

(** ** What the allocator promises *)

(** [block a m p n]: [n] bytes at [p] are allotted.  The heap is an area that
    nobody else writes; who writes into a block keeps all blocks; an operation
    of the heap keeps the other blocks with their contents; [realloc] keeps
    what fits, and everything when it fails.  [serves a m ns]: the next
    requests are served if they are at most of these sizes. *)
Class HeapLaws (A : Type) `{Heap A} := {
  heap_lo : Z;
  heap_hi : Z;
  block : A → mem → Z → Z → Prop;
  block_owned a m p n : block a m p n → owned m p n ∧ 0 < p ∧ heap_lo ≤ p ∧ p + n ≤ heap_hi;
  block_apart a m p n p' n' : block a m p n → block a m p' n' → p ≠ p' → apart (p, n) (p', n');
  block_changed a m m' p n lo hi :
    block a m p n → changed lo hi m m' →
    (∃ p0 n0, block a m p0 n0 ∧ p0 ≤ lo ∧ hi ≤ p0 + n0) ∨ hi ≤ heap_lo ∨ heap_hi ≤ lo →
    block a m' p n;
  malloc_spec a m n a' m' q :
    0 < n → owned m heap_lo (heap_hi - heap_lo) → malloc a m n = (a', m', q) →
      changed heap_lo heap_hi m m' ∧ (q ≠ NULL → block a' m' q n) ∧
      ∀ p k, block a m p k → block a' m' p k ∧ p ≠ q ∧ ∀ j, p ≤ j < p + k → m' !! j = m !! j;
  realloc_spec a m p n k a' m' q :
    block a m p n → 0 < k → realloc a m p k = (a', m', q) → changed heap_lo heap_hi m m' ∧
      (q = NULL → block a' m' p n ∧
        ∀ i l, 0 ≤ i → i + length l ≤ n → bytes_at m (p + i) l → bytes_at m' (p + i) l) ∧
      (q ≠ NULL → block a' m' q k ∧
        ∀ i l, 0 ≤ i → i + length l ≤ Z.min n k → bytes_at m (p + i) l → bytes_at m' (q + i) l) ∧
      ∀ p' n', block a m p' n' → p' ≠ p →
        block a' m' p' n' ∧ p' ≠ q ∧ ∀ j, p' ≤ j < p' + n' → m' !! j = m !! j;
  serves : A → mem → list Z → Prop;
  serves_malloc (a : A) m n0 ns n a' m' q :
    serves a m (n0 :: ns) → 0 < n ≤ n0 → malloc a m n = (a', m', q) → q ≠ NULL ∧ serves a' m' ns;
  serves_realloc (a : A) m n0 ns p k n a' m' q :
    serves a m (n0 :: ns) → block a m p k → 0 < n ≤ n0 → realloc a m p n = (a', m', q) →
      q ≠ NULL ∧ serves a' m' ns;
  serves_changed (a : A) m m' ns lo hi :
    serves a m ns → changed lo hi m m' →
    (∃ p0 n0, block a m p0 n0 ∧ p0 ≤ lo ∧ hi ≤ p0 + n0) ∨ hi ≤ heap_lo ∨ heap_hi ≤ lo →
    serves a m' ns
}.

Section laws.
Context {A : Type} `{HeapLaws A}.
Implicit Types (a : A) (m : mem) (l : list_t) (items new : list (list Z)).

(** The blocks other than the one at [q] are kept, and not the one at [q']. *)
Definition others_kept a m a' m' (q q' : Z) : Prop :=
  ∀ p k, block a m p k → p ≠ q → block a' m' p k ∧ p ≠ q' ∧ ∀ j, p ≤ j < p + k → m' !! j = m !! j.

Lemma others_refl a m q : others_kept a m a m q q.
Proof. intros p k Hb Hp. done. Qed.

Lemma others_trans a1 m1 a2 m2 a3 m3 q1 q2 q3 :
  others_kept a1 m1 a2 m2 q1 q2 → others_kept a2 m2 a3 m3 q2 q3 → others_kept a1 m1 a3 m3 q1 q3.
Proof.
  intros H1 H2 p k Hb Hp. destruct (H1 p k Hb Hp) as (Hb2 & Hp2 & E2).
  destruct (H2 p k Hb2 Hp2) as (Hb3 & Hp3 & E3). split; [done|]. split; [done|].
  intros j Hj. by rewrite E3, E2.
Qed.

(** Writing inside the block at [q]. *)
Lemma others_changed a m m' q n lo hi :
  block a m q n → changed lo hi m m' → q ≤ lo → hi ≤ q + n → others_kept a m a m' q q.
Proof.
  intros Hq Hc Hlo Hhi p k Hb Hp. split; [|split; [done|]].
  - eapply block_changed; [done|exact Hc|]. left. by exists q, n.
  - intros j Hj. apply Hc. pose proof (block_apart _ _ _ _ _ _ Hq Hb ltac:(done)) as Ha.
    unfold apart in Ha. cbn in Ha. lia.
Qed.

(** The block has the size the header tells. *)
Record list_block a m l : Prop := ListBlock {
  lr_block : block a m (ptr (hrec l)) (size (hrec l));
  lr_size : size (hrec l) = sizeof_ListStruct + listSize (body l) * itemSize (body l);
  lr_item : 0 < itemSize (body l)
}.

(** The list stands for [items]. *)
Record list_rep a m l items : Prop := ListRep {
  lr_list : list_block a m l;
  lr_count : numItems (body l) = length items;
  lr_room : numItems (body l) ≤ listSize (body l);
  lr_items : Forall (λ it, Z.of_nat (length it) = itemSize (body l) ∧ Forall is_byte it) items;
  lr_data : bytes_at m (ptr (hrec l) + itemList_offset) (concat items);
  lr_policy : 0 ≤ percentIncrease (body l) ∧ 0 < minNumItemsIncrease (body l)
}.

Lemma length_items (sz : Z) items :
  Forall (λ it, Z.of_nat (length it) = sz ∧ Forall is_byte it) items →
  Z.of_nat (length (concat items)) = length items * sz ∧ Forall is_byte (concat items).
Proof.
  induction 1 as [|it items [Hl Hb] Hi [IH1 IH2]]; [done|]. cbn [concat length].
  rewrite length_app. split; [lia|by apply Forall_app].
Qed.

(** No arithmetic wraps as long as the block stays below 2 GiB. *)
Definition roomy l (k : Z) : Prop :=
  let b := body l in
  let n := listSize b + (k + num_items_per_alloc b) in
  sizeof_ListStruct + n * itemSize b < 2147483648 ∧ 0 < k ∧
  0 < num_items_per_alloc b.

(** The size of the block with room for [k] items more. *)
Definition grown_size l (k : Z) : Z :=
  sizeof_ListStruct + (listSize (body l) + (k + num_items_per_alloc (body l))) * itemSize (body l).

(** The heap has room for the list. *)
Definition grows a m l (k : Z) a' m' (r : Z) : Prop :=
  ∀ n ns, serves a m (n :: ns) → grown_size l k ≤ n → r = 1 ∧ serves a' m' ns.

(** Growing by [k] items and by what the policy says. *)
Lemma expand_spec a m l items k :
  list_rep a m l items → roomy l k →
  ∃ a' m' l' r, ExpandListSpace a m l (- k) = Some (a', m', l', r) ∧
    changed heap_lo heap_hi m m' ∧ others_kept a m a' m' (ptr (hrec l)) (ptr (hrec l')) ∧
    list_rep a' m' l' items ∧ grows a m l k a' m' r ∧
    itemSize (body l') = itemSize (body l) ∧
    (r = 0 ∨ r = 1 ∧ listSize (body l') = listSize (body l) + (k + num_items_per_alloc (body l))).
Proof.
  intros [[] ] (Hr1 & Hk & Hg). unfold ExpandListSpace, sizeof_ListStruct in *.
  rewrite (proj2 (Z.eqb_neq (- k) 0)), (proj2 (Z.ltb_lt (- k) 0)) by lia.
  rewrite Z.opp_involutive. set (g := num_items_per_alloc (body l)) in *.
  assert (0 ≤ listSize (body l)) by lia.
  assert (Hn : listSize (body l) + (k + g) ≤ (listSize (body l) + (k + g)) * itemSize (body l)) by nia.
  rewrite (s32_small (k + g)) by lia. set (n := listSize (body l) + (k + g)) in *.
  rewrite (s32_small n), (s32_small (n * _)), u32_small by lia.
  unfold SetHandleSize.
  assert (Hpos : size (hrec l) < 28 + n * itemSize (body l)) by (unfold n; nia).
  rewrite (proj2 (Z.eqb_neq (size (hrec l)) _)) by lia.
  destruct (block_owned _ _ _ _ lr_block0) as (Hown & Hp & Hlo & Hhi).
  rewrite (proj2 (Z.eqb_neq (ptr (hrec l)) NULL)) by (unfold NULL; lia).
  destruct (realloc a m (ptr (hrec l)) (28 + n * itemSize (body l))) as [[a' m'] q] eqn:E.
  pose proof lr_block0 as Hblk0.
  assert (Hroom : ∀ n0 ns, serves a m (n0 :: ns) → grown_size l k ≤ n0 → q ≠ NULL ∧ serves a' m' ns).
  { intros n0 ns Hs Hn0. eapply serves_realloc; [exact Hs|exact Hblk0| |exact E].
    unfold grown_size, sizeof_ListStruct in Hn0. fold g n in Hn0. lia. }
  eapply realloc_spec in E as (Hch & Hfail & Hok & Hoth); [|done|lia].
  destruct (length_items (itemSize (body l)) items lr_items0) as [Hlen _].
  assert (Hle : 24 + length (concat items) ≤ size (hrec l)) by nia.
  rewrite (proj2 (Z.eqb_neq (28 + _) 0)) by lia. rewrite orb_false_r.
  destruct (Z.eqb_spec q NULL) as [Eq|Hq]; cbn [negb].
  - destruct (Hfail Eq) as [Hb Hd]. rewrite some_bind. cbn [negb Z.eqb].
    eexists a', m', _, 0. split; [reflexivity|]. split; [done|]. split; [|split; [|split; [|split; [done|by left]]]].
    { intros p' n' Hb' Hp'. cbn [hrec]. destruct (Hoth p' n' Hb' Hp') as (K1 & _ & K2). done. }
    { split; [split|..]; cbn [hrec body]; try done. apply Hd; [unfold itemList_offset; lia|done|done]. }
    intros n0 ns Hs Hn0. by destruct (Hroom n0 ns Hs Hn0) as [Hq0 _].
  - destruct (Hok Hq) as [Hb Hd].
    rewrite Z.gtb_ltb, (proj2 (Z.ltb_lt (size (hrec l)) _)) by lia.
    destruct (block_owned _ _ _ _ Hb) as (Hown' & Hq0 & Hlo' & Hhi').
    set (z := 28 + n * itemSize (body l)) in *.
    pose proof (memset_bytes m' (q + size (hrec l)) 0 (Z.to_nat (z - size (hrec l)))) as Hset.
    rewrite Z2Nat.id in Hset by lia. rewrite Hset, !some_bind; [|eapply owned_mono; [exact Hown'|lia|lia]|lia].
    set (w := replicate _ _). assert (Hw : Z.of_nat (length w) = z - size (hrec l))
      by (unfold w; rewrite length_replicate; lia).
    assert (Hcw : changed (q + size (hrec l)) (q + z) m' (write_bytes m' (q + size (hrec l)) w))
      by (apply changed_write; lia).
    cbn [negb Z.eqb]. eexists a', _, _, 1. split; [reflexivity|].
    split; [|split; [|split; [|split; [|split; [done|right; split; [done|]]]]]].
    5: { cbn [set_listSize body listSize]. fold n. by rewrite s32_small by lia. }
    { eapply changed_trans; [done|]. eapply changed_mono; [done|lia|lia]. }
    { cbn [set_listSize hrec ptr]. eapply others_trans; [exact Hoth|].
      eapply others_changed; [exact Hb|exact Hcw|lia|lia]. }
    2: { intros n0 ns Hs Hn0. destruct (Hroom n0 ns Hs Hn0) as [_ Hs']. split; [done|].
         eapply serves_changed; [exact Hs'|exact Hcw|]. left. exists q, z. split; [done|]. lia. }
    split; [split|..]; cbn [hrec body set_listSize listSize itemSize numItems percentIncrease
      minNumItemsIncrease ptr size]; try done; fold n; rewrite ?(s32_small n) by lia;
      [|done|unfold n; lia|].
    + eapply block_changed; [done|exact Hcw|]. left. exists q, z. split; [done|]. lia.
    + eapply changed_bytes; [done| |]; [unfold itemList_offset; lia|].
      apply Hd; [unfold itemList_offset; lia|unfold itemList_offset; lia|done].
Qed.

(** Where the items are. *)
Definition items_at l : Z := ptr (hrec l) + itemList_offset.

(** The items [new] are at [src], or [src] is [NULL] and they are zero. *)
Definition given m (src : Z) new : Prop :=
  src ≠ NULL ∧ bytes_at m src (concat new) ∧
    (src + length (concat new) ≤ heap_lo ∨ heap_hi ≤ src) ∨
  src = NULL ∧ Forall (λ x, x = 0) (concat new).

Lemma given_changed m m' src new lo hi :
  given m src new → changed lo hi m m' → heap_lo ≤ lo → hi ≤ heap_hi → given m' src new.
Proof.
  intros [(Hn & Hb & Hd)|Hz] Hc Hlo Hhi; [left|by right]. split; [done|]. split; [|done].
  eapply changed_bytes; [exact Hc| |done]. lia.
Qed.

Lemma all_zero (x : list Z) : Forall (λ x, x = 0) x → x = replicate (length x) 0.
Proof. induction 1 as [|y x -> Hx IH]; [done|]. simpl. by f_equal. Qed.

Lemma item_ptr_at l a m (i : Z) :
  list_block a m l → size (hrec l) < 2147483648 → 0 ≤ i ≤ listSize (body l) →
  item_ptr l i = items_at l + i * itemSize (body l) ∧
  i * itemSize (body l) ≤ listSize (body l) * itemSize (body l) < 2147483648.
Proof.
  intros [] Hb Hi. unfold item_ptr, items_at. unfold sizeof_ListStruct in *.
  assert (i * itemSize (body l) ≤ listSize (body l) * itemSize (body l)) by nia.
  assert (0 ≤ i * itemSize (body l)) by nia. rewrite s32_small by lia. split; lia.
Qed.

(** The new items arrive. *)
Lemma put_items_spec copy a m l new src (i : Z) :
  copy = memcpy ∨ copy = memmove → list_block a m l → size (hrec l) < 2147483648 →
  Forall (λ it, Z.of_nat (length it) = itemSize (body l) ∧ Forall is_byte it) new →
  given m src new → 0 ≤ i → i + length new ≤ listSize (body l) →
  put_items copy m l i src (length new) =
    Some (write_bytes m (items_at l + i * itemSize (body l)) (concat new)).
Proof.
  intros Hcopy Hrep Hb Hnew Hgiv Hi Hroom. destruct (length_items _ _ Hnew) as [Hlen Hby].
  destruct (item_ptr_at l a m i Hrep Hb) as [Hp Hle]; [lia|].
  destruct Hrep as []. destruct (block_owned _ _ _ _ lr_block0) as (Hown & Hp0 & Hlo & Hhi).
  unfold put_items, sizeof_ListStruct, items_at, itemList_offset in *.
  assert (Hend : i * itemSize (body l) + length (concat new) ≤ listSize (body l) * itemSize (body l))
    by (rewrite Hlen; nia).
  assert (0 ≤ i * itemSize (body l)) by nia.
  rewrite (Z.mul_comm (itemSize (body l))), <- Hlen, Hp.
  rewrite s32_small, u32_small by lia.
  assert (Ho : owned m (ptr (hrec l) + 24 + i * itemSize (body l)) (length (concat new)))
    by (eapply owned_mono; [exact Hown|lia|lia]).
  assert (Hf : fits (concat new)) by (unfold fits; lia).
  destruct Hgiv as [(Hn & Hbs & Hd)|[-> Hz]].
  - rewrite (proj2 (Z.eqb_neq src NULL)) by done. cbn [negb].
    destruct Hcopy as [->| ->]; [apply memcpy_bytes; (done || lia)|by apply memmove_bytes].
  - cbn [negb Z.eqb NULL]. rewrite memset_bytes by (done || lia).
    change (u8 0) with 0. by rewrite <- all_zero.
Qed.

(** The header and the items after a change of the items. *)
Lemma rep_items a m m' l items items' (k : Z) :
  list_rep a m l items → changed (items_at l) (ptr (hrec l) + size (hrec l)) m m' →
  Forall (λ it, Z.of_nat (length it) = itemSize (body l) ∧ Forall is_byte it) items' →
  k = Z.of_nat (length items') → k ≤ listSize (body l) →
  bytes_at m' (items_at l) (concat items') → list_rep a m' (set_numItems k l) items'.
Proof.
  intros [[] ] Hc Hi Hk Hroom Hd. split; [split|..]; cbn [set_numItems hrec body listSize itemSize numItems
    percentIncrease minNumItemsIncrease]; try done.
  eapply block_changed; [done|exact Hc|]. left. exists (ptr (hrec l)), (size (hrec l)). split; [done|].
  unfold items_at, itemList_offset. lia.
Qed.

(** A change outside the heap. *)
Lemma list_rep_out a m m' l items lo hi :
  list_rep a m l items → changed lo hi m m' → hi ≤ heap_lo ∨ heap_hi ≤ lo → list_rep a m' l items.
Proof.
  intros [[Hb Hs Hi] Hn Hr Hit Hd Hp] Hc Hout. destruct (block_owned _ _ _ _ Hb) as (_ & _ & Hlo & Hhi).
  split; [split|..]; try done; [eapply block_changed; [exact Hb|exact Hc|by right]|].
  destruct (length_items _ _ Hit) as [Hlen _]. eapply changed_bytes; [exact Hc| |exact Hd].
  unfold sizeof_ListStruct, itemList_offset in *. nia.
Qed.

(** The block and its contents are what the list is. *)
Lemma list_rep_kept a a' m m' l items :
  list_rep a m l items → block a' m' (ptr (hrec l)) (size (hrec l)) →
  (∀ j, ptr (hrec l) ≤ j < ptr (hrec l) + size (hrec l) → m' !! j = m !! j) → list_rep a' m' l items.
Proof.
  intros [[Hb Hs Hi] Hn Hr Hit Hd Hp] Hb' Hk. split; [split|..]; try done.
  destruct (length_items _ _ Hit) as [Hlen _]. unfold sizeof_ListStruct, itemList_offset in *.
  intros i y Hy. pose proof (lookup_lt_Some _ _ _ Hy). rewrite Hk by nia. by apply Hd.
Qed.

Lemma others_out a m m' q lo hi :
  changed lo hi m m' → hi ≤ heap_lo ∨ heap_hi ≤ lo → ∀ p k, block a m p k → p ≠ q →
  block a m' p k ∧ p ≠ q ∧ ∀ j, p ≤ j < p + k → m' !! j = m !! j.
Proof.
  intros Hc Hout p k Hb Hp. destruct (block_owned _ _ _ _ Hb) as (_ & _ & Hlo & Hhi).
  split; [eapply block_changed; [exact Hb|exact Hc|by right]|]. split; [done|]. intros j Hj. apply Hc. lia.
Qed.

(** Room for the new items at the item [i]. *)
Lemma insert_data m (base sz : Z) (i : nat) items new :
  Forall (λ it, Z.of_nat (length it) = sz ∧ Forall is_byte it) items →
  Forall (λ it, Z.of_nat (length it) = sz ∧ Forall is_byte it) new →
  (i ≤ length items)%nat → 0 < sz → bytes_at m base (concat items) →
  bytes_at (write_bytes (write_bytes m (base + (i + length new) * sz) (concat (drop i items)))
      (base + i * sz) (concat new)) base (concat (take i items ++ new ++ drop i items)).
Proof.
  intros Hit Hnew Hi Hsz Hd.
  destruct (length_items sz (take i items)) as [L1 _]; [by apply Forall_take|].
  destruct (length_items sz new Hnew) as [L2 _]. rewrite length_take, Nat.min_l in L1 by done.
  rewrite <- (take_drop i items), concat_app in Hd. apply bytes_at_app in Hd as [Hd1 _].
  rewrite !concat_app. apply bytes_at_app. split; [|apply bytes_at_app; split].
  - apply bytes_at_write_disjoint; [lia|]. by apply bytes_at_write_disjoint; [lia|].
  - rewrite L1. apply write_bytes_in.
  - apply bytes_at_write_disjoint; [lia|]. rewrite L1, L2.
    replace (base + i * sz + length new * sz) with (base + (i + length new) * sz) by lia.
    apply write_bytes_in.
Qed.

(** The space for the items, with an allocation when the list is full. *)
Lemma insert_room a m l items k :
  list_rep a m l items → roomy l k →
  (numItems (body l) = listSize (body l) ∨ numItems (body l) + k ≤ listSize (body l)) →
  ∃ a' m' l' ok,
    (if numItems (body l) >=? listSize (body l) then ExpandListSpace a m l (- k)
     else Some (a, m, l, 1)) = Some (a', m', l', ok) ∧
    changed heap_lo heap_hi m m' ∧ others_kept a m a' m' (ptr (hrec l)) (ptr (hrec l')) ∧
    list_rep a' m' l' items ∧ itemSize (body l') = itemSize (body l) ∧
    (numItems (body l) = listSize (body l) → grows a m l k a' m' ok) ∧
    (ok = 0 ∧ listSize (body l) < numItems (body l) + k ∨
     ok = 1 ∧ size (hrec l') < 2147483648 ∧ numItems (body l) + k ≤ listSize (body l')).
Proof.
  intros Hrep Hroomy Hroom. pose proof Hroomy as (Hr1 & Hk & Hg). rewrite Z.geb_leb.
  pose proof (lr_list _ _ _ _ Hrep) as [_ Hsz Hit].
  destruct (Z.leb_spec (listSize (body l)) (numItems (body l))) as [Hfull|Hspace].
  - destruct (expand_spec a m l items k Hrep Hroomy) as (a' & m' & l' & r & E & Hc & Ho & Hrep' & Hgr & Hs & Hr).
    exists a', m', l', r. do 5 (split; [done|]). split; [done|].
    destruct Hr as [->|[-> Hn]]; [left; split; [done|lia]|right]. split; [done|].
    rewrite (lr_size _ _ _ (lr_list _ _ _ _ Hrep')), Hs, Hn. lia.
  - exists a, m, l, 1. split; [done|]. split; [apply changed_refl|]. split; [apply others_refl|].
    split; [done|]. split; [done|]. split; [lia|]. right. split; [done|].
    unfold sizeof_ListStruct in *. split; [nia|lia].
Qed.

(** Placing the items when there is room. *)
Lemma insert_items a m l items new src (i : nat) (mid : bool) :
  list_rep a m l items → size (hrec l) < 2147483648 → given m src new →
  Forall (λ it, Z.of_nat (length it) = itemSize (body l) ∧ Forall is_byte it) new →
  (i ≤ length items)%nat → (mid = false → i = length items) →
  numItems (body l) + length new ≤ listSize (body l) →
  ∃ m',
    (if mid then
       m ← memmove m (item_ptr l (i + length new)) (item_ptr l i)
         (u32 (s32 ((length items - i) * itemSize (body l))));
       put_items memmove m l i src (length new)
     else put_items memcpy m l (length items) src (length new)) = Some m' ∧
    changed heap_lo heap_hi m m' ∧ others_kept a m a m' (ptr (hrec l)) (ptr (hrec l)) ∧
    (∀ ns, serves a m ns → serves a m' ns) ∧
    list_rep a m' (set_numItems (length items + length new) l) (take i items ++ new ++ drop i items).
Proof.
  intros Hrep Hb Hgiv Hnew Hi Hend Hroom. pose proof Hrep as [Hblk Hcount _ Hitems Hdata _].
  pose proof Hblk as [Hbk Hsz Hit]. destruct (block_owned _ _ _ _ Hbk) as (Hown & Hp0 & Hlo & Hhi).
  destruct (length_items _ _ Hnew) as [Hlen Hby].
  destruct (length_items (itemSize (body l)) (drop i items)) as [Ld Hbd]; [by apply Forall_drop|].
  rewrite length_drop in Ld. rewrite Nat2Z.inj_sub in Ld by done.
  destruct (item_ptr_at l a m i Hblk Hb) as [Hpi Hle1]; [lia|].
  destruct (item_ptr_at l a m (i + length new) Hblk Hb) as [Hpk Hle2]; [lia|].
  unfold items_at, sizeof_ListStruct, itemList_offset in *. set (base := ptr (hrec l) + 24) in *.
  assert (Hfit : (i + length new) * itemSize (body l) + length (concat (drop i items))
    ≤ listSize (body l) * itemSize (body l)) by (rewrite Ld; nia).
  assert (0 ≤ i * itemSize (body l) ∧ 0 ≤ length new * itemSize (body l)) by nia.
  set (m1 := write_bytes m (base + (i + length new) * itemSize (body l)) (concat (drop i items))).
  assert (Hc1 : changed base (ptr (hrec l) + size (hrec l)) m m1) by (apply changed_write; lia).
  assert (Hput : ∀ copy, copy = memcpy ∨ copy = memmove →
    put_items copy m1 l i src (length new) =
      Some (write_bytes m1 (base + i * itemSize (body l)) (concat new))).
  { intros copy Hcopy. apply (put_items_spec copy a m1 l); try done; [| |lia|lia].
    - split; [|done|done]. eapply block_changed; [done|exact Hc1|]. left.
      exists (ptr (hrec l)), (size (hrec l)). split; [done|]. lia.
    - eapply given_changed; [done|exact Hc1|lia|lia]. }
  exists (write_bytes m1 (base + i * itemSize (body l)) (concat new)).
  assert (Hc2 : changed base (ptr (hrec l) + size (hrec l)) m
    (write_bytes m1 (base + i * itemSize (body l)) (concat new))).
  { eapply changed_trans; [exact Hc1|]. apply changed_write; lia. }
  split; [|split; [|split; [|split]]].
  - destruct mid.
    + rewrite s32_small, u32_small, <- Ld, Hpi, Hpk by lia.
      rewrite memmove_bytes, some_bind; [by apply Hput; right|done| | |unfold fits; lia].
      * rewrite <- (take_drop i items), concat_app in Hdata. apply bytes_at_app in Hdata as [_ Hd].
        destruct (length_items (itemSize (body l)) (take i items)) as [Lt _]; [by apply Forall_take|].
        rewrite Lt, length_take, Nat.min_l in Hd by done. done.
      * eapply owned_mono; [exact Hown|lia|lia].
    + assert (Ei := Hend eq_refl). rewrite <- Ei. rewrite <- (Hput memcpy) by by left.
      unfold m1. by rewrite Ei, drop_all.
  - eapply changed_mono; [exact Hc2|lia|lia].
  - eapply others_changed; [exact Hbk|exact Hc2|lia|lia].
  - intros ns Hs. eapply serves_changed; [exact Hs|exact Hc2|]. left.
    exists (ptr (hrec l)), (size (hrec l)). split; [done|]. lia.
  - eapply rep_items; [exact Hrep|exact Hc2| | |lia|].
    + repeat apply Forall_app_2; [by apply Forall_take|done|by apply Forall_drop].
    + rewrite !length_app, length_take, length_drop. lia.
    + by apply insert_data.
Qed.

(** A new list is empty. *)
Lemma ListCreate_empty a m sz a' m' l :
  owned m heap_lo (heap_hi - heap_lo) → 0 < sz → ListCreate a m sz = (a', m', Some l) →
  list_rep a' m' l [] ∧ itemSize (body l) = sz ∧ changed heap_lo heap_hi m m' ∧
  (∀ p k, block a m p k →
     block a' m' p k ∧ p ≠ ptr (hrec l) ∧ ∀ j, p ≤ j < p + k → m' !! j = m !! j).
Proof.
  intros Hheap Hsz. unfold ListCreate, NewHandle.
  destruct (malloc a m sizeof_ListStruct) as [[a1 m1] p1] eqn:E1.
  destruct (malloc a1 m1 sizeof_HandleRecord) as [[a2 m2] p2] eqn:E2.
  apply malloc_spec in E1 as (C1 & B1 & K1); [|done|done].
  apply malloc_spec in E2 as (C2 & _ & K2); [|done|by eapply changed_owned].
  change (sizeof_ListStruct =? 0) with false. rewrite orb_false_r.
  destruct (negb (p2 =? NULL) && negb (p1 =? NULL)) eqn:E.
  - intros [= <- <- <-]. apply andb_true_iff in E as [_ Hp%negb_true_iff%Z.eqb_neq].
    split; [|split; [done|split; [by eapply changed_trans|]]].
    + split; [split|..]; cbn; try done. by apply K2, B1.
    + intros p k Hb. destruct (K1 p k Hb) as (Hb1 & Hp1 & E1'). destruct (K2 p k Hb1) as (Hb2 & _ & E2').
      split; [done|]. split; [done|]. intros j Hj. by rewrite E2', E1'.
  - destruct (free a2 m2 p1) as [a3 m3]. by destruct (free a3 m3 p2).
Qed.

(** The header of a new list, and the heap behind it. *)
Lemma ListCreate_serves a m sz n1 n2 ns :
  owned m heap_lo (heap_hi - heap_lo) → 0 < sz →
  serves a m (n1 :: n2 :: ns) → sizeof_ListStruct ≤ n1 → sizeof_HandleRecord ≤ n2 →
  ∃ a' m' l, ListCreate a m sz = (a', m', Some l) ∧ serves a' m' ns ∧
    body l = List_ LIST_SIGNATURE kDefaultAllocationPercentIncrease
      kDefaultAllocationminNumItemsIncrease 0 sz 0.
Proof.
  intros Hheap Hsz Hs Hn1 Hn2. unfold ListCreate, NewHandle.
  destruct (malloc a m sizeof_ListStruct) as [[a1 m1] p1] eqn:E1.
  destruct (serves_malloc _ _ _ _ _ _ _ _ Hs (conj (eq_refl : 0 < sizeof_ListStruct) Hn1) E1) as [Hp1 Hs1].
  destruct (malloc a1 m1 sizeof_HandleRecord) as [[a2 m2] p2] eqn:E2.
  destruct (serves_malloc _ _ _ _ _ _ _ _ Hs1 (conj (eq_refl : 0 < sizeof_HandleRecord) Hn2) E2) as [Hp2 Hs2].
  rewrite (proj2 (Z.eqb_neq p1 NULL)), (proj2 (Z.eqb_neq p2 NULL)) by done. cbn [negb andb orb].
  by eexists a2, m2, _.
Qed.

(** The place of an item. *)
Lemma ListGetPtrToItem_at a m l items (i : nat) it :
  list_rep a m l items → size (hrec l) < 2147483648 → items !! i = Some it →
  bytes_at m (ListGetPtrToItem l (i + 1)) it.
Proof.
  intros Hrep Hb Hit. pose proof (lookup_lt_Some _ _ _ Hit) as Hi.
  unfold ListGetPtrToItem, LIST_START, LIST_END.
  rewrite (proj2 (Z.eqb_neq (i + 1) (-1))), (proj2 (Z.eqb_neq (i + 1) 0)) by lia.
  replace (i + 1 - 1) with (Z.of_nat i) by lia.
  destruct Hrep as [Hblk Hn Hroom Hits Hd _].
  destruct (item_ptr_at l a m i Hblk Hb) as [-> _]; [lia|].
  rewrite <- (take_drop_middle _ _ _ Hit), concat_app in Hd. apply bytes_at_app in Hd as [_ Hd].
  cbn [concat] in Hd. apply bytes_at_app in Hd as [Hd _].
  destruct (length_items (itemSize (body l)) (take i items)) as [L _]; [by apply Forall_take|].
  rewrite L, length_take, Nat.min_l in Hd by lia. exact Hd.
Qed.

(** The number of items in front of the new ones. *)
Definition insert_index items (pos : Z) : nat :=
  if pos =? LIST_END then length items
  else if pos =? LIST_START then 0%nat else Z.to_nat (pos - 1).

(** The position after both adjustments of the code. *)
Lemma insert_position items pos :
  -1 ≤ pos → pos ≤ length items + 1 →
  let p := if pos =? length items + 1 then LIST_END else pos in
  ∃ mid : bool,
    (if p =? LIST_START then (if Z.of_nat (length items) =? 0 then LIST_END else 1) else p) =
      (if mid then insert_index items pos + 1 else LIST_END) ∧
    (insert_index items pos ≤ length items)%nat ∧ (mid = false → insert_index items pos = length items).
Proof.
  intros H1 H2. unfold insert_index, LIST_END, LIST_START. cbv zeta.
  destruct (Z.eqb_spec pos (length items + 1)) as [->|Hne].
  { exists false. rewrite !(proj2 (Z.eqb_neq (length items + 1) 0)),
      !(proj2 (Z.eqb_neq (length items + 1) (-1))) by lia.
    change (0 =? -1) with false. cbv iota. split; [done|lia]. }
  destruct (Z.eqb_spec pos (-1)) as [->|Hs]; change (-1 =? 0) with false; cbv iota.
  { destruct (Z.eqb_spec (length items) 0) as [E|E]; [exists false|exists true]; cbv iota; lia. }
  destruct (Z.eqb_spec pos 0) as [->|Hz]; [exists false|exists true]; cbv iota; lia.
Qed.

(** Insertion, for the claim below and for the device list. *)
Lemma ListInsertItems_spec a m l items new src pos :
  list_rep a m l items → given m src new → new ≠ [] →
  Forall (λ it, Z.of_nat (length it) = itemSize (body l) ∧ Forall is_byte it) new →
  roomy l (length new) → -1 ≤ pos →
  (numItems (body l) = listSize (body l) ∨ numItems (body l) + length new ≤ listSize (body l)) →
  if length items + 1 <? pos then
    ListInsertItems a m l src pos (length new) = Some (a, m, l, 0)
  else
    let i := insert_index items pos in
    ∃ a' m' l' r, ListInsertItems a m l src pos (length new) = Some (a', m', l', r) ∧
      changed heap_lo heap_hi m m' ∧ others_kept a m a' m' (ptr (hrec l)) (ptr (hrec l')) ∧
      (numItems (body l) = listSize (body l) → grows a m l (length new) a' m' r) ∧
      (r = 1 ∧ size (hrec l') < 2147483648 ∧ list_rep a' m' l' (take i items ++ new ++ drop i items) ∨
       r = 0 ∧ list_rep a' m' l' items ∧ listSize (body l) < numItems (body l) + length new).
Proof.
  intros Hrep Hgiv Hne Hnew Hroomy Hpos Hroom. pose proof (lr_count _ _ _ _ Hrep) as Hn.
  unfold ListInsertItems. rewrite Hn. destruct (Z.ltb_spec (length items + 1) pos) as [Hfar|Hnear].
  { rewrite (proj2 (Z.eqb_neq pos _)), Z.gtb_ltb, (proj2 (Z.ltb_lt _ _)) by lia. done. }
  replace (negb (pos =? length items + 1) && (pos >? length items)) with false.
  2: { rewrite Z.gtb_ltb. destruct (Z.eqb_spec pos (length items + 1)); [done|].
       symmetry. apply Z.ltb_ge. lia. }
  destruct (insert_position items pos Hpos Hnear) as (mid & -> & Hi & Hend).
  set (i := insert_index items pos) in *.
  destruct (insert_room a m l items (length new) Hrep Hroomy Hroom)
    as (a1 & m1 & l1 & ok & E & Hc & Ho1 & Hrep1 & Hs & Hgr & Hok). rewrite Hn in E, Hok, Hgr.
  rewrite E, some_bind.
  destruct Hok as [[-> Hneed]|(-> & Hsize & Hspace)]; cbn [Z.eqb].
  { exists a1, m1, l1, 0. split; [done|]. split; [done|]. split; [done|]. split; [done|]. right. done. }
  destruct (insert_items a1 m1 l1 items new src i mid) as (m2 & E2 & Hc2 & Ho2 & Hsv2 & Hrep2); try done.
  { by eapply given_changed. }
  { by rewrite Hs. }
  { by rewrite (lr_count _ _ _ _ Hrep1). }
  assert (Hfit : length items + length new < 2147483648).
  { destruct (lr_list _ _ _ _ Hrep1) as [_ Hsz Hit]. unfold sizeof_ListStruct in Hsz. nia. }
  rewrite (s32_small (length items + length new)) by lia.
  exists a1, m2, (set_numItems (length items + length new) l1), 1.
  split; [|split; [by eapply changed_trans|split; [by eapply others_trans; [exact Ho1|exact Ho2]|split]]].
  3: { left. by split; [|split; [|exact Hrep2]]. }
  2: { intros Hfull n0 ns Hsv Hn0. destruct (Hgr Hfull n0 ns Hsv Hn0) as [_ Hsv']. split; [done|by apply Hsv2]. }
  destruct mid; cbv iota.
  - rewrite (proj2 (Z.eqb_neq (i + 1) LIST_END)) by (unfold LIST_END; lia).
    replace (i + 1 - 1) with (Z.of_nat i) by lia.
    replace (length items + 1 - (i + 1)) with (length items - i) by lia. by rewrite E2, some_bind.
  - rewrite Z.eqb_refl. by rewrite E2, some_bind.
Qed.

(** C21: ([ListInsertItems]) a list of items implements insertion into a
    sequence.  A position behind the end is refused and nothing changes.
    Otherwise the new items are put in front of the item at the position (or
    at the end), with an allocation if the list is full; the answer is 1 and
    the list stands for the old items with the new ones among them, or it is 0,
    the list is as it was, and memory was needed; a heap that serves the grown
    list gives 1.  The other blocks of the heap and what is outside the heap do not change.  (The list must be full or
    have room for all new items: the code allocates only when it is full.) *)
Theorem ListInsertItems_refines a m l items new src pos :
  list_rep a m l items → given m src new → new ≠ [] →
  Forall (λ it, Z.of_nat (length it) = itemSize (body l) ∧ Forall is_byte it) new →
  roomy l (length new) → -1 ≤ pos →
  (numItems (body l) = listSize (body l) ∨ numItems (body l) + length new ≤ listSize (body l)) →
  if length items + 1 <? pos then
    ListInsertItems a m l src pos (length new) = Some (a, m, l, 0)
  else
    let i := insert_index items pos in
    ∃ a' m' l' r, ListInsertItems a m l src pos (length new) = Some (a', m', l', r) ∧
      changed heap_lo heap_hi m m' ∧ others_kept a m a' m' (ptr (hrec l)) (ptr (hrec l')) ∧
      (numItems (body l) = listSize (body l) → grows a m l (length new) a' m' r) ∧
      (r = 1 ∧ size (hrec l') < 2147483648 ∧ list_rep a' m' l' (take i items ++ new ++ drop i items) ∨
       r = 0 ∧ list_rep a' m' l' items ∧ listSize (body l) < numItems (body l) + length new).
Proof. apply ListInsertItems_spec. Qed.
End laws.

(** ** An allocator

    A slot of 64 kB and sixteen of 8 kB; a block grows in its slot. *)

Definition slot_at (i : Z) : Z := if i =? 0 then 0x100000 else 0x10E000 + i * 8192.
Definition slot_size (i : Z) : Z := if i =? 0 then 65536 else 8192.

#[export] Instance slots : Heap Z := {
  malloc a m n :=
    if (n <=? slot_size a) && (0 <=? a) && (a <? 17) then (a + 1, m, slot_at a) else (a, m, NULL);
  realloc a m p k :=
    if k <=? (if p =? 0x100000 then 65536 else 8192) then (a, m, p) else (a, m, NULL);
  free a m p := (a, m)
}.

Definition slot (a : Z) (m : mem) (p n : Z) : Prop :=
  ∃ i, 0 ≤ i < a ∧ i < 17 ∧ p = slot_at i ∧ n ≤ slot_size i ∧ owned m p (slot_size i).

Lemma slot_range i : 0 ≤ i < 17 →
  0x100000 ≤ slot_at i ∧ slot_at i + slot_size i ≤ 0x130000 ∧
  (if slot_at i =? 0x100000 then 65536 else 8192) = slot_size i.
Proof.
  intros Hi. unfold slot_at, slot_size. destruct (Z.eqb_spec i 0) as [->|Hne]; [split; [lia|split; [lia|done]]|].
  split; [lia|]. split; [lia|]. by rewrite (proj2 (Z.eqb_neq _ 0x100000)) by lia.
Qed.

Lemma slots_apart i j : 0 ≤ i → 0 ≤ j → slot_at i ≠ slot_at j →
  slot_at i + slot_size i ≤ slot_at j ∨ slot_at j + slot_size j ≤ slot_at i.
Proof. unfold slot_at, slot_size. destruct (Z.eqb_spec i 0), (Z.eqb_spec j 0); lia. Qed.

Lemma slot_at_inj i j : 0 ≤ i → 0 ≤ j → slot_at i = slot_at j → i = j.
Proof. unfold slot_at. destruct (Z.eqb_spec i 0), (Z.eqb_spec j 0); lia. Qed.

#[export] Instance slots_laws : HeapLaws Z.
Proof.
  refine {| heap_lo := 0x100000; heap_hi := 0x130000; block := slot;
    serves a m ns := 0 ≤ a ∧ a + length ns ≤ 17 ∧
      match ns with [] => True | n :: ns => n ≤ slot_size a ∧ Forall (λ k, k ≤ 8192) ns end |}.
  - intros a m p n (i & Hi & Hi2 & -> & Hn & Ho). destruct (slot_range i) as (R1 & R2 & _); [lia|].
    split; [|lia]. eapply owned_mono; [exact Ho|lia|lia].
  - intros a m p n p' n' (i & Hi & _ & -> & Hn & _) (i' & Hi' & _ & -> & Hn' & _) Hne.
    unfold apart. cbn. pose proof (slots_apart i i'). lia.
  - intros a m m' p n lo hi (i & Hi & Hi2 & E & Hn & Ho) Hc _. exists i.
    split; [done|]. split; [done|]. split; [done|]. split; [done|]. by eapply changed_owned.
  - intros a m n a' m' q Hn Ho. unfold malloc, slots.
    destruct ((n <=? slot_size a) && (0 <=? a) && (a <? 17)) eqn:E; intros [= <- <- <-];
      (split; [apply changed_refl|]).
    + rewrite !andb_true_iff, !Z.leb_le, Z.ltb_lt in E. destruct (slot_range a) as (R1 & R2 & _); [lia|]. split.
      * intros _. exists a. split; [lia|]. split; [lia|]. split; [done|]. split; [lia|].
        eapply owned_mono; [exact Ho|lia|lia].
      * intros p k (i & Hi & Hi2 & -> & Hk & Hp). split; [exists i; split; [lia|done]|]. split; [|done].
        intros E'. apply slot_at_inj in E'; lia.
    + split; [done|]. intros p k (i & Hi & Hi2 & -> & Hk). destruct (slot_range i) as (R1 & _); [lia|].
      split; [by exists i|]. split; [unfold NULL; lia|done].
  - intros a m p n k a' m' q (i & Hi & Hi2 & -> & Hk & Hp) Hk0. unfold realloc, slots.
    destruct (slot_range i) as (R1 & _ & ->); [lia|].
    destruct (Z.leb_spec k (slot_size i)) as [Hle|Hgt]; intros [= <- <- <-]; (split; [apply changed_refl|]).
    + split; [intros E; unfold NULL in E; lia|].
      split; [|by intros p' n' Hb' Hp']. intros _. split; [by exists i|done].
    + split; [intros _; split; [by exists i|done]|]. split; [by intros []|].
      intros p' n' (i' & Hi' & Hi2' & -> & Hb') Hp'. destruct (slot_range i') as (R1' & _); [lia|].
      split; [by exists i'|]. split; [unfold NULL; lia|done].
  - intros a m n0 ns n a' m' q (Ha & Hl & Hn0 & Hns) Hn. cbn [length] in Hl. unfold malloc, slots.
    rewrite (proj2 (Z.leb_le n _)), (proj2 (Z.leb_le 0 a)), (proj2 (Z.ltb_lt a 17)) by lia. cbn [andb].
    intros [= <- <- <-]. destruct (slot_range a) as (R1 & _); [lia|]. split; [unfold NULL; lia|].
    split; [lia|]. split; [lia|]. destruct Hns as [|k ns Hk Hns]; [done|]. split; [|done].
    unfold slot_size. destruct (_ =? _); lia.
  - intros a m n0 ns p k n a' m' q (Ha & Hl & Hn0 & Hns) (i & Hi & Hi2 & -> & Hk & Hp) Hn.
    cbn [length] in Hl. unfold realloc, slots. destruct (slot_range i) as (R1 & _ & ->); [lia|].
    assert (Hle : n ≤ slot_size i).
    { unfold slot_size in *. rewrite (proj2 (Z.eqb_neq a 0)) in Hn0 by lia. destruct (_ =? _); lia. }
    rewrite (proj2 (Z.leb_le n _)) by done. intros [= <- <- <-]. split; [unfold NULL; lia|].
    split; [lia|]. split; [lia|]. destruct Hns as [|k' ns Hk' Hns]; [done|]. split; [|done].
    unfold slot_size. destruct (_ =? _); lia.
  - intros a m m' ns lo hi H _ _. exact H.
Defined.

(** A full list of two items. *)
Definition two_items : list_t :=
  ListT 0x100000 (Handle 0x110000 32) (List_ LIST_SIGNATURE 10 4 2 2 2).
Definition list_mem : mem :=
  write_bytes (write_bytes (mem_of 100 [9; 9]) 0x110000 (replicate (Z.to_nat 65536) 0))
    0x110018 [1; 2; 3; 4].

Lemma two_items_rep : list_rep (2 : Z) list_mem two_items [[1; 2]; [3; 4]].
Proof.
  split; [split|..]; cbn [two_items body hrec ptr size numItems listSize itemSize percentIncrease
    minNumItemsIncrease concat app length]; try lia; try reflexivity.
  - cbn [block slots_laws]. exists 1. split; [lia|]. split; [lia|]. split; [done|]. split; [done|].
    unfold list_mem. apply owned_write. pose proof (bytes_at_owned _ _ _ (write_bytes_in (mem_of 100 [9; 9]) 0x110000
      (replicate (Z.to_nat 65536) 0))) as Ho.
    rewrite length_replicate, Z2Nat.id in Ho by lia. eapply owned_mono; [exact Ho|lia|unfold slot_size; cbn; lia].
  - repeat constructor; unfold is_byte; lia.
  - apply write_bytes_in.
Qed.

Lemma nines : bytes_at list_mem 100 [9; 9].
Proof.
  unfold list_mem. do 2 (apply bytes_at_write_disjoint; [left; cbn [length]; lia|]).
  apply write_bytes_in.
Qed.

Lemma ListInsertItems_refines_witness :
  ∃ a' m' l' r, ListInsertItems (2 : Z) list_mem two_items 100 2 1 = Some (a', m', l', r) ∧
    changed 0x100000 0x130000 list_mem m' ∧
    others_kept (2 : Z) list_mem a' m' 0x110000 (ptr (hrec l')) ∧
    (2 = 2 → grows (2 : Z) list_mem two_items 1 a' m' r) ∧
    (r = 1 ∧ size (hrec l') < 2147483648 ∧ list_rep a' m' l' [[1; 2]; [9; 9]; [3; 4]] ∨
     r = 0 ∧ list_rep a' m' l' [[1; 2]; [3; 4]] ∧ 2 < 2 + 1).
Proof.
  refine (ListInsertItems_refines (2 : Z) list_mem two_items [[1; 2]; [3; 4]] [[9; 9]] 100 2 _ _ _ _ _ _ _).
  - exact two_items_rep.
  - left. split; [discriminate|]. split; [exact nines|left; vm_compute; discriminate].
  - discriminate.
  - repeat constructor; unfold is_byte; lia.
  - vm_compute. repeat split.
  - lia.
  - left. reflexivity.
Defined.
