(* ===== verification/Devices.v ===== *)
(** * Devices and the console ([common/devices.c], [common/console.c],
      [common/exports.c])

    The serial port is put into the list of devices, and the console is set to
    the first devices of the list that serve.  The list lies in memory
    ([Lists]); [Env.board] holds what is read of it. *)

From S2P Require Import Prelude.
From S2P Require Import CString.
From S2P Require Import Env.
From S2P Require Import Lists.

Definition DEV_FLAGS_SYSTEM : Z := 0x80000000.

(** [device_t]: offsets of the fields. *)
Definition d_flags : Z := 0.
Definition d_name : Z := 8.
Definition d_start : Z := 24.
Definition d_putc : Z := 32.
Definition d_puts : Z := 36.
Definition d_tstc : Z := 40.
Definition d_getc : Z := 44.

(** The local [dev], the literal ["serial"] and the functions of the port. *)
Record dev_places := DevPlaces {
  dev : Z;
  lit_serial : Z;
  serial_putc_ : Z;
  serial_puts_ : Z;
  serial_tstc_ : Z;
  serial_getc_ : Z
}.

Definition GD_FLG_DEVINIT : Z := 0x00002.

Section devices.
Context {A : Type} `{Heap A} (pl : dev_places).
Implicit Types (a : A) (m : mem) (l : list_t) (b : board).

Definition drv_system_init a m l : option (A * mem * list_t) :=
  m ← memset m (dev pl) 0 sizeof_device_t;
  m ← strcpy m (dev pl + d_name) (lit_serial pl);
  m ← st32 m (dev pl + d_flags) (Z.lor (Z.lor DEV_FLAGS_OUTPUT DEV_FLAGS_INPUT) DEV_FLAGS_SYSTEM);
  m ← st32 m (dev pl + d_putc) (serial_putc_ pl);
  m ← st32 m (dev pl + d_puts) (serial_puts_ pl);
  m ← st32 m (dev pl + d_getc) (serial_getc_ pl);
  m ← st32 m (dev pl + d_tstc) (serial_tstc_ pl);
  '(a, m, l, _) ← device_register a m l (dev pl);
  Some (a, m, l).

(** The list is [None] when there is no memory for it. *)
Definition devices_init a m (reloc_off : Z) (stdio_names : list Z)
    : option (A * mem * list Z * option list_t * Z) :=
  let stdio_names := map (λ x, u32 (x + reloc_off)) stdio_names in
  let '(a, m, l) := ListCreate a m sizeof_device_t in
  match l with
  | None => Some (a, m, stdio_names, None, -1)
  | Some l => '(a, m, l) ← drv_system_init a m l; Some (a, m, stdio_names, Some l, 0)
  end.

(** ** The table for stand-alone programs *)

Definition XF_MAX : Z := 14.
Definition XF_get_version : Z := 0.
Definition XF_malloc : Z := 8.
Definition XF_free : Z := 9.
Definition XF_udelay : Z := 10.
Definition XF_get_timer : Z := 11.

(** The addresses of the functions, by name. *)
Record exports := Exports {
  dummy : Z;
  get_version_ : Z;
  malloc_ : Z;
  free_ : Z;
  get_timer_ : Z;
  udelay_ : Z
}.

Definition jumptable_init a m (x : exports) : option (A * mem * Z) :=
  let '(a, m, jt) := malloc a m (XF_MAX * 4) in
  '(m, _) ← while (λ '(m, i),
    if i <? XF_MAX then m ← st32 m (jt + 4 * i) (dummy x); Some (Next (m, i + 1))
    else Some (Done (m, i))) (m, 0);
  m ← st32 m (jt + 4 * XF_get_version) (get_version_ x);
  m ← st32 m (jt + 4 * XF_malloc) (malloc_ x);
  m ← st32 m (jt + 4 * XF_free) (free_ x);
  m ← st32 m (jt + 4 * XF_get_timer) (get_timer_ x);
  m ← st32 m (jt + 4 * XF_udelay) (udelay_ x);
  Some (a, m, jt).
End devices.

(** ** The console *)

Section console.
Context (start_call : Z → Z).
Implicit Types (m : mem) (l : list_t) (b : board).

(** A device of the list, as it lies in memory. *)
Definition device_at m (p : Z) : option device :=
  flags ← ld32 m (p + d_flags);
  start ← ld32 m (p + d_start);
  Some (Device (p + d_name) flags (if start =? 0 then None else Some (start_call start))).

Fixpoint devices_at m l (i : Z) (n : nat) : option (list device) :=
  match n with
  | O => Some []
  | S n => d ← device_at m (ListGetPtrToItem l i); ds ← devices_at m l (i + 1) n; Some (d :: ds)
  end.

(** The scan for the first input and the first output device. *)
Fixpoint scan_devices (ds : list device) (i : nat) (inputdev outputdev : option nat)
    : option nat * option nat :=
  match ds with
  | [] => (inputdev, outputdev)
  | d :: ds =>
      if bool_decide (is_Some inputdev) && bool_decide (is_Some outputdev) then (inputdev, outputdev) else
      let inputdev :=
        if negb (Z.land (flags_of d) DEV_FLAGS_INPUT =? 0) && negb (bool_decide (is_Some inputdev))
        then Some i else inputdev in
      let outputdev :=
        if negb (Z.land (flags_of d) DEV_FLAGS_OUTPUT =? 0) && negb (bool_decide (is_Some outputdev))
        then Some i else outputdev in
      scan_devices ds (S i) inputdev outputdev
  end.

Definition set_devlist (ds : list device) b : board :=
  Board (stdio_devices b) ds (baudrate b) (serial_input b) (bi_enetaddr b) (bi_ip_addr b)
    (load_addr b) (BootFile b) (eth_devices b).

(** [stdio_devices[i]->name]; without a device it is the address of the name
    in a structure at [NULL]. *)
Definition stdio_name b (i : nat) : Z :=
  match stdio_devices b !! i with
  | Some (Some j) => match devlist b !! j with Some d => name_of d | None => NULL + d_name end
  | _ => NULL + d_name
  end.

Fixpoint setenv_stdio (e : env) m b (cmd : Z) (names : list Z) (i : nat) : option (mem * board) :=
  match names with
  | [] => Some (m, b)
  | n :: names => '(m, b) ← setenv e m b cmd n (stdio_name b i); setenv_stdio e m b cmd names (S i)
  end.

Definition console_init_r (e : env) m b l (cmd : Z) (stdio_names : list Z) (gd_flags : Z)
    : option (mem * board * Z) :=
  ds ← devices_at m l 1 (Z.to_nat (ListNumItems l));
  let b := set_devlist ds b in
  let '(inputdev, outputdev) := scan_devices ds 0 None None in
  b ← (match outputdev with
       | Some o => '(b, _) ← console_setfile b 1 o; '(b, _) ← console_setfile b 2 o; Some b
       | None => Some b
       end);
  b ← (match inputdev with
       | Some i => '(b, _) ← console_setfile b 0 i; Some b
       | None => Some b
       end);
  let gd_flags := Z.lor gd_flags GD_FLG_DEVINIT in
  '(m, b) ← setenv_stdio e m b cmd stdio_names 0;
  Some (m, b, gd_flags).
End console.

(** ** The device of the serial port *)

Section registration.
Context {A : Type} `{HeapLaws A} (pl : dev_places).
Implicit Types (a : A) (m : mem) (l : list_t).

(** As it lies in the list. *)
Definition serial_device : list Z :=
  bytes32 0x80000003 ++ replicate 4 0 ++ lit "serial" ++ replicate 18 0 ++
  bytes32 (serial_putc_ pl) ++ bytes32 (serial_puts_ pl) ++
  bytes32 (serial_tstc_ pl) ++ bytes32 (serial_getc_ pl) ++ replicate 4 0.

(** A word in what has been written. *)
Lemma st32_inside m p (i : nat) (x : list Z) c :
  owned m p (length x) → (i + 4 ≤ length x)%nat →
  st32 (write_bytes m p x) (p + i) c = Some (write_bytes m p (take i x ++ bytes32 c ++ drop (i + 4) x)).
Proof.
  intros Ho Hi. rewrite st32_bytes by (apply owned_write; eapply owned_mono; [exact Ho|lia|lia]).
  f_equal. by apply (write_bytes_inside m p i x (bytes32 c)).
Qed.

(** The local [dev] is filled in and registered. *)
Lemma drv_system_init_writes a m l :
  owned m (dev pl) sizeof_device_t → cstr m (lit_serial pl) (lit "serial") →
  apart (lit_serial pl, 7) (dev pl, sizeof_device_t) →
  drv_system_init pl a m l =
    '(a, m, l, _) ← device_register a (write_bytes m (dev pl) serial_device) l (dev pl); Some (a, m, l).
Proof.
  intros Ho Hs Ha. unfold drv_system_init, sizeof_device_t, apart in *. cbn [fst snd] in Ha.
  change 52 with (Z.of_nat 52) in *. rewrite memset_bytes, some_bind by (done || lia).
  change (u8 0) with 0. set (z := replicate 52 0). set (m1 := write_bytes m (dev pl) z).
  rewrite (strcpy_cstr m1 (dev pl + d_name) (lit_serial pl) (lit "serial")); [|..].
  2: { apply cstr_write_disjoint; [unfold z; rewrite length_replicate; change (length (lit "serial")) with 6%nat; lia|done]. }
  2: { apply owned_write. eapply owned_mono; [exact Ho|unfold d_name; lia|unfold d_name; cbn; lia]. }
  2: { done. }
  2: { unfold d_name. change (length (lit "serial")) with 6%nat. lia. }
  rewrite some_bind. unfold m1. change (dev pl + d_name) with (dev pl + 8%nat).
  rewrite write_bytes_inside by (apply Nat.leb_le; reflexivity).
  change (dev pl + d_flags) with (dev pl + 0%nat). change (dev pl + d_putc) with (dev pl + 32%nat).
  change (dev pl + d_puts) with (dev pl + 36%nat). change (dev pl + d_getc) with (dev pl + 44%nat).
  change (dev pl + d_tstc) with (dev pl + 40%nat).
  do 5 (rewrite st32_inside, some_bind by first [exact Ho|apply Nat.leb_le; reflexivity]).
  reflexivity.
Qed.

(** The device arrives in the list as long as the heap serves it. *)
Lemma devices_init_registers a m reloc_off stdio_names ns :
  owned m heap_lo (heap_hi - heap_lo) → serves a m (28 :: 8 :: 288 :: ns) →
  owned m (dev pl) sizeof_device_t → dev pl ≠ NULL → cstr m (lit_serial pl) (lit "serial") →
  apart (lit_serial pl, 7) (dev pl, sizeof_device_t) →
  apart (lit_serial pl, 7) (heap_lo, heap_hi - heap_lo) →
  apart (dev pl, sizeof_device_t) (heap_lo, heap_hi - heap_lo) →
  ∃ a' m' l, devices_init pl a m reloc_off stdio_names =
      Some (a', m', map (λ x, u32 (x + reloc_off)) stdio_names, Some l, 0) ∧
    list_rep a' m' l [serial_device] ∧ size (hrec l) < 2147483648 ∧ serves a' m' ns ∧
    (∀ p k, block a m p k →
       block a' m' p k ∧ p ≠ ptr (hrec l) ∧ ∀ j, p ≤ j < p + k → m' !! j = m !! j) ∧
    touches (inside [(heap_lo, heap_hi - heap_lo); (dev pl, sizeof_device_t)]) m m'.
Proof.
  intros Hheap Hs Ho Hd Hlit Ha1 Ha2 Ha3. unfold devices_init.
  destruct (ListCreate_serves a m sizeof_device_t 28 8 (288 :: ns)) as (a1 & m1 & l1 & E1 & Hs1 & Hb1);
    try done. rewrite E1.
  destruct (ListCreate_empty _ _ _ _ _ _ Hheap (ltac:(done) : 0 < sizeof_device_t) E1) as (Hr1 & _ & Hc1 & Hk1).
  unfold apart in *. cbn [fst snd] in *. unfold sizeof_device_t in *.
  assert (Ho1 : owned m1 (dev pl) 52) by by eapply changed_owned.
  rewrite drv_system_init_writes; [|done| |unfold apart, sizeof_device_t; cbn [fst snd]; lia].
  2: { eapply changed_cstr; [exact Hc1| |exact Hlit]. change (length (lit "serial")) with 6%nat. lia. }
  set (m2 := write_bytes m1 (dev pl) serial_device).
  assert (Hlen : length serial_device = 52%nat) by done.
  assert (Hc2 : changed (dev pl) (dev pl + 52) m1 m2) by (apply changed_write; rewrite ?Hlen; lia).
  assert (Hout : dev pl + 52 ≤ heap_lo ∨ heap_hi ≤ dev pl) by lia.
  assert (Hby : Forall is_byte serial_device).
  { unfold serial_device. repeat (apply Forall_app_2); try (by repeat constructor; unfold is_byte; lia);
      repeat constructor; apply u8_range. }
  pose proof (list_rep_out _ _ _ _ _ _ _ Hr1 Hc2 Hout) as Hr2.
  assert (Hs2 : serves a1 m2 (288 :: ns)) by (eapply serves_changed; [exact Hs1|exact Hc2|by right]).
  destruct (ListInsertItems_spec a1 m2 l1 [] [serial_device] (dev pl) LIST_END Hr2) as
    (a3 & m3 & l3 & r & E3 & Hc3 & Hk3 & Hgr & Hres).
  { left. split; [done|]. cbn [concat]. rewrite app_nil_r, Hlen. split; [apply write_bytes_in|]. lia. }
  { done. }
  { rewrite Hb1. constructor; [|constructor]. by rewrite Hlen. }
  { unfold roomy, num_items_per_alloc. rewrite Hb1. done. }
  { done. }
  { left. by rewrite Hb1. }
  assert (Hfull : numItems (body l1) = listSize (body l1)) by by rewrite Hb1.
  destruct (Hgr Hfull 288 ns Hs2) as [-> Hs3].
  { unfold grown_size, num_items_per_alloc. rewrite Hb1. done. }
  destruct Hres as [(_ & Hsize & Hr3)|(Hr & _)]; [|done].
  unfold device_register, ListInsertItem. change 1 with (Z.of_nat (length [serial_device])).
  rewrite E3, !some_bind. exists a3, m3, l3. split; [done|]. split; [exact Hr3|]. split; [done|].
  split; [done|]. split.
  - intros p k Hb. destruct (Hk1 p k Hb) as (B1 & N1 & M1).
    destruct (others_out a1 m1 m2 (ptr (hrec l1)) _ _ Hc2 Hout p k B1 N1) as (B2 & _ & M2).
    destruct (Hk3 p k B2 N1) as (B3 & N3 & M3). split; [done|]. split; [done|].
    intros j Hj. by rewrite M3, M2, M1.
  - eapply touches_trans; [eapply touches_changed; [exact Hc1|]|eapply touches_trans;
      [eapply touches_changed; [exact Hc2|]|eapply touches_changed; [exact Hc3|]]];
      intros j Hj; unfold inside; rewrite ?Exists_cons; cbn [fst snd]; lia.
Qed.
End registration.

(** ** The console variables *)

(** What [setenv] asks of a name. *)
Definition name_ok (n : list Z) : Prop := Forall is_char n ∧ 61 ∉ n ∧ fits n ∧ quiet_name n.

(** Outside the block of the environment. *)
Definition outside_env (e : env) (p : Z) (n : list Z) : Prop :=
  p + length n < env_ptr e ∨ env_ptr e + CFG_ENV_SIZE ≤ p.

Section variables.
Context (e : env) (b : board) (cmd : Z).
Implicit Types (m : mem) (es : list entry) (n v : list Z).

(** A new variable. *)
Lemma setenv_new m es name n val v :
  env_rep e m es → name_ok n → cstr m name n → outside_env e name n → n ∉ names es →
  val ≠ NULL → cstr m val v → fits v → outside_env e val v →
  length (flat (es ++ [(n, v)])) + 1 ≤ ENV_SIZE →
  ∃ m', setenv e m b cmd name val = Some (m', b) ∧ env_rep e m' (es ++ [(n, v)]) ∧ crc_ok e m' ∧
    same_out (env_ptr e) (env_ptr e + CFG_ENV_SIZE) m m'.
Proof.
  intros H (Hnc & H61 & Hf & Hq) Hn Hno Hnew Hv0 Hv Hfv Hvo Hlen.
  destruct (do_setenv_general e m b es name n cmd [val] [v]) as (m' & Hset & Hrep & Hcrc & Hout);
    try done; [by (constructor; [|constructor])|by (constructor; [|constructor])|].
  unfold setenv_result in *. rewrite (remove_env_absent n es Hnew) in *.
  rewrite flat_app, length_app, flat_cons, app_nil_r, length_enc, length_body in Hlen. cbn [fst snd] in Hlen.
  assert (Es : length (seps true [v]) = S (length v)) by (rewrite seps_join; cbn; by rewrite ?app_nil_r).
  assert (Ej : join [v] = v) by (cbn; by rewrite ?app_nil_r). rewrite Es, Ej in *.
  rewrite (proj2 (Z.leb_le _ _)) in Hset, Hrep, Hcrc by lia. cbn [fst snd] in *.
  exists m'. split; [|split; [done|split; [by apply Hcrc|done]]].
  unfold setenv. change ([cmd; name; val; NULL]) with (cmd :: name :: [val] ++ [NULL]).
  change (2 + length [val]) with 3 in Hset. by rewrite Hset.
Qed.

(** All names get the same value. *)
Lemma setenv_stdio_all v val ptrs texts : ∀ m es i,
  env_rep e m es → Forall2 (λ p n, cstr m p n ∧ outside_env e p n) ptrs texts → ptrs ≠ [] →
  Forall name_ok texts → NoDup (names es ++ texts) →
  (∀ j, (j < length ptrs)%nat → stdio_name b (i + j) = val) →
  val ≠ NULL → cstr m val v → fits v → outside_env e val v →
  length (flat (es ++ map (λ n, (n, v)) texts)) + 1 ≤ ENV_SIZE →
  ∃ m', setenv_stdio e m b cmd ptrs i = Some (m', b) ∧
    env_rep e m' (es ++ map (λ n, (n, v)) texts) ∧ crc_ok e m' ∧
    same_out (env_ptr e) (env_ptr e + CFG_ENV_SIZE) m m'.
Proof.
  revert ptrs. induction texts as [|n texts IH]; intros ptrs m es i Hrep Hp Hne Hok Hnd Hval Hv0 Hv Hf Hvo Hlen.
  { inversion Hp; subst. done. }
  destruct ptrs as [|p ptrs]; [inversion Hp|]. apply Forall2_cons_1 in Hp as [[Hpn Hpo] Hp].
  apply Forall_cons_iff in Hok as [Hn Hok]. cbn [map] in Hlen.
  replace (es ++ (n, v) :: map (λ n, (n, v)) texts) with ((es ++ [(n, v)]) ++ map (λ n, (n, v)) texts) in *
    by (by rewrite <- app_assoc).
  assert (Hnew : n ∉ names es).
  { apply list.NoDup_app in Hnd as (_ & Hnd & _). intros Hin. apply (Hnd n Hin). by left. }
  destruct (setenv_new m es p n val v) as (m1 & E1 & Hrep1 & Hcrc1 & Hout1); try done.
  { rewrite flat_app, length_app in Hlen. lia. }
  cbn [setenv_stdio]. pose proof (Hval 0%nat (Nat.lt_0_succ _)) as Hv1. rewrite Nat.add_0_r in Hv1.
  rewrite Hv1, E1, some_bind. cbv beta iota.
  replace (es ++ map (λ n, (n, v)) (n :: texts)) with ((es ++ [(n, v)]) ++ map (λ n, (n, v)) texts)
    by (cbn [map]; by rewrite <- app_assoc).
  assert (Hp1 : Forall2 (λ p n, cstr m1 p n ∧ outside_env e p n) ptrs texts).
  { eapply Forall2_impl; [|exact Hp]. intros q u [Hq Hqo]. split; [by eapply same_out_cstr|done]. }
  destruct ptrs as [|p' ptrs].
  { inversion Hp1; subst. exists m1. cbn [setenv_stdio map]. rewrite app_nil_r. done. }
  destruct (IH (p' :: ptrs) m1 (es ++ [(n, v)]) (S i)) as (m2 & E2 & Hrep2 & Hcrc2 & Hout2); try done.
  { rewrite map_app. cbn [map]. by rewrite <- app_assoc. }
  { intros j Hj. replace (S i + j)%nat with (i + S j)%nat by lia. apply Hval. cbn [length] in *. lia. }
  { by eapply same_out_cstr. }
  exists m2. split; [done|]. split; [done|]. split; [done|]. by eapply same_out_trans.
Qed.
End variables.

Definition stdio_texts : list (list Z) := [lit "stdin"; lit "stdout"; lit "stderr"].

Lemma stdio_texts_ok : Forall name_ok stdio_texts.
Proof.
  assert (Hb : ∀ n, forallb (λ c, (0 <? c) && (c <? 256) && negb (c =? 61)) n = true → Forall is_char n ∧ 61 ∉ n).
  { intros n Hn. rewrite List.forallb_forall in Hn. split.
    - apply List.Forall_forall. intros c Hc. specialize (Hn c Hc). unfold is_char. lia.
    - intros Hin. apply list_elem_of_In in Hin. specialize (Hn 61 Hin). done. }
  repeat constructor; try (apply Hb; reflexivity); done.
Qed.

Section console_init.
Context {A : Type} `{HeapLaws A} (pl : dev_places) (start_call : Z → Z).

(** The serial port, read from the list. *)
Definition serial_dev (l : list_t) : device := Device (ListGetPtrToItem l 1 + d_name) 0x80000003 None.

Lemma devices_at_serial (a : A) m l :
  list_rep a m l [serial_device pl] → size (hrec l) < 2147483648 →
  devices_at start_call m l 1 1 = Some [serial_dev l] ∧
  cstr m (ListGetPtrToItem l 1 + d_name) (lit "serial").
Proof.
  intros Hrep Hsz. pose proof (ListGetPtrToItem_at a m l _ 0 (serial_device pl) Hrep Hsz eq_refl) as Hit.
  change (0%nat + 1) with 1 in Hit. set (p := ListGetPtrToItem l 1) in *.
  assert (Hdr : ∀ (i : nat) (k : nat), (i ≤ 52)%nat → bytes_at m (p + i) (take k (drop i (serial_device pl)))).
  { intros i k Hi. apply bytes_at_take. by apply bytes_at_drop. }
  split; [|split; [by repeat constructor|exact (Hdr 8%nat 7%nat ltac:(lia))]].
  assert (Hfl : ld32 m (p + 0) = Some 0x80000003).
  { apply ld32_word; [|lia]. exact (Hdr 0%nat 4%nat ltac:(lia)). }
  assert (Hst : ld32 m (p + 24) = Some 0).
  { apply ld32_word; [|lia]. exact (Hdr 24%nat 4%nat ltac:(lia)). }
  cbn [devices_at]. unfold device_at, d_flags, d_start. fold p. rewrite Hfl, Hst. done.
Qed.

Definition set_stdio (files : list (option nat)) (ds : list device) (b : board) : board :=
  Board files ds (baudrate b) (serial_input b) (bi_enetaddr b) (bi_ip_addr b)
    (load_addr b) (BootFile b) (eth_devices b).

(** The console is the serial port, and three variables tell it. *)
Lemma console_init_r_serial (a : A) e m b l es cmd ptrs gd_flags :
  list_rep a m l [serial_device pl] → size (hrec l) < 2147483648 →
  env_rep e m es → NoDup (names es ++ stdio_texts) →
  length (flat (es ++ map (λ n, (n, lit "serial")) stdio_texts)) + 1 ≤ ENV_SIZE →
  apart (ptr (hrec l), size (hrec l)) (env_ptr e, CFG_ENV_SIZE) →
  Forall2 (λ p n, cstr m p n ∧ outside_env e p n) ptrs stdio_texts →
  length (stdio_devices b) = 3%nat →
  ∃ m', console_init_r start_call e m b l cmd ptrs gd_flags =
      Some (m', set_stdio [Some 0%nat; Some 0%nat; Some 0%nat] [serial_dev l] b,
            Z.lor gd_flags GD_FLG_DEVINIT) ∧
    env_rep e m' (es ++ map (λ n, (n, lit "serial")) stdio_texts) ∧ crc_ok e m' ∧
    same_out (env_ptr e) (env_ptr e + CFG_ENV_SIZE) m m'.
Proof.
  intros Hrep Hsz Henv Hnd Hlen Hap Hptrs Hfiles.
  destruct (devices_at_serial a m l Hrep Hsz) as [Hds Hname].
  unfold console_init_r. change (ListNumItems l) with (numItems (body l)).
  rewrite (lr_count _ _ _ _ Hrep). change (Z.to_nat (length [serial_device pl])) with 1%nat.
  rewrite Hds, some_bind. cbv beta iota zeta.
  change (scan_devices [serial_dev l] 0 None None) with (Some 0%nat, Some 0%nat). cbv beta iota.
  destruct (stdio_devices b) as [|f0 [|f1 [|f2 [|]]]] eqn:Ef; try done. clear Hfiles.
  set (es' := es ++ map _ stdio_texts) in *. unfold console_setfile. cbn. rewrite Ef. cbn.
  set (b' := Board _ _ _ _ _ _ _ _ _). change b' with (set_stdio [Some 0%nat; Some 0%nat; Some 0%nat] [serial_dev l] b).
  clear b'. set (b' := set_stdio _ _ b).
  destruct (lr_list _ _ _ _ Hrep) as [Hb Hs Hi]. pose proof (block_owned _ _ _ _ Hb) as (_ & Hp0 & _).
  pose proof (lr_room _ _ _ _ Hrep) as Hroom. rewrite (lr_count _ _ _ _ Hrep) in Hroom. cbn [length] in Hroom.
  assert (Hisz : itemSize (body l) = 52).
  { pose proof (lr_items _ _ _ _ Hrep) as Hit. apply Forall_cons_iff in Hit as [[Hit _] _]. by rewrite <- Hit. }
  assert (Hat : ListGetPtrToItem l 1 = ptr (hrec l) + 24).
  { change (ListGetPtrToItem l 1) with (ptr (hrec l) + 24 + s32 (itemSize (body l) * 0)).
    rewrite Z.mul_0_r. change (s32 0) with 0. lia. }
  assert (Hval : ∀ j, (j < length ptrs)%nat → stdio_name b' (0 + j) = ListGetPtrToItem l 1 + d_name).
  { intros j Hj. rewrite (List.Forall2_length Hptrs) in Hj. cbn [length stdio_texts] in Hj.
    by do 3 (destruct j as [|j]; [done|]); lia. }
  unfold sizeof_ListStruct in Hs. unfold apart in Hap. cbn [fst snd] in Hap.
  assert (H52 : 52 ≤ listSize (body l) * itemSize (body l)) by (rewrite Hisz; lia).
  destruct (setenv_stdio_all e b' cmd (lit "serial") (ListGetPtrToItem l 1 + d_name) ptrs stdio_texts m es 0)
    as (m' & E & Hrep' & Hcrc & Hout); try done.
  - by destruct ptrs; [inversion Hptrs|].
  - exact stdio_texts_ok.
  - rewrite Hat. unfold d_name, NULL. lia.
  - unfold outside_env. rewrite Hat. change (length (lit "serial") : Z) with 6. unfold d_name. lia.
  - rewrite E, some_bind. by exists m'.
Qed.
End console_init.

(** ** The jump table *)

Section jump_table.
Context {A : Type} `{HeapLaws A} (x : exports).
Implicit Types (a : A) (m : mem).

Definition jt_words : list Z :=
  get_version_ x :: replicate 7 (dummy x) ++ [malloc_ x; free_ x; udelay_ x; get_timer_ x] ++ replicate 2 (dummy x).

Lemma jt_loop m jt :
  owned m jt (XF_MAX * 4) →
  while (λ '(m, i),
    if i <? XF_MAX then m ← st32 m (jt + 4 * i) (dummy x); Some (Next (m, i + 1))
    else Some (Done (m, i))) (m, 0) =
  Some (write_bytes m jt (flat_map bytes32 (replicate 14 (dummy x))), 14).
Proof.
  unfold XF_MAX. intros Ho. apply (while_runs _ _ 15); [|lia].
  assert (Hrun : ∀ (k : nat) m i, owned m (jt + 4 * i) (4 * k) → i + k = 14 → runs (λ '(m, i),
      if i <? 14 then m ← st32 m (jt + 4 * i) (dummy x); Some (Next (m, i + 1)) else Some (Done (m, i)))
    (m, i) (S k) (write_bytes m (jt + 4 * i) (flat_map bytes32 (replicate k (dummy x))), 14)).
  { clear. induction k as [|k IH]; intros m i Ho Hi.
    - apply runs_done. rewrite (proj2 (Z.ltb_ge i 14)) by lia. cbn. by replace i with 14 by lia.
    - eapply runs_next.
      + rewrite (proj2 (Z.ltb_lt i 14)) by lia. rewrite st32_bytes by (eapply owned_mono; [exact Ho|lia|lia]).
        rewrite some_bind. reflexivity.
      + cbn [replicate flat_map]. rewrite write_bytes_app. change (length (bytes32 (dummy x)) : Z) with 4.
        replace (jt + 4 * i + 4) with (jt + 4 * (i + 1)) by lia. apply IH; [|lia].
        apply owned_write. eapply owned_mono; [exact Ho|lia|lia]. }
  specialize (Hrun 14%nat m 0). replace (jt + 4 * 0) with jt in Hrun by lia. by apply Hrun.
Qed.

Lemma jumptable_init_fills a m ns :
  owned m heap_lo (heap_hi - heap_lo) → serves a m (56 :: ns) →
  ∃ a' m' jt, jumptable_init a m x = Some (a', m', jt) ∧
    bytes_at m' jt (flat_map bytes32 jt_words) ∧ block a' m' jt 56 ∧ serves a' m' ns ∧
    (∀ p k, block a m p k →
       block a' m' p k ∧ p ≠ jt ∧ ∀ j, p ≤ j < p + k → m' !! j = m !! j) ∧
    changed heap_lo heap_hi m m'.
Proof.
  intros Hheap Hs. unfold jumptable_init. destruct (malloc a m (XF_MAX * 4)) as [[a1 m1] jt] eqn:E.
  destruct (serves_malloc _ _ _ _ _ _ _ _ Hs (ltac:(done) : 0 < XF_MAX * 4 ≤ 56) E) as [Hjt Hs1].
  apply malloc_spec in E as (Hc & Hb & Hk); [|done|done]. specialize (Hb Hjt).
  destruct (block_owned _ _ _ _ Hb) as (Ho & _ & Hlo & Hhi). unfold XF_MAX in *.
  rewrite jt_loop, some_bind by done. change (14 * 4) with 56 in *. cbv beta iota.
  assert (Ho' : ∀ l : list Z, length l = 56%nat → owned m1 jt (length l)) by (intros l ->; exact Ho).
  change (jt + 4 * XF_get_version) with (jt + 0%nat). change (jt + 4 * XF_malloc) with (jt + 32%nat).
  change (jt + 4 * XF_free) with (jt + 36%nat). change (jt + 4 * XF_get_timer) with (jt + 44%nat).
  change (jt + 4 * XF_udelay) with (jt + 40%nat).
  do 5 (rewrite st32_inside, some_bind by first [by apply Ho'|apply Nat.leb_le; reflexivity]).
  match goal with |- context [write_bytes m1 jt ?l] => change l with (flat_map bytes32 jt_words) end.
  set (w := flat_map bytes32 jt_words). assert (Hw : length w = 56%nat) by done. clearbody w.
  assert (Hcw : changed jt (jt + 56) m1 (write_bytes m1 jt w)) by (apply changed_write; lia).
  do 3 eexists. split; [reflexivity|]. split; [apply write_bytes_in|]. split; [|split; [|split]].
  - eapply block_changed; [exact Hb|exact Hcw|]. left. exists jt, 56. split; [done|]. lia.
  - eapply serves_changed; [exact Hs1|exact Hcw|]. left. exists jt, 56. split; [done|]. lia.
  - intros p k Hp. destruct (Hk p k Hp) as (B1 & N1 & M1).
    destruct (others_changed a1 m1 _ jt 56 _ _ Hb Hcw ltac:(lia) ltac:(lia) p k B1 N1) as (B2 & N2 & M2).
    split; [done|]. split; [done|]. intros j Hj. by rewrite M2, M1.
  - eapply changed_trans; [exact Hc|]. eapply changed_mono; [exact Hcw|lia|lia].
Qed.
End jump_table.
