(* ===== verification/BoardInit.v ===== *)
(** * The second part of the start ([lib_mips/board.c])

    [board_init_r] runs from its final place in RAM: the pointers of the
    command table are moved, the flash is set up, the heap begins, the
    environment and the devices move into it, the variables of the environment
    are read, the console and the network devices are chosen.  The allocator is
    the interface of [Lists]; [heap_start] is its state for an empty arena. *)

From S2P Require Import Prelude.
From S2P Require Import CString.
From S2P Require Import Vsprintf.
From S2P Require Import NetAddr.
From S2P Require Import Crc.
From S2P Require Import Env.
From S2P Require Import Eth.
From S2P Require Import Spi.
From S2P Require Import Soc.
From S2P Require Import Start.
From S2P Require Import Lists.
From S2P Require Import Devices.

Definition GD_FLG_RELOC : Z := 0x00001.
Definition bi_flashstart : Z := 32.
Definition bi_flashsize : Z := 36.
Definition bi_flashoffset : Z := 40.
Definition sizeof_BootFile : Z := 128.

(** The words of the global data behind the pointer [id]. *)
Definition load_gd (m : mem) (id : Z) : option (gd_t * Z * Z) :=
  bd ← ld32 m id;
  flags ← ld32 m (id + 4);
  baud ← ld32 m (id + 8);
  cons ← ld32 m (id + 12);
  ram ← ld32 m (id + 16);
  off ← ld32 m (id + 20);
  addr ← ld32 m (id + 24);
  valid ← ld32 m (id + 28);
  jt ← ld32 m (id + 32);
  Some (Gd bd flags baud cons ram off jt, addr, valid).

(** ** The command table

    [cmd_tbl_t] of [command.h] with the long help. *)

Definition c_name : Z := 0.
Definition c_cmd : Z := 12.
Definition c_usage : Z := 16.
Definition c_help : Z := 20.
Definition sizeof_cmd_tbl : Z := 24.

Definition relocate_ptr (m : mem) (p reloc_off : Z) : option mem :=
  v ← ld32 m p; st32 m p (u32 (v + reloc_off)).

Definition relocate_cmd (m : mem) (cmdtp reloc_off : Z) : option mem :=
  m ← relocate_ptr m (cmdtp + c_cmd) reloc_off;
  m ← relocate_ptr m (cmdtp + c_name) reloc_off;
  usage ← ld32 m (cmdtp + c_usage);
  m ← (if negb (usage =? 0) then relocate_ptr m (cmdtp + c_usage) reloc_off else Some m);
  help ← ld32 m (cmdtp + c_help);
  (if negb (help =? 0) then relocate_ptr m (cmdtp + c_help) reloc_off else Some m).

Definition relocate_commands (m : mem) (start end_ reloc_off : Z) : option mem :=
  while (λ '(m, cmdtp),
    if cmdtp =? end_ then Some (Done m)
    else m ← relocate_cmd m cmdtp reloc_off; Some (Next (m, cmdtp + sizeof_cmd_tbl))) (m, start).

(** ** The crystal ([board/atheros/board953x/extra.c]) *)

Definition WLANCAL : Z := 0x9fff1000.
Definition XTAL_ADDRESS : Z := 0x181162c0.
Definition XTAL2_ADDRESS : Z := 0x181162c4.
Definition XTAL3_ADDRESS : Z := 0x181162c8.
Definition XTAL_XTAL_CAPINDAC_MASK : Z := 0x7f000000.
Definition XTAL_XTAL_CAPOUTDAC_MASK : Z := 0x00fe0000.
Definition XTAL_TCXODET_SET := field 31 0x80000000.
Definition XTAL_XTAL_CAPINDAC_SET := field 24 XTAL_XTAL_CAPINDAC_MASK.
Definition XTAL_XTAL_CAPOUTDAC_SET := field 17 XTAL_XTAL_CAPOUTDAC_MASK.
Definition XTAL_XTAL_DRVSTR_SET := field 15 0x00018000.
Definition XTAL_XTAL_SHORTXIN_SET := field 14 0x00004000.
Definition XTAL_XTAL_LOCALBIAS_SET := field 13 0x00002000.
Definition XTAL_XTAL_PWDCLKD_SET := field 12 0x00001000.
Definition XTAL_XTAL_BIAS2X_SET := field 11 0x00000800.
Definition XTAL_XTAL_LBIAS2X_SET := field 10 0x00000400.
Definition XTAL_XTAL_OSCON_SET := field 8 0x00000100.
Definition XTAL_XTAL_PWDCLKIN_SET := field 7 0x00000080.
Definition XTAL_LOCAL_XTAL_SET := field 6 0x00000040.
Definition XTAL_PWD_SWREGCLK_SET := field 5 0x00000020.
Definition XTAL_SPARE_SET := field 0 0x00000001.
Definition XTAL2_DCA_BYPASS_SET := field 10 0x00000400.
Definition XTAL2_FSM_START_L_SET := field 7 0x00000080.
Definition XTAL3_EVAL_LENGTH_SET := field 16 0x07ff0000.
Definition XTAL3_HARMONIC_NUMBER_SET := field 2 0x00007ffc.

(** Offsets into the calibration data of the radio. *)
Definition params_for_tuning_caps : Z := 0x28.
Definition featureEnable : Z := 0x2a.

(** The word for the crystal; the calibration lies in the flash. *)
Definition tuning_caps (m : mem) : option Z :=
  let val := fields [XTAL_TCXODET_SET 0x0; XTAL_XTAL_CAPINDAC_SET 0x4b; XTAL_XTAL_CAPOUTDAC_SET 0x4b;
    XTAL_XTAL_DRVSTR_SET 0x3; XTAL_XTAL_SHORTXIN_SET 0x0; XTAL_XTAL_LOCALBIAS_SET 0x1;
    XTAL_XTAL_PWDCLKD_SET 0x0; XTAL_XTAL_BIAS2X_SET 0x0; XTAL_XTAL_LBIAS2X_SET 0x0;
    XTAL_XTAL_OSCON_SET 0x1; XTAL_XTAL_PWDCLKIN_SET 0x0; XTAL_LOCAL_XTAL_SET 0x0;
    XTAL_PWD_SWREGCLK_SET 0x0; XTAL_SPARE_SET 0x0] in
  feature ← ld m (WLANCAL + featureEnable);
  calibrated ← (if negb (Z.land feature 0x40 =? 0) then pad ← ld m WLANCAL; Some (negb (pad =? 0xff))
                else Some false);
  if calibrated : bool then
    caps ← ld m (WLANCAL + params_for_tuning_caps);
    caps2 ← ld m (WLANCAL + params_for_tuning_caps);
    let val := Z.land val (Z.lnot (Z.lor XTAL_XTAL_CAPINDAC_MASK XTAL_XTAL_CAPOUTDAC_MASK)) in
    Some (Z.lor val (Z.lor (XTAL_XTAL_CAPINDAC_SET caps) (XTAL_XTAL_CAPOUTDAC_SET caps2)))
  else Some val.

Definition ath_set_tuning_caps {S : Type} `{Bus S} (s : S) (m : mem) : option S :=
  val ← tuning_caps m;
  let s := ath_reg_wr s XTAL_ADDRESS val in
  let s := ath_reg_wr s XTAL2_ADDRESS (fields [XTAL2_DCA_BYPASS_SET 0x1; XTAL2_FSM_START_L_SET 0x1]) in
  Some (ath_reg_wr s XTAL3_ADDRESS (fields [XTAL3_EVAL_LENGTH_SET 0x400; XTAL3_HARMONIC_NUMBER_SET 0x51])).

(** ** [board_init_r] *)

(** The command table, the literals and the array [stdio_names]. *)
Record init_places := InitPlaces {
  cmd_start : Z;
  cmd_end : Z;
  lit_ethaddr : Z;
  lit_ipaddr : Z;
  lit_loadaddr : Z;
  lit_bootfile : Z;
  lit_setenv : Z;
  stdio_names : list Z
}.

Definition set_addresses (mac : list Z) (ip : Z) (b : board) : board :=
  Board (stdio_devices b) (devlist b) (baudrate b) (serial_input b) mac ip
    (load_addr b) (BootFile b) (eth_devices b).
Definition set_load_addr (a : Z) (b : board) : board :=
  Board (stdio_devices b) (devlist b) (baudrate b) (serial_input b) (bi_enetaddr b) (bi_ip_addr b)
    a (BootFile b) (eth_devices b).

(** What is there when the services run. *)
Record services (S A : Type) := Services {
  sv_bus : S;
  sv_env : env;
  sv_heap : A;
  sv_mem : mem;
  sv_board : board;
  sv_gd : gd_t;
  sv_devlist : list_t
}.
Arguments Services {S A}.
Arguments sv_bus {S A}.
Arguments sv_env {S A}.
Arguments sv_heap {S A}.
Arguments sv_mem {S A}.
Arguments sv_board {S A}.
Arguments sv_gd {S A}.
Arguments sv_devlist {S A}.

Section init.
Context {S A : Type} `{Bus S} `{Heap A}.
Context (pl : init_places) (dp : dev_places) (x : exports) (start_call : Z → Z) (heap_start : arena → A).
Implicit Types (s : S) (a : A) (e : env) (m : mem) (b : board) (g : gd_t).

(** Up to the variables of the environment.  The global data are those at
    [id]; [pci_init] returns at once on this product. *)
Definition init_services s e m b (id dest_addr : Z) : option (services S A) :=
  '(g, ea, ev) ← load_gd m id;
  let e := Env (env_ptr e) ea ev (in_ram e) (default_environment e) (default_environment_size e) in
  let reloc_off := u32 (dest_addr - CFG_MONITOR_BASE) in
  let flags := Z.lor (gd_flags g) GD_FLG_RELOC in
  m ← relocate_commands m (cmd_start pl) (cmd_end pl) reloc_off;
  let '(s, info) := flash_init s in
  m ← st32 m (gd_bd g + bi_flashstart) CFG_FLASH_BASE;
  m ← st32 m (gd_bd g + bi_flashsize) (Spi.size info);
  m ← st32 m (gd_bd g + bi_flashoffset) 0;
  '(m, heap) ← mem_malloc_init m reloc_off;
  let '(a, m, p) := malloc (heap_start heap) m CFG_ENV_SIZE in
  '(m, e) ← env_relocate e m p;
  ethaddr ← getenv e m (lit_ethaddr pl);
  mac ← read_enetaddr m ethaddr;
  ipaddr ← getenv e m (lit_ipaddr pl);
  ip ← string_to_ip m ipaddr;
  let b := set_addresses mac ip b in
  '(a, m, names, l, _) ← devices_init dp a m reloc_off (stdio_names pl);
  '(a, m, jt) ← jumptable_init a m x;
  l ← l;
  '(m, b, flags) ← console_init_r start_call e m b l (lit_setenv pl) names flags;
  v ← getenv e m (lit_loadaddr pl);
  b ← (if negb (v =? NULL) then '(addr, _) ← simple_strtoul m v 16; Some (set_load_addr addr b)
       else Some b);
  v ← getenv e m (lit_bootfile pl);
  m ← (if negb (v =? NULL) then copy_filename m (BootFile b) v sizeof_BootFile else Some m);
  Some (Services s e a m b
    (Gd (gd_bd g) flags (gd_baudrate g) (gd_have_console g) (gd_ram_size g) reloc_off jt) l).

(** Up to the first call of [main_loop], which is repeated for ever. *)
Definition board_init_r {D : Type} `{EthDriver D} (lits : ethlits)
    (ath_gmac_enet_initialize : env → ethsw D → mem → board → option (ethsw D * mem * board))
    s e m b (sw : ethsw D) (enetvar id dest_addr : Z) : option (services S A * ethsw D) :=
  sv ← init_services s e m b id dest_addr;
  '(sw, m, b, _) ← eth_initialize (sv_env sv) lits (ath_gmac_enet_initialize (sv_env sv)) sw
    (sv_mem sv) (sv_board sv) enetvar;
  s ← ath_set_tuning_caps (sv_bus sv) m;
  Some (Services s (sv_env sv) (sv_heap sv) m b (sv_gd sv) (sv_devlist sv), sw).
End init.

(** ** The command table *)

Lemma write_bytes_same m p l : bytes_at m p l → write_bytes m p l = m.
Proof.
  intros H. apply map_eq. intros j. rewrite write_bytes_lookup.
  destruct (decide _) as [Hj|]; [|done]. destruct (l !! Z.to_nat (j - p)) as [x|] eqn:E.
  - specialize (H _ _ E). rewrite Z2Nat.id in H by lia. by replace (p + (j - p)) with j in H by lia.
  - apply lookup_ge_None in E. lia.
Qed.

Definition is_word (w : Z) : Prop := 0 ≤ w < 4294967296.

(** An entry with its words. *)
Record cmd_words := CmdWords {
  w_name : Z;
  w_maxargs : Z;
  w_repeatable : Z;
  w_cmd : Z;
  w_usage : Z;
  w_help : Z
}.

Definition cmd_list (c : cmd_words) : list Z :=
  [w_name c; w_maxargs c; w_repeatable c; w_cmd c; w_usage c; w_help c].
Definition cmd_bytes (c : cmd_words) : list Z := flat_map bytes32 (cmd_list c).

(** The pointers move, those that are not there stay [NULL]. *)
Definition moved_ptr (off p : Z) : Z := if p =? 0 then 0 else u32 (p + off).
Definition moved (off : Z) (c : cmd_words) : cmd_words :=
  CmdWords (u32 (w_name c + off)) (w_maxargs c) (w_repeatable c) (u32 (w_cmd c + off))
    (moved_ptr off (w_usage c)) (moved_ptr off (w_help c)).

Lemma relocate_ptr_inside m p (i : nat) (y : list Z) v off :
  owned m p (length y) → (i + 4 ≤ length y)%nat → take 4 (drop i y) = bytes32 v → is_word v →
  ld32 (write_bytes m p y) (p + i) = Some v ∧
  relocate_ptr (write_bytes m p y) (p + i) off =
    Some (write_bytes m p (take i y ++ bytes32 (u32 (v + off)) ++ drop (i + 4) y)).
Proof.
  intros Ho Hi Hy Hv. assert (E : ld32 (write_bytes m p y) (p + i) = Some v).
  { apply ld32_word; [|done]. unfold word_at. change [_; _; _; _] with (bytes32 v). rewrite <- Hy.
    apply bytes_at_take, bytes_at_drop; [apply write_bytes_in|lia]. }
  split; [done|]. unfold relocate_ptr. rewrite E, some_bind. by apply st32_inside.
Qed.

(** The word [v] at [i] of what has been written at [p]. *)
Ltac entry_ptr p i v Hl :=
  match goal with
  | |- context [write_bytes ?m p ?y] =>
      match goal with
      | |- context [relocate_ptr _ _ ?off] =>
          let E := fresh "E" in
          assert (E := relocate_ptr_inside m p i y v off ltac:(by apply Hl)
            ltac:(apply Nat.leb_le; reflexivity) ltac:(reflexivity) ltac:(done))
      end
  end.

(** One entry. *)
Lemma relocate_cmd_moves m p c off :
  bytes_at m p (cmd_bytes c) → Forall is_word (cmd_list c) →
  relocate_cmd m p off = Some (write_bytes m p (cmd_bytes (moved off c))).
Proof.
  intros Hm Hw. pose proof (bytes_at_owned _ _ _ Hm) as Ho.
  rewrite <- (write_bytes_same m p (cmd_bytes c) Hm) at 1. clear Hm.
  destruct c as [nm ma rp cm us hp]. change (length (cmd_bytes _)) with 24%nat in Ho.
  repeat (apply Forall_cons_iff in Hw as [? Hw]). cbn [w_name w_maxargs w_repeatable w_cmd w_usage w_help] in *.
  unfold relocate_cmd. change (p + c_cmd) with (p + 12%nat). change (p + c_name) with (p + 0%nat).
  change (p + c_usage) with (p + 16%nat). change (p + c_help) with (p + 20%nat).
  assert (Hl : ∀ y : list Z, length y = 24%nat → owned m p (length y)) by by intros y ->.
  entry_ptr p 12%nat cm Hl. destruct E as [_ ->]. rewrite some_bind.
  entry_ptr p 0%nat nm Hl. destruct E as [_ ->]. rewrite some_bind.
  match goal with |- context [write_bytes m p ?y] => set (y1 := y) end.
  entry_ptr p 16%nat us Hl. destruct E as [-> E1]. rewrite some_bind.
  assert (E2 : (if negb (us =? 0) then relocate_ptr (write_bytes m p y1) (p + 16%nat) off
     else Some (write_bytes m p y1)) =
    Some (write_bytes m p (take 16 y1 ++ bytes32 (moved_ptr off us) ++ drop 20 y1))).
  { unfold moved_ptr. destruct (Z.eqb_spec us 0) as [->|Hne]; [done|exact E1]. }
  rewrite E2, some_bind. set (y2 := take 16 y1 ++ _). clear E1 E2.
  entry_ptr p 20%nat hp Hl. destruct E as [-> E3]. rewrite some_bind. unfold moved, moved_ptr.
  cbn [w_name w_maxargs w_repeatable w_cmd w_usage w_help].
  destruct (Z.eqb_spec hp 0) as [->|Hne]; [done|]. cbn [negb]. rewrite E3. done.
Qed.

(** The whole table. *)
Lemma relocate_commands_moves tbl off : ∀ m p,
  bytes_at m p (flat_map cmd_bytes tbl) → Forall (λ c, Forall is_word (cmd_list c)) tbl →
  length tbl < 4294967296 →
  relocate_commands m p (p + 24 * length tbl) off =
    Some (write_bytes m p (flat_map cmd_bytes (map (moved off) tbl))).
Proof.
  intros m p Hm Hw Hn. unfold relocate_commands. set (end_ := p + 24 * length tbl).
  apply (while_runs _ _ (Datatypes.S (length tbl))); [|lia]. clear Hn.
  assert (Hend : end_ = p + 24 * length tbl) by done. clearbody end_.
  revert m p Hm Hw Hend. induction tbl as [|c tbl IH]; intros m p Hm Hw Hend.
  - apply runs_done. rewrite (proj2 (Z.eqb_eq p end_)) by (cbn [length] in Hend; lia). done.
  - cbn [flat_map map length] in *. apply bytes_at_app in Hm as [Hc Hm].
    apply Forall_cons_iff in Hw as [Hwc Hw]. change (length (cmd_bytes c) : Z) with 24 in Hm.
    eapply runs_next.
    + rewrite (proj2 (Z.eqb_neq p end_)) by lia.
      rewrite (relocate_cmd_moves m p c off Hc Hwc), some_bind. reflexivity.
    + rewrite write_bytes_app. change (length (cmd_bytes (moved off c)) : Z) with 24.
      apply IH; [|done|unfold sizeof_cmd_tbl; lia].
      apply bytes_at_write_disjoint; [|done]. change (length (cmd_bytes (moved off c)) : Z) with 24.
      unfold sizeof_cmd_tbl. lia.
Qed.

(** The global data, as [settle] has put them there. *)
Lemma load_gd_words m id ea ev g :
  bytes_at m id (flat_map bytes32 (gd_words ea ev g)) → Forall is_word (gd_words ea ev g) →
  load_gd m id = Some (g, ea, ev).
Proof.
  intros Hm Hw. destruct g as [bd fl ba co ra off jt]. unfold gd_words in *.
  cbn [gd_bd gd_flags gd_baudrate gd_have_console gd_ram_size gd_reloc_off gd_jt] in *.
  repeat (apply Forall_cons_iff in Hw as [? Hw]).
  assert (Hr : ∀ (i : nat) z v, z = Z.of_nat i → (i ≤ 36)%nat → is_word v →
    take 4 (drop i (flat_map bytes32 [bd; fl; ba; co; ra; off; ea; ev; jt])) = bytes32 v → ld32 m (id + z) = Some v).
  { intros i z v -> Hi Hv E. apply ld32_word; [|done]. unfold word_at. change [_; _; _; _] with (bytes32 v). rewrite <- E.
    apply bytes_at_take. apply bytes_at_drop; [done|]. exact Hi. }
  unfold load_gd. pose proof (Hr 0%nat 0 bd) as E0. rewrite Z.add_0_r in E0.
  rewrite E0, some_bind, (Hr 4%nat 4 fl), some_bind, (Hr 8%nat 8 ba), some_bind, (Hr 12%nat 12 co), some_bind,
    (Hr 16%nat 16 ra), some_bind, (Hr 20%nat 20 off), some_bind, (Hr 24%nat 24 ea), some_bind,
    (Hr 28%nat 28 ev), some_bind, (Hr 32%nat 32 jt), some_bind by (done || lia). done.
Qed.

(** What the first part has stored is what the second one finds. *)
Lemma settled_gd p ea ev g r m :
  settled p ea ev g r m → Forall is_word (gd_words ea ev g) → load_gd m (new_gd r) = Some (g, ea, ev).
Proof. intros Hs. rewrite (se_call _ _ _ _ _ _ Hs). apply load_gd_words, Hs. Qed.

(** ** The crystal *)

(** Both capacities are 0x4b, or both are the byte of the calibration. *)
Lemma tuning_caps_value m feature pad caps :
  ld m (WLANCAL + featureEnable) = Some feature → ld m WLANCAL = Some pad →
  ld m (WLANCAL + params_for_tuning_caps) = Some caps → is_byte caps →
  let c := if negb (Z.land feature 0x40 =? 0) && negb (pad =? 0xff) then caps else 0x4b in
  tuning_caps m =
    Some (Z.lor (Z.lor 0x18000 0x2100) (Z.lor (XTAL_XTAL_CAPINDAC_SET c) (XTAL_XTAL_CAPOUTDAC_SET c))).
Proof.
  intros Hf Hp Hc Hb c. unfold tuning_caps. rewrite Hf, some_bind. subst c.
  destruct (Z.land feature 64 =? 0); cbn [negb andb]; [by rewrite some_bind|].
  rewrite Hp, !some_bind. destruct (pad =? 255); cbn [negb]; [done|]. by rewrite Hc, !some_bind.
Qed.

(** ** The environment in its block *)

Section env_block.
Implicit Types (e : env) (m : mem) (es : list entry) (n v : list Z).

(** The block is as it was. *)
Definition env_same e m m' : Prop :=
  ∀ j, env_ptr e ≤ j < env_ptr e + CFG_ENV_SIZE → m' !! j = m !! j.

Lemma env_same_bytes e m m' p l :
  env_same e m m' → env_ptr e ≤ p → p + length l ≤ env_ptr e + CFG_ENV_SIZE → bytes_at m p l → bytes_at m' p l.
Proof.
  intros Hs H1 H2 Hm i x Hi. pose proof (lookup_lt_Some _ _ _ Hi). rewrite Hs by lia. by apply Hm.
Qed.

Lemma env_rep_same e m m' es : env_rep e m es → env_same e m m' → env_rep e m' es.
Proof.
  intros H Hs. pose proof (env_rep_base _ _ _ H) as Hbase. destruct H. split; try done.
  - intros i Hi. rewrite Hs by lia. by apply er_area.
  - eapply env_same_bytes; [exact Hs|lia| |done].
    unfold ENV_SIZE, CFG_ENV_SIZE, ENV_HEADER_SIZE in *. unfold env_text. destruct es; [cbn; lia|].
    rewrite length_app. cbn [length]. lia.
Qed.

Lemma crc_ok_same e m m' es : env_rep e m es → crc_ok e m → env_same e m m' → crc_ok e m'.
Proof.
  intros H (c & Hc & Hw) Hs. pose proof (env_rep_base _ _ _ H) as Hbase. pose proof (er_area _ _ _ H) as Ha.
  exists c. split; [|eapply env_same_bytes; [exact Hs|lia|unfold CFG_ENV_SIZE; cbn [length]; lia|exact Hw]].
  destruct (byte_area_list m (env_base e) (Z.to_nat ENV_SIZE)) as (l & Hl & Hbl & Hbb).
  { eapply byte_area_mono; [exact Ha|lia|]. unfold ENV_SIZE, CFG_ENV_SIZE, ENV_HEADER_SIZE. lia. }
  assert (Hlz : (length l : Z) = ENV_SIZE) by (rewrite Hl; done).
  assert (Hf : fits l) by (unfold fits; rewrite Hlz; done). rewrite <- Hlz in Hc |- *.
  rewrite crc32_bytes in Hc by done. rewrite crc32_bytes; [done| |done|done].
  eapply env_same_bytes; [exact Hs|lia| |done]. rewrite Hlz. unfold ENV_SIZE, CFG_ENV_SIZE, ENV_HEADER_SIZE. lia.
Qed.

(** Only the block changes, and it stays a block. *)
Lemma env_block_changed e m m' es :
  env_rep e m' es → same_out (env_ptr e) (env_ptr e + CFG_ENV_SIZE) m m' →
  changed (env_ptr e) (env_ptr e + CFG_ENV_SIZE) m m'.
Proof.
  intros H Hs. split; [done|]. intros j Hj.
  destruct (decide (env_ptr e ≤ j < env_ptr e + CFG_ENV_SIZE)) as [Hin|Hout]; [|by rewrite Hs].
  destruct (er_area _ _ _ H (j - env_ptr e)) as (y & Hy & _); [lia|].
  replace (env_ptr e + (j - env_ptr e)) with j in Hy by lia. by exists y.
Qed.

(** The value of a variable, in the block. *)
Lemma env_value e m es name n :
  env_rep e m es → cstr m name n → 61 ∉ n → fits n →
  ∃ p, getenv e m name = Some p ∧
    match lookup_env n es with
    | Some v => env_ptr e ≤ p ∧ p + length v < env_ptr e + CFG_ENV_SIZE ∧ 0 < p ∧ fits v ∧ cstr m p v
    | None => p = NULL
    end.
Proof.
  intros H Hn H61 Hf. pose proof (env_rep_base _ _ _ H) as Hbase. pose proof (er_pos _ _ _ H) as Hpos.
  pose proof (er_len _ _ _ H) as Hlen. unfold ENV_SIZE, CFG_ENV_SIZE, ENV_HEADER_SIZE in *.
  destruct (getenv_place e m es name n (env_rep_entries _ _ _ H)) as (p & E & Hp); try done; [unfold CFG_ENV_SIZE; lia|].
  exists p. split; [done|]. destruct (lookup_env n es) as [v|]; [|done].
  destruct Hp as [Hp Hv]. unfold fits. split; [lia|]. split; [lia|]. split; [lia|]. split; [lia|done].
Qed.

Lemma lookup_env_app n es es' : n ∉ names es' → lookup_env n (es ++ es') = lookup_env n es.
Proof.
  intros Hn. induction es as [|[k v] es IH]; cbn [lookup_env app].
  - induction es' as [|[k v] es' IH]; [done|]. cbn [lookup_env names map] in *.
    rewrite not_elem_of_cons in Hn. rewrite decide_False by (intros ->; tauto). apply IH. tauto.
  - destruct (decide _); [done|exact IH].
Qed.
End env_block.

(** ** The services *)

Section services.
Context {S A : Type} `{Bus S} `{HeapLaws A}.
Context (pl : init_places) (dp : dev_places) (x : exports) (start_call : Z → Z) (heap_start : arena → A).
Context (e : env) (m : mem) (b : board) (id dest_addr : Z) (g : gd_t) (ea : Z).
Context (tbl : list cmd_words) (es : list entry).
Implicit Types (s : S) (a : A).

Definition reloc_of : Z := u32 (dest_addr - CFG_MONITOR_BASE).

(** What is written. *)
Definition areas : list (Z * Z) :=
  [(cmd_start pl, 24 * length tbl); (gd_bd g + bi_flashstart, 12); (heap_lo, TOTAL_MALLOC_LEN);
   (dev dp, sizeof_device_t); (BootFile b, sizeof_BootFile)].

(** The strings that are read. *)
Definition strings : list (Z * list Z) :=
  [(lit_ethaddr pl, lit "ethaddr"); (lit_ipaddr pl, lit "ipaddr"); (lit_loadaddr pl, lit "loadaddr");
   (lit_bootfile pl, lit "bootfile"); (lit_serial dp, lit "serial")] ++
  zip (map (λ y, u32 (y + reloc_of)) (stdio_names pl)) stdio_texts.

Definition default_block : list Z := flat es ++ [0; 0].
Definition vars : list entry := es ++ map (λ n, (n, lit "serial")) stdio_texts.

Record services_room : Prop := ServicesRoom {
  sr_gd : bytes_at m id (flat_map bytes32 (gd_words ea 0 g)) ∧ Forall is_word (gd_words ea 0 g);
  sr_cmds : bytes_at m (cmd_start pl) (flat_map cmd_bytes tbl) ∧ cmd_end pl = cmd_start pl + 24 * length tbl;
  sr_words : Forall (λ c, Forall is_word (cmd_list c)) tbl ∧ length tbl < 4294967296;
  sr_heap : heap_hi = dest_addr ∧ heap_lo + TOTAL_MALLOC_LEN = dest_addr ∧ 0 < heap_lo ∧ dest_addr < 4294967296;
  sr_serves m' : bytes_at m' heap_lo (replicate (Z.to_nat TOTAL_MALLOC_LEN) 0) →
    serves (heap_start (Arena heap_lo heap_hi heap_lo)) m' [CFG_ENV_SIZE; 28; 8; 288; 56];
  sr_default : bytes_at m (default_environment e) default_block ∧
    default_environment_size e = length default_block ∧
    Forall (apart (default_environment e, Z.of_nat (length default_block))) areas;
  sr_entries : Forall entry_ok es ∧ NoDup (names es ++ stdio_texts) ∧ length (flat vars) + 1 ≤ ENV_SIZE;
  sr_strings : Forall (λ z, cstr m z.1 z.2 ∧ Forall (apart (z.1, length z.2 + 1)) areas) strings;
  sr_names : length (stdio_names pl) = 3%nat;
  sr_owned : Forall (λ z, owned m z.1 z.2) areas;
  sr_apart : ForallOrdPairs apart areas;
  sr_dev : dev dp ≠ NULL;
  sr_files : length (stdio_devices b) = 3%nat
}.

(** What is there afterwards. *)
Record services_ready (sv : services S A) : Prop := ServicesReady {
  rd_cmds : bytes_at (sv_mem sv) (cmd_start pl) (flat_map cmd_bytes (map (moved reloc_of) tbl));
  rd_flash : bytes_at (sv_mem sv) (gd_bd g + bi_flashstart)
    (flat_map bytes32 [CFG_FLASH_BASE; CFG_FLASH_SIZE; 0]);
  rd_env : env_rep (sv_env sv) (sv_mem sv) vars ∧ crc_ok (sv_env sv) (sv_mem sv);
  rd_list : list_rep (sv_heap sv) (sv_mem sv) (sv_devlist sv) [serial_device dp];
  rd_console : stdio_devices (sv_board sv) = [Some 0%nat; Some 0%nat; Some 0%nat] ∧
    devlist (sv_board sv) = [serial_dev (sv_devlist sv)];
  rd_mac : bi_enetaddr (sv_board sv) =
    match lookup_env (lit "ethaddr") es with Some v => enet_text 6 v | None => replicate 6 0 end;
  rd_ip : bi_ip_addr (sv_board sv) =
    match lookup_env (lit "ipaddr") es with Some v => ip_numbers 4 0 v | None => 0 end;
  rd_load : load_addr (sv_board sv) =
    match lookup_env (lit "loadaddr") es with Some v => (strtoul_l v 16).1 | None => load_addr b end;
  rd_boot : match lookup_env (lit "bootfile") es with
    | Some v => bytes_at (sv_mem sv) (BootFile b) (file_name 127 v ++ [0])
    | None => True
    end;
  rd_jt : bytes_at (sv_mem sv) (gd_jt (sv_gd sv)) (flat_map bytes32 (jt_words x));
  rd_gd : sv_gd sv = Gd (gd_bd g) (Z.lor (Z.lor (gd_flags g) GD_FLG_RELOC) GD_FLG_DEVINIT) (gd_baudrate g)
    (gd_have_console g) (gd_ram_size g) reloc_of (gd_jt (sv_gd sv))
}.

Context (R : services_room).

Lemma strings_kept m' : touches (inside areas) m m' → Forall (λ z, cstr m' z.1 z.2) strings.
Proof using R.
  intros Ht. eapply Forall_impl; [|exact (sr_strings R)]. intros z [Hz Ha]. by eapply cstr_areas.
Qed.

(** The parts of the areas, one by one. *)
Lemma areas_owned :
  owned m (gd_bd g + bi_flashstart) 12 ∧ owned m heap_lo TOTAL_MALLOC_LEN ∧
  owned m (dev dp) sizeof_device_t ∧ owned m (BootFile b) sizeof_BootFile.
Proof using R.
  pose proof (sr_owned R) as Ho. unfold areas in Ho. apply Forall_cons_iff in Ho as [_ Ho].
  apply Forall_cons_iff in Ho as [K1 Ho]. apply Forall_cons_iff in Ho as [K2 Ho].
  apply Forall_cons_iff in Ho as [K3 Ho]. apply Forall_cons_iff in Ho as [K4 _]. done.
Qed.

Lemma length_cmds off : Z.of_nat (length (flat_map cmd_bytes (map (moved off) tbl))) = 24 * length tbl.
Proof.
  clear. induction tbl as [|k l IH]; [done|]. cbn [map flat_map length]. rewrite length_app.
  change (length (cmd_bytes (moved off k))) with 24%nat. lia.
Qed.

(** Up to the heap. *)
Lemma heap_begins :
  ∃ m1 m2 m3 m4 m5, relocate_commands m (cmd_start pl) (cmd_end pl) reloc_of = Some m1 ∧
    st32 m1 (gd_bd g + bi_flashstart) CFG_FLASH_BASE = Some m2 ∧
    st32 m2 (gd_bd g + bi_flashsize) CFG_FLASH_SIZE = Some m3 ∧
    st32 m3 (gd_bd g + bi_flashoffset) 0 = Some m4 ∧
    mem_malloc_init m4 reloc_of = Some (m5, Arena heap_lo heap_hi heap_lo) ∧
    touches (inside areas) m m5 ∧
    bytes_at m5 heap_lo (replicate (Z.to_nat TOTAL_MALLOC_LEN) 0) ∧
    bytes_at m5 (cmd_start pl) (flat_map cmd_bytes (map (moved reloc_of) tbl)) ∧
    bytes_at m5 (gd_bd g + bi_flashstart) (flat_map bytes32 [CFG_FLASH_BASE; CFG_FLASH_SIZE; 0]).
Proof using R.
  destruct (sr_cmds R) as [Hc ->]. destruct (sr_words R) as [Hw Hn].
  destruct areas_owned as (Ofl & Oh & _ & _). destruct (sr_heap R) as (Hhi & Hlo & Hp & H32).
  set (c := flat_map cmd_bytes (map (moved reloc_of) tbl)).
  assert (Hlc : Z.of_nat (length c) = 24 * length tbl) by apply length_cmds.
  set (fl := gd_bd g + bi_flashstart) in *.
  set (w := flat_map bytes32 [CFG_FLASH_BASE; CFG_FLASH_SIZE; 0]).
  set (z := replicate (Z.to_nat TOTAL_MALLOC_LEN) 0).
  assert (Hlz : Z.of_nat (length z) = TOTAL_MALLOC_LEN) by (unfold z; by rewrite length_replicate, Z2Nat.id by done).
  set (m1 := write_bytes m (cmd_start pl) c).
  assert (O1 : owned m1 fl 12) by (by apply owned_write).
  assert (E : ∃ m2 m3, st32 m1 fl CFG_FLASH_BASE = Some m2 ∧ st32 m2 (gd_bd g + bi_flashsize) CFG_FLASH_SIZE = Some m3 ∧
    st32 m3 (gd_bd g + bi_flashoffset) 0 = Some (write_bytes m1 fl w)).
  { replace (gd_bd g + bi_flashsize) with (fl + 4) by (unfold fl, bi_flashstart, bi_flashsize; lia).
    replace (gd_bd g + bi_flashoffset) with (fl + 4 + 4) by (unfold fl, bi_flashstart, bi_flashoffset; lia).
    do 2 eexists. split; [apply st32_bytes; eapply owned_mono; [exact O1|lia|lia]|].
    split; [apply st32_bytes, owned_write; eapply owned_mono; [exact O1|lia|lia]|].
    rewrite st32_bytes by (apply owned_write, owned_write; eapply owned_mono; [exact O1|lia|lia]).
    f_equal. unfold w. cbn [flat_map]. rewrite app_nil_r. by rewrite !write_bytes_app. }
  destruct E as (m2 & m3 & E2 & E3 & E4). set (m4 := write_bytes m1 fl w) in *.
  exists m1, m2, m3, m4, (write_bytes m4 heap_lo z).
  split; [by apply relocate_commands_moves|]. split; [done|]. split; [done|]. split; [done|].
  pose proof (sr_apart R) as Hap. unfold areas in Hap. fold fl in Hap.
  inversion Hap as [|? ? Hap1 Hap2]; subst. inversion Hap2 as [|? ? Hap3 _]; subst.
  apply Forall_cons_iff in Hap1 as [Ha1 Hap1]. apply Forall_cons_iff in Hap1 as [Ha2 _].
  apply Forall_cons_iff in Hap3 as [Ha3 _]. unfold apart in Ha1, Ha2, Ha3. cbn [fst snd] in Ha1, Ha2, Ha3.
  split; [|split; [|split; [|split]]].
  - assert (Ed : u32 (CFG_MONITOR_BASE + reloc_of) = heap_hi).
    { unfold reloc_of, u32. rewrite Zplus_mod_idemp_r, Zplus_minus, Z.mod_small; lia. }
    unfold mem_malloc_init. rewrite Ed. rewrite (u32_small (heap_hi - TOTAL_MALLOC_LEN)) by (change TOTAL_MALLOC_LEN with 196608 in *; lia).
    replace (heap_hi - TOTAL_MALLOC_LEN) with heap_lo by lia. replace (heap_hi - heap_lo) with TOTAL_MALLOC_LEN by lia.
    change (u32 TOTAL_MALLOC_LEN) with TOTAL_MALLOC_LEN. pose proof (memset_bytes m4 heap_lo 0 (Z.to_nat TOTAL_MALLOC_LEN)) as Hset.
    rewrite Z2Nat.id in Hset by discriminate. fold z in Hset.
    assert (Oh' : owned m4 heap_lo TOTAL_MALLOC_LEN) by (by apply owned_write, owned_write).
    rewrite (Hset Oh' (ltac:(reflexivity) : TOTAL_MALLOC_LEN < 4294967296)), some_bind. reflexivity.
  - eapply touches_trans; [apply (touches_write areas (cmd_start pl) (24 * length tbl) m (cmd_start pl) c); [by left|lia|lia]|].
    eapply touches_trans; [apply (touches_write areas fl 12 m1 fl w); [by right; left|lia|cbn; lia]|].
    apply (touches_write areas heap_lo TOTAL_MALLOC_LEN); [by right; right; left|lia|lia].
  - apply write_bytes_in.
  - apply bytes_at_write_disjoint; [lia|]. apply bytes_at_write_disjoint; [cbn [length w flat_map app bytes32]; lia|].
    apply write_bytes_in.
  - apply bytes_at_write_disjoint; [change (length w : Z) with 12 in *; lia|]. apply write_bytes_in.
Qed.
Lemma vars_length : Z.of_nat (length (flat vars)) = length (flat es) + 41.
Proof. unfold vars. rewrite flat_app, length_app. change (length (flat (map _ stdio_texts))) with 41%nat. lia. Qed.

Lemma heap_inside j : heap_lo ≤ j < heap_lo + TOTAL_MALLOC_LEN → inside areas j.
Proof. intros Hj. right. right. left. exact Hj. Qed.

(** The environment moves into the heap. *)
Lemma environment_moves m5 :
  touches (inside areas) m m5 → bytes_at m5 heap_lo (replicate (Z.to_nat TOTAL_MALLOC_LEN) 0) →
  ∃ a m6 p m7 e', malloc (heap_start (Arena heap_lo heap_hi heap_lo)) m5 CFG_ENV_SIZE = (a, m6, p) ∧
    env_relocate (Env (env_ptr e) ea 0 (in_ram e) (default_environment e) (default_environment_size e)) m6 p =
      Some (m7, e') ∧
    env_ptr e' = p ∧ env_rep e' m7 es ∧ crc_ok e' m7 ∧
    block a m7 p CFG_ENV_SIZE ∧ serves a m7 [28; 8; 288; 56] ∧ changed heap_lo heap_hi m5 m7.
Proof using R.
  intros Ht Hz. pose proof (sr_serves R m5 Hz) as Hs. destruct (sr_heap R) as (Hhi & Hlo & Hp0 & _).
  destruct areas_owned as (_ & Oh & _ & _). pose proof (touches_owned _ _ _ _ _ Ht Oh) as Oh5.
  replace TOTAL_MALLOC_LEN with (heap_hi - heap_lo) in Oh5 by lia.
  destruct (malloc _ m5 CFG_ENV_SIZE) as [[a m6] p] eqn:E.
  destruct (serves_malloc _ _ _ _ _ _ _ _ Hs (ltac:(done) : 0 < CFG_ENV_SIZE ≤ CFG_ENV_SIZE) E) as [Hp Hs6].
  apply malloc_spec in E as (Hc6 & Hb6 & _); [|done|done]. specialize (Hb6 Hp).
  destruct (block_owned _ _ _ _ Hb6) as (Op & Hpp & Hplo & Hphi).
  destruct (sr_default R) as (Hd & Hsz & Ha). destruct (sr_entries R) as (Hok & Hnd & Hlen).
  rewrite vars_length in Hlen. pose proof (Forall_inv (Forall_inv_tail (Forall_inv_tail Ha))) as Hah.
  unfold apart in Hah. cbn [fst snd] in Hah.
  assert (Hdl : (length default_block : Z) = length (flat es) + 2) by (unfold default_block; rewrite length_app; cbn; lia).
  destruct (env_relocate_spec (Env (env_ptr e) ea 0 (in_ram e) (default_environment e) (default_environment_size e))
    m6 p es) as (m7 & e' & E7 & Ep & _ & Hrep & Hcrc & Hout); try done.
  - cbn [default_environment]. eapply changed_bytes; [exact Hc6|fold default_block; lia|].
    eapply touches_bytes; [exact Ht| |exact Hd]. intros j Hj. by eapply apart_inside.
  - by apply list.NoDup_app in Hnd as (? & _).
  - fold default_block. lia.
  - cbn [default_environment]. fold default_block. lia.
  - exists a, m6, p, m7, e'. subst p. pose proof (env_block_changed _ _ _ _ Hrep Hout) as Hc7.
    do 5 (split; [done|]).
    split; [eapply block_changed; [exact Hb6|exact Hc7|left; exists (env_ptr e'), CFG_ENV_SIZE; split; [done|lia]]|].
    split; [eapply serves_changed; [exact Hs6|exact Hc7|left; exists (env_ptr e'), CFG_ENV_SIZE; split; [done|lia]]|].
    eapply changed_trans; [exact Hc6|]. eapply changed_mono; [exact Hc7|lia|lia].
Qed.

(** The two addresses of the board. *)
Lemma addresses_read m7 e' :
  env_rep e' m7 es → Forall (λ z, cstr m7 z.1 z.2) strings →
  ∃ p q, getenv e' m7 (lit_ethaddr pl) = Some p ∧
    read_enetaddr m7 p =
      Some (match lookup_env (lit "ethaddr") es with Some v => enet_text 6 v | None => replicate 6 0 end) ∧
    getenv e' m7 (lit_ipaddr pl) = Some q ∧
    string_to_ip m7 q =
      Some (match lookup_env (lit "ipaddr") es with Some v => ip_numbers 4 0 v | None => 0 end).
Proof.
  intros Hrep Hs. pose proof (Forall_inv Hs) as K1. pose proof (Forall_inv (Forall_inv_tail Hs)) as K2.
  destruct (env_value e' m7 es _ _ Hrep K1) as (p & Ep & Hp); [apply (bool_decide_unpack _); vm_compute; done|done|].
  destruct (env_value e' m7 es _ _ Hrep K2) as (q & Eq & Hq); [apply (bool_decide_unpack _); vm_compute; done|done|].
  exists p, q. split; [done|]. split; [|split; [done|]].
  - cbn [snd] in Hp. destruct (lookup_env (lit "ethaddr") es) as [v|].
    + destruct Hp as (_ & _ & Hp0 & Hf & Hv). by apply read_enetaddr_text.
    + subst p. apply read_enetaddr_null.
  - cbn [snd] in Hq. destruct (lookup_env (lit "ipaddr") es) as [v|].
    + destruct Hq as (_ & _ & Hq0 & Hf & Hv). by apply string_to_ip_numbers.
    + by subst q.
Qed.
(** What is known of the strings for the devices. *)
Lemma device_strings m7 e' :
  touches (inside areas) m m7 → heap_lo ≤ env_ptr e' → env_ptr e' + CFG_ENV_SIZE ≤ heap_hi →
  cstr m7 (lit_serial dp) (lit "serial") ∧
  apart (lit_serial dp, 7) (dev dp, sizeof_device_t) ∧ apart (lit_serial dp, 7) (heap_lo, heap_hi - heap_lo) ∧
  Forall2 (λ p n, cstr m7 p n ∧ outside_env e' p n) (map (λ y, u32 (y + reloc_of)) (stdio_names pl)) stdio_texts.
Proof using R.
  intros Ht Hlo Hhi. destruct (sr_heap R) as (Eh & El & _ & _). pose proof (strings_kept m7 Ht) as Hs.
  pose proof (sr_strings R) as Hr. unfold strings in Hs, Hr.
  apply Forall_app in Hs as [Hs Hs']. apply Forall_app in Hr as [Hr Hr'].
  replace (heap_hi - heap_lo) with TOTAL_MALLOC_LEN by lia.
  do 4 (apply Forall_cons_iff in Hs as [_ Hs]; apply Forall_cons_iff in Hr as [_ Hr]).
  apply Forall_cons_iff in Hs as [Hser _]. apply Forall_cons_iff in Hr as [[_ Ha] _].
  unfold areas in Ha. do 2 (apply Forall_cons_iff in Ha as [_ Ha]). apply Forall_cons_iff in Ha as [Ha1 Ha].
  apply Forall_cons_iff in Ha as [Ha2 _]. split; [done|]. split; [done|]. split; [done|].
  pose proof (sr_names R) as Hn. destruct (stdio_names pl) as [|n0 [|n1 [|n2 [|]]]]; try done.
  cbn [map zip zip_with stdio_texts] in Hs', Hr'.
  assert (Hone : ∀ p t, cstr m7 p t → Forall (apart (p, length t + 1)) areas → cstr m7 p t ∧ outside_env e' p t).
  { intros p t Hc Hap. split; [done|]. pose proof (Forall_inv (Forall_inv_tail (Forall_inv_tail Hap))) as Hah.
    unfold apart in Hah. cbn [fst snd] in Hah. unfold outside_env. lia. }
  repeat (apply Forall_cons_iff in Hs' as [? Hs']; apply Forall_cons_iff in Hr' as [[_ ?] Hr']).
  cbn [map stdio_texts]. repeat (constructor; [by apply Hone|]). constructor.
Qed.

(** The devices, the jump table and the console. *)
Lemma console_starts a m7 e' b1 flags :
  env_rep e' m7 es → crc_ok e' m7 → block a m7 (env_ptr e') CFG_ENV_SIZE → serves a m7 [28; 8; 288; 56] →
  touches (inside areas) m m7 → length (stdio_devices b1) = 3%nat →
  let names := map (λ y, u32 (y + reloc_of)) (stdio_names pl) in
  ∃ a8 m8 l a9 m9 jt m10, devices_init dp a m7 reloc_of (stdio_names pl) = Some (a8, m8, names, Some l, 0) ∧
    jumptable_init a8 m8 x = Some (a9, m9, jt) ∧
    console_init_r start_call e' m9 b1 l (lit_setenv pl) names flags =
      Some (m10, set_stdio [Some 0%nat; Some 0%nat; Some 0%nat] [serial_dev l] b1, Z.lor flags GD_FLG_DEVINIT) ∧
    env_rep e' m10 vars ∧ crc_ok e' m10 ∧ block a9 m10 (env_ptr e') CFG_ENV_SIZE ∧
    list_rep a9 m10 l [serial_device dp] ∧ bytes_at m10 jt (flat_map bytes32 (jt_words x)) ∧ block a9 m10 jt 56 ∧
    touches (inside [(heap_lo, heap_hi - heap_lo); (dev dp, sizeof_device_t)]) m7 m10.
Proof using R.
  intros Hrep Hcrc Hb7 Hs7 Ht Hfiles names. destruct (sr_heap R) as (Hhi & Hlo & Hp0 & _).
  destruct areas_owned as (_ & Oh & Od & _).
  assert (Eh : heap_hi - heap_lo = TOTAL_MALLOC_LEN) by lia.
  destruct (block_owned _ _ _ _ Hb7) as (_ & _ & Hel & Heh).
  destruct (device_strings m7 e' Ht Hel Heh) as (Hser & Ha1 & Ha2 & Hnames).
  pose proof (sr_apart R) as Hap. unfold areas in Hap. do 2 (inversion Hap as [|? ? _ Hap']; subst; clear Hap; rename Hap' into Hap).
  inversion Hap as [|? ? Hap3 _]; subst. apply Forall_inv in Hap3.
  destruct (devices_init_registers dp a m7 reloc_of (stdio_names pl) [56]) as
    (a8 & m8 & l & E8 & Hr8 & Hsz & Hs8 & Hk8 & T8); try done.
  { rewrite Eh. by eapply touches_owned. }
  { by eapply touches_owned. }
  { exact (sr_dev R). }
  { rewrite Eh. unfold apart in *. cbn [fst snd] in *. lia. }
  destruct (jumptable_init_fills x a8 m8 []) as (a9 & m9 & jt & E9 & Hj9 & Hbj & _ & Hk9 & C9); [|done|].
  { eapply touches_owned; [exact T8|]. rewrite Eh. by eapply touches_owned. }
  destruct (Hk8 _ _ Hb7) as (B8 & Ne8 & M8). destruct (Hk9 _ _ B8) as (B9 & Nj & M9).
  destruct (Hk9 _ _ (lr_block _ _ _ (lr_list _ _ _ _ Hr8))) as (Bl9 & Nlj & Ml9).
  pose proof (list_rep_kept _ _ _ _ _ _ Hr8 Bl9 Ml9) as Hr9.
  assert (Hsame : env_same e' m7 m9) by (intros j Hj; rewrite M9, M8; done).
  pose proof (env_rep_same _ _ _ _ Hrep Hsame) as Hrep9. destruct (sr_entries R) as (_ & Hnd & Hlen).
  assert (Hap9 : apart (ptr (hrec l), Lists.size (hrec l)) (env_ptr e', CFG_ENV_SIZE)).
  { eapply block_apart; [exact Bl9|exact B9|done]. }
  assert (T9 : touches (inside [(heap_lo, heap_hi - heap_lo); (dev dp, sizeof_device_t)]) m7 m9).
  { eapply touches_trans; [exact T8|]. eapply touches_changed; [exact C9|]. intros j Hj. left. cbn. lia. }
  assert (Hnames9 : Forall2 (λ p n, cstr m9 p n ∧ outside_env e' p n) names stdio_texts).
  { apply (device_strings m9 e'); [|done|done]. eapply touches_trans; [exact Ht|].
    eapply touches_areas; [exact T9|]. rewrite Eh. intros z [<-|[<-|[]]]; unfold areas; cbn; tauto. }
  destruct (console_init_r_serial dp start_call a9 e' m9 b1 l es (lit_setenv pl) names flags) as
    (m10 & E10 & Hrep10 & Hcrc10 & Hout10); try done.
  pose proof (env_block_changed _ _ _ _ Hrep10 Hout10) as C10.
  assert (Hin : ∃ p0 n0, block a9 m9 p0 n0 ∧ p0 ≤ env_ptr e' ∧ env_ptr e' + CFG_ENV_SIZE ≤ p0 + n0).
  { exists (env_ptr e'), CFG_ENV_SIZE. split; [done|lia]. }
  pose proof (block_apart _ _ _ _ _ _ Hbj B9 (not_eq_sym Nj)) as Hja. unfold apart in Hja, Hap9. cbn [fst snd] in Hja, Hap9.
  exists a8, m8, l, a9, m9, jt, m10. do 5 (split; [done|]).
  split; [by eapply block_changed; [exact B9|exact C10|by left]|]. split; [|split; [|split]].
  - eapply list_rep_kept; [exact Hr9| |].
    + eapply block_changed; [exact Bl9|exact C10|by left].
    + intros j Hj. apply Hout10. lia.
  - eapply changed_bytes; [exact C10| |exact Hj9]. change (length (flat_map bytes32 (jt_words x)) : Z) with 56. lia.
  - eapply block_changed; [exact Hbj|exact C10|by left].
  - eapply touches_trans; [exact T9|]. eapply touches_changed; [exact C10|]. intros j Hj. left. cbn. lia.
Qed.
Lemma vars_lookup n : n ∉ stdio_texts → lookup_env n vars = lookup_env n es.
Proof. intros Hn. apply lookup_env_app. exact Hn. Qed.

(** The load address and the name of the file to boot. *)
Lemma variables_read m10 e' b1 :
  env_rep e' m10 vars → touches (inside areas) m m10 → BootFile b1 = BootFile b →
  heap_lo ≤ env_ptr e' → env_ptr e' + CFG_ENV_SIZE ≤ heap_hi →
  ∃ p q m11, getenv e' m10 (lit_loadaddr pl) = Some p ∧
    (if negb (p =? NULL) then '(addr, _) ← simple_strtoul m10 p 16; Some (set_load_addr addr b1) else Some b1) =
      Some (set_load_addr (match lookup_env (lit "loadaddr") es with
                           | Some v => (strtoul_l v 16).1
                           | None => load_addr b1
                           end) b1) ∧
    getenv e' m10 (lit_bootfile pl) = Some q ∧
    (if negb (q =? NULL) then copy_filename m10 (BootFile b1) q sizeof_BootFile else Some m10) = Some m11 ∧
    changed (BootFile b) (BootFile b + sizeof_BootFile) m10 m11 ∧
    match lookup_env (lit "bootfile") es with
    | Some v => bytes_at m11 (BootFile b) (file_name 127 v ++ [0])
    | None => True
    end.
Proof using R.
  intros Hrep Ht Hbf Hlo Hhi. destruct (sr_heap R) as (Eh & El & _ & _). pose proof (strings_kept m10 Ht) as Hs.
  pose proof (Forall_inv (Forall_inv_tail (Forall_inv_tail Hs))) as K1.
  pose proof (Forall_inv (Forall_inv_tail (Forall_inv_tail (Forall_inv_tail Hs)))) as K2. cbn [fst snd] in K1, K2.
  destruct areas_owned as (_ & _ & _ & Ob). apply (touches_owned _ _ _ _ _ Ht) in Ob.
  pose proof (sr_apart R) as Hap. unfold areas in Hap. do 2 (inversion Hap as [|? ? _ Hap']; subst; clear Hap; rename Hap' into Hap).
  inversion Hap as [|? ? Hap3 _]; subst. apply Forall_inv_tail, Forall_inv in Hap3. unfold apart in Hap3. cbn [fst snd] in Hap3.
  destruct (env_value e' m10 vars _ _ Hrep K1) as (p & Ep & Hp); [apply (bool_decide_unpack _); vm_compute; done|done|].
  destruct (env_value e' m10 vars _ _ Hrep K2) as (q & Eq & Hq); [apply (bool_decide_unpack _); vm_compute; done|done|].
  rewrite vars_lookup in Hp, Hq by (apply (bool_decide_unpack _); vm_compute; done).
  assert (Hl : (if negb (p =? NULL) then '(addr, _) ← simple_strtoul m10 p 16; Some (set_load_addr addr b1) else Some b1) =
      Some (set_load_addr (match lookup_env (lit "loadaddr") es with
        | Some v => (strtoul_l v 16).1 | None => load_addr b1 end) b1)).
  { destruct (lookup_env (lit "loadaddr") es) as [v|].
    - destruct Hp as (_ & _ & Hp0 & Hf & Hv). rewrite (proj2 (Z.eqb_neq p NULL)) by (unfold NULL; lia). cbn [negb].
      by rewrite (simple_strtoul_cstr m10 p v 16 Hv Hf), some_bind.
    - subst p. by destruct b1. }
  exists p, q. rewrite Hbf. unfold sizeof_BootFile in *.
  destruct (lookup_env (lit "bootfile") es) as [v|].
  - destruct Hq as (Hq1 & Hq2 & Hq0 & Hf & Hv).
    exists (write_bytes m10 (BootFile b) (file_name 127 v ++ [0])). do 3 (split; [done|]). split; [|split].
    + rewrite (proj2 (Z.eqb_neq q NULL)) by (unfold NULL; lia). cbn [negb].
      apply (copy_filename_copies m10 (BootFile b) q 127 v); [done|exact Ob|lia|lia|lia].
    + apply changed_write; [lia|]. pose proof (file_name_length 127 v). rewrite length_app. cbn [length]. lia.
    + apply write_bytes_in.
  - subst q. exists m10. do 4 (split; [done|]). split; [apply changed_refl|done].
Qed.

(** The file name lands outside the heap. *)
Lemma services_stay a m10 m11 e' l jt :
  env_rep e' m10 vars → crc_ok e' m10 → block a m10 (env_ptr e') CFG_ENV_SIZE →
  list_rep a m10 l [serial_device dp] → bytes_at m10 jt (flat_map bytes32 (jt_words x)) → block a m10 jt 56 →
  changed (BootFile b) (BootFile b + sizeof_BootFile) m10 m11 →
  env_rep e' m11 vars ∧ crc_ok e' m11 ∧ list_rep a m11 l [serial_device dp] ∧
  bytes_at m11 jt (flat_map bytes32 (jt_words x)).
Proof using R.
  intros Hrep Hcrc Hb Hl Hj Hbj C. destruct (sr_heap R) as (Eh & El & _ & _).
  pose proof (sr_apart R) as Hap. unfold areas in Hap. do 2 (inversion Hap as [|? ? _ Hap']; subst; clear Hap; rename Hap' into Hap).
  inversion Hap as [|? ? Hap3 _]; subst. apply Forall_inv_tail, Forall_inv in Hap3. unfold apart in Hap3. cbn [fst snd] in Hap3.
  destruct (block_owned _ _ _ _ Hb) as (_ & _ & B1 & B2). destruct (block_owned _ _ _ _ Hbj) as (_ & _ & J1 & J2).
  assert (Hsame : env_same e' m10 m11) by (intros j Hj'; apply C; lia).
  split; [by eapply env_rep_same|]. split; [by eapply crc_ok_same|]. split.
  - eapply list_rep_out; [exact Hl|exact C|lia].
  - eapply changed_bytes; [exact C| |exact Hj]. change (length (flat_map bytes32 (jt_words x)) : Z) with 56. lia.
Qed.

(** What was written before the heap began is still there. *)
Lemma early_stays m5 m7 m10 m11 p w :
  In (p, Z.of_nat (length w)) (take 2 areas) → bytes_at m5 p w → changed heap_lo heap_hi m5 m7 →
  touches (inside [(heap_lo, heap_hi - heap_lo); (dev dp, sizeof_device_t)]) m7 m10 →
  changed (BootFile b) (BootFile b + sizeof_BootFile) m10 m11 → bytes_at m11 p w.
Proof using R.
  intros Hin Hw C1 T C2. destruct (sr_heap R) as (Eh & El & _ & _).
  assert (Hap : Forall (apart (p, Z.of_nat (length w))) (drop 2 areas)).
  { pose proof (sr_apart R) as Hap. unfold areas in Hap, Hin |- *. cbn [take drop] in *.
    inversion Hap as [|? ? Ha1 Hap2]; subst. inversion Hap2 as [|? ? Ha2 _]; subst.
    apply Forall_inv_tail in Ha1. destruct Hin as [<-|[<-|[]]]; done. }
  unfold areas in Hap. cbn [drop] in Hap. apply Forall_cons_iff in Hap as [K1 Hap].
  apply Forall_cons_iff in Hap as [K2 Hap]. apply Forall_cons_iff in Hap as [K3 _]. unfold apart in *. cbn [fst snd] in *.
  eapply changed_bytes; [exact C2|lia|]. eapply touches_bytes; [exact T| |].
  - intros j Hj Hex. unfold inside in Hex. rewrite !Exists_cons in Hex. cbn [fst snd] in Hex.
    destruct Hex as [Hex|[Hex|Hex]]; [lia|lia|by apply Exists_nil in Hex].
  - eapply changed_bytes; [exact C1|lia|done].
Qed.

(** C27: the second part of the start brings every service up, as long as the
    allocator serves its five requests: the pointers of the command table are
    moved, the board information tells the flash, the environment is in the
    heap with its checksum, the serial port is in the list of devices and is
    the console, three variables tell so, the addresses of the board, the load
    address and the file to boot are what the environment says, the jump table
    is filled in, and nothing is written outside the areas for these. *)
Theorem init_services_ready s :
  ∃ sv, init_services pl dp x start_call heap_start s e m b id dest_addr = Some sv ∧
    services_ready sv ∧ touches (inside areas) m (sv_mem sv).
Proof using R.
  destruct (sr_gd R) as [Hgd Hw]. destruct (sr_heap R) as (Hhi & Hlo & Hp0 & _).
  destruct heap_begins as (m1 & m2 & m3 & m4 & m5 & E1 & E2 & E3 & E4 & E5 & T5 & Hz5 & Hc5 & Hf5).
  destruct (environment_moves m5 T5 Hz5) as (a & m6 & p & m7 & e' & E6 & E7 & Ep & Hrep7 & Hcrc7 & Hb7 & Hs7 & C7).
  assert (T7 : touches (inside areas) m m7).
  { eapply touches_trans; [exact T5|]. eapply touches_changed; [exact C7|]. intros j Hj. apply heap_inside. lia. }
  destruct (addresses_read m7 e' Hrep7 (strings_kept m7 T7)) as (pe & pi & Epe & Emac & Epi & Eip).
  set (mac := match lookup_env (lit "ethaddr") es with Some v => _ | None => _ end) in *.
  set (ip := match lookup_env (lit "ipaddr") es with Some v => _ | None => _ end) in *.
  set (flags := Z.lor (gd_flags g) GD_FLG_RELOC). subst p.
  destruct (console_starts a m7 e' (set_addresses mac ip b) flags Hrep7 Hcrc7 Hb7 Hs7 T7 (sr_files R))
    as (a8 & m8 & l & a9 & m9 & jt & m10 & E8 & E9 & E10 & Hrep10 & Hcrc10 & Hb10 & Hl10 & Hj10 & Hbj10 & T10).
  set (b1 := set_stdio _ _ _) in *.
  assert (T10' : touches (inside areas) m m10).
  { eapply touches_trans; [exact T7|]. eapply touches_areas; [exact T10|].
    replace (heap_hi - heap_lo) with TOTAL_MALLOC_LEN by lia. intros z [<-|[<-|[]]]; unfold areas; cbn; tauto. }
  destruct (block_owned _ _ _ _ Hb10) as (_ & _ & Hel & Heh).
  destruct (variables_read m10 e' b1 Hrep10 T10' eq_refl Hel Heh) as (pl1 & pb & m11 & El & Eb & Ef & Em & C11 & Hboot).
  unfold init_services. rewrite (load_gd_words m id ea 0 g Hgd Hw), some_bind. cbv beta iota zeta.
  fold reloc_of. rewrite E1, some_bind. destruct (flash_init s) as [s' info] eqn:Ei.
  assert (Es : Spi.size info = CFG_FLASH_SIZE).
  { unfold flash_init in Ei. destruct (ath_spi_read_id _). by injection Ei as <- <-. }
  rewrite Es, E2, some_bind, E3, some_bind, E4, some_bind, E5, some_bind. cbv beta iota zeta.
  rewrite E6. cbv beta iota zeta. rewrite E7, some_bind. cbv beta iota zeta.
  rewrite Epe, some_bind, Emac, some_bind, Epi, some_bind, Eip, some_bind. cbv beta iota zeta.
  rewrite E8, some_bind. cbv beta iota zeta. rewrite E9, some_bind. cbv beta iota zeta.
  rewrite some_bind. fold flags. rewrite E10, some_bind. cbv beta iota zeta.
  rewrite El, some_bind, Eb, some_bind, Ef, some_bind.
  change (BootFile (set_load_addr _ b1)) with (BootFile b1). rewrite Em, some_bind.
  eexists. split; [reflexivity|].
  destruct (services_stay a9 m10 m11 e' l jt) as (Hrep11 & Hcrc11 & Hl11 & Hj11); try done.
  pose proof (early_stays m5 m7 m10 m11) as Hearly. split.
  - split; cbn [sv_mem sv_env sv_heap sv_board sv_gd sv_devlist gd_jt]; try done.
    + apply Hearly; try done. left. by rewrite length_cmds.
    + apply Hearly; try done. by right; left.
  - cbn [sv_mem]. eapply touches_trans; [exact T10'|]. eapply touches_changed; [exact C11|].
    intros j Hj. do 4 right. left. exact Hj.
Qed.
End services.

(** ** An example: one command and three variables *)

Definition ready_vars : list entry :=
  [(lit "ethaddr", lit "00:0a:eb:13:09:69"); (lit "ipaddr", lit "192.168.0.2"); (lit "bootfile", lit "wr841nv11.bin")].
Definition ready_gd : gd_t := Gd 1060 0 115200 1 0x2000000 0 0.
Definition ready_cmd : cmd_words := CmdWords 0x80030000 2 1 0x80010100 0x80030010 0.
Definition ready_off : Z := 0x80120000.
Definition ready_strings : list Z :=
  lit "ethaddr" ++ [0] ++ lit "ipaddr" ++ [0] ++ lit "loadaddr" ++ [0] ++ lit "bootfile" ++ [0] ++
  lit "serial" ++ [0] ++ lit "stdin" ++ [0] ++ lit "stdout" ++ [0] ++ lit "stderr" ++ [0].
Definition ready_block : list Z :=
  flat_map bytes32 (gd_words 0x9f000000 0 ready_gd) ++ cmd_bytes ready_cmd ++ replicate 224 0 ++
  ready_strings ++ default_block ready_vars.
Definition ready_places : init_places :=
  InitPlaces 1036 1060 1284 1292 1299 1308 1 (map (λ p, u32 (p - ready_off)) [1324; 1330; 1337]).
Definition ready_dev : dev_places := DevPlaces 1104 1317 0x80011000 0x80011100 0x80011200 0x80011300.
Definition ready_exports : exports := Exports 1 2 3 4 5 6.
Definition ready_env : env := Env 0 0 0 false 1344 70.
Definition ready_board : board := Board [None; None; None] [] 115200 [] [] 0 0x80060000 1156 [].
Definition ready_mem (n : nat) : mem := write_bytes (mem_of 1000 ready_block) 0x100000 (replicate n 0).

Lemma ready_string n pre t post :
  ready_block = pre ++ (t ++ [0]) ++ post → forallb (λ c, (0 <? c) && (c <? 256)) t = true →
  cstr (ready_mem n) (1000 + length pre) t.
Proof.
  intros E Ht. unfold ready_mem. rewrite E. pose proof (f_equal length E) as El.
  rewrite !length_app in El. change (length ready_block) with 414%nat in El. cbn [length] in El.
  apply cstr_write_disjoint; [lia|]. by apply cstr_in_block.
Qed.

Lemma ready_bytes n (i k : nat) : (i + k ≤ 414)%nat → bytes_at (ready_mem n) (1000 + i) (take k (drop i ready_block)).
Proof.
  intros Hi. apply bytes_at_take, bytes_at_drop.
  - unfold ready_mem. apply bytes_at_write_disjoint; [|apply write_bytes_in].
    change (length ready_block) with 414%nat. lia.
  - change (length ready_block) with 414%nat. lia.
Qed.

Lemma ready_strings_at n :
  Forall (λ z, cstr (ready_mem n) z.1 z.2 ∧
      Forall (apart (z.1, length z.2 + 1)) (areas ready_places ready_dev ready_board ready_gd [ready_cmd]))
    (strings ready_places ready_dev 0x130000).
Proof.
  assert (Hs : ∀ (i : nat) t, take (S (length t)) (drop i ready_block) = t ++ [0] →
    forallb (λ c, (0 <? c) && (c <? 256)) t = true → cstr (ready_mem n) (1000 + i) t).
  { intros i t E Ht. pose proof (f_equal length E) as El. rewrite length_take, length_drop, length_app in El.
    change (length ready_block) with 414%nat in El. cbn [length] in El.
    pose proof (ready_string n (take i ready_block) t (drop (S (length t)) (drop i ready_block))) as K.
    rewrite length_take, Nat.min_l in K by (change (length ready_block) with 414%nat; lia).
    apply K; [|done]. rewrite <- E. by rewrite take_drop, take_drop. }
  unfold strings. repeat (apply Forall_cons_2; [split; [|by apply forallb_apart]|]); [..|constructor].
  - by apply (Hs 284%nat).
  - by apply (Hs 292%nat).
  - by apply (Hs 299%nat).
  - by apply (Hs 308%nat).
  - by apply (Hs 317%nat).
  - by apply (Hs 324%nat).
  - by apply (Hs 330%nat).
  - by apply (Hs 337%nat).
Qed.

Lemma ready_room :
  services_room ready_places ready_dev (λ _, 0) ready_env (ready_mem (Z.to_nat TOTAL_MALLOC_LEN)) ready_board
    1000 0x130000 ready_gd 0x9f000000 [ready_cmd] ready_vars.
Proof.
  split.
  - split; [exact (ready_bytes _ 0 36 ltac:(lia))|]. repeat constructor; unfold is_word; cbn; lia.
  - split; [exact (ready_bytes _ 36 24 ltac:(lia))|done].
  - split; [|done]. repeat constructor; unfold is_word; cbn; lia.
  - done.
  - intros m' _. cbn [serves slots_laws]. split; [lia|]. split; [cbn [length]; lia|]. split; [done|]. repeat constructor; lia.
  - split; [exact (ready_bytes _ 344 70 ltac:(lia))|]. split; [done|by apply forallb_apart].
  - split; [|split; [|by apply Z.leb_le]].
    + repeat constructor; cbn; try (unfold is_char; lia); apply (bool_decide_unpack _); vm_compute; done.
    + apply (bool_decide_unpack _). vm_compute. done.
  - apply ready_strings_at.
  - done.
  - set (n := Z.to_nat TOTAL_MALLOC_LEN).
    assert (Hn : Z.of_nat n = TOTAL_MALLOC_LEN) by (apply Z2Nat.id; discriminate). clearbody n.
    assert (Hlow : ∀ p k : Z, 1000 ≤ p → p + k ≤ 1414 → owned (ready_mem n) p k).
    { intros p k H1 H2. pose proof (bytes_at_owned _ _ _ (ready_bytes n 0 414 ltac:(lia))) as Ho.
      change (Z.of_nat (length _)) with 414 in Ho. eapply owned_mono; [exact Ho|lia|lia]. }
    unfold areas. repeat (apply Forall_cons_2; [cbn [fst snd]|]); [..|constructor]; try (apply Hlow; apply Z.leb_le; reflexivity).
    pose proof (bytes_at_owned _ _ _ (write_bytes_in (mem_of 1000 ready_block) 0x100000 (replicate n 0))) as Ho.
    rewrite length_replicate, Hn in Ho. exact Ho.
  - by apply pairs_apart.
  - done.
  - done.
Qed.

(** A bus whose registers are all 0. *)
#[local] Instance silent_bus : Bus unit := { reg_wr s a v := s; reg_rd s a := (s, 0) }.

Lemma init_services_ready_witness :
  let m := ready_mem (Z.to_nat TOTAL_MALLOC_LEN) in
  ∃ sv, init_services ready_places ready_dev ready_exports (λ _, 0) (λ _, 0) tt ready_env m ready_board
      1000 0x130000 = Some sv ∧
    services_ready ready_places ready_dev ready_exports ready_board 0x130000 ready_gd [ready_cmd] ready_vars sv ∧
    touches (inside (areas ready_places ready_dev ready_board ready_gd [ready_cmd])) m (sv_mem sv).
Proof.
  intros m. apply (init_services_ready ready_places ready_dev ready_exports (λ _, 0) (λ _, 0) ready_env m
    ready_board 1000 0x130000 ready_gd 0x9f000000 [ready_cmd] ready_vars).
  exact ready_room.
Defined.
