(* ===== verification/Bootkey.v ===== *)
(** * The wait for the stop key ([abortboot] of [common/main.c])

    The wait is refined to [key_wait], which works on the text typed instead
    of the key buffer; when it ends, what it answers for the characters typed,
    and when it does not end.  The tick counter is the 32-bit count register
    of the processor. *)

From S2P Require Import Prelude.
From S2P Require Import Timer.
From S2P Require Import CString.
From S2P Require Import Env.
From S2P Require Import Cmdline.
From S2P Require Import Readline.
From S2P Require Import Flash.
From S2P Require Import Shell.
From S2P Require Import Main.

(** A running clock behind the count register; [lap] bounds the time that one
    look at the clock or one character takes. *)
Class Timed (W : Type) `{Typing W} := {
  clock : W → Z;
  lap : Z;
  ticks_now w : (get_ticks w).1 = u32 (clock w);
  ticks_step w : clock w < clock (get_ticks w).2 ≤ clock w + lap;
  ticks_pending w : pending (get_ticks w).2 = pending w;
  tstc_pending w : tstc w = true → pending w ≠ [];
  getc_step w c w' : getc w = Some (c, w') → clock w ≤ clock w' ≤ clock w + lap
}.

(** ** The keys *)

Section keys.
Implicit Types (p q t : list Z) (strs : list (list Z)).

(** Does the text end in one of the keys? *)
Definition ends_in strs p : bool :=
  existsb (λ t, bool_decide (t ≠ []) && bool_decide (t `suffix_of` p)) strs.

Lemma suffix_drop t p : (length t ≤ length p)%nat → t `suffix_of` p ↔ drop (length p - length t) p = t.
Proof.
  intros Hl. split.
  - intros [q ->]. rewrite length_app. replace (length q + length t - length t)%nat with (length q) by lia.
    apply drop_app_length.
  - intros <-. exists (take (length p - length t) p). by rewrite take_drop.
Qed.

(** No key before the last character. *)
Definition unhit strs p : Prop := ∀ q k, p = q ++ k → k ≠ [] → ends_in strs q = false.

(** The first key is complete at most one character before the end. *)
Definition hit_late strs p : Prop :=
  ∃ q k, p = q ++ k ∧ (length k ≤ 1)%nat ∧ ends_in strs q = true ∧ unhit strs q.

Lemma unhit_snoc strs p c : unhit strs p → ends_in strs p = false → unhit strs (p ++ [c]).
Proof.
  intros Hu Hp q k E Hk. destruct (exists_last Hk) as (k' & x & ->).
  rewrite app_assoc in E. apply app_inj_tail in E as [-> _].
  destruct k' as [|y k']; [by rewrite app_nil_r in Hp|]. by eapply Hu.
Qed.

(** The length of the longest key. *)
Definition longest strs : nat := foldr (λ t n, Nat.max (length t) n) 0%nat strs.

Lemma longest_length strs : Forall (λ t, (length t ≤ longest strs)%nat) strs.
Proof.
  induction strs as [|t strs IH]; [constructor|]. cbn [longest foldr]. constructor; [lia|].
  fold (longest strs). eapply list.Forall_impl; [exact IH|]. cbn beta. lia.
Qed.

Lemma longest_bounds (n : nat) strs :
  Exists (λ t, t ≠ []) strs → Forall (λ t, (length t ≤ n)%nat) strs → (0 < longest strs ≤ n)%nat.
Proof.
  intros He Hl. induction strs as [|t strs IH]; [by inversion He|].
  apply Forall_cons_iff in Hl as [Ht Hl]. cbn [longest foldr]. fold (longest strs).
  assert (Hn : (longest strs ≤ n)%nat).
  { clear - Hl. induction Hl as [|t strs Ht Hl IH]; cbn [longest foldr]; [lia|]. fold (longest strs). lia. }
  apply Exists_cons in He as [He|He]; [destruct t; [done|]; cbn [length] in *; lia|].
  specialize (IH He Hl). lia.
Qed.

(** What the buffer of [n] characters holds. *)
Definition newest (n : nat) p : list Z := drop (length p - n) p.

Lemma newest_length n p : length (newest n p) = Nat.min n (length p).
Proof. unfold newest. rewrite length_drop. lia. Qed.

Lemma newest_snoc n p c :
  (length p < n)%nat → newest n (p ++ [c]) = newest n p ++ [c].
Proof.
  intros Hl. unfold newest. rewrite length_app. cbn [length].
  replace (length p + 1 - n)%nat with 0%nat by lia. by replace (length p - n)%nat with 0%nat by lia.
Qed.

Lemma newest_shift n p c :
  (0 < n ≤ length p)%nat → newest n (p ++ [c]) = drop 1 (newest n p) ++ [c].
Proof.
  intros Hl. unfold newest. rewrite length_app, drop_drop. cbn [length].
  rewrite drop_app_le by lia. do 2 f_equal. lia.
Qed.
End keys.

Section bootkey.
Context {W : Type} `{Timed W}.
Context (pl : main_places).
Implicit Types (w : W) (m : mem) (p t : list Z) (strs : list (list Z)) (keys : list (Z * Z)).

(** The texts of the keys, away from the buffer. *)
Definition keys_at m keys strs : Prop :=
  Forall2 (λ k t, k.2 = Z.of_nat (length t) ∧ bytes_at m k.1 t ∧
    (k.1 + length t ≤ presskey pl ∨ presskey pl + 32 ≤ k.1)) keys strs.

Lemma keys_changed m m' keys strs :
  keys_at m keys strs → changed (presskey pl) (presskey pl + 32) m m' → keys_at m' keys strs.
Proof.
  intros Hk Hc. eapply Forall2_impl; [|exact Hk]. intros k t (Hl & Hb & Hd).
  split; [done|]. split; [|done]. by eapply changed_bytes.
Qed.

Lemma key_hit_spec m keys strs mx p abort :
  keys_at m keys strs → bytes_at m (presskey pl) (newest mx p) → Forall (λ t, (length t ≤ mx)%nat) strs →
  (mx ≤ 32)%nat →
  key_hit pl m keys (Nat.min mx (length p)) abort = Some (if ends_in strs p then 1 else abort).
Proof.
  intros Hk Hb Hm H32. revert abort.
  induction Hk as [|[str len] t keys strs (Hl & Ht & Hd) Hk IH]; intros abort; [done|].
  apply Forall_cons_iff in Hm as [Hmt Hm]. cbn [key_hit ends_in existsb fst snd] in *. subst len.
  assert (Hhit : (if (Z.of_nat (length t) >? 0) && (Z.of_nat (Nat.min mx (length p)) >=? length t) then
      r ← memcmp m (presskey pl + Nat.min mx (length p) - length t) str (length t); Some (r =? 0)
    else Some false) = Some (bool_decide (t ≠ []) && bool_decide (t `suffix_of` p))).
  { destruct t as [|c t']; [done|]. set (t := c :: t') in *.
    rewrite (bool_decide_true (t ≠ [])) by done. cbn [andb].
    rewrite Z.gtb_ltb, (proj2 (Z.ltb_lt 0 (length t))), Z.geb_leb by (unfold t; simpl; lia). cbn [andb].
    destruct (Z.leb_spec (length t) (Nat.min mx (length p))) as [Hle|Hgt].
    - assert (Hn : bytes_at m (presskey pl + Nat.min mx (length p) - length t)
        (drop (length p - length t) p)).
      { apply bytes_at_drop with (n := (Nat.min mx (length p) - length t)%nat) in Hb;
          [|rewrite newest_length; lia].
        unfold newest in Hb. rewrite drop_drop in Hb.
        replace (length p - mx + (Nat.min mx (length p) - length t))%nat
          with (length p - length t)%nat in Hb by lia.
        by replace (presskey pl + Nat.min mx (length p) - length t)
          with (presskey pl + (Nat.min mx (length p) - length t)%nat) by lia. }
      assert (Hlen : length (drop (length p - length t) p) = length t) by (rewrite length_drop; lia).
      rewrite <- Hlen at 2. rewrite (memcmp_bytes m _ _ str t Hn Ht Hlen), some_bind.
      2: { unfold fits. lia. }
      rewrite bytes_cmp_zero by done. f_equal. apply bool_decide_ext. symmetry. apply suffix_drop. lia.
    - rewrite bool_decide_false; [done|]. intros [q ->]. rewrite length_app in *. lia. }
  rewrite Hhit, some_bind, IH by done. f_equal.
  fold (ends_in strs p). by destruct (bool_decide (t ≠ []) && bool_decide (t `suffix_of` p)), (ends_in strs p).
Qed.

(** The buffer moves down by one. *)
Lemma shift_buffer m b (mx : nat) :
  bytes_at m (presskey pl) b → Forall is_byte b → length b = mx → (0 < mx ≤ 32)%nat →
  while (λ '(m, i),
    if i <? u32 (mx - 1) then
      c ← ld m (presskey pl + (i + 1)); m ← st m (presskey pl + i) c; Some (Next (m, i + 1))
    else Some (Done (m, i))) (m, 0) = Some (write_bytes m (presskey pl) (drop 1 b), mx - 1).
Proof.
  intros Hb Hby Hl Hmx. rewrite u32_small by lia. apply (while_within _ _ mx); [lia|].
  assert (Hgen : ∀ k i : nat, (i + k = mx - 1)%nat → ∃ n, (n ≤ S k)%nat ∧
    runs (λ '(m, i),
      if i <? mx - 1 then
        c ← ld m (presskey pl + (i + 1)); m ← st m (presskey pl + i) c; Some (Next (m, i + 1))
      else Some (Done (m, i)))
      (write_bytes m (presskey pl) (take i (drop 1 b)), i : Z) n
      (write_bytes m (presskey pl) (drop 1 b), mx - 1)).
  { induction k as [|k IH]; intros i Hi.
    - exists 1%nat. split; [lia|]. apply runs_done. rewrite (proj2 (Z.ltb_ge _ _)) by lia.
      rewrite take_ge by (rewrite length_drop; lia). repeat f_equal. lia.
    - destruct (IH (S i)) as (n & Hn & Hr); [lia|]. exists (S n). split; [lia|].
      eapply runs_next; [|exact Hr]. rewrite (proj2 (Z.ltb_lt _ _)) by lia.
      destruct (lookup_lt_is_Some_2 b (S i)) as [c Hc]; [lia|].
      assert (Hd : drop 1 b !! i = Some c) by by rewrite lookup_drop.
      assert (Hlt : length (take i (drop 1 b)) = i) by (rewrite length_take, length_drop; lia).
      assert (Hm : write_bytes m (presskey pl) (take i (drop 1 b)) !! (presskey pl + (i + 1)) = Some c).
      { rewrite write_bytes_out by lia. replace (i + 1) with (S i : Z) by lia. by apply Hb. }
      assert (Hs : is_Some (write_bytes m (presskey pl) (take i (drop 1 b)) !! (presskey pl + i))).
      { apply (owned_write _ _ _ _ _ (bytes_at_owned _ _ _ Hb)). lia. }
      c_step. rewrite st_owned, some_bind by done.
      rewrite (u8_byte c) by by eapply Forall_lookup_1.
      rewrite (take_S_r _ _ _ Hd), write_bytes_snoc, Hlt.
      by replace (i + 1) with (S i : Z) by lia. }
  destruct (Hgen (mx - 1)%nat 0%nat) as (n & Hn & Hr); [lia|]. exists n. split; [lia|exact Hr].
Qed.

(** The memory after the characters [p]. *)
Definition typed_in m (mx : nat) p : mem := write_bytes m (presskey pl) (newest mx p).

Lemma take_key_spec w m (mx : nat) p c w' :
  getc w = Some (c, w') → is_byte c → Forall is_byte p → (0 < mx ≤ 32)%nat →
  owned m (presskey pl) 32 →
  take_key pl w (typed_in m mx p) (Nat.min mx (length p)) mx =
    Some (w', typed_in m mx (p ++ [c]), Z.of_nat (Nat.min mx (length (p ++ [c])))).
Proof.
  intros Hg Hc Hby Hmx Ho. unfold take_key, typed_in. rewrite length_app. cbn [length].
  pose proof (newest_length mx p) as Hn.
  destruct (Z.ltb_spec (Nat.min mx (length p)) mx) as [Hlt|Hge].
  - rewrite Hg, some_bind, (st_append _ _ 32), some_bind, (u8_byte c), newest_snoc by (done || lia).
    repeat f_equal. lia.
  - assert (Hl : length (newest mx p) = mx) by lia.
    rewrite (shift_buffer _ (newest mx p) mx) by (try apply write_bytes_in; try done; by apply Forall_drop).
    assert (Hd1 : length (drop 1 (newest mx p)) = (mx - 1)%nat) by (rewrite length_drop; lia).
    rewrite some_bind, Hg, some_bind, (st_append _ _ 32), some_bind, (u8_byte c) by
      (solve [by apply owned_write | lia | done]).
    rewrite newest_shift by lia. rewrite write_bytes_over by (rewrite length_app; cbn [length]; lia).
    do 2 f_equal. lia.
Qed.
End bootkey.

(** ** The wait on the text typed

    [key_wait strs etime] asks the clock and the line the way the code does,
    and keeps the whole text typed and whether it ended in a key when it was
    last looked at, which is before a further character is taken. *)

Section wait.
Context {W : Type} `{Timed W}.
Implicit Types (w : W) (p : list Z) (strs : list (list Z)).

Definition wait_round strs (etime : Z) : W * list Z * bool → option (ctl (W * list Z * bool) (W * list Z * bool)) :=
  λ '(w, p, hit),
    if hit : bool then Some (Done (w, p, true)) else
    let '(now, w) := get_ticks w in
    if etime <? now then Some (Done (w, p, false)) else
    if tstc w then '(c, w) ← getc w; Some (Next (w, p ++ [c], ends_in strs p))
    else Some (Next (w, p, ends_in strs p)).

Definition key_wait strs (etime : Z) w : option (W * list Z * bool) :=
  while (wait_round strs etime) (w, [], false).

(** The text so far, and what is known of the keys in it. *)
Definition wait_text strs w0 (x : W * list Z * bool) : Prop :=
  let '(w, p, hit) := x in
  pending w0 = p ++ pending w ∧ if hit : bool then hit_late strs p else unhit strs p.

Lemma wait_next strs w0 w p c w' :
  unhit strs p → pending w0 = p ++ pending w → getc w = Some (c, w') → tstc w = true →
  wait_text strs w0 (w', p ++ [c], ends_in strs p).
Proof.
  intros Hu Hp Hg Ht. apply tstc_pending in Ht. destruct (pending w) as [|d r] eqn:Er; [done|].
  destruct (pending_getc w d r Er) as (w2 & Hg2 & Hr). rewrite Hg in Hg2. injection Hg2 as <- <-.
  split; [by rewrite Hr, <- app_assoc|]. destruct (ends_in strs p) eqn:Ee; [|by apply unhit_snoc].
  exists p, [c]. split; [done|]. split; [simpl; lia|done].
Qed.

Lemma wait_still strs w0 w p :
  unhit strs p → pending w0 = p ++ pending w → wait_text strs w0 (w, p, ends_in strs p).
Proof.
  intros Hu Hp. split; [done|]. destruct (ends_in strs p) eqn:Ee; [|done].
  exists p, []. rewrite app_nil_r. split; [done|]. split; [simpl; lia|done].
Qed.

(** One round, whatever the time. *)
Lemma wait_round_text strs etime w0 x :
  wait_text strs w0 x → ∃ c, wait_round strs etime x = Some c ∧
    match c with
    | Next x' => wait_text strs w0 x' ∧ x.2 = false ∧ u32 (clock x.1.1) ≤ etime ∧
        clock x.1.1 < clock x'.1.1 ≤ clock x.1.1 + 2 * lap
    | Done x' => wait_text strs w0 x' ∧ clock x.1.1 ≤ clock x'.1.1 ≤ clock x.1.1 + lap ∧
        x'.2 = x.2 ∧ (x'.2 = false → etime < u32 (clock x.1.1) ∧ clock x.1.1 < clock x'.1.1)
    end.
Proof.
  destruct x as [[w p] hit]. intros (Hp & Hh). unfold wait_round.
  pose proof (ticks_step w) as Hs. pose proof (ticks_now w) as Hnow. pose proof (ticks_pending w) as Hpw.
  destruct hit; [eexists; split; [done|]; cbn; split; [done|]; split; [lia|done]|].
  destruct (get_ticks w) as [now w1]. cbn [fst snd] in *. subst now. rewrite <- Hpw in Hp.
  destruct (Z.ltb_spec etime (u32 (clock w))) as [Hout|Hin].
  { eexists. split; [done|]. cbn [fst snd]. split; [done|]. split; [lia|]. split; [done|]. intros _. lia. }
  destruct (tstc w1) eqn:Et.
  - pose proof (tstc_pending _ Et) as Hne. destruct (pending w1) as [|c r] eqn:Ep; [done|].
    destruct (pending_getc w1 c r Ep) as (w2 & Hg & _). rewrite Hg, some_bind.
    pose proof (getc_step _ _ _ Hg). eexists. split; [done|]. cbn [fst snd].
    split; [apply (wait_next _ _ w1); try done; by rewrite Ep|]. split; [done|]. lia.
  - eexists. split; [done|]. cbn [fst snd]. split; [by apply wait_still|]. split; [done|]. lia.
Qed.

(** The wait ends when the register gets past its end. *)
Lemma key_wait_ends strs etime w0 w :
  let base := clock w0 - u32 (clock w0) in
  pending w = pending w0 → clock w0 ≤ clock w ≤ base + etime + 2 * lap → etime + 2 * lap < 4294967296 →
  ∃ x, key_wait strs etime w = Some x ∧ clock x.1.1 ≤ base + etime + 3 * lap ∧
    (x.2 = false → base + etime < clock x.1.1).
Proof.
  intros base Hp Hw He.
  assert (Hb : 0 ≤ clock w0 - base) by (unfold base, u32; pose proof (Z.mod_pos_bound (clock w0) 4294967296); lia).
  apply (while_rule _ (λ x, wait_text strs w0 x ∧ clock w0 ≤ clock x.1.1 ≤ base + etime + 2 * lap)
    (λ x, base + etime + 2 * lap - clock x.1.1)); [| |cbn [fst]; lia].
  2: { split; [|done]. split; [by rewrite Hp|]. intros q k E Hk. symmetry in E.
       apply app_nil in E as [_ ->]. done. }
  intros x (Ht & Hc). destruct (wait_round_text strs etime w0 x Ht) as (c & -> & Hr).
  assert (Hu : u32 (clock x.1.1) = clock x.1.1 - base).
  { replace (clock x.1.1) with (clock x.1.1 - base + (clock w0 / 4294967296) * 4294967296) at 1.
    - unfold u32. rewrite Z_mod_plus_full. apply Z.mod_small. lia.
    - unfold base, u32. rewrite (Z.mod_eq (clock w0)) by lia. lia. }
  rewrite Hu in Hr. exists c. split; [done|]. destruct c as [x'|x'].
  - destruct Hr as (Hx & _ & Hle & Hlt). split; [split; [done|lia]|lia].
  - destruct Hr as (_ & Hlt & Hx & Hf). split; [lia|]. intros E. destruct (Hf E). lia.
Qed.
(** Without a character the wait does not end when its end is beyond the
    register, whatever the number of rounds. *)
Lemma key_wait_never strs etime w :
  pending w = [] → 4294967295 ≤ etime → key_wait strs etime w = None.
Proof.
  intros Hw He.
  assert (Hnil : ends_in strs [] = false).
  { unfold ends_in. induction strs as [|t strs IH]; [done|]. cbn [existsb]. rewrite IH, orb_false_r.
    destruct t as [|c t]; [done|]. rewrite (bool_decide_false (_ `suffix_of` _)); [done|].
    intros [q E]. symmetry in E. by apply app_nil in E as [_ ?]. }
  apply (while_never _ (λ x, ∃ w1 : W, x = (w1, [], false) ∧ pending w1 = [])); [|by exists w].
  intros x (w1 & -> & Hw1). unfold wait_round. rewrite Hnil.
  pose proof (ticks_now w1) as Hnow. pose proof (ticks_pending w1) as Hpw.
  destruct (get_ticks w1) as [t w2]. cbn [fst snd] in *. subst t.
  pose proof (Z.mod_pos_bound (clock w1) 4294967296). rewrite (proj2 (Z.ltb_ge etime (u32 (clock w1)))) by (unfold u32; lia).
  destruct (tstc w2) eqn:Et; [apply tstc_pending in Et; congruence|].
  eexists. split; [done|]. exists w2. split; [done|congruence].
Qed.
End wait.

Section refine.
Context {W : Type} `{Timed W}.
Context (pl : main_places) (keys : list (Z * Z)) (strs : list (list Z)) (w0 : W) (m0 : mem) (mx : nat) (etime : Z).
Context (Hkeys : keys_at pl m0 keys strs) (Hbuf : owned m0 (presskey pl) 32)
  (Hmx : (0 < mx ≤ 32)%nat) (Hlens : Forall (λ t, (length t ≤ mx)%nat) strs)
  (Hbytes : Forall is_byte (pending w0)).

(** The state of the code for a text, and its answer. *)
Definition key_state (x : W * list Z * bool) : W * mem * Z * Z :=
  let '(w, p, hit) := x in
  (w, typed_in pl m0 mx p, Z.of_nat (Nat.min mx (length p)), if hit : bool then 1 else 0).
Definition key_answer (x : W * list Z * bool) : W * mem * Z :=
  let '(w, p, hit) := x in (w, typed_in pl m0 mx p, if hit : bool then 1 else 0).

Definition wait_known (x : W * list Z * bool) : Prop :=
  wait_text strs w0 x ∧ (x.2 = false → etime < 4294967295).

Lemma key_round_refines x :
  wait_text strs w0 x →
  key_round pl keys mx etime (key_state x) = ctl_map key_state key_answer <$> wait_round strs etime x ∧
  ctl_keeps (wait_text strs w0) wait_known (wait_round strs etime x).
Proof using All.
  intros Hx. split.
  2: { destruct (wait_round_text strs etime w0 x Hx) as (c & -> & Hc). destruct c as [x'|x']; [by destruct Hc|].
       destruct Hc as (Ht & _ & _ & Hf). split; [done|]. intros E. destruct (Hf E) as [Hlt _].
       pose proof (Z.mod_pos_bound (clock x.1.1) 4294967296). unfold u32 in Hlt. lia. }
  destruct x as [[w p] hit]. destruct Hx as (Hp & _). unfold key_round, wait_round, key_state.
  destruct hit; [done|]. cbn [Z.eqb negb].
  pose proof (ticks_pending w) as Hpw. destruct (get_ticks w) as [now w1]. cbn [fst snd] in *.
  rewrite <- Hpw in Hp. rewrite Z.leb_antisym, negb_involutive. destruct (etime <? now); [done|].
  rewrite (key_hit_spec pl _ keys strs mx p 0), some_bind; try done; try lia.
  2: { eapply keys_changed; [done|]. apply changed_write; [lia|]. rewrite newest_length. lia. }
  2: { apply write_bytes_in. }
  destruct (tstc w1) eqn:Et; [|done].
  pose proof (tstc_pending _ Et) as Hne. destruct (pending w1) as [|c r] eqn:Ep; [done|].
  destruct (pending_getc w1 c r Ep) as (w2 & Hg & _).
  rewrite Hp in Hbytes. apply Forall_app in Hbytes as [Hbp [Hbc _]%Forall_cons_iff].
  by rewrite Hg, (take_key_spec pl w1 m0 mx p c w2).
Qed.

Lemma key_loop w :
  pending w = pending w0 →
  while (key_round pl keys mx etime) (w, m0, 0, 0) = key_answer <$> key_wait strs etime w ∧
  match key_wait strs etime w with Some x => wait_known x | None => True end.
Proof using All.
  intros Hw. pose proof (while_map key_state key_answer (wait_text strs w0) wait_known
    (wait_round strs etime) (key_round pl keys mx etime) key_round_refines (w, [], false)) as Hm.
  unfold key_state at 1, typed_in at 1 in Hm. cbn [length newest] in Hm.
  rewrite Nat.min_0_r in Hm. apply Hm.
  split; [by rewrite Hw|]. intros q k E Hk. symmetry in E. by apply app_nil in E as [_ ->].
Qed.
End refine.

(** The maximum the code computes. *)
Lemma max_key (keys : list (Z * Z)) (strs : list (list Z)) (mx0 : nat) :
  Forall2 (λ k t, k.2 = Z.of_nat (length t)) keys strs →
  foldl (λ mx k, if mx >? k.2 then mx else k.2) (mx0 : Z) keys = Nat.max mx0 (longest strs).
Proof.
  intros Hk. revert mx0. induction Hk as [|k t keys strs Hl Hk IH]; intros mx0; cbn [foldl].
  - cbn. lia.
  - change (longest (t :: strs)) with (Nat.max (length t) (longest strs)).
    rewrite Hl, Nat.max_assoc, <- IH. f_equal. rewrite Z.gtb_ltb.
    destruct (Z.ltb_spec (length t) mx0); lia.
Qed.

Section claims.
Context {W : Type} `{Timed W}.
Context (pl : main_places).
Implicit Types (s : shell W) (m : mem).

(** C22: ([abortboot]) the wait for the stop key is [key_wait] on the text
    typed: it answers 1 when a look at the clock before the end of the time was
    followed by finding a key at the end of the text, and 0 when the clock was
    found past the end first; the buffer then holds the last characters of the
    text, as many as the longest key has, and nothing else has changed.  With
    the answer 1 a key is complete, at most one character was taken behind it,
    and no key was complete earlier; with 0 no key was complete before the last
    character.  The counter has 32 bits and is not extended by [get_ticks]:
    when the end of the time is within them the wait ends, within three looks
    after that time, and not before it without a key; when the end is at or
    beyond 2^32 - 1 it never ends with 0, so without a key it does not end. *)
Theorem abortboot_ends s m bootdelay keys strs :
  let start := clock (con s) in
  let etime := (u32 start + bootdelay * get_tbclk) mod 18446744073709551616 in
  let outcome := key_wait strs etime (get_ticks (con s)).2 in
  delay_keys pl s m = Some keys → keys_at pl m keys strs →
  Forall (λ t, (length t ≤ 32)%nat) strs → Exists (λ t, t ≠ []) strs →
  owned m (presskey pl) 32 → Forall is_byte (pending (con s)) →
  abortboot pl s m bootdelay = (λ '(w, p, hit),
    (set_con w s, write_bytes m (presskey pl) (newest (longest strs) p), if hit : bool then 1 else 0)) <$> outcome ∧
  (∀ w p hit, outcome = Some (w, p, hit) → pending (con s) = p ++ pending w ∧
    if hit then hit_late strs p else unhit strs p ∧ etime < 4294967295) ∧
  (0 ≤ bootdelay → u32 start + bootdelay * get_tbclk + 2 * lap < 4294967296 →
   ∃ w p hit, outcome = Some (w, p, hit) ∧ clock w ≤ start + bootdelay * get_tbclk + 3 * lap ∧
     (hit = false → start + bootdelay * get_tbclk < clock w)).
Proof.
  intros start etime outcome Hd Hk H32 Hex Ho Hby.
  pose proof (ticks_step (con s)) as Hs. pose proof (ticks_now (con s)) as Hnow.
  pose proof (ticks_pending (con s)) as Hpw. unfold abortboot, outcome.
  destruct (get_ticks (con s)) as [t w0]. cbn [fst snd] in *. subst t. fold start etime in Hs |- *.
  assert (Hmx : (0 < longest strs ≤ 32)%nat) by by apply longest_bounds.
  pose proof (max_key keys strs 0) as Hkm. cbn [Nat.max] in Hkm. change (Z.of_nat 0) with 0 in Hkm.
  rewrite Hd, some_bind, Hkm by (eapply Forall2_impl; [|exact Hk]; by intros k t (? & _)).
  destruct (key_loop pl keys strs (con s) m (longest strs) etime Hk Ho Hmx (longest_length strs) Hby w0 Hpw)
    as [-> Hx].
  split; [by destruct (key_wait strs etime w0) as [[[w p] []]|]|]. split.
  { intros w p hit E. rewrite E in Hx. destruct Hx as [[Hp Hh] Hf]. split; [done|]. destruct hit; [done|]. by split; [|apply Hf]. }
  intros Hd0 Htime. assert (Hu : 0 ≤ u32 start) by (unfold u32; pose proof (Z.mod_pos_bound start 4294967296); lia).
  assert (Hlap : etime = u32 start + bootdelay * get_tbclk).
  { apply Z.mod_small. change get_tbclk with 520000000 in *. lia. }
  destruct (key_wait_ends strs etime (con s) w0) as ([[w p] hit] & E & Hle & Hf); [done|fold start..|].
  - change get_tbclk with 520000000 in *. lia.
  - lia.
  - fold start in Hle, Hf. exists w, p, hit. split; [done|]. cbn [fst snd] in *. split; [lia|]. intros E0. specialize (Hf E0). lia.
Qed.
End claims.

(** ** A console with a clock *)

Record desk := Desk { typed_keys : list Z; cycles : Z }.

#[export] Instance desk_console : Console desk := {
  putc w c := w;
  getc w := match typed_keys w with [] => None | c :: r => Some (c, Desk r (cycles w + 1)) end;
  tstc w := match typed_keys w with [] => false | _ => true end;
  get_ticks w := (u32 (cycles w), Desk (typed_keys w) (cycles w + 1))
}.

#[export] Program Instance desk_typing : Typing desk := { pending w := typed_keys w }.
Next Obligation. intros w c r E. cbn. rewrite E. by eexists. Qed.
Next Obligation. done. Qed.

#[export] Program Instance desk_timed : Timed desk := { clock w := cycles w; lap := 1 }.
Next Obligation. done. Qed.
Next Obligation. intros w. cbn. lia. Qed.
Next Obligation. done. Qed.
Next Obligation. intros [[|c r] t] E; done. Qed.
Next Obligation. intros [[|c r] t] d w' E; [done|]. injection E as _ <-. cbn. lia. Qed.

Definition desk_names : list Z :=
  lit "bootdelaykey" ++ [0] ++ lit "bootdelaykey2" ++ [0] ++ lit "bootstopkey" ++ [0] ++
  lit "bootstopkey2" ++ [0] ++ lit "tpl" ++ [0].
Definition desk_block : mem := mem_of2 100 (flat two_vars ++ [0]) 200 desk_names.
Definition desk_mem : mem := write_bytes desk_block 0x1000 (replicate 32 0).
Definition desk_places : main_places :=
  MainPlaces 200 213 227 239 252 0x1000 0 0 0 0 0 0 0 0 0 0 0 0 0 0 0 0 0.
Definition desk_shell (l : list Z) (t : Z) : shell desk := Shell (Desk l t) 0 0 1 small_env.

Lemma desk_low a l : a + length l ≤ 0x1000 → bytes_at desk_block a l → bytes_at desk_mem a l.
Proof. intros Ha Hb. unfold desk_mem. apply bytes_at_write_disjoint; [left; lia|done]. Qed.

Lemma desk_cstr (a : Z) l pre post :
  desk_names = pre ++ (l ++ [0]) ++ post → a = 200 + length pre → Forall is_char l →
  cstr desk_mem a l.
Proof.
  intros E -> Hl. split; [done|]. apply desk_low.
  - assert (Hlen : length (pre ++ (l ++ [0]) ++ post) = 56%nat) by by rewrite <- E.
    rewrite !length_app in *. lia.
  - unfold desk_block, mem_of2. rewrite E.
    pose proof (write_bytes_in (mem_of 100 (flat two_vars ++ [0])) 200 (pre ++ (l ++ [0]) ++ post)) as Hb.
    apply bytes_at_app in Hb as [_ Hb]. by apply bytes_at_app in Hb as [Hb _].
Qed.

Lemma desk_unset name n :
  cstr desk_mem name n → existsb (Z.eqb 61) n = false → fits n → lookup_env n two_vars = None →
  getenv small_env desk_mem name = Some NULL.
Proof.
  intros Hc Hn Hf Hl. destruct (getenv_found small_env desk_mem two_vars name n) as (p & -> & Hp);
    [|reflexivity|done|by apply not_in_lit|done|by rewrite Hl in Hp; subst].
  split; [|apply two_vars_ok]. apply desk_low; [vm_compute; discriminate|].
  apply bytes_at_mem_of2. right. vm_compute. discriminate.
Qed.

Lemma desk_keys l t :
  delay_keys desk_places (desk_shell l t) desk_mem = Some [(NULL, 0); (NULL, 0); (NULL, 0); (252, 3)].
Proof.
  unfold delay_keys, desk_shell, desk_places. cbn [env_of lit_bootdelaykey lit_bootdelaykey2
    lit_bootstopkey lit_bootstopkey2 lit_stop_str2].
  rewrite (desk_unset 200 (lit "bootdelaykey")), some_bind;
    [|by apply (desk_cstr 200 _ [] (drop 13 desk_names)); [..|chars]|done..].
  rewrite (desk_unset 213 (lit "bootdelaykey2")), some_bind;
    [|by apply (desk_cstr 213 _ (take 13 desk_names) (drop 27 desk_names)); [..|chars]|done..].
  rewrite (desk_unset 227 (lit "bootstopkey")), some_bind;
    [|by apply (desk_cstr 227 _ (take 27 desk_names) (drop 39 desk_names)); [..|chars]|done..].
  rewrite (desk_unset 239 (lit "bootstopkey2")), some_bind;
    [|by apply (desk_cstr 239 _ (take 39 desk_names) (drop 52 desk_names)); [..|chars]|done..].
  unfold key_len. cbn [Z.eqb NULL]. rewrite !some_bind. change (252 =? NULL) with false. cbv iota.
  rewrite (strlen_cstr desk_mem 252 (lit "tpl")); [done| |done].
  by apply (desk_cstr 252 _ (take 52 desk_names) []); [..|chars].
Qed.

Definition desk_strs : list (list Z) := [[]; []; []; lit "tpl"].

Lemma desk_keys_at :
  keys_at desk_places desk_mem [(NULL, 0); (NULL, 0); (NULL, 0); (252, 3)] desk_strs.
Proof.
  repeat (constructor; [split; [reflexivity|split; [try apply bytes_at_nil|vm_compute; by left]]|]);
    [|constructor].
  apply cstr_bytes. by apply (desk_cstr 252 _ (take 52 desk_names) []); [..|chars].
Qed.

Lemma abortboot_ends_witness :
  let s := desk_shell (lit "xtpl") 4294967290 in
  let etime := (4294967290 + 1 * get_tbclk) mod 18446744073709551616 in
  let early := desk_shell (lit "xtpl") 5000000000 in
  ∃ outcome : option (desk * list Z * bool), abortboot desk_places s desk_mem 1 = (λ '(w, p, hit),
    (set_con w s, write_bytes desk_mem 0x1000 (newest 3 p), if hit : bool then 1 else 0)) <$> outcome ∧
  (∀ w p hit, outcome = Some (w, p, hit) → lit "xtpl" = p ++ typed_keys w ∧
    if hit then hit_late desk_strs p
    else unhit desk_strs p ∧ etime < 4294967295) ∧
  ∃ w m' r, abortboot desk_places early desk_mem 1 = Some (set_con w early, m', r) ∧
    cycles w ≤ 5000000000 + 520000000 + 3.
Proof.
  intros s etime early.
  assert (Hex : Exists (λ t, t ≠ []) desk_strs).
  { do 3 apply Exists_cons_tl. apply Exists_cons_hd. discriminate. }
  assert (Hlen : Forall (λ t, (length t ≤ 32)%nat) desk_strs) by repeat constructor.
  assert (Hby : ∀ t, Forall is_byte (pending (con (desk_shell (lit "xtpl") t)))).
  { intros t. change (Forall is_byte (lit "xtpl")). repeat constructor; unfold is_byte; lia. }
  pose proof (bytes_at_owned _ _ _ (write_bytes_in desk_block 0x1000 (replicate 32 0))) as Ho.
  destruct (abortboot_ends desk_places s desk_mem 1 _ _ (desk_keys _ _) desk_keys_at Hlen Hex Ho (Hby _))
    as (E & Ht & _).
  eexists. split; [exact E|]. split; [exact Ht|].
  destruct (abortboot_ends desk_places early desk_mem 1 _ _ (desk_keys _ _) desk_keys_at Hlen Hex Ho (Hby _))
    as (E2 & _ & Hend).
  destruct Hend as (w & p & hit & Ew & Hc & _); [discriminate|reflexivity|].
  rewrite Ew in E2. do 3 eexists. split; [exact E2|exact Hc].
Defined.

(** What the wait answers: the key is seen after a further character, a late
    key is not seen at all. *)
Example key_wait_seen :
  key_wait desk_strs 100 (Desk (lit "xtplq!") 0) =
    Some (Desk (lit "!") 10, lit "xtplq", true).
Proof. vm_compute. reflexivity. Qed.

Example key_wait_missed :
  key_wait desk_strs 7 (Desk (lit "xtpl") 0) =
    Some (Desk [] 9, lit "xtpl", false).
Proof. vm_compute. reflexivity. Qed.
