(* ===== verification/Lzma.v ===== *)
(** * The LZMA decoder ([lib_generic/LzmaDecode.c])

    The range decoder with its adaptive probabilities, the literal, length and
    distance decoders and the main loop, for the configuration of this board
    (neither [_LZMA_IN_CB] nor [_LZMA_OUT_READ] nor [_LZMA_PROB32]).  The
    array of probabilities is a list; an index outside it is a fault, as is an
    access outside the memory.  A result other than [LZMA_RESULT_OK] is a
    [Fail] with the memory at that point. *)

From S2P Require Import Prelude.

Definition kTopValue : Z := 0x1000000.
Definition kNumBitModelTotalBits : Z := 11.
Definition kBitModelTotal : Z := 2048.
Definition kNumMoveBits : Z := 5.
Definition kNumPosBitsMax : Z := 4.
Definition kLenNumLowBits : Z := 3.
Definition kLenNumLowSymbols : Z := 8.
Definition kLenNumMidBits : Z := 3.
Definition kLenNumMidSymbols : Z := 8.
Definition kLenNumHighBits : Z := 8.
Definition kLenNumHighSymbols : Z := 256.
Definition LenChoice : Z := 0.
Definition LenChoice2 : Z := LenChoice + 1.
Definition LenLow : Z := LenChoice2 + 1.
Definition LenMid : Z := LenLow + Z.shiftl 16 kLenNumLowBits.
Definition LenHigh : Z := LenMid + Z.shiftl 16 kLenNumMidBits.
Definition kNumLenProbs : Z := LenHigh + kLenNumHighSymbols.
Definition kNumStates : Z := 12.
Definition kNumLitStates : Z := 7.
Definition kStartPosModelIndex : Z := 4.
Definition kEndPosModelIndex : Z := 14.
Definition kNumFullDistances : Z := 128.
Definition kNumPosSlotBits : Z := 6.
Definition kNumLenToPosStates : Z := 4.
Definition kNumAlignBits : Z := 4.
Definition kAlignTableSize : Z := 16.
Definition kMatchMinLen : Z := 2.
Definition IsMatch : Z := 0.
Definition IsRep : Z := IsMatch + Z.shiftl kNumStates kNumPosBitsMax.
Definition IsRepG0 : Z := IsRep + kNumStates.
Definition IsRepG1 : Z := IsRepG0 + kNumStates.
Definition IsRepG2 : Z := IsRepG1 + kNumStates.
Definition IsRep0Long : Z := IsRepG2 + kNumStates.
Definition PosSlot : Z := IsRep0Long + Z.shiftl kNumStates kNumPosBitsMax.
Definition SpecPos : Z := PosSlot + Z.shiftl kNumLenToPosStates kNumPosSlotBits.
Definition Align : Z := SpecPos + kNumFullDistances - kEndPosModelIndex.
Definition LenCoder : Z := Align + kAlignTableSize.
Definition RepLenCoder : Z := LenCoder + kNumLenProbs.
Definition Literal : Z := RepLenCoder + kNumLenProbs.
Definition LZMA_BASE_SIZE : Z := 1846.
Definition LZMA_LIT_SIZE : Z := 768.
Definition LZMA_PROPERTIES_SIZE : Z := 5.
Definition LZMA_RESULT_OK : Z := 0.
Definition LZMA_RESULT_DATA_ERROR : Z := 1.

(** ** Results *)

Inductive result (A : Type) :=
  | Ok (x : A)
  | Fail (code : Z) (m : mem).
Arguments Ok {A} x.
Arguments Fail {A} code m.

Definition result_bind {A B} (o : option (result A)) (k : A → option (result B)) : option (result B) :=
  match o with
  | Some (Ok x) => k x
  | Some (Fail c m) => Some (Fail c m)
  | None => None
  end.

Declare Scope lzma_scope.
#[global] Open Scope lzma_scope.
Notation "x ←? e ; k" := (result_bind e (λ x, k))
  (at level 20, e at level 100, k at level 200, only parsing) : lzma_scope.
Notation "' p ←? e ; k" := (result_bind e (λ z, match z with p => k end))
  (at level 20, p pattern, e at level 100, k at level 200, only parsing) : lzma_scope.

(** ** The range decoder *)

(** The variables of the range decoder, the array and the memory. *)
Record dec := Dec { memory : mem; Buffer : Z; Range : Z; Code : Z; Probs : list Z }.

Section decoder.
Context (BufferLim : Z).
Implicit Types (d : dec).

(** [RC_TEST] and [RC_READ_BYTE]; the byte goes into [Code]. *)
Definition rc_byte d : option (result dec) :=
  if Buffer d =? BufferLim then Some (Fail LZMA_RESULT_DATA_ERROR (memory d)) else
  c ← ld (memory d) (Buffer d);
  Some (Ok (Dec (memory d) (Buffer d + 1) (Range d) (Z.lor (u32 (Z.shiftl (Code d) 8)) c) (Probs d))).

(** [RC_INIT] *)
Definition rc_init m inStream (probs : list Z) : option (result dec) :=
  d ←? rc_byte (Dec m inStream 0xFFFFFFFF 0 probs);
  d ←? rc_byte d; d ←? rc_byte d; d ←? rc_byte d; rc_byte d.

(** [RC_NORMALIZE] *)
Definition rc_normalize d : option (result dec) :=
  if Range d <? kTopValue then
    d ←? rc_byte d;
    Some (Ok (Dec (memory d) (Buffer d) (u32 (Z.shiftl (Range d) 8)) (Code d) (Probs d)))
  else Some (Ok d).

(** [IfBit0] with [UpdateBit0] or [UpdateBit1]: the bit. *)
Definition rc_bit (p : Z) d : option (result (Z * dec)) :=
  d ←? rc_normalize d;
  if p <? 0 then None else
  v ← Probs d !! Z.to_nat p;
  let bound := u32 (Z.shiftr (Range d) kNumBitModelTotalBits * v) in
  if Code d <? bound then
    Some (Ok (0, Dec (memory d) (Buffer d) bound (Code d)
      (<[Z.to_nat p := u16 (v + Z.shiftr (kBitModelTotal - v) kNumMoveBits)]> (Probs d))))
  else
    Some (Ok (1, Dec (memory d) (Buffer d) (u32 (Range d - bound)) (u32 (Code d - bound))
      (<[Z.to_nat p := u16 (v - Z.shiftr v kNumMoveBits)]> (Probs d)))).

(** [RC_GET_BIT] *)
Definition rc_get_bit (p mi : Z) d : option (result (Z * dec)) :=
  '(b, d) ←? rc_bit p d; Some (Ok (2 * mi + b, d)).

(** The loop of [RangeDecoderBitTreeDecode]; a count of 0 would not end. *)
Fixpoint bit_tree_loop (probs : Z) (i : nat) (res : Z) d : option (result (Z * dec)) :=
  match i with
  | O => None
  | S i =>
      '(res, d) ←? rc_get_bit (probs + res) res d;
      match i with O => Some (Ok (res, d)) | _ => bit_tree_loop probs i res d end
  end.

Definition RangeDecoderBitTreeDecode (probs : Z) (numLevels : Z) d : option (result (Z * dec)) :=
  '(res, d) ←? bit_tree_loop probs (Z.to_nat numLevels) 1 d;
  Some (Ok (res - Z.shiftl 1 numLevels, d)).

(** ** Literals *)

(** A loop whose rounds can fail. *)
Definition result_loop {S R} (body : S → option (result (ctl S R))) : S → option (result R) :=
  while (λ s,
    match body s with
    | Some (Ok (Next s)) => Some (Next s)
    | Some (Ok (Done r)) => Some (Done (Ok r))
    | Some (Fail c m) => Some (Done (Fail c m))
    | None => None
    end).

(** The bits of a literal behind a match, up to the first that differs. *)
Definition literal_matched (prob matchByte symbol : Z) d : option (result (Z * dec)) :=
  result_loop (λ '(matchByte, symbol, d),
    let matchByte := s32 (Z.shiftl matchByte 1) in
    let bit := Z.land matchByte 0x100 in
    '(symbol', d) ←? rc_get_bit (prob + 0x100 + bit + symbol) symbol d;
    let differs := if Z.testbit symbol' 0 then bit =? 0 else negb (bit =? 0) in
    Some (Ok (if differs || negb (symbol' <? 0x100) then Done (symbol', d)
              else Next (matchByte, symbol', d)))) (matchByte, symbol, d).

Definition literal_rest (prob symbol : Z) d : option (result (Z * dec)) :=
  result_loop (λ '(symbol, d),
    if symbol <? 0x100 then
      '(symbol, d) ←? rc_get_bit (prob + symbol) symbol d; Some (Ok (Next (symbol, d)))
    else Some (Ok (Done (symbol, d)))) (symbol, d).

(** ** Lengths and distances *)

Definition decode_len (prob posState : Z) d : option (result (Z * dec)) :=
  '(b, d) ←? rc_bit (prob + LenChoice) d;
  '(probLen, offset, numBits, d) ←? (
    if b =? 0 then
      Some (Ok (prob + LenLow + Z.shiftl posState kLenNumLowBits, 0, kLenNumLowBits, d))
    else
      '(b, d) ←? rc_bit (prob + LenChoice2) d;
      if b =? 0 then
        Some (Ok (prob + LenMid + Z.shiftl posState kLenNumMidBits, kLenNumLowSymbols, kLenNumMidBits, d))
      else Some (Ok (prob + LenHigh, kLenNumLowSymbols + kLenNumMidSymbols, kLenNumHighBits, d)));
  '(len, d) ←? RangeDecoderBitTreeDecode probLen numBits d;
  Some (Ok (len + offset, d)).

(** Bits of equal probability; a count of 0 would not end. *)
Fixpoint direct_bits (n : nat) (rep0 : Z) d : option (result (Z * dec)) :=
  match n with
  | O => None
  | S n =>
      d ←? rc_normalize d;
      let range := Z.shiftr (Range d) 1 in
      let rep0 := u32 (Z.shiftl rep0 1) in
      let '(rep0, code) :=
        if Code d >=? range then (Z.lor rep0 1, u32 (Code d - range)) else (rep0, Code d) in
      let d := Dec (memory d) (Buffer d) range code (Probs d) in
      match n with O => Some (Ok (rep0, d)) | _ => direct_bits n rep0 d end
  end.

(** The low bits, the least significant first. *)
Fixpoint reverse_bits (n : nat) (prob i mi rep0 : Z) d : option (result (Z * dec)) :=
  match n with
  | O => None
  | S n =>
      '(mi', d) ←? rc_get_bit (prob + mi) mi d;
      let rep0 := if Z.testbit mi' 0 then Z.lor rep0 i else rep0 in
      match n with
      | O => Some (Ok (rep0, d))
      | _ => reverse_bits n prob (s32 (Z.shiftl i 1)) mi' rep0 d
      end
  end.

(** [rep0] before it is incremented. *)
Definition decode_distance (len : Z) d : option (result (Z * dec)) :=
  '(posSlot, d) ←? RangeDecoderBitTreeDecode
    (PosSlot + Z.shiftl (if len <? kNumLenToPosStates then len else kNumLenToPosStates - 1)
      kNumPosSlotBits) kNumPosSlotBits d;
  if posSlot >=? kStartPosModelIndex then
    let numDirectBits := Z.shiftr posSlot 1 - 1 in
    let rep0 := Z.lor 2 (Z.land posSlot 1) in
    if posSlot <? kEndPosModelIndex then
      let rep0 := u32 (Z.shiftl rep0 numDirectBits) in
      reverse_bits (Z.to_nat numDirectBits) (SpecPos + rep0 - posSlot - 1) 1 1 rep0 d
    else
      '(rep0, d) ←? direct_bits (Z.to_nat (numDirectBits - kNumAlignBits)) rep0 d;
      reverse_bits (Z.to_nat kNumAlignBits) Align 1 1 (u32 (Z.shiftl rep0 kNumAlignBits)) d
  else Some (Ok (posSlot, d)).

(** ** The main loop *)

(** The variables of [LzmaDecode] that live through its rounds. *)
Record lzma := Lzma {
  rd : dec;
  nowPos : Z;
  previousByte : Z;
  lz_state : Z;
  rep0 : Z;
  rep1 : Z;
  rep2 : Z;
  rep3 : Z
}.

Definition set_rd d (s : lzma) : lzma :=
  Lzma d (nowPos s) (previousByte s) (lz_state s) (rep0 s) (rep1 s) (rep2 s) (rep3 s).

Definition set_memory m d : dec := Dec m (Buffer d) (Range d) (Code d) (Probs d).

Context (lc lp pb outStream outSize : Z).

Definition decode_literal (s : lzma) : option (result lzma) :=
  let prob := Literal + LZMA_LIT_SIZE *
    (Z.shiftl (Z.land (nowPos s) (u32 (Z.shiftl 1 lp - 1))) lc + Z.shiftr (previousByte s) (8 - lc)) in
  '(symbol, d) ←? (
    if lz_state s >=? kNumLitStates then
      matchByte ← ld (memory (rd s)) (outStream + u32 (nowPos s - rep0 s));
      literal_matched prob matchByte 1 (rd s)
    else Some (Ok (1, rd s)));
  '(symbol, d) ←? literal_rest prob symbol d;
  m ← st (memory d) (outStream + nowPos s) (u8 symbol);
  let state := if lz_state s <? 4 then 0 else if lz_state s <? 10 then lz_state s - 3 else lz_state s - 6 in
  Some (Ok (Lzma (set_memory m d) (nowPos s + 1) (u8 symbol) state (rep0 s) (rep1 s) (rep2 s) (rep3 s))).

(** A byte that is [rep0] bytes back. *)
Definition copy_back (s : lzma) : option lzma :=
  c ← ld (memory (rd s)) (outStream + u32 (nowPos s - rep0 s));
  m ← st (memory (rd s)) (outStream + nowPos s) c;
  Some (Lzma (set_memory m (rd s)) (nowPos s + 1) c (lz_state s) (rep0 s) (rep1 s) (rep2 s) (rep3 s)).

(** The copy of a match, at least one byte. *)
Definition copy_match (s : lzma) (len : Z) : option lzma :=
  while (λ '(s, len),
    s ← copy_back s;
    let len := len - 1 in
    Some (if negb (len =? 0) && (nowPos s <? outSize) then Next (s, len) else Done s)) (s, len).

(** How a repetition chooses its distance. *)
Definition choose_rep (s : lzma) : option (result lzma) :=
  '(b1, d) ←? rc_bit (IsRepG1 + lz_state s) (rd s);
  if b1 =? 0 then
    Some (Ok (Lzma d (nowPos s) (previousByte s) (lz_state s) (rep1 s) (rep0 s) (rep2 s) (rep3 s)))
  else
    '(b2, d) ←? rc_bit (IsRepG2 + lz_state s) d;
    if b2 =? 0 then
      Some (Ok (Lzma d (nowPos s) (previousByte s) (lz_state s) (rep2 s) (rep0 s) (rep1 s) (rep3 s)))
    else
      Some (Ok (Lzma d (nowPos s) (previousByte s) (lz_state s) (rep3 s) (rep0 s) (rep1 s) (rep2 s))).

(** The distance of a match (not of a repetition), and the end marker. *)
Definition match_distance (s : lzma) (len : Z) : option (result (lzma * bool)) :=
  if lz_state s <? 4 then
    '(r, d) ←? decode_distance len (rd s);
    let r := u32 (r + 1) in
    Some (Ok (Lzma d (nowPos s) (previousByte s) (lz_state s + kNumLitStates) r (rep1 s) (rep2 s) (rep3 s),
      r =? 0))
  else Some (Ok (s, false)).

(** The length, the distance and the copy. *)
Definition finish_match (prob posState : Z) (s : lzma) : option (result (ctl lzma lzma)) :=
  '(len, d) ←? decode_len prob posState (rd s);
  '(s, finished) ←? match_distance (set_rd d s) len;
  if finished : bool then Some (Ok (Done s)) else
  let len := len + kMatchMinLen in
  if rep0 s >? nowPos s then Some (Fail LZMA_RESULT_DATA_ERROR (memory (rd s))) else
  s ← copy_match s len;
  Some (Ok (Next s)).

Definition set_state (state : Z) (s : lzma) : lzma :=
  Lzma (rd s) (nowPos s) (previousByte s) state (rep0 s) (rep1 s) (rep2 s) (rep3 s).

(** One round: a literal, a repetition or a match. *)
Definition lzma_round (s : lzma) : option (result (ctl lzma lzma)) :=
  if negb (nowPos s <? outSize) then Some (Ok (Done s)) else
  let posState := Z.land (nowPos s) (u32 (Z.shiftl 1 pb - 1)) in
  let state := lz_state s in
  '(b, d) ←? rc_bit (IsMatch + Z.shiftl state kNumPosBitsMax + posState) (rd s);
  let s := set_rd d s in
  if b =? 0 then s ←? decode_literal s; Some (Ok (Next s)) else
  '(b, d) ←? rc_bit (IsRep + state) (rd s);
  let s := set_rd d s in
  if b =? 0 then
    let s := Lzma d (nowPos s) (previousByte s) (if state <? kNumLitStates then 0 else 3)
      (rep0 s) (rep0 s) (rep1 s) (rep2 s) in
    finish_match LenCoder posState s
  else
    '(b, d) ←? rc_bit (IsRepG0 + state) (rd s);
    let s := set_rd d s in
    if b =? 0 then
      '(b, d) ←? rc_bit (IsRep0Long + Z.shiftl state kNumPosBitsMax + posState) (rd s);
      let s := set_rd d s in
      if b =? 0 then
        if nowPos s =? 0 then Some (Fail LZMA_RESULT_DATA_ERROR (memory (rd s))) else
        s ← copy_back (set_state (if state <? kNumLitStates then 9 else 11) s);
        Some (Ok (Next s))
      else finish_match RepLenCoder posState (set_state (if state <? kNumLitStates then 8 else 11) s)
    else
      s ←? choose_rep s;
      finish_match RepLenCoder posState (set_state (if state <? kNumLitStates then 8 else 11) s).
End decoder.

(** The array at the start. *)
Definition init_probs (probs : list Z) (numProbs : Z) : option (list Z) :=
  while (λ '(probs, i),
    if i <? numProbs then
      if i <? length probs then
        Some (Next (<[Z.to_nat i := Z.shiftr kBitModelTotal 1]> probs, i + 1))
      else None
    else Some (Done probs)) (probs, 0).

(** [CLzmaProperties] *)
Record props := Props { lc : Z; lp : Z; pb : Z }.

(** What [LzmaDecode] returns and leaves behind. *)
Record outcome := Outcome {
  out_result : Z;
  inSizeProcessed : Z;
  outSizeProcessed : Z;
  out_memory : mem
}.

Definition LzmaDecode m (ps : props) (probs : list Z) (inStream inSize outStream outSize : Z)
    : option outcome :=
  let BufferLim := inStream + inSize in
  p ← init_probs probs (Literal + u32 (Z.shiftl LZMA_LIT_SIZE (lc ps + lp ps)));
  r ← (
    d ←? rc_init BufferLim m inStream p;
    s ←? result_loop (lzma_round BufferLim (lc ps) (lp ps) (pb ps) outStream outSize)
      (Lzma d 0 0 0 1 1 1 1);
    d ←? rc_normalize BufferLim (rd s);
    Some (Ok (set_rd d s)));
  match r with
  | Ok s => Some (Outcome LZMA_RESULT_OK (Buffer (rd s) - inStream) (nowPos s) (memory (rd s)))
  | Fail c m => Some (Outcome c 0 0 m)
  end.

Definition LzmaDecodeProperties m (propsData size : Z) : option (Z * option props) :=
  if size <? LZMA_PROPERTIES_SIZE then Some (LZMA_RESULT_DATA_ERROR, None) else
  prop0 ← ld m propsData;
  if prop0 >=? 9 * 5 * 5 then Some (LZMA_RESULT_DATA_ERROR, None) else
  '(pb, prop0) ← while (λ '(pb, prop0),
    Some (if prop0 >=? 9 * 5 then Next (pb + 1, prop0 - 9 * 5) else Done (pb, prop0))) (0, prop0);
  '(lp, prop0) ← while (λ '(lp, prop0),
    Some (if prop0 >=? 9 then Next (lp + 1, prop0 - 9) else Done (lp, prop0))) (0, prop0);
  Some (LZMA_RESULT_OK, Some (Props prop0 lp pb)).
