(* ===== verification/LzmaSafe.v ===== *)
(** * Safety of the LZMA decoder

    Whatever the compressed bytes are, the decoder of [Lzma] stops, stays
    inside its input, its array of probabilities and its output, and answers
    success or a data error. *)

From S2P Require Import Prelude.
From S2P Require Import Lzma.

Section safety.
Context (m0 : mem) (inStream BufferLim outStream outSize : Z) (N : Z) (ps : props).
Implicit Types (d : dec) (s : lzma).

Context (Hin : owned m0 inStream (BufferLim - inStream))
  (Hout : owned m0 outStream outSize) (Hsize : 0 ≤ outSize < 4294967296)
  (Hlc : 0 ≤ lc ps < 9) (Hlp : 0 ≤ lp ps < 5) (Hpb : 0 ≤ pb ps < 5)
  (HN : N = LZMA_BASE_SIZE + Z.shiftl LZMA_LIT_SIZE (lc ps + lp ps)).

(** Memory has changed only in the output. *)
Definition out_only (m : mem) : Prop := changed outStream (outStream + outSize) m0 m.

(** Decoding reads: the memory stays [M]. *)
Definition dec_ok (M : mem) d : Prop :=
  out_only M ∧ memory d = M ∧ inStream ≤ Buffer d ≤ BufferLim ∧ Z.of_nat (length (Probs d)) = N.

(** A step that does not fault: it fails with a data error or gives [Q]. *)
Definition safe {A} (Q : A → Prop) (o : option (result A)) : Prop :=
  ∃ r, o = Some r ∧
    match r with Ok x => Q x | Fail c m => c = LZMA_RESULT_DATA_ERROR ∧ out_only m end.

Lemma safe_ok {A} (Q : A → Prop) x : Q x → safe Q (Some (Ok x)).
Proof. intros Hx. by exists (Ok x). Qed.

Lemma safe_bind {A B} (P : A → Prop) (Q : B → Prop) o k :
  safe P o → (∀ x, P x → safe Q (k x)) → safe Q (result_bind o k).
Proof. intros ([x|c m] & -> & Hx) Hk; [by apply Hk|by exists (Fail c m)]. Qed.

Lemma safe_mono {A} (P Q : A → Prop) o : safe P o → (∀ x, P x → Q x) → safe Q o.
Proof. intros ([x|c m] & -> & Hx) Hk; [exists (Ok x); auto|by exists (Fail c m)]. Qed.

(** The rule for loops. *)
Lemma safe_loop {X R} (body : X → option (result (ctl X R))) (I : X → Prop) (μ : X → Z) (Q : R → Prop) (x : X) :
  (∀ x, I x → safe (λ c, match c with Next x' => I x' ∧ 0 ≤ μ x' < μ x | Done r => Q r end) (body x)) →
  I x → 0 ≤ μ x < 18446744073709551616 → safe Q (result_loop body x).
Proof.
  intros Hb Hx Hμ. unfold result_loop.
  apply (while_rule _ I μ (λ r, match r with
    | Ok x => Q x | Fail c m => c = LZMA_RESULT_DATA_ERROR ∧ out_only m end)); [|done|done].
  intros x1 Hx1. destruct (Hb x1 Hx1) as ([[x2|r]|c m] & -> & Hc); eexists; (split; [reflexivity|done]).
Qed.

(** ** The range decoder *)

Section primitives.
Context (M : mem).

Lemma rc_byte_safe d : dec_ok M d → safe (λ d', dec_ok M d' ∧ Range d' = Range d) (rc_byte BufferLim d).
Proof using Hin.
  intros (Ho & Hm & Hb & Hl). unfold rc_byte. destruct (Z.eqb_spec (Buffer d) BufferLim) as [E|E].
  { eexists. split; [reflexivity|]. by rewrite Hm. }
  assert (Hs : is_Some (memory d !! Buffer d)).
  { rewrite Hm. apply Ho, (owned_at _ _ _ _ Hin). lia. }
  destruct Hs as [c Hc]. rewrite (ld_bind _ _ _ _ Hc). apply safe_ok. split; [|done].
  split; [done|]. split; [done|]. cbn [Buffer Probs]. split; [lia|done].
Qed.

Lemma rc_init_safe probs :
  out_only M → Z.of_nat (length probs) = N → inStream ≤ BufferLim →
  safe (dec_ok M) (rc_init BufferLim M inStream probs).
Proof using Hin.
  intros Ho Hl Hle.
  assert (Hb : ∀ d, dec_ok M d → safe (dec_ok M) (rc_byte BufferLim d)).
  { intros d Hd. eapply safe_mono; [by apply rc_byte_safe|]. by intros d' [? _]. }
  unfold rc_init. eapply safe_bind.
  { apply Hb. split; [done|]. split; [done|]. split; [cbn [Buffer]; lia|done]. }
  intros d1 H1. eapply safe_bind; [by apply Hb|]. intros d2 H2. eapply safe_bind; [by apply Hb|].
  intros d3 H3. eapply safe_bind; [by apply Hb|]. intros d4 H4. by apply Hb.
Qed.

Lemma rc_normalize_safe d : dec_ok M d → safe (dec_ok M) (rc_normalize BufferLim d).
Proof using Hin.
  intros Hd. unfold rc_normalize. destruct (Range d <? kTopValue); [|by apply safe_ok].
  eapply safe_bind; [by apply rc_byte_safe|]. intros d' [Hd' _]. by apply safe_ok.
Qed.

Lemma rc_bit_safe p d :
  dec_ok M d → 0 ≤ p < N → safe (λ '(b, d'), (b = 0 ∨ b = 1) ∧ dec_ok M d') (rc_bit BufferLim p d).
Proof using Hin.
  intros Hd Hp. unfold rc_bit. eapply safe_bind; [by apply rc_normalize_safe|].
  intros d' (Ho & Hm & Hb & Hl). rewrite (proj2 (Z.ltb_ge p 0)) by lia.
  destruct (lookup_lt_is_Some_2 (Probs d') (Z.to_nat p)) as [v ->]; [lia|]. rewrite some_bind.
  destruct (Code d' <? _); apply safe_ok.
  - split; [by left|]. split; [done|]. split; [done|]. split; [done|]. cbn [Probs]. by rewrite length_insert.
  - split; [by right|]. split; [done|]. split; [done|]. split; [done|]. cbn [Probs]. by rewrite length_insert.
Qed.

Lemma rc_get_bit_safe p mi d :
  dec_ok M d → 0 ≤ p < N →
  safe (λ '(mi', d'), (mi' = 2 * mi ∨ mi' = 2 * mi + 1) ∧ dec_ok M d') (rc_get_bit BufferLim p mi d).
Proof using Hin.
  intros Hd Hp. unfold rc_get_bit. eapply safe_bind; [by apply rc_bit_safe|].
  intros [b d'] [Hb Hd']. apply safe_ok. split; [lia|done].
Qed.

Lemma bit_tree_loop_safe probs n (k : nat) res d :
  dec_ok M d → (0 < n)%nat → 2 ^ k ≤ res < 2 ^ (k + 1) → 0 ≤ probs → probs + 2 ^ (k + n) ≤ N →
  safe (λ '(r, d'), 2 ^ (k + n) ≤ r < 2 ^ (k + n + 1) ∧ dec_ok M d') (bit_tree_loop BufferLim probs n res d).
Proof using Hin.
  revert k res d. induction n as [|n IH]; intros k res d Hd Hn Hr Hp HpN; [lia|].
  assert (H2 : 2 ^ (k + 1) ≤ 2 ^ (k + S n)) by (apply Z.pow_le_mono_r; lia).
  assert (E2 : 2 ^ (k + 1) = 2 * 2 ^ k) by (rewrite Z.pow_add_r by lia; lia).
  assert (E4 : 2 ^ (k + 1 + 1) = 4 * 2 ^ k) by (rewrite !Z.pow_add_r by lia; lia).
  cbn [bit_tree_loop]. eapply safe_bind; [apply rc_get_bit_safe; [done|lia]|].
  intros [res' d'] [Hres Hd']. destruct n as [|n].
  - apply safe_ok. split; [|done]. change (Z.of_nat 1) with 1. lia.
  - eapply safe_mono; [apply (IH (S k)); try done; try lia|].
    + replace (S k + S n) with (k + S (S n)) by lia. done.
    + intros [r d2]. by replace (S k + S n) with (k + S (S n)) by lia.
Qed.

Lemma bit_tree_safe probs L d :
  dec_ok M d → 0 < L → 0 ≤ probs → probs + 2 ^ L ≤ N →
  safe (λ '(r, d'), 0 ≤ r < 2 ^ L ∧ dec_ok M d') (RangeDecoderBitTreeDecode BufferLim probs L d).
Proof using Hin.
  intros Hd HL Hp HN'. unfold RangeDecoderBitTreeDecode. eapply safe_bind.
  { apply (bit_tree_loop_safe probs (Z.to_nat L) 0 1 d); try done; try lia.
    rewrite Z2Nat.id by lia. done. }
  intros [r d'] [Hr Hd']. apply safe_ok. rewrite Z2Nat.id, Z.add_0_l in Hr by lia.
  rewrite Z.pow_add_r in Hr by lia. rewrite Z.shiftl_1_l. split; [lia|done].
Qed.

(** ** Literals *)

Lemma land_256 x : Z.land x 0x100 = 0 ∨ Z.land x 0x100 = 0x100.
Proof.
  destruct (Z.testbit x 8) eqn:E; [right|left]; apply Z.bits_inj'; intros n Hn;
    rewrite Z.land_spec; change 0x100 with (2 ^ 8); rewrite Z.pow2_bits_eqb by lia;
    destruct (Z.eqb_spec 8 n) as [<-|Hne]; rewrite ?E, ?andb_false_r, ?Z.bits_0; done.
Qed.

Lemma literal_matched_safe prob mb d :
  dec_ok M d → 0 ≤ prob → prob + LZMA_LIT_SIZE ≤ N →
  safe (λ '(r, d'), 1 ≤ r < 0x200 ∧ dec_ok M d') (literal_matched BufferLim prob mb 1 d).
Proof using Hin.
  intros Hd Hp HpN. unfold literal_matched, LZMA_LIT_SIZE in *.
  apply (safe_loop _ (λ '(_, sym, d), 1 ≤ sym < 0x100 ∧ dec_ok M d) (λ '(_, sym, _), 0x100 - sym));
    [|split; [lia|done]|lia].
  intros [[mb1 sym] d1] [Hsym Hd1].
  destruct (land_256 (s32 (Z.shiftl mb1 1))) as [Eb|Eb]; rewrite Eb;
    (eapply safe_bind; [apply rc_get_bit_safe; [done|lia]|]); intros [sym' d2] [Hs' Hd2];
    apply safe_ok; destruct (_ || _) eqn:E; try (split; [lia|done]);
    apply orb_false_iff in E as [_ E]; apply negb_false_iff, Z.ltb_lt in E;
    (split; [split; [lia|done]|lia]).
Qed.

Lemma literal_rest_safe prob sym d :
  dec_ok M d → 1 ≤ sym < 0x200 → 0 ≤ prob → prob + LZMA_LIT_SIZE ≤ N →
  safe (λ '(r, d'), dec_ok M d') (literal_rest BufferLim prob sym d).
Proof using Hin.
  intros Hd Hsym Hp HpN. unfold literal_rest, LZMA_LIT_SIZE in *.
  apply (safe_loop _ (λ '(sym, d), 1 ≤ sym < 0x200 ∧ dec_ok M d) (λ '(sym, _), 0x200 - sym));
    [|split; [lia|done]|lia].
  intros [s1 d1] [Hs1 Hd1]. destruct (Z.ltb_spec s1 0x100) as [Hlt|Hge]; [|by apply safe_ok].
  eapply safe_bind; [apply rc_get_bit_safe; [done|lia]|]. intros [s2 d2] [Hs2 Hd2].
  apply safe_ok. split; [split; [lia|done]|lia].
Qed.

(** ** Lengths and distances *)

Lemma decode_len_safe prob posState d :
  dec_ok M d → 0 ≤ posState < 16 → 0 ≤ prob → prob + kNumLenProbs ≤ N →
  safe (λ '(len, d'), 0 ≤ len < 272 ∧ dec_ok M d') (decode_len BufferLim prob posState d).
Proof using Hin.
  intros Hd Hps Hp HpN. change kNumLenProbs with 514 in HpN. unfold decode_len.
  change LenChoice with 0. change LenChoice2 with 1. change LenLow with 2. change LenMid with 130.
  change LenHigh with 258. unfold kLenNumLowBits, kLenNumMidBits, kLenNumHighBits, kLenNumLowSymbols,
    kLenNumMidSymbols. rewrite Z.shiftl_mul_pow2 by lia. change (2 ^ 3) with 8.
  eapply safe_bind; [apply rc_bit_safe; [done|lia]|]. intros [b d1] [_ Hd1].
  apply (safe_bind (λ '(probLen, off, L, d'), 0 ≤ probLen ∧ probLen + 2 ^ L ≤ N ∧ 0 ≤ off ∧ 0 < L ∧
    off + 2 ^ L ≤ 272 ∧ dec_ok M d')).
  - destruct (b =? 0); [apply safe_ok; change (2 ^ 3) with 8; (repeat split); try lia; apply Hd1|].
    eapply safe_bind; [apply rc_bit_safe; [done|lia]|]. intros [b2 d2] [_ Hd2].
    destruct (b2 =? 0); apply safe_ok; [change (2 ^ 3) with 8|change (2 ^ 8) with 256];
      (repeat split); try lia; apply Hd2.
  - intros [[[probLen off] L] d2] (H1 & H2 & H3 & H4 & H5 & Hd2).
    eapply safe_bind; [by apply bit_tree_safe|]. intros [len d3] [Hlen Hd3].
    apply safe_ok. split; [lia|done].
Qed.

Lemma direct_bits_safe n r d :
  dec_ok M d → (0 < n)%nat → safe (λ '(_, d'), dec_ok M d') (direct_bits BufferLim n r d).
Proof using Hin.
  revert r d. induction n as [|n IH]; intros r d Hd Hn; [lia|]. cbn [direct_bits].
  eapply safe_bind; [by apply rc_normalize_safe|]. intros d1 Hd1.
  destruct (Code d1 >=? _); cbv zeta; (destruct n as [|n]; [by apply safe_ok|apply IH; [done|lia]]).
Qed.

Lemma reverse_bits_safe n prob i (k : nat) mi r d :
  dec_ok M d → (0 < n)%nat → 2 ^ k ≤ mi < 2 ^ (k + 1) → 0 ≤ prob → prob + 2 ^ (k + n) ≤ N →
  safe (λ '(_, d'), dec_ok M d') (reverse_bits BufferLim n prob i mi r d).
Proof using Hin.
  revert i k mi r d. induction n as [|n IH]; intros i k mi r d Hd Hn Hmi Hp HpN; [lia|].
  assert (H2 : 2 ^ (k + 1) ≤ 2 ^ (k + S n)) by (apply Z.pow_le_mono_r; lia).
  assert (E2 : 2 ^ (k + 1) = 2 * 2 ^ k) by (rewrite Z.pow_add_r by lia; lia).
  assert (E4 : 2 ^ (k + 1 + 1) = 4 * 2 ^ k) by (rewrite !Z.pow_add_r by lia; lia).
  cbn [reverse_bits]. eapply safe_bind; [apply rc_get_bit_safe; [done|lia]|].
  intros [mi' d'] [Hmi' Hd']. cbv zeta. destruct n as [|n]; [by apply safe_ok|].
  apply (IH _ (S k)); try done; try lia.
  by replace (S k + S n) with (k + S (S n)) by lia.
Qed.

Lemma N_large : LZMA_BASE_SIZE + LZMA_LIT_SIZE ≤ N.
Proof using HN Hlc Hlp.
  rewrite HN, Z.shiftl_mul_pow2 by lia. pose proof (Z.pow_pos_nonneg 2 (lc ps + lp ps)).
  unfold LZMA_LIT_SIZE. lia.
Qed.

Lemma decode_distance_safe len d :
  dec_ok M d → 0 ≤ len → safe (λ '(r, d'), dec_ok M d') (decode_distance BufferLim len d).
Proof using Hin HN Hlc Hlp.
  intros Hd Hlen. pose proof N_large as HNl. change (LZMA_BASE_SIZE + LZMA_LIT_SIZE) with 2614 in HNl.
  unfold decode_distance. change PosSlot with 432. change SpecPos with 688. change Align with 802.
  unfold kNumLenToPosStates, kNumPosSlotBits, kStartPosModelIndex, kEndPosModelIndex, kNumAlignBits.
  set (l := if len <? 4 then len else 4 - 1).
  assert (Hl : 0 ≤ l ≤ 3) by (unfold l; destruct (Z.ltb_spec len 4); lia).
  rewrite Z.shiftl_mul_pow2 by lia. change (2 ^ 6) with 64.
  eapply safe_bind; [apply (bit_tree_safe _ 6); [done|lia|lia|change (2 ^ 6) with 64; lia]|].
  intros [slot d1] [Hslot Hd1]. change (2 ^ 6) with 64 in Hslot. rewrite Z.geb_leb.
  destruct (Z.leb_spec 4 slot) as [H4|H4]; [|by apply safe_ok].
  rewrite Z.shiftr_div_pow2 by lia. change (2 ^ 1) with 2.
  destruct (Z.ltb_spec slot 14) as [H14|H14].
  - assert (Hn : 1 ≤ slot / 2 - 1 ≤ 5).
    { pose proof (Z.div_mod slot 2). pose proof (Z.mod_pos_bound slot 2). lia. }
    assert (Hb : 0 ≤ u32 (Z.shiftl (Z.lor 2 (Z.land slot 1)) (slot / 2 - 1)) ≤ 96).
    { assert (Hs : slot = 4 ∨ slot = 5 ∨ slot = 6 ∨ slot = 7 ∨ slot = 8 ∨ slot = 9 ∨ slot = 10 ∨
        slot = 11 ∨ slot = 12 ∨ slot = 13) by lia.
      repeat destruct Hs as [->|Hs]; try subst slot; vm_compute; split; discriminate. }
    eapply safe_mono; [apply (reverse_bits_safe _ _ 1 0); [done|lia|lia|lia|]|by intros []].
    rewrite Z2Nat.id, Z.add_0_l by lia.
    assert (2 ^ (slot / 2 - 1) ≤ 2 ^ 5) by (apply Z.pow_le_mono_r; lia). lia.
  - assert (Hn : 7 ≤ slot / 2) by (apply Z.div_le_lower_bound; lia).
    eapply safe_bind; [apply direct_bits_safe; [done|lia]|]. intros [r d2] Hd2.
    apply (reverse_bits_safe _ _ 1 0); [done|lia|lia|lia|]. change (Z.to_nat 4) with 4%nat.
    change (2 ^ (0%nat + 4%nat)) with 16. lia.
Qed.
End primitives.

(** ** The main loop *)

(** A distance that was valid before the position [n]. *)
Definition rep_ok (n r : Z) : Prop := 1 ≤ r ≤ Z.max 1 n.

(** What holds between the choice of the distance and the copy. *)
Record lz_mid s : Prop := LzMid {
  lz_dec : dec_ok (memory (rd s)) (rd s);
  lz_pos : 0 ≤ nowPos s ≤ outSize;
  lz_prev : is_byte (previousByte s);
  lz_st : 0 ≤ lz_state s < kNumStates;
  lz_rep0 : 1 ≤ rep0 s;
  lz_rep1 : rep_ok (nowPos s) (rep1 s);
  lz_rep2 : rep_ok (nowPos s) (rep2 s);
  lz_rep3 : rep_ok (nowPos s) (rep3 s);
  lz_done : ∀ i, 0 ≤ i < nowPos s → ∃ c, memory (rd s) !! (outStream + i) = Some c ∧ is_byte c
}.

(** What holds before each round. *)
Definition lz_ok s : Prop :=
  lz_mid s ∧ rep_ok (nowPos s) (rep0 s) ∧ (nowPos s = 0 → lz_state s < kNumLitStates).

Lemma rep_ok_mono n n' r : rep_ok n r → n ≤ n' → rep_ok n' r.
Proof. unfold rep_ok. lia. Qed.

(** Storing the next byte. *)
Lemma store_byte d n c :
  dec_ok (memory d) d → 0 ≤ n < outSize → is_byte c →
  (∀ i, 0 ≤ i < n → ∃ c, memory d !! (outStream + i) = Some c ∧ is_byte c) →
  ∃ m, st (memory d) (outStream + n) c = Some m ∧ dec_ok m (set_memory m d) ∧
    (∀ i, 0 ≤ i < n + 1 → ∃ c, m !! (outStream + i) = Some c ∧ is_byte c).
Proof using Hout.
  intros (Hm & _ & Hb & Hl) Hn Hc Hd.
  destruct (changed_st outStream (outStream + outSize) (memory d) (outStream + n) c)
    as (m & E & -> & Hch); [|lia|].
  { apply Hm, (owned_at _ _ _ _ Hout). lia. }
  eexists. split; [exact E|]. split; [split; [by eapply changed_trans|done]|].
  intros i Hi. destruct (decide (i = n)) as [->|Hne].
  - exists (u8 c). rewrite lookup_insert_eq. split; [done|]. by rewrite u8_byte.
  - rewrite lookup_insert_ne by lia. apply Hd. lia.
Qed.

Lemma copy_back_safe s :
  lz_mid s → rep0 s ≤ nowPos s < outSize →
  ∃ s', copy_back outStream s = Some s' ∧ lz_ok s' ∧ nowPos s' = nowPos s + 1 ∧ rep0 s' = rep0 s.
Proof using Hout Hsize.
  intros [] Hr. unfold copy_back. unfold rep_ok in *.
  rewrite u32_small by lia.
  destruct (lz_done0 (nowPos s - rep0 s)) as (c & Hc & Hby); [lia|]. rewrite (ld_bind _ _ _ _ Hc).
  destruct (store_byte (rd s) (nowPos s) c) as (m & -> & Hd & Hdone); [done|lia|done|done|].
  rewrite some_bind. eexists. split; [reflexivity|]. split; [|done].
  split; [|cbn [nowPos rep0]; unfold rep_ok; lia].
  split; cbn [rd nowPos previousByte lz_state rep0 rep1 rep2 rep3]; try done; try lia.
  all: unfold rep_ok; lia.
Qed.

Lemma copy_match_safe s len :
  lz_mid s → 1 ≤ len < 4294967296 → rep0 s ≤ nowPos s < outSize →
  ∃ s', copy_match outStream outSize s len = Some s' ∧ lz_ok s' ∧ nowPos s < nowPos s'.
Proof using Hout Hsize.
  intros Hs Hlen Hr. unfold copy_match.
  apply (while_rule _ (λ '(s1, len), lz_mid s1 ∧ 1 ≤ len ∧ rep0 s1 ≤ nowPos s1 < outSize ∧ nowPos s ≤ nowPos s1)
    (λ '(_, len), len)); [|split; [done|lia]|lia].
  intros [s1 l1] (Hs1 & Hl1 & Hr1 & Hge).
  destruct (copy_back_safe s1 Hs1 Hr1) as (s2 & -> & Hs2 & Hn2 & Hr2). rewrite some_bind.
  eexists. split; [reflexivity|]. destruct (negb (l1 - 1 =? 0) && (nowPos s2 <? outSize)) eqn:E.
  - apply andb_true_iff in E as [E1%negb_true_iff%Z.eqb_neq E2%Z.ltb_lt].
    split; [|lia]. split; [apply Hs2|]. rewrite Hr2. lia.
  - split; [done|lia].
Qed.

Lemma mask_bound n k : 0 ≤ n → 0 ≤ k < 5 →
  0 ≤ Z.land n (u32 (Z.shiftl 1 k - 1)) < 2 ^ k.
Proof.
  intros Hn Hk. rewrite Z.shiftl_1_l.
  assert (H16 : 0 < 2 ^ k ≤ 2 ^ 4) by (split; [apply Z.pow_pos_nonneg; lia|apply Z.pow_le_mono_r; lia]).
  change (2 ^ 4) with 16 in H16. rewrite u32_small by lia.
  replace (2 ^ k - 1) with (Z.ones k) by (rewrite Z.ones_equiv; lia).
  rewrite Z.land_ones by lia. apply Z.mod_pos_bound. lia.
Qed.

(** The place of the probabilities of a literal. *)
Lemma literal_index n prev :
  0 ≤ n → is_byte prev →
  let prob := Literal + LZMA_LIT_SIZE *
    (Z.shiftl (Z.land n (u32 (Z.shiftl 1 (lp ps) - 1))) (lc ps) + Z.shiftr prev (8 - lc ps)) in
  0 ≤ prob ∧ prob + LZMA_LIT_SIZE ≤ N.
Proof using HN Hlc Hlp Hsize.
  intros Hn Hp prob. unfold is_byte in Hp. unfold prob. change Literal with 1846.
  unfold LZMA_LIT_SIZE, LZMA_BASE_SIZE in *. pose proof (mask_bound n (lp ps) Hn Hlp) as Hm.
  set (a := Z.land n (u32 (Z.shiftl 1 (lp ps) - 1))) in *.
  rewrite HN, !Z.shiftl_mul_pow2, Z.shiftr_div_pow2 by lia. rewrite Z.pow_add_r by lia.
  assert (Hc : 0 < 2 ^ lc ps) by (apply Z.pow_pos_nonneg; lia).
  assert (Hq : 0 ≤ prev / 2 ^ (8 - lc ps) < 2 ^ lc ps).
  { assert (0 < 2 ^ (8 - lc ps)) by (apply Z.pow_pos_nonneg; lia). split; [apply Z.div_pos; lia|].
    apply Z.div_lt_upper_bound; [lia|]. rewrite <- Z.pow_add_r by lia.
    replace (8 - lc ps + lc ps) with 8 by lia. change (2 ^ 8) with 256. lia. }
  split; nia.
Qed.

Lemma decode_literal_safe s :
  lz_ok s → nowPos s < outSize →
  safe (λ s', lz_ok s' ∧ nowPos s' = nowPos s + 1)
    (decode_literal BufferLim (lc ps) (lp ps) outStream s).
Proof using Hin Hout Hsize HN Hlc Hlp.
  intros ([] & Hrep0 & Hstart) Hlt. unfold decode_literal.
  destruct (literal_index (nowPos s) (previousByte s)) as [Hp1 Hp2]; [lia|done|].
  set (prob := Literal + _) in *.
  apply (safe_bind (λ '(sym, d), 1 ≤ sym < 0x200 ∧ dec_ok (memory (rd s)) d)).
  { rewrite Z.geb_leb. destruct (Z.leb_spec kNumLitStates (lz_state s)) as [Hst|Hst].
    - assert (nowPos s ≠ 0) by (intros E; specialize (Hstart E); lia). unfold rep_ok in *.
      rewrite u32_small by lia.
      destruct (lz_done0 (nowPos s - rep0 s)) as (c & Hc & _); [lia|]. rewrite (ld_bind _ _ _ _ Hc).
      by apply literal_matched_safe.
    - apply safe_ok. split; [lia|done]. }
  intros [sym d1] [Hsym Hd1]. eapply safe_bind; [by apply literal_rest_safe|]. intros [sym2 d2] Hd2.
  assert (Em : memory d2 = memory (rd s)) by apply Hd2.
  destruct (store_byte d2 (nowPos s) (u8 sym2)) as (m & -> & Hd & Hdone);
    [by rewrite Em|lia|apply u8_range|by rewrite Em|].
  rewrite some_bind. apply safe_ok. split; [|done]. unfold kNumStates in *.
  split; [|split; cbn [nowPos rep0]; [eapply rep_ok_mono; [exact Hrep0|lia]|lia]].
  split; cbn [rd nowPos previousByte lz_state rep0 rep1 rep2 rep3]; try done; try lia.
  all: try (eapply rep_ok_mono; [done|lia]).
  - apply u8_range.
  - unfold kNumStates. destruct (Z.ltb_spec (lz_state s) 4); [lia|].
    destruct (Z.ltb_spec (lz_state s) 10); lia.
Qed.

(** What a round leaves: the next round, or the end. *)
Definition round_end s (c : ctl lzma lzma) : Prop :=
  match c with
  | Next s' => lz_ok s' ∧ nowPos s < nowPos s'
  | Done s' => dec_ok (memory (rd s')) (rd s') ∧ 0 ≤ nowPos s' ≤ outSize
  end.

Lemma mid_rd s d : lz_mid s → dec_ok (memory (rd s)) d → lz_mid (set_rd d s).
Proof.
  intros [] Hd. assert (E : memory d = memory (rd s)) by apply Hd.
  split; cbn [rd set_rd nowPos previousByte lz_state rep0 rep1 rep2 rep3]; try done; by rewrite E.
Qed.

Lemma match_distance_safe s len :
  lz_mid s → 0 ≤ len →
  safe (λ '(s', finished), nowPos s' = nowPos s ∧ dec_ok (memory (rd s')) (rd s') ∧
    (finished = false → lz_mid s')) (match_distance BufferLim s len).
Proof using Hin HN Hlc Hlp.
  intros Hs Hlen. unfold match_distance.
  destruct (Z.ltb_spec (lz_state s) 4) as [Hst|Hst]; [|apply safe_ok; split; [done|split; [apply Hs|done]]].
  eapply safe_bind; [apply decode_distance_safe; [apply Hs|done]|]. intros [r d] Hd.
  pose proof (mid_rd s d Hs Hd) as Hm. apply safe_ok. split; [done|]. split; [apply Hm|].
  intros Hr%Z.eqb_neq. destruct Hm.
  split; cbn [rd set_rd nowPos previousByte lz_state rep0 rep1 rep2 rep3] in *; try done.
  - unfold kNumStates, kNumLitStates in *. lia.
  - pose proof (Z.mod_pos_bound (r + 1) 4294967296). unfold u32 in *. lia.
Qed.

Lemma finish_match_safe prob posState s :
  lz_mid s → nowPos s < outSize → 0 ≤ posState < 16 → 0 ≤ prob → prob + kNumLenProbs ≤ N →
  safe (round_end s) (finish_match BufferLim outStream outSize prob posState s).
Proof using Hin Hout Hsize HN Hlc Hlp.
  intros Hs Hlt Hps Hp HpN. unfold finish_match.
  eapply safe_bind; [apply decode_len_safe; [apply Hs|done..]|]. intros [len d] [Hlen Hd].
  pose proof (mid_rd s d Hs Hd) as Hm.
  eapply safe_bind; [apply match_distance_safe; [exact Hm|lia]|].
  intros [s2 finished] (Hn & Hd2 & Hmid). cbn [set_rd nowPos] in Hn.
  destruct finished; [apply safe_ok; split; [done|]; rewrite Hn; apply Hs|]. specialize (Hmid eq_refl).
  rewrite Z.gtb_ltb. destruct (Z.ltb_spec (nowPos s2) (rep0 s2)) as [Hfar|Hnear].
  { eexists. split; [reflexivity|]. split; [done|apply Hd2]. }
  unfold kMatchMinLen.
  destruct (copy_match_safe s2 (len + 2) Hmid) as (s3 & -> & Hs3 & Hn3); [lia|lia|].
  rewrite some_bind. apply safe_ok. split; [done|lia].
Qed.

Lemma choose_rep_safe s :
  lz_ok s → safe (λ s', lz_ok s' ∧ nowPos s' = nowPos s ∧ lz_state s' = lz_state s)
    (choose_rep BufferLim s).
Proof using Hin HN Hlc Hlp.
  intros (Hs & Hr0 & Hst). pose proof N_large as HNl.
  change (LZMA_BASE_SIZE + LZMA_LIT_SIZE) with 2614 in HNl. pose proof (lz_st _ Hs) as Hstate.
  unfold kNumStates in Hstate. unfold choose_rep. change IsRepG1 with 216. change IsRepG2 with 228.
  eapply safe_bind; [apply rc_bit_safe; [apply Hs|lia]|]. intros [b1 d1] [_ Hd1].
  pose proof (mid_rd s d1 Hs Hd1) as [].
  assert (Hall : ∀ d r1 r2 r3 r4, dec_ok (memory (rd s)) d →
    rep_ok (nowPos s) r1 → rep_ok (nowPos s) r2 → rep_ok (nowPos s) r3 → rep_ok (nowPos s) r4 →
    lz_ok (Lzma d (nowPos s) (previousByte s) (lz_state s) r1 r2 r3 r4)).
  { intros d r1 r2 r3 r4 Hd R1 R2 R3 R4. assert (E : memory d = memory (rd s)) by apply Hd.
    destruct Hs. split; [|by split]. split; cbn [rd nowPos previousByte lz_state rep0 rep1 rep2 rep3];
      try done; [by rewrite E|unfold rep_ok in R1; lia|by rewrite E]. }
  destruct (b1 =? 0); [apply safe_ok; split; [by apply Hall|done]|].
  eapply safe_bind; [apply rc_bit_safe; [exact Hd1|lia]|]. intros [b2 d2] [_ Hd2].
  destruct (b2 =? 0); apply safe_ok; (split; [by apply Hall|done]).
Qed.

(** The state after a repetition or a match. *)
Lemma set_state_mid s st : lz_mid s → 0 ≤ st < kNumStates → lz_mid (set_state st s).
Proof. intros [] Hst. by split. Qed.

Lemma lzma_round_safe s :
  lz_ok s →
  safe (round_end s) (lzma_round BufferLim (lc ps) (lp ps) (pb ps) outStream outSize s).
Proof using Hin Hout Hsize HN Hlc Hlp Hpb.
  intros Hs. pose proof Hs as (Hm & Hr0 & Hst0). pose proof N_large as HNl.
  change (LZMA_BASE_SIZE + LZMA_LIT_SIZE) with 2614 in HNl.
  pose proof (lz_st _ Hm) as Hst. pose proof (lz_pos _ Hm) as Hpos. unfold kNumStates in Hst.
  unfold lzma_round. destruct (Z.ltb_spec (nowPos s) outSize) as [Hlt|Hge]; cbn [negb].
  2: { apply safe_ok. split; [apply Hm|done]. }
  pose proof (mask_bound (nowPos s) (pb ps) (proj1 Hpos) Hpb) as Hps.
  assert (H16 : 2 ^ pb ps ≤ 2 ^ 4) by (apply Z.pow_le_mono_r; lia). change (2 ^ 4) with 16 in H16.
  set (posState := Z.land _ _) in *. change IsMatch with 0. change IsRep with 192.
  change IsRepG0 with 204. change IsRep0Long with 240. change LenCoder with 818.
  change RepLenCoder with 1332. unfold kNumPosBitsMax. rewrite Z.shiftl_mul_pow2 by lia.
  change (2 ^ 4) with 16.
  eapply safe_bind; [apply rc_bit_safe; [apply Hm|lia]|]. intros [b1 d1] [_ Hd1].
  assert (Hup : ∀ d, dec_ok (memory (rd s)) d → lz_ok (set_rd d s)).
  { intros d Hd. split; [by apply mid_rd|done]. }
  destruct (b1 =? 0).
  { eapply safe_bind; [apply decode_literal_safe; [by apply Hup|done]|]. intros s' [Hs' Hn'].
    apply safe_ok. split; [done|]. rewrite Hn'. cbn [set_rd nowPos]. lia. }
  eapply safe_bind; [apply (rc_bit_safe (memory (rd s))); [exact Hd1|lia]|]. intros [b2 d2] [_ Hd2].
  assert (Hst7 : ∀ a b, 0 ≤ a < 12 → 0 ≤ b < 12 →
    0 ≤ (if lz_state s <? kNumLitStates then a else b) < kNumStates).
  { intros a b Ha Hb. unfold kNumStates. by destruct (lz_state s <? kNumLitStates). }
  assert (Hrep : ∀ d, dec_ok (memory (rd s)) d →
    safe (round_end s) (finish_match BufferLim outStream outSize 1332 posState
      (set_state (if lz_state s <? kNumLitStates then 8 else 11) (set_rd d s)))).
  { intros d Hd. apply (finish_match_safe 1332 posState (set_state _ (set_rd d s))).
    - apply set_state_mid; [by apply mid_rd|apply Hst7; lia].
    - done.
    - lia.
    - lia.
    - change kNumLenProbs with 514. lia. }
  destruct (b2 =? 0).
  { apply (finish_match_safe 818 posState (Lzma d2 _ _ _ _ _ _ _)); [|done|lia|lia
      |change kNumLenProbs with 514; lia].
    pose proof (mid_rd s d2 Hm Hd2) as []. split;
      cbn [set_rd rd nowPos previousByte lz_state rep0 rep1 rep2 rep3] in *; try done.
    apply Hst7; lia. }
  eapply safe_bind; [apply (rc_bit_safe (memory (rd s))); [exact Hd2|lia]|]. intros [b3 d3] [_ Hd3].
  destruct (b3 =? 0).
  - eapply safe_bind; [apply (rc_bit_safe (memory (rd s))); [exact Hd3|lia]|]. intros [b4 d4] [_ Hd4].
    destruct (b4 =? 0); [|by apply Hrep].
    change (set_rd d4 (set_rd d3 (set_rd d2 (set_rd d1 s)))) with (set_rd d4 s).
    change (nowPos (set_rd d4 s)) with (nowPos s).
    destruct (Z.eqb_spec (nowPos s) 0) as [E0|E0].
    { eexists. split; [reflexivity|]. split; [done|]. cbn [set_rd rd].
      destruct Hd4 as (Ho & -> & _). exact Ho. }
    destruct (copy_back_safe (set_state (if lz_state s <? kNumLitStates then 9 else 11) (set_rd d4 s)))
      as (s' & -> & Hs' & Hn' & _).
    + apply set_state_mid; [by apply mid_rd|apply Hst7; lia].
    + cbn [set_state set_rd rep0 nowPos]. unfold rep_ok in Hr0. lia.
    + rewrite some_bind. apply safe_ok. split; [done|]. rewrite Hn'. cbn [set_state set_rd nowPos]. lia.
  - eapply safe_bind; [apply choose_rep_safe; by apply Hup|]. intros s' (Hs' & Hn' & Hst').
    eapply safe_mono; [apply (finish_match_safe 1332 posState (set_state _ s'))|].
    + apply set_state_mid; [apply Hs'|apply Hst7; lia].
    + cbn [set_state nowPos]. rewrite Hn'. done.
    + lia.
    + lia.
    + change kNumLenProbs with 514. lia.
    + intros c Hc. unfold round_end in *. cbn [set_state nowPos] in Hc. rewrite Hn' in Hc. exact Hc.
Qed.

(** All rounds and the last byte. *)
Lemma rounds_safe d :
  dec_ok (memory d) d →
  safe (λ s, dec_ok (memory (rd s)) (rd s) ∧ 0 ≤ nowPos s ≤ outSize)
    (s ←? result_loop (lzma_round BufferLim (lc ps) (lp ps) (pb ps) outStream outSize)
       (Lzma d 0 0 0 1 1 1 1);
     d ←? rc_normalize BufferLim (rd s); Some (Ok (set_rd d s))).
Proof using Hin Hout Hsize HN Hlc Hlp Hpb.
  intros Hd. apply (safe_bind (λ s, dec_ok (memory (rd s)) (rd s) ∧ 0 ≤ nowPos s ≤ outSize)).
  - apply (safe_loop _ lz_ok (λ s, outSize - nowPos s)); [|split; [split|]|cbn [nowPos]; lia].
    + intros s Hs. eapply safe_mono; [by apply lzma_round_safe|]. intros [s'|s'] Hs'; [|done].
      destruct Hs' as [Hs' Hn]. split; [done|]. destruct Hs' as [Hm _]. pose proof (lz_pos _ Hm). lia.
    + done.
    + cbn [nowPos]. lia.
    + unfold is_byte. cbn [previousByte]. lia.
    + unfold kNumStates. cbn [lz_state]. lia.
    + cbn [rep0]. lia.
    + unfold rep_ok. cbn [nowPos rep1]. lia.
    + unfold rep_ok. cbn [nowPos rep2]. lia.
    + unfold rep_ok. cbn [nowPos rep3]. lia.
    + intros i Hi. cbn [nowPos] in Hi. lia.
    + unfold rep_ok, kNumLitStates. cbn [nowPos rep0 lz_state]. lia.
  - intros s [Hs Hn]. eapply safe_bind; [by apply rc_normalize_safe|]. intros d' Hd'.
    apply safe_ok. cbn [set_rd rd nowPos]. split; [|done]. assert (E : memory d' = memory (rd s)) by apply Hd'.
    by rewrite E.
Qed.
End safety.

Lemma init_probs_length probs numProbs :
  0 ≤ numProbs < 4294967296 → numProbs ≤ length probs →
  ∃ p, init_probs probs numProbs = Some p ∧ length p = length probs.
Proof.
  intros Hn Hle. unfold init_probs.
  apply (while_rule _ (λ '(p, i), 0 ≤ i ≤ numProbs ∧ length p = length probs) (λ '(_, i), numProbs - i));
    [|split; [lia|done]|lia].
  intros [p i] [Hi Hl]. destruct (Z.ltb_spec i numProbs) as [Hlt|Hge]; [|by eexists].
  rewrite (proj2 (Z.ltb_lt i (length p))) by lia. eexists. split; [reflexivity|].
  split; [|lia]. split; [lia|by rewrite length_insert].
Qed.

Section decode.
Implicit Types (m : mem) (ps : props) (probs : list Z).

(** What the decoder needs to know of its properties. *)
Definition props_ok ps : Prop := 0 ≤ lc ps < 9 ∧ 0 ≤ lp ps < 5 ∧ 0 ≤ pb ps < 5.

(** [LzmaGetNumProbs] *)
Definition num_probs ps : Z := LZMA_BASE_SIZE + Z.shiftl LZMA_LIT_SIZE (lc ps + lp ps).

Lemma num_probs_range ps : props_ok ps → 2614 ≤ num_probs ps < 4294967296.
Proof.
  intros (H1 & H2 & _). unfold num_probs, LZMA_BASE_SIZE, LZMA_LIT_SIZE. rewrite Z.shiftl_mul_pow2 by lia.
  assert (2 ^ 0 ≤ 2 ^ (lc ps + lp ps)) by (apply Z.pow_le_mono_r; lia).
  assert (2 ^ (lc ps + lp ps) ≤ 2 ^ 12) by (apply Z.pow_le_mono_r; lia).
  change (2 ^ 0) with 1 in *. change (2 ^ 12) with 4096 in *. lia.
Qed.

Lemma LzmaDecode_total m ps probs inStream inSize outStream outSize :
  props_ok ps → owned m inStream inSize → owned m outStream outSize → 0 ≤ inSize →
  0 ≤ outSize < 4294967296 → Z.of_nat (length probs) = num_probs ps →
  ∃ o, LzmaDecode m ps probs inStream inSize outStream outSize = Some o ∧
    changed outStream (outStream + outSize) m (out_memory o) ∧
    (out_result o = LZMA_RESULT_OK ∧ 0 ≤ inSizeProcessed o ≤ inSize ∧
       0 ≤ outSizeProcessed o ≤ outSize ∨
     out_result o = LZMA_RESULT_DATA_ERROR ∧ inSizeProcessed o = 0 ∧ outSizeProcessed o = 0).
Proof.
  intros Hps Hin Hout Hi Ho Hlen. pose proof (num_probs_range ps Hps) as Hnp.
  pose proof Hps as (Hlc & Hlp & Hpb). unfold num_probs in *. unfold LzmaDecode. change Literal with LZMA_BASE_SIZE.
  rewrite (u32_small (Z.shiftl _ _)).
  2: { unfold LZMA_BASE_SIZE in *. split; [apply Z.shiftl_nonneg; unfold LZMA_LIT_SIZE; lia|lia]. }
  destruct (init_probs_length probs (LZMA_BASE_SIZE + Z.shiftl LZMA_LIT_SIZE (lc ps + lp ps)))
    as (p & -> & Hp); [lia|lia|]. rewrite some_bind.
  set (N := LZMA_BASE_SIZE + Z.shiftl LZMA_LIT_SIZE (lc ps + lp ps)) in *.
  assert (Hin' : owned m inStream (inStream + inSize - inStream))
    by (by replace (inStream + inSize - inStream) with inSize by lia).
  assert (Hsafe : safe m outStream outSize
    (λ s, dec_ok m inStream (inStream + inSize) outStream outSize N (memory (rd s)) (rd s) ∧
      0 ≤ nowPos s ≤ outSize)
    (d ←? rc_init (inStream + inSize) m inStream p;
     s ←? result_loop (lzma_round (inStream + inSize) (lc ps) (lp ps) (pb ps) outStream outSize)
       (Lzma d 0 0 0 1 1 1 1);
     d ←? rc_normalize (inStream + inSize) (rd s); Some (Ok (set_rd d s)))).
  { eapply safe_bind.
    - apply (rc_init_safe m inStream (inStream + inSize) outStream outSize N Hin' m p);
        [apply changed_refl|lia|lia].
    - intros d Hd. apply (rounds_safe m inStream (inStream + inSize) outStream outSize N ps); try done.
      assert (E : memory d = m) by apply Hd. by rewrite E. }
  destruct Hsafe as (r & -> & Hr).
  rewrite some_bind. destruct r as [s|c m']; (eexists; split; [reflexivity|]).
  - destruct Hr as [(Hch & _ & Hb & _) Hn]. split; [exact Hch|]. left. cbn. lia.
  - destruct Hr as [-> Hch]. split; [exact Hch|]. by right.
Qed.

(** An output of no bytes: the five bytes of the start are read, and nothing
    else is done. *)
Lemma rc_byte_next lim d :
  Buffer d ≠ lim → is_Some (memory d !! Buffer d) →
  ∃ d', rc_byte lim d = Some (Ok d') ∧ memory d' = memory d ∧ Buffer d' = Buffer d + 1 ∧ Range d' = Range d.
Proof.
  intros Hl [c Hc]. unfold rc_byte. rewrite (proj2 (Z.eqb_neq _ _) Hl), (ld_bind _ _ _ _ Hc).
  by eexists.
Qed.

Lemma LzmaDecode_empty m ps probs inStream inSize outStream :
  props_ok ps → owned m inStream 5 → 5 ≤ inSize → Z.of_nat (length probs) = num_probs ps →
  ∃ o, LzmaDecode m ps probs inStream inSize outStream 0 = Some o ∧
    out_memory o = m ∧ out_result o = LZMA_RESULT_OK ∧ outSizeProcessed o = 0.
Proof.
  intros Hps Hin Hi Hlen. pose proof (num_probs_range ps Hps) as Hnp.
  pose proof Hps as (Hlc & Hlp & _). unfold num_probs in *. unfold LzmaDecode. change Literal with LZMA_BASE_SIZE.
  rewrite (u32_small (Z.shiftl _ _)).
  2: { unfold LZMA_BASE_SIZE in *. split; [apply Z.shiftl_nonneg; unfold LZMA_LIT_SIZE; lia|lia]. }
  destruct (init_probs_length probs (LZMA_BASE_SIZE + Z.shiftl LZMA_LIT_SIZE (lc ps + lp ps)))
    as (p & -> & _); [lia|lia|]. rewrite some_bind.
  assert (Hinit : ∃ d, rc_init (inStream + inSize) m inStream p = Some (Ok d) ∧ memory d = m ∧ Range d = 4294967295).
  { unfold rc_init. set (lim := inStream + inSize).
    destruct (rc_byte_next lim (Dec m inStream 4294967295 0 p)) as (d1 & -> & M1 & B1 & R1);
      [cbn; lia|apply (owned_at _ _ _ _ Hin); cbn; lia|]. cbn [result_bind memory Buffer Range] in *.
    destruct (rc_byte_next lim d1) as (d2 & -> & M2 & B2 & R2);
      [lia|rewrite M1; apply (owned_at _ _ _ _ Hin); lia|]. cbn [result_bind].
    destruct (rc_byte_next lim d2) as (d3 & -> & M3 & B3 & R3);
      [lia|rewrite M2, M1; apply (owned_at _ _ _ _ Hin); lia|]. cbn [result_bind].
    destruct (rc_byte_next lim d3) as (d4 & -> & M4 & B4 & R4);
      [lia|rewrite M3, M2, M1; apply (owned_at _ _ _ _ Hin); lia|]. cbn [result_bind].
    destruct (rc_byte_next lim d4) as (d5 & -> & M5 & B5 & R5);
      [lia|rewrite M4, M3, M2, M1; apply (owned_at _ _ _ _ Hin); lia|].
    exists d5. split; [done|]. split; congruence. }
  destruct Hinit as (d & -> & Hm & Hr). cbn [result_bind]. unfold result_loop at 1.
  rewrite (while_runs _ _ 1 (Ok (Lzma d 0 0 0 1 1 1 1))) by (try lia; by apply runs_done).
  cbn [result_bind rd]. unfold rc_normalize. rewrite Hr.
  change (4294967295 <? kTopValue) with false. cbn [result_bind]. rewrite some_bind.
  eexists. split; [reflexivity|]. by cbn.
Qed.
End decode.

(** C8: whatever the compressed bytes are, the decoder returns (its loops
    end), reads only its input, uses only the places of its array of
    probabilities, changes only the output area, and answers either success,
    with counts of consumed and produced bytes inside both areas, or a data
    error with both counts 0. *)
Theorem LzmaDecode_safe m (ps : props) probs inStream inSize outStream outSize :
  props_ok ps → owned m inStream inSize → owned m outStream outSize → 0 ≤ inSize →
  0 ≤ outSize < 4294967296 → Z.of_nat (length probs) = num_probs ps →
  ∃ o, LzmaDecode m ps probs inStream inSize outStream outSize = Some o ∧
    changed outStream (outStream + outSize) m (out_memory o) ∧
    (out_result o = LZMA_RESULT_OK ∧ 0 ≤ inSizeProcessed o ≤ inSize ∧
       0 ≤ outSizeProcessed o ≤ outSize ∨
     out_result o = LZMA_RESULT_DATA_ERROR ∧ inSizeProcessed o = 0 ∧ outSizeProcessed o = 0).
Proof. apply LzmaDecode_total. Qed.

(** A damaged stream of eleven bytes, with room for sixteen, at the
    parameters every image of this board has (lc 3, lp 0, pb 2). *)
Lemma LzmaDecode_safe_witness :
  ∃ o, LzmaDecode (mem_of2 0x1000 [0; 54; 120; 1; 2; 3; 255; 254; 7; 0; 9] 0x2000 (replicate 16 0))
      (Props 3 0 2) (replicate (Z.to_nat 7990) 0) 0x1000 11 0x2000 16 = Some o ∧
    changed 0x2000 (0x2000 + 16)
      (mem_of2 0x1000 [0; 54; 120; 1; 2; 3; 255; 254; 7; 0; 9] 0x2000 (replicate 16 0)) (out_memory o) ∧
    (out_result o = LZMA_RESULT_OK ∧ 0 ≤ inSizeProcessed o ≤ 11 ∧ 0 ≤ outSizeProcessed o ≤ 16 ∨
     out_result o = LZMA_RESULT_DATA_ERROR ∧ inSizeProcessed o = 0 ∧ outSizeProcessed o = 0).
Proof.
  destruct (bytes_at_mem_of2 0x1000 [0; 54; 120; 1; 2; 3; 255; 254; 7; 0; 9] 0x2000 (replicate 16 0))
    as [H1 H2]; [cbn; lia|].
  apply (LzmaDecode_safe _ (Props 3 0 2)).
  - unfold props_ok. cbn [lc lp pb]. lia.
  - apply bytes_at_owned in H1. exact H1.
  - apply bytes_at_owned in H2. exact H2.
  - lia.
  - lia.
  - rewrite length_replicate. unfold num_probs. cbn [lc lp]. reflexivity.
Defined.
