(* ===== verification/Inflate.v ===== *)
(** * Unpacking an image ([lib_generic/LzmaWrapper.c])

    [lzma_inflate] around the decoder of [Lzma]: the header with the
    properties and the size, the checks and the call.  The array of
    probabilities, which the code allocates and frees, is the list that
    [malloc] answers for a number of bytes; the read position [rpos] is a
    static variable and passes from call to call. *)

From S2P Require Import Prelude.
From S2P Require Import CString.
From S2P Require Import Vsprintf.
From S2P Require Import Lzma.
From S2P Require Import LzmaSafe.

(** The memory, [rpos] and the answer. *)
Definition MyReadFileAndCheck (m : mem) (rpos src dest size : Z) : option (mem * Z * Z) :=
  if size =? 0 then Some (m, rpos, 0) else
  m ← memcpy m dest (src + rpos) size;
  Some (m, u32 (rpos + size), 1).

(** One round of the loop that reads the size; the end gives [waitEOS],
    [outSize] and [outSizeHigh]. *)
Definition size_round (source b : Z)
    : mem * Z * Z * Z * Z * Z → option (ctl (mem * Z * Z * Z * Z * Z) (mem * Z * option (Z * Z * Z))) :=
  λ '(m, rpos, i, waitEOS, outSize, outSizeHigh),
    if i <? 8 then
      '(m, rpos, r) ← MyReadFileAndCheck m rpos source b 1;
      if r =? 0 then Some (Done (m, rpos, None)) else
      v ← ld m b;
      let waitEOS := if negb (v =? 0xFF) then 0 else waitEOS in
      Some (Next (
        if i <? 4 then
          (m, rpos, i + 1, waitEOS, u32 (outSize + u32 (Z.shiftl v (i * 8))), outSizeHigh)
        else
          (m, rpos, i + 1, waitEOS, outSize, u32 (outSizeHigh + u32 (Z.shiftl v ((i - 4) * 8))))))
    else Some (Done (m, rpos, Some (waitEOS, outSize, outSizeHigh))).

Definition read_size (m : mem) (rpos source b : Z) : option (mem * Z * option (Z * Z * Z)) :=
  while (size_round source b) (m, rpos, 0, 1, 0, 0).

Section inflate.
Context (malloc : Z → option (list Z)).

(** [properties] and [b] are the places of two local variables. *)
Definition lzma_inflate (m : mem) (rpos properties b source s_len dest d_len : Z)
    : option (mem * Z * Z) :=
  let compressedSize := u32 (s_len - (LZMA_PROPERTIES_SIZE + 8)) in
  '(m, rpos, r) ← MyReadFileAndCheck m rpos source properties LZMA_PROPERTIES_SIZE;
  if r =? 0 then Some (m, rpos, LZMA_RESULT_DATA_ERROR) else
  '(m, rpos, o) ← read_size m rpos source b;
  match o with
  | None => Some (m, rpos, LZMA_RESULT_DATA_ERROR)
  | Some (waitEOS, outSize, outSizeHigh) =>
      if negb (waitEOS =? 0) then Some (m, rpos, LZMA_RESULT_DATA_ERROR) else
      let outSizeFull := outSize in
      if negb (outSizeHigh =? 0) || negb (u32 outSize =? outSize)
      then Some (m, rpos, LZMA_RESULT_DATA_ERROR) else
      '(_, ps) ← LzmaDecodeProperties m properties LZMA_PROPERTIES_SIZE;
      match ps with
      | None => Some (m, rpos, LZMA_RESULT_DATA_ERROR)
      | Some ps =>
          let Probs := malloc (num_probs ps * 2) in
          let outStream :=
            if outSizeFull =? 0 then 0 else if outSizeFull >? d_len then 0 else dest in
          let inStream :=
            if compressedSize =? 0 then 0
            else if u32 (compressedSize + rpos) >? u32 s_len then 0 else source + rpos in
          match Probs with
          | None => Some (m, rpos, LZMA_RESULT_DATA_ERROR)
          | Some probs =>
              if (outStream =? 0) && negb (outSizeFull =? 0) ||
                 (inStream =? 0) && negb (compressedSize =? 0)
              then Some (m, rpos, LZMA_RESULT_DATA_ERROR) else
              o ← LzmaDecode m ps probs inStream compressedSize outStream outSizeFull;
              if negb (out_result o =? 0) then Some (out_memory o, rpos, 1) else
              m ← st32 (out_memory o) d_len (outSizeProcessed o);
              Some (m, rpos, out_result o)
          end
      end
  end.
End inflate.

(** ** The header *)

Section header.
Implicit Types (m : mem) (l : list Z).

Lemma MyReadFileAndCheck_reads m rpos src dest l :
  Forall is_byte l → l ≠ [] → bytes_at m (src + rpos) l → owned m dest (length l) →
  (dest + length l ≤ src + rpos ∨ src + rpos + length l ≤ dest) →
  0 ≤ rpos → rpos + length l < 4294967296 →
  MyReadFileAndCheck m rpos src dest (length l) = Some (write_bytes m dest l, rpos + length l, 1).
Proof.
  intros Hl Hne Hat Ho Hd Hr Hlt. unfold MyReadFileAndCheck.
  assert (0 < length l)%nat by (destruct l; [done|cbn; lia]). zbool.
  rewrite memcpy_bytes by (first [done|unfold fits; lia]). rewrite some_bind. by rewrite u32_small by lia.
Qed.

(** One byte of the size: the number of the byte, [waitEOS] and the halves. *)
Definition size_step (x : Z * Z * Z * Z) (v : Z) : Z * Z * Z * Z :=
  let '(i, waitEOS, outSize, outSizeHigh) := x in
  let waitEOS := if negb (v =? 255) then 0 else waitEOS in
  if i <? 4 then (i + 1, waitEOS, u32 (outSize + u32 (Z.shiftl v (i * 8))), outSizeHigh)
  else (i + 1, waitEOS, outSize, u32 (outSizeHigh + u32 (Z.shiftl v ((i - 4) * 8)))).

Lemma size_rounds source b l m rpos i w lo hi :
  Forall is_byte l → i + length l = 8 → 0 ≤ i → bytes_at m (source + rpos) l → is_Some (m !! b) →
  (b < source + rpos ∨ source + rpos + length l ≤ b) → 0 ≤ rpos → rpos + length l < 4294967296 →
  ∃ m', changed b (b + 1) m m' ∧
    runs (size_round source b) (m, rpos, i, w, lo, hi) (S (length l)) (m', rpos + length l,
      let '(_, w, lo, hi) := foldl size_step (i, w, lo, hi) l in Some (w, lo, hi)).
Proof.
  intros Hl. revert m rpos i w lo hi.
  induction Hl as [|v l Hv Hl IH]; intros m rpos i w lo hi Hi H0 Hat Hb Hd Hr Hlt.
  - exists m. split; [apply changed_refl|]. cbn [length] in *. apply runs_done. unfold size_round. zbool.
    cbn [foldl]. by rewrite Z.add_0_r.
  - cbn [length] in *. apply bytes_at_cons in Hat as [Hv1 Hat]. pose proof Hb as [y Hy].
    destruct (IH (<[b := v]> m) (rpos + 1) (i + 1) (if negb (v =? 255) then 0 else w)
      (if i <? 4 then u32 (lo + u32 (Z.shiftl v (i * 8))) else lo)
      (if i <? 4 then hi else u32 (hi + u32 (Z.shiftl v ((i - 4) * 8))))) as (m' & Hch & Hrun);
      [lia|lia| | |lia|lia|lia|].
    { apply bytes_at_insert_out; [lia|]. by replace (source + (rpos + 1)) with (source + rpos + 1) by lia. }
    { rewrite lookup_insert_eq. by eexists. }
    exists m'. split.
    { eapply changed_trans; [|exact Hch].
      replace (<[b := v]> m) with (write_bytes m b [v]) by done. apply changed_write; cbn [length]; lia. }
    eapply runs_next.
    { assert (E : MyReadFileAndCheck m rpos source b 1 = Some (<[b := v]> m, rpos + 1, 1)).
      { apply (MyReadFileAndCheck_reads m rpos source b [v]); try done.
        - by constructor.
        - by apply bytes_at_singleton.
        - intros j Hj. cbn [length] in Hj. by replace (b + j) with b by lia.
        - cbn [length]. lia.
        - cbn [length]. lia. }
      unfold size_round. zbool. rewrite E, some_bind. change (1 =? 0) with false. cbv beta iota.
      rewrite (ld_bind _ b v) by apply lookup_insert_eq. reflexivity. }
    cbn [foldl size_step]. replace (rpos + S (length l)) with (rpos + 1 + length l) by lia.
    destruct (i <? 4); exact Hrun.
Qed.

Lemma read_size_folds m rpos source b l :
  Forall is_byte l → length l = 8%nat → bytes_at m (source + rpos) l → is_Some (m !! b) →
  (b < source + rpos ∨ source + rpos + 8 ≤ b) → 0 ≤ rpos → rpos + 8 < 4294967296 →
  ∃ m', changed b (b + 1) m m' ∧
    read_size m rpos source b = Some (m', rpos + 8,
      let '(_, w, lo, hi) := foldl size_step (0, 1, 0, 0) l in Some (w, lo, hi)).
Proof.
  intros Hl Hlen Hat Hb Hd Hr Hlt.
  destruct (size_rounds source b l m rpos 0 1 0 0) as (m' & Hch & Hrun); try done; try lia.
  exists m'. split; [done|]. unfold read_size. rewrite (while_runs _ _ _ _ Hrun) by lia. by rewrite Hlen.
Qed.

(** A number of four bytes, the least significant first. *)
Definition le32 (l : list Z) : Z := foldr (λ v n, v + 256 * n) 0 l.

Lemma size_sum v i n : is_byte v → 0 ≤ i < 4 → 0 ≤ n < 2 ^ (i * 8) →
  u32 (n + u32 (Z.shiftl v (i * 8))) = n + 2 ^ (i * 8) * v ∧ 0 ≤ n + 2 ^ (i * 8) * v < 2 ^ ((i + 1) * 8).
Proof.
  unfold is_byte. intros Hv Hi Hn. rewrite Z.shiftl_mul_pow2 by lia.
  assert (2 ^ ((i + 1) * 8) = 256 * 2 ^ (i * 8)) as ->.
  { replace ((i + 1) * 8) with (8 + i * 8) by lia. rewrite Z.pow_add_r by lia. done. }
  assert (2 ^ (i * 8) ≤ 2 ^ 24) by (apply Z.pow_le_mono_r; lia). change (2 ^ 24) with 16777216 in *.
  rewrite (u32_small (v * _)) by nia. rewrite u32_small; nia.
Qed.

Definition eos (w : Z) (l : list Z) : Z := if forallb (Z.eqb 255) l then w else 0.

Lemma eos_cons w v l : eos (if negb (v =? 255) then 0 else w) l = eos w (v :: l).
Proof. unfold eos. cbn [forallb]. rewrite (Z.eqb_sym 255 v). destruct (v =? 255), (forallb _ _); done. Qed.

Lemma size_low l i w lo hi :
  Forall is_byte l → 0 ≤ i → i + length l ≤ 4 → 0 ≤ lo < 2 ^ (i * 8) →
  foldl size_step (i, w, lo, hi) l = (i + length l, eos w l, lo + 2 ^ (i * 8) * le32 l, hi).
Proof.
  intros Hl. revert i w lo. induction Hl as [|v l Hv Hl IH]; intros i w lo Hi Hle Hlo.
  - cbn. unfold eos. cbn. do 3 f_equal; lia.
  - cbn [length] in *. cbn [foldl size_step]. rewrite (proj2 (Z.ltb_lt i 4)) by lia.
    destruct (size_sum v i lo) as [-> Hb]; [done|lia|done|]. rewrite IH by (first [done|lia]).
    rewrite eos_cons. replace ((i + 1) * 8) with (8 + i * 8) by lia. rewrite Z.pow_add_r by lia.
    change (2 ^ 8) with 256. cbn [le32 foldr]. fold (le32 l).
    replace (i + S (length l)) with (i + 1 + length l) by lia. rewrite Z.mul_add_distr_l, Z.add_assoc, Z.mul_assoc, (Z.mul_comm 256). reflexivity.
Qed.

Lemma size_high l i w lo hi :
  Forall is_byte l → 4 ≤ i → i + length l ≤ 8 → 0 ≤ hi < 2 ^ ((i - 4) * 8) →
  foldl size_step (i, w, lo, hi) l = (i + length l, eos w l, lo, hi + 2 ^ ((i - 4) * 8) * le32 l).
Proof.
  intros Hl. revert i w hi. induction Hl as [|v l Hv Hl IH]; intros i w hi Hi Hle Hhi.
  - cbn. unfold eos. cbn. do 3 f_equal; lia.
  - cbn [length] in *. cbn [foldl size_step]. rewrite (proj2 (Z.ltb_ge i 4)) by lia.
    destruct (size_sum v (i - 4) hi) as [-> Hb]; [done|lia|done|].
    replace (i - 4 + 1) with (i + 1 - 4) in * by lia. rewrite IH by (first [done|lia]).
    rewrite eos_cons. replace ((i + 1 - 4) * 8) with (8 + (i - 4) * 8) by lia. rewrite Z.pow_add_r by lia.
    change (2 ^ 8) with 256. cbn [le32 foldr]. fold (le32 l).
    replace (i + S (length l)) with (i + 1 + length l) by lia. rewrite Z.mul_add_distr_l, Z.add_assoc, Z.mul_assoc, (Z.mul_comm 256). reflexivity.
Qed.

(** The loop reads the two halves of the size. *)
Lemma size_value zl zh :
  Forall is_byte zl → Forall is_byte zh → length zl = 4%nat → length zh = 4%nat →
  foldl size_step (0, 1, 0, 0) (zl ++ zh) = (8, eos 1 (zl ++ zh), le32 zl, le32 zh).
Proof.
  intros Hl Hh El Eh. rewrite foldl_app. rewrite size_low by (first [done|rewrite ?El; cbn; lia]).
  rewrite El. rewrite size_high by (first [done|rewrite ?Eh; cbn; lia]). rewrite Eh.
  unfold eos. rewrite forallb_app. cbn [Z.add Z.sub Z.mul Z.of_nat]. change (2 ^ 0) with 1.
  destruct (forallb _ zl), (forallb _ zh); cbn [andb]; do 3 f_equal; lia.
Qed.

Lemma le32_range l : Forall is_byte l → length l = 4%nat → 0 ≤ le32 l < 4294967296.
Proof.
  intros Hl E. destruct l as [|a [|b [|c [|d [|? ?]]]]]; try done.
  repeat (apply Forall_cons_iff in Hl as [? Hl]). unfold is_byte in *. cbn. lia.
Qed.

(** [LzmaDecodeProperties] takes the code of the properties apart. *)
Lemma LzmaDecodeProperties_spec m a p :
  m !! a = Some p → is_byte p →
  (225 ≤ p ∧ LzmaDecodeProperties m a LZMA_PROPERTIES_SIZE = Some (LZMA_RESULT_DATA_ERROR, None)) ∨
  (∃ ps, p < 225 ∧ LzmaDecodeProperties m a LZMA_PROPERTIES_SIZE = Some (LZMA_RESULT_OK, Some ps) ∧
    props_ok ps ∧ p = (pb ps * 5 + lp ps) * 9 + lc ps).
Proof.
  unfold is_byte. intros Ha Hp. unfold LzmaDecodeProperties.
  change (LZMA_PROPERTIES_SIZE <? LZMA_PROPERTIES_SIZE) with false. cbv iota. c_step.
  destruct (Z.geb_spec p (9 * 5 * 5)) as [Hge|Hlt]; [left; split; [lia|done]|right].
  change (9 * 5 * 5) with 225 in *. change (9 * 5) with 45.
  match goal with |- context [while ?body (0, p)] =>
    destruct (while_rule body (λ '(b, q), 0 ≤ b ∧ 0 ≤ q ∧ p = b * 45 + q) (λ '(b, q), q)
      (λ '(b, q), 0 ≤ b < 5 ∧ 0 ≤ q < 45 ∧ p = b * 45 + q) (0, p)) as ([b q] & -> & Hb & Hq & E) end; [| |lia|].
  { intros [b q] (H1 & H2 & H3). eexists. split; [reflexivity|].
    destruct (Z.geb_spec q 45); [|lia]. split; lia. }
  { lia. }
  rewrite some_bind.
  match goal with |- context [while ?body (0, q)] =>
    destruct (while_rule body (λ '(l, c), 0 ≤ l ∧ 0 ≤ c ∧ q = l * 9 + c) (λ '(l, c), c)
      (λ '(l, c), 0 ≤ l < 5 ∧ 0 ≤ c < 9 ∧ q = l * 9 + c) (0, q)) as ([l c] & -> & Hl & Hc & E') end; [| |lia|].
  { intros [l c] (H1 & H2 & H3). eexists. split; [reflexivity|].
    destruct (Z.geb_spec c 9); [|lia]. split; lia. }
  { lia. }
  rewrite some_bind. exists (Props c l b). unfold props_ok. cbn [lc lp pb].
  split; [done|]. split; [done|]. split; lia.
Qed.
End header.

(** ** Unpacking *)

(** The memory of a run: the header is [p], the dictionary size [dict] and the
    two halves [zl] and [zh] of the size, read from [source + rpos] on. *)
Record inflate_run (m : mem) (rpos properties b source d_len p : Z) (dict zl zh : list Z) : Prop := InflateRun {
  ir_bytes : Forall is_byte (p :: dict ++ zl ++ zh);
  ir_dict : length dict = 4%nat;
  ir_low : length zl = 4%nat;
  ir_high : length zh = 4%nat;
  ir_header : bytes_at m (source + rpos) (p :: dict ++ zl ++ zh);
  ir_properties : owned m properties 5;
  ir_b : is_Some (m !! b);
  ir_d_len : 0 ≤ d_len ∧ owned m d_len 4;
  ir_apart : properties + 5 ≤ source + rpos ∨ source + rpos + 13 ≤ properties;
  ir_apart_b : b < source + rpos ∨ source + rpos + 13 ≤ b;
  ir_locals : b < properties ∨ properties + 5 ≤ b;
  ir_rpos : 0 ≤ rpos < 2147483648
}.

(** Nothing but the two local variables differs. *)
Definition locals_only (properties b : Z) (m m' : mem) : Prop :=
  (∀ j, ¬ (properties ≤ j < properties + 5) → j ≠ b → m' !! j = m !! j) ∧
  ∀ j, is_Some (m !! j) → is_Some (m' !! j).

Lemma num_probs_nonneg ps : 0 ≤ num_probs ps.
Proof. unfold num_probs. pose proof (Z.shiftl_nonneg LZMA_LIT_SIZE (lc ps + lp ps)). unfold LZMA_LIT_SIZE, LZMA_BASE_SIZE in *. lia. Qed.

Section unpack.
Context (malloc : Z → option (list Z)) (malloc_size : ∀ n l, 0 ≤ n → malloc (n * 2) = Some l → Z.of_nat (length l) = n).
Context (m : mem) (rpos properties b source s_len dest d_len p : Z) (dict zl zh : list Z).
Context (Hrun : inflate_run m rpos properties b source d_len p dict zl zh).

Lemma header_read :
  ∃ m1 m2, MyReadFileAndCheck m rpos source properties LZMA_PROPERTIES_SIZE = Some (m1, rpos + 5, 1) ∧
    read_size m1 (rpos + 5) source b = Some (m2, rpos + 13, Some (eos 1 (zl ++ zh), le32 zl, le32 zh)) ∧
    locals_only properties b m m2 ∧ m2 !! properties = Some p.
Proof using Hrun.
  destruct Hrun as [Hb Ed El Eh Hat Hp Hb1 [_ Hd] Ha1 Ha2 Hloc Hr].
  change (p :: dict ++ zl ++ zh) with ((p :: dict) ++ zl ++ zh) in Hat, Hb.
  apply Forall_app in Hb as [Hb5 Hb8]. apply bytes_at_app in Hat as [Hat5 Hat8].
  assert (E5 : length (p :: dict) = 5%nat) by (cbn [length]; lia).
  assert (E8 : length (zl ++ zh) = 8%nat) by (rewrite length_app; lia). rewrite E5 in Hat8.
  exists (write_bytes m properties (p :: dict)).
  destruct (read_size_folds (write_bytes m properties (p :: dict)) (rpos + 5) source b (zl ++ zh))
    as (m2 & Hch & Hread); try done; try lia.
  - apply bytes_at_write_disjoint; [lia|]. by replace (source + (rpos + 5)) with (source + rpos + 5%nat) by lia.
  - destruct (changed_write properties (properties + 5) m properties (p :: dict) ltac:(lia) ltac:(lia)) as [_ K].
    by apply K.
  - exists m2. apply Forall_app in Hb8 as [Hbl Hbh]. rewrite size_value in Hread by done.
    split; [|split; [by replace (rpos + 13) with (rpos + 5 + 8) by lia|split; [split|]]].
    + replace (rpos + 5) with (rpos + length (p :: dict)) by lia.
      change LZMA_PROPERTIES_SIZE with (Z.of_nat 5). rewrite <- E5.
      apply MyReadFileAndCheck_reads; try done; try lia. by rewrite E5.
    + intros j H1 H2. destruct Hch as [Hs _]. rewrite Hs by lia. apply write_bytes_out. lia.
    + intros j Hj. apply Hch.
      destruct (changed_write properties (properties + 5) m properties (p :: dict) ltac:(lia) ltac:(lia)) as [_ K].
      by apply K.
    + destruct Hch as [Hs _]. rewrite Hs by lia.
      pose proof (write_bytes_in m properties (p :: dict)) as Hw. by apply bytes_at_cons in Hw as [? _].
Qed.

(** The conditions under which the decoder is called. *)
Definition header_accepted : bool :=
  (p <? 225) && (eos 1 (zl ++ zh) =? 0) && (le32 zh =? 0) && (le32 zl <=? d_len).

(** What a call leaves: success, with the size in [d_len] and changes in the
    destination, or a refusal or data error.  The destination is touched only
    if the header is accepted. *)
Definition unpacked (m' : mem) (r : Z) : Prop :=
  (∀ j, is_Some (m !! j) → is_Some (m' !! j)) ∧
  (r = 0 ∧ header_accepted = true ∧ (∃ k, 0 ≤ k ≤ le32 zl ∧ word_at m' d_len k) ∧
     (∀ j, ¬ (properties ≤ j < properties + 5) → j ≠ b → ¬ (dest ≤ j < dest + le32 zl) →
        ¬ (d_len ≤ j < d_len + 4) → m' !! j = m !! j) ∨
   r = 1 ∧ ∀ j, ¬ (properties ≤ j < properties + 5) → j ≠ b →
     (header_accepted = true → ¬ (dest ≤ j < dest + le32 zl)) → m' !! j = m !! j).

Lemma unpacked_refused m' : locals_only properties b m m' → unpacked m' LZMA_RESULT_DATA_ERROR.
Proof. intros [Hl Hk]. split; [done|]. right. split; [done|]. auto. Qed.

(** A header that is not accepted is refused, whatever the sizes are. *)
Lemma lzma_inflate_refuses :
  header_accepted = false →
  ∃ m', lzma_inflate malloc m rpos properties b source s_len dest d_len = Some (m', rpos + 13, 1) ∧
    locals_only properties b m m'.
Proof using Hrun.
  intros Hacc. destruct header_read as (m1 & m2 & E1 & E2 & Hloc & Hpm).
  assert (Hpb : is_byte p) by (pose proof (ir_bytes _ _ _ _ _ _ _ _ _ _ Hrun) as Hb; by apply Forall_cons_iff in Hb as [? _]).
  exists m2. split; [|done]. unfold lzma_inflate. rewrite E1, some_bind. change (1 =? 0) with false. cbv iota.
  rewrite E2, some_bind. destruct (Z.eqb_spec (eos 1 (zl ++ zh)) 0) as [Heos|Heos]; cbn [negb]; [|done].
  destruct (Z.eqb_spec (le32 zh) 0) as [Hzh|Hzh]; cbn [negb orb]; [|done].
  destruct (negb (u32 (le32 zl) =? le32 zl)); [done|].
  destruct (LzmaDecodeProperties_spec m2 properties p Hpm Hpb) as [[_ ->]|(ps & Hlt & -> & _)];
    rewrite some_bind; [done|]. destruct (malloc _); [|done].
  unfold header_accepted in Hacc. rewrite Heos, Hzh, (proj2 (Z.ltb_lt p 225)) in Hacc by lia. cbn [andb Z.eqb] in Hacc.
  pose proof (ir_d_len _ _ _ _ _ _ _ _ _ _ Hrun) as [Hd0 _].
  rewrite Z.gtb_ltb, (proj2 (Z.ltb_lt d_len (le32 zl))) by lia.
  by rewrite (proj2 (Z.eqb_neq (le32 zl) 0)) by lia.
Qed.

(** An accepted header that announces no output: the data are not looked at,
    but for the first five bytes. *)
Lemma lzma_inflate_empty :
  0 < source → rpos = 0 → header_accepted = true → le32 zl = 0 →
  5 ≤ u32 (s_len - 13) → owned m (source + 13) 5 →
  ∃ m' r, lzma_inflate malloc m rpos properties b source s_len dest d_len = Some (m', 13, r) ∧ unpacked m' r ∧
    ((∀ n, 0 ≤ n → is_Some (malloc (n * 2))) → r = 0).
Proof using Hrun malloc_size.
  intros Hsrc Hrpos Hacc Hz Hs Hin. destruct header_read as (m1 & m2 & E1 & E2 & Hloc & Hpm).
  assert (Hpb : is_byte p) by (pose proof (ir_bytes _ _ _ _ _ _ _ _ _ _ Hrun) as Hb; by apply Forall_cons_iff in Hb as [? _]).
  unfold lzma_inflate. rewrite E1, some_bind. change (1 =? 0) with false. cbv iota.
  rewrite E2, some_bind, Hz. replace (rpos + 13) with 13 by lia.
  pose proof (unpacked_refused m2 Hloc) as Refused. pose proof Hacc as Hacc'. unfold header_accepted in Hacc'.
  apply andb_true_iff in Hacc' as [[[Hp Heos]%andb_true_iff Hzh]%andb_true_iff _].
  rewrite Heos, Hzh. cbn [negb orb]. change (u32 0 =? 0) with true. cbn [negb].
  destruct (LzmaDecodeProperties_spec m2 properties p Hpm Hpb) as [[Hge _]|(ps & Hlt & -> & Hps & _)]; [lia|].
  rewrite some_bind. destruct (malloc (num_probs ps * 2)) as [probs|] eqn:Em.
  2: { do 2 eexists. split; [reflexivity|]. split; [done|]. intros Hall.
       destruct (Hall (num_probs ps)); [apply num_probs_nonneg|congruence]. }
  apply malloc_size in Em; [|by apply num_probs_nonneg].
  change (LZMA_PROPERTIES_SIZE + 8) with 13. set (c := u32 (s_len - 13)) in *.
  assert (Hc : u32 (c + 13) = u32 s_len).
  { unfold c, u32. rewrite Zplus_mod_idemp_l. f_equal. lia. }
  rewrite Hc. replace (u32 s_len >? u32 s_len) with false by (symmetry; rewrite Z.gtb_ltb; apply Z.ltb_irrefl).
  rewrite !(proj2 (Z.eqb_neq c 0)) by lia. change (0 =? 0) with true. cbn [negb andb orb].
  rewrite (proj2 (Z.eqb_neq (source + 13) 0)) by lia. cbn [negb andb orb].
  destruct Hloc as [Hl Hk].
  destruct (LzmaDecode_empty m2 ps probs (source + 13) c 0) as (o & -> & Eo & Er & Ez); [done| |done|done|].
  { intros i Hi. by apply Hk, Hin. }
  change ((0 =? 0) && false || false) with false. cbv iota. rewrite some_bind, Eo, Er, Ez. change (negb (LZMA_RESULT_OK =? 0)) with false. cbv iota.
  destruct (st32_word m2 d_len 0) as (m3 & -> & Hw & [Hs3 Hk3]).
  { intros i Hi. apply Hk. by apply (ir_d_len _ _ _ _ _ _ _ _ _ _ Hrun). }
  rewrite some_bind. do 2 eexists. split; [reflexivity|]. split; [|done]. split; [by auto|]. left.
  split; [done|]. split; [done|]. split; [exists 0; split; [lia|done]|].
  intros j H1 H2 _ H4. rewrite Hs3 by done. by apply Hl.
Qed.

Context (Hs_len : 13 ≤ s_len < 2147483648) (Hin : owned m (source + rpos + 13) (s_len - 13))
  (Hdest : owned m dest (le32 zl)).

Lemma lzma_inflate_run :
  0 < source → rpos = 0 →
  ∃ m' r, lzma_inflate malloc m rpos properties b source s_len dest d_len = Some (m', 13, r) ∧ unpacked m' r.
Proof using All.
  intros Hsrc Hrpos. destruct header_read as (m1 & m2 & E1 & E2 & Hloc & Hpm).
  pose proof (ir_bytes _ _ _ _ _ _ _ _ _ _ Hrun) as Hb.
  assert (Hpb : is_byte p) by (by apply Forall_cons_iff in Hb as [? _]).
  assert (Hz : 0 ≤ le32 zl < 4294967296).
  { apply le32_range; [|apply Hrun]. rewrite app_comm_cons in Hb.
    apply Forall_app in Hb as [_ Hb]. by apply Forall_app in Hb as [Hb _]. }
  unfold lzma_inflate. rewrite E1, some_bind. change (1 =? 0) with false. cbv iota.
  rewrite E2, some_bind. replace (rpos + 13) with 13 by lia.
  pose proof (unpacked_refused m2 Hloc) as Refused.
  destruct (Z.eqb_spec (eos 1 (zl ++ zh)) 0) as [Heos|Heos]; cbn [negb]; [|by eauto].
  rewrite (u32_small (le32 zl)), Z.eqb_refl by done. cbn [negb]. rewrite orb_false_r.
  destruct (Z.eqb_spec (le32 zh) 0) as [Hzh|Hzh]; cbn [negb]; [|by eauto].
  destruct (LzmaDecodeProperties_spec m2 properties p Hpm Hpb) as [[Hge ->]|(ps & Hlt & -> & Hps & _)];
    rewrite some_bind; [by eauto|].
  destruct (malloc (num_probs ps * 2)) as [probs|] eqn:Em; [|by eauto].
  apply malloc_size in Em; [|by apply num_probs_nonneg]. rewrite (u32_small (s_len - _)) by (unfold LZMA_PROPERTIES_SIZE; lia).
  change (s_len - (LZMA_PROPERTIES_SIZE + 8)) with (s_len - 13).
  set (inS := if s_len - 13 =? 0 then 0 else _).
  assert (HinS : inS = if s_len - 13 =? 0 then 0 else source + 13).
  { unfold inS. rewrite (u32_small s_len), (u32_small (_ + _)) by lia.
    destruct (s_len - 13 =? 0); [done|]. by zbool. }
  clearbody inS. set (outS := if le32 zl =? 0 then 0 else _).
  destruct ((outS =? 0) && negb (le32 zl =? 0) || (inS =? 0) && negb (s_len - 13 =? 0)) eqn:Ebuf;
    [by eauto|].
  assert (Hacc : header_accepted = true ∧ (le32 zl = 0 ∨ outS = dest)).
  { unfold header_accepted. rewrite Heos, Hzh. rewrite (proj2 (Z.ltb_lt p 225)) by lia. cbn [andb Z.eqb].
    pose proof (ir_d_len _ _ _ _ _ _ _ _ _ _ Hrun) as [Hd0 _].
    unfold outS in *. destruct (Z.eqb_spec (le32 zl) 0) as [->|Hnz]; [split; [lia|by left]|].
    rewrite Z.gtb_ltb in *. destruct (Z.ltb_spec d_len (le32 zl)); [done|]. split; [lia|by right]. }
  destruct Hloc as [Hl Hk].
  assert (HoutS : owned m2 outS (le32 zl)).
  { destruct Hacc as [_ [E|E]]; [intros i Hi; lia|]. rewrite E. intros i Hi. by apply Hk, Hdest. }
  assert (HinO : owned m2 inS (s_len - 13)).
  { intros i Hi. rewrite HinS. destruct (Z.eqb_spec (s_len - 13) 0); [lia|].
    apply Hk. replace (source + 13 + i) with (source + rpos + 13 + i) by lia. by apply Hin. }
  destruct (LzmaDecode_total m2 ps probs inS (s_len - 13) outS (le32 zl)) as (o & -> & Hch & Hres);
    [done|done|done|lia|done|lia|].
  rewrite some_bind. destruct Hch as [Hs Hk2].
  assert (Hsame : ∀ j, ¬ (properties ≤ j < properties + 5) → j ≠ b → ¬ (dest ≤ j < dest + le32 zl) →
    out_memory o !! j = m !! j).
  { intros j H1 H2 H3. rewrite Hs; [by apply Hl|]. destruct Hacc as [_ [E|E]]; [lia|by rewrite E]. }
  destruct Hres as [(-> & _ & Hsz)|(-> & _)].
  - change (negb (LZMA_RESULT_OK =? 0)) with false. cbv iota.
    destruct (st32_word (out_memory o) d_len (outSizeProcessed o)) as (m3 & -> & Hw & [Hs3 Hk3]).
    { intros i Hi. apply Hk2, Hk. by apply (ir_d_len _ _ _ _ _ _ _ _ _ _ Hrun). }
    rewrite some_bind. do 2 eexists. split; [reflexivity|]. split; [by auto|].
    left. split; [done|]. split; [apply Hacc|]. split; [by eexists|].
    intros j H1 H2 H3 H4. rewrite Hs3 by done. by apply Hsame.
  - change (negb (LZMA_RESULT_DATA_ERROR =? 0)) with true. cbv iota.
    do 2 eexists. split; [reflexivity|]. split; [by auto|]. right. split; [done|].
    intros j H1 H2 H3. apply Hsame; [done|done|]. by apply H3, Hacc.
Qed.

(** From a position that an earlier call has left, only an empty stream is
    not refused. *)
Lemma lzma_inflate_later :
  0 < rpos → 13 < s_len → rpos + s_len < 4294967296 →
  ∃ m', lzma_inflate malloc m rpos properties b source s_len dest d_len = Some (m', rpos + 13, 1) ∧
    locals_only properties b m m'.
Proof using Hrun Hs_len.
  intros H0 H1 H2. destruct header_read as (m1 & m2 & E1 & E2 & Hloc & Hpm).
  assert (Hpb : is_byte p) by (pose proof (ir_bytes _ _ _ _ _ _ _ _ _ _ Hrun) as Hb; by apply Forall_cons_iff in Hb as [? _]).
  exists m2. split; [|done]. unfold lzma_inflate. rewrite E1, some_bind. change (1 =? 0) with false. cbv iota.
  rewrite E2, some_bind. destruct (negb (eos 1 (zl ++ zh) =? 0)); [done|].
  destruct (negb (le32 zh =? 0) || _); [done|].
  destruct (LzmaDecodeProperties_spec m2 properties p Hpm Hpb) as [[_ ->]|(ps & _ & -> & _)];
    rewrite some_bind; [done|]. destruct (malloc _); [|done].
  unfold LZMA_PROPERTIES_SIZE. rewrite (u32_small (s_len - _)), (u32_small s_len) by lia.
  rewrite u32_small by lia. zbool. cbn [negb andb]. by rewrite orb_true_r.
Qed.
End unpack.

(** How much of an image is looked at: the header, five bytes more when it
    announces no output and [size] is no size, and all of it otherwise. *)
Definition image_len (d_len p : Z) (zl zh : list Z) (size : Z) : Z :=
  if header_accepted d_len p zl zh then if (13 <=? size) && (size <? 2147483648) then size else 18 else 13.

Definition output_len (d_len p : Z) (zl zh : list Z) : Z :=
  if header_accepted d_len p zl zh then le32 zl else 0.

Lemma image_len_pos d_len p zl zh size : 13 ≤ image_len d_len p zl zh size.
Proof.
  unfold image_len. destruct (header_accepted d_len p zl zh); [|lia].
  destruct (Z.leb_spec 13 size), (size <? 2147483648); cbn [andb]; lia.
Qed.

(** The first call with the 32 bits [size] of a tag as its length. *)
Lemma lzma_inflate_any malloc m properties b source size dest d_len p dict zl zh :
  (∀ n l, 0 ≤ n → malloc (n * 2) = Some l → Z.of_nat (length l) = n) →
  inflate_run m 0 properties b source d_len p dict zl zh → 0 ≤ size < 4294967296 →
  (header_accepted d_len p zl zh = true → 13 ≤ size < 2147483648 ∨ le32 zl = 0) → 0 < source →
  owned m source (image_len d_len p zl zh size) → owned m dest (output_len d_len p zl zh) →
  ∃ m' r, lzma_inflate malloc m 0 properties b source (s32 size) dest d_len = Some (m', 13, r) ∧
    unpacked m properties b dest d_len p zl zh m' r ∧
    (header_accepted d_len p zl zh = true → le32 zl = 0 → size < 13 ∨ 2147483648 ≤ size →
     (∀ n, 0 ≤ n → is_Some (malloc (n * 2))) → r = 0).
Proof.
  intros Hm Hrun Hsize Hcases Hsrc Hin Hd. unfold image_len, output_len in *.
  destruct (header_accepted d_len p zl zh) eqn:Hacc.
  2: { destruct (lzma_inflate_refuses malloc m 0 properties b source (s32 size) dest d_len p dict zl zh Hrun Hacc)
         as (m' & E & Hloc). exists m', 1. split; [exact E|]. split; [by apply unpacked_refused|done]. }
  destruct (decide (13 ≤ size < 2147483648)) as [Hs|Hs].
  - rewrite s32_small by lia. rewrite (proj2 (Z.leb_le _ _)), (proj2 (Z.ltb_lt _ _)) in Hin by lia. cbn [andb] in Hin.
    destruct (lzma_inflate_run malloc Hm m 0 properties b source size dest d_len p dict zl zh) as (m' & r & E & Hu);
      try done; [eapply owned_mono; [exact Hin|lia|lia]|].
    exists m', r. split; [done|]. split; [done|]. lia.
  - destruct (Hcases eq_refl) as [?|Hz]; [done|].
    destruct (lzma_inflate_empty malloc Hm m 0 properties b source (s32 size) dest d_len p dict zl zh)
      as (m' & r & E & Hu & Hr); try done.
    + unfold s32, u32. Z.div_mod_to_equations. lia.
    + destruct ((13 <=? size) && (size <? 2147483648)) eqn:Eb; [lia|]. eapply owned_mono; [exact Hin|lia|lia].
    + exists m', r. split; [done|]. split; [done|]. by intros _ _ _.
Qed.

(** ** Properties *)

(** C17: the first call of [lzma_inflate] on a header and any bytes behind it
    returns: it gives 0 only for a header with good properties, a size below
    4 GB and a size not above the number that the pointer [d_len] is, and
    then it has put the size of the output into [d_len] and changed nothing
    else but the destination, up to the announced size, and its local
    variables; otherwise it gives 1, does not write [d_len], and touches the
    destination only when the header is accepted. *)
Theorem lzma_inflate_unpacks malloc m properties b source s_len dest d_len p dict zl zh :
  (∀ n l, 0 ≤ n → malloc (n * 2) = Some l → Z.of_nat (length l) = n) →
  inflate_run m 0 properties b source d_len p dict zl zh →
  13 ≤ s_len < 2147483648 → 0 < source → owned m (source + 13) (s_len - 13) → owned m dest (le32 zl) →
  ∃ m' r, lzma_inflate malloc m 0 properties b source s_len dest d_len = Some (m', 13, r) ∧
    unpacked m properties b dest d_len p zl zh m' r.
Proof.
  intros Hm Hrun Hs Hsrc Hin Hd. eapply (lzma_inflate_run malloc Hm m 0); try done.
  by replace (source + 0 + 13) with (source + 13) by lia.
Qed.

(** The read position is never put back: a later call reads its header
    behind its image and refuses every stream that is not empty, whatever the
    header and the stream are. *)
Lemma lzma_inflate_only_once malloc m rpos properties b source s_len dest d_len p dict zl zh :
  inflate_run m rpos properties b source d_len p dict zl zh →
  0 < rpos → 13 < s_len → s_len < 2147483648 →
  ∃ m', lzma_inflate malloc m rpos properties b source s_len dest d_len = Some (m', rpos + 13, 1) ∧
    locals_only properties b m m'.
Proof.
  intros Hrun H0 H1 H2. pose proof (ir_rpos _ _ _ _ _ _ _ _ _ _ Hrun).
  apply (lzma_inflate_later malloc m rpos properties b source s_len dest d_len p dict zl zh Hrun); lia.
Qed.

(** An image of 20 bytes for 4 bytes of output, with the parameters lc 3,
    lp 0 and pb 2; the locals are at 256 and 264, [d_len] at 272. *)
Definition small_image : list Z := [93; 0; 0; 128; 0; 4; 0; 0; 0; 0; 0; 0; 0; 0; 32; 150; 3; 255; 1; 2].

Definition small_memory (source : Z) : mem :=
  write_bytes (mem_of2 source small_image 256 (replicate 20 0)) 0x2000 (replicate 4 0).

Definition some_malloc (n : Z) : option (list Z) :=
  if (0 <=? n) && (n mod 2 =? 0) then Some (replicate (Z.to_nat (n / 2)) 0) else None.

Lemma some_malloc_size n l : 0 ≤ n → some_malloc (n * 2) = Some l → Z.of_nat (length l) = n.
Proof.
  unfold some_malloc. intros Hn. rewrite Z_mod_mult, Z.div_mul by lia. zbool. intros [= <-].
  rewrite length_replicate. lia.
Qed.

Lemma small_memory_owned source a n :
  (source = 0x1000 ∨ source = 0x1000 + 13) →
  (source ≤ a ∧ a + n ≤ source + 20 ∨ 256 ≤ a ∧ a + n ≤ 276 ∨ 0x2000 ≤ a ∧ a + n ≤ 0x2004) →
  owned (small_memory source) a n.
Proof.
  intros Hs Ha. unfold small_memory, mem_of2, mem_of. destruct Ha as [Ha|[Ha|Ha]].
  - apply owned_write, owned_write. eapply owned_mono; [apply bytes_at_owned, write_bytes_in|lia|].
    change (Z.of_nat (length small_image)) with 20. lia.
  - apply owned_write. eapply owned_mono; [apply bytes_at_owned, write_bytes_in|lia|].
    rewrite length_replicate. lia.
  - eapply owned_mono; [apply bytes_at_owned, write_bytes_in|lia|]. rewrite length_replicate. lia.
Qed.

Lemma small_memory_run source rpos :
  (source = 0x1000 ∧ rpos = 0 ∨ source = 0x1000 + 13 ∧ rpos = 13) →
  inflate_run (small_memory source) rpos 256 264 (source - rpos) 272 93 [0; 0; 128; 0] [4; 0; 0; 0] [0; 0; 0; 0].
Proof.
  intros Hs. split; try done; try lia.
  - repeat constructor; unfold is_byte; lia.
  - replace (source - rpos + rpos) with source by lia. unfold small_memory, mem_of2, mem_of.
    apply bytes_at_write_disjoint; [cbn [length app replicate]; lia|].
    apply bytes_at_write_disjoint; [cbn [length app replicate]; lia|].
    apply (bytes_at_take _ _ small_image 13), write_bytes_in.
  - apply small_memory_owned; lia.
  - apply (owned_at _ 264 1); [apply small_memory_owned; lia|lia].
  - split; [lia|]. apply small_memory_owned; lia.
Qed.

Lemma lzma_inflate_unpacks_witness :
  ∃ m' r, lzma_inflate some_malloc (small_memory 0x1000) 0 256 264 0x1000 20 0x2000 272 = Some (m', 13, r) ∧
    unpacked (small_memory 0x1000) 256 264 0x2000 272 93 [4; 0; 0; 0] [0; 0; 0; 0] m' r.
Proof.
  apply (lzma_inflate_unpacks some_malloc _ 256 264 0x1000 20 0x2000 272 93 [0; 0; 128; 0]
    [4; 0; 0; 0] [0; 0; 0; 0] some_malloc_size).
  - apply (small_memory_run 0x1000 0). lia.
  - lia.
  - lia.
  - apply small_memory_owned; lia.
  - apply small_memory_owned; [lia|]. change (le32 [4; 0; 0; 0]) with 4. lia.
Defined.

