(* ===== verification/Bootm.v ===== *)
(** * Starting an image ([common/cmd_bootm.c], [lib_mips/mips_linux.c])

    [bootm] with the tag of this vendor: the header it makes up, unpacking
    with [lzma_inflate], the arguments and the environment of the kernel and
    the jump.  [do_reset] does not return ([cpu/mips/cpu.c] writes the reset
    register for ever), so it is an end, as is the call of the kernel.  The
    progress codes, messages and the flushing of caches are left out, and so
    is the mapping of one physical place to a cached and an uncached address:
    [UNCACHED_SDRAM] only computes. *)

From S2P Require Import Prelude.
From S2P Require Import CString.
From S2P Require Import Vsprintf.
From S2P Require Import Crc.
From S2P Require Import Env.
From S2P Require Import Inflate.

Definition IH_MAGIC : Z := 0x27051956.
Definition IH_OS_LINUX : Z := 5.
Definition IH_CPU_MIPS : Z := 5.
Definition IH_TYPE_KERNEL : Z := 2.
Definition IH_TYPE_RAMDISK : Z := 3.
Definition IH_TYPE_MULTI : Z := 4.
Definition IH_COMP_GZIP : Z := 1.
Definition IH_NMLEN : Z := 32.
Definition CFG_BOOTM_LEN : Z := Z.shiftl 16 20.

(** [image_header_t]: the offsets of the fields and the size. *)
Definition ih_magic : Z := 0.
Definition ih_hcrc : Z := 4.
Definition ih_time : Z := 8.
Definition ih_size : Z := 12.
Definition ih_load : Z := 16.
Definition ih_ep : Z := 20.
Definition ih_dcrc : Z := 24.
Definition ih_os : Z := 28.
Definition ih_arch : Z := 29.
Definition ih_type : Z := 30.
Definition ih_comp : Z := 31.
Definition ih_name : Z := 32.
Definition sizeof_image_header : Z := ih_name + IH_NMLEN.

(** [LINUX_FILE_TAG]. *)
Definition kernelTextAddr : Z := 116.
Definition kernelEntryPoint : Z := 120.
Definition kernelLen : Z := 132.
Definition TAG_LEN : Z := 512.

(** The fields are in network byte order, which is that of the machine. *)
Definition fake_image_header (m : mem) (lit_none hdr kernelTextAddr entryPoint size : Z) : option mem :=
  m ← memset m hdr 0 sizeof_image_header;
  m ← st32 m (hdr + ih_magic) IH_MAGIC;
  m ← st32 m (hdr + ih_time) 0;
  m ← st32 m (hdr + ih_size) size;
  m ← st32 m (hdr + ih_load) kernelTextAddr;
  m ← st32 m (hdr + ih_ep) entryPoint;
  m ← st32 m (hdr + ih_dcrc) 0;
  m ← st m (hdr + ih_os) IH_OS_LINUX;
  m ← st m (hdr + ih_arch) IH_CPU_MIPS;
  m ← st m (hdr + ih_type) IH_TYPE_KERNEL;
  m ← st m (hdr + ih_comp) IH_COMP_GZIP;
  m ← strncpy m (hdr + ih_name) lit_none IH_NMLEN;
  st32 m (hdr + ih_hcrc) 0.

(** ** Arguments and environment of the kernel *)

Definition LINUX_MAX_ENVS : Z := 256.
Definition LINUX_MAX_ARGS : Z := 256.

Record linux := Linux {
  linux_argc : Z;
  linux_argv : Z;
  linux_env : Z;
  linux_env_p : Z;
  linux_env_idx : Z
}.

(** Literals, formats and local arrays. *)
Record boot_places := BootPlaces {
  header : Z;
  lit_none : Z;
  lit_bootargs : Z;
  lit_mem : Z;                    (* "mem=" *)
  fmt_mem : Z;                    (* "mem=%luM" *)
  fmt_lu : Z;
  fmt_08X : Z;                    (* "0x%08X" *)
  fmt_X : Z;                      (* "0x%X" *)
  lit_memsize : Z;
  lit_initrd_start : Z;
  lit_initrd_size : Z;
  lit_flash_start : Z;
  lit_flash_size : Z;
  lit_equals : Z;
  memstr : Z;
  env_buf : Z;
  properties : Z;
  inflate_b : Z;
  unc_len : Z
}.

(** What the code reads of [gd] and [gd->bd]. *)
Record board_info := BoardInfo {
  ram_size : Z;
  bi_boot_params : Z;
  bi_flashstart : Z;
  bi_flashsize : Z
}.

Section boot.
Context (pl : boot_places) (bd : board_info).
Implicit Types (m : mem) (x : linux).

(** The end of the word at [line]: a blank outside quotes, or the end. *)
Definition arg_end m (line : Z) : option Z :=
  quote ← strchr m line 34;
  next ← strchr m line 32;
  next ← while (λ '(next, quote),
    if negb (next =? NULL) && negb (quote =? NULL) && (quote <? next) then
      next ← strchr m (quote + 1) 34;
      if negb (next =? NULL) then
        quote ← strchr m (next + 1) 34;
        next ← strchr m (next + 1) 32;
        Some (Next (next, quote))
      else Some (Next (next, quote))
    else Some (Done next)) (next, quote);
  if next =? NULL then n ← strlen m line; Some (line + n) else Some next.

(** One word of the command line. *)
Definition params_round (linux_argv : Z)
    : mem * Z * Z * Z → option (ctl (mem * Z * Z * Z) (mem * Z * Z)) :=
  λ '(m, line, argp, linux_argc),
    more ← (if line =? NULL then Some false else c ← ld m line; Some (negb (c =? 0)));
    if (more : bool) && (linux_argc <? LINUX_MAX_ARGS) then
      next ← arg_end m line;
      m ← st32 m (linux_argv + 4 * linux_argc) argp;
      m ← memcpy m argp line (next - line);
      m ← st m (argp + (next - line)) 0;
      c ← ld m next;
      Some (Next (m, if negb (c =? 0) then next + 1 else next, argp + (next - line) + 1, linux_argc + 1))
    else Some (Done (m, argp, linux_argc)).

Definition linux_params_init m (start line : Z) : option (mem * linux) :=
  m ← st32 m start 0;
  s ← strstr m line (lit_mem pl);
  m ← st m (memstr pl) (if negb (s =? NULL) then 0 else 1);
  '(m, argp, argc) ← while (params_round start) (m, line, start + 4 * LINUX_MAX_ARGS, 1);
  c ← ld m (memstr pl);
  '(m, argp, argc) ← (
    if negb (c =? 0) then
      '(m, _) ← sprintf m (memstr pl) (fmt_mem pl) [Z.shiftr (ram_size bd) 20];
      n ← strlen m (memstr pl);
      m ← memcpy m argp (memstr pl) (n + 1);
      m ← st32 m (start + 4 * argc) argp;
      Some (m, argp + n + 1, argc + 1)
    else Some (m, argp, argc));
  let env := Z.land (argp + 15) (Z.lnot 15) in
  m ← st32 m env 0;
  Some (m, Linux argc start env (env + 4 * LINUX_MAX_ENVS) 0).

Definition linux_env_set m x (env_name env_val : Z) : option (mem * linux) :=
  if linux_env_idx x <? LINUX_MAX_ENVS - 1 then
    m ← st32 m (linux_env x + 4 * linux_env_idx x) (linux_env_p x);
    m ← strcpy m (linux_env_p x) env_name;
    n ← strlen m env_name;
    let p := linux_env_p x + n in
    m ← strcpy m p (lit_equals pl);
    let p := p + 1 in
    m ← strcpy m p env_val;
    n ← strlen m env_val;
    let idx := linux_env_idx x + 1 in
    m ← st32 m (linux_env x + 4 * idx) 0;
    Some (m, Linux (linux_argc x) (linux_argv x) (linux_env x) (p + n + 1) idx)
  else Some (m, x).

(** ** The jump *)

(** How [bootm] ends: in the kernel, with the arguments of the call, or in a
    reset. *)
Inductive booted :=
  | Kernel (entry argc argv mem_size flash_size_mbytes : Z) (m : mem)
  | Reset.

(** The checks of a RAM disk image and its place and length; [None] inside is
    a reset. *)
Definition initrd_image m (argv : list Z) (verify : Z) : option (option (mem * Z * Z)) :=
  a ← argv !! 2%nat;
  '(addr, _) ← simple_strtoul m a 16;
  let hdr := header pl in
  m ← memcpy m hdr addr sizeof_image_header;
  magic ← ld32 m (hdr + ih_magic);
  if negb (magic =? IH_MAGIC) then Some None else
  checksum ← ld32 m (hdr + ih_hcrc);
  m ← st32 m (hdr + ih_hcrc) 0;
  c ← crc32 m 0 hdr sizeof_image_header;
  if negb (c =? checksum) then Some None else
  let data := addr + sizeof_image_header in
  len ← ld32 m (hdr + ih_size);
  ok ← (if negb (verify =? 0) then
      csum ← crc32 m 0 data len;
      dcrc ← ld32 m (hdr + ih_dcrc);
      Some (csum =? dcrc)
    else Some true);
  if negb (ok : bool) then Some None else
  os ← ld m (hdr + ih_os); arch ← ld m (hdr + ih_arch); type ← ld m (hdr + ih_type);
  if negb (os =? IH_OS_LINUX) || negb (arch =? IH_CPU_MIPS) || negb (type =? IH_TYPE_RAMDISK)
  then Some None else Some (Some (m, data, len)).

(** The second image of a multi-file image. *)
Definition initrd_multi m (len_ptr : Z) : option (Z * Z) :=
  len0 ← ld32 m len_ptr;
  let tail := len0 mod 4 in
  data ← while (λ '(i, data),
    l ← ld32 m (len_ptr + 4 * i);
    Some (if negb (l =? 0) then Next (i + 1, data + 4) else Done data)) (1, len_ptr + 8);
  let data := data + len0 in
  let data := if negb (tail =? 0) then data + (4 - tail) else data in
  len ← ld32 m (len_ptr + 4);
  Some (data, len).

(** The four lines for one variable of the kernel. *)
Definition env_number m x (fmt name v : Z) : option (mem * linux) :=
  '(m, _) ← sprintf m (env_buf pl) fmt [v];
  linux_env_set m x name (env_buf pl).

Definition do_bootm_linux m (e : env) (argc : Z) (argv : list Z) (len_ptr verify : Z) : option booted :=
  commandline ← getenv e m (lit_bootargs pl);
  theKernel ← ld32 m (header pl + ih_ep);
  type ← ld m (header pl + ih_type);
  r ← (
    if argc >=? 3 then initrd_image m argv verify
    else
      multi ← (if type =? IH_TYPE_MULTI then l ← ld32 m (len_ptr + 4); Some (negb (l =? 0)) else Some false);
      if multi : bool then '(data, len) ← initrd_multi m len_ptr; Some (Some (m, data, len))
      else Some (Some (m, 0, 0)));
  match r with
  | None => Some Reset
  | Some (m, data, len) =>
      let '(initrd_start, initrd_end) := if negb (data =? 0) then (data, data + len) else (0, 0) in
      '(m, x) ← linux_params_init m (UNCACHED_SDRAM (bi_boot_params bd)) commandline;
      '(m, x) ← env_number m x (fmt_lu pl) (lit_memsize pl) (ram_size bd);
      '(m, x) ← env_number m x (fmt_08X pl) (lit_initrd_start pl) (UNCACHED_SDRAM initrd_start);
      '(m, x) ← env_number m x (fmt_X pl) (lit_initrd_size pl) (u32 (initrd_end - initrd_start));
      '(m, x) ← env_number m x (fmt_08X pl) (lit_flash_start pl) (bi_flashstart bd);
      '(m, x) ← env_number m x (fmt_X pl) (lit_flash_size pl) (bi_flashsize bd);
      Some (Kernel theKernel (linux_argc x) (linux_argv x) (ram_size bd)
        (bi_flashsize bd / (1024 * 1024)) m)
  end.

Context (malloc : Z → option (list Z)).

(** [rpos] is the read position of [lzma_inflate]; [len_ptr] has no value. *)
Definition do_bootm m (rpos : Z) (e : env) (load_addr argc : Z) (argv : list Z) (len_ptr : Z)
    : option (Z * booted) :=
  let verify := 0 in
  m ← st32 m (unc_len pl) CFG_BOOTM_LEN;
  addr ← (if argc <? 2 then Some load_addr
          else a ← argv !! 1%nat; '(v, _) ← simple_strtoul m a 16; Some v);
  text ← ld32 m (addr + kernelTextAddr);
  entry ← ld32 m (addr + kernelEntryPoint);
  size ← ld32 m (addr + kernelLen);
  m ← fake_image_header m (lit_none pl) (header pl) text entry (s32 size);
  let data := addr + TAG_LEN in
  len ← ld32 m (header pl + ih_size);
  load ← ld32 m (header pl + ih_load);
  '(m, rpos, i) ← lzma_inflate malloc m rpos (properties pl) (inflate_b pl) data (s32 len) load (unc_len pl);
  if negb (i =? 0) then Some (rpos, Reset) else
  b ← do_bootm_linux m e argc argv len_ptr verify;
  Some (rpos, b).
End boot.

(** ** Words *)

(** The length of the first word; [q] tells whether it starts inside quotes. *)
Fixpoint word_len (q : bool) (l : list Z) : nat :=
  match l with
  | [] => O
  | c :: l => if (c =? 32) && negb q then O else S (word_len (if c =? 34 then negb q else q) l)
  end.

(** The words of a line: it is cut at the blanks outside quotes; the quotes
    stay, and a blank at the end does not start a word. *)
Fixpoint split_args (q : bool) (w l : list Z) : list (list Z) :=
  match l with
  | [] => [w]
  | c :: l =>
      if (c =? 32) && negb q then w :: (match l with [] => [] | _ => split_args false [] l end)
      else split_args (if c =? 34 then negb q else q) (w ++ [c]) l
  end.

Definition boot_args (l : list Z) : list (list Z) :=
  match l with [] => [] | _ => split_args false [] l end.

Section words.
Implicit Types (m : mem) (l : list Z).

Lemma word_len_le q l : (word_len q l ≤ length l)%nat.
Proof. revert q. induction l as [|c l IH]; intros q; cbn; [lia|]. destruct (_ && _); [lia|]. specialize (IH (if c =? 34 then negb q else q)). lia. Qed.

Lemma split_args_word q w l :
  split_args q w l = (w ++ take (word_len q l) l) ::
    match drop (word_len q l) l with [] => [] | _ :: r => boot_args r end.
Proof.
  revert q w. induction l as [|c l IH]; intros q w; cbn [split_args word_len take drop]; [by rewrite app_nil_r|].
  destruct ((c =? 32) && negb q); cbn [take drop]; [by rewrite app_nil_r|].
  rewrite IH, <- app_assoc. done.
Qed.

(** What follows a word is nothing or a blank. *)
Lemma word_len_drop q l c r : drop (word_len q l) l = c :: r → c = 32.
Proof.
  revert q. induction l as [|x l IH]; intros q; cbn [word_len]; [done|].
  destruct ((x =? 32) && negb q) eqn:E; cbn [drop]; [|apply IH].
  intros [= <- _]. lia.
Qed.

Lemma boot_args_word l : l ≠ [] →
  boot_args l = take (word_len false l) l :: boot_args (tail (drop (word_len false l) l)).
Proof.
  intros Hl. assert (boot_args l = split_args false [] l) as -> by (by destruct l).
  rewrite split_args_word. cbn [app]. f_equal. by destruct (drop _ l).
Qed.

(** A stretch without quotes. *)
Lemma word_len_plain u v :
  Forall (λ c, c ≠ 32 ∧ c ≠ 34) u → word_len false (u ++ v) = (length u + word_len false v)%nat.
Proof.
  induction 1 as [|c u [H1 H2] _ IH]; [done|]. cbn [app word_len length].
  rewrite (proj2 (Z.eqb_neq c 32)), (proj2 (Z.eqb_neq c 34)) by done. cbn [andb]. by rewrite IH.
Qed.

Lemma word_len_quoted u v :
  Forall (λ c, c ≠ 34) u → word_len true (u ++ v) = (length u + word_len true v)%nat.
Proof.
  induction 1 as [|c u H _ IH]; [done|]. cbn [app word_len length].
  rewrite (proj2 (Z.eqb_neq c 34)) by done. rewrite andb_false_r. by rewrite IH.
Qed.

Lemma word_len_no_blank q l : Forall (λ c, c ≠ 32) l → word_len q l = length l.
Proof.
  intros H. revert q. induction H as [|c l H _ IH]; intros q; [done|]. cbn [word_len length].
  rewrite (proj2 (Z.eqb_neq c 32)) by done. cbn [andb]. by rewrite IH.
Qed.

Lemma find_index_split c l i :
  find_index (Z.eqb c) l = Some i →
  l = take i l ++ c :: drop (S i) l ∧ Forall (λ x, x ≠ c) (take i l) ∧ (i < length l)%nat.
Proof.
  intros H. pose proof (find_index_lt _ _ _ H) as Hi. destruct (find_index_lookup _ _ _ H) as (x & Hx & E).
  apply Z.eqb_eq in E as <-. split; [|split; [|done]].
  - rewrite <- (take_drop i l) at 1. f_equal. by apply drop_S.
  - apply Forall_lookup. intros j y Hj E. apply lookup_take_Some in Hj as [Hj Hlt].
    pose proof (find_index_before _ _ _ _ _ H Hlt Hj). subst y. by rewrite Z.eqb_refl in *.
Qed.

Lemma find_index_absent c l : find_index (Z.eqb c) l = None → Forall (λ x, x ≠ c) l.
Proof. intros H. apply find_index_none in H. eapply Forall_impl; [|exact H]. cbn. lia. Qed.

(** Without a blank the word is the line; a blank before any quote ends it. *)
Lemma word_len_blank l i :
  find_index (Z.eqb 32) l = Some i →
  match find_index (Z.eqb 34) l with None => True | Some a => (i ≤ a)%nat end → word_len false l = i.
Proof.
  intros H Hq. destruct (find_index_split _ _ _ H) as (E & Hn & Hi). rewrite E.
  rewrite word_len_plain; [cbn [word_len Z.eqb Pos.eqb andb negb]; rewrite length_take; lia|].
  apply Forall_lookup. intros j y Hj. split; [by eapply (Forall_lookup_1 _ _ _ _ Hn)|].
  apply lookup_take_Some in Hj as [Hj Hlt]. destruct (find_index (Z.eqb 34) l) as [a|] eqn:Ea in Hq.
  - pose proof (find_index_before _ l a j y Ea ltac:(lia) Hj). lia.
  - apply find_index_absent in Ea. by eapply (Forall_lookup_1 _ _ _ _ Ea).
Qed.

(** A quote before any blank: the word goes on behind the next quote. *)
Lemma word_len_quote l a :
  find_index (Z.eqb 34) l = Some a →
  match find_index (Z.eqb 32) l with None => True | Some i => (a < i)%nat end →
  word_len false l = match find_index (Z.eqb 34) (drop (S a) l) with
    | None => length l
    | Some b => (S a + S b + word_len false (drop (S a + S b) l))%nat
    end.
Proof.
  intros H Hq. destruct (find_index_split _ _ _ H) as (E & Hn & Hi). rewrite E at 1.
  assert (Hp : Forall (λ c, c ≠ 32 ∧ c ≠ 34) (take a l)).
  { apply Forall_lookup. intros j y Hj. split; [|by eapply (Forall_lookup_1 _ _ _ _ Hn)].
    apply lookup_take_Some in Hj as [Hj Hlt]. destruct (find_index (Z.eqb 32) l) as [i|] eqn:Ei in Hq.
    - pose proof (find_index_before _ l i j y Ei ltac:(lia) Hj). lia.
    - apply find_index_absent in Ei. by eapply (Forall_lookup_1 _ _ _ _ Ei). }
  rewrite (word_len_plain _ _ Hp), length_take. cbn [word_len Z.eqb Pos.eqb andb negb].
  destruct (find_index (Z.eqb 34) (drop (S a) l)) as [b|] eqn:Eb.
  - destruct (find_index_split _ _ _ Eb) as (E2 & Hn2 & Hi2). rewrite E2 at 1.
    rewrite (word_len_quoted _ _ Hn2), length_take. rewrite length_drop in Hi2 |- *.
    cbn [word_len Z.eqb Pos.eqb andb negb]. rewrite drop_drop. replace (S a + S b)%nat with (S a + S b)%nat by lia. lia.
  - apply find_index_absent in Eb. rewrite <- (app_nil_r (drop (S a) l)).
    rewrite (word_len_quoted _ _ Eb), length_drop. cbn. lia.
Qed.

(** [arg_end] finds the end of the word. *)
Lemma arg_end_word m line l :
  cstr m line l → fits l → 0 < line → arg_end m line = Some (line + word_len false l).
Proof.
  intros Hl Hf H0.
  assert (Hseek : ∀ c (i : nat), is_char c → (i ≤ length l)%nat →
    strchr m (line + i) c = Some (ptr_of (line + i) (find_index (Z.eqb c) (drop i l)))).
  { intros c i Hc Hi. apply strchr_cstr; [by apply cstr_drop| |done].
    unfold fits in *. rewrite length_drop. lia. }
  unfold arg_end. pose proof (Hseek 34 0%nat ltac:(done) ltac:(lia)) as Eq.
  pose proof (Hseek 32 0%nat ltac:(done) ltac:(lia)) as En. rewrite Z.add_0_r, drop_0 in *.
  rewrite Eq, some_bind, En, some_bind.
  match goal with |- (while ?body (?n, ?q) ≫= _) = _ =>
    assert (∃ nx, while body (n, q) = Some nx ∧
      (nx = NULL ∧ word_len false l = length l ∨ nx = line + word_len false l)) as (nx & -> & Hnx) end.
  2: { rewrite some_bind. destruct Hnx as [[-> ->]| ->].
    - change (NULL =? NULL) with true. cbv iota. by rewrite (strlen_cstr _ _ l).
    - unfold NULL. by zbool. }
  apply (while_rule _ (λ '(nx, q),
      (∃ i : nat, (i ≤ length l)%nat ∧ word_len false l = (i + word_len false (drop i l))%nat ∧
        nx = ptr_of (line + i) (find_index (Z.eqb 32) (drop i l)) ∧
        q = ptr_of (line + i) (find_index (Z.eqb 34) (drop i l))) ∨
      nx = NULL ∧ word_len false l = length l)
    (λ '(nx, q), if (nx =? NULL) || (q =? NULL) then 0 else line + length l + 1 - q)).
  - intros [nx q] [(i & Hi & Hw & -> & ->)|[-> Hw]].
    2: { eexists. split; [reflexivity|]. by left. }
    assert (Hfd : length (drop i l) = (length l - i)%nat) by apply length_drop.
    destruct (find_index (Z.eqb 32) (drop i l)) as [k|] eqn:Ek; cbn [ptr_of].
    2: { eexists. split; [reflexivity|]. left. split; [done|].
         rewrite Hw, (word_len_no_blank false (drop i l)) by (by apply find_index_absent). lia. }
    assert (Hend : match find_index (Z.eqb 34) (drop i l) with None => True | Some a => (k ≤ a)%nat end →
      line + i + k = line + word_len false l).
    { intros H. rewrite Hw, (word_len_blank _ k) by done. lia. }
    unfold NULL. zbool. cbn [negb andb].
    destruct (find_index (Z.eqb 34) (drop i l)) as [a|] eqn:Ea; cbn [ptr_of].
    2: { eexists. split; [reflexivity|]. right. auto. }
    unfold NULL. zbool. cbn [negb andb]. destruct (Z.ltb_spec (line + i + a) (line + i + k)).
    2: { eexists. split; [reflexivity|]. right. apply Hend. lia. }
    pose proof (find_index_lt _ _ _ Ea). pose proof (find_index_lt _ _ _ Ek).
    replace (line + i + a + 1) with (line + (i + S a)%nat) by lia.
    rewrite Hseek by (first [done|lia]). rewrite some_bind.
    pose proof (word_len_quote (drop i l) a Ea) as Hq. rewrite Ek, drop_drop in Hq. specialize (Hq ltac:(lia)).
    destruct (find_index (Z.eqb 34) (drop (i + S a) l)) as [b|] eqn:Eb; cbn [ptr_of].
    + zbool. cbn [negb]. pose proof (find_index_lt _ _ _ Eb) as Hb. rewrite length_drop in Hb.
      replace (line + (i + S a)%nat + b + 1) with (line + (i + S a + S b)%nat) by lia.
      rewrite !Hseek by (first [done|lia]). rewrite !some_bind. eexists. split; [reflexivity|]. split.
      * left. exists (i + S a + S b)%nat. split; [lia|]. split; [|done].
        rewrite drop_drop in Hq. replace (i + (S a + S b))%nat with (i + S a + S b)%nat in Hq by lia. lia.
      * destruct (find_index (Z.eqb 32) (drop (i + S a + S b) l)) as [k'|]; cbn [ptr_of]; [|unfold NULL; zbool; cbn [orb]; lia].
        destruct (find_index (Z.eqb 34) (drop (i + S a + S b) l)) as [a'|] eqn:Ea'; cbn [ptr_of];
          [|unfold NULL; zbool; cbn [orb]; lia].
        pose proof (find_index_lt _ _ _ Ea') as Ha'. rewrite length_drop in Ha'. unfold NULL. zbool. cbn [orb]. lia.
    + change (NULL =? NULL) with true. cbn [negb]. eexists. split; [reflexivity|]. split.
      * right. split; [done|]. lia.
      * unfold NULL. zbool. cbn [orb]. lia.
  - left. exists 0%nat. rewrite Z.add_0_r, drop_0. split; [lia|done].
  - destruct (_ || _) eqn:Eo; [lia|]. unfold fits in Hf.
    destruct (find_index (Z.eqb 34) l) as [a|] eqn:Ea; cbn [ptr_of] in *; [apply find_index_lt in Ea; lia|].
    change (NULL =? NULL) with true in Eo. by rewrite orb_true_r in Eo.
Qed.

(** ** The argument vector *)

(** Word [i] of [ws] is word [n + i] of the vector at [argv]; the characters
    are between [lo] and [hi]. *)
Definition args_table m (argv lo hi n : Z) (ws : list (list Z)) : Prop :=
  ∀ (i : nat) w, ws !! i = Some w →
    ∃ a, word_at m (argv + 4 * (n + i)) a ∧ cstr m a w ∧ lo ≤ a ∧ a + length w < hi.

Lemma args_table_touches P m m' argv lo hi n ws :
  args_table m argv lo hi n ws → touches P m m' → (∀ j, lo ≤ j < hi → ¬ P j) →
  (∀ j, argv + 4 * n ≤ j < argv + 4 * (n + length ws) → ¬ P j) → args_table m' argv lo hi n ws.
Proof.
  intros H Ht Hs Hp i w Hw. destruct (H i w Hw) as (a & Ha & Hc & Hlo & Hhi).
  pose proof (lookup_lt_Some _ _ _ Hw). exists a. split; [|split; [|done]].
  - eapply touches_word; [exact Ht| |exact Ha]. intros j Hj. apply Hp. lia.
  - eapply touches_cstr; [exact Ht| |exact Hc]. intros j Hj. apply Hs. lia.
Qed.

Lemma params_word m argv line l argp argc :
  cstr m line l → l ≠ [] → fits l → 0 < line → owned m argv 1024 → argv + 1024 ≤ argp →
  owned m argp (length l + 1) → (line + length l + 1 ≤ argv ∨ argp + length l + 1 ≤ line) → 0 ≤ argc < 256 →
  let n := word_len false l in
  ∃ m', params_round argv (m, line, argp, argc) =
      Some (Next (m', line + n + (if drop n l is [] then 0 else 1), argp + n + 1, argc + 1)) ∧
    touches (λ j, argv + 4 * argc ≤ j < argv + 4 * argc + 4 ∨ argp ≤ j < argp + n + 1) m m' ∧
    word_at m' (argv + 4 * argc) argp ∧ cstr m' argp (take n l).
Proof.
  intros Hl Hne Hf H0 Ho1 Hap Ho2 Hd Hargc n. pose proof (word_len_le false l) as Hn. fold n in Hn.
  assert (Htake : length (take n l) = n) by (rewrite length_take; lia).
  destruct (st32_word m (argv + 4 * argc) argp) as (m1 & E1 & Hw1 & Hc1).
  { eapply owned_mono; [exact Ho1|lia|lia]. }
  assert (Hl1 : cstr m1 line l) by (eapply changed_cstr; [exact Hc1|lia|done]).
  assert (Ho3 : owned m1 argp (length l + 1)) by (eapply changed_owned; done).
  set (m2 := write_bytes m1 argp (take n l)).
  assert (E2 : memcpy m1 argp line n = Some m2).
  { rewrite <- Htake at 1. apply memcpy_bytes; rewrite ?Htake.
    - apply Forall_take. eapply Forall_impl; [|apply Hl]. apply char_byte.
    - by apply bytes_at_take, cstr_bytes.
    - eapply owned_mono; [exact Ho3|lia|lia].
    - unfold fits in *. rewrite Htake. lia.
    - lia. }
  assert (Hc2 : changed argp (argp + n + 1) m1 m2) by (apply changed_write; rewrite ?Htake; lia).
  assert (E3 : st m2 (argp + n) 0 = Some (write_bytes m1 argp (take n l ++ [0]))).
  { unfold m2. apply (st_append m1 argp (length l + 1)); [done|by rewrite Htake|lia]. }
  set (m3 := write_bytes m1 argp (take n l ++ [0])) in *.
  assert (Hc3 : changed argp (argp + n + 1) m1 m3).
  { apply changed_write; rewrite ?length_app, ?Htake; cbn [length]; lia. }
  assert (Hnext : m3 !! (line + n) = Some (hd 0 (drop n l))).
  { apply cstr_hd, cstr_drop; [|done]. eapply changed_cstr; [exact Hc3|lia|done]. }
  exists m3. split; [|split; [|split]].
  - unfold params_round. unfold NULL. zbool. destruct l as [|c l]; [done|].
    apply cstr_cons in Hl as Hl'. destruct Hl' as (Hc & Hat & _). c_step. cbn [fmap option_fmap option_map].
    rewrite some_bind. unfold is_char in Hc. unfold LINUX_MAX_ARGS. zbool. cbn [negb andb].
    rewrite (arg_end_word m line (c :: l)) by done. rewrite some_bind, E1, some_bind.
    fold n. replace (line + n - line) with (n : Z) by lia. rewrite E2, some_bind, E3, some_bind. c_step.
    destruct (drop n (c :: l)) as [|x r] eqn:Ed; cbn [hd].
    + change (negb (0 =? 0)) with false. cbv iota. by rewrite Z.add_0_r.
    + apply word_len_drop in Ed as ->. by change (negb (32 =? 0)) with true.
  - eapply touches_trans; [eapply touches_changed; [exact Hc1|]|eapply touches_changed; [exact Hc3|]]; cbn; lia.
  - eapply changed_word; [exact Hc3|lia|done].
  - split; [by apply Forall_take, Hl|]. apply write_bytes_in.
Qed.

(** What the rounds make of the rest [l] of the line: its words behind the
    first [argc] arguments. *)
Definition params_made (argv : Z) (m : mem) (line : Z) (l : list Z) (argp argc : Z) : Prop :=
  ∃ m' argp' N, (N ≤ S (length l))%nat ∧
    let ws := take (Z.to_nat (256 - argc)) (boot_args l) in
    runs (params_round argv) (m, line, argp, argc) N (m', argp', argc + length ws) ∧
    argp ≤ argp' ≤ argp + (if l is [] then 0 else length l + 1) ∧
    touches (λ j, argv + 4 * argc ≤ j < argv + 1024 ∨ argp ≤ j < argp') m m' ∧
    args_table m' argv argp argp' argc ws.

Lemma params_stop argv m line l argp argc :
  cstr m line l → 0 < line → l = [] ∨ argc = 256 → params_made argv m line l argp argc.
Proof.
  intros Hl H0 Hstop. unfold params_made. assert (take (Z.to_nat (256 - argc)) (boot_args l) = []) as ->.
  { destruct Hstop as [->| ->]; [apply take_nil|done]. }
  exists m, argp, 1%nat. cbv zeta. cbn [length]. rewrite Z.add_0_r.
  split; [lia|]. split; [|split; [destruct l; lia|split; [apply touches_refl|by intros i w Hw]]].
  apply runs_done. unfold params_round, NULL. zbool. pose proof (cstr_hd _ _ _ Hl) as Hc. c_step. rewrite some_bind.
  unfold LINUX_MAX_ARGS. destruct Hstop as [->| ->]; [done|]. change (256 <? 256) with false.
  by rewrite andb_false_r.
Qed.

Lemma params_rounds argv k : ∀ l m line argp argc, (length l < k)%nat →
  cstr m line l → fits l → 0 < line → owned m argv 1024 → argv + 1024 ≤ argp →
  (l ≠ [] → owned m argp (length l + 1)) →
  (line + length l + 1 ≤ argv ∨ argp + length l + 1 ≤ line) → 0 ≤ argc ≤ 256 →
  params_made argv m line l argp argc.
Proof.
  induction k as [|k IH]; [lia|]. intros l m line argp argc Hk Hl Hf H0 Ho1 Hap Ho2 Hd Hargc.
  destruct (decide (l = [])) as [->|Hne]; [apply params_stop; auto|].
  destruct (decide (argc = 256)) as [->|Hlt]; [apply params_stop; auto|].
  destruct (params_word m argv line l argp argc) as (m1 & E & Ht & Hw & Hc); try done; [auto|lia|].
  set (n := word_len false l) in *. pose proof (word_len_le false l) as Hn. fold n in Hn.
  assert (Hlen : length l = (n + length (drop n l))%nat) by (rewrite length_drop; lia).
  set (l' := tail (drop n l)).
  assert (Hl1 : cstr m1 line l).
  { eapply touches_cstr; [exact Ht| |exact Hl]. cbn. lia. }
  set (e := if drop n l is [] then 0 else 1) in *.
  assert (He : 0 ≤ e ∧ Z.of_nat (length l) = n + length l' + e ∧ cstr m1 (line + n + e) l' ∧ (e = 0 → l' = [])).
  { pose proof (cstr_drop m1 line l n Hl1 Hn) as Hd1. unfold e, l'. destruct (drop n l) as [|x r]; cbn [tail length] in *.
    - rewrite (Z.add_0_r (line + n)). split; [lia|]. split; [lia|done].
    - split; [lia|]. split; [lia|]. split; [by apply cstr_cons in Hd1 as (_ & _ & ?)|done]. }
  destruct He as (He0 & He1 & Hl2 & He2). clearbody e.
  assert (0 < length l)%nat by (destruct l; [done|cbn; lia]).
  destruct (IH l' m1 (line + n + e) (argp + n + 1) (argc + 1)) as (m2 & argp2 & N & HN & Hrun & Hb & Ht2 & Htab);
    [|done|unfold fits in *; lia|lia|by eapply touches_owned|lia| | |lia|].
  - destruct (decide (e = 0)) as [->|]; [rewrite He2 by done; cbn; lia|lia].
  - intros Hl'ne. assert (e ≠ 0) by (intros E0; by apply Hl'ne, He2).
    eapply touches_owned; [exact Ht|]. eapply owned_mono; [by apply Ho2|lia|lia].
  - destruct (decide (e = 0)) as [E0|]; [rewrite (He2 E0) in *; cbn [length] in *; lia|lia].
  - unfold params_made. exists m2, argp2, (S N). split; [|].
    { destruct (decide (e = 0)) as [E0|]; [rewrite (He2 E0) in *; cbn [length] in *; lia|lia]. }
    rewrite (boot_args_word l Hne). fold n l'.
    replace (Z.to_nat (256 - argc)) with (S (Z.to_nat (256 - (argc + 1)))) by lia.
    cbn [firstn]. cbv zeta in *. set (ws := take (Z.to_nat (256 - (argc + 1))) (boot_args l')) in *.
    assert (Hb2 : argp2 ≤ argp + length l + 1).
    { destruct l' as [|x r] eqn:El'; cbn [length] in *; [lia|].
      destruct (decide (e = 0)) as [E0|]; [discriminate (He2 E0)|lia]. }
    assert (Hws : (length ws ≤ Z.to_nat (256 - (argc + 1)))%nat) by (unfold ws; rewrite length_take; lia).
    split; [|split; [destruct l; [done|lia]|split]].
    + eapply runs_next; [exact E|]. cbn [length].
      by replace (argc + S (length ws)) with (argc + 1 + length ws) by lia.
    + eapply touches_trans; [eapply touches_mono; [exact Ht|]|eapply touches_mono; [exact Ht2|]]; cbn; lia.
    + intros [|i] w Hiw; cbn [lookup] in Hiw.
      * injection Hiw as <-. exists argp. rewrite Z.add_0_r.
        split; [eapply touches_word; [exact Ht2| |exact Hw]; cbn; lia|].
        split; [eapply touches_cstr; [exact Ht2| |exact Hc]; cbn; rewrite length_take; lia|].
        split; [lia|]. rewrite length_take. lia.
      * destruct (Htab i w Hiw) as (a & Ha & Hca & Hlo & Hhi). exists a.
        replace (argc + S i) with (argc + 1 + i) by lia. split; [done|]. split; [done|]. lia.
Qed.
End words.

(** ** The parameter block *)

Lemma align16 a : Z.land (a + 15) (Z.lnot 15) = (a + 15) / 16 * 16.
Proof.
  rewrite <- Z.ldiff_land. change 15 with (Z.ones 4) at 2. rewrite Z.ldiff_ones_r by lia.
  by rewrite Z.shiftl_mul_pow2, Z.shiftr_div_pow2 by lia.
Qed.

Definition mem_text : list Z := lit "mem=".
Definition mem_fmt : list fmt_item := map Lit mem_text ++ [Lu; Lit 77].

(** The word the code adds: the size of the memory in MB. *)
Definition mem_word (bd : board_info) : list Z := mem_text ++ dec (Z.shiftr (ram_size bd) 20) ++ [77].

(** The words the kernel gets. *)
Definition kernel_args (bd : board_info) (l : list Z) : list (list Z) :=
  take 255 (boot_args l) ++ (if find_sub mem_text l is Some _ then [] else [mem_word bd]).

Section params.
Context (pl : boot_places) (bd : board_info).
Implicit Types (m : mem) (l : list Z).

Lemma ram_mb : 0 ≤ ram_size bd < 4294967296 → 0 ≤ Z.shiftr (ram_size bd) 20 < 4096.
Proof. intros H. rewrite Z.shiftr_div_pow2 by lia. change (2 ^ 20) with 1048576. Z.div_mod_to_equations. lia. Qed.

Lemma mem_word_length : 0 ≤ ram_size bd < 4294967296 → (5 ≤ length (mem_word bd) ≤ 15)%nat.
Proof.
  intros H. pose proof (ram_mb H). unfold mem_word. rewrite !length_app.
  pose proof (dec_length (Z.shiftr (ram_size bd) 20) ltac:(lia)). change (length mem_text) with 4%nat.
  cbn [length]. lia.
Qed.

Lemma mem_word_chars : 0 ≤ ram_size bd < 4294967296 → Forall is_char (mem_word bd).
Proof.
  intros H. pose proof (ram_mb H). unfold mem_word. apply Forall_app. split; [by chars|].
  apply Forall_app. split; [apply dec_chars; lia|by chars].
Qed.

(** The place of the block and what must lie elsewhere; [l] is the command
    line at [line]. *)
Record params_room m (start line : Z) l : Prop := ParamsRoom {
  pr_line : cstr m line l;
  pr_fits : fits l;
  pr_pos : 0 < line;
  pr_start : 0 ≤ start;
  pr_block : owned m start (length l + 1100);
  pr_memstr : owned m (memstr pl) 32;
  pr_lit : cstr m (lit_mem pl) mem_text;
  pr_fmt : cstr m (fmt_mem pl) (fmt_text mem_fmt);
  pr_ram : 0 ≤ ram_size bd < 4294967296;
  pr_count : (length (boot_args l) < 255)%nat ∨ is_Some (find_sub mem_text l);
  pr_apart_line : line + length l + 1 ≤ start ∨ start + length l + 1100 ≤ line;
  pr_apart_memstr : memstr pl + 32 ≤ start ∨ start + length l + 1100 ≤ memstr pl;
  pr_apart_fmt : fmt_mem pl + 9 ≤ start ∨ start + length l + 1100 ≤ fmt_mem pl;
  pr_memstr_line : memstr pl + 32 ≤ line ∨ line + length l + 1 ≤ memstr pl;
  pr_memstr_lit : memstr pl + 32 ≤ lit_mem pl ∨ lit_mem pl + 5 ≤ memstr pl;
  pr_memstr_fmt : memstr pl + 32 ≤ fmt_mem pl ∨ fmt_mem pl + 9 ≤ memstr pl;
  pr_apart_lit : lit_mem pl + 5 ≤ start ∨ start + length l + 1100 ≤ lit_mem pl
}.

(** What the call leaves: the vector with word 0 empty, the words, and an
    empty environment behind them. *)
Definition params_done m (start : Z) (ws : list (list Z)) (hi : Z) (x : linux) : Prop :=
  linux_argc x = 1 + length ws ∧ linux_argv x = start ∧ word_at m start 0 ∧
  args_table m start (start + 1024) hi 1 ws ∧ start + 1024 ≤ hi ≤ linux_env x ∧ linux_env x ≤ hi + 15 ∧
  linux_env_p x = linux_env x + 1024 ∧ linux_env_idx x = 0 ∧ word_at m (linux_env x) 0.

(** The word with the size of the memory. *)
Lemma mem_arg m start line l m1 argp argc :
  params_room m start line l →
  touches (λ j, start ≤ j < argp ∨ memstr pl ≤ j < memstr pl + 32) m m1 →
  start + 1024 ≤ argp ≤ start + 1024 + length l + 1 → 1 ≤ argc < 256 →
  ∃ m2, (
    '(m, _) ← sprintf m1 (memstr pl) (fmt_mem pl) [Z.shiftr (ram_size bd) 20];
    n ← strlen m (memstr pl);
    m ← memcpy m argp (memstr pl) (n + 1);
    m ← st32 m (start + 4 * argc) argp;
    Some (m, argp + n + 1, argc + 1)) = Some (m2, argp + length (mem_word bd) + 1, argc + 1) ∧
    touches (λ j, start + 4 * argc ≤ j < start + 4 * argc + 4 ∨ argp ≤ j < argp + length (mem_word bd) + 1 ∨
      memstr pl ≤ j < memstr pl + 32) m1 m2 ∧
    word_at m2 (start + 4 * argc) argp ∧ cstr m2 argp (mem_word bd).
Proof.
  intros H Ht Hargp Hargc. pose proof H as [Hl Hf Hpos H0 Hb Hms Hlit Hfmt Hram _ D1 D2 D3 D4 D5 D6 D7].
  pose proof (mem_word_length Hram) as Hlen. set (v := Z.shiftr (ram_size bd) 20).
  pose proof (mem_word_chars Hram) as Hch. pose proof (ram_mb Hram) as Hv. fold v in Hv.
  assert (Hl1 : Z.of_nat (length (mem_word bd ++ [0])) = length (mem_word bd) + 1) by (rewrite length_app; cbn [length]; lia).
  assert (Eo : fmt_out mem_fmt [v] = mem_word bd) by (unfold mem_word; fold v; cbn; done).
  set (m1a := write_bytes m1 (memstr pl) (mem_word bd ++ [0])).
  assert (E1 : sprintf m1 (memstr pl) (fmt_mem pl) [v] = Some (m1a, length (mem_word bd) : Z)).
  { unfold sprintf, m1a. rewrite <- Eo. apply vsprintf_fmt.
    - eapply touches_cstr; [exact Ht| |exact Hfmt]. change (length (fmt_text mem_fmt)) with 8%nat. cbv beta. lia.
    - repeat constructor; unfold is_char; vm_compute; done.
    - unfold fits. cbn. lia.
    - cbn. unfold conv_ok. lia.
    - rewrite Eo. eapply touches_owned; [exact Ht|]. eapply owned_mono; [exact Hms|lia|lia].
    - rewrite Eo. change (length (fmt_text mem_fmt)) with 8%nat. lia. }
  assert (Hc1 : cstr m1a (memstr pl) (mem_word bd)) by (split; [done|apply write_bytes_in]).
  assert (Ht1 : touches (λ j, memstr pl ≤ j < memstr pl + 32) m1 m1a).
  { eapply touches_changed; [apply (changed_write (memstr pl) (memstr pl + 32))|]; rewrite ?Hl1; cbv beta; lia. }
  set (m1b := write_bytes m1a argp (mem_word bd ++ [0])).
  assert (Ho : owned m1a start (length l + 1100)) by (eapply touches_owned; [exact Ht1|]; by eapply touches_owned).
  assert (E2 : memcpy m1a argp (memstr pl) (length (mem_word bd) + 1) = Some m1b).
  { rewrite <- Hl1. apply memcpy_bytes.
    - apply Forall_app. split; [|by repeat constructor]. eapply Forall_impl; [|exact Hch]. apply char_byte.
    - apply Hc1.
    - rewrite Hl1. eapply owned_mono; [exact Ho|lia|lia].
    - unfold fits. rewrite Hl1. lia.
    - rewrite Hl1. lia. }
  assert (Ht2 : touches (λ j, argp ≤ j < argp + length (mem_word bd) + 1) m1a m1b).
  { eapply touches_changed; [apply (changed_write argp (argp + length (mem_word bd) + 1))|]; rewrite ?Hl1; cbv beta; lia. }
  destruct (st32_word m1b (start + 4 * argc) argp) as (m2 & E3 & Hw & Hc3).
  { eapply touches_owned; [exact Ht2|]. eapply owned_mono; [exact Ho|lia|lia]. }
  exists m2. rewrite E1, some_bind. rewrite (strlen_cstr _ _ _ Hc1) by (unfold fits; lia).
  rewrite some_bind, E2, some_bind, E3, some_bind. split; [done|]. split; [|split; [done|]].
  - eapply touches_trans; [eapply touches_mono; [exact Ht1|]|
      eapply touches_trans; [eapply touches_mono; [exact Ht2|]|eapply touches_changed; [exact Hc3|]]]; cbv beta; lia.
  - eapply changed_cstr; [exact Hc3|lia|]. split; [done|apply write_bytes_in].
Qed.

Lemma params_words m start line l :
  params_room m start line l →
  ∃ m1 m2 m3 argp, let ws := take 255 (boot_args l) in
    st32 m start 0 = Some m1 ∧ strstr m1 line (lit_mem pl) = Some (ptr_of line (find_sub mem_text l)) ∧
    st m1 (memstr pl) (if negb (ptr_of line (find_sub mem_text l) =? NULL) then 0 else 1) = Some m2 ∧
    while (params_round start) (m2, line, start + 4 * LINUX_MAX_ARGS, 1) = Some (m3, argp, 1 + length ws) ∧
    start + 1024 ≤ argp ≤ start + 1024 + length l + 1 ∧
    touches (λ j, start ≤ j < argp ∨ memstr pl ≤ j < memstr pl + 32) m m3 ∧
    m3 !! memstr pl = Some (if find_sub mem_text l is Some _ then 0 else 1) ∧
    word_at m3 start 0 ∧ args_table m3 start (start + 1024) argp 1 ws.
Proof.
  intros H. pose proof H as [Hl Hf Hpos H0 Hb Hms Hlit Hfmt Hram _ D1 D2 D3 D4 D5 D6 D7].
  destruct (st32_word m start 0) as (m1 & E1 & Hw1 & Hc1).
  { eapply owned_mono; [exact Hb|lia|lia]. }
  assert (Hl1 : cstr m1 line l) by (eapply changed_cstr; [exact Hc1|lia|done]).
  assert (Hlit1 : cstr m1 (lit_mem pl) mem_text).
  { eapply changed_cstr; [exact Hc1| |done]. change (length mem_text) with 4%nat. lia. }
  set (c := if find_sub mem_text l is Some _ then 0 else 1).
  assert (Hc : (if negb (ptr_of line (find_sub mem_text l) =? NULL) then 0 else 1) = c).
  { unfold c. destruct (find_sub mem_text l) as [i|]; cbn [ptr_of]; [unfold NULL; by zbool|done]. }
  destruct (changed_st (memstr pl) (memstr pl + 32) m1 (memstr pl) c) as (m2 & E2 & Em2 & Hc2); [|lia|].
  { eapply owned_at; [eapply changed_owned; [exact Hc1|exact Hms]|lia]. }
  assert (Hl2 : cstr m2 line l) by (eapply changed_cstr; [exact Hc2|lia|done]).
  assert (Hb2 : owned m2 start (length l + 1100)) by (eapply changed_owned; [exact Hc2|]; by eapply changed_owned).
  destruct (params_rounds start (S (length l)) l m2 line (start + 1024) 1) as (m3 & argp & N & HN & Hrun & Hargp & Ht & Htab);
    try done; try lia.
  - eapply owned_mono; [exact Hb2|lia|lia].
  - intros _. eapply owned_mono; [exact Hb2|lia|lia].
  - change (Z.to_nat (256 - 1)) with 255%nat in *. exists m1, m2, m3, argp. cbv zeta in *.
    assert (Hargp' : argp ≤ start + 1024 + length l + 1) by (destruct l; lia).
    split; [done|]. split; [by apply strstr_cstr|]. split; [by rewrite Hc|].
    split; [apply (while_within _ _ (S (length l))); [unfold fits in Hf; lia|by exists N]|].
    split; [lia|]. split; [|split; [|split; [|done]]].
    + eapply touches_trans; [eapply touches_changed; [exact Hc1|]|eapply touches_trans;
        [eapply touches_changed; [exact Hc2|]|eapply touches_mono; [exact Ht|]]]; cbv beta; lia.
    + destruct Ht as [Hs _]. rewrite Hs by lia. rewrite Em2, lookup_insert_eq. unfold c. by destruct (find_sub mem_text l).
    + eapply touches_word; [exact Ht|cbv beta; lia|]. eapply changed_word; [exact Hc2|lia|done].
Qed.

Lemma linux_params_init_done m start line l :
  params_room m start line l →
  ∃ m' x hi, linux_params_init pl bd m start line = Some (m', x) ∧ params_done m' start (kernel_args bd l) hi x ∧
    hi ≤ start + length l + 1041 ∧
    touches (λ j, start ≤ j < linux_env x + 4 ∨ memstr pl ≤ j < memstr pl + 32) m m'.
Proof.
  intros H. pose proof H as [Hl Hf Hpos H0 Hb Hms Hlit Hfmt Hram Hcount D1 D2 D3 D4 D5 D6 D7].
  destruct (params_words m start line l H) as (m1 & m2 & m3 & argp & E1 & E2 & E3 & E4 & Hargp & Ht & Hflag & Hw & Htab).
  unfold linux_params_init. rewrite E1, some_bind, E2, some_bind, E3, some_bind, E4, some_bind.
  rewrite (ld_bind _ _ _ _ Hflag).
  set (ws := take 255 (boot_args l)) in *.
  assert (G : ∃ m4 argp4 argc4, (if negb ((if find_sub mem_text l is Some _ then 0 else 1) =? 0) then
      '(m, _) ← sprintf m3 (memstr pl) (fmt_mem pl) [Z.shiftr (ram_size bd) 20];
      n ← strlen m (memstr pl);
      m ← memcpy m argp (memstr pl) (n + 1);
      m ← st32 m (start + 4 * (1 + length ws)) argp;
      Some (m, argp + n + 1, 1 + length ws + 1)
    else Some (m3, argp, 1 + length ws)) = Some (m4, argp4, argc4) ∧
    argc4 = 1 + length (kernel_args bd l) ∧ argc4 ≤ 256 ∧ start + 1024 ≤ argp4 ≤ start + length l + 1041 ∧
    touches (λ j, start ≤ j < argp4 ∨ memstr pl ≤ j < memstr pl + 32) m m4 ∧
    word_at m4 start 0 ∧ args_table m4 start (start + 1024) argp4 1 (kernel_args bd l)).
  { unfold kernel_args. fold ws. destruct (find_sub mem_text l) eqn:Ef.
    - change (negb (0 =? 0)) with false. cbv iota. exists m3, argp, (1 + length ws). rewrite app_nil_r.
      split; [done|]. split; [done|]. split; [unfold ws; rewrite length_take; lia|]. split; [lia|done].
    - change (negb (1 =? 0)) with true. cbv iota.
      assert (Hlt : (length ws < 255)%nat).
      { unfold ws. rewrite length_take. destruct Hcount as [?|[? ?]]; [lia|done]. }
      destruct (mem_arg m start line l m3 argp (1 + length ws) H Ht ltac:(lia) ltac:(lia)) as (m4 & -> & Ht4 & Hw4 & Hc4).
      pose proof (mem_word_length Hram) as Hlen.
      exists m4, (argp + length (mem_word bd) + 1), (1 + length ws + 1). split; [done|].
      rewrite length_app. cbn [length]. split; [lia|]. split; [lia|]. split; [lia|]. split; [|split].
      + eapply touches_trans; [eapply touches_mono; [exact Ht|]|eapply touches_mono; [exact Ht4|]]; cbv beta; lia.
      + eapply touches_word; [exact Ht4|cbv beta; lia|done].
      + assert (Htab' : args_table m4 start (start + 1024) argp 1 ws).
        { eapply args_table_touches; [exact Htab|exact Ht4| |]; cbv beta; lia. }
        intros i w Hi. destruct (decide (i < length ws)%nat) as [Hi'|Hi'].
        * rewrite lookup_app_l in Hi by done.
          destruct (Htab' i w Hi) as (a & Ha & Hca & ? & ?). exists a. split; [done|]. split; [done|lia].
        * assert (i = length ws) as ->.
          { apply lookup_lt_Some in Hi. rewrite length_app in Hi. cbn [length] in Hi. lia. }
          rewrite list_lookup_middle in Hi by done. injection Hi as <-.
          exists argp. split; [done|]. split; [done|lia]. }
  destruct G as (m4 & argp4 & argc4 & -> & Eargc & Hmax & Hargp4 & Ht4 & Hw4 & Htab4). rewrite some_bind.
  set (env := Z.land _ _). assert (Henv : argp4 ≤ env ≤ argp4 + 15).
  { unfold env. rewrite align16. pose proof (Z.div_mod (argp4 + 15) 16). pose proof (Z.mod_pos_bound (argp4 + 15) 16). lia. }
  clearbody env. destruct (st32_word m4 env 0) as (m5 & -> & Hw5 & Hc5).
  { eapply touches_owned; [exact Ht4|]. eapply owned_mono; [exact Hb|lia|lia]. }
  rewrite some_bind. do 3 eexists. split; [reflexivity|]. split; [|split; [|]].
  - split; [exact Eargc|]. split; [done|]. split; [eapply changed_word; [exact Hc5|lia|done]|].
    split.
    + eapply (args_table_touches (λ j, env ≤ j < env + 4)); [exact Htab4|by eapply touches_changed|..]; cbv beta; lia.
    + cbn [linux_env linux_env_p linux_env_idx]. unfold LINUX_MAX_ENVS.
      split; [lia|]. split; [lia|]. split; [lia|]. split; [lia|done].
  - lia.
  - cbn [linux_env]. eapply touches_trans; [eapply touches_mono; [exact Ht4|]|eapply touches_changed; [exact Hc5|]]; cbv beta; lia.
Qed.
End params.
