(* ===== verification/Booting.v ===== *)
(** * From the image to the kernel

    What [do_bootm] of [Bootm] does with an image: it ends in a reset or in
    the kernel, as [lzma_inflate] answers, with the argument vector made from
    [bootargs] and the environment of five variables. *)

From S2P Require Import Prelude.
From S2P Require Import CString.
From S2P Require Import Vsprintf.
From S2P Require Import Env.
From S2P Require Import Inflate.
From S2P Require Import Bootm.

(** ** The environment *)

Section environment.
Context (pl : boot_places).
Implicit Types (m : mem) (x : linux).

(** The entries [es] in the block at [E]. *)
Definition env_state m x (E : Z) (es : list (list Z)) : Prop :=
  linux_env x = E ∧ linux_env_idx x = length es ∧ E + 1024 ≤ linux_env_p x ∧
  args_table m E (E + 1024) (linux_env_p x) 0 es ∧ word_at m (E + 4 * length es) 0.

(** Three strings one behind the other make one. *)
Lemma strcpy_three m p a n b k c v :
  cstr m a n → cstr m b k → cstr m c v → owned m p (length n + length k + length v + 1) →
  fits n → fits k → fits v → (0 < length k)%nat →
  apart (p, length n + length k + length v + 1) (a, length n + 1) →
  apart (p, length n + length k + length v + 1) (b, length k + 1) →
  apart (p, length n + length k + length v + 1) (c, length v + 1) →
  ∃ m1 m2 m3, strcpy m p a = Some m1 ∧ strcpy m1 (p + length n) b = Some m2 ∧
    strcpy m2 (p + length n + length k) c = Some m3 ∧ cstr m3 p (n ++ k ++ v) ∧
    changed p (p + length n + length k + length v + 1) m m1 ∧
    changed p (p + length n + length k + length v + 1) m m2 ∧
    changed p (p + length n + length k + length v + 1) m m3.
Proof.
  unfold apart. cbn [fst snd]. intros Ha Hb Hc Ho Fn Fk Fv Hk A1 A2 A3.
  assert (Hlen : ∀ l : list Z, Z.of_nat (length (l ++ [0])) = length l + 1) by (intros l; rewrite length_app; cbn; lia).
  set (m1 := write_bytes m p (n ++ [0])). set (m2 := write_bytes m1 (p + length n) (k ++ [0])).
  set (m3 := write_bytes m2 (p + length n + length k) (v ++ [0])).
  set (hi := p + length n + length k + length v + 1).
  assert (C1 : changed p hi m m1) by (apply changed_write; rewrite ?Hlen; lia).
  assert (C12 : changed p hi m1 m2) by (apply changed_write; rewrite ?Hlen; lia).
  assert (C23 : changed p hi m2 m3) by (apply changed_write; rewrite ?Hlen; lia).
  pose proof (changed_trans _ _ _ _ _ C1 C12) as C2. pose proof (changed_trans _ _ _ _ _ C2 C23) as C3.
  exists m1, m2, m3. split; [|split; [|split; [|split; [|done]]]].
  - apply strcpy_cstr; [done| |done|lia]. eapply owned_mono; [exact Ho|lia|lia].
  - apply strcpy_cstr; [by eapply changed_cstr; [exact C1|lia|]| |done|lia].
    eapply changed_owned; [exact C1|]. eapply owned_mono; [exact Ho|lia|lia].
  - apply strcpy_cstr; [by eapply changed_cstr; [exact C2|lia|]| |done|lia].
    eapply changed_owned; [exact C2|]. eapply owned_mono; [exact Ho|lia|lia].
  - split.
    + apply Forall_app. split; [apply Ha|]. apply Forall_app. split; [apply Hb|apply Hc].
    + rewrite <- !app_assoc. apply bytes_at_app. split.
      * unfold m3. apply bytes_at_write_disjoint; [lia|]. unfold m2. apply bytes_at_write_disjoint; [lia|].
        pose proof (write_bytes_in m p (n ++ [0])) as Hw. by apply bytes_at_app in Hw as [? _].
      * apply bytes_at_app. split.
        -- unfold m3. apply bytes_at_write_disjoint; [lia|].
           pose proof (write_bytes_in m1 (p + length n) (k ++ [0])) as Hw. by apply bytes_at_app in Hw as [? _].
        -- unfold m3. apply write_bytes_in.
Qed.

Lemma linux_env_set_entry m x E es name n val v :
  env_state m x E es → (length es < 100)%nat → cstr m name n → cstr m val v → cstr m (lit_equals pl) [61] →
  fits n → fits v →
  let size := linux_env_p x - E + length n + length v + 2 in
  owned m E size → apart (E, size) (name, length n + 1) → apart (E, size) (val, length v + 1) →
  apart (E, size) (lit_equals pl, 2) →
  ∃ m' x', linux_env_set pl m x name val = Some (m', x') ∧ env_state m' x' E (es ++ [n ++ 61 :: v]) ∧
    linux_argc x' = linux_argc x ∧ linux_argv x' = linux_argv x ∧ linux_env_p x' = E + size ∧
    changed E (E + size) m m'.
Proof.
  unfold apart. cbn [fst snd]. intros (EE & Ei & Ep & Htab & Hend) Hn Hname Hval Heq Fn Fv Ho A1 A2 A3.
  set (size := linux_env_p x - E + length n + length v + 2) in *. set (p := linux_env_p x) in *.
  unfold linux_env_set. rewrite EE, Ei. fold p. unfold LINUX_MAX_ENVS. zbool.
  destruct (st32_word m (E + 4 * length es) p) as (m1 & -> & Hw1 & C1).
  { eapply owned_mono; [exact Ho|lia|lia]. }
  rewrite some_bind.
  destruct (strcpy_three m1 p name n (lit_equals pl) [61] val v) as (m2 & m3 & m4 & E2 & E3 & E4 & Hc & C2 & C3 & C4);
    try done; unfold apart; cbn [fst snd length]; try lia.
  - eapply changed_cstr; [exact C1|lia|done].
  - eapply changed_cstr; [exact C1|cbn [length]; lia|done].
  - eapply changed_cstr; [exact C1|lia|done].
  - eapply changed_owned; [exact C1|]. eapply owned_mono; [exact Ho|lia|lia].
  - cbn [length] in *. rewrite E2, some_bind.
    assert (Hname2 : cstr m2 name n).
    { eapply changed_cstr; [exact C2|lia|]. eapply changed_cstr; [exact C1|lia|done]. }
    rewrite (strlen_cstr _ _ _ Hname2) by done. rewrite some_bind, E3, some_bind.
    replace (p + length n + 1%nat) with (p + length n + 1) in * by lia. rewrite E4, some_bind.
    assert (Hval4 : cstr m4 val v).
    { eapply changed_cstr; [exact C4|lia|]. eapply changed_cstr; [exact C1|lia|done]. }
    rewrite (strlen_cstr _ _ _ Hval4) by done. rewrite some_bind.
    destruct (st32_word m4 (E + 4 * (length es + 1)) 0) as (m5 & -> & Hw5 & C5).
    { eapply changed_owned; [exact C4|]. eapply changed_owned; [exact C1|]. eapply owned_mono; [exact Ho|lia|lia]. }
    rewrite some_bind. do 2 eexists. split; [reflexivity|].
    assert (C : touches (λ j, E + 4 * length es ≤ j < E + 4 * length es + 8 ∨ p ≤ j < E + size) m m5).
    { eapply touches_trans; [eapply touches_changed; [exact C1|]|eapply touches_trans;
        [eapply touches_changed; [exact C4|]|eapply touches_changed; [exact C5|]]]; cbv beta; lia. }
    split; [|split; [done|split; [done|split; [cbn [linux_env_p]; lia|]]]].
    + unfold env_state. cbn [linux_env linux_env_idx linux_env_p]. rewrite length_app. cbn [length].
      split; [done|]. split; [lia|]. split; [lia|]. split.
      * intros i w Hi. destruct (decide (i < length es)%nat) as [Hlt|Hge].
        -- rewrite lookup_app_l in Hi by done.
           assert (Htab' : args_table m5 E (E + 1024) p 0 es).
           { eapply args_table_touches; [exact Htab|exact C| |]; cbv beta; lia. }
           destruct (Htab' i w Hi) as (a & ? & ? & ? & ?). exists a. split; [done|]. split; [done|lia].
        -- assert (i = length es) as ->.
           { apply lookup_lt_Some in Hi. rewrite length_app in Hi. cbn [length] in Hi. lia. }
           rewrite list_lookup_middle in Hi by done. injection Hi as <-. exists p. split; [|split; [|split; [lia|]]].
           ++ eapply changed_word; [exact C5|lia|]. eapply changed_word; [exact C4|lia|].
              by replace (E + 4 * (0 + length es)) with (E + 4 * length es) by lia.
           ++ eapply changed_cstr; [exact C5| |exact Hc]. rewrite !length_app. cbn [length]. lia.
           ++ rewrite length_app. cbn [length]. lia.
      * by replace (E + 4 * (length es + 1)%nat) with (E + 4 * (length es + 1)) by lia.
    + destruct C as [Cs Ck]. split; [|done]. intros j Hj. apply Cs. lia.
Qed.
End environment.

(** ** [do_bootm_linux] *)

Definition lu_fmt : list fmt_item := [Lu].
Definition hex8_fmt : list fmt_item := map Lit (lit "0x") ++ [Hex8].
Definition hex_fmt : list fmt_item := map Lit (lit "0x") ++ [Hex].

(** The entries of the environment. *)
Definition env_entry (name : list Z) (f : list fmt_item) (v : Z) : list Z := name ++ 61 :: fmt_out f [v].

Definition kernel_env (bd : board_info) : list (list Z) := [
  env_entry (lit "memsize") lu_fmt (ram_size bd);
  env_entry (lit "initrd_start") hex8_fmt (UNCACHED_SDRAM 0);
  env_entry (lit "initrd_size") hex_fmt 0;
  env_entry (lit "flash_start") hex8_fmt (bi_flashstart bd);
  env_entry (lit "flash_size") hex_fmt (bi_flashsize bd)].

Section linux.
Context (pl : boot_places) (bd : board_info).
Implicit Types (m : mem) (x : linux) (l : list Z).

(** The areas the code writes: the block at [start] for a command line of [n]
    characters, and two buffers. *)
Definition linux_areas (start n : Z) : list (Z * Z) := [(start, n + 2200); (memstr pl, 32); (env_buf pl, 12)].

(** The strings it reads. *)
Definition linux_consts : list (Z * list Z) := [
  (lit_mem pl, mem_text); (fmt_mem pl, fmt_text mem_fmt); (fmt_lu pl, fmt_text lu_fmt);
  (fmt_08X pl, fmt_text hex8_fmt); (fmt_X pl, fmt_text hex_fmt); (lit_equals pl, [61]);
  (lit_memsize pl, lit "memsize"); (lit_initrd_start pl, lit "initrd_start");
  (lit_initrd_size pl, lit "initrd_size"); (lit_flash_start pl, lit "flash_start");
  (lit_flash_size pl, lit "flash_size")].

(** A string that the writes to [areas] leave alone. *)
Definition placed m (areas : list (Z * Z)) (c : Z * list Z) : Prop :=
  cstr m c.1 c.2 ∧ Forall (apart (c.1, length c.2 + 1)) areas.

Lemma placed_touches m m' areas c : touches (inside areas) m m' → placed m areas c → placed m' areas c.
Proof. intros Ht [Hc Ha]. split; [|done]. by eapply cstr_areas. Qed.

Lemma hex_formats f v : In f [lu_fmt; hex8_fmt; hex_fmt] → 0 ≤ v < 4294967296 →
  Forall lit_ok f ∧ fmt_ok f [v] ∧ fits (fmt_text f) ∧ (length (fmt_out f [v]) ≤ 10)%nat ∧
  Forall is_char (fmt_out f [v]).
Proof.
  intros Hf Hv. pose proof (dec_length v Hv) as Hd. pose proof (hex_length v Hv) as Hh.
  pose proof (num_text_chars false 10 v ltac:(lia) Hv) as Cd. pose proof (num_text_chars true 16 v ltac:(lia) Hv) as Ch.
  fold (dec v) in Cd. fold (hex v) in Ch.
  destruct Hf as [<-|[<-|[<-|[]]]]; (split; [repeat constructor; unfold is_char; vm_compute; done|]);
    (split; [by cbn; unfold conv_ok|]); (split; [done|]).
  - cbn [fmt_out lu_fmt conv_out]. rewrite app_nil_r. split; [lia|done].
  - change (fmt_out hex8_fmt [v]) with (48 :: 120 :: (replicate (8 - length (hex v)) 48 ++ hex v) ++ []).
    rewrite app_nil_r. cbn [length]. rewrite length_app, length_replicate. split; [lia|].
    constructor; [by chars|]. constructor; [by chars|]. apply Forall_app. split; [|done].
    apply Forall_replicate. unfold is_char. lia.
  - change (fmt_out hex_fmt [v]) with (48 :: 120 :: hex v ++ []). rewrite app_nil_r. cbn [length]. split; [lia|].
    constructor; [by chars|]. by constructor; [chars|].
Qed.

Lemma env_number_entry m x start n E es fmt f name nm v :
  Forall (placed m (linux_areas start n)) linux_consts →
  apart (start, n + 2200) (env_buf pl, 12) → owned m start (n + 2200) → owned m (env_buf pl) 12 →
  env_state m x E es → (length es < 100)%nat → start ≤ E →
  In (fmt, fmt_text f) linux_consts → In (name, nm) linux_consts → In f [lu_fmt; hex8_fmt; hex_fmt] →
  (length nm ≤ 12)%nat → 0 ≤ v < 4294967296 → linux_env_p x + 24 ≤ start + n + 2200 →
  ∃ m' x', env_number pl m x fmt name v = Some (m', x') ∧ env_state m' x' E (es ++ [env_entry nm f v]) ∧
    linux_argc x' = linux_argc x ∧ linux_argv x' = linux_argv x ∧
    linux_env_p x' ≤ linux_env_p x + 24 ∧
    touches (λ j, E ≤ j < start + n + 2200 ∨ env_buf pl ≤ j < env_buf pl + 12) m m'.
Proof.
  intros Hp Hap Ho1 Ho2 Hes Hlen HE Hfmt Hname Hf Hnm Hv Hroom. rewrite List.Forall_forall in Hp.
  destruct (Hp _ Hfmt) as [Hfc Hfa]. destruct (Hp _ Hname) as [Hnc Hna].
  destruct (Hp (lit_equals pl, [61])) as [Hec Hea]; [cbn; tauto|].
  destruct (hex_formats f v Hf Hv) as (Hlit & Hok & Hfit & Hout & Hch).
  unfold apart in *. cbn [fst snd] in *.
  assert (Hfa3 := Forall_inv (Forall_inv_tail (Forall_inv_tail Hfa))). assert (Hna3 := Forall_inv (Forall_inv_tail (Forall_inv_tail Hna))).
  assert (Hea3 := Forall_inv (Forall_inv_tail (Forall_inv_tail Hea))).
  apply Forall_inv in Hfa, Hna, Hea. cbn [fst snd length] in *.
  set (t := fmt_out f [v]) in *. set (m1 := write_bytes m (env_buf pl) (t ++ [0])).
  assert (E1 : sprintf m (env_buf pl) fmt [v] = Some (m1, length t : Z)).
  { apply vsprintf_fmt; try done; fold t; [eapply owned_mono; [exact Ho2|lia|lia]|lia]. }
  assert (C1 : changed (env_buf pl) (env_buf pl + 12) m m1).
  { apply changed_write; [lia|]. rewrite length_app. cbn [length]. lia. }
  pose proof Hes as (EE & Ei & Ep & Htab & Hend).
  destruct (linux_env_set_entry pl m1 x E es name nm (env_buf pl) t) as (m2 & x2 & E2 & Hes2 & A1 & A2 & A3 & C2);
    unfold apart; cbn [fst snd]; try done; try lia.
  - split; [done|]. split; [done|]. split; [done|]. split; [|eapply changed_word; [exact C1|lia|done]].
    eapply (args_table_touches (λ j, env_buf pl ≤ j < env_buf pl + 12)); [exact Htab|by eapply touches_changed|..];
      cbv beta; lia.
  - eapply changed_cstr; [exact C1|lia|done].
  - split; [done|apply write_bytes_in].
  - eapply changed_cstr; [exact C1|cbn [length]; lia|done].
  - unfold fits. lia.
  - unfold fits. lia.
  - eapply changed_owned; [exact C1|]. eapply owned_mono; [exact Ho1|lia|lia].
  - exists m2, x2. unfold env_number. rewrite E1, some_bind. split; [done|]. split; [done|]. split; [done|]. split; [done|].
    split; [lia|]. eapply touches_trans; [eapply touches_changed; [exact C1|]|eapply touches_changed; [exact C2|]]; cbv beta; lia.
Qed.

(** What [do_bootm_linux] finds: the line [l] of [bootargs] at [line], and the
    block at [start]. *)
Record linux_room m (start line : Z) l : Prop := LinuxRoom {
  lr_consts : Forall (placed m (linux_areas start (length l))) ((line, l) :: linux_consts);
  lr_apart : ForallOrdPairs apart (linux_areas start (length l));
  lr_owned : Forall (λ a, owned m a.1 a.2) (linux_areas start (length l));
  lr_fits : fits l;
  lr_pos : 0 < line ∧ 0 ≤ start;
  lr_ram : 0 ≤ ram_size bd < 4294967296;
  lr_flash : 0 ≤ bi_flashstart bd < 4294967296 ∧ 0 ≤ bi_flashsize bd < 4294967296;
  lr_count : (length (boot_args l) < 255)%nat ∨ is_Some (find_sub mem_text l)
}.

Lemma linux_areas_apart start n : ForallOrdPairs apart (linux_areas start n) →
  apart (start, n + 2200) (memstr pl, 32) ∧ apart (start, n + 2200) (env_buf pl, 12).
Proof.
  intros H. inversion H as [|? ? H1 _]; subst. split; [by apply Forall_inv in H1|].
  by apply Forall_inv_tail, Forall_inv in H1.
Qed.

Lemma linux_room_params m start line l : linux_room m start line l → params_room pl bd m start line l.
Proof.
  intros [Hc Hap Ho Hf [Hp1 Hp2] Hram _ Hcount]. destruct (linux_areas_apart _ _ Hap) as [A1 _].
  apply Forall_cons_iff in Hc as [[Hl Hla] Hc]. pose proof (proj1 (List.Forall_forall _ _) Hc) as Hc'.
  destruct (Hc' (lit_mem pl, mem_text)) as [H1 H1a]; [cbn; tauto|].
  destruct (Hc' (fmt_mem pl, fmt_text mem_fmt)) as [H2 H2a]; [cbn; tauto|]. clear Hc Hc'.
  apply Forall_cons_iff in Hla as [La Hla]. apply Forall_inv in Hla as Lb.
  apply Forall_cons_iff in H1a as [Ma H1a]. apply Forall_inv in H1a as Mb.
  apply Forall_cons_iff in H2a as [Na H2a]. apply Forall_inv in H2a as Nb.
  apply Forall_cons_iff in Ho as [Ho1 Ho]. apply Forall_inv in Ho as Ho2.
  unfold apart in *. cbn [fst snd] in *. change (Z.of_nat (length mem_text)) with 4 in *.
  change (Z.of_nat (length (fmt_text mem_fmt))) with 8 in *.
  split; try done; try lia. eapply owned_mono; [exact Ho1|lia|lia].
Qed.

(** What the kernel finds: the vector of words at [start] and, behind it, the
    environment at [E]. *)
Definition kernel_ready m (start E : Z) l : Prop :=
  word_at m start 0 ∧
  (∃ hi, hi ≤ E ∧ args_table m start (start + 1024) hi 1 (kernel_args bd l)) ∧
  ∃ hi, args_table m E (E + 1024) hi 0 (kernel_env bd) ∧ word_at m (E + 20) 0.

(** The state between the lines that set variables. *)
Definition env_inv m0 (start E : Z) l (es : list (list Z)) m x : Prop :=
  touches (inside (linux_areas start (length l))) m0 m ∧ env_state m x E es ∧
  linux_argc x = 1 + length (kernel_args bd l) ∧ linux_argv x = start ∧
  linux_env_p x ≤ E + 1024 + 24 * length es ∧ word_at m start 0 ∧
  ∃ hi, hi ≤ E ∧ args_table m start (start + 1024) hi 1 (kernel_args bd l).

Lemma kernel_args_length l : (length (boot_args l) < 255)%nat ∨ is_Some (find_sub mem_text l) →
  (length (kernel_args bd l) ≤ 255)%nat.
Proof.
  intros H. unfold kernel_args. rewrite length_app, length_take. destruct (find_sub mem_text l); cbn [length]; [lia|].
  destruct H as [H|[? ?]]; [lia|done].
Qed.

Lemma env_inv_step m0 start line l E es m x fmt f name nm v :
  linux_room m0 start line l → start + 1024 ≤ E ≤ start + length l + 1056 →
  env_inv m0 start E l es m x → (length es < 5)%nat →
  In (fmt, fmt_text f) linux_consts → In (name, nm) linux_consts → In f [lu_fmt; hex8_fmt; hex_fmt] →
  (length nm ≤ 12)%nat → 0 ≤ v < 4294967296 →
  ∃ m' x', env_number pl m x fmt name v = Some (m', x') ∧ env_inv m0 start E l (es ++ [env_entry nm f v]) m' x'.
Proof.
  intros Hroom HE (Ht & Hes & Ea & Ev & Hp & Hw & hi & Hhi & Htab) Hlen Hfmt Hname Hf Hnm Hv.
  destruct Hroom as [Hc Hap Ho Hfit Hpos Hram Hfl Hcount]. destruct (linux_areas_apart _ _ Hap) as [_ A2].
  apply Forall_cons_iff in Hc as [_ Hc]. apply Forall_cons_iff in Ho as [Ho1 Ho].
  apply Forall_cons_iff in Ho as [_ Ho]. apply Forall_inv in Ho as Ho2.
  destruct (env_number_entry m x start (length l) E es fmt f name nm v) as (m' & x' & E1 & Hes' & B1 & B2 & B3 & Ht');
    try done; try lia.
  - eapply Forall_impl; [|exact Hc]. intros c. by apply placed_touches.
  - by eapply touches_owned.
  - by eapply touches_owned.
  - exists m', x'. split; [done|]. split; [|split; [done|split; [lia|split; [lia|split; [|split]]]]].
    + eapply touches_trans; [exact Ht|]. eapply touches_mono; [exact Ht'|]. cbv beta. intros j [Hj|Hj].
      * apply Exists_cons_hd. cbn. lia.
      * do 2 apply Exists_cons_tl. apply Exists_cons_hd. cbn. lia.
    + rewrite length_app. cbn [length]. lia.
    + eapply touches_word; [exact Ht'| |done]. unfold apart in A2. cbn in A2. cbv beta. lia.
    + exists hi. split; [done|]. eapply args_table_touches; [exact Htab|exact Ht'| |]; cbv beta; unfold apart in A2; cbn [fst snd] in A2;
        [lia|]. pose proof (kernel_args_length l Hcount). lia.
Qed.

Lemma do_bootm_linux_starts m e argc argv len_ptr verify line l entry :
  let start := UNCACHED_SDRAM (bi_boot_params bd) in
  linux_room m start line l → argc < 3 → getenv e m (lit_bootargs pl) = Some line →
  ld32 m (header pl + ih_ep) = Some entry → m !! (header pl + ih_type) = Some IH_TYPE_KERNEL →
  ∃ m' E, do_bootm_linux pl bd m e argc argv len_ptr verify =
    Some (Kernel entry (1 + length (kernel_args bd l)) start (ram_size bd) (bi_flashsize bd / (1024 * 1024)) m') ∧
    kernel_ready m' start E l ∧ touches (inside (linux_areas start (length l))) m m'.
Proof.
  intros start Hroom Hargc Henv Hep Hty. pose proof (linux_room_params _ _ _ _ Hroom) as Hpr.
  pose proof Hroom as [_ _ _ _ _ Hram [Hfs Hfz] _].
  unfold do_bootm_linux. rewrite Henv, some_bind, Hep, some_bind. c_step. zbool.
  change (IH_TYPE_KERNEL =? IH_TYPE_MULTI) with false. cbv iota. rewrite !some_bind. change (negb (0 =? 0)) with false.
  cbv iota. fold start.
  destruct (linux_params_init_done pl bd m start line l Hpr) as (m1 & x1 & hi & -> & Hdone & Hhi & Ht).
  destruct Hdone as (Ha & Hv & Hw & Htab & Hb & HE & Hp & Hi & Hend). rewrite some_bind.
  set (E := linux_env x1) in *.
  assert (I0 : env_inv m start E l [] m1 x1).
  { split; [|split; [|split; [done|split; [done|split; [cbn [length]; lia|split; [done|]]]]]].
    - eapply touches_mono; [exact Ht|]. cbv beta. intros j [Hj|Hj]; [apply Exists_cons_hd; cbn; lia|].
      apply Exists_cons_tl, Exists_cons_hd. cbn. lia.
    - split; [done|]. split; [done|]. split; [lia|]. split; [by intros i w Hw'|].
      cbn [length]. by rewrite Z.mul_0_r, Z.add_0_r.
    - exists hi. split; [lia|done]. }
  assert (HE2 : start + 1024 ≤ E ≤ start + length l + 1056) by lia.
  destruct (env_inv_step m start line l E _ m1 x1 (fmt_lu pl) lu_fmt (lit_memsize pl) (lit "memsize") (ram_size bd) Hroom HE2 I0)
    as (m2 & x2 & -> & I1); try done; try (cbn; tauto); try (cbn; lia).
  rewrite some_bind. clear I0.
  destruct (env_inv_step m start line l E _ m2 x2 (fmt_08X pl) hex8_fmt (lit_initrd_start pl) (lit "initrd_start") (UNCACHED_SDRAM 0) Hroom HE2 I1)
    as (m3 & x3 & -> & I2); try done; try (cbn; tauto); try (cbn; lia).
  rewrite some_bind. clear I1.
  destruct (env_inv_step m start line l E _ m3 x3 (fmt_X pl) hex_fmt (lit_initrd_size pl) (lit "initrd_size") (u32 (0 - 0)) Hroom HE2 I2)
    as (m4 & x4 & -> & I3); try done; try (cbn; tauto); try (cbn; lia).
  rewrite some_bind. clear I2.
  destruct (env_inv_step m start line l E _ m4 x4 (fmt_08X pl) hex8_fmt (lit_flash_start pl) (lit "flash_start") (bi_flashstart bd) Hroom HE2 I3)
    as (m5 & x5 & -> & I4); try done; try (cbn; tauto); try (cbn; lia).
  rewrite some_bind. clear I3.
  destruct (env_inv_step m start line l E _ m5 x5 (fmt_X pl) hex_fmt (lit_flash_size pl) (lit "flash_size") (bi_flashsize bd) Hroom HE2 I4)
    as (m6 & x6 & -> & I5); try done; try (cbn; tauto); try (cbn; lia).
  rewrite some_bind. clear I4.
  destruct I5 as (Ht5 & (_ & _ & _ & Htab5 & Hend5) & Ea5 & Ev5 & _ & Hw5 & hi5 & Hhi5 & Hargs5).
  exists m6, E. rewrite Ea5, Ev5. split; [done|]. split; [|done]. split; [done|]. split; [by exists hi5|].
  by exists (linux_env_p x6).
Qed.
End linux.

(** ** The header *)

Section header.
Implicit Types (m : mem).

(** A store into the header: the word is there, and the words before it stay. *)
Lemma header_word m0 m hdr o c :
  owned m0 hdr 64 → changed hdr (hdr + 64) m0 m → 0 ≤ o → o + 4 ≤ 64 →
  ∃ m', st32 m (hdr + o) c = Some m' ∧ word_at m' (hdr + o) c ∧ changed (hdr + o) (hdr + o + 4) m m' ∧
    changed hdr (hdr + 64) m0 m'.
Proof.
  intros Ho Hc H1 H2. destruct (st32_word m (hdr + o) c) as (m' & E & Hw & Hch).
  { eapply changed_owned; [exact Hc|]. eapply owned_mono; [exact Ho|lia|lia]. }
  exists m'. split; [done|]. split; [done|]. split; [done|].
  eapply changed_trans; [exact Hc|]. eapply changed_mono; [exact Hch|lia|lia].
Qed.

Lemma header_byte m0 m hdr o c :
  owned m0 hdr 64 → changed hdr (hdr + 64) m0 m → 0 ≤ o < 64 →
  ∃ m', st m (hdr + o) c = Some m' ∧ m' !! (hdr + o) = Some (u8 c) ∧ changed (hdr + o) (hdr + o + 1) m m' ∧
    changed hdr (hdr + 64) m0 m'.
Proof.
  intros Ho Hc H1. destruct (changed_st (hdr + o) (hdr + o + 1) m (hdr + o) c) as (m' & E & Em & Hch); [|lia|].
  { eapply owned_at; [eapply changed_owned; [exact Hc|exact Ho]|lia]. }
  exists m'. split; [done|]. split; [by rewrite Em, lookup_insert_eq|]. split; [done|].
  eapply changed_trans; [exact Hc|]. eapply changed_mono; [exact Hch|lia|lia].
Qed.

(** Carry the words over a change of another field. *)
Ltac keep C :=
  repeat match type of C with
  | changed _ _ ?m ?m' =>
      match goal with
      | H : word_at m ?p ?c |- _ => apply (changed_word _ _ _ _ p c C) in H; [|lia]
      end
  end.

Lemma word_at_s32 m a c : word_at m a (s32 c) ↔ word_at m a c.
Proof.
  unfold word_at. replace [u8 (s32 c / 16777216); u8 (s32 c / 65536); u8 (s32 c / 256); u8 (s32 c)]
    with [u8 (c / 16777216); u8 (c / 65536); u8 (c / 256); u8 c]; [done|].
  assert (Hk : ∃ k, s32 c = c + k * 4294967296).
  { exists (- ((c + 2147483648) / 4294967296)). unfold s32. rewrite Z.mod_eq by lia. lia. }
  destruct Hk as [k ->]. unfold u8.
  replace ((c + k * 4294967296) / 16777216) with (c / 16777216 + k * 256) by (Z.div_mod_to_equations; lia).
  replace ((c + k * 4294967296) / 65536) with (c / 65536 + k * 65536) by (Z.div_mod_to_equations; lia).
  replace ((c + k * 4294967296) / 256) with (c / 256 + k * 16777216) by (Z.div_mod_to_equations; lia).
  replace (k * 65536) with (k * 256 * 256) by lia. replace (k * 16777216) with (k * 65536 * 256) by lia.
  replace (k * 4294967296) with (k * 16777216 * 256) by lia. by rewrite !Z_mod_plus_full.
Qed.

Lemma fake_image_header_fields m lit_none hdr text entry size :
  cstr m lit_none (lit "(none)") → owned m hdr 64 → apart (lit_none, 7) (hdr, 64) →
  ∃ m', fake_image_header m lit_none hdr text entry size = Some m' ∧ changed hdr (hdr + 64) m m' ∧
    word_at m' (hdr + ih_size) size ∧ word_at m' (hdr + ih_load) text ∧ word_at m' (hdr + ih_ep) entry ∧
    m' !! (hdr + ih_type) = Some IH_TYPE_KERNEL.
Proof.
  unfold apart. cbn [fst snd]. intros Hn Ho Ha. unfold fake_image_header.
  change sizeof_image_header with (Z.of_nat 64). rewrite memset_bytes by done. rewrite some_bind.
  assert (C0 : changed hdr (hdr + 64) m (write_bytes m hdr (replicate 64 (u8 0)))).
  { apply changed_write; rewrite ?length_replicate; lia. }
  revert C0. generalize (write_bytes m hdr (replicate 64 (u8 0))). intros m0 C0.
  unfold ih_magic, ih_time, ih_size, ih_load, ih_ep, ih_dcrc, ih_os, ih_arch, ih_type, ih_comp, ih_name, ih_hcrc.
  destruct (header_word m m0 hdr 0 IH_MAGIC Ho C0) as (m1 & -> & _ & _ & C1); [lia|lia|]. rewrite some_bind.
  destruct (header_word m m1 hdr 8 0 Ho C1) as (m2 & -> & _ & _ & C2); [lia|lia|]. rewrite some_bind.
  destruct (header_word m m2 hdr 12 size Ho C2) as (m3 & -> & W1 & _ & C3); [lia|lia|]. rewrite some_bind.
  destruct (header_word m m3 hdr 16 text Ho C3) as (m4 & -> & W2 & D4 & C4); [lia|lia|]. rewrite some_bind. keep D4.
  destruct (header_word m m4 hdr 20 entry Ho C4) as (m5 & -> & W3 & D5 & C5); [lia|lia|]. rewrite some_bind. keep D5.
  destruct (header_word m m5 hdr 24 0 Ho C5) as (m6 & -> & _ & D6 & C6); [lia|lia|]. rewrite some_bind. keep D6.
  destruct (header_byte m m6 hdr 28 IH_OS_LINUX Ho C6) as (m7 & -> & _ & D7 & C7); [lia|]. rewrite some_bind. keep D7.
  destruct (header_byte m m7 hdr 29 IH_CPU_MIPS Ho C7) as (m8 & -> & _ & D8 & C8); [lia|]. rewrite some_bind. keep D8.
  destruct (header_byte m m8 hdr 30 IH_TYPE_KERNEL Ho C8) as (m9 & -> & B9 & D9 & C9); [lia|]. rewrite some_bind. keep D9.
  destruct (header_byte m m9 hdr 31 IH_COMP_GZIP Ho C9) as (m10 & -> & _ & D10 & C10); [lia|]. rewrite some_bind. keep D10.
  assert (Hn10 : cstr m10 lit_none (lit "(none)")).
  { eapply changed_cstr; [exact C10| |done]. change (length (lit "(none)")) with 6%nat. lia. }
  change IH_NMLEN with (Z.of_nat 32). rewrite (strncpy_cstr m10 (hdr + 32) lit_none (lit "(none)") 32).
  - rewrite some_bind. set (m11 := write_bytes _ _ _).
    assert (D11 : changed (hdr + 32) (hdr + 64) m10 m11) by (apply changed_write; [lia|change (length (take 32 (lit "(none)" ++ [0]))) with 7%nat; lia]).
    keep D11.
    assert (C11 : changed hdr (hdr + 64) m m11).
    { eapply changed_trans; [exact C10|]. eapply changed_mono; [exact D11|lia|lia]. }
    destruct (header_word m m11 hdr 4 0 Ho C11) as (m12 & -> & _ & D12 & C12); [lia|lia|]. keep D12.
    exists m12. split; [done|]. split; [done|]. split; [done|]. split; [done|]. split; [done|].
    destruct D12 as [S12 _], D11 as [S11 _], D10 as [S10 _]. by rewrite S12, S11, S10 by lia.
  - done.
  - eapply changed_owned; [exact C10|]. eapply owned_mono; [exact Ho|lia|lia].
  - lia.
  - change (length (lit "(none)")) with 6%nat. lia.
Qed.
End header.

(** ** [do_bootm] *)

Section bootm.
Context (pl : boot_places) (bd : board_info) (malloc : Z → option (list Z)) (e : env).
Implicit Types (m : mem) (l : list Z).

(** The areas [bootm] writes before the kernel's block: the last one is the
    destination [text] with the announced size. *)
Definition bootm_areas (text n : Z) : list (Z * Z) :=
  [(unc_len pl, 4); (header pl, 64); (properties pl, 5); (inflate_b pl, 1); (text, n)].

Definition all_areas (text n len : Z) : list (Z * Z) :=
  bootm_areas text n ++ linux_areas pl (UNCACHED_SDRAM (bi_boot_params bd)) len.

(** An image at [addr]: the fields [text], [entry] and [size] of its tag, and
    the bytes of the header of the packed kernel.  It may be anything, with two
    conditions: when the header is accepted and announces an output, the size
    is that of an image (13 bytes for the header, below 2 GB); and as much as
    is looked at is there, away from the variables of the code. *)
Record tagged_image m (addr text entry size p : Z) (dict zl zh : list Z) : Prop := TaggedImage {
  ti_pos : 0 < addr;
  ti_fields : word_at m (addr + kernelTextAddr) text ∧ word_at m (addr + kernelEntryPoint) entry ∧
    word_at m (addr + kernelLen) size;
  ti_ranges : 0 ≤ text < 4294967296 ∧ 0 ≤ entry < 4294967296 ∧ 0 ≤ size < 4294967296;
  ti_size : header_accepted (unc_len pl) p zl zh = true → 13 ≤ size < 2147483648 ∨ le32 zl = 0;
  ti_bytes : Forall is_byte (p :: dict ++ zl ++ zh);
  ti_lengths : length dict = 4%nat ∧ length zl = 4%nat ∧ length zh = 4%nat;
  ti_header : bytes_at m (addr + TAG_LEN) (p :: dict ++ zl ++ zh);
  ti_data : owned m (addr + TAG_LEN) (image_len (unc_len pl) p zl zh size);
  ti_apart : Forall (apart (addr, TAG_LEN + image_len (unc_len pl) p zl zh size))
    (take 4 (bootm_areas text (output_len (unc_len pl) p zl zh)))
}.

(** The machine around it: the environment [es] with the command line [l],
    the argument [a] with the text [t], and the literals. *)
Record boot_room m (es : list entry) (a : Z) (t : list Z) l (text n : Z) : Prop := BootRoom {
  bo_areas : ForallOrdPairs apart (all_areas text n (length l));
  bo_owned : Forall (λ x, owned m x.1 x.2) (all_areas text n (length l));
  bo_consts : Forall (placed m (all_areas text n (length l)))
    ((a, t) :: (lit_none pl, lit "(none)") :: (lit_bootargs pl, lit "bootargs") :: linux_consts pl);
  bo_entries : entries_at m (env_base e) es;
  bo_size : 0 < env_base e ∧ length (flat es) < CFG_ENV_SIZE;
  bo_apart : Forall (apart (env_base e, length (flat es) + 1)) (all_areas text n (length l));
  bo_line : lookup_env (lit "bootargs") es = Some l;
  bo_pos : 0 ≤ unc_len pl;
  bo_arg : fits t;
  bo_ram : 0 ≤ ram_size bd < 4294967296;
  bo_flash : 0 ≤ bi_flashstart bd < 4294967296 ∧ 0 ≤ bi_flashsize bd < 4294967296;
  bo_count : (length (boot_args l) < 255)%nat ∨ is_Some (find_sub mem_text l)
}.

Lemma UNCACHED_SDRAM_pos x : 0 ≤ UNCACHED_SDRAM x.
Proof. unfold UNCACHED_SDRAM. apply Z.lor_nonneg. split; [apply Z.land_nonneg; right|]; lia. Qed.

Lemma entries_touches areas m m' es :
  touches (inside areas) m m' → Forall (apart (env_base e, length (flat es) + 1)) areas →
  entries_at m (env_base e) es → entries_at m' (env_base e) es.
Proof.
  intros Ht Ha [Hb Hok]. split; [|done]. eapply touches_bytes; [exact Ht| |exact Hb].
  intros j Hj. eapply apart_inside; [exact Ha|]. rewrite length_app in Hj. cbn [length] in Hj. lia.
Qed.

(** The literals, the areas and the environment are as before; the command
    line is in the environment. *)
Lemma boot_room_linux m m' es a t l text n :
  boot_room m es a t l text n → touches (inside (bootm_areas text n)) m m' →
  ∃ line, getenv e m' (lit_bootargs pl) = Some line ∧
    linux_room pl bd m' (UNCACHED_SDRAM (bi_boot_params bd)) line l.
Proof.
  intros [Hord Hown Hc Hes [Hb Hsz] Hap Hl _ _ Hram Hfl Hcount] Ht.
  assert (Ht' : touches (inside (all_areas text n (length l))) m m').
  { eapply touches_areas; [exact Ht|]. apply incl_appl, incl_refl. }
  assert (Hc' : Forall (placed m' (all_areas text n (length l))) (linux_consts pl) ∧
    cstr m' (lit_bootargs pl) (lit "bootargs")).
  { apply Forall_cons_iff in Hc as [_ Hc]. apply Forall_cons_iff in Hc as [_ Hc].
    apply Forall_cons_iff in Hc as [Hn Hc]. split; [|by apply (placed_touches _ _ _ _ Ht') in Hn as [? _]].
    eapply Forall_impl; [|exact Hc]. intros c. by apply placed_touches. }
  destruct Hc' as [Hc' Hname].
  assert (Hes' : entries_at m' (env_base e) es) by (by eapply entries_touches).
  destruct (getenv_place e m' es (lit_bootargs pl) (lit "bootargs") Hes' Hsz Hname) as (line & Hg & Hline).
  { eapply bool_decide_eq_true_1. vm_compute. reflexivity. }
  { done. }
  rewrite Hl in Hline. destruct Hline as [[Hlo Hhi] Hcl]. exists line. split; [done|].
  assert (Hsub : ∀ c, placed m' (all_areas text n (length l)) c →
    placed m' (linux_areas pl (UNCACHED_SDRAM (bi_boot_params bd)) (length l)) c).
  { intros c [H1 H2]. split; [done|]. unfold all_areas in H2. by apply Forall_app in H2 as [_ ?]. }
  pose proof (UNCACHED_SDRAM_pos (bi_boot_params bd)) as Hstart. split; try done.
  - constructor; [|eapply Forall_impl; [|exact Hc']; exact Hsub]. split; [done|]. cbn [fst snd].
    unfold all_areas in Hap. apply Forall_app in Hap as [_ Hap]. eapply Forall_impl; [|exact Hap].
    unfold apart. cbn [fst snd]. intros x. lia.
  - unfold all_areas, bootm_areas in Hord. cbn [app] in Hord.
    do 5 (inversion Hord as [|? ? _ Hord']; subst; clear Hord; rename Hord' into Hord). done.
  - unfold all_areas in Hown. apply Forall_app in Hown as [_ Hown]. eapply Forall_impl; [|exact Hown].
    intros x. cbv beta. by eapply touches_owned.
  - unfold CFG_ENV_SIZE in Hsz. unfold fits. lia.
  - lia.
Qed.

Context (malloc_size : ∀ n l, 0 ≤ n → malloc (n * 2) = Some l → Z.of_nat (length l) = n).

(** The memory when [lzma_inflate] is called. *)
Lemma bootm_header m es a t l addr text entry size p dict zl zh :
  boot_room m es a t l text (output_len (unc_len pl) p zl zh) → tagged_image m addr text entry size p dict zl zh →
  ∃ m1 m2, st32 m (unc_len pl) CFG_BOOTM_LEN = Some m1 ∧ cstr m1 a t ∧
    word_at m1 (addr + kernelTextAddr) text ∧ word_at m1 (addr + kernelEntryPoint) entry ∧
    word_at m1 (addr + kernelLen) size ∧
    fake_image_header m1 (lit_none pl) (header pl) text entry (s32 size) = Some m2 ∧
    touches (inside (take 2 (bootm_areas text (output_len (unc_len pl) p zl zh)))) m m2 ∧
    word_at m2 (header pl + ih_size) size ∧ word_at m2 (header pl + ih_load) text ∧
    word_at m2 (header pl + ih_ep) entry ∧ m2 !! (header pl + ih_type) = Some IH_TYPE_KERNEL.
Proof using Type.
  intros Hroom Himg. destruct Hroom as [Hord Hown Hc _ _ _ _ _ _ _ _ _].
  destruct Himg as [_ (F1 & F2 & F3) (_ & _ & Hsz) _ _ _ _ _ Hap]. pose proof (image_len_pos (unc_len pl) p zl zh size) as Hil. apply Forall_cons_iff in Hap as [A1 Hap].
  apply Forall_inv in Hap as A2. unfold apart, kernelTextAddr, kernelEntryPoint, kernelLen, TAG_LEN in *. cbn [fst snd] in *.
  apply Forall_cons_iff in Hown as [O1 Hown]. apply Forall_inv in Hown as O2. cbn [fst snd] in *.
  apply Forall_cons_iff in Hc as [[Ha Aa] Hc]. apply Forall_inv in Hc as [Hn An]. cbn [fst snd] in *.
  apply Forall_inv in Aa as Aa1. apply Forall_cons_iff in An as [An1 An2]. apply Forall_inv in An2.
  unfold apart in *. cbn [fst snd] in *. change (Z.of_nat (length (lit "(none)"))) with 6 in *.
  inversion Hord as [|? ? H1 _]; subst. apply Forall_inv in H1. unfold apart in H1. cbn [fst snd] in H1.
  destruct (st32_word m (unc_len pl) CFG_BOOTM_LEN O1) as (m1 & E1 & _ & C1).
  destruct (fake_image_header_fields m1 (lit_none pl) (header pl) text entry (s32 size)) as (m2 & E2 & C2 & W1 & W2 & W3 & B).
  - eapply changed_cstr; [exact C1| |done]. change (Z.of_nat (length (lit "(none)"))) with 6. lia.
  - by eapply changed_owned.
  - unfold apart. cbn [fst snd]. lia.
  - exists m1, m2. split; [done|]. split; [eapply changed_cstr; [exact C1|lia|done]|].
    split; [eapply changed_word; [exact C1|lia|done]|]. split; [eapply changed_word; [exact C1|lia|done]|].
    split; [eapply changed_word; [exact C1|lia|done]|]. split; [done|]. split; [|by rewrite <- word_at_s32].
    eapply touches_trans; [eapply touches_changed; [exact C1|]|eapply touches_changed; [exact C2|]].
    + intros j Hj. apply Exists_cons_hd. cbn. lia.
    + intros j Hj. apply Exists_cons_tl, Exists_cons_hd. cbn. lia.
Qed.

(** The call of [lzma_inflate], on the memory [m2]. *)
Lemma bootm_inflate m m2 es a t l addr text entry size p dict zl zh :
  boot_room m es a t l text (output_len (unc_len pl) p zl zh) → tagged_image m addr text entry size p dict zl zh →
  touches (inside (take 2 (bootm_areas text (output_len (unc_len pl) p zl zh)))) m m2 →
  ∃ m3 r, lzma_inflate malloc m2 0 (properties pl) (inflate_b pl) (addr + TAG_LEN) (s32 size) text
      (unc_len pl) =
      Some (m3, 13, r) ∧
    touches (λ j, ¬ inside [(header pl, 64)] j ∧ inside (bootm_areas text (output_len (unc_len pl) p zl zh)) j) m2 m3 ∧
    (r = 0 ∧ header_accepted (unc_len pl) p zl zh = true ∨ r = 1) ∧
    (header_accepted (unc_len pl) p zl zh = true → le32 zl = 0 → size < 13 ∨ 2147483648 ≤ size →
     (∀ n, 0 ≤ n → is_Some (malloc (n * 2))) → r = 0).
Proof using malloc_size.
  intros Hroom Himg Ht. destruct Hroom as [Hord Hown _ _ _ _ _ Hpos _ _ _ _].
  destruct Himg as [Haddr _ [_ [_ Hsz]] Hcases Hb (L1 & L2 & L3) Hh Hd Hap].
  pose proof (image_len_pos (unc_len pl) p zl zh size) as Hil.
  unfold all_areas, bootm_areas in Hord, Hown, Hap. cbn [app take] in *.
  apply Forall_cons_iff in Hown as [O1 Hown]. apply Forall_cons_iff in Hown as [_ Hown].
  apply Forall_cons_iff in Hown as [O3 Hown]. apply Forall_cons_iff in Hown as [O4 Hown].
  apply Forall_cons_iff in Hown as [O5 _]. cbn [fst snd] in *.
  apply Forall_cons_iff in Hap as [A1 Hap]. apply Forall_cons_iff in Hap as [A2 Hap].
  apply Forall_cons_iff in Hap as [A3 Hap]. apply Forall_inv in Hap as A4.
  inversion Hord as [|? ? P1 Hord1]; subst. inversion Hord1 as [|? ? P2 Hord2]; subst. inversion Hord2 as [|? ? P3 _]; subst.
  apply Forall_cons_iff in P1 as [P11 _].
  apply Forall_cons_iff in P2 as [P21 P2]. apply Forall_cons_iff in P2 as [P22 P2].
  apply Forall_inv in P2 as P23. apply Forall_inv in P3 as P31.
  unfold apart in A1, A2, A3, A4, P11, P21, P22, P23, P31. unfold TAG_LEN in *. cbn [fst snd] in *.
  assert (Hnot : ∀ j, ¬ (unc_len pl ≤ j < unc_len pl + 4) → ¬ (header pl ≤ j < header pl + 64) →
    ¬ inside [(unc_len pl, 4); (header pl, 64)] j).
  { intros j H1 H2 H3. apply Exists_exists in H3 as (x & [<-|[<-|[]]] & H3); cbn [fst snd] in H3; lia. }
  destruct (lzma_inflate_any malloc m2 (properties pl) (inflate_b pl) (addr + 512) size text (unc_len pl)
    p dict zl zh malloc_size) as (m3 & r & E & [Hk Hr] & Hempty).
  - split; try done; try lia.
    + rewrite Z.add_0_r. eapply touches_bytes; [exact Ht| |exact Hh]. intros j Hj.
      apply Hnot; revert Hj; cbn [length]; rewrite !length_app; lia.
    + by eapply touches_owned.
    + eapply (owned_at _ _ 1); [by eapply touches_owned|lia].
    + split; [done|]. by eapply touches_owned.
  - done.
  - done.
  - lia.
  - by eapply touches_owned.
  - by eapply touches_owned.
  - exists m3, r. split; [done|]. split; [|split; [destruct Hr as [(-> & Hr & _)|[-> _]]; auto|exact Hempty]].
    split; [|done]. intros j Hj.
    assert (H : header pl ≤ j < header pl + 64 ∨ ¬ inside (bootm_areas text (output_len (unc_len pl) p zl zh)) j).
    { destruct (decide (header pl ≤ j < header pl + 64)); [by left|]. right. intros Hi. apply Hj. split; [|done].
      intros H. apply Exists_exists in H as (x & [<-|[]] & H). cbn [fst snd] in H. lia. }
    clear Hj.
    assert (Hj : ¬ (properties pl ≤ j < properties pl + 5) ∧ j ≠ inflate_b pl ∧
      ¬ (text ≤ j < text + output_len (unc_len pl) p zl zh) ∧ ¬ (unc_len pl ≤ j < unc_len pl + 4)).
    { destruct H as [H|H]; [lia|]. split; [|split; [|split]]; intros Hj; apply H; unfold inside, bootm_areas.
      - apply Exists_cons_tl, Exists_cons_tl, Exists_cons_hd. cbn. lia.
      - apply Exists_cons_tl, Exists_cons_tl, Exists_cons_tl, Exists_cons_hd. cbn. lia.
      - apply Exists_cons_tl, Exists_cons_tl, Exists_cons_tl, Exists_cons_tl, Exists_cons_hd. cbn. lia.
      - apply Exists_cons_hd. cbn. lia. }
    destruct Hj as (J1 & J2 & J3 & J4). unfold output_len in J3.
    destruct Hr as [(_ & Hacc & _ & Hr)|[_ Hr]]; [rewrite Hacc in J3; auto|].
    apply Hr; [done|done|]. intros Hacc. by rewrite Hacc in J3.
Qed.

(** The memory that [lzma_inflate] gets. *)
Definition bootm_prepared m (text entry size : Z) : option mem :=
  m ← st32 m (unc_len pl) CFG_BOOTM_LEN;
  fake_image_header m (lit_none pl) (header pl) text entry (s32 size).

(** The two ends: the memory [m3] and the answer [r] are those of
    [lzma_inflate]. *)
Definition bootm_end m3 (r entry : Z) l (o : option (Z * booted)) : Prop :=
  if r =? 0 then
    ∃ m' E, o = Some (13, Kernel entry (1 + length (kernel_args bd l)) (UNCACHED_SDRAM (bi_boot_params bd))
        (ram_size bd) (bi_flashsize bd / (1024 * 1024)) m') ∧
      kernel_ready bd m' (UNCACHED_SDRAM (bi_boot_params bd)) E l ∧
      touches (inside (linux_areas pl (UNCACHED_SDRAM (bi_boot_params bd)) (length l))) m3 m'
  else o = Some (13, Reset).

Lemma do_bootm_run m es a t l load_addr addr text entry size p dict zl zh argv len_ptr :
  boot_room m es a t l text (output_len (unc_len pl) p zl zh) → tagged_image m addr text entry size p dict zl zh →
  argv !! 1%nat = Some a → (strtoul_l t 16).1 = addr →
  ∃ m2 m3 r, bootm_prepared m text entry size = Some m2 ∧
    lzma_inflate malloc m2 0 (properties pl) (inflate_b pl) (addr + TAG_LEN) (s32 size) text (unc_len pl) =
      Some (m3, 13, r) ∧
    (r = 0 ∧ header_accepted (unc_len pl) p zl zh = true ∨ r = 1) ∧
    (header_accepted (unc_len pl) p zl zh = true → le32 zl = 0 → size < 13 ∨ 2147483648 ≤ size →
     (∀ n, 0 ≤ n → is_Some (malloc (n * 2))) → r = 0) ∧
    touches (inside (bootm_areas text (output_len (unc_len pl) p zl zh))) m m3 ∧
    bootm_end m3 r entry l (do_bootm pl bd malloc m 0 e load_addr 2 argv len_ptr).
Proof using malloc_size.
  intros Hroom Himg Harg Haddr. pose proof (ti_ranges _ _ _ _ _ _ _ _ _ Himg) as (R1 & R2 & R3).
  destruct (bootm_header m es a t l addr text entry size p dict zl zh Hroom Himg)
    as (m1 & m2 & E1 & Ha & F1 & F2 & F3 & E2 & Ht2 & W1 & W2 & W3 & B).
  destruct (bootm_inflate m m2 es a t l addr text entry size p dict zl zh Hroom Himg Ht2)
    as (m3 & r & E3 & Ht3 & Hr & Hempty).
  set (out := output_len (unc_len pl) p zl zh) in *.
  assert (Ht : touches (inside (bootm_areas text out)) m m3).
  { eapply touches_trans; [eapply touches_areas; [exact Ht2|]|eapply touches_mono; [exact Ht3|by intros j [_ ?]]].
    intros x Hx. unfold bootm_areas in *. cbn [take] in Hx. cbn. cbn in Hx. tauto. }
  exists m2, m3, r. split; [unfold bootm_prepared; by rewrite E1|]. split; [done|]. split; [done|]. split; [done|].
  split; [done|].
  unfold do_bootm. rewrite E1, some_bind. change (2 <? 2) with false. cbv iota. rewrite Harg, some_bind.
  rewrite (simple_strtoul_cstr m1 a t 16 Ha) by apply Hroom. rewrite some_bind, Haddr, some_bind.
  rewrite (ld32_word _ _ _ F1), some_bind by lia. rewrite (ld32_word _ _ _ F2), some_bind by lia.
  rewrite (ld32_word _ _ _ F3), some_bind by lia. rewrite E2, some_bind.
  rewrite (ld32_word _ _ _ W1), some_bind by lia. rewrite (ld32_word _ _ _ W2), some_bind by lia.
  rewrite E3, some_bind.
  destruct Hr as [[-> Hacc]| ->]; [|done].
  change (negb (0 =? 0)) with false. cbv iota. unfold bootm_end. change (0 =? 0) with true. cbv iota.
  destruct (boot_room_linux m m3 es a t l text out Hroom Ht) as (line & Hg & Hlin).
  assert (Hin : ∀ j, header pl ≤ j < header pl + 64 → inside [(header pl, 64)] j).
  { intros j Hj. apply Exists_cons_hd. cbn. lia. }
  destruct (do_bootm_linux_starts pl bd m3 e 2 argv len_ptr 0 line l entry) as (m' & E & -> & Hready & Hlast); try done.
  - apply ld32_word; [|lia]. eapply touches_word; [exact Ht3| |exact W3]. intros j Hj [Hn _]. apply Hn, Hin.
    unfold ih_ep in Hj. lia.
  - destruct Ht3 as [Hs _]. rewrite Hs; [done|]. intros [Hn _]. apply Hn, Hin. unfold ih_type. lia.
  - rewrite some_bind. by exists m', E.
Qed.
End bootm.

(** ** Properties *)

(** C16: for a command line with any words, quoted or not, [linux_params_init]
    builds the vector of the words the line consists of (cut at the blanks
    outside quotes), with the size of the memory behind them unless the line
    has [mem=], word 0 empty and an empty environment behind the strings; it
    changes only its block and a local buffer. *)
Theorem linux_params_init_words pl bd m start line l :
  params_room pl bd m start line l →
  ∃ m' x hi, linux_params_init pl bd m start line = Some (m', x) ∧
    params_done m' start (kernel_args bd l) hi x ∧ hi ≤ start + length l + 1041 ∧
    touches (λ j, start ≤ j < linux_env x + 4 ∨ memstr pl ≤ j < memstr pl + 32) m m'.
Proof. apply linux_params_init_done. Qed.

(** C4: [bootm addr] ends, and the answer [r] of [lzma_inflate], called on the
    memory with the header made up from the tag, decides how: with 0 the kernel
    is entered at the entry point that the tag names (no magic number and no
    checksum is looked at), with the words of [bootargs], the environment of
    the five variables and the sizes of the memory and the flash, and what was
    unpacked is untouched but for the kernel's own block and two buffers; with
    1, the only other answer, the board is reset.  The answer is 1 when the
    header of the packed kernel is not accepted, which covers erased flash; and
    a header that announces no output is an empty kernel that is started when
    the size is none, which is what zeroed memory holds.  An accepted header
    with an output must come with a size of at least 13 bytes and below 2 GB:
    with less, the decoder reads beyond the image. *)
Theorem do_bootm_ends pl bd malloc e m es a t l load_addr addr text entry size p dict zl zh argv len_ptr :
  (∀ n k, 0 ≤ n → malloc (n * 2) = Some k → Z.of_nat (length k) = n) →
  boot_room pl bd e m es a t l text (output_len (unc_len pl) p zl zh) →
  tagged_image pl m addr text entry size p dict zl zh →
  argv !! 1%nat = Some a → (strtoul_l t 16).1 = addr →
  ∃ m2 m3 r, bootm_prepared pl m text entry size = Some m2 ∧
    lzma_inflate malloc m2 0 (properties pl) (inflate_b pl) (addr + TAG_LEN) (s32 size) text (unc_len pl) =
      Some (m3, 13, r) ∧
    (r = 0 ∧ header_accepted (unc_len pl) p zl zh = true ∨ r = 1) ∧
    (header_accepted (unc_len pl) p zl zh = true → le32 zl = 0 → size < 13 ∨ 2147483648 ≤ size →
     (∀ n, 0 ≤ n → is_Some (malloc (n * 2))) → r = 0) ∧
    touches (inside (bootm_areas pl text (output_len (unc_len pl) p zl zh))) m m3 ∧
    bootm_end pl bd m3 r entry l (do_bootm pl bd malloc m 0 e load_addr 2 argv len_ptr).
Proof. intros Hm. by apply do_bootm_run. Qed.

(** *** A machine for the examples *)

(** Strings one behind the other, each with its NUL, and where they are. *)
Definition pack (ts : list (list Z)) : list Z := flat_map (λ t, t ++ [0]) ts.

Definition place (a : Z) (ts : list (list Z)) (i : nat) : Z := a + length (pack (take i ts)).

Lemma pack_at m a ts i t :
  bytes_at m a (pack ts) → ts !! i = Some t → Forall is_char t → cstr m (place a ts i) t.
Proof.
  intros Hb Hi Ht. split; [done|]. rewrite <- (take_drop_middle ts i t Hi) in Hb.
  unfold pack in Hb. rewrite flat_map_app in Hb. cbn [flat_map] in Hb.
  apply bytes_at_app in Hb as [_ Hb]. by apply bytes_at_app in Hb as [Hb _].
Qed.

Definition demo_strings : list (list Z) := [
  lit "0x4000"; lit "(none)"; lit "bootargs"; mem_text; fmt_text mem_fmt; fmt_text lu_fmt; fmt_text hex8_fmt;
  fmt_text hex_fmt; [61]; lit "memsize"; lit "initrd_start"; lit "initrd_size"; lit "flash_start"; lit "flash_size"].

Definition demo_string (i : nat) : Z := place 0x1000 demo_strings i.

Definition demo_places : boot_places := BootPlaces
  0x2010 (demo_string 1) (demo_string 2) (demo_string 3) (demo_string 4) (demo_string 5) (demo_string 6)
  (demo_string 7) (demo_string 9) (demo_string 10) (demo_string 11) (demo_string 12) (demo_string 13)
  (demo_string 8) 0x2080 0x20b0 0x2060 0x2070 0x2000.

(** 32 MB of memory and 4 MB of flash; the parameters go to [0xa0010000]. *)
Definition demo_board : board_info := BoardInfo 0x2000000 0x80010000 0x9f000000 0x400000.

Definition demo_line : list Z := lit "r=1 x".
Definition demo_env : list entry := [(lit "bootargs", demo_line)].

(** The tag (load address [0x20c0], entry point [0x80060000], 29 bytes) and the
    packed kernel: two instructions, compressed with lc, lp and pb 0. *)
Definition kernel_code : list Z := [3; 224; 0; 8; 0; 0; 0; 0].
Definition kernel_image : list Z :=
  [0; 0; 0; 1; 0; 8; 0; 0; 0; 0; 0; 0; 0; 0; 1; 185; 254; 0; 218; 173; 64; 100; 191; 255; 255; 251; 133; 128; 0].
Definition demo_image : list Z :=
  replicate 116 0 ++ [0; 0; 32; 192] ++ [128; 6; 0; 0] ++ replicate 8 0 ++ [0; 0; 0; 29] ++ replicate 376 0 ++ kernel_image.

Definition demo_mem : mem :=
  write_bytes (write_bytes (write_bytes (write_bytes (mem_of 0x1000 (pack demo_strings)) 0x2000 (replicate 200 0))
    0x3000 (flat demo_env ++ [0])) 0x4000 demo_image) 0xa0010000 (replicate (Z.to_nat 2205) 0).

Lemma demo_mem_parts :
  bytes_at demo_mem 0x1000 (pack demo_strings) ∧ owned demo_mem 0x2000 200 ∧
  bytes_at demo_mem 0x3000 (flat demo_env ++ [0]) ∧ bytes_at demo_mem 0x4000 demo_image ∧
  owned demo_mem 0xa0010000 2205.
Proof.
  assert (L1 : length (pack demo_strings) = 111%nat) by reflexivity.
  assert (L3 : length (flat demo_env ++ [0]) = 16%nat) by reflexivity.
  assert (L4 : length demo_image = 541%nat) by reflexivity.
  unfold demo_mem, mem_of. split; [|split; [|split; [|split]]].
  - do 4 (apply bytes_at_write_disjoint; [rewrite ?length_replicate, ?L1, ?L3, ?L4; lia|]). apply write_bytes_in.
  - do 3 apply owned_write. eapply owned_mono; [apply bytes_at_owned, write_bytes_in|lia|]. rewrite length_replicate. lia.
  - do 2 (apply bytes_at_write_disjoint; [rewrite ?length_replicate, ?L1, ?L3, ?L4; lia|]). apply write_bytes_in.
  - apply bytes_at_write_disjoint; [rewrite ?length_replicate, ?L4; lia|]. apply write_bytes_in.
  - eapply owned_mono; [apply bytes_at_owned, write_bytes_in|lia|]. rewrite length_replicate. lia.
Qed.

Definition demo_envst : env := Env 0x3000 0x3000 1 true 0 0.

Lemma demo_cstr i t : demo_strings !! i = Some t → cstr demo_mem (demo_string i) t.
Proof.
  intros Hi. apply (pack_at _ _ _ _ _ (proj1 demo_mem_parts) Hi).
  assert (H : Forall (Forall is_char) demo_strings) by (repeat constructor; vm_compute; done).
  by eapply (Forall_lookup_1 _ _ _ _ H).
Qed.

Lemma demo_boot_room :
  boot_room demo_places demo_board demo_envst demo_mem demo_env (demo_string 0) (lit "0x4000") demo_line 0x20c0 8.
Proof.
  destruct demo_mem_parts as (_ & HB & HE & _ & HW).
  assert (Hin : ∀ a n, 0x2000 ≤ a → a + n ≤ 0x2000 + 200 → owned demo_mem a n).
  { intros a n H1 H2. eapply owned_mono; [exact HB|lia|lia]. }
  split.
  - apply pairs_apart. vm_compute. reflexivity.
  - repeat constructor; cbn [fst snd]; try (apply Hin; vm_compute; discriminate).
    change (UNCACHED_SDRAM (bi_boot_params demo_board)) with 0xa0010000. exact HW.
  - repeat (apply List.Forall_cons; [split; [by apply demo_cstr|apply forallb_apart; vm_compute; reflexivity]|]).
    constructor.
  - split; [exact HE|]. repeat constructor; try (vm_compute; done).
    eapply bool_decide_eq_true_1. vm_compute. reflexivity.
  - split; vm_compute; done.
  - apply forallb_apart. vm_compute. reflexivity.
  - done.
  - vm_compute. discriminate.
  - done.
  - cbn. lia.
  - cbn. lia.
  - left. vm_compute. lia.
Qed.

Lemma tagged_image_at m :
  bytes_at m 0x4000 demo_image →
  tagged_image demo_places m 0x4000 0x20c0 0x80060000 29 0 [0; 0; 1; 0] [8; 0; 0; 0] [0; 0; 0; 0].
Proof.
  intros H. unfold demo_image in H. apply bytes_at_app in H as [_ H]. rewrite length_replicate in H.
  apply bytes_at_app in H as [F1 H]. apply bytes_at_app in H as [F2 H].
  apply bytes_at_app in H as [_ H]. rewrite length_replicate in H.
  apply bytes_at_app in H as [F3 H]. apply bytes_at_app in H as [_ H]. rewrite length_replicate in H.
  split; try done; try lia.
  - repeat constructor; unfold is_byte; lia.
  - apply (bytes_at_take _ _ kernel_image 13). exact H.
  - apply bytes_at_owned in H. exact H.
  - apply forallb_apart. vm_compute. reflexivity.
Qed.

Lemma demo_tagged_image :
  tagged_image demo_places demo_mem 0x4000 0x20c0 0x80060000 29 0 [0; 0; 1; 0] [8; 0; 0; 0] [0; 0; 0; 0].
Proof. exact (tagged_image_at demo_mem (proj1 (proj2 (proj2 (proj2 demo_mem_parts))))). Qed.

Lemma demo_line_at m : bytes_at m 0x3000 (flat demo_env ++ [0]) → cstr m 0x3009 demo_line.
Proof.
  intros HE. split; [repeat constructor; vm_compute; done|].
  change (flat demo_env ++ [0]) with (lit "bootargs=" ++ (demo_line ++ [0]) ++ [0]) in HE.
  apply bytes_at_app in HE as [_ HE]. by apply bytes_at_app in HE as [HE _].
Qed.

(** The kernel is unpacked to its place. *)
Lemma demo_unpacks :
  (m ← bootm_prepared demo_places demo_mem 0x20c0 0x80060000 29;
   '(m, rpos, r) ← lzma_inflate some_malloc m 0 (properties demo_places) (inflate_b demo_places) (0x4000 + TAG_LEN)
     (s32 29) 0x20c0 (unc_len demo_places);
   Some (r, map (λ i, m !! (0x20c0 + Z.of_nat i)) (seq 0 8))) = Some (0, map Some kernel_code).
Proof. vm_compute. reflexivity. Qed.

Lemma do_bootm_ends_witness :
  ∃ m3 m' E,
    do_bootm demo_places demo_board some_malloc demo_mem 0 demo_envst 0 2 [0; demo_string 0] 0 =
      Some (13, Kernel 0x80060000 (1 + length (kernel_args demo_board demo_line))
        (UNCACHED_SDRAM (bi_boot_params demo_board)) (ram_size demo_board)
        (bi_flashsize demo_board / (1024 * 1024)) m') ∧
    kernel_ready demo_board m' (UNCACHED_SDRAM (bi_boot_params demo_board)) E demo_line ∧
    touches (inside (linux_areas demo_places (UNCACHED_SDRAM (bi_boot_params demo_board)) (length demo_line))) m3 m' ∧
    map (λ i, m3 !! (0x20c0 + Z.of_nat i)) (seq 0 8) = map Some kernel_code.
Proof.
  destruct (do_bootm_ends demo_places demo_board some_malloc demo_envst demo_mem demo_env (demo_string 0) (lit "0x4000")
    demo_line 0 0x4000 0x20c0 0x80060000 29 0 [0; 0; 1; 0] [8; 0; 0; 0] [0; 0; 0; 0] [0; demo_string 0] 0
    some_malloc_size demo_boot_room demo_tagged_image eq_refl ltac:(vm_compute; reflexivity))
    as (m2 & m3 & r & E2 & E3 & _ & _ & _ & Hend).
  pose proof demo_unpacks as Hu. rewrite E2, some_bind, E3, some_bind in Hu.
  apply (inj Some), pair_equal_spec in Hu as [-> Hmap].
  destruct Hend as (m' & E & Hk & Hready & Ht). exists m3, m', E.
  split; [exact Hk|]. split; [exact Hready|]. split; [exact Ht|exact Hmap].
Defined.

Lemma linux_params_init_words_witness :
  ∃ m' x hi, linux_params_init demo_places demo_board demo_mem 0xa0010000 0x3009 = Some (m', x) ∧
    params_done m' 0xa0010000 (kernel_args demo_board demo_line) hi x ∧ hi ≤ 0xa0010000 + length demo_line + 1041 ∧
    touches (λ j, 0xa0010000 ≤ j < linux_env x + 4 ∨ memstr demo_places ≤ j < memstr demo_places + 32) demo_mem m'.
Proof.
  apply (linux_params_init_words demo_places demo_board demo_mem 0xa0010000 0x3009 demo_line).
  destruct demo_mem_parts as (_ & HB & HE & _ & HW).
  split.
  - exact (demo_line_at demo_mem HE).
  - vm_compute. reflexivity.
  - lia.
  - lia.
  - eapply owned_mono; [exact HW|lia|]. change (length demo_line) with 5%nat. lia.
  - eapply owned_mono; [exact HB|cbn; lia|cbn; lia].
  - by apply demo_cstr.
  - by apply demo_cstr.
  - cbn. lia.
  - left. vm_compute. lia.
  - left. vm_compute. discriminate.
  - left. vm_compute. discriminate.
  - left. vm_compute. discriminate.
  - left. vm_compute. discriminate.
  - right. vm_compute. discriminate.
  - right. vm_compute. discriminate.
  - left. vm_compute. discriminate.
Defined.
