(* ===== verification/Bootstrap.v ===== *)
(** * The first stage ([lib_bootstrap/bootstrap_board.c])

    The loader in the flash is a small program that sets up the memory
    controller, finds the size of the RAM, moves itself to its upper end and
    unpacks the second stage, the boot loader proper, which follows it in the
    flash behind an image header.  Its heap only grows. *)

From S2P Require Import Prelude.
From S2P Require Import CString.
From S2P Require Import Crc.
From S2P Require Import Env.
From S2P Require Import Spi.
From S2P Require Import Serial.
From S2P Require Import Timer.
From S2P Require Import MemTest.
From S2P Require Import Soc.
From S2P Require Import Start.
From S2P Require Import Lzma.
From S2P Require Import LzmaSafe.
From S2P Require Import Inflate.
From S2P Require Import Bootm.

Definition BOOTSTRAP_CFG_MONITOR_BASE : Z := CFG_FLASH_BASE.

(** ** The heap *)

Definition mem_malloc_init (m : mem) (dest_addr : Z) : option (mem * arena) :=
  let start := u32 (dest_addr - TOTAL_MALLOC_LEN) in
  m ← memset m start 0 (u32 (dest_addr - start));
  Some (m, Arena start dest_addr start).

(** The blocks are taken from the start; the last byte is never given. *)
Definition malloc (a : arena) (size : Z) : arena * Z :=
  if size <? u32 (mem_malloc_end a - mem_malloc_start a) then
    let a := Arena (u32 (mem_malloc_start a + size)) (mem_malloc_end a) (mem_malloc_brk a) in
    (a, u32 (mem_malloc_start a - size))
  else (a, NULL).

Definition realloc (a : arena) (src size : Z) : arena * Z := (a, NULL).
Definition free (a : arena) (src : Z) : arena := a.

Definition sbrk (a : arena) (increment : Z) : arena * Z :=
  let old := mem_malloc_brk a in
  let new := u32 (old + increment) in
  if (new <? mem_malloc_start a) || (new >? mem_malloc_end a) then (a, NULL)
  else (Arena (mem_malloc_start a) (mem_malloc_end a) new, old).

(** A block as the array of probabilities that [lzma_inflate] wants. *)
Definition probs_at (m : mem) (p n : Z) : list Z :=
  map (λ i : nat, default 0 (ld16 m (p + 2 * i))) (seq 0 (Z.to_nat (n / 2))).
Definition probs_malloc (m : mem) (a : arena) (n : Z) : option (list Z) :=
  let p := (malloc a n).2 in if p =? NULL then None else Some (probs_at m p n).

Lemma probs_malloc_size m a n l : 0 ≤ n → probs_malloc m a (n * 2) = Some l → Z.of_nat (length l) = n.
Proof.
  intros Hn. unfold probs_malloc. destruct (_ =? _); [done|]. intros [= <-].
  unfold probs_at. rewrite length_map, length_seq, Z.div_mul; lia.
Qed.

(** ** Before the move *)

Section first.
Context {S M : Type} `{Bus S} `{Counter S} `{Words M} (tap_cal : S → S).

(** The RAM as bytes, behind the view the search for its size has. *)
Context (ram : M → mem).

Definition boot_state : Type := S * M * gd_t.
Definition boot_fnc_t : Type := boot_state → option (boot_state * Z).

Definition init_timer : boot_fnc_t := λ '(s, r, g),
  let '(s, x) := timer_init s in Some (s, r, g, x).

Definition init_serial : boot_fnc_t := λ '(s, r, g), Some (serial_init s, r, g, 0).

Definition init_func_ram : boot_fnc_t := λ '(s, r, g),
  '(s, r, size) ← initdram tap_cal s r;
  let g := Gd (gd_bd g) (gd_flags g) (gd_baudrate g) (gd_have_console g) (u32 size) (gd_reloc_off g) (gd_jt g) in
  Some (s, r, g, if gd_ram_size g >? 0 then 0 else 1).

(** This product does not use the bus. *)
Definition pci_init_board : boot_fnc_t := λ x, Some (x, 0).

Definition init_sequence : list boot_fnc_t := [init_timer; init_serial; init_func_ram; pci_init_board].

Fixpoint run_sequence (l : list boot_fnc_t) (x : boot_state) : option (option boot_state) :=
  match l with
  | [] => Some (Some x)
  | f :: l => '(x, r) ← f x; if negb (r =? 0) then Some None else run_sequence l x
  end.

Definition bootstrap_board_init_f (s : S) (r : M) (bootflag len : Z)
    : option (option (S * M * mem * gd_t * relocation)) :=
  o ← run_sequence init_sequence (s, r, Gd 0 0 0 0 0 0 0);
  match o with
  | None => Some None
  | Some (s, r, g) =>
      '(m, g, c) ← settle (ram r) (plan_memory (gd_ram_size g) len) 0 0 g;
      Some (Some (s, r, m, g, c))
  end.
End first.

(** ** After the move *)

(** Local variables. *)
Record bootstrap_places := BootstrapPlaces {
  bs_header : Z;
  destLen : Z;
  bs_properties : Z;
  bs_b : Z
}.

(** The way it ends: back to a caller that is not there, or in the second
    stage with its argument. *)
Inductive bootstrap_end :=
  | Returned
  | Started (fn ram_size : Z).

Section second.
Context (pl : bootstrap_places).
Implicit Types m : mem.

(** [uboot_end_data] is where the moved program ends. *)
Definition image_addr (uboot_end_data dest_addr : Z) : Z :=
  u32 (BOOTSTRAP_CFG_MONITOR_BASE + u32 (uboot_end_data - dest_addr)).

Definition bootstrap_board_init_r m (ram_size uboot_end_data dest_addr : Z) : option (mem * bootstrap_end) :=
  '(m, heap) ← mem_malloc_init m dest_addr;
  let addr := image_addr uboot_end_data dest_addr in
  m ← memmove m (bs_header pl) addr sizeof_image_header;
  magic ← ld32 m (bs_header pl + ih_magic);
  if negb (magic =? IH_MAGIC) then Some (m, Returned) else
  checksum ← ld32 m (bs_header pl + ih_hcrc);
  m ← st32 m (bs_header pl + ih_hcrc) 0;
  c ← crc32 m 0 (bs_header pl) sizeof_image_header;
  if negb (c =? checksum) then Some (m, Returned) else
  let data := addr + sizeof_image_header in
  len ← ld32 m (bs_header pl + ih_size);
  m ← st32 m (destLen pl) 0;
  load ← ld32 m (bs_header pl + ih_load);
  '(m, _, i) ← lzma_inflate (probs_malloc m heap) m 0 (bs_properties pl) (bs_b pl) data len load (destLen pl);
  if negb (i =? LZMA_RESULT_OK) then Some (m, Returned) else
  fn ← ld32 m (bs_header pl + ih_load);
  Some (m, Started fn ram_size).
End second.

(** ** The hand-over *)

Section hand_over.
Context {S M : Type} `{Bus S} `{Counter S} `{Words M} (tap_cal : S → S) (ram : M → mem).
Implicit Types (s : S) (r : M).

(** C15: the first stage never hangs on a memory of [k] times 4 MB that wraps
    behind its end: it finds that size (256 MB when it is larger), plans the
    memory for it and hands over to the relocation with the size in the global
    data and the board information. *)
Theorem bootstrap_hands_over s r bootflag len k :
  let size := Z.min k 64 * ATH_DDR_SIZE_INCR in
  let p := plan_memory size len in
  1 ≤ k → wraps (M := M) (k * ATH_DDR_SIZE_INCR) → 0 < len ≤ 0x40000 →
  (∀ r, owned (ram r) (p_stack p - 4) (p_malloc p - (p_stack p - 4))) →
  ∃ s' r' m' c,
    bootstrap_board_init_f tap_cal ram s r bootflag len =
      Some (Some (s', r', m', Gd (p_bd p) 0 0 0 size 0 0, c)) ∧
    plan_ok size len p ∧ settled p 0 0 (Gd (p_bd p) 0 0 0 size 0 0) c m' ∧
    touches (inside (settle_areas p)) (ram r') m'.
Proof.
  intros size p Hk Hw Hlen Ho. unfold ATH_DDR_SIZE_INCR in size.
  assert (Hp : plan_ok size len p) by (apply plan_memory_ok; unfold size; lia).
  unfold bootstrap_board_init_f, init_sequence. cbn [run_sequence].
  unfold init_timer, timer_init. rewrite some_bind. cbn [Z.eqb negb].
  unfold init_serial. rewrite some_bind. cbn [Z.eqb negb]. unfold init_func_ram.
  match goal with |- context [initdram tap_cal ?s1 r] =>
    destruct (initdram_finds tap_cal s1 r k Hk Hw) as (s' & r' & ->) end.
  change (Z.min k 64 * ATH_DDR_SIZE_INCR) with size. rewrite some_bind. cbv beta iota zeta.
  cbn [gd_bd gd_flags gd_baudrate gd_have_console gd_ram_size gd_reloc_off gd_jt].
  rewrite (u32_small size) by (unfold size; lia). rewrite Z.gtb_ltb.
  rewrite (proj2 (Z.ltb_lt 0 size)) by (unfold size; lia). rewrite some_bind. cbn [Z.eqb negb].
  unfold pci_init_board. rewrite !some_bind. cbn [Z.eqb negb]. rewrite some_bind. cbv beta iota.
  cbn [gd_ram_size]. fold p.
  destruct (settle_stores (ram r') p 0 0 (Gd 0 0 0 0 size 0 0) size len Hp (Ho r'))
    as (m' & c & E & Hs & _ & Ht).
  rewrite E, some_bind. do 4 eexists. split; [reflexivity|]. by split.
Qed.
End hand_over.

(** 32 MB that appear every 32 MB, and the upper part of them as bytes. *)
#[local] Instance wrapping_words : Words (Z → Z) := {
  rdw r a := r (a mod 33554432);
  wrw r a v := λ b, if b =? a mod 33554432 then v else r b;
  rdb r a := r (a mod 33554432);
  wrb r a v := λ b, if b =? a mod 33554432 then v else r b
}.

Lemma wrapping_wraps : wraps (M := Z → Z) (8 * ATH_DDR_SIZE_INCR).
Proof.
  change (8 * ATH_DDR_SIZE_INCR) with 33554432.
  assert (Hm : ∀ a b, (a - b) mod 33554432 = 0 ↔ b mod 33554432 = a mod 33554432).
  { intros a b. Z.to_euclidean_division_equations. lia. }
  split; intros r a b v; rewrite Hm; cbn.
  - intros _ ->. by rewrite Z.eqb_refl.
  - intros Hne. by rewrite (proj2 (Z.eqb_neq _ _) Hne).
Qed.

Definition upper_bytes (lo : Z) (n : nat) (r : Z → Z) : mem :=
  write_bytes ∅ lo (map (λ i : nat, u8 (rdb r (lo + i))) (seq 0 n)).

Lemma upper_bytes_owned lo n r : owned (upper_bytes lo n r) lo n.
Proof.
  eapply owned_mono; [apply bytes_at_owned, write_bytes_in|lia|]. rewrite length_map, length_seq. lia.
Qed.

(** A chip whose registers are all 0. *)
#[local] Instance quiet_bus : Bus unit := { reg_wr s a v := s; reg_rd s a := (s, 0) }.
#[local] Instance quiet_counter : Counter unit :=
  { mips_count_get s := (s, 0); mips_count_set s v := s; mips_compare_set s v := s }.

Lemma bootstrap_hands_over_witness :
  let ram := upper_bytes 2180579228 (Z.to_nat 131172) in
  ∃ s' r' m' c,
    bootstrap_board_init_f (λ s : unit, s) ram tt (λ _ : Z, 0) 0 0x20000 =
      Some (Some (s', r', m', Gd (p_bd demo_plan) 0 0 0 0x2000000 0 0, c)) ∧
    plan_ok 0x2000000 0x20000 demo_plan ∧
    settled demo_plan 0 0 (Gd (p_bd demo_plan) 0 0 0 0x2000000 0 0) c m' ∧
    touches (inside (settle_areas demo_plan)) (ram r') m'.
Proof.
  intros ram. apply (bootstrap_hands_over (λ s : unit, s) ram tt (λ _ : Z, 0) 0 0x20000 8).
  - lia.
  - exact wrapping_wraps.
  - lia.
  - intros r. change (plan_memory (Z.min 8 64 * ATH_DDR_SIZE_INCR) 0x20000) with demo_plan.
    rewrite (proj2 demo_plan_at), (proj1 demo_plan_at). unfold ram.
    eapply owned_mono; [apply upper_bytes_owned|lia|rewrite Z2Nat.id; lia].
Defined.

(** ** The second half *)

(** The word at offset [o] of a block. *)
Definition hw (h : list Z) (o : nat) : Z :=
  match drop o h with x :: y :: z :: w :: _ => be32 x y z w | _ => 0 end.

Lemma ld32_block m a h (f : Z) (o : nat) :
  f = o → bytes_at m a h → (o + 4 ≤ length h)%nat → ld32 m (a + f) = Some (hw h o).
Proof.
  intros -> Hb Hl. apply (bytes_at_drop _ _ _ o) in Hb; [|lia]. unfold hw.
  pose proof (length_drop h o) as El. destruct (drop o h) as [|x [|y [|z [|w l]]]]; cbn [length] in El; try lia.
  apply ld32_at. apply (bytes_at_take _ _ _ 4) in Hb. exact Hb.
Qed.

(** The header with its checksum cleared. *)
Definition cleared (h : list Z) : list Z := take 4 h ++ [0; 0; 0; 0] ++ drop 8 h.

(** The two checks of the header. *)
Definition header_ok (h : list Z) : bool :=
  (hw h 0 =? IH_MAGIC) && (crc32_spec 0 (message_bits (cleared h)) =? hw h 4).

Lemma cleared_word h (o : nat) : (8 ≤ o)%nat → (8 ≤ length h)%nat → hw (cleared h) o = hw h o.
Proof.
  intros Ho Hl. unfold hw, cleared. replace (drop o (take 4 h ++ [0; 0; 0; 0] ++ drop 8 h)) with (drop o h); [done|].
  rewrite app_assoc, drop_app_ge by (rewrite length_app, length_take; cbn [length]; lia).
  rewrite drop_drop. f_equal. rewrite length_app, length_take. cbn [length]. lia.
Qed.

Lemma length_cleared h : length h = 64%nat → length (cleared h) = 64%nat.
Proof. intros El. unfold cleared. rewrite !length_app, length_take, length_drop. cbn [length]. lia. Qed.

Section second_half.
Context (pl : bootstrap_places) (m : mem) (uboot_end_data dest_addr : Z).
Context (h : list Z) (p : Z) (dict zl zh : list Z).

Abbreviation addr := (image_addr uboot_end_data dest_addr).
Abbreviation image_size := (hw h 12).
Abbreviation load := (hw h 16).

Definition heap_area : Z * Z := (dest_addr - TOTAL_MALLOC_LEN, TOTAL_MALLOC_LEN).
Definition header_area : Z * Z := (bs_header pl, 64).
Definition bootstrap_areas : list (Z * Z) :=
  [heap_area; header_area; (destLen pl, 4); (bs_properties pl, 5); (bs_b pl, 1)].

(** The image in the flash: the header [h], then the header of the packed
    stream, then the stream. *)
Record bootstrap_room : Prop := BootstrapRoom {
  br_dest : TOTAL_MALLOC_LEN < dest_addr < 4294967296;
  br_owned : Forall (λ x, owned m x.1 x.2) bootstrap_areas;
  br_apart : ForallOrdPairs apart bootstrap_areas;
  br_destLen : 0 ≤ destLen pl;
  br_bytes : Forall is_byte (h ++ p :: dict ++ zl ++ zh);
  br_lengths : length h = 64%nat ∧ length dict = 4%nat ∧ length zl = 4%nat ∧ length zh = 4%nat;
  br_image : bytes_at m addr (h ++ p :: dict ++ zl ++ zh);
  br_image_apart : Forall (apart (addr, 77)) bootstrap_areas;
  br_stream : header_ok h = true → 13 ≤ image_size < 2147483648 ∧ owned m (addr + 77) (image_size - 13);
  br_load : header_ok h = true → owned m load (le32 zl) ∧ apart (load, le32 zl) header_area
}.

Context (Hroom : bootstrap_room).

(** The heap is cleared, the header copied. *)
Lemma header_copied :
  ∃ m1 m2 heap, mem_malloc_init m dest_addr = Some (m1, heap) ∧
    memmove m1 (bs_header pl) addr sizeof_image_header = Some m2 ∧
    bytes_at m2 (bs_header pl) h ∧ touches (inside [heap_area; header_area]) m m2.
Proof using Hroom.
  destruct Hroom as [Hd Ho Hap _ Hb (El & _) Himg Hia _ _].
  unfold bootstrap_areas, heap_area, header_area in *.
  apply Forall_cons_iff in Ho as [Ho1 Ho]. apply Forall_cons_iff in Ho as [Ho2 _]. cbn [fst snd] in *.
  change TOTAL_MALLOC_LEN with 196608 in *. unfold mem_malloc_init. change TOTAL_MALLOC_LEN with 196608.
  rewrite (u32_small (dest_addr - 196608)) by lia. replace (dest_addr - (dest_addr - 196608)) with 196608 by lia.
  rewrite (u32_small 196608) by lia.
  assert (E : ∃ n : nat, (196608 : Z) = n) by (exists (Z.to_nat 196608); rewrite Z2Nat.id; lia).
  destruct E as [n En]. rewrite En in *. rewrite memset_bytes by (done || lia). rewrite some_bind.
  set (z := replicate n (u8 0)). assert (Hz : length z = n) by apply length_replicate. clearbody z.
  set (m1 := write_bytes m _ z). set (areas := [_; _]).
  assert (T1 : touches (inside areas) m m1) by (apply (touches_write areas (dest_addr - n) n); [by left|lia|lia]).
  apply bytes_at_app in Himg as [Himg _]. apply Forall_app in Hb as [Hb _].
  apply Forall_cons_iff in Hia as [Hi1 _]. unfold apart in Hi1. cbn [fst snd] in Hi1.
  assert (Hm : memmove m1 (bs_header pl) addr (length h) = Some (write_bytes m1 (bs_header pl) h)).
  { apply memmove_bytes; [done| | |unfold fits; lia].
    - apply bytes_at_write_disjoint; [lia|done].
    - apply owned_write. by rewrite El. }
  rewrite El in Hm. do 3 eexists. split; [reflexivity|]. split; [exact Hm|]. split; [apply write_bytes_in|].
  eapply touches_trans; [exact T1|]. apply (touches_write areas (bs_header pl) 64); [by right; left|lia|lia].
Qed.

(** Clearing the checksum of the copy. *)
Lemma header_cleared m2 :
  bytes_at m2 (bs_header pl) h →
  ∃ m3, st32 m2 (bs_header pl + ih_hcrc) 0 = Some m3 ∧ bytes_at m3 (bs_header pl) (cleared h) ∧
    touches (inside [header_area]) m2 m3.
Proof using Hroom.
  intros Hh. destruct (br_lengths Hroom) as (El & _).
  change ih_hcrc with 4. pose proof (bytes_at_owned _ _ _ Hh) as Ho.
  rewrite st32_bytes by (eapply owned_mono; [exact Ho|lia|lia]). change [u8 _; u8 _; u8 _; u8 _] with [0; 0; 0; 0].
  eexists. split; [reflexivity|]. split.
  - unfold cleared. pose proof (bytes_at_take _ _ _ 4 Hh) as H1. pose proof (bytes_at_drop _ _ _ 8 Hh ltac:(lia)) as H2.
    apply bytes_at_app. split; [apply bytes_at_write_disjoint; [rewrite length_take; cbn [length]; lia|done]|].
    rewrite length_take. replace (Z.of_nat (4 `min` length h)%nat) with 4 by lia.
    apply bytes_at_app. split; [apply write_bytes_in|]. cbn [length].
    replace (bs_header pl + 4 + 4%nat) with (bs_header pl + 8%nat) by lia.
    apply bytes_at_write_disjoint; [cbn [length]; lia|done].
  - apply (touches_write [header_area] (bs_header pl) 64); [by left|lia|cbn [length]; lia].
Qed.

Lemma header_checksum m3 :
  bytes_at m3 (bs_header pl) (cleared h) →
  crc32 m3 0 (bs_header pl) sizeof_image_header = Some (crc32_spec 0 (message_bits (cleared h))).
Proof using Hroom.
  intros Hh. destruct (br_lengths Hroom) as (El & _). pose proof (br_bytes Hroom) as Hb.
  apply Forall_app in Hb as [Hb _].
  pose proof (length_cleared h El) as Ec.
  change sizeof_image_header with (Z.of_nat 64). rewrite <- Ec.
  assert (Hcb : Forall is_byte (cleared h)).
  { unfold cleared. apply Forall_app_2; [by apply Forall_take|]. apply Forall_app_2; [|by apply Forall_drop].
    repeat constructor; unfold is_byte; lia. }
  rewrite crc32_bytes; [|done|done|unfold fits; lia].
  unfold crc32_spec. by rewrite crc32_message.
Qed.

(** The members of a list that all satisfy something. *)
Ltac each H := repeat (let A := fresh "A" in apply List.Forall_cons_iff in H as [A H]).

(** The call of the decoder, in a memory where only the heap, the header and
    [destLen] have changed. *)
Lemma second_stage_unpacks heap_probs m4 :
  header_ok h = true →
  (∀ n l, 0 ≤ n → heap_probs (n * 2) = Some l → Z.of_nat (length l) = n) →
  touches (inside bootstrap_areas) m m4 →
  let areas := bootstrap_areas ++
    if header_accepted (destLen pl) p zl zh then [(load, le32 zl)] else [] in
  ∃ m5 i, lzma_inflate heap_probs m4 0 (bs_properties pl) (bs_b pl) (addr + sizeof_image_header)
      image_size load (destLen pl) = Some (m5, 13, i) ∧
    (i = 0 → header_accepted (destLen pl) p zl zh = true) ∧
    touches (inside areas) m m5 ∧
    (bytes_at m4 (bs_header pl) (cleared h) → bytes_at m5 (bs_header pl) (cleared h)).
Proof using Hroom.
  intros Hok Hprobs T4 areas.
  destruct Hroom as [Hd Ho Hap Hdl Hb (El & Ed & Ezl & Ezh) Himg Hia Hstr Hld].
  specialize (Hstr Hok) as [Hs Hsw]. specialize (Hld Hok) as [Hld Hlda].
  assert (Hia' : ∀ j, addr ≤ j < addr + 77 → ¬ inside bootstrap_areas j) by (intros j; by apply apart_inside).
  change sizeof_image_header with 64.
  assert (Hst : bytes_at m4 (addr + 64 + 0) (p :: dict ++ zl ++ zh)).
  { apply bytes_at_app in Himg as [_ Himg]. rewrite El in Himg. rewrite Z.add_0_r.
    eapply touches_bytes; [exact T4| |exact Himg]. intros j Hj. apply Hia'.
    cbn [length] in Hj. rewrite !length_app in Hj. lia. }
  apply Forall_app in Hb as [_ Hb].
  unfold bootstrap_areas, heap_area, header_area in Ho, Hap, Hia.
  rewrite !List.Forall_cons_iff in Ho. destruct Ho as (_ & Ho1 & Ho2 & Ho3 & Ho4 & _).
  rewrite !List.Forall_cons_iff in Hia. destruct Hia as (_ & Ha1 & Ha2 & Ha3 & Ha4 & _).
  inversion Hap as [|? ? _ Hap1]; subst. inversion Hap1 as [|? ? Hx1 Hap2]; subst.
  inversion Hap2 as [|? ? Hx2 Hap3]; subst. inversion Hap3 as [|? ? Hx3 _]; subst.
  each Hx1. each Hx2. each Hx3.
  unfold apart, header_area in *. cbn [fst snd] in *.
  assert (Hrun : inflate_run m4 0 (bs_properties pl) (bs_b pl) (addr + 64) (destLen pl) p dict zl zh).
  { split; try done; try lia.
    - by eapply touches_owned.
    - apply (owned_at _ (bs_b pl) 1); [by eapply touches_owned|lia].
    - split; [done|]. by eapply touches_owned. }
  assert (Haddr : 0 ≤ addr) by (apply Z.mod_pos_bound; lia).
  destruct (lzma_inflate_run heap_probs Hprobs m4 0 (bs_properties pl) (bs_b pl) (addr + 64) image_size load
    (destLen pl) p dict zl zh Hrun Hs) as (m5 & i & E & Hk & Hcase); [| |lia|done|].
  { replace (addr + 64 + 0 + 13) with (addr + 77) by lia. by eapply touches_owned. }
  { by eapply touches_owned. }
  exists m5, i. split; [exact E|].
  assert (Hout : ∀ j, ¬ (bs_properties pl ≤ j < bs_properties pl + 5) → j ≠ bs_b pl →
    ¬ (destLen pl ≤ j < destLen pl + 4) →
    (header_accepted (destLen pl) p zl zh = true → ¬ (load ≤ j < load + le32 zl)) → m5 !! j = m4 !! j).
  { intros j H1 H2 H3 H4. destruct Hcase as [(_ & Hacc & _ & Hsame)|(_ & Hsame)].
    - apply Hsame; try done. by apply H4.
    - by apply Hsame. }
  split; [by intros ->; destruct Hcase as [(_ & ? & _)|[? _]]|]. split.
  - apply (touches_trans _ m m4); [eapply touches_areas; [exact T4|apply incl_appl, incl_refl]|].
    split; [|done]. intros j Hj.
    assert (Hno : ∀ q n, In (q, n) areas → ¬ (q ≤ j < q + n)).
    { intros q n Hin Hq. apply Hj, List.Exists_exists. by exists (q, n). }
    apply Hout.
    + apply Hno, in_or_app. left. do 3 right. by left.
    + specialize (Hno (bs_b pl) 1 ltac:(apply in_or_app; left; do 4 right; by left)). lia.
    + apply Hno, in_or_app. left. do 2 right. by left.
    + intros Hacc. apply Hno, in_or_app. right. rewrite Hacc. by left.
  - apply (touches_bytes (λ j, ¬ (bs_header pl ≤ j < bs_header pl + 64))).
    + split; [|done]. intros j Hj. assert (Hin : bs_header pl ≤ j < bs_header pl + 64) by lia.
      apply Hout; [lia|lia|lia|intros _; lia].
    + rewrite length_cleared by done. lia.
Qed.

(** C9: the second stage is started only behind its two checks.  Whatever
    lies in the flash, the loader comes to an end; with a wrong magic number
    or header checksum it returns and has touched only its heap and its copy
    of the header.  Otherwise it unpacks the stream behind the header and
    either returns or jumps to the load address of the header with the size of
    the RAM, the latter only for a stream whose own header is accepted; only
    then the bytes from the load address on, up to the announced size, have
    changed.  Returning is not foreseen: the start code has jumped here. *)
Theorem bootstrap_starts_checked ram_size :
  ∃ m' r, bootstrap_board_init_r pl m ram_size uboot_end_data dest_addr = Some (m', r) ∧
    (header_ok h = false → r = Returned ∧ touches (inside [heap_area; header_area]) m m') ∧
    (header_ok h = true →
      (r = Returned ∨ r = Started load ram_size ∧ header_accepted (destLen pl) p zl zh = true) ∧
      touches (inside (bootstrap_areas ++
        if header_accepted (destLen pl) p zl zh then [(load, le32 zl)] else [])) m m').
Proof using Hroom.
  destruct header_copied as (m1 & m2 & heap & E1 & E2 & Hh & T2).
  destruct (br_lengths Hroom) as (El & _). unfold bootstrap_board_init_r.
  rewrite E1, some_bind. cbv zeta. rewrite E2, some_bind.
  rewrite (ld32_block m2 (bs_header pl) h ih_magic 0 eq_refl Hh) by lia. rewrite some_bind. unfold header_ok.
  destruct (Z.eqb_spec (hw h 0) IH_MAGIC) as [Hmagic|]; cbn [negb andb]; [|by do 2 eexists].
  rewrite (ld32_block m2 (bs_header pl) h ih_hcrc 4 eq_refl Hh) by lia. rewrite some_bind.
  destruct (header_cleared m2 Hh) as (m3 & E3 & Hc & T3). rewrite E3, some_bind.
  pose proof (touches_areas _ [heap_area; header_area] _ _ T3 ltac:(by intros x [<-|[]]; right; left)) as T3'.
  pose proof (touches_trans _ _ _ _ T2 T3') as T23.
  rewrite header_checksum, some_bind by done.
  destruct (Z.eqb_spec (crc32_spec 0 (message_bits (cleared h))) (hw h 4)) as [Hcrc|]; cbn [negb]; [|by do 2 eexists].
  assert (Hok : header_ok h = true).
  { unfold header_ok. by rewrite Hmagic, Hcrc, !Z.eqb_refl. }
  pose proof (length_cleared h El) as Ec.
  rewrite (ld32_block m3 (bs_header pl) (cleared h) ih_size 12 eq_refl Hc) by lia. rewrite some_bind.
  pose proof (br_owned Hroom) as Ho. pose proof (br_apart Hroom) as Hap.
  unfold bootstrap_areas in Ho, Hap. rewrite !List.Forall_cons_iff in Ho. destruct Ho as (_ & _ & Hod & _).
  inversion Hap as [|? ? _ Hap1]; subst. inversion Hap1 as [|? ? Hx1 _]; subst.
  apply Forall_cons_iff in Hx1 as [Hx1 _]. unfold apart, header_area in Hx1. cbn [fst snd] in Hx1, Hod.
  rewrite st32_bytes by (by eapply touches_owned). rewrite some_bind. set (m4 := write_bytes m3 _ _).
  assert (Hc4 : bytes_at m4 (bs_header pl) (cleared h)) by (apply bytes_at_write_disjoint; [rewrite Ec; cbn [length]; lia|done]).
  assert (T4 : touches (inside bootstrap_areas) m m4).
  { eapply touches_trans; [eapply touches_areas; [exact T23|by intros x [<-|[<-|[]]]; [left|right; left]]|].
    apply (touches_write bootstrap_areas (destLen pl) 4); [by right; right; left|lia|cbn [length]; lia]. }
  rewrite (ld32_block m4 (bs_header pl) (cleared h) ih_load 16 eq_refl Hc4) by lia. rewrite some_bind.
  rewrite !cleared_word by lia.
  destruct (second_stage_unpacks (probs_malloc m4 heap) m4 Hok (probs_malloc_size m4 heap) T4)
    as (m5 & i & -> & Hacc & T5 & Hkeep).
  rewrite some_bind. cbv beta iota. unfold LZMA_RESULT_OK.
  destruct (Z.eqb_spec i 0) as [->|]; cbn [negb].
  - rewrite (ld32_block m5 (bs_header pl) (cleared h) ih_load 16 eq_refl (Hkeep Hc4)) by lia. rewrite some_bind.
    rewrite cleared_word by lia. do 2 eexists. split; [reflexivity|]. split; [done|]. intros _.
    split; [right; split; [done|by apply Hacc]|done].
  - do 2 eexists. split; [reflexivity|]. split; [done|]. intros _. split; [by left|done].
Qed.
End second_half.

(** The second stage of a board with 32 MB: a header of 64 bytes and the small
    image of [Inflate], behind a first stage of 24 kB. *)
Definition demo_header : list Z :=
  [39; 5; 25; 86; 92; 61; 244; 108; 0; 0; 0; 0; 0; 0; 0; 20; 128; 1; 0; 0; 128; 1; 0; 0; 0; 0; 0; 0; 5; 5; 5; 3; 117; 45; 98; 111; 111; 116]
  ++ replicate 26 0.
Definition demo_second : bootstrap_places := BootstrapPlaces 0x81f00000 0x81f00100 0x81f00110 0x81f00120.
Definition demo_flash (n : nat) : mem :=
  write_bytes (write_bytes (write_bytes (mem_of (0x81fe0000 - TOTAL_MALLOC_LEN) (replicate n 0))
    0x81f00000 (replicate 300 0)) 0x80010000 (replicate 4 0)) 0x9f006000 (demo_header ++ small_image).

Lemma demo_flash_owned (n : nat) a k :
  (0x81fe0000 - TOTAL_MALLOC_LEN ≤ a ∧ a + k ≤ 0x81fe0000 - TOTAL_MALLOC_LEN + n ∨
   0x81f00000 ≤ a ∧ a + k ≤ 0x81f00000 + 300 ∨ 0x80010000 ≤ a ∧ a + k ≤ 0x80010000 + 4 ∨
   0x9f006000 ≤ a ∧ a + k ≤ 0x9f006000 + 84) → owned (demo_flash n) a k.
Proof.
  intros [H|[H|[H|H]]]; unfold demo_flash, mem_of.
  - do 3 apply owned_write. eapply owned_mono; [apply bytes_at_owned, write_bytes_in|lia|].
    rewrite length_replicate. lia.
  - do 2 apply owned_write. eapply owned_mono; [apply bytes_at_owned, write_bytes_in|lia|].
    rewrite length_replicate. lia.
  - apply owned_write. eapply owned_mono; [apply bytes_at_owned, write_bytes_in|lia|].
    rewrite length_replicate. lia.
  - eapply owned_mono; [apply bytes_at_owned, write_bytes_in|lia|].
    change (Z.of_nat (length (demo_header ++ small_image))) with 84. lia.
Qed.

Lemma demo_flash_room :
  bootstrap_room demo_second (demo_flash (Z.to_nat TOTAL_MALLOC_LEN)) 0x81fe6000 0x81fe0000 demo_header
    93 [0; 0; 128; 0] [4; 0; 0; 0] [0; 0; 0; 0].
Proof.
  assert (Hn : Z.of_nat (Z.to_nat TOTAL_MALLOC_LEN) = TOTAL_MALLOC_LEN) by by rewrite Z2Nat.id.
  set (n := Z.to_nat TOTAL_MALLOC_LEN) in *. clearbody n. change TOTAL_MALLOC_LEN with 196608 in *.
  split.
  - split; reflexivity.
  - unfold bootstrap_areas, heap_area, header_area. change TOTAL_MALLOC_LEN with 196608.
    repeat (apply Forall_cons_2; [apply demo_flash_owned; change TOTAL_MALLOC_LEN with 196608; cbn; lia|]).
    apply Forall_nil_2.
  - by apply pairs_apart.
  - vm_compute. discriminate.
  - apply (bool_decide_unpack _). vm_compute. exact I.
  - repeat split; reflexivity.
  - pose proof (write_bytes_in (write_bytes (write_bytes (mem_of (0x81fe0000 - TOTAL_MALLOC_LEN) (replicate n 0))
      0x81f00000 (replicate 300 0)) 0x80010000 (replicate 4 0)) 0x9f006000 (demo_header ++ small_image)) as Hb.
    exact (bytes_at_take _ _ _ 77 Hb).
  - by apply forallb_apart.
  - intros _. change (hw demo_header 12) with 20. split; [lia|]. apply demo_flash_owned.
    change (image_addr 0x81fe6000 0x81fe0000) with 0x9f006000. lia.
  - intros _. split; [|left; vm_compute; discriminate]. apply demo_flash_owned.
    change (hw demo_header 16) with 0x80010000. change (le32 [4; 0; 0; 0]) with 4. lia.
Qed.

Lemma bootstrap_starts_checked_witness :
  let m := demo_flash (Z.to_nat TOTAL_MALLOC_LEN) in
  header_ok demo_header = true ∧
  ∃ m' r, bootstrap_board_init_r demo_second m 0x2000000 0x81fe6000 0x81fe0000 = Some (m', r) ∧
    (header_ok demo_header = false → r = Returned ∧ touches (inside [heap_area 0x81fe0000; header_area demo_second]) m m') ∧
    (header_ok demo_header = true →
      (r = Returned ∨ r = Started 0x80010000 0x2000000 ∧
         header_accepted (destLen demo_second) 93 [4; 0; 0; 0] [0; 0; 0; 0] = true) ∧
      touches (inside (bootstrap_areas demo_second 0x81fe0000 ++
        if header_accepted (destLen demo_second) 93 [4; 0; 0; 0] [0; 0; 0; 0] then [(0x80010000, 4)] else [])) m m').
Proof.
  intros m. split; [reflexivity|].
  exact (bootstrap_starts_checked demo_second m 0x81fe6000 0x81fe0000 demo_header 93 [0; 0; 128; 0]
    [4; 0; 0; 0] [0; 0; 0; 0] demo_flash_room 0x2000000).
Defined.
